(* ===== verification/_CoqProject ===== *)
-Q . S2P
Prelude.v
StringH.v
Mktime.v
Kernel.v
Sched.v
Memory.v
MemRefs.v
MemSteps.v
Malloc.v
AllocInv.v
Alloc.v
Fork.v
Ctype.v
Console.v
Tty.v
Cooking.v
Blk.v
Hd.v
Floppy.v
LLRwBlk.v
Requests.v
Buffer.v
BufferCache.v
SuperBase.v
Bitmap.v
Inode.v
Super.v
Namei.v
Pipe.v
PageFault.v
FileIo.v
Open.v
Frame.v
Cached.v
ConsoleSafe.v
Descriptors.v
Mount.v
Exec.v
Exit.v
Traps.v
Setup.v
Signal.v
Sys.v
SystemCall.v
HdRead.v
HdWrite.v
UserLib.v
Vsprintf.v
Printk.v
Keyboard.v
RsIo.v
Init.v
Build.v
