(* ===== verification/Prelude.v ===== *)
(** * Linux 0.11: a verification library

    A model of the C code of the kernel under src/ (scheduler, memory
    management, drivers, buffer cache, file system, terminals, signals, system
    calls, and the library routines the kernel is linked with), of the way into
    it from user mode, of the init process, and of the program that builds the
    boot image, and theorems about them.  The kernel is one shared state changed
    in place by routines that call each other, sleep and stop in [panic]; the
    model keeps that shape.

    ** How C is written

    A routine is a computation of the state monad [M S A] of this file.  Run on
    a state it returns ([Ok]), stops the machine ([Panic]), ends the running
    task ([Dead], the calls of [do_exit] from inside mm), follows a pointer that
    designates no object ([Fault]) or uses up the fuel of a loop ([Fuel]).
    Integers are [Z]; where C would wrap, [u8] ... [s32] is written out.  A
    pointer into a static array is an index into a table, NULL is [None]; a
    task is its slot in [task[]]; [p ->> f], [st], [upd], [for_], [loop] are
    the C notations.  [wp] (it returns, with a postcondition) and [wlp] (it may
    also panic or wait for ever) are the program logic, and [wp_step] its
    symbolic execution.

    The state is the record [kernel] (Kernel.v): the global variables of the
    kernel in one record, with the structs of include/linux/*.h as records.
    User memory is read and written through fs ([k_user]); physical memory, the
    page tables and [mem_map] are the component [mm_state], on which mm's
    routines run, and which [mm] embeds in the kernel.  Port accesses are
    recorded in [k_io]; what a port answers is the parameter [Hardware].
    Sleeping is the kernel's own code: [sleep_on] puts the task on a wait queue
    and calls [schedule], whose [switch_to] applies the parameter
    [switched_out] ([Env]): the state when the task runs again is whatever the
    other tasks and the interrupts made it.  [World] is an [Env], a [Hardware]
    and a bound [patience] on the turns of waiting loops.

    ** Files

    - StringH.v: include/string.h as the string instructions it is made of,
      over bytes and the direction flag.
    - Mktime.v: kernel/mktime.c.  Ctype.v: lib/ctype.c.  Vsprintf.v:
      kernel/vsprintf.c.
    - Kernel.v: the data of the kernel.  Frame.v: what code that does not touch
      the file descriptors, or the buffer cache, leaves unchanged, routine by
      routine.
    - Sched.v: kernel/sched.c.  Fork.v: kernel/fork.c.  Exit.v: kernel/exit.c.
      Signal.v: kernel/signal.c.  Sys.v: kernel/sys.c.  Traps.v:
      kernel/traps.c.  Setup.v: [main] of init/main.c and the start of the
      disks.  Printk.v: kernel/printk.c and the reports made with it.
    - SystemCall.v: kernel/system_call.s, mm/page.s, include/linux/sys.h and
      math_emulate.c: the table of the system calls, the entry from user mode
      and the way back.  UserLib.v: include/unistd.h and the calls of lib/, the other
      side of [int 0x80].  Init.v: the user-mode part of init/main.c as
      interaction trees over those calls.  Build.v: tools/build.c.
    - Memory.v, MemRefs.v, MemSteps.v, PageFault.v: mm/memory.c (the routines,
      what they maintain, the states of memory from start-up on, demand
      loading).  Malloc.v, AllocInv.v, Alloc.v: lib/malloc.c (the routines, the
      buckets they keep in memory, what they promise).
    - Console.v: kernel/chr_drv/console.c on the video memory.  Tty.v:
      tty_io.c, tty_ioctl.c, serial.c and [con_write].  Cooking.v: the line
      discipline [copy_to_cooked] implements.  Keyboard.v: keyboard.S.
      RsIo.v: rs_io.s.
    - Blk.v: blk.h and ramdisk.c.  Hd.v: hd.c.  Floppy.v: floppy.c.
      LLRwBlk.v: ll_rw_blk.c.  Requests.v: the queues of the devices and the
      ram disk behind them.  HdRead.v, HdWrite.v: a block read from the hard
      disk and one written to it, from the request through the two interrupts.
    - Buffer.v: fs/buffer.c.  SuperBase.v, Super.v, Mount.v: fs/super.c.
      Bitmap.v: fs/bitmap.c.  Inode.v: fs/inode.c and truncate.c.
      Namei.v: fs/namei.c.  Pipe.v: fs/pipe.c.  FileIo.v: file_dev.c,
      block_dev.c, char_dev.c, read_write.c.  Open.v: open.c, fcntl.c, stat.c,
      ioctl.c.  Exec.v: fs/exec.c.
    - Frame.v, Descriptors.v (files and descriptors across sys_open, sys_close,
      dup, pipe and fork), ConsoleSafe.v (con_write), BufferCache.v
      (fs/buffer.c) and Cached.v ([getblk], [bread] and the file system over
      them) hold theorems about the routines of the files before them.

    Calls against the order of the files go through an interface: the buffer
    cache writes out inodes through the class [SyncInodes], which Inode.v
    implements.

    ** What the theorems show

    - Processes: [schedule] picks a runnable task with the largest counter and
      recharges only when every runnable counter is spent; the
      functions of timers are called at their deadlines and in their order when
      they set no timers themselves, and the deadlines [add_timer] gives are
      stated as it gives them (Sched.v).  [fork] finds a fresh pid
      and a free slot, descriptors keep base and limit (Fork.v); [fork], [open],
      [close], [dupfd] (the whole of [dup] and of
      [fcntl] F_DUPFD, the end of [dup2]) and [pipe] keep every file's count equal to the number of
      descriptors that refer to it, on every error path too
      (Descriptors.v, against the class [Others] of what other tasks may do).
      [kill] signals exactly the tasks it names (Exit.v); no call on
      identifiers gives a task an identity it could not take (Sys.v); after
      the whole of [main], gates of the drivers included, only four vectors of
      the idt are open to user mode (Setup.v; the gates are recorded as the
      arguments of [_set_gate], whose macro the source breaks off).
    - Memory: [mem_map] counts the references of the page tables, through
      mapping, sharing at [fork] and between tasks of one program, copy on
      write and release: in every state that [mem_init] and any sequence of
      calls can reach (MemSteps.v, by rule induction); pages are handed out
      cleared, a copy maps what the original does (Memory.v, MemRefs.v).
      [malloc] returns an object of the best size that meets no object in use,
      [free_s] takes back this object only and gives the page of an emptied
      bucket back, and through any sequence of calls the buckets in memory stay
      consistent (Alloc.v).
    - Terminals: the queues are bounded fifos (Tty.v), [copy_to_cooked] refines
      a line discipline on lists, on terminals that echo and on those that do
      not (Cooking.v); [con_write] writes no word outside the video memory
      whatever it is given (ConsoleSafe.v).  The keyboard interrupt puts the
      characters of a key through the line discipline, and [mode] is the
      modifier keys that are down (Keyboard.v); a serial line sends what was
      written to it and is then told to be quiet (RsIo.v).
    - Block devices: [add_request] is an elevator that loses no request and
      keeps the queue within two sweeps; the ram disk returns what was written
      to it (Requests.v); when the controller answers as a disk does, a block of
      the hard disk arrives in its buffer (HdRead.v) and a dirty buffer at its
      two sectors and nowhere else (HdWrite.v).
    - Buffer cache: the free list and the hash chains refine a list and a
      table of lists; [buffer_init] makes them, [find_buffer] finds the one buffer of a
      block, the search of [getblk] takes the oldest of the best, and the end
      of [getblk] moves it to its new place (BufferCache.v).  [getblk] as a
      whole, sleeping included, returns a buffer of the block asked for and
      never gives a block two buffers; [bread] returns it read, as
      long as the others leave it the buffers it holds ([left_alone] says so for
      each sleep); every operation of the file system keeps the cache well formed (Cached.v).
    - File system: bit operations and the search of the bitmaps (Bitmap.v),
      directory entries are found under their names (Namei.v), pipes are fifos (Pipe.v).
    - User mode: a library call reaches the routine of its name and comes back
      by the convention of errno (UserLib.v); a signal enters its handler with
      the frame the source pushes (SystemCall.v); task 0 and init keep to a
      protocol for ever, each child waited for before the next, whatever the
      kernel answers (Init.v, by coinduction).
    - The boot image is the one the inputs describe, or the build stops with
      the reason (Build.v).
    - Library: string.h against list functions (StringH.v), [mktime] against
      the calendar (Mktime.v), [number] read back and bounded, [vsprintf]
      ends, with the string or because the arguments do not match (Vsprintf.v).

    Frame.v and the rule [kept] are what the theorems about calls that sleep use:
    what a routine leaves alone stays as it was, up to what other tasks do.

    ** Fuel and bounds

    A loop over a table has as many turns as the table has entries, and every
    theorem about such a loop is about its result, so the fuel is enough.  Loops that
    follow a chain have the length of the chain's table (timers: 64 requests,
    [timer_fuel]); the scheduler's [while (1)] takes at most two turns when
    some runnable task has a positive priority ([select_next_spec]); pipes need
    one turn per byte at most; [vsprintf] one per format character; name scans
    one per byte of user memory.  Loops that wait for other tasks or for the
    hardware are cut at [patience]: what is proved of them holds for every
    value of it.  [sync_inodes] and the buffer cache call each other; the
    recursion is cut at [NR_INODE] nested calls, each of which holds the lock
    of another inode.

    ** Not modelled

    The assembly of boot/ but the table [setup_idt] leaves, and asm.s: real mode
    start-up and the stubs of the exceptions.  The word 0x1234 a reboot leaves
    for the BIOS.  The calls of [printk] in routines that go on working: no
    state depends on them.  The 387 registers.  [cli] and [sti]: an interrupt is seen where the task
    sleeps.  The TLB.  Declarations of headers no code here uses (relocation
    records of a.out.h, terminal speeds, struct utsname of other systems). *)

From Stdlib Require Import ZArith Lia Bool.
From stdpp Require Export strings base tactics option numbers list gmap.

#[global] Open Scope Z_scope.

(** ** Machine integers

    C integers are [Z] values; every store into a narrower object and every
    arithmetic operation that can overflow is followed by one of these
    reductions.  [uN] is the value of an unsigned N-bit object, [sN] the value
    of a two's-complement signed one. *)

Definition u8 (z : Z) : Z := z mod 2 ^ 8.
Definition u16 (z : Z) : Z := z mod 2 ^ 16.
Definition u32 (z : Z) : Z := z mod 2 ^ 32.
Definition s8 (z : Z) : Z := (z + 2 ^ 7) mod 2 ^ 8 - 2 ^ 7.
Definition s16 (z : Z) : Z := (z + 2 ^ 15) mod 2 ^ 16 - 2 ^ 15.
Definition s32 (z : Z) : Z := (z + 2 ^ 31) mod 2 ^ 32 - 2 ^ 31.

(** A C condition: everything but zero is true. *)
Definition truth (z : Z) : bool := negb (z =? 0).

(** [~x] on an unsigned 32-bit object. *)
Definition not32 (z : Z) : Z := u32 (Z.lnot z).

Lemma u8_small z : 0 <= z < 256 -> u8 z = z.
Proof. intros; unfold u8; apply Z.mod_small; lia. Qed.
(** A 16-bit value is its two bytes. *)
Lemma join16 v : 0 <= v < 2 ^ 16 -> u8 v + 2 ^ 8 * u8 (Z.shiftr v 8) = v.
Proof.
  intros. unfold u8. rewrite Z.shiftr_div_pow2 by lia.
  rewrite (Z.mod_small (v / 2 ^ 8)) by (split; [apply Z.div_pos; lia|apply Z.div_lt_upper_bound; lia]).
  pose proof (Z.div_mod v (2 ^ 8)). lia.
Qed.
Lemma u16_small z : 0 <= z < 65536 -> u16 z = z.
Proof. intros; unfold u16; apply Z.mod_small; lia. Qed.
Lemma u32_small z : 0 <= z < 2 ^ 32 -> u32 z = z.
Proof. intros; unfold u32; apply Z.mod_small; lia. Qed.
Lemma s32_small z : - 2 ^ 31 <= z < 2 ^ 31 -> s32 z = z.
Proof. intros; unfold s32; rewrite Z.mod_small; lia. Qed.
Lemma s32_range z : - 2 ^ 31 <= s32 z < 2 ^ 31.
Proof. unfold s32. pose proof (Z.mod_pos_bound (z + 2 ^ 31) (2 ^ 32)). lia. Qed.
Lemma s32_u32 z : s32 (u32 z) = s32 z.
Proof. unfold s32, u32. rewrite Zplus_mod_idemp_l. reflexivity. Qed.
Lemma u8_range z : 0 <= u8 z < 256.
Proof. unfold u8. pose proof (Z.mod_pos_bound z (2 ^ 8)). lia. Qed.
Lemma u16_range z : 0 <= u16 z < 65536.
Proof. unfold u16. pose proof (Z.mod_pos_bound z (2 ^ 16)). lia. Qed.
Lemma u32_range z : 0 <= u32 z < 2 ^ 32.
Proof. unfold u32. apply Z.mod_pos_bound. lia. Qed.
Lemma truth_true z : truth z = true <-> z <> 0.
Proof. unfold truth. rewrite negb_true_iff, Z.eqb_neq. reflexivity. Qed.
Lemma truth_false z : truth z = false <-> z = 0.
Proof. unfold truth. rewrite negb_false_iff, Z.eqb_eq. reflexivity. Qed.

(** Congruence modulo 2^32: wrap-arounds inside an expression can be dropped
    by setoid rewriting when only its 32-bit reduction matters. *)
Definition eqm32 (a b : Z) : Prop := a mod 2 ^ 32 = b mod 2 ^ 32.
#[export] Instance eqm32_equiv : Equivalence eqm32.
Proof. split; red; unfold eqm32; congruence. Qed.
#[export] Instance eqm32_add : Proper (eqm32 ==> eqm32 ==> eqm32) Z.add.
Proof. intros a a' Ha b b' Hb. unfold eqm32 in *. rewrite Zplus_mod, Ha, Hb, <- Zplus_mod. done. Qed.
#[export] Instance eqm32_sub : Proper (eqm32 ==> eqm32 ==> eqm32) Z.sub.
Proof. intros a a' Ha b b' Hb. unfold eqm32 in *. rewrite Zminus_mod, Ha, Hb, <- Zminus_mod. done. Qed.
#[export] Instance eqm32_mul : Proper (eqm32 ==> eqm32 ==> eqm32) Z.mul.
Proof. intros a a' Ha b b' Hb. unfold eqm32 in *. rewrite Zmult_mod, Ha, Hb, <- Zmult_mod. done. Qed.
#[export] Instance eqm32_s32 : Proper (eqm32 ==> eq) s32.
Proof. intros a b Hab. rewrite <- (s32_u32 a), <- (s32_u32 b). unfold u32. by rewrite Hab. Qed.
#[export] Instance eqm32_u32 : Proper (eqm32 ==> eq) u32.
Proof. intros a b Hab. exact Hab. Qed.
Lemma eqm32_u32_id z : eqm32 (u32 z) z.
Proof. unfold eqm32, u32. apply Zmod_mod. Qed.
Lemma eqm32_s32_id z : eqm32 (s32 z) z.
Proof.
  unfold eqm32, s32. rewrite Zminus_mod_idemp_l. f_equal. lia.
Qed.

Create HintDb kernel discriminated.
Create Rewrite HintDb kbool.
#[export] Hint Resolve u8_range u16_range u32_range s32_range : kernel.
#[export] Hint Rewrite truth_true truth_false Z.eqb_eq Z.eqb_neq Z.ltb_lt Z.ltb_ge
  Z.leb_le Z.leb_gt andb_true_iff andb_false_iff orb_true_iff orb_false_iff
  negb_true_iff negb_false_iff : kbool.

(** Turn boolean guards of the code in the hypotheses into propositions. *)
Ltac kbool := autorewrite with kbool in *.

(** ** Outcomes and the state monad

    A kernel routine run on a state either returns ([Ok]), stops the machine
    in [panic] ([Panic]), kills the running task so that control never comes
    back ([Dead]), follows a pointer that designates no object of the model
    ([Fault]), or exhausts the fuel given to its loops ([Fuel]). *)

Inductive outcome (S A : Type) : Type :=
| Ok (a : A) (s : S)
| Panic (msg : string) (s : S)
| Dead (code : Z) (s : S)
| Fault (s : S)
| Fuel.
Arguments Ok {S A} a s.
Arguments Panic {S A} msg s.
Arguments Dead {S A} code s.
Arguments Fault {S A} s.
Arguments Fuel {S A}.

Definition M (S A : Type) : Type := S -> outcome S A.

#[export] Instance M_ret S : MRet (M S) := fun A a s => Ok a s.
#[export] Instance M_bind S : MBind (M S) := fun A B k m s =>
  match m s with
  | Ok a s' => k a s'
  | Panic msg s' => Panic msg s'
  | Dead c s' => Dead c s'
  | Fault s' => Fault s'
  | Fuel => Fuel
  end.

Definition panic {S A} (msg : string) : M S A := fun s => Panic msg s.
Definition dead {S A} (code : Z) : M S A := fun s => Dead code s.
Definition fault {S A} : M S A := fun s => Fault s.
Definition out_of_fuel {S A} : M S A := fun _ => Fuel.
Definition gets {S A} (f : S -> A) : M S A := fun s => Ok (f s) s.
Definition modify {S} (f : S -> S) : M S unit := fun s => Ok tt (f s).
Definition when {S} (b : bool) (m : M S unit) : M S unit :=
  if b then m else mret tt.
(** Reading an optional pointer that must be there. *)
Definition deref {S A} (o : option A) : M S A :=
  match o with Some a => mret a | None => fault end.

(** [for (i in l) body]. *)
Fixpoint for_ {S I} (l : list I) (body : I -> M S unit) : M S unit :=
  match l with
  | [] => mret tt
  | i :: l' => body i ;; for_ l' body
  end.

(** [for (i in l) body] where the body may leave the loop with a value. *)
Fixpoint for_break {S I R} (l : list I) (body : I -> M S (option R)) : M S (option R) :=
  match l with
  | [] => mret None
  | i :: l' =>
      r ← body i;
      match r with Some x => mret (Some x) | None => for_break l' body end
  end.

(** A loop with at most [fuel] turns; the body either continues with new
    loop variables ([inl]) or leaves the loop with a result ([inr]). *)
Fixpoint loop {S A R} (fuel : nat) (body : A -> M S (A + R)) (a : A) : M S R :=
  match fuel with
  | O => out_of_fuel
  | S fuel' =>
      r ← body a;
      match r with inl a' => loop fuel' body a' | inr x => mret x end
  end.

(** [while (cond) body]. *)
Definition while {S} (fuel : nat) (cond : M S bool) (body : M S unit) : M S unit :=
  loop fuel (fun _ : unit =>
    c ← cond;
    if (c : bool) then body ;; mret (inl tt) else mret (inr tt)) tt.

(** Running a routine of one component on a larger state. *)
Definition zoom {T S A} (get : S -> T) (put : T -> S -> S) (m : M T A) : M S A :=
  fun s => match m (get s) with
           | Ok a t => Ok a (put t s)
           | Panic msg t => Panic msg (put t s)
           | Dead c t => Dead c (put t s)
           | Fault t => Fault (put t s)
           | Fuel => Fuel
           end.

(** Running a routine that returns, then the rest. *)
Lemma bind_Ok {S A B} (m : M S A) (k : A -> M S B) s a s' : m s = Ok a s' -> (m ≫= k) s = k a s'.
Proof. intros E. unfold mbind, M_bind. by rewrite E. Qed.

(** ** Weakest preconditions

    [wpg P F m Q s]: run from [s], [m] never faults and never kills the task;
    it returns with [Q], or panics where [P] allows it, or runs out of fuel
    where [F] allows it.  [wp] is total correctness; [wlp] allows panics and
    fuel exhaustion (waiting for another task may take for ever). *)

Definition wpg {S A} (P : string -> S -> Prop) (F : Prop) (m : M S A)
    (Q : A -> S -> Prop) (s : S) : Prop :=
  match m s with
  | Ok a s' => Q a s'
  | Panic msg s' => P msg s'
  | Dead _ _ => False
  | Fault _ => False
  | Fuel => F
  end.

Definition wp {S A} (m : M S A) (Q : A -> S -> Prop) (s : S) : Prop :=
  wpg (fun _ _ => False) False m Q s.
Definition wlp {S A} (m : M S A) (Q : A -> S -> Prop) (s : S) : Prop :=
  wpg (fun _ _ => True) True m Q s.

Section wpg_rules.
Context {S : Type} (P : string -> S -> Prop) (F : Prop).

Lemma wpg_ret {A} (a : A) Q s : Q a s -> wpg P F (mret a) Q s.
Proof. exact id. Qed.

Lemma wpg_bind {A B} (m : M S A) (k : A -> M S B) Q s :
    wpg P F m (fun a s' => wpg P F (k a) Q s') s -> wpg P F (m ≫= k) Q s.
Proof. unfold wpg, mbind, M_bind. destruct (m s); auto. Qed.

Lemma wpg_Ok {A} (m : M S A) Q s a s' : m s = Ok a s' -> Q a s' -> wpg P F m Q s.
Proof. intros E HQ. unfold wpg. by rewrite E. Qed.
Lemma wpg_bind_Ok {A B} (m : M S A) (k : A -> M S B) Q s a s' :
    m s = Ok a s' -> wpg P F (k a) Q s' -> wpg P F (m ≫= k) Q s.
Proof. intros E HQ. apply wpg_bind. unfold wpg. by rewrite E. Qed.

Lemma wpg_bind_inv {A B} (m : M S A) (k : A -> M S B) Q s :
    wpg P F (m ≫= k) Q s -> wpg P F m (fun a s' => wpg P F (k a) Q s') s.
Proof. unfold wpg, mbind, M_bind. destruct (m s); auto. Qed.

Lemma wpg_mono {A} (m : M S A) (Q Q' : A -> S -> Prop) s :
    wpg P F m Q s -> (forall a s', Q a s' -> Q' a s') -> wpg P F m Q' s.
Proof. unfold wpg. destruct (m s); auto. Qed.

Lemma wpg_gets {A} (f : S -> A) (Q : A -> S -> Prop) s :
    Q (f s) s -> wpg P F (gets f) Q s.
Proof. exact id. Qed.

Lemma wpg_modify f (Q : unit -> S -> Prop) s : Q tt (f s) -> wpg P F (modify f) Q s.
Proof. exact id. Qed.

Lemma wpg_when b (m : M S unit) (Q : unit -> S -> Prop) s :
    (b = true -> wpg P F m Q s) -> (b = false -> Q tt s) -> wpg P F (when b m) Q s.
Proof. destruct b; cbn; auto. Qed.

Lemma wpg_if {A} (b : bool) (m1 m2 : M S A) Q s :
    (b = true -> wpg P F m1 Q s) -> (b = false -> wpg P F m2 Q s) ->
    wpg P F (if b then m1 else m2) Q s.
Proof. destruct b; auto. Qed.

Lemma wpg_panic {A} msg (Q : A -> S -> Prop) s : P msg s -> wpg P F (panic msg) Q s.
Proof. exact id. Qed.

(** The invariant rule of a [for] loop. *)
Lemma wpg_for {I} (Inv : list I -> S -> Prop) (l : list I) body Q s :
    Inv l s ->
    (forall i l' s', Inv (i :: l') s' -> wpg P F (body i) (fun _ => Inv l') s') ->
    (forall s', Inv [] s' -> Q tt s') ->
    wpg P F (for_ l body) Q s.
Proof.
    intros Hs Hb HQ. revert s Hs.
    induction l as [|i l IH]; intros s Hs; cbn [for_].
    - apply wpg_ret; auto.
    - apply wpg_bind. eapply wpg_mono; [apply Hb, Hs|]. intros [] s' Hs'. by apply IH.
Qed.

Lemma wpg_for_break {I R} (Inv : list I -> S -> Prop) (l : list I)
      (body : I -> M S (option R)) Q s :
    Inv l s ->
    (forall i l' s', Inv (i :: l') s' ->
       wpg P F (body i) (fun r s'' =>
         match r with Some x => Q (Some x) s'' | None => Inv l' s'' end) s') ->
    (forall s', Inv [] s' -> Q None s') ->
    wpg P F (for_break l body) Q s.
Proof.
    intros Hs Hb HQ. revert s Hs.
    induction l as [|i l IH]; intros s Hs; cbn [for_break].
    - apply wpg_ret; auto.
    - apply wpg_bind. eapply wpg_mono; [apply Hb, Hs|].
      intros [x|] s' Hs'; [exact Hs' | by apply IH].
Qed.

(** Partial correctness of [loop]: an invariant is enough. *)
Lemma wpg_loop {A R} (HF : F) (Inv : A -> S -> Prop) fuel (body : A -> M S (A + R)) a Q s :
    Inv a s ->
    (forall a' s', Inv a' s' ->
       wpg P F (body a') (fun r s'' =>
         match r with inl a'' => Inv a'' s'' | inr x => Q x s'' end) s') ->
    wpg P F (loop fuel body a) Q s.
Proof.
    intros Hs Hb. revert a s Hs.
    induction fuel as [|n IH]; intros a s Hs; cbn [loop]; [exact HF|].
    apply wpg_bind. eapply wpg_mono; [apply Hb, Hs|].
    intros [a'|x] s' Hs'; [by apply IH | exact Hs'].
Qed.

(** Total correctness of [loop]: a measure below the fuel decreases. *)
Lemma wpg_loop_total {A R} (mu : A -> S -> nat) (Inv : A -> S -> Prop) fuel
      (body : A -> M S (A + R)) a Q s :
    Inv a s -> (mu a s < fuel)%nat ->
    (forall a' s', Inv a' s' ->
       wpg P F (body a') (fun r s'' =>
         match r with
         | inl a'' => Inv a'' s'' /\ (mu a'' s'' < mu a' s')%nat
         | inr x => Q x s''
         end) s') ->
    wpg P F (loop fuel body a) Q s.
Proof.
    intros Hs Hmu Hb. revert a s Hs Hmu.
    induction fuel as [|n IH]; intros a s Hs Hmu; cbn [loop]; [lia|].
    apply wpg_bind. eapply wpg_mono; [apply Hb, Hs|].
    intros [a'|x] s'; [|intros ?; by apply wpg_ret].
    intros [Hi Hlt]. apply IH; [exact Hi|lia].
Qed.
End wpg_rules.

Lemma wp_wlp {S A} (m : M S A) Q s : wp m Q s -> wlp m Q s.
Proof. unfold wp, wlp, wpg. destruct (m s); tauto. Qed.

Lemma wp_mono {S A} (m : M S A) (Q Q' : A -> S -> Prop) s :
  wp m Q s -> (forall a s', Q a s' -> Q' a s') -> wp m Q' s.
Proof. unfold wp. apply wpg_mono. Qed.

Lemma wp_Ok {S A} (m : M S A) Q s : wp m Q s <-> exists a s', m s = Ok a s' /\ Q a s'.
Proof.
  unfold wp, wpg. destruct (m s); split; try contradiction; try (by intros (?&?&?&?)).
  - eauto.
  - intros (?&?&[= -> ->]&?). done.
Qed.

(** ** Records with field update

    [Setter f] gives the update of the field [f] of a record; the instances
    are built from the record's eta expansion by [build_setter]. *)

Class Setter {R T : Type} (f : R -> T) := set_field : (T -> T) -> R -> R.
Arguments set_field {R T} f {_} g r.

Ltac build_setter eta f :=
  let g := fresh "g" in
  let r := fresh "r" in
  intros g r;
  let e := eval cbv beta delta [eta] in (eta r) in
  match e with
  | context C [f r] => let t := context C [g (f r)] in exact t
  end.

Lemma alter_at {A} (f : A -> A) (l : list A) i x : l !! i = Some x -> alter f i l = <[i := f x]> l.
Proof.
  revert i. induction l as [|y l IH]; intros [|i] E; try done; cbn in *; [by injection E as ->|].
  f_equal. by apply IH.
Qed.

(** ** Tables of C objects

    [Table S R]: the state holds an array of [R] objects; a pointer into the
    array is an index.  [p ->> f] reads a field through a pointer, faulting
    outside the array; [st p f v] is [p->f = v]; [upd p f g] is the
    read-modify-write forms ([p->f++], [p->f |= v], ...). *)

Class Table (S R : Type) := {
  tab : S -> list R;
  set_tab : (list R -> list R) -> S -> S;
  tab_set_tab : forall g s, tab (set_tab g s) = g (tab s);
}.

Definition ld {S R} `{Table S R} (p : nat) : M S R := fun s =>
  match tab s !! p with Some r => Ok r s | None => Fault s end.
Definition getf {S R T} `{Table S R} (p : nat) (f : R -> T) : M S T := fun s =>
  match tab s !! p with Some r => Ok (f r) s | None => Fault s end.
Definition updr {S R} `{Table S R} (p : nat) (g : R -> R) : M S unit := fun s =>
  match tab s !! p with
  | Some r => Ok tt (set_tab (fun l => <[p := g r]> l) s)
  | None => Fault s
  end.
Definition upd {S R T} `{Table S R} (p : nat) (f : R -> T) `{!Setter f} (g : T -> T) : M S unit :=
  updr p (set_field f g).
Definition st {S R T} `{Table S R} (p : nat) (f : R -> T) `{!Setter f} (v : T) : M S unit :=
  updr p (set_field f (fun _ => v)).

Notation "p ->> f" := (getf p f) (at level 8, f at level 7, format "p ->> f") : stdpp_scope.

Section table_rules.
Context {S R : Type} `{Table S R} (P : string -> S -> Prop) (F : Prop).

Lemma wpg_getf {T} p (f : R -> T) r (Q : T -> S -> Prop) s :
    tab s !! p = Some r -> Q (f r) s -> wpg P F (getf p f) Q s.
Proof. intros E HQ. unfold wpg, getf. by rewrite E. Qed.

Lemma wpg_updr p (g : R -> R) r (Q : unit -> S -> Prop) s :
    tab s !! p = Some r -> Q tt (set_tab (fun l => <[p := g r]> l) s) ->
    wpg P F (updr p g) Q s.
Proof. intros E HQ. unfold wpg, updr. by rewrite E. Qed.
End table_rules.

Lemma loop_S {S A R} n (body : A -> M S (A + R)) a :
  loop (Datatypes.S n) body a =
  (r ← body a; match r with inl a' => loop n body a' | inr x => mret x end).
Proof. reflexivity. Qed.
#[global] Arguments loop : simpl never.

(** Find the record a pointer designates through the updates made so far. *)
Ltac tab_lookup :=
  cbn;
  repeat first
    [ rewrite list_lookup_insert_ne by (done || lia)
    | rewrite list_lookup_insert_eq
        by (rewrite ?length_insert; eapply lookup_lt_Some; eassumption) ];
  first [ eassumption | reflexivity ].

(** Use what is known of a condition. *)
Ltac known_bool b :=
  match b with
  | negb true => change (negb true) with false
  | negb false => change (negb false) with true
  | negb ?c => known_bool c
  | truth 0 => change (truth 0) with false
  | _ => match goal with
         | H : b = true |- _ => rewrite H
         | H : b = false |- _ => rewrite H
         end
  end.

(** One step of symbolic execution; conditions become hypotheses. *)
Ltac wp_step :=
  lazymatch goal with
  | |- wp _ _ _ => unfold wp
  | |- wlp _ _ _ => unfold wlp
  | |- wpg _ _ (mbind _ _) _ _ => apply wpg_bind
  | |- wpg _ _ (mret _) _ _ => apply wpg_ret
  | |- wpg _ _ (gets _) _ _ => apply wpg_gets
  | |- wpg _ _ (modify _) _ _ => apply wpg_modify
  | |- wpg ?P ?F (when true ?c) ?Q ?s => change (wpg P F c Q s)
  | |- wpg ?P ?F (when false _) ?Q ?s => change (Q tt s)
  | |- wpg _ _ (when ?b _) _ _ =>
      first [ known_bool b | apply wpg_when; intros ]
  | |- wpg _ _ (getf _ _) _ _ => eapply wpg_getf; [solve [tab_lookup]|]
  | |- wpg _ _ (st _ _ _) _ _ => eapply wpg_updr; [solve [tab_lookup]|]
  | |- wpg _ _ (upd _ _ _) _ _ => eapply wpg_updr; [solve [tab_lookup]|]
  | |- wpg ?P ?F (if true then ?c else _) ?Q ?s => change (wpg P F c Q s)
  | |- wpg ?P ?F (if false then _ else ?c) ?Q ?s => change (wpg P F c Q s)
  | |- wpg _ _ (if ?b then _ else _) _ _ =>
      lazymatch type of b with
      | bool => first [ known_bool b | apply wpg_if; intros ]
      | _ => destruct b
      end
  end; cbv beta.
Ltac wp_steps := repeat wp_step.
