(* ===== verification/StringH.v ===== *)
(** * include/string.h: the string functions

    The functions are inline assembly: their loops are the i386 string
    instructions.  The model keeps what those instructions read and write: the
    bytes of memory and the direction flag; the registers are the variables of
    the loops.  Loops that stop at a byte found in memory take fuel; the
    theorems say how much is enough. *)

From S2P Require Import Prelude.

Record str_state := StrState {
  str_mem : gmap Z Z;
  str_df : bool }.
Definition eta_str_state (r : str_state) : str_state := StrState (str_mem r) (str_df r).
#[export] Instance set_str_mem : Setter str_mem := ltac:(build_setter eta_str_state str_mem).
#[export] Instance set_str_df : Setter str_df := ltac:(build_setter eta_str_state str_df).

(** ** The instructions *)

Definition mem_byte (m : gmap Z Z) (a : Z) : Z := default 0 (m !! u32 a).
Definition peek (a : Z) : M str_state Z := gets (fun s => mem_byte (str_mem s) a).
Definition poke (a v : Z) : M str_state unit := modify (set_field str_mem (fun m => <[u32 a := u8 v]> m)).
Definition cld : M str_state unit := modify (set_field str_df (fun _ => false)).
Definition std : M str_state unit := modify (set_field str_df (fun _ => true)).
(** An index register after a string instruction. *)
Definition next_index (r : Z) : M str_state Z := gets (fun s => u32 (if str_df s then r - 1 else r + 1)).

Definition lodsb (esi : Z) : M str_state (Z * Z) :=
  al ← peek esi; esi' ← next_index esi; mret (al, esi').
Definition stosb (al edi : Z) : M str_state Z := poke edi al ;; next_index edi.
Definition movsb (esi edi : Z) : M str_state (Z * Z) :=
  '(al, esi') ← lodsb esi; edi' ← stosb al edi; mret (esi', edi').

(** What a byte comparison leaves in the flags: equal, and less as signed
    bytes ([jl]). *)
Record flags := Flags { zf : bool; lf : bool }.
Definition cmpb (a b : Z) : flags := Flags (a =? b) (s8 a <? s8 b).
(** [testb %al,%al], [decl r]: only the zero flag is used after them. *)
Definition testb (al : Z) : flags := Flags (al =? 0) (s8 al <? 0).
Definition scasb (al edi : Z) : M str_state (Z * flags) :=
  b ← peek edi; edi' ← next_index edi; mret (edi', cmpb al b).

Fixpoint rep_movsb (ecx : nat) (esi edi : Z) : M str_state unit :=
  match ecx with
  | O => mret tt
  | S ecx' => '(esi', edi') ← movsb esi edi; rep_movsb ecx' esi' edi'
  end.
Fixpoint rep_stosb (ecx : nat) (al edi : Z) : M str_state unit :=
  match ecx with
  | O => mret tt
  | S ecx' => edi' ← stosb al edi; rep_stosb ecx' al edi'
  end.
(** [repne scasb]: with a count of zero nothing happens, flags included. *)
Definition repne_scasb (fuel : nat) (al edi ecx : Z) (f : flags) : M str_state (Z * Z * flags) :=
  loop fuel (fun '(edi, ecx, f) =>
    if ecx =? 0 then mret (inr (edi, ecx, f))
    else
      '(edi', f') ← scasb al edi;
      let ecx' := u32 (ecx - 1) in
      if zf f' then mret (inr (edi', ecx', f')) else mret (inl (edi', ecx', f'))) (edi, ecx, f).
(** [repe cmpsb]: compares [( %esi)] with [( %edi)]. *)
Fixpoint repe_cmpsb (ecx : nat) (esi edi : Z) (f : flags) : M str_state (Z * flags) :=
  match ecx with
  | O => mret (esi, f)
  | S ecx' =>
      '(b, esi') ← lodsb esi; '(edi', f') ← scasb b edi;
      if zf f' then repe_cmpsb ecx' esi' edi' f' else mret (esi', f')
  end.

(** [1: lodsb; stosb; testb %al,%al; jne 1b] *)
Definition copy_loop (fuel : nat) (esi edi : Z) : M str_state Z :=
  loop fuel (fun '(esi, edi) =>
    '(al, esi') ← lodsb esi;
    edi' ← stosb al edi;
    if al =? 0 then mret (inr edi') else mret (inl (esi', edi'))) (esi, edi).
(** [1: decl %ecx; js 2f; lodsb; stosb; testb %al,%al; jne 1b]: the loop leaves
    with the count and destination and whether it met the end of the string. *)
Definition copy_n_loop (fuel : nat) (esi edi ecx : Z) : M str_state (Z * Z * bool) :=
  loop fuel (fun '(esi, edi, ecx) =>
    let ecx' := s32 (ecx - 1) in
    if ecx' <? 0 then mret (inr (edi, ecx', false))
    else
      '(al, esi') ← lodsb esi;
      edi' ← stosb al edi;
      if al =? 0 then mret (inr (edi', ecx', true)) else mret (inl (esi', edi', ecx'))) (esi, edi, ecx).
(** [repne scasb] from [s] for the zero byte, with the largest count. *)
Definition scan_end (fuel : nat) (s : Z) : M str_state (Z * Z) :=
  '(edi, ecx, _) ← repne_scasb fuel 0 s 0xffffffff (Flags false false);
  mret (edi, ecx).
(** [notl %ecx; decl %ecx] after it: the length of the string, as a counter. *)
Definition scan_length (fuel : nat) (s : Z) : M str_state Z :=
  '(_, ecx) ← scan_end fuel s; mret (u32 (not32 ecx - 1)).

(** ** The functions *)

Definition strcpy (fuel : nat) (dest src : Z) : M str_state Z :=
  cld ;; copy_loop fuel src dest ;; mret dest.

Definition strncpy (fuel : nat) (dest src count : Z) : M str_state Z :=
  cld ;;
  '(edi, ecx, ended) ← copy_n_loop fuel src dest count;
  (if (ended : bool) then rep_stosb (Z.to_nat ecx) 0 edi else mret tt) ;;
  mret dest.

Definition strcat (fuel : nat) (dest src : Z) : M str_state Z :=
  cld ;;
  '(edi, _) ← scan_end fuel dest;
  copy_loop fuel src (u32 (edi - 1)) ;;
  mret dest.

Definition strncat (fuel : nat) (dest src count : Z) : M str_state Z :=
  cld ;;
  '(edi, _) ← scan_end fuel dest;
  '(edi, _, _) ← copy_n_loop fuel src (u32 (edi - 1)) count;
  stosb 0 edi ;;
  mret dest.

Definition strcmp (fuel : nat) (cs ct : Z) : M str_state Z :=
  cld ;;
  loop fuel (fun '(esi, edi) =>
    '(al, esi') ← lodsb esi;
    '(edi', f) ← scasb al edi;
    if negb (zf f) then mret (inr (if lf f then 1 else -1))
    else if al =? 0 then mret (inr 0) else mret (inl (esi', edi'))) (ct, cs).

Definition strncmp (fuel : nat) (cs ct count : Z) : M str_state Z :=
  cld ;;
  loop fuel (fun '(esi, edi, ecx) =>
    let ecx' := s32 (ecx - 1) in
    if ecx' <? 0 then mret (inr 0)
    else
      '(al, esi') ← lodsb esi;
      '(edi', f) ← scasb al edi;
      if negb (zf f) then mret (inr (if lf f then 1 else -1))
      else if al =? 0 then mret (inr 0) else mret (inl (esi', edi', ecx'))) (ct, cs, count).

Definition strchr (fuel : nat) (s c : Z) : M str_state Z :=
  cld ;;
  esi ← loop fuel (fun esi =>
    '(al, esi') ← lodsb esi;
    if al =? u8 c then mret (inr esi')
    else if al =? 0 then mret (inr 1) else mret (inl esi')) s;
  mret (u32 (esi - 1)).

Definition strrchr (fuel : nat) (s c : Z) : M str_state Z :=
  cld ;;
  loop fuel (fun '(res, esi) =>
    '(al, esi') ← lodsb esi;
    let res' := if al =? u8 c then u32 (esi' - 1) else res in
    if al =? 0 then mret (inr res') else mret (inl (res', esi'))) (0, s).

(** [movl ct,%edi; movl %edx,%ecx; repne; scasb]: is [al] one of the [edx]
    bytes at [ct]?  The flags are those of [testb %al,%al] when there are none. *)
Definition among (fuel : nat) (ct edx al : Z) : M str_state bool :=
  '(_, _, f) ← repne_scasb fuel al ct edx (testb al);
  mret (zf f).
(** [1: lodsb; testb %al,%al; je 2f; (is %al among ct?) j.. 1b; 2:], going on
    while the answer is [on]; [%esi] and whether the string ended. *)
Definition span_loop (fuel : nat) (on : bool) (ct edx esi : Z) : M str_state (Z * bool) :=
  loop fuel (fun esi =>
    '(al, esi') ← lodsb esi;
    if al =? 0 then mret (inr (esi', true))
    else
      b ← among fuel ct edx al;
      if Bool.eqb b on then mret (inl esi') else mret (inr (esi', false))) esi.

Definition strspn (fuel : nat) (cs ct : Z) : M str_state Z :=
  cld ;;
  edx ← scan_length fuel ct;
  '(esi, _) ← span_loop fuel true ct edx cs;
  mret (s32 (u32 (esi - 1) - cs)).
Definition strcspn (fuel : nat) (cs ct : Z) : M str_state Z :=
  cld ;;
  edx ← scan_length fuel ct;
  '(esi, _) ← span_loop fuel false ct edx cs;
  mret (s32 (u32 (esi - 1) - cs)).
Definition strpbrk (fuel : nat) (cs ct : Z) : M str_state Z :=
  cld ;;
  edx ← scan_length fuel ct;
  '(esi, ended) ← span_loop fuel false ct edx cs;
  mret (if (ended : bool) then 0 else u32 (esi - 1)).

Definition strstr (fuel : nat) (cs ct : Z) : M str_state Z :=
  cld ;;
  edx ← scan_length fuel ct;
  loop fuel (fun esi =>
    '(esi', f) ← repe_cmpsb (Z.to_nat edx) esi ct (Flags (edx =? 0) false);
    if zf f then mret (inr esi)
    else
      b ← peek (esi' - 1);
      if b =? 0 then mret (inr 0) else mret (inl (u32 (esi + 1)))) cs.

Definition strlen (fuel : nat) (s : Z) : M str_state Z :=
  cld ;; n ← scan_length fuel s; mret (s32 n).

(** [strtok]: the static variable [___strtok] is passed and returned; the
    labels are those of the assembly. *)
Definition strtok_7 (res esi : Z) : Z * Z := if res =? 0 then (res, res) else (res, esi).
Definition strtok_6 (res esi : Z) : M str_state (Z * Z) :=
  b ← peek res;
  mret (strtok_7 (if b =? 0 then 0 else res) esi).
Definition strtok (fuel : nat) (___strtok s ct : Z) : M str_state (Z * Z) :=
  if (s =? 0) && (___strtok =? 0) then mret (0, 0)
  else
    let s := if s =? 0 then ___strtok else s in
    cld ;;
    edx ← scan_length fuel ct;
    if edx =? 0 then mret (strtok_7 0 s)
    else
      '(esi, ended) ← span_loop fuel true ct edx s;
      if (ended : bool) then mret (strtok_7 0 esi)
      else
        let esi := u32 (esi - 1) in
        b ← peek esi;
        if b =? 0 then mret (strtok_7 0 esi)
        else
          let res := esi in
          '(esi, ended) ← span_loop fuel false ct edx esi;
          if (ended : bool) then strtok_6 res 0
          else
            let esi := u32 (esi - 1) in
            b ← peek esi;
            if b =? 0 then strtok_6 res 0
            else poke esi 0 ;; strtok_6 res (u32 (esi + 1)).

Definition memcpy (dest src n : Z) : M str_state Z :=
  cld ;; rep_movsb (Z.to_nat (u32 n)) src dest ;; mret dest.

Definition memmove (dest src n : Z) : M str_state Z :=
  (if dest <? src then cld ;; rep_movsb (Z.to_nat (u32 n)) src dest
   else std ;; rep_movsb (Z.to_nat (u32 n)) (u32 (src + n - 1)) (u32 (dest + n - 1))) ;;
  mret dest.

(** [entry] are the flags when the function is entered: with a count of zero
    [repe cmpsb] leaves them as they are. *)
Definition memcmp (entry : flags) (cs ct count : Z) : M str_state Z :=
  cld ;;
  '(_, f) ← repe_cmpsb (Z.to_nat (u32 count)) ct cs entry;
  mret (if zf f then 0 else if lf f then 1 else -1).

Definition memchr (fuel : nat) (cs c count : Z) : M str_state Z :=
  if count =? 0 then mret 0
  else
    cld ;;
    '(edi, _, f) ← repne_scasb fuel (u8 c) cs (u32 count) (Flags false false);
    mret (if zf f then u32 (edi - 1) else 0).

Definition memset (s c count : Z) : M str_state Z :=
  cld ;; rep_stosb (Z.to_nat (u32 count)) (u8 c) s ;; mret s.

(** * Theorems *)

(** ** Strings in memory *)

Definition is_byte (b : Z) : Prop := 0 <= b < 256.
(** The bytes [l] lie at [a], all below 2^32. *)
Record bytes_at (m : gmap Z Z) (a : Z) (l : list Z) : Prop := {
  bytes_low : 0 <= a;
  bytes_high : a + Z.of_nat (length l) <= 2 ^ 32;
  bytes_read : forall i b, l !! i = Some b -> mem_byte m (a + Z.of_nat i) = b }.
(** The C string [l] lies at [a]. *)
Record str_at (m : gmap Z Z) (a : Z) (l : list Z) : Prop := {
  str_nonnull : 0 < a;
  str_bytes : bytes_at m a (l ++ [0]);
  str_chars : Forall (fun b => 0 < b < 256) l }.

Fixpoint write_bytes (a : Z) (l : list Z) (m : gmap Z Z) : gmap Z Z :=
  match l with
  | [] => m
  | b :: l' => write_bytes (u32 (a + 1)) l' (<[u32 a := u8 b]> m)
  end.

Lemma mem_byte_insert m a v x :
  0 <= x < 2 ^ 32 -> 0 <= a < 2 ^ 32 ->
  mem_byte (<[u32 a := u8 v]> m) x = if x =? a then u8 v else mem_byte m x.
Proof.
  intros Hx Ha. unfold mem_byte. rewrite !u32_small by lia.
  destruct (Z.eqb_spec x a) as [->|Hne]; [by rewrite lookup_insert_eq|].
  by rewrite lookup_insert_ne by congruence.
Qed.
Lemma mem_byte_write a l m x :
  0 <= a -> a + Z.of_nat (length l) <= 2 ^ 32 -> 0 <= x < 2 ^ 32 -> Forall is_byte l ->
  mem_byte (write_bytes a l m) x =
    if (a <=? x) && (x <? a + Z.of_nat (length l)) then default 0 (l !! Z.to_nat (x - a)) else mem_byte m x.
Proof.
  revert a m. induction l as [|b l IH]; intros a m Ha Hl Hx Hb; cbn [write_bytes length] in *.
  - change (Z.of_nat 0) with 0. replace ((a <=? x) && (x <? a + 0)) with false by lia. done.
  - rewrite Nat2Z.inj_succ in *. unfold Z.succ in *.
    apply Forall_cons in Hb as [Hb Hbs]. destruct (decide (l = [])) as [->|Hne].
    + cbn [write_bytes length]. rewrite mem_byte_insert by (cbn in *; lia). change (Z.of_nat 0 + 1) with 1.
      destruct (Z.eqb_spec x a) as [->|Hxa].
      * replace ((a <=? a) && (a <? a + 1)) with true by lia. rewrite Z.sub_diag. cbn.
        by apply u8_small.
      * replace ((a <=? x) && (x <? a + 1)) with false by lia. done.
    + assert (length l <> 0%nat) by (by destruct l).
      rewrite u32_small by lia. rewrite IH by (done || lia). rewrite mem_byte_insert by lia.
      destruct (Z.eqb_spec x a) as [->|Hxa].
      * replace ((a + 1 <=? a) && _) with false by lia.
        replace ((a <=? a) && _) with true by lia. rewrite Z.sub_diag. cbn. by apply u8_small.
      * destruct ((a + 1 <=? x) && (x <? a + 1 + Z.of_nat (length l))) eqn:E.
        -- replace ((a <=? x) && _) with true by lia.
           replace (Z.to_nat (x - a)) with (S (Z.to_nat (x - (a + 1)))) by lia. done.
        -- replace ((a <=? x) && _) with false by lia. done.
Qed.

Lemma bytes_at_cons m a b l :
  bytes_at m a (b :: l) -> mem_byte m a = b /\ (l <> [] -> bytes_at m (a + 1) l).
Proof.
  intros [H1 H2 H3]. cbn [length] in H2. split.
  - specialize (H3 0%nat b eq_refl). by rewrite Z.add_0_r in H3.
  - intros Hne. assert (length l <> 0%nat) by (by destruct l). split; [lia|lia|].
    intros i c Hc. specialize (H3 (S i) c Hc). rewrite <- H3. f_equal. lia.
Qed.
Lemma bytes_at_unchanged m m' a l :
  bytes_at m a l -> (forall x, a <= x < a + Z.of_nat (length l) -> mem_byte m' x = mem_byte m x) ->
  bytes_at m' a l.
Proof.
  intros [H1 H2 H3] Hm. split; [done..|]. intros i b Hi. rewrite Hm; [by apply H3|].
  apply lookup_lt_Some in Hi. lia.
Qed.
Lemma bytes_at_app m a l1 l2 : l2 <> [] -> bytes_at m a (l1 ++ l2) -> bytes_at m (a + Z.of_nat (length l1)) l2.
Proof.
  intros Hne [H1 H2 H3]. rewrite length_app in H2. split; [lia|lia|].
  intros i b Hi. rewrite <- Z.add_assoc, <- Nat2Z.inj_add. apply H3.
  rewrite lookup_app_r by lia. rewrite <- Hi. f_equal. lia.
Qed.
Lemma str_at_cons m a b l : str_at m a (b :: l) -> mem_byte m a = b /\ 0 < b < 256 /\ str_at m (a + 1) l /\ a + 1 < 2 ^ 32.
Proof.
  intros [H0 H1 H2]. apply Forall_cons in H2 as [Hb H2]. pose proof (bytes_high _ _ _ H1) as Hh.
  apply bytes_at_cons in H1 as [Hm H1]. cbn in Hh. rewrite length_app in Hh. cbn in Hh.
  split; [done|]. split; [done|]. split; [|lia]. split; [lia| |done]. apply H1. by destruct l.
Qed.
Lemma str_at_nil m a : str_at m a [] -> mem_byte m a = 0.
Proof. intros [_ H _]. by apply bytes_at_cons in H as [? _]. Qed.
Lemma str_at_range m a l : str_at m a l -> 0 < a /\ a + Z.of_nat (length l) < 2 ^ 32.
Proof. intros [H0 [H1 H2 _] _]. rewrite length_app in H2. cbn in H2. lia. Qed.

(** ** The instructions, with the direction flag clear *)

Definition put_bytes (a : Z) (l : list Z) (s : str_state) : str_state :=
  set_field str_mem (write_bytes a l) s.

Section str_rules.
Context (P : string -> str_state -> Prop) (F : Prop) (s : str_state) (Hdf : str_df s = false).
Lemma wpg_lodsb a (Q : Z * Z -> str_state -> Prop) :
  Q (mem_byte (str_mem s) a, u32 (a + 1)) s -> wpg P F (lodsb a) Q s.
Proof. intros H. unfold lodsb, next_index, peek. repeat wp_step. by rewrite Hdf. Qed.
Lemma wpg_scasb al a (Q : Z * flags -> str_state -> Prop) :
  Q (u32 (a + 1), cmpb al (mem_byte (str_mem s) a)) s -> wpg P F (scasb al a) Q s.
Proof. intros H. unfold scasb, next_index, peek. repeat wp_step. by rewrite Hdf. Qed.
Lemma wpg_stosb al a (Q : Z -> str_state -> Prop) :
  Q (u32 (a + 1)) (put_bytes a [al] s) -> wpg P F (stosb al a) Q s.
Proof. intros H. unfold stosb, next_index, poke. repeat wp_step. cbn [str_df set_field set_str_mem]. by rewrite Hdf. Qed.
End str_rules.
Lemma wpg_cld P F (Q : unit -> str_state -> Prop) s :
  Q tt (set_field str_df (fun _ => false) s) -> wpg P F cld Q s.
Proof. exact id. Qed.
Lemma put_bytes_df a l s : str_df (put_bytes a l s) = str_df s.
Proof. done. Qed.

Ltac str_step :=
  lazymatch goal with
  | |- wpg _ _ cld _ _ => apply wpg_cld
  | |- wpg _ _ (lodsb _) _ _ => apply wpg_lodsb; [first [done | assumption]|]
  | |- wpg _ _ (scasb _ _) _ _ => apply wpg_scasb; [first [done | assumption]|]
  | |- wpg _ _ (stosb _ _) _ _ => apply wpg_stosb; [first [done | assumption]|]
  | |- wpg _ _ (peek _) _ _ => unfold peek
  | |- wpg _ _ (let '(_, _) := (_, _) in _) _ _ => cbv beta iota
  | |- wpg _ _ (match (_, _) with _ => _ end) _ _ => cbv beta iota
  | |- _ => wp_step
  end.
Ltac str_steps := repeat str_step.

(** ** The scanning loops *)

Section loops.
Context (P : string -> str_state -> Prop) (F : Prop).

Lemma wpg_repne_scasb fuel al a l rest ecx f s (Q : Z * Z * flags -> str_state -> Prop) :
  str_df s = false -> bytes_at (str_mem s) a (l ++ al :: rest) -> al ∉ l ->
  (length l < fuel)%nat -> Z.of_nat (length l) < ecx < 2 ^ 32 ->
  Q (u32 (a + Z.of_nat (length l) + 1), ecx - Z.of_nat (length l) - 1, cmpb al al) s ->
  wpg P F (repne_scasb fuel al a ecx f) Q s.
Proof.
  intros Hdf. unfold repne_scasb. revert fuel a ecx f.
  induction l as [|b l IH]; intros fuel a ecx f Hb Hn Hf Hc HQ; (destruct fuel as [|fuel]; [cbn in Hf; lia|]);
    rewrite loop_S; cbn [length] in *.
  - apply bytes_at_cons in Hb as [Hm _]. str_steps; rewrite ?Hm in *; [lia| |cbn in *; lia].
    rewrite (u32_small (ecx - 1)) by lia. change (Z.of_nat 0) with 0 in HQ. by rewrite Z.add_0_r, Z.sub_0_r in HQ.
  - pose proof (bytes_high _ _ _ Hb) as Hh. pose proof (bytes_low _ _ _ Hb) as Hl0.
    cbn in Hh. rewrite length_app in Hh. cbn in Hh.
    apply bytes_at_cons in Hb as [Hm Hb]. apply not_elem_of_cons in Hn as [Hne Hn].
    str_steps; rewrite ?Hm in *; [lia|cbn in *; lia|].
    rewrite (u32_small (a + 1)), (u32_small (ecx - 1)) by lia.
    apply IH; [apply Hb; by destruct l|done|lia|lia|]. 
    replace (a + 1 + Z.of_nat (length l) + 1) with (a + Z.of_nat (S (length l)) + 1) by lia.
    replace (ecx - 1 - Z.of_nat (length l) - 1) with (ecx - Z.of_nat (S (length l)) - 1) by lia. done.
Qed.

Lemma not_in_chars l : Forall (fun b => 0 < b < 256) l -> 0 ∉ l.
Proof. intros H Hin. rewrite Forall_forall in H. specialize (H _ Hin). lia. Qed.

Lemma wpg_scan_end fuel a l s (Q : Z * Z -> str_state -> Prop) :
  str_df s = false -> str_at (str_mem s) a l -> (length l < fuel)%nat ->
  Q (u32 (a + Z.of_nat (length l) + 1), 0xffffffff - Z.of_nat (length l) - 1) s ->
  wpg P F (scan_end fuel a) Q s.
Proof.
  intros Hdf Hs Hf HQ. pose proof (str_at_range _ _ _ Hs) as Hr. destruct Hs as [_ Hb Hc].
  unfold scan_end. apply wpg_bind.
  apply (wpg_repne_scasb _ _ _ l []); try done; [by apply not_in_chars|lia].
Qed.
Lemma wpg_scan_length fuel a l s (Q : Z -> str_state -> Prop) :
  str_df s = false -> str_at (str_mem s) a l -> (length l < fuel)%nat ->
  Q (Z.of_nat (length l)) s -> wpg P F (scan_length fuel a) Q s.
Proof.
  intros Hdf Hs Hf HQ. pose proof (str_at_range _ _ _ Hs) as Hr.
  unfold scan_length. apply wpg_bind. eapply wpg_scan_end; try done. cbv beta iota. apply wpg_ret.
  replace (u32 (not32 _ - 1)) with (Z.of_nat (length l)); [done|].
  unfold not32, Z.lnot, u32. Z.to_euclidean_division_equations. lia.
Qed.

Lemma wpg_copy_loop fuel src dst l s (Q : Z -> str_state -> Prop) :
  str_df s = false -> str_at (str_mem s) src l -> (length l < fuel)%nat ->
  0 <= dst -> dst + Z.of_nat (length l) < 2 ^ 32 ->
  dst + Z.of_nat (length l) < src \/ src + Z.of_nat (length l) < dst ->
  Q (u32 (dst + Z.of_nat (length l) + 1)) (put_bytes dst (l ++ [0]) s) ->
  wpg P F (copy_loop fuel src dst) Q s.
Proof.
  unfold copy_loop. revert fuel src dst s.
  induction l as [|b l IH]; intros fuel src dst s Hdf Hs Hf H0 Hd Hdis HQ; (destruct fuel as [|fuel]; [cbn in Hf; lia|]);
    rewrite loop_S; cbn [length] in *; pose proof (str_at_range _ _ _ Hs) as Hr.
  - apply str_at_nil in Hs as Hm. str_steps; rewrite Hm in *; [|done].
    change (Z.of_nat 0) with 0 in HQ. by rewrite Z.add_0_r in HQ.
  - apply str_at_cons in Hs as (Hm & Hb & Hs & _). cbn [length] in Hr.
    str_steps; rewrite Hm in *; [lia|].
    rewrite (u32_small (src + 1)), (u32_small (dst + 1)) by lia.
    apply IH; [done| |lia|lia|lia|lia|].
    + destruct Hs as [? Hs Hc]. split; [done| |done]. eapply bytes_at_unchanged; [exact Hs|].
      intros x Hx. rewrite length_app in Hx. cbn in Hx. cbn [put_bytes str_mem set_field set_str_mem write_bytes].
      rewrite mem_byte_insert by lia. by replace (x =? dst) with false by lia.
    + replace (dst + 1 + Z.of_nat (length l) + 1) with (dst + Z.of_nat (S (length l)) + 1) by lia.
      unfold put_bytes in *. cbn [app write_bytes] in HQ. rewrite (u32_small (dst + 1)) in HQ by lia. exact HQ.
Qed.

Lemma wpg_copy_n_loop fuel src dst count l s (Q : Z * Z * bool -> str_state -> Prop) :
  str_df s = false -> str_at (str_mem s) src l -> (length l < fuel)%nat ->
  0 <= dst -> dst + Z.of_nat (length l) < 2 ^ 32 ->
  dst + Z.of_nat (length l) < src \/ src + Z.of_nat (length l) < dst ->
  0 <= count < 2 ^ 31 ->
  (Z.of_nat (length l) < count ->
     Q (u32 (dst + Z.of_nat (length l) + 1), count - Z.of_nat (length l) - 1, true) (put_bytes dst (l ++ [0]) s)) ->
  (count <= Z.of_nat (length l) -> Q (dst + count, -1, false) (put_bytes dst (take (Z.to_nat count) l) s)) ->
  wpg P F (copy_n_loop fuel src dst count) Q s.
Proof.
  unfold copy_n_loop. revert fuel src dst count s.
  induction l as [|b l IH]; intros fuel src dst count s Hdf Hs Hf H0 Hd Hdis Hcnt HQ1 HQ2; (destruct fuel as [|fuel]; [cbn in Hf; lia|]);
    rewrite loop_S; cbn [length] in *; pose proof (str_at_range _ _ _ Hs) as Hr;
    rewrite (s32_small (count - 1)) by lia.
  - apply str_at_nil in Hs as Hm. str_steps; rewrite ?Hm in *; [| |done].
    + assert (count = 0) as -> by lia. specialize (HQ2 ltac:(lia)). rewrite Z.add_0_r in HQ2. by destruct s.
    + specialize (HQ1 ltac:(lia)). change (Z.of_nat 0) with 0 in HQ1. by rewrite Z.add_0_r, Z.sub_0_r in HQ1.
  - apply str_at_cons in Hs as (Hm & Hb & Hs & _). cbn [length] in Hr.
    str_steps; rewrite ?Hm in *; [|lia|].
    { assert (count = 0) as -> by lia. specialize (HQ2 ltac:(lia)). rewrite Z.add_0_r in HQ2. by destruct s. }
    rewrite (u32_small (src + 1)), (u32_small (dst + 1)) by lia.
    apply IH; [done| |lia|lia|lia|lia|lia| |].
    + destruct Hs as [? Hs Hc]. split; [done| |done]. eapply bytes_at_unchanged; [exact Hs|].
      intros x Hx. rewrite length_app in Hx. cbn in Hx. cbn [put_bytes str_mem set_field set_str_mem write_bytes].
      rewrite mem_byte_insert by lia. by replace (x =? dst) with false by lia.
    + intros Hlt. specialize (HQ1 ltac:(lia)).
      replace (dst + 1 + Z.of_nat (length l) + 1) with (dst + Z.of_nat (S (length l)) + 1) by lia.
      replace (count - 1 - Z.of_nat (length l) - 1) with (count - Z.of_nat (S (length l)) - 1) by lia.
      unfold put_bytes in *. cbn [app write_bytes] in HQ1. rewrite (u32_small (dst + 1)) in HQ1 by lia. exact HQ1.
    + intros Hle. specialize (HQ2 ltac:(lia)).
      replace (dst + 1 + (count - 1)) with (dst + count) by lia.
      replace (Z.to_nat count) with (S (Z.to_nat (count - 1))) in HQ2 by lia. cbn [take] in HQ2.
      unfold put_bytes in *. cbn [write_bytes] in HQ2. rewrite (u32_small (dst + 1)) in HQ2 by lia. exact HQ2.
Qed.
End loops.

(** Writing [l] at [a] puts [l] there and changes no other byte. *)
Lemma put_bytes_at a l s :
  0 <= a -> a + Z.of_nat (length l) <= 2 ^ 32 -> Forall is_byte l ->
  bytes_at (str_mem (put_bytes a l s)) a l /\
  forall x, 0 <= x < 2 ^ 32 -> ~ (a <= x < a + Z.of_nat (length l)) ->
    mem_byte (str_mem (put_bytes a l s)) x = mem_byte (str_mem s) x.
Proof.
  intros Ha Hl Hb. cbn [put_bytes str_mem set_field set_str_mem]. split.
  - split; [done..|]. intros i b Hi. pose proof (lookup_lt_Some _ _ _ Hi).
    rewrite mem_byte_write by (done || lia).
    replace (_ && _) with true by lia. replace (Z.to_nat _) with i by lia. by rewrite Hi.
  - intros x Hx Hout. rewrite mem_byte_write by (done || lia). by replace (_ && _) with false by lia.
Qed.
Lemma bytes_at_join m a l1 l2 :
  bytes_at m a l1 -> bytes_at m (a + Z.of_nat (length l1)) l2 -> bytes_at m a (l1 ++ l2).
Proof.
  intros [H1 H2 H3] [H4 H5 H6]. split; [done|rewrite length_app; lia|].
  intros i b Hi. apply lookup_app_Some in Hi as [Hi|[Hge Hi]]; [by apply H3|].
  rewrite <- (H6 _ _ Hi). f_equal. lia.
Qed.

Lemma u32_u32_add a b : u32 (u32 a + b) = u32 (a + b).
Proof. unfold u32. apply Zplus_mod_idemp_l. Qed.
Lemma u32_u32 a : u32 (u32 a) = u32 a.
Proof. unfold u32. apply Zmod_mod. Qed.
Lemma write_bytes_u32 a l m : write_bytes (u32 a) l m = write_bytes a l m.
Proof. destruct l; cbn [write_bytes]; [done|]. by rewrite u32_u32, u32_u32_add. Qed.
Lemma write_bytes_app a l1 l2 m :
  write_bytes a (l1 ++ l2) m = write_bytes (a + Z.of_nat (length l1)) l2 (write_bytes a l1 m).
Proof.
  revert a m. induction l1 as [|b l1 IH]; intros a m; cbn [app write_bytes length].
  - f_equal. cbn. lia.
  - rewrite IH. rewrite <- (write_bytes_u32 (_ + _)), u32_u32_add, write_bytes_u32. f_equal. lia.
Qed.
Lemma u32_back z : u32 (u32 (z + 1) - 1) = u32 z.
Proof. unfold u32. rewrite Zminus_mod_idemp_l. f_equal. lia. Qed.

Lemma chars_are_bytes l : Forall (fun b => 0 < b < 256) l -> Forall is_byte l.
Proof. intros H. eapply Forall_impl; [exact H|]. unfold is_byte. cbn. lia. Qed.

(** strcat appends: when the strings do not overlap and the result fits
    below 2^32, the destination afterwards holds the concatenation, every byte
    outside the appended part is unchanged, and the loops stop as soon as the
    fuel exceeds the lengths. *)
Theorem strcat_appends fuel dest src d l s :
  str_at (str_mem s) dest d -> str_at (str_mem s) src l ->
  dest + Z.of_nat (length d + length l) < 2 ^ 32 ->
  dest + Z.of_nat (length d + length l) < src \/ src + Z.of_nat (length l) < dest ->
  (length d < fuel)%nat -> (length l < fuel)%nat ->
  wp (strcat fuel dest src) (fun r s' =>
    r = dest /\ str_at (str_mem s') dest (d ++ l) /\
    forall x, 0 <= x < 2 ^ 32 ->
      ~ (dest + Z.of_nat (length d) <= x <= dest + Z.of_nat (length d + length l)) ->
      mem_byte (str_mem s') x = mem_byte (str_mem s) x) s.
Proof.
  intros Hd Hs Hfit Hdis Hf1 Hf2. rewrite Nat2Z.inj_add in *.
  pose proof (str_at_range _ _ _ Hd). pose proof (str_at_range _ _ _ Hs).
  unfold strcat. str_steps. eapply wpg_scan_end; [done|exact Hd|done|]. str_steps.
  rewrite u32_back, u32_small by lia.
  eapply wpg_copy_loop; [done|exact Hs|done|lia..|]. str_steps. split; [done|].
  set (s1 := set_field str_df (fun _ => false) s).
  assert (Hl : Forall is_byte (l ++ [0])).
  { apply Forall_app. split; [apply chars_are_bytes, Hs|]. repeat constructor; unfold is_byte; lia. }
  destruct (put_bytes_at (dest + Z.of_nat (length d)) (l ++ [0]) s1) as [Hat Hout];
    [lia|rewrite length_app; cbn; lia|done|].
  rewrite length_app in Hout. cbn [length] in Hout. split.
  - split; [lia| |apply Forall_app; split; [apply Hd|apply Hs]].
    rewrite <- app_assoc. apply bytes_at_join; [|done].
    destruct Hd as [_ [Hd0 Hd1 Hd2] _]. rewrite length_app in Hd1. split; [done|cbn in Hd1; lia|].
    intros i b Hi. pose proof (lookup_lt_Some _ _ _ Hi).
    rewrite Hout by (cbn; lia). rewrite <- (Hd2 i b); [done|]. rewrite lookup_app_l; [done|lia].
  - intros x Hx Hno. rewrite Hout by lia. done.
Qed.
Lemma strcat_appends_witness :
  let s := StrState (write_bytes 100 [104; 105; 0] (write_bytes 500 [33; 0] ∅)) true in
  wp (strcat 10 100 500) (fun r s' => r = 100 /\ str_at (str_mem s') 100 [104; 105; 33]) s.
Proof.
  intros s. eapply wp_mono; [apply (strcat_appends 10 100 500 [104; 105] [33] s); cbn; try lia|].
  - split; [lia| |repeat constructor; lia]. split; cbn; [lia..|].
    intros [|[|[|i]]] b Hi; cbn in Hi; simplify_eq; reflexivity.
  - split; [lia| |repeat constructor; lia]. split; cbn; [lia..|].
    intros [|[|i]] b Hi; cbn in Hi; simplify_eq; reflexivity.
  - intros r s' (H1 & H2 & _). exact (conj H1 H2).
Defined.

(** strncat with a count larger than the length of the source writes two
    zero bytes: the terminator it copies and one more behind it, beyond the end
    of the result. *)
Theorem strncat_overruns fuel dest src count d l s :
  str_at (str_mem s) dest d -> str_at (str_mem s) src l ->
  dest + Z.of_nat (length d + length l) + 1 < 2 ^ 32 ->
  dest + Z.of_nat (length d + length l) < src \/ src + Z.of_nat (length l) < dest ->
  (length d < fuel)%nat -> (length l < fuel)%nat -> Z.of_nat (length l) < count < 2 ^ 31 ->
  strncat fuel dest src count s =
    Ok dest (StrState (write_bytes (dest + Z.of_nat (length d)) (l ++ [0; 0]) (str_mem s)) false).
Proof.
  intros Hd Hs Hfit Hdis Hf1 Hf2 Hc. rewrite Nat2Z.inj_add in *.
  pose proof (str_at_range _ _ _ Hd). pose proof (str_at_range _ _ _ Hs).
  cut (wp (strncat fuel dest src count) (fun r s' => r = dest /\
    s' = StrState (write_bytes (dest + Z.of_nat (length d)) (l ++ [0; 0]) (str_mem s)) false) s).
  { intros (r & s' & -> & -> & ->)%wp_Ok. done. }
  unfold strncat. str_steps. eapply wpg_scan_end; [done|exact Hd|done|]. str_steps.
  rewrite u32_back, u32_small by lia.
  eapply wpg_copy_n_loop; [done|exact Hs|done|lia..| |lia]. intros _. str_steps. split; [done|].
  unfold put_bytes. change (set_field str_mem ?f (set_field str_mem ?g (set_field str_df _ s)))
    with (StrState (f (g (str_mem s))) false).
  f_equal. change (l ++ [0; 0]) with (l ++ [0] ++ [0]). rewrite app_assoc, (write_bytes_app _ (l ++ [0])), length_app, write_bytes_u32.
  f_equal. rewrite Nat2Z.inj_add. cbn. lia.
Qed.
Lemma strncat_overruns_witness :
  let s := StrState (write_bytes 100 [104; 0] (write_bytes 500 [33; 0] ∅)) false in
  strncat 10 100 500 7 s = Ok 100 (StrState (write_bytes 101 [33; 0; 0] (str_mem s)) false).
Proof.
  intros s. apply (strncat_overruns 10 100 500 7 [104] [33] s); cbn; try lia.
  - split; [lia| |repeat constructor; lia]. split; cbn; [lia..|].
    intros [|[|i]] b Hi; cbn in Hi; simplify_eq; reflexivity.
  - split; [lia| |repeat constructor; lia]. split; cbn; [lia..|].
    intros [|[|i]] b Hi; cbn in Hi; simplify_eq; reflexivity.
Defined.

(** ** Comparing *)

(** The order strcmp implements: the first bytes that differ, the terminator
    included, compared as signed characters. *)
Fixpoint str_order (l1 l2 : list Z) : Z :=
  match l1, l2 with
  | [], [] => 0
  | [], b :: _ => if s8 b <? 0 then 1 else -1
  | a :: _, [] => if 0 <? s8 a then 1 else -1
  | a :: l1', b :: l2' => if a =? b then str_order l1' l2' else if s8 b <? s8 a then 1 else -1
  end.

Lemma str_order_eq l1 l2 : str_order l1 l2 = 0 <-> l1 = l2.
Proof.
  revert l2. induction l1 as [|a l1 IH]; intros [|b l2]; cbn; try done.
  - by destruct (s8 b <? 0).
  - by destruct (0 <? s8 a).
  - destruct (Z.eqb_spec a b) as [->|Hne].
    + rewrite IH. split; [by intros ->|congruence].
    + destruct (s8 b <? s8 a); split; congruence.
Qed.

(** strcmp leaves memory as it is; its answer is 0 exactly for equal
    strings, and otherwise 1 when, at the first difference, the byte of the
    first string is the larger one as a signed char (a terminator counting as
    0), and -1 when it is the smaller one. *)
Theorem strcmp_orders fuel cs ct l1 l2 s :
  str_at (str_mem s) cs l1 -> str_at (str_mem s) ct l2 -> (length l1 < fuel)%nat ->
  strcmp fuel cs ct s = Ok (str_order l1 l2) (StrState (str_mem s) false) /\
  (str_order l1 l2 = 0 <-> l1 = l2).
Proof.
  intros H1 H2 Hf. split; [|apply str_order_eq].
  cut (wp (strcmp fuel cs ct) (fun r s' => r = str_order l1 l2 /\ s' = StrState (str_mem s) false) s).
  { intros (r & s' & -> & -> & ->)%wp_Ok. done. }
  unfold strcmp. str_steps. change (set_field str_df _ s) with (StrState (str_mem s) false).
  change (str_mem s) with (str_mem (StrState (str_mem s) false)) in H1, H2.
  set (s0 := StrState (str_mem s) false) in *. assert (Hdf : str_df s0 = false) by done. clearbody s0.
  revert fuel cs ct l2 H1 H2 Hf. clear s.
  induction l1 as [|a l1 IH]; intros fuel cs ct l2 H1 H2 Hf; (destruct fuel as [|fuel]; [cbn in Hf; lia|]);
    rewrite loop_S; pose proof (str_at_range _ _ _ H1); pose proof (str_at_range _ _ _ H2).
  - apply str_at_nil in H1 as Hm1. destruct l2 as [|b l2].
    + apply str_at_nil in H2 as Hm2. str_steps; rewrite ?Hm1, ?Hm2 in *; done.
    + apply str_at_cons in H2 as (Hm2 & Hb & _).
      str_steps; rewrite ?Hm1, ?Hm2 in *; cbn [cmpb zf lf negb str_order] in *; try lia. done.
  - apply str_at_cons in H1 as (Hm1 & Ha & H1 & _). destruct l2 as [|b l2].
    + apply str_at_nil in H2 as Hm2.
      str_steps; rewrite ?Hm1, ?Hm2 in *; cbn [cmpb zf lf negb str_order] in *; try lia. done.
    + apply str_at_cons in H2 as (Hm2 & Hb & H2 & _). cbn [length str_order] in *.
      str_steps; rewrite ?Hm1, ?Hm2 in *; cbn [cmpb zf lf negb str_order] in *; try lia.
      * by replace (a =? b) with false by lia.
      * replace (a =? b) with true by lia. rewrite (u32_small (cs + 1)), (u32_small (ct + 1)) by lia.
        apply IH; [done..|lia].
Qed.
Lemma strcmp_orders_witness :
  let s := StrState (write_bytes 100 [104; 200; 0] (write_bytes 500 [104; 33; 0] ∅)) true in
  strcmp 10 100 500 s = Ok (-1) (StrState (str_mem s) false) /\ (-1 = 0 <-> [104; 200] = [104; 33]).
Proof.
  intros s. apply (strcmp_orders 10 100 500 [104; 200] [104; 33] s); cbn; try lia.
  - split; [lia| |repeat constructor; lia]. split; cbn; [lia..|].
    intros [|[|[|i]]] b Hi; cbn in Hi; simplify_eq; reflexivity.
  - split; [lia| |repeat constructor; lia]. split; cbn; [lia..|].
    intros [|[|[|i]]] b Hi; cbn in Hi; simplify_eq; reflexivity.
Defined.

(** ** Searching *)

(** The first suffix of [l1] that starts with [l2]: how many bytes it skips. *)
Fixpoint find_sub (l1 l2 : list Z) : option nat :=
  if decide (l2 `prefix_of` l1) then Some 0%nat
  else match l1 with [] => None | _ :: l1' => S <$> find_sub l1' l2 end.

Lemma wpg_repe_cmpsb P F m : 
  forall n esi edi f s (Q : Z * flags -> str_state -> Prop) l1 l2,
  str_df s = false -> str_mem s = m -> str_at m esi l1 -> bytes_at m edi l2 ->
  Forall (fun b => 0 < b < 256) l2 -> n = length l2 -> (l2 = [] -> zf f = true) ->
  (l2 `prefix_of` l1 -> forall e f', zf f' = true -> Q (e, f') s) ->
  (~ l2 `prefix_of` l1 -> forall k f', zf f' = false -> (k <= length l1)%nat ->
     (mem_byte m (esi + Z.of_nat k) = 0 <-> k = length l1) ->
     (k = length l1 -> (length l1 < length l2)%nat) -> Q (u32 (esi + Z.of_nat k + 1), f') s) ->
  wpg P F (repe_cmpsb n esi edi f) Q s.
Proof.
  induction n as [|n IH]; intros esi edi f s Q l1 l2 Hdf Hm H1 H2 Hc Hn Hzf HQ1 HQ2; cbn [repe_cmpsb];
    (destruct l2 as [|b l2]; [cbn in Hn; try lia|]); try (cbn in Hn; lia).
  - apply wpg_ret. apply HQ1; [apply prefix_nil|by apply Hzf].
  - cbn in Hn. apply Forall_cons in Hc as [Hb Hc]. pose proof (bytes_low _ _ _ H2). pose proof (bytes_high _ _ _ H2) as Hh.
    cbn in Hh. apply bytes_at_cons in H2 as [Hm2 H2].
    pose proof (str_at_range _ _ _ H1). destruct l1 as [|a l1].
    + apply str_at_nil in H1 as Hm1. subst m. str_steps; rewrite ?Hm1, ?Hm2 in *; cbn [cmpb zf] in *; [lia|].
      rewrite <- (Z.add_0_r esi). apply (HQ2 ltac:(intros [k Hk]; done) 0%nat); [done|done| |cbn; lia].
      rewrite Z.add_0_r. done.
    + apply str_at_cons in H1 as (Hm1 & Ha & H1 & _). cbn [length] in *. subst m.
      str_steps; rewrite ?Hm1, ?Hm2 in *; cbn [cmpb zf] in *.
      * assert (a = b) as -> by lia. rewrite (u32_small (esi + 1)) by lia.
        assert (Hpre : b :: l2 `prefix_of` b :: l1 <-> l2 `prefix_of` l1).
        { split; [apply prefix_cons_inv_2|apply prefix_cons]. }
        destruct (decide (l2 = [])) as [->|Hne].
        { assert (n = 0)%nat as -> by (cbn in Hn; lia). cbn [repe_cmpsb]. apply wpg_ret.
          apply HQ1; [apply Hpre, prefix_nil|]. cbn. apply Z.eqb_refl. }
        assert (length l2 <> 0)%nat by (by destruct l2). rewrite (u32_small (edi + 1)) by lia.
        apply (IH (esi + 1) (edi + 1) _ s Q l1 l2); try done; [by apply H2|lia| |].
        -- intros Hp. apply HQ1. by apply Hpre.
        -- intros Hp k f' Hf' Hk Hz Hl. replace (esi + 1 + Z.of_nat k + 1) with (esi + Z.of_nat (S k) + 1) by lia.
           apply HQ2; [by rewrite Hpre|done|lia| |lia].
           replace (esi + Z.of_nat (S k)) with (esi + 1 + Z.of_nat k) by lia. rewrite Hz. lia.
      * rewrite <- (Z.add_0_r esi). apply (HQ2 ltac:(intros [k Hk]; cbn in Hk; simplify_eq; lia) 0%nat); [cbn; lia|lia| |lia].
        rewrite Z.add_0_r, Hm1. lia.
Qed.

Lemma bytes_at_prefix m a l1 l2 : bytes_at m a (l1 ++ l2) -> bytes_at m a l1.
Proof.
  intros [H1 H2 H3]. rewrite length_app in H2. split; [done|lia|].
  intros i b Hi. apply H3. by apply lookup_app_l_Some.
Qed.
Lemma mem_byte_back m z : mem_byte m (u32 (z + 1) - 1) = mem_byte m z.
Proof. unfold mem_byte. by rewrite u32_back. Qed.

Lemma find_sub_short l1 l2 : (length l1 < length l2)%nat -> find_sub l1 l2 = None.
Proof.
  induction l1 as [|a l1 IH]; intros Hl; cbn [find_sub].
  - rewrite decide_False; [done|]. intros Hp%prefix_length. cbn in *. lia.
  - rewrite decide_False by (intros Hp%prefix_length; cbn in *; lia). rewrite IH; [done|cbn in Hl; lia].
Qed.

(** strstr finds the first occurrence: it returns the address of the first
    place in the first string where the second one starts (the first string
    itself for an empty second one) and NULL when there is none; memory is not
    changed. *)
Theorem strstr_first fuel cs ct l1 l2 s :
  str_at (str_mem s) cs l1 -> str_at (str_mem s) ct l2 ->
  (length l1 < fuel)%nat -> (length l2 < fuel)%nat ->
  strstr fuel cs ct s =
    Ok (match find_sub l1 l2 with Some k => cs + Z.of_nat k | None => 0 end) (StrState (str_mem s) false).
Proof.
  intros H1 H2 Hf1 Hf2.
  cut (wp (strstr fuel cs ct) (fun r s' => r = match find_sub l1 l2 with Some k => cs + Z.of_nat k | None => 0 end
      /\ s' = StrState (str_mem s) false) s).
  { intros (r & s' & -> & -> & ->)%wp_Ok. done. }
  unfold strstr. str_steps. change (set_field str_df _ s) with (StrState (str_mem s) false).
  change (str_mem s) with (str_mem (StrState (str_mem s) false)) in H1, H2.
  set (s0 := StrState (str_mem s) false) in *. assert (Hdf : str_df s0 = false) by done. clearbody s0.
  eapply wpg_scan_length; [done|exact H2|done|]. rewrite Nat2Z.id. clear Hf2. clear s.
  revert fuel cs H1 Hf1. induction l1 as [|a l1 IH]; intros fuel cs H1 Hf1; (destruct fuel as [|fuel]; [cbn in Hf1; lia|]);
    rewrite loop_S; pose proof (str_at_range _ _ _ H1); pose proof H2 as [Hct Hb2%bytes_at_prefix Hc2]; str_steps;
    (eapply (wpg_repe_cmpsb _ _ _ _ _ _ _ _ _ _ l2); [done|reflexivity|exact H1|exact Hb2|done|done|by intros ->| |]).
  - intros Hp e f' ->. str_steps. cbn [find_sub]. rewrite decide_True by done. split; [cbn; lia|done].
  - intros Hp k f' -> Hk Hz Hl. cbn in Hk. assert (k = 0)%nat as -> by lia.
    str_steps; rewrite mem_byte_back in *; [|pose proof (proj2 Hz eq_refl); lia]. cbn [find_sub]. by rewrite decide_False.
  - intros Hp e f' ->. str_steps. cbn [find_sub]. rewrite decide_True by done. split; [cbn; lia|done].
  - intros Hp k f' -> Hk Hz Hl. str_steps; rewrite mem_byte_back in *.
    + rewrite find_sub_short; [done|]. apply Hl, Hz. lia.
    + apply str_at_cons in H1 as (_ & _ & H1 & _). rewrite (u32_small (cs + 1)) by lia.
      eapply wpg_mono; [apply (IH fuel (cs + 1)); [done|cbn in Hf1; lia]|].
      intros r s' [-> ->]. split; [|done]. cbn [find_sub]. rewrite decide_False by done.
      destruct (find_sub l1 l2); cbn; lia.
Qed.
Lemma strstr_first_witness :
  let s := StrState (write_bytes 100 [97; 97; 98; 0] (write_bytes 500 [97; 98; 0] ∅)) true in
  strstr 10 100 500 s = Ok 101 (StrState (str_mem s) false).
Proof.
  intros s. apply (strstr_first 10 100 500 [97; 97; 98] [97; 98] s); cbn; try lia.
  - split; [lia| |repeat constructor; lia]. split; cbn; [lia..|].
    intros [|[|[|[|i]]]] b Hi; cbn in Hi; simplify_eq; reflexivity.
  - split; [lia| |repeat constructor; lia]. split; cbn; [lia..|].
    intros [|[|[|i]]] b Hi; cbn in Hi; simplify_eq; reflexivity.
Defined.

(** ** Moving *)

Definition moved (dst src n : Z) (m m' : gmap Z Z) : Prop :=
  forall x, 0 <= x < 2 ^ 32 ->
    mem_byte m' x = if (dst <=? x) && (x <? dst + n) then mem_byte m (src + (x - dst)) else mem_byte m x.

Lemma movsb_run esi edi s :
  movsb esi edi s =
    Ok (u32 (if str_df s then esi - 1 else esi + 1), u32 (if str_df s then edi - 1 else edi + 1))
       (set_field str_mem (fun m => <[u32 edi := u8 (mem_byte (str_mem s) esi)]> m) s).
Proof. reflexivity. Qed.

Definition bytes_ok (m : gmap Z Z) : Prop := forall x, is_byte (mem_byte m x).
Lemma bytes_ok_insert m a v : bytes_ok m -> bytes_ok (<[a := u8 v]> m).
Proof.
  intros H x. unfold mem_byte. destruct (decide (u32 x = a)) as [->|Hne].
  - rewrite lookup_insert_eq. apply u8_range.
  - rewrite lookup_insert_ne by done. apply H.
Qed.

Lemma rep_movsb_forward n src dst s :
  str_df s = false -> bytes_ok (str_mem s) -> 0 <= dst < src -> src + Z.of_nat n <= 2 ^ 32 ->
  exists m', rep_movsb n src dst s = Ok tt (StrState m' false) /\ moved dst src (Z.of_nat n) (str_mem s) m'.
Proof.
  revert src dst s. induction n as [|n IH]; intros src dst s Hdf Hok Hd Hs; cbn [rep_movsb].
  - exists (str_mem s). split; [destruct s; cbn in *; by subst|]. intros x Hx.
    change (Z.of_nat 0) with 0. by replace (_ && _) with false by lia.
  - unfold mbind, M_bind. rewrite movsb_run, Hdf. cbv beta iota.
    rewrite (u32_small (dst + 1)) by lia.
    set (s1 := set_field str_mem _ s).
    assert (Hs1 : forall x, 0 <= x < 2 ^ 32 -> mem_byte (str_mem s1) x = if x =? dst then mem_byte (str_mem s) src else mem_byte (str_mem s) x).
    { intros x Hx. unfold s1. cbn [str_mem set_field set_str_mem]. rewrite mem_byte_insert by lia.
      destruct (x =? dst); [|done]. apply u8_small, Hok. }
    destruct n as [|n].
    + cbn [rep_movsb]. exists (str_mem s1). split; [unfold s1; destruct s; cbn in *; by subst|].
      intros x Hx. rewrite Hs1 by done. change (Z.of_nat 1) with 1.
      destruct (Z.eqb_spec x dst) as [->|Hne].
      * replace (_ && _) with true by lia. f_equal. lia.
      * by replace (_ && _) with false by lia.
    + rewrite (u32_small (src + 1)) by lia.
      destruct (IH (src + 1) (dst + 1) s1) as (m' & -> & Hm); [done|by apply bytes_ok_insert|lia|lia|].
      exists m'. split; [done|]. intros x Hx. rewrite (Hm x Hx). rewrite (Nat2Z.inj_succ (S n)) in *. unfold Z.succ in *.
      set (k := Z.of_nat (S n)) in *. assert (0 < k) by lia. clearbody k.
      destruct (Z.eqb_spec x dst) as [->|Hne].
      * replace ((dst + 1 <=? dst) && _) with false by lia. replace (_ && _) with true by lia.
        rewrite Hs1, Z.eqb_refl by lia. f_equal. lia.
      * destruct ((dst + 1 <=? x) && (x <? dst + 1 + k)) eqn:E.
        -- replace (_ && _) with true by lia. rewrite Hs1 by lia.
           replace (_ =? dst) with false by lia. f_equal. lia.
        -- replace ((dst <=? x) && (x <? dst + (k + 1))) with false by lia. rewrite Hs1 by lia.
           by replace (x =? dst) with false by lia.
Qed.

Lemma rep_movsb_backward n src dst s :
  str_df s = true -> bytes_ok (str_mem s) -> 0 <= src <= dst -> dst + Z.of_nat n <= 2 ^ 32 ->
  exists m', rep_movsb n (u32 (src + Z.of_nat n - 1)) (u32 (dst + Z.of_nat n - 1)) s = Ok tt (StrState m' true) /\
    moved dst src (Z.of_nat n) (str_mem s) m'.
Proof.
  revert s. induction n as [|n IH]; intros s Hdf Hok Hs Hd; cbn [rep_movsb].
  - exists (str_mem s). split; [destruct s; cbn in *; by subst|]. intros x Hx.
    change (Z.of_nat 0) with 0. by replace (_ && _) with false by lia.
  - unfold mbind, M_bind. rewrite movsb_run, Hdf. cbv beta iota.
    rewrite Nat2Z.inj_succ in *. unfold Z.succ in *. set (k := Z.of_nat n) in *. assert (0 <= k) by lia.
    rewrite (u32_small (src + _ - 1)), (u32_small (dst + _ - 1)) by lia.
    replace (src + (k + 1) - 1 - 1) with (src + k - 1) by lia.
    replace (dst + (k + 1) - 1 - 1) with (dst + k - 1) by lia.
    set (s1 := set_field str_mem _ s).
    assert (Hs1 : forall x, 0 <= x < 2 ^ 32 -> mem_byte (str_mem s1) x = if x =? dst + k then mem_byte (str_mem s) (src + k) else mem_byte (str_mem s) x).
    { intros x Hx. unfold s1. cbn [str_mem set_field set_str_mem]. rewrite mem_byte_insert by lia.
      replace (dst + (k + 1) - 1) with (dst + k) by lia.
      destruct (x =? dst + k); [|done]. rewrite u8_small by apply Hok. f_equal. lia. }
    destruct (IH s1) as (m' & -> & Hm); [done|by apply bytes_ok_insert|lia|lia|].
    exists m'. split; [done|]. intros x Hx. rewrite (Hm x Hx). clearbody k.
    destruct (Z.eqb_spec x (dst + k)) as [->|Hne].
    + replace ((dst <=? dst + k) && (dst + k <? dst + k)) with false by lia. replace (_ && _) with true by lia.
      rewrite Hs1, Z.eqb_refl by lia. f_equal. lia.
    + destruct ((dst <=? x) && (x <? dst + k)) eqn:E.
      * replace (_ && _) with true by lia. rewrite Hs1 by lia. by replace (_ =? dst + k) with false by lia.
      * replace ((dst <=? x) && (x <? dst + (k + 1))) with false by lia. rewrite Hs1 by lia.
        by replace (x =? dst + k) with false by lia.
Qed.

(** memmove moves the bytes correctly even when the areas overlap: each
    destination byte is the byte the source had before the call and no other
    byte changes. It leaves the direction flag set when it copies downwards. *)
Theorem memmove_moves dest src n s :
  bytes_ok (str_mem s) -> 0 <= dest -> 0 <= src -> 0 <= n < 2 ^ 32 ->
  dest + n <= 2 ^ 32 -> src + n <= 2 ^ 32 ->
  exists m', memmove dest src n s = Ok dest (StrState m' (negb (dest <? src))) /\ moved dest src n (str_mem s) m'.
Proof.
  intros Hok Hd Hs Hn Hdn Hsn. unfold memmove, mbind, M_bind. rewrite (u32_small n) by lia.
  assert (Hk : n = Z.of_nat (Z.to_nat n)) by lia.
  destruct (dest <? src) eqn:E; unfold cld, std, modify.
  - destruct (rep_movsb_forward (Z.to_nat n) src dest (set_field str_df (fun _ => false) s)) as (m' & -> & Hm);
      try done; [lia|lia|]. exists m'. split; [done|]. by rewrite <- Hk in Hm.
  - replace (u32 (src + n - 1)) with (u32 (src + Z.of_nat (Z.to_nat n) - 1)) by (f_equal; lia).
    replace (u32 (dest + n - 1)) with (u32 (dest + Z.of_nat (Z.to_nat n) - 1)) by (f_equal; lia).
    destruct (rep_movsb_backward (Z.to_nat n) src dest (set_field str_df (fun _ => true) s)) as (m' & -> & Hm);
      try done; [lia|lia|]. exists m'. split; [done|]. by rewrite <- Hk in Hm.
Qed.
Lemma memmove_moves_witness :
  let s := StrState (write_bytes 100 [1; 2; 3; 4] ∅) false in
  exists m', memmove 101 100 3 s = Ok 101 (StrState m' true) /\ moved 101 100 3 (str_mem s) m'.
Proof.
  intros s. apply (memmove_moves 101 100 3 s); try lia. cbn [s str_mem write_bytes].
  repeat apply bytes_ok_insert. intros x. unfold mem_byte. rewrite lookup_empty. split; cbn; lia.
Defined.
