(* ===== verification/Mktime.v ===== *)
(** * kernel/mktime.c: broken-down time to seconds since 1970

    [kernel_mktime] is the routine the kernel runs once at boot on the CMOS
    clock ([time_init] of init/main.c).  It is compared with a calendar that
    counts days year by year and month by month. *)

From S2P Require Import Prelude.

(** include/time.h: the fields of [struct tm] the routine reads. *)
Record tm := Tm {
  tm_sec : Z; tm_min : Z; tm_hour : Z; tm_mday : Z; tm_mon : Z; tm_year : Z;
  tm_wday : Z; tm_yday : Z; tm_isdst : Z }.

Definition MINUTE : Z := 60.
Definition HOUR : Z := 60 * MINUTE.
Definition DAY : Z := 24 * HOUR.
Definition YEAR : Z := 365 * DAY.

Definition month : list Z := [
  0;
  DAY * (31);
  DAY * (31+29);
  DAY * (31+29+31);
  DAY * (31+29+31+30);
  DAY * (31+29+31+30+31);
  DAY * (31+29+31+30+31+30);
  DAY * (31+29+31+30+31+30+31);
  DAY * (31+29+31+30+31+30+31+31);
  DAY * (31+29+31+30+31+30+31+31+30);
  DAY * (31+29+31+30+31+30+31+31+30+31);
  DAY * (31+29+31+30+31+30+31+31+30+31+30) ].

(** [None] is a read outside [month].  [/] and [%] truncate towards zero. *)
Definition kernel_mktime (t : tm) : option Z :=
  let year := s32 (tm_year t - 70) in
  let res := s32 (s32 (YEAR * year) + s32 (DAY * Z.quot (s32 (year + 1)) 4)) in
  m ← (if 0 <=? tm_mon t then month !! Z.to_nat (tm_mon t) else None);
  let res := s32 (res + m) in
  let res := if (1 <? tm_mon t) && truth (Z.rem (s32 (year + 2)) 4)
             then s32 (res - DAY) else res in
  let res := s32 (res + s32 (DAY * s32 (tm_mday t - 1))) in
  let res := s32 (res + s32 (HOUR * tm_hour t)) in
  let res := s32 (res + s32 (MINUTE * tm_min t)) in
  Some (s32 (res + tm_sec t)).

(** ** The reference calendar *)

Definition leap (y : Z) : bool :=
  ((y mod 4 =? 0) && negb (y mod 100 =? 0)) || (y mod 400 =? 0).
Definition year_days (y : Z) : Z := if leap y then 366 else 365.
Definition month_days (y m : Z) : Z :=
  if m =? 1 then (if leap y then 29 else 28)
  else if existsb (Z.eqb m) [3; 5; 8; 10] then 30 else 31.

Definition sum (l : list Z) : Z := foldr Z.add 0 l.
(** Days of the years 1970 .. y-1, and of the months 0 .. m-1 of year y. *)
Definition days_before_year (y : Z) : Z := sum (year_days <$> seqZ 1970 (y - 1970)).
Definition days_before_month (y m : Z) : Z := sum (month_days y <$> seqZ 0 m).

Definition civil_seconds (t : tm) : Z :=
  let y := 1900 + tm_year t in
  ((days_before_year y + days_before_month y (tm_mon t) + (tm_mday t - 1)) * 24
     + tm_hour t) * 3600 + tm_min t * 60 + tm_sec t.

(** A date of the Gregorian calendar between 1970 and 2099. *)
Definition valid_tm (t : tm) : Prop :=
  70 <= tm_year t <= 199 /\ 0 <= tm_mon t <= 11 /\
  1 <= tm_mday t <= month_days (1900 + tm_year t) (tm_mon t) /\
  0 <= tm_hour t < 24 /\ 0 <= tm_min t < 60 /\ 0 <= tm_sec t < 60.

(** ** The routine agrees with the calendar *)

(** Days to the first of month [m] of year [1900 + ty] as the routine counts them. *)
Definition days_code (ty m : Z) : Z :=
  365 * (ty - 70) + (ty - 70 + 1) / 4 + default 0 (month !! Z.to_nat m) / DAY
  - (if (1 <? m) && negb ((ty - 70 + 2) mod 4 =? 0) then 1 else 0).

Lemma days_code_check :
  forallb (fun ty => forallb (fun m =>
    days_code ty m =? days_before_year (1900 + ty) + days_before_month (1900 + ty) m)
      (seqZ 0 12)) (seqZ 70 130) = true.
Proof. vm_compute. reflexivity. Qed.

Lemma days_code_correct ty m :
  70 <= ty <= 199 -> 0 <= m <= 11 ->
  days_code ty m = days_before_year (1900 + ty) + days_before_month (1900 + ty) m.
Proof.
  intros Ht Hm. pose proof days_code_check as H.
  rewrite forallb_forall in H. specialize (H ty).
  rewrite forallb_forall in H. apply Z.eqb_eq, H.
  - apply list_elem_of_In, elem_of_seqZ. lia.
  - apply list_elem_of_In, elem_of_seqZ. lia.
Qed.

Lemma month_days_multiple m :
  0 <= m <= 11 ->
  month !! Z.to_nat m = Some (DAY * (default 0 (month !! Z.to_nat m) / DAY)).
Proof.
  intros Hm.
  assert (Forall (fun z => z = DAY * (z / DAY)) month) as H
    by (repeat constructor).
  destruct (month !! Z.to_nat m) as [z|] eqn:E.
  - cbn [default from_option]. f_equal. exact (Forall_lookup_1 _ _ _ _ H E).
  - apply lookup_ge_None in E. cbn [length month] in E. lia.
Qed.

(** C36: for every date from 1970 to 2099 the boot clock conversion is the
    calendar's number of seconds since 1 January 1970, reduced to a 32-bit
    signed long. *)
Theorem kernel_mktime_calendar t :
  valid_tm t -> kernel_mktime t = Some (s32 (civil_seconds t)).
Proof.
  intros (Hy & Hm & Hd & Hh & Hmin & Hs).
  pose proof (month_days_multiple (tm_mon t) Hm) as Em.
  pose proof (days_code_correct _ _ Hy Hm) as Hc. unfold days_code in Hc.
  set (d := default 0 (month !! Z.to_nat (tm_mon t)) / DAY) in *.
  unfold kernel_mktime. rewrite (proj2 (Z.leb_le 0 (tm_mon t)) (proj1 Hm)), Em. cbn [mbind option_bind].
  rewrite (s32_small (tm_year t - 70)), (s32_small (tm_year t - 70 + 1)),
    (s32_small (tm_year t - 70 + 2)) by lia.
  rewrite Z.quot_div_nonneg, Z.rem_mod_nonneg by lia.
  f_equal. unfold truth.
  unfold civil_seconds. rewrite <- Hc.
  destruct (1 <? tm_mon t); destruct ((tm_year t - 70 + 2) mod 4 =? 0); cbn [andb negb];
    apply eqm32_s32; rewrite !eqm32_s32_id; apply eq_subrelation; try exact _;
    unfold YEAR, DAY, HOUR, MINUTE; lia.
Qed.

Lemma kernel_mktime_calendar_witness :
  valid_tm (Tm 59 59 23 29 1 96 0 0 0) /\
  kernel_mktime (Tm 59 59 23 29 1 96 0 0 0) = Some 825638399.
Proof.
  assert (valid_tm (Tm 59 59 23 29 1 96 0 0 0)) as H
    by (unfold valid_tm; cbn [tm_year tm_mon tm_mday tm_hour tm_min tm_sec]; vm_compute; intuition congruence).
  split; [exact H|]. rewrite (kernel_mktime_calendar _ H). vm_compute. reflexivity.
Defined.
