(* ===== verification/Kernel.v ===== *)
(** * The kernel's data: structures, tables and global variables

    The [struct]s of include/linux/*.h as records, the kernel's global
    variables as one state record, and the accessors the routines of the other
    files are written with.  A C pointer into a static array is an index; NULL
    is [None].  A task is designated by its slot in [task[]]. *)

From S2P Require Import Prelude.

(** ** Constants: include/errno.h, signal.h, fcntl.h, sys/stat.h, linux/fs.h *)

Definition ERROR : Z := 99.
Definition EPERM : Z := 1.
Definition ENOENT : Z := 2.
Definition ESRCH : Z := 3.
Definition EINTR : Z := 4.
Definition EIO : Z := 5.
Definition ENOEXEC : Z := 8.
Definition EBADF : Z := 9.
Definition ECHILD : Z := 10.
Definition EAGAIN : Z := 11.
Definition ENOMEM : Z := 12.
Definition EACCES : Z := 13.
Definition ENOTBLK : Z := 15.
Definition EBUSY : Z := 16.
Definition EEXIST : Z := 17.
Definition EXDEV : Z := 18.
Definition ENODEV : Z := 19.
Definition ENOTDIR : Z := 20.
Definition EISDIR : Z := 21.
Definition EINVAL : Z := 22.
Definition EMFILE : Z := 24.
Definition ENOTTY : Z := 25.
Definition ENOSPC : Z := 28.
Definition ESPIPE : Z := 29.
Definition ENOSYS : Z := 38.
Definition ENOTEMPTY : Z := 39.

Definition SIGHUP : Z := 1.
Definition SIGINT : Z := 2.
Definition SIGQUIT : Z := 3.
Definition SIGKILL : Z := 9.
Definition SIGSEGV : Z := 11.
Definition SIGPIPE : Z := 13.
Definition SIGALRM : Z := 14.
Definition SIGCHLD : Z := 17.
Definition SIGSTOP : Z := 19.
(** [1<<(nr-1)] as a 32-bit int. *)
Definition sigbit (nr : Z) : Z := s32 (Z.shiftl 1 (nr - 1)).

Definition NR_TASKS : nat := 64.
Definition HZ : Z := 100.
Definition NR_OPEN : Z := 20.
Definition NR_INODE : nat := 32.
Definition NR_FILE : nat := 64.
Definition NR_SUPER : nat := 8.
Definition NR_HASH : Z := 307.
Definition BLOCK_SIZE : Z := 1024.
Definition PAGE_SIZE : Z := 4096.
Definition READ : Z := 0.
Definition WRITE : Z := 1.
Definition READA : Z := 2.
Definition WRITEA : Z := 3.
Definition MAJOR (a : Z) : Z := Z.shiftr (u32 a) 8.
Definition MINOR (a : Z) : Z := Z.land a 255.
Definition IS_SEEKABLE (x : Z) : bool := (1 <=? x) && (x <=? 3).

Definition TASK_RUNNING : Z := 0.
Definition TASK_INTERRUPTIBLE : Z := 1.
Definition TASK_UNINTERRUPTIBLE : Z := 2.
Definition TASK_ZOMBIE : Z := 3.
Definition TASK_STOPPED : Z := 4.

(** File modes, written in octal in the headers. *)
Definition S_IFMT : Z := 0xF000.
Definition S_ISREG (m : Z) : bool := Z.land m S_IFMT =? 0x8000.
Definition S_ISDIR (m : Z) : bool := Z.land m S_IFMT =? 0x4000.
Definition S_ISCHR (m : Z) : bool := Z.land m S_IFMT =? 0x2000.
Definition S_ISBLK (m : Z) : bool := Z.land m S_IFMT =? 0x6000.

(** Accesses to I/O ports, in program order: a byte (or 16-bit word) written
    to a port or read from one. *)
Inductive io_event : Type := PortOut (v port : Z) | PortIn (v port : Z).

(** include/linux/fs.h: a buffer head; the pointers to other buffer heads are
    indices from [start_buffer], the wait queue holds a task.  the pointer
    [b_data] is its value [b_addr] and the 1024-byte block it points to. *)
Record buffer_head := BufferHead {
  b_addr : Z;
  b_data : list Z;
  b_blocknr : Z;
  b_dev : Z;
  b_uptodate : Z;
  b_dirt : Z;
  b_count : Z;
  b_lock : Z;
  b_wait : option nat;
  b_prev : option nat;
  b_next : option nat;
  b_prev_free : option nat;
  b_next_free : option nat }.
Definition eta_buffer_head (r : buffer_head) : buffer_head := BufferHead (b_addr r) (b_data r) (b_blocknr r) (b_dev r) (b_uptodate r) (b_dirt r) (b_count r) (b_lock r) (b_wait r) (b_prev r) (b_next r) (b_prev_free r) (b_next_free r).
#[export] Instance set_b_addr : Setter b_addr := ltac:(build_setter eta_buffer_head b_addr).
#[export] Instance set_b_data : Setter b_data := ltac:(build_setter eta_buffer_head b_data).
#[export] Instance set_b_blocknr : Setter b_blocknr := ltac:(build_setter eta_buffer_head b_blocknr).
#[export] Instance set_b_dev : Setter b_dev := ltac:(build_setter eta_buffer_head b_dev).
#[export] Instance set_b_uptodate : Setter b_uptodate := ltac:(build_setter eta_buffer_head b_uptodate).
#[export] Instance set_b_dirt : Setter b_dirt := ltac:(build_setter eta_buffer_head b_dirt).
#[export] Instance set_b_count : Setter b_count := ltac:(build_setter eta_buffer_head b_count).
#[export] Instance set_b_lock : Setter b_lock := ltac:(build_setter eta_buffer_head b_lock).
#[export] Instance set_b_wait : Setter b_wait := ltac:(build_setter eta_buffer_head b_wait).
#[export] Instance set_b_prev : Setter b_prev := ltac:(build_setter eta_buffer_head b_prev).
#[export] Instance set_b_next : Setter b_next := ltac:(build_setter eta_buffer_head b_next).
#[export] Instance set_b_prev_free : Setter b_prev_free := ltac:(build_setter eta_buffer_head b_prev_free).
#[export] Instance set_b_next_free : Setter b_next_free := ltac:(build_setter eta_buffer_head b_next_free).

(** include/linux/fs.h: an inode in memory; the first seven fields are the
    inode on disk ([struct d_inode]). *)
Record m_inode := MInode {
  i_mode : Z;
  i_uid : Z;
  i_size : Z;
  i_mtime : Z;
  i_gid : Z;
  i_nlinks : Z;
  i_zone : list Z;
  i_wait : option nat;
  i_atime : Z;
  i_ctime : Z;
  i_dev : Z;
  i_num : Z;
  i_count : Z;
  i_lock : Z;
  i_dirt : Z;
  i_pipe : Z;
  i_mount : Z;
  i_seek : Z;
  i_update : Z }.
Definition eta_m_inode (r : m_inode) : m_inode := MInode (i_mode r) (i_uid r) (i_size r) (i_mtime r) (i_gid r) (i_nlinks r) (i_zone r) (i_wait r) (i_atime r) (i_ctime r) (i_dev r) (i_num r) (i_count r) (i_lock r) (i_dirt r) (i_pipe r) (i_mount r) (i_seek r) (i_update r).
#[export] Instance set_i_mode : Setter i_mode := ltac:(build_setter eta_m_inode i_mode).
#[export] Instance set_i_uid : Setter i_uid := ltac:(build_setter eta_m_inode i_uid).
#[export] Instance set_i_size : Setter i_size := ltac:(build_setter eta_m_inode i_size).
#[export] Instance set_i_mtime : Setter i_mtime := ltac:(build_setter eta_m_inode i_mtime).
#[export] Instance set_i_gid : Setter i_gid := ltac:(build_setter eta_m_inode i_gid).
#[export] Instance set_i_nlinks : Setter i_nlinks := ltac:(build_setter eta_m_inode i_nlinks).
#[export] Instance set_i_zone : Setter i_zone := ltac:(build_setter eta_m_inode i_zone).
#[export] Instance set_i_wait : Setter i_wait := ltac:(build_setter eta_m_inode i_wait).
#[export] Instance set_i_atime : Setter i_atime := ltac:(build_setter eta_m_inode i_atime).
#[export] Instance set_i_ctime : Setter i_ctime := ltac:(build_setter eta_m_inode i_ctime).
#[export] Instance set_i_dev : Setter i_dev := ltac:(build_setter eta_m_inode i_dev).
#[export] Instance set_i_num : Setter i_num := ltac:(build_setter eta_m_inode i_num).
#[export] Instance set_i_count : Setter i_count := ltac:(build_setter eta_m_inode i_count).
#[export] Instance set_i_lock : Setter i_lock := ltac:(build_setter eta_m_inode i_lock).
#[export] Instance set_i_dirt : Setter i_dirt := ltac:(build_setter eta_m_inode i_dirt).
#[export] Instance set_i_pipe : Setter i_pipe := ltac:(build_setter eta_m_inode i_pipe).
#[export] Instance set_i_mount : Setter i_mount := ltac:(build_setter eta_m_inode i_mount).
#[export] Instance set_i_seek : Setter i_seek := ltac:(build_setter eta_m_inode i_seek).
#[export] Instance set_i_update : Setter i_update := ltac:(build_setter eta_m_inode i_update).

(** include/linux/fs.h: an open file. *)
Record file := File {
  f_mode : Z;
  f_flags : Z;
  f_count : Z;
  f_inode : option nat;
  f_pos : Z }.
Definition eta_file (r : file) : file := File (f_mode r) (f_flags r) (f_count r) (f_inode r) (f_pos r).
#[export] Instance set_f_mode : Setter f_mode := ltac:(build_setter eta_file f_mode).
#[export] Instance set_f_flags : Setter f_flags := ltac:(build_setter eta_file f_flags).
#[export] Instance set_f_count : Setter f_count := ltac:(build_setter eta_file f_count).
#[export] Instance set_f_inode : Setter f_inode := ltac:(build_setter eta_file f_inode).
#[export] Instance set_f_pos : Setter f_pos := ltac:(build_setter eta_file f_pos).

(** include/linux/fs.h: a super block; the maps point to buffer heads, the
    mount points to inodes. *)
Record super_block := SuperBlock {
  s_ninodes : Z;
  s_nzones : Z;
  s_imap_blocks : Z;
  s_zmap_blocks : Z;
  s_firstdatazone : Z;
  s_log_zone_size : Z;
  s_max_size : Z;
  s_magic : Z;
  s_imap : list (option nat);
  s_zmap : list (option nat);
  s_dev : Z;
  s_isup : option nat;
  s_imount : option nat;
  s_time : Z;
  s_wait : option nat;
  s_lock : Z;
  s_rd_only : Z;
  s_dirt : Z }.
Definition eta_super_block (r : super_block) : super_block := SuperBlock (s_ninodes r) (s_nzones r) (s_imap_blocks r) (s_zmap_blocks r) (s_firstdatazone r) (s_log_zone_size r) (s_max_size r) (s_magic r) (s_imap r) (s_zmap r) (s_dev r) (s_isup r) (s_imount r) (s_time r) (s_wait r) (s_lock r) (s_rd_only r) (s_dirt r).
#[export] Instance set_s_ninodes : Setter s_ninodes := ltac:(build_setter eta_super_block s_ninodes).
#[export] Instance set_s_nzones : Setter s_nzones := ltac:(build_setter eta_super_block s_nzones).
#[export] Instance set_s_imap_blocks : Setter s_imap_blocks := ltac:(build_setter eta_super_block s_imap_blocks).
#[export] Instance set_s_zmap_blocks : Setter s_zmap_blocks := ltac:(build_setter eta_super_block s_zmap_blocks).
#[export] Instance set_s_firstdatazone : Setter s_firstdatazone := ltac:(build_setter eta_super_block s_firstdatazone).
#[export] Instance set_s_log_zone_size : Setter s_log_zone_size := ltac:(build_setter eta_super_block s_log_zone_size).
#[export] Instance set_s_max_size : Setter s_max_size := ltac:(build_setter eta_super_block s_max_size).
#[export] Instance set_s_magic : Setter s_magic := ltac:(build_setter eta_super_block s_magic).
#[export] Instance set_s_imap : Setter s_imap := ltac:(build_setter eta_super_block s_imap).
#[export] Instance set_s_zmap : Setter s_zmap := ltac:(build_setter eta_super_block s_zmap).
#[export] Instance set_s_dev : Setter s_dev := ltac:(build_setter eta_super_block s_dev).
#[export] Instance set_s_isup : Setter s_isup := ltac:(build_setter eta_super_block s_isup).
#[export] Instance set_s_imount : Setter s_imount := ltac:(build_setter eta_super_block s_imount).
#[export] Instance set_s_time : Setter s_time := ltac:(build_setter eta_super_block s_time).
#[export] Instance set_s_wait : Setter s_wait := ltac:(build_setter eta_super_block s_wait).
#[export] Instance set_s_lock : Setter s_lock := ltac:(build_setter eta_super_block s_lock).
#[export] Instance set_s_rd_only : Setter s_rd_only := ltac:(build_setter eta_super_block s_rd_only).
#[export] Instance set_s_dirt : Setter s_dirt := ltac:(build_setter eta_super_block s_dirt).

(** include/signal.h: [struct sigaction]. *)
Record sigaction := Sigaction {
  sa_handler : Z;
  sa_mask : Z;
  sa_flags : Z;
  sa_restorer : Z }.
Definition eta_sigaction (r : sigaction) : sigaction := Sigaction (sa_handler r) (sa_mask r) (sa_flags r) (sa_restorer r).
#[export] Instance set_sa_handler : Setter sa_handler := ltac:(build_setter eta_sigaction sa_handler).
#[export] Instance set_sa_mask : Setter sa_mask := ltac:(build_setter eta_sigaction sa_mask).
#[export] Instance set_sa_flags : Setter sa_flags := ltac:(build_setter eta_sigaction sa_flags).
#[export] Instance set_sa_restorer : Setter sa_restorer := ltac:(build_setter eta_sigaction sa_restorer).

(** include/linux/head.h: a segment descriptor, two 32-bit words. *)
Record desc_struct := Desc {
  d_a : Z;
  d_b : Z }.
Definition eta_desc_struct (r : desc_struct) : desc_struct := Desc (d_a r) (d_b r).
#[export] Instance set_d_a : Setter d_a := ltac:(build_setter eta_desc_struct d_a).
#[export] Instance set_d_b : Setter d_b := ltac:(build_setter eta_desc_struct d_b).

(** include/linux/sched.h: the saved registers of a task that the C code
    writes (the hardware-only fields esp1..cr3 and the i387 area are left out). *)
Record tss_struct := Tss {
  tss_back_link : Z;
  tss_esp0 : Z;
  tss_ss0 : Z;
  tss_eip : Z;
  tss_eflags : Z;
  tss_eax : Z;
  tss_ecx : Z;
  tss_edx : Z;
  tss_ebx : Z;
  tss_esp : Z;
  tss_ebp : Z;
  tss_esi : Z;
  tss_edi : Z;
  tss_es : Z;
  tss_cs : Z;
  tss_ss : Z;
  tss_ds : Z;
  tss_fs : Z;
  tss_gs : Z;
  tss_ldt : Z;
  tss_trace_bitmap : Z }.
Definition eta_tss_struct (r : tss_struct) : tss_struct := Tss (tss_back_link r) (tss_esp0 r) (tss_ss0 r) (tss_eip r) (tss_eflags r) (tss_eax r) (tss_ecx r) (tss_edx r) (tss_ebx r) (tss_esp r) (tss_ebp r) (tss_esi r) (tss_edi r) (tss_es r) (tss_cs r) (tss_ss r) (tss_ds r) (tss_fs r) (tss_gs r) (tss_ldt r) (tss_trace_bitmap r).
#[export] Instance set_tss_back_link : Setter tss_back_link := ltac:(build_setter eta_tss_struct tss_back_link).
#[export] Instance set_tss_esp0 : Setter tss_esp0 := ltac:(build_setter eta_tss_struct tss_esp0).
#[export] Instance set_tss_ss0 : Setter tss_ss0 := ltac:(build_setter eta_tss_struct tss_ss0).
#[export] Instance set_tss_eip : Setter tss_eip := ltac:(build_setter eta_tss_struct tss_eip).
#[export] Instance set_tss_eflags : Setter tss_eflags := ltac:(build_setter eta_tss_struct tss_eflags).
#[export] Instance set_tss_eax : Setter tss_eax := ltac:(build_setter eta_tss_struct tss_eax).
#[export] Instance set_tss_ecx : Setter tss_ecx := ltac:(build_setter eta_tss_struct tss_ecx).
#[export] Instance set_tss_edx : Setter tss_edx := ltac:(build_setter eta_tss_struct tss_edx).
#[export] Instance set_tss_ebx : Setter tss_ebx := ltac:(build_setter eta_tss_struct tss_ebx).
#[export] Instance set_tss_esp : Setter tss_esp := ltac:(build_setter eta_tss_struct tss_esp).
#[export] Instance set_tss_ebp : Setter tss_ebp := ltac:(build_setter eta_tss_struct tss_ebp).
#[export] Instance set_tss_esi : Setter tss_esi := ltac:(build_setter eta_tss_struct tss_esi).
#[export] Instance set_tss_edi : Setter tss_edi := ltac:(build_setter eta_tss_struct tss_edi).
#[export] Instance set_tss_es : Setter tss_es := ltac:(build_setter eta_tss_struct tss_es).
#[export] Instance set_tss_cs : Setter tss_cs := ltac:(build_setter eta_tss_struct tss_cs).
#[export] Instance set_tss_ss : Setter tss_ss := ltac:(build_setter eta_tss_struct tss_ss).
#[export] Instance set_tss_ds : Setter tss_ds := ltac:(build_setter eta_tss_struct tss_ds).
#[export] Instance set_tss_fs : Setter tss_fs := ltac:(build_setter eta_tss_struct tss_fs).
#[export] Instance set_tss_gs : Setter tss_gs := ltac:(build_setter eta_tss_struct tss_gs).
#[export] Instance set_tss_ldt : Setter tss_ldt := ltac:(build_setter eta_tss_struct tss_ldt).
#[export] Instance set_tss_trace_bitmap : Setter tss_trace_bitmap := ltac:(build_setter eta_tss_struct tss_trace_bitmap).

(** include/linux/sched.h: a process; [t_page] is the address of the structure
    itself (the value of the pointer [task[n]]), [t_pwd], [t_root] and [t_executable]
    point into [inode_table], [t_filp] into [file_table]. *)
Record task_struct := Task {
  t_page : Z;
  t_state : Z;
  t_counter : Z;
  t_priority : Z;
  t_signal : Z;
  t_sigaction : list sigaction;
  t_blocked : Z;
  t_exit_code : Z;
  t_start_code : Z;
  t_end_code : Z;
  t_end_data : Z;
  t_brk : Z;
  t_start_stack : Z;
  t_pid : Z;
  t_father : Z;
  t_pgrp : Z;
  t_session : Z;
  t_leader : Z;
  t_uid : Z;
  t_euid : Z;
  t_suid : Z;
  t_gid : Z;
  t_egid : Z;
  t_sgid : Z;
  t_alarm : Z;
  t_utime : Z;
  t_stime : Z;
  t_cutime : Z;
  t_cstime : Z;
  t_start_time : Z;
  t_used_math : Z;
  t_tty : Z;
  t_umask : Z;
  t_pwd : option nat;
  t_root : option nat;
  t_executable : option nat;
  t_close_on_exec : Z;
  t_filp : list (option nat);
  t_ldt : list desc_struct;
  t_tss : tss_struct }.
Definition eta_task_struct (r : task_struct) : task_struct := Task (t_page r) (t_state r) (t_counter r) (t_priority r) (t_signal r) (t_sigaction r) (t_blocked r) (t_exit_code r) (t_start_code r) (t_end_code r) (t_end_data r) (t_brk r) (t_start_stack r) (t_pid r) (t_father r) (t_pgrp r) (t_session r) (t_leader r) (t_uid r) (t_euid r) (t_suid r) (t_gid r) (t_egid r) (t_sgid r) (t_alarm r) (t_utime r) (t_stime r) (t_cutime r) (t_cstime r) (t_start_time r) (t_used_math r) (t_tty r) (t_umask r) (t_pwd r) (t_root r) (t_executable r) (t_close_on_exec r) (t_filp r) (t_ldt r) (t_tss r).
#[export] Instance set_t_page : Setter t_page := ltac:(build_setter eta_task_struct t_page).
#[export] Instance set_t_state : Setter t_state := ltac:(build_setter eta_task_struct t_state).
#[export] Instance set_t_counter : Setter t_counter := ltac:(build_setter eta_task_struct t_counter).
#[export] Instance set_t_priority : Setter t_priority := ltac:(build_setter eta_task_struct t_priority).
#[export] Instance set_t_signal : Setter t_signal := ltac:(build_setter eta_task_struct t_signal).
#[export] Instance set_t_sigaction : Setter t_sigaction := ltac:(build_setter eta_task_struct t_sigaction).
#[export] Instance set_t_blocked : Setter t_blocked := ltac:(build_setter eta_task_struct t_blocked).
#[export] Instance set_t_exit_code : Setter t_exit_code := ltac:(build_setter eta_task_struct t_exit_code).
#[export] Instance set_t_start_code : Setter t_start_code := ltac:(build_setter eta_task_struct t_start_code).
#[export] Instance set_t_end_code : Setter t_end_code := ltac:(build_setter eta_task_struct t_end_code).
#[export] Instance set_t_end_data : Setter t_end_data := ltac:(build_setter eta_task_struct t_end_data).
#[export] Instance set_t_brk : Setter t_brk := ltac:(build_setter eta_task_struct t_brk).
#[export] Instance set_t_start_stack : Setter t_start_stack := ltac:(build_setter eta_task_struct t_start_stack).
#[export] Instance set_t_pid : Setter t_pid := ltac:(build_setter eta_task_struct t_pid).
#[export] Instance set_t_father : Setter t_father := ltac:(build_setter eta_task_struct t_father).
#[export] Instance set_t_pgrp : Setter t_pgrp := ltac:(build_setter eta_task_struct t_pgrp).
#[export] Instance set_t_session : Setter t_session := ltac:(build_setter eta_task_struct t_session).
#[export] Instance set_t_leader : Setter t_leader := ltac:(build_setter eta_task_struct t_leader).
#[export] Instance set_t_uid : Setter t_uid := ltac:(build_setter eta_task_struct t_uid).
#[export] Instance set_t_euid : Setter t_euid := ltac:(build_setter eta_task_struct t_euid).
#[export] Instance set_t_suid : Setter t_suid := ltac:(build_setter eta_task_struct t_suid).
#[export] Instance set_t_gid : Setter t_gid := ltac:(build_setter eta_task_struct t_gid).
#[export] Instance set_t_egid : Setter t_egid := ltac:(build_setter eta_task_struct t_egid).
#[export] Instance set_t_sgid : Setter t_sgid := ltac:(build_setter eta_task_struct t_sgid).
#[export] Instance set_t_alarm : Setter t_alarm := ltac:(build_setter eta_task_struct t_alarm).
#[export] Instance set_t_utime : Setter t_utime := ltac:(build_setter eta_task_struct t_utime).
#[export] Instance set_t_stime : Setter t_stime := ltac:(build_setter eta_task_struct t_stime).
#[export] Instance set_t_cutime : Setter t_cutime := ltac:(build_setter eta_task_struct t_cutime).
#[export] Instance set_t_cstime : Setter t_cstime := ltac:(build_setter eta_task_struct t_cstime).
#[export] Instance set_t_start_time : Setter t_start_time := ltac:(build_setter eta_task_struct t_start_time).
#[export] Instance set_t_used_math : Setter t_used_math := ltac:(build_setter eta_task_struct t_used_math).
#[export] Instance set_t_tty : Setter t_tty := ltac:(build_setter eta_task_struct t_tty).
#[export] Instance set_t_umask : Setter t_umask := ltac:(build_setter eta_task_struct t_umask).
#[export] Instance set_t_pwd : Setter t_pwd := ltac:(build_setter eta_task_struct t_pwd).
#[export] Instance set_t_root : Setter t_root := ltac:(build_setter eta_task_struct t_root).
#[export] Instance set_t_executable : Setter t_executable := ltac:(build_setter eta_task_struct t_executable).
#[export] Instance set_t_close_on_exec : Setter t_close_on_exec := ltac:(build_setter eta_task_struct t_close_on_exec).
#[export] Instance set_t_filp : Setter t_filp := ltac:(build_setter eta_task_struct t_filp).
#[export] Instance set_t_ldt : Setter t_ldt := ltac:(build_setter eta_task_struct t_ldt).
#[export] Instance set_t_tss : Setter t_tss := ltac:(build_setter eta_task_struct t_tss).

(** kernel/sched.c: a timer request; the function pointer is an opaque name. *)
Record timer_list := Timer {
  tl_jiffies : Z;
  tl_fn : option nat;
  tl_next : option nat }.
Definition eta_timer_list (r : timer_list) : timer_list := Timer (tl_jiffies r) (tl_fn r) (tl_next r).
#[export] Instance set_tl_jiffies : Setter tl_jiffies := ltac:(build_setter eta_timer_list tl_jiffies).
#[export] Instance set_tl_fn : Setter tl_fn := ltac:(build_setter eta_timer_list tl_fn).
#[export] Instance set_tl_next : Setter tl_next := ltac:(build_setter eta_timer_list tl_next).

(** mm/memory.c: the page reference counts, the end of memory, and physical
    memory as 32-bit words at multiples of 4 (absent words are 0). *)
Record mm_state := Mm {
  mem_map : list Z;
  HIGH_MEMORY : Z;
  words : gmap Z Z }.
Definition eta_mm_state (r : mm_state) : mm_state := Mm (mem_map r) (HIGH_MEMORY r) (words r).
#[export] Instance set_mem_map : Setter mem_map := ltac:(build_setter eta_mm_state mem_map).
#[export] Instance set_HIGH_MEMORY : Setter HIGH_MEMORY := ltac:(build_setter eta_mm_state HIGH_MEMORY).
#[export] Instance set_words : Setter words := ltac:(build_setter eta_mm_state words).

(** kernel/blk_drv/blk.h: a block request; the pointer [buffer] is the data area
    of the buffer head [r_buffer], at offset [r_boff]. *)
Record request := Request {
  r_dev : Z;
  r_cmd : Z;
  r_errors : Z;
  r_sector : Z;
  r_nr_sectors : Z;
  r_buffer : option nat;
  r_boff : Z;
  r_waiting : option nat;
  r_bh : option nat;
  r_next : option nat }.
Definition eta_request (r : request) : request := Request (r_dev r) (r_cmd r) (r_errors r) (r_sector r) (r_nr_sectors r) (r_buffer r) (r_boff r) (r_waiting r) (r_bh r) (r_next r).
#[export] Instance set_r_dev : Setter r_dev := ltac:(build_setter eta_request r_dev).
#[export] Instance set_r_cmd : Setter r_cmd := ltac:(build_setter eta_request r_cmd).
#[export] Instance set_r_errors : Setter r_errors := ltac:(build_setter eta_request r_errors).
#[export] Instance set_r_sector : Setter r_sector := ltac:(build_setter eta_request r_sector).
#[export] Instance set_r_nr_sectors : Setter r_nr_sectors := ltac:(build_setter eta_request r_nr_sectors).
#[export] Instance set_r_buffer : Setter r_buffer := ltac:(build_setter eta_request r_buffer).
#[export] Instance set_r_boff : Setter r_boff := ltac:(build_setter eta_request r_boff).
#[export] Instance set_r_waiting : Setter r_waiting := ltac:(build_setter eta_request r_waiting).
#[export] Instance set_r_bh : Setter r_bh := ltac:(build_setter eta_request r_bh).
#[export] Instance set_r_next : Setter r_next := ltac:(build_setter eta_request r_next).

(** kernel/blk_drv/blk.h: a block device's driver entry and its queue head. *)
Record blk_dev_struct := BlkDev {
  request_fn : option nat;
  current_request : option nat }.
Definition eta_blk_dev_struct (r : blk_dev_struct) : blk_dev_struct := BlkDev (request_fn r) (current_request r).
#[export] Instance set_request_fn : Setter request_fn := ltac:(build_setter eta_blk_dev_struct request_fn).
#[export] Instance set_current_request : Setter current_request := ltac:(build_setter eta_blk_dev_struct current_request).

(** include/termios.h: [struct termios]; [c_cc] has 17 entries. *)
Record termios := Termios {
  c_iflag : Z;
  c_oflag : Z;
  c_cflag : Z;
  c_lflag : Z;
  c_line : Z;
  c_cc : list Z }.
Definition eta_termios (r : termios) : termios := Termios (c_iflag r) (c_oflag r) (c_cflag r) (c_lflag r) (c_line r) (c_cc r).
#[export] Instance set_c_iflag : Setter c_iflag := ltac:(build_setter eta_termios c_iflag).
#[export] Instance set_c_oflag : Setter c_oflag := ltac:(build_setter eta_termios c_oflag).
#[export] Instance set_c_cflag : Setter c_cflag := ltac:(build_setter eta_termios c_cflag).
#[export] Instance set_c_lflag : Setter c_lflag := ltac:(build_setter eta_termios c_lflag).
#[export] Instance set_c_line : Setter c_line := ltac:(build_setter eta_termios c_line).
#[export] Instance set_c_cc : Setter c_cc := ltac:(build_setter eta_termios c_cc).

(** include/linux/tty.h: [struct tty_queue]. *)
Record tty_queue := TtyQueue {
  q_data : Z;
  q_head : Z;
  q_tail : Z;
  q_proc_list : option nat;
  q_buf : list Z }.
Definition eta_tty_queue (r : tty_queue) : tty_queue := TtyQueue (q_data r) (q_head r) (q_tail r) (q_proc_list r) (q_buf r).
#[export] Instance set_q_data : Setter q_data := ltac:(build_setter eta_tty_queue q_data).
#[export] Instance set_q_head : Setter q_head := ltac:(build_setter eta_tty_queue q_head).
#[export] Instance set_q_tail : Setter q_tail := ltac:(build_setter eta_tty_queue q_tail).
#[export] Instance set_q_proc_list : Setter q_proc_list := ltac:(build_setter eta_tty_queue q_proc_list).
#[export] Instance set_q_buf : Setter q_buf := ltac:(build_setter eta_tty_queue q_buf).

(** include/linux/tty.h: [struct tty_struct]; the write routine is 0 for
    [con_write], 1 for [rs_write]. *)
Record tty_struct := Tty {
  tty_termios : termios;
  tty_pgrp : Z;
  tty_stopped : Z;
  tty_write_fn : nat;
  tty_read_q : tty_queue;
  tty_write_q : tty_queue;
  tty_secondary : tty_queue }.
Definition eta_tty_struct (r : tty_struct) : tty_struct := Tty (tty_termios r) (tty_pgrp r) (tty_stopped r) (tty_write_fn r) (tty_read_q r) (tty_write_q r) (tty_secondary r).
#[export] Instance set_tty_termios : Setter tty_termios := ltac:(build_setter eta_tty_struct tty_termios).
#[export] Instance set_tty_pgrp : Setter tty_pgrp := ltac:(build_setter eta_tty_struct tty_pgrp).
#[export] Instance set_tty_stopped : Setter tty_stopped := ltac:(build_setter eta_tty_struct tty_stopped).
#[export] Instance set_tty_write_fn : Setter tty_write_fn := ltac:(build_setter eta_tty_struct tty_write_fn).
#[export] Instance set_tty_read_q : Setter tty_read_q := ltac:(build_setter eta_tty_struct tty_read_q).
#[export] Instance set_tty_write_q : Setter tty_write_q := ltac:(build_setter eta_tty_struct tty_write_q).
#[export] Instance set_tty_secondary : Setter tty_secondary := ltac:(build_setter eta_tty_struct tty_secondary).

(** kernel/chr_drv/console.c: the static variables and the video memory, as
    16-bit words at even addresses. *)
Record console := Console {
  video_type : Z;
  video_num_columns : Z;
  video_size_row : Z;
  video_num_lines : Z;
  video_page : Z;
  video_mem_start : Z;
  video_mem_end : Z;
  video_port_reg : Z;
  video_port_val : Z;
  video_erase_char : Z;
  con_origin : Z;
  scr_end : Z;
  con_pos : Z;
  con_x : Z;
  con_y : Z;
  con_top : Z;
  con_bottom : Z;
  con_state : Z;
  npar : Z;
  par : list Z;
  ques : Z;
  con_attr : Z;
  saved_x : Z;
  saved_y : Z;
  vram : gmap Z Z }.
Definition eta_console (r : console) : console := Console (video_type r) (video_num_columns r) (video_size_row r) (video_num_lines r) (video_page r) (video_mem_start r) (video_mem_end r) (video_port_reg r) (video_port_val r) (video_erase_char r) (con_origin r) (scr_end r) (con_pos r) (con_x r) (con_y r) (con_top r) (con_bottom r) (con_state r) (npar r) (par r) (ques r) (con_attr r) (saved_x r) (saved_y r) (vram r).
#[export] Instance set_video_type : Setter video_type := ltac:(build_setter eta_console video_type).
#[export] Instance set_video_num_columns : Setter video_num_columns := ltac:(build_setter eta_console video_num_columns).
#[export] Instance set_video_size_row : Setter video_size_row := ltac:(build_setter eta_console video_size_row).
#[export] Instance set_video_num_lines : Setter video_num_lines := ltac:(build_setter eta_console video_num_lines).
#[export] Instance set_video_page : Setter video_page := ltac:(build_setter eta_console video_page).
#[export] Instance set_video_mem_start : Setter video_mem_start := ltac:(build_setter eta_console video_mem_start).
#[export] Instance set_video_mem_end : Setter video_mem_end := ltac:(build_setter eta_console video_mem_end).
#[export] Instance set_video_port_reg : Setter video_port_reg := ltac:(build_setter eta_console video_port_reg).
#[export] Instance set_video_port_val : Setter video_port_val := ltac:(build_setter eta_console video_port_val).
#[export] Instance set_video_erase_char : Setter video_erase_char := ltac:(build_setter eta_console video_erase_char).
#[export] Instance set_con_origin : Setter con_origin := ltac:(build_setter eta_console con_origin).
#[export] Instance set_scr_end : Setter scr_end := ltac:(build_setter eta_console scr_end).
#[export] Instance set_con_pos : Setter con_pos := ltac:(build_setter eta_console con_pos).
#[export] Instance set_con_x : Setter con_x := ltac:(build_setter eta_console con_x).
#[export] Instance set_con_y : Setter con_y := ltac:(build_setter eta_console con_y).
#[export] Instance set_con_top : Setter con_top := ltac:(build_setter eta_console con_top).
#[export] Instance set_con_bottom : Setter con_bottom := ltac:(build_setter eta_console con_bottom).
#[export] Instance set_con_state : Setter con_state := ltac:(build_setter eta_console con_state).
#[export] Instance set_npar : Setter npar := ltac:(build_setter eta_console npar).
#[export] Instance set_par : Setter par := ltac:(build_setter eta_console par).
#[export] Instance set_ques : Setter ques := ltac:(build_setter eta_console ques).
#[export] Instance set_con_attr : Setter con_attr := ltac:(build_setter eta_console con_attr).
#[export] Instance set_saved_x : Setter saved_x := ltac:(build_setter eta_console saved_x).
#[export] Instance set_saved_y : Setter saved_y := ltac:(build_setter eta_console saved_y).
#[export] Instance set_vram : Setter vram := ltac:(build_setter eta_console vram).

(** kernel/blk_drv/hd.c: the geometry of a drive. *)
Record hd_i_struct := HdI {
  hd_head : Z;
  hd_sect : Z;
  hd_cyl : Z;
  hd_wpcom : Z;
  hd_lzone : Z;
  hd_ctl : Z }.
Definition eta_hd_i_struct (r : hd_i_struct) : hd_i_struct := HdI (hd_head r) (hd_sect r) (hd_cyl r) (hd_wpcom r) (hd_lzone r) (hd_ctl r).
#[export] Instance set_hd_head : Setter hd_head := ltac:(build_setter eta_hd_i_struct hd_head).
#[export] Instance set_hd_sect : Setter hd_sect := ltac:(build_setter eta_hd_i_struct hd_sect).
#[export] Instance set_hd_cyl : Setter hd_cyl := ltac:(build_setter eta_hd_i_struct hd_cyl).
#[export] Instance set_hd_wpcom : Setter hd_wpcom := ltac:(build_setter eta_hd_i_struct hd_wpcom).
#[export] Instance set_hd_lzone : Setter hd_lzone := ltac:(build_setter eta_hd_i_struct hd_lzone).
#[export] Instance set_hd_ctl : Setter hd_ctl := ltac:(build_setter eta_hd_i_struct hd_ctl).

(** kernel/blk_drv/hd.c: the static variables; [hd_parts] are the pairs
    (start_sect, nr_sects) of [hd[]]; [do_hd] names the interrupt routine. *)
Record hd_state := Hd {
  hd_recalibrate : Z;
  hd_reset : Z;
  hd_info : list hd_i_struct;
  NR_HD : Z;
  hd_parts : list (Z * Z);
  do_hd : option nat;
  hd_callable : Z }.
Definition eta_hd_state (r : hd_state) : hd_state := Hd (hd_recalibrate r) (hd_reset r) (hd_info r) (NR_HD r) (hd_parts r) (do_hd r) (hd_callable r).
#[export] Instance set_hd_recalibrate : Setter hd_recalibrate := ltac:(build_setter eta_hd_state hd_recalibrate).
#[export] Instance set_hd_reset : Setter hd_reset := ltac:(build_setter eta_hd_state hd_reset).
#[export] Instance set_hd_info : Setter hd_info := ltac:(build_setter eta_hd_state hd_info).
#[export] Instance set_NR_HD : Setter NR_HD := ltac:(build_setter eta_hd_state NR_HD).
#[export] Instance set_hd_parts : Setter hd_parts := ltac:(build_setter eta_hd_state hd_parts).
#[export] Instance set_do_hd : Setter do_hd := ltac:(build_setter eta_hd_state do_hd).
#[export] Instance set_hd_callable : Setter hd_callable := ltac:(build_setter eta_hd_state hd_callable).

(** kernel/blk_drv/floppy.c: the static variables; [floppy] is an index into
    [floppy_type], [do_floppy] names the interrupt routine,
    [tmp_floppy_addr] is the address of [tmp_floppy_area]. *)
Record floppy_state := Floppy {
  fd_recalibrate : Z;
  fd_reset : Z;
  fd_seek : Z;
  reply_buffer : list Z;
  cur_spec1 : Z;
  cur_rate : Z;
  floppy : nat;
  current_drive : Z;
  fd_sector : Z;
  fd_head : Z;
  fd_track : Z;
  seek_track : Z;
  current_track : Z;
  fd_command : Z;
  do_floppy : option nat;
  tmp_floppy_addr : Z;
  tmp_floppy_area : list Z;
  wait_on_floppy_select : option nat }.
Definition eta_floppy_state (r : floppy_state) : floppy_state := Floppy (fd_recalibrate r) (fd_reset r) (fd_seek r) (reply_buffer r) (cur_spec1 r) (cur_rate r) (floppy r) (current_drive r) (fd_sector r) (fd_head r) (fd_track r) (seek_track r) (current_track r) (fd_command r) (do_floppy r) (tmp_floppy_addr r) (tmp_floppy_area r) (wait_on_floppy_select r).
#[export] Instance set_fd_recalibrate : Setter fd_recalibrate := ltac:(build_setter eta_floppy_state fd_recalibrate).
#[export] Instance set_fd_reset : Setter fd_reset := ltac:(build_setter eta_floppy_state fd_reset).
#[export] Instance set_fd_seek : Setter fd_seek := ltac:(build_setter eta_floppy_state fd_seek).
#[export] Instance set_reply_buffer : Setter reply_buffer := ltac:(build_setter eta_floppy_state reply_buffer).
#[export] Instance set_cur_spec1 : Setter cur_spec1 := ltac:(build_setter eta_floppy_state cur_spec1).
#[export] Instance set_cur_rate : Setter cur_rate := ltac:(build_setter eta_floppy_state cur_rate).
#[export] Instance set_floppy : Setter floppy := ltac:(build_setter eta_floppy_state floppy).
#[export] Instance set_current_drive : Setter current_drive := ltac:(build_setter eta_floppy_state current_drive).
#[export] Instance set_fd_sector : Setter fd_sector := ltac:(build_setter eta_floppy_state fd_sector).
#[export] Instance set_fd_head : Setter fd_head := ltac:(build_setter eta_floppy_state fd_head).
#[export] Instance set_fd_track : Setter fd_track := ltac:(build_setter eta_floppy_state fd_track).
#[export] Instance set_seek_track : Setter seek_track := ltac:(build_setter eta_floppy_state seek_track).
#[export] Instance set_current_track : Setter current_track := ltac:(build_setter eta_floppy_state current_track).
#[export] Instance set_fd_command : Setter fd_command := ltac:(build_setter eta_floppy_state fd_command).
#[export] Instance set_do_floppy : Setter do_floppy := ltac:(build_setter eta_floppy_state do_floppy).
#[export] Instance set_tmp_floppy_addr : Setter tmp_floppy_addr := ltac:(build_setter eta_floppy_state tmp_floppy_addr).
#[export] Instance set_tmp_floppy_area : Setter tmp_floppy_area := ltac:(build_setter eta_floppy_state tmp_floppy_area).
#[export] Instance set_wait_on_floppy_select : Setter wait_on_floppy_select := ltac:(build_setter eta_floppy_state wait_on_floppy_select).

(** kernel/blk_drv/ramdisk.c: the memory of the ram disk, as bytes. *)
Record ramdisk := Ramdisk {
  rd_start : Z;
  rd_length : Z;
  rd_data : list Z }.
Definition eta_ramdisk (r : ramdisk) : ramdisk := Ramdisk (rd_start r) (rd_length r) (rd_data r).
#[export] Instance set_rd_start : Setter rd_start := ltac:(build_setter eta_ramdisk rd_start).
#[export] Instance set_rd_length : Setter rd_length := ltac:(build_setter eta_ramdisk rd_length).
#[export] Instance set_rd_data : Setter rd_data := ltac:(build_setter eta_ramdisk rd_data).

(** kernel/chr_drv/keyboard.S: the bytes [mode] (shift 0x01 and 0x02, ctrl 0x04
    and 0x08, alt 0x10 and 0x20, caps lock 0x40, its key 0x80), [leds] and
    [e0]. *)
Record kbd_state := Kbd {
  kb_mode : Z;
  kb_leds : Z;
  kb_e0 : Z }.
Definition eta_kbd_state (r : kbd_state) : kbd_state := Kbd (kb_mode r) (kb_leds r) (kb_e0 r).
#[export] Instance set_kb_mode : Setter kb_mode := ltac:(build_setter eta_kbd_state kb_mode).
#[export] Instance set_kb_leds : Setter kb_leds := ltac:(build_setter eta_kbd_state kb_leds).
#[export] Instance set_kb_e0 : Setter kb_e0 := ltac:(build_setter eta_kbd_state kb_e0).

(** The entry points of the interrupts and exceptions: assembly of boot/head.s,
    asm.s, page.s, system_call.s, keyboard.S and rs_io.s. *)
Module Entry.
Inductive t : Type :=
| divide_error | debug | nmi | int3 | overflow | bounds | invalid_op | device_not_available
| double_fault | coprocessor_segment_overrun | invalid_TSS | segment_not_present | stack_segment
| general_protection | page_fault | coprocessor_error | reserved | parallel_interrupt | irq13
| timer_interrupt | system_call | keyboard_interrupt | rs1_interrupt | rs2_interrupt
| hd_interrupt | floppy_interrupt | ignore_int.
End Entry.
(** include/asm/system.h: an entry of the interrupt descriptor table, as the
    arguments [type], [dpl] and [addr] of the macro [_set_gate] that writes it. *)
Record gate_struct := Gate { gate_type : Z; gate_dpl : Z; gate_addr : Entry.t }.
(** boot/head.s, [setup_idt]: what every entry is at first. *)
Definition ignore_gate : gate_struct := Gate 14 0 Entry.ignore_int.

(** The kernel's global variables. *)
Record kernel := Kernel {
  k_task : list (option task_struct);
  k_current : nat;
  k_jiffies : Z;
  k_startup_time : Z;
  k_last_task_used_math : option nat;
  k_last_pid : Z;
  k_timers : list timer_list;
  k_next_timer : option nat;
  k_wait_motor : list (option nat);
  k_mon_timer : list Z;
  k_moff_timer : list Z;
  k_current_DOR : Z;
  k_selected : Z;
  k_beepcount : Z;
  k_io : list io_event;
  k_switches : nat;
  k_bufs : list buffer_head;
  k_start_buffer : Z;
  k_hash_table : list (option nat);
  k_free_list : option nat;
  k_buffer_wait : option nat;
  k_inodes : list m_inode;
  k_last_inode : nat;
  k_supers : list super_block;
  k_ROOT_DEV : Z;
  k_files : list file;
  k_user : gmap Z Z;
  k_mm : mm_state;
  k_tty : list tty_struct;
  k_requests : list request;
  k_blk_dev : list blk_dev_struct;
  k_wait_for_request : option nat;
  k_gdt : list desc_struct;
  k_cr_flag : Z;
  k_con : console;
  k_hd : hd_state;
  k_rd : ramdisk;
  k_fd : floppy_state;
  k_kbd : kbd_state;
  k_idt : list gate_struct }.
Definition eta_kernel (r : kernel) : kernel := Kernel (k_task r) (k_current r) (k_jiffies r) (k_startup_time r) (k_last_task_used_math r) (k_last_pid r) (k_timers r) (k_next_timer r) (k_wait_motor r) (k_mon_timer r) (k_moff_timer r) (k_current_DOR r) (k_selected r) (k_beepcount r) (k_io r) (k_switches r) (k_bufs r) (k_start_buffer r) (k_hash_table r) (k_free_list r) (k_buffer_wait r) (k_inodes r) (k_last_inode r) (k_supers r) (k_ROOT_DEV r) (k_files r) (k_user r) (k_mm r) (k_tty r) (k_requests r) (k_blk_dev r) (k_wait_for_request r) (k_gdt r) (k_cr_flag r) (k_con r) (k_hd r) (k_rd r) (k_fd r) (k_kbd r) (k_idt r).
#[export] Instance set_k_task : Setter k_task := ltac:(build_setter eta_kernel k_task).
#[export] Instance set_k_current : Setter k_current := ltac:(build_setter eta_kernel k_current).
#[export] Instance set_k_jiffies : Setter k_jiffies := ltac:(build_setter eta_kernel k_jiffies).
#[export] Instance set_k_startup_time : Setter k_startup_time := ltac:(build_setter eta_kernel k_startup_time).
#[export] Instance set_k_last_task_used_math : Setter k_last_task_used_math := ltac:(build_setter eta_kernel k_last_task_used_math).
#[export] Instance set_k_last_pid : Setter k_last_pid := ltac:(build_setter eta_kernel k_last_pid).
#[export] Instance set_k_timers : Setter k_timers := ltac:(build_setter eta_kernel k_timers).
#[export] Instance set_k_next_timer : Setter k_next_timer := ltac:(build_setter eta_kernel k_next_timer).
#[export] Instance set_k_wait_motor : Setter k_wait_motor := ltac:(build_setter eta_kernel k_wait_motor).
#[export] Instance set_k_mon_timer : Setter k_mon_timer := ltac:(build_setter eta_kernel k_mon_timer).
#[export] Instance set_k_moff_timer : Setter k_moff_timer := ltac:(build_setter eta_kernel k_moff_timer).
#[export] Instance set_k_current_DOR : Setter k_current_DOR := ltac:(build_setter eta_kernel k_current_DOR).
#[export] Instance set_k_selected : Setter k_selected := ltac:(build_setter eta_kernel k_selected).
#[export] Instance set_k_beepcount : Setter k_beepcount := ltac:(build_setter eta_kernel k_beepcount).
#[export] Instance set_k_io : Setter k_io := ltac:(build_setter eta_kernel k_io).
#[export] Instance set_k_switches : Setter k_switches := ltac:(build_setter eta_kernel k_switches).
#[export] Instance set_k_bufs : Setter k_bufs := ltac:(build_setter eta_kernel k_bufs).
#[export] Instance set_k_start_buffer : Setter k_start_buffer := ltac:(build_setter eta_kernel k_start_buffer).
#[export] Instance set_k_hash_table : Setter k_hash_table := ltac:(build_setter eta_kernel k_hash_table).
#[export] Instance set_k_free_list : Setter k_free_list := ltac:(build_setter eta_kernel k_free_list).
#[export] Instance set_k_buffer_wait : Setter k_buffer_wait := ltac:(build_setter eta_kernel k_buffer_wait).
#[export] Instance set_k_inodes : Setter k_inodes := ltac:(build_setter eta_kernel k_inodes).
#[export] Instance set_k_last_inode : Setter k_last_inode := ltac:(build_setter eta_kernel k_last_inode).
#[export] Instance set_k_supers : Setter k_supers := ltac:(build_setter eta_kernel k_supers).
#[export] Instance set_k_ROOT_DEV : Setter k_ROOT_DEV := ltac:(build_setter eta_kernel k_ROOT_DEV).
#[export] Instance set_k_files : Setter k_files := ltac:(build_setter eta_kernel k_files).
#[export] Instance set_k_user : Setter k_user := ltac:(build_setter eta_kernel k_user).
#[export] Instance set_k_mm : Setter k_mm := ltac:(build_setter eta_kernel k_mm).
#[export] Instance set_k_tty : Setter k_tty := ltac:(build_setter eta_kernel k_tty).
#[export] Instance set_k_requests : Setter k_requests := ltac:(build_setter eta_kernel k_requests).
#[export] Instance set_k_blk_dev : Setter k_blk_dev := ltac:(build_setter eta_kernel k_blk_dev).
#[export] Instance set_k_wait_for_request : Setter k_wait_for_request := ltac:(build_setter eta_kernel k_wait_for_request).
#[export] Instance set_k_gdt : Setter k_gdt := ltac:(build_setter eta_kernel k_gdt).
#[export] Instance set_k_cr_flag : Setter k_cr_flag := ltac:(build_setter eta_kernel k_cr_flag).
#[export] Instance set_k_con : Setter k_con := ltac:(build_setter eta_kernel k_con).
#[export] Instance set_k_hd : Setter k_hd := ltac:(build_setter eta_kernel k_hd).
#[export] Instance set_k_rd : Setter k_rd := ltac:(build_setter eta_kernel k_rd).
#[export] Instance set_k_fd : Setter k_fd := ltac:(build_setter eta_kernel k_fd).
#[export] Instance set_k_kbd : Setter k_kbd := ltac:(build_setter eta_kernel k_kbd).
#[export] Instance set_k_idt : Setter k_idt := ltac:(build_setter eta_kernel k_idt).
(** ** Tables *)

#[export] Program Instance buffer_table : Table kernel buffer_head :=
  {| tab := k_bufs; set_tab := set_field k_bufs |}.
Solve Obligations with reflexivity.
#[export] Program Instance inode_table : Table kernel m_inode :=
  {| tab := k_inodes; set_tab := set_field k_inodes |}.
Solve Obligations with reflexivity.
#[export] Program Instance super_table : Table kernel super_block :=
  {| tab := k_supers; set_tab := set_field k_supers |}.
Solve Obligations with reflexivity.
#[export] Program Instance file_table : Table kernel file :=
  {| tab := k_files; set_tab := set_field k_files |}.
Solve Obligations with reflexivity.
#[export] Program Instance request_table : Table kernel request :=
  {| tab := k_requests; set_tab := set_field k_requests |}.
Solve Obligations with reflexivity.
#[export] Program Instance timer_table : Table kernel timer_list :=
  {| tab := k_timers; set_tab := set_field k_timers |}.
Solve Obligations with reflexivity.

(** Assigning a global variable. *)
Definition setg {T} (f : kernel -> T) `{!Setter f} (v : T) : M kernel unit :=
  modify (set_field f (fun _ => v)).

(** [f[i]] and [f[i] = v] for a global array [f]. *)
Definition aget {T} (f : kernel -> list T) (i : nat) : M kernel T := fun s =>
  match f s !! i with Some v => Ok v s | None => Fault s end.
Definition aset {T} (f : kernel -> list T) `{!Setter f} (i : nat) (v : T) : M kernel unit := fun s =>
  match f s !! i with
  | Some _ => Ok tt (set_field f (fun l => <[i := v]> l) s)
  | None => Fault s
  end.

(** ** Gates *)

(** include/asm/system.h: the macros that set an entry of the interrupt
    descriptor table. *)
Definition set_intr_gate (n : nat) (addr : Entry.t) : M kernel unit := aset k_idt n (Gate 14 0 addr).
Definition set_trap_gate (n : nat) (addr : Entry.t) : M kernel unit := aset k_idt n (Gate 15 0 addr).
Definition set_system_gate (n : nat) (addr : Entry.t) : M kernel unit := aset k_idt n (Gate 15 3 addr).

(** ** Tasks *)

Definition task_at (s : kernel) (p : nat) : option task_struct := k_task s !! p ≫= id.
(** [p->f], a field of the task in slot [p]. *)
Definition tget {T} (p : nat) (f : task_struct -> T) : M kernel T := fun s =>
  match task_at s p with Some t => Ok (f t) s | None => Fault s end.
Definition tupd {T} (p : nat) (f : task_struct -> T) `{!Setter f} (g : T -> T) : M kernel unit :=
  fun s => match task_at s p with
           | Some t => Ok tt (set_field k_task (fun l => <[p := Some (set_field f g t)]> l) s)
           | None => Fault s
           end.
Definition tst {T} (p : nat) (f : task_struct -> T) `{!Setter f} (v : T) : M kernel unit :=
  tupd p f (fun _ => v).
(** [if ( *p ) ...] on an entry of [task[]]: apply [g] to the task if there is one. *)
Definition tmap (g : task_struct -> task_struct) (p : nat) : M kernel unit :=
  modify (set_field k_task (alter (fmap g) p)).

(** [current->f]. *)
Definition cur {T} (f : task_struct -> T) : M kernel T := fun s => tget (k_current s) f s.
Definition cst {T} (f : task_struct -> T) `{!Setter f} (v : T) : M kernel unit :=
  fun s => tst (k_current s) f v s.
Definition cupd {T} (f : task_struct -> T) `{!Setter f} (g : T -> T) : M kernel unit :=
  fun s => tupd (k_current s) f g s.

(** include/linux/kernel.h: [suser()]. *)
Definition suser : M kernel bool := e ← cur t_euid; mret (e =? 0).
(** include/linux/sched.h: [CURRENT_TIME]. *)
Definition CURRENT_TIME : M kernel Z :=
  gets (fun s => s32 (k_startup_time s + Z.quot (k_jiffies s) HZ)).

(** ** User memory, through the fs segment (include/asm/segment.h) *)

Definition get_fs_byte (addr : Z) : M kernel Z :=
  gets (fun s => default 0 (k_user s !! u32 addr)).
Definition put_fs_byte (v addr : Z) : M kernel unit :=
  modify (set_field k_user (fun m => <[u32 addr := u8 v]> m)).
Definition get_fs_long (addr : Z) : M kernel Z :=
  b0 ← get_fs_byte addr; b1 ← get_fs_byte (addr + 1);
  b2 ← get_fs_byte (addr + 2); b3 ← get_fs_byte (addr + 3);
  mret (b0 + 2 ^ 8 * b1 + 2 ^ 16 * b2 + 2 ^ 24 * b3).
Definition put_fs_long (v addr : Z) : M kernel unit :=
  let w := u32 v in
  put_fs_byte w addr ;; put_fs_byte (Z.shiftr w 8) (addr + 1) ;;
  put_fs_byte (Z.shiftr w 16) (addr + 2) ;; put_fs_byte (Z.shiftr w 24) (addr + 3).

(** A write of byte [v] to I/O port [port] (include/asm/io.h); the port
    accesses are recorded in order. *)
Definition outb (v port : Z) : M kernel unit :=
  modify (set_field k_io (fun l => l ++ [PortOut (u8 v) port])).

(** ** The environment

    [switched_out n next s]: the kernel state when this task runs again after
    its [n]-th context switch, which gave the processor to task [next].  It is
    whatever the other tasks and the interrupt handlers did in between, so
    theorems about code that sleeps quantify over it. *)
Class Env := switched_out : nat -> nat -> kernel -> kernel.

(** The value the hardware gives to a read of an I/O port: it may depend on
    everything written and read so far.  Every read is recorded. *)
Class Hardware := port_in : kernel -> Z -> Z.
Definition in_port `{Hardware} (wrap : Z -> Z) (port : Z) : M kernel Z :=
  v ← gets (fun s => wrap (port_in s port));
  modify (set_field k_io (fun l => l ++ [PortIn v port])) ;;
  mret v.
Definition inb `{Hardware} (port : Z) : M kernel Z := in_port u8 port.

(** A machine: the other tasks, the hardware, and the number of turns the
    model gives to loops that wait for them. *)
Class World := {
  world_env :: Env;
  world_hardware :: Hardware;
  patience : nat;
}.
(** A machine whose other tasks and ports do nothing, for examples. *)
Definition idle_world : World :=
  {| world_env := fun _ _ s => s; world_hardware := fun _ _ => 0; patience := 2000 |}.

(** Fields of a record that is itself a global variable. *)
Definition sget {R T} (o : kernel -> R) (f : R -> T) : M kernel T := gets (fun s => f (o s)).
Definition sset {R T} (o : kernel -> R) `{!Setter o} (f : R -> T) `{!Setter f} (v : T) : M kernel unit :=
  modify (set_field o (set_field f (fun _ => v))).

(** The address of a wait queue ([struct task_struct **]): how to read and
    write the pointer it holds. *)
Record waitq := Waitq {
  wq_get : M kernel (option nat);
  wq_set : option nat -> M kernel unit }.

(** ** The state at boot *)

Definition zero_sigaction : sigaction := Sigaction 0 0 0 0.
Definition zero_inode : m_inode :=
  MInode 0 0 0 0 0 0 (replicate 9 0) None 0 0 0 0 0 0 0 0 0 0 0.
Definition zero_file : file := File 0 0 0 None 0.
Definition zero_super : super_block :=
  SuperBlock 0 0 0 0 0 0 0 0 (replicate 8 None) (replicate 8 None) 0 None None 0 None 0 0 0.
Definition zero_request : request := Request 0 0 0 0 0 None 0 None None None.

(** include/linux/sched.h: [_LDT(n)]. *)
Definition _LDT (n : Z) : Z := u32 (Z.shiftl n 4 + Z.shiftl 5 3).

(** include/linux/sched.h: [INIT_TASK]; [addr] is the address of [init_task]. *)
Definition INIT_TASK (addr : Z) : task_struct :=
  Task addr 0 15 15 0 (replicate 32 zero_sigaction) 0 0 0 0 0 0 0
    0 (-1) 0 0 0 0 0 0 0 0 0 0 0 0 0 0 0 0 (-1) 18 None None None 0
    (replicate 20 None)
    [Desc 0 0; Desc 0x9f 0xc0fa00; Desc 0x9f 0xc0f200]
    (Tss 0 (PAGE_SIZE + addr) 0x10 0 0 0 0 0 0 0 0 0 0 0x17 0x17 0x17 0x17 0x17 0x17
       (_LDT 0) 0x80000000).

(** kernel/chr_drv/tty_io.c: [tty_table]. *)
Definition INIT_C_CC : list Z := [3; 28; 127; 21; 4; 0; 1; 0; 17; 19; 26; 0; 18; 15; 23; 22; 0].
Definition zero_queue (data : Z) : tty_queue := TtyQueue data 0 0 None (replicate 1024 0).
Definition tty_table : list tty_struct :=
  [ Tty (Termios 0x100 0x5 0 0xa0b 0 INIT_C_CC) 0 0 0 (zero_queue 0) (zero_queue 0) (zero_queue 0);
    Tty (Termios 0 0 0x3b 0 0 INIT_C_CC) 0 0 1 (zero_queue 0x3f8) (zero_queue 0x3f8) (zero_queue 0);
    Tty (Termios 0 0 0x3b 0 0 INIT_C_CC) 0 0 1 (zero_queue 0x2f8) (zero_queue 0x2f8) (zero_queue 0) ].

(** kernel/chr_drv/console.c, hd.c, ramdisk.c: the initial static variables. *)
Definition boot_console : console :=
  Console 0 0 0 0 0 0 0 0 0 0 0 0 0 0 0 0 0 0 0 (replicate 16 0) 0 0x07 0 0 ∅.
Definition boot_floppy : floppy_state :=
  Floppy 0 0 0 (replicate 7 0) (-1) (-1) 0 0 0 0 0 0 255 0 None 0x5000 (replicate 1024 0) None.
Definition boot_hd : hd_state :=
  Hd 1 1 [HdI 0 0 0 0 0 0; HdI 0 0 0 0 0 0] 0 (replicate 10 (0, 0)) None 1.

(** The initial values of the global variables; [buffers] is where the buffer
    heads start ([&end]). *)
Definition boot_kernel (init_addr buffers : Z) : kernel :=
  Kernel (Some (INIT_TASK init_addr) :: replicate 63 None) 0 0 0 None 0
    (replicate 64 (Timer 0 None None)) None (replicate 4 None)
    (replicate 4 0) (replicate 4 0) 0x0C 0 0 [] 0
    [] buffers (replicate 307 None) None None
    (replicate 32 zero_inode) 0 (replicate 8 zero_super) 0 (replicate 64 zero_file)
    ∅ (Mm (replicate 3840 0) 0 ∅) tty_table
    (replicate 32 zero_request) (replicate 7 (BlkDev None None)) None
    ([Desc 0 0; Desc 0xfff 0xc09a00; Desc 0xfff 0xc09200] ++ replicate 253 (Desc 0 0)) 0 boot_console boot_hd (Ramdisk 0 0 []) boot_floppy (Kbd 0 2 0)
    (replicate 256 ignore_gate).

(** ** Symbolic execution of accesses to the running task *)

(** [s] with the task [t] in slot [p]. *)
Definition put_task (p : nat) (t : task_struct) (s : kernel) : kernel :=
  set_field k_task (fun l => <[p := Some t]> l) s.

Lemma task_at_lt s p t : task_at s p = Some t -> (p < length (k_task s))%nat.
Proof.
  unfold task_at. destruct (k_task s !! p) as [o|] eqn:E; [|done]. intros _. by eapply lookup_lt_Some.
Qed.
Lemma task_at_put s p t t' : task_at s p = Some t -> task_at (put_task p t' s) p = Some t'.
Proof.
  intros H%task_at_lt. unfold task_at. cbn. by rewrite list_lookup_insert_eq.
Qed.
Lemma task_at_put_ne s p q t : p <> q -> task_at (put_task p t s) q = task_at s q.
Proof. intros H. unfold task_at. cbn. by rewrite list_lookup_insert_ne. Qed.
Lemma put_put s p t t' : put_task p t' (put_task p t s) = put_task p t' s.
Proof. unfold put_task, set_field, set_k_task. cbn. by rewrite list_insert_insert_eq. Qed.
Lemma put_same s p t : task_at s p = Some t -> put_task p t s = s.
Proof.
  intros H. assert (E : <[p := Some t]> (k_task s) = k_task s).
  { apply list_insert_id. unfold task_at in H. destruct (k_task s !! p); cbn in H; congruence. }
  unfold put_task, set_field, set_k_task. rewrite E. by destruct s.
Qed.
Lemma cur_Ok {T} (f : task_struct -> T) s t : task_at s (k_current s) = Some t -> cur f s = Ok (f t) s.
Proof. intros H. unfold cur, tget. by rewrite H. Qed.
Lemma tupd_Ok {T} p (f : task_struct -> T) `{!Setter f} g s t :
  task_at s p = Some t -> tupd p f g s = Ok tt (put_task p (set_field f g t) s).
Proof. intros H. unfold tupd. by rewrite H. Qed.

Section task_rules.
Context (P : string -> kernel -> Prop) (F : Prop).
Lemma wpg_tget {T} p (f : task_struct -> T) t Q s :
  task_at s p = Some t -> Q (f t) s -> wpg P F (tget p f) Q s.
Proof. intros H HQ. unfold wpg, tget. by rewrite H. Qed.
Lemma wpg_tupd {T} p (f : task_struct -> T) `{!Setter f} g t (Q : unit -> kernel -> Prop) s :
  task_at s p = Some t -> Q tt (put_task p (set_field f g t) s) -> wpg P F (tupd p f g) Q s.
Proof. intros H HQ. unfold wpg. by rewrite (tupd_Ok _ _ _ _ _ H). Qed.
Lemma wpg_cur {T} (f : task_struct -> T) t Q s :
  task_at s (k_current s) = Some t -> Q (f t) s -> wpg P F (cur f) Q s.
Proof. apply wpg_tget. Qed.
Lemma wpg_cupd {T} (f : task_struct -> T) `{!Setter f} g t (Q : unit -> kernel -> Prop) s :
  task_at s (k_current s) = Some t -> Q tt (put_task (k_current s) (set_field f g t) s) ->
  wpg P F (cupd f g) Q s.
Proof. apply wpg_tupd. Qed.
Lemma wpg_cst {T} (f : task_struct -> T) `{!Setter f} v t (Q : unit -> kernel -> Prop) s :
  task_at s (k_current s) = Some t ->
  Q tt (put_task (k_current s) (set_field f (fun _ => v) t) s) -> wpg P F (cst f v) Q s.
Proof. apply wpg_tupd. Qed.
Lemma wpg_suser t Q s :
  task_at s (k_current s) = Some t -> Q (t_euid t =? 0) s -> wpg P F suser Q s.
Proof. intros H HQ. unfold suser. apply wpg_bind. eapply wpg_cur; [exact H|]. exact HQ. Qed.
End task_rules.

(** Find the running task through the updates made so far. *)
Ltac task_lookup :=
  first [ eassumption | eapply task_at_put; task_lookup | reflexivity ].
Ltac wp_task :=
  lazymatch goal with
  | |- wpg _ _ (cur _) _ _ => eapply wpg_cur; [solve [task_lookup]|]
  | |- wpg _ _ (cst _ _) _ _ => eapply wpg_cst; [solve [task_lookup]|]
  | |- wpg _ _ (cupd _ _) _ _ => eapply wpg_cupd; [solve [task_lookup]|]
  | |- wpg _ _ (tget _ _) _ _ => eapply wpg_tget; [solve [task_lookup]|]
  | |- wpg _ _ (tupd _ _ _) _ _ => eapply wpg_tupd; [solve [task_lookup]|]
  | |- wpg _ _ (tst _ _ _) _ _ => eapply wpg_tupd; [solve [task_lookup]|]
  | |- wpg _ _ suser _ _ => eapply wpg_suser; [solve [task_lookup]|]
  | |- _ => wp_step
  end; cbv beta.
Ltac wp_tasks := repeat (wp_task; try rewrite put_put).
