(* ===== verification/Sched.v ===== *)
(** * kernel/sched.c: scheduling, sleeping, timers *)

From Stdlib Require Import Sorted.
From S2P Require Import Prelude Kernel.

(** ** schedule() *)

Definition _S (nr : Z) : Z := sigbit nr.
Definition _BLOCKABLE : Z := Z.lnot (Z.lor (_S SIGKILL) (_S SIGSTOP)).

(** The entries of [task[]] from [LAST_TASK] down to, excluding, [FIRST_TASK]. *)
Definition tasks_down : list nat := rev (seq 1 (NR_TASKS - 1)).

(** The body of the first loop: the alarm, then the wake-up by a signal. *)
Definition check_signals (jiffies : Z) (t : task_struct) : task_struct :=
  let t := if truth (t_alarm t) && (t_alarm t <? jiffies)
           then set_field t_alarm (fun _ => 0)
                  (set_field t_signal (fun sg => Z.lor sg (sigbit SIGALRM)) t)
           else t in
  if truth (Z.land (t_signal t) (Z.lnot (Z.land _BLOCKABLE (t_blocked t))))
     && (t_state t =? TASK_INTERRUPTIBLE)
  then set_field t_state (fun _ => TASK_RUNNING) t
  else t.

(** [while (--i) if state==TASK_RUNNING && counter > c ...]: the pair [(c, next)]. *)
Definition pick_step (tasks : list (option task_struct)) (acc : Z * nat) (i : nat) : Z * nat :=
  match tasks !! i ≫= id with
  | None => acc
  | Some t =>
      if (t_state t =? TASK_RUNNING) && (fst acc <? t_counter t)
      then (t_counter t, i) else acc
  end.
Definition pick (tasks : list (option task_struct)) : Z * nat :=
  foldl (pick_step tasks) (-1, 0%nat) tasks_down.

(** [counter = (counter >> 1) + priority]. *)
Definition recharge (t : task_struct) : task_struct :=
  set_field t_counter (fun c => s32 (Z.shiftr c 1 + t_priority t)) t.

Section with_env.
Context `{Env}.

(** The processor switch: nothing when [n] is the running task. *)
Definition switch_to (n : nat) : M kernel unit := fun s =>
  if decide (n = k_current s) then Ok tt s
  else Ok tt (set_field k_current (fun _ => k_current s)
               (set_field k_switches (fun _ => S (k_switches s))
                 (switched_out (k_switches s) n s))).

(** [while (1)]: when some runnable task has a positive priority two turns are
    enough ([select_next_spec]). *)
Definition schedule_fuel : nat := 64.

Definition select_next : M kernel nat :=
  loop schedule_fuel (fun _ : unit =>
    '(c, next) ← gets (fun s => pick (k_task s));
    if truth c then mret (inr next)
    else for_ tasks_down (tmap recharge) ;; mret (inl tt)) tt.

Definition schedule : M kernel unit :=
  j ← gets k_jiffies;
  for_ tasks_down (tmap (check_signals j)) ;;
  next ← select_next;
  switch_to next.

Definition sys_pause : M kernel Z :=
  cst t_state TASK_INTERRUPTIBLE ;;
  schedule ;;
  mret 0.

(** ** Sleeping and waking *)

Definition wake_task (p : option nat) : M kernel unit :=
  match p with Some t => tst t t_state 0 | None => mret tt end.

Definition sleep_on (p : option waitq) : M kernel unit :=
  match p with
  | None => mret tt
  | Some q =>
      me ← gets k_current;
      if decide (me = 0%nat) then panic "task[0] trying to sleep"
      else
        tmp ← wq_get q;
        wq_set q (Some me) ;;
        cst t_state TASK_UNINTERRUPTIBLE ;;
        schedule ;;
        wake_task tmp
  end.

Definition interruptible_sleep_on (fuel : nat) (p : option waitq) : M kernel unit :=
  match p with
  | None => mret tt
  | Some q =>
      me ← gets k_current;
      if decide (me = 0%nat) then panic "task[0] trying to sleep"
      else
        tmp ← wq_get q;
        wq_set q (Some me) ;;
        loop fuel (fun _ : unit =>
          cst t_state TASK_INTERRUPTIBLE ;;
          schedule ;;
          head ← wq_get q;
          match head with
          | Some h =>
              if decide (h = me) then mret (inr tt)
              else tst h t_state 0 ;; mret (inl tt)
          | None => mret (inr tt)
          end) tt ;;
        wq_set q None ;;
        wake_task tmp
  end.

Definition wake_up (p : option waitq) : M kernel unit :=
  match p with
  | None => mret tt
  | Some q =>
      head ← wq_get q;
      match head with
      | Some t => tst t t_state 0 ;; wq_set q None
      | None => mret tt
      end
  end.
End with_env.

(** ** The floppy motor timers *)

Definition FD_DOR : Z := 0x3f2.
Definition motor_queue (nr : nat) : waitq :=
  Waitq (aget k_wait_motor nr) (aset k_wait_motor nr).

Definition ticks_to_floppy_on (nr : Z) : M kernel Z :=
  let mask := u8 (Z.shiftl 0x10 nr) in
  if 3 <? nr then panic "floppy_on: nr>3"
  else
    let n := Z.to_nat nr in
    aset k_moff_timer n 10000 ;;
    dor ← gets k_current_DOR;
    let mask := Z.lor mask dor in
    sel ← gets k_selected;
    let mask := if truth sel then mask else Z.lor (Z.land mask 0xFC) nr in
    when (negb (mask =? dor))
      (outb mask FD_DOR ;;
       (if truth (Z.land (Z.lxor mask dor) 0xf0)
        then aset k_mon_timer n (Z.quot HZ 2)
        else t ← aget k_mon_timer n;
             when (t <? 2) (aset k_mon_timer n 2)) ;;
       setg k_current_DOR mask) ;;
    aget k_mon_timer n.

Definition floppy_on `{Env} (fuel : nat) (nr : Z) : M kernel unit :=
  while fuel (t ← ticks_to_floppy_on nr; mret (truth t))
    (sleep_on (Some (motor_queue (Z.to_nat nr)))).

Definition floppy_off (nr : Z) : M kernel unit :=
  aset k_moff_timer (Z.to_nat nr) (3 * HZ).

Definition do_floppy_timer : M kernel unit :=
  for_ (seq 0 4) (fun i =>
    let mask := u8 (Z.shiftl 0x10 (Z.of_nat i)) in
    dor ← gets k_current_DOR;
    if negb (truth (Z.land mask dor)) then mret tt
    else
      mon ← aget k_mon_timer i;
      if truth mon then
        aset k_mon_timer i (s32 (mon - 1)) ;;
        when (negb (truth (s32 (mon - 1)))) (wake_up (Some (motor_queue i)))
      else
        moff ← aget k_moff_timer i;
        if negb (truth moff) then
          setg k_current_DOR (Z.land dor (Z.lxor mask 0xff)) ;;
          outb (Z.land dor (Z.lxor mask 0xff)) FD_DOR
        else aset k_moff_timer i (s32 (moff - 1))).

(** ** The timer queue

    A list of requests in which each entry counts the ticks after the entry
    before it. *)

Definition TIME_REQUESTS : nat := 64.
(** One more turn than there are entries. *)
Definition timer_fuel : nat := S TIME_REQUESTS.

(** A function for a timer: its name, which is what the request keeps, and what
    it does. *)
Record timer_fn := TimerFn { fn_name : nat; fn_body : M kernel unit }.

(** [for (p = timer_list ; p < timer_list + TIME_REQUESTS ; p++) if (!p->fn) break;] *)
Definition free_timer : M kernel (option nat) :=
  for_break (seq 0 TIME_REQUESTS) (fun p =>
    f ← p->>tl_fn;
    mret match f with None => Some p | Some _ => None end).

(** The [while (p->next && p->next->jiffies < p->jiffies)] loop and its body:
    swap the new request [p] past the earlier ones. *)
Definition sink_step (p : nat) : M kernel (nat + unit) :=
  nx ← p->>tl_next;
  match nx with
  | None => mret (inr tt)
  | Some n =>
      pj ← p->>tl_jiffies; nj ← n->>tl_jiffies;
      if nj <? pj then
        st p tl_jiffies (s32 (pj - nj)) ;;
        fn ← p->>tl_fn;
        nfn ← n->>tl_fn;
        st p tl_fn nfn ;;
        st n tl_fn fn ;;
        jiffies ← p->>tl_jiffies;
        nj ← n->>tl_jiffies;
        st p tl_jiffies nj ;;
        st n tl_jiffies jiffies ;;
        mret (inl n)
      else mret (inr tt)
  end.
Definition sink_timer (p : nat) : M kernel unit := loop timer_fuel sink_step p.

Definition add_timer (jiffies : Z) (fn : option timer_fn) : M kernel unit :=
  match fn with
  | None => mret tt
  | Some f =>
      if jiffies <=? 0 then fn_body f
      else
        o ← free_timer;
        match o with
        | None => panic "No more time requests free"
        | Some p =>
            st p tl_fn (Some (fn_name f)) ;;
            st p tl_jiffies jiffies ;;
            nt ← gets k_next_timer;
            st p tl_next nt ;;
            setg k_next_timer (Some p) ;;
            sink_timer p
        end
  end.

Section ticks.
(** The functions by their names. *)
Variable call_fn : nat -> M kernel unit.

(** The [while (next_timer && next_timer->jiffies <= 0)] loop of [do_timer]. *)
Definition run_step (_ : unit) : M kernel (unit + unit) :=
  nt ← gets k_next_timer;
  match nt with
  | None => mret (inr tt)
  | Some p =>
      j ← p->>tl_jiffies;
      if j <=? 0 then
        fn ← p->>tl_fn;
        st p tl_fn None ;;
        nx ← p->>tl_next;
        setg k_next_timer nx ;;
        f ← deref fn;
        call_fn f ;;
        mret (inl tt)
      else mret (inr tt)
  end.
Definition run_timers : M kernel unit := loop timer_fuel run_step tt.

(** [do_timer]'s share of the timer queue: one tick. *)
Definition tick_timers : M kernel unit :=
  nt ← gets k_next_timer;
  match nt with
  | None => mret tt
  | Some p => upd p tl_jiffies (fun j => s32 (j - 1)) ;; run_timers
  end.
End ticks.

Section timer_interrupt.
Context `{Env} `{Hardware}.

(** kernel/chr_drv/console.c: [sysbeepstop()]. *)
Definition sysbeepstop : M kernel unit :=
  v ← inb 0x61;
  outb (Z.land v 0xFC) 0x61.

Definition do_timer (call_fn : nat -> M kernel unit) (cpl : Z) : M kernel unit :=
  bc ← gets k_beepcount;
  when (truth bc)
    (setg k_beepcount (s32 (bc - 1)) ;;
     when (negb (truth (s32 (bc - 1)))) sysbeepstop) ;;
  (if truth cpl then cupd t_utime (fun u => s32 (u + 1))
   else cupd t_stime (fun u => s32 (u + 1))) ;;
  tick_timers call_fn ;;
  dor ← gets k_current_DOR;
  when (truth (Z.land dor 0xf0)) do_floppy_timer ;;
  cupd t_counter (fun c => s32 (c - 1)) ;;
  c ← cur t_counter;
  if 0 <? c then mret tt
  else
    cst t_counter 0 ;;
    if negb (truth cpl) then mret tt else schedule.
End timer_interrupt.

(** ** Simple system calls *)

Definition sys_alarm (seconds : Z) : M kernel Z :=
  old ← cur t_alarm;
  j ← gets k_jiffies;
  let old := if truth old then Z.quot (s32 (old - j)) HZ else old in
  cst t_alarm (if 0 <? seconds then s32 (j + s32 (HZ * seconds)) else 0) ;;
  mret old.
Definition sys_getpid : M kernel Z := cur t_pid.
Definition sys_getppid : M kernel Z := cur t_father.
Definition sys_getuid : M kernel Z := cur t_uid.
Definition sys_geteuid : M kernel Z := cur t_euid.
Definition sys_getgid : M kernel Z := cur t_gid.
Definition sys_getegid : M kernel Z := cur t_egid.
Definition sys_nice (increment : Z) : M kernel Z :=
  p ← cur t_priority;
  when (0 <? s32 (p - increment)) (cst t_priority (s32 (p - increment))) ;;
  mret 0.

(** ** The tables of tasks under a loop over [task[]] *)

Definition alter_tasks (g : task_struct -> task_struct) (l : list nat)
    (ts : list (option task_struct)) : list (option task_struct) :=
  foldl (fun ts p => alter (fmap g) p ts) ts l.

Lemma for_tmap g l s :
  for_ l (tmap g) s = Ok tt (set_field k_task (alter_tasks g l) s).
Proof.
  revert s. induction l as [|p l IH]; intros s; [by destruct s|].
  cbn [for_]. unfold mbind, M_bind, tmap at 1, modify. by rewrite IH.
Qed.

Lemma alter_tasks_cons g p l ts :
  alter_tasks g (p :: l) ts = alter_tasks g l (alter (fmap g) p ts).
Proof. reflexivity. Qed.

Lemma alter_tasks_lookup g l ts i :
  NoDup l ->
  alter_tasks g l ts !! i = if decide (i ∈ l) then fmap g <$> ts !! i else ts !! i.
Proof.
  revert ts. induction l as [|p l IH]; intros ts Hnd; [done|].
  apply NoDup_cons in Hnd as [Hp Hnd]. rewrite alter_tasks_cons, IH by done.
  destruct (decide (i = p)) as [->|Hne].
  - rewrite (decide_False (P := p ∈ l)), (decide_True (P := p ∈ p :: l)) by set_solver.
    by rewrite list_lookup_alter_eq.
  - rewrite list_lookup_alter_ne by done.
    destruct (decide (i ∈ l)); [rewrite decide_True|rewrite decide_False]; set_solver.
Qed.

Lemma tasks_down_spec i : i ∈ tasks_down <-> (1 <= i < NR_TASKS)%nat.
Proof.
  unfold tasks_down. rewrite list_elem_of_In, <- in_rev, in_seq. unfold NR_TASKS. lia.
Qed.

Lemma tasks_down_NoDup : NoDup tasks_down.
Proof. unfold tasks_down. apply NoDup_ListNoDup, List.NoDup_rev, seq_NoDup. Qed.

(** A loop [for every task but the first] applies its body to each of them. *)
Lemma task_at_alter g s i :
  task_at (set_field k_task (alter_tasks g tasks_down) s) i =
  if decide (1 <= i < NR_TASKS)%nat then g <$> task_at s i else task_at s i.
Proof.
  unfold task_at. cbn [set_k_task set_field k_task].
  rewrite alter_tasks_lookup by apply tasks_down_NoDup.
  destruct (decide (i ∈ tasks_down)) as [Hi|Hi]; rewrite tasks_down_spec in Hi.
  - rewrite decide_True by done. by destruct (k_task s !! i) as [[]|].
  - by rewrite decide_False.
Qed.

(** ** The scheduler proper *)

Definition runnable (s : kernel) (i : nat) (c : Z) : Prop :=
  (1 <= i < NR_TASKS)%nat /\
  exists t, task_at s i = Some t /\ t_state t = TASK_RUNNING /\ t_counter t = c.

(** What the kernel maintains for every task but task 0: a positive
    priority, and a time slice that is never negative (copy_process sets
    [counter = priority], do_timer resets it to 0 when it runs out). *)
Definition slices_ok (s : kernel) : Prop :=
  forall i t, (1 <= i < NR_TASKS)%nat -> task_at s i = Some t ->
    0 < t_priority t < 2 ^ 30 /\ 0 <= t_counter t < 2 ^ 30.

(** [(c, n)] is the best candidate among the slots of [l]. *)
Definition best (tasks : list (option task_struct)) (l : list nat) (r : Z * nat) : Prop :=
  let run i c := exists t, tasks !! i ≫= id = Some t /\ t_state t = TASK_RUNNING /\ t_counter t = c in
  (forall i c, i ∈ l -> run i c -> c <= fst r) /\
  ((r = (-1, 0%nat)) \/
   (snd r ∈ l /\ run (snd r) (fst r) /\ -1 < fst r)).

Lemma pick_step_best tasks l r i :
  best tasks l r -> best tasks (l ++ [i]) (pick_step tasks r i).
Proof.
  intros [Hmax Hr]. unfold pick_step.
  destruct (tasks !! i ≫= id) as [t|] eqn:Et.
  2: { split; [|destruct Hr as [?|(?&?&?)]; [by left|right; set_solver]].
       intros j c Hj (t & Ht & Hs & Hc).
       apply elem_of_app in Hj as [Hj| ->%list_elem_of_singleton]; [eauto|congruence]. }
  destruct ((t_state t =? TASK_RUNNING) && (fst r <? t_counter t)) eqn:E; kbool.
  - destruct E as [Es Ec]. split; cbn [fst snd].
    + intros j c Hj (t' & Ht & Hs & Hc).
      apply elem_of_app in Hj as [Hj| ->%list_elem_of_singleton]; [|naive_solver lia].
      assert (c <= fst r) by (eapply Hmax; eauto). lia.
    + right. split_and!; [set_solver|eauto|]. destruct Hr as [ -> |(_&_&?)]; cbn in *; lia.
  - split; [|destruct Hr as [?|(?&?&?)]; [by left|right; set_solver]].
    intros j c Hj (t' & Ht & Hs & Hc).
    apply elem_of_app in Hj as [Hj| ->%list_elem_of_singleton]; [eauto|].
    destruct E; [congruence|]. naive_solver lia.
Qed.

Lemma pick_best tasks : best tasks tasks_down (pick tasks).
Proof.
  unfold pick. generalize tasks_down. intros l.
  assert (forall l2 l1 r, best tasks l1 r -> best tasks (l1 ++ l2) (foldl (pick_step tasks) r l2)) as H.
  { induction l2 as [|i l2 IH]; intros l1 r Hr; [by rewrite app_nil_r|].
    cbn [foldl]. replace (l1 ++ i :: l2) with ((l1 ++ [i]) ++ l2) by by rewrite <- app_assoc.
    apply IH, pick_step_best, Hr. }
  apply (H l []). split; [set_solver|by left].
Qed.

(** The outcome of [pick] in terms of the kernel state. *)
Lemma pick_runnable s c next :
  pick (k_task s) = (c, next) ->
  (forall i k, runnable s i k -> k <= c) /\
  ((c = -1 /\ next = 0%nat) \/ (runnable s next c /\ -1 < c)).
Proof.
  intros E. pose proof (pick_best (k_task s)) as [Hmax Hr]. rewrite E in *. split.
  - intros i k [Hi Hk]. apply (Hmax i); [by apply tasks_down_spec|exact Hk].
  - destruct Hr as [Hr|(Hin&Hrun&?)]; [left; by simplify_eq|right].
    split; [|done]. split; [by apply tasks_down_spec|exact Hrun].
Qed.

Lemma recharge_counter s i t :
  slices_ok s -> (1 <= i < NR_TASKS)%nat -> task_at s i = Some t ->
  t_counter (recharge t) = t_counter t / 2 + t_priority t.
Proof.
  intros Hok Hi Ht. destruct (Hok i t Hi Ht).
  unfold recharge. cbn. rewrite Z.shiftr_div_pow2 by lia. change (2 ^ 1) with 2.
  apply s32_small. Z.to_euclidean_division_equations. lia.
Qed.

Definition recharged (s : kernel) : kernel :=
  set_field k_task (alter_tasks recharge tasks_down) s.

Lemma runnable_recharged s i c :
  slices_ok s -> runnable (recharged s) i c ->
  exists c0, runnable s i c0 /\ 0 < c.
Proof.
  intros Hok (Hi & t' & Ht' & Hs & Hc).
  unfold recharged in Ht'. rewrite task_at_alter, decide_True in Ht' by done.
  destruct (task_at s i) as [t|] eqn:Et; [|done]. cbn in Ht'. injection Ht' as <-.
  exists (t_counter t). split; [split; [done|]; exists t; done|].
  destruct (Hok i t Hi Et). rewrite (recharge_counter s i) in Hc by done.
  Z.to_euclidean_division_equations. lia.
Qed.

Lemma runnable_recharged_inv s i c :
  runnable s i c -> exists c', runnable (recharged s) i c'.
Proof.
  intros (Hi & t & Ht & Hs & Hc). exists (t_counter (recharge t)).
  split; [done|]. exists (recharge t). unfold recharged.
  rewrite task_at_alter, decide_True by done. by rewrite Ht.
Qed.

(** C23: [schedule]'s selection loop always ends, and it chooses a runnable
    task with the largest time slice, which is positive; the idle task 0 is
    chosen only when no task is runnable.  The time slices are recharged only
    when every runnable task has used its own up. *)
Theorem select_next_spec s :
  slices_ok s ->
  wp select_next (fun next s' =>
    (s' = s \/ s' = recharged s /\ forall i c, runnable s i c -> c = 0) /\
    ((next = 0%nat /\ forall i c, ~ runnable s i c) \/
     exists c, runnable s' next c /\ 0 < c /\ forall i k, runnable s' i k -> k <= c)) s.
Proof.
  intros Hok. unfold select_next. change schedule_fuel with (S (S 62)). rewrite loop_S.
  do 3 wp_step. wp_step.
  destruct (pick (k_task s)) as [c next] eqn:E.
  pose proof (pick_runnable _ _ _ E) as [Hmax Hcase].
  assert (Hge : forall i k, runnable s i k -> 0 <= k).
  { intros i k (Hi & t & Ht & _ & Hk). destruct (Hok i t Hi Ht). lia. }
  destruct (truth c) eqn:Hc; kbool.
  - wp_steps. split; [by left|].
    destruct Hcase as [[-> ->]|[Hrun ?]]; [left|right].
    + split; [done|]. intros i k Hk. specialize (Hmax _ _ Hk). specialize (Hge _ _ Hk). lia.
    + exists c. split_and!; [done|lia|done].
  - subst c. destruct Hcase as [[??]|[Hrun _]]; [lia|].
    wp_step. unfold wpg at 1. rewrite for_tmap. fold (recharged s).
    wp_step. rewrite loop_S. do 3 wp_step.
    assert (Hzero : forall i k, runnable s i k -> k = 0).
    { intros i k Hk. specialize (Hmax _ _ Hk). specialize (Hge _ _ Hk). lia. }
    destruct (pick (k_task (recharged s))) as [c' next'] eqn:E'.
    pose proof (pick_runnable _ _ _ E') as [Hmax' Hcase'].
    destruct (runnable_recharged_inv _ _ _ Hrun) as [c1 Hr1].
    destruct (runnable_recharged _ _ _ Hok Hr1) as (_ & _ & Hc1).
    pose proof (Hmax' _ _ Hr1) as Hle.
    assert (truth c' = true) as -> by (apply truth_true; lia).
    wp_steps. split; [by right|]. right. exists c'.
    destruct Hcase' as [[??]|[??]]; [lia|]. split_and!; [done|lia|done].
Qed.

(** ** The timer queue as a list of (ticks after the previous, function) *)

Fixpoint tchain (ts : list timer_list) (head : option nat) (l : list nat)
    (xs : list (Z * nat)) : Prop :=
  match l, xs with
  | [], [] => head = None
  | i :: l', (d, f) :: xs' =>
      head = Some i /\
      exists t, ts !! i = Some t /\ tl_jiffies t = d /\ tl_fn t = Some f /\
        tchain ts (tl_next t) l' xs'
  | _, _ => False
  end.

(** The queue is a list of distinct entries, all waiting for at least one
    tick after the one before; the other entries of the table are free. *)
Definition timers_rep (s : kernel) (xs : list (Z * nat)) : Prop :=
  length (k_timers s) = TIME_REQUESTS /\
  Forall (fun x => 0 < fst x < 2 ^ 31) xs /\
  exists l, NoDup l /\ tchain (k_timers s) (k_next_timer s) l xs /\
    forall i t, k_timers s !! i = Some t -> i ∉ l -> tl_fn t = None.

(** The deadlines, in ticks from now, of the entries of a queue. *)
Fixpoint deadlines (now : Z) (xs : list (Z * nat)) : list (Z * nat) :=
  match xs with
  | [] => []
  | (d, f) :: xs' => (now + d, f) :: deadlines (now + d) xs'
  end.

(** What [sink_timer] does to the abstract queue. *)
Fixpoint insert_delta (j : Z) (f : nat) (xs : list (Z * nat)) : list (Z * nat) :=
  match xs with
  | [] => [(j, f)]
  | (d, g) :: xs' =>
      if d <? j then (d, g) :: insert_delta (j - d) f xs' else (j, f) :: xs
  end.

Lemma tchain_frame ts ts' head l xs :
  (forall i, i ∈ l -> ts' !! i = ts !! i) -> tchain ts head l xs -> tchain ts' head l xs.
Proof.
  revert head xs. induction l as [|i l IH]; intros head xs Heq; destruct xs as [|[d f] xs]; try done.
  intros (-> & t & Ht & Hd & Hf & Hc). split; [done|]. exists t.
  rewrite Heq by set_solver. split_and!; try done. apply IH; [|done]. intros; apply Heq; set_solver.
Qed.

Lemma tchain_length ts head l xs : tchain ts head l xs -> length l = length xs.
Proof.
  revert head xs. induction l as [|i l IH]; intros head [|[d f] xs]; try done.
  intros (_ & t & _ & _ & _ & Hc). cbn. f_equal. eauto.
Qed.

Lemma tchain_in_table ts head l xs i :
  tchain ts head l xs -> i ∈ l -> (i < length ts)%nat.
Proof.
  revert head xs. induction l as [|k l IH]; intros head [|[d f] xs]; try done; [set_solver|].
  intros (_ & t & Ht & _ & _ & Hc) [->|Hi]%elem_of_cons; [by eapply lookup_lt_Some|eauto].
Qed.

Lemma sink_step_swap p n tp tn s :
  p <> n -> k_timers s !! p = Some tp -> k_timers s !! n = Some tn ->
  tl_next tp = Some n -> tl_jiffies tn < tl_jiffies tp ->
  wp (sink_step p) (fun r s' => r = inl n /\ exists ts' tp' tn',
    s' = set_field k_timers (fun _ => ts') s /\ length ts' = length (k_timers s) /\
    ts' !! p = Some tp' /\ tl_jiffies tp' = tl_jiffies tn /\
    tl_fn tp' = tl_fn tn /\ tl_next tp' = Some n /\
    ts' !! n = Some tn' /\ tl_jiffies tn' = s32 (tl_jiffies tp - tl_jiffies tn) /\
    tl_fn tn' = tl_fn tp /\ tl_next tn' = tl_next tn /\
    forall i, i <> p -> i <> n -> ts' !! i = k_timers s !! i) s.
Proof.
  intros Hne Hp Hn Hnx Hlt. unfold sink_step. wp_steps. rewrite Hnx. wp_steps.
  - split; [done|]. eexists _, _, _. split_and!; [reflexivity|..].
    + cbn. by rewrite !length_insert.
    + tab_lookup.
    + done.
    + done.
    + done.
    + tab_lookup.
    + done.
    + done.
    + done.
    + intros i Hip Hin. cbn. by rewrite !list_lookup_insert_ne by done.
  - kbool. lia.
Qed.

Lemma sink_step_stop p tp s :
  k_timers s !! p = Some tp ->
  (tl_next tp = None \/ exists n tn, tl_next tp = Some n /\ k_timers s !! n = Some tn /\
     tl_jiffies tp <= tl_jiffies tn) ->
  wp (sink_step p) (fun r s' => r = inr tt /\ s' = s) s.
Proof.
  intros Hp Hst. unfold sink_step. wp_steps.
  destruct Hst as [->|(n & tn & -> & Hn & Hle)]; wp_steps; try done. kbool; lia.
Qed.

(** The new request sinks to its place; the entries keep their slots, their
    contents move. *)
Lemma sink_timer_rep rest xs : forall p j f fuel s,
  NoDup (p :: rest) -> (length rest < fuel)%nat ->
  tchain (k_timers s) (Some p) (p :: rest) ((j, f) :: xs) ->
  Forall (fun x => 0 < fst x < 2 ^ 31) ((j, f) :: xs) ->
  wp (loop fuel sink_step p) (fun _ s' => exists ts',
    s' = set_field k_timers (fun _ => ts') s /\ length ts' = length (k_timers s) /\
    tchain ts' (Some p) (p :: rest) (insert_delta j f xs) /\
    forall i, i ∉ p :: rest -> ts' !! i = k_timers s !! i) s.
Proof.
  revert xs. induction rest as [|n rest IH]; intros xs p j f fuel s Hnd Hfuel Hc Hpos;
    destruct fuel as [|fuel]; try (cbn in Hfuel; lia);
    destruct xs as [|[d g] xs]; try (cbn in Hc; naive_solver);
    destruct Hc as (_ & tp & Hp & Hj & Hf & Hc); rewrite loop_S; do 2 wp_step.
  - eapply wpg_mono; [eapply (sink_step_stop p tp); [done|by left]|].
    intros ? ? [-> ->]. wp_steps. exists (k_timers s). split_and!; try done; [by destruct s|].
    cbn. eauto 10.
  - cbn in Hc. destruct Hc as (Hnx & tn & Hn & Hdn & Hg & Hc).
    apply NoDup_cons in Hnd as [Hpn Hnd].
    apply Forall_cons in Hpos as [Hpj Hpos]. apply Forall_cons in Hpos as [Hpd Hpos].
    cbn in Hpj, Hpd. cbn [insert_delta]. destruct (Z.ltb_spec d j) as [Hlt|Hge].
    + eapply wpg_mono; [eapply (sink_step_swap p n tp tn); try done; [set_solver|lia]|].
      intros ? s1 (-> & ts1 & tp' & tn' & -> & Hlen & Hp' & Hpj' & Hpf' & Hpn' & Hn' & Hnj' & Hnf' & Hnn' & Hoth).
      rewrite s32_small in Hnj' by lia.
      eapply wpg_mono; [eapply (IH xs n (j - d) f); [done|cbn in Hfuel; lia| |]|].
      * cbn. split; [done|]. exists tn'. split_and!; [done|lia|congruence|].
        rewrite Hnn'. eapply tchain_frame; [|exact Hc]. intros i Hi. apply Hoth; [set_solver|].
        apply NoDup_cons in Hnd as [? _]. set_solver.
      * apply Forall_cons; split; [cbn; lia|done].
      * intros [] s2 (ts2 & -> & Hlen2 & Hc2 & Hfr2). exists ts2.
        split_and!; [reflexivity|cbn in *; lia| |].
        -- split; [done|]. exists tp'. rewrite Hfr2 by done. split_and!; [done|lia|congruence|].
           by rewrite Hpn'.
        -- intros i Hi. rewrite Hfr2 by set_solver. cbn. apply Hoth; set_solver.
    + eapply wpg_mono; [eapply (sink_step_stop p tp); [done|right; exists n, tn; split_and!; [done..|lia]]|].
      intros ? ? [-> ->]. wp_steps. exists (k_timers s). split_and!; try done; [by destruct s|].
      cbn. eauto 20.
Qed.

(** ** Deadlines *)

(** The requests due before tick [j], and the others. *)
Definition due_before (j : Z) (xs : list (Z * nat)) : list (Z * nat) :=
  filter (fun x => x.1 < j) xs.
Definition due_from (j : Z) (xs : list (Z * nat)) : list (Z * nat) :=
  filter (fun x => j <= x.1) xs.
Definition postpone (k : Z) (xs : list (Z * nat)) : list (Z * nat) :=
  (fun x => (x.1 + k, x.2)) <$> xs.
Definition last_deadline (now : Z) (xs : list (Z * nat)) : Z :=
  default now (fst <$> last xs).

Lemma deadlines_shift now k xs : deadlines (now + k) xs = postpone k (deadlines now xs).
Proof.
  revert now. induction xs as [|[d f] xs IH]; intros now; [done|].
  cbn [deadlines]. unfold postpone. rewrite fmap_cons. cbn [fst snd].
  f_equal; [f_equal; lia|]. fold (postpone k (deadlines (now + d) xs)). rewrite <- IH. f_equal. lia.
Qed.

Lemma deadlines_after now xs :
  Forall (fun x => 0 < fst x) xs -> Forall (fun x => now < fst x) (deadlines now xs).
Proof.
  revert now. induction xs as [|[d f] xs IH]; intros now Hpos; [done|].
  apply Forall_cons in Hpos as [Hd Hpos]. cbn in *. constructor; [cbn; lia|].
  eapply Forall_impl; [by apply IH|]. cbn. intros; lia.
Qed.

Lemma due_split_late j xs :
  Forall (fun x => j <= fst x) xs -> due_before j xs = [] /\ due_from j xs = xs.
Proof.
  unfold due_before, due_from. induction 1 as [|x xs Hx _ [IH1 IH2]]; [done|].
  rewrite filter_cons_False, filter_cons_True by lia. split; congruence.
Qed.

Lemma deadlines_insert now j f xs :
  Forall (fun x => 0 < fst x) xs ->
  let early := due_before (now + j) (deadlines now xs) in
  deadlines now (insert_delta j f xs) =
  early ++ (now + j, f) ::
    postpone (now + j - last_deadline now early) (due_from (now + j) (deadlines now xs)).
Proof.
  revert now j. induction xs as [|[d g] xs IH]; intros now j Hpos; [done|].
  apply Forall_cons in Hpos as [Hd Hpos]. cbn in Hd. cbn [insert_delta].
  destruct (Z.ltb_spec d j).
  - cbn [deadlines]. unfold due_before, due_from.
    rewrite filter_cons_True, filter_cons_False by (cbn; lia).
    rewrite IH by done. replace (now + d + (j - d)) with (now + j) by lia.
    cbn [app]. do 3 f_equal. unfold last_deadline, due_before. f_equal.
    destruct (filter _ _) as [|x l] eqn:E; [done|].
    rewrite (last_cons (now + d, g) (x :: l)). destruct (last (x :: l)) eqn:E2; [done|by apply last_None in E2].
  - destruct (due_split_late (now + j) (deadlines now ((d, g) :: xs))) as [-> ->].
    { cbn. constructor; [cbn; lia|].
      eapply Forall_impl; [by apply deadlines_after|]. cbn; lia. }
    change (deadlines now ((j, f) :: (d, g) :: xs))
      with ((now + j, f) :: deadlines (now + j) ((d, g) :: xs)).
    rewrite deadlines_shift. cbn [app]. do 2 f_equal.
    unfold last_deadline. cbn. lia.
Qed.

Lemma insert_delta_range j f xs :
  0 < j < 2 ^ 31 -> Forall (fun x => 0 < fst x < 2 ^ 31) xs ->
  Forall (fun x => 0 < fst x < 2 ^ 31) (insert_delta j f xs).
Proof.
  intros Hj Hxs. revert j Hj. induction Hxs as [|[d g] xs Hd Hxs IH]; intros j Hj.
  - apply Forall_singleton. done.
  - cbn in *. destruct (Z.ltb_spec d j); rewrite !Forall_cons; [split; [done|apply IH; lia]|done].
Qed.

Lemma free_timer_spec s :
  length (k_timers s) = TIME_REQUESTS ->
  wp free_timer (fun o s' => s' = s /\
    match o with
    | Some p => exists t, k_timers s !! p = Some t /\ tl_fn t = None
    | None => forall i t, k_timers s !! i = Some t -> tl_fn t <> None
    end) s.
Proof.
  intros Hlen. unfold free_timer. wp_step.
  apply (wpg_for_break _ _ (fun l s' => s' = s /\ (exists n, l = seq n (TIME_REQUESTS - n) /\ (n <= TIME_REQUESTS)%nat /\
    forall i t, (i < n)%nat -> k_timers s !! i = Some t -> tl_fn t <> None))).
  - split; [done|]. exists 0%nat. split_and!; [done|lia|lia].
  - intros i l s' [-> (n & Hl & Hn & Hbusy)].
    destruct (TIME_REQUESTS - n)%nat as [|k] eqn:Ek; [done|]. cbn in Hl. injection Hl as -> ->.
    destruct (k_timers s !! n) as [t|] eqn:Et.
    2: { apply lookup_ge_None in Et. lia. }
    wp_steps. destruct (tl_fn t) eqn:Ef; [|by eauto].
    split; [done|]. exists (S n). split_and!; [f_equal; lia|lia|].
    intros i u Hi Hu. destruct (decide (i = n)) as [->|]; [congruence|].
    apply (Hbusy i u); [lia|done].
  - intros s' [-> (n & Hl & Hn & Hbusy)]. split; [done|].
    intros i t Ht. apply (Hbusy i t); [|done].
    apply lookup_lt_Some in Ht. destruct (TIME_REQUESTS - n)%nat eqn:E; [lia|done].
Qed.

Lemma tchain_fn ts head l xs i t :
  tchain ts head l xs -> i ∈ l -> ts !! i = Some t -> tl_fn t <> None.
Proof.
  revert head xs. induction l as [|k l IH]; intros head [|[d f] xs]; try done; [set_solver|].
  intros (_ & u & Hu & _ & Hf & Hc) [->|Hi]%elem_of_cons Ht; [congruence|eauto].
Qed.

Lemma add_timer_rep j f m xs s :
  timers_rep s xs -> 0 < j < 2 ^ 31 -> (length xs < TIME_REQUESTS)%nat ->
  wp (add_timer j (Some (TimerFn f m))) (fun _ s' => timers_rep s' (insert_delta j f xs)) s.
Proof.
  intros (Hlen & Hpos & l & Hnd & Hc & Hfree) Hj Hroom.
  assert (insert_delta_pos := insert_delta_range j f xs Hj Hpos).
  unfold add_timer. rewrite (proj2 (Z.leb_gt j 0)) by lia. do 2 wp_step.
  eapply wpg_mono; [by apply free_timer_spec|]. intros [p|] s1 [-> Ho]; last first.
  { exfalso. assert (Hsub : NoDup (seq 0 TIME_REQUESTS)) by apply NoDup_seq.
    assert (length (seq 0 TIME_REQUESTS) <= length l)%nat as Hle.
    { apply submseteq_length, NoDup_submseteq; [done|].
      intros i Hi. apply elem_of_seq in Hi. destruct (decide (i ∈ l)); [done|].
      destruct (lookup_lt_is_Some_2 (k_timers s) i) as [t Ht]; [lia|].
      destruct (Ho i t Ht). by eapply Hfree. }
    rewrite length_seq, (tchain_length _ _ _ _ Hc) in Hle. lia. }
  destruct Ho as (t & Ht & Hft).
  assert (Hpl : p ∉ l) by (intros Hin; by eapply tchain_fn in Hft).
  wp_steps. unfold setg. wp_steps.
  eapply wpg_mono.
  { eapply (sink_timer_rep l xs p j f); [by apply NoDup_cons| | |by apply Forall_cons].
    - rewrite (tchain_length _ _ _ _ Hc). unfold timer_fuel. lia.
    - cbn. split; [done|]. eexists. split; [tab_lookup|]. split_and!; try done.
      eapply tchain_frame; [|exact Hc]. intros i Hi.
      rewrite !list_lookup_insert_ne by set_solver. done. }
  intros [] s2 (ts2 & -> & Hlen2 & Hc2 & Hfr2).
  split_and!; [cbn; rewrite Hlen2; cbn; by rewrite !length_insert|done|].
  exists (p :: l). split_and!; [by apply NoDup_cons|done|].
  intros i u Hu Hi. cbn in Hu. rewrite Hfr2 in Hu by set_solver. cbn in Hu.
  rewrite !list_lookup_insert_ne in Hu by set_solver. eapply Hfree; [done|set_solver].
Qed.

(** [add_timer] gives the new request its deadline exactly and leaves the
    requests due before it alone, but every request due at the same tick or
    later is postponed by the ticks between the last earlier deadline and the
    new one: the entry that follows the new one is not made relative to it. *)
Theorem add_timer_deadlines j f m xs s :
  timers_rep s xs -> 0 < j < 2 ^ 31 -> (length xs < TIME_REQUESTS)%nat ->
  wp (add_timer j (Some (TimerFn f m))) (fun _ s' => exists xs', timers_rep s' xs' /\
    let early := due_before j (deadlines 0 xs) in
    deadlines 0 xs' =
      early ++ (j, f) ::
      postpone (j - last_deadline 0 early) (due_from j (deadlines 0 xs))) s.
Proof.
  intros Hrep Hj Hroom. eapply wpg_mono; [by apply add_timer_rep|].
  intros [] s' Hrep'. exists (insert_delta j f xs). split; [done|].
  apply (deadlines_insert 0). destruct Hrep as (_ & Hpos & _).
  eapply Forall_impl; [exact Hpos|]. cbn. lia.
Qed.

Lemma deadlines_pos now xs : Forall (fun x => 0 < fst x < 2 ^ 31) xs ->
  Forall (fun x => now + 1 <= fst x) (deadlines now xs).
Proof.
  intros H. eapply Forall_impl; [apply deadlines_after; eapply Forall_impl; [exact H|]|]; cbn; lia.
Qed.

(** Functions that set no timers: [log] names those called so far. *)
Section firing.
Variable call_fn : nat -> M kernel unit.
Variable log : kernel -> list nat.
Hypothesis log_timers : forall f s, log (set_field k_timers f s) = log s.
Hypothesis log_next : forall f s, log (set_field k_next_timer f s) = log s.
Hypothesis called : forall f s, wp (call_fn f) (fun _ s' =>
  k_timers s' = k_timers s /\ k_next_timer s' = k_next_timer s /\ log s' = log s ++ [f]) s.
Lemma run_step_stop s l xs :
  tchain (k_timers s) (k_next_timer s) l xs -> Forall (fun x => 0 < fst x < 2 ^ 31) xs ->
  wp (run_step call_fn tt) (fun r s' => r = inr tt /\ s' = s) s.
Proof.
  intros Hc Hpos. unfold run_step. wp_steps.
  destruct l as [|p l], xs as [|[d f] xs]; try done; cbn in Hc; [by rewrite Hc; wp_steps|].
  destruct Hc as (-> & t & Ht & Hd & _). apply Forall_cons in Hpos as [? _]. cbn in *.
  wp_steps; [kbool; lia|done].
Qed.

Lemma run_step_fire s p t f :
  k_next_timer s = Some p -> k_timers s !! p = Some t -> tl_jiffies t <= 0 -> tl_fn t = Some f ->
  wp (run_step call_fn tt) (fun r s' => r = inl tt /\ exists t',
    tl_fn t' = None /\ k_timers s' = <[p := t']> (k_timers s) /\
    k_next_timer s' = tl_next t /\ log s' = log s ++ [f]) s.
Proof.
  intros Hn Ht Hj Hf. unfold run_step. do 3 wp_step. rewrite Hn. wp_steps; [|kbool; lia].
  unfold setg. wp_steps. rewrite Hf. cbn [deref]. wp_steps.
  eapply wpg_mono; [apply called|]. intros [] s1 (Et & En & El). wp_steps. split; [done|].
  exists (set_field tl_fn (fun _ => None) t). rewrite El, log_next, Et, En.
  split_and!; [done|done|done|]. f_equal. exact (log_timers _ s).
Qed.

Lemma tick_timers_run xs s :
  timers_rep s xs ->
  wp (tick_timers call_fn) (fun _ s' => exists xs', timers_rep s' xs' /\
    deadlines 0 xs' = postpone (-1) (due_from 2 (deadlines 0 xs)) /\
    log s' = log s ++ (snd <$> due_before 2 (deadlines 0 xs))) s.
Proof.
  intros (Hlen & Hpos & l & Hnd & Hc & Hfree). unfold tick_timers. wp_steps.
  destruct l as [|p l], xs as [|[d f] xs]; try done.
  { cbn in Hc. rewrite Hc. wp_steps. exists []. split; [|by rewrite app_nil_r].
    split_and!; try done. exists []. by split_and!. }
  destruct Hc as (Hhd & t & Ht & Hd & Hf & Hc). rewrite Hhd.
  apply Forall_cons in Hpos as [Hd0 Hpos]. cbn in Hd0.
  apply NoDup_cons in Hnd as [Hpl Hnd].
  wp_steps. unfold run_timers. change timer_fuel with (S (S 63)). rewrite loop_S. wp_step.
  set (s1 := set_tab _ s).
  assert (Ht1 : k_timers s1 !! p = Some (set_field tl_jiffies (fun j => s32 (j - 1)) t)) by tab_lookup.
  assert (Hc1 : tchain (k_timers s1) (tl_next t) l xs).
  { eapply tchain_frame; [|exact Hc]. intros i Hi. cbn. rewrite list_lookup_insert_ne; set_solver. }
  assert (Hlog : log s1 = log s) by exact (log_timers _ s).
  assert (Hs32 : s32 (tl_jiffies t - 1) = d - 1) by (rewrite s32_small; lia).
  destruct (decide (d = 1)) as [->|Hd1].
  - eapply wpg_mono; [eapply (run_step_fire s1 p _ f); [done|exact Ht1|cbn; lia|done]|].
    intros ? s2 (-> & t' & Hft' & Hts & Hnt & Hfired). rewrite loop_S. wp_step.
    assert (Hc2 : tchain (k_timers s2) (k_next_timer s2) l xs).
    { rewrite Hnt. eapply tchain_frame; [|exact Hc1]. intros i Hi.
      rewrite Hts, list_lookup_insert_ne; [done|set_solver]. }
    eapply wpg_mono; [by eapply run_step_stop|]. intros ? s3 [-> ->]. wp_step.
    exists xs. split_and!.
    + split_and!; [rewrite Hts; cbn; by rewrite !length_insert|done|].
      exists l. split_and!; [done|done|]. intros i u Hu Hi. rewrite Hts in Hu. cbn in Hu.
      destruct (decide (i = p)) as [->|].
      * rewrite list_lookup_insert_eq in Hu; [congruence|rewrite length_insert; by eapply lookup_lt_Some].
      * rewrite !list_lookup_insert_ne in Hu by done. eapply Hfree; [done|set_solver].
    + cbn [deadlines]. unfold due_from. rewrite filter_cons_False by (cbn; lia).
      destruct (due_split_late 2 (deadlines 1 xs)) as [_ E]; [exact (deadlines_pos 1 xs Hpos)|].
      unfold due_from in E. change (0 + 1) with 1. rewrite E, <- deadlines_shift. done.
    + rewrite Hfired, Hlog. cbn [deadlines]. unfold due_before. rewrite filter_cons_True by (cbn; lia).
      destruct (due_split_late 2 (deadlines 1 xs)) as [E _]; [exact (deadlines_pos 1 xs Hpos)|].
      unfold due_before in E. change (0 + 1) with 1. rewrite E. done.
  - assert (Hrep : tchain (k_timers s1) (k_next_timer s1) (p :: l) ((d - 1, f) :: xs)).
    { split; [done|]. eexists. split; [exact Ht1|]. by split_and!. }
    eapply wpg_mono; [eapply run_step_stop; [exact Hrep|apply Forall_cons; split; [cbn; lia|done]]|].
    intros ? s3 [-> ->]. wp_step. exists ((d - 1, f) :: xs).
    destruct (due_split_late 2 (deadlines 0 ((d, f) :: xs))) as [E1 E2].
    { cbn [deadlines]. constructor; [cbn; lia|].
      eapply Forall_impl; [by apply deadlines_pos|]. cbn. lia. }
    rewrite E1, E2. split_and!.
    + split_and!; [cbn; by rewrite length_insert|apply Forall_cons; split; [cbn; lia|done]|].
      exists (p :: l). split_and!; [by apply NoDup_cons|done|].
      intros i u Hu Hi. cbn in Hu. rewrite list_lookup_insert_ne in Hu by set_solver. by eapply Hfree.
    + rewrite <- deadlines_shift. cbn. do 2 f_equal; lia.
    + by rewrite app_nil_r, Hlog.
Qed.

(** A queue is in the order of its deadlines. *)
Lemma deadlines_sorted now xs : Forall (fun x => 0 < fst x < 2 ^ 31) xs ->
  StronglySorted (fun x y => x.1 < y.1) (deadlines now xs).
Proof.
  revert now. induction xs as [|[d f] xs IH]; intros now Hp; cbn [deadlines]; [constructor|].
  apply Forall_cons in Hp as [Hd Hp]. constructor; [by apply IH|].
  eapply Forall_impl; [apply (deadlines_pos (now + d) xs Hp)|]. cbn. lia.
Qed.
Lemma due_two_steps a b ds : StronglySorted (fun x y : Z * nat => x.1 < y.1) ds -> a <= b ->
  due_before a ds ++ due_before b (due_from a ds) = due_before b ds /\
  due_from b (due_from a ds) = due_from b ds.
Proof.
  unfold due_before, due_from. intros Hs Hab. induction Hs as [|x ds Hs IH Hx]; [done|].
  destruct IH as [IH1 IH2]. destruct (decide (x.1 < a)).
  - rewrite (filter_cons_True (fun x => x.1 < a)), (filter_cons_True (fun x => x.1 < b)) by lia.
    rewrite !(filter_cons_False (fun x => _ <= x.1)) by lia. split; [|done]. cbn. by rewrite IH1.
  - rewrite (filter_cons_False (fun x => x.1 < a)), (filter_cons_True (fun x => a <= x.1)) by lia.
    assert (E : filter (fun x => x.1 < a) ds = [] /\ filter (fun x => a <= x.1) ds = ds).
    { clear -Hx n. induction Hx as [|y ds Hy Hx [IH1 IH2]]; [done|].
      rewrite (filter_cons_False (fun x => x.1 < a)), (filter_cons_True (fun x => a <= x.1)) by lia.
      by rewrite IH1, IH2. }
    destruct E as [-> ->]. done.
Qed.
Lemma due_before_postpone a k ds : snd <$> due_before a (postpone k ds) = snd <$> due_before (a - k) ds.
Proof.
  unfold due_before, postpone. induction ds as [|x ds IH]; [done|]. rewrite fmap_cons, !filter_cons. cbn [fst].
  repeat case_decide; try lia; rewrite ?fmap_cons; cbn [snd]; by rewrite ?IH.
Qed.
Lemma due_from_postpone a k ds : due_from a (postpone k ds) = postpone k (due_from (a - k) ds).
Proof.
  unfold due_from, postpone. induction ds as [|x ds IH]; [done|]. rewrite fmap_cons, !filter_cons. cbn [fst].
  repeat case_decide; try lia; rewrite ?fmap_cons; by rewrite ?IH.
Qed.

(** One tick of the clock calls exactly the functions whose deadline has
    come, takes them off the queue, and brings every other deadline one tick
    nearer. *)
Lemma tick_timers_spec xs s :
  timers_rep s xs ->
  wp (tick_timers call_fn) (fun _ s' => exists xs', timers_rep s' xs' /\
    deadlines 0 xs' = postpone (-1) (due_from 2 (deadlines 0 xs)) /\
    log s' = log s ++ (snd <$> due_before 2 (deadlines 0 xs))) s.
Proof. apply tick_timers_run. Qed.

(** Every request fires, and fires on time: after [n] ticks of the clock
    the requests that have fired are those whose deadline has come, in the
    order of the deadlines, and the others have [n] ticks less to wait. *)
Lemma timers_fire_on_time n : forall xs s,
  timers_rep s xs ->
  wp (for_ (replicate n tt) (fun _ => tick_timers call_fn)) (fun _ s' => exists xs', timers_rep s' xs' /\
    deadlines 0 xs' = postpone (- Z.of_nat n) (due_from (Z.of_nat n + 1) (deadlines 0 xs)) /\
    log s' = log s ++ (snd <$> due_before (Z.of_nat n + 1) (deadlines 0 xs))) s.
Proof.
  induction n as [|n IH]; intros xs s Hr; cbn [replicate for_].
  - apply wpg_ret. exists xs. split; [done|].
    destruct (due_split_late 1 (deadlines 0 xs)) as [E1 E2].
    { destruct Hr as (_ & Hp & _). eapply Forall_impl; [by apply deadlines_pos|]. cbn. lia. }
    change (Z.of_nat 0 + 1) with 1. rewrite E1, E2. split; [|by rewrite app_nil_r].
    unfold postpone. rewrite <-(list_fmap_id (deadlines 0 xs)) at 1. apply list_fmap_ext. intros _ [a b] _.
    cbn. f_equal. lia.
  - apply wpg_bind. eapply wpg_mono; [by apply tick_timers_run|].
    intros [] s1 (xs1 & Hr1 & Hd1 & Hf1). eapply wpg_mono; [by apply IH|].
    intros [] s2 (xs2 & Hr2 & Hd2 & Hf2). exists xs2. split; [done|].
    assert (Hs : StronglySorted (fun x y => x.1 < y.1) (deadlines 0 xs)).
    { destruct Hr as (_ & Hp & _). by apply deadlines_sorted. }
    destruct (due_two_steps 2 (Z.of_nat (S n) + 1) _ Hs ltac:(lia)) as [E1 E2].
    rewrite Hd1, due_from_postpone in Hd2. rewrite Hd1, Hf1, due_before_postpone, <-app_assoc, <-fmap_app in Hf2.
    replace (Z.of_nat n + 1 - -1) with (Z.of_nat (S n) + 1) in * by lia. rewrite E2 in Hd2. rewrite E1 in Hf2.
    split; [|done]. rewrite Hd2. unfold postpone. rewrite <-list_fmap_compose. apply list_fmap_ext.
    intros _ [a b] _. cbn. f_equal. lia.
Qed.
End firing.

(** ** Witnesses *)

(** A runnable task in slot 1 that has used up its time slice. *)
Definition task1 : task_struct :=
  set_field t_pid (fun _ => 1) (set_field t_counter (fun _ => 0) (INIT_TASK 0)).
Definition two_tasks : kernel :=
  set_field k_task (fun l => <[1%nat := Some task1]> l) (boot_kernel 0 0).

Lemma two_tasks_slices : slices_ok two_tasks.
Proof.
  intros i t Hi Ht. destruct (decide (i = 1%nat)) as [->|Hne].
  - vm_compute in Ht. injection Ht as <-. vm_compute. intuition congruence.
  - unfold task_at, two_tasks in Ht. cbn in Ht.
    destruct i as [|[|i]]; [lia|done|]. cbn in Ht.
    do 62 (destruct i as [|i]; [done|]). done.
Qed.

Lemma select_next_spec_witness :
  slices_ok two_tasks /\
  wp select_next (fun next s' =>
    (s' = two_tasks \/ s' = recharged two_tasks /\ forall i c, runnable two_tasks i c -> c = 0) /\
    ((next = 0%nat /\ forall i c, ~ runnable two_tasks i c) \/
     exists c, runnable s' next c /\ 0 < c /\ forall i k, runnable s' i k -> k <= c)) two_tasks.
Proof. split; [exact two_tasks_slices|exact (select_next_spec _ two_tasks_slices)]. Defined.

(** A queue with one request, due in 5 ticks. *)
Definition one_timer : kernel :=
  set_field k_next_timer (fun _ => Some 0%nat)
    (set_field k_timers (fun l => <[0%nat := Timer 5 (Some 7%nat) None]> l) (boot_kernel 0 0)).

Lemma one_timer_rep : timers_rep one_timer [(5, 7%nat)].
Proof.
  split_and!; [reflexivity|apply Forall_singleton; cbn; lia|].
  exists [0%nat]. split_and!; [apply NoDup_singleton|cbn; eauto 10|].
  intros i t Ht Hi. destruct i as [|i]; [set_solver|]. cbn [one_timer] in Ht. cbn -[replicate] in Ht.
  apply lookup_replicate in Ht as [-> _]. done.
Qed.

Lemma add_timer_deadlines_witness :
  timers_rep one_timer [(5, 7%nat)] /\
  wp (add_timer 3 (Some (TimerFn 9 (mret tt)))) (fun _ s' => exists xs', timers_rep s' xs' /\
    deadlines 0 xs' = [(3, 9%nat); (8, 7%nat)]) one_timer.
Proof.
  split; [exact one_timer_rep|].
  eapply wpg_mono; [apply (add_timer_deadlines 3 9 (mret tt) [(5, 7%nat)]);
    [exact one_timer_rep|lia|vm_compute; lia]|].
  intros [] s' (xs' & Hrep & Hd). exists xs'. split; [exact Hrep|]. rewrite Hd. reflexivity.
Defined.
