(* ===== verification/Memory.v ===== *)
(** * mm/memory.c: physical pages, page tables, copy-on-write

    The routines run on [mm_state]: the reference counts [mem_map], the end of
    memory, and physical memory as 32-bit words.  The page directory is at
    physical address 0, so a directory entry's address is its index times 4.
    The TLB is not modelled ([invalidate()] is no operation); a call of
    [oom()] ends the running task. *)

From S2P Require Import Prelude Kernel.

Definition LOW_MEM : Z := 0x100000.
Definition PAGING_MEMORY : Z := 15 * 1024 * 1024.
Definition PAGING_PAGES : nat := Z.to_nat (Z.shiftr PAGING_MEMORY 12).
Definition MAP_NR (addr : Z) : Z := Z.shiftr (u32 (addr - LOW_MEM)) 12.
Definition USED : Z := 100.
Definition FRAME : Z := 0xfffff000.

(** ** Words of physical memory and reference counts *)

Definition rd (w : gmap Z Z) (a : Z) : Z := default 0 (w !! a).
Definition load (a : Z) : M mm_state Z := gets (fun m => rd (words m) a).
Definition store (a v : Z) : M mm_state unit :=
  modify (set_field words (fun w => <[a := v]> w)).
Definition get_map (i : Z) : M mm_state Z := fun m =>
  if i <? 0 then Fault m
  else match mem_map m !! Z.to_nat i with Some c => Ok c m | None => Fault m end.
Definition set_map (i v : Z) : M mm_state unit := fun m =>
  if i <? 0 then Fault m
  else match mem_map m !! Z.to_nat i with
       | Some _ => Ok tt (set_field mem_map (fun l => <[Z.to_nat i := v]> l) m)
       | None => Fault m
       end.

Definition oom {A} : M mm_state A := dead SIGSEGV.

(** The 1024 words of a page, in address order. *)
Definition page_words (page : Z) : list Z := (fun k => page + 4 * k) <$> seqZ 0 1024.

(** ** get_free_page, free_page *)

(** [std; repne; scasb]: compare the bytes n-1, n-2, ... with 0. *)
Fixpoint scasb_down (l : list Z) (n : nat) : option nat :=
  match n with
  | O => None
  | S i => match l !! i with
           | Some 0 => Some i
           | _ => scasb_down l i
           end
  end.

(** [std; rep; stosl] from the last word of the page down. *)
Definition clear_page (page : Z) : M mm_state unit :=
  for_ (rev (page_words page)) (fun a => store a 0).

Definition get_free_page : M mm_state Z :=
  l ← gets mem_map;
  match scasb_down l PAGING_PAGES with
  | None => mret 0
  | Some i =>
      set_map (Z.of_nat i) 1 ;;
      let page := u32 (Z.shiftl (Z.of_nat i) 12 + LOW_MEM) in
      clear_page page ;;
      mret page
  end.

Definition free_page (addr : Z) : M mm_state unit :=
  if addr <? LOW_MEM then mret tt
  else
    high ← gets HIGH_MEMORY;
    if high <=? addr then panic "trying to free nonexistent page"
    else
      let addr := Z.shiftr (addr - LOW_MEM) 12 in
      c ← get_map addr;
      set_map addr (u8 (c - 1)) ;;
      if truth c then mret tt
      else set_map addr 0 ;; panic "trying to free free page".

(** ** Page tables *)

Definition present (e : Z) : bool := truth (Z.land 1 e).
Definition pde_addr (address : Z) : Z := Z.land (Z.shiftr address 20) 0xffc.

Definition free_page_tables (from size : Z) : M mm_state Z :=
  if truth (Z.land from 0x3fffff) then panic "free_page_tables called with wrong alignment"
  else if negb (truth from) then panic "Trying to free up swapper memory space"
  else
    let size := Z.shiftr (u32 (size + 0x3fffff)) 22 in
    let dir := pde_addr from in
    for_ ((fun n => dir + 4 * n) <$> seqZ 0 size) (fun dir =>
      e ← load dir;
      if negb (present e) then mret tt
      else
        let pg_table := Z.land FRAME e in
        for_ (page_words pg_table) (fun pg_table =>
          e ← load pg_table;
          when (present e) (free_page (Z.land FRAME e)) ;;
          store pg_table 0) ;;
        free_page (Z.land FRAME e) ;;
        store dir 0) ;;
    mret 0.

(** One turn of the inner loop of [copy_page_tables]: the entry at [from] to
    the entry at [to]. *)
Definition copy_entry (from to : Z) : M mm_state unit :=
  this_page ← load from;
  if negb (present this_page) then mret tt
  else
    let this_page := Z.land this_page (not32 2) in
    store to this_page ;;
    when (LOW_MEM <? this_page)
      (store from this_page ;;
       let nr := Z.shiftr (this_page - LOW_MEM) 12 in
       c ← get_map nr;
       set_map nr (u8 (c + 1))).

(** One turn of the outer loop: the directory entry at [from_dir] to the one
    at [to_dir]; [Some (-1)] is the return when memory is short. *)
Definition copy_dir (nr : Z) (from_dir to_dir : Z) : M mm_state (option Z) :=
  te ← load to_dir;
  if present te then panic "copy_page_tables: already exist"
  else
    fe ← load from_dir;
    if negb (present fe) then mret None
    else
      let from_page_table := Z.land FRAME fe in
      to_page_table ← get_free_page;
      if negb (truth to_page_table) then mret (Some (-1))
      else
        store to_dir (Z.lor to_page_table 7) ;;
        for_ (seqZ 0 nr) (fun k =>
          copy_entry (from_page_table + 4 * k) (to_page_table + 4 * k)) ;;
        mret None.

Definition copy_page_tables (from to size : Z) : M mm_state Z :=
  if truth (Z.land from 0x3fffff) || truth (Z.land to 0x3fffff)
  then panic "copy_page_tables called with wrong alignment"
  else
    let from_dir := pde_addr from in
    let to_dir := pde_addr to in
    let size := Z.shiftr (u32 (size + 0x3fffff)) 22 in
    let nr := if from =? 0 then 0xA0 else 1024 in
    r ← for_break (seqZ 0 size) (fun n => copy_dir nr (from_dir + 4 * n) (to_dir + 4 * n));
    mret (default 0 r).

(** The two sanity messages of [put_page] change nothing. *)
Definition put_page (page address : Z) : M mm_state Z :=
  let pde := pde_addr address in
  e ← load pde;
  page_table ← (if present e then mret (Some (Z.land FRAME e))
                else
                  tmp ← get_free_page;
                  if negb (truth tmp) then mret None
                  else store pde (Z.lor tmp 7) ;; mret (Some tmp));
  match page_table with
  | None => mret 0
  | Some page_table =>
      store (page_table + 4 * Z.land (Z.shiftr address 12) 0x3ff) (Z.lor page 7) ;;
      mret page
  end.

(** ** Copy on write *)

Definition copy_page (from to : Z) : M mm_state unit :=
  for_ (seqZ 0 1024) (fun k => v ← load (from + 4 * k); store (to + 4 * k) v).

Definition un_wp_page (table_entry : Z) : M mm_state unit :=
  e ← load table_entry;
  let old_page := Z.land FRAME e in
  single ← (if LOW_MEM <=? old_page
            then c ← get_map (MAP_NR old_page); mret (c =? 1)
            else mret false);
  if (single : bool) then store table_entry (Z.lor e 2)
  else
    new_page ← get_free_page;
    if negb (truth new_page) then oom
    else
      when (LOW_MEM <=? old_page)
        (c ← get_map (MAP_NR old_page); set_map (MAP_NR old_page) (u8 (c - 1))) ;;
      store table_entry (Z.lor new_page 7) ;;
      copy_page old_page new_page.

(** The address of the page-table entry of a linear address. *)
Definition pte_offset (address : Z) : Z := Z.land (Z.shiftr address 10) 0xffc.

Definition do_wp_page (error_code address : Z) : M mm_state unit :=
  e ← load (pde_addr address);
  un_wp_page (pte_offset address + Z.land FRAME e).

Definition write_verify (address : Z) : M mm_state unit :=
  page ← load (pde_addr address);
  if negb (present page) then mret tt
  else
    let page := Z.land page FRAME + pte_offset address in
    e ← load page;
    when (Z.land 3 e =? 1) (un_wp_page page).

Definition get_empty_page (address : Z) : M mm_state unit :=
  tmp ← get_free_page;
  r ← (if truth tmp then put_page tmp address else mret 0);
  when (negb (truth r)) (free_page tmp ;; oom).

(** [p_start] and [start] are the [start_code] of task [p] and of the current task. *)
Definition try_to_share (address p_start start : Z) : M mm_state Z :=
  let from_page := pde_addr address + pde_addr p_start in
  let to_page := pde_addr address + pde_addr start in
  from ← load from_page;
  if negb (present from) then mret 0
  else
    let from := Z.land from FRAME in
    let from_page := from + pte_offset address in
    phys_addr ← load from_page;
    if negb (Z.land phys_addr 0x41 =? 0x01) then mret 0
    else
      let phys_addr := Z.land phys_addr FRAME in
      high ← gets HIGH_MEMORY;
      if (high <=? phys_addr) || (phys_addr <? LOW_MEM) then mret 0
      else
        to ← load to_page;
        to ← (if present to then mret to
              else
                to ← get_free_page;
                if truth to then store to_page (Z.lor to 7) ;; mret to
                else oom);
        let to := Z.land to FRAME in
        let to_page := to + pte_offset address in
        e ← load to_page;
        if present e then panic "try_to_share: to_page already exists"
        else
          fe ← load from_page;
          store from_page (Z.land fe (not32 2)) ;;
          fe ← load from_page;
          store to_page fe ;;
          let nr := Z.shiftr (phys_addr - LOW_MEM) 12 in
          c ← get_map nr;
          set_map nr (u8 (c + 1)) ;;
          mret 1.

Definition mem_init (start_mem end_mem : Z) : M mm_state unit :=
  modify (set_field HIGH_MEMORY (fun _ => end_mem)) ;;
  for_ (seqZ 0 (Z.of_nat PAGING_PAGES)) (fun i => set_map i USED) ;;
  let i := MAP_NR start_mem in
  let n := Z.shiftr (end_mem - start_mem) 12 in
  for_ (seqZ 0 n) (fun k => set_map (i + k) 0).

(** The routines of this file as called from the rest of the kernel. *)
Definition mm {A} (c : M mm_state A) : M kernel A :=
  zoom k_mm (fun m => set_field k_mm (fun _ => m)) c.

(** ** Lemmas: words, the free-page scan, page clearing *)

Lemma rd_insert_eq w a v : rd (<[a := v]> w) a = v.
Proof. unfold rd. by rewrite lookup_insert_eq. Qed.
Lemma rd_insert_ne w a b v : a <> b -> rd (<[a := v]> w) b = rd w b.
Proof. intros. unfold rd. by rewrite lookup_insert_ne. Qed.

Lemma page_words_spec page a :
  a ∈ page_words page <-> exists k, 0 <= k < 1024 /\ a = page + 4 * k.
Proof.
  unfold page_words. rewrite list_elem_of_fmap. split.
  - intros (k & -> & Hk). apply elem_of_seqZ in Hk. exists k. lia.
  - intros (k & ? & ->). exists k. split; [done|]. apply elem_of_seqZ. lia.
Qed.

Lemma page_words_NoDup page : NoDup (page_words page).
Proof. unfold page_words. apply NoDup_fmap_2_strong; [intros; lia|apply NoDup_seqZ]. Qed.

(** Filling a list of words with values that depend on the address only. *)
Definition fill (f : Z -> Z) (l : list Z) (w : gmap Z Z) : gmap Z Z :=
  foldl (fun w a => <[a := f a]> w) w l.

Lemma for_store f l m :
  for_ l (fun a => store a (f a)) m = Ok tt (set_field words (fill f l) m).
Proof.
  revert m. induction l as [|a l IH]; intros m; [by destruct m|].
  cbn [for_]. unfold mbind, M_bind, store at 1, modify. by rewrite IH.
Qed.

Lemma rd_fill f l w a : rd (fill f l w) a = if decide (a ∈ l) then f a else rd w a.
Proof.
  unfold fill. revert w. induction l as [|b l IH]; intros w; [done|]. cbn [foldl]. rewrite IH.
  destruct (decide (a ∈ l)); [rewrite decide_True by set_solver; done|].
  destruct (decide (a = b)) as [->|].
  - by rewrite rd_insert_eq, decide_True by set_solver.
  - rewrite rd_insert_ne, decide_False by set_solver. done.
Qed.

Lemma clear_page_eq page m :
  exists m', clear_page page m = Ok tt m' /\ mem_map m' = mem_map m /\
    HIGH_MEMORY m' = HIGH_MEMORY m /\
    forall a, rd (words m') a = if decide (a ∈ page_words page) then 0 else rd (words m) a.
Proof.
  unfold clear_page. rewrite (for_store (fun _ => 0)). eexists. split_and!; [done..|].
  intros a. cbn. rewrite rd_fill. destruct (decide (a ∈ page_words page)) as [H|H].
  - rewrite decide_True; [done|by apply elem_of_reverse_list || (rewrite list_elem_of_In, <- in_rev, <- list_elem_of_In; done)].
  - rewrite decide_False; [done|]. rewrite list_elem_of_In, <- in_rev, <- list_elem_of_In. done.
Qed.

Lemma scasb_down_Some l n i :
  scasb_down l n = Some i ->
  (i < n)%nat /\ l !! i = Some 0 /\ forall j, (i < j < n)%nat -> l !! j <> Some 0.
Proof.
  induction n as [|n IH]; cbn; [done|].
  destruct (l !! n) as [[| |]|] eqn:E; intros H.
  1: { injection H as <-. split_and!; [lia|done|]. intros; lia. }
  all: destruct (IH H) as (? & ? & Hj); split_and!; [lia|done|]; intros j ?;
    destruct (decide (j = n)) as [->|]; [congruence|apply Hj; lia].
Qed.

Lemma scasb_down_None l n : scasb_down l n = None -> forall j, (j < n)%nat -> l !! j <> Some 0.
Proof.
  induction n as [|n IH]; cbn; [intros; lia|].
  destruct (l !! n) as [[| |]|] eqn:E; intros H j Hj; try done;
    (destruct (decide (j = n)) as [->|]; [congruence|apply IH; [done|lia]]).
Qed.

Definition page_addr (i : nat) : Z := LOW_MEM + 4096 * Z.of_nat i.

Lemma wpg_get_map P F i c (Q : Z -> mm_state -> Prop) m :
  mem_map m !! i = Some c -> Q c m -> wpg P F (get_map (Z.of_nat i)) Q m.
Proof.
  intros Hi HQ. unfold wpg, get_map. rewrite (proj2 (Z.ltb_ge _ _)) by lia.
  by rewrite Nat2Z.id, Hi.
Qed.

Lemma wpg_set_map P F i v c (Q : unit -> mm_state -> Prop) m :
  mem_map m !! i = Some c -> Q tt (set_field mem_map (fun l => <[i := v]> l) m) ->
  wpg P F (set_map (Z.of_nat i) v) Q m.
Proof.
  intros Hi HQ. unfold wpg, set_map. rewrite (proj2 (Z.ltb_ge _ _)) by lia.
  by rewrite Nat2Z.id, Hi.
Qed.

Lemma page_addr_shift i : (i < PAGING_PAGES)%nat ->
  u32 (Z.shiftl (Z.of_nat i) 12 + LOW_MEM) = page_addr i.
Proof.
  intros Hi. change PAGING_PAGES with 3840%nat in Hi. unfold page_addr, LOW_MEM.
  rewrite Z.shiftl_mul_pow2 by lia. rewrite u32_small; lia.
Qed.

(** [get_free_page] takes the free page with the highest address, gives it
    a reference count of 1 and clears it; it returns 0 and changes nothing
    exactly when every page is in use. *)
Theorem get_free_page_spec m :
  length (mem_map m) = PAGING_PAGES ->
  wp get_free_page (fun r m' =>
    (r = 0 /\ m' = m /\ forall i, mem_map m !! i <> Some 0) \/
    exists i, r = page_addr i /\ mem_map m !! i = Some 0 /\
      (forall j, (i < j)%nat -> mem_map m !! j <> Some 0) /\
      mem_map m' = <[i := 1]> (mem_map m) /\ HIGH_MEMORY m' = HIGH_MEMORY m /\
      forall a, rd (words m') a = if decide (a ∈ page_words r) then 0 else rd (words m) a) m.
Proof.
  intros Hlen. unfold get_free_page. wp_steps.
  destruct (scasb_down _ _) as [i|] eqn:E.
  - apply scasb_down_Some in E as (Hi & H0 & Hmax). wp_step.
    eapply wpg_set_map; [exact H0|]. cbv zeta. wp_step.
    rewrite page_addr_shift by done.
    destruct (clear_page_eq (page_addr i) (set_field mem_map (fun l => <[i:=1]> l) m))
      as (m' & Hm & Hmap & Hhi & Hw).
    unfold wpg. rewrite Hm. right. exists i.
    split_and!; [reflexivity|exact H0| |exact Hmap|exact Hhi|exact Hw].
    intros j Hj. destruct (decide (j < PAGING_PAGES)%nat); [apply Hmax; lia|].
    rewrite lookup_ge_None_2 by lia. done.
  - wp_steps. left. split_and!; try done. intros i Hi.
    eapply scasb_down_None; [exact E| |exact Hi]. rewrite <- Hlen. by eapply lookup_lt_Some.
Qed.
