(* ===== verification/MemRefs.v ===== *)
(** * Reference counts and address translation (mm/memory.c)

    What the paging code maintains: the count of every page in [mem_map] is
    the number of page-directory and page-table entries that refer to it plus
    the references held elsewhere, and no page table is reached twice.  The
    invariant, that each operation preserves it, and what copy-on-write does to
    the contents of memory as a task sees it. *)

From S2P Require Import Prelude Kernel Memory.

(** ** Bits of page-table entries *)

Lemma FRAME_testbit n : 0 <= n -> Z.testbit FRAME n = (12 <=? n) && (n <? 32).
Proof.
  intros. replace FRAME with (Z.shiftl (Z.ones 20) 12) by reflexivity.
  rewrite Z.shiftl_spec by done. destruct (Z.leb_spec 12 n).
  - rewrite Z.testbit_ones by lia. destruct (Z.ltb_spec n 32); [apply andb_true_iff|apply andb_false_iff]; kbool; lia.
  - rewrite Z.testbit_neg_r by lia. done.
Qed.

(** The frame a page-table or directory entry points to. *)
Definition frame (e : Z) : Z := Z.land FRAME e.
(** A page-aligned 32-bit physical address. *)
Definition aligned (p : Z) : Prop := exists q, 0 <= q < 2 ^ 20 /\ p = 4096 * q.

Lemma frame_shift e : frame e = 4096 * ((e / 4096) mod 2 ^ 20).
Proof.
  unfold frame. replace FRAME with (Z.shiftl (Z.ones 20) 12) by reflexivity.
  replace (Z.land (Z.shiftl (Z.ones 20) 12) e) with (Z.shiftl (Z.land (Z.shiftr e 12) (Z.ones 20)) 12).
  - rewrite Z.land_ones, Z.shiftl_mul_pow2, Z.shiftr_div_pow2 by lia. change (2 ^ 12) with 4096. lia.
  - apply Z.bits_inj'. intros n Hn. rewrite Z.land_spec, !Z.shiftl_spec by done.
    destruct (Z.leb_spec 12 n).
    + rewrite Z.land_spec, Z.shiftr_spec by lia. rewrite andb_comm. do 2 f_equal. lia.
    + rewrite !(Z.testbit_neg_r _ (n - 12)) by lia. done.
Qed.

Lemma frame_aligned e : aligned (frame e).
Proof. rewrite frame_shift. eexists. split; [|reflexivity]. apply Z.mod_pos_bound. lia. Qed.

Lemma frame_or p k : aligned p -> 0 <= k < 4096 -> frame (Z.lor p k) = p.
Proof.
  intros (q & Hq & ->) Hk. replace (Z.lor (4096 * q) k) with (4096 * q + k).
  - rewrite frame_shift. replace ((4096 * q + k) / 4096) with q by (Z.to_euclidean_division_equations; lia).
    rewrite Z.mod_small by lia. lia.
  - rewrite (Z.mul_comm 4096). change 4096 with (2 ^ 12). rewrite <- Z.shiftl_mul_pow2 by lia.
    symmetry. rewrite Z.add_nocarry_lxor, Z.lxor_lor; try done.
    all: apply Z.bits_inj'; intros n Hn; rewrite Z.land_spec, Z.bits_0, Z.shiftl_spec by done.
    all: destruct (Z.leb_spec 12 n);
      [rewrite (Z.bits_above_log2 k n), andb_false_r; [done|lia|]|rewrite Z.testbit_neg_r by lia; done].
    all: destruct (decide (k = 0)) as [->|]; [cbn; lia|]; apply Z.log2_lt_pow2; [lia|];
      apply Z.lt_le_trans with (2 ^ 12); [lia|apply Z.pow_le_mono_r; lia].
Qed.

Lemma present_testbit e : present e = Z.testbit e 0.
Proof.
  unfold present, truth. replace (Z.land 1 e) with (Z.b2z (Z.testbit e 0)).
  - by destruct (Z.testbit e 0).
  - rewrite Z.land_comm. change 1 with (Z.ones 1). rewrite Z.land_ones by lia.
    rewrite <- Z.bit0_mod. done.
Qed.

Lemma present_or p k : Z.testbit k 0 = true -> present (Z.lor p k) = true.
Proof. intros H. by rewrite present_testbit, Z.lor_spec, H, orb_true_r. Qed.

(** Clearing the write bit keeps the frame and the present bit. *)
Lemma not32_2_testbit n : 0 <= n -> Z.testbit (not32 2) n = negb (n =? 1) && (n <? 32).
Proof.
  intros Hn. unfold not32, u32.
  destruct (Z.ltb_spec n 32).
  - rewrite Z.mod_pow2_bits_low, Z.lnot_spec by lia.
    change 2 with (2 ^ 1). rewrite Z.pow2_bits_eqb by lia. rewrite Z.eqb_sym. by rewrite andb_true_r.
  - rewrite Z.mod_pow2_bits_high by lia. by rewrite andb_false_r.
Qed.

Lemma present_ro e : present (Z.land e (not32 2)) = present e.
Proof. rewrite !present_testbit, Z.land_spec, not32_2_testbit by lia. cbn. by rewrite andb_true_r. Qed.

Lemma frame_ro e : frame (Z.land e (not32 2)) = frame e.
Proof.
  unfold frame. apply Z.bits_inj'. intros n Hn. rewrite !Z.land_spec, not32_2_testbit, FRAME_testbit by done.
  destruct (Z.leb_spec 12 n), (Z.ltb_spec n 32), (Z.eqb_spec n 1); try lia;
    by destruct (Z.testbit e n).
Qed.

(** Physical pages, as lists of words, are disjoint. *)
Lemma aligned_disjoint p q a :
  aligned p -> aligned q -> a ∈ page_words p -> a ∈ page_words q -> p = q.
Proof.
  rewrite !page_words_spec. intros (x & ? & ->) (y & ? & ->) (i & ? & ->) (j & ? & ?). lia.
Qed.

Lemma page_addr_aligned i : (i < PAGING_PAGES)%nat -> aligned (page_addr i).
Proof.
  change PAGING_PAGES with 3840%nat. intros. exists (256 + Z.of_nat i). unfold page_addr, LOW_MEM. lia.
Qed.

Lemma page_addr_inj i j : page_addr i = page_addr j -> i = j.
Proof. unfold page_addr. lia. Qed.

Lemma aligned_index p : aligned p -> LOW_MEM <= p < LOW_MEM + PAGING_MEMORY ->
  exists i, (i < PAGING_PAGES)%nat /\ p = page_addr i /\ Z.shiftr (p - LOW_MEM) 12 = Z.of_nat i.
Proof.
  change PAGING_PAGES with 3840%nat. unfold LOW_MEM, PAGING_MEMORY, page_addr, LOW_MEM.
  intros (q & ? & ->) ?. exists (Z.to_nat (q - 256)). split_and!; [lia|lia|].
  rewrite Z.shiftr_div_pow2 by lia. change (2 ^ 12) with 4096.
  replace (4096 * q - 1048576) with ((q - 256) * 4096) by lia. rewrite Z.div_mul by lia. lia.
Qed.

(** ** Counting references *)

Definition zsum {A} (f : A -> Z) (l : list A) : Z := foldr (fun x acc => f x + acc) 0 l.

Lemma zsum_cons {A} (f : A -> Z) x l : zsum f (x :: l) = f x + zsum f l.
Proof. reflexivity. Qed.
Ltac mem_cons := solve [set_solver | eauto using list_elem_of_here, list_elem_of_further].
Lemma zsum_ext {A} (f g : A -> Z) l : (forall x, x ∈ l -> f x = g x) -> zsum f l = zsum g l.
Proof.
  induction l as [|x l IH]; intros H; [done|]. rewrite !zsum_cons, IH, H by mem_cons. done.
Qed.
Lemma zsum_nonneg {A} (f : A -> Z) l : (forall x, x ∈ l -> 0 <= f x) -> 0 <= zsum f l.
Proof.
  induction l as [|x l IH]; intros H; [done|]. rewrite zsum_cons.
  pose proof (H x ltac:(mem_cons)) as Hx. assert (0 <= zsum f l) by (apply IH; mem_cons). lia.
Qed.
Lemma zsum_0 {A} (f : A -> Z) l : (forall x, x ∈ l -> f x = 0) -> zsum f l = 0.
Proof.
  induction l as [|x l IH]; intros H; [done|]. rewrite zsum_cons, IH, H by mem_cons. done.
Qed.
(** A term of a sum of non-negative terms. *)
Lemma zsum_elem {A} (f : A -> Z) l x :
  (forall y, y ∈ l -> 0 <= f y) -> x ∈ l -> f x <= zsum f l.
Proof.
  induction l as [|y l IH]; intros H Hx; [set_solver|]. rewrite zsum_cons.
  assert (0 <= zsum f l) by (apply zsum_nonneg; mem_cons).
  assert (0 <= f y) by (apply H; mem_cons).
  apply elem_of_cons in Hx as [->|Hx]; [lia|]. specialize (IH ltac:(mem_cons) Hx). lia.
Qed.
(** Two different terms. *)
Lemma zsum_elem2 {A} (f : A -> Z) l x y :
  (forall z, z ∈ l -> 0 <= f z) -> x ∈ l -> y ∈ l -> x <> y -> f x + f y <= zsum f l.
Proof.
  induction l as [|z l IH]; intros H Hx Hy Hne; [set_solver|]. rewrite zsum_cons.
  assert (0 <= f z) by (apply H; mem_cons).
  apply elem_of_cons in Hx as [->|Hx]; apply elem_of_cons in Hy as [->|Hy]; try done.
  - specialize (zsum_elem f l y ltac:(mem_cons) Hy). lia.
  - specialize (zsum_elem f l x ltac:(mem_cons) Hx). lia.
  - specialize (IH ltac:(mem_cons) Hx Hy Hne). lia.
Qed.
(** Changing one term. *)
Lemma zsum_change `{EqDecision A} (f g : A -> Z) l x :
  NoDup l -> x ∈ l -> (forall y, y ∈ l -> y <> x -> f y = g y) ->
  zsum f l = zsum g l - g x + f x.
Proof.
  induction l as [|y l IH]; intros Hnd Hx Heq; [set_solver|]. apply NoDup_cons in Hnd as [Hy Hnd].
  rewrite !zsum_cons. destruct (decide (y = x)) as [->|Hne].
  - rewrite (zsum_ext f g l); [lia|]. intros z Hz. apply Heq; [mem_cons|]. by intros ->.
  - rewrite IH, (Heq y); [lia|set_solver|done|done|set_solver|]. intros; apply Heq; mem_cons.
Qed.

(** The directory entries of the user tasks' address spaces: the first four
    map the kernel's 16MB. *)
Definition user_dirs : list Z := (fun k => 4 * k) <$> seqZ 4 1020.

Definition entry_refs (e p : Z) : Z := if present e && (frame e =? p) then 1 else 0.
Definition table_refs (w : gmap Z Z) (t p : Z) : Z :=
  zsum (fun a => entry_refs (rd w a) p) (page_words t).
Definition dir_refs (w : gmap Z Z) (p d : Z) : Z :=
  if present (rd w d) then entry_refs (rd w d) p + table_refs w (frame (rd w d)) p else 0.
Definition refs (w : gmap Z Z) (p : Z) : Z := zsum (dir_refs w p) user_dirs.

(** [t] is the page table that the present directory entry at [d] names. *)
Definition table_at (w : gmap Z Z) (d t : Z) : Prop :=
  d ∈ user_dirs /\ present (rd w d) = true /\ t = frame (rd w d).

(** The invariant.  [ext i] is the number of references to page [i] that are
    not in page tables: task structures, pipe buffers, pages a routine has
    just taken. *)
Record mm_inv (ext : nat -> Z) (m : mm_state) : Prop := {
  inv_len : length (mem_map m) = PAGING_PAGES;
  inv_high : HIGH_MEMORY m <= LOW_MEM + PAGING_MEMORY;
  inv_count : forall i c, mem_map m !! i = Some c ->
    c = refs (words m) (page_addr i) + ext i /\ 0 <= ext i /\ c < 256;
  inv_table : forall d t, table_at (words m) d t ->
    exists i, (i < PAGING_PAGES)%nat /\ t = page_addr i /\ t < HIGH_MEMORY m /\
      refs (words m) t = 1 /\ ext i = 0;
  inv_frame : forall d t a, table_at (words m) d t -> a ∈ page_words t ->
    present (rd (words m) a) = true -> frame (rd (words m) a) < HIGH_MEMORY m;
  inv_used : forall i, HIGH_MEMORY m <= page_addr i -> 0 < ext i }.

Lemma user_dirs_spec d : d ∈ user_dirs <-> exists k, 4 <= k < 1024 /\ d = 4 * k.
Proof.
  unfold user_dirs. rewrite list_elem_of_fmap. split.
  - intros (k & -> & Hk%elem_of_seqZ). exists k. lia.
  - intros (k & ? & ->). exists k. split; [done|]. apply elem_of_seqZ. lia.
Qed.
Lemma user_dirs_NoDup : NoDup user_dirs.
Proof. unfold user_dirs. apply NoDup_fmap_2_strong; [intros; lia|apply NoDup_seqZ]. Qed.

Lemma entry_refs_nonneg e p : 0 <= entry_refs e p.
Proof. unfold entry_refs. destruct (_ && _); lia. Qed.
Lemma table_refs_nonneg w t p : 0 <= table_refs w t p.
Proof. apply zsum_nonneg. intros. apply entry_refs_nonneg. Qed.
Lemma dir_refs_nonneg w p d : 0 <= dir_refs w p d.
Proof.
  unfold dir_refs. destruct (present _); [|done].
  pose proof (entry_refs_nonneg (rd w d) p). pose proof (table_refs_nonneg w (frame (rd w d)) p). lia.
Qed.
Lemma refs_nonneg w p : 0 <= refs w p.
Proof. apply zsum_nonneg. intros. apply dir_refs_nonneg. Qed.
#[export] Hint Resolve entry_refs_nonneg table_refs_nonneg dir_refs_nonneg refs_nonneg : kernel.

Lemma entry_refs_hit e p : present e = true -> frame e = p -> entry_refs e p = 1.
Proof. intros H <-. unfold entry_refs. by rewrite H, Z.eqb_refl. Qed.
Lemma entry_refs_absent e p : present e = false -> entry_refs e p = 0.
Proof. intros H. unfold entry_refs. by rewrite H. Qed.

(** A directory entry counts as a reference to its table. *)
Lemma dir_refs_table w d t : table_at w d t -> 1 <= dir_refs w t d.
Proof.
  intros (Hd & Hp & ->). unfold dir_refs. rewrite Hp, entry_refs_hit by done.
  pose proof (table_refs_nonneg w (frame (rd w d)) (frame (rd w d))). lia.
Qed.

Section with_inv.
Context {ext : nat -> Z} {m : mm_state} (I : mm_inv ext m).

(** Tables of different directory entries are different pages. *)
Lemma tables_distinct d d' t : table_at (words m) d t -> table_at (words m) d' t -> d = d'.
Proof using I.
  intros H H'. destruct (decide (d = d')); [done|exfalso].
  destruct (inv_table _ _ I _ _ H) as (i & _ & _ & _ & Hr & _).
  pose proof (zsum_elem2 (dir_refs (words m) t) user_dirs d d'
    ltac:(auto with kernel) (proj1 H) (proj1 H') ltac:(done)) as Hs.
  pose proof (dir_refs_table _ _ _ H). pose proof (dir_refs_table _ _ _ H').
  unfold refs in Hr. lia.
Qed.

Lemma table_aligned d t : table_at (words m) d t -> aligned t.
Proof using. intros (_ & _ & ->). apply frame_aligned. Qed.

Lemma table_above d t a : table_at (words m) d t -> a ∈ page_words t -> LOW_MEM <= a.
Proof using I.
  intros H (k & ? & ->)%page_words_spec. destruct (inv_table _ _ I _ _ H) as (i & _ & -> & _).
  unfold page_addr. lia.
Qed.

(** A table entry never refers to a page table. *)
Lemma entry_not_table d t a d' t' :
  table_at (words m) d t -> a ∈ page_words t -> table_at (words m) d' t' ->
  entry_refs (rd (words m) a) t' = 0.
Proof using I.
  intros H Ha H'. destruct (inv_table _ _ I _ _ H') as (i & _ & _ & _ & Hr & _).
  assert (Ht : entry_refs (rd (words m) a) t' <= table_refs (words m) t t').
  { apply (zsum_elem (fun a => entry_refs (rd (words m) a) t')); [auto with kernel|done]. }
  pose proof (entry_refs_nonneg (rd (words m) a) t').
  assert (table_refs (words m) t t' = 0); [|lia].
  pose proof (table_refs_nonneg (words m) t t').
  pose proof (dir_refs_table _ _ _ H') as Hdt.
  destruct (decide (d = d')) as [<-|Hne].
  - destruct H as (? & Hp & ->), H' as (_ & _ & ->).
    pose proof (zsum_elem (dir_refs (words m) (frame (rd (words m) d))) user_dirs d
      ltac:(auto with kernel) ltac:(done)) as Hs.
    unfold dir_refs in Hs at 1. rewrite Hp, entry_refs_hit in Hs by done. unfold refs in Hr. lia.
  - pose proof (zsum_elem2 (dir_refs (words m) t') user_dirs d d'
      ltac:(auto with kernel) (proj1 H) (proj1 H') Hne) as Hs.
    destruct H as (? & Hp & ->). unfold dir_refs in Hs at 1. rewrite Hp in Hs.
    pose proof (entry_refs_nonneg (rd (words m) d) t'). unfold refs in Hr. lia.
Qed.
End with_inv.

(** ** The effect of a store on the reference counts *)

(** Only the directory and the tables matter. *)
Lemma refs_agree w w' p :
  (forall d, d ∈ user_dirs -> rd w' d = rd w d) ->
  (forall d t a, table_at w d t -> a ∈ page_words t -> rd w' a = rd w a) ->
  refs w' p = refs w p.
Proof.
  intros Hd Ht. apply zsum_ext. intros d Hdin. unfold dir_refs. rewrite Hd by done.
  destruct (present (rd w d)) eqn:Hp; [|done]. f_equal. apply zsum_ext. intros a Ha.
  by rewrite (Ht d (frame (rd w d))).
Qed.

Lemma user_dir_low d : d ∈ user_dirs -> d < LOW_MEM.
Proof. intros (k & ? & ->)%user_dirs_spec. unfold LOW_MEM. lia. Qed.

Section stores.
Context {ext : nat -> Z} {m : mm_state} (I : mm_inv ext m).

Lemma table_not_dir d t a d' :
  table_at (words m) d t -> a ∈ page_words t -> d' ∈ user_dirs -> a <> d'.
Proof using I.
  intros H Ha Hd'%user_dir_low. pose proof (table_above I _ _ _ H Ha). lia.
Qed.

Lemma table_at_store a v d t d0 t0 :
  table_at (words m) d0 t0 -> a ∈ page_words t0 ->
  table_at (<[a := v]> (words m)) d t <-> table_at (words m) d t.
Proof using I.
  intros H0 Ha. unfold table_at. split; intros (Hd & ?); split; try done;
    pose proof (table_not_dir _ _ _ _ H0 Ha Hd); by rewrite rd_insert_ne in *.
Qed.

Lemma refs_store_entry d t a v p :
  table_at (words m) d t -> a ∈ page_words t ->
  refs (<[a := v]> (words m)) p = refs (words m) p - entry_refs (rd (words m) a) p + entry_refs v p.
Proof using I.
  intros H Ha. unfold refs.
  assert (Hdir : forall d', d' ∈ user_dirs -> rd (<[a := v]> (words m)) d' = rd (words m) d').
  { intros d' Hd'. rewrite rd_insert_ne; [done|]. by eapply table_not_dir. }
  rewrite (zsum_change _ (dir_refs (words m) p) user_dirs d user_dirs_NoDup (proj1 H)).
  - assert (dir_refs (<[a := v]> (words m)) p d
      = dir_refs (words m) p d - entry_refs (rd (words m) a) p + entry_refs v p); [|lia].
    pose proof H as (? & Hp & ->). unfold dir_refs. rewrite Hdir, Hp by done.
    unfold table_refs.
    rewrite (zsum_change _ (fun a => entry_refs (rd (words m) a) p) (page_words _) a);
      [|apply page_words_NoDup|done|intros y Hy Hne; by rewrite rd_insert_ne].
    rewrite rd_insert_eq. lia.
  - intros d' Hd' Hne. unfold dir_refs. rewrite Hdir by done.
    destruct (present (rd (words m) d')) eqn:Hp'; [|done]. f_equal. apply zsum_ext.
    intros y Hy. rewrite rd_insert_ne; [done|]. intros ->. apply Hne.
    assert (H' : table_at (words m) d' (frame (rd (words m) d'))) by done.
    eapply (tables_distinct I); [exact H'|].
    rewrite (aligned_disjoint (frame (rd (words m) d')) t y); [done|apply frame_aligned| |done|done].
    by eapply table_aligned.
Qed.

(** Changing a directory entry. *)
Lemma refs_store_dir d v p : d ∈ user_dirs ->
  (present v = true -> LOW_MEM <= frame v) ->
  refs (<[d := v]> (words m)) p = refs (words m) p - dir_refs (words m) p d +
    (if present v then entry_refs v p + table_refs (words m) (frame v) p else 0).
Proof using I.
  intros Hd Hv. unfold refs.
  rewrite (zsum_change _ (dir_refs (words m) p) user_dirs d user_dirs_NoDup Hd).
  - f_equal. unfold dir_refs. rewrite rd_insert_eq. destruct (present v); [|done].
    f_equal. apply zsum_ext. intros a Ha. rewrite rd_insert_ne; [done|].
    apply page_words_spec in Ha as (k & ? & ->). apply user_dir_low in Hd. specialize (Hv eq_refl). lia.
  - intros d' Hd' Hne. unfold dir_refs. rewrite rd_insert_ne by done.
    destruct (present (rd (words m) d')) eqn:Hp; [|done]. f_equal. apply zsum_ext.
    intros a Ha. rewrite rd_insert_ne; [done|].
    assert (H' : table_at (words m) d' (frame (rd (words m) d'))) by done.
    intros Heq. by eapply (table_not_dir _ _ _ _ H' Ha Hd).
Qed.

(** Writing a present or absent entry of a table, with the counts adjusted. *)
Lemma inv_store_entry ext' mm' d t a v :
  table_at (words m) d t -> a ∈ page_words t ->
  (present v = true -> frame v < HIGH_MEMORY m) ->
  (forall d' t', table_at (words m) d' t' -> entry_refs v t' = 0) ->
  length mm' = PAGING_PAGES ->
  (forall i c', mm' !! i = Some c' -> exists c, mem_map m !! i = Some c /\
     c' = c - entry_refs (rd (words m) a) (page_addr i) + entry_refs v (page_addr i) + ext' i - ext i /\
     0 <= ext' i /\ c' < 256) ->
  (forall i d' t', table_at (words m) d' t' -> t' = page_addr i -> ext' i = ext i) ->
  (forall i, HIGH_MEMORY m <= page_addr i -> 0 < ext' i) ->
  mm_inv ext' (Mm mm' (HIGH_MEMORY m) (<[a := v]> (words m))).
Proof using I.
  intros H Ha Hfr Hnt Hlen Hcnt Hext Hused. split; cbn.
  - done.
  - apply I.
  - intros i c' Hi. destruct (Hcnt i c' Hi) as (c & Hc & -> & ? & ?).
    destruct (inv_count _ _ I _ _ Hc) as (-> & ? & ?).
    rewrite (refs_store_entry _ _ _ _ _ H Ha). lia.
  - intros d' t' Ht'. rewrite (table_at_store _ _ _ _ _ _ H Ha) in Ht'.
    destruct (inv_table _ _ I _ _ Ht') as (i & ? & -> & ? & Hr & He). exists i. split_and!; try done.
    + rewrite (refs_store_entry _ _ _ _ _ H Ha), Hr.
      rewrite (Hnt _ _ Ht'), (entry_not_table I _ _ _ _ _ H Ha Ht'). done.
    + by rewrite (Hext _ _ _ Ht').
  - intros d' t' b Ht' Hb. rewrite (table_at_store _ _ _ _ _ _ H Ha) in Ht'.
    destruct (decide (a = b)) as [->|Hne]; [by rewrite rd_insert_eq|].
    rewrite rd_insert_ne by done. by eapply (inv_frame _ _ I).
  - exact Hused.
Qed.

(** Writes to memory that holds neither the directory nor a table. *)
Lemma inv_store_data w' :
  (forall d, d ∈ user_dirs -> rd w' d = rd (words m) d) ->
  (forall d t a, table_at (words m) d t -> a ∈ page_words t -> rd w' a = rd (words m) a) ->
  mm_inv ext (Mm (mem_map m) (HIGH_MEMORY m) w').
Proof using I.
  intros Hd Ht.
  assert (Hta : forall d t, table_at w' d t <-> table_at (words m) d t).
  { intros d t. unfold table_at. split; intros (Hin & ?); by rewrite (Hd _ Hin) in *. }
  split; cbn; try apply I.
  - intros i c Hc. rewrite (refs_agree _ _ _ Hd Ht). by apply I.
  - intros d t H%Hta. destruct (inv_table _ _ I _ _ H) as (i & ? & -> & ? & ? & ?).
    exists i. by rewrite (refs_agree _ _ _ Hd Ht).
  - intros d t a H%Hta Ha. rewrite (Ht d t a) by done. by eapply (inv_frame _ _ I).
Qed.
End stores.

(** ** Taking a page, installing and removing a table *)

Definition bump (ext : nat -> Z) (i : nat) (k : Z) : nat -> Z :=
  fun j => if decide (j = i) then ext j + k else ext j.

Lemma bump_eq ext i k : bump ext i k i = ext i + k.
Proof. unfold bump. by rewrite decide_True. Qed.
Lemma bump_ne ext i k j : j <> i -> bump ext i k j = ext j.
Proof. intros. unfold bump. by rewrite decide_False. Qed.
Lemma bump_bump ext i j : bump (bump ext i 1) i (-1) j = ext j.
Proof. unfold bump. destruct (decide _); lia. Qed.

(** The invariant only depends on the values of the ghost counts. *)
Lemma mm_inv_ext ext ext' m : (forall i, ext' i = ext i) -> mm_inv ext m -> mm_inv ext' m.
Proof.
  intros H [? ? Hc Ht ? Hu]. split; try done.
  - intros i c. rewrite H. apply Hc.
  - intros d t Hd. destruct (Ht d t Hd) as (i & ?). exists i. by rewrite H.
  - intros i. rewrite H. apply Hu.
Qed.

Section install.
Context {ext : nat -> Z} {m : mm_state} (I : mm_inv ext m).

(** Every word of the table at [t]. *)
Definition page_is (w : gmap Z Z) (t : Z) (f : Z -> Z) : Prop :=
  forall a, a ∈ page_words t -> rd w a = f a.

Lemma count_free i : mem_map m !! i = Some 0 -> refs (words m) (page_addr i) = 0 /\ ext i = 0.
Proof using I.
  intros H. destruct (inv_count _ _ I _ _ H) as (? & ? & ?).
  pose proof (refs_nonneg (words m) (page_addr i)). lia.
Qed.

(** A page without references from the page tables is no table. *)
Lemma not_table i d t : refs (words m) (page_addr i) = 0 -> table_at (words m) d t -> t <> page_addr i.
Proof using I. intros Hr Ht ->. destruct (inv_table _ _ I _ _ Ht) as (j & _ & _ & _ & ? & _). lia. Qed.

Lemma map_index i c : mem_map m !! i = Some c -> (i < PAGING_PAGES)%nat.
Proof using I. intros H. rewrite <- (inv_len _ _ I). by eapply lookup_lt_Some. Qed.

(** Words of an unreferenced page are in no table. *)
Lemma not_table_word i d t a :
  (i < PAGING_PAGES)%nat -> refs (words m) (page_addr i) = 0 -> table_at (words m) d t ->
  a ∈ page_words t -> a ∉ page_words (page_addr i).
Proof using I.
  intros Hi Hr Ht Ha Ha'. eapply not_table; [done..|].
  eapply aligned_disjoint; [by eapply table_aligned|by apply page_addr_aligned|done|done].
Qed.

Lemma page_words_high i a : a ∈ page_words (page_addr i) -> LOW_MEM <= a.
Proof using. intros (k & ? & ->)%page_words_spec. unfold page_addr. lia. Qed.

Lemma inv_alloc i w' :
  mem_map m !! i = Some 0 ->
  (forall a, rd w' a = if decide (a ∈ page_words (page_addr i)) then 0 else rd (words m) a) ->
  mm_inv (bump ext i 1) (Mm (<[i := 1]> (mem_map m)) (HIGH_MEMORY m) w').
Proof using I.
  intros Hi Hw. destruct (count_free i Hi) as [Hr He]. pose proof (map_index _ _ Hi) as Hlt.
  assert (Hd : forall d, d ∈ user_dirs -> rd w' d = rd (words m) d).
  { intros d Hd%user_dir_low. rewrite Hw, decide_False; [done|]. intros ?%page_words_high. lia. }
  assert (Ht : forall d t a, table_at (words m) d t -> a ∈ page_words t -> rd w' a = rd (words m) a).
  { intros d t a H Ha. rewrite Hw, decide_False; [done|]. by eapply not_table_word. }
  destruct (inv_store_data I w' Hd Ht) as [Hlen Hhi Hc Htab Hfr Hus]. cbn in *. split; cbn.
  - by rewrite length_insert.
  - done.
  - intros j c Hj. destruct (decide (j = i)) as [->|Hne].
    + rewrite list_lookup_insert_eq in Hj by by rewrite Hlen. injection Hj as <-.
      destruct (Hc i 0 Hi) as (? & ? & ?). rewrite bump_eq. lia.
    + rewrite list_lookup_insert_ne in Hj by done. rewrite bump_ne by done. by apply Hc.
  - intros d t H. destruct (Htab d t H) as (j & ? & -> & ? & Hrj & ?). exists j.
    split_and!; try done. rewrite bump_ne; [done|]. intros ->.
    rewrite (refs_agree _ _ _ Hd Ht) in Hrj. lia.
  - done.
  - intros j Hj. specialize (Hus j Hj). unfold bump. destruct (decide _); lia.
Qed.

Lemma table_refs_0 w t p : (forall a, a ∈ page_words t -> present (rd w a) = false) -> table_refs w t p = 0.
Proof using. intros H. apply zsum_0. intros a Ha. by apply entry_refs_absent, H. Qed.

Lemma table_at_dir_store d v d' t :
  table_at (<[d := v]> (words m)) d' t <->
  (d' <> d /\ table_at (words m) d' t) \/
  (d' = d /\ d ∈ user_dirs /\ present v = true /\ t = frame v).
Proof using.
  unfold table_at. destruct (decide (d' = d)) as [->|Hne].
  - rewrite rd_insert_eq. naive_solver.
  - rewrite rd_insert_ne by done. naive_solver.
Qed.

(** A cleared page becomes the table of an absent directory entry. *)
Lemma inv_install i d :
  d ∈ user_dirs -> present (rd (words m) d) = false ->
  (i < PAGING_PAGES)%nat -> page_addr i < HIGH_MEMORY m ->
  refs (words m) (page_addr i) = 0 -> ext i = 1 ->
  page_is (words m) (page_addr i) (fun _ => 0) ->
  mm_inv (bump ext i (-1)) (Mm (mem_map m) (HIGH_MEMORY m) (<[d := Z.lor (page_addr i) 7]> (words m))).
Proof using I.
  intros Hd Hp Hi Hhi Hr He Hz. set (v := Z.lor (page_addr i) 7).
  assert (Hv : present v = true) by by apply present_or.
  assert (Hf : frame v = page_addr i) by (apply frame_or; [by apply page_addr_aligned|lia]).
  assert (Hrefs : forall p, refs (<[d := v]> (words m)) p
      = refs (words m) p + entry_refs v p).
  { intros p. rewrite (refs_store_dir I) by (rewrite ?Hf; try done; intros; unfold page_addr; lia).
    unfold dir_refs. rewrite Hp, Hv, Hf, table_refs_0; [lia|]. intros a Ha. by rewrite Hz. }
  assert (Hev : forall j, entry_refs v (page_addr j) = if decide (j = i) then 1 else 0).
  { intros j. unfold entry_refs. rewrite Hv, Hf. cbn. destruct (decide (j = i)) as [->|Hne].
    - by rewrite Z.eqb_refl.
    - rewrite (proj2 (Z.eqb_neq _ _)); [done|]. by intros ?%page_addr_inj. }
  split; cbn.
  - apply I.
  - apply I.
  - intros j c Hj. destruct (inv_count _ _ I _ _ Hj) as (-> & ? & ?).
    rewrite Hrefs, Hev. unfold bump. destruct (decide (j = i)) as [->|]; lia.
  - intros d' t [[Hne Ht]|(-> & _ & _ & ->)]%table_at_dir_store.
    + destruct (inv_table _ _ I _ _ Ht) as (j & ? & -> & ? & Hrj & ?). exists j.
      rewrite Hrefs, Hev. unfold bump.
      destruct (decide (j = i)) as [->|]; [exfalso; lia|]. split_and!; (done || lia).
    + exists i. rewrite Hf, Hrefs, Hev, bump_eq, decide_True by done. split_and!; (done || lia).
  - intros d' t a [[Hne Ht]|(-> & _ & _ & ->)]%table_at_dir_store Ha.
    + rewrite rd_insert_ne; [by eapply (inv_frame _ _ I)|]. pose proof (table_not_dir I _ _ _ _ Ht Ha Hd). done.
    + rewrite Hf in Ha. rewrite rd_insert_ne.
      * rewrite Hz by done. done.
      * intros ->. apply page_words_high in Ha. apply user_dir_low in Hd. lia.
  - intros j Hj. pose proof (inv_used _ _ I j Hj). unfold bump. destruct (decide (j = i)) as [->|]; lia.
Qed.

(** An emptied table is taken out of the directory and its page freed. *)
Lemma inv_uninstall i d :
  table_at (words m) d (page_addr i) -> (i < PAGING_PAGES)%nat ->
  (forall a, a ∈ page_words (page_addr i) -> present (rd (words m) a) = false) ->
  mem_map m !! i = Some 1 /\
  mm_inv ext (Mm (<[i := 0]> (mem_map m)) (HIGH_MEMORY m) (<[d := 0]> (words m))).
Proof using I.
  intros Ht Hi Hz. pose proof Ht as (Hd & Hp & Hf).
  destruct (inv_table _ _ I _ _ Ht) as (i' & _ & <-%page_addr_inj & Hhi & Hr & He).
  assert (Hrefs : forall p, refs (<[d := 0]> (words m)) p
      = refs (words m) p - (if p =? page_addr i then 1 else 0)).
  { intros p. rewrite (refs_store_dir I) by done. unfold dir_refs. rewrite Hp, <- Hf, table_refs_0 by done.
    unfold entry_refs. rewrite Hp, <- Hf. change (present 0) with false. cbn -[refs].
    destruct (Z.eqb_spec p (page_addr i)), (Z.eqb_spec (page_addr i) p); congruence || lia. }
  assert (Hone : mem_map m !! i = Some 1).
  { destruct (lookup_lt_is_Some_2 (mem_map m) i) as [c Hc]; [by rewrite (inv_len _ _ I)|].
    destruct (inv_count _ _ I _ _ Hc) as (-> & ? & ?). rewrite Hr, He in Hc. done. }
  split; [done|]. split; cbn.
  - rewrite length_insert. apply I.
  - apply I.
  - intros j c Hj. rewrite Hrefs. destruct (decide (j = i)) as [->|Hne].
    + rewrite list_lookup_insert_eq in Hj by by rewrite (inv_len _ _ I). injection Hj as <-.
      rewrite Z.eqb_refl. lia.
    + rewrite list_lookup_insert_ne in Hj by done. rewrite (proj2 (Z.eqb_neq _ _)) by by intros ?%page_addr_inj.
      destruct (inv_count _ _ I _ _ Hj). lia.
  - intros d' t [[Hne Ht']|(-> & _ & ? & _)]%table_at_dir_store; [|done].
    destruct (inv_table _ _ I _ _ Ht') as (j & ? & -> & ? & Hrj & ?). exists j. rewrite Hrefs.
    rewrite (proj2 (Z.eqb_neq _ _)); [split_and!; (done||lia)|].
    intros Heq. apply Hne. rewrite Heq in Ht'. by eapply (tables_distinct I).
  - intros d' t a [[Hne Ht']|(-> & _ & ? & _)]%table_at_dir_store Ha; [|done].
    pose proof (table_not_dir I _ _ _ _ Ht' Ha Hd). rewrite rd_insert_ne by done. by eapply (inv_frame _ _ I).
  - apply I.
Qed.
End install.

(** ** The operations keep the invariant *)

Lemma wp_wpg {S A} (P : string -> S -> Prop) F (c : M S A) Q s : wp c Q s -> wpg P F c Q s.
Proof. unfold wp, wpg. destruct (c s); tauto. Qed.

Lemma wpg_load P F a (Q : Z -> mm_state -> Prop) m : Q (rd (words m) a) m -> wpg P F (load a) Q m.
Proof. exact id. Qed.
Lemma wpg_store P F a v (Q : unit -> mm_state -> Prop) m :
  Q tt (Mm (mem_map m) (HIGH_MEMORY m) (<[a := v]> (words m))) -> wpg P F (store a v) Q m.
Proof. exact id. Qed.

Ltac mm_step :=
  lazymatch goal with
  | |- wpg _ _ (load _) _ _ => apply wpg_load
  | |- wpg _ _ (store _ _) _ _ => apply wpg_store
  | _ => wp_step
  end; cbv beta zeta.
Ltac mm_steps := repeat mm_step.

(** The page at index [i], just taken from the free pages of [m]. *)
Record taken (ext : nat -> Z) (m : mm_state) (i : nat) (m' : mm_state) : Prop := {
  tk_inv : mm_inv (bump ext i 1) m';
  tk_lt : (i < PAGING_PAGES)%nat;
  tk_ext : ext i = 0;
  tk_free : mem_map m !! i = Some 0;
  tk_refs0 : refs (words m) (page_addr i) = 0;
  tk_refs : refs (words m') (page_addr i) = 0;
  tk_high : HIGH_MEMORY m' = HIGH_MEMORY m;
  tk_below : page_addr i < HIGH_MEMORY m;
  tk_map : mem_map m' = <[i := 1]> (mem_map m);
  tk_zero : page_is (words m') (page_addr i) (fun _ => 0);
  tk_rest : forall a, a ∉ page_words (page_addr i) -> rd (words m') a = rd (words m) a }.

Lemma tk_dir ext m i m' d : taken ext m i m' -> d ∈ user_dirs -> rd (words m') d = rd (words m) d.
Proof.
  intros T Hd%user_dir_low. apply (tk_rest _ _ _ _ T). intros ?%page_words_high. lia.
Qed.
Lemma tk_table ext m i m' d t : taken ext m i m' -> table_at (words m') d t <-> table_at (words m) d t.
Proof.
  intros T. unfold table_at. split; intros (Hd & ?); by rewrite (tk_dir _ _ _ _ _ T Hd) in *.
Qed.

Lemma wpg_get_free_page P F ext m (Q : Z -> mm_state -> Prop) :
  mm_inv ext m -> ((forall i, mem_map m !! i <> Some 0) -> Q 0 m) ->
  (forall i m', taken ext m i m' -> Q (page_addr i) m') ->
  wpg P F get_free_page Q m.
Proof.
  intros I H0 Hi. eapply wpg_mono; [apply wp_wpg, get_free_page_spec, I|].
  intros r m' [(-> & -> & Hno)|(i & -> & Hfree & _ & Hmap & Hhi & Hw)]; [by apply H0|]. apply Hi.
  destruct (count_free I i Hfree) as [Hr He].
  pose proof (map_index I _ _ Hfree) as Hlt. split; try done.
  - pose proof (inv_alloc I i (words m') Hfree Hw) as I'. rewrite <- Hmap, <- Hhi in I'.
    by destruct m'.
  - rewrite <- Hr. apply refs_agree.
    + intros d Hd%user_dir_low. rewrite Hw, decide_False; [done|]. intros ?%page_words_high. lia.
    + intros d t a H Ha. rewrite Hw, decide_False; [done|]. by eapply (not_table_word I).
  - destruct (decide (page_addr i < HIGH_MEMORY m)); [done|].
    pose proof (inv_used _ _ I i ltac:(lia)). lia.
  - intros a Ha. by rewrite Hw, decide_True.
  - intros a Ha. by rewrite Hw, decide_False.
Qed.

(** ** Address translation *)

(** The address of the page-table entry of a linear address, and the
    physical word a linear address stands for. *)
Definition pte_addr (w : gmap Z Z) (address : Z) : option Z :=
  let e := rd w (pde_addr address) in
  if present e then Some (frame e + pte_offset address) else None.
Definition translate (w : gmap Z Z) (address : Z) : option Z :=
  pa ← pte_addr w address;
  if present (rd w pa) then Some (frame (rd w pa) + address mod 4096) else None.

Lemma pte_offset_put address : pte_offset address = 4 * Z.land (Z.shiftr address 12) 0x3ff.
Proof.
  unfold pte_offset. change 4 with (2 ^ 2). rewrite Z.mul_comm, <- Z.shiftl_mul_pow2 by lia.
  apply Z.bits_inj'. intros n Hn. rewrite Z.land_spec, Z.shiftl_spec, Z.shiftr_spec by done.
  change 0xffc with (Z.shiftl (Z.ones 10) 2). change 0x3ff with (Z.ones 10).
  rewrite Z.shiftl_spec by done. destruct (Z.leb_spec 2 n).
  - rewrite Z.land_spec, Z.shiftr_spec by lia. do 2 f_equal. lia.
  - rewrite !(Z.testbit_neg_r _ (n - 2)), andb_false_r by lia. done.
Qed.

Lemma pte_in_page t address : t + pte_offset address ∈ page_words t.
Proof.
  apply page_words_spec. exists (Z.land (Z.shiftr address 12) 0x3ff).
  rewrite pte_offset_put. split; [|done]. change 0x3ff with (Z.ones 10).
  rewrite Z.land_ones by lia. apply Z.mod_pos_bound. lia.
Qed.

Lemma aligned_present p : aligned p -> present (Z.lor p 7) = true /\ frame (Z.lor p 7) = p.
Proof. intros. split; [by apply present_or|apply frame_or; [done|lia]]. Qed.

Lemma page_addr_truth i : truth (page_addr i) = true.
Proof. apply truth_true. unfold page_addr, LOW_MEM. lia. Qed.

(** [m'] maps [address] to page [p] and every user address that [m] maps as
    [m] does. *)
Definition maps_also (m m' : mm_state) (address p : Z) : Prop :=
  translate (words m') address = Some (p + address mod 4096) /\
  forall a x, pde_addr a ∈ user_dirs -> translate (words m) a = Some x -> translate (words m') a = Some x.

Section put.
Context {ext : nat -> Z} {m : mm_state} (I : mm_inv ext m).

Lemma no_table_entry_refs i v :
  frame v = page_addr i -> 0 < ext i -> forall d t, table_at (words m) d t -> entry_refs v t = 0.
Proof using I.
  intros Hf He d t Ht. destruct (inv_table _ _ I _ _ Ht) as (j & _ & -> & _ & _ & Hj).
  unfold entry_refs. rewrite Hf. destruct (Z.eqb_spec (page_addr i) (page_addr j)) as [<-%page_addr_inj|].
  - lia.
  - by rewrite andb_false_r.
Qed.

Lemma entry_refs_page i v j :
  present v = true -> frame v = page_addr i ->
  entry_refs v (page_addr j) = if decide (j = i) then 1 else 0.
Proof using.
  intros Hv Hf. unfold entry_refs. rewrite Hv, Hf. cbn. destruct (decide (j = i)) as [->|Hne].
  - by rewrite Z.eqb_refl.
  - rewrite (proj2 (Z.eqb_neq _ _)); [done|]. by intros ?%page_addr_inj.
Qed.

(** A reference moves from [ext] to an absent entry of a table. *)
Lemma inv_put_entry d t a i v :
  table_at (words m) d t -> a ∈ page_words t -> present (rd (words m) a) = false ->
  present v = true -> frame v = page_addr i -> page_addr i < HIGH_MEMORY m -> 0 < ext i ->
  mm_inv (bump ext i (-1)) (Mm (mem_map m) (HIGH_MEMORY m) (<[a := v]> (words m))).
Proof using I.
  intros Ht Ha Hp Hv Hf Hhi He.
  apply (inv_store_entry I (bump ext i (-1)) (mem_map m) d t a v); try done.
  - intros _. by rewrite Hf.
  - by apply (no_table_entry_refs i).
  - apply I.
  - intros j c Hj. exists c. split; [done|]. destruct (inv_count _ _ I _ _ Hj) as (? & ? & ?).
    rewrite entry_refs_absent by done. rewrite (entry_refs_page i) by done.
    unfold bump. destruct (decide (j = i)) as [->|]; split_and!; lia.
  - intros j d' t' Ht' ->. destruct (inv_table _ _ I _ _ Ht') as (j' & _ & <-%page_addr_inj & _ & _ & Hj).
    apply bump_ne. intros ->. lia.
  - intros j Hj. pose proof (inv_used _ _ I j Hj). unfold bump. destruct (decide (j = i)) as [->|]; lia.
Qed.

(** The entry of [address] once its table is there. *)
Lemma put_entry_maps address t v p :
  table_at (words m) (pde_addr address) t ->
  present (rd (words m) (t + pte_offset address)) = false ->
  present v = true -> frame v = p ->
  maps_also m (Mm (mem_map m) (HIGH_MEMORY m) (<[t + pte_offset address := v]> (words m))) address p.
Proof using I.
  intros Ht Hp Hv <-. pose proof (pte_in_page t address) as Ha.
  assert (Hd : forall d, d ∈ user_dirs ->
    rd (<[t + pte_offset address := v]> (words m)) d = rd (words m) d).
  { intros d Hd. rewrite rd_insert_ne; [done|]. by eapply (table_not_dir I). }
  split.
  - unfold translate, pte_addr. cbn [words]. rewrite (Hd _ (proj1 Ht)).
    destruct Ht as (_ & Hpd & ->). rewrite Hpd. cbn. by rewrite rd_insert_eq, Hv.
  - intros a x Hau. unfold translate, pte_addr. cbn [words]. rewrite (Hd _ Hau).
    destruct (present (rd (words m) (pde_addr a))); [|done]. cbn.
    destruct (decide (t + pte_offset address = frame (rd (words m) (pde_addr a)) + pte_offset a)) as [Heq|Hne].
    + rewrite <- Heq, Hp. done.
    + by rewrite rd_insert_ne.
Qed.
End put.

Lemma maps_also_trans m m1 m2 address p :
  (forall a x, pde_addr a ∈ user_dirs -> translate (words m) a = Some x -> translate (words m1) a = Some x) ->
  maps_also m1 m2 address p -> maps_also m m2 address p.
Proof. intros H [H1 H2]. split; [done|]. intros. apply H2; auto. Qed.

(** A fresh page as the table of an absent directory entry. *)
Definition with_table (d : Z) (j : nat) (m : mm_state) : mm_state :=
  Mm (mem_map m) (HIGH_MEMORY m) (<[d := Z.lor (page_addr j) 7]> (words m)).
Record new_table (ext : nat -> Z) (m : mm_state) (d : Z) (j : nat) (m' : mm_state) : Prop := {
  nt_inv : mm_inv ext m';
  nt_table : table_at (words m') d (page_addr j);
  nt_zero : forall a, a ∈ page_words (page_addr j) -> rd (words m') a = 0;
  nt_dir : forall d', d' ∈ user_dirs -> d' <> d -> rd (words m') d' = rd (words m) d';
  nt_entry : forall d' t a, table_at (words m) d' t -> a ∈ page_words t -> rd (words m') a = rd (words m) a;
  nt_map : mem_map m' = <[j := 1]> (mem_map m);
  nt_high : HIGH_MEMORY m' = HIGH_MEMORY m }.
Lemma taken_table ext m j m1 d : mm_inv ext m -> taken ext m j m1 -> d ∈ user_dirs -> present (rd (words m) d) = false ->
  new_table ext m d j (with_table d j m1).
Proof.
  intros I T Hd Hp. destruct (aligned_present _ (page_addr_aligned j (tk_lt _ _ _ _ T))) as [Hv Hf].
  assert (Hhigh : forall a, a ∈ page_words (page_addr j) -> a <> d).
  { intros a Ha%page_words_high ->. apply user_dir_low in Hd. lia. }
  split; cbn.
  - eapply mm_inv_ext; [intros k; symmetry; apply (bump_bump ext j k)|].
    apply (inv_install (tk_inv _ _ _ _ T)); [done|by rewrite (tk_dir _ _ _ _ _ T Hd)|apply T| |apply T| |apply T].
    + rewrite (tk_high _ _ _ _ T). apply T.
    + by rewrite bump_eq, (tk_ext _ _ _ _ T).
  - unfold table_at. by rewrite rd_insert_eq.
  - intros a Ha. rewrite rd_insert_ne by (by apply not_eq_sym, Hhigh). by rewrite (tk_zero _ _ _ _ T).
  - intros d' Hd' Hne. rewrite rd_insert_ne by done. by apply (tk_dir _ _ _ _ _ T).
  - intros d' t a Ht Ha. rewrite rd_insert_ne.
    + apply (tk_rest _ _ _ _ T). eapply (not_table_word I); [apply T|apply T|exact Ht|exact Ha].
    + intros ->. exact (table_not_dir I _ _ _ _ Ht Ha Hd eq_refl).
  - apply T.
  - apply T.
Qed.
(** Stores that keep the frames of the present entries keep the translation. *)
Lemma translate_keep w w' x y : rd w' (pde_addr x) = rd w (pde_addr x) ->
  (forall a, a ∈ page_words (frame (rd w (pde_addr x))) -> present (rd w a) = true ->
    present (rd w' a) = true /\ frame (rd w' a) = frame (rd w a)) ->
  translate w x = Some y -> translate w' x = Some y.
Proof.
  intros Ed Ha. unfold translate, pte_addr. rewrite Ed. destruct (present (rd w (pde_addr x))); [|done]. cbn.
  destruct (present (rd w _)) eqn:Hp; [|done]. destruct (Ha _ (pte_in_page _ x) Hp) as [-> ->]. done.
Qed.
Lemma new_table_translate ext m d j m' x y : new_table ext m d j m' -> present (rd (words m) d) = false ->
  pde_addr x ∈ user_dirs -> translate (words m) x = Some y -> translate (words m') x = Some y.
Proof.
  intros N Hp Hx. destruct (decide (pde_addr x = d)) as [Hxd|Hne].
  - unfold translate, pte_addr. by rewrite Hxd, Hp.
  - intros Hy. revert Hy. destruct (present (rd (words m) (pde_addr x))) eqn:Hpx; [|unfold translate, pte_addr; by rewrite Hpx].
    apply translate_keep; [by apply (nt_dir _ _ _ _ _ N)|]. intros a Ha Hpa.
    by rewrite (nt_entry _ _ _ _ _ N (pde_addr x) (frame (rd (words m) (pde_addr x))) a).
Qed.

(** [put_page] maps a page the caller holds at an unmapped user address: the
    caller's reference becomes the mapping's.  Without memory for the page
    table it returns 0 and changes nothing. *)
Lemma wpg_put_page P F ext m i address (Q : Z -> mm_state -> Prop) :
  mm_inv ext m -> page_addr i < HIGH_MEMORY m -> 0 < ext i -> pde_addr address ∈ user_dirs ->
  (forall pa, pte_addr (words m) address = Some pa -> present (rd (words m) pa) = false) ->
  ((forall j, mem_map m !! j <> Some 0) -> Q 0 m) ->
  (forall m', mm_inv (bump ext i (-1)) m' -> maps_also m m' address (page_addr i) -> Q (page_addr i) m') ->
  wpg P F (put_page (page_addr i) address) Q m.
Proof.
  intros I Hhi He Hd Habs Q0 Q1. unfold put_page. mm_step. mm_step.
  assert (Hf : aligned (page_addr i)).
  { destruct (decide (i < PAGING_PAGES)%nat); [by apply page_addr_aligned|exfalso].
    pose proof (inv_high _ _ I). unfold page_addr, PAGING_MEMORY, PAGING_PAGES, PAGING_MEMORY in *.
    change (Z.to_nat _) with 3840%nat in *. lia. }
  destruct (aligned_present _ Hf) as [Hv Hfv].
  destruct (present (rd (words m) (pde_addr address))) eqn:Hp; mm_steps; rewrite <- ?pte_offset_put.
  - assert (Ht : table_at (words m) (pde_addr address) (frame (rd (words m) (pde_addr address)))) by done.
    unfold pte_addr in Habs. rewrite Hp in Habs. specialize (Habs _ eq_refl).
    apply Q1; [by eapply (inv_put_entry I); [exact Ht|apply pte_in_page|..]|by apply (put_entry_maps I)].
  - eapply (wpg_get_free_page _ _ _ _ _ I); [intros Hno; mm_steps; by apply Q0|].
    intros j m1 T. rewrite page_addr_truth. mm_steps.
    pose proof (taken_table ext m j m1 _ I T Hd Hp) as N.
    change (mem_map m1) with (mem_map (with_table (pde_addr address) j m1)).
    change (HIGH_MEMORY m1) with (HIGH_MEMORY (with_table (pde_addr address) j m1)).
    change (<[pde_addr address := _]> (words m1)) with (words (with_table (pde_addr address) j m1)).
    pose proof (nt_zero _ _ _ _ _ N _ (pte_in_page (page_addr j) address)) as Hz.
    apply Q1.
    + eapply (inv_put_entry (nt_inv _ _ _ _ _ N)); [apply N|apply pte_in_page|by rewrite Hz|done|done| |done].
      by rewrite (nt_high _ _ _ _ _ N).
    + eapply maps_also_trans; [|apply (put_entry_maps (nt_inv _ _ _ _ _ N)); [apply N|by rewrite Hz|done|done]].
      intros a x Ha. by apply (new_table_translate _ _ _ _ _ _ _ N).
Qed.

(** ** Freeing pages and tables *)

Lemma wpg_free_page P F m i c (Q : unit -> mm_state -> Prop) :
  mem_map m !! i = Some c -> 0 < c < 256 -> (i < PAGING_PAGES)%nat -> page_addr i < HIGH_MEMORY m ->
  Q tt (Mm (<[i := c - 1]> (mem_map m)) (HIGH_MEMORY m) (words m)) ->
  wpg P F (free_page (page_addr i)) Q m.
Proof.
  intros Hi Hc Hlt Hhi HQ. unfold free_page.
  assert ((page_addr i <? LOW_MEM) = false) as E by (unfold page_addr; lia).
  assert ((HIGH_MEMORY m <=? page_addr i) = false) as E' by lia.
  assert (Z.shiftr (page_addr i - LOW_MEM) 12 = Z.of_nat i) as ->.
  { destruct (aligned_index (page_addr i)) as (j & _ & <-%page_addr_inj & ?); [by apply page_addr_aligned| |done].
    change PAGING_PAGES with 3840%nat in Hlt. unfold page_addr, LOW_MEM, PAGING_MEMORY. lia. }
  mm_steps. eapply wpg_get_map; [exact Hi|]. mm_steps. eapply wpg_set_map; [exact Hi|].
  assert (truth c = true) as E2 by (apply truth_true; lia).
  assert (u8 (c - 1) = c - 1) as -> by (apply u8_small; lia).
  mm_steps. exact HQ.
Qed.

Lemma wpg_free_low P F m p (Q : unit -> mm_state -> Prop) :
  p < LOW_MEM -> Q tt m -> wpg P F (free_page p) Q m.
Proof. intros H%Z.ltb_lt HQ. unfold free_page. rewrite H. exact HQ. Qed.

Lemma entry_refs_low e i : frame e < LOW_MEM -> entry_refs e (page_addr i) = 0.
Proof.
  intros H. unfold entry_refs. rewrite (proj2 (Z.eqb_neq _ _)); [by rewrite andb_false_r|].
  unfold page_addr. lia.
Qed.

Section free.
Context {ext : nat -> Z} {m : mm_state} (I : mm_inv ext m).

(** The page a table entry refers to, if it is above the low megabyte. *)
Lemma entry_page d t a :
  table_at (words m) d t -> a ∈ page_words t -> present (rd (words m) a) = true ->
  LOW_MEM <= frame (rd (words m) a) ->
  exists i c, (i < PAGING_PAGES)%nat /\ frame (rd (words m) a) = page_addr i /\
    page_addr i < HIGH_MEMORY m /\ mem_map m !! i = Some c /\ 1 + ext i <= c < 256 /\ 0 <= ext i /\
    (forall d' t', table_at (words m) d' t' -> t' <> page_addr i).
Proof using I.
  intros Ht Ha Hp Hlow. pose proof (inv_frame _ _ I _ _ _ Ht Ha Hp) as Hhi.
  destruct (aligned_index (frame (rd (words m) a))) as (i & Hi & Hf & _);
    [apply frame_aligned|pose proof (inv_high _ _ I); lia|].
  destruct (lookup_lt_is_Some_2 (mem_map m) i) as [c Hc]; [by rewrite (inv_len _ _ I)|].
  exists i, c. destruct (inv_count _ _ I _ _ Hc) as (Hcnt & ? & ?).
  assert (1 <= refs (words m) (page_addr i)).
  { pose proof (zsum_elem (dir_refs (words m) (page_addr i)) user_dirs d ltac:(auto with kernel) (proj1 Ht)) as Hs.
    pose proof (zsum_elem (fun a => entry_refs (rd (words m) a) (page_addr i)) (page_words t) a
      (fun _ _ => entry_refs_nonneg _ _) Ha) as Hs'. cbn beta in Hs'.
    rewrite entry_refs_hit in Hs' by done. destruct Ht as (_ & Hpd & ->).
    unfold dir_refs in Hs at 1. rewrite Hpd in Hs.
    pose proof (entry_refs_nonneg (rd (words m) d) (page_addr i)).
    unfold table_refs in Hs. unfold refs. lia. }
  split_and!; try (done || lia).
  intros d' t' Ht' ->. pose proof (entry_not_table I _ _ _ _ _ Ht Ha Ht') as Hno.
  rewrite entry_refs_hit in Hno; done.
Qed.

(** Clearing an entry and giving back its reference. *)
Lemma inv_clear_entry d t a :
  table_at (words m) d t -> a ∈ page_words t ->
  (present (rd (words m) a) = false \/ frame (rd (words m) a) < LOW_MEM) ->
  mm_inv ext (Mm (mem_map m) (HIGH_MEMORY m) (<[a := 0]> (words m))).
Proof using I.
  intros Ht Ha Hn. apply (inv_store_entry I ext (mem_map m) d t a 0); try done; try apply I.
  intros i c Hc. exists c. destruct (inv_count _ _ I _ _ Hc) as (? & ? & ?).
  assert (entry_refs (rd (words m) a) (page_addr i) = 0) as ->
    by (destruct Hn; [by apply entry_refs_absent|by apply entry_refs_low]).
  rewrite entry_refs_absent by done. split_and!; (done || lia).
Qed.

Lemma inv_drop_entry d t a i c :
  table_at (words m) d t -> a ∈ page_words t -> present (rd (words m) a) = true ->
  frame (rd (words m) a) = page_addr i -> mem_map m !! i = Some c ->
  mm_inv ext (Mm (<[i := c - 1]> (mem_map m)) (HIGH_MEMORY m) (<[a := 0]> (words m))).
Proof using I.
  intros Ht Ha Hp Hf Hi.
  apply (inv_store_entry I ext (<[i := c - 1]> (mem_map m)) d t a 0); try done; try apply I.
  - rewrite length_insert. apply I.
  - intros j c' Hj. rewrite (entry_refs_page i) by done. rewrite entry_refs_absent by done.
    destruct (decide (j = i)) as [->|Hne].
    + rewrite list_lookup_insert_eq in Hj by by eapply lookup_lt_Some. injection Hj as <-.
      exists c. destruct (inv_count _ _ I _ _ Hi). split_and!; (done || lia).
    + rewrite list_lookup_insert_ne in Hj by done. exists c'.
      destruct (inv_count _ _ I _ _ Hj). split_and!; (done || lia).
Qed.
End free.

(** One turn of the inner loop of [free_page_tables]. *)
Definition free_entry (a : Z) : M mm_state unit :=
  e ← load a;
  when (present e) (free_page (Z.land FRAME e)) ;;
  store a 0.

Lemma wpg_free_entry P F ext m d t a (Q : unit -> mm_state -> Prop) :
  mm_inv ext m -> table_at (words m) d t -> a ∈ page_words t ->
  (forall m', mm_inv ext m' -> HIGH_MEMORY m' = HIGH_MEMORY m ->
     words m' = <[a := 0]> (words m) -> Q tt m') ->
  wpg P F (free_entry a) Q m.
Proof.
  intros I Ht Ha HQ. unfold free_entry. mm_steps; fold (frame (rd (words m) a)).
  - destruct (decide (frame (rd (words m) a) < LOW_MEM)) as [Hlow|Hlow].
    + apply wpg_free_low; [done|]. mm_steps. apply HQ; [|done..]. eapply inv_clear_entry; eauto.
    + destruct (entry_page I d t a Ht Ha H ltac:(lia)) as (i & c & Hi & Hf & Hhi & Hc & ? & ? & _).
      rewrite Hf. eapply wpg_free_page; [exact Hc|lia|done|done|]. mm_steps. apply HQ; [|done..].
      by eapply (inv_drop_entry I).
  - apply HQ; [|done..]. eapply inv_clear_entry; eauto.
Qed.

(** Emptying a whole table. *)
Lemma wpg_free_table P F ext m d t (Q : unit -> mm_state -> Prop) :
  mm_inv ext m -> table_at (words m) d t ->
  (forall m', mm_inv ext m' -> HIGH_MEMORY m' = HIGH_MEMORY m ->
     (forall a, rd (words m') a = if decide (a ∈ page_words t) then 0 else rd (words m) a) -> Q tt m') ->
  wpg P F (for_ (page_words t) free_entry) Q m.
Proof.
  intros I Ht HQ.
  apply (wpg_for _ _ (fun l m' => mm_inv ext m' /\ HIGH_MEMORY m' = HIGH_MEMORY m /\
    exists done_, page_words t = done_ ++ l /\
      forall a, rd (words m') a = if decide (a ∈ done_) then 0 else rd (words m) a)).
  - split_and!; [done..|]. by exists [].
  - intros a l m1 (I1 & Hhi & dn & Hsplit & Hw).
    assert (Ha : a ∈ page_words t) by (rewrite Hsplit; set_solver).
    assert (Hdir : forall d', d' ∈ user_dirs -> rd (words m1) d' = rd (words m) d').
    { intros d' Hd'. rewrite Hw, decide_False; [done|]. intros Hin.
      eapply (table_not_dir I); [exact Ht| |exact Hd'|done]. rewrite Hsplit. set_solver. }
    assert (Ht1 : table_at (words m1) d t) by (destruct Ht as (Hd & ?); unfold table_at; by rewrite Hdir).
    eapply wpg_free_entry; [done..|]. intros m2 I2 Hhi2 Hw2. split_and!; [done|congruence|].
    exists (dn ++ [a]). split; [by rewrite Hsplit, <- app_assoc|].
    intros b. rewrite Hw2. destruct (decide (b = a)) as [->|Hne].
    + rewrite rd_insert_eq, decide_True; [done|set_solver].
    + rewrite rd_insert_ne, Hw by done. destruct (decide (b ∈ dn)), (decide (b ∈ dn ++ [a])); set_solver.
  - intros m' (I' & Hhi & dn & Hsplit & Hw). rewrite app_nil_r in Hsplit. subst dn. by apply HQ.
Qed.

(** The outer loop of [free_page_tables]. *)
Definition free_dir (dir : Z) : M mm_state unit :=
  e ← load dir;
  if negb (present e) then mret tt
  else for_ (page_words (Z.land FRAME e)) free_entry ;;
       free_page (Z.land FRAME e) ;;
       store dir 0.

Lemma wpg_free_dir P F ext m d (Q : unit -> mm_state -> Prop) :
  mm_inv ext m -> d ∈ user_dirs ->
  (forall m', mm_inv ext m' -> HIGH_MEMORY m' = HIGH_MEMORY m ->
     present (rd (words m') d) = false ->
     (forall d', d' ∈ user_dirs -> d' <> d -> rd (words m') d' = rd (words m) d') -> Q tt m') ->
  wpg P F (free_dir d) Q m.
Proof.
  intros I Hd HQ. unfold free_dir.
  destruct (present (rd (words m) d)) eqn:Hp; mm_steps; [|apply HQ; done].
  fold (frame (rd (words m) d)).
  assert (Ht : table_at (words m) d (frame (rd (words m) d))) by done.
  destruct (inv_table _ _ I _ _ Ht) as (i & Hi & Hf & Hhi & Hr & He). rewrite Hf in *.
  eapply (wpg_free_table _ _ _ _ _ _ _ I Ht). intros m1 I1 Hhi1 Hw1. mm_steps.
  assert (Hdir : forall d', d' ∈ user_dirs -> rd (words m1) d' = rd (words m) d').
  { intros d' Hd'%user_dir_low. rewrite Hw1, decide_False; [done|]. intros ?%page_words_high. lia. }
  assert (Ht1 : table_at (words m1) d (page_addr i)) by (unfold table_at; by rewrite Hdir).
  destruct (inv_uninstall I1 i d Ht1 Hi) as [Hone I2].
  { intros a Ha. by rewrite Hw1, decide_True. }
  eapply wpg_free_page; [exact Hone|lia|done|by rewrite Hhi1|]. mm_steps. apply HQ.
  - exact I2.
  - exact Hhi1.
  - cbn. by rewrite rd_insert_eq.
  - intros d' Hd' Hne. cbn. rewrite rd_insert_ne by done. by apply Hdir.
Qed.

(** The directory entries of [n] consecutive 4MB blocks, and how many such
    blocks [size] bytes take. *)
Definition dir_range (d n : Z) : list Z := (fun k => d + 4 * k) <$> seqZ 0 n.
Definition blocks (size : Z) : Z := Z.shiftr (u32 (size + 0x3fffff)) 22.

(** [free_page_tables] on a user range: every page reference of the range
    is given back exactly once and the tables are freed, so the reference
    counts stay exact, no free page is freed again (no panic), and the range
    is unmapped; other directory entries are unchanged. *)
Theorem free_page_tables_inv ext m from size :
  mm_inv ext m -> Z.land from 0x3fffff = 0 -> from <> 0 ->
  (forall d, d ∈ dir_range (pde_addr from) (blocks size) -> d ∈ user_dirs) ->
  wp (free_page_tables from size) (fun r m' =>
    r = 0 /\ mm_inv ext m' /\
    forall d, d ∈ user_dirs ->
      if decide (d ∈ dir_range (pde_addr from) (blocks size))
      then present (rd (words m') d) = false
      else rd (words m') d = rd (words m) d) m.
Proof.
  intros I Hal Hfrom Hrange. unfold free_page_tables. rewrite Hal.
  fold (blocks size). cbv zeta. fold (dir_range (pde_addr from) (blocks size)).
  rewrite (proj2 (truth_true from)) by done. change (truth 0) with false.
  set (L := dir_range _ _) in *. wp_step. mm_steps.
  apply (wpg_for _ _ (fun l m' => mm_inv ext m' /\ exists dn, L = dn ++ l /\
    forall d, d ∈ user_dirs -> if decide (d ∈ dn) then present (rd (words m') d) = false
                               else rd (words m') d = rd (words m) d)).
  - split; [done|]. exists []. split; [done|]. intros d _. by rewrite decide_False by set_solver.
  - intros d l m1 (I1 & dn & Hsplit & Hw). match goal with |- wpg ?P ?F _ ?Q ?s => change (wpg P F (free_dir d) Q s) end.
    eapply (wpg_free_dir _ _ ext m1 _ _ I1); [apply Hrange; rewrite Hsplit; apply elem_of_app; right; apply list_elem_of_here|].
    intros m2 I2 _ Hp Hrest. split; [done|]. exists (dn ++ [d]).
    split; [by rewrite Hsplit, <- app_assoc|].
    intros d' Hd'. destruct (decide (d' = d)) as [->|Hne].
    + by rewrite decide_True by set_solver.
    + rewrite Hrest by done. specialize (Hw d' Hd').
      destruct (decide (d' ∈ dn)), (decide (d' ∈ dn ++ [d])); set_solver.
  - intros m' (I' & dn & Hsplit & Hw). rewrite app_nil_r in Hsplit. subst dn. mm_steps. by split_and!.
Qed.

(** ** Copy on write *)

(** Copying a page to another one. *)
Lemma wpg_copy_page P F from to m (Q : unit -> mm_state -> Prop) :
  (forall a, a ∈ page_words from -> a ∉ page_words to) ->
  (forall m', mem_map m' = mem_map m -> HIGH_MEMORY m' = HIGH_MEMORY m ->
     (forall k, 0 <= k < 1024 -> rd (words m') (to + 4 * k) = rd (words m) (from + 4 * k)) ->
     (forall b, b ∉ page_words to -> rd (words m') b = rd (words m) b) -> Q tt m') ->
  wpg P F (copy_page from to) Q m.
Proof.
  intros Hdis HQ. unfold copy_page.
  apply (wpg_for _ _ (fun l m' => mem_map m' = mem_map m /\ HIGH_MEMORY m' = HIGH_MEMORY m /\
    (exists n, 0 <= n <= 1024 /\ l = seqZ n (1024 - n) /\
       forall k, 0 <= k < n -> rd (words m') (to + 4 * k) = rd (words m) (from + 4 * k)) /\
    forall b, b ∉ page_words to -> rd (words m') b = rd (words m) b)).
  - split_and!; try done. exists 0. split_and!; [lia|done|done|]. intros; lia.
  - intros k l m1 (Hm & Hh & (n & Hn & Hl & Hc) & Hb).
    destruct (decide (n = 1024)) as [->|]; [done|].
    rewrite seqZ_cons in Hl by lia. injection Hl as -> ->.
    mm_steps. cbn. split_and!; try done.
    + exists (Z.succ n). split_and!; [lia|lia|f_equal; lia|]. intros k Hk.
      destruct (decide (k = n)) as [->|].
      * rewrite rd_insert_eq. apply Hb, Hdis, page_words_spec. exists n. lia.
      * rewrite rd_insert_ne by lia. apply Hc. lia.
    + intros b Hbt. rewrite rd_insert_ne; [by apply Hb|]. intros <-. apply Hbt, page_words_spec. exists n. lia.
  - intros m' (Hm & Hh & (n & Hn & Hl & Hc) & Hb). apply HQ; try done.
    destruct (decide (n = 1024)) as [->|]; [done|]. rewrite seqZ_cons in Hl by lia. done.
Qed.

Lemma MAP_NR_page i : (i < PAGING_PAGES)%nat -> MAP_NR (page_addr i) = Z.of_nat i.
Proof.
  intros Hi. unfold MAP_NR. rewrite u32_small.
  - destruct (aligned_index (page_addr i)) as (j & _ & <-%page_addr_inj & ?); [by apply page_addr_aligned| |done].
    change PAGING_PAGES with 3840%nat in Hi. unfold page_addr, LOW_MEM, PAGING_MEMORY. lia.
  - change PAGING_PAGES with 3840%nat in Hi. unfold page_addr, LOW_MEM. lia.
Qed.

(** What [un_wp_page] does to the entry at [a], whose page was [old]. *)
Record unshared (m : mm_state) (a old : Z) (m' : mm_state) (j : nat) : Prop := {
  us_lt : (j < PAGING_PAGES)%nat;
  us_entry : present (rd (words m') a) = true /\ frame (rd (words m') a) = page_addr j /\
             Z.testbit (rd (words m') a) 1 = true;
  us_alone : mem_map m' !! j = Some 1;
  us_copy : forall k, 0 <= k < 1024 -> rd (words m') (page_addr j + 4 * k) = rd (words m) (old + 4 * k);
  us_same : page_addr j = old \/ refs (words m) (page_addr j) = 0;
  us_rest : forall b, b <> a -> b ∉ page_words (page_addr j) -> rd (words m') b = rd (words m) b }.

Lemma entry_refs_le1 e p : 0 <= entry_refs e p <= 1.
Proof. unfold entry_refs. destruct (_ && _); lia. Qed.

Lemma lor2 e : present (Z.lor e 2) = present e /\ frame (Z.lor e 2) = frame e /\ Z.testbit (Z.lor e 2) 1 = true.
Proof.
  split_and!.
  - by rewrite !present_testbit, Z.lor_spec, orb_false_r.
  - unfold frame. apply Z.bits_inj'. intros n Hn. rewrite !Z.land_spec, Z.lor_spec, FRAME_testbit by done.
    change 2 with (2 ^ 1). rewrite Z.pow2_bits_eqb by lia.
    destruct (Z.leb_spec 12 n), (Z.eqb_spec 1 n); rewrite ?orb_false_r; (done || lia).
  - by rewrite Z.lor_spec, orb_true_r.
Qed.

(** The entry is alone on its page: it is only made writable. *)
Lemma inv_make_writable ext m d t a :
  mm_inv ext m -> table_at (words m) d t -> a ∈ page_words t -> present (rd (words m) a) = true ->
  mm_inv ext (Mm (mem_map m) (HIGH_MEMORY m) (<[a := Z.lor (rd (words m) a) 2]> (words m))).
Proof.
  intros I Ht Ha Hp. destruct (lor2 (rd (words m) a)) as (Hp2 & Hf2 & _).
  assert (He : forall p, entry_refs (Z.lor (rd (words m) a) 2) p = entry_refs (rd (words m) a) p).
  { intros p. unfold entry_refs. by rewrite Hp2, Hf2. }
  apply (inv_store_entry I ext (mem_map m) d t); try done; try apply I.
  - intros _. rewrite Hf2. by eapply (inv_frame _ _ I).
  - intros d' t' Ht'. rewrite He. exact (entry_not_table I _ _ _ _ _ Ht Ha Ht').
  - intros i c Hc. exists c. rewrite He. destruct (inv_count _ _ I _ _ Hc) as (? & ? & ?). split_and!; (done || lia).
Qed.

(** The entry is moved to the fresh page [j], held by the caller. *)
Lemma inv_move_entry ext m mm' d t a j :
  mm_inv ext m -> table_at (words m) d t -> a ∈ page_words t -> present (rd (words m) a) = true ->
  ext j = 1 -> (j < PAGING_PAGES)%nat -> page_addr j < HIGH_MEMORY m ->
  length mm' = PAGING_PAGES ->
  (forall i c', mm' !! i = Some c' -> exists c, mem_map m !! i = Some c /\
     c' = c - entry_refs (rd (words m) a) (page_addr i)) ->
  mm_inv (bump ext j (-1)) (Mm mm' (HIGH_MEMORY m) (<[a := Z.lor (page_addr j) 7]> (words m))).
Proof.
  intros I Ht Ha Hp Hj Hlt Hhi Hlen Hmm.
  destruct (aligned_present _ (page_addr_aligned j Hlt)) as [Hv Hf].
  apply (inv_store_entry I (bump ext j (-1)) mm' d t); try done.
  - by rewrite Hf.
  - apply (no_table_entry_refs I j); [exact Hf|lia].
  - intros i c' Hc'. destruct (Hmm i c' Hc') as (c & Hc & ->). exists c.
    destruct (inv_count _ _ I _ _ Hc) as (? & ? & ?).
    pose proof (entry_refs_le1 (rd (words m) a) (page_addr i)).
    rewrite (entry_refs_page j (Z.lor (page_addr j) 7)) by done.
    unfold bump. destruct (decide (i = j)) as [->|]; split_and!; (done || lia).
  - intros i d' t' Ht' ->. destruct (inv_table _ _ I _ _ Ht') as (i' & _ & <-%page_addr_inj & _ & _ & Hi).
    apply bump_ne. intros ->. lia.
  - intros i Hi. pose proof (inv_used _ _ I i Hi). unfold bump. destruct (decide (i = j)) as [->|]; lia.
Qed.

Lemma unshared_alone ext m d t a old i :
  mm_inv ext m -> table_at (words m) d t -> a ∈ page_words t -> present (rd (words m) a) = true ->
  old = frame (rd (words m) a) -> old = page_addr i -> (i < PAGING_PAGES)%nat ->
  mem_map m !! i = Some 1 -> t <> page_addr i ->
  unshared m a old (Mm (mem_map m) (HIGH_MEMORY m) (<[a := Z.lor (rd (words m) a) 2]> (words m))) i.
Proof.
  intros I Ht Ha Hp Ho Hi Hlt H1 Hne. destruct (lor2 (rd (words m) a)) as (Hp2 & Hf2 & H2).
  split; cbn; rewrite ?rd_insert_eq; try done.
  - rewrite Hp2, Hf2. by split_and!; [|congruence|].
  - intros k Hk. rewrite rd_insert_ne; [by rewrite Hi|]. intros ->. apply Hne.
    eapply aligned_disjoint; [by eapply table_aligned|by apply page_addr_aligned|exact Ha|].
    apply page_words_spec. eauto.
  - by left.
  - intros b Hb _. by rewrite rd_insert_ne.
Qed.

(** The copying branch of [un_wp_page]. *)
Definition cow_copy (table_entry old_page : Z) : M mm_state unit :=
  new_page ← get_free_page;
  if negb (truth new_page) then oom
  else
    when (LOW_MEM <=? old_page)
      (c ← get_map (MAP_NR old_page); set_map (MAP_NR old_page) (u8 (c - 1))) ;;
    store table_entry (Z.lor new_page 7) ;;
    copy_page old_page new_page.

(** [drop_ref] is the reference count after the old page lost one reference. *)
Definition drop_ref (mm : list Z) (e : Z) : list Z :=
  imap (fun i c => c - entry_refs e (page_addr i)) mm.

Lemma drop_ref_lookup mm e i : drop_ref mm e !! i = (fun c => c - entry_refs e (page_addr i)) <$> mm !! i.
Proof. unfold drop_ref. by rewrite list_lookup_imap. Qed.

Lemma drop_ref_low mm e : frame e < LOW_MEM -> drop_ref mm e = mm.
Proof.
  intros H. apply list_eq. intros i. rewrite drop_ref_lookup. destruct (mm !! i); [|done].
  cbn. rewrite entry_refs_low by done. f_equal. lia.
Qed.

Lemma drop_ref_page mm e i c : present e = true -> frame e = page_addr i -> mm !! i = Some c ->
  drop_ref mm e = <[i := c - 1]> mm.
Proof.
  intros Hp Hf Hi. apply list_eq. intros k. rewrite drop_ref_lookup.
  destruct (decide (k = i)) as [->|Hne].
  - rewrite list_lookup_insert_eq by by eapply lookup_lt_Some. rewrite Hi. cbn.
    by rewrite entry_refs_hit.
  - rewrite list_lookup_insert_ne by done. destruct (mm !! k); [|done]. cbn.
    rewrite (entry_refs_page i) by done. rewrite decide_False by done. f_equal. lia.
Qed.

Lemma wpg_cow_copy P F ext m d t a (Q : unit -> mm_state -> Prop) :
  mm_inv ext m -> table_at (words m) d t -> a ∈ page_words t -> present (rd (words m) a) = true ->
  (exists i, mem_map m !! i = Some 0) ->
  (forall m' j, mm_inv ext m' -> unshared m a (frame (rd (words m) a)) m' j -> Q tt m') ->
  wpg P F (cow_copy a (frame (rd (words m) a))) Q m.
Proof.
  intros I Ht Ha Hp [f Hfree] HQ. unfold cow_copy. mm_step.
  eapply (wpg_get_free_page _ _ _ _ _ I); [intros Hno; by destruct (Hno f)|].
  intros j m1 T. rewrite page_addr_truth. do 3 mm_step.
  pose proof (tk_inv _ _ _ _ T) as I1. pose proof (tk_lt _ _ _ _ T) as Hj.
  assert (Ht1 : table_at (words m1) d t) by by rewrite (tk_table _ _ _ _ _ _ T).
  assert (Hj1 : a ∉ page_words (page_addr j)) by (eapply (not_table_word I); eauto; apply T).
  assert (Ea : rd (words m1) a = rd (words m) a) by by apply (tk_rest _ _ _ _ T).
  set (e := rd (words m) a) in *.
  (* the counts after the old page lost its reference *)
  apply (wpg_mono _ _ _ (fun _ m2 => mem_map m2 = drop_ref (mem_map m1) e /\
    HIGH_MEMORY m2 = HIGH_MEMORY m1 /\ words m2 = words m1)).
  { destruct (Z.leb_spec LOW_MEM (frame e)) as [Hle|Hlt]; mm_steps.
    - destruct (entry_page I1 d t a Ht1 Ha) as (i & c & Hi & Hf & Hhi & Hc & Hc1 & Hex & _);
        [by rewrite Ea|by rewrite Ea|]. rewrite Ea in Hf. fold e in Hf.
      rewrite Hf, MAP_NR_page by done. eapply wpg_get_map; [exact Hc|].
      eapply wpg_set_map; [exact Hc|]. cbn. rewrite u8_small by lia.
      split_and!; try done. symmetry. by apply drop_ref_page.
    - rewrite drop_ref_low by done. done. }
  intros [] m2 (Hm2 & Hh2 & Hw2). mm_step. mm_step.
  set (m3 := Mm _ _ _).
  assert (I3 : mm_inv ext m3).
  { eapply mm_inv_ext; [intros k; symmetry; apply (bump_bump ext j k)|].
    unfold m3. rewrite Hm2, Hh2, Hw2. apply (inv_move_entry _ _ _ d t); try done.
    - by rewrite Ea.
    - rewrite bump_eq, (tk_ext _ _ _ _ T). done.
    - rewrite (tk_high _ _ _ _ T). apply T.
    - unfold drop_ref. rewrite length_imap. apply I1.
    - intros i c'. rewrite drop_ref_lookup, Ea. intros (c & -> & Hc)%fmap_Some. eauto. }
  assert (Hjo : page_addr j <> frame e).
  { intros Heq. destruct (entry_page I d t a Ht Ha) as (i & c & Hi & Hf & _ & Hc & Hc1 & Hex & _);
      [done|fold e; rewrite <- Heq; unfold page_addr; lia|].
    fold e in Hf. rewrite <- Heq in Hf. apply page_addr_inj in Hf as <-.
    rewrite (tk_free _ _ _ _ T) in Hc. injection Hc as <-. lia. }
  assert (Hao : a ∉ page_words (frame e)).
  { intros Hin. pose proof (aligned_disjoint _ _ _ (table_aligned _ _ Ht) (frame_aligned e) Ha Hin) as Hte.
    pose proof (entry_not_table I _ _ _ _ _ Ht Ha Ht) as H0. rewrite entry_refs_hit in H0; done. }
  apply wpg_copy_page.
  { intros b Hb Hb'. apply Hjo. symmetry. eapply aligned_disjoint;
      [apply frame_aligned|by apply page_addr_aligned|exact Hb|exact Hb']. }
  intros m4 Hm4 Hh4 Hcp Hrest. apply (HQ m4 j).
  - replace m4 with (Mm (mem_map m3) (HIGH_MEMORY m3) (words m4)) by (destruct m4; cbn in *; congruence).
    apply (inv_store_data I3).
    + intros d' Hd'%user_dir_low. apply Hrest. intros ?%page_words_high. lia.
    + intros d' t' b Ht' Hb. apply Hrest. cbn in Ht'. rewrite Hw2 in Ht'.
      rewrite (table_at_store I1 a _ d' t' d t Ht1 Ha) in Ht'.
      rewrite (tk_table _ _ _ _ _ _ T) in Ht'. eapply (not_table_word I); eauto. apply T.
  - destruct (aligned_present _ (page_addr_aligned j Hj)) as [Hv Hvf]. split.
    + done.
    + rewrite Hrest by done. cbn [words m3]. rewrite rd_insert_eq.
      split_and!; [exact Hv|exact Hvf|by rewrite Z.lor_spec, orb_true_r].
    + rewrite Hm4. cbn. rewrite Hm2, drop_ref_lookup, (tk_map _ _ _ _ T).
      rewrite list_lookup_insert_eq by (rewrite (inv_len _ _ I); done). cbn.
      unfold entry_refs. rewrite (proj2 (Z.eqb_neq _ _)) by congruence. by rewrite andb_false_r.
    + intros k Hk. rewrite Hcp by done. cbn. rewrite Hw2, rd_insert_ne.
      * apply (tk_rest _ _ _ _ T). intros Hin. apply Hjo. symmetry.
        eapply aligned_disjoint; [apply frame_aligned|by apply page_addr_aligned| |exact Hin].
        apply page_words_spec. eauto.
      * intros Heq. apply Hao. rewrite Heq. apply page_words_spec. eauto.
    + right. apply T.
    + intros b Hb Hbj. rewrite Hrest by done. cbn. rewrite Hw2, rd_insert_ne by done.
      by apply (tk_rest _ _ _ _ T).
Qed.

Lemma cow_copy_eq table_entry old_page : cow_copy table_entry old_page =
  (new_page ← get_free_page;
   if negb (truth new_page) then oom
   else
     when (LOW_MEM <=? old_page)
       (c ← get_map (MAP_NR old_page); set_map (MAP_NR old_page) (u8 (c - 1))) ;;
     store table_entry (Z.lor new_page 7) ;;
     copy_page old_page new_page).
Proof. reflexivity. Qed.

Lemma wpg_un_wp_page P F ext m d t a (Q : unit -> mm_state -> Prop) :
  mm_inv ext m -> table_at (words m) d t -> a ∈ page_words t -> present (rd (words m) a) = true ->
  (exists i, mem_map m !! i = Some 0) ->
  (forall m' j, mm_inv ext m' -> unshared m a (frame (rd (words m) a)) m' j -> Q tt m') ->
  wpg P F (un_wp_page a) Q m.
Proof.
  intros I Ht Ha Hp Hfree HQ.
  assert (Hcopy : wpg P F (cow_copy a (frame (rd (words m) a))) Q m) by by eapply wpg_cow_copy.
  unfold un_wp_page. mm_step. mm_step. fold (frame (rd (words m) a)).
  destruct (Z.leb_spec LOW_MEM (frame (rd (words m) a))) as [Hle|Hlt]; mm_step; mm_steps.
  - destruct (entry_page I d t a Ht Ha Hp Hle) as (i & c & Hi & Hf & Hhi & Hc & Hc1 & Hex & Hnt).
    rewrite Hf, MAP_NR_page by done. eapply wpg_get_map; [exact Hc|]. mm_step.
    destruct (Z.eqb_spec c 1) as [->|Hne].
    + mm_steps. apply (HQ _ i); [by eapply inv_make_writable|].
      rewrite Hf. eapply unshared_alone; eauto.
    + rewrite Hf in Hcopy. rewrite cow_copy_eq in Hcopy.
      rewrite MAP_NR_page, (proj2 (Z.leb_le _ _)) in Hcopy by (done || lia). exact Hcopy.
  - rewrite cow_copy_eq in Hcopy. rewrite (proj2 (Z.leb_gt _ _)) in Hcopy by done. by apply wpg_bind_inv.
Qed.

(** The word a task reads at a word-aligned linear address. *)
Definition user_word (w : gmap Z Z) (address : Z) : option Z := rd w <$> translate w address.

Section cow.
Context {ext : nat -> Z} {m : mm_state} (I : mm_inv ext m).
Context {m' : mm_state} {d t a : Z} {j : nat}.
Context (Ht : table_at (words m) d t) (Ha : a ∈ page_words t) (Hp : present (rd (words m) a) = true).
Context (U : unshared m a (frame (rd (words m) a)) m' j).

Lemma unshared_fresh : page_addr j = frame (rd (words m) a) \/
  forall d t b, table_at (words m) d t -> b ∈ page_words t -> present (rd (words m) b) = true ->
    frame (rd (words m) b) <> page_addr j.
Proof using I U.
  destruct (us_same _ _ _ _ _ U) as [|Hr]; [by left|right]. intros d' t' b Ht' Hb Hpb Hf.
  destruct (entry_page I d' t' b Ht' Hb Hpb) as (i & c & Hi & Hfi & _ & Hc & Hc1 & Hex & _).
  { rewrite Hf. unfold page_addr. lia. }
  rewrite Hf in Hfi. apply page_addr_inj in Hfi as <-.
  destruct (inv_count _ _ I _ _ Hc) as (-> & ? & ?). lia.
Qed.

(** The directory and the other tables are as before. *)
Lemma unshared_dir b : b ∈ user_dirs -> rd (words m') b = rd (words m) b.
Proof using I Ht Ha U.
  intros Hb. apply (us_rest _ _ _ _ _ U).
  - intros ->. exact (table_not_dir I _ _ _ _ Ht Ha Hb eq_refl).
  - intros ?%page_words_high. apply user_dir_low in Hb. lia.
Qed.

Lemma unshared_entry d' t' b : table_at (words m) d' t' -> b ∈ page_words t' -> b <> a ->
  rd (words m') b = rd (words m) b.
Proof using I Ht Ha Hp U.
  intros Ht' Hb Hne. apply (us_rest _ _ _ _ _ U); [done|]. intros Hj.
  destruct (inv_table _ _ I _ _ Ht') as (i & Hi & -> & _ & Hr & _).
  assert (page_addr i = page_addr j) as Hij.
  { eapply aligned_disjoint; [by apply page_addr_aligned| |exact Hb|exact Hj].
    apply page_addr_aligned. apply U. }
  rewrite Hij in Hr. destruct (us_same _ _ _ _ _ U) as [Hs|Hs]; [|lia].
  pose proof (entry_not_table I _ _ _ _ _ Ht Ha Ht') as Hn. rewrite entry_refs_hit in Hn; congruence.
Qed.

(** No task sees memory change. *)
Lemma unshared_user_word x : x mod 4 = 0 -> pde_addr x ∈ user_dirs ->
  user_word (words m') x = user_word (words m) x.
Proof using I Ht Ha Hp U.
  intros Hx Hd. unfold user_word, translate, pte_addr. rewrite unshared_dir by done.
  destruct (present (rd (words m) (pde_addr x))) eqn:Hpd; [|done]. cbn.
  set (b := frame (rd (words m) (pde_addr x)) + pte_offset x).
  assert (Ht' : table_at (words m) (pde_addr x) (frame (rd (words m) (pde_addr x)))) by done.
  assert (Hb : b ∈ page_words (frame (rd (words m) (pde_addr x)))) by apply pte_in_page.
  assert (Hoff : forall p, exists k, 0 <= k < 1024 /\ p + x mod 4096 = p + 4 * k).
  { intros p. exists ((x mod 4096) / 4). Z.to_euclidean_division_equations. lia. }
  destruct (decide (b = a)) as [->|Hne].
  - destruct (us_entry _ _ _ _ _ U) as (Hpa & Hfa & _). rewrite Hpa, Hp, Hfa. cbn. f_equal.
    destruct (Hoff (page_addr j)) as (k & Hk & E).
    replace (x mod 4096) with (4 * k) by lia. by apply U.
  - rewrite (unshared_entry _ _ _ Ht' Hb Hne).
    destruct (present (rd (words m) b)) eqn:Hpb; [|done]. cbn. f_equal.
    destruct (Hoff (frame (rd (words m) b))) as (k & Hk & ->).
    set (y := frame (rd (words m) b) + 4 * k).
    assert (Hy : y ∈ page_words (frame (rd (words m) b))) by (apply page_words_spec; eauto).
    destruct (decide (y ∈ page_words (page_addr j))) as [Hyj|Hyj].
    + (* the entry shares the page with [a]: it was not copied *)
      assert (Hf : frame (rd (words m) b) = page_addr j).
      { eapply aligned_disjoint; [apply frame_aligned|apply page_addr_aligned; apply U|exact Hy|exact Hyj]. }
      destruct unshared_fresh as [Hs|Hs]; [|by destruct (Hs _ _ _ Ht' Hb Hpb)].
      unfold y. rewrite Hf, (us_copy _ _ _ _ _ U) by done. by rewrite <- Hs.
    + apply (us_rest _ _ _ _ _ U); [|done]. intros ->.
      pose proof (entry_not_table I _ _ _ _ _ Ht' Hb Ht) as Hn.
      rewrite entry_refs_hit in Hn; [done|done|].
      eapply aligned_disjoint; [apply frame_aligned|by eapply table_aligned|exact Hy|exact Ha].
Qed.
End cow.

(** C3: a write fault on a present user page ([do_wp_page]): afterwards the
    faulting address is mapped writable to a page nobody else refers to, the
    reference counts are exact, and every task reads the same word as before
    at every user address. *)
Theorem do_wp_page_cow ext m error_code address pa :
  mm_inv ext m -> pde_addr address ∈ user_dirs ->
  pte_addr (words m) address = Some pa -> present (rd (words m) pa) = true ->
  (exists i, mem_map m !! i = Some 0) ->
  wp (do_wp_page error_code address) (fun _ m' =>
    mm_inv ext m' /\
    (exists j, frame (rd (words m') pa) = page_addr j /\ mem_map m' !! j = Some 1 /\
       Z.testbit (rd (words m') pa) 1 = true) /\
    (exists y, translate (words m') address = Some y) /\
    forall x, x mod 4 = 0 -> pde_addr x ∈ user_dirs ->
      user_word (words m') x = user_word (words m) x) m.
Proof.
  intros I Hd Hpa Hp Hfree. unfold do_wp_page. mm_step. mm_step. mm_step.
  fold (frame (rd (words m) (pde_addr address))). rewrite Z.add_comm.
  unfold pte_addr in Hpa. destruct (present (rd (words m) (pde_addr address))) eqn:Hpd; [|done].
  injection Hpa as <-. set (a := frame _ + _) in *.
  assert (Ht : table_at (words m) (pde_addr address) (frame (rd (words m) (pde_addr address)))) by done.
  assert (Ha : a ∈ page_words (frame (rd (words m) (pde_addr address)))) by apply pte_in_page.
  eapply (wpg_un_wp_page _ _ _ _ _ _ _ _ I Ht Ha Hp Hfree). intros m' j I' U.
  split_and!; [done| | |].
  - exists j. by destruct (us_entry _ _ _ _ _ U) as (_ & ? & ?), U.
  - unfold translate, pte_addr. rewrite (unshared_dir I Ht Ha U), Hpd by done. cbn. fold a.
    destruct (us_entry _ _ _ _ _ U) as (-> & _ & _). eauto.
  - intros x Hx Hdx. by apply (unshared_user_word I Ht Ha Hp U).
Qed.

(** ** Sharing an address space at fork *)

(** The child's copy of an entry, and what the parent's becomes. *)
Definition child_entry (e : Z) : Z := if present e then Z.land e (not32 2) else 0.
Definition parent_entry (e : Z) : Z :=
  if present e && (LOW_MEM <? Z.land e (not32 2)) then Z.land e (not32 2) else e.

Lemma ro_range e : 0 <= Z.land e (not32 2) < 2 ^ 32.
Proof.
  replace (Z.land e (not32 2)) with (Z.land e (not32 2) mod 2 ^ 32); [apply Z.mod_pos_bound; lia|].
  rewrite <- Z.land_ones by lia. apply Z.bits_inj'. intros n Hn.
  rewrite !Z.land_spec, not32_2_testbit, Z.testbit_ones by lia.
  destruct (Z.ltb_spec n 32), (Z.leb_spec 0 n), (Z.testbit e n), (negb (n =? 1)); (done || lia).
Qed.

(** An entry of 32 bits is its frame plus twelve flag bits. *)
Lemma frame_split e : 0 <= e < 2 ^ 32 -> e = frame e + e mod 4096.
Proof.
  intros. rewrite frame_shift. rewrite (Z.mod_small (e / 4096)) by (Z.to_euclidean_division_equations; lia).
  Z.to_euclidean_division_equations; lia.
Qed.

Lemma ro_above e : present e = true -> (LOW_MEM <? Z.land e (not32 2)) = (LOW_MEM <=? frame e).
Proof.
  intros Hp. pose proof (frame_split _ (ro_range e)) as Hs. rewrite frame_ro in Hs.
  destruct (frame_aligned e) as (q & Hq & Hf).
  assert (Z.land e (not32 2) mod 4096 <> 0).
  { rewrite <- present_ro, present_testbit in Hp. intros H0. rewrite Z.bit0_odd in Hp.
    apply Z.odd_spec in Hp as [k Hk]. Z.to_euclidean_division_equations; lia. }
  pose proof (Z.mod_pos_bound (Z.land e (not32 2)) 4096). unfold LOW_MEM in *.
  apply eq_bool_prop_intro. rewrite !Is_true_true, Z.ltb_lt, Z.leb_le. lia.
Qed.

Lemma ro_index e i : frame e = page_addr i -> (i < PAGING_PAGES)%nat ->
  Z.shiftr (Z.land e (not32 2) - LOW_MEM) 12 = Z.of_nat i.
Proof.
  intros Hf Hi. pose proof (frame_split _ (ro_range e)) as Hs. rewrite frame_ro, Hf in Hs.
  pose proof (Z.mod_pos_bound (Z.land e (not32 2)) 4096).
  rewrite Z.shiftr_div_pow2 by lia. unfold page_addr, LOW_MEM in *. change (2 ^ 12) with 4096.
  Z.to_euclidean_division_equations; lia.
Qed.

Lemma entry_refs_ro e p : entry_refs (Z.land e (not32 2)) p = entry_refs e p.
Proof. unfold entry_refs. by rewrite present_ro, frame_ro. Qed.

Section copy_entry.
Context {ext : nat -> Z} {m : mm_state} (I : mm_inv ext m) {df tf dt tt af at_ : Z}.
Context (Hf : table_at (words m) df tf) (Ht : table_at (words m) dt tt).
Context (Haf : af ∈ page_words tf) (Hat : at_ ∈ page_words tt) (Hne : af <> at_).
Context (Habs : present (rd (words m) at_) = false).

(** A present entry of the low megabyte is copied; no count changes. *)
Lemma inv_share_low :
  frame (rd (words m) af) < LOW_MEM ->
  mm_inv ext (Mm (mem_map m) (HIGH_MEMORY m) (<[at_ := Z.land (rd (words m) af) (not32 2)]> (words m))).
Proof using I Ht Hat Habs.
  intros Hlow.
  assert (H0 : forall i, entry_refs (Z.land (rd (words m) af) (not32 2)) (page_addr i) = 0).
  { intros i. rewrite entry_refs_ro. by apply entry_refs_low. }
  apply (inv_store_entry I ext (mem_map m) dt tt); try done; try apply I.
  - rewrite frame_ro. intros _. destruct (inv_table _ _ I _ _ Ht) as (j & _ & Hj & ? & _).
    unfold page_addr in Hj. lia.
  - intros d' t' Ht'. destruct (inv_table _ _ I _ _ Ht') as (j & _ & -> & _). apply H0.
  - intros i c Hc. exists c. rewrite H0, entry_refs_absent by done.
    destruct (inv_count _ _ I _ _ Hc) as (? & ? & ?). split_and!; (done || lia).
Qed.

(** A present entry above it gets one more reference. *)
Lemma inv_share i c :
  present (rd (words m) af) = true -> frame (rd (words m) af) = page_addr i ->
  mem_map m !! i = Some c -> c + 1 < 256 ->
  mm_inv ext (Mm (<[i := c + 1]> (mem_map m)) (HIGH_MEMORY m)
    (<[af := Z.land (rd (words m) af) (not32 2)]> (<[at_ := Z.land (rd (words m) af) (not32 2)]> (words m)))).
Proof using I Hf Ht Haf Hat Hne Habs.
  intros Hp Hfr Hi Hc. set (e := rd (words m) af) in *. set (v := Z.land e (not32 2)).
  assert (Hv : forall p, entry_refs v p = entry_refs e p) by (intros; apply entry_refs_ro).
  assert (Hnt : forall d' t', table_at (words m) d' t' -> entry_refs v t' = 0).
  { intros d' t' Ht'. rewrite Hv. exact (entry_not_table I _ _ _ _ _ Hf Haf Ht'). }
  assert (Hhi : frame v < HIGH_MEMORY m).
  { unfold v. rewrite frame_ro. by apply (inv_frame _ _ I df tf). }
  assert (I1 : mm_inv ext (Mm (<[i := c + 1]> (mem_map m)) (HIGH_MEMORY m) (<[at_ := v]> (words m)))).
  { apply (inv_store_entry I ext _ dt tt); try done; try apply I.
    - rewrite length_insert. apply I.
    - intros j c' Hj. rewrite Hv, entry_refs_absent by done. rewrite (entry_refs_page i e) by done.
      destruct (decide (j = i)) as [->|Hji].
      + rewrite list_lookup_insert_eq in Hj by by eapply lookup_lt_Some. injection Hj as <-.
        exists c. destruct (inv_count _ _ I _ _ Hi) as (? & ? & ?). split_and!; (done || lia).
      + rewrite list_lookup_insert_ne in Hj by done. exists c'.
        destruct (inv_count _ _ I _ _ Hj) as (? & ? & ?). split_and!; (done || lia). }
  assert (Hta : forall d' t', table_at (<[at_ := v]> (words m)) d' t' <-> table_at (words m) d' t').
  { intros. by apply (table_at_store I at_ v d' t' dt tt). }
  apply (inv_store_entry I1 ext (<[i := c + 1]> (mem_map m)) df tf af v); cbn [words mem_map HIGH_MEMORY].
  - by apply Hta.
  - done.
  - done.
  - intros d' t' H%Hta. by eapply Hnt.
  - apply I1.
  - intros j c' Hj. exists c'. rewrite rd_insert_ne by done. fold e.
    destruct (inv_count _ _ I1 _ _ Hj) as (? & ? & ?). rewrite !Hv. split_and!; (done || lia).
  - done.
  - apply I.
Qed.
End copy_entry.

(** How [m'] results from [m] by sharing the entry at [af] as [at_]. *)
Record shared_entry (ext : nat -> Z) (m : mm_state) (af at_ : Z) (m' : mm_state) : Prop := {
  se_inv : mm_inv ext m';
  se_high : HIGH_MEMORY m' = HIGH_MEMORY m;
  se_map : forall i c', mem_map m' !! i = Some c' ->
    exists c, mem_map m !! i = Some c /\ c' <= c + entry_refs (rd (words m) af) (page_addr i);
  se_child : rd (words m') at_ = child_entry (rd (words m) af);
  se_parent : rd (words m') af = parent_entry (rd (words m) af);
  se_rest : forall b, b <> af -> b <> at_ -> rd (words m') b = rd (words m) b }.

Lemma wpg_copy_entry P F ext m df tf dt tt af at_ (Q : unit -> mm_state -> Prop) :
  mm_inv ext m -> table_at (words m) df tf -> table_at (words m) dt tt ->
  af ∈ page_words tf -> at_ ∈ page_words tt -> af <> at_ -> rd (words m) at_ = 0 ->
  (forall i c, mem_map m !! i = Some c -> c + entry_refs (rd (words m) af) (page_addr i) < 256) ->
  (forall m', shared_entry ext m af at_ m' -> Q () m') ->
  wpg P F (copy_entry af at_) Q m.
Proof.
  intros I Hf Ht Haf Hat Hne H0 Hbud HQ. unfold copy_entry. mm_step. mm_step.
  set (e := rd (words m) af) in *. destruct (present e) eqn:Hp; mm_steps.
  - assert (Hlow : (LOW_MEM <? Z.land e (not32 2)) = (LOW_MEM <=? frame e)) by by apply ro_above.
    destruct (Z.leb_spec LOW_MEM (frame e)) as [Hle|Hlt]; [|congruence].
    destruct (entry_page I df tf af Hf Haf Hp Hle) as (i & c & Hi & Hfr & Hhi & Hc & Hc1 & Hex & _).
    fold e in Hfr. rewrite (ro_index e i) by done.
    eapply wpg_get_map; [exact Hc|]. cbv beta zeta.
    specialize (Hbud i c Hc) as Hb. rewrite entry_refs_hit in Hb by done.
    eapply wpg_set_map; [exact Hc|]. rewrite u8_small by lia. apply HQ.
    split; cbn; rewrite ?rd_insert_eq; try done.
    + eapply (inv_share I Hf Ht); try done. by rewrite H0.
    + intros k c' Hk. destruct (decide (k = i)) as [->|Hki].
      * rewrite list_lookup_insert_eq in Hk by by eapply lookup_lt_Some. injection Hk as <-.
        exists c. rewrite entry_refs_hit by done. split; [done|lia].
      * rewrite list_lookup_insert_ne in Hk by done. exists c'.
        pose proof (entry_refs_nonneg e (page_addr k)). split; [done|]. fold e. lia.
    + rewrite rd_insert_ne, rd_insert_eq by done. fold e. unfold child_entry. by rewrite Hp.
    + fold e. unfold parent_entry. by rewrite Hp, H.
    + intros b Hbf Hbt. rewrite !rd_insert_ne by done. done.
  - assert (Hlow : (LOW_MEM <? Z.land e (not32 2)) = (LOW_MEM <=? frame e)) by by apply ro_above.
    destruct (Z.leb_spec LOW_MEM (frame e)) as [Hle|Hlt]; [congruence|].
    apply HQ. split; cbn; rewrite ?rd_insert_eq; try done.
    + apply (inv_share_low I Ht Hat); [by rewrite H0|done].
    + intros k c' Hk. exists c'. pose proof (entry_refs_nonneg e (page_addr k)). fold e. split; [done|lia].
    + fold e. unfold child_entry. by rewrite Hp.
    + rewrite rd_insert_ne by done. fold e. unfold parent_entry. by rewrite H, andb_false_r.
    + intros b Hbf Hbt. by rewrite rd_insert_ne.
  - apply HQ. split; try done.
    + intros k c' Hk. exists c'. pose proof (entry_refs_nonneg e (page_addr k)). fold e. split; [done|lia].
    + fold e. unfold child_entry. by rewrite Hp.
    + fold e. unfold parent_entry. by rewrite Hp.
Qed.

(** Sharing a whole table: [B i] references to page [i] are still to come. *)
Record shared_table (ext : nat -> Z) (m : mm_state) (tf tt : Z) (m' : mm_state) : Prop := {
  st_inv : mm_inv ext m';
  st_high : HIGH_MEMORY m' = HIGH_MEMORY m;
  st_child : forall k, 0 <= k < 1024 -> rd (words m') (tt + 4 * k) = child_entry (rd (words m) (tf + 4 * k));
  st_parent : forall k, 0 <= k < 1024 -> rd (words m') (tf + 4 * k) = parent_entry (rd (words m) (tf + 4 * k));
  st_rest : forall b, b ∉ page_words tf -> b ∉ page_words tt -> rd (words m') b = rd (words m) b }.

Lemma page_words_zsum f t : zsum f (page_words t) = zsum (fun k => f (t + 4 * k)) (seqZ 0 1024).
Proof. unfold page_words. generalize (seqZ 0 1024). intros l.
  induction l as [|k l IH]; [done|]. by rewrite fmap_cons, !zsum_cons, IH.
Qed.

Lemma wpg_copy_table P F ext m df tf dt tt (B : nat -> Z) (Q : unit -> mm_state -> Prop) :
  mm_inv ext m -> table_at (words m) df tf -> table_at (words m) dt tt -> df <> dt ->
  page_is (words m) tt (fun _ => 0) -> (forall i, 0 <= B i) ->
  (forall i c, mem_map m !! i = Some c -> c + table_refs (words m) tf (page_addr i) + B i < 256) ->
  (forall m', shared_table ext m tf tt m' ->
     (forall i c, mem_map m' !! i = Some c -> c + B i < 256) -> Q () m') ->
  wpg P F (for_ (seqZ 0 1024) (fun k => copy_entry (tf + 4 * k) (tt + 4 * k))) Q m.
Proof.
  intros I Hf Ht Hd Hz HB Hbud HQ.
  assert (Htt : tf <> tt) by (intros ->; apply Hd; by eapply (tables_distinct I)).
  assert (Hword : forall t k, 0 <= k < 1024 -> t + 4 * k ∈ page_words t)
    by (intros; apply page_words_spec; eauto).
  assert (Hapart : forall k k', 0 <= k < 1024 -> 0 <= k' < 1024 -> tf + 4 * k <> tt + 4 * k').
  { intros k k' Hk Hk' Heq. apply Htt. apply (aligned_disjoint tf tt (tf + 4 * k));
      [by eapply table_aligned|by eapply table_aligned|by apply Hword|rewrite Heq; by apply Hword]. }
  apply (wpg_for _ _ (fun l m' => mm_inv ext m' /\ HIGH_MEMORY m' = HIGH_MEMORY m /\
    exists n, 0 <= n <= 1024 /\ l = seqZ n (1024 - n) /\
    (forall i c, mem_map m' !! i = Some c ->
       c + zsum (fun k => entry_refs (rd (words m) (tf + 4 * k)) (page_addr i)) l + B i < 256) /\
    (forall k, 0 <= k < n -> rd (words m') (tt + 4 * k) = child_entry (rd (words m) (tf + 4 * k)) /\
                             rd (words m') (tf + 4 * k) = parent_entry (rd (words m) (tf + 4 * k))) /\
    (forall b, (forall k, 0 <= k < n -> b <> tf + 4 * k /\ b <> tt + 4 * k) -> rd (words m') b = rd (words m) b))).
  - split_and!; [done..|]. exists 0. split_and!; [lia|lia|done| |intros; lia|done].
    intros i c Hc. specialize (Hbud i c Hc). unfold table_refs in Hbud. by rewrite page_words_zsum in Hbud.
  - intros k l m1 (I1 & Hh & n & Hn & Hl & Hb & Hdone & Hrest).
    destruct (decide (n = 1024)) as [->|]; [done|].
    rewrite seqZ_cons in Hl by lia. injection Hl as -> ->.
    assert (Hdir : forall d, d ∈ user_dirs -> rd (words m1) d = rd (words m) d).
    { intros d Hdd. apply Hrest. intros k Hk. split.
      - intros ->. by eapply (table_not_dir I _ _ _ _ Hf (Hword tf k ltac:(lia)) Hdd).
      - intros ->. by eapply (table_not_dir I _ _ _ _ Ht (Hword tt k ltac:(lia)) Hdd). }
    assert (Htab : forall d t, table_at (words m) d t -> table_at (words m1) d t).
    { intros d t (Hdd & ? & ?). unfold table_at. by rewrite Hdir. }
    assert (Ef : rd (words m1) (tf + 4 * n) = rd (words m) (tf + 4 * n)).
    { apply Hrest. intros k Hk. split; [lia|]. apply Hapart; lia. }
    eapply (wpg_copy_entry _ _ _ _ _ _ _ _ _ _ _ I1 (Htab _ _ Hf) (Htab _ _ Ht)).
    + apply Hword. lia.
    + apply Hword. lia.
    + apply Hapart; lia.
    + rewrite Hrest; [apply Hz, Hword; lia|]. intros k Hk. split; [|lia].
      intros Heq. symmetry in Heq. revert Heq. apply Hapart; lia.
    + intros i c Hc. specialize (Hb i c Hc). rewrite zsum_cons in Hb. rewrite Ef.
      assert (0 <= zsum (fun k => entry_refs (rd (words m) (tf + 4 * k)) (page_addr i)) (seqZ (Z.succ n) (Z.pred (1024 - n))))
        by (apply zsum_nonneg; auto with kernel).
      specialize (HB i). lia.
    + intros m2 S. split_and!; [apply S|by rewrite (se_high _ _ _ _ _ S)|].
      exists (Z.succ n). split_and!; [lia|lia|f_equal; lia| | |].
      * intros i c' Hc'. destruct (se_map _ _ _ _ _ S i c' Hc') as (c & Hc & Hle).
        specialize (Hb i c Hc). rewrite zsum_cons, <- Ef in Hb. lia.
      * intros k Hk. destruct (decide (k = n)) as [->|Hkn].
        -- rewrite (se_child _ _ _ _ _ S), (se_parent _ _ _ _ _ S), Ef. done.
        -- rewrite !(se_rest _ _ _ _ _ S); [apply Hdone; lia| | | |]; try lia; try (apply Hapart; lia).
           intros Heq. symmetry in Heq. revert Heq. apply Hapart; lia.
      * intros b Hbk. rewrite (se_rest _ _ _ _ _ S) by (apply Hbk; lia).
        apply Hrest. intros k Hk. apply Hbk. lia.
  - intros m' (I' & Hh & n & Hn & Hl & Hb & Hdone & Hrest).
    destruct (decide (n = 1024)) as [->|]; [|rewrite seqZ_cons in Hl by lia; done].
    apply HQ.
    + split; [done|done|apply Hdone|apply Hdone|].
      intros b Hbf Hbt. apply Hrest. intros k Hk. split; intros ->.
      * apply Hbf, Hword, Hk.
      * apply Hbt, Hword, Hk.
    + intros i c Hc. specialize (Hb i c Hc). cbn in Hb. lia.
Qed.

(** [dt] has become a copy of the table of [df]: same translations, and every
    page above the low megabyte read-only on both sides. *)
Definition shares (w0 w : gmap Z Z) (df dt : Z) : Prop :=
  rd w df = rd w0 df /\ present (rd w dt) = present (rd w0 df) /\
  (present (rd w0 df) = true -> forall k, 0 <= k < 1024 ->
     rd w (frame (rd w dt) + 4 * k) = child_entry (rd w0 (frame (rd w0 df) + 4 * k)) /\
     rd w (frame (rd w0 df) + 4 * k) = parent_entry (rd w0 (frame (rd w0 df) + 4 * k))).

(** One turn of the outer loop. *)
Record shared_dir (ext : nat -> Z) (m : mm_state) (df dt : Z) (m' : mm_state) : Prop := {
  sd_inv : mm_inv ext m';
  sd_high : HIGH_MEMORY m' = HIGH_MEMORY m;
  sd_shares : shares (words m) (words m') df dt;
  sd_dirs : forall d, d ∈ user_dirs -> d <> dt -> rd (words m') d = rd (words m) d;
  sd_rest : forall d t b, table_at (words m) d t -> d <> df -> b ∈ page_words t ->
    rd (words m') b = rd (words m) b }.

(** The references to page [i] from the directory entries [l]. *)
Definition refs_from (w : gmap Z Z) (l : list Z) (i : nat) : Z := zsum (dir_refs w (page_addr i)) l.

Lemma refs_from_nonneg w l i : 0 <= refs_from w l i.
Proof. apply zsum_nonneg. auto with kernel. Qed.

Lemma refs_from_le w l i : NoDup l -> (forall d, d ∈ l -> d ∈ user_dirs) ->
  refs w (page_addr i) = 0 -> refs_from w l i = 0.
Proof.
  intros _ Hl H0. apply zsum_0. intros d Hd.
  pose proof (zsum_elem (dir_refs w (page_addr i)) user_dirs d ltac:(auto with kernel) (Hl d Hd)) as Hs.
  pose proof (dir_refs_nonneg w (page_addr i) d). unfold refs in H0. lia.
Qed.

Lemma wpg_copy_dir P F ext m df dt (B : nat -> Z) (Q : option Z -> mm_state -> Prop) :
  mm_inv ext m -> df ∈ user_dirs -> dt ∈ user_dirs -> df <> dt ->
  present (rd (words m) dt) = false -> (forall i, 0 <= B i) ->
  (forall i, refs (words m) (page_addr i) = 0 -> B i = 0) ->
  (forall i c, mem_map m !! i = Some c -> c + dir_refs (words m) (page_addr i) df + B i < 256) ->
  Q (Some (-1)) m ->
  (forall m', shared_dir ext m df dt m' ->
     (forall i c, mem_map m' !! i = Some c -> c + B i < 256) -> Q None m') ->
  wpg P F (copy_dir 1024 df dt) Q m.
Proof.
  intros I Hdf Hdt Hne Habs HB HB0 Hbud Hfail HQ. unfold copy_dir. mm_step. mm_step.
  destruct (present (rd (words m) df)) eqn:Hp; mm_steps.
  2: { apply HQ.
       - split; try done. split_and!; [done|congruence|congruence].
       - intros i c Hc. specialize (Hbud i c Hc).
         pose proof (dir_refs_nonneg (words m) (page_addr i) df). lia. }
  fold (frame (rd (words m) df)). set (tf := frame (rd (words m) df)).
  eapply (wpg_get_free_page _ _ _ _ _ I); [intros _; mm_steps; exact Hfail|].
  intros j m1 T. rewrite page_addr_truth. mm_steps.
  pose proof (tk_lt _ _ _ _ T) as Hj. assert (Htf : table_at (words m) df tf) by done.
  destruct (taken_table ext m j m1 dt I T Hdt Habs) as [I2 Htj2 Hjw Hdir2 Hold _ _].
  match goal with |- wpg _ _ _ _ ?x => set (m2 := x); change (with_table dt j m1) with m2 in * end.
  assert (Htf2 : table_at (words m2) df tf).
  { unfold table_at. rewrite Hdir2 by done. done. }
  apply (wpg_copy_table _ _ ext m2 df tf dt (page_addr j) B); try done.
  { intros i c Hc. cbn in Hc. rewrite (tk_map _ _ _ _ T) in Hc.
    assert (Et : table_refs (words m2) tf (page_addr i) = table_refs (words m) tf (page_addr i)).
    { apply zsum_ext. intros b Hb. by rewrite (Hold df tf b). }
    rewrite Et. destruct (decide (i = j)) as [->|Hij].
    - rewrite list_lookup_insert_eq in Hc by by rewrite (inv_len _ _ I). injection Hc as <-.
      rewrite (HB0 j) by apply T.
      pose proof (zsum_elem (dir_refs (words m) (page_addr j)) user_dirs df ltac:(auto with kernel) Hdf) as Hs.
      pose proof (tk_refs0 _ _ _ _ T) as H0. unfold refs in H0. unfold dir_refs in Hs at 1.
      rewrite Hp in Hs. fold tf in Hs. pose proof (entry_refs_nonneg (rd (words m) df) (page_addr j)). lia.
    - rewrite list_lookup_insert_ne in Hc by done. specialize (Hbud i c Hc).
      unfold dir_refs in Hbud. rewrite Hp in Hbud. fold tf in Hbud.
      pose proof (entry_refs_nonneg (rd (words m) df) (page_addr i)). lia. }
  intros m3 S Hb3. mm_step. apply HQ; [|exact Hb3].
  destruct (inv_table _ _ I _ _ Htf) as (itf & Hitf & Etf & _ & Hrtf & _).
  assert (Htfj : tf <> page_addr j).
  { intros E. pose proof (tk_refs0 _ _ _ _ T). rewrite <- E in *. lia. }
  assert (Hdir3 : forall d, d ∈ user_dirs -> rd (words m3) d = rd (words m2) d).
  { intros d Hd%user_dir_low. apply (st_rest _ _ _ _ _ S).
    - rewrite Etf. intros ?%page_words_high. lia.
    - intros ?%page_words_high. lia. }
  split.
  - apply S.
  - rewrite (st_high _ _ _ _ _ S). apply T.
  - unfold shares. rewrite !Hdir3 by done. rewrite Hdir2 by done. destruct Htj2 as (_ & -> & <-).
    rewrite Hp. split_and!; [done..|]. intros _ k Hk. fold tf.
    rewrite (st_child _ _ _ _ _ S), (st_parent _ _ _ _ _ S) by done.
    by rewrite (Hold df tf) by (try done; apply page_words_spec; eauto).
  - intros d Hd Hn. by rewrite Hdir3, Hdir2.
  - intros d t b Htd Hn Hb. rewrite (st_rest _ _ _ _ _ S); [by eapply Hold| |].
    + intros Hb'. apply Hn. eapply (tables_distinct I); [exact Htd|].
      rewrite (aligned_disjoint t tf b); [done|by eapply table_aligned|by eapply table_aligned|done|done].
    + eapply (not_table_word I); eauto. apply T.
Qed.

Lemma shares_keep ext m0 m1 m2 df dt d' dt' :
  mm_inv ext m1 -> shares (words m0) (words m1) d' dt' -> shared_dir ext m1 df dt m2 ->
  d' ∈ user_dirs -> dt' ∈ user_dirs -> d' <> df -> d' <> dt -> dt' <> df -> dt' <> dt ->
  shares (words m0) (words m2) d' dt'.
Proof.
  intros I (Hd & Hp & Hs) S Hd1 Hd2 H1 H2 H3 H4. unfold shares.
  rewrite !(sd_dirs _ _ _ _ _ S) by done. split_and!; [done..|]. intros Hpr k Hk.
  destruct (Hs Hpr k Hk) as [<- <-].
  assert (Hin : forall t, t + 4 * k ∈ page_words t) by (intros; apply page_words_spec; eauto).
  split.
  - apply (sd_rest _ _ _ _ _ S dt' (frame (rd (words m1) dt'))); [|done|done].
    unfold table_at. split_and!; [done| |done]. by rewrite Hp.
  - rewrite <- Hd. apply (sd_rest _ _ _ _ _ S d' (frame (rd (words m1) d'))); [|done|done].
    unfold table_at. split_and!; [done| |done]. by rewrite Hd.
Qed.

Lemma dir_range_lookup d n k : 0 <= k < n -> d + 4 * k ∈ dir_range d n.
Proof. intros. unfold dir_range. apply list_elem_of_fmap. exists k. split; [done|]. apply elem_of_seqZ. lia. Qed.

(** What has happened to [m] after [n] of the [N] directory entries from [fd]
    on were copied to [td]. *)
Section copied.
Context (m : mm_state) (fd td N : Z).
Record copied (n : Z) (m' : mm_state) : Prop := {
  cp_budget : forall i c, mem_map m' !! i = Some c ->
    c + refs_from (words m) ((fun k => fd + 4 * k) <$> seqZ n (N - n)) i < 256;
  cp_shares : forall k, 0 <= k < n -> k < N -> shares (words m) (words m') (fd + 4 * k) (td + 4 * k);
  cp_dirs : forall d, d ∈ user_dirs -> (forall k, 0 <= k < n -> d <> td + 4 * k) -> rd (words m') d = rd (words m) d;
  cp_tables : forall d t b, table_at (words m) d t -> (forall k, 0 <= k < n -> d <> fd + 4 * k) ->
    b ∈ page_words t -> rd (words m') b = rd (words m) b }.
Hypothesis HF : forall k, 0 <= k < N -> fd + 4 * k ∈ user_dirs /\ forall j, 0 <= j < N -> fd + 4 * k <> td + 4 * j.
Hypothesis HT : forall k, 0 <= k < N -> td + 4 * k ∈ user_dirs /\ present (rd (words m) (td + 4 * k)) = false.
Context {n : Z} {m1 : mm_state} (Hn : 0 <= n < N) (C : copied n m1).

(** The directory entries still to copy are untouched. *)
Lemma copied_dir k p : n <= k < N -> dir_refs (words m1) p (fd + 4 * k) = dir_refs (words m) p (fd + 4 * k).
Proof using HF Hn C.
  intros Hk. destruct (HF k ltac:(lia)) as [Hu Hnt].
  assert (E : rd (words m1) (fd + 4 * k) = rd (words m) (fd + 4 * k)) by (apply (cp_dirs _ _ C); [done|intros; apply Hnt; lia]).
  unfold dir_refs. rewrite E. destruct (present (rd (words m) (fd + 4 * k))) eqn:Ep; [|done]. f_equal.
  apply zsum_ext. intros b Hb. rewrite (cp_tables _ _ C (fd + 4 * k) (frame (rd (words m) (fd + 4 * k)))); [done|done| |done].
  intros j Hj. lia.
Qed.
Lemma copied_rest i : refs_from (words m1) ((fun k => fd + 4 * k) <$> seqZ (Z.succ n) (Z.pred (N - n))) i =
  refs_from (words m) ((fun k => fd + 4 * k) <$> seqZ (Z.succ n) (Z.pred (N - n))) i.
Proof using HF Hn C. apply zsum_ext. intros d (k & -> & Hk%elem_of_seqZ)%list_elem_of_fmap. apply copied_dir. lia. Qed.
Lemma copied_same : rd (words m1) (fd + 4 * n) = rd (words m) (fd + 4 * n).
Proof using HF Hn C. destruct (HF n) as [Hu Hnt]; [lia|]. apply (cp_dirs _ _ C); [done|]. intros; apply Hnt; lia. Qed.
Lemma copied_step ext m2 : mm_inv ext m1 -> shared_dir ext m1 (fd + 4 * n) (td + 4 * n) m2 ->
  (forall i c, mem_map m2 !! i = Some c ->
    c + refs_from (words m1) ((fun k => fd + 4 * k) <$> seqZ (Z.succ n) (Z.pred (N - n))) i < 256) ->
  copied (Z.succ n) m2.
Proof using HF HT Hn C.
  intros I1 S Hb. destruct (HF n) as [Hfu Hft]; [lia|]. destruct (HT n) as [Htu Hta]; [lia|]. split.
  - intros i c Hc. specialize (Hb i c Hc). rewrite copied_rest in Hb. by replace (N - Z.succ n) with (Z.pred (N - n)) by lia.
  - intros k Hk HkN. destruct (decide (k = n)) as [->|Hkn].
    + destruct (sd_shares _ _ _ _ _ S) as (E1 & E2 & E3). unfold shares. rewrite copied_same in *.
      split_and!; [done..|]. intros Hpr j Hj. destruct (E3 Hpr j Hj) as [-> ->].
      by rewrite (cp_tables _ _ C (fd + 4 * n) (frame (rd (words m) (fd + 4 * n))))
        by (try done; try (intros; lia); apply page_words_spec; eauto).
    + destruct (HT k) as [Htku _]; [lia|].
      eapply (shares_keep ext m m1 m2); [done|apply (cp_shares _ _ C); lia|exact S|apply HF; lia|done|lia|apply HF; lia| |lia].
      intros Heq. symmetry in Heq. revert Heq. apply HF; lia.
  - intros d Hd Hk. rewrite (sd_dirs _ _ _ _ _ S); [apply (cp_dirs _ _ C); [done|]|done|apply Hk; lia].
    intros j Hj. apply Hk. lia.
  - intros d t b Htd Hk Hbt. rewrite (sd_rest _ _ _ _ _ S d t b); [| |apply Hk; lia|done].
    2: { destruct Htd as (Hd & Hpd & ->). unfold table_at. rewrite (cp_dirs _ _ C); [done|done|].
         intros j Hj ->. destruct (HT j) as [_ Hab]; [lia|congruence]. }
    eapply (cp_tables _ _ C); [exact Htd|intros; apply Hk; lia|done].
Qed.
End copied.

(** [copy_page_tables] on user ranges: [B] is that no page gets more users
    than its count can hold. *)
Lemma wpg_copy_page_tables P G ext m from to size (Q : Z -> mm_state -> Prop) :
  let F := dir_range (pde_addr from) (blocks size) in
  let T := dir_range (pde_addr to) (blocks size) in
  mm_inv ext m -> Z.land from 0x3fffff = 0 -> Z.land to 0x3fffff = 0 -> from <> 0 ->
  (forall d, d ∈ F -> d ∈ user_dirs /\ d ∉ T) ->
  (forall d, d ∈ T -> d ∈ user_dirs /\ present (rd (words m) d) = false) ->
  (forall i c, mem_map m !! i = Some c -> c + refs_from (words m) F i < 256) ->
  (forall r m', mm_inv ext m' -> r = -1 \/ r = 0 /\ (forall k, 0 <= k < blocks size ->
     shares (words m) (words m') (pde_addr from + 4 * k) (pde_addr to + 4 * k)) -> Q r m') ->
  wpg P G (copy_page_tables from to size) Q m.
Proof.
  intros FF TT I Haf Hat Hnz HFF HTT Hbud HQ. unfold copy_page_tables. rewrite Haf, Hat.
  change (truth 0 || truth 0) with false. rewrite (proj2 (Z.eqb_neq _ _) Hnz). wp_step. mm_steps.
  fold (blocks size).
  set (fd := pde_addr from) in *. set (td := pde_addr to) in *. set (N := blocks size) in *.
  assert (HF : forall k, 0 <= k < N -> fd + 4 * k ∈ user_dirs /\ forall j, 0 <= j < N -> fd + 4 * k <> td + 4 * j).
  { intros k Hk. destruct (HFF (fd + 4 * k)) as [Hu HnT]; [by apply dir_range_lookup|].
    split; [done|]. intros j Hj Heq. apply HnT. rewrite Heq. by apply dir_range_lookup. }
  assert (HT : forall k, 0 <= k < N -> td + 4 * k ∈ user_dirs /\ present (rd (words m) (td + 4 * k)) = false).
  { intros k Hk. by apply HTT, dir_range_lookup. }
  apply (wpg_for_break _ _ (fun l m' => mm_inv ext m' /\ exists n, 0 <= n /\ l = seqZ n (N - n) /\ copied m fd td N n m')).
  - split; [done|]. exists 0. split_and!; [done|by rewrite Z.sub_0_r|]. split; try done; [|intros; lia].
    intros i c Hc. rewrite Z.sub_0_r. by apply Hbud.
  - intros k l m1 (I1 & n & Hn & Hl & C).
    destruct (decide (n < N)) as [HnN|]; [|rewrite seqZ_nil in Hl by lia; done].
    rewrite seqZ_cons in Hl by lia. injection Hl as -> ->.
    destruct (HF n) as [Hfu Hft]; [lia|]. destruct (HT n) as [Htu Hta]; [lia|].
    set (rest := (fun k => fd + 4 * k) <$> seqZ (Z.succ n) (Z.pred (N - n))).
    eapply (wpg_copy_dir _ _ ext m1 (fd + 4 * n) (td + 4 * n) (refs_from (words m1) rest) _ I1 Hfu Htu).
    + apply Hft; lia.
    + rewrite (cp_dirs _ _ _ _ _ _ C); [done|done|]. intros; lia.
    + intros. apply refs_from_nonneg.
    + intros i Hi. apply refs_from_le; [|intros d (k & -> & Hk%elem_of_seqZ)%list_elem_of_fmap; apply HF; lia|done].
      unfold rest. apply NoDup_fmap_2_strong; [intros; lia|apply NoDup_seqZ].
    + intros i c Hc. unfold rest. rewrite (copied_rest m fd td N HF (conj Hn HnN) C).
      rewrite (copied_dir m fd td N HF (conj Hn HnN) C) by lia. pose proof (cp_budget _ _ _ _ _ _ C i c Hc) as Hb.
      rewrite seqZ_cons, fmap_cons in Hb by lia. unfold refs_from in *. rewrite zsum_cons in Hb. lia.
    + mm_step. apply HQ; [done|by left].
    + intros m2 S Hb2. split; [apply S|]. exists (Z.succ n).
      split_and!; [lia|f_equal; lia|by eapply (copied_step m fd td N HF HT (conj Hn HnN) C)].
  - intros m' (I' & n & Hn & Hl & C). mm_step. apply HQ; [done|right]. split; [done|].
    intros k Hk. destruct (decide (n < N)); [rewrite seqZ_cons in Hl by lia; done|]. apply (cp_shares _ _ _ _ _ _ C); lia.
Qed.

(** C2: [copy_page_tables] (fork) on user ranges: when no page has so many
    users that the copies would overflow its 8-bit count, every count stays
    exact, the routine does not panic, and either it runs out of memory (-1) or
    the child's tables map exactly what the parent's do, with every page above
    the first megabyte read-only in both. *)
Theorem copy_page_tables_inv ext m from to size :
  let F := dir_range (pde_addr from) (blocks size) in
  let T := dir_range (pde_addr to) (blocks size) in
  mm_inv ext m -> Z.land from 0x3fffff = 0 -> Z.land to 0x3fffff = 0 -> from <> 0 ->
  (forall d, d ∈ F -> d ∈ user_dirs /\ d ∉ T) ->
  (forall d, d ∈ T -> d ∈ user_dirs /\ present (rd (words m) d) = false) ->
  (forall i c, mem_map m !! i = Some c -> c + refs_from (words m) F i < 256) ->
  wp (copy_page_tables from to size) (fun r m' =>
    mm_inv ext m' /\
    (r = -1 \/ r = 0 /\ forall k, 0 <= k < blocks size ->
       shares (words m) (words m') (pde_addr from + 4 * k) (pde_addr to + 4 * k))) m.
Proof. intros F T I Haf Hat Hnz HF HT Hbud. apply (wpg_copy_page_tables _ _ ext); auto. Qed.

(** ** Witnesses: one task with one mapped page *)

Definition ext0 (i : nat) : Z := if decide (i < PAGING_PAGES)%nat then 0 else 1.
Definition mm0 : mm_state := Mm (replicate PAGING_PAGES 0) (LOW_MEM + PAGING_MEMORY) ∅.

Lemma mm0_inv : mm_inv ext0 mm0.
Proof.
  assert (Hr : forall p, refs ∅ p = 0) by (intros; apply zsum_0; done).
  split.
  - apply length_replicate.
  - unfold mm0. cbn. lia.
  - intros i c [-> Hi]%lookup_replicate. cbn [words mm0]. rewrite Hr. unfold ext0. rewrite decide_True by done. lia.
  - intros d t (_ & Hp & _). done.
  - intros d t a (_ & Hp & _). done.
  - intros i Hi. unfold ext0. rewrite decide_False; [lia|]. intros Hlt. cbn in Hi.
    change PAGING_PAGES with 3840%nat in Hlt. unfold page_addr, PAGING_MEMORY in Hi. lia.
Qed.

(** The last page is in the caller's hands; then it is the page table of the
    second task (linear address 64MB, directory entry 64). *)
Definition mm1 : mm_state := Mm (<[3839%nat := 1]> (mem_map mm0)) (HIGH_MEMORY mm0) ∅.
Definition mm2 : mm_state :=
  Mm (mem_map mm1) (HIGH_MEMORY mm1) (<[64 := Z.lor (page_addr 3839) 7]> ∅).
(** The page before it is taken, and mapped at 64MB. *)
Definition mm3 : mm_state := Mm (<[3838%nat := 1]> (mem_map mm2)) (HIGH_MEMORY mm2) (words mm2).
Definition mm4 : mm_state :=
  Mm (mem_map mm3) (HIGH_MEMORY mm3) (<[page_addr 3839 := Z.lor (page_addr 3838) 7]> (words mm3)).

Lemma in_user_dirs k : (4 <=? k) && (k <? 1024) = true -> 4 * k ∈ user_dirs.
Proof. intros. apply user_dirs_spec. exists k. kbool. lia. Qed.

Lemma mm0_free i : (i < PAGING_PAGES)%nat -> mem_map mm0 !! i = Some 0.
Proof. intros. by apply lookup_replicate. Qed.

Lemma idx i : (i <? 3840)%nat = true -> (i < PAGING_PAGES)%nat.
Proof. change PAGING_PAGES with 3840%nat. apply Nat.ltb_lt. Qed.

Lemma rd_empty a : rd ∅ a = 0.
Proof. done. Qed.

Lemma mm1_inv : mm_inv (bump ext0 3839 1) mm1.
Proof.
  apply (inv_alloc mm0_inv 3839 ∅); [by apply mm0_free, idx|].
  intros a. rewrite !rd_empty. by destruct (decide _).
Qed.

Lemma refs_empty p : refs ∅ p = 0.
Proof. apply zsum_0. done. Qed.

Lemma mm2_inv : mm_inv (bump (bump ext0 3839 1) 3839 (-1)) mm2.
Proof.
  apply (inv_install mm1_inv 3839 64); 
    [by apply (in_user_dirs 16)|reflexivity|by apply idx|reflexivity|apply refs_empty|reflexivity|intros a _; reflexivity].
Qed.

Lemma mm2_table : table_at (words mm2) 64 (page_addr 3839).
Proof. unfold table_at. split_and!; [by apply (in_user_dirs 16)|done|done]. Qed.

Lemma mm2_rd a : a <> 64 -> rd (words mm2) a = 0.
Proof. intros. cbn [words mm2]. by rewrite rd_insert_ne. Qed.

Lemma mm3_inv : mm_inv (bump (bump (bump ext0 3839 1) 3839 (-1)) 3838 1) mm3.
Proof.
  apply (inv_alloc mm2_inv 3838 (words mm2)).
  - cbn [mem_map mm2 mm1]. rewrite list_lookup_insert_ne by done. by apply mm0_free, idx.
  - intros a. destruct (decide _) as [Ha%page_words_high|]; [|done]. rewrite mm2_rd; [done|].
    unfold LOW_MEM in Ha. lia.
Qed.

Lemma page_start p : p ∈ page_words p.
Proof. apply page_words_spec. exists 0. lia. Qed.

Lemma mm4_inv : mm_inv (bump (bump (bump (bump ext0 3839 1) 3839 (-1)) 3838 1) 3838 (-1)) mm4.
Proof.
  apply (inv_put_entry mm3_inv 64 (page_addr 3839)); 
    [exact mm2_table|apply page_start|reflexivity..].
Qed.

Lemma insert_counts (l : list Z) j :
  (forall k c, l !! k = Some c -> 0 <= c <= 1) -> forall k c, <[j := 1]> l !! k = Some c -> 0 <= c <= 1.
Proof. intros H k c [(_ & <- & _)|[_ Hk]]%list_lookup_insert_Some; [lia|by eapply H]. Qed.

Lemma mm4_counts i c : mem_map mm4 !! i = Some c -> 0 <= c <= 1.
Proof.
  revert i c. cbn [mem_map mm4 mm3 mm2 mm1 mm0]. apply insert_counts, insert_counts.
  intros k c [-> _]%lookup_replicate. lia.
Qed.

Lemma mm4_free : mem_map mm4 !! 0%nat = Some 0.
Proof. cbn [mem_map mm4 mm3 mm2 mm1]. rewrite !list_lookup_insert_ne by done. by apply mm0_free, idx. Qed.

Lemma do_wp_page_cow_witness :
  pte_addr (words mm4) 0x4000000 = Some (page_addr 3839) /\
  wp (do_wp_page 7 0x4000000) (fun _ m' =>
    mm_inv (bump (bump (bump (bump ext0 3839 1) 3839 (-1)) 3838 1) 3838 (-1)) m' /\
    (exists j, frame (rd (words m') (page_addr 3839)) = page_addr j /\ mem_map m' !! j = Some 1 /\
       Z.testbit (rd (words m') (page_addr 3839)) 1 = true) /\
    (exists y, translate (words m') 0x4000000 = Some y) /\
    forall x, x mod 4 = 0 -> pde_addr x ∈ user_dirs ->
      user_word (words m') x = user_word (words mm4) x) mm4.
Proof.
  split; [done|].
  apply (do_wp_page_cow _ mm4 7 0x4000000 (page_addr 3839) mm4_inv); [by apply (in_user_dirs 16)|done|done|].
  exists 0%nat. exact mm4_free.
Defined.

Lemma copy_page_tables_inv_witness :
  wp (copy_page_tables 0x4000000 0x8000000 4096) (fun r m' =>
    mm_inv (bump (bump (bump (bump ext0 3839 1) 3839 (-1)) 3838 1) 3838 (-1)) m' /\
    (r = -1 \/ r = 0 /\ forall k, 0 <= k < blocks 4096 ->
       shares (words mm4) (words m') (pde_addr 0x4000000 + 4 * k) (pde_addr 0x8000000 + 4 * k))) mm4.
Proof.
  assert (Hr : forall a d, d ∈ dir_range a (blocks 4096) -> d = a).
  { intros a d (k & -> & Hk%elem_of_seqZ)%list_elem_of_fmap. change (blocks 4096) with 1 in Hk. lia. }
  apply (copy_page_tables_inv _ mm4 0x4000000 0x8000000 4096 mm4_inv); try done.
  - intros d ->%Hr. split; [by apply (in_user_dirs 16)|]. intros H%Hr. done.
  - intros d ->%Hr. split; [by apply (in_user_dirs 32)|done].
  - intros i c Hc. pose proof (mm4_counts i c Hc) as Hc1.
    destruct (inv_count _ _ mm4_inv i c Hc) as (Heq & Hex & _).
    assert (refs_from (words mm4) (dir_range (pde_addr 0x4000000) (blocks 4096)) i
      <= refs (words mm4) (page_addr i)); [|lia].
    change (dir_range (pde_addr 0x4000000) (blocks 4096)) with [64]. unfold refs_from. rewrite zsum_cons.
    change (zsum _ []) with 0. rewrite Z.add_0_r.
    apply (zsum_elem (dir_refs (words mm4) (page_addr i)) user_dirs 64); [auto with kernel|by apply (in_user_dirs 16)].
Defined.

Lemma get_free_page_spec_witness :
  length (mem_map mm1) = PAGING_PAGES /\
  wp get_free_page (fun r m' =>
    (r = 0 /\ m' = mm1 /\ forall i, mem_map mm1 !! i <> Some 0) \/
    exists i, r = page_addr i /\ mem_map mm1 !! i = Some 0 /\
      (forall j, (i < j)%nat -> mem_map mm1 !! j <> Some 0) /\
      mem_map m' = <[i := 1]> (mem_map mm1) /\ HIGH_MEMORY m' = HIGH_MEMORY mm1 /\
      forall a, rd (words m') a = if decide (a ∈ page_words r) then 0 else rd (words mm1) a) mm1.
Proof.
  assert (Hl : length (mem_map mm1) = PAGING_PAGES).
  { cbn [mem_map mm1 mm0]. by rewrite length_insert, length_replicate. }
  split; [exact Hl|]. exact (get_free_page_spec mm1 Hl).
Defined.
