(* ===== verification/MemSteps.v ===== *)
(** * The life of memory: every call of mm/memory.c from start-up on

    The states of physical memory as a transition system: [mem_init], then any
    sequence of calls of the routines of mm/memory.c, of writes by tasks to
    their memory and of writes by the kernel to pages it holds.  The invariant
    of MemRefs.v holds in every reachable state. *)

From S2P Require Import Prelude Kernel Memory MemRefs.

(** It returns with [Q], or ends the task with [D]; it does not panic. *)
Definition ends {A} (D : mm_state -> Prop) (c : M mm_state A) (Q : A -> mm_state -> Prop) (m : mm_state) : Prop :=
  match c m with Ok a m' => Q a m' | Dead _ m' => D m' | _ => False end.
(** A linear address no page is mapped at. *)
Definition unmapped (m : mm_state) (address : Z) : Prop :=
  forall pa, pte_addr (words m) address = Some pa -> present (rd (words m) pa) = false.
(** A linear address a write through which would fault. *)
Definition read_only (w : gmap Z Z) (a : Z) : Prop := exists pa, pte_addr w a = Some pa /\ Z.testbit (rd w pa) 1 = false.
(** What [try_to_share] has done when it answers 1. *)
Record page_shared (m : mm_state) (from to : Z) (m' : mm_state) : Prop := {
  ps_same : exists x, translate (words m) from = Some x /\ translate (words m') from = Some x /\ translate (words m') to = Some x;
  ps_read_only : read_only (words m') from /\ read_only (words m') to;
  ps_keeps : forall a x, pde_addr a ∈ user_dirs -> translate (words m) a = Some x -> translate (words m') a = Some x }.
(** The end of [try_to_share], once the page and the two entries are known. *)
Definition share_entries (from_page to_page phys_addr : Z) : M mm_state Z :=
  e ← load to_page;
  if present e then panic "try_to_share: to_page already exists"
  else
    fe ← load from_page;
    store from_page (Z.land fe (not32 2)) ;;
    fe ← load from_page;
    store to_page fe ;;
    let nr := Z.shiftr (phys_addr - LOW_MEM) 12 in
    c ← get_map nr;
    set_map nr (u8 (c + 1)) ;;
    mret 1.
(** The entry at [at_] has become a copy of the one at [af]; both are
    read-only. *)
Record entry_shared (ext : nat -> Z) (m : mm_state) (af at_ : Z) (m' : mm_state) : Prop := {
  es_inv : mm_inv ext m';
  es_from : rd (words m') af = Z.land (rd (words m) af) (not32 2);
  es_to : rd (words m') at_ = Z.land (rd (words m) af) (not32 2);
  es_rest : forall b, b <> af -> b <> at_ -> rd (words m') b = rd (words m) b;
  es_count : exists i c, frame (rd (words m) af) = page_addr i /\ mem_map m !! i = Some c /\ mem_map m' = <[i := c + 1]> (mem_map m) }.
(** The tables of the kernel lie in the first megabyte and map it. *)
Definition low_table (w : gmap Z Z) : Prop :=
  present (rd w 0) = true /\ 4096 <= frame (rd w 0) /\ frame (rd w 0) + 4096 <= LOW_MEM /\
  forall k, 0 <= k < 0xA0 -> frame (rd w (frame (rd w 0) + 4 * k)) < LOW_MEM.
(** The directory as start-up leaves it maps nothing for user tasks. *)
Definition no_user_tables (m : mm_state) : Prop :=
  length (mem_map m) = PAGING_PAGES /\ forall d, d ∈ user_dirs -> present (rd (words m) d) = false.
(** Outside main memory every page is in use. *)
Definition boot_refs (start_mem end_mem : Z) (i : nat) : Z :=
  if (start_mem <=? page_addr i) && (page_addr i <? end_mem) then 0 else USED.

(** ** The calls *)

(** [Take] and [Give]: a page for the kernel's own use (task structures, pipes,
    inode tables); [Map]: [put_page]; [Fork], [Unmap]: the page tables of a
    task; [WriteFault], [Verify], [Empty], [Share]: faults; [Write]: a store of
    a task; [Keep]: a store of the kernel to a page it holds. *)
Inductive mm_call :=
| Take | Give (i : nat) | Map (i : nat) (address : Z)
| Fork (from to size : Z) | Unmap (from size : Z)
| WriteFault (address : Z) | Verify (address : Z) | Empty (address : Z) | Share (address p_start start : Z)
| Write (address v : Z) | Keep (i : nat) (k v : Z).
Definition run_call (c : mm_call) : M mm_state Z :=
  match c with
  | Take => get_free_page
  | Give i => free_page (page_addr i) ;; mret 0
  | Map i address => put_page (page_addr i) address
  | Fork from to size => copy_page_tables from to size
  | Unmap from size => free_page_tables from size
  | WriteFault address => do_wp_page 7 address ;; mret 0
  | Verify address => write_verify address ;; mret 0
  | Empty address => get_empty_page address ;; mret 0
  | Share address p_start start => try_to_share address p_start start
  | Write address v =>
      w ← gets words;
      match translate w address with Some x => store x v ;; mret 0 | None => fault end
  | Keep i k v => store (page_addr i + 4 * k) v ;; mret 0
  end.
(** When the kernel makes the call. *)
Definition held (ext : nat -> Z) (m : mm_state) (i : nat) : Prop := 0 < ext i /\ page_addr i < HIGH_MEMORY m.
Definition user_address (address : Z) : Prop := pde_addr address ∈ user_dirs.
Definition allowed (ext : nat -> Z) (m : mm_state) (c : mm_call) : Prop :=
  match c with
  | Take => True
  | Give i => held ext m i
  | Map i address => held ext m i /\ user_address address /\ unmapped m address
  | Fork from to size =>
      let F := dir_range (pde_addr from) (blocks size) in
      let T := dir_range (pde_addr to) (blocks size) in
      Z.land from 0x3fffff = 0 /\ Z.land to 0x3fffff = 0 /\
      (forall d, d ∈ T -> d ∈ user_dirs /\ present (rd (words m) d) = false) /\
      (if from =? 0 then low_table (words m) /\ blocks size = 1
       else (forall d, d ∈ F -> d ∈ user_dirs /\ d ∉ T) /\
            forall i n, mem_map m !! i = Some n -> n + refs_from (words m) F i < 256)
  | Unmap from size => Z.land from 0x3fffff = 0 /\ from <> 0 /\ forall d, d ∈ dir_range (pde_addr from) (blocks size) -> d ∈ user_dirs
  | WriteFault address => user_address address /\ is_Some (translate (words m) address)
  | Verify address => user_address address
  | Empty address => user_address address /\ unmapped m address
  | Share address p_start start =>
      0 <= address < 2 ^ 26 /\ 0 <= p_start < 2 ^ 32 /\ p_start mod 2 ^ 26 = 0 /\ 0 <= start < 2 ^ 32 /\ start mod 2 ^ 26 = 0 /\
      user_address (p_start + address) /\ user_address (start + address) /\ unmapped m (start + address) /\
      forall i n, mem_map m !! i = Some n -> n + 1 < 256
  | Write address _ => user_address address /\ address mod 4 = 0 /\ exists x, translate (words m) address = Some x /\ LOW_MEM <= x
  | Keep i k _ => held ext m i /\ 0 <= k < 1024
  end.
(** The references outside the page tables after the call. *)
Definition left_over (ext : nat -> Z) (c : mm_call) (r : Z) : nat -> Z :=
  match c with
  | Take => if r =? 0 then ext else bump ext (Z.to_nat ((r - LOW_MEM) / 4096)) 1
  | Give i => bump ext i (-1)
  | Map i _ => if r =? 0 then ext else bump ext i (-1)
  | _ => ext
  end.
(** The states of memory from start-up on; a call that runs out of memory
    ends the task in the middle of it. *)
Inductive reachable : (nat -> Z) -> mm_state -> Prop :=
| at_boot start_mem end_mem m m' : no_user_tables m -> start_mem mod 4096 = 0 -> end_mem mod 4096 = 0 ->
    LOW_MEM <= start_mem <= end_mem -> end_mem <= LOW_MEM + PAGING_MEMORY ->
    mem_init start_mem end_mem m = Ok tt m' -> reachable (boot_refs start_mem end_mem) m'
| after_call ext m c r m' : reachable ext m -> allowed ext m c -> run_call c m = Ok r m' -> reachable (left_over ext c r) m'
| after_death ext m c code m' : reachable ext m -> allowed ext m c -> run_call c m = Dead code m' -> reachable ext m'.
(** A call from a state with exact counts leaves exact counts. *)
Definition call_keeps (ext : nat -> Z) (m : mm_state) (c : mm_call) : Prop :=
  ends (mm_inv ext) (run_call c) (fun r m' => mm_inv (left_over ext c r) m') m.


(** ** Calls that may end the task *)

Lemma ends_wp {A} D (c : M mm_state A) Q m : wp c Q m -> ends D c Q m.
Proof. unfold wp, wpg, ends. destruct (c m); tauto. Qed.
Lemma mm_ends_bind {A B} D (c : M mm_state A) (k : A -> M mm_state B) Q m :
  ends D c (fun a => ends D (k a) Q) m -> ends D (c ≫= k) Q m.
Proof. unfold ends, mbind, M_bind. destruct (c m); tauto. Qed.
Lemma ends_run {A B} D (c : M mm_state A) (k : A -> M mm_state B) Q m :
  wp c (fun a => ends D (k a) Q) m -> ends D (c ≫= k) Q m.
Proof. intros. by apply mm_ends_bind, ends_wp. Qed.
Lemma ends_load {B} D a (k : Z -> M mm_state B) Q m : ends D (k (rd (words m) a)) Q m -> ends D (load a ≫= k) Q m.
Proof. exact id. Qed.
Lemma ends_oom {A} (D : mm_state -> Prop) (Q : A -> mm_state -> Prop) m : D m -> ends D oom Q m.
Proof. exact id. Qed.
Lemma wp_run {A} (c : M mm_state A) r m' m : wp c (fun a s => a = r /\ s = m') m -> c m = Ok r m'.
Proof. unfold wp, wpg. destruct (c m); naive_solver. Qed.
Lemma wp_outcome {S A} (c : M S A) Q s : wp c Q s -> exists a s', c s = Ok a s' /\ Q a s'.
Proof. unfold wp, wpg. destruct (c s); naive_solver. Qed.
(** Without a free page, [get_free_page] is 0. *)
Lemma get_no_page m : length (mem_map m) = PAGING_PAGES -> (forall i, mem_map m !! i <> Some 0) -> get_free_page m = Ok 0 m.
Proof.
  intros Hl Hno. apply wp_run. eapply wp_mono; [exact (get_free_page_spec m Hl)|].
  intros r m' [(-> & -> & _)|(i & _ & Hi & _)]; [done|]. by destruct (Hno i).
Qed.
Lemma ends_no_page {A} D m (k : Z -> M mm_state A) Q : length (mem_map m) = PAGING_PAGES -> (forall i, mem_map m !! i <> Some 0) ->
  ends D (k 0) Q m -> ends D (get_free_page ≫= k) Q m.
Proof. intros Hl Hno Hk. unfold ends. by rewrite (bind_Ok _ _ _ _ _ (get_no_page m Hl Hno)). Qed.
Lemma free_or_not (l : list Z) : (exists i, l !! i = Some 0) \/ (forall i, l !! i <> Some 0).
Proof.
  destruct (decide (0 ∈ l)) as [H|H]; [left; by apply list_elem_of_lookup_1|right].
  intros i Hi. apply H. by eapply list_elem_of_lookup_2.
Qed.

(** ** Copy on write *)

Lemma ends_un_wp_page ext m d t a :
  mm_inv ext m -> table_at (words m) d t -> a ∈ page_words t -> present (rd (words m) a) = true ->
  ends (mm_inv ext) (un_wp_page a) (fun _ => mm_inv ext) m.
Proof.
  intros I Ht Ha Hp. destruct (free_or_not (mem_map m)) as [Hf|Hno].
  - apply ends_wp. by eapply wpg_un_wp_page.
  - unfold un_wp_page. apply ends_load. fold (frame (rd (words m) a)).
    apply ends_run. destruct (Z.leb_spec LOW_MEM (frame (rd (words m) a))) as [Hle|Hlt].
    + destruct (entry_page I d t a Ht Ha Hp Hle) as (i & c & Hi & Hf & Hhi & Hc & _).
      rewrite Hf, MAP_NR_page by done. apply wpg_bind. eapply wpg_get_map; [exact Hc|]. mm_step.
      destruct (c =? 1); [apply ends_wp; mm_steps; by eapply inv_make_writable|].
      by apply ends_no_page; [apply I| |].
    + apply wpg_ret. by apply ends_no_page; [apply I| |].
Qed.

(** ** Empty pages *)

(** Giving up a page held outside the page tables. *)
Lemma alter_insert {A} (f : A -> A) (l : list A) i x : l !! i = Some x -> alter f i l = <[i := f x]> l.
Proof. revert i. induction l as [|y l IH]; intros [|i] Hi; try done; cbn in *; [by injection Hi as ->|f_equal; by apply IH]. Qed.
Lemma wpg_give_page P F ext m i (Q : unit -> mm_state -> Prop) : mm_inv ext m -> 0 < ext i -> page_addr i < HIGH_MEMORY m ->
  (forall m', mm_inv (bump ext i (-1)) m' -> words m' = words m -> HIGH_MEMORY m' = HIGH_MEMORY m ->
    mem_map m' = alter Z.pred i (mem_map m) -> Q tt m') ->
  wpg P F (free_page (page_addr i)) Q m.
Proof.
  intros I He Hhi HQ. assert (Hi : (i < PAGING_PAGES)%nat).
  { pose proof (inv_high _ _ I). unfold page_addr, PAGING_MEMORY in *. change PAGING_PAGES with 3840%nat. lia. }
  destruct (lookup_lt_is_Some_2 (mem_map m) i) as [c Hc]; [by rewrite (inv_len _ _ I)|].
  destruct (inv_count _ _ I _ _ Hc) as (Ec & _ & Hc2). pose proof (refs_nonneg (words m) (page_addr i)).
  eapply wpg_free_page; [exact Hc|lia|done|done|]. apply HQ; [|done|done|by rewrite (alter_insert _ _ _ _ Hc)]. split; cbn; try apply I.
  - rewrite length_insert. apply I.
  - intros j c' Hj. destruct (decide (j = i)) as [->|Hne].
    + rewrite list_lookup_insert_eq in Hj by (by eapply lookup_lt_Some). injection Hj as <-. rewrite bump_eq. lia.
    + rewrite list_lookup_insert_ne in Hj by done. rewrite bump_ne by done. by apply (inv_count _ _ I).
  - intros d t Ht. destruct (inv_table _ _ I _ _ Ht) as (j & Hj & -> & Hj2 & Hr & Hej). exists j.
    split_and!; try done. rewrite bump_ne; [done|]. intros ->. lia.
  - intros j Hj. rewrite bump_ne; [by apply (inv_used _ _ I)|]. intros ->. lia.
Qed.
(** Taking a page changes no mapping. *)
Lemma tk_pte ext m i m1 address pa : mm_inv ext m -> taken ext m i m1 -> pde_addr address ∈ user_dirs ->
  pte_addr (words m) address = Some pa -> pte_addr (words m1) address = Some pa /\ rd (words m1) pa = rd (words m) pa.
Proof.
  intros I T Hd. unfold pte_addr. rewrite (tk_dir _ _ _ _ _ T Hd).
  destruct (present (rd (words m) (pde_addr address))) eqn:Hp; [|done]. intros [= <-]. split; [done|].
  apply (tk_rest _ _ _ _ T). eapply (not_table_word I); [apply T|apply T| |apply pte_in_page]. by split_and!.
Qed.
Lemma tk_unmapped ext m i m1 address : mm_inv ext m -> taken ext m i m1 -> pde_addr address ∈ user_dirs ->
  unmapped m address -> unmapped m1 address.
Proof.
  intros I T Hd Hu pa Hpa. destruct (pte_addr (words m) address) as [pb|] eqn:E.
  - destruct (tk_pte _ _ _ _ _ _ I T Hd E) as [E' Er]. rewrite Hpa in E'. injection E' as ->. rewrite Er. by apply Hu.
  - unfold pte_addr in *. rewrite (tk_dir _ _ _ _ _ T Hd) in Hpa. by destruct (present _).
Qed.
Lemma tk_translate ext m i m1 a x : mm_inv ext m -> taken ext m i m1 -> pde_addr a ∈ user_dirs ->
  translate (words m) a = Some x -> translate (words m1) a = Some x.
Proof.
  intros I T Hd. unfold translate. destruct (pte_addr (words m) a) as [pa|] eqn:E; [|done].
  destruct (tk_pte _ _ _ _ _ _ I T Hd E) as [-> Er]. cbn. by rewrite Er.
Qed.
Lemma ends_get_empty_page ext m address : mm_inv ext m -> pde_addr address ∈ user_dirs -> unmapped m address ->
  ends (mm_inv ext) (get_empty_page address) (fun _ m' => mm_inv ext m' /\
    exists i, mem_map m !! i = Some 0 /\ maps_also m m' address (page_addr i)) m.
Proof.
  intros I Hd Hu. unfold get_empty_page. destruct (free_or_not (mem_map m)) as [Hf|Hno].
  2: { apply ends_no_page; [apply I|done|]. apply ends_run, wpg_ret. change (truth 0) with false. exact I. }
  apply ends_run. eapply (wpg_get_free_page _ _ _ _ _ I); [intros Hno; by destruct Hf as [i ?%Hno]|].
  intros i m1 T. rewrite page_addr_truth. apply ends_run.
  eapply wpg_put_page; [apply T|rewrite (tk_high _ _ _ _ T); apply T|rewrite bump_eq, (tk_ext _ _ _ _ T); lia|done| | |].
  - by eapply tk_unmapped.
  - intros _. change (truth 0) with false. cbn [negb when]. apply ends_run.
    eapply wpg_give_page; [apply T|rewrite bump_eq, (tk_ext _ _ _ _ T); lia|rewrite (tk_high _ _ _ _ T); apply T|].
    intros m2 I2 _ _ _. apply ends_oom. eapply mm_inv_ext; [|exact I2]. intros j. by rewrite bump_bump.
  - intros m2 I2 Hm. rewrite page_addr_truth. apply ends_wp, wpg_ret. split.
    + eapply mm_inv_ext; [|exact I2]. intros j. by rewrite bump_bump.
    + exists i. split; [apply T|]. eapply maps_also_trans; [|exact Hm]. intros a x Ha. by eapply tk_translate.
Qed.

(** ** Sharing a page of another task *)

Lemma land_ffc v : Z.land v 0xffc = 4 * ((v / 4) mod 1024).
Proof.
  change 1024 with (2 ^ 10). change 4 with (2 ^ 2). rewrite <- Z.shiftr_div_pow2, <- Z.land_ones by lia.
  rewrite Z.mul_comm, <- Z.shiftl_mul_pow2 by lia. change 0xffc with (Z.shiftl (Z.ones 10) 2).
  apply Z.bits_inj'. intros n Hn. rewrite Z.land_spec, !Z.shiftl_spec by done. destruct (Z.leb_spec 2 n).
  - rewrite Z.land_spec, Z.shiftr_spec by lia. do 2 f_equal. lia.
  - rewrite !(Z.testbit_neg_r _ (n - 2)), andb_false_r by lia. done.
Qed.
(** The linear address of byte [address] of a program that starts at [start]. *)
Lemma linear_address address start : 0 <= address < 2 ^ 26 -> 0 <= start < 2 ^ 32 -> start mod 2 ^ 26 = 0 ->
  pde_addr (start + address) = pde_addr address + pde_addr start /\ pte_offset (start + address) = pte_offset address.
Proof.
  intros Ha Hs Hm. unfold pde_addr, pte_offset. rewrite !land_ffc, !Z.shiftr_div_pow2 by lia. 
  apply Z.mod_divide in Hm as [q ->]; [|done].
  change (2 ^ 26) with 67108864 in *. change (2 ^ 32) with 4294967296 in *. change (2 ^ 20) with 1048576. change (2 ^ 10) with 1024.
  Z.to_euclidean_division_equations. lia.
Qed.

Lemma wpg_share_entries P F ext m df tf dt tt af at_ (Q : Z -> mm_state -> Prop) :
  mm_inv ext m -> table_at (words m) df tf -> table_at (words m) dt tt -> af ∈ page_words tf -> at_ ∈ page_words tt ->
  present (rd (words m) af) = true -> LOW_MEM <= frame (rd (words m) af) -> present (rd (words m) at_) = false ->
  (forall i c, mem_map m !! i = Some c -> c + 1 < 256) ->
  (forall m', entry_shared ext m af at_ m' -> Q 1 m') ->
  wpg P F (share_entries af at_ (frame (rd (words m) af))) Q m.
Proof.
  intros I Hf Ht Haf Hat Hp Hlow Ha Hbud HQ. assert (Hne : af <> at_) by congruence. unfold share_entries. mm_step. mm_step.
  rewrite Ha. mm_steps.
  destruct (entry_page I df tf af Hf Haf Hp Hlow) as (i & c & Hi & Hfr & Hhi & Hc & Hc1 & Hex & _).
  destruct (aligned_index (frame (rd (words m) af))) as (i' & _ & Ei & Es); [apply frame_aligned| |].
  { pose proof (inv_high _ _ I). lia. }
  rewrite Hfr in Ei. apply page_addr_inj in Ei as <-. rewrite Es.
  eapply wpg_get_map; [exact Hc|]. cbv beta. specialize (Hbud i c Hc).
  mm_step. eapply wpg_set_map; [exact Hc|]. mm_step. cbn [words]. rewrite u8_small, rd_insert_eq by lia. apply HQ.
  split; cbn; rewrite ?rd_insert_eq; try done.
  - rewrite insert_insert_ne by done. by apply (inv_share I Hf Ht).
  - by rewrite rd_insert_ne, rd_insert_eq.
  - intros b Hb1 Hb2. by rewrite !rd_insert_ne.
  - exists i, c. done.
Qed.
Lemma ro_bit e : Z.testbit (Z.land e (not32 2)) 1 = false.
Proof. rewrite Z.land_spec, not32_2_testbit by lia. apply andb_false_r. Qed.
Lemma entry_shared_page ext m from to m' : mm_inv ext m -> pde_addr from ∈ user_dirs -> pde_addr to ∈ user_dirs ->
  from mod 4096 = to mod 4096 -> pte_offset from = pte_offset to ->
  present (rd (words m) (pde_addr from)) = true -> present (rd (words m) (pde_addr to)) = true ->
  let af := frame (rd (words m) (pde_addr from)) + pte_offset from in
  let at_ := frame (rd (words m) (pde_addr to)) + pte_offset to in
  present (rd (words m) af) = true -> present (rd (words m) at_) = false -> entry_shared ext m af at_ m' ->
  page_shared m from to m'.
Proof.
  intros I Hdf Hdt Hmod Hoff Hpf Hpt af at_ Hp Ha S.
  assert (Hdir : forall d, d ∈ user_dirs -> rd (words m') d = rd (words m) d).
  { intros d Hd. apply (es_rest _ _ _ _ _ S); apply not_eq_sym.
    - apply (table_not_dir I (pde_addr from) (frame (rd (words m) (pde_addr from)))); [done|apply pte_in_page|done].
    - apply (table_not_dir I (pde_addr to) (frame (rd (words m) (pde_addr to)))); [done|apply pte_in_page|done]. }
  assert (Ef : pte_addr (words m') from = Some af) by (unfold pte_addr; by rewrite Hdir, Hpf).
  assert (Et : pte_addr (words m') to = Some at_) by (unfold pte_addr; by rewrite Hdir, Hpt).
  split.
  - exists (frame (rd (words m) af) + from mod 4096). unfold translate. rewrite Ef, Et. cbn.
    rewrite (es_from _ _ _ _ _ S), (es_to _ _ _ _ _ S), present_ro, frame_ro, Hp, Hmod. split_and!; try done.
    unfold pte_addr. rewrite Hpf. cbn. fold af. by rewrite Hp.
  - split; [exists af|exists at_]; (split; [done|]); rewrite ?(es_from _ _ _ _ _ S), ?(es_to _ _ _ _ _ S); apply ro_bit.
  - intros a x Hd. apply translate_keep; [by apply Hdir|]. intros b _ Hb.
    destruct (decide (b = af)) as [->|Hbf]; [rewrite (es_from _ _ _ _ _ S); by rewrite present_ro, frame_ro|].
    assert (Hbt : b <> at_) by congruence. by rewrite (es_rest _ _ _ _ _ S).
Qed.
Lemma frame_page j : (j < PAGING_PAGES)%nat -> frame (page_addr j) = page_addr j.
Proof. intros Hj. rewrite <- (Z.lor_0_r (page_addr j)) at 1. apply frame_or; [by apply page_addr_aligned|lia]. Qed.
Lemma page_shared_before m m2 from to m' : pde_addr from ∈ user_dirs ->
  (forall a x, pde_addr a ∈ user_dirs -> translate (words m) a = Some x -> translate (words m2) a = Some x) ->
  is_Some (translate (words m) from) -> page_shared m2 from to m' -> page_shared m from to m'.
Proof.
  intros Hd Hk [x Hx] [(y & E & E1 & E2) Hro Hk2]. split; [|done|eauto].
  exists x. rewrite (Hk _ _ Hd Hx) in E. injection E as ->. done.
Qed.
(** Two addresses at the same place of their pages. *)
Lemma wpg_share_pages P F ext m from to (Q : Z -> mm_state -> Prop) : mm_inv ext m -> pde_addr from ∈ user_dirs -> pde_addr to ∈ user_dirs ->
  from mod 4096 = to mod 4096 -> pte_offset from = pte_offset to ->
  present (rd (words m) (pde_addr from)) = true -> present (rd (words m) (pde_addr to)) = true ->
  let af := frame (rd (words m) (pde_addr from)) + pte_offset from in
  let at_ := frame (rd (words m) (pde_addr to)) + pte_offset to in
  present (rd (words m) af) = true -> LOW_MEM <= frame (rd (words m) af) -> present (rd (words m) at_) = false ->
  (forall i c, mem_map m !! i = Some c -> c + 1 < 256) ->
  (forall m', mm_inv ext m' -> page_shared m from to m' -> Q 1 m') ->
  wpg P F (share_entries af at_ (frame (rd (words m) af))) Q m.
Proof.
  intros I Hdf Hdt Hmod Hoff Hpf Hpt af at_ Hp Hlow Ha Hbud HQ.
  eapply (wpg_share_entries _ _ ext m (pde_addr from) _ (pde_addr to) _ _ _ _ I); [done|done|apply pte_in_page|apply pte_in_page|done..|].
  intros m' S. apply HQ; [apply S|]. by eapply entry_shared_page.
Qed.
Lemma ends_try_to_share (D : mm_state -> Prop) (Q : Z -> mm_state -> Prop) ext m address p_start start :
  mm_inv ext m -> 0 <= address < 2 ^ 26 -> 0 <= p_start < 2 ^ 32 -> p_start mod 2 ^ 26 = 0 -> 0 <= start < 2 ^ 32 -> start mod 2 ^ 26 = 0 ->
  pde_addr (p_start + address) ∈ user_dirs -> pde_addr (start + address) ∈ user_dirs -> unmapped m (start + address) ->
  (forall i c, mem_map m !! i = Some c -> c + 1 < 256) ->
  ((forall i, mem_map m !! i <> Some 0) -> D m) -> Q 0 m ->
  (forall m', mm_inv ext m' -> page_shared m (p_start + address) (start + address) m' -> Q 1 m') ->
  ends D (try_to_share address p_start start) Q m.
Proof.
  intros I Ha Hp Hpm Hs Hsm Hdf Hdt Hu Hbud HD Q0 Q1. unfold try_to_share.
  destruct (linear_address address p_start Ha Hp Hpm) as [E1 E2]. destruct (linear_address address start Ha Hs Hsm) as [E3 E4].
  rewrite <- E1, <- E3. set (from := p_start + address) in *. set (to := start + address) in *.
  apply ends_load. destruct (present (rd (words m) (pde_addr from))) eqn:Hpf; [|apply ends_wp, wpg_ret; exact Q0].
  cbn [negb]. rewrite (Z.land_comm _ FRAME). fold (frame (rd (words m) (pde_addr from))). rewrite <- E2.
  set (af := frame _ + pte_offset from). apply ends_load.
  destruct (Z.eqb_spec (Z.land (rd (words m) af) 0x41) 1) as [Eb|]; [|apply ends_wp, wpg_ret; exact Q0].
  cbn [negb].
  assert (Hpa : present (rd (words m) af) = true).
  { rewrite present_testbit. replace (Z.testbit (rd (words m) af) 0) with (Z.testbit (Z.land (rd (words m) af) 0x41) 0) by (by rewrite Z.land_spec, andb_true_r).
    by rewrite Eb. }
  rewrite (Z.land_comm _ FRAME). fold (frame (rd (words m) af)). apply ends_run, wpg_gets.
  destruct (Z.leb_spec (HIGH_MEMORY m) (frame (rd (words m) af))), (Z.ltb_spec (frame (rd (words m) af)) LOW_MEM);
    cbn [orb]; try (apply ends_wp, wpg_ret; exact Q0).
  assert (Hmod : from mod 4096 = to mod 4096).
  { unfold from, to. rewrite !(Z.add_mod _ address 4096) by done.
    assert (Hz : forall x, x mod 2 ^ 26 = 0 -> x mod 4096 = 0).
    { intros x [q ->]%Z.mod_divide; [|done]. change (2 ^ 26) with (16384 * 4096). rewrite Z.mul_assoc. by apply Z.mod_mul. }
    by rewrite (Hz _ Hpm), (Hz _ Hsm). }
  assert (Hoff : pte_offset from = pte_offset to) by congruence.
  assert (Htr : is_Some (translate (words m) from)) by (unfold translate, pte_addr; rewrite Hpf; cbn; fold af; by rewrite Hpa).
  apply ends_load. destruct (present (rd (words m) (pde_addr to))) eqn:Hpt.
  - apply ends_run, wpg_ret. rewrite (Z.land_comm _ FRAME). fold (frame (rd (words m) (pde_addr to))). rewrite Hoff.
    assert (Hat : present (rd (words m) (frame (rd (words m) (pde_addr to)) + pte_offset to)) = false) by (apply Hu; unfold pte_addr; by rewrite Hpt).
    apply ends_wp. by apply (wpg_share_pages _ _ ext m from to _ I).
  - apply mm_ends_bind. destruct (free_or_not (mem_map m)) as [Hf|Hno].
    2: { apply ends_no_page; [apply I|done|]. change (truth 0) with false. cbn iota. by apply ends_oom, HD. }
    apply ends_run. eapply (wpg_get_free_page _ _ _ _ _ I); [intros Hno; by destruct Hf as [i ?%Hno]|].
    intros j m1 T. rewrite page_addr_truth. pose proof (taken_table ext m j m1 _ I T Hdt Hpt) as N.
    apply ends_run, wpg_store, ends_wp, wpg_ret.
    change (Mm _ _ _) with (with_table (pde_addr to) j m1). set (m2 := with_table _ _ _) in *.
    assert (Edf : rd (words m2) (pde_addr from) = rd (words m) (pde_addr from)) by (apply (nt_dir _ _ _ _ _ N); [done|congruence]).
    assert (Eaf : rd (words m2) af = rd (words m) af) by (apply (nt_entry _ _ _ _ _ N (pde_addr from) (frame (rd (words m) (pde_addr from)))); [done|apply pte_in_page]).
    pose proof (nt_table _ _ _ _ _ N) as (_ & Hpt2 & Ept).
    pose proof (nt_zero _ _ _ _ _ N _ (pte_in_page (page_addr j) to)) as Hz.
    rewrite (Z.land_comm _ FRAME). fold (frame (page_addr j)). rewrite frame_page by apply T. rewrite Hoff.
    apply ends_wp. pose proof (wpg_share_pages (fun _ _ => False) False ext m2 from to Q (nt_inv _ _ _ _ _ N) Hdf Hdt Hmod Hoff) as W.
    cbv zeta in W. rewrite Edf in W. fold af in W. rewrite Eaf, <- Ept in W. apply W; clear W; try done.
    + by rewrite Hz.
    + rewrite (nt_map _ _ _ _ _ N). intros i c. destruct (decide (i = j)) as [->|Hij].
      * rewrite list_lookup_insert_eq by (rewrite (inv_len _ _ I); apply T). intros [= <-]. lia.
      * rewrite list_lookup_insert_ne by done. apply Hbud.
    + intros m' I' S. apply Q1; [done|].
      eapply page_shared_before; [done| |done|exact S]. intros a x Hd. by eapply new_table_translate.
Qed.

(** ** The first copy: task 1 gets the low 640K of task 0 *)

Lemma wpg_copy_low P F ext m dt (Q : option Z -> mm_state -> Prop) : mm_inv ext m -> low_table (words m) -> dt ∈ user_dirs ->
  present (rd (words m) dt) = false ->
  Q (Some (-1)) m -> (forall m', mm_inv ext m' -> Q None m') -> wpg P F (copy_dir 0xA0 0 dt) Q m.
Proof.
  intros I (Hp & Hl0 & Hl & He) Hdt Habs Q0 Q1. unfold copy_dir. mm_step. mm_step. rewrite Habs. mm_step. mm_step. rewrite Hp. cbn [negb].
  mm_step. eapply (wpg_get_free_page _ _ _ _ _ I); [intros _; mm_steps; exact Q0|].
  intros j m1 T. rewrite page_addr_truth. mm_steps. fold (frame (rd (words m) 0)). set (tb := frame (rd (words m) 0)) in *.
  destruct (taken_table ext m j m1 dt I T Hdt Habs) as [I2 Ht2 Hz2 Hd2 He2 _ _].
  match goal with |- wpg _ _ _ _ ?x => set (m2 := x); change (with_table dt j m1) with m2 in * end.
  apply (wpg_for _ _ (fun l m' => mm_inv ext m' /\ table_at (words m') dt (page_addr j) /\ exists n, 0 <= n /\ l = seqZ n (0xA0 - n) /\
    (forall k, 0 <= k < 0xA0 -> frame (rd (words m') (tb + 4 * k)) < LOW_MEM) /\
    (forall k, n <= k < 0xA0 -> rd (words m') (page_addr j + 4 * k) = 0))).
  - assert (Hw : forall k, 0 <= k < 0xA0 -> rd (words m2) (tb + 4 * k) = rd (words m) (tb + 4 * k)).
    { intros k Hk. cbn. rewrite rd_insert_ne; [apply (tk_rest _ _ _ _ T)|].
      - intros ?%page_words_high. lia.
      - apply user_dirs_spec in Hdt as (? & ? & ->). lia. }
    split_and!; [done|done|]. exists 0. split_and!; [done|done| |].
    + intros k Hk. rewrite Hw by done. by apply He.
    + intros k Hk. apply Hz2, page_words_spec. exists k. lia.
  - intros i l m3 (I3 & Ht3 & n & Hn & Hl3 & He3 & Hz3).
    destruct (decide (n < 0xA0)); [|rewrite seqZ_nil in Hl3 by lia; done].
    rewrite seqZ_cons in Hl3 by lia. injection Hl3 as -> ->. unfold copy_entry. mm_step. mm_step.
    assert (Hnext : forall m4, mm_inv ext m4 -> table_at (words m4) dt (page_addr j) ->
      (forall b, b <> page_addr j + 4 * n -> rd (words m4) b = rd (words m3) b) ->
      mm_inv ext m4 /\ table_at (words m4) dt (page_addr j) /\ exists n', 0 <= n' /\ seqZ (Z.succ n) (Z.pred (0xA0 - n)) = seqZ n' (0xA0 - n') /\
        (forall k, 0 <= k < 0xA0 -> frame (rd (words m4) (tb + 4 * k)) < LOW_MEM) /\
        (forall k, n' <= k < 0xA0 -> rd (words m4) (page_addr j + 4 * k) = 0)).
    { intros m4 I4 Ht4 Hb. split_and!; [done|done|]. exists (Z.succ n). split_and!; [lia|f_equal; lia| |].
      - intros k Hk. rewrite Hb by (unfold page_addr; lia). by apply He3.
      - intros k Hk. rewrite Hb by lia. apply Hz3. lia. }
    destruct (present (rd (words m3) (tb + 4 * n))) eqn:Hpe; cbn [negb]; [|mm_step; by apply Hnext].
    mm_steps; [exfalso|].
    { rewrite ro_above in * by done. specialize (He3 n). kbool. lia. }
    assert (Hin : page_addr j + 4 * n ∈ page_words (page_addr j)) by (apply page_words_spec; exists n; lia).
    apply Hnext.
    + apply (inv_share_low I3 Ht3 Hin); [by rewrite Hz3 by lia|apply He3; lia].
    + by apply (table_at_store I3 _ _ _ _ _ _ Ht3 Hin).
    + intros b Hb. cbn. by rewrite rd_insert_ne.
  - intros m3 (I3 & _). mm_step. by apply Q1.
Qed.
Lemma wpg_copy_low_tables P F ext m to size (Q : Z -> mm_state -> Prop) : mm_inv ext m -> low_table (words m) ->
  Z.land to 0x3fffff = 0 -> blocks size = 1 -> pde_addr to ∈ user_dirs -> present (rd (words m) (pde_addr to)) = false ->
  (forall r m', mm_inv ext m' -> Q r m') -> wpg P F (copy_page_tables 0 to size) Q m.
Proof.
  intros I Hl Ht Hb Hd Habs HQ. unfold copy_page_tables. rewrite Ht. change (truth (Z.land 0 0x3fffff) || truth 0) with false. cbn iota zeta.
  fold (blocks size). rewrite Hb. change (pde_addr 0) with 0. change (seqZ 0 1) with [0]. cbn [Z.eqb for_break].
  apply wpg_bind, wpg_bind. change (4 * 0) with 0. rewrite !Z.add_0_r.
  apply (wpg_copy_low _ _ ext); [done..| |]; intros; mm_steps; by apply HQ.
Qed.

(** ** The start: mem_init *)

Lemma wpg_fill_map P F f v (l : list Z) (Q : unit -> mm_state -> Prop) m :
  (forall k, k ∈ l -> 0 <= f k < Z.of_nat (length (mem_map m))) ->
  (forall M, length M = length (mem_map m) ->
     (forall i, i ∈ (fun k => Z.to_nat (f k)) <$> l -> M !! i = Some v) ->
     (forall i, i ∉ (fun k => Z.to_nat (f k)) <$> l -> M !! i = mem_map m !! i) ->
     Q tt (Mm M (HIGH_MEMORY m) (words m))) ->
  wpg P F (for_ l (fun k => set_map (f k) v)) Q m.
Proof.
  revert m. induction l as [|k l IH]; intros m Hf HQ; cbn [for_].
  - apply wpg_ret. destruct m. apply HQ; [done|set_solver|done].
  - destruct (Hf k) as [Hk1 Hk2]; [set_solver|]. destruct (lookup_lt_is_Some_2 (mem_map m) (Z.to_nat (f k))) as [c Hc]; [lia|].
    apply wpg_bind. rewrite <- (Z2Nat.id (f k)) by done. eapply wpg_set_map; [exact Hc|]. apply IH; cbn.
    + intros k' Hk'. rewrite length_insert. apply Hf. set_solver.
    + intros M Hl H1 H2. rewrite length_insert in Hl. apply HQ; [done| |].
      * intros i Hi. destruct (decide (i ∈ (fun k => Z.to_nat (f k)) <$> l)) as [Hil|Hil]; [by apply H1|].
        rewrite H2 by done. rewrite fmap_cons, elem_of_cons in Hi. destruct Hi as [->|]; [|done].
        apply list_lookup_insert_eq. lia.
      * intros i Hi. rewrite fmap_cons, not_elem_of_cons in Hi. destruct Hi as [Hne Hil]. rewrite H2 by done.
        by rewrite list_lookup_insert_ne.
Qed.
Lemma wpg_mem_init P F start_mem end_mem m (Q : unit -> mm_state -> Prop) : no_user_tables m ->
  start_mem mod 4096 = 0 -> end_mem mod 4096 = 0 -> LOW_MEM <= start_mem <= end_mem -> end_mem <= LOW_MEM + PAGING_MEMORY ->
  (forall m', mm_inv (boot_refs start_mem end_mem) m' -> words m' = words m -> Q tt m') ->
  wpg P F (mem_init start_mem end_mem) Q m.
Proof.
  intros [Hlen Hno] [a ->]%Z.mod_divide [b ->]%Z.mod_divide Hab Hb HQ; try done. unfold mem_init.
  mm_step. apply wpg_modify, wpg_bind.
  apply (wpg_fill_map _ _ (fun i => i) USED); [intros k Hk%elem_of_seqZ; cbn; lia|].
  intros M1 Hl1 H1 H1'. cbn [set_field set_mem_map set_HIGH_MEMORY mem_map HIGH_MEMORY words] in *.
  assert (Hpages : Z.of_nat PAGING_PAGES = 3840) by reflexivity.
  unfold LOW_MEM, PAGING_MEMORY in Hab, Hb. set (i0 := MAP_NR (a * 4096)). 
  assert (Hi0 : i0 = a - 256).
  { unfold i0, MAP_NR, LOW_MEM. rewrite u32_small, Z.shiftr_div_pow2 by lia. change (2 ^ 12) with 4096.
    replace (a * 4096 - 1048576) with ((a - 256) * 4096) by lia. by apply Z.div_mul. }
  replace (Z.shiftr (b * 4096 - a * 4096) 12) with (b - a).
  2: { rewrite Z.shiftr_div_pow2 by lia. change (2 ^ 12) with 4096. rewrite <- Z.mul_sub_distr_r. by rewrite Z.div_mul. }
  apply (wpg_fill_map _ _ (fun k => i0 + k) 0); [intros k Hk%elem_of_seqZ; cbn; rewrite Hl1, Hlen; lia|].
  cbn [mem_map HIGH_MEMORY words]. intros M2 Hl2 H2 H2'. apply HQ; [|done].
  assert (Hr : forall p, refs (words m) p = 0) by (intros; apply zsum_0; intros d Hd; unfold dir_refs; by rewrite Hno).
  assert (HM : forall i c, M2 !! i = Some c -> c = boot_refs (a * 4096) (b * 4096) i).
  { intros i c Hc. assert (Hi := lookup_lt_Some _ _ _ Hc). unfold boot_refs, page_addr, LOW_MEM.
    destruct (decide (i ∈ (fun k => Z.to_nat (i0 + k)) <$> seqZ 0 (b - a))) as [Hin|Hin].
    - rewrite H2 in Hc by done. injection Hc as <-. apply list_elem_of_fmap in Hin as (k & -> & Hk%elem_of_seqZ).
      rewrite (proj2 (Z.leb_le _ _)), (proj2 (Z.ltb_lt _ _)) by lia. done.
    - rewrite H2', H1 in Hc; [injection Hc as <-| |done].
      2: { apply list_elem_of_fmap. exists (Z.of_nat i). split; [lia|]. apply elem_of_seqZ. lia. }
      case_match; [|done]. kbool. exfalso. apply Hin, list_elem_of_fmap. exists (256 + Z.of_nat i - a). split; [lia|]. apply elem_of_seqZ. lia. }
  assert (Hpos : forall i, 0 <= boot_refs (a * 4096) (b * 4096) i < 256) by (intros; unfold boot_refs, USED; case_match; lia).
  split; cbn.
  - congruence.
  - unfold LOW_MEM, PAGING_MEMORY. lia.
  - intros i c Hc. rewrite Hr, (HM _ _ Hc). split_and!; [done|apply Hpos..].
  - intros d t (Hd & Hp & _). rewrite Hno in Hp by done. done.
  - intros d t a' (Hd & Hp & _). rewrite Hno in Hp by done. done.
  - intros i Hi. unfold boot_refs. rewrite (proj2 (Z.ltb_ge _ _)) by lia. rewrite andb_false_r. unfold USED. lia.
Qed.

(** ** Every call *)

Lemma user_table m address pa : user_address address -> pte_addr (words m) address = Some pa ->
  exists t, table_at (words m) (pde_addr address) t /\ pa ∈ page_words t /\ pa = frame (rd (words m) (pde_addr address)) + pte_offset address.
Proof.
  intros Hu. unfold pte_addr. destruct (present (rd (words m) (pde_addr address))) eqn:Hp; [|done]. intros [= <-].
  eexists. split; [by split_and!|]. split; [apply pte_in_page|done].
Qed.
Lemma ends_ret_0 D (c : M mm_state unit) (Q : Z -> mm_state -> Prop) m : ends D c (fun _ => Q 0) m -> ends D (c ;; mret 0) Q m.
Proof. intros Hc. apply mm_ends_bind. revert Hc. unfold ends. by destruct (c m). Qed.
Lemma mm_ends_mono {A} D (c : M mm_state A) Q Q' m : ends D c Q m -> (forall a s, Q a s -> Q' a s) -> ends D c Q' m.
Proof. unfold ends. destruct (c m); auto. Qed.
Lemma take_keeps ext m : mm_inv ext m -> call_keeps ext m Take.
Proof.
  intros I. apply ends_wp. eapply (wpg_get_free_page _ _ ext); [done|done|]. intros i m' T. cbn [left_over].
  rewrite (proj2 (Z.eqb_neq _ _)) by (apply truth_true, page_addr_truth).
  replace ((page_addr i - LOW_MEM) / 4096) with (Z.of_nat i); [rewrite Nat2Z.id; apply T|].
  unfold page_addr. replace (LOW_MEM + 4096 * Z.of_nat i - LOW_MEM) with (Z.of_nat i * 4096) by lia. by rewrite Z.div_mul.
Qed.
Lemma held_index ext m i : mm_inv ext m -> held ext m i -> (i < PAGING_PAGES)%nat.
Proof.
  intros I [_ Hhi]. pose proof (inv_high _ _ I). unfold page_addr, PAGING_MEMORY in *. change PAGING_PAGES with 3840%nat. lia.
Qed.
(** Words of pages the kernel holds may change. *)
Lemma inv_held_words ext m w' : mm_inv ext m ->
  (forall a, (forall i, held ext m i -> a ∉ page_words (page_addr i)) -> rd w' a = rd (words m) a) ->
  mm_inv ext (Mm (mem_map m) (HIGH_MEMORY m) w').
Proof.
  intros I Hw. apply (inv_store_data I).
  - intros d Hd%user_dir_low. apply Hw. intros i _ ?%page_words_high. lia.
  - intros d t a Ht Ha. apply Hw. intros i Hi Hai. destruct (inv_table _ _ I _ _ Ht) as (j & Hj & -> & _ & _ & Ej).
    assert (page_addr j = page_addr i) as Eij%page_addr_inj; [|subst; destruct Hi; lia].
    eapply aligned_disjoint; [by apply page_addr_aligned|apply page_addr_aligned; by eapply held_index|exact Ha|exact Hai].
Qed.
Lemma write_keeps ext m address v : mm_inv ext m -> allowed ext m (Write address v) -> call_keeps ext m (Write address v).
Proof.
  intros I (Hu & Hm & x & Hx & Hl). unfold call_keeps. cbn [run_call left_over]. apply ends_run, wpg_gets. rewrite Hx.
  apply ends_ret_0, ends_wp, wpg_store.
  unfold translate in Hx. destruct (pte_addr (words m) address) as [pa|] eqn:Epa; [|done]. cbn in Hx.
  destruct (present (rd (words m) pa)) eqn:Hp; [|done]. injection Hx as <-.
  destruct (user_table m address pa Hu Epa) as (t & Ht & Hpa & _).
  assert (Hoff : 0 <= address mod 4096 < 4096) by (by apply Z.mod_pos_bound).
  destruct (frame_aligned (rd (words m) pa)) as (q & Hq & Eq).
  destruct (entry_page I _ t pa Ht Hpa Hp) as (i & c & Hi & Hf & _ & _ & _ & _ & Hnt); [unfold LOW_MEM in *; lia|].
  apply (inv_store_data I); intros.
  - rewrite rd_insert_ne; [done|]. apply user_dir_low in H. lia.
  - rewrite rd_insert_ne; [done|]. intros <-. apply (Hnt _ _ H).
    eapply aligned_disjoint; [by eapply table_aligned|by apply page_addr_aligned|exact H0|].
    rewrite Hf. apply page_words_spec. exists ((address mod 4096) / 4). Z.to_euclidean_division_equations. lia.
Qed.
Lemma keep_keeps ext m i k v : mm_inv ext m -> allowed ext m (Keep i k v) -> call_keeps ext m (Keep i k v).
Proof.
  intros I [Hh Hk]. apply ends_ret_0, ends_wp, wpg_store. cbn [left_over]. apply inv_held_words; [done|].
  intros a Ha. rewrite rd_insert_ne; [done|]. intros <-. apply (Ha i Hh), page_words_spec. eauto.
Qed.
Lemma fork_keeps ext m from to size : mm_inv ext m -> allowed ext m (Fork from to size) -> call_keeps ext m (Fork from to size).
Proof.
  intros I (Hf & Ht & HT & H). apply ends_wp. destruct (Z.eqb_spec from 0) as [->|Hne].
  - destruct H as [Hl Hb]. destruct (HT (pde_addr to)) as [Hd Ha].
    { pose proof (dir_range_lookup (pde_addr to) (blocks size) 0 ltac:(rewrite Hb; lia)) as Hin. by rewrite Z.mul_0_r, Z.add_0_r in Hin. }
    by apply (wpg_copy_low_tables _ _ ext).
  - destruct H as [HF Hbud]. by apply (wpg_copy_page_tables _ _ ext).
Qed.
Lemma fault_keeps ext m address : mm_inv ext m -> allowed ext m (WriteFault address) -> call_keeps ext m (WriteFault address).
Proof.
  intros I [Hu [x Hx]]. apply ends_ret_0. unfold do_wp_page. apply ends_load.
  unfold translate in Hx. destruct (pte_addr (words m) address) as [pa|] eqn:Epa; [|done]. cbn in Hx.
  destruct (user_table m address pa Hu Epa) as (t & Ht & Hpa & Ea).
  fold (frame (rd (words m) (pde_addr address))). rewrite Z.add_comm, <- Ea.
  eapply (ends_un_wp_page ext m _ t); [done..|]. by destruct (present (rd (words m) pa)).
Qed.
Lemma verify_keeps ext m address : mm_inv ext m -> allowed ext m (Verify address) -> call_keeps ext m (Verify address).
Proof.
  intros I Hu. apply ends_ret_0. unfold write_verify. apply ends_load.
  destruct (present (rd (words m) (pde_addr address))) eqn:Hp; cbn [negb]; [|by apply ends_wp, wpg_ret].
  rewrite (Z.land_comm _ FRAME). fold (frame (rd (words m) (pde_addr address))).
  set (pa := frame _ + pte_offset address). apply ends_load.
  destruct (Z.eqb_spec (Z.land 3 (rd (words m) pa)) 1) as [E|]; cbn [when]; [|by apply ends_wp, wpg_ret].
  destruct (user_table m address pa Hu) as (t & Ht & Hpa & _); [unfold pte_addr; by rewrite Hp|].
  eapply (ends_un_wp_page ext m _ t); [done..|]. rewrite present_testbit.
  replace (Z.testbit (rd (words m) pa) 0) with (Z.testbit (Z.land 3 (rd (words m) pa)) 0) by (by rewrite Z.land_spec).
  by rewrite E.
Qed.
Lemma allowed_keeps ext m c : mm_inv ext m -> allowed ext m c -> call_keeps ext m c.
Proof.
  intros I Ha. destruct c as [|i|i address|from to size|from size|address|address|address|address p_start start|address v|i k v];
    auto using take_keeps, fork_keeps, fault_keeps, verify_keeps, write_keeps, keep_keeps; unfold call_keeps; cbn [run_call left_over].
  - destruct Ha. apply ends_ret_0, ends_wp. eapply wpg_give_page; eauto.
  - destruct Ha as ([He Hhi] & Hu & Hun). apply ends_wp. eapply (wpg_put_page _ _ ext); [done..| |]; intros.
    + by rewrite Z.eqb_refl.
    + by rewrite (proj2 (Z.eqb_neq _ _)) by (apply truth_true, page_addr_truth).
  - destruct Ha as (Hal & Hnz & Hr). apply ends_wp. eapply wp_mono; [by apply free_page_tables_inv|]. by intros r m' (_ & ? & _).
  - destruct Ha as [Hu Hun]. apply ends_ret_0. eapply mm_ends_mono; [by apply ends_get_empty_page|]. by intros _ m' [? _].
  - destruct Ha as (H1 & H2 & H3 & H4 & H5 & H6 & H7 & H8 & H9).
    by apply (ends_try_to_share _ _ ext).
Qed.
Lemma reachable_inv ext m : reachable ext m -> mm_inv ext m.
Proof.
  induction 1 as [start_mem end_mem m m' Hn Hs He Hl Hh E|ext m c r m' _ I Ha E|ext m c code m' _ I Ha E].
  - assert (H : wp (mem_init start_mem end_mem) (fun _ => mm_inv (boot_refs start_mem end_mem)) m) by (apply wpg_mem_init; auto).
    revert H. unfold wp, wpg. by rewrite E.
  - pose proof (allowed_keeps ext m c I Ha) as H. unfold call_keeps, ends in H. by rewrite E in H.
  - pose proof (allowed_keeps ext m c I Ha) as H. unfold call_keeps, ends in H. by rewrite E in H.
Qed.
(** C4: [try_to_share] either answers 0 and changes nothing (the other task has
    no such page, or has written it), or gives up the task for want of a page,
    or answers 1: then the address of the current task stands for the same
    physical page as that of the other one, which is read-only for both, every
    address that was mapped still stands for what it did, and the reference
    counts are exact. *)
Theorem try_to_share_shares ext m address p_start start :
  mm_inv ext m -> 0 <= address < 2 ^ 26 -> 0 <= p_start < 2 ^ 32 -> p_start mod 2 ^ 26 = 0 -> 0 <= start < 2 ^ 32 -> start mod 2 ^ 26 = 0 ->
  user_address (p_start + address) -> user_address (start + address) -> unmapped m (start + address) ->
  (forall i c, mem_map m !! i = Some c -> c + 1 < 256) ->
  ends (fun m' => m' = m /\ forall i, mem_map m !! i <> Some 0) (try_to_share address p_start start)
    (fun r m' => r = 0 /\ m' = m \/ r = 1 /\ mm_inv ext m' /\ page_shared m (p_start + address) (start + address) m') m.
Proof. intros. apply (ends_try_to_share _ _ ext); auto. Qed.
(** C1: in every state of the memory that start-up and any sequence of calls
    of mm/memory.c and of writes by tasks and kernel can reach, the count of
    every page is exactly the number of its references: those of the page
    tables and those the kernel holds.  No page is both a page table and
    something else, and no allowed call panics or follows a bad pointer: it
    returns, or ends its task for want of memory, with exact counts again. *)
Theorem counts_always_exact ext m : reachable ext m ->
  (forall i n, mem_map m !! i = Some n -> n = refs (words m) (page_addr i) + ext i) /\
  (forall d t, table_at (words m) d t -> exists i, t = page_addr i /\ mem_map m !! i = Some 1 /\ ext i = 0) /\
  (forall c, allowed ext m c -> ends (mm_inv ext) (run_call c) (fun r m' => mm_inv (left_over ext c r) m') m).
Proof.
  intros I%reachable_inv. split_and!.
  - intros i n Hi. by apply (inv_count _ _ I).
  - intros d t Ht. destruct (inv_table _ _ I _ _ Ht) as (i & Hi & -> & _ & Hr & He). exists i. split_and!; [done| |done].
    destruct (lookup_lt_is_Some_2 (mem_map m) i) as [c Hc]; [by rewrite (inv_len _ _ I)|].
    destruct (inv_count _ _ I _ _ Hc) as [-> _]. by rewrite Hr, He in Hc.
  - intros c. by apply allowed_keeps.
Qed.

(** Memory from 4MB to 16MB; then a page is taken and mapped at 64MB. *)
Definition bare_mm : mm_state := Mm (replicate 3840 0) 0 ∅.
Definition boot_ext : nat -> Z := boot_refs 0x400000 0x1000000.
Lemma boot_state : exists m, mem_init 0x400000 0x1000000 bare_mm = Ok tt m /\ mm_inv boot_ext m /\ words m = ∅.
Proof.
  assert (H : wp (mem_init 0x400000 0x1000000) (fun _ m => mm_inv boot_ext m /\ words m = ∅) bare_mm).
  { apply wpg_mem_init; [by split|done|done|done|done|]. by intros m I E. }
  destruct (wp_outcome _ _ _ H) as ([] & m & E & Hm). exists m. exact (conj E Hm).
Qed.
Lemma boot_reachable m : mem_init 0x400000 0x1000000 bare_mm = Ok tt m -> reachable boot_ext m.
Proof. apply (at_boot 0x400000 0x1000000 bare_mm); [by split|done|done|done|done]. Qed.
Lemma boot_free m i : mm_inv boot_ext m -> words m = ∅ -> (768 <= i < 3840)%nat -> mem_map m !! i = Some 0.
Proof.
  intros I Ew Hi. destruct (lookup_lt_is_Some_2 (mem_map m) i) as [c Hc]; [rewrite (inv_len _ _ I); change PAGING_PAGES with 3840%nat; lia|].
  destruct (inv_count _ _ I _ _ Hc) as [E _]. rewrite Hc, E, Ew, refs_empty. unfold boot_ext, boot_refs, page_addr, LOW_MEM.
  rewrite (proj2 (Z.leb_le _ _)), (proj2 (Z.ltb_lt _ _)) by lia. done.
Qed.
Lemma taken_state : exists ext m i, reachable ext m /\ held ext m i /\ unmapped m 0x4000000.
Proof.
  destruct boot_state as (m & E & I & Ew).
  pose proof (boot_reachable m E) as R. clear E.
  assert (H : wp get_free_page (fun r m' => exists i, r = page_addr i /\ taken boot_ext m i m') m).
  { apply (wpg_get_free_page _ _ _ _ _ I); [|by eauto]. intros Hno. destruct (Hno 1000%nat). apply boot_free; [done|done|lia]. }
  destruct (wp_outcome _ _ _ H) as (r & m' & Er & i & -> & T). exists (left_over boot_ext Take (page_addr i)), m', i. split_and!.
  - by apply (after_call boot_ext m Take).
  - cbn [left_over]. rewrite (proj2 (Z.eqb_neq _ _)) by (apply truth_true, page_addr_truth). split.
    + replace (Z.to_nat ((page_addr i - LOW_MEM) / 4096)) with i by (unfold page_addr; Z.to_euclidean_division_equations; lia).
      rewrite bump_eq, (tk_ext _ _ _ _ T). lia.
    + rewrite (tk_high _ _ _ _ T). apply T.
  - intros pa. unfold pte_addr. rewrite (tk_rest _ _ _ _ T); [rewrite Ew, rd_empty; done|].
    intros ?%page_words_high. revert H0. by vm_compute.
Qed.
Lemma counts_always_exact_witness : exists ext m i, reachable ext m /\ allowed ext m (Map i 0x4000000) /\
  ends (mm_inv ext) (run_call (Map i 0x4000000)) (fun r m' => mm_inv (left_over ext (Map i 0x4000000) r) m') m.
Proof.
  destruct taken_state as (ext & m & i & R & Hh & Hu).
  assert (Ha : allowed ext m (Map i 0x4000000)) by (split_and!; [exact Hh|by apply (in_user_dirs 16)|exact Hu]).
  exists ext, m, i. exact (conj R (conj Ha (proj2 (proj2 (counts_always_exact _ _ R)) (Map i 0x4000000) Ha))).
Defined.
Lemma try_to_share_shares_witness : 
  ends (fun m' => m' = mm4 /\ forall i, mem_map mm4 !! i <> Some 0) (try_to_share 0 0x4000000 0x8000000)
    (fun r m' => r = 0 /\ m' = mm4 \/ r = 1 /\ page_shared mm4 0x4000000 0x8000000 m') mm4.
Proof.
  eapply mm_ends_mono; [eapply (try_to_share_shares _ mm4 0 0x4000000 0x8000000 mm4_inv)|]; try done.
  - by apply (in_user_dirs 16).
  - by apply (in_user_dirs 32).
  - intros i c Hc. pose proof (mm4_counts i c Hc). lia.
  - intros r m' [?|(? & _ & ?)]; auto.
Defined.
