(* ===== verification/Malloc.v ===== *)
(** * lib/malloc.c: the kernel's memory allocator

    Buckets and bucket descriptors are pages of physical memory, so the state
    is the memory of mm/memory.c with the two static variables of the
    allocator.  A [struct bucket_desc] at address [d] is four words: the page,
    the next descriptor, the first free object, and the reference count with
    the bucket size in the upper half. *)

From S2P Require Import Prelude Kernel Memory.

Record malloc_state := MallocState {
  ma_mm : mm_state;
  bucket_dir : list (Z * Z);
  free_bucket_desc : Z }.
Definition eta_malloc_state (r : malloc_state) : malloc_state :=
  MallocState (ma_mm r) (bucket_dir r) (free_bucket_desc r).
#[export] Instance set_ma_mm : Setter ma_mm := ltac:(build_setter eta_malloc_state ma_mm).
#[export] Instance set_bucket_dir : Setter bucket_dir := ltac:(build_setter eta_malloc_state bucket_dir).
#[export] Instance set_free_bucket_desc : Setter free_bucket_desc := ltac:(build_setter eta_malloc_state free_bucket_desc).

(** [bucket_dir[]] as the kernel starts: pairs of size and chain, the end of
    the list marked by size 0. *)
Definition boot_bucket_dir : list (Z * Z) :=
  [(16, 0); (32, 0); (64, 0); (128, 0); (256, 0); (512, 0); (1024, 0); (2048, 0); (4096, 0); (0, 0)].

(** ** Access to memory *)

Definition in_mm {A} (c : M mm_state A) : M malloc_state A :=
  zoom ma_mm (fun m => set_field ma_mm (fun _ => m)) c.
Definition mload (a : Z) : M malloc_state Z := in_mm (load a).
Definition mstore (a v : Z) : M malloc_state unit := in_mm (store a v).

Definition bd_page (d : Z) : Z := d.
Definition bd_next (d : Z) : Z := d + 4.
Definition bd_freeptr (d : Z) : Z := d + 8.
(** [refcnt] and [bucket_size] are the halves of one word. *)
Definition bd_counts (d : Z) : Z := d + 12.
Definition get_refcnt (d : Z) : M malloc_state Z := w ← mload (bd_counts d); mret (u16 w).
Definition set_refcnt (d v : Z) : M malloc_state unit :=
  w ← mload (bd_counts d); mstore (bd_counts d) (u16 v + 2 ^ 16 * Z.shiftr w 16).
Definition set_bucket_size (d v : Z) : M malloc_state unit :=
  w ← mload (bd_counts d); mstore (bd_counts d) (u16 w + 2 ^ 16 * u16 v).

(** The turns given to the loops along chains: a chain that is not circular is
    shorter than the memory. *)
Definition chain_fuel (s : malloc_state) : nat := S (size (words (ma_mm s))).

Definition get_dir_entry (i : nat) : M malloc_state (Z * Z) :=
  l ← gets bucket_dir; deref (l !! i).
Definition set_chain (i : nat) (d : Z) : M malloc_state unit :=
  modify (set_field bucket_dir (alter (fun e => (e.1, d)) i)).

(** ** init_bucket_desc *)

Definition init_bucket_desc : M malloc_state unit :=
  first ← in_mm get_free_page;
  if first =? 0 then panic "Out of memory in init_bucket_desc()"
  else
    for_ (seqZ 0 255) (fun k => mstore (bd_next (first + 16 * k)) (first + 16 * (k + 1))) ;;
    l ← gets free_bucket_desc;
    mstore (bd_next (first + 16 * 255)) l ;;
    modify (set_field free_bucket_desc (fun _ => first)).

(** ** malloc *)

(** [for (bdir = bucket_dir; bdir->size; bdir++) if (bdir->size >= len) break;] *)
Fixpoint find_dir (l : list (Z * Z)) (len : Z) (i : nat) : option (nat * Z) :=
  match l with
  | (size, _) :: l' =>
      if size =? 0 then None else if len <=? u32 size then Some (i, size) else find_dir l' len (S i)
  | [] => None
  end.
(** [for (bdesc = chain; bdesc; bdesc = bdesc->next) if (bdesc->freeptr) break;] *)
Definition find_desc (chain : Z) : M malloc_state Z :=
  fuel ← gets chain_fuel;
  loop fuel (fun bdesc =>
    if bdesc =? 0 then mret (inr 0)
    else
      f ← mload (bd_freeptr bdesc);
      if truth f then mret (inr bdesc)
      else n ← mload (bd_next bdesc); mret (inl n)) chain.
(** The objects of a fresh page, each pointing to the next one. *)
Definition chain_objects (cp size : Z) : M malloc_state unit :=
  let n := PAGE_SIZE / size in
  for_ (seqZ 0 (n - 1)) (fun k => mstore (cp + size * k) (cp + size * (k + 1))) ;;
  mstore (cp + size * (n - 1)) 0.
(** The objects are chained and the bucket is linked in. *)
Definition fill_bucket (bdir : nat) (bdesc cp size : Z) : M malloc_state Z :=
  chain_objects cp size ;;
  e ← get_dir_entry bdir;
  mstore (bd_next bdesc) e.2 ;;
  set_chain bdir bdesc ;;
  mret bdesc.
Definition new_bucket (bdir : nat) (size : Z) : M malloc_state Z :=
  l ← gets free_bucket_desc;
  (if l =? 0 then init_bucket_desc else mret tt) ;;
  bdesc ← gets free_bucket_desc;
  n ← mload (bd_next bdesc);
  modify (set_field free_bucket_desc (fun _ => n)) ;;
  set_refcnt bdesc 0 ;;
  set_bucket_size bdesc size ;;
  cp ← in_mm get_free_page;
  mstore (bd_freeptr bdesc) cp ;;
  mstore (bd_page bdesc) cp ;;
  if cp =? 0 then panic "Out of memory in kernel malloc()"
  else
    fill_bucket bdir bdesc cp size.

(** The end of [malloc]: the first free object of a descriptor. *)
Definition hand_out (bdesc : Z) : M malloc_state Z :=
  retval ← mload (bd_freeptr bdesc);
  next ← mload retval;
  mstore (bd_freeptr bdesc) next ;;
  c ← get_refcnt bdesc;
  set_refcnt bdesc (c + 1) ;;
  mret retval.
Definition malloc (len : Z) : M malloc_state Z :=
  dir ← gets bucket_dir;
  match find_dir dir len 0 with
  | None => panic "malloc: bad arg"
  | Some (bdir, size) =>
      e ← get_dir_entry bdir;
      d ← find_desc e.2;
      bdesc ← (if d =? 0 then new_bucket bdir size else mret d);
      hand_out bdesc
  end.

(** ** free_s *)

(** The inner loop of the search: the descriptor of [page] and the one before
    it in the chain. *)
Definition find_page (page chain : Z) : M malloc_state (option (Z * Z)) :=
  fuel ← gets chain_fuel;
  loop fuel (fun '(prev, bdesc) =>
    if bdesc =? 0 then mret (inr None)
    else
      p ← mload (bd_page bdesc);
      if p =? page then mret (inr (Some (prev, bdesc)))
      else n ← mload (bd_next bdesc); mret (inl (bdesc, n))) (0, chain).
Fixpoint find_bucket (l : list (Z * Z)) (page size : Z) (i : nat) : M malloc_state (option (nat * Z * Z)) :=
  match l with
  | (bsize, chain) :: l' =>
      if bsize =? 0 then mret None
      else if bsize <? size then find_bucket l' page size (S i)
      else
        r ← find_page page chain;
        match r with
        | Some (prev, bdesc) => mret (Some (i, prev, bdesc))
        | None => find_bucket l' page size (S i)
        end
  | [] => mret None
  end.
(** [for (prev = bdir->chain; prev; prev = prev->next) if (prev->next == bdesc) break;] *)
Definition find_prev (chain bdesc : Z) : M malloc_state Z :=
  fuel ← gets chain_fuel;
  loop fuel (fun prev =>
    if prev =? 0 then mret (inr 0)
    else
      n ← mload (bd_next prev);
      if n =? bdesc then mret (inr prev) else mret (inl n)) chain.
(** The descriptor is taken out of its chain; [prev] may be out of date, if an
    interrupt came in between. *)
Definition unlink_bucket (bdir : nat) (prev bdesc : Z) : M malloc_state unit :=
  e ← get_dir_entry bdir;
  stale ← (if truth prev then n ← mload (bd_next prev); mret (negb (n =? bdesc))
           else mret (negb (e.2 =? bdesc)));
  prev ← (if (stale : bool) then find_prev e.2 bdesc else mret prev);
  n ← mload (bd_next bdesc);
  if truth prev then mstore (bd_next prev) n
  else if negb (e.2 =? bdesc) then panic "malloc bucket chains corrupted"
  else set_chain bdir n.
(** The page of a descriptor without objects in use is released. *)
Definition release_bucket (bdir : nat) (prev bdesc : Z) : M malloc_state unit :=
  unlink_bucket bdir prev bdesc ;;
  p ← mload (bd_page bdesc);
  in_mm (free_page p) ;;
  l ← gets free_bucket_desc;
  mstore (bd_next bdesc) l ;;
  modify (set_field free_bucket_desc (fun _ => bdesc)).
(** The object goes back on the free list of its descriptor. *)
Definition take_back (bdesc obj : Z) : M malloc_state unit :=
  f ← mload (bd_freeptr bdesc);
  mstore obj f ;;
  mstore (bd_freeptr bdesc) obj ;;
  c ← get_refcnt bdesc;
  set_refcnt bdesc (c - 1).
Definition free_s (obj size : Z) : M malloc_state unit :=
  let page := Z.land obj FRAME in
  dir ← gets bucket_dir;
  r ← find_bucket dir page size 0;
  match r with
  | None => panic "Bad address passed to kernel free_s()"
  | Some (bdir, prev, bdesc) =>
      take_back bdesc obj ;;
      c ← get_refcnt bdesc;
      when (c =? 0) (release_bucket bdir prev bdesc)
  end.

(** include/linux/kernel.h: [free(x)]. *)
Definition free (obj : Z) : M malloc_state unit := free_s obj 0.
