(* ===== verification/AllocInv.v ===== *)
(** * The structure of the kernel's allocator

    What the buckets and descriptors of lib/malloc.c look like in memory, as a
    picture of its own: the chains of buckets of each size, the unused
    descriptors, the pages of descriptors.  [malloc_inv] ties the picture to
    the words of physical memory, and the lemmas say how the picture changes
    when a word of it does: a bucket whose free objects change, a bucket linked
    into or out of a chain, descriptors put on or taken off their list. *)

From S2P Require Import Prelude Kernel Memory MemRefs MemSteps Malloc.

(** ** The abstract allocator *)

(** A bucket: its descriptor, its page, and its free objects in the order they
    will be handed out. *)
Record bucket := Bucket { bk_desc : Z; bk_page : nat; bk_free : list Z }.
(** The chains of the nine sizes, the unused descriptors, and the pages of
    descriptors. *)
Record alloc := Alloc { al_chains : list (list bucket); al_spare : list Z; al_tables : list nat }.
Definition sizes : list Z := [16; 32; 64; 128; 256; 512; 1024; 2048; 4096].
Definition bucket_objects (size : Z) (i : nat) : list Z := (fun k => page_addr i + size * k) <$> seqZ 0 (4096 / size).
(** [o] is an object in use of a bucket of the chain [c], of the structure. *)
Definition in_chain (c : list bucket) (size o : Z) : Prop :=
  exists b, b ∈ c /\ o ∈ bucket_objects size (bk_page b) /\ o ∉ bk_free b.
Definition in_use (A : alloc) (o size : Z) : Prop :=
  exists i c, sizes !! i = Some size /\ al_chains A !! i = Some c /\ in_chain c size o.
Definition al_buckets (A : alloc) : list bucket := concat (al_chains A).
Definition al_descs (A : alloc) : list Z := (bk_desc <$> al_buckets A) ++ al_spare A.
Definition al_pages (A : alloc) : list nat := al_tables A ++ (bk_page <$> al_buckets A).

(** ** The allocator in memory *)

(** The objects [l] chained from [d], [next] being where an object has its
    link: descriptors, and free objects. *)
Fixpoint chained (next : Z -> Z) (w : gmap Z Z) (d : Z) (l : list Z) : Prop :=
  match l with [] => d = 0 | x :: l' => d = x /\ chained next w (rd w (next x)) l' end.
Abbreviation linked := (chained bd_next).
Abbreviation free_list := (chained (fun o => o)).
Definition desc_at (tables : list nat) (d : Z) : Prop := exists j k, j ∈ tables /\ 0 <= k < 256 /\ d = page_addr j + 16 * k.
Record bucket_ok (w : gmap Z Z) (size : Z) (b : bucket) : Prop := {
  bo_page : rd w (bd_page (bk_desc b)) = page_addr (bk_page b);
  bo_counts : rd w (bd_counts (bk_desc b)) = (4096 / size - Z.of_nat (length (bk_free b))) + 2 ^ 16 * size;
  bo_free : free_list w (rd w (bd_freeptr (bk_desc b))) (bk_free b);
  bo_in : forall o, o ∈ bk_free b -> o ∈ bucket_objects size (bk_page b);
  bo_nodup : NoDup (bk_free b) }.
Definition memory (s : malloc_state) : gmap Z Z := words (ma_mm s).
Record malloc_inv (ext : nat -> Z) (A : alloc) (s : malloc_state) : Prop := {
  mi_mm : mm_inv ext (ma_mm s);
  mi_sizes : (bucket_dir s).*1 = sizes ++ [0];
  mi_len : length (al_chains A) = 9%nat;
  mi_chain : forall i size d c, bucket_dir s !! i = Some (size, d) -> al_chains A !! i = Some c ->
    linked (memory s) d (bk_desc <$> c) /\ forall b, b ∈ c -> bucket_ok (memory s) size b;
  mi_spare : linked (memory s) (free_bucket_desc s) (al_spare A);
  mi_descs : NoDup (al_descs A);
  mi_desc_at : forall d, d ∈ al_descs A -> desc_at (al_tables A) d;
  mi_pages : NoDup (al_pages A);
  mi_held : forall i, i ∈ al_pages A -> held ext (ma_mm s) i }.
(** The words the allocator relies on. *)
Definition reached (A : alloc) (a : Z) : Prop :=
  (exists d off, d ∈ al_descs A /\ off ∈ [0; 4; 8; 12] /\ a = d + off) \/
  (exists b, b ∈ al_buckets A /\ a ∈ page_words (page_addr (bk_page b))).
(** Changes of the memory, of a chain, of the unused descriptors. *)
Definition with_memory (w : gmap Z Z) (s : malloc_state) : malloc_state :=
  MallocState (Mm (mem_map (ma_mm s)) (HIGH_MEMORY (ma_mm s)) w) (bucket_dir s) (free_bucket_desc s).
Definition with_chain (i : nat) (c : list bucket) (A : alloc) : alloc := Alloc (<[i := c]> (al_chains A)) (al_spare A) (al_tables A).
Definition with_spare (l : list Z) (A : alloc) : alloc := Alloc (al_chains A) l (al_tables A).
Definition set_spare (d : Z) (s : malloc_state) : malloc_state := MallocState (ma_mm s) (bucket_dir s) d.
Definition set_dir (i : nat) (x : Z) (s : malloc_state) : malloc_state :=
  MallocState (ma_mm s) (alter (fun e => (e.1, x)) i (bucket_dir s)) (free_bucket_desc s).
(** The buckets besides one at chain [i]. *)
Definition other_buckets (A : alloc) (i : nat) (c1 c2 : list bucket) : list bucket := c1 ++ c2 ++ concat (delete i (al_chains A)).

(** ** What the predicates depend on *)

Lemma chained_frame next w w' d l : (forall x, x ∈ l -> rd w' (next x) = rd w (next x)) -> chained next w d l -> chained next w' d l.
Proof.
  revert d. induction l as [|x l IH]; intros d Hw; [done|]. cbn. intros [-> Hl]. split; [done|].
  rewrite Hw by apply list_elem_of_here. apply IH; [intros; by apply Hw, list_elem_of_further|done].
Qed.
Lemma bucket_ok_frame w w' size b : rd w' (bd_page (bk_desc b)) = rd w (bd_page (bk_desc b)) ->
  rd w' (bd_counts (bk_desc b)) = rd w (bd_counts (bk_desc b)) -> rd w' (bd_freeptr (bk_desc b)) = rd w (bd_freeptr (bk_desc b)) ->
  (forall o, o ∈ bk_free b -> rd w' o = rd w o) -> bucket_ok w size b -> bucket_ok w' size b.
Proof.
  intros E1 E2 E3 Hw [H1 H2 H3 H4 H5]. split; rewrite ?E1, ?E2, ?E3; try done. by eapply chained_frame.
Qed.
Lemma chained_app next w d l1 x l2 : chained next w d (l1 ++ x :: l2) -> chained next w (rd w (next x)) l2.
Proof. revert d. induction l1 as [|y l1 IH]; intros d; cbn; [by intros [_ ?]|]. intros [_ ?]. eauto. Qed.
(** [n] objects of [size] bytes in a row, each linked to the next. *)
Lemma chained_row next w base size (n : nat) l : (forall k, 0 <= k < Z.of_nat n -> k + 1 < Z.of_nat n -> rd w (next (base + size * k)) = base + size * (k + 1)) ->
  (0 < n)%nat -> chained next w (rd w (next (base + size * (Z.of_nat n - 1)))) l ->
  chained next w base (((fun k => base + size * k) <$> seqZ 0 (Z.of_nat n)) ++ l).
Proof.
  intros Hk Hn Hl. assert (H : forall m, (m <= n)%nat -> (0 < m)%nat ->
    chained next w (base + size * (Z.of_nat n - Z.of_nat m)) (((fun k => base + size * k) <$> seqZ (Z.of_nat n - Z.of_nat m) (Z.of_nat m)) ++ l)).
  2: { specialize (H n ltac:(lia) Hn). by rewrite Z.sub_diag, Z.mul_0_r, Z.add_0_r in H. }
  induction m as [|m IH]; intros Hm Hm0; [lia|]. rewrite seqZ_cons by lia. cbn. split; [done|].
  destruct m as [|m].
  - rewrite seqZ_nil by lia. cbn. by replace (Z.of_nat n - Z.of_nat 1) with (Z.of_nat n - 1) by lia.
  - rewrite Hk by lia. replace (Z.of_nat n - Z.of_nat (S (S m)) + 1) with (Z.of_nat n - Z.of_nat (S m)) by lia.
    replace (Z.succ (Z.of_nat n - Z.of_nat (S (S m)))) with (Z.of_nat n - Z.of_nat (S m)) by lia.
    replace (Z.pred (Z.of_nat (S (S m)))) with (Z.of_nat (S m)) by lia. apply IH; lia.
Qed.
(** Where descriptors and objects lie. *)
Lemma desc_word tables d off : desc_at tables d -> off ∈ [0; 4; 8; 12] ->
  exists j, j ∈ tables /\ d + off ∈ page_words (page_addr j).
Proof.
  intros (j & k & Hj & Hk & ->) Ho. exists j. split; [done|]. apply page_words_spec. exists (4 * k + off / 4).
  repeat (apply elem_of_cons in Ho as [->|Ho]; [change (0 / 4) with 0; change (4 / 4) with 1; change (8 / 4) with 2; change (12 / 4) with 3; lia|]).
  by apply not_elem_of_nil in Ho.
Qed.
Lemma desc_apart tables d d' off off' : desc_at tables d -> desc_at tables d' -> off ∈ [0; 4; 8; 12] -> off' ∈ [0; 4; 8; 12] ->
  d + off = d' + off' -> d = d' /\ off = off'.
Proof.
  intros (j & k & _ & Hk & ->) (j' & k' & _ & Hk' & ->) Ho Ho'. unfold page_addr.
  assert (0 <= off < 16 /\ 0 <= off' < 16).
  { split; [clear Ho'; rename Ho into H|clear Ho; rename Ho' into H];
      repeat (apply elem_of_cons in H as [->|H]; [lia|]); by apply not_elem_of_nil in H. }
  lia.
Qed.
Lemma size_cases size : size ∈ sizes -> exists e, 4 <= e <= 12 /\ size = 2 ^ e /\ 4096 / size = 2 ^ (12 - e).
Proof.
  unfold sizes. intros H. exists (Z.log2 size). repeat (apply elem_of_cons in H as [->|H]; [by vm_compute|]). by apply not_elem_of_nil in H.
Qed.
Lemma page_word_inj i j a : a ∈ page_words (page_addr i) -> a ∈ page_words (page_addr j) -> i = j.
Proof. rewrite !page_words_spec. unfold page_addr. intros (k & ? & ->) (k' & ? & ?). lia. Qed.
Lemma object_word size i o : size ∈ sizes -> o ∈ bucket_objects size i -> o ∈ page_words (page_addr i).
Proof.
  intros (e & He & -> & Hn)%size_cases (k & -> & Hk%elem_of_seqZ)%list_elem_of_fmap. rewrite Hn in Hk.
  apply page_words_spec. exists (2 ^ (e - 2) * k).
  assert (E1 : 2 ^ e = 4 * 2 ^ (e - 2)) by (change 4 with (2 ^ 2); rewrite <- Z.pow_add_r by lia; f_equal; lia).
  assert (E2 : 2 ^ (e - 2) * 2 ^ (12 - e) = 1024) by (rewrite <- Z.pow_add_r by lia; replace (e - 2 + (12 - e)) with 10 by lia; reflexivity).
  pose proof (Z.pow_pos_nonneg 2 (e - 2)). split; [nia|]. rewrite E1. lia.
Qed.
(** Objects of a bucket do not overlap, and lie in its page. *)
Lemma objects_apart size i o o' : size ∈ sizes -> o ∈ bucket_objects size i -> o' ∈ bucket_objects size i -> o <> o' ->
  o + size <= o' \/ o' + size <= o.
Proof.
  intros (e & He & -> & _)%size_cases (k & -> & _)%list_elem_of_fmap (k' & -> & _)%list_elem_of_fmap Hne.
  pose proof (Z.pow_pos_nonneg 2 e). destruct (Z.lt_total k k') as [|[->|]]; [left; nia|done|right; nia].
Qed.
Lemma object_in_page size i o : size ∈ sizes -> o ∈ bucket_objects size i -> page_addr i <= o /\ o + size <= page_addr i + 4096.
Proof.
  intros (e & He & -> & Hn)%size_cases (k & -> & Hk%elem_of_seqZ)%list_elem_of_fmap. rewrite Hn in Hk.
  assert (E2 : 2 ^ e * 2 ^ (12 - e) = 4096) by (rewrite <- Z.pow_add_r by lia; replace (e + (12 - e)) with 12 by lia; reflexivity).
  pose proof (Z.pow_pos_nonneg 2 e). nia.
Qed.
Lemma elem_concat {A} (L : list (list A)) l x : l ∈ L -> x ∈ l -> x ∈ concat L.
Proof. rewrite !list_elem_of_In. intros. apply in_concat. eauto. Qed.
(** A list of lists with the list at [i] named. *)
Lemma concat_at {A} (L : list (list A)) i c : L !! i = Some c -> concat L ≡ₚ c ++ concat (delete i L).
Proof.
  revert i. induction L as [|x L IH]; intros [|i]; cbn; try done; [by intros [= ->]|]. intros Hc. rewrite (IH i Hc).
  apply Permutation_app_swap_app.
Qed.
Lemma concat_insert {A} (L : list (list A)) i c c' : L !! i = Some c -> concat (<[i := c']> L) ≡ₚ c' ++ concat (delete i L).
Proof.
  revert i. induction L as [|x L IH]; intros [|i]; cbn; try done. intros Hc. rewrite (IH i Hc).
  apply Permutation_app_swap_app.
Qed.

(** One bucket among the others. *)
Section one_bucket.
Context {ext : nat -> Z} {A : alloc} {s : malloc_state} (I : malloc_inv ext A s).
Context {i : nat} {c1 c2 : list bucket} {b : bucket} (Hc : al_chains A !! i = Some (c1 ++ b :: c2)).
Lemma buckets_split : al_buckets A ≡ₚ b :: other_buckets A i c1 c2.
Proof using Hc. unfold al_buckets, other_buckets. rewrite (concat_at _ _ _ Hc), <- app_assoc. symmetry. apply Permutation_middle. Qed.
Lemma buckets_changed b' : al_buckets (with_chain i (c1 ++ b' :: c2) A) ≡ₚ b' :: other_buckets A i c1 c2.
Proof using Hc. unfold al_buckets, other_buckets. cbn. rewrite (concat_insert _ _ _ _ Hc), <- app_assoc. symmetry. apply Permutation_middle. Qed.
Lemma other_differs b0 : b0 ∈ other_buckets A i c1 c2 -> bk_desc b0 <> bk_desc b /\ bk_page b0 <> bk_page b.
Proof using I Hc.
  intros H0. pose proof (mi_descs _ _ _ I) as Hd. pose proof (mi_pages _ _ _ I) as Hp. unfold al_descs, al_pages in *.
  rewrite buckets_split in Hd, Hp. cbn in Hd, Hp. apply NoDup_cons in Hd as [Hd _]. apply NoDup_app in Hp as (_ & _ & Hp).
  apply NoDup_cons in Hp as [Hp _]. split; intros E.
  - apply Hd. rewrite <- E. apply elem_of_app. left. by apply list_elem_of_fmap_2.
  - apply Hp. rewrite <- E. by apply list_elem_of_fmap_2.
Qed.
Lemma bucket_other_chain j c0 b0 : al_chains A !! j = Some c0 -> j <> i -> b0 ∈ c0 -> b0 ∈ other_buckets A i c1 c2.
Proof using.
  intros Hj Hne Hb. unfold other_buckets. apply elem_of_app. right. apply elem_of_app. right. apply (elem_concat _ c0); [|done].
  apply list_elem_of_lookup. destruct (decide (j < i)%nat).
  - exists j. by rewrite list_lookup_delete_lt.
  - exists (j - 1)%nat. rewrite list_lookup_delete_ge by lia. by replace (S (j - 1)) with j by lia.
Qed.
Lemma bucket_elem b0 : b0 ∈ b :: other_buckets A i c1 c2 -> b0 ∈ al_buckets A.
Proof using Hc. by rewrite buckets_split. Qed.
Lemma bucket_desc b0 : b0 ∈ al_buckets A -> desc_at (al_tables A) (bk_desc b0).
Proof using I. intros Hb. apply (mi_desc_at _ _ _ I). apply elem_of_app. left. by apply list_elem_of_fmap_2. Qed.
Lemma spare_desc d : d ∈ al_spare A -> desc_at (al_tables A) d.
Proof using I. intros Hd. apply (mi_desc_at _ _ _ I). apply elem_of_app. by right. Qed.
(** Words of descriptors are in no bucket. *)
Lemma desc_not_bucket b0 d off : b0 ∈ al_buckets A -> desc_at (al_tables A) d -> off ∈ [0; 4; 8; 12] ->
  d + off ∉ page_words (page_addr (bk_page b0)).
Proof using I.
  intros Hb Hd Ho Hin. destruct (desc_word _ _ _ Hd Ho) as (j & Hj & Hjw).
  pose proof (mi_pages _ _ _ I) as Hp. apply NoDup_app in Hp as (_ & Hp & _). apply (Hp j Hj).
  rewrite <- (page_word_inj _ _ _ Hin Hjw). by apply list_elem_of_fmap_2.
Qed.
End one_bucket.

(** The descriptor's words are at offsets 0, 4, 8 and 12. *)
Lemma offsets : 0 ∈ [0; 4; 8; 12] /\ 4 ∈ [0; 4; 8; 12] /\ 8 ∈ [0; 4; 8; 12] /\ 12 ∈ [0; 4; 8; 12].
Proof. split_and!; by apply (bool_decide_unpack _). Qed.
Lemma chain_size ext A s i size d : malloc_inv ext A s -> bucket_dir s !! i = Some (size, d) -> (i < 9)%nat -> sizes !! i = Some size.
Proof.
  intros I Hi Hlt. assert (E : (bucket_dir s).*1 !! i = Some size) by (by rewrite list_lookup_fmap, Hi).
  rewrite (mi_sizes _ _ _ I) in E. by rewrite lookup_app_l in E.
Qed.
Lemma size_in size i : sizes !! i = Some size -> size ∈ sizes.
Proof. apply list_elem_of_lookup_2. Qed.
Lemma chain_index ext A s i c : malloc_inv ext A s -> al_chains A !! i = Some c -> (i < 9)%nat.
Proof. intros I Hc. rewrite <- (mi_len _ _ _ I). by eapply lookup_lt_Some. Qed.
(** The objects of a bucket lie in its page. *)
Lemma bucket_object ext A s i size d c b o : malloc_inv ext A s -> bucket_dir s !! i = Some (size, d) -> al_chains A !! i = Some c ->
  b ∈ c -> o ∈ bk_free b -> o ∈ page_words (page_addr (bk_page b)).
Proof.
  intros I Hi Hc Hb Ho. destruct (mi_chain _ _ _ I _ _ _ _ Hi Hc) as [_ Hok].
  eapply object_word; [eapply size_in, chain_size; [exact I|exact Hi|by eapply chain_index]|]. by apply (bo_in _ _ _ (Hok b Hb)).
Qed.
(** A bucket none of whose words changes. *)
Lemma bucket_keeps ext A s i size d c b w' : malloc_inv ext A s -> bucket_dir s !! i = Some (size, d) -> al_chains A !! i = Some c -> b ∈ c ->
  (forall off, off ∈ [0; 8; 12] -> rd w' (bk_desc b + off) = rd (memory s) (bk_desc b + off)) ->
  (forall a, a ∈ page_words (page_addr (bk_page b)) -> rd w' a = rd (memory s) a) -> bucket_ok w' size b.
Proof.
  intros I Hi Hc Hb Hd Hp. destruct (mi_chain _ _ _ I _ _ _ _ Hi Hc) as [_ Hok].
  assert (Ho : 0 ∈ [0; 8; 12] /\ 8 ∈ [0; 8; 12] /\ 12 ∈ [0; 8; 12]) by (split_and!; by apply (bool_decide_unpack _)).
  destruct Ho as (O0 & O8 & O12). pose proof (Hd 0 O0) as E0. rewrite Z.add_0_r in E0.
  eapply bucket_ok_frame; [exact E0|exact (Hd 12 O12)|exact (Hd 8 O8)| |by apply Hok].
  intros o Hof. apply Hp. by eapply bucket_object.
Qed.
Lemma offset_in off : off ∈ [0; 8; 12] -> off ∈ [0; 4; 8; 12].
Proof. set_solver. Qed.
(** A bucket whose free objects change. *)
Lemma inv_bucket ext A s i size d c1 b c2 b' w' : malloc_inv ext A s ->
  bucket_dir s !! i = Some (size, d) -> al_chains A !! i = Some (c1 ++ b :: c2) ->
  bk_desc b' = bk_desc b -> bk_page b' = bk_page b -> bucket_ok w' size b' ->
  (forall a, a <> bd_freeptr (bk_desc b) -> a <> bd_counts (bk_desc b) -> a ∉ page_words (page_addr (bk_page b)) -> rd w' a = rd (memory s) a) ->
  malloc_inv ext (with_chain i (c1 ++ b' :: c2) A) (with_memory w' s).
Proof.
  intros I Hi Hc Ed Ep Hok Hw. destruct offsets as (O0 & O4 & O8 & O12).
  assert (Hb : b ∈ al_buckets A) by (apply (bucket_elem Hc), list_elem_of_here).
  pose proof (bucket_desc I b Hb) as Hbd.
  (* words the change does not reach *)
  assert (Hdw : forall x off, desc_at (al_tables A) x -> off ∈ [0; 4; 8; 12] -> x <> bk_desc b \/ off = 0 \/ off = 4 ->
    rd w' (x + off) = rd (memory s) (x + off)).
  { intros x off Hx Ho Hne. apply Hw; [intros E|intros E|by eapply desc_not_bucket].
    - destruct (desc_apart _ _ _ off 8 Hx Hbd Ho O8 E). lia.
    - destruct (desc_apart _ _ _ off 12 Hx Hbd Ho O12 E). lia. }
  assert (Hdn : forall x, desc_at (al_tables A) x -> rd w' (bd_next x) = rd (memory s) (bd_next x)) by (intros; apply Hdw; auto).
  assert (Hlt : (i < length (al_chains A))%nat) by (by eapply lookup_lt_Some).
  assert (Hother : forall j size' d' c0 b0, bucket_dir s !! j = Some (size', d') -> al_chains A !! j = Some c0 -> b0 ∈ c0 ->
    b0 ∈ other_buckets A i c1 c2 -> bucket_ok w' size' b0).
  { intros j size' d' c0 b0 Hj Hcj Hb0 Hot. destruct (other_differs I Hc b0 Hot) as [Hnd Hnp].
    assert (Hba : b0 ∈ al_buckets A) by (apply (bucket_elem Hc); by apply list_elem_of_further).
    eapply bucket_keeps; [exact I|exact Hj|exact Hcj|exact Hb0| |].
    - intros off Ho. apply Hdw; [by apply (bucket_desc I)|by apply offset_in|by left].
    - intros a Ha. apply Hw.
      + intros ->. exact (desc_not_bucket I b0 _ _ Hba Hbd O8 Ha).
      + intros ->. exact (desc_not_bucket I b0 _ _ Hba Hbd O12 Ha).
      + intros Ha'. apply Hnp. by eapply page_word_inj. }
  assert (Efm : forall {T} (f : bucket -> T), f b' = f b -> f <$> al_buckets (with_chain i (c1 ++ b' :: c2) A) ≡ₚ f <$> al_buckets A).
  { intros T f Ef. rewrite (buckets_changed Hc b'), (buckets_split Hc). cbn. by rewrite Ef. }
  split.
  - apply inv_held_words; [apply I|]. intros a Ha. apply Hw.
    + intros ->. destruct (desc_word _ _ _ Hbd O8) as (j & Hj & Hin). apply (Ha j); [|exact Hin]. apply (mi_held _ _ _ I). apply elem_of_app. by left.
    + intros ->. destruct (desc_word _ _ _ Hbd O12) as (j & Hj & Hin). apply (Ha j); [|exact Hin]. apply (mi_held _ _ _ I). apply elem_of_app. by left.
    + apply Ha, (mi_held _ _ _ I), elem_of_app. right. by apply list_elem_of_fmap_2.
  - apply I.
  - cbn. rewrite length_insert. apply I.
  - cbn [with_chain al_chains with_memory bucket_dir memory]. intros j size' d' c0 Hj Hcj.
    destruct (decide (j = i)) as [->|Hne].
    + rewrite list_lookup_insert_eq in Hcj by done. injection Hcj as <-. rewrite Hi in Hj. injection Hj as <- <-.
      destruct (mi_chain _ _ _ I _ _ _ _ Hi Hc) as [Hlk _]. split.
      * replace (bk_desc <$> (c1 ++ b' :: c2)) with (bk_desc <$> (c1 ++ b :: c2)) by (rewrite !fmap_app; cbn; by rewrite Ed).
        eapply chained_frame; [|exact Hlk]. intros x (b0 & -> & Hb0)%list_elem_of_fmap. apply Hdn, (bucket_desc I). 
        apply (elem_concat _ (c1 ++ b :: c2)); [by eapply list_elem_of_lookup_2|done].
      * intros b0 Hb0. apply elem_of_app in Hb0 as [Hb0|[->|Hb0]%elem_of_cons]; [|done|];
          (eapply Hother; [exact Hi|exact Hc| |]; [set_solver|unfold other_buckets; set_solver]).
    + rewrite list_lookup_insert_ne in Hcj by done. destruct (mi_chain _ _ _ I _ _ _ _ Hj Hcj) as [Hlk _]. split.
      * eapply chained_frame; [|exact Hlk]. intros x (b0 & -> & Hb0)%list_elem_of_fmap. apply Hdn, (bucket_desc I).
        apply (elem_concat _ c0); [by eapply list_elem_of_lookup_2|done].
      * intros b0 Hb0. eapply Hother; [exact Hj|exact Hcj|exact Hb0|]. by eapply bucket_other_chain.
  - eapply chained_frame; [|apply I]. intros x Hx. by apply Hdn, (spare_desc I).
  - unfold al_descs. rewrite (Efm _ bk_desc Ed). apply I.
  - unfold al_descs. intros x. rewrite (Efm _ bk_desc Ed). apply (mi_desc_at _ _ _ I).
  - unfold al_pages. rewrite (Efm _ bk_page Ep). apply I.
  - unfold al_pages. intros x. rewrite (Efm _ bk_page Ep). apply (mi_held _ _ _ I).
Qed.

(** ** Changes of the structure *)

Lemma reached_page ext A s a : malloc_inv ext A s -> reached A a -> exists i, i ∈ al_pages A /\ a ∈ page_words (page_addr i).
Proof.
  intros I [(d & off & Hd & Ho & ->)|(b & Hb & Ha)].
  - destruct (desc_word _ _ _ (mi_desc_at _ _ _ I d Hd) Ho) as (j & Hj & Hin). exists j. split; [|done]. apply elem_of_app. by left.
  - exists (bk_page b). split; [|done]. apply elem_of_app. right. by apply list_elem_of_fmap_2.
Qed.
Lemma chain_bucket A i c b : al_chains A !! i = Some c -> b ∈ c -> b ∈ al_buckets A.
Proof. intros Hc Hb. eapply elem_concat; [by eapply list_elem_of_lookup_2|exact Hb]. Qed.
Lemma bucket_reached A b off : b ∈ al_buckets A -> off ∈ [0; 4; 8; 12] -> reached A (bk_desc b + off).
Proof. intros Hb Ho. left. exists (bk_desc b), off. split_and!; [|done|done]. apply elem_of_app. left. by apply list_elem_of_fmap_2. Qed.
Lemma inv_agree ext ext' A s s' : malloc_inv ext A s -> mm_inv ext' (ma_mm s') -> bucket_dir s' = bucket_dir s ->
  free_bucket_desc s' = free_bucket_desc s -> (forall i, i ∈ al_pages A -> held ext' (ma_mm s') i) ->
  (forall a, reached A a -> rd (memory s') a = rd (memory s) a) -> malloc_inv ext' A s'.
Proof.
  intros I Im Ed Ef Hh Hw. destruct offsets as (_ & O4 & _ & _).
  split; rewrite ?Ed, ?Ef; try (apply I); try done.
  - intros i size d c Hi Hc. destruct (mi_chain _ _ _ I _ _ _ _ Hi Hc) as [Hl Hok]. split.
    + eapply chained_frame; [|exact Hl]. intros x (b & -> & Hb)%list_elem_of_fmap. apply Hw, bucket_reached; [by eapply chain_bucket|done].
    + intros b Hb. assert (Hba : b ∈ al_buckets A) by (by eapply chain_bucket). eapply bucket_keeps; [exact I|exact Hi|exact Hc|exact Hb| |].
      * intros off Ho. apply Hw, bucket_reached; [done|by apply offset_in].
      * intros a Ha. apply Hw. right. eauto.
  - eapply chained_frame; [|apply I]. intros x Hx. apply Hw. left. exists x, 4. split_and!; [|done|done]. apply elem_of_app. by right.
Qed.
(** Words outside, in pages the kernel holds, are stored to freely. *)
Lemma inv_outside ext A s w' : malloc_inv ext A s -> (forall a, reached A a -> rd w' a = rd (memory s) a) ->
  (forall a, (forall i, held ext (ma_mm s) i -> a ∉ page_words (page_addr i)) -> rd w' a = rd (memory s) a) ->
  malloc_inv ext A (with_memory w' s).
Proof.
  intros I Hw Hm. eapply inv_agree; [exact I| |done|done|apply I|exact Hw].
  apply inv_held_words; [apply I|exact Hm].
Qed.
Lemma inv_push ext A s l d : malloc_inv ext A s -> NoDup l -> (forall x, x ∈ l -> desc_at (al_tables A) x /\ x ∉ al_descs A) ->
  linked (memory s) d (l ++ al_spare A) -> malloc_inv ext (with_spare (l ++ al_spare A) A) (set_spare d s).
Proof.
  intros I Hnd Hl Hlk. 
  assert (Ep : al_descs (with_spare (l ++ al_spare A) A) ≡ₚ l ++ al_descs A).
  { unfold al_descs. cbn. apply Permutation_app_swap_app. }
  split; try apply I; try done.
  - rewrite Ep. apply NoDup_app. split_and!; [done| |apply I]. intros x Hx. by apply Hl.
  - intros x. rewrite Ep. intros [Hx|Hx]%elem_of_app; [by apply Hl|by apply (mi_desc_at _ _ _ I)].
Qed.
Lemma inv_pop ext A s x l : malloc_inv ext A s -> al_spare A = x :: l ->
  free_bucket_desc s = x /\ desc_at (al_tables A) x /\ (x ∉ al_descs (with_spare l A)) /\
  malloc_inv ext (with_spare l A) (set_spare (rd (memory s) (bd_next x)) s).
Proof.
  intros I El. pose proof (mi_spare _ _ _ I) as Hlk. pose proof (mi_descs _ _ _ I) as Hnd. rewrite El in Hlk. destruct Hlk as [E Hlk].
  assert (Ep : al_descs A ≡ₚ x :: al_descs (with_spare l A)).
  { unfold al_descs. rewrite El. cbn. symmetry. apply Permutation_middle. }
  rewrite Ep in Hnd. apply NoDup_cons in Hnd as [Hx Hnd]. split_and!; [done| |done|].
  - apply (mi_desc_at _ _ _ I). rewrite Ep. apply list_elem_of_here.
  - split; try apply I; try done. intros y Hy. apply (mi_desc_at _ _ _ I). rewrite Ep. by apply list_elem_of_further.
Qed.
Lemma inv_table ext A s j : malloc_inv ext A s -> j ∉ al_pages A -> held ext (ma_mm s) j ->
  malloc_inv ext (Alloc (al_chains A) (al_spare A) (j :: al_tables A)) s.
Proof.
  intros I Hj Hh. split; try apply I.
  - intros d Hd. destruct (mi_desc_at _ _ _ I d Hd) as (k & n & Hk & Hn). exists k, n. split; [by apply list_elem_of_further|exact Hn].
  - apply NoDup_cons. split; [exact Hj|apply I].
  - intros i [->|Hi]%elem_of_cons; [done|by apply (mi_held _ _ _ I)].
Qed.

(** A bucket at the head of a chain. *)
Lemma dir_lookup i x s j size d : bucket_dir (set_dir i x s) !! j = Some (size, d) ->
  exists d', bucket_dir s !! j = Some (size, d') /\ d = if decide (j = i) then x else d'.
Proof.
  cbn. destruct (decide (j = i)) as [->|Hne].
  - rewrite list_lookup_alter_eq. destruct (bucket_dir s !! i) as [[z d']|] eqn:E; [|done]. intros [= <- <-]. eauto.
  - rewrite list_lookup_alter_ne by done. eauto.
Qed.
Lemma dir_sizes i x s : (bucket_dir (set_dir i x s)).*1 = (bucket_dir s).*1.
Proof.
  apply list_eq. intros j. rewrite !list_lookup_fmap. cbn. destruct (decide (j = i)) as [->|Hne].
  - rewrite list_lookup_alter_eq. by destruct (bucket_dir s !! i).
  - by rewrite list_lookup_alter_ne.
Qed.
Lemma inv_link ext A s i size d c b : malloc_inv ext A s -> bucket_dir s !! i = Some (size, d) -> al_chains A !! i = Some c ->
  desc_at (al_tables A) (bk_desc b) -> bk_desc b ∉ al_descs A -> bk_page b ∉ al_pages A -> held ext (ma_mm s) (bk_page b) ->
  bucket_ok (memory s) size b -> rd (memory s) (bd_next (bk_desc b)) = d ->
  malloc_inv ext (with_chain i (b :: c) A) (set_dir i (bk_desc b) s).
Proof.
  intros I Hi Hc Hx Hnd Hnp Hh Hok Hnext. assert (Hlt : (i < length (al_chains A))%nat) by (by eapply lookup_lt_Some).
  assert (Ep : al_buckets (with_chain i (b :: c) A) ≡ₚ b :: al_buckets A).
  { unfold al_buckets. cbn. by rewrite (concat_insert _ _ _ _ Hc), (concat_at _ _ _ Hc). }
  assert (Ed : al_descs (with_chain i (b :: c) A) ≡ₚ bk_desc b :: al_descs A) by (unfold al_descs; by rewrite Ep).
  assert (Eg : al_pages (with_chain i (b :: c) A) ≡ₚ bk_page b :: al_pages A).
  { unfold al_pages. rewrite Ep. cbn. symmetry. apply Permutation_middle. }
  split; try apply I.
  - rewrite dir_sizes. apply I.
  - cbn. rewrite length_insert. apply I.
  - intros j size' d' c' (d0 & Hj & ->)%dir_lookup Hcj. cbn in Hcj. change (memory (set_dir _ _ _)) with (memory s).
    destruct (decide (j = i)) as [->|Hne].
    + rewrite list_lookup_insert_eq in Hcj by done. injection Hcj as <-. rewrite Hi in Hj. injection Hj as <- <-.
      destruct (mi_chain _ _ _ I _ _ _ _ Hi Hc) as [Hl Hb]. split.
      * cbn. split; [done|]. by rewrite Hnext.
      * intros b0 [->|Hb0]%elem_of_cons; [done|by apply Hb].
    + rewrite list_lookup_insert_ne in Hcj by done. by apply (mi_chain _ _ _ I _ _ _ _ Hj Hcj).
  - rewrite Ed. apply NoDup_cons. split; [done|apply I].
  - intros x. rewrite Ed. intros [->|Hxd]%elem_of_cons; [done|by apply (mi_desc_at _ _ _ I)].
  - rewrite Eg. apply NoDup_cons. split; [done|apply I].
  - intros k. rewrite Eg. intros [->|Hk]%elem_of_cons; [done|by apply (mi_held _ _ _ I)].
Qed.
(** A bucket taken out of its chain, once the link before it leads past it. *)
Lemma inv_unlink ext A s i size d c1 b c2 s' : malloc_inv ext A s -> bucket_dir s !! i = Some (size, d) -> al_chains A !! i = Some (c1 ++ b :: c2) ->
  let A' := with_chain i (c1 ++ c2) A in
  ma_mm s' = Mm (mem_map (ma_mm s)) (HIGH_MEMORY (ma_mm s)) (memory s') -> mm_inv ext (ma_mm s') -> free_bucket_desc s' = free_bucket_desc s ->
  (bucket_dir s').*1 = (bucket_dir s).*1 -> (forall j, j <> i -> bucket_dir s' !! j = bucket_dir s !! j) ->
  (forall d', bucket_dir s' !! i = Some (size, d') -> linked (memory s') d' (bk_desc <$> (c1 ++ c2))) ->
  (forall x off, desc_at (al_tables A) x -> off ∈ [0; 4; 8; 12] -> (x ∉ (bk_desc <$> c1)) \/ off <> 4 -> rd (memory s') (x + off) = rd (memory s) (x + off)) ->
  (forall b0 a, b0 ∈ al_buckets A' -> a ∈ page_words (page_addr (bk_page b0)) -> rd (memory s') a = rd (memory s) a) ->
  malloc_inv ext A' s' /\ (bk_desc b ∉ al_descs A') /\ (bk_page b ∉ al_pages A') /\ desc_at (al_tables A') (bk_desc b).
Proof.
  intros I Hi Hc A' Em Imm Ef Es Ej Hlk Hw Hp.
  assert (Hlt : (i < length (al_chains A))%nat) by (by eapply lookup_lt_Some). destruct offsets as (_ & O4 & _ & _).
  assert (Ep : al_buckets A ≡ₚ b :: al_buckets A').
  { unfold al_buckets. cbn. rewrite (concat_insert _ _ _ _ Hc), (concat_at _ _ _ Hc), <- !app_assoc. symmetry. apply Permutation_middle. }
  assert (Ed : al_descs A ≡ₚ bk_desc b :: al_descs A') by (unfold al_descs; by rewrite Ep).
  assert (Eg : al_pages A ≡ₚ bk_page b :: al_pages A').
  { unfold al_pages. rewrite Ep. cbn. symmetry. apply Permutation_middle. }
  pose proof (mi_descs _ _ _ I) as Hnd. pose proof (mi_pages _ _ _ I) as Hnp. rewrite Ed in Hnd. rewrite Eg in Hnp.
  apply NoDup_cons in Hnd as [Hbd Hnd]. apply NoDup_cons in Hnp as [Hbp Hnp].
  assert (Hdb : desc_at (al_tables A) (bk_desc b)) by (apply (mi_desc_at _ _ _ I); rewrite Ed; apply list_elem_of_here).
  split_and!; [|done|done|done].
  assert (Hoks : forall j size' d' c0 b0, bucket_dir s !! j = Some (size', d') -> al_chains A !! j = Some c0 -> b0 ∈ c0 -> b0 ∈ al_buckets A' ->
    bucket_ok (memory s') size' b0).
  { intros j size' d' c0 b0 Hj Hcj Hb0 Hb'. eapply bucket_keeps; [exact I|exact Hj|exact Hcj|exact Hb0| |by intros; apply (Hp b0)].
    intros off Ho. apply Hw; [apply (bucket_desc I); by eapply chain_bucket|by apply offset_in|right; intros ->; set_solver]. }
  assert (Hci : al_chains A' !! i = Some (c1 ++ c2)) by (by apply list_lookup_insert_eq).
  split; try apply I; try done.
  - by rewrite Es, (mi_sizes _ _ _ I).
  - cbn. rewrite length_insert. apply I.
  - intros j size' d' c0 Hj Hcj. destruct (decide (j = i)) as [->|Hne].
    + rewrite Hci in Hcj. injection Hcj as <-.
      assert (E : (bucket_dir s').*1 !! i = (bucket_dir s).*1 !! i) by (by rewrite Es). rewrite !list_lookup_fmap, Hj, Hi in E. injection E as ->.
      split; [by apply Hlk|]. intros b0 Hb0. eapply Hoks; [exact Hi|exact Hc|set_solver|by eapply chain_bucket].
    + rewrite Ej in Hj by done. pose proof Hcj as Hcj'. cbn in Hcj. rewrite list_lookup_insert_ne in Hcj by done.
      destruct (mi_chain _ _ _ I _ _ _ _ Hj Hcj) as [Hl _]. split.
      * eapply chained_frame; [|exact Hl]. intros x (b0 & -> & Hb0)%list_elem_of_fmap. 
        apply Hw; [apply (bucket_desc I); by eapply chain_bucket|done|left]. intros (b1 & E & Hb1)%list_elem_of_fmap.
        apply list_elem_of_split in Hb1 as (c3 & c4 & ->). rewrite <- app_assoc in Hc. cbn in Hc.
        destruct (other_differs I Hc b0 (bucket_other_chain j c0 b0 Hcj Hne Hb0)) as [Hd _]. done.
      * intros b0 Hb0. eapply Hoks; [exact Hj|exact Hcj|exact Hb0|by eapply chain_bucket].
  - rewrite Ef. eapply chained_frame; [|apply I]. intros x Hx. apply Hw; [by apply (spare_desc I)|done|left]. intros (b1 & -> & Hb1)%list_elem_of_fmap.
    pose proof (mi_descs _ _ _ I) as Hn. apply NoDup_app in Hn as (_ & Hn & _). apply (Hn (bk_desc b1)); [|exact Hx].
    apply list_elem_of_fmap_2. eapply chain_bucket; [exact Hc|set_solver].
  - intros x Hx. apply (mi_desc_at _ _ _ I). rewrite Ed. by apply list_elem_of_further.
  - intros k Hk. rewrite Em. apply (mi_held _ _ _ I). rewrite Eg. by apply list_elem_of_further.
Qed.
(** The link past a descriptor. *)
Lemma linked_skip w d l1 p x l2 : linked w d (l1 ++ p :: x :: l2) -> NoDup (l1 ++ p :: x :: l2) ->
  linked (<[bd_next p := rd w (bd_next x)]> w) d (l1 ++ p :: l2).
Proof.
  intros Hl Hnd. assert (Hinj : forall y, y <> p -> rd (<[bd_next p := rd w (bd_next x)]> w) (bd_next y) = rd w (bd_next y)).
  { intros y Hy. apply rd_insert_ne. unfold bd_next. lia. }
  revert d Hl. induction l1 as [|y l1 IH]; intros d; cbn.
  - intros (-> & _ & Hl). split; [done|]. rewrite rd_insert_eq. cbn in Hnd. apply NoDup_cons in Hnd as [Hp Hnd].
    eapply chained_frame; [|exact Hl]. intros y Hy. apply Hinj. intros ->. apply Hp. by apply list_elem_of_further.
  - intros [-> Hl]. cbn in Hnd. apply NoDup_cons in Hnd as [Hy Hnd]. split; [done|]. rewrite Hinj by set_solver. by apply IH.
Qed.


(** ** Objects in use *)

Lemma sizes_inj i j size : sizes !! i = Some size -> sizes !! j = Some size -> i = j.
Proof. intros Hi Hj. eapply (NoDup_lookup sizes); [by apply (bool_decide_unpack _)|exact Hi|exact Hj]. Qed.
Lemma in_use_at A i c size o : sizes !! i = Some size -> al_chains A !! i = Some c -> in_use A o size <-> in_chain c size o.
Proof.
  intros Hs Hc. split; [|by exists i, c]. intros (j & c' & Hj & Hc' & Hin). rewrite (sizes_inj _ _ _ Hj Hs), Hc in Hc'. by injection Hc' as ->.
Qed.
Lemma in_use_other A A' i c' size o z : sizes !! i = Some size -> al_chains A' = <[i := c']> (al_chains A) -> z <> size ->
  in_use A' o z <-> in_use A o z.
Proof.
  intros Hs Hc Hz. assert (Hj : forall j, sizes !! j = Some z -> al_chains A' !! j = al_chains A !! j).
  { intros j Hj. rewrite Hc. apply list_lookup_insert_ne. congruence. }
  split; intros (j & c & E & Ec & Hin); exists j, c; (split_and!; [done| |done]); [by rewrite <- Hj|by rewrite Hj].
Qed.
(** An object belongs to one bucket. *)
Lemma bucket_unique ext A s b b' : malloc_inv ext A s -> b ∈ al_buckets A -> b' ∈ al_buckets A -> bk_page b = bk_page b' -> b = b'.
Proof.
  intros I Hb Hb' E. pose proof (mi_pages _ _ _ I) as Hn. apply NoDup_app in Hn as (_ & _ & Hn).
  apply list_elem_of_lookup in Hb as [i Hi]. apply list_elem_of_lookup in Hb' as [j Hj].
  assert (i = j); [|congruence]. apply (NoDup_lookup _ _ _ (bk_page b) Hn); rewrite list_lookup_fmap, ?Hi, ?Hj; [done|by rewrite E].
Qed.
Lemma in_chain_bucket A i c size o : al_chains A !! i = Some c -> in_chain c size o ->
  exists b, b ∈ al_buckets A /\ o ∈ bucket_objects size (bk_page b) /\ (o ∉ bk_free b) /\ b ∈ c.
Proof. intros Hc (b & Hb & Ho & Hf). exists b. split_and!; [by eapply chain_bucket|done..]. Qed.
Lemma chain_unique ext A s i j c c' b : malloc_inv ext A s -> al_chains A !! i = Some c -> al_chains A !! j = Some c' -> b ∈ c -> b ∈ c' -> i = j.
Proof.
  intros I Hi Hj Hb Hb'. destruct (decide (i = j)) as [|Hne]; [done|]. apply list_elem_of_split in Hb as (c1 & c2 & ->).
  destruct (other_differs I Hi b (bucket_other_chain j c' b Hj (not_eq_sym Hne) Hb')) as [Hd _]. done.
Qed.
Lemma free_not_used ext A s i size c b o z : malloc_inv ext A s -> sizes !! i = Some size -> al_chains A !! i = Some c -> b ∈ c ->
  o ∈ bucket_objects size (bk_page b) -> o ∈ bk_free b -> ~ in_use A o z.
Proof.
  intros I Hs Hc Hb Ho Hf (j & c' & Hj & Hc' & Hin). destruct (in_chain_bucket _ _ _ _ _ Hc' Hin) as (b' & Hb' & Ho' & Hf' & _).
  assert (E : b = b'); [|by subst].
  apply (bucket_unique _ _ _ _ _ I); [exact (chain_bucket _ _ _ _ Hc Hb)|done|].
  apply (page_word_inj _ _ o); [apply (object_word size)|apply (object_word z)]; eauto using size_in.
Qed.
(** Objects in use do not overlap. *)
Lemma in_use_apart ext A s o z o' z' : malloc_inv ext A s -> in_use A o z -> in_use A o' z' -> o <> o' -> o + z <= o' \/ o' + z' <= o.
Proof.
  intros I (i & c & Hs & Hc & Hin) (j & c' & Hs' & Hc' & Hin') Hne.
  destruct (in_chain_bucket _ _ _ _ _ Hc Hin) as (b & Hb & Ho & _ & Hbc). destruct (in_chain_bucket _ _ _ _ _ Hc' Hin') as (b' & Hb' & Ho' & _ & Hbc').
  destruct (decide (bk_page b = bk_page b')) as [E|E].
  - pose proof (bucket_unique _ _ _ _ _ I Hb Hb' E) as ->. pose proof (chain_unique _ _ _ _ _ _ _ _ I Hc Hc' Hbc Hbc') as ->.
    rewrite Hs in Hs'. injection Hs' as ->. eapply objects_apart; [by eapply size_in|exact Ho|exact Ho'|done].
  - destruct (object_in_page z _ o (size_in _ _ Hs) Ho), (object_in_page z' _ o' (size_in _ _ Hs') Ho'). unfold page_addr in *. lia.
Qed.
(** The words of an object lie in the page of its bucket. *)
Lemma object_words size i o k : size ∈ sizes -> o ∈ bucket_objects size i -> 0 <= k -> 4 * k < size -> o + 4 * k ∈ page_words (page_addr i).
Proof.
  intros Hs Ho Hk Hk'. pose proof (object_word _ _ _ Hs Ho) as Hw. destruct (object_in_page _ _ _ Hs Ho).
  apply page_words_spec in Hw as (n & Hn & ->). apply page_words_spec. exists (n + k). lia.
Qed.
