(* ===== verification/Alloc.v ===== *)
(** * The kernel's allocator hands out and takes back objects

    The operations of lib/malloc.c on the structure of AllocInv.v: what
    [malloc] returns is an object of the smallest size that fits, in no object
    in use, and [free_s] takes back exactly the object it is given, releasing
    the page when it was the last one; the contents of the other objects, and
    the invariant, are kept. *)

From Stdlib Require Import Sorted.
From S2P Require Import Prelude Kernel Memory MemRefs MemSteps Malloc AllocInv.

(** Only the words of one descriptor have changed. *)
Definition only_desc (x : Z) (s s' : malloc_state) : Prop :=
  forall a, a <> bd_freeptr x -> a <> bd_counts x -> rd (memory s') a = rd (memory s) a.
(** The bucket [find_desc] finds. *)
Fixpoint bucket_with_free (l : list bucket) : option bucket :=
  match l with [] => None | b :: l' => match bk_free b with [] => bucket_with_free l' | _ => Some b end end.
(** The pages the allocator may write to: those of its descriptors, and those
    nobody holds yet. *)
Definition touches (ext : nat -> Z) (A : alloc) (k : nat) : Prop := k ∈ al_tables A \/ ext k <= 0.
(** The allocator has taken pages, and written to those it may. *)
Record grown (ext : nat -> Z) (A : alloc) (s : malloc_state) (ext' : nat -> Z) (A' : alloc) (s' : malloc_state) : Prop := {
  gr_ext : forall k, ext k <= ext' k;
  gr_tables : forall k, k ∈ al_tables A' -> touches ext A k;
  gr_rest : forall a, (forall k, touches ext A k -> a ∉ page_words (page_addr k)) -> rd (memory s') a = rd (memory s) a }.
(** A page for the allocator. *)
Record got_page (ext : nat -> Z) (A : alloc) (s : malloc_state) (i : nat) (s' : malloc_state) : Prop := {
  gp_inv : malloc_inv (bump ext i 1) A s';
  gp_held : held (bump ext i 1) (ma_mm s') i;
  gp_new : i ∉ al_pages A;
  gp_ext : ext i = 0;
  gp_map : mem_map (ma_mm s') = <[i := 1]> (mem_map (ma_mm s));
  gp_dir : bucket_dir s' = bucket_dir s;
  gp_spare : free_bucket_desc s' = free_bucket_desc s;
  gp_rest : forall a, a ∉ page_words (page_addr i) -> rd (memory s') a = rd (memory s) a;
  gp_zero : page_is (memory s') (page_addr i) (fun _ => 0) }.
(** The descriptors of a page. *)
Definition table_descs (j : nat) : list Z := (fun k => page_addr j + 16 * k) <$> seqZ 0 256.
Definition with_new_table (j : nat) (A : alloc) : alloc := Alloc (al_chains A) (table_descs j ++ al_spare A) (j :: al_tables A).
(** A new descriptor with its page. *)
Record fresh_bucket (ext : nat -> Z) (A : alloc) (s : malloc_state) (size x : Z) (j : nat) : Prop := {
  fb_at : desc_at (al_tables A) x;
  fb_new : x ∉ al_descs A;
  fb_page_new : j ∉ al_pages A;
  fb_held : held ext (ma_mm s) j;
  fb_page : rd (memory s) (bd_page x) = page_addr j;
  fb_freeptr : rd (memory s) (bd_freeptr x) = page_addr j;
  fb_counts : rd (memory s) (bd_counts x) = 2 ^ 16 * size }.
(** The smallest size that fits. *)
Definition best_size (len size : Z) : Prop := size ∈ sizes /\ len <= size /\ forall z, z ∈ sizes -> len <= z -> size <= z.
(** The words of the objects in use are as they were. *)
Definition undisturbed (A : alloc) (s s' : malloc_state) : Prop :=
  forall o size k, in_use A o size -> 0 <= k -> 4 * k < size -> rd (memory s') (o + 4 * k) = rd (memory s) (o + 4 * k).
(** [o], of [size] bytes, is a new object: in no object in use. *)
Record allocated (A : alloc) (o size : Z) (A' : alloc) : Prop := {
  ac_new : forall z, ~ in_use A o z;
  ac_apart : forall o' z, in_use A o' z -> o' + z <= o \/ o + size <= o';
  ac_use : forall o' z, in_use A' o' z <-> in_use A o' z \/ (o' = o /\ z = size) }.

(** The uses of the pages other than [l] are as they were. *)
Definition same_map (l : list nat) (s s' : malloc_state) : Prop := forall k, k ∉ l -> mem_map (ma_mm s') !! k = mem_map (ma_mm s) !! k.
(** No page is free; no two pages are free. *)
Definition no_free_page (s : malloc_state) : Prop := forall i, mem_map (ma_mm s) !! i <> Some 0.
Definition few_free_pages (s : malloc_state) : Prop :=
  forall i j, mem_map (ma_mm s) !! i = Some 0 -> mem_map (ma_mm s) !! j = Some 0 -> i = j.
(** What [malloc] has done. *)
Definition malloc_done (ext : nat -> Z) (A : alloc) (s : malloc_state) (len o : Z) (s' : malloc_state) : Prop :=
  exists ext' A' size, malloc_inv ext' A' s' /\ (forall k, ext k <= ext' k) /\ best_size len size /\ allocated A o size A' /\ undisturbed A s s' /\
    exists l, (length l <= 2)%nat /\ same_map l s s'.
(** The descriptor before the bucket after [c1] in its chain. *)
Definition before (c1 : list bucket) : Z := default 0 (last (bk_desc <$> c1)).
(** What [find_page] finds. *)
Fixpoint with_page (j : nat) (prev : Z) (c : list bucket) : option (Z * Z) :=
  match c with
  | [] => None
  | b :: c' => if decide (bk_page b = j) then Some (prev, bk_desc b) else with_page j (bk_desc b) c'
  end.
(** What unlinking leaves. *)
Record unlinked (ext : nat -> Z) (A : alloc) (s : malloc_state) (b : bucket) (A' : alloc) (s' : malloc_state) : Prop := {
  ul_inv : malloc_inv ext A' s';
  ul_desc : bk_desc b ∉ al_descs A';
  ul_page : bk_page b ∉ al_pages A';
  ul_at : desc_at (al_tables A') (bk_desc b);
  ul_high : HIGH_MEMORY (ma_mm s') = HIGH_MEMORY (ma_mm s);
  ul_map : mem_map (ma_mm s') = mem_map (ma_mm s);
  ul_rest : forall a, (forall x, desc_at (al_tables A) x -> a <> bd_next x) -> rd (memory s') a = rd (memory s) a }.
(** Only descriptors have changed. *)
Definition only_descs (A : alloc) (s s' : malloc_state) : Prop :=
  forall a, (forall x off, desc_at (al_tables A) x -> off ∈ [0; 4; 8; 12] -> a <> x + off) -> rd (memory s') a = rd (memory s) a.
(** [o] is the only object in use of its page. *)
Definition last_in_page (A : alloc) (o : Z) : Prop := forall o' z, in_use A o' z -> Z.land o' FRAME = Z.land o FRAME -> o' = o.
(** The page [i] is given back, with the allocator's hold on it; no page is. *)
Definition page_returned (ext : nat -> Z) (s : malloc_state) (i : nat) (ext' : nat -> Z) (A' : alloc) (s' : malloc_state) : Prop :=
  i ∉ al_pages A' /\ mem_map (ma_mm s') = alter Z.pred i (mem_map (ma_mm s)) /\ forall k, ext' k = bump ext i (-1) k.
Definition pages_kept (ext : nat -> Z) (s : malloc_state) (i : nat) (ext' : nat -> Z) (A' : alloc) (s' : malloc_state) : Prop :=
  i ∈ al_pages A' /\ mem_map (ma_mm s') = mem_map (ma_mm s) /\ forall k, ext' k = ext k.
(** What [free_s] has done: [o], and only [o], is not in use any more, and its
    page is given back if nothing else in it was in use. *)
Definition free_done (ext : nat -> Z) (A : alloc) (s : malloc_state) (o : Z) (s' : malloc_state) : Prop :=
  exists ext' A' i, malloc_inv ext' A' s' /\
    (forall o' z, in_use A' o' z <-> in_use A o' z /\ o' <> o) /\ undisturbed A' s s' /\ page_addr i = Z.land o FRAME /\
    (last_in_page A o -> page_returned ext s i ext' A' s') /\ (~ last_in_page A o -> pages_kept ext s i ext' A' s').
(** The objects handed out and not yet given back, with the lengths asked for,
    through any sequence of calls and of writes to those objects. *)
Inductive history : list (Z * Z) -> malloc_state -> Prop :=
| h_boot ext m : mm_inv ext m -> history [] (MallocState m boot_bucket_dir 0)
| h_malloc live s len o s' : history live s -> 0 <= len <= 4096 -> malloc len s = Ok o s' -> history ((o, len) :: live) s'
| h_free l1 o len l2 s sz s' : history (l1 ++ (o, len) :: l2) s -> sz = 0 \/ sz = len -> free_s o sz s = Ok tt s' -> history (l1 ++ l2) s'
| h_write live s o len k v : history live s -> (o, len) ∈ live -> 0 <= k -> 4 * k < len ->
    history live (with_memory (<[o + 4 * k := v]> (memory s)) s).
(** No object, no bucket, no descriptor. *)
Definition boot_alloc : alloc := Alloc (replicate 9 []) [] [].
(** The live objects are those in use. *)
Record accounted (A : alloc) (live : list (Z * Z)) : Prop := {
  av_live : forall o len, (o, len) ∈ live -> exists size, len <= size /\ in_use A o size;
  av_used : forall o size, in_use A o size -> o ∈ live.*1;
  av_nodup : NoDup live.*1 }.
(** The pages [l] are free. *)
Definition free_pages (l : list nat) (s : malloc_state) : Prop := NoDup l /\ forall i, i ∈ l -> mem_map (ma_mm s) !! i = Some 0.

(** ** The operations *)

Lemma with_memory_id s : with_memory (memory s) s = s.
Proof. by destruct s as [[] ? ?]. Qed.
Lemma wpg_mload P F a (Q : Z -> malloc_state -> Prop) s : Q (rd (memory s) a) s -> wpg P F (mload a) Q s.
Proof. intros HQ. destruct s. exact HQ. Qed.
Lemma wpg_mstore P F a v (Q : unit -> malloc_state -> Prop) s : Q tt (with_memory (<[a := v]> (memory s)) s) -> wpg P F (mstore a v) Q s.
Proof. exact id. Qed.
Ltac ma_step :=
  lazymatch goal with
  | |- wpg _ _ (mload _) _ _ => apply wpg_mload
  | |- wpg _ _ (mstore _ _) _ _ => apply wpg_mstore
  | _ => wp_step
  end; cbv beta zeta.
Ltac ma_steps := repeat ma_step.

Lemma counts_word r z : 0 <= r < 2 ^ 16 -> u16 (r + 2 ^ 16 * z) = r /\ Z.shiftr (r + 2 ^ 16 * z) 16 = z.
Proof.
  intros Hr. unfold u16. rewrite Z.shiftr_div_pow2 by lia. rewrite (Z.mul_comm (2 ^ 16)), Z_mod_plus_full, Z.mod_small by done.
  split; [done|]. rewrite Z_div_plus_full, Z.div_small by (done || lia). lia.
Qed.
Lemma length_objects size i : size ∈ sizes -> Z.of_nat (length (bucket_objects size i)) = 4096 / size /\ 1 <= 4096 / size <= 256.
Proof.
  intros (e & He & -> & ->)%size_cases. unfold bucket_objects. rewrite length_fmap, length_seqZ.
  replace (4096 / 2 ^ e) with (2 ^ (12 - e)).
  - pose proof (Z.pow_pos_nonneg 2 (12 - e)). pose proof (Z.pow_le_mono_r 2 (12 - e) 8). change (2 ^ 8) with 256 in *. lia.
  - change 4096 with (2 ^ 12). rewrite <- Z.pow_sub_r by lia. done.
Qed.
Lemma free_objects_length w size b : size ∈ sizes -> bucket_ok w size b -> Z.of_nat (length (bk_free b)) <= 4096 / size.
Proof.
  intros Hs Hok. rewrite <- (proj1 (length_objects size (bk_page b) Hs)). apply inj_le. apply submseteq_length, NoDup_submseteq; [apply Hok|].
  apply Hok.
Qed.
Lemma wpg_hand_out P F ext A s i size d c1 b c2 o l (Q : Z -> malloc_state -> Prop) : malloc_inv ext A s ->
  bucket_dir s !! i = Some (size, d) -> al_chains A !! i = Some (c1 ++ b :: c2) -> bk_free b = o :: l ->
  (forall s', malloc_inv ext (with_chain i (c1 ++ Bucket (bk_desc b) (bk_page b) l :: c2) A) s' -> only_desc (bk_desc b) s s' -> same_map [] s s' -> Q o s') ->
  wpg P F (hand_out (bk_desc b)) Q s.
Proof.
  intros I Hi Hc Hf HQ. assert (Hs : size ∈ sizes) by (eapply size_in, chain_size; [exact I|exact Hi|by eapply chain_index]).
  assert (Hbc : b ∈ c1 ++ b :: c2) by set_solver.
  destruct (mi_chain _ _ _ I _ _ _ _ Hi Hc) as [_ Hok]. specialize (Hok b Hbc).
  pose proof (free_objects_length _ _ _ Hs Hok) as Hlen. pose proof (length_objects size 0 Hs) as [_ Hn].
  pose proof (bo_free _ _ _ Hok) as Hfl. pose proof (bo_counts _ _ _ Hok) as Hcnt.
  rewrite Hf in Hfl, Hlen, Hcnt. cbn in Hfl. destruct Hfl as [Ho Hl]. cbn [length] in Hlen, Hcnt.
  set (x := bk_desc b) in *. destruct offsets as (O0 & O4 & O8 & O12).
  assert (Hbd : desc_at (al_tables A) x) by (apply (bucket_desc I), (bucket_elem Hc), list_elem_of_here).
  assert (Hne : forall y, y ∈ bk_free b -> y <> bd_freeptr x /\ y <> bd_counts x).
  { intros y Hy. pose proof (bucket_object _ _ _ _ _ _ _ _ _ I Hi Hc Hbc Hy) as Hw.
    assert (Hb : b ∈ al_buckets A) by (apply (bucket_elem Hc), list_elem_of_here).
    split; intros ->; [by apply (desc_not_bucket I b x 8 Hb Hbd O8)|by apply (desc_not_bucket I b x 12 Hb Hbd O12)]. }
  unfold hand_out, get_refcnt, set_refcnt. ma_steps. rewrite Ho.
  assert (Hcw : rd (<[bd_freeptr x := rd (memory s) o]> (memory s)) (bd_counts x) = (4096 / size - Z.of_nat (S (length l))) + 2 ^ 16 * size).
  { rewrite rd_insert_ne by (unfold bd_freeptr, bd_counts; lia). exact Hcnt. }
  destruct (counts_word (4096 / size - Z.of_nat (S (length l))) size) as [Er Ez]; [lia|].
  change (memory (with_memory ?w _)) with w. rewrite Hcw, Er, Ez, u16_small by lia.
  set (w := <[bd_counts x := _]> _). apply HQ.
  - apply (inv_bucket ext A s i size d c1 b c2 (Bucket x (bk_page b) l) w); try done.
    + assert (Hw : forall y, y <> bd_freeptr x -> y <> bd_counts x -> rd w y = rd (memory s) y) by (intros; unfold w; by rewrite !rd_insert_ne).
      split; cbn [bk_desc bk_page bk_free].
      * rewrite Hw by (unfold bd_page, bd_freeptr, bd_counts; lia). apply Hok.
      * unfold w. rewrite rd_insert_eq. lia.
      * unfold w. rewrite rd_insert_ne by (unfold bd_freeptr, bd_counts; lia). rewrite rd_insert_eq.
        eapply chained_frame; [|exact Hl]. intros y Hy. destruct (Hne y) as [N1 N2]; [rewrite Hf; by apply list_elem_of_further|]. by rewrite !rd_insert_ne.
      * intros y Hy. apply (bo_in _ _ _ Hok). rewrite Hf. by apply list_elem_of_further.
      * pose proof (bo_nodup _ _ _ Hok) as Hnd. rewrite Hf in Hnd. by apply NoDup_cons in Hnd as [_ ?].
    + intros a N1 N2 _. unfold w. by rewrite !rd_insert_ne.
  - intros a N1 N2. change (rd w a = rd (memory s) a). unfold w. by rewrite !rd_insert_ne.
  - by intros k.
Qed.

(** *** The searches *)

Lemma mload_run a s : mload a s = Ok (rd (memory s) a) s.
Proof. by destruct s. Qed.
Lemma desc_positive tables d : desc_at tables d -> d <> 0.
Proof. intros (j & k & _ & Hk & ->). unfold page_addr, LOW_MEM. lia. Qed.
Lemma object_positive size i o : size ∈ sizes -> o ∈ bucket_objects size i -> o <> 0.
Proof. intros Hs Ho. destruct (object_in_page _ _ _ Hs Ho). unfold page_addr, LOW_MEM in *. lia. Qed.
(** A chain is shorter than the memory: the fuel of the searches is enough. *)
Lemma chain_short ext A s i size d c : malloc_inv ext A s -> bucket_dir s !! i = Some (size, d) -> al_chains A !! i = Some c ->
  (length c < chain_fuel s)%nat.
Proof.
  intros I Hi Hc. unfold chain_fuel. apply Nat.lt_succ_r. rewrite <- (length_fmap bk_desc c).
  assert (Hnd : NoDup (bk_desc <$> c)).
  { pose proof (mi_descs _ _ _ I) as Hd. apply NoDup_app in Hd as (Hd & _). unfold al_buckets in Hd. rewrite (concat_at _ _ _ Hc), fmap_app in Hd.
    by apply NoDup_app in Hd as (? & _). }
  rewrite <- (size_list_to_set (C := gset Z) _ Hnd), <- size_dom. apply subseteq_size. intros x Hx%elem_of_list_to_set.
  apply list_elem_of_fmap in Hx as (b & -> & Hb). apply elem_of_dom.
  destruct (mi_chain _ _ _ I _ _ _ _ Hi Hc) as [_ Hok]. pose proof (bo_page _ _ _ (Hok b Hb)) as E. unfold rd, memory, bd_page in E.
  destruct (words (ma_mm s) !! bk_desc b); [done|]. cbn in E. unfold page_addr, LOW_MEM in E. lia.
Qed.
Lemma find_desc_run ext A s i size d c : malloc_inv ext A s -> bucket_dir s !! i = Some (size, d) -> al_chains A !! i = Some c ->
  find_desc d s = Ok (from_option bk_desc 0 (bucket_with_free c)) s.
Proof.
  intros I Hi Hc. pose proof (chain_short _ _ _ _ _ _ _ I Hi Hc) as Hfuel. destruct (mi_chain _ _ _ I _ _ _ _ Hi Hc) as [Hlk Hok].
  assert (Hs : size ∈ sizes) by (eapply size_in, chain_size; [exact I|exact Hi|by eapply chain_index]).
  assert (Hpos : forall b, b ∈ c -> bk_desc b <> 0).
  { intros b Hb. eapply desc_positive, (bucket_desc I), elem_concat; [by eapply list_elem_of_lookup_2|exact Hb]. }
  unfold find_desc. rewrite (bind_Ok _ _ s (chain_fuel s) s) by done. clear Hi Hc. revert d Hlk Hfuel Hok Hpos.
  generalize (chain_fuel s). induction c as [|b c IH]; intros n d Hlk Hn Hok Hpos; (destruct n as [|n]; [cbn in Hn; lia|]); rewrite loop_S; cbn in Hlk.
  - by rewrite Hlk.
  - destruct Hlk as [-> Hlk]. rewrite (proj2 (Z.eqb_neq _ _)) by (apply Hpos, list_elem_of_here).
    specialize (Hok b (list_elem_of_here _ _)) as Hb. pose proof (bo_free _ _ _ Hb) as Hf. cbn [bucket_with_free].
    destruct (bk_free b) as [|o l] eqn:Ef; cbn in Hf.
    + rewrite (bind_Ok _ _ s (inl (rd (memory s) (bd_next (bk_desc b)))) s).
      * cbn iota. apply IH; [done|cbn in Hn; lia|intros; by apply Hok, list_elem_of_further|intros; by apply Hpos, list_elem_of_further].
      * rewrite (bind_Ok _ _ _ _ _ (mload_run _ s)), Hf. change (truth 0) with false. cbn iota. by rewrite (bind_Ok _ _ _ _ _ (mload_run _ s)).
    + rewrite (bind_Ok _ _ s (inr (bk_desc b)) s); [done|]. rewrite (bind_Ok _ _ _ _ _ (mload_run _ s)), (proj1 Hf).
      assert (Ho : truth o = true); [|by rewrite Ho]. apply truth_true. apply (object_positive size (bk_page b)); [done|].
      apply (bo_in _ _ _ Hb). rewrite Ef. apply list_elem_of_here.
Qed.
Lemma bucket_with_free_some l b : bucket_with_free l = Some b -> exists l1 l2 o l', l = l1 ++ b :: l2 /\ bk_free b = o :: l'.
Proof.
  induction l as [|x l IH]; cbn; [done|]. destruct (bk_free x) as [|o l'] eqn:E.
  - intros (l1 & l2 & o & l' & -> & Hb)%IH. by exists (x :: l1), l2, o, l'.
  - intros [= <-]. by exists [], l, o, l'.
Qed.
(** The size a request gets. *)
Lemma find_dir_first l len k ss : l.*1 = ss ++ [0] -> (forall z, z ∈ ss -> 0 < z < 2 ^ 32) -> StronglySorted Z.le ss ->
  (exists z, z ∈ ss /\ len <= z) -> exists j size d, find_dir l len k = Some ((k + j)%nat, size) /\ l !! j = Some (size, d) /\
    (j < length ss)%nat /\ len <= size /\ forall z, z ∈ ss -> len <= z -> size <= z.
Proof.
  revert l k. induction ss as [|a ss IH]; intros l k El Hpos Hs (z & Hz & Hlz); [by apply not_elem_of_nil in Hz|].
  destruct l as [|[a' d] l]; cbn in El; [done|]. injection El as -> El. cbn [find_dir].
  pose proof (Hpos a (list_elem_of_here _ _)) as Ha. rewrite (proj2 (Z.eqb_neq _ _)), u32_small by lia.
  apply StronglySorted_inv in Hs as [Hs Hle]. destruct (Z.leb_spec len a) as [Hla|Hla].
  - exists 0%nat, a, d. rewrite Nat.add_0_r. split_and!; [done|done|cbn; lia|done|]. intros y [->|Hy]%elem_of_cons _; [lia|].
    rewrite Forall_forall in Hle. by apply Hle.
  - destruct (IH l (S k) El) as (j & size & d' & E1 & E2 & E3 & E4 & E5).
    + intros y Hy. apply Hpos. by apply list_elem_of_further.
    + done.
    + exists z. apply elem_of_cons in Hz as [->|Hz]; [lia|done].
    + exists (S j), size, d'. rewrite E1. split_and!; [do 2 f_equal; lia|done|cbn; lia|done|].
      intros y [->|Hy]%elem_of_cons; [lia|by apply E5].
Qed.
Lemma find_dir_run ext A s len : malloc_inv ext A s -> 0 <= len <= 4096 ->
  exists i size d c, find_dir (bucket_dir s) len 0 = Some (i, size) /\ bucket_dir s !! i = Some (size, d) /\ al_chains A !! i = Some c /\
    len <= size /\ forall size', size' ∈ sizes -> len <= size' -> size <= size'.
Proof.
  intros I Hlen. destruct (find_dir_first _ len 0 sizes (mi_sizes _ _ _ I)) as (i & size & d & E1 & E2 & E3 & E4 & E5).
  - intros z (e & He & -> & _)%size_cases. split; [apply Z.pow_pos_nonneg; lia|apply Z.pow_lt_mono_r; lia].
  - repeat constructor; done.
  - exists 4096. split; [by apply (bool_decide_unpack _)|lia].
  - destruct (lookup_lt_is_Some_2 (al_chains A) i) as [c Hc]; [rewrite (mi_len _ _ _ I); exact E3|].
    exists i, size, d, c. done.
Qed.

(** *** Pages and new buckets *)

Lemma wpg_in_mm {B} P F (c : M mm_state B) (Q : B -> malloc_state -> Prop) s :
  wpg (fun _ _ => False) False c (fun a m => Q a (MallocState m (bucket_dir s) (free_bucket_desc s))) (ma_mm s) -> wpg P F (in_mm c) Q s.
Proof. unfold wpg, in_mm, zoom. by destruct (c (ma_mm s)). Qed.
Lemma wpg_get_page P F ext A s (Q : Z -> malloc_state -> Prop) : malloc_inv ext A s ->
  ((forall i, mem_map (ma_mm s) !! i <> Some 0) -> Q 0 s) -> (forall i s', got_page ext A s i s' -> Q (page_addr i) s') ->
  wpg P F (in_mm get_free_page) Q s.
Proof.
  intros I Q0 Q1. apply wpg_in_mm.
  assert (Es : MallocState (ma_mm s) (bucket_dir s) (free_bucket_desc s) = s) by (by destruct s).
  eapply (wpg_get_free_page _ _ ext); [apply I|intros Hno; rewrite Es; by apply Q0|].
  intros i m' T. assert (Hni : i ∉ al_pages A).
  { intros Hi. destruct (mi_held _ _ _ I i Hi) as [He _]. rewrite (tk_ext _ _ _ _ T) in He. lia. }
  assert (Hrest : forall a, a ∉ page_words (page_addr i) -> rd (words m') a = rd (memory s) a) by apply T.
  apply Q1. split; try done; [|split; [rewrite bump_eq, (tk_ext _ _ _ _ T); lia|cbn; rewrite (tk_high _ _ _ _ T); apply T]|apply T|apply T|apply T].
  eapply inv_agree; [exact I|apply T|done|done| |].
  - intros j Hj. destruct (mi_held _ _ _ I j Hj) as [He Hh]. assert (j <> i) by congruence. split.
    + by rewrite bump_ne.
    + cbn. by rewrite (tk_high _ _ _ _ T).
  - intros a Ha. apply Hrest. intros Hin. destruct (reached_page _ _ _ _ I Ha) as (j & Hj & Hjw).
    by rewrite (page_word_inj _ _ _ Hin Hjw) in Hni.
Qed.
Lemma got_page_map ext A s i s1 : got_page ext A s i s1 -> same_map [i] s s1.
Proof.
  intros G k Hk. rewrite (gp_map _ _ _ _ _ G). apply list_lookup_insert_ne. intros ->. apply Hk, list_elem_of_here.
Qed.
Lemma same_map_app l1 l2 s s1 s2 : same_map l1 s s1 -> same_map l2 s1 s2 -> same_map (l1 ++ l2) s s2.
Proof. intros H1 H2 k Hk. rewrite not_elem_of_app in Hk. destruct Hk. by rewrite H2, H1. Qed.
Lemma same_map_few l s s' : (length l <= 1)%nat -> same_map l s s' -> no_free_page s' -> few_free_pages s.
Proof.
  intros Hl Hm Hno i j Hi Hj. assert (Hin : forall k, mem_map (ma_mm s) !! k = Some 0 -> k ∈ l).
  { intros k Hk. destruct (decide (k ∈ l)) as [|Hn]; [done|]. destruct (Hno k). by rewrite Hm. }
  apply Hin in Hi, Hj. destruct l as [|x [|y l]]; [by apply not_elem_of_nil in Hi| |cbn in Hl; lia].
  apply list_elem_of_singleton in Hi, Hj. congruence.
Qed.
Lemma wpg_for_mstore P F (g v : Z -> Z) l (Q : unit -> malloc_state -> Prop) s : NoDup (g <$> l) ->
  (forall w, (forall k, k ∈ l -> rd w (g k) = v k) -> (forall a, a ∉ (g <$> l) -> rd w a = rd (memory s) a) -> Q tt (with_memory w s)) ->
  wpg P F (for_ l (fun k => mstore (g k) (v k))) Q s.
Proof.
  revert s. induction l as [|k l IH]; intros s Hnd HQ; cbn [for_].
  - apply wpg_ret. rewrite <- with_memory_id. apply HQ; [intros k Hk; by apply not_elem_of_nil in Hk|done].
  - rewrite fmap_cons in Hnd. apply NoDup_cons in Hnd as [Hk Hnd]. apply wpg_bind, wpg_mstore, IH; [done|].
    intros w H1 H2. apply (HQ w).
    + intros k' [->|Hk']%elem_of_cons; [|by apply H1]. rewrite H2 by done. apply rd_insert_eq.
    + intros a Ha. rewrite fmap_cons, not_elem_of_cons in Ha. destruct Ha as [Hne Ha]. rewrite H2 by done. by apply rd_insert_ne.
Qed.
Lemma table_desc j d : d ∈ table_descs j -> desc_at [j] d.
Proof. intros (k & -> & Hk%elem_of_seqZ)%list_elem_of_fmap. exists j, k. split_and!; [apply list_elem_of_here|lia..|done]. Qed.
Lemma table_descs_nodup j : NoDup (table_descs j).
Proof. apply NoDup_fmap_2_strong; [intros; lia|apply NoDup_seqZ]. Qed.
Lemma grown_refl ext A s : grown ext A s ext A s.
Proof. split; [lia|by left|done]. Qed.
Lemma grown_trans ext A s ext1 A1 s1 ext2 A2 s2 : grown ext A s ext1 A1 s1 -> grown ext1 A1 s1 ext2 A2 s2 -> grown ext A s ext2 A2 s2.
Proof.
  intros [E1 T1 R1] [E2 T2 R2]. assert (Ht : forall k, touches ext1 A1 k -> touches ext A k).
  { intros k [Hk|Hk]; [by apply T1|right; specialize (E1 k); lia]. }
  split.
  - intros k. etrans; [apply E1|apply E2].
  - intros k Hk. by apply Ht, T2.
  - intros a Ha. rewrite R2, R1; [done|done|]. intros k Hk. by apply Ha, Ht.
Qed.
Lemma grown_page ext A s j s1 A' s' : got_page ext A s j s1 -> (forall k, k ∈ al_tables A' -> k = j \/ k ∈ al_tables A) ->
  (forall a, a ∉ page_words (page_addr j) -> rd (memory s') a = rd (memory s1) a) -> grown ext A s (bump ext j 1) A' s'.
Proof.
  intros G Ht Hw. pose proof (gp_ext _ _ _ _ _ G) as E. assert (Hj : touches ext A j) by (right; lia). split.
  - intros k. destruct (decide (k = j)) as [->|Hne]; [rewrite bump_eq; lia|by rewrite bump_ne].
  - intros k [->|Hk]%Ht; [done|by left].
  - intros a Ha. rewrite Hw by (by apply Ha). apply (gp_rest _ _ _ _ _ G), Ha, Hj.
Qed.
Lemma wpg_init_bucket_desc (P : string -> malloc_state -> Prop) F ext A s (Q : unit -> malloc_state -> Prop) : malloc_inv ext A s ->
  ((forall i, mem_map (ma_mm s) !! i <> Some 0) -> P "Out of memory in init_bucket_desc()"%string s) ->
  (forall j s', malloc_inv (bump ext j 1) (with_new_table j A) s' -> grown ext A s (bump ext j 1) (with_new_table j A) s' -> bucket_dir s' = bucket_dir s ->
    same_map [j] s s' -> Q tt s') ->
  wpg P F init_bucket_desc Q s.
Proof.
  intros I HP HQ. unfold init_bucket_desc. ma_step. eapply wpg_get_page; [exact I|intros Hno; cbn iota; by apply HP|].
  intros j s1 G. rewrite (proj2 (Z.eqb_neq _ _)) by (apply truth_true, page_addr_truth). ma_step.
  apply wpg_for_mstore; [apply NoDup_fmap_2_strong; [unfold bd_next; intros; lia|apply NoDup_seqZ]|]. intros w H1 H2.
  ma_steps. change (memory (with_memory w s1)) with w. change (free_bucket_desc (with_memory w s1)) with (free_bucket_desc s1).
  set (w' := <[bd_next _ := _]> w). change (set_field free_bucket_desc _ _) with (set_spare (page_addr j) (with_memory w' s1)).
  assert (Hin : forall k, 0 <= k < 256 -> bd_next (page_addr j + 16 * k) ∈ page_words (page_addr j)).
  { intros k Hk. apply page_words_spec. exists (4 * k + 1). unfold bd_next. lia. }
  assert (Hout : forall a, a ∉ page_words (page_addr j) -> rd w' a = rd (memory s1) a).
  { intros a Ha. unfold w'. rewrite rd_insert_ne by (intros <-; apply Ha, Hin; lia). apply H2.
    intros (k & -> & Hk%elem_of_seqZ)%list_elem_of_fmap. apply Ha, Hin. lia. }
  assert (Hr : forall a, reached A a -> a ∉ page_words (page_addr j)).
  { intros a Ha Hj. destruct (reached_page _ _ _ _ (gp_inv _ _ _ _ _ G) Ha) as (k & Hk & Hkw).
    rewrite (page_word_inj _ _ _ Hkw Hj) in Hk. by apply (gp_new _ _ _ _ _ G). }
  apply (HQ j).
  - assert (I1 : malloc_inv (bump ext j 1) A (with_memory w' s1)).
    { apply inv_outside; [apply G|intros a Ha; by apply Hout, Hr|]. intros a Ha. apply Hout, Ha, (gp_held _ _ _ _ _ G). }
    apply (inv_table _ _ _ j) in I1; [|exact (gp_new _ _ _ _ _ G)|exact (gp_held _ _ _ _ _ G)].
    eapply (inv_push _ _ _ (table_descs j)) in I1; [exact I1|apply table_descs_nodup| |].
    + intros x Hx. destruct (table_desc j x Hx) as (j' & k & ->%list_elem_of_singleton & Hk). split.
      * exists j, k. split; [apply list_elem_of_here|exact Hk].
      * intros Hd. apply (Hr (x + 4)).
        -- left. exists x, 4. split_and!; [exact Hd|apply offsets|done].
        -- destruct Hk as [Hk ->]. by apply Hin.
    + apply (chained_row bd_next w' (page_addr j) 16 256); [|lia|].
      * intros k Hk Hk1. unfold w'. rewrite rd_insert_ne by (unfold bd_next; lia). apply H1, elem_of_seqZ. lia.
      * change (Z.of_nat 256 - 1) with 255. unfold w'. rewrite rd_insert_eq.
        pose proof (mi_spare _ _ _ I1) as Hlk. exact Hlk.
  - apply (grown_page _ _ _ _ s1); [exact G|by intros k [->|Hk]%elem_of_cons; [left|right]|]. intros a Ha. by apply Hout.
  - exact (gp_dir _ _ _ _ _ G).
  - exact (got_page_map _ _ _ _ _ G).
Qed.
(** A descriptor in no chain, and not on the list of unused ones. *)
Lemma orphan_word ext A s x off : malloc_inv ext A s -> desc_at (al_tables A) x -> x ∉ al_descs A -> off ∈ [0; 4; 8; 12] ->
  ~ reached A (x + off).
Proof.
  intros I Hx Hn Ho [(d & off' & Hd & Ho' & E)|(b & Hb & Hin)].
  - destruct (desc_apart _ _ _ _ _ Hx (mi_desc_at _ _ _ I d Hd) Ho Ho' E) as [-> _]. by apply Hn.
  - by apply (desc_not_bucket I b x off).
Qed.
Lemma table_held ext A s x off : malloc_inv ext A s -> desc_at (al_tables A) x -> off ∈ [0; 4; 8; 12] ->
  exists k, k ∈ al_tables A /\ held ext (ma_mm s) k /\ x + off ∈ page_words (page_addr k).
Proof.
  intros I Hx Ho. destruct (desc_word _ _ _ Hx Ho) as (k & Hk & Hin). exists k. split_and!; [done| |done].
  apply (mi_held _ _ _ I). apply elem_of_app. by left.
Qed.
Lemma inv_orphan ext A s x off v : malloc_inv ext A s -> desc_at (al_tables A) x -> x ∉ al_descs A -> off ∈ [0; 4; 8; 12] ->
  malloc_inv ext A (with_memory (<[x + off := v]> (memory s)) s).
Proof.
  intros I Hx Hn Ho. apply inv_outside; [done| |].
  - intros a Ha. apply rd_insert_ne. intros <-. by apply (orphan_word _ _ _ _ _ I Hx Hn Ho).
  - intros a Ha. apply rd_insert_ne. intros <-. destruct (table_held _ _ _ _ _ I Hx Ho) as (k & _ & Hk & Hin). by apply (Ha k).
Qed.
Lemma grown_orphan ext A s x off v : malloc_inv ext A s -> desc_at (al_tables A) x -> off ∈ [0; 4; 8; 12] ->
  grown ext A s ext A (with_memory (<[x + off := v]> (memory s)) s).
Proof.
  intros I Hx Ho. split; [lia|by left|]. intros a Ha. apply rd_insert_ne. intros <-.
  destruct (table_held _ _ _ _ _ I Hx Ho) as (k & Ht & _ & Hin). by apply (Ha k); [left|].
Qed.
(** A page held for no descriptor or bucket. *)
Lemma inv_fresh_page ext A s j w' : malloc_inv ext A s -> j ∉ al_pages A -> held ext (ma_mm s) j ->
  (forall a, a ∉ page_words (page_addr j) -> rd w' a = rd (memory s) a) -> malloc_inv ext A (with_memory w' s).
Proof.
  intros I Hj Hh Hw. apply inv_outside; [done| |].
  - intros a Ha. apply Hw. intros Hin. destruct (reached_page _ _ _ _ I Ha) as (k & Hk & Hkw). by rewrite (page_word_inj _ _ _ Hin Hkw) in Hj.
  - intros a Ha. by apply Hw, Ha.
Qed.
Lemma wpg_ready_spare (P : string -> malloc_state -> Prop) F ext A s (Q : unit -> malloc_state -> Prop) : malloc_inv ext A s ->
  (forall msg s', no_free_page s -> P msg s') ->
  (forall ext' A' s' x l t, malloc_inv ext' A' s' -> grown ext A s ext' A' s' -> al_chains A' = al_chains A -> al_spare A' = x :: l ->
    bucket_dir s' = bucket_dir s -> (length t <= 1)%nat -> same_map t s s' -> Q tt s') ->
  wpg P F (if free_bucket_desc s =? 0 then init_bucket_desc else mret tt) Q s.
Proof.
  intros I HP HQ. pose proof (mi_spare _ _ _ I) as Hl. destruct (al_spare A) as [|x l] eqn:El; cbn in Hl.
  - rewrite Hl. cbn iota. eapply wpg_init_bucket_desc; [exact I|by apply HP|]. intros j s' I' G Hd Hm.
    apply (HQ (bump ext j 1) (with_new_table j A) s' (page_addr j) ((fun k => page_addr j + 16 * k) <$> seqZ 1 255) [j]); try done.
    cbn. unfold table_descs. rewrite (seqZ_cons 0 256) by lia. rewrite El, app_nil_r. cbn. f_equal. lia.
  - destruct Hl as [-> Hl]. rewrite (proj2 (Z.eqb_neq _ _)).
    + apply wpg_ret. eapply (HQ ext A s x l []); try done; [apply grown_refl|cbn; lia].
    + eapply desc_positive, (spare_desc I). rewrite El. apply list_elem_of_here.
Qed.
(** The objects of a new page are chained, and its bucket is linked in. *)
Lemma objects_nodup size j : size ∈ sizes -> NoDup (bucket_objects size j).
Proof.
  intros (e & He & -> & _)%size_cases. apply NoDup_fmap_2_strong; [|apply NoDup_seqZ]. pose proof (Z.pow_pos_nonneg 2 e). intros; nia.
Qed.
Lemma wpg_chain_objects P F (Q : unit -> malloc_state -> Prop) s size j : size ∈ sizes ->
  (forall w, free_list w (page_addr j) (bucket_objects size j) -> (forall a, a ∉ page_words (page_addr j) -> rd w a = rd (memory s) a) ->
    Q tt (with_memory w s)) ->
  wpg P F (chain_objects (page_addr j) size) Q s.
Proof.
  intros Hs HQ. destruct (length_objects size j Hs) as [_ Hn].
  assert (Hobj : forall k, 0 <= k < 4096 / size -> page_addr j + size * k ∈ page_words (page_addr j)).
  { intros k Hk. apply (object_word size); [done|]. apply list_elem_of_fmap. exists k. split; [done|apply elem_of_seqZ; lia]. }
  destruct (size_cases _ Hs) as (e & He & Es & _). assert (0 < size) by (rewrite Es; apply Z.pow_pos_nonneg; lia). clear Es.
  unfold chain_objects. change PAGE_SIZE with 4096. set (n := 4096 / size) in *. ma_step.
  apply wpg_for_mstore; [apply NoDup_fmap_2_strong; [intros; nia|apply NoDup_seqZ]|]. intros w H1 H2.
  ma_step. apply HQ.
  - change (memory (with_memory w s)) with w.
    pose proof (chained_row (fun o => o) (<[page_addr j + size * (n - 1) := 0]> w) (page_addr j) size (Z.to_nat n) []) as Hr.
    rewrite Z2Nat.id, app_nil_r in Hr by lia. apply Hr; [|lia|cbn; apply rd_insert_eq].
    intros k Hk Hk1. rewrite rd_insert_ne by nia. apply H1, elem_of_seqZ. lia.
  - intros a Ha. change (memory (with_memory w s)) with w. rewrite rd_insert_ne by (intros <-; apply Ha, Hobj; lia). apply H2.
    intros (k & -> & Hk%elem_of_seqZ)%list_elem_of_fmap. apply Ha, Hobj. lia.
Qed.
Lemma desc_not_page ext A s x off j : malloc_inv ext A s -> desc_at (al_tables A) x -> off ∈ [0; 4; 8; 12] -> j ∉ al_pages A ->
  x + off ∉ page_words (page_addr j).
Proof.
  intros I Hx Ho Hj Hin. destruct (desc_word _ _ _ Hx Ho) as (k & Hk & Hkw). apply Hj, elem_of_app. left.
  by rewrite (page_word_inj _ _ _ Hin Hkw).
Qed.
Lemma wpg_fill_bucket P F ext A s i size d c x j (Q : Z -> malloc_state -> Prop) : malloc_inv ext A s ->
  bucket_dir s !! i = Some (size, d) -> al_chains A !! i = Some c -> fresh_bucket ext A s size x j ->
  (forall w, malloc_inv ext (with_chain i (Bucket x j (bucket_objects size j) :: c) A) (set_dir i x (with_memory w s)) ->
    (forall a, a ∉ page_words (page_addr j) -> a <> bd_next x -> rd w a = rd (memory s) a) -> Q x (set_dir i x (with_memory w s))) ->
  wpg P F (fill_bucket i x (page_addr j) size) Q s.
Proof.
  intros I Hi Hc B HQ. assert (Hs : size ∈ sizes) by (eapply size_in, chain_size; [exact I|exact Hi|by eapply chain_index]).
  destruct B as [Hx Hn Hj Hh Ep Ef Ec]. destruct offsets as (O0 & O4 & O8 & O12).
  unfold fill_bucket. ma_step. apply wpg_chain_objects; [done|]. intros w Hw Hout.
  ma_step. unfold get_dir_entry. ma_steps. change (bucket_dir (with_memory w s)) with (bucket_dir s). rewrite Hi. cbn [snd]. unfold set_chain. ma_steps.
  change (memory (with_memory w s)) with w. set (w' := <[bd_next x := d]> w).
  assert (I1 : malloc_inv ext A (with_memory w s)) by (by eapply inv_fresh_page).
  assert (I2 : malloc_inv ext A (with_memory w' s)) by (by apply (inv_orphan ext A (with_memory w s) x 4 d)).
  assert (Hd : forall off, off ∈ [0; 4; 8; 12] -> off <> 4 -> rd w' (x + off) = rd (memory s) (x + off)).
  { intros off Ho Hne. unfold w', bd_next. rewrite rd_insert_ne by lia. apply Hout. by eapply desc_not_page. }
  apply (HQ w').
  - apply (inv_link ext A (with_memory w' s) i size d c (Bucket x j (bucket_objects size j))); try done.
    + destruct (length_objects size j Hs) as [El _]. pose proof (Hd 0 O0 ltac:(lia)) as E0. rewrite Z.add_0_r in E0.
      split; cbn [bk_desc bk_page bk_free]; change (memory (with_memory w' s)) with w'.
      * unfold bd_page in *. by rewrite E0.
      * unfold bd_counts in *. rewrite Hd, Ec, El by done. lia.
      * unfold bd_freeptr in *. rewrite Hd, Ef by done. eapply chained_frame; [|exact Hw]. intros o Ho. unfold w'. apply rd_insert_ne.
        intros E. apply (desc_not_page _ _ _ _ 4 _ I Hx O4 Hj). unfold bd_next in E. rewrite E. by apply (object_word size).
      * done.
      * by apply objects_nodup.
    + cbn. apply rd_insert_eq.
  - intros a Ha Hna. unfold w'. rewrite rd_insert_ne by done. by apply Hout.
Qed.
Lemma wpg_first_counts {B} P F (k : M malloc_state B) x size Q s : size ∈ sizes ->
  wpg P F k Q (with_memory (<[bd_counts x := 2 ^ 16 * size]> (memory s)) s) ->
  wpg P F (set_refcnt x 0 ;; set_bucket_size x size ;; k) Q s.
Proof.
  intros Hs HQ. unfold set_refcnt, set_bucket_size. apply wpg_bind. ma_steps. change (memory (with_memory ?w _)) with w. rewrite rd_insert_eq.
  change (u16 0) with 0. rewrite (proj1 (counts_word 0 _ ltac:(lia))).
  assert (Hu : u16 size = size).
  { apply u16_small. destruct (size_cases _ Hs) as (e & He & -> & _). split; [apply Z.pow_nonneg; lia|change 65536 with (2 ^ 16); apply Z.pow_lt_mono_r; lia]. }
  rewrite Hu, insert_insert_eq. exact HQ.
Qed.
Lemma grown_taken ext A s j x A' s' : ext j = 0 -> desc_at (al_tables A) x -> al_tables A' = al_tables A ->
  (forall a, a ∉ page_words (page_addr j) -> (forall off, off ∈ [0; 4; 8; 12] -> a <> x + off) -> rd (memory s') a = rd (memory s) a) ->
  grown ext A s (bump ext j 1) A' s'.
Proof.
  intros Ej Hx Et Hw. split.
  - intros k. destruct (decide (k = j)) as [->|Hne]; [rewrite bump_eq; lia|by rewrite bump_ne].
  - rewrite Et. by left.
  - intros a Ha. apply Hw; [apply Ha; right; lia|]. intros off Ho ->.
    destruct (desc_word _ _ _ Hx Ho) as (k & Hk & Hin). apply (Ha k); [by left|exact Hin].
Qed.
Lemma wpg_new_bucket (P : string -> malloc_state -> Prop) F ext A s i size d c (Q : Z -> malloc_state -> Prop) : malloc_inv ext A s ->
  bucket_dir s !! i = Some (size, d) -> al_chains A !! i = Some c ->
  (forall msg s', few_free_pages s -> P msg s') ->
  (forall ext' A' s' x j t, malloc_inv ext' A' s' -> grown ext A s ext' A' s' -> bucket_dir s' !! i = Some (size, x) ->
    (length t <= 2)%nat -> same_map t s s' ->
    al_chains A' = <[i := Bucket x j (bucket_objects size j) :: c]> (al_chains A) -> (forall b, b ∈ al_buckets A -> bk_page b <> j) -> Q x s') ->
  wpg P F (new_bucket i size) Q s.
Proof.
  intros I Hi Hc HP HQ. destruct offsets as (O0 & O4 & O8 & O12).
  assert (Hs : size ∈ sizes) by (eapply size_in, chain_size; [exact I|exact Hi|by eapply chain_index]).
  unfold new_bucket. apply wpg_bind, wpg_gets, wpg_bind. eapply wpg_ready_spare; [exact I|intros; apply HP; by apply (same_map_few [] s s); [cbn; lia| |]|].
  intros ext1 A1 s1 x l t I1 G1 Ech El Ed Ht Hm.
  destruct (inv_pop _ _ _ _ _ I1 El) as (Ex & Hx & Hn & I2).
  apply wpg_bind, wpg_gets. rewrite Ex. apply wpg_bind, wpg_mload, wpg_bind, wpg_modify. 
  change (set_field free_bucket_desc _ s1) with (set_spare (rd (memory s1) (bd_next x)) s1). set (s2 := set_spare _ s1) in *.
  apply wpg_first_counts; [done|]. set (s3 := with_memory _ s2). set (A2 := with_spare l A1) in *.
  assert (I3 : malloc_inv ext1 A2 s3) by (by apply inv_orphan).
  apply wpg_bind. eapply wpg_get_page; [exact I3| |].
  { intros Hno. apply wpg_bind, wpg_mstore, wpg_bind, wpg_mstore, wpg_panic, HP. by apply (same_map_few t s s1). }
  intros j s4 G4. apply wpg_bind, wpg_mstore, wpg_bind, wpg_mstore. rewrite (proj2 (Z.eqb_neq _ _)) by (apply truth_true, page_addr_truth).
  change (memory (with_memory ?w _)) with w. set (w5 := <[bd_page x := _]> _).
  change (with_memory w5 _) with (with_memory w5 s4). set (s5 := with_memory w5 s4).
  assert (I5 : malloc_inv (bump ext1 j 1) A2 s5).
  { pose proof (inv_orphan _ _ _ x 8 (page_addr j) (gp_inv _ _ _ _ _ G4) Hx Hn O8) as I'.
    apply (inv_orphan _ _ _ x 0 (page_addr j)) in I'; [|done..]. rewrite Z.add_0_r in I'. exact I'. }
  assert (Hout : forall off, off ∈ [0; 4; 8; 12] -> x + off ∉ page_words (page_addr j)).
  { intros off Ho. apply (desc_not_page _ _ _ _ _ _ (gp_inv _ _ _ _ _ G4) Hx Ho), (gp_new _ _ _ _ _ G4). }
  assert (E5 : bucket_dir s5 !! i = Some (size, d)) by (change (bucket_dir s5) with (bucket_dir s4); rewrite (gp_dir _ _ _ _ _ G4), <- Hi, <- Ed; done).
  eapply wpg_fill_bucket; [exact I5|exact E5|change (al_chains A2) with (al_chains A1); rewrite Ech; exact Hc| |].
  - split; [exact Hx|exact Hn|exact (gp_new _ _ _ _ _ G4)|exact (gp_held _ _ _ _ _ G4)| | |]; change (memory s5) with w5; unfold w5.
    + apply rd_insert_eq.
    + rewrite rd_insert_ne by (unfold bd_page, bd_freeptr; lia). apply rd_insert_eq.
    + rewrite !rd_insert_ne by (unfold bd_page, bd_freeptr, bd_counts; lia). rewrite (gp_rest _ _ _ _ _ G4) by (by apply Hout).
      apply rd_insert_eq.
  - intros w Iw Hw. apply (HQ _ _ _ x j (t ++ [j]) Iw).
    + eapply grown_trans; [exact G1|]. apply (grown_taken _ _ _ _ x); [apply G4|exact Hx|done|]. intros a Haj Hax.
      pose proof (Hax 0 O0) as N0. rewrite Z.add_0_r in N0.
      change (rd w a = rd (memory s1) a). rewrite (Hw a Haj (Hax 4 O4)). change (memory s5) with w5. unfold w5.
      rewrite !rd_insert_ne by (apply not_eq_sym; first [exact N0|exact (Hax 8 O8)]). rewrite (gp_rest _ _ _ _ _ G4) by done.
      apply rd_insert_ne, not_eq_sym, (Hax 12 O12).
    + cbn. rewrite list_lookup_alter_eq. change (bucket_dir s4) with (bucket_dir s5). by rewrite E5.
    + rewrite length_app. cbn. lia.
    + eapply same_map_app; [exact Hm|]. exact (got_page_map _ _ _ _ _ G4).
    + cbn. by rewrite Ech.
    + intros b Hb <-. apply (gp_new _ _ _ _ _ G4), elem_of_app. right. apply list_elem_of_fmap_2.
      unfold al_buckets in *. cbn. by rewrite Ech.
Qed.
(** *** malloc *)

Lemma grown_undisturbed ext A s ext' A' s' : malloc_inv ext A s -> grown ext A s ext' A' s' -> undisturbed A s s'.
Proof.
  intros I G o size k (i & c & Hs & Hc & Hin) Hk Hk'. destruct (in_chain_bucket _ _ _ _ _ Hc Hin) as (b & Hb & Ho & _ & _).
  pose proof (object_words _ _ _ _ (size_in _ _ Hs) Ho Hk Hk') as Hw.
  assert (Hp : bk_page b ∈ al_pages A) by (apply elem_of_app; right; by apply list_elem_of_fmap_2).
  apply (gr_rest _ _ _ _ _ _ G). intros j Hj Hin'. rewrite <- (page_word_inj _ _ _ Hw Hin') in Hj.
  destruct Hj as [Ht|He].
  - pose proof (mi_pages _ _ _ I) as Hn. apply NoDup_app in Hn as (_ & Hn & _). apply (Hn (bk_page b) Ht). by apply list_elem_of_fmap_2.
  - destruct (mi_held _ _ _ I _ Hp). lia.
Qed.
(** A free object handed out. *)
Lemma allocated_head ext A s ext' s' i size d c1 b c2 o l A' : malloc_inv ext A s -> bucket_dir s !! i = Some (size, d) ->
  al_chains A !! i = Some (c1 ++ b :: c2) -> bk_free b = o :: l -> malloc_inv ext' A' s' ->
  al_chains A' = <[i := c1 ++ Bucket (bk_desc b) (bk_page b) l :: c2]> (al_chains A) -> allocated A o size A'.
Proof.
  intros I Hi Hc Hf I' Hc'. assert (Hs : sizes !! i = Some size) by (eapply chain_size; [exact I|exact Hi|exact (chain_index _ _ _ _ _ I Hc)]).
  assert (Hb : b ∈ c1 ++ b :: c2) by set_solver. destruct (mi_chain _ _ _ I _ _ _ _ Hi Hc) as [_ Hok]. specialize (Hok b Hb).
  assert (Ho : o ∈ bucket_objects size (bk_page b)) by (apply (bo_in _ _ _ Hok); rewrite Hf; apply list_elem_of_here).
  pose proof (bo_nodup _ _ _ Hok) as Hnd. rewrite Hf in Hnd. apply NoDup_cons in Hnd as [Hol _].
  assert (Hnew : forall z, ~ in_use A o z).
  { intros z. eapply free_not_used; [exact I|exact Hs|exact Hc|exact Hb|exact Ho|]. rewrite Hf. apply list_elem_of_here. }
  assert (Hci : al_chains A' !! i = Some (c1 ++ Bucket (bk_desc b) (bk_page b) l :: c2)).
  { rewrite Hc'. apply list_lookup_insert_eq. by eapply lookup_lt_Some. }
  assert (Huse : forall o' z, in_use A' o' z <-> in_use A o' z \/ (o' = o /\ z = size)).
  { intros o' z. destruct (decide (z = size)) as [->|Hne].
    - rewrite (in_use_at _ _ _ _ _ Hs Hci), (in_use_at _ _ _ _ _ Hs Hc). split.
      + intros (b0 & [Hb0|[->|Hb0]%elem_of_cons]%elem_of_app & Ho' & Hf').
        * left. exists b0. split; [clear -Hb0; set_solver|done].
        * cbn in Ho', Hf'. destruct (decide (o' = o)) as [->|Hno]; [by right|]. left. exists b. split_and!; [done|done|].
          rewrite Hf. by apply not_elem_of_cons.
        * left. exists b0. split; [clear -Hb0; set_solver|done].
      + intros [(b0 & [Hb0|[->|Hb0]%elem_of_cons]%elem_of_app & Ho' & Hf')|[-> _]].
        * exists b0. split; [clear -Hb0; set_solver|done].
        * rewrite Hf in Hf'. apply not_elem_of_cons in Hf' as [_ Hf']. exists (Bucket (bk_desc b) (bk_page b) l). split; [set_solver|done].
        * exists b0. split; [clear -Hb0; set_solver|done].
        * exists (Bucket (bk_desc b) (bk_page b) l). split; [set_solver|done].
    - rewrite (in_use_other A A' i _ size o' z Hs Hc' Hne). naive_solver. }
  split; [exact Hnew| |exact Huse]. intros o' z Hu. eapply in_use_apart; [exact I'|apply Huse; by left|apply Huse; by right|].
  intros ->. by apply (Hnew z).
Qed.
Lemma only_desc_grown ext A s x A' s' : malloc_inv ext A s -> desc_at (al_tables A) x -> al_tables A' = al_tables A -> only_desc x s s' ->
  grown ext A s ext A' s'.
Proof.
  intros I Hx Et Hw. destruct offsets as (_ & _ & O8 & O12). split; [lia|rewrite Et; by left|]. intros a Ha. apply Hw; intros ->.
  - destruct (table_held _ _ _ _ 8 I Hx O8) as (k & Ht & _ & Hin). by apply (Ha k); [left|].
  - destruct (table_held _ _ _ _ 12 I Hx O12) as (k & Ht & _ & Hin). by apply (Ha k); [left|].
Qed.
(** The first free object of a bucket, once there is one. *)
Lemma wpg_hand_new P F ext A s ext1 A1 s1 len i size d c1 b c2 o l t : malloc_inv ext A s -> malloc_inv ext1 A1 s1 -> grown ext A s ext1 A1 s1 ->
  (forall o' z, in_use A1 o' z <-> in_use A o' z) -> best_size len size -> (length t <= 2)%nat -> same_map t s s1 ->
  bucket_dir s1 !! i = Some (size, d) -> al_chains A1 !! i = Some (c1 ++ b :: c2) -> bk_free b = o :: l ->
  wpg P F (hand_out (bk_desc b)) (malloc_done ext A s len) s1.
Proof.
  intros I I1 G Hu Hbest Ht Hm Hi Hc Hf. eapply wpg_hand_out; [exact I1|exact Hi|exact Hc|exact Hf|]. intros s2 I2 Ho Hm2.
  destruct (allocated_head _ _ _ _ _ _ _ _ _ _ _ _ _ _ I1 Hi Hc Hf I2 eq_refl) as [Hn Ha Hs].
  eexists ext1, _, size. split_and!; [exact I2|apply G|exact Hbest| | |].
  - split.
    + intros z. rewrite <- Hu. apply Hn.
    + intros o' z Hz. apply Ha. by apply Hu.
    + intros o' z. rewrite Hs, Hu. done.
  - eapply grown_undisturbed; [exact I|]. eapply grown_trans; [exact G|]. eapply only_desc_grown; [exact I1| |done|exact Ho].
    apply (bucket_desc I1), (bucket_elem Hc), list_elem_of_here.
  - exists t. split; [done|]. rewrite <- (app_nil_r t). by eapply same_map_app.
Qed.
(** Objects of a new bucket are all free. *)
Lemma in_use_new_bucket A A' i c size x j o z : sizes !! i = Some size -> al_chains A !! i = Some c ->
  al_chains A' = <[i := Bucket x j (bucket_objects size j) :: c]> (al_chains A) -> in_use A' o z <-> in_use A o z.
Proof.
  intros Hs Hc Hc'. destruct (decide (z = size)) as [->|Hne]; [|by eapply in_use_other].
  rewrite (in_use_at A' i (Bucket x j (bucket_objects size j) :: c) _ _ Hs), (in_use_at _ _ _ _ _ Hs Hc).
  - split; intros (b & Hb & Ho & Hf); [|exists b; by split; [right|]]. apply elem_of_cons in Hb as [->|Hb]; [done|by exists b].
  - rewrite Hc'. apply list_lookup_insert_eq. by eapply lookup_lt_Some.
Qed.
Lemma get_dir_entry_run i e s : bucket_dir s !! i = Some e -> get_dir_entry i s = Ok e s.
Proof. intros Hi. unfold get_dir_entry. rewrite (bind_Ok _ _ s (bucket_dir s) s) by done. by rewrite Hi. Qed.
Lemma wpg_malloc ext A s len : malloc_inv ext A s -> 0 <= len <= 4096 ->
  wpg (fun _ _ => few_free_pages s) False (malloc len) (malloc_done ext A s len) s.
Proof.
  intros I Hlen. destruct (find_dir_run _ _ _ _ I Hlen) as (i & size & d & c & Ef & Hi & Hc & Hle & Hmin).
  assert (Hs : sizes !! i = Some size) by (eapply chain_size; [exact I|exact Hi|exact (chain_index _ _ _ _ _ I Hc)]).
  assert (Hbest : best_size len size) by (split_and!; [by eapply size_in|done|done]).
  unfold malloc. apply wpg_bind, wpg_gets. rewrite Ef.
  apply (wpg_bind_Ok _ _ _ _ _ _ _ _ (get_dir_entry_run _ _ _ Hi)). cbn [snd].
  apply (wpg_bind_Ok _ _ _ _ _ _ _ _ (find_desc_run _ _ _ _ _ _ _ I Hi Hc)).
  destruct (bucket_with_free c) as [b|] eqn:Eb; cbn [from_option].
  - destruct (bucket_with_free_some _ _ Eb) as (c1 & c2 & o & l & -> & Hf).
    rewrite (proj2 (Z.eqb_neq _ _)) by (eapply desc_positive, (bucket_desc I), (bucket_elem Hc), list_elem_of_here).
    apply wpg_bind, wpg_ret. apply (wpg_hand_new _ _ ext A s ext A s len i size d c1 b c2 o l []); try done; [apply grown_refl|cbn; lia].
  - apply wpg_bind. eapply wpg_new_bucket; [exact I|exact Hi|exact Hc|by intros|]. intros ext1 A1 s1 x j t I1 G1 Hi1 Ht Hm Hc1 _.
    destruct (length_objects size j (size_in _ _ Hs)) as [El Hn]. destruct (bucket_objects size j) as [|o l] eqn:Eo; [cbn in El; lia|].
    apply (wpg_hand_new _ _ ext A s ext1 A1 s1 len i size x [] (Bucket x j (o :: l)) c o l t); try done.
    + intros o' z. apply (in_use_new_bucket A A1 i c size x j); try done. by rewrite Eo.
    + rewrite Hc1. cbn. apply list_lookup_insert_eq. by eapply lookup_lt_Some.
Qed.
(** *** The search for an object's bucket *)

Lemma page_addr_eqb i j : (page_addr i =? page_addr j) = bool_decide (i = j).
Proof. case_bool_decide; [subst; apply Z.eqb_refl|]. apply Z.eqb_neq. unfold page_addr. lia. Qed.
Lemma find_page_run ext A s i size d c j : malloc_inv ext A s -> bucket_dir s !! i = Some (size, d) -> al_chains A !! i = Some c ->
  find_page (page_addr j) d s = Ok (with_page j 0 c) s.
Proof.
  intros I Hi Hc. pose proof (chain_short _ _ _ _ _ _ _ I Hi Hc) as Hfuel. destruct (mi_chain _ _ _ I _ _ _ _ Hi Hc) as [Hlk Hok].
  assert (Hpos : forall b, b ∈ c -> bk_desc b <> 0) by (intros b Hb; eapply desc_positive, (bucket_desc I), chain_bucket; [exact Hc|exact Hb]).
  unfold find_page. rewrite (bind_Ok _ _ s (chain_fuel s) s) by done. clear Hi Hc.
  match goal with |- loop ?f ?body _ _ = _ => enough (H : forall prev, loop f body (prev, d) s = Ok (with_page j prev c) s) by apply H end.
  revert d Hlk Hfuel Hok Hpos. generalize (chain_fuel s). induction c as [|b c IH]; intros n d Hlk Hn Hok Hpos prev; (destruct n as [|n]; [cbn in Hn; lia|]); rewrite loop_S; cbn in Hlk.
  - by rewrite Hlk.
  - destruct Hlk as [-> Hlk]. rewrite (proj2 (Z.eqb_neq _ _)) by (apply Hpos, list_elem_of_here).
    pose proof (bo_page _ _ _ (Hok b (list_elem_of_here _ _))) as Ep. cbn [with_page].
    assert (E : (rd (memory s) (bd_page (bk_desc b)) =? page_addr j) = bool_decide (bk_page b = j)) by (rewrite Ep; apply page_addr_eqb).
    case_decide as Hj.
    + rewrite (bind_Ok _ _ s (inr (Some (prev, bk_desc b))) s); [done|]. rewrite (bind_Ok _ _ _ _ _ (mload_run _ s)), E.
      by rewrite bool_decide_eq_true_2.
    + rewrite (bind_Ok _ _ s (inl (bk_desc b, rd (memory s) (bd_next (bk_desc b)))) s).
      * cbn iota. apply IH; [done|cbn in Hn; lia|intros; by apply Hok, list_elem_of_further|intros; by apply Hpos, list_elem_of_further].
      * rewrite (bind_Ok _ _ _ _ _ (mload_run _ s)), E, bool_decide_eq_false_2 by done. by rewrite (bind_Ok _ _ _ _ _ (mload_run _ s)).
Qed.
Lemma with_page_none j prev c : (forall b, b ∈ c -> bk_page b <> j) -> with_page j prev c = None.
Proof.
  revert prev. induction c as [|b c IH]; intros prev Hb; [done|]. cbn. rewrite decide_False by (apply Hb, list_elem_of_here).
  apply IH. intros b' Hb'. by apply Hb, list_elem_of_further.
Qed.
Lemma with_page_some c1 b c2 : (forall b', b' ∈ c1 -> bk_page b' <> bk_page b) ->
  with_page (bk_page b) 0 (c1 ++ b :: c2) = Some (before c1, bk_desc b).
Proof.
  intros Hb. assert (H : forall prev, with_page (bk_page b) prev (c1 ++ b :: c2) = Some (default prev (last (bk_desc <$> c1)), bk_desc b)); [|apply H].
  induction c1 as [|x c1 IH]; intros prev; cbn; [by rewrite decide_True|].
  rewrite decide_False by (apply Hb, list_elem_of_here). rewrite IH by (intros; by apply Hb, list_elem_of_further).
  destruct c1 as [|y c1]; [done|]. cbn [fmap list_fmap]. rewrite last_cons_cons.
  destruct (last (bk_desc y :: _)) eqn:El; [done|]. by apply last_None in El.
Qed.
Lemma find_bucket_run ext A s i size d c1 b c2 sz : malloc_inv ext A s -> bucket_dir s !! i = Some (size, d) ->
  al_chains A !! i = Some (c1 ++ b :: c2) -> sz <= size ->
  find_bucket (bucket_dir s) (page_addr (bk_page b)) sz 0 s = Ok (Some (i, before c1, bk_desc b)) s.
Proof.
  intros I Hi Hc Hsz. pose proof (chain_index _ _ _ _ _ I Hc) as Hi9.
  assert (H : forall l k, (forall m e, l !! m = Some e -> bucket_dir s !! (k + m)%nat = Some e) -> (k <= i < k + length l)%nat ->
    find_bucket l (page_addr (bk_page b)) sz k s = Ok (Some (i, before c1, bk_desc b)) s).
  2: { apply H; [done|]. apply lookup_lt_Some in Hi. lia. }
  induction l as [|[bsize chain] l IH]; intros k Hl Hk; cbn in Hk; [lia|].
  pose proof (Hl 0%nat _ eq_refl) as He. rewrite Nat.add_0_r in He. cbn [find_bucket].
  assert (Hb0 : bsize <> 0).
  { pose proof (chain_size _ _ _ _ _ _ I He ltac:(lia)) as Hs%size_in. destruct (size_cases _ Hs) as (e & Hee & -> & _).
    pose proof (Z.pow_pos_nonneg 2 e). lia. }
  rewrite (proj2 (Z.eqb_neq _ _) Hb0). destruct (decide (k = i)) as [->|Hne].
  - rewrite Hi in He. injection He as <- <-. rewrite (proj2 (Z.ltb_ge _ _) Hsz).
    rewrite (bind_Ok _ _ _ _ _ (find_page_run _ _ _ _ _ _ _ _ I Hi Hc)), with_page_some; [done|].
    intros b' Hb'. apply (other_differs I Hc b'). unfold other_buckets. clear -Hb'. set_solver.
  - assert (Hrec : find_bucket l (page_addr (bk_page b)) sz (S k) s = Ok (Some (i, before c1, bk_desc b)) s).
    { apply IH; [|lia]. intros m e Hm. rewrite <- (Hl (S m) e Hm). f_equal. lia. }
    destruct (bsize <? sz); [exact Hrec|].
    destruct (lookup_lt_is_Some_2 (al_chains A) k) as [c' Hc']; [rewrite (mi_len _ _ _ I); lia|].
    rewrite (bind_Ok _ _ _ _ _ (find_page_run _ _ _ _ _ _ _ _ I He Hc')), with_page_none; [exact Hrec|].
    intros b' Hb'. apply (other_differs I Hc b'). by eapply bucket_other_chain.
Qed.
(** *** free_s *)

Lemma used_more w size b o : size ∈ sizes -> bucket_ok w size b -> o ∈ bucket_objects size (bk_page b) -> o ∉ bk_free b ->
  Z.of_nat (length (bk_free b)) < 4096 / size.
Proof.
  intros Hs Hok Ho Hf. rewrite <- (proj1 (length_objects size (bk_page b) Hs)). apply inj_lt.
  change (length (o :: bk_free b) <= length (bucket_objects size (bk_page b)))%nat. apply submseteq_length, NoDup_submseteq.
  - apply NoDup_cons. split; [done|apply Hok].
  - intros y [->|Hy]%elem_of_cons; [done|by apply (bo_in _ _ _ Hok)].
Qed.
(** The object goes on the free list; only its first word, and the descriptor, change. *)
Lemma wpg_take_back P F ext A s i size d c1 b c2 o (Q : unit -> malloc_state -> Prop) : malloc_inv ext A s ->
  bucket_dir s !! i = Some (size, d) -> al_chains A !! i = Some (c1 ++ b :: c2) -> o ∈ bucket_objects size (bk_page b) -> o ∉ bk_free b ->
  (forall w, malloc_inv ext (with_chain i (c1 ++ Bucket (bk_desc b) (bk_page b) (o :: bk_free b) :: c2) A) (with_memory w s) ->
    (forall a, a <> o -> a <> bd_freeptr (bk_desc b) -> a <> bd_counts (bk_desc b) -> rd w a = rd (memory s) a) -> Q tt (with_memory w s)) ->
  wpg P F (take_back (bk_desc b) o) Q s.
Proof.
  intros I Hi Hc Ho Hf HQ. assert (Hs : size ∈ sizes) by (eapply size_in, chain_size; [exact I|exact Hi|by eapply chain_index]).
  assert (Hbc : b ∈ c1 ++ b :: c2) by set_solver.
  destruct (mi_chain _ _ _ I _ _ _ _ Hi Hc) as [_ Hok]. specialize (Hok b Hbc).
  pose proof (used_more _ _ _ _ Hs Hok Ho Hf) as Hlen. pose proof (length_objects size 0 Hs) as [_ Hn].
  pose proof (bo_counts _ _ _ Hok) as Hcnt. set (x := bk_desc b) in *. destruct offsets as (O0 & O4 & O8 & O12).
  assert (Hb : b ∈ al_buckets A) by (apply (bucket_elem Hc), list_elem_of_here).
  assert (Hbd : desc_at (al_tables A) x) by (by apply (bucket_desc I)).
  assert (Hne : forall y off, y ∈ bucket_objects size (bk_page b) -> off ∈ [0; 4; 8; 12] -> y <> x + off).
  { intros y off Hy Hoff ->. apply (desc_not_bucket I b x off Hb Hbd Hoff). by apply (object_word size). }
  unfold take_back, get_refcnt, set_refcnt. ma_steps. repeat change (memory (with_memory ?w _)) with w.
  set (w1 := <[bd_freeptr x := o]> _).
  assert (Hcw : rd w1 (bd_counts x) = (4096 / size - Z.of_nat (length (bk_free b))) + 2 ^ 16 * size).
  { unfold w1. rewrite rd_insert_ne by (unfold bd_freeptr, bd_counts; lia). rewrite rd_insert_ne by (by apply Hne). exact Hcnt. }
  destruct (counts_word (4096 / size - Z.of_nat (length (bk_free b))) size) as [Er Ez]; [lia|].
  rewrite Hcw, Er, Ez, u16_small by lia. set (w := <[bd_counts x := _]> w1). apply (HQ w).
  - apply (inv_bucket ext A s i size d c1 b c2 (Bucket x (bk_page b) (o :: bk_free b)) w); try done.
    + split; cbn [bk_desc bk_page bk_free].
      * pose proof (Hne o 0 Ho O0) as N0. rewrite Z.add_0_r in N0. unfold w, w1, bd_page, bd_freeptr, bd_counts.
        rewrite !rd_insert_ne by (lia || exact N0). apply Hok.
      * unfold w. rewrite rd_insert_eq. cbn [length]. lia.
      * unfold w, w1. rewrite rd_insert_ne by (unfold bd_freeptr, bd_counts; lia). rewrite rd_insert_eq. cbn. split; [done|].
        rewrite !rd_insert_ne by (apply not_eq_sym; by apply Hne). rewrite rd_insert_eq.
        eapply chained_frame; [|apply Hok]. intros y Hy. pose proof (bo_in _ _ _ Hok y Hy) as Hy'.
        rewrite !rd_insert_ne; [done|congruence|apply not_eq_sym; by apply Hne..].
      * intros y [->|Hy]%elem_of_cons; [done|by apply (bo_in _ _ _ Hok)].
      * apply NoDup_cons. split; [done|apply Hok].
    + intros a N1 N2 Np. unfold w, w1. rewrite !rd_insert_ne by (done || (intros ->; apply Np; by apply (object_word size))). done.
  - intros a No N1 N2. unfold w, w1. by rewrite !rd_insert_ne.
Qed.
Lemma before_snoc c b : before (c ++ [b]) = bk_desc b.
Proof. unfold before. rewrite fmap_app. change (bk_desc <$> [b]) with [bk_desc b]. by rewrite last_snoc. Qed.
Lemma with_map_memory s : ma_mm s = Mm (mem_map (ma_mm s)) (HIGH_MEMORY (ma_mm s)) (memory s).
Proof. by destruct s as [[] ? ?]. Qed.
(** The first bucket of a chain. *)
Lemma unlink_first ext A s i size d b c2 : malloc_inv ext A s -> bucket_dir s !! i = Some (size, d) -> al_chains A !! i = Some (b :: c2) ->
  d = bk_desc b /\ unlinked ext A s b (with_chain i c2 A) (set_dir i (rd (memory s) (bd_next (bk_desc b))) s).
Proof.
  intros I Hi Hc. destruct (mi_chain _ _ _ I _ _ _ _ Hi Hc) as [[Hd Hl] _]. split; [done|].
  destruct (inv_unlink ext A s i size d [] b c2 (set_dir i (rd (memory s) (bd_next (bk_desc b))) s) I Hi Hc) as (I' & H1 & H2 & H3); try done.
  - exact (with_map_memory s).
  - apply I.
  - apply dir_sizes.
  - intros j Hj. apply list_lookup_alter_ne. done.
  - intros d' (d0 & _ & ->)%dir_lookup. by rewrite decide_True.
Qed.
(** A bucket with another before it. *)
Lemma unlink_later ext A s i size d c1 p b c2 : malloc_inv ext A s -> bucket_dir s !! i = Some (size, d) ->
  al_chains A !! i = Some ((c1 ++ [p]) ++ b :: c2) ->
  rd (memory s) (bd_next (bk_desc p)) = bk_desc b /\ bk_desc p <> 0 /\
  unlinked ext A s b (with_chain i ((c1 ++ [p]) ++ c2) A)
    (with_memory (<[bd_next (bk_desc p) := rd (memory s) (bd_next (bk_desc b))]> (memory s)) s).
Proof.
  intros I Hi Hc. destruct (mi_chain _ _ _ I _ _ _ _ Hi Hc) as [Hl _]. destruct offsets as (O0 & O4 & O8 & O12).
  assert (Ec : bk_desc <$> (c1 ++ [p]) ++ b :: c2 = (bk_desc <$> c1) ++ bk_desc p :: bk_desc b :: (bk_desc <$> c2)).
  { rewrite <- app_assoc, fmap_app. done. }
  rewrite Ec in Hl. assert (Hp : desc_at (al_tables A) (bk_desc p)) by (eapply (bucket_desc I), chain_bucket; [exact Hc|set_solver]).
  assert (Hrest : forall a x, desc_at (al_tables A) x -> a <> bd_next x -> rd (<[bd_next x := rd (memory s) (bd_next (bk_desc b))]> (memory s)) a = rd (memory s) a).
  { intros a x _ Ha. by rewrite rd_insert_ne. }
  split_and!.
  - by apply chained_app in Hl as [? _].
  - by eapply desc_positive.
  - destruct (inv_unlink ext A s i size d (c1 ++ [p]) b c2
      (with_memory (<[bd_next (bk_desc p) := rd (memory s) (bd_next (bk_desc b))]> (memory s)) s) I Hi Hc) as (I' & H1 & H2 & H3); try done.
    + apply inv_held_words; [apply I|]. intros a Ha. apply rd_insert_ne. intros <-.
      destruct (table_held _ _ _ _ 4 I Hp O4) as (k & _ & Hk & Hin). by apply (Ha k).
    + intros d0 E. assert (d0 = d) as -> by (change (bucket_dir s !! i = Some (size, d0)) in E; congruence).
      replace (bk_desc <$> (c1 ++ [p]) ++ c2) with ((bk_desc <$> c1) ++ bk_desc p :: (bk_desc <$> c2)) by (rewrite <- app_assoc, fmap_app; done).
      apply linked_skip; [exact Hl|]. pose proof (mi_descs _ _ _ I) as Hn. apply NoDup_app in Hn as (Hn & _).
      unfold al_buckets in Hn. rewrite (concat_at _ _ _ Hc), fmap_app, Ec in Hn. by apply NoDup_app in Hn as (? & _).
    + intros x off Hx Ho Hne. apply rd_insert_ne. intros E. destruct (desc_apart _ _ _ _ _ Hp Hx O4 Ho E) as [<- <-].
      destruct Hne as [Hne|]; [|done]. apply Hne. rewrite fmap_app. set_solver.
    + intros b0 a Hb0 Ha. apply rd_insert_ne. intros <-. apply (desc_not_bucket I b0 (bk_desc p) 4); try done.
      unfold al_buckets in *. cbn in Hb0. rewrite (concat_insert _ _ _ _ Hc) in Hb0. rewrite (concat_at _ _ _ Hc). set_solver.
    + split; try done. intros a Ha. by apply Hrest, Ha.
Qed.
Lemma wpg_unlink P F ext A s i size d c1 b c2 (Q : unit -> malloc_state -> Prop) : malloc_inv ext A s ->
  bucket_dir s !! i = Some (size, d) -> al_chains A !! i = Some (c1 ++ b :: c2) ->
  (forall s', unlinked ext A s b (with_chain i (c1 ++ c2) A) s' -> Q tt s') ->
  wpg P F (unlink_bucket i (before c1) (bk_desc b)) Q s.
Proof.
  intros I Hi Hc HQ. unfold unlink_bucket. apply (wpg_bind_Ok _ _ _ _ _ _ _ _ (get_dir_entry_run _ _ _ Hi)). cbn [snd].
  destruct c1 as [|p c1 _] using rev_ind.
  - destruct (unlink_first _ _ _ _ _ _ _ _ I Hi Hc) as [-> U]. change (truth (before [])) with false. cbn iota.
    apply wpg_bind, wpg_ret. rewrite Z.eqb_refl. cbn [negb]. apply wpg_bind, wpg_ret, wpg_bind, wpg_mload. cbn iota.
    apply wpg_modify. by apply HQ.
  - destruct (unlink_later _ _ _ _ _ _ _ _ _ _ I Hi Hc) as (En & Hp & U). rewrite before_snoc, (proj2 (truth_true _) Hp). cbn iota.
    apply wpg_bind, wpg_bind, wpg_mload. rewrite En, Z.eqb_refl. apply wpg_ret, wpg_bind, wpg_ret, wpg_bind, wpg_mload.
    rewrite (proj2 (truth_true _) Hp). apply wpg_mstore. by apply HQ.
Qed.
Lemma wpg_release P F ext A s i size d c1 b c2 (Q : unit -> malloc_state -> Prop) : malloc_inv ext A s ->
  bucket_dir s !! i = Some (size, d) -> al_chains A !! i = Some (c1 ++ b :: c2) ->
  (forall s' l, malloc_inv (bump ext (bk_page b) (-1)) (with_spare l (with_chain i (c1 ++ c2) A)) s' -> only_descs A s s' ->
    bk_page b ∉ al_pages (with_chain i (c1 ++ c2) A) -> mem_map (ma_mm s') = alter Z.pred (bk_page b) (mem_map (ma_mm s)) -> Q tt s') ->
  wpg P F (release_bucket i (before c1) (bk_desc b)) Q s.
Proof.
  intros I Hi Hc HQ. destruct offsets as (O0 & O4 & O8 & O12). set (x := bk_desc b) in *.
  assert (Hb : b ∈ al_buckets A) by (apply (bucket_elem Hc), list_elem_of_here).
  unfold release_bucket. apply wpg_bind. eapply wpg_unlink; [exact I|exact Hi|exact Hc|].
  intros s1 [I1 Hxd Hj Hx Hhi Hmap Hrest]. set (A1 := with_chain i (c1 ++ c2) A) in *.
  assert (Ep : rd (memory s1) (bd_page x) = page_addr (bk_page b)).
  { rewrite Hrest.
    - destruct (mi_chain _ _ _ I _ _ _ _ Hi Hc) as [_ Hok]. apply (bo_page _ _ _ (Hok b ltac:(set_solver))).
    - intros y Hy E. destruct (desc_apart _ y x 4 0 Hy (bucket_desc I b Hb) O4 O0); [|done]. unfold bd_page, bd_next in E. lia. }
  apply wpg_bind, wpg_mload. rewrite Ep. apply wpg_bind, wpg_in_mm.
  destruct (mi_held _ _ _ I (bk_page b)) as [He Hh]; [apply elem_of_app; right; by apply list_elem_of_fmap_2|].
  eapply wpg_give_page; [apply I1|exact He|by rewrite Hhi|]. intros m Im Ew Eh Emap. set (s2 := MallocState m _ _).
  assert (Em : memory s2 = memory s1) by exact Ew.
  assert (I2 : malloc_inv (bump ext (bk_page b) (-1)) A1 s2).
  { eapply inv_agree; [exact I1|exact Im|done|done| |by rewrite Em]. intros k Hk. destruct (mi_held _ _ _ I1 k Hk) as [H1 H2].
    split; [rewrite bump_ne; [done|congruence]|]. change (page_addr k < HIGH_MEMORY m). by rewrite Eh. }
  apply wpg_bind, wpg_gets, wpg_bind, wpg_mstore, wpg_modify. change (set_field free_bucket_desc _ ?s) with (set_spare x s).
  apply (HQ _ ([x] ++ al_spare A1)).
  - apply (inv_push _ A1 _ [x]); [by apply (inv_orphan _ _ s2 x 4)|apply NoDup_singleton|by intros y ->%list_elem_of_singleton|].
    cbn [app chained]. split; [done|]. change (memory (with_memory ?w _)) with w. unfold bd_next at 1 3. rewrite rd_insert_eq.
    apply (mi_spare _ _ _ (inv_orphan _ _ s2 x 4 (free_bucket_desc s2) I2 Hx Hxd O4)).
  - intros a Ha. change (rd (<[bd_next x := free_bucket_desc s2]> (memory s2)) a = rd (memory s) a).
    rewrite rd_insert_ne by (apply not_eq_sym; by apply (Ha x 4)). rewrite Em. apply Hrest. intros y Hy. by apply (Ha y 4).
  - exact Hj.
  - rewrite <- Hmap. exact Emap.
Qed.
Lemma object_page size j o : size ∈ sizes -> (j < PAGING_PAGES)%nat -> o ∈ bucket_objects size j -> Z.land o FRAME = page_addr j.
Proof.
  intros Hs Hj Ho. destruct (object_in_page _ _ _ Hs Ho) as [H1 H2]. rewrite Z.land_comm. change (Z.land FRAME o) with (frame o).
  destruct (size_cases _ Hs) as (e & He & Es & _). assert (0 < size) by (rewrite Es; apply Z.pow_pos_nonneg; lia).
  rewrite frame_shift. unfold page_addr, LOW_MEM in *. change PAGING_PAGES with 3840%nat in Hj.
  assert (Eq : o / 4096 = 256 + Z.of_nat j) by (Z.to_euclidean_division_equations; lia).
  rewrite Eq, Z.mod_small by lia. lia.
Qed.
Lemma all_free w size b o : size ∈ sizes -> bucket_ok w size b -> Z.of_nat (length (bk_free b)) = 4096 / size ->
  o ∈ bucket_objects size (bk_page b) -> o ∈ bk_free b.
Proof.
  intros Hs Hok Hl Ho. destruct (decide (o ∈ bk_free b)) as [|Hn]; [done|]. pose proof (used_more _ _ _ _ Hs Hok Ho Hn). lia.
Qed.
(** Putting [o] on the free list takes it out of use, and nothing else. *)
Lemma taken_back_use ext A s ext' s' i size d c1 b c2 o A' : malloc_inv ext A s -> bucket_dir s !! i = Some (size, d) ->
  al_chains A !! i = Some (c1 ++ b :: c2) -> o ∈ bucket_objects size (bk_page b) -> malloc_inv ext' A' s' ->
  al_chains A' = <[i := c1 ++ Bucket (bk_desc b) (bk_page b) (o :: bk_free b) :: c2]> (al_chains A) ->
  forall o' z, in_use A' o' z <-> in_use A o' z /\ o' <> o.
Proof.
  intros I Hi Hc Ho I' Hc' o' z. assert (Hs : sizes !! i = Some size) by (eapply chain_size; [exact I|exact Hi|exact (chain_index _ _ _ _ _ I Hc)]).
  set (b' := Bucket (bk_desc b) (bk_page b) (o :: bk_free b)) in *.
  assert (Hci : al_chains A' !! i = Some (c1 ++ b' :: c2)) by (rewrite Hc'; apply list_lookup_insert_eq; by eapply lookup_lt_Some).
  assert (Hn : forall z, ~ in_use A' o z).
  { intros y. eapply (free_not_used _ _ _ i size _ b' _ _ I' Hs Hci); [set_solver|exact Ho|apply list_elem_of_here]. }
  destruct (decide (o' = o)) as [->|Hne]; [split; [by intros ?%Hn|by intros [_ ?]]|].
  destruct (decide (z = size)) as [->|Hz].
  - rewrite (in_use_at _ _ _ _ _ Hs Hci), (in_use_at _ _ _ _ _ Hs Hc). split.
    + intros (b0 & [Hb0|[->|Hb0]%elem_of_cons]%elem_of_app & Ho' & Hf'); (split; [|done]).
      * exists b0. split; [clear -Hb0; set_solver|done].
      * apply not_elem_of_cons in Hf' as [_ Hf']. exists b. split; [set_solver|done].
      * exists b0. split; [clear -Hb0; set_solver|done].
    + intros [(b0 & [Hb0|[->|Hb0]%elem_of_cons]%elem_of_app & Ho' & Hf') _].
      * exists b0. split; [clear -Hb0; set_solver|done].
      * exists b'. split_and!; [set_solver|done|by apply not_elem_of_cons].
      * exists b0. split; [clear -Hb0; set_solver|done].
  - rewrite (in_use_other A A' i _ size o' z Hs Hc' Hz). naive_solver.
Qed.
(** A bucket all of whose objects are free leaves nothing behind. *)
Lemma in_use_released ext A s i size d c1 b c2 A' : malloc_inv ext A s -> bucket_dir s !! i = Some (size, d) ->
  al_chains A !! i = Some (c1 ++ b :: c2) -> Z.of_nat (length (bk_free b)) = 4096 / size -> al_chains A' = <[i := c1 ++ c2]> (al_chains A) ->
  forall o z, in_use A' o z <-> in_use A o z.
Proof.
  intros I Hi Hc Hl Hc' o z. assert (Hs : sizes !! i = Some size) by (eapply chain_size; [exact I|exact Hi|exact (chain_index _ _ _ _ _ I Hc)]).
  destruct (decide (z = size)) as [->|Hz]; [|by apply (in_use_other A A' i (c1 ++ c2) size)].
  rewrite (in_use_at A' i (c1 ++ c2) _ _ Hs), (in_use_at _ _ _ _ _ Hs Hc) by (rewrite Hc'; apply list_lookup_insert_eq; by eapply lookup_lt_Some).
  split.
  - intros (b0 & Hb0 & ?). exists b0. split; [clear -Hb0; set_solver|done].
  - intros (b0 & [Hb0|[->|Hb0]%elem_of_cons]%elem_of_app & Ho & Hf); [exists b0; split; [clear -Hb0; set_solver|done]| |exists b0; split; [clear -Hb0; set_solver|done]].
    exfalso. apply Hf. destruct (mi_chain _ _ _ I _ _ _ _ Hi Hc) as [_ Hok]. apply (all_free (memory s) size); [by eapply size_in|apply Hok; set_solver|done|done].
Qed.
(** The words of the objects in use, when only [o] and descriptors changed. *)
Lemma descs_undisturbed ext A s o z A' s' : malloc_inv ext A s -> in_use A o z ->
  (forall o' z', in_use A' o' z' <-> in_use A o' z' /\ o' <> o) ->
  (forall a, a <> o -> (forall x off, desc_at (al_tables A) x -> off ∈ [0; 4; 8; 12] -> a <> x + off) -> rd (memory s') a = rd (memory s) a) ->
  undisturbed A' s s'.
Proof.
  intros I Ho Hu Hw o' z' k [Ho' Hne]%Hu Hk Hk'. pose proof (in_use_apart _ _ _ _ _ _ _ I Ho Ho' (not_eq_sym Hne)) as Hap.
  destruct Ho as (i0 & c0 & Hs0 & _ & _). destruct (size_cases _ (size_in _ _ Hs0)) as (e & He & Es & _).
  assert (0 < z) by (rewrite Es; apply Z.pow_pos_nonneg; lia).
  destruct Ho' as (i & c & Hs & Hc & Hin). destruct (in_chain_bucket _ _ _ _ _ Hc Hin) as (b & Hb & Hob & _ & _).
  apply Hw; [lia|]. intros x off Hx Hoff E. apply (desc_not_bucket I b x off Hb Hx Hoff). rewrite <- E.
  apply (object_words z'); [by eapply size_in|done|done|done].
Qed.
Lemma wpg_last_object P F ext A s i size d c1 b c2 (Q : unit -> malloc_state -> Prop) : malloc_inv ext A s ->
  bucket_dir s !! i = Some (size, d) -> al_chains A !! i = Some (c1 ++ b :: c2) ->
  (forall ext' A' s', malloc_inv ext' A' s' -> (forall o z, in_use A' o z <-> in_use A o z) -> only_descs A s s' ->
    (if decide (Z.of_nat (length (bk_free b)) = 4096 / size) then page_returned else pages_kept) ext s (bk_page b) ext' A' s' -> Q tt s') ->
  wpg P F (c ← get_refcnt (bk_desc b); when (c =? 0) (release_bucket i (before c1) (bk_desc b))) Q s.
Proof.
  intros I Hi Hc HQ. assert (Hs : size ∈ sizes) by (eapply size_in, chain_size; [exact I|exact Hi|exact (chain_index _ _ _ _ _ I Hc)]).
  destruct (mi_chain _ _ _ I _ _ _ _ Hi Hc) as [_ Hok]. specialize (Hok b ltac:(set_solver)).
  pose proof (free_objects_length _ _ _ Hs Hok). pose proof (length_objects size 0 Hs) as [_ Hn].
  unfold get_refcnt. apply wpg_bind, wpg_bind, wpg_mload. rewrite (bo_counts _ _ _ Hok), (proj1 (counts_word (4096 / size - Z.of_nat (length (bk_free b))) size ltac:(lia))).
  apply wpg_ret, wpg_when; intros Hz.
  - apply Z.eqb_eq in Hz. eapply wpg_release; [exact I|exact Hi|exact Hc|]. intros s' l I' Hd Hp Hm. eapply HQ; [exact I'| |exact Hd|].
    + intros o z. eapply (in_use_released _ _ _ _ _ _ _ b); [exact I|exact Hi|exact Hc|lia|done].
    + rewrite decide_True by lia. by split_and!.
  - apply Z.eqb_neq in Hz. apply (HQ ext A); [done|done|done|]. rewrite decide_False by lia. split_and!; [|done|done].
    apply elem_of_app. right. apply list_elem_of_fmap_2, (bucket_elem Hc), list_elem_of_here.
Qed.
(** Where an object in use is. *)
Lemma in_use_where ext A s o size : malloc_inv ext A s -> in_use A o size -> exists i d c1 b c2, bucket_dir s !! i = Some (size, d) /\
  al_chains A !! i = Some (c1 ++ b :: c2) /\ size ∈ sizes /\ o ∈ bucket_objects size (bk_page b) /\ (o ∉ bk_free b) /\
  b ∈ al_buckets A /\ Z.land o FRAME = page_addr (bk_page b).
Proof.
  intros I (i & c & Hs & Hc & b & Hb & Ho & Hf). apply list_elem_of_split in Hb as (c1 & c2 & ->).
  assert (Hba : b ∈ al_buckets A) by (apply (bucket_elem Hc), list_elem_of_here).
  assert (E : (bucket_dir s).*1 !! i = Some size) by (rewrite (mi_sizes _ _ _ I); by apply lookup_app_l_Some).
  rewrite list_lookup_fmap in E. destruct (bucket_dir s !! i) as [[y d]|] eqn:Hi; [|done]. injection E as ->.
  exists i, d, c1, b, c2. split_and!; try done; [by eapply size_in|]. apply (object_page size); [by eapply size_in| |done].
  eapply held_index; [apply I|]. apply (mi_held _ _ _ I), elem_of_app. right. by apply list_elem_of_fmap_2.
Qed.
(** The free list of a bucket is full when no object but [o] is in use. *)
Lemma last_in_full ext A s i size d c1 b c2 o : malloc_inv ext A s -> bucket_dir s !! i = Some (size, d) ->
  al_chains A !! i = Some (c1 ++ b :: c2) -> o ∈ bucket_objects size (bk_page b) -> o ∉ bk_free b -> (bk_page b < PAGING_PAGES)%nat ->
  last_in_page A o <-> Z.of_nat (length (o :: bk_free b)) = 4096 / size.
Proof.
  intros I Hi Hc Ho Hf Hj. assert (Hs : sizes !! i = Some size) by (eapply chain_size; [exact I|exact Hi|exact (chain_index _ _ _ _ _ I Hc)]).
  pose proof (size_in _ _ Hs) as Hs'. destruct (mi_chain _ _ _ I _ _ _ _ Hi Hc) as [_ Hok]. specialize (Hok b ltac:(set_solver)).
  destruct (length_objects size (bk_page b) Hs') as [El _]. split.
  - intros Hl. rewrite <- El. apply inj_eq, Permutation_length, NoDup_Permutation.
    + apply NoDup_cons. split; [done|apply Hok].
    + apply objects_nodup. exact Hs'.
    + intros y. split; [intros [->|Hy]%elem_of_cons; [done|by apply (bo_in _ _ _ Hok)]|].
      intros Hy. destruct (decide (y ∈ bk_free b)) as [|Hn]; [by apply elem_of_cons; right|]. apply elem_of_cons. left.
      apply (Hl y size); [|by rewrite !(object_page size (bk_page b))].
      apply (in_use_at _ _ _ _ _ Hs Hc). exists b. split_and!; [set_solver|done|done].
  - intros Hl o' z Hu Ep. destruct (in_use_where _ _ _ _ _ I Hu) as (i' & d' & c1' & b' & c2' & Hi' & Hc' & Hs2 & Ho' & Hf' & Hb' & Ep').
    rewrite Ep', (object_page size (bk_page b)) in Ep by done. apply page_addr_inj in Ep.
    assert (b' = b) as ->. { apply (bucket_unique _ _ _ _ _ I); [done|apply (bucket_elem Hc), list_elem_of_here|done]. }
    assert (i' = i) as ->. { eapply (chain_unique _ _ _ _ _ _ _ b I Hc' Hc); set_solver. }
    rewrite Hi in Hi'. injection Hi' as <- <-. destruct (decide (o' = o)) as [|Hne]; [done|]. exfalso.
    assert (Hlt : (length (o' :: o :: bk_free b) <= length (bucket_objects size (bk_page b)))%nat).
    { apply submseteq_length, NoDup_submseteq.
      - apply NoDup_cons. split; [by intros [?|?]%elem_of_cons|]. apply NoDup_cons. split; [done|apply Hok].
      - intros y [->|[->|Hy]%elem_of_cons]%elem_of_cons; [done|done|by apply (bo_in _ _ _ Hok)]. }
    cbn [length] in *. lia.
Qed.
Lemma wpg_free_s ext A s o size sz : malloc_inv ext A s -> in_use A o size -> sz <= size ->
  wpg (fun _ _ => False) False (free_s o sz) (fun _ => free_done ext A s o) s.
Proof.
  intros I Hu Hsz. destruct (in_use_where _ _ _ _ _ I Hu) as (i & d & c1 & b & c2 & Hi & Hc & Hs & Ho & Hf & Hba & Ep).
  unfold free_s. rewrite Ep. apply wpg_bind, wpg_gets, (wpg_bind_Ok _ _ _ _ _ _ _ _ (find_bucket_run _ _ _ _ _ _ _ _ _ _ I Hi Hc Hsz)). cbn iota.
  apply wpg_bind. eapply wpg_take_back; [exact I|exact Hi|exact Hc|exact Ho|exact Hf|]. intros w I1 Hw.
  set (b' := Bucket (bk_desc b) (bk_page b) (o :: bk_free b)) in *. set (A1 := with_chain i (c1 ++ b' :: c2) A) in *.
  assert (Hu1 : forall o' z, in_use A1 o' z <-> in_use A o' z /\ o' <> o) by (by eapply taken_back_use).
  assert (Hc1 : al_chains A1 !! i = Some (c1 ++ b' :: c2)) by (apply list_lookup_insert_eq; by eapply lookup_lt_Some).
  apply (wpg_last_object _ _ ext A1 (with_memory w s) i size d c1 b' c2); [exact I1|exact Hi|exact Hc1|].
  intros ext' A' s' I' Hu' Hd Hp. exists ext', A', (bk_page b).
  assert (Huse : forall o' z, in_use A' o' z <-> in_use A o' z /\ o' <> o) by (intros; by rewrite Hu', Hu1).
  assert (Hj : (bk_page b < PAGING_PAGES)%nat) by (eapply held_index; [apply I|]; apply (mi_held _ _ _ I), elem_of_app; right; by apply list_elem_of_fmap_2).
  pose proof (last_in_full _ _ _ _ _ _ _ _ _ _ I Hi Hc Ho Hf Hj) as Hl.
  split_and!; [exact I'|exact Huse| |done| |].
  - eapply descs_undisturbed; [exact I|exact Hu|exact Huse|]. intros a Ha Hx. destruct offsets as (O0 & O4 & O8 & O12).
    pose proof (bucket_desc I b Hba) as Hbd. rewrite (Hd a Hx). apply Hw; [done|by apply (Hx (bk_desc b) 8)|by apply (Hx (bk_desc b) 12)].
  - intros Hlast. rewrite decide_True in Hp by (by apply Hl). exact Hp.
  - intros Hlast. rewrite decide_False in Hp by (by intros ?%Hl). exact Hp.
Qed.
(** *** The life of the allocator *)

Lemma find_dir_none l len k ss : l.*1 = ss ++ [0] -> (forall z, z ∈ ss -> 0 < z < 2 ^ 32 /\ z < len) -> find_dir l len k = None.
Proof.
  revert l k. induction ss as [|a ss IH]; intros l k El Hz; (destruct l as [|[a' d] l]; cbn in El; [done|]); injection El as -> El; [done|].
  destruct (Hz a (list_elem_of_here _ _)) as [Ha Hl]. cbn [find_dir]. rewrite (proj2 (Z.eqb_neq _ _)), u32_small, (proj2 (Z.leb_gt _ _)) by lia.
  apply IH; [done|]. intros z Hz'. by apply Hz, list_elem_of_further.
Qed.
Lemma malloc_too_large ext A s len : malloc_inv ext A s -> 4096 < len -> malloc len s = Panic "malloc: bad arg" s.
Proof.
  intros I Hl. unfold malloc. rewrite (bind_Ok _ _ s (bucket_dir s) s) by done.
  rewrite (find_dir_none _ _ _ sizes (mi_sizes _ _ _ I)); [done|]. intros z (e & He & -> & _)%size_cases.
  assert (2 ^ e <= 2 ^ 12) by (apply Z.pow_le_mono_r; lia). pose proof (Z.pow_pos_nonneg 2 e). change (2 ^ 12) with 4096 in *. lia.
Qed.
Lemma with_chain_id i c A : al_chains A !! i = Some c -> with_chain i c A = A.
Proof. intros Hc. unfold with_chain. rewrite list_insert_id by done. by destruct A. Qed.
(** Writes to an object in use do not disturb the allocator. *)
Lemma inv_object_write ext A s o size k v : malloc_inv ext A s -> in_use A o size -> 0 <= k -> 4 * k < size ->
  malloc_inv ext A (with_memory (<[o + 4 * k := v]> (memory s)) s).
Proof.
  intros I Hu Hk Hk'. destruct (in_use_where _ _ _ _ _ I Hu) as (i & d & c1 & b & c2 & Hi & Hc & Hs & Ho & Hf & Hba & _).
  pose proof (object_words _ _ _ _ Hs Ho Hk Hk') as Hw. destruct offsets as (O0 & O4 & O8 & O12). pose proof (bucket_desc I b Hba) as Hbd.
  assert (Hnd : forall off, off ∈ [0; 4; 8; 12] -> o + 4 * k <> bk_desc b + off).
  { intros off Ho' E. apply (desc_not_bucket I b (bk_desc b) off Hba Hbd Ho'). by rewrite <- E. }
  rewrite <- (with_chain_id i (c1 ++ b :: c2) A Hc) at 1. destruct (mi_chain _ _ _ I _ _ _ _ Hi Hc) as [_ Hok].
  specialize (Hok b ltac:(set_solver)). apply (inv_bucket ext A s i size d c1 b c2 b); try done.
  - pose proof (Hnd 0 O0) as N0. rewrite Z.add_0_r in N0. eapply bucket_ok_frame; [..|exact Hok]; try (apply rd_insert_ne).
    + exact N0.
    + exact (Hnd 12 O12).
    + exact (Hnd 8 O8).
    + intros y Hy. apply rd_insert_ne. assert (y <> o) as Hne by congruence.
      destruct (objects_apart size _ _ _ Hs (bo_in _ _ _ Hok y Hy) Ho Hne); lia.
  - intros a _ _ Ha. apply rd_insert_ne. by intros <-.
Qed.
Lemma boot_malloc_inv ext m : mm_inv ext m -> malloc_inv ext boot_alloc (MallocState m boot_bucket_dir 0).
Proof.
  intros I. split; try done.
  - intros i size d c Hi Hc. apply lookup_replicate in Hc as [-> Hlt].
    assert (d = 0) as ->; [|split; [done|by intros b ?%not_elem_of_nil]].
    do 9 (destruct i as [|i]; [by injection Hi|]). lia.
  - apply NoDup_nil_2.
  - by intros d ?%not_elem_of_nil.
  - apply NoDup_nil_2.
  - by intros i ?%not_elem_of_nil.
Qed.
Lemma accounted_malloc A A' live o size len : accounted A live -> allocated A o size A' -> len <= size -> accounted A' ((o, len) :: live).
Proof.
  intros [Hl Hu Hn] [Ha _ Hs] Hle. split.
  - intros o' len' [[= -> ->]|Hin]%elem_of_cons; [exists size; split; [done|apply Hs; by right]|].
    destruct (Hl _ _ Hin) as (z & Hz & Hi). exists z. split; [done|apply Hs; by left].
  - intros o' z [Hi|[-> _]]%Hs; cbn; apply elem_of_cons; [right; by eapply Hu|by left].
  - cbn. apply NoDup_cons. split; [|done]. intros ([o' len'] & E & Hin)%list_elem_of_fmap. cbn in E. subst o'.
    destruct (Hl _ _ Hin) as (z & _ & Hi). by apply (Ha z).
Qed.
Lemma accounted_free A A' l1 o len l2 : accounted A (l1 ++ (o, len) :: l2) -> (forall o' z, in_use A' o' z <-> in_use A o' z /\ o' <> o) ->
  accounted A' (l1 ++ l2).
Proof.
  intros [Hl Hu Hn] Hs. assert (Ep : (l1 ++ (o, len) :: l2).*1 ≡ₚ o :: (l1 ++ l2).*1).
  { rewrite <- Permutation_middle. done. }
  rewrite Ep in Hn. apply NoDup_cons in Hn as [Ho Hn]. split; [| |done].
  - intros o' len' Hin. destruct (Hl o' len') as (z & Hz & Hi); [clear -Hin; set_solver|]. exists z. split; [done|]. apply Hs. split; [done|].
    intros ->. apply Ho. apply list_elem_of_fmap. by exists (o, len').
  - intros o' z [Hi Hne]%Hs. apply Hu in Hi. rewrite Ep in Hi. by apply elem_of_cons in Hi as [->|Hi].
Qed.
Lemma live_size A live o len sz : accounted A live -> (o, len) ∈ live -> sz = 0 \/ sz = len ->
  exists size, in_use A o size /\ len <= size /\ sz <= size.
Proof.
  intros Ac Hin Hsz. destruct (av_live _ _ Ac _ _ Hin) as (size & Hle & Hu). exists size. split_and!; [done|done|].
  destruct Hsz as [->| ->]; [|done]. destruct Hu as (i & c & Hs%size_in & _). destruct (size_cases _ Hs) as (e & He & -> & _). apply Z.pow_nonneg. lia.
Qed.
Lemma history_inv live s : history live s -> exists ext A, malloc_inv ext A s /\ accounted A live.
Proof.
  induction 1 as [ext m Im|live s len o s' _ (ext & A & I & Ac) Hlen E|l1 o len l2 s sz s' _ (ext & A & I & Ac) Hsz E|live s o len k v _ (ext & A & I & Ac) Hin Hk Hk'].
  - exists ext, boot_alloc. split; [by apply boot_malloc_inv|]. assert (Hno : forall o z, ~ in_use boot_alloc o z).
    { intros o z (i & c & _ & Hc & b & Hb & _). apply lookup_replicate in Hc as [-> _]. by apply not_elem_of_nil in Hb. }
    split; [by intros o len ?%not_elem_of_nil|by intros o z ?%Hno|apply NoDup_nil_2].
  - pose proof (wpg_malloc _ _ _ _ I Hlen) as W. unfold wpg in W. rewrite E in W. destruct W as (ext' & A' & size & I' & _ & (_ & Hle & _) & Ha & _).
    exists ext', A'. split; [done|]. by eapply accounted_malloc.
  - destruct (live_size _ _ o len sz Ac) as (size & Hu & _ & Hsz'); [set_solver|done|].
    pose proof (wpg_free_s _ _ _ _ _ _ I Hu Hsz') as W. unfold wpg in W. rewrite E in W. destruct W as (ext' & A' & _ & I' & Hs & _).
    exists ext', A'. split; [done|]. by eapply accounted_free.
  - destruct (av_live _ _ Ac _ _ Hin) as (size & Hle & Hu). exists ext, A. split; [|done]. apply (inv_object_write _ _ _ _ size); [done|done|done|lia].
Qed.
(** C6: [malloc] of at most a page returns an object of the smallest bucket
    size that is large enough.  The object was in use by nobody and overlaps no
    object in use; exactly it is in use afterwards; the words of the objects in
    use are unchanged; and the buckets, chains, free lists and counts are
    consistent again, with at most two pages more in use.  It panics when more
    than a page is asked for, and else only when fewer than two pages are free. *)
Theorem malloc_spec ext A s len : malloc_inv ext A s -> 0 <= len ->
  if len <=? 4096 then
    match malloc len s with Ok o s' => malloc_done ext A s len o s' | Panic _ _ => few_free_pages s | _ => False end
  else malloc len s = Panic "malloc: bad arg" s.
Proof.
  intros I Hlen. destruct (Z.leb_spec len 4096) as [Hl|Hl]; [|by eapply malloc_too_large].
  pose proof (wpg_malloc _ _ _ _ I (conj Hlen Hl)) as W. revert W. unfold wpg. by destruct (malloc len s).
Qed.
(** C7: [free_s] of an object in use, its size given or 0 (or any value up to
    the size of its bucket), returns: afterwards exactly this object is not in
    use any more, the words of all the others are unchanged, and the structure
    is consistent.  If it was the last object in use of its page, the page is
    given back: its count in [mem_map] goes down by one and the allocator
    neither holds it nor has it in a bucket any more; otherwise [mem_map] and
    what the allocator holds are as before. *)
Theorem free_s_spec ext A s o size sz : malloc_inv ext A s -> in_use A o size -> sz <= size ->
  exists s', free_s o sz s = Ok tt s' /\ free_done ext A s o s'.
Proof.
  intros I Hu Hsz. pose proof (wpg_free_s _ _ _ _ _ _ I Hu Hsz) as W. revert W. unfold wpg.
  destruct (free_s o sz s) as [[] s'| | | |]; try done. by exists s'.
Qed.
(** C22: through any sequence of calls of [malloc] and [free_s] from start-up,
    with writes by the kernel to the objects it has been given, the objects
    handed out and not given back never overlap, none is handed out twice, and
    giving one back never panics. *)
Theorem live_objects_apart live s : history live s ->
  NoDup live.*1 /\
  (forall o len o' len', (o, len) ∈ live -> (o', len') ∈ live -> o <> o' -> o + len <= o' \/ o' + len' <= o) /\
  (forall o len sz, (o, len) ∈ live -> sz = 0 \/ sz = len -> exists s', free_s o sz s = Ok tt s').
Proof.
  intros (ext & A & I & Ac)%history_inv. split_and!; [apply Ac| |].
  - intros o len o' len' Hin Hin' Hne. destruct (av_live _ _ Ac _ _ Hin) as (z & Hz & Hu). destruct (av_live _ _ Ac _ _ Hin') as (z' & Hz' & Hu').
    destruct (in_use_apart _ _ _ _ _ _ _ I Hu Hu' Hne); lia.
  - intros o len sz Hin Hsz. destruct (live_size _ _ _ _ _ Ac Hin Hsz) as (size & Hu & _ & Hsz').
    pose proof (wpg_free_s _ _ _ _ _ _ I Hu Hsz') as W. revert W. unfold wpg. destruct (free_s o sz s) as [[] s'| | | |]; try done. by exists s'.
Qed.
(** *** From start-up *)

Lemma boot_pages : exists m, mm_inv boot_ext m /\ forall i, (768 <= i < 3840)%nat -> mem_map m !! i = Some 0.
Proof.
  destruct boot_state as (m & _ & I & Ew). exists m. split; [exact I|]. intros i Hi. exact (boot_free m i I Ew Hi).
Qed.
Lemma wpg_no_panic {S B} (P : string -> S -> Prop) (c : M S B) Q s : (forall msg s', ~ P msg s') -> wpg P False c Q s -> wp c Q s.
Proof. unfold wp, wpg. intros HP. destruct (c s); try done. by apply HP. Qed.
(** With two free pages [malloc] returns, and takes two at most. *)
Lemma still_free l t s s' : free_pages l s -> same_map t s s' -> exists l', free_pages l' s' /\ (length l <= length l' + length t)%nat.
Proof.
  intros [Hnd Hf] Hm. exists (filter (fun i => i ∉ t) l). split; [split; [by apply NoDup_filter|]|].
  - intros i [Hi Hl]%list_elem_of_filter. rewrite Hm by done. by apply Hf.
  - rewrite <- length_app. apply submseteq_length, NoDup_submseteq; [done|]. intros i Hi. apply elem_of_app.
    destruct (decide (i ∈ t)); [by right|left]. by apply list_elem_of_filter.
Qed.
Lemma malloc_runs ext A s len l : malloc_inv ext A s -> 0 <= len <= 4096 -> free_pages l s -> (2 <= length l)%nat ->
  exists o s' l', malloc len s = Ok o s' /\ malloc_done ext A s len o s' /\ free_pages l' s' /\ (length l <= length l' + 2)%nat.
Proof.
  intros I Hlen Hf Hl.
  assert (W : wp (malloc len) (malloc_done ext A s len) s).
  { eapply wpg_no_panic; [|by apply wpg_malloc]. intros _ _ Hfew. destruct Hf as [Hnd Hf]. destruct l as [|i [|j l]]; [cbn in Hl; lia|cbn in Hl; lia|].
    apply NoDup_cons in Hnd as [Hi _]. apply Hi. rewrite (Hfew i j) by (apply Hf; set_solver). apply list_elem_of_here. }
  destruct (wp_outcome _ _ _ W) as (o & s' & E & D). pose proof D as (_ & _ & _ & _ & _ & _ & _ & _ & t & Ht & Hm).
  destruct (still_free _ _ _ _ Hf Hm) as (l' & Hf' & Hl'). exists o, s', l'. split_and!; [exact E|exact D|exact Hf'|lia].
Qed.
(** The first object after start-up, and a second one. *)
Lemma first_object : exists m o s l, malloc_inv boot_ext boot_alloc (MallocState m boot_bucket_dir 0) /\ mm_inv boot_ext m /\
  malloc 100 (MallocState m boot_bucket_dir 0) = Ok o s /\ malloc_done boot_ext boot_alloc (MallocState m boot_bucket_dir 0) 100 o s /\
  free_pages l s /\ (2 <= length l)%nat.
Proof.
  destruct boot_pages as (m & Im & Hm). pose proof (boot_malloc_inv _ _ Im) as I.
  assert (Hf : free_pages [1000; 1001; 1002; 1003]%nat (MallocState m boot_bucket_dir 0)).
  { split; [by apply (bool_decide_unpack _)|]. intros i Hi. apply Hm. clear -Hi.
    repeat (apply elem_of_cons in Hi as [->|Hi]; [lia|]). by apply not_elem_of_nil in Hi. }
  destruct (malloc_runs _ _ _ 100 _ I ltac:(lia) Hf ltac:(cbn; lia)) as (o & s & l & E & D & Hl & Hn).
  assert (Hn' : (2 <= length l)%nat) by (clear -Hn; cbn in Hn; lia). exists m, o, s, l. exact (conj I (conj Im (conj E (conj D (conj Hl Hn'))))).
Qed.
Lemma two_objects : exists o1 o2 s, history [(o2, 20); (o1, 100)] s /\ o2 <> o1.
Proof.
  destruct first_object as (m & o1 & s1 & l & _ & Im & E1 & (ext & A & size & I1 & _ & _ & Ha & _) & Hl & Hn).
  destruct (malloc_runs _ _ _ 20 _ I1 ltac:(lia) Hl Hn) as (o2 & s2 & _ & E2 & (ext2 & A2 & size2 & _ & _ & _ & Ha2 & _) & _ & _).
  exists o1, o2, s2. split.
  - apply (h_malloc _ s1); [|lia|exact E2]. apply (h_malloc _ _ 100 o1 s1 (h_boot _ _ Im)); [lia|exact E1].
  - intros ->. apply (ac_new _ _ _ _ Ha2 size). apply (ac_use _ _ _ _ Ha). by right.
Qed.
Lemma outcome_Ok {S B} (m : M S B) s a s' (b : bool) (D : B -> S -> Prop) (P X : Prop) :
  (if b then match m s with Ok a' t => D a' t | Panic _ _ => P | _ => False end else X) -> b = true -> m s = Ok a s' -> D a s'.
Proof. intros H -> E. by rewrite E in H. Qed.
Lemma malloc_spec_witness : exists m o s, malloc_inv boot_ext boot_alloc (MallocState m boot_bucket_dir 0) /\
  malloc 100 (MallocState m boot_bucket_dir 0) = Ok o s /\ malloc_done boot_ext boot_alloc (MallocState m boot_bucket_dir 0) 100 o s.
Proof.
  destruct first_object as (m & o & s & _ & I & _ & E & _). exists m, o, s. set (s0 := MallocState m boot_bucket_dir 0) in *. clearbody s0.
  exact (conj I (conj E (outcome_Ok (malloc 100) s0 o s (100 <=? 4096) (malloc_done boot_ext boot_alloc s0 100) (few_free_pages s0) (malloc 100 s0 = Panic "malloc: bad arg" s0)
    (malloc_spec boot_ext boot_alloc s0 100 I ltac:(lia)) eq_refl E))).
Defined.
Lemma free_s_spec_witness : exists ext A s o size s', malloc_inv ext A s /\ in_use A o size /\ 0 <= size /\
  free_s o 0 s = Ok tt s' /\ free_done ext A s o s'.
Proof.
  destruct first_object as (m & o & s & l & _ & _ & _ & (ext & A & size & I & _ & (_ & Hle & _) & Ha & _) & _ & _).
  assert (Hu : in_use A o size) by (apply (ac_use _ _ _ _ Ha); by right). assert (Hs : 0 <= size) by lia.
  destruct (free_s_spec ext A s o size 0 I Hu Hs) as (s' & E & D).
  exists ext, A, s, o, size, s'. exact (conj I (conj Hu (conj Hs (conj E D)))).
Defined.
Lemma live_objects_apart_witness : exists o1 o2 s, history [(o2, 20); (o1, 100)] s /\ o2 <> o1 /\ (o2 + 20 <= o1 \/ o1 + 100 <= o2) /\
  exists s', free_s o1 100 s = Ok tt s'.
Proof.
  destruct two_objects as (o1 & o2 & s & H & Hne). exists o1, o2, s.
  assert (H1 : (o2, 20) ∈ [(o2, 20); (o1, 100)]) by apply list_elem_of_here.
  assert (H2 : (o1, 100) ∈ [(o2, 20); (o1, 100)]) by (apply list_elem_of_further, list_elem_of_here).
  destruct (live_objects_apart _ _ H) as (_ & Ha & Hf).
  exact (conj H (conj Hne (conj (Ha o2 20 o1 100 H1 H2 Hne) (Hf o1 100 100 H2 (or_intror eq_refl))))).
Defined.
