(* ===== verification/Fork.v ===== *)
(** * kernel/fork.c: creating processes, checking user addresses

    [verify_area] (which makes user pages writable before the kernel writes to
    them), [copy_process] and [find_empty_process].  The coprocessor state is
    not modelled; the segment descriptors are (include/linux/sched.h). *)

From S2P Require Import Prelude Kernel Sched Memory.

(** ** Segment descriptors *)

Definition get_base (d : desc_struct) : Z :=
  Z.lor (Z.shiftr (d_a d) 16)
    (Z.lor (Z.shiftl (Z.land (d_b d) 0xff) 16) (Z.land (d_b d) 0xff000000)).
Definition set_base (base : Z) (d : desc_struct) : desc_struct :=
  Desc (Z.lor (Z.land (d_a d) 0xffff) (Z.shiftl (Z.land base 0xffff) 16))
       (Z.lor (Z.land (d_b d) 0x00ffff00)
          (Z.lor (Z.land (Z.shiftr base 16) 0xff) (Z.land base 0xff000000))).
(** [_set_limit] with [(limit-1)>>12], for a limit counted in pages. *)
Definition set_limit (limit : Z) (d : desc_struct) : desc_struct :=
  let l := Z.shiftr (u32 (limit - 1)) 12 in
  Desc (Z.lor (Z.land (d_a d) 0xffff0000) (Z.land l 0xffff))
       (Z.lor (Z.land (d_b d) (Z.lnot 0x000f0000)) (Z.land (Z.shiftl (Z.shiftr l 16) 16) 0x00ff0000)).
(** The [lsl] instruction: the limit in bytes, plus one. *)
Definition get_limit (d : desc_struct) : Z :=
  let l := Z.lor (Z.land (d_a d) 0xffff) (Z.land (d_b d) 0x000f0000) in
  if Z.testbit (d_b d) 23 then u32 (Z.lor (Z.shiftl l 12) 0xfff + 1) else u32 (l + 1).

(** A descriptor of a task's tss or ldt ([_set_tssldt_desc]). *)
Definition tssldt_desc (addr type : Z) : desc_struct :=
  Desc (Z.lor 104 (Z.shiftl (Z.land addr 0xffff) 16))
       (Z.lor (Z.land (Z.shiftr addr 16) 0xff) (Z.lor (Z.shiftl type 8) (Z.land addr 0xff000000))).
Definition FIRST_TSS_ENTRY : nat := 4.
Definition FIRST_LDT_ENTRY : nat := 5.
(** The offsets of [tss] and [ldt] in [struct task_struct]. *)
Definition tss_offset : Z := 744.
Definition ldt_offset : Z := 720.

(** [current->ldt[i]]. *)
Definition cur_ldt (i : nat) : M kernel desc_struct := l ← cur t_ldt; deref (l !! i).

(** ** verify_area *)

Definition verify_area (addr size : Z) : M kernel unit :=
  let start := u32 addr in
  let size := s32 (size + Z.land start 0xfff) in
  d ← cur_ldt 2;
  let start := u32 (Z.land start 0xfffff000 + get_base d) in
  loop (Z.to_nat (size / 4096) + 2) (fun '(start, size) =>
    if size <=? 0 then mret (inr tt)
    else mm (write_verify start) ;; mret (inl (u32 (start + 4096), size - 4096))) (start, size).

(** ** fork *)

Definition copy_mem (nr p : nat) : M kernel Z :=
  code ← cur_ldt 1;
  data ← cur_ldt 2;
  let code_limit := get_limit code in
  let data_limit := get_limit data in
  let old_code_base := get_base code in
  let old_data_base := get_base data in
  if negb (old_data_base =? old_code_base) then panic "We don't support separate I&D"
  else if data_limit <? code_limit then panic "Bad data_limit"
  else
    let new_base := u32 (Z.of_nat nr * 0x4000000) in
    tst p t_start_code new_base ;;
    tupd p t_ldt (alter (set_base new_base) 1%nat) ;;
    tupd p t_ldt (alter (set_base new_base) 2%nat) ;;
    r ← mm (copy_page_tables old_data_base new_base data_limit);
    if truth r then
      mm (free_page_tables new_base data_limit) ;;
      mret (- ENOMEM)
    else mret 0.

(** The child's task structure: the parent's, with what [copy_process] sets
    before it copies the memory. *)
Definition child_task (nr : nat) (p last_pid jiffies : Z) (parent : task_struct)
    (ebp edi esi gs ebx ecx edx fs es ds eip cs eflags esp ss : Z) : task_struct :=
  let low16 := fun x => Z.land x 0xffff in
  set_field t_page (fun _ => p)
  (set_field t_state (fun _ => TASK_UNINTERRUPTIBLE)
  (set_field t_pid (fun _ => last_pid)
  (set_field t_father (fun _ => t_pid parent)
  (set_field t_counter (fun _ => t_priority parent)
  (set_field t_signal (fun _ => 0)
  (set_field t_alarm (fun _ => 0)
  (set_field t_leader (fun _ => 0)
  (set_field t_utime (fun _ => 0)
  (set_field t_stime (fun _ => 0)
  (set_field t_cutime (fun _ => 0)
  (set_field t_cstime (fun _ => 0)
  (set_field t_start_time (fun _ => jiffies)
  (set_field t_tss (fun _ =>
     Tss 0 (PAGE_SIZE + p) 0x10 eip eflags 0 ecx edx ebx esp ebp esi edi
       (low16 es) (low16 cs) (low16 ss) (low16 ds) (low16 fs) (low16 gs)
       (_LDT (Z.of_nat nr)) 0x80000000) parent))))))))))))).

Definition bump_file (f : option nat) : M kernel unit :=
  match f with Some f => upd f f_count (fun c => u16 (c + 1)) | None => mret tt end.
Definition bump_inode (i : option nat) : M kernel unit :=
  match i with Some i => upd i i_count (fun c => u16 (c + 1)) | None => mret tt end.

Definition copy_process (nr : nat)
    (ebp edi esi gs ebx ecx edx fs es ds eip cs eflags esp ss : Z) : M kernel Z :=
  p ← mm get_free_page;
  if negb (truth p) then mret (- EAGAIN)
  else
    parent ← cur (fun t => t);
    last_pid ← gets k_last_pid;
    j ← gets k_jiffies;
    aset k_task nr (Some (child_task nr p last_pid j parent
      ebp edi esi gs ebx ecx edx fs es ds eip cs eflags esp ss)) ;;
    r ← copy_mem nr nr;
    if truth r then
      aset k_task nr None ;;
      mm (free_page p) ;;
      mret (- EAGAIN)
    else
      filp ← tget nr t_filp;
      for_ filp bump_file ;;
      pwd ← cur t_pwd; bump_inode pwd ;;
      root ← cur t_root; bump_inode root ;;
      exe ← cur t_executable; bump_inode exe ;;
      aset k_gdt (2 * nr + FIRST_TSS_ENTRY) (tssldt_desc (p + tss_offset) 0x89) ;;
      aset k_gdt (2 * nr + FIRST_LDT_ENTRY) (tssldt_desc (p + ldt_offset) 0x82) ;;
      tst nr t_state TASK_RUNNING ;;
      gets k_last_pid.

(** Whether a task has process number [pid]. *)
Definition pid_used (tasks : list (option task_struct)) (pid : Z) : bool :=
  existsb (fun o => match o with Some t => t_pid t =? pid | None => false end) tasks.

(** [if ((++last_pid)<0) last_pid=1;] *)
Definition next_pid (pid : Z) : Z := if s32 (pid + 1) <? 0 then 1 else s32 (pid + 1).

(** [repeat] is taken at most once per task. *)
Definition find_empty_process : M kernel Z :=
  loop (S NR_TASKS) (fun _ : unit =>
    p ← gets k_last_pid;
    setg k_last_pid (next_pid p) ;;
    used ← gets (fun s => pid_used (k_task s) (next_pid p));
    mret (if (used : bool) then inl tt else inr tt)) tt ;;
  o ← for_break (seq 1 (NR_TASKS - 1)) (fun i =>
        t ← aget k_task i; mret (match t with None => Some (Z.of_nat i) | Some _ => None end));
  mret (default (- EAGAIN) o).


(** ** Lemmas: process numbers *)

Definition PID_CYCLE : Z := 2 ^ 31 - 1.
(** The process number after [k] increments from [p]. *)
Definition pid_after (p k : Z) : Z := (p + k - 1) mod PID_CYCLE + 1.

Lemma next_pid_after p k : 0 <= p < 2 ^ 31 -> 0 < k -> next_pid (pid_after p k) = pid_after p (k + 1).
Proof.
  intros Hp Hk. unfold next_pid, pid_after, s32, PID_CYCLE.
  replace (p + (k + 1) - 1) with ((p + k - 1) + 1) by lia. generalize (p + k - 1). intros x.
  rewrite <- (Zplus_mod_idemp_l x 1). pose proof (Z.mod_pos_bound x (2 ^ 31 - 1) ltac:(lia)) as Hb.
  generalize dependent (x mod (2 ^ 31 - 1)). intros y Hb.
  destruct (decide (y = 2 ^ 31 - 2)) as [->|]; [reflexivity|].
  rewrite !(Z.mod_small (y + 1 + 1 + _)) by lia. rewrite (Z.mod_small (y + 1)) by lia.
  rewrite (proj2 (Z.ltb_ge _ _)) by lia. lia.
Qed.
Lemma next_pid_first p : 0 <= p < 2 ^ 31 -> next_pid p = pid_after p 1.
Proof.
  intros Hp. unfold next_pid, pid_after, s32, PID_CYCLE. replace (p + 1 - 1) with p by lia.
  destruct (decide (p = 2 ^ 31 - 1)) as [->|]; [reflexivity|].
  rewrite (Z.mod_small p), !(Z.mod_small (p + 1 + _)) by lia.
  rewrite (proj2 (Z.ltb_ge _ _)) by lia. lia.
Qed.
Lemma pid_after_range p k : 0 < pid_after p k < 2 ^ 31.
Proof. unfold pid_after, PID_CYCLE. pose proof (Z.mod_pos_bound (p + k - 1) (2 ^ 31 - 1)). lia. Qed.
Lemma pid_after_inj p j k : 0 <= j < 100 -> 0 <= k < 100 -> pid_after p j = pid_after p k -> j = k.
Proof. unfold pid_after, PID_CYCLE. intros. Z.to_euclidean_division_equations. lia. Qed.

(** At most one pid per task is in use, so among more pids than tasks one is free. *)
Lemma pids_used_bound (tasks : list (option task_struct)) (l : list Z) :
  NoDup l -> (forall x, x ∈ l -> pid_used tasks x = true) -> (length l <= length tasks)%nat.
Proof.
  intros Hnd Hused.
  set (pids := (fun o => match o with Some t => t_pid t | None => 0 end) <$> tasks).
  replace (length tasks) with (length pids) by apply length_fmap.
  apply submseteq_length, NoDup_submseteq; [done|]. intros x Hx%Hused.
  unfold pid_used in Hx. apply existsb_exists in Hx as (o & Ho & Hpid).
  apply list_elem_of_fmap. exists o. split; [|by apply list_elem_of_In].
  destruct o as [t|]; [|done]. by apply Z.eqb_eq in Hpid.
Qed.

Lemma pid_used_spec tasks pid :
  pid_used tasks pid = false -> forall p t, tasks !! p = Some (Some t) -> t_pid t <> pid.
Proof.
  intros H p t Hp E. apply not_true_iff_false in H. apply H. apply existsb_exists.
  exists (Some t). split; [apply list_elem_of_In; by eapply list_elem_of_lookup_2|]. by rewrite E, Z.eqb_refl.
Qed.

(** [find_empty_process] returns: its search for a process number stops
    after at most 65 increments, wrapping from the largest int to 1; [last_pid] is
    then a positive number no task has; the result is the lowest free slot but 0 of
    [task[]], or -EAGAIN when there is none.  Only [last_pid] changes. *)
Theorem find_empty_process_spec s :
  length (k_task s) = NR_TASKS -> 0 <= k_last_pid s < 2 ^ 31 ->
  wp find_empty_process (fun r s' =>
    s' = set_field k_last_pid (fun _ => k_last_pid s') s /\
    0 < k_last_pid s' < 2 ^ 31 /\
    (forall p t, k_task s' !! p = Some (Some t) -> t_pid t <> k_last_pid s') /\
    ((exists i, r = Z.of_nat i /\ (1 <= i < NR_TASKS)%nat /\ k_task s' !! i = Some None /\
        forall j, (1 <= j < i)%nat -> exists t, k_task s' !! j = Some (Some t)) \/
     (r = - EAGAIN /\ forall j, (1 <= j < NR_TASKS)%nat -> exists t, k_task s' !! j = Some (Some t)))) s.
Proof.
  intros Hlen Hpid. unfold find_empty_process. wp_steps.
  set (p := k_last_pid s) in *.
  set (idx := fun s' : kernel => Z.to_nat ((k_last_pid s' - p) mod PID_CYCLE)).
  apply wpg_loop_total with (mu := fun _ s' => (64 - idx s')%nat)
    (Inv := fun _ s' => exists k, 0 <= k <= 64 /\ s' = set_field k_last_pid (fun _ => k_last_pid s') s /\
              (k = 0 /\ k_last_pid s' = p \/ 0 < k /\ k_last_pid s' = pid_after p k) /\
              forall j, 0 < j <= k -> pid_used (k_task s) (pid_after p j) = true).
  - exists 0. split_and!; [lia|lia|by destruct s|by left|lia].
  - unfold NR_TASKS. lia.
  - intros [] s1 (k & Hk & Hs1 & Hp1 & Hused).
    assert (Hnext : next_pid (k_last_pid s1) = pid_after p (k + 1)).
    { destruct Hp1 as [[-> ->]|[? ->]]; [by apply next_pid_first|by apply next_pid_after]. }
    assert (Htask : k_task s1 = k_task s) by (by rewrite Hs1).
    assert (Hidx : forall s', 0 < k + 1 <= 65 -> k_last_pid s' = pid_after p (k + 1) -> idx s' = Z.to_nat (k + 1)).
    { intros s' Hk1 E. unfold idx. rewrite E. f_equal. unfold pid_after, PID_CYCLE.
      clear - Hk1. Z.to_euclidean_division_equations. lia. }
    assert (Hidx1 : idx s1 = Z.to_nat k).
    { unfold idx. f_equal. destruct Hp1 as [[-> ->]|[? ->]]; [by rewrite Z.sub_diag|].
      unfold pid_after, PID_CYCLE. clear - Hk. Z.to_euclidean_division_equations. lia. }
    unfold setg. wp_steps. cbn [k_task set_field set_k_last_pid k_last_pid]. rewrite Hnext, Htask.
    destruct (pid_used (k_task s) (pid_after p (k + 1))) eqn:Eu; wp_steps.
    + assert (Hall : forall j, 0 < j <= k + 1 -> pid_used (k_task s) (pid_after p j) = true).
      { intros j Hj. destruct (decide (j = k + 1)) as [->|]; [done|apply Hused; lia]. }
      assert (Hle : (Z.to_nat (k + 1) <= 64)%nat).
      { rewrite <- (length_seqZ 1 (k + 1)) at 1. rewrite <- (length_fmap (pid_after p)).
        unfold NR_TASKS in Hlen. rewrite <- Hlen. apply pids_used_bound.
        - apply NoDup_fmap_2_strong; [|apply NoDup_seqZ].
          intros x y Hx%elem_of_seqZ Hy%elem_of_seqZ. apply pid_after_inj; lia.
        - intros x (j & -> & Hj%elem_of_seqZ)%list_elem_of_fmap. apply Hall. lia. }
      split.
      * exists (k + 1). split_and!; [lia|lia| |right; split; [lia|done]|done].
        rewrite Hs1. by destruct s.
      * rewrite Hidx1, (Hidx _) by (done || lia). lia.
    + set (s2 := set_field k_last_pid _ s1).
      assert (Hs2 : s2 = set_field k_last_pid (fun _ => k_last_pid s2) s).
      { unfold s2. rewrite Hs1. by destruct s. }
      assert (Htask2 : k_task s2 = k_task s) by exact Htask.
      assert (Hlast2 : k_last_pid s2 = pid_after p (k + 1)) by reflexivity.
      apply wpg_for_break with (Inv := fun l s' => s' = s2 /\ exists i, l = seq i (NR_TASKS - i) /\ (1 <= i)%nat /\
        forall j, (1 <= j < i)%nat -> exists t, k_task s2 !! j = Some (Some t)).
      * split; [done|]. exists 1%nat. split_and!; [done|lia|lia].
      * intros i l s3 (-> & i' & Hl & Hi' & Hlow).
        assert (Hi'lt : (i' < NR_TASKS)%nat).
        { destruct (NR_TASKS - i')%nat eqn:E; [by rewrite ?E in Hl|lia]. }
        replace (NR_TASKS - i')%nat with (S (NR_TASKS - S i')) in Hl by lia. cbn in Hl. injection Hl as -> ->.
        destruct (lookup_lt_is_Some_2 (k_task s2) i') as [o Ho]; [by rewrite Htask2, Hlen|].
        wp_step. unfold wpg at 1, aget. rewrite Ho. destruct o as [t|]; wp_steps.
        -- split; [done|]. exists (S i'). split_and!; [done|lia|]. intros j Hj.
           destruct (decide (j = i')) as [->|]; [by exists t|apply Hlow; lia].
        -- split; [done|]. rewrite Hlast2 at 1 2. split; [apply pid_after_range|]. split.
           { intros q t Hq. rewrite Hlast2. eapply pid_used_spec; [exact Eu|]. by rewrite <- Htask2. }
           left. exists i'. done.
      * intros s3 (-> & i & Hl & Hi & Hlow). wp_steps. split; [done|].
        rewrite Hlast2 at 1 2. split; [apply pid_after_range|]. split.
        { intros q t Hq. rewrite Hlast2. eapply pid_used_spec; [exact Eu|]. by rewrite <- Htask2. }
        right. split; [done|]. intros j Hj. apply Hlow.
        destruct (NR_TASKS - i)%nat eqn:E; [lia|by rewrite ?E in Hl].
Qed.
Lemma find_empty_process_spec_witness :
  let s := set_field k_last_pid (fun _ => 2 ^ 31 - 1) (boot_kernel 0x10000 0x20000) in
  length (k_task s) = NR_TASKS /\
  wp find_empty_process (fun r s' => 0 < k_last_pid s' < 2 ^ 31) s.
Proof.
  intros s. split; [reflexivity|]. eapply wp_mono.
  - apply (find_empty_process_spec s); [reflexivity|]. split; [discriminate|reflexivity].
  - intros r s' (_ & H & _). exact H.
Defined.

(** ** Lemmas: segment descriptors *)

Definition word_ok (w : Z) : Prop := 0 <= w < 2 ^ 32.

Lemma word_bits_inj a b : word_ok a -> word_ok b -> (forall n, 0 <= n < 32 -> Z.testbit a n = Z.testbit b n) -> a = b.
Proof.
  intros Ha Hb H. apply Z.bits_inj'. intros n Hn. destruct (decide (n < 32)); [apply H; lia|].
  assert (Hbig : forall w, word_ok w -> Z.testbit w n = false).
  { intros w Hw. unfold word_ok in Hw. rewrite <- (Z.mod_small w (2 ^ 32)) by lia. apply Z.mod_pow2_bits_high. lia. }
  by rewrite !Hbig.
Qed.

Lemma bit_cases n : 0 <= n < 32 ->
  n ∈ [0; 1; 2; 3; 4; 5; 6; 7; 8; 9; 10; 11; 12; 13; 14; 15; 16; 17; 18; 19; 20; 21; 22; 23;
       24; 25; 26; 27; 28; 29; 30; 31].
Proof. intros Hn. change (n ∈ seqZ 0 32). apply elem_of_seqZ. lia. Qed.

(** One rewriting step towards the bits of the words a word is made of: closed
    indices and constants are computed. *)
Ltac bit_step :=
  match goal with
  | |- context [Z.testbit (Z.lor ?x ?y) ?i] => rewrite (Z.lor_spec x y i)
  | |- context [Z.testbit (Z.land ?x ?y) ?i] => rewrite (Z.land_spec x y i)
  | |- context [Z.testbit (Z.shiftr ?x ?y) ?i] => rewrite (Z.shiftr_spec x y i) by lia
  | |- context [Z.testbit (Z.shiftl ?x ?y) ?i] => rewrite (Z.shiftl_spec x y i) by lia
  | |- context [Z.testbit (Z.lnot ?x) ?i] => rewrite (Z.lnot_spec x i) by lia
  | |- context [Z.testbit ?x (?i + ?j)] =>
      let v := eval vm_compute in (i + j) in change (Z.testbit x (i + j)) with (Z.testbit x v)
  | |- context [Z.testbit ?x (?i - ?j)] =>
      let v := eval vm_compute in (i - j) in change (Z.testbit x (i - j)) with (Z.testbit x v)
  | |- context [Z.testbit ?x (Zneg ?p)] => rewrite (Z.testbit_neg_r x (Zneg p)) by lia
  | |- context [Z.testbit (Zpos ?p) ?i] =>
      let v := eval vm_compute in (Z.testbit (Zpos p) i) in change (Z.testbit (Zpos p) i) with v
  end.
Ltac bit_blast n Hn :=
  apply bit_cases in Hn;
  repeat (apply elem_of_cons in Hn as [->|Hn]); [..|by apply elem_of_nil in Hn];
  repeat bit_step; cbn [andb orb negb];
  rewrite ?andb_true_r, ?andb_false_r, ?orb_false_r, ?orb_false_l; try reflexivity.

Lemma land_bound x c : 0 <= c -> 0 <= Z.land x c <= c.
Proof.
  intros Hc. split; [apply Z.land_nonneg; lia|].
  assert (Hd : Z.land (Z.land x c) (Z.ldiff c x) = 0).
  { apply Z.bits_inj'. intros k Hk. rewrite !Z.land_spec, Z.ldiff_spec, Z.bits_0.
    destruct (Z.testbit x k), (Z.testbit c k); done. }
  assert (Hs : c = Z.land x c + Z.ldiff c x).
  { rewrite (Z.add_nocarry_lxor _ _ Hd), (Z.lxor_lor _ _ Hd).
    apply Z.bits_inj'. intros k Hk. rewrite Z.lor_spec, Z.land_spec, Z.ldiff_spec.
    destruct (Z.testbit x k), (Z.testbit c k); done. }
  assert (0 <= Z.ldiff c x) by (apply Z.ldiff_nonneg; lia). lia.
Qed.
Lemma word_lor a b : word_ok a -> word_ok b -> word_ok (Z.lor a b).
Proof.
  unfold word_ok. intros. split; [apply Z.lor_nonneg; lia|].
  destruct (decide (Z.lor a b = 0)) as [->|]; [lia|].
  assert (0 < Z.lor a b) by (pose proof (Z.lor_nonneg a b); lia).
  apply Z.log2_lt_pow2; [done|]. rewrite Z.log2_lor by lia.
  assert (forall x, 0 <= x < 2 ^ 32 -> Z.log2 x < 32).
  { intros x Hx. destruct (decide (x = 0)) as [->|]; [reflexivity|]. apply Z.log2_lt_pow2; lia. }
  apply Z.max_lub_lt; auto.
Qed.
Lemma word_land x c : word_ok c -> word_ok (Z.land x c).
Proof. unfold word_ok. intros. pose proof (land_bound x c). lia. Qed.
Lemma word_shiftr x k : word_ok x -> 0 <= k -> word_ok (Z.shiftr x k).
Proof.
  unfold word_ok. intros. rewrite Z.shiftr_div_pow2 by done. split; [apply Z.div_pos; lia|].
  apply Z.div_lt_upper_bound; [lia|]. pose proof (Z.pow_pos_nonneg 2 k). nia.
Qed.
Lemma word_shiftl x c k : word_ok (c * 2 ^ k) -> 0 <= c -> 0 <= k -> word_ok (Z.shiftl (Z.land x c) k).
Proof.
  unfold word_ok. intros Hc H0 Hk. rewrite Z.shiftl_mul_pow2 by done.
  pose proof (land_bound x c H0). pose proof (Z.pow_pos_nonneg 2 k). nia.
Qed.

Lemma word_high w n : word_ok w -> 32 <= n -> Z.testbit w n = false.
Proof.
  unfold word_ok. intros. rewrite <- (Z.mod_small w (2 ^ 32)) by lia. apply Z.mod_pow2_bits_high. lia.
Qed.

Record desc_ok (d : desc_struct) : Prop := { do_a : word_ok (d_a d); do_b : word_ok (d_b d) }.

Lemma get_base_ok d : desc_ok d -> word_ok (get_base d).
Proof.
  intros [Ha Hb]. unfold get_base. apply word_lor; [by apply word_shiftr|]. apply word_lor.
  - apply word_shiftl; unfold word_ok; lia.
  - apply word_land. unfold word_ok. lia.
Qed.

(** The segment descriptor macros: [set_base] then [get_base] gives the
    base back and changes neither the limit nor the access rights; [set_limit] of a
    whole number of pages then [get_limit] gives the limit back (in a page-granular
    descriptor) and does not change the base. *)
Theorem descriptor_roundtrip d base limit :
  desc_ok d -> word_ok base ->
  get_base (set_base base d) = base /\
  get_limit (set_base base d) = get_limit d /\
  Z.land (d_b (set_base base d)) 0x00ffff00 = Z.land (d_b d) 0x00ffff00 /\
  get_base (set_limit limit d) = get_base d /\
  (Z.testbit (d_b d) 23 = true -> 0 < limit <= 2 ^ 32 -> limit mod 4096 = 0 ->
   get_limit (set_limit limit d) = u32 limit).
Proof.
  destruct d as [a b]. intros Hd Hbase. pose proof (do_a _ Hd) as Ha. pose proof (do_b _ Hd) as Hb. cbn [d_a d_b] in *.
  assert (Hset : desc_ok (set_base base (Desc a b))).
  { split; cbn; repeat apply word_lor; try apply word_land; try apply word_shiftl; unfold word_ok; lia. }
  split_and!.
  - apply word_bits_inj; [by apply get_base_ok|done|]. intros n Hn.
    unfold get_base, set_base. cbn [d_a d_b]. bit_blast n Hn.
  - unfold get_limit. 
    replace (Z.testbit (d_b (set_base base (Desc a b))) 23) with (Z.testbit b 23).
    2: { cbn [d_b set_base]. repeat bit_step. cbn [andb orb]. by rewrite ?andb_true_r, ?andb_false_r, ?orb_false_r. }
    replace (Z.lor (Z.land (d_a (set_base base (Desc a b))) 0xffff) (Z.land (d_b (set_base base (Desc a b))) 0x000f0000))
      with (Z.lor (Z.land (d_a (Desc a b)) 0xffff) (Z.land (d_b (Desc a b)) 0x000f0000)); [done|].
    apply word_bits_inj; [apply word_lor; apply word_land; unfold word_ok; lia..|]. intros n Hn.
    cbn [d_a d_b set_base]. bit_blast n Hn.
  - apply word_bits_inj; [apply word_land; unfold word_ok; lia..|]. intros n Hn.
    cbn [d_a d_b set_base]. bit_blast n Hn.
  - unfold get_base, set_limit. cbn [d_a d_b].
    set (l := Z.shiftr (u32 (limit - 1)) 12).
    apply word_bits_inj; [| |intros n Hn; bit_blast n Hn; by rewrite !(word_high a) by (done || lia)].
    all: repeat first [apply word_lor | apply word_land | apply word_shiftr | apply word_shiftl];
      try assumption; unfold word_ok; lia.
  - intros Hg Hl Hm. unfold get_limit, set_limit. cbn [d_a d_b].
    set (l := Z.shiftr (u32 (limit - 1)) 12).
    assert (Hl12 : 0 <= l < 2 ^ 20 /\ limit = 4096 * l + 4096).
    { unfold l. rewrite u32_small, Z.shiftr_div_pow2 by lia. Z.to_euclidean_division_equations. lia. }
    assert (Hhigh : forall n, 20 <= n -> Z.testbit l n = false).
    { intros n Hn. rewrite <- (Z.mod_small l (2 ^ 20)) by lia. apply Z.mod_pow2_bits_high. lia. }
    clearbody l. replace (Z.testbit _ 23) with true.
    2: { repeat bit_step. rewrite Hg, (Hhigh 23) by lia. done. }
    replace (Z.lor (Z.land _ 65535) _) with l.
    2: { apply word_bits_inj; [unfold word_ok; lia|apply word_lor; apply word_land; unfold word_ok; lia|].
         intros n Hn. bit_blast n Hn; by rewrite Hhigh by lia. }
    f_equal. rewrite (Z.shiftl_mul_pow2 l 12) by lia.
    replace (Z.lor (l * 2 ^ 12) 4095) with (l * 4096 + 4095); [lia|].
    symmetry. change 4095 with (Z.ones 12). rewrite <- (Z.shiftl_mul_pow2 l 12) by lia.
    assert (Hdisj : Z.land (Z.shiftl l 12) (Z.ones 12) = 0).
    { rewrite Z.land_ones, Z.shiftl_mul_pow2 by lia. apply Z_mod_mult. }
    rewrite <- (Z.lxor_lor _ _ Hdisj), <- (Z.add_nocarry_lxor _ _ Hdisj). rewrite Z.shiftl_mul_pow2 by lia. reflexivity.
Qed.
Lemma descriptor_roundtrip_witness :
  let d := Desc 0x9f 0xc0fa00 in
  get_base (set_base 0xdc000000 d) = 0xdc000000 /\ get_limit (set_limit 0x4000000 d) = 0x4000000.
Proof.
  intros d. assert (Hd : desc_ok d) by (split; unfold word_ok; cbn; lia).
  destruct (descriptor_roundtrip d 0xdc000000 0x4000000 Hd) as (H1 & _ & _ & _ & H2).
  - unfold word_ok. lia.
  - split; [exact H1|]. rewrite H2; [reflexivity..|lia|reflexivity].
Defined.
