(* ===== verification/Ctype.v ===== *)
(** * include/ctype.h, lib/ctype.c: character classes *)

From S2P Require Import Prelude.

Definition _U : Z := 0x01.
Definition _L : Z := 0x02.
Definition _D : Z := 0x04.
Definition _C : Z := 0x08.
Definition _P : Z := 0x10.
Definition _S' : Z := 0x20.
Definition _X : Z := 0x40.
Definition _SP : Z := 0x80.

(** The table: entry 0 is for EOF, entry [c + 1] for the character [c]. *)
Definition _ctype : list Z :=
  [0x00] ++
  replicate 8 _C ++
  [_C; Z.lor _C _S'; Z.lor _C _S'; Z.lor _C _S'; Z.lor _C _S'; Z.lor _C _S'; _C; _C] ++
  replicate 16 _C ++
  [Z.lor _S' _SP] ++ replicate 15 _P ++
  replicate 10 _D ++ replicate 6 _P ++
  [_P] ++ replicate 6 (Z.lor _U _X) ++ replicate 20 _U ++ replicate 5 _P ++
  [_P] ++ replicate 6 (Z.lor _L _X) ++ replicate 20 _L ++ replicate 4 _P ++ [_C] ++
  replicate 128 0.

(** [(_ctype+1)[c]] for a [char]; characters below -1 lie before the table and
    are taken to have no class. *)
Definition ctype (c : Z) : Z := if c <? -1 then 0 else default 0 (_ctype !! Z.to_nat (c + 1)).
Definition isupper (c : Z) : bool := truth (Z.land (ctype c) _U).
Definition islower (c : Z) : bool := truth (Z.land (ctype c) _L).
Definition isdigit (c : Z) : bool := truth (Z.land (ctype c) _D).
Definition tolower (c : Z) : Z := if isupper c then c + 32 else c.
Definition toupper (c : Z) : Z := if islower c then c - 32 else c.
