(* ===== verification/Console.v ===== *)
(** * kernel/chr_drv/console.c: the screen

    The operations of the console on its static variables and on the video
    memory, as functions on the record [console]; [con_write], which drives
    them from the characters of a tty, is in Tty.v.  Addresses and the
    variables of type [unsigned long] are 32-bit. *)

From S2P Require Import Prelude Kernel.

Definition VIDEO_TYPE_MDA : Z := 0x10.
Definition VIDEO_TYPE_CGA : Z := 0x11.
Definition VIDEO_TYPE_EGAM : Z := 0x20.
Definition VIDEO_TYPE_EGAC : Z := 0x21.
Definition NPAR : Z := 16.

(** [c.f = v]. *)
Definition wr {T} (f : console -> T) `{!Setter f} (v : T) (c : console) : console :=
  set_field f (fun _ => v) c.

(** ** Video memory *)

Definition vget (m : gmap Z Z) (a : Z) : Z := default 0 (m !! a).
Definition vput (a v : Z) (m : gmap Z Z) : gmap Z Z := <[a := u16 v]> m.

(** [cld; rep; stosw] and, with [std], downwards. *)
Fixpoint stosw (n : nat) (di ax : Z) (m : gmap Z Z) : gmap Z Z :=
  match n with
  | O => m
  | S n' => stosw n' (di + 2) ax (vput di ax m)
  end.
Fixpoint stosw_down (n : nat) (di ax : Z) (m : gmap Z Z) : gmap Z Z :=
  match n with
  | O => m
  | S n' => stosw_down n' (di - 2) ax (vput di ax m)
  end.

(** [rep; movsl]: 32 bits at a time. *)
Definition movsl1 (si di : Z) (m : gmap Z Z) : gmap Z Z :=
  let lo := vget m si in
  let hi := vget m (si + 2) in
  vput (di + 2) hi (vput di lo m).
Fixpoint movsl (n : nat) (si di : Z) (m : gmap Z Z) : gmap Z Z :=
  match n with
  | O => m
  | S n' => movsl n' (si + 4) (di + 4) (movsl1 si di m)
  end.
Fixpoint movsl_down (n : nat) (si di : Z) (m : gmap Z Z) : gmap Z Z :=
  match n with
  | O => m
  | S n' => movsl_down n' (si - 4) (di - 4) (movsl1 si di m)
  end.

(** ** Cursor and scrolling *)

Definition gotoxy (new_x new_y : Z) (c : console) : console :=
  if (video_num_columns c <? u32 new_x) || (video_num_lines c <=? u32 new_y) then c
  else
    wr con_pos (u32 (con_origin c + u32 new_y * video_size_row c + Z.shiftl (u32 new_x) 1))
      (wr con_y (u32 new_y) (wr con_x (u32 new_x) c)).

Definition is_ega (c : console) : bool :=
  (video_type c =? VIDEO_TYPE_EGAC) || (video_type c =? VIDEO_TYPE_EGAM).
(** The whole screen scrolls. *)
Definition full_region (c : console) : bool :=
  (con_top c =? 0) && (con_bottom c =? video_num_lines c).

(** Moving the lines of the region up by one within the screen. *)
Definition scroll_region_up (c : console) : console :=
  let n := Z.shiftr (u32 ((con_bottom c - con_top c - 1) * video_num_columns c)) 1 in
  let di := u32 (con_origin c + video_size_row c * con_top c) in
  let si := u32 (con_origin c + video_size_row c * (con_top c + 1)) in
  set_field vram (fun m =>
    stosw (Z.to_nat (video_num_columns c)) (di + 4 * n) (video_erase_char c)
      (movsl (Z.to_nat n) si di m)) c.

(** [scrup], but for the port writes of [set_origin]. *)
Definition scrup_mem (c : console) : console :=
  if is_ega c then
    if full_region c then
      let row := video_size_row c in
      let c := wr con_origin (u32 (con_origin c + row)) c in
      let c := wr con_pos (u32 (con_pos c + row)) c in
      let c := wr scr_end (u32 (scr_end c + row)) c in
      if video_mem_end c <? scr_end c then
        let n := Z.shiftr (u32 ((video_num_lines c - 1) * video_num_columns c)) 1 in
        let start := video_mem_start c in
        let c := set_field vram (fun m =>
          stosw (Z.to_nat (video_num_columns c)) (start + 4 * n) (video_erase_char c)
            (movsl (Z.to_nat n) (con_origin c) start m)) c in
        let shift := con_origin c - start in
        wr con_origin start
          (wr con_pos (u32 (con_pos c - shift)) (wr scr_end (u32 (scr_end c - shift)) c))
      else
        set_field vram (stosw (Z.to_nat (video_num_columns c)) (u32 (scr_end c - row)) (video_erase_char c)) c
    else scroll_region_up c
  else scroll_region_up c.

Definition scrdown (c : console) : console :=
  let n := Z.shiftr (u32 ((con_bottom c - con_top c - 1) * video_num_columns c)) 1 in
  let di := u32 (con_origin c + video_size_row c * con_bottom c - 4) in
  let si := u32 (con_origin c + video_size_row c * (con_bottom c - 1) - 4) in
  set_field vram (fun m =>
    stosw_down (Z.to_nat (video_num_columns c)) (di - 4 * n + 2) (video_erase_char c)
      (movsl_down (Z.to_nat n) si di m)) c.

(** Whether [lf] scrolls, and its effect when it does not. *)
Definition lf_scrolls (c : console) : bool := negb (u32 (con_y c + 1) <? con_bottom c).
Definition lf_mem (c : console) : console :=
  if lf_scrolls c then scrup_mem c
  else wr con_pos (u32 (con_pos c + video_size_row c)) (wr con_y (u32 (con_y c + 1)) c).

Definition ri (c : console) : console :=
  if con_top c <? con_y c
  then wr con_pos (u32 (con_pos c - video_size_row c)) (wr con_y (u32 (con_y c - 1)) c)
  else scrdown c.

Definition cr (c : console) : console :=
  wr con_x 0 (wr con_pos (u32 (con_pos c - Z.shiftl (con_x c) 1)) c).

Definition del (c : console) : console :=
  if truth (con_x c) then
    let pos := u32 (con_pos c - 2) in
    set_field vram (vput pos (video_erase_char c))
      (wr con_x (u32 (con_x c - 1)) (wr con_pos pos c))
  else c.

(** ** Erasing, inserting and deleting *)

Definition erase (count start : Z) (c : console) : console :=
  set_field vram (stosw (Z.to_nat count) start (video_erase_char c)) c.

Definition csi_J (p : Z) (c : console) : console :=
  if p =? 0 then erase (Z.shiftr (u32 (scr_end c - con_pos c)) 1) (con_pos c) c
  else if p =? 1 then erase (Z.shiftr (u32 (con_pos c - con_origin c)) 1) (con_origin c) c
  else if p =? 2 then erase (u32 (video_num_columns c * video_num_lines c)) (con_origin c) c
  else c.

Definition csi_K (p : Z) (c : console) : console :=
  if p =? 0 then
    if video_num_columns c <=? con_x c then c
    else erase (video_num_columns c - con_x c) (con_pos c) c
  else if p =? 1 then
    erase (if con_x c <? video_num_columns c then con_x c else video_num_columns c)
      (u32 (con_pos c - Z.shiftl (con_x c) 1)) c
  else if p =? 2 then
    erase (video_num_columns c) (u32 (con_pos c - Z.shiftl (con_x c) 1)) c
  else c.

Definition attr_of (p attr : Z) : Z :=
  if p =? 0 then 0x07 else if p =? 1 then 0x0f else if p =? 4 then 0x0f
  else if p =? 7 then 0x70 else if p =? 27 then 0x07 else attr.
Definition csi_m (c : console) : console :=
  wr con_attr
    (foldl (fun a p => attr_of p a) (con_attr c) (take (Z.to_nat (npar c + 1)) (par c))) c.

(** The loop of [insert_char]: [n] characters from [p] on are shifted. *)
Fixpoint shift_right (n : nat) (p old : Z) (m : gmap Z Z) : gmap Z Z :=
  match n with
  | O => m
  | S n' => shift_right n' (p + 2) (vget m p) (vput p old m)
  end.
Definition insert_char (c : console) : console :=
  set_field vram (shift_right (Z.to_nat (video_num_columns c - con_x c)) (con_pos c) (video_erase_char c)) c.

(** The loop of [delete_char]: the characters after [p] move left. *)
Fixpoint shift_left (n : nat) (p ch : Z) (m : gmap Z Z) : gmap Z Z :=
  match n with
  | O => vput p ch m
  | S n' => shift_left n' (p + 2) ch (vput p (vget m (p + 2)) m)
  end.
Definition delete_char (c : console) : console :=
  if video_num_columns c <=? con_x c then c
  else set_field vram (shift_left (Z.to_nat (video_num_columns c - con_x c - 1)) (con_pos c) (video_erase_char c)) c.

(** [insert_line] and [delete_line] scroll the region from the cursor line
    down; the latter is [scrup] on a region, hence with no port access unless
    the cursor is on the first line. *)
Definition on_region (f : console -> console) (c : console) : console :=
  let c' := f (wr con_bottom (video_num_lines c) (wr con_top (con_y c) c)) in
  wr con_bottom (con_bottom c) (wr con_top (con_top c) c').
Definition insert_line : console -> console := on_region scrdown.
Definition delete_line_mem : console -> console := on_region scrup_mem.

(** [if (nr > max) nr = max; else if (!nr) nr = 1;] *)
Definition clamp (nr max : Z) : Z := if max <? nr then max else if negb (truth nr) then 1 else nr.
Definition csi_at (nr : Z) (c : console) : console :=
  Nat.iter (Z.to_nat (clamp nr (video_num_columns c))) insert_char c.
Definition csi_L (nr : Z) (c : console) : console :=
  Nat.iter (Z.to_nat (clamp nr (video_num_lines c))) insert_line c.
Definition csi_P (nr : Z) (c : console) : console :=
  Nat.iter (Z.to_nat (clamp nr (video_num_columns c))) delete_char c.

Definition save_cur (c : console) : console :=
  wr saved_y (s32 (con_y c)) (wr saved_x (s32 (con_x c)) c).
Definition restore_cur (c : console) : console := gotoxy (saved_x c) (saved_y c) c.

(** ** Port accesses *)

Definition con (f : console -> console) : M kernel unit := modify (set_field k_con f).

Definition set_origin : M kernel unit :=
  c ← gets k_con;
  outb 12 (video_port_reg c) ;;
  outb (Z.land 0xff (Z.shiftr (u32 (con_origin c - video_mem_start c)) 9)) (video_port_val c) ;;
  outb 13 (video_port_reg c) ;;
  outb (Z.land 0xff (Z.shiftr (u32 (con_origin c - video_mem_start c)) 1)) (video_port_val c).

Definition set_cursor : M kernel unit :=
  c ← gets k_con;
  outb 14 (video_port_reg c) ;;
  outb (Z.land 0xff (Z.shiftr (u32 (con_pos c - video_mem_start c)) 9)) (video_port_val c) ;;
  outb 15 (video_port_reg c) ;;
  outb (Z.land 0xff (Z.shiftr (u32 (con_pos c - video_mem_start c)) 1)) (video_port_val c).

Definition scrup : M kernel unit :=
  c ← gets k_con;
  con scrup_mem ;;
  when (is_ega c && full_region c) set_origin.

Definition lf : M kernel unit :=
  c ← gets k_con;
  if lf_scrolls c then scrup else con lf_mem.

Definition delete_line : M kernel unit :=
  c ← gets k_con;
  con (fun c => wr con_bottom (video_num_lines c) (wr con_top (con_y c) c)) ;;
  scrup ;;
  con (wr con_top (con_top c)) ;;
  con (wr con_bottom (con_bottom c)).

Definition csi_M (nr : Z) : M kernel unit :=
  c ← gets k_con;
  for_ (seq 0 (Z.to_nat (clamp nr (video_num_lines c)))) (fun _ => delete_line).

Definition sysbeep `{Hardware} : M kernel unit :=
  v ← inb 0x61; outb (Z.lor v 3) 0x61 ;;
  outb 0xB6 0x43 ;;
  outb 0x37 0x42 ;;
  outb 0x06 0x42 ;;
  setg k_beepcount (Z.quot HZ 8).

(** ** con_init *)

(** What setup.s left at 0x90000: the cursor, the page, the mode and number of
    columns, and the EGA parameters. *)
Record boot_video := BootVideo {
  ORIG_X : Z; ORIG_Y : Z; ORIG_VIDEO_PAGE : Z; ORIG_VIDEO_MODE : Z;
  ORIG_VIDEO_COLS : Z; ORIG_VIDEO_EGA_BX : Z }.

(** Bytes written to the video memory: the low half of a word. *)
Definition vput_byte (a v : Z) (m : gmap Z Z) : gmap Z Z :=
  if Z.even a then <[a := Z.lor (Z.land (vget m a) 0xff00) (u8 v)]> m
  else <[a - 1 := Z.lor (Z.land (vget m (a - 1)) 0xff) (Z.shiftl (u8 v) 8)]> m.
Fixpoint put_desc (l : list Z) (p : Z) (m : gmap Z Z) : gmap Z Z :=
  match l with
  | [] => m
  | v :: l' => put_desc l' (p + 2) (vput_byte p v m)
  end.

Definition con_setup (b : boot_video) (c : console) : console :=
  let mono := ORIG_VIDEO_MODE b =? 7 in
  let ega := negb (Z.land (ORIG_VIDEO_EGA_BX b) 0xff =? 0x10) in
  let cols := ORIG_VIDEO_COLS b in
  let start := if mono then 0xb0000 else 0xb8000 in
  let desc := if mono then (if ega then [69; 71; 65; 109] else [42; 77; 68; 65])
              else (if ega then [69; 71; 65; 99] else [42; 67; 71; 65]) in
  let c := wr video_num_columns cols (wr video_size_row (cols * 2) (wr video_num_lines 25 c)) in
  let c := wr video_page (u8 (ORIG_VIDEO_PAGE b)) (wr video_erase_char 0x0720 c) in
  let c := wr video_mem_start start
           (wr video_port_reg (if mono then 0x3b4 else 0x3d4)
           (wr video_port_val (if mono then 0x3b5 else 0x3d5) c)) in
  let c := wr video_type (if mono then (if ega then VIDEO_TYPE_EGAM else VIDEO_TYPE_MDA)
                          else (if ega then VIDEO_TYPE_EGAC else VIDEO_TYPE_CGA)) c in
  let c := wr video_mem_end (if mono then (if ega then 0xb8000 else 0xb2000)
                             else (if ega then 0xbc000 else 0xba000)) c in
  let c := set_field vram (put_desc desc (start + cols * 2 - 8)) c in
  let c := wr con_origin start (wr scr_end (start + 25 * (cols * 2)) c) in
  let c := wr con_top 0 (wr con_bottom 25 c) in
  gotoxy (ORIG_X b) (ORIG_Y b) c.

Definition con_init `{Hardware} (b : boot_video) : M kernel unit :=
  con (con_setup b) ;;
  set_trap_gate 0x21 Entry.keyboard_interrupt ;;
  v ← inb 0x21; outb (Z.land v 0xfd) 0x21 ;;
  a ← inb 0x61;
  outb (Z.lor a 0x80) 0x61 ;;
  outb a 0x61.
