(* ===== verification/Tty.v ===== *)
(** * kernel/chr_drv/tty_io.c, tty_ioctl.c, serial.c and [con_write]: terminals

    A tty has three queues: [read_q] (from the keyboard or line), [write_q]
    (to the screen or line) and [secondary] (the cooked input).  The interrupt
    handlers of the keyboard and the serial lines (Keyboard.v, RsIo.v) fill and
    drain the outer queues; [copy_to_cooked] cooks, [tty_read] and [tty_write] serve the
    tasks. *)

From S2P Require Import Prelude Kernel Sched Memory Fork Ctype Console.

#[export] Program Instance tty_table_inst : Table kernel tty_struct :=
  {| tab := k_tty; set_tab := set_field k_tty |}.
Solve Obligations with reflexivity.

(** ** Constants of include/termios.h and the flag macros *)

Definition TTY_BUF_SIZE : Z := 1024.
Definition VINTR : nat := 0.
Definition VQUIT : nat := 1.
Definition VERASE : nat := 2.
Definition VKILL : nat := 3.
Definition VEOF : nat := 4.
Definition VTIME : nat := 5.
Definition VMIN : nat := 6.
Definition VSTART : nat := 8.
Definition VSTOP : nat := 9.
Definition ICANON : Z := 0x2.
Definition ISIG : Z := 0x1.
Definition ECHO : Z := 0x8.
Definition ECHOCTL : Z := 0x200.
Definition IUCLC : Z := 0x200.
Definition INLCR : Z := 0x40.
Definition ICRNL : Z := 0x100.
Definition IGNCR : Z := 0x80.
Definition OPOST : Z := 0x1.
Definition OLCUC : Z := 0x2.
Definition ONLCR : Z := 0x4.
Definition OCRNL : Z := 0x8.
Definition ONLRET : Z := 0x20.
Definition CBAUD : Z := 0xf.
Definition ALRMMASK : Z := sigbit SIGALRM.
Definition INTMASK : Z := sigbit SIGINT.
Definition QUITMASK : Z := sigbit SIGQUIT.

Definition L_FLAG (t : nat) (f : Z) : M kernel bool :=
  m ← t->>tty_termios; mret (truth (Z.land (c_lflag m) f)).
Definition I_FLAG (t : nat) (f : Z) : M kernel bool :=
  m ← t->>tty_termios; mret (truth (Z.land (c_iflag m) f)).
Definition O_FLAG (t : nat) (f : Z) : M kernel bool :=
  m ← t->>tty_termios; mret (truth (Z.land (c_oflag m) f)).
(** [tty->termios.c_cc[i]]: ERASE_CHAR, KILL_CHAR, EOF_CHAR and the others. *)
Definition CC (t i : nat) : M kernel Z := m ← t->>tty_termios; mret (default 0 (c_cc m !! i)).

(** ** Queues: include/linux/tty.h *)

Definition INC (a : Z) : Z := Z.land (a + 1) (TTY_BUF_SIZE - 1).
Definition DEC (a : Z) : Z := Z.land (a - 1) (TTY_BUF_SIZE - 1).
Definition EMPTY (q : tty_queue) : bool := q_head q =? q_tail q.
Definition LEFT (q : tty_queue) : Z := Z.land (q_tail q - q_head q - 1) (TTY_BUF_SIZE - 1).
Definition FULL (q : tty_queue) : bool := negb (truth (LEFT q)).
Definition CHARS (q : tty_queue) : Z := Z.land (q_head q - q_tail q) (TTY_BUF_SIZE - 1).
(** The buffer holds bytes; reading one into a [char] makes it signed. *)
Definition LAST (q : tty_queue) : Z :=
  s8 (default 0 (q_buf q !! Z.to_nat (Z.land (TTY_BUF_SIZE - 1) (q_head q - 1)))).
Definition putch (c : Z) (q : tty_queue) : tty_queue :=
  set_field q_head INC (set_field q_buf (fun l => <[Z.to_nat (q_head q) := u8 c]> l) q).
Definition getch (q : tty_queue) : Z := s8 (default 0 (q_buf q !! Z.to_nat (q_tail q))).

(** [PUTCH(c,tty->q)], [GETCH(tty->q,c)]. *)
Definition PUTCH (c : Z) (t : nat) (q : tty_struct -> tty_queue) `{!Setter q} : M kernel unit :=
  upd t q (putch c).
Definition GETCH (t : nat) (q : tty_struct -> tty_queue) `{!Setter q} : M kernel Z :=
  v ← getf t q;
  upd t q (set_field q_tail INC) ;;
  mret (getch v).
(** [&tty->q.proc_list]. *)
Definition proc_list_q (t : nat) (q : tty_struct -> tty_queue) `{!Setter q} : waitq :=
  Waitq (v ← getf t q; mret (q_proc_list v))
        (fun p => upd t q (set_field q_proc_list (fun _ => p))).

Definition tty_intr (t : nat) (mask : Z) : M kernel unit :=
  pgrp ← t->>tty_pgrp;
  if pgrp <=? 0 then mret tt
  else for_ (seq 0 NR_TASKS) (tmap (fun p =>
         if t_pgrp p =? pgrp then set_field t_signal (fun s => Z.lor s mask) p else p)).

(** kernel/chr_drv/serial.c. *)
Definition rs_write `{Hardware} (t : nat) : M kernel unit :=
  q ← t->>tty_write_q;
  when (negb (EMPTY q))
    (v ← inb (q_data q + 1); outb (Z.lor v 0x02) (q_data q + 1)).
Definition rs_init_port `{Hardware} (port : Z) : M kernel unit :=
  outb 0x80 (port + 3) ;; outb 0x30 port ;; outb 0x00 (port + 1) ;; outb 0x03 (port + 3) ;;
  outb 0x0b (port + 4) ;; outb 0x0d (port + 1) ;; inb port ;; mret tt.
Definition rs_init `{Hardware} : M kernel unit :=
  set_intr_gate 0x24 Entry.rs1_interrupt ;;
  set_intr_gate 0x23 Entry.rs2_interrupt ;;
  q1 ← 1%nat->>tty_read_q; rs_init_port (q_data q1) ;;
  q2 ← 2%nat->>tty_read_q; rs_init_port (q_data q2) ;;
  v ← inb 0x21; outb (Z.land v 0xE7) 0x21.

Section with_world.
Context `{World}.

(** ** Cooking *)

Section cooking.
(** [tty->write(tty)]. *)
Variable tty_write_call : nat -> M kernel unit.

(** Deleting the last character of [secondary], echoed as rubouts. *)
Definition echo_rubout (t : nat) (c : Z) : M kernel unit :=
  e ← L_FLAG t ECHO;
  when e
    (when (c <? 32) (PUTCH 127 t tty_write_q) ;;
     PUTCH 127 t tty_write_q ;;
     tty_write_call t) ;;
  upd t tty_secondary (set_field q_head DEC).

(** Whether the last character cannot be deleted; otherwise that character. *)
Definition last_deletable (t : nat) : M kernel (option Z) :=
  q ← t->>tty_secondary;
  if EMPTY q then mret None
  else
    eof ← CC t VEOF;
    let c := LAST q in
    mret (if (c =? 10) || (c =? eof) then None else Some c).

Definition kill_line (t : nat) : M kernel unit :=
  loop patience (fun _ : unit =>
    o ← last_deletable t;
    match o with
    | None => mret (inr tt)
    | Some c => echo_rubout t c ;; mret (inl tt)
    end) tt.

Definition echo_char (t : nat) (c : Z) : M kernel unit :=
  (if c =? 10 then PUTCH 10 t tty_write_q ;; PUTCH 13 t tty_write_q
   else if c <? 32 then
     e ← L_FLAG t ECHOCTL;
     when e (PUTCH 94 t tty_write_q ;; PUTCH (c + 64) t tty_write_q)
   else PUTCH c t tty_write_q) ;;
  tty_write_call t.

(** CR and NL translation; [None] when the character is dropped. *)
Definition translate_in (t : nat) (c : Z) : M kernel (option Z) :=
  crnl ← I_FLAG t ICRNL; nocr ← I_FLAG t IGNCR; nlcr ← I_FLAG t INLCR; uclc ← I_FLAG t IUCLC;
  let lower := fun c => Some (if (uclc : bool) then tolower c else c) in
  mret (if c =? 13 then
          if (crnl : bool) then lower 10 else if (nocr : bool) then None else lower c
        else if (c =? 10) && nlcr then lower 13 else lower c).

(** The line-editing characters of canonical mode: whether [c] was one. *)
Definition edit_char (t : nat) (c : Z) : M kernel bool :=
  kill ← CC t VKILL; erase ← CC t VERASE; stop ← CC t VSTOP; start ← CC t VSTART;
  if c =? kill then kill_line t ;; mret true
  else if c =? erase then
    o ← last_deletable t;
    (match o with None => mret tt | Some c => echo_rubout t c end) ;;
    mret true
  else if c =? stop then st t tty_stopped 1 ;; mret true
  else if c =? start then st t tty_stopped 0 ;; mret true
  else mret false.

Definition signal_char (t : nat) (c : Z) : M kernel bool :=
  intr ← CC t VINTR; quit ← CC t VQUIT;
  if c =? intr then tty_intr t INTMASK ;; mret true
  else if c =? quit then tty_intr t QUITMASK ;; mret true
  else mret false.

(** One turn of the loop of [copy_to_cooked]. *)
Definition cook_char (t : nat) : M kernel unit :=
  c ← GETCH t tty_read_q;
  o ← translate_in t c;
  match o with
  | None => mret tt
  | Some c =>
      canon ← L_FLAG t ICANON;
      edited ← (if (canon : bool) then edit_char t c else mret false);
      if (edited : bool) then mret tt
      else
        isig ← L_FLAG t ISIG;
        signalled ← (if (isig : bool) then signal_char t c else mret false);
        if (signalled : bool) then mret tt
        else
          eof ← CC t VEOF;
          when ((c =? 10) || (c =? eof))
            (upd t tty_secondary (set_field q_data (fun d => u32 (d + 1)))) ;;
          echo ← L_FLAG t ECHO;
          when echo (echo_char t c) ;;
          PUTCH c t tty_secondary
  end.

Definition copy_to_cooked_with (t : nat) : M kernel unit :=
  while patience (r ← t->>tty_read_q; s ← t->>tty_secondary; mret (negb (EMPTY r) && negb (FULL s)))
    (cook_char t) ;;
  wake_up (Some (proc_list_q t tty_secondary)).
End cooking.

(** ** con_write *)

Section console_write.
(** [copy_to_cooked], called by [respond]. *)
Variable cook : nat -> M kernel unit.

(** [RESPONSE], the answer to ESC-Z. *)
Definition RESPONSE : list Z := [27; 91; 63; 49; 59; 50; 99].
Definition respond (t : nat) : M kernel unit :=
  for_ RESPONSE (fun c => PUTCH c t tty_read_q) ;;
  cook t.

(** State 0: an ordinary or control character. *)
Definition con_plain (t : nat) (c : Z) : M kernel unit :=
  k ← gets k_con;
  erase ← CC t VERASE;
  if (31 <? c) && (c <? 127) then
    (when (video_num_columns k <=? con_x k)
       (con (fun k => wr con_pos (u32 (con_pos k - video_size_row k))
                        (wr con_x (u32 (con_x k - video_num_columns k)) k)) ;;
        lf)) ;;
    con (fun k => set_field vram (vput (con_pos k) (c + 2 ^ 8 * con_attr k)) k) ;;
    con (fun k => wr con_x (u32 (con_x k + 1)) (wr con_pos (u32 (con_pos k + 2)) k))
  else if c =? 27 then con (wr con_state 1)
  else if (c =? 10) || (c =? 11) || (c =? 12) then lf
  else if c =? 13 then con cr
  else if c =? erase then con del
  else if c =? 8 then
    con (fun k => if truth (con_x k)
                  then wr con_pos (u32 (con_pos k - 2)) (wr con_x (u32 (con_x k - 1)) k) else k)
  else if c =? 9 then
    let n := 8 - Z.land (con_x k) 7 in
    con (fun k => wr con_pos (u32 (con_pos k + Z.shiftl n 1)) (wr con_x (u32 (con_x k + n)) k)) ;;
    k ← gets k_con;
    when (video_num_columns k <? con_x k)
      (con (fun k => wr con_pos (u32 (con_pos k - video_size_row k))
                       (wr con_x (u32 (con_x k - video_num_columns k)) k)) ;;
       lf)
  else if c =? 7 then sysbeep
  else mret tt.

(** State 1: after ESC.  The last two tests are on the column [x], as in the
    source. *)
Definition con_escape (t : nat) (c : Z) : M kernel unit :=
  con (wr con_state 0) ;;
  k ← gets k_con;
  if c =? 91 then con (wr con_state 2)
  else if c =? 69 then con (gotoxy 0 (con_y k + 1))
  else if c =? 77 then con ri
  else if c =? 68 then lf
  else if c =? 90 then respond t
  else if con_x k =? 55 then con save_cur
  else if con_x k =? 56 then con restore_cur
  else mret tt.

Definition par_at (k : console) (i : nat) : Z := default 0 (par k !! i).
Definition set_par (i : nat) (v : Z) (k : console) : console := set_field par (fun l => <[i := u32 v]> l) k.
(** [if (!par[0]) par[0]++;] and [if (par[i]) par[i]--;] *)
Definition par_min1 (k : console) : console := if truth (par_at k 0) then k else set_par 0 1 k.
Definition par_dec (i : nat) (k : console) : console :=
  if truth (par_at k i) then set_par i (par_at k i - 1) k else k.

(** State 4: the final character of a control sequence. *)
Definition csi_final (c : Z) : M kernel unit :=
  con (wr con_state 0) ;;
  k ← gets k_con;
  let p0 := par_at k 0 in
  if (c =? 71) || (c =? 96) then
    con (par_dec 0) ;; con (fun k => gotoxy (par_at k 0) (con_y k) k)
  else if c =? 65 then con par_min1 ;; con (fun k => gotoxy (con_x k) (con_y k - par_at k 0) k)
  else if (c =? 66) || (c =? 101) then
    con par_min1 ;; con (fun k => gotoxy (con_x k) (con_y k + par_at k 0) k)
  else if (c =? 67) || (c =? 97) then
    con par_min1 ;; con (fun k => gotoxy (con_x k + par_at k 0) (con_y k) k)
  else if c =? 68 then con par_min1 ;; con (fun k => gotoxy (con_x k - par_at k 0) (con_y k) k)
  else if c =? 69 then con par_min1 ;; con (fun k => gotoxy 0 (con_y k + par_at k 0) k)
  else if c =? 70 then con par_min1 ;; con (fun k => gotoxy 0 (con_y k - par_at k 0) k)
  else if c =? 100 then con (par_dec 0) ;; con (fun k => gotoxy (con_x k) (par_at k 0) k)
  else if (c =? 72) || (c =? 102) then
    con (par_dec 0) ;; con (par_dec 1) ;; con (fun k => gotoxy (par_at k 1) (par_at k 0) k)
  else if c =? 74 then con (csi_J (s32 p0))
  else if c =? 75 then con (csi_K (s32 p0))
  else if c =? 76 then con (csi_L p0)
  else if c =? 77 then csi_M p0
  else if c =? 80 then con (csi_P p0)
  else if c =? 64 then con (csi_at p0)
  else if c =? 109 then con csi_m
  else if c =? 114 then
    con (par_dec 0) ;;
    con (fun k => if truth (par_at k 1) then k else set_par 1 (video_num_lines k) k) ;;
    con (fun k => if (par_at k 0 <? par_at k 1) && (par_at k 1 <=? video_num_lines k)
                  then wr con_bottom (par_at k 1) (wr con_top (par_at k 0) k) else k)
  else if c =? 115 then con save_cur
  else if c =? 117 then con restore_cur
  else mret tt.

(** State 3: the parameters. *)
Definition csi_param (c : Z) : M kernel unit :=
  k ← gets k_con;
  if (c =? 59) && (npar k <? NPAR - 1) then con (wr npar (npar k + 1))
  else if (48 <=? c) && (c <=? 57) then
    let i := Z.to_nat (npar k) in
    con (set_par i (10 * par_at k i + c - 48))
  else con (wr con_state 4) ;; csi_final c.

(** State 2: after ESC [. *)
Definition csi_start (c : Z) : M kernel unit :=
  con (fun k => wr con_state 3 (wr npar 0 (wr par (replicate 16 0) k))) ;;
  con (wr ques (Z.b2z (c =? 63))) ;;
  if c =? 63 then mret tt else csi_param c.

Definition con_char (t : nat) (c : Z) : M kernel unit :=
  s ← sget k_con con_state;
  if s =? 0 then con_plain t c
  else if s =? 1 then con_escape t c
  else if s =? 2 then csi_start c
  else if s =? 3 then csi_param c
  else if s =? 4 then csi_final c
  else mret tt.

Definition con_write_with (t : nat) : M kernel unit :=
  q ← t->>tty_write_q;
  for_ (seq 0 (Z.to_nat (CHARS q))) (fun _ => c ← GETCH t tty_write_q; con_char t c) ;;
  set_cursor.
End console_write.

(** [tty->write(tty)], and the mutual recursion of [con_write] and
    [copy_to_cooked] through [respond], cut after [depth] answers. *)
Fixpoint con_write_at (depth : nat) (t : nat) : M kernel unit :=
  match depth with
  | O => out_of_fuel
  | S d => con_write_with (copy_to_cooked_with (con_write_at d)) t
  end.
Definition con_write (t : nat) : M kernel unit := con_write_at patience t.
Definition tty_write_fn_call (t : nat) : M kernel unit :=
  w ← t->>tty_write_fn;
  if (w =? 0)%nat then con_write t else rs_write t.
Definition copy_to_cooked (t : nat) : M kernel unit := copy_to_cooked_with tty_write_fn_call t.

Definition do_tty_interrupt (t : nat) : M kernel unit := copy_to_cooked t.
Definition tty_init (b : boot_video) : M kernel unit := rs_init ;; con_init b.

(** ** tty_read, tty_write *)

Definition sleep_if_empty (t : nat) (q : tty_struct -> tty_queue) `{!Setter q} : M kernel unit :=
  while patience (s ← cur t_signal; v ← getf t q; mret (negb (truth s) && EMPTY v))
    (interruptible_sleep_on patience (Some (proc_list_q t q))).
Definition sleep_if_full (t : nat) (q : tty_struct -> tty_queue) `{!Setter q} : M kernel unit :=
  v ← getf t q;
  when (FULL v)
    (while patience (s ← cur t_signal; v ← getf t q; mret (negb (truth s) && (LEFT v <? 128)))
       (interruptible_sleep_on patience (Some (proc_list_q t q)))).
Definition wait_for_keypress : M kernel unit := sleep_if_empty 0 tty_secondary.

(** [flag=(!oldalarm || time+jiffies<oldalarm)] and the alarm it sets. *)
Definition arm (time oldalarm : Z) : M kernel bool :=
  j ← gets k_jiffies;
  let flag := negb (truth oldalarm) || (s32 (time + j) <? oldalarm) in
  when flag (cst t_alarm (s32 (time + j))) ;;
  mret flag.

(** The inner loop: characters from [secondary] to the user at [b], [nr] to
    go; [inr (inl b)] is the end of file of canonical mode. *)
Definition read_chars (t : nat) (b nr : Z) : M kernel (Z + Z * Z) :=
  loop (S (Z.to_nat nr)) (fun '(b, nr) =>
    c ← GETCH t tty_secondary;
    eof ← CC t VEOF;
    when ((c =? eof) || (c =? 10))
      (upd t tty_secondary (set_field q_data (fun d => u32 (d - 1)))) ;;
    canon ← L_FLAG t ICANON;
    if (c =? eof) && canon then mret (inr (inl b))
    else
      put_fs_byte c b ;;
      let b := b + 1 in
      let nr := nr - 1 in
      q ← t->>tty_secondary;
      mret (if negb (truth nr) || negb (0 <? nr) || EMPTY q then inr (inr (b, nr)) else inl (b, nr)))
    (b, nr).

Definition tty_read (channel buf nr : Z) : M kernel Z :=
  if (2 <? u32 channel) || (nr <? 0) then mret (-1)
  else
    let t := Z.to_nat channel in
    oldalarm ← cur t_alarm;
    vtime ← CC t VTIME; vmin ← CC t VMIN;
    let time := 10 * vtime in
    let timed := truth time && negb (truth vmin) in
    flag ← (if timed then arm time oldalarm else mret false);
    let minimum := if timed then 1 else vmin in
    let minimum := if nr <? minimum then nr else minimum in
    r ← loop patience (fun '(b, nr, flag) =>
      if negb (0 <? nr) then mret (inr (inr b))
      else
        sg ← cur t_signal;
        if (flag : bool) && truth (Z.land sg ALRMMASK) then
          cst t_signal (Z.land sg (Z.lnot ALRMMASK)) ;; mret (inr (inr b))
        else if truth sg then mret (inr (inr b))
        else
          q ← t->>tty_secondary;
          canon ← L_FLAG t ICANON;
          if EMPTY q || ((canon : bool) && negb (truth (q_data q)) && (20 <? LEFT q)) then
            sleep_if_empty t tty_secondary ;; mret (inl (b, nr, flag))
          else
            r ← read_chars t b nr;
            match r with
            | inl b => mret (inr (inl b))
            | inr (b, nr) =>
                canon ← L_FLAG t ICANON;
                flag ← (if truth time && negb canon then
                          f ← arm time oldalarm;
                          (if (f : bool) then mret tt else cst t_alarm oldalarm) ;;
                          mret f
                        else mret flag);
                mret (if (if (canon : bool) then truth (b - buf) else minimum <=? b - buf)
                      then inr (inr b) else inl (b, nr, flag))
            end) (buf, nr, flag);
    match r with
    | inl b => mret (b - buf)
    | inr b =>
        cst t_alarm oldalarm ;;
        sg ← cur t_signal;
        mret (if truth sg && negb (truth (b - buf)) then - EINTR else b - buf)
    end.

(** One turn of the inner loop of [tty_write]: the character at [b] to
    [write_q], or a CR before it. *)
Definition write_char (t : nat) (b nr : Z) : M kernel (Z * Z) :=
  v ← get_fs_byte b;
  let c := s8 v in
  post ← O_FLAG t OPOST; crnl ← O_FLAG t OCRNL; nlret ← O_FLAG t ONLRET; nlcr ← O_FLAG t ONLCR;
  lcuc ← O_FLAG t OLCUC;
  crf ← gets k_cr_flag;
  let c := if (post : bool) then
             if (c =? 13) && crnl then 10 else if (c =? 10) && nlret then 13 else c
           else c in
  if (post : bool) && (c =? 10) && negb (truth crf) && nlcr then
    setg k_cr_flag 1 ;; PUTCH 13 t tty_write_q ;; mret (b, nr)
  else
    let c := if (post : bool) && lcuc then toupper c else c in
    setg k_cr_flag 0 ;;
    PUTCH c t tty_write_q ;;
    mret (b + 1, nr - 1).

Definition tty_write (channel buf nr : Z) : M kernel Z :=
  if (2 <? u32 channel) || (nr <? 0) then mret (-1)
  else
    let t := Z.to_nat channel in
    b ← loop patience (fun '(b, nr) =>
      if negb (0 <? nr) then mret (inr b)
      else
        sleep_if_full t tty_write_q ;;
        sg ← cur t_signal;
        if truth sg then mret (inr b)
        else
          '(b, nr) ← loop (S (2 * Z.to_nat nr)) (fun '(b, nr) =>
            q ← t->>tty_write_q;
            if negb (0 <? nr) || FULL q then mret (inr (b, nr))
            else bn ← write_char t b nr; mret (inl bn)) (b, nr);
          tty_write_fn_call t ;;
          when (0 <? nr) schedule ;;
          mret (inl (b, nr))) (buf, nr);
    mret (b - buf).
End with_world.

(** ** tty_ioctl.c *)

Definition TCGETS : Z := 0x5401.
Definition TCSETS : Z := 0x5402.
Definition TCSETSW : Z := 0x5403.
Definition TCSETSF : Z := 0x5404.
Definition TCGETA : Z := 0x5405.
Definition TCSETA : Z := 0x5406.
Definition TCSETAW : Z := 0x5407.
Definition TCSETAF : Z := 0x5408.
Definition TCSBRK : Z := 0x5409.
Definition TCFLSH : Z := 0x540B.
Definition TIOCGPGRP : Z := 0x540F.
Definition TIOCSPGRP : Z := 0x5410.
Definition TIOCOUTQ : Z := 0x5411.
Definition TIOCINQ : Z := 0x541B.
Definition NCC : nat := 8.

Definition quotient : list Z :=
  [0; 2304; 1536; 1047; 857; 768; 576; 384; 192; 96; 64; 48; 24; 12; 6; 3].

Definition change_speed (t : nat) : M kernel unit :=
  q ← t->>tty_read_q;
  let port := u16 (q_data q) in
  if negb (truth port) then mret tt
  else
    m ← t->>tty_termios;
    let quot := default 0 (quotient !! Z.to_nat (Z.land (c_cflag m) CBAUD)) in
    outb 0x80 (port + 3) ;;
    outb (Z.land quot 0xff) port ;;
    outb (Z.shiftr quot 8) (port + 1) ;;
    outb 0x03 (port + 3).

Definition flush (t : nat) (q : tty_struct -> tty_queue) `{!Setter q} : M kernel unit :=
  upd t q (fun v => set_field q_head (fun _ => q_tail v) v).

(** The bytes of [struct termios] (36, two of padding) and [struct termio]
    (18, one of padding); padding is 0. *)
Definition bytes_of (n : nat) (v : Z) : list Z := (fun i => u8 (Z.shiftr v (8 * Z.of_nat i))) <$> seq 0 n.
Definition termios_bytes (m : termios) : list Z :=
  bytes_of 4 (c_iflag m) ++ bytes_of 4 (c_oflag m) ++ bytes_of 4 (c_cflag m) ++
  bytes_of 4 (c_lflag m) ++ [u8 (c_line m)] ++ c_cc m ++ [0; 0].
Definition termio_bytes (m : termios) : list Z :=
  bytes_of 2 (c_iflag m) ++ bytes_of 2 (c_oflag m) ++ bytes_of 2 (c_cflag m) ++
  bytes_of 2 (c_lflag m) ++ [u8 (c_line m)] ++ take NCC (c_cc m) ++ [0].
Definition val_of (l : list Z) (off n : nat) : Z :=
  foldr (fun i acc => default 0 (l !! (off + i)%nat) + 2 ^ 8 * acc) 0 (seq 0 n).
Definition termios_of (l : list Z) : termios :=
  Termios (val_of l 0 4) (val_of l 4 4) (val_of l 8 4) (val_of l 12 4) (default 0 (l !! 16%nat))
    (take 17 (drop 17 l)).
(** A 16-bit store into a 32-bit flag word changes its low half. *)
Definition set_low16 (v x : Z) : Z := Z.lor (Z.land v 0xffff0000) (u16 x).

Definition put_user (l : list Z) (addr : Z) : M kernel unit :=
  for_ (zip (seq 0 (length l)) l) (fun '(i, v) => put_fs_byte v (addr + Z.of_nat i)).
Definition get_user (n : nat) (addr : Z) : M kernel (list Z) :=
  loop (S n) (fun '(i, acc) =>
    if (n <=? i)%nat then mret (inr acc)
    else v ← get_fs_byte (addr + Z.of_nat i); mret (inl (S i, acc ++ [v]))) (0%nat, []).

Section ioctl.
Context `{World}.

Definition get_termios (t : nat) (addr : Z) : M kernel Z :=
  verify_area addr 36 ;;
  m ← t->>tty_termios;
  put_user (termios_bytes m) addr ;;
  mret 0.

Definition set_termios (t : nat) (addr : Z) : M kernel Z :=
  l ← get_user 36 addr;
  st t tty_termios (termios_of l) ;;
  change_speed t ;;
  mret 0.

Definition get_termio (t : nat) (addr : Z) : M kernel Z :=
  verify_area addr 18 ;;
  m ← t->>tty_termios;
  put_user (termio_bytes m) addr ;;
  mret 0.

Definition set_termio (t : nat) (addr : Z) : M kernel Z :=
  l ← get_user 18 addr;
  upd t tty_termios (fun m =>
    Termios (set_low16 (c_iflag m) (val_of l 0 2)) (set_low16 (c_oflag m) (val_of l 2 2))
      (set_low16 (c_cflag m) (val_of l 4 2)) (set_low16 (c_lflag m) (val_of l 6 2))
      (default 0 (l !! 8%nat)) (take NCC (drop 9 l) ++ drop NCC (c_cc m))) ;;
  change_speed t ;;
  mret 0.

(** [wait_until_sent] and [send_break] are empty in the source. *)
Definition tty_ioctl (dev cmd arg : Z) : M kernel Z :=
  dev ← (if MAJOR dev =? 5 then
           d ← cur t_tty; if d <? 0 then panic "tty_ioctl: dev<0" else mret d
         else mret (MINOR dev));
  let t := Z.to_nat dev in
  if cmd =? TCGETS then get_termios t arg
  else if cmd =? TCSETSF then flush t tty_read_q ;; set_termios t arg
  else if (cmd =? TCSETSW) || (cmd =? TCSETS) then set_termios t arg
  else if cmd =? TCGETA then get_termio t arg
  else if cmd =? TCSETAF then flush t tty_read_q ;; set_termio t arg
  else if (cmd =? TCSETAW) || (cmd =? TCSETA) then set_termio t arg
  else if cmd =? TCSBRK then mret 0
  else if cmd =? TCFLSH then
    if arg =? 0 then flush t tty_read_q ;; mret 0
    else if arg =? 1 then flush t tty_write_q ;; mret 0
    else if arg =? 2 then flush t tty_read_q ;; flush t tty_write_q ;; mret 0
    else mret (- EINVAL)
  else if cmd =? TIOCGPGRP then
    verify_area arg 4 ;; p ← t->>tty_pgrp; put_fs_long p arg ;; mret 0
  else if cmd =? TIOCSPGRP then
    p ← get_fs_long arg; st t tty_pgrp (s32 p) ;; mret 0
  else if cmd =? TIOCOUTQ then
    verify_area arg 4 ;; q ← t->>tty_write_q; put_fs_long (CHARS q) arg ;; mret 0
  else if cmd =? TIOCINQ then
    verify_area arg 4 ;; q ← t->>tty_secondary; put_fs_long (CHARS q) arg ;; mret 0
  else mret (- EINVAL).
End ioctl.

(** ** Lemmas: a queue is a list of characters *)

(** The indices stay in the ring; at most 1023 characters fit. *)
Record queue_ok (q : tty_queue) : Prop := {
  qo_head : 0 <= q_head q < TTY_BUF_SIZE;
  qo_tail : 0 <= q_tail q < TTY_BUF_SIZE;
  qo_buf : length (q_buf q) = 1024%nat }.
(** The characters of a queue, the oldest first. *)
Definition queue_char (q : tty_queue) (k : Z) : Z :=
  s8 (default 0 (q_buf q !! Z.to_nat ((q_tail q + k) mod TTY_BUF_SIZE))).
Definition queue_chars (q : tty_queue) : list Z := queue_char q <$> seqZ 0 (CHARS q).

Lemma land_ring z : Z.land z (TTY_BUF_SIZE - 1) = z mod TTY_BUF_SIZE.
Proof. change (TTY_BUF_SIZE - 1) with (Z.ones 10). by rewrite Z.land_ones by lia. Qed.

Lemma s8_u8 c : s8 (u8 c) = s8 c.
Proof. unfold s8, u8. by rewrite Zplus_mod_idemp_l. Qed.

Lemma CHARS_bounds q : 0 <= CHARS q < TTY_BUF_SIZE.
Proof. unfold CHARS. rewrite land_ring. apply Z.mod_pos_bound. reflexivity. Qed.

Lemma LEFT_CHARS q : queue_ok q -> LEFT q = TTY_BUF_SIZE - 1 - CHARS q.
Proof.
  intros [Hh Ht _]. unfold LEFT, CHARS, TTY_BUF_SIZE in *. rewrite !land_ring. unfold TTY_BUF_SIZE.
  Z.to_euclidean_division_equations. lia.
Qed.
Lemma EMPTY_CHARS q : queue_ok q -> EMPTY q = (CHARS q =? 0).
Proof.
  intros [Hh Ht _]. unfold EMPTY, CHARS, TTY_BUF_SIZE in *. rewrite !land_ring. unfold TTY_BUF_SIZE.
  apply eq_true_iff_eq. rewrite !Z.eqb_eq. Z.to_euclidean_division_equations. lia.
Qed.

Lemma ring_inj a b : 0 <= a < TTY_BUF_SIZE -> 0 <= b < TTY_BUF_SIZE -> Z.to_nat a = Z.to_nat b -> a = b.
Proof. lia. Qed.

Lemma queue_put c q :
  queue_ok q -> FULL q = false ->
  queue_ok (putch c q) /\ queue_chars (putch c q) = queue_chars q ++ [s8 c].
Proof.
  intros Hq Hf. pose proof (LEFT_CHARS q Hq) as HL. destruct Hq as [Hh Ht Hb].
  assert (Hroom : CHARS q < TTY_BUF_SIZE - 1).
  { unfold FULL in Hf. apply negb_false_iff, truth_true in Hf. pose proof (CHARS_bounds q). lia. }
  assert (HC : CHARS (putch c q) = CHARS q + 1).
  { revert Hroom. unfold CHARS, INC. cbn. unfold INC. rewrite !land_ring. unfold TTY_BUF_SIZE in *.
    Z.to_euclidean_division_equations. lia. }
  split.
  - split; cbn; [|done|by rewrite length_insert]. unfold INC. rewrite land_ring. apply Z.mod_pos_bound. reflexivity.
  - unfold queue_chars. rewrite HC, seqZ_app, fmap_app by (pose proof (CHARS_bounds q); lia). cbn [fmap list_fmap seqZ].
    f_equal.
    + apply list_fmap_ext. intros n k Hk. apply lookup_seqZ in Hk as [-> Hk].
      unfold queue_char. cbn. rewrite list_lookup_insert_ne; [done|].
      intros He. apply ring_inj in He; [|done|apply Z.mod_pos_bound; reflexivity].
      revert He Hk. unfold CHARS. rewrite land_ring. unfold TTY_BUF_SIZE in *.
      Z.to_euclidean_division_equations. lia.
    + change (seqZ (0 + CHARS q) 1) with [0 + CHARS q]. cbn. unfold queue_char. cbn.
      replace (Z.to_nat ((q_tail q + (0 + CHARS q)) mod TTY_BUF_SIZE)) with (Z.to_nat (q_head q)).
      * rewrite list_lookup_insert_eq by (unfold TTY_BUF_SIZE in *; lia). cbn. by rewrite s8_u8.
      * f_equal. unfold CHARS. rewrite land_ring. unfold TTY_BUF_SIZE in *.
        Z.to_euclidean_division_equations. lia.
Qed.

Lemma queue_get q :
  queue_ok q -> EMPTY q = false ->
  let q' := set_field q_tail INC q in
  queue_ok q' /\ queue_chars q = getch q :: queue_chars q'.
Proof.
  intros Hq He q'. rewrite EMPTY_CHARS in He by done. apply Z.eqb_neq in He.
  pose proof (CHARS_bounds q). destruct Hq as [Hh Ht Hb].
  assert (HC : CHARS q = 1 + CHARS q').
  { revert He. unfold CHARS, q', INC. cbn. unfold INC. rewrite !land_ring. unfold TTY_BUF_SIZE in *.
    Z.to_euclidean_division_equations. lia. }
  split.
  - split; cbn; [done| |done]. unfold INC. rewrite land_ring. apply Z.mod_pos_bound. reflexivity.
  - unfold queue_chars. pose proof (CHARS_bounds q'). rewrite HC, seqZ_app by lia. cbn [fmap list_fmap].
    change (seqZ 0 1) with [0]. cbn [app fmap list_fmap]. f_equal.
    + unfold queue_char, getch. rewrite Z.add_0_r, Z.mod_small by done. done.
    + rewrite <- (Z.add_0_r (0 + 1)) at 1. rewrite <- fmap_add_seqZ, <- list_fmap_compose.
      apply list_fmap_ext. intros n k _. unfold queue_char, compose, q'. cbn. unfold INC. rewrite land_ring.
      do 3 f_equal. rewrite Zplus_mod_idemp_l. f_equal. f_equal. lia.
Qed.

Lemma queue_rub q :
  queue_ok q -> EMPTY q = false ->
  let q' := set_field q_head DEC q in
  queue_ok q' /\ queue_chars q = queue_chars q' ++ [LAST q].
Proof.
  intros Hq He q'. rewrite EMPTY_CHARS in He by done. apply Z.eqb_neq in He.
  pose proof (CHARS_bounds q). destruct Hq as [Hh Ht Hb].
  assert (HC : CHARS q = CHARS q' + 1).
  { revert He. unfold CHARS, q'. cbn. unfold DEC. rewrite !land_ring. unfold TTY_BUF_SIZE in *.
    Z.to_euclidean_division_equations. lia. }
  split.
  - split; cbn; [|done|done]. unfold DEC. rewrite land_ring. apply Z.mod_pos_bound. reflexivity.
  - unfold queue_chars. pose proof (CHARS_bounds q'). rewrite HC, seqZ_app, fmap_app by lia.
    f_equal. change (seqZ (0 + CHARS q') 1) with [0 + CHARS q']. cbn [fmap list_fmap]. f_equal.
    unfold queue_char, LAST. rewrite Z.land_comm, land_ring. do 4 f_equal.
    revert He. unfold CHARS, q'. cbn. unfold DEC. rewrite !land_ring. unfold TTY_BUF_SIZE in *.
    Z.to_euclidean_division_equations. lia.
Qed.

Lemma queue_length q : Z.of_nat (length (queue_chars q)) = CHARS q.
Proof. unfold queue_chars. rewrite length_fmap, length_seqZ. pose proof (CHARS_bounds q). lia. Qed.
Lemma queue_empty q : queue_ok q -> EMPTY q = true <-> queue_chars q = [].
Proof.
  intros Hq. rewrite EMPTY_CHARS, Z.eqb_eq, <- queue_length by done. split; [|by intros ->].
  intros. apply nil_length_inv. lia.
Qed.
Lemma queue_full q : queue_ok q -> FULL q = true <-> length (queue_chars q) = 1023%nat.
Proof.
  intros Hq. unfold FULL. rewrite negb_true_iff, truth_false, LEFT_CHARS, <- queue_length by done.
  unfold TTY_BUF_SIZE. lia.
Qed.

(** The macros of tty.h implement a first-in first-out queue of at most
    1023 characters in the ring buffer, indices wrapping round: [PUTCH] appends,
    [GETCH] takes the oldest, [LAST] and [DEC] see and take back the newest;
    [EMPTY], [FULL], [CHARS] and [LEFT] count. *)
Theorem tty_queue_fifo q c :
  queue_ok q ->
  (EMPTY q = true <-> queue_chars q = []) /\
  (FULL q = true <-> length (queue_chars q) = 1023%nat) /\
  CHARS q = Z.of_nat (length (queue_chars q)) /\
  LEFT q = 1023 - Z.of_nat (length (queue_chars q)) /\
  (FULL q = false -> queue_ok (putch c q) /\ queue_chars (putch c q) = queue_chars q ++ [s8 c]) /\
  (EMPTY q = false ->
     queue_ok (set_field q_tail INC q) /\
     queue_chars q = getch q :: queue_chars (set_field q_tail INC q) /\
     queue_ok (set_field q_head DEC q) /\
     queue_chars q = queue_chars (set_field q_head DEC q) ++ [LAST q]).
Proof.
  intros Hq. split_and!; [by apply queue_empty|by apply queue_full|by rewrite queue_length| | |].
  - rewrite queue_length, LEFT_CHARS by done. reflexivity.
  - intros. by apply queue_put.
  - intros He. destruct (queue_get q Hq He), (queue_rub q Hq He). done.
Qed.
Lemma tty_queue_fifo_witness :
  let q := TtyQueue 0 1023 1022 None (replicate 1024 65) in
  queue_ok q /\ queue_chars (putch 200 q) = [65; -56].
Proof.
  intros q. assert (Hq : queue_ok q) by (split; cbn; unfold TTY_BUF_SIZE; lia). split; [exact Hq|].
  destruct (tty_queue_fifo q 200 Hq) as (_ & _ & _ & _ & Hp & _).
  destruct (Hp eq_refl) as [_ Hc]. rewrite Hc. reflexivity.
Defined.
