(* ===== verification/Cooking.v ===== *)
(** * kernel/chr_drv/tty_io.c: the line discipline

    What [copy_to_cooked] of Tty does to the characters that are typed, stated
    as a function on lists of characters, and the proof that it does it, on
    terminals that echo and on those that do not. *)

From S2P Require Import Prelude Kernel Sched Memory Fork Ctype Console Tty.

(** ** The line discipline *)

Section line_discipline.
Variable m : termios.
Let cc (i : nat) : Z := default 0 (c_cc m !! i).
Let iflag (f : Z) : bool := truth (Z.land (c_iflag m) f).
Let lflag (f : Z) : bool := truth (Z.land (c_lflag m) f).

(** What a reader has to come: the cooked characters, the number of line
    ends among them, and whether output is stopped. *)
Record line := Line { ln_cooked : list Z; ln_lines : Z; ln_stopped : Z }.

Definition translate (c : Z) : option Z :=
  let lower c := Some (if iflag IUCLC then tolower c else c) in
  if c =? 13 then if iflag ICRNL then lower 10 else if iflag IGNCR then None else lower c
  else if (c =? 10) && iflag INLCR then lower 13 else lower c.

Definition ends_line (c : Z) : bool := (c =? 10) || (c =? cc VEOF).
(** Editing the current line, here with its last character first. *)
Fixpoint kill_rev (r : list Z) : list Z :=
  match r with c :: r' => if ends_line c then r else kill_rev r' | [] => [] end.
Definition erase_rev (r : list Z) : list Z :=
  match r with c :: r' => if ends_line c then r else r' | [] => [] end.
Definition edit_line (f : list Z -> list Z) (k : line) : line :=
  Line (rev (f (rev (ln_cooked k)))) (ln_lines k) (ln_stopped k).

Definition line_char (c : Z) (k : line) : line :=
  if lflag ICANON && (c =? cc VKILL) then edit_line kill_rev k
  else if lflag ICANON && (c =? cc VERASE) then edit_line erase_rev k
  else if lflag ICANON && (c =? cc VSTOP) then Line (ln_cooked k) (ln_lines k) 1
  else if lflag ICANON && (c =? cc VSTART) then Line (ln_cooked k) (ln_lines k) 0
  else if lflag ISIG && ((c =? cc VINTR) || (c =? cc VQUIT)) then k
  else Line (ln_cooked k ++ [s8 c]) (if ends_line c then u32 (ln_lines k + 1) else ln_lines k) (ln_stopped k).

(** The typed characters one after the other, while there is room. *)
Fixpoint line_run (input : list Z) (k : line) : list Z * line :=
  match input with
  | [] => ([], k)
  | c :: rest =>
      if (length (ln_cooked k) =? 1023)%nat then (input, k)
      else line_run rest (match translate c with None => k | Some c => line_char c k end)
  end.
End line_discipline.

(** ** Echoing *)

Definition is_char (c : Z) : Prop := -128 <= c < 128.
Lemma s8_is_char c : is_char (s8 c).
Proof. unfold is_char, s8. pose proof (Z.mod_pos_bound (c + 2 ^ 7) (2 ^ 8)). lia. Qed.
Lemma s8_char c : is_char c -> s8 c = c.
Proof. unfold is_char, s8. intros. rewrite Z.mod_small; lia. Qed.
Lemma queue_chars_char q : Forall is_char (queue_chars q).
Proof. apply Forall_fmap, Forall_true. intros k. apply s8_is_char. Qed.
Lemma tolower_char c : is_char c -> is_char (tolower c) /\ (tolower c = c \/ 0 <= tolower c).
Proof.
  intros Hc. assert (Hall : Forall (fun c => is_char (tolower c) /\ (tolower c = c \/ 0 <= tolower c)) (seqZ (-128) 256)).
  { unfold is_char. apply (bool_decide_unpack _). vm_compute. exact I. }
  rewrite Forall_forall in Hall. apply Hall, elem_of_seqZ. unfold is_char in Hc. lia.
Qed.
(** [c] is neither put out of the range of a [char] nor made 0xDB. *)
Lemma translate_char m c c' : is_char c -> translate m c = Some c' -> is_char c' /\ (c <> -37 -> c' <> -37).
Proof.
  intros Hc. destruct (tolower_char c Hc) as [H1 H2].
  destruct (tolower_char 10 ltac:(done)) as [H3 H4], (tolower_char 13 ltac:(done)) as [H5 H6].
  unfold translate. repeat case_match; intros [= <-]; (split; [done|lia]).
Qed.

(** What the screen keeps while plain characters are written. *)
Lemma scrup_mem_state c : con_state (scrup_mem c) = con_state c.
Proof. unfold scrup_mem, wr, scroll_region_up. by repeat case_match. Qed.
Lemma lf_mem_state c : con_state (lf_mem c) = con_state c.
Proof. unfold lf_mem, wr. case_match; [apply scrup_mem_state|done]. Qed.

(** Only the console, the ports and the beep differ. *)
Definition on_screen (s s' : kernel) : Prop :=
  k_tty s' = k_tty s /\ k_task s' = k_task s /\ con_state (k_con s') = con_state (k_con s).

Section screen.
Context `{World}.
Context (P : string -> kernel -> Prop) (F : Prop).

Lemma screen_refl s : on_screen s s.
Proof. done. Qed.
Lemma screen_trans s1 s2 s3 : on_screen s1 s2 -> on_screen s2 s3 -> on_screen s1 s3.
Proof. unfold on_screen. intuition congruence. Qed.

Definition screen_only (c : M kernel unit) : Prop :=
  forall (Q : unit -> kernel -> Prop) s, (forall s', on_screen s s' -> Q tt s') -> wpg P F c Q s.

Lemma screen_bind c d : screen_only c -> screen_only d -> screen_only (c ;; d).
Proof.
  intros Hc Hd Q s HQ. apply wpg_bind, Hc. intros s1 H1. apply Hd. intros s2 H2.
  apply HQ. by eapply screen_trans.
Qed.
Lemma screen_gets {A} (f : kernel -> A) (d : A -> M kernel unit) :
  (forall a, screen_only (d a)) -> screen_only (a ← gets f; d a).
Proof. intros Hd Q s HQ. apply wpg_bind, wpg_gets. by apply Hd. Qed.
Lemma screen_con f : (forall c, con_state (f c) = con_state c) -> screen_only (con f).
Proof. intros Hf Q s HQ. apply wpg_modify, HQ. repeat split. apply Hf. Qed.
Lemma screen_outb v p : screen_only (outb v p).
Proof. intros Q s HQ. apply wpg_modify, HQ. by repeat split. Qed.
Lemma screen_when b c : screen_only c -> screen_only (when b c).
Proof. intros Hc Q s HQ. destruct b; [by apply Hc|by apply wpg_ret, HQ]. Qed.
Lemma screen_ret : screen_only (mret tt).
Proof. intros Q s HQ. by apply wpg_ret, HQ. Qed.
Lemma screen_set_origin : screen_only set_origin.
Proof. unfold set_origin. apply screen_gets. intros c. repeat first [apply screen_bind|apply screen_outb]. Qed.
Lemma screen_set_cursor : screen_only set_cursor.
Proof. unfold set_cursor. apply screen_gets. intros c. repeat first [apply screen_bind|apply screen_outb]. Qed.
Lemma screen_lf : screen_only lf.
Proof.
  unfold lf. apply screen_gets. intros c. destruct (lf_scrolls c); [|apply screen_con, lf_mem_state].
  unfold scrup. apply screen_gets. intros c'. apply screen_bind; [apply screen_con, scrup_mem_state|].
  apply screen_when, screen_set_origin.
Qed.
Lemma screen_sysbeep : screen_only sysbeep.
Proof.
  intros Q s HQ. unfold sysbeep, inb, in_port, outb. wp_steps. apply HQ. by repeat split.
Qed.

Ltac screen_step :=
  lazymatch goal with
  | |- screen_only (mbind _ (gets _)) => apply screen_gets; intros ?
  | |- screen_only (mbind _ _) => apply screen_bind
  | |- screen_only (when _ _) => apply screen_when
  | |- screen_only lf => apply screen_lf
  | |- screen_only sysbeep => apply screen_sysbeep
  | |- screen_only (mret _) => apply screen_ret
  | |- screen_only (con _) => apply screen_con; intros ?; solve [reflexivity | unfold del; by case_match]
  end.
(** A character that is not ESC, outside an escape sequence. *)
Lemma screen_plain t T c (Q : unit -> kernel -> Prop) s :
  c <> 27 -> k_tty s !! t = Some T -> (forall s', on_screen s s' -> Q tt s') -> wpg P F (con_plain t c) Q s.
Proof.
  intros Hc HT HQ. unfold con_plain, CC. do 6 wp_step. rewrite (proj2 (Z.eqb_neq _ _) Hc).
  repeat match goal with |- wpg _ _ (if ?b then _ else _) _ _ => destruct b end.
  all: generalize (k_con s) as k; intros k; revert HQ; clear -P F H; revert Q s.
  all: match goal with |- forall Q s, _ -> wpg _ _ ?c Q s => change (screen_only c) end.
  all: repeat screen_step.
Qed.

Lemma con_char_plain cook t c (Q : unit -> kernel -> Prop) s :
  con_state (k_con s) = 0 -> wpg P F (con_plain t c) Q s -> wpg P F (con_char cook t c) Q s.
Proof. intros Hs HQ. unfold con_char, sget. apply wpg_bind, wpg_gets. cbv beta. by rewrite Hs. Qed.

(** Writing plain characters to the screen: they all go, and nothing answers. *)
Lemma con_write_plain t T (Q : unit -> kernel -> Prop) s :
  k_tty s !! t = Some T -> queue_ok (tty_write_q T) -> Forall (.≠ 27) (queue_chars (tty_write_q T)) ->
  con_state (k_con s) = 0 -> (0 < patience)%nat ->
  (forall q s', k_tty s' = <[t := set_field tty_write_q (fun _ => q) T]> (k_tty s) -> queue_ok q ->
     queue_chars q = [] -> k_task s' = k_task s -> con_state (k_con s') = 0 -> Q tt s') ->
  wpg P F (con_write t) Q s.
Proof.
  intros HT Hq Hch Hst Hpat HQ. unfold con_write. destruct patience as [|d]; [lia|]. cbn [con_write_at]. unfold con_write_with.
  wp_steps.
  apply wpg_for with (Inv := fun l s' => exists q, k_tty s' = <[t := set_field tty_write_q (fun _ => q) T]> (k_tty s) /\
    queue_ok q /\ length (queue_chars q) = length l /\ Forall (.≠ 27) (queue_chars q) /\ k_task s' = k_task s /\
    con_state (k_con s') = 0).
  - exists (tty_write_q T). split_and!; try done.
    + rewrite list_insert_id; [done|]. rewrite HT. by destruct T.
    + rewrite length_seq, <- queue_length. lia.
  - intros i l s1 (q & Htty & Hok & Hlen & Hf & Htask & Hs1). unfold GETCH.
    assert (HT1 : k_tty s1 !! t = Some (set_field tty_write_q (fun _ => q) T)).
    { rewrite Htty. apply list_lookup_insert_eq. by eapply lookup_lt_Some. }
    wp_step. wp_step. wp_step. wp_step. wp_step. idtac. destruct (queue_get q Hok) as [Hok' Hc].
    { apply not_true_iff_false. rewrite queue_empty by done. intros E. by rewrite E in Hlen. }
    rewrite Hc in Hlen, Hf. apply Forall_cons in Hf as [Hc27 Hf]. injection Hlen as Hlen.
    apply con_char_plain; [exact Hs1|]. eapply screen_plain; [exact Hc27|cbn; apply list_lookup_insert_eq; by eapply lookup_lt_Some|].
    intros s2 (H1 & H2 & H3).
    exists (set_field q_tail INC q). rewrite H1, H2, H3. cbn. rewrite Htty. split_and!; try done.
    by rewrite list_insert_insert_eq.
  - intros s1 (q & Htty & Hok & Hlen & _ & Htask & Hs1). apply screen_set_cursor. intros s2 (H1 & H2 & H3).
    apply (HQ q); try congruence. by apply nil_length_inv.
Qed.
End screen.

(** When the echo can go wrong.  On a serial line, or without echo, it cannot.
    The screen must be outside an escape sequence, what waits for it must hold no
    ESC and leave room for an echo, and no character 0xDB may be in the input: it
    counts as a control character, being negative, and its echo is ESC behind [^]. *)
Definition screen_safe (T : tty_struct) (c : console) : Prop :=
  queue_ok (tty_write_q T) /\ (length (queue_chars (tty_write_q T)) <= 1021)%nat /\
  Forall (.≠ 27) (queue_chars (tty_write_q T)) /\ con_state c = 0.
Definition echoes (T : tty_struct) : bool := truth (Z.land (c_lflag (tty_termios T)) ECHO).
Definition echo_safe (T : tty_struct) (c : console) (input : list Z) : Prop :=
  echoes T = true -> tty_write_fn T = 0%nat -> screen_safe T c /\ Forall (.≠ -37) input.

Section cooking_proofs.
Context `{World}.
Context (t : nat) (T0 : tty_struct) (s0 : kernel).
Context (Hpat : (0 < patience)%nat).
Let m := tty_termios T0.

(** The write queue while [n] characters of an echo wait there. *)
Definition echo_at (n : nat) (T : tty_struct) (c : console) : Prop :=
  if echoes T0
  then tty_write_fn T0 = 0%nat -> queue_ok (tty_write_q T) /\
         (length (queue_chars (tty_write_q T)) <= 1021 + n)%nat /\
         Forall (.≠ 27) (queue_chars (tty_write_q T)) /\ con_state c = 0
  else tty_write_q T = tty_write_q T0.

(** The terminal stands for the input [rest] and the line [k], with [n]
    characters put and not yet written; nothing else of it changes, and no task
    disappears. *)
Definition cooks_with (n : nat) (rest : list Z) (k : line) (s : kernel) : Prop :=
  exists T, k_tty s !! t = Some T /\
    queue_ok (tty_read_q T) /\ queue_chars (tty_read_q T) = rest /\
    queue_ok (tty_secondary T) /\ queue_chars (tty_secondary T) = ln_cooked k /\
    q_data (tty_secondary T) = ln_lines k /\ tty_stopped T = ln_stopped k /\
    q_proc_list (tty_secondary T) = q_proc_list (tty_secondary T0) /\
    tty_termios T = m /\ tty_pgrp T = tty_pgrp T0 /\
    (forall p, is_Some (task_at s0 p) -> is_Some (task_at s p)) /\
    tty_write_fn T = tty_write_fn T0 /\ echo_at n T (k_con s) /\
    (echoes T0 = true -> tty_write_fn T0 = 0%nat -> Forall (.≠ -37) rest).
Abbreviation cooks := (cooks_with 0).

Context (P : string -> kernel -> Prop) (F : Prop).

Lemma cooks_termios {A} n rest k (f : termios -> A) (Q : A -> kernel -> Prop) s :
  cooks_with n rest k s -> Q (f m) s -> wpg P F (mm ← t->>tty_termios; mret (f mm)) Q s.
Proof.
  intros (T & HT & _ & _ & _ & _ & _ & _ & _ & Hm & _) HQ. wp_steps. by rewrite Hm.
Qed.

(** Changing the secondary queue. *)
Lemma cooks_secondary rest k k' g (Q : unit -> kernel -> Prop) s :
  cooks rest k s ->
  (forall q, queue_ok q -> queue_chars q = ln_cooked k -> q_data q = ln_lines k ->
     queue_ok (g q) /\ queue_chars (g q) = ln_cooked k' /\ q_data (g q) = ln_lines k' /\
     q_proc_list (g q) = q_proc_list q) ->
  ln_stopped k' = ln_stopped k ->
  (forall s', cooks rest k' s' -> Q tt s') ->
  wpg P F (upd t tty_secondary g) Q s.
Proof.
  intros (T & HT & Hr1 & Hr2 & Hs1 & Hs2 & Hd & Hst & Hp & Hm & Hg & Htask & Hfn & He & Hin) Hk Hstop HQ.
  wp_steps. apply HQ. destruct (Hk _ Hs1 Hs2 Hd) as (Hk1 & Hk2 & Hk3 & Hk4).
  exists (set_field tty_secondary g T). cbn.
  rewrite list_lookup_insert_eq by (by eapply lookup_lt_Some). split_and!; try done; congruence.
Qed.

Lemma cooks_read c rest k (Q : Z -> kernel -> Prop) s :
  cooks (c :: rest) k s -> (forall s', cooks rest k s' -> Q c s') -> wpg P F (GETCH t tty_read_q) Q s.
Proof.
  intros (T & HT & Hr1 & Hr2 & Hs1 & Hs2 & Hd & Hst & Hp & Hm & Hg & Htask & Hfn & He & Hin) HQ. unfold GETCH. wp_steps.
  destruct (queue_get (tty_read_q T) Hr1) as [Hg1 Hg2].
  { destruct (EMPTY _) eqn:E; [|done]. apply queue_empty in E; [|done]. congruence. }
  rewrite Hr2 in Hg2. injection Hg2 as -> Hg2. apply HQ.
  exists (set_field tty_read_q (set_field q_tail INC) T). cbn.
  rewrite list_lookup_insert_eq by (by eapply lookup_lt_Some). split_and!; try done.
  intros E1 E2. by specialize (Hin E1 E2) as [_ Hin]%Forall_cons.
Qed.

Lemma cooks_stopped rest k v (Q : unit -> kernel -> Prop) s :
  cooks rest k s -> (forall s', cooks rest (Line (ln_cooked k) (ln_lines k) v) s' -> Q tt s') ->
  wpg P F (st t tty_stopped v) Q s.
Proof.
  intros (T & HT & Hr1 & Hr2 & Hs1 & Hs2 & Hd & Hst & Hrest) HQ. wp_steps. apply HQ.
  exists (set_field tty_stopped (fun _ => v) T). cbn.
  rewrite list_lookup_insert_eq by (by eapply lookup_lt_Some). split_and!; try done; tauto.
Qed.

Lemma tmap_tasks g p q s s' :
  tmap g p s = Ok tt s' -> is_Some (task_at s q) -> is_Some (task_at s' q).
Proof.
  intros [= <-]. unfold task_at. cbn. destruct (decide (p = q)) as [->|].
  - rewrite list_lookup_alter_eq. destruct (k_task s !! q) as [[]|]; cbn; eauto.
  - by rewrite list_lookup_alter_ne.
Qed.

Lemma cooks_signal rest k mask (Q : unit -> kernel -> Prop) s :
  cooks rest k s -> (forall s', cooks rest k s' -> Q tt s') -> wpg P F (tty_intr t mask) Q s.
Proof.
  intros Hc HQ. unfold tty_intr. pose proof Hc as (T & HT & _). wp_steps; [by apply HQ|].
  apply wpg_for with (Inv := fun _ s' => cooks rest k s'); [done| |done].
  intros p l s1 (T1 & Hc1). exists T1. cbn. decompose [and] Hc1. split_and!; try done.
  intros q Hq. eapply tmap_tasks; [reflexivity|]. auto.
Qed.

Lemma ln_last_empty rest k T s :
  cooks rest k s -> k_tty s !! t = Some T ->
  EMPTY (tty_secondary T) = bool_decide (ln_cooked k = []) /\
  (ln_cooked k <> [] -> exists l, ln_cooked k = l ++ [LAST (tty_secondary T)]).
Proof.
  intros (T' & HT' & _ & _ & Hs1 & Hs2 & _) HT. rewrite HT in HT'. injection HT' as <-.
  assert (HE : EMPTY (tty_secondary T) = bool_decide (ln_cooked k = [])).
  { apply eq_true_iff_eq. rewrite queue_empty, bool_decide_eq_true by done. by rewrite Hs2. }
  split; [done|]. intros Hne.
  exists (queue_chars (set_field q_head DEC (tty_secondary T))). rewrite <- Hs2. apply queue_rub; [done|].
  by rewrite HE, bool_decide_false.
Qed.

Lemma cooks_last rest k (Q : option Z -> kernel -> Prop) s :
  cooks rest k s ->
  Q (match rev (ln_cooked k) with
     | c :: _ => if ends_line m c then None else Some c
     | [] => None
     end) s ->
  wpg P F (last_deletable t) Q s.
Proof.
  intros Hc HQ. pose proof Hc as (T & HT & _). destruct (ln_last_empty rest k T s Hc HT) as [HE HL].
  unfold last_deletable. wp_step. wp_step. rewrite HE.
  destruct (decide (ln_cooked k = [])) as [Hn|Hn].
  - rewrite bool_decide_true by done. rewrite Hn in HQ. exact HQ.
  - rewrite bool_decide_false by done. destruct (HL Hn) as [l Hl]. rewrite Hl, rev_unit in HQ.
    wp_step. unfold CC. eapply cooks_termios; [done|]. wp_steps. exact HQ.
Qed.

(** Echoing a character, and writing what was put. *)
Lemma cooks_put c n rest k (Q : unit -> kernel -> Prop) s :
  cooks_with n rest k s -> (n < 2)%nat -> echoes T0 = true -> (tty_write_fn T0 = 0%nat -> s8 c <> 27) ->
  (forall s', cooks_with (S n) rest k s' -> Q tt s') -> wpg P F (PUTCH c t tty_write_q) Q s.
Proof.
  intros (T & HT & Hr1 & Hr2 & Hs1 & Hs2 & Hd & Hst & Hp & Hm & Hg & Htask & Hfn & He & Hin) Hn Hecho Hc HQ.
  unfold PUTCH. wp_steps. apply HQ. exists (set_field tty_write_q (putch c) T). cbn.
  rewrite list_lookup_insert_eq by (by eapply lookup_lt_Some). split_and!; try done.
  unfold echo_at in *. rewrite Hecho in *. intros E. destruct (He E) as (Hq & Hlen & Hch & Hstate).
  destruct (queue_put c _ Hq) as [Hok Heq].
  { apply not_true_iff_false. rewrite queue_full by done. lia. }
  cbn [tty_write_q set_field]. split_and!; try done.
  - change (length (queue_chars (putch c (tty_write_q T))) <= 1021 + S n)%nat. rewrite Heq, length_app. cbn. lia.
  - change (Forall (.≠ 27) (queue_chars (putch c (tty_write_q T)))). rewrite Heq. apply Forall_app; split; [done|].
    apply Forall_cons; split; [by apply Hc|done].
Qed.

Lemma cooks_write n rest k (Q : unit -> kernel -> Prop) s :
  cooks_with n rest k s -> (n <= 2)%nat -> echoes T0 = true ->
  (forall s', cooks rest k s' -> Q tt s') -> wpg P F (tty_write_fn_call t) Q s.
Proof.
  intros (T & HT & Hr1 & Hr2 & Hs1 & Hs2 & Hd & Hst & Hp & Hm & Hg & Htask & Hfn & He & Hin) Hn Hecho HQ.
  unfold tty_write_fn_call. wp_steps.
  - apply Nat.eqb_eq in H0. rewrite Hfn in H0. unfold echo_at in He. rewrite Hecho in He.
    destruct (He H0) as (Hq & Hlen & Hch & Hstate).
    eapply con_write_plain; [done..|]. intros q s' Htty Hok Hnil Htk Hs'. apply HQ.
    exists (set_field tty_write_q (fun _ => q) T). rewrite Htty, list_lookup_insert_eq by (by eapply lookup_lt_Some).
    split_and!; try done.
    + intros p. unfold task_at. rewrite Htk. apply Htask.
    + unfold echo_at. rewrite Hecho. intros _. cbn [tty_write_q set_field]. unfold set_field, set_tty_write_q. cbn.
      rewrite Hnil. split_and!; [done|cbn; lia|done|done].
  - apply Nat.eqb_neq in H0. rewrite Hfn in H0. unfold rs_write, inb, in_port, outb. 
    assert (Hsame : forall s', k_tty s' = k_tty s -> k_task s' = k_task s -> Q tt s').
    { intros s' E1 E2. apply HQ. exists T. rewrite E1. split_and!; try done.
      - intros p. unfold task_at. rewrite E2. apply Htask.
      - unfold echo_at. rewrite Hecho. intros E. congruence. }
    wp_steps; by apply Hsame.
Qed.

(** A character that does not echo as ESC. *)
Definition plain (c : Z) : Prop := is_char c /\ (echoes T0 = true -> tty_write_fn T0 = 0%nat -> c <> -37).

Lemma cooks_echo c rest k (Q : unit -> kernel -> Prop) s :
  cooks rest k s -> echoes T0 = true -> plain c ->
  (forall s', cooks rest k s' -> Q tt s') -> wpg P F (echo_char tty_write_fn_call t c) Q s.
Proof.
  intros Hc Hecho [Hch Hpl] HQ. unfold echo_char, L_FLAG. wp_step.
  assert (Hw : forall n s', (n <= 2)%nat -> cooks_with n rest k s' -> wpg P F (tty_write_fn_call t) Q s').
  { intros n s' Hn Hc'. by eapply cooks_write. }
  destruct (c =? 10); [|destruct (Z.ltb_spec c 32) as [Hlt|Hge]].
  - wp_step. eapply cooks_put; [done|lia|done|done|]. intros s1 H1.
    eapply cooks_put; [done|lia|done|done|]. intros s2 H2. by eapply Hw.
  - wp_step. eapply cooks_termios; [done|]. wp_steps; [|by eapply Hw; [|done]; lia].
    eapply cooks_put; [done|lia|done|done|]. intros s1 H1.
    eapply cooks_put; [done|lia|done| |intros s2 H2; by eapply Hw].
    intros Hfn. specialize (Hpl Hecho Hfn). rewrite s8_char; unfold is_char in *; lia.
  - eapply cooks_put; [done|lia|done| |intros s2 H2; eapply Hw; [|done]; lia].
    intros _. rewrite s8_char by done. lia.
Qed.

(** Deleting the last character, which is there. *)
Lemma cooks_rubout rest k c r (Q : unit -> kernel -> Prop) s :
  cooks rest k s -> rev (ln_cooked k) = c :: r ->
  (forall s', cooks rest (Line (rev r) (ln_lines k) (ln_stopped k)) s' -> Q tt s') ->
  wpg P F (echo_rubout tty_write_fn_call t c) Q s.
Proof.
  intros Hc Hr HQ. unfold echo_rubout, L_FLAG. wp_step. eapply cooks_termios; [done|].
  change (truth _) with (echoes T0). wp_step.
  assert (Hdec : forall s', cooks rest k s' -> wpg P F (upd t tty_secondary (set_field q_head DEC)) Q s');
    [clear s Hc; intros s Hc|destruct (echoes T0) eqn:Hecho; wp_steps; [..|by apply Hdec]].
  2: { eapply cooks_put; [done|lia|done|done|]. intros s1 H1. wp_step. eapply cooks_put; [done|lia|done|done|].
       intros s2 H2. eapply cooks_write; [done|lia|done|]. apply Hdec. }
  2: { eapply cooks_put; [done|lia|done|done|]. intros s1 H1. eapply cooks_write; [done|lia|done|]. apply Hdec. }
  eapply (cooks_secondary rest k (Line (rev r) (ln_lines k) (ln_stopped k))); [done| |reflexivity|exact HQ].
  intros q Hq1 Hq2 Hq3. destruct (queue_rub q Hq1) as [Ho Hch].
  { apply not_true_iff_false. rewrite queue_empty, Hq2 by done. intros E. by rewrite E in Hr. }
  split_and!; [done| |done..]. cbn. apply (f_equal (@rev Z)) in Hr. rewrite rev_involutive in Hr.
  cbn in Hr. rewrite <- Hq2, Hch in Hr. by apply app_inj_tail in Hr as [-> _].
Qed.

Lemma cooks_kill rest k (Q : unit -> kernel -> Prop) s :
  cooks rest k s -> (length (ln_cooked k) < patience)%nat ->
  (forall s', cooks rest (edit_line (kill_rev m) k) s' -> Q tt s') ->
  wpg P F (kill_line tty_write_fn_call t) Q s.
Proof.
  intros Hc Hlen HQ. unfold kill_line.
  apply wpg_loop_total with
    (mu := fun _ s' => match k_tty s' !! t with Some T => length (queue_chars (tty_secondary T)) | None => 0%nat end)
    (Inv := fun _ s' => exists r, cooks rest (Line (rev r) (ln_lines k) (ln_stopped k)) s' /\
                                  kill_rev m r = kill_rev m (rev (ln_cooked k))).
  - exists (rev (ln_cooked k)). rewrite rev_involutive. by destruct k.
  - pose proof Hc as (T & -> & _ & _ & _ & -> & _). done.
  - intros [] s1 (r & Hc1 & Hk1). wp_step. eapply cooks_last; [done|]. cbn [ln_cooked]. rewrite rev_involutive.
    destruct r as [|c r].
    + wp_steps. apply HQ. unfold edit_line. by rewrite <- Hk1.
    + cbn [kill_rev] in Hk1. destruct (ends_line m c).
      * wp_steps. apply HQ. unfold edit_line. by rewrite <- Hk1.
      * wp_step. eapply cooks_rubout; [done|apply rev_involutive|].
        intros s2 Hc2. wp_steps. cbn in Hc2. split; [by exists r|].
        destruct Hc1 as (T1 & -> & _ & _ & _ & -> & _), Hc2 as (T2 & -> & _ & _ & _ & -> & _).
        cbn. rewrite length_app, !length_rev. cbn. lia.
Qed.

Lemma cooks_translate n rest k c (Q : option Z -> kernel -> Prop) s :
  cooks_with n rest k s -> Q (translate m c) s -> wpg P F (translate_in t c) Q s.
Proof.
  intros Hc HQ. unfold translate_in, I_FLAG.
  do 4 (wp_step; eapply cooks_termios; [done|]). wp_steps. exact HQ.
Qed.

Lemma cooks_char c rest k (Q : unit -> kernel -> Prop) s :
  cooks (c :: rest) k s -> length (ln_cooked k) <> 1023%nat -> (length (ln_cooked k) < patience)%nat ->
  (forall s', cooks rest (match translate m c with None => k | Some c => line_char m c k end) s' -> Q tt s') ->
  wpg P F (cook_char tty_write_fn_call t) Q s.
Proof.
  intros Hc Hroom Hlen HQ. assert (Hplain : forall c', translate m c = Some c' -> plain c').
  { destruct Hc as (T & _ & _ & Hr2 & _ & _ & _ & _ & _ & _ & _ & _ & _ & _ & Hin).
    pose proof (queue_chars_char (tty_read_q T)) as Hch. rewrite Hr2 in Hch. apply Forall_cons in Hch as [Hch _].
    intros c' [Hc1 Hc2]%translate_char; [|done]. split; [done|]. intros E1 E2. apply Hc2.
    by specialize (Hin E1 E2) as [Hin _]%Forall_cons. }
  unfold cook_char. wp_step. eapply cooks_read; [done|]. clear s Hc. intros s Hc.
  wp_step. eapply cooks_translate; [done|]. destruct (translate m c) as [c'|]; [|by wp_steps; apply HQ].
  specialize (Hplain c' eq_refl).
  wp_step. unfold L_FLAG at 1. eapply cooks_termios; [done|]. unfold line_char in HQ.
  wp_step. set (rest_ := fun edited : bool => _).
  assert (Hput : (truth (Z.land (c_lflag m) ICANON) && (c' =? default 0 (c_cc m !! VKILL)) = false ->
    truth (Z.land (c_lflag m) ICANON) && (c' =? default 0 (c_cc m !! VERASE)) = false ->
    truth (Z.land (c_lflag m) ICANON) && (c' =? default 0 (c_cc m !! VSTOP)) = false ->
    truth (Z.land (c_lflag m) ICANON) && (c' =? default 0 (c_cc m !! VSTART)) = false ->
    rest_ false s)).
  { intros E1 E2 E3 E4. rewrite E1, E2, E3, E4 in HQ. unfold rest_. unfold L_FLAG at 1. wp_step. eapply cooks_termios; [done|].
    wp_step. set (rest2 := fun signalled : bool => _).
    assert (Hput : truth (Z.land (c_lflag m) ISIG) &&
        ((c' =? default 0 (c_cc m !! VINTR)) || (c' =? default 0 (c_cc m !! VQUIT))) = false ->
        rest2 false s).
    { intros E5. rewrite E5 in HQ. unfold rest2. wp_step. unfold CC. eapply cooks_termios; [done|].
      wp_step. set (k1 := Line (ln_cooked k) (if ends_line m c' then u32 (ln_lines k + 1) else ln_lines k) (ln_stopped k)).
      assert (Hk1 : forall s1, cooks rest k1 s1 ->
        wpg P F (echo ← L_FLAG t ECHO; when echo (echo_char tty_write_fn_call t c') ;; PUTCH c' t tty_secondary) Q s1).
      { intros s1 Hc1. unfold L_FLAG. wp_step. eapply cooks_termios; [done|]. change (truth _) with (echoes T0). wp_step.
        assert (Hput : forall s2, cooks rest k1 s2 -> wpg P F (PUTCH c' t tty_secondary) Q s2);
          [clear s1 Hc1; intros s1 Hc1|destruct (echoes T0) eqn:Hecho; wp_steps; [by eapply cooks_echo|by apply Hput]].
        unfold PUTCH.
        eapply (cooks_secondary rest k1 (Line (ln_cooked k1 ++ [s8 c']) (ln_lines k1) (ln_stopped k1)));
          [done| |reflexivity|exact HQ].
        intros q Hq1 Hq2 Hq3. destruct (queue_put c' q Hq1) as [Hp1 Hp2].
        { apply not_true_iff_false. rewrite queue_full, Hq2 by done. exact Hroom. }
        split_and!; [done|by rewrite Hp2, Hq2|done|done]. }
      unfold k1, ends_line in Hk1. destruct ((c' =? 10) || (c' =? default 0 (c_cc m !! VEOF))) eqn:Eend; wp_step.
      - eapply (cooks_secondary rest k (Line (ln_cooked k) (u32 (ln_lines k + 1)) (ln_stopped k)));
          [done| |reflexivity|exact Hk1].
        intros q Hq1 Hq2 Hq3. split_and!; [by destruct Hq1|exact Hq2|cbn; by rewrite Hq3|done].
      - apply Hk1. by destruct k. }
    destruct (truth (Z.land (c_lflag m) ISIG)); cbn [andb] in *; [|wp_step; by apply Hput].
    unfold signal_char, CC. do 2 (wp_step; eapply cooks_termios; [done|]).
    destruct (c' =? default 0 (c_cc m !! VINTR)); cbn [orb] in *.
    { wp_steps. eapply cooks_signal; [done|]. intros s1 Hc1. wp_step. unfold rest2. wp_steps. by apply HQ. }
    destruct (c' =? default 0 (c_cc m !! VQUIT)); [|wp_steps; by apply Hput].
    wp_steps. eapply cooks_signal; [done|]. intros s1 Hc1. wp_step. unfold rest2. wp_steps. by apply HQ. }
  destruct (truth (Z.land (c_lflag m) ICANON)); cbn [andb] in *; [|wp_step; by apply Hput].
  unfold edit_char, CC. do 4 (wp_step; eapply cooks_termios; [done|]).
  destruct (c' =? default 0 (c_cc m !! VKILL)).
  { wp_steps. eapply cooks_kill; [done..|]. intros s1 Hc1. wp_step. unfold rest_. wp_steps. by apply HQ. }
  destruct (c' =? default 0 (c_cc m !! VERASE)).
  { wp_steps. eapply cooks_last; [done|].
    assert (Hend : forall s1, cooks rest (edit_line (erase_rev m) k) s1 -> wpg P F (mret true) rest_ s1).
    { intros s1 Hc1. wp_step. unfold rest_. wp_steps. by apply HQ. }
    wp_step. destruct (rev (ln_cooked k)) as [|c2 r] eqn:Er.
    - wp_step. apply Hend. unfold edit_line. rewrite Er. cbn. apply (f_equal (@rev Z)) in Er.
      rewrite rev_involutive in Er. destruct k; cbn in *. by subst.
    - destruct (ends_line m c2) eqn:Ee.
      + wp_step. apply Hend. unfold edit_line. rewrite Er. cbn [erase_rev]. rewrite Ee, <- Er, rev_involutive. by destruct k.
      + eapply cooks_rubout; [done..|]. intros s1 Hc1. apply Hend. unfold edit_line. rewrite Er. cbn [erase_rev].
        by rewrite Ee. }
  destruct (c' =? default 0 (c_cc m !! VSTOP)).
  { wp_steps. eapply cooks_stopped; [done|]. intros s1 Hc1. wp_step. unfold rest_. wp_steps. by apply HQ. }
  destruct (c' =? default 0 (c_cc m !! VSTART)).
  { wp_steps. eapply cooks_stopped; [done|]. intros s1 Hc1. wp_step. unfold rest_. wp_steps. by apply HQ. }
  wp_steps. by apply Hput.
Qed.
End cooking_proofs.

Lemma line_char_room m c k :
  (length (ln_cooked k) < 1023)%nat -> (length (ln_cooked (line_char m c k)) <= 1023)%nat.
Proof.
  intros Hk. unfold line_char, edit_line.
  assert (Hkill : forall r, (length (kill_rev m r) <= length r)%nat).
  { induction r as [|x r IH]; cbn; [done|]. case_match; cbn; lia. }
  assert (Herase : forall r, (length (erase_rev m r) <= length r)%nat).
  { intros [|x r]; cbn; [done|]. case_match; cbn; lia. }
  specialize (Hkill (rev (ln_cooked k))). specialize (Herase (rev (ln_cooked k))).
  rewrite length_rev in *.
  repeat case_match; cbn; rewrite ?length_rev, ?length_app; cbn; lia.
Qed.

(** What is left of a terminal [T] and of the console when its input is cooked. *)
Definition cooked (T : tty_struct) (input : list Z) (s' : kernel) (t : nat) : Prop :=
  let '(rest, k) := line_run (tty_termios T) input
    (Line (queue_chars (tty_secondary T)) (q_data (tty_secondary T)) (tty_stopped T)) in
  exists T', k_tty s' !! t = Some T' /\
    queue_ok (tty_read_q T') /\ queue_chars (tty_read_q T') = rest /\
    queue_ok (tty_secondary T') /\ queue_chars (tty_secondary T') = ln_cooked k /\
    q_data (tty_secondary T') = ln_lines k /\ tty_stopped T' = ln_stopped k /\
    tty_termios T' = tty_termios T /\ tty_pgrp T' = tty_pgrp T /\ tty_write_fn T' = tty_write_fn T /\
    echo_safe T' (k_con s') rest /\ (echoes T = false -> tty_write_q T' = tty_write_q T).

Lemma copy_to_cooked_cooks `{World} t T s :
  k_tty s !! t = Some T ->
  queue_ok (tty_read_q T) -> queue_ok (tty_secondary T) ->
  echo_safe T (k_con s) (queue_chars (tty_read_q T)) ->
  (forall p, q_proc_list (tty_secondary T) = Some p -> is_Some (task_at s p)) ->
  (1024 <= patience)%nat ->
  wp (copy_to_cooked t) (fun _ s' => cooked T (queue_chars (tty_read_q T)) s' t) s.
Proof.
  intros HT Hr Hs Hecho Hwait Hpat. unfold cooked, copy_to_cooked, copy_to_cooked_with. wp_step. wp_step.
  set (m := tty_termios T).
  set (k0 := Line (queue_chars (tty_secondary T)) (q_data (tty_secondary T)) (tty_stopped T)).
  set (input := queue_chars (tty_read_q T)).
  assert (Hbound : forall q, queue_ok q -> (length (queue_chars q) <= 1023)%nat).
  { intros q Hq. pose proof (queue_length q). pose proof (CHARS_bounds q). unfold TTY_BUF_SIZE in *. lia. }
  apply wpg_loop_total with
    (mu := fun _ s' => match k_tty s' !! t with Some T => length (queue_chars (tty_read_q T)) | None => 0%nat end)
    (Inv := fun _ s' => exists rest k, cooks_with t T s 0 rest k s' /\ (length (ln_cooked k) <= 1023)%nat /\
              line_run m rest k = line_run m input k0).
  - exists input, k0. split_and!; [|by apply Hbound|done]. exists T. split_and!; try done; [|by apply Hecho].
    unfold echo_at. destruct (echoes T) eqn:E; [|done]. intros Hfn. destruct (Hecho E Hfn) as [(H1 & H2 & H3 & H4) _].
    split_and!; [done|lia|done..].
  - rewrite HT. specialize (Hbound _ Hr). lia.
  - intros [] s1 (rest & k & Hc & Hk & Hrun).
    pose proof Hc as (T1 & HT1 & Hr1 & Hr2 & Hs1 & Hs2 & _). wp_steps.
    + (* a character is there and there is room *)
      apply andb_true_iff in H0 as [He Hf]. apply negb_true_iff in He, Hf.
      destruct rest as [|c rest].
      { apply not_true_iff_false in He. rewrite queue_empty in He by done. done. }
      assert (Hroom : length (ln_cooked k) <> 1023%nat).
      { apply not_true_iff_false in Hf. rewrite queue_full, Hs2 in Hf by done. exact Hf. }
      eapply cooks_char; [lia|exact Hc|exact Hroom|lia|]. intros s2 Hc2. wp_steps. split.
      * eexists _, _. split; [exact Hc2|]. split.
        { destruct (translate _ c); [apply line_char_room; lia|done]. }
        rewrite <- Hrun. cbn [line_run]. by rewrite (proj2 (Nat.eqb_neq _ _) Hroom).
      * destruct Hc2 as (T2 & -> & _ & -> & _). rewrite HT1, Hr2. cbn. lia.
    + (* the end: wake up the reader *)
      assert (Hend : line_run m rest k = (rest, k)).
      { apply andb_false_iff in H0 as [E|E]; apply negb_false_iff in E.
        - apply queue_empty in E; [|done]. rewrite Hr2 in E. by rewrite E.
        - apply queue_full in E; [|done]. rewrite Hs2 in E. destruct rest; [done|]. cbn [line_run].
          by rewrite E. }
      rewrite <- Hrun, Hend. clear Hrun. destruct Hc as (T1' & HT1' & Hc). assert (T1' = T1) as -> by congruence.
      destruct Hc as (_ & _ & _ & _ & Hd & Hst & Hpl & Hm & Hg & Htask & Hfn & He & Hin).
      assert (Hecho' : forall q, echo_safe (set_field tty_secondary q T1) (k_con s1) rest /\
          (echoes T = false -> tty_write_q T1 = tty_write_q T)).
      { intros q. unfold echo_at in He. unfold echo_safe, screen_safe.
        change (echoes (set_field tty_secondary q T1)) with (echoes T1).
        change (tty_write_fn (set_field tty_secondary q T1)) with (tty_write_fn T1).
        change (tty_write_q (set_field tty_secondary q T1)) with (tty_write_q T1).
        replace (echoes T1) with (echoes T) by (unfold echoes; by rewrite Hm). rewrite Hfn.
        destruct (echoes T); [|done]. split; [|done]. intros _ E. split; [|by apply Hin].
        destruct (He E) as (H1 & H2 & H3 & H4). split_and!; [done|lia|done..]. }
      unfold wake_up. cbn [proc_list_q wq_get wq_set]. wp_steps. rewrite Hpl.
      destruct (q_proc_list (tty_secondary T)) as [p|] eqn:Ep; [|wp_steps; exists T1; split_and!; try done; by apply (Hecho' id)].
      destruct (Htask p (Hwait p eq_refl)) as [tk Htk]. wp_step. unfold tst, tupd, wpg at 1. rewrite Htk.
      wp_steps. eexists. cbn. rewrite list_lookup_insert_eq by (by eapply lookup_lt_Some).
      split_and!; [done|done|done|by destruct Hs1|by rewrite <- Hs2|done..|apply Hecho'|apply (Hecho' id)].
Qed.

(** C28: [copy_to_cooked] implements the line discipline on the characters typed
    so far: translation of CR, NL and capitals, the line editing of canonical mode
    (kill, erase up to the last line end, stop and start), signal characters taken
    out, line ends counted; it goes on until the input is used up or the cooked
    queue is full, returns (never faulting or running out of fuel), and changes
    nothing else of the terminal but, when it echoes, the queue to the screen or
    line.  An echo to the screen asks that the screen is not amid an escape
    sequence, that its queue has room and holds no ESC, and that no 0xDB, which
    echoes as ESC, is typed; and it leaves all that true. *)
Theorem copy_to_cooked_refines `{World} t T s :
  k_tty s !! t = Some T ->
  queue_ok (tty_read_q T) -> queue_ok (tty_secondary T) ->
  echo_safe T (k_con s) (queue_chars (tty_read_q T)) ->
  (forall p, q_proc_list (tty_secondary T) = Some p -> is_Some (task_at s p)) ->
  (1024 <= patience)%nat ->
  wp (copy_to_cooked t) (fun _ s' => cooked T (queue_chars (tty_read_q T)) s' t) s.
Proof. apply copy_to_cooked_cooks. Qed.

(** "ab", erase, "c", newline, "d" typed on the console, which echoes. *)
Definition typing_tty : tty_struct :=
  Tty (Termios ICRNL 0 0 (ICANON + ECHO) 0 INIT_C_CC) 0 0 0
    (foldl (fun q c => putch c q) (zero_queue 0) [97; 98; 127; 99; 13; 100]) (zero_queue 0) (zero_queue 0).
Definition typing_kernel : kernel :=
  set_field k_tty (fun l => <[0%nat := typing_tty]> l) (boot_kernel 0x10000 0x20000).
Lemma typing_line_run :
  line_run (tty_termios typing_tty) (queue_chars (tty_read_q typing_tty))
    (Line (queue_chars (tty_secondary typing_tty)) (q_data (tty_secondary typing_tty)) (tty_stopped typing_tty))
  = ([], Line [97; 99; 10; 100] 1 0).
Proof. vm_compute. reflexivity. Qed.
Lemma typing_queues : queue_ok (tty_read_q typing_tty) /\ queue_ok (tty_secondary typing_tty).
Proof. split; split; vm_compute; split; congruence || reflexivity. Qed.
Lemma typing_echo :
  echo_safe typing_tty (k_con typing_kernel) (queue_chars (tty_read_q typing_tty)).
Proof.
  intros _ _. change (queue_chars (tty_read_q typing_tty)) with [97; 98; 127; 99; 13; 100].
  split; [|repeat constructor; discriminate]. split_and!; [split; vm_compute; split; congruence || reflexivity|change (0 <= 1021)%nat; lia|constructor|done].
Qed.
Lemma copy_to_cooked_refines_witness :
  wp (copy_to_cooked (H := idle_world) 0) (fun _ s' => exists T', k_tty s' !! 0%nat = Some T' /\
    queue_chars (tty_read_q T') = [] /\
    queue_chars (tty_secondary T') = [97; 99; 10; 100] /\ q_data (tty_secondary T') = 1) typing_kernel.
Proof.
  eapply wp_mono.
  - apply (copy_to_cooked_refines (H := idle_world) 0 typing_tty typing_kernel eq_refl).
    + apply typing_queues.
    + apply typing_queues.
    + apply typing_echo.
    + intros p Hp. discriminate Hp.
    + cbn [patience idle_world]. lia.
  - intros [] s'. unfold cooked. rewrite typing_line_run. intros (T' & H1 & _ & H2 & _ & H3 & H4 & _).
    exists T'. exact (conj H1 (conj H2 (conj H3 H4))).
Defined.
