(* ===== verification/Blk.v ===== *)
(** * kernel/blk_drv/blk.h, ramdisk.c: block requests and the ram disk

    The request queue of a device is the list from [blk_dev[major]] through
    the [next] fields; drivers serve its head and drop it with [end_request].
    The messages of the drivers ([printk]) are not modelled. *)

From S2P Require Import Prelude Kernel Sched.

Definition NR_BLK_DEV : Z := 7.
Definition NR_REQUEST : nat := 32.
Definition MAJOR_RD : nat := 1.
Definition MAJOR_FD : nat := 2.
Definition MAJOR_HD : nat := 3.

(** [IN_ORDER(s1,s2)]: the elevator's order. *)
Definition IN_ORDER (s1 s2 : request) : bool :=
  (r_cmd s1 <? r_cmd s2) ||
  ((r_cmd s1 =? r_cmd s2) &&
   ((r_dev s1 <? r_dev s2) ||
    ((r_dev s1 =? r_dev s2) && (r_sector s1 <? r_sector s2)))).

(** [&bh->b_wait], [&req->waiting], [&wait_for_request]. *)
Definition buffer_q (bh : nat) : waitq := Waitq (bh->>b_wait) (st bh b_wait).
Definition request_q (r : nat) : waitq := Waitq (r->>r_waiting) (st r r_waiting).
Definition wait_for_request_q : waitq := Waitq (gets k_wait_for_request) (setg k_wait_for_request).

Definition unlock_buffer (bh : nat) : M kernel unit :=
  st bh b_lock 0 ;;
  wake_up (Some (buffer_q bh)).

(** [CURRENT] for the driver of major number [major]. *)
Definition CURRENT (major : nat) : M kernel (option nat) :=
  d ← aget k_blk_dev major; mret (current_request d).
Definition set_CURRENT (major : nat) (r : option nat) : M kernel unit :=
  d ← aget k_blk_dev major;
  aset k_blk_dev major (set_field current_request (fun _ => r) d).

(** [DEVICE_OFF]: only the floppy driver has one. *)
Definition DEVICE_OFF (major : nat) (dev : Z) : M kernel unit :=
  when (Nat.eqb major MAJOR_FD) (floppy_off (Z.land dev 3)).

Definition end_request (major : nat) (uptodate : Z) : M kernel unit :=
  c ← CURRENT major;
  cur ← deref c;
  dev ← cur->>r_dev;
  DEVICE_OFF major dev ;;
  bh ← cur->>r_bh;
  (match bh with
   | Some b => st b b_uptodate uptodate ;; unlock_buffer b
   | None => mret tt
   end) ;;
  wake_up (Some (request_q cur)) ;;
  wake_up (Some wait_for_request_q) ;;
  st cur r_dev (-1) ;;
  nx ← cur->>r_next;
  set_CURRENT major nx.

(** [INIT_REQUEST]: [None] is the return when there is nothing to do. *)
Definition INIT_REQUEST (major : nat) : M kernel (option nat) :=
  c ← CURRENT major;
  match c with
  | None => mret None
  | Some r =>
      dev ← r->>r_dev;
      if negb (MAJOR dev =? Z.of_nat major) then panic "request list destroyed"
      else
        bh ← r->>r_bh;
        (match bh with
         | Some b => l ← b->>b_lock; if truth l then mret tt else panic "block not locked"
         | None => mret tt
         end) ;;
        mret (Some r)
  end.

(** ** The bytes a request moves *)

(** [n] bytes of [l] from index [off]; the model faults outside the array. *)
Definition bytes_at (l : list Z) (off n : Z) : M kernel (list Z) :=
  if (0 <=? off) && (0 <=? n) && (off + n <=? Z.of_nat (length l))
  then mret (take (Z.to_nat n) (drop (Z.to_nat off) l))
  else fault.
Definition splice (l : list Z) (off : Z) (v : list Z) : list Z :=
  take (Z.to_nat off) l ++ v ++ drop (Z.to_nat off + length v) l.
Definition put_bytes (l : list Z) (off : Z) (v : list Z) : M kernel (list Z) :=
  if (0 <=? off) && (off + Z.of_nat (length v) <=? Z.of_nat (length l))
  then mret (splice l off v)
  else fault.

(** [memcpy(_, CURRENT->buffer, n)] and [memcpy(CURRENT->buffer, _, n)]. *)
Definition request_bytes (r : nat) (n : Z) : M kernel (list Z) :=
  b ← r->>r_buffer; off ← r->>r_boff; b ← deref b;
  d ← b->>b_data; bytes_at d off n.
Definition set_request_bytes (r : nat) (v : list Z) : M kernel unit :=
  b ← r->>r_buffer; off ← r->>r_boff; b ← deref b;
  d ← b->>b_data; d' ← put_bytes d off v; st b b_data d'.

(** ** The ram disk *)

Definition rd_step (_ : unit) : M kernel (unit + unit) :=
  c ← INIT_REQUEST MAJOR_RD;
  match c with
  | None => mret (inr tt)
  | Some cur =>
      start ← sget k_rd rd_start;
      length ← sget k_rd rd_length;
      sector ← cur->>r_sector;
      let addr := u32 (start + u32 (Z.shiftl sector 9)) in
      nr ← cur->>r_nr_sectors;
      let len := s32 (Z.shiftl nr 9) in
      dev ← cur->>r_dev;
      if negb (MINOR dev =? 1) || (u32 (start + length) <? u32 (addr + len))
      then end_request MAJOR_RD 0 ;; mret (inl tt)
      else
        cmd ← cur->>r_cmd;
        data ← sget k_rd rd_data;
        (if cmd =? WRITE then
           v ← request_bytes cur len;
           data' ← put_bytes data (addr - start) v;
           sset k_rd rd_data data'
         else if cmd =? READ then
           v ← bytes_at data (addr - start) len;
           set_request_bytes cur v
         else panic "unknown ramdisk-command") ;;
        end_request MAJOR_RD 1 ;;
        mret (inl tt)
  end.
(** Every turn takes a request off the queue, which has at most [NR_REQUEST]. *)
Definition do_rd_request : M kernel unit := loop (S NR_REQUEST) rd_step tt.

Definition rd_init (mem_start length : Z) : M kernel Z :=
  d ← aget k_blk_dev MAJOR_RD;
  aset k_blk_dev MAJOR_RD (set_field request_fn (fun _ => Some MAJOR_RD) d) ;;
  sset k_rd rd_start mem_start ;;
  sset k_rd rd_length length ;;
  sset k_rd rd_data (replicate (Z.to_nat length) 0) ;;
  mret length.
