(* ===== verification/Hd.v ===== *)
(** * kernel/blk_drv/hd.c: the hard-disk driver

    The driver serves the head of its request queue: [do_hd_request] sends a
    command to the controller, the interrupt routines [read_intr], [write_intr]
    and [recal_intr] (the hardware calls the one [do_hd] names) move the data
    and go on.  [sys_setup] is in Setup.v. *)

From S2P Require Import Prelude Kernel Sched Memory Blk.

Definition MAX_ERRORS : Z := 7.
Definition HD_DATA : Z := 0x1f0.
Definition HD_ERROR : Z := 0x1f1.
Definition HD_STATUS : Z := 0x1f7.
Definition HD_CMD : Z := 0x3f6.
Definition ERR_STAT : Z := 0x01.
Definition DRQ_STAT : Z := 0x08.
Definition SEEK_STAT : Z := 0x10.
Definition WRERR_STAT : Z := 0x20.
Definition READY_STAT : Z := 0x40.
Definition BUSY_STAT : Z := 0x80.
Definition WIN_RESTORE : Z := 0x10.
Definition WIN_READ : Z := 0x20.
Definition WIN_WRITE : Z := 0x30.
Definition WIN_SPECIFY : Z := 0x91.

(** The interrupt routines [do_hd] can point to. *)
Definition READ_INTR : nat := 1.
Definition WRITE_INTR : nat := 2.
Definition RECAL_INTR : nat := 3.

(** Memory read through a null pointer is the start of physical memory. *)
Definition null_word (offset : Z) : M kernel Z := gets (fun s => rd (words (k_mm s)) offset).

Definition hd_drive (n : Z) : M kernel hd_i_struct :=
  l ← sget k_hd hd_info;
  if n <? 0 then fault else deref (l !! Z.to_nat n).
Definition hd_part (dev : Z) : M kernel (Z * Z) :=
  l ← sget k_hd hd_parts;
  if dev <? 0 then fault else deref (l !! Z.to_nat dev).

(** [CURRENT_DEV]: the drive of a request. *)
Definition hd_nr (dev : Z) : Z := Z.quot (MINOR dev) 5.

Section driver.
Context `{World}.

(** [while (--retries && (inb_p(HD_STATUS)&0xc0)!=0x40);] *)
Definition controller_ready : M kernel Z :=
  loop 10001 (fun retries : Z =>
    let retries := retries - 1 in
    if negb (truth retries) then mret (inr 0)
    else
      s ← inb HD_STATUS;
      mret (if Z.land s 0xc0 =? 0x40 then inr retries else inl retries)) 10000.

Definition win_result : M kernel Z :=
  i ← inb HD_STATUS;
  if Z.land i (Z.lor BUSY_STAT (Z.lor READY_STAT (Z.lor WRERR_STAT (Z.lor SEEK_STAT ERR_STAT))))
     =? Z.lor READY_STAT SEEK_STAT
  then mret 0
  else
    (if truth (Z.land i 1) then inb HD_ERROR ;; mret tt else mret tt) ;;
    mret 1.

Definition hd_out (drive nsect sect head cyl cmd : Z) (intr_addr : nat) : M kernel unit :=
  if (1 <? u32 drive) || (15 <? u32 head) then panic "Trying to write bad sector"
  else
    r ← controller_ready;
    if negb (truth r) then panic "HD controller not ready"
    else
      sset k_hd do_hd (Some intr_addr) ;;
      info ← hd_drive (u32 drive);
      outb (hd_ctl info) HD_CMD ;;
      outb (Z.shiftr (hd_wpcom info) 2) (HD_DATA + 1) ;;
      outb nsect (HD_DATA + 2) ;;
      outb sect (HD_DATA + 3) ;;
      outb cyl (HD_DATA + 4) ;;
      outb (Z.shiftr (u32 cyl) 8) (HD_DATA + 5) ;;
      outb (Z.lor (Z.lor 0xA0 (Z.shiftl drive 4)) head) (HD_DATA + 6) ;;
      outb cmd (HD_DATA + 7).

(** The test [i == READY_STAT | SEEK_STAT] as C parses it. *)
Definition drive_busy : M kernel Z :=
  loop 10001 (fun i : Z =>
    if 10000 <=? i then mret (inr tt)
    else
      s ← inb HD_STATUS;
      mret (if READY_STAT =? Z.land s (Z.lor BUSY_STAT READY_STAT) then inr tt else inl (i + 1))) 0 ;;
  i ← inb HD_STATUS;
  let i := Z.land i (Z.lor BUSY_STAT (Z.lor READY_STAT SEEK_STAT)) in
  if truth (Z.lor (Z.b2z (i =? READY_STAT)) SEEK_STAT) then mret 0 else mret 1.

Definition reset_controller : M kernel unit :=
  outb 4 HD_CMD ;;
  info ← hd_drive 0;
  outb (Z.land (hd_ctl info) 0x0f) HD_CMD ;;
  drive_busy ;;
  inb HD_ERROR ;;
  mret tt.

Definition reset_hd (nr : Z) : M kernel unit :=
  reset_controller ;;
  info ← hd_drive nr;
  hd_out nr (hd_sect info) (hd_sect info) (u32 (hd_head info - 1)) (hd_cyl info) WIN_SPECIFY RECAL_INTR.

Definition bad_rw_intr : M kernel unit :=
  c ← CURRENT MAJOR_HD;
  cur ← deref c;
  e ← cur->>r_errors;
  let e := s32 (e + 1) in
  st cur r_errors e ;;
  when (MAX_ERRORS <=? e) (end_request MAJOR_HD 0) ;;
  c ← CURRENT MAJOR_HD;
  e ← match c with Some cur => cur->>r_errors | None => null_word 8 end;
  when (Z.quot MAX_ERRORS 2 <? s32 e) (sset k_hd hd_reset 1).

(** [port_read] and [port_write]: 16-bit words through the data port. *)
Definition port_read (port : Z) (n : nat) : M kernel (list Z) :=
  loop (S n) (fun '(k, acc) =>
    match k with
    | O => mret (inr acc)
    | S k' => w ← in_port u16 port;
              mret (inl (k', acc ++ [Z.land w 0xff; Z.shiftr w 8]))
    end) (n, []).
Fixpoint port_write (port : Z) (l : list Z) : M kernel unit :=
  match l with
  | a :: b :: l' =>
      modify (set_field k_io (fun io => io ++ [PortOut (u16 (a + 256 * b)) port])) ;;
      port_write port l'
  | _ => mret tt
  end.

(** The command for a transfer; of a write, with the first sector. *)
Definition hd_transfer (cur : nat) (dev nsect sec head cyl : Z) : M kernel (unit + unit) :=
  cmd ← cur->>r_cmd;
  if cmd =? WRITE then
    hd_out dev nsect sec head cyl WIN_WRITE WRITE_INTR ;;
    r ← loop 3001 (fun '(i, r) =>
          if 3000 <=? i then mret (inr r)
          else
            s ← inb HD_STATUS;
            let r := Z.land s DRQ_STAT in
            mret (if truth r then inr r else inl (i + 1, r))) (0, 0);
    if negb (truth r) then bad_rw_intr ;; mret (inl tt)
    else
      v ← request_bytes cur 512;
      port_write HD_DATA v ;;
      mret (inr tt)
  else if cmd =? READ then
    hd_out dev nsect sec head cyl WIN_READ READ_INTR ;;
    mret (inr tt)
  else panic "unknown hd-command".

(** [do_hd_request], one turn from its [repeat] label. *)
Definition hd_step (_ : unit) : M kernel (unit + unit) :=
  c ← INIT_REQUEST MAJOR_HD;
  match c with
  | None => mret (inr tt)
  | Some cur =>
      rdev ← cur->>r_dev;
      let dev := MINOR rdev in
      block ← cur->>r_sector;
      nr ← sget k_hd NR_HD;
      p ← (if 5 * nr <=? dev then mret (0, 0) else hd_part dev);
      if (5 * nr <=? dev) || (u32 (snd p) <? u32 (block + 2))
      then end_request MAJOR_HD 0 ;; mret (inl tt)
      else
        let block := u32 (block + fst p) in
        let dev := Z.quot dev 5 in
        info ← hd_drive dev;
        if (hd_sect info =? 0) || (hd_head info =? 0) then fault
        else
          let sec := Z.modulo block (u32 (hd_sect info)) in
          let block := Z.div block (u32 (hd_sect info)) in
          let head := Z.modulo block (u32 (hd_head info)) in
          let cyl := Z.div block (u32 (hd_head info)) in
          let sec := sec + 1 in
          nsect ← cur->>r_nr_sectors;
          reset ← sget k_hd hd_reset;
          if truth reset then
            sset k_hd hd_reset 0 ;;
            sset k_hd hd_recalibrate 1 ;;
            reset_hd (hd_nr rdev) ;;
            mret (inr tt)
          else
            recalibrate ← sget k_hd hd_recalibrate;
            if truth recalibrate then
              sset k_hd hd_recalibrate 0 ;;
              info ← hd_drive (hd_nr rdev);
              hd_out dev (hd_sect info) 0 0 0 WIN_RESTORE RECAL_INTR ;;
              mret (inr tt)
            else
              hd_transfer cur dev nsect sec head cyl
  end.
(** Every turn either drops a request or counts an error of the current one. *)
Definition do_hd_request : M kernel unit := loop (S (NR_REQUEST * 8)) hd_step tt.

Definition read_intr : M kernel unit :=
  w ← win_result;
  if truth w then bad_rw_intr ;; do_hd_request
  else
    c ← CURRENT MAJOR_HD;
    cur ← deref c;
    v ← port_read HD_DATA 256;
    set_request_bytes cur v ;;
    st cur r_errors 0 ;;
    upd cur r_boff (fun o => o + 512) ;;
    upd cur r_sector (fun x => u32 (x + 1)) ;;
    upd cur r_nr_sectors (fun x => u32 (x - 1)) ;;
    n ← cur->>r_nr_sectors;
    if truth n then sset k_hd do_hd (Some READ_INTR)
    else end_request MAJOR_HD 1 ;; do_hd_request.

Definition write_intr : M kernel unit :=
  w ← win_result;
  if truth w then bad_rw_intr ;; do_hd_request
  else
    c ← CURRENT MAJOR_HD;
    cur ← deref c;
    upd cur r_nr_sectors (fun x => u32 (x - 1)) ;;
    n ← cur->>r_nr_sectors;
    if truth n then
      upd cur r_sector (fun x => u32 (x + 1)) ;;
      upd cur r_boff (fun o => o + 512) ;;
      sset k_hd do_hd (Some WRITE_INTR) ;;
      v ← request_bytes cur 512;
      port_write HD_DATA v
    else end_request MAJOR_HD 1 ;; do_hd_request.

Definition recal_intr : M kernel unit :=
  w ← win_result;
  when (truth w) bad_rw_intr ;;
  do_hd_request.

Definition hd_init : M kernel unit :=
  d ← aget k_blk_dev MAJOR_HD;
  aset k_blk_dev MAJOR_HD (set_field request_fn (fun _ => Some MAJOR_HD) d) ;;
  set_intr_gate 0x2E Entry.hd_interrupt ;;
  v ← inb 0x21; outb (Z.land v 0xfb) 0x21 ;;
  v ← inb 0xA1; outb (Z.land v 0xbf) 0xA1.
End driver.
