(* ===== verification/Floppy.v ===== *)
(** * kernel/blk_drv/floppy.c: the floppy driver

    [do_fd_request] prepares the head of the request queue and waits for the
    motor through a timer; [floppy_on_interrupt], [transfer], [seek_interrupt]
    and [rw_interrupt] carry it on.  The DMA transfer itself is the hardware's. *)

From S2P Require Import Prelude Kernel Sched Memory Blk.

Definition FD_STATUS : Z := 0x3f4.
Definition FD_DATA : Z := 0x3f5.
Definition FD_DIR : Z := 0x3f7.
Definition FD_DCR : Z := 0x3f7.
Definition STATUS_BUSY : Z := 0x10.
Definition STATUS_DIR : Z := 0x40.
Definition STATUS_READY : Z := 0x80.
Definition FD_RECALIBRATE : Z := 0x07.
Definition FD_SEEK : Z := 0x0F.
Definition FD_READ : Z := 0xE6.
Definition FD_WRITE : Z := 0xC5.
Definition FD_SENSEI : Z := 0x08.
Definition FD_SPECIFY : Z := 0x03.
Definition DMA_READ : Z := 0x46.
Definition DMA_WRITE : Z := 0x4A.
Definition FD_MAX_ERRORS : Z := 8.
Definition MAX_REPLIES : nat := 7.

(** The values of [do_floppy], and the names of the timer functions. *)
Definition RW_INTERRUPT : nat := 1.
Definition SEEK_INTERRUPT : nat := 2.
Definition RECAL_INTERRUPT : nat := 3.
Definition RESET_INTERRUPT : nat := 4.
Definition FN_TRANSFER : nat := 1.
Definition FN_FLOPPY_ON : nat := 2.

Record floppy_struct := FloppyType {
  ft_size : Z; ft_sect : Z; ft_head : Z; ft_track : Z; ft_stretch : Z;
  ft_gap : Z; ft_rate : Z; ft_spec1 : Z }.
Definition floppy_type : list floppy_struct :=
  [ FloppyType    0  0 0  0 0 0x00 0x00 0x00;
    FloppyType  720  9 2 40 0 0x2A 0x02 0xDF;
    FloppyType 2400 15 2 80 0 0x1B 0x00 0xDF;
    FloppyType  720  9 2 40 1 0x2A 0x02 0xDF;
    FloppyType 1440  9 2 80 0 0x2A 0x02 0xDF;
    FloppyType  720  9 2 40 1 0x23 0x01 0xDF;
    FloppyType 1440  9 2 80 0 0x23 0x01 0xDF;
    FloppyType 2880 18 2 80 0 0x1B 0x00 0xCF ].

Definition floppy_select_q : waitq :=
  Waitq (sget k_fd wait_on_floppy_select) (sset k_fd wait_on_floppy_select).
(** [floppy->...]. *)
Definition cur_floppy : M kernel floppy_struct :=
  i ← sget k_fd floppy; deref (floppy_type !! i).
Definition ST (n : nat) : M kernel Z := l ← sget k_fd reply_buffer; mret (default 0 (l !! n)).
(** The address in [CURRENT->buffer]. *)
Definition request_addr (r : nat) : M kernel Z :=
  b ← r->>r_buffer; off ← r->>r_boff; b ← deref b; a ← b->>b_addr; mret (u32 (a + off)).

Definition floppy_deselect (nr : Z) : M kernel unit :=
  setg k_selected 0 ;;
  wake_up (Some floppy_select_q).

Section driver.
Context `{World}.

Definition floppy_change (nr : Z) : M kernel Z :=
  loop patience (fun _ : unit =>
    floppy_on patience nr ;;
    while patience (dor ← gets k_current_DOR; sel ← gets k_selected;
                    mret (negb (Z.land dor 3 =? nr) && truth sel))
      (interruptible_sleep_on patience (Some floppy_select_q)) ;;
    dor ← gets k_current_DOR;
    mret (if Z.land dor 3 =? nr then inr tt else inl tt)) tt ;;
  d ← inb FD_DIR;
  if truth (Z.land d 0x80) then floppy_off nr ;; mret 1
  else floppy_off nr ;; mret 0.

Definition setup_DMA : M kernel unit :=
  c ← CURRENT MAJOR_FD;
  cur ← deref c;
  addr ← request_addr cur;
  command ← sget k_fd fd_command;
  addr ← (if 0x100000 <=? s32 addr then
            when (command =? FD_WRITE)
              (v ← request_bytes cur 1024; sset k_fd tmp_floppy_area v) ;;
            sget k_fd tmp_floppy_addr
          else mret addr);
  outb 6 10 ;;
  let mode := if command =? FD_READ then DMA_READ else DMA_WRITE in
  outb mode 12 ;;
  outb mode 11 ;;
  outb addr 4 ;;
  outb (Z.shiftr addr 8) 4 ;;
  outb (Z.shiftr addr 16) 0x81 ;;
  outb 0xff 5 ;;
  outb 3 5 ;;
  outb 2 10.

Definition output_byte (byte : Z) : M kernel unit :=
  reset ← sget k_fd fd_reset;
  if truth reset then mret tt
  else
    sent ← loop 10001 (fun counter : Z =>
      if 10000 <=? counter then mret (inr false)
      else
        s ← inb FD_STATUS;
        if Z.land s (Z.lor STATUS_READY STATUS_DIR) =? STATUS_READY
        then outb byte FD_DATA ;; mret (inr true)
        else mret (inl (counter + 1))) 0;
    when (negb sent) (sset k_fd fd_reset 1).

Definition result : M kernel Z :=
  reset ← sget k_fd fd_reset;
  if truth reset then mret (-1)
  else
    r ← loop 10001 (fun '(counter, i) =>
      if 10000 <=? counter then mret (inr None)
      else
        s ← inb FD_STATUS;
        let status := Z.land s (Z.lor STATUS_DIR (Z.lor STATUS_READY STATUS_BUSY)) in
        if status =? STATUS_READY then mret (inr (Some (Z.of_nat i)))
        else if status =? Z.lor STATUS_DIR (Z.lor STATUS_READY STATUS_BUSY) then
          if (MAX_REPLIES <=? i)%nat then mret (inr None)
          else
            v ← inb FD_DATA;
            l ← sget k_fd reply_buffer;
            sset k_fd reply_buffer (<[i := v]> l) ;;
            mret (inl (counter + 1, S i))
        else mret (inl (counter + 1, i))) (0, 0%nat);
    match r with
    | Some n => mret n
    | None => sset k_fd fd_reset 1 ;; mret (-1)
    end.

Definition bad_flp_intr : M kernel unit :=
  c ← CURRENT MAJOR_FD;
  cur ← deref c;
  upd cur r_errors (fun e => s32 (e + 1)) ;;
  e ← cur->>r_errors;
  when (FD_MAX_ERRORS <? e)
    (d ← sget k_fd current_drive; floppy_deselect d ;; end_request MAJOR_FD 0) ;;
  c ← CURRENT MAJOR_FD;
  e ← match c with
      | Some cur => cur->>r_errors
      | None => gets (fun s => s32 (rd (words (k_mm s)) 8))
      end;
  if Z.quot FD_MAX_ERRORS 2 <? e then sset k_fd fd_reset 1 else sset k_fd fd_recalibrate 1.

Definition reset_floppy : M kernel unit :=
  sset k_fd fd_reset 0 ;;
  sset k_fd cur_spec1 (-1) ;;
  sset k_fd cur_rate (-1) ;;
  sset k_fd fd_recalibrate 1 ;;
  sset k_fd do_floppy (Some RESET_INTERRUPT) ;;
  dor ← gets k_current_DOR;
  outb (Z.land dor (Z.lnot 0x04)) FD_DOR ;;
  outb dor FD_DOR.

Section requests.
(** [do_fd_request], called again by the routines below when [reset] is set. *)
Variable do_fd_request : M kernel unit.

Definition head_drive : M kernel Z :=
  h ← sget k_fd fd_head; d ← sget k_fd current_drive; mret (Z.lor (Z.shiftl h 2) d).
Definition if_reset : M kernel unit :=
  reset ← sget k_fd fd_reset; when (truth reset) do_fd_request.

Definition setup_rw_floppy : M kernel unit :=
  setup_DMA ;;
  sset k_fd do_floppy (Some RW_INTERRUPT) ;;
  command ← sget k_fd fd_command; output_byte command ;;
  hd ← head_drive; output_byte hd ;;
  track ← sget k_fd fd_track; output_byte track ;;
  head ← sget k_fd fd_head; output_byte head ;;
  sector ← sget k_fd fd_sector; output_byte sector ;;
  output_byte 2 ;;
  fl ← cur_floppy;
  output_byte (ft_sect fl) ;;
  output_byte (ft_gap fl) ;;
  output_byte 0xFF ;;
  if_reset.

Definition seek_interrupt : M kernel unit :=
  output_byte FD_SENSEI ;;
  r ← result;
  st0 ← ST 0; st1 ← ST 1; sk ← sget k_fd seek_track;
  if negb (r =? 2) || negb (Z.land st0 0xF8 =? 0x20) || negb (st1 =? sk)
  then bad_flp_intr ;; do_fd_request
  else sset k_fd current_track st1 ;; setup_rw_floppy.

Definition transfer : M kernel unit :=
  fl ← cur_floppy;
  spec1 ← sget k_fd cur_spec1;
  when (negb (spec1 =? ft_spec1 fl))
    (sset k_fd cur_spec1 (ft_spec1 fl) ;;
     output_byte FD_SPECIFY ;;
     output_byte (ft_spec1 fl) ;;
     output_byte 6) ;;
  rate ← sget k_fd cur_rate;
  when (negb (rate =? ft_rate fl))
    (sset k_fd cur_rate (ft_rate fl) ;; outb (ft_rate fl) FD_DCR) ;;
  reset ← sget k_fd fd_reset;
  if truth reset then do_fd_request
  else
    seek ← sget k_fd fd_seek;
    if negb (truth seek) then setup_rw_floppy
    else
      sset k_fd do_floppy (Some SEEK_INTERRUPT) ;;
      sk ← sget k_fd seek_track;
      hd ← head_drive;
      (if truth sk then output_byte FD_SEEK ;; output_byte hd ;; output_byte sk
       else output_byte FD_RECALIBRATE ;; output_byte hd) ;;
      if_reset.

Definition recalibrate_floppy : M kernel unit :=
  sset k_fd fd_recalibrate 0 ;;
  sset k_fd current_track 0 ;;
  sset k_fd do_floppy (Some RECAL_INTERRUPT) ;;
  output_byte FD_RECALIBRATE ;;
  hd ← head_drive; output_byte hd ;;
  if_reset.

Definition floppy_on_interrupt : M kernel unit :=
  setg k_selected 1 ;;
  d ← sget k_fd current_drive;
  dor ← gets k_current_DOR;
  if negb (d =? Z.land dor 3) then
    setg k_current_DOR (Z.lor (Z.land dor 0xFC) d) ;;
    outb (Z.lor (Z.land dor 0xFC) d) FD_DOR ;;
    add_timer 2 (Some (TimerFn FN_TRANSFER transfer))
  else transfer.

(** One turn from the [repeat] label. *)
Definition fd_step (_ : unit) : M kernel (unit + unit) :=
  c ← INIT_REQUEST MAJOR_FD;
  match c with
  | None => mret (inr tt)
  | Some cur =>
      dev ← cur->>r_dev;
      sset k_fd floppy (Z.to_nat (Z.shiftr (MINOR dev) 2)) ;;
      fl ← cur_floppy;
      d ← sget k_fd current_drive;
      when (negb (d =? Z.land dev 3)) (sset k_fd fd_seek 1) ;;
      sset k_fd current_drive (Z.land dev 3) ;;
      block ← cur->>r_sector;
      if ft_size fl <? u32 (block + 2) then end_request MAJOR_FD 0 ;; mret (inl tt)
      else if (ft_sect fl =? 0) || (ft_head fl =? 0) then fault
      else
        let sector := u8 (Z.modulo block (ft_sect fl)) in
        let block := Z.div block (ft_sect fl) in
        sset k_fd fd_head (u8 (Z.modulo block (ft_head fl))) ;;
        let track := u8 (Z.div block (ft_head fl)) in
        sset k_fd fd_track track ;;
        sset k_fd seek_track (u8 (Z.shiftl track (ft_stretch fl))) ;;
        ct ← sget k_fd current_track;
        when (negb (u8 (Z.shiftl track (ft_stretch fl)) =? ct)) (sset k_fd fd_seek 1) ;;
        sset k_fd fd_sector (u8 (sector + 1)) ;;
        cmd ← cur->>r_cmd;
        (if cmd =? READ then sset k_fd fd_command FD_READ
         else if cmd =? WRITE then sset k_fd fd_command FD_WRITE
         else panic "do_fd_request: unknown command") ;;
        ticks ← ticks_to_floppy_on (Z.land dev 3);
        add_timer ticks (Some (TimerFn FN_FLOPPY_ON floppy_on_interrupt)) ;;
        mret (inr tt)
  end.

Definition fd_request_body : M kernel unit :=
  sset k_fd fd_seek 0 ;;
  reset ← sget k_fd fd_reset;
  if truth reset then reset_floppy
  else
    recalibrate ← sget k_fd fd_recalibrate;
    if truth recalibrate then recalibrate_floppy
    else loop (S NR_REQUEST) fd_step tt.
End requests.

(** A nested call finds [reset] set, resets the controller and returns. *)
Fixpoint fd_request (n : nat) : M kernel unit :=
  match n with
  | O => out_of_fuel
  | S n' => fd_request_body (fd_request n')
  end.
Definition do_fd_request : M kernel unit := fd_request 2.

Definition rw_interrupt : M kernel unit :=
  r ← result;
  st0 ← ST 0; st1 ← ST 1; st2 ← ST 2;
  if negb (r =? 7) || truth (Z.land st0 0xf8) || truth (Z.land st1 0xbf) || truth (Z.land st2 0x73)
  then
    (if truth (Z.land st1 0x02)
     then d ← sget k_fd current_drive; floppy_deselect d ;; end_request MAJOR_FD 0
     else bad_flp_intr) ;;
    do_fd_request
  else
    c ← CURRENT MAJOR_FD;
    cur ← deref c;
    command ← sget k_fd fd_command;
    addr ← request_addr cur;
    when ((command =? FD_READ) && (0x100000 <=? addr))
      (v ← sget k_fd tmp_floppy_area; set_request_bytes cur v) ;;
    d ← sget k_fd current_drive;
    floppy_deselect d ;;
    end_request MAJOR_FD 1 ;;
    do_fd_request.

Definition recal_interrupt : M kernel unit :=
  output_byte FD_SENSEI ;;
  r ← result;
  st0 ← ST 0;
  (if negb (r =? 2) || (Z.land st0 0xE0 =? 0x60) then sset k_fd fd_reset 1
   else sset k_fd fd_recalibrate 0) ;;
  do_fd_request.

Definition unexpected_floppy_interrupt : M kernel unit :=
  output_byte FD_SENSEI ;;
  r ← result;
  st0 ← ST 0;
  if negb (r =? 2) || (Z.land st0 0xE0 =? 0x60) then sset k_fd fd_reset 1
  else sset k_fd fd_recalibrate 1.

Definition reset_interrupt : M kernel unit :=
  output_byte FD_SENSEI ;;
  result ;;
  output_byte FD_SPECIFY ;;
  spec1 ← sget k_fd cur_spec1;
  output_byte spec1 ;;
  output_byte 6 ;;
  do_fd_request.

Definition floppy_init : M kernel unit :=
  d ← aget k_blk_dev MAJOR_FD;
  aset k_blk_dev MAJOR_FD (set_field request_fn (fun _ => Some MAJOR_FD) d) ;;
  set_trap_gate 0x26 Entry.floppy_interrupt ;;
  v ← inb 0x21; outb (Z.land v (Z.lnot 0x40)) 0x21.
End driver.
