(* ===== verification/LLRwBlk.v ===== *)
(** * kernel/blk_drv/ll_rw_blk.c: block read and write requests

    [ll_rw_block] turns a buffer into a request of its device's queue (kept in
    elevator order by [add_request]) and starts an idle driver. *)

From S2P Require Import Prelude Kernel Sched Blk Hd Floppy.

Section with_world.
Context `{World}.

Definition lock_buffer (bh : nat) : M kernel unit :=
  while patience (l ← bh->>b_lock; mret (truth l)) (sleep_on (Some (buffer_q bh))) ;;
  st bh b_lock 1.

(** [(dev->request_fn)()]. *)
Definition call_request_fn (fn : option nat) : M kernel unit :=
  match fn with
  | Some 1%nat => do_rd_request
  | Some 2%nat => do_fd_request
  | Some 3%nat => do_hd_request
  | _ => fault
  end.

(** The search of [add_request] for the request [tmp] to insert after. *)
Definition elevator_step (req tmp : nat) : M kernel (nat + nat) :=
  nx ← tmp->>r_next;
  match nx with
  | None => mret (inr tmp)
  | Some n =>
      q ← ld req; t ← ld tmp; nr ← ld n;
      mret (if (IN_ORDER t q || negb (IN_ORDER t nr)) && IN_ORDER q nr
            then inr tmp else inl n)
  end.

Definition add_request (dev : nat) (req : nat) : M kernel unit :=
  st req r_next None ;;
  bh ← req->>r_bh;
  (match bh with Some b => st b b_dirt 0 | None => mret tt end) ;;
  d ← aget k_blk_dev dev;
  match current_request d with
  | None =>
      aset k_blk_dev dev (set_field current_request (fun _ => Some req) d) ;;
      call_request_fn (request_fn d)
  | Some head =>
      tmp ← loop (S NR_REQUEST) (elevator_step req) head;
      nx ← tmp->>r_next;
      st req r_next nx ;;
      st tmp r_next (Some req)
  end.

(** [while (--req >= request) if (req->dev<0) break;] from entry [n] down. *)
Definition find_request (n : nat) : M kernel (option nat) :=
  for_break (rev (seq 0 n)) (fun req =>
    d ← req->>r_dev; mret (if d <? 0 then Some req else None)).

Definition make_request (major : nat) (rw : Z) (bh : nat) : M kernel unit :=
  let rw_ahead := (rw =? READA) || (rw =? WRITEA) in
  l ← bh->>b_lock;
  if rw_ahead && truth l then mret tt
  else
    let rw := if rw =? READA then READ else if rw =? WRITEA then WRITE else rw in
    if negb (rw =? READ) && negb (rw =? WRITE)
    then panic "Bad block dev command, must be R/W/RA/WA"
    else
      lock_buffer bh ;;
      dirt ← bh->>b_dirt; upto ← bh->>b_uptodate;
      if ((rw =? WRITE) && negb (truth dirt)) || ((rw =? READ) && truth upto)
      then unlock_buffer bh
      else
        req ← loop patience (fun _ : unit =>
          r ← find_request (if rw =? READ then NR_REQUEST else (NR_REQUEST * 2 / 3)%nat);
          match r with
          | Some r => mret (inr (Some r))
          | None =>
              if rw_ahead then unlock_buffer bh ;; mret (inr None)
              else sleep_on (Some wait_for_request_q) ;; mret (inl tt)
          end) tt;
        match req with
        | None => mret tt
        | Some req =>
            dev ← bh->>b_dev; nr ← bh->>b_blocknr;
            st req r_dev dev ;;
            st req r_cmd rw ;;
            st req r_errors 0 ;;
            st req r_sector (u32 (Z.shiftl nr 1)) ;;
            st req r_nr_sectors 2 ;;
            st req r_buffer (Some bh) ;;
            st req r_boff 0 ;;
            st req r_waiting None ;;
            st req r_bh (Some bh) ;;
            st req r_next None ;;
            add_request major req
        end.

Definition ll_rw_block (rw : Z) (bh : nat) : M kernel unit :=
  dev ← bh->>b_dev;
  let major := MAJOR dev in
  if NR_BLK_DEV <=? major then mret tt
  else
    d ← aget k_blk_dev (Z.to_nat major);
    match request_fn d with
    | None => mret tt
    | Some _ => make_request (Z.to_nat major) rw bh
    end.
End with_world.

Definition blk_dev_init : M kernel unit :=
  for_ (seq 0 NR_REQUEST) (fun i => st i r_dev (-1) ;; st i r_next None).
