(* ===== verification/Requests.v ===== *)
(** * The request queues of the block devices: what add_request keeps, and a
    disk as a whole

    The queue of a device as a list, the elevator of [add_request] as an
    insertion into that list, and the ram disk behind [ll_rw_block] as an array
    of blocks. *)

From Stdlib Require Import Sorted.
From S2P Require Import Prelude Kernel Sched Blk Hd Floppy LLRwBlk.

(** ** The queue of a device *)

(** A request without its place in the queue. *)
Definition job (q : request) : request := set_field r_next (fun _ => None) q.
(** The requests from [o] on through [next], with their places. *)
Fixpoint queue (R : list request) (o : option nat) (l : list (nat * request)) : Prop :=
  match l with
  | [] => o = None
  | (p, j) :: l => o = Some p /\ exists q, R !! p = Some q /\ j = job q /\ queue R (r_next q) l
  end.

(** The elevator on lists: [x] is put behind the first request at or behind
    [t] it fits behind. *)
Fixpoint elevate (x t : nat * request) (l : list (nat * request)) : list (nat * request) :=
  match l with
  | [] => [t; x]
  | n :: l' =>
      if (IN_ORDER (snd t) (snd x) || negb (IN_ORDER (snd t) (snd n))) && IN_ORDER (snd x) (snd n)
      then t :: x :: n :: l' else t :: elevate x n l'
  end.

(** Where the arm has to go back. *)
Fixpoint turns (l : list (nat * request)) : nat :=
  match l with
  | a :: (b :: _) as l' => (if IN_ORDER (snd a) (snd b) then 0 else 1) + turns l'
  | _ => 0
  end.
Definition ascending (l : list (nat * request)) : Prop := Sorted (fun a b => IN_ORDER (snd a) (snd b) = true) l.
(** At most two sweeps over the disk. *)
Definition two_sweeps (l : list (nat * request)) : Prop := exists up next, l = up ++ next /\ ascending up /\ ascending next.
(** What the elevator compares. *)
Definition place (q : request) : Z * Z * Z := (r_cmd q, r_dev q, r_sector q).

(** ** The ram disk *)

(** What [make_request] fills in. *)
Definition new_request (rw : Z) (b : nat) (h : buffer_head) : request :=
  Request (b_dev h) rw 0 (u32 (Z.shiftl (b_blocknr h) 1)) 2 (Some b) 0 None (Some b) None.
(** The device is free, and so is a request of the table. *)
Record idle_device (major : nat) (s : kernel) : Prop := {
  idle_dev : k_blk_dev s !! major = Some (BlkDev (Some major) None);
  idle_wait : k_wait_for_request s = None;
  idle_requests : length (k_requests s) = NR_REQUEST;
  idle_free : exists r q, (r < NR_REQUEST * 2 / 3)%nat /\ k_requests s !! r = Some q /\ r_dev q < 0 }.
Definition busy_buffer (h : buffer_head) : buffer_head := set_field b_dirt (fun _ => 0) (set_field b_lock (fun _ => 1) h).
(** The kernel when the driver is called for a first request. *)
Definition started (major : nat) (rw : Z) (r b : nat) (h : buffer_head) (s : kernel) : kernel :=
  set_field k_blk_dev (fun l => <[major := BlkDev (Some major) (Some r)]> l)
    (set_field k_bufs (fun l => <[b := busy_buffer h]> l)
       (set_field k_requests (fun l => <[r := new_request rw b h]> l) s)).
(** An idle driver with a free request, and the memory of the disk below the
    end of the address space. *)
Record rd_ready (s : kernel) : Prop := {
  ready_idle : idle_device MAJOR_RD s;
  ready_data : Z.of_nat (length (rd_data (k_rd s))) = rd_length (k_rd s);
  ready_start : 0 <= rd_start (k_rd s) /\ rd_start (k_rd s) + rd_length (k_rd s) < 2 ^ 32 }.
(** Block [n] of the disk. *)
Definition rd_block (n : Z) (s : kernel) : list Z := take 1024 (drop (Z.to_nat (1024 * n)) (rd_data (k_rd s))).
(** The buffer is for block [n], and nobody waits for it. *)
Definition for_block (h : buffer_head) (n : Z) : Prop :=
  b_dev h = 0x101 /\ b_blocknr h = n /\ b_lock h = 0 /\ b_wait h = None /\ length (b_data h) = 1024%nat.
(** The end of a request nobody waits for. *)
Definition ended (major : nat) (fn : option nat) (r : nat) (q : request) (b : nat) (h : buffer_head) (uptodate : Z) (s : kernel) : kernel :=
  set_field k_blk_dev (fun l => <[major := BlkDev fn (r_next q)]> l)
    (set_field k_requests (fun l => <[r := set_field r_dev (fun _ => -1) q]> l)
       (set_field k_bufs (fun l => <[b := set_field b_lock (fun _ => 0) (set_field b_uptodate (fun _ => uptodate) h)]> l) s)).
(** What a request leaves of the buffer: the data of the block when it was a
    read, up to date and clean. *)
Definition done_buffer (rw : Z) (n : Z) (s : kernel) (h : buffer_head) : buffer_head :=
  set_field b_uptodate (fun _ => 1) (set_field b_dirt (fun _ => 0)
    (if rw =? WRITE then h else set_field b_data (fun _ => rd_block n s) h)).

(** ** The order *)

Lemma order_trans a b c : IN_ORDER a b = true -> IN_ORDER b c = true -> IN_ORDER a c = true.
Proof. unfold IN_ORDER. intros. kbool. lia. Qed.
Lemma order_total a b : place a <> place b -> IN_ORDER a b = false -> IN_ORDER b a = true.
Proof.
  unfold IN_ORDER, place. intros Hne H. kbool.
  assert (r_cmd a <> r_cmd b \/ r_dev a <> r_dev b \/ r_sector a <> r_sector b).
  { destruct (Z.eq_dec (r_cmd a) (r_cmd b)), (Z.eq_dec (r_dev a) (r_dev b)), (Z.eq_dec (r_sector a) (r_sector b)); try lia. congruence. }
  lia.
Qed.
Lemma turns_cons a b l : turns (a :: b :: l) = ((if IN_ORDER (snd a) (snd b) then 0 else 1) + turns (b :: l))%nat.
Proof. reflexivity. Qed.
Lemma turns_sweeps l : (turns l <= 1)%nat <-> two_sweeps l.
Proof.
  unfold two_sweeps, ascending. split.
  - intros Hl. assert (forall l, turns l = 0%nat -> Sorted (fun a b => IN_ORDER (snd a) (snd b) = true) l) as H0.
    { clear. induction l as [|a [|b l] IH]; [by constructor|by repeat constructor|]. rewrite turns_cons.
      destruct (IN_ORDER _ _) eqn:E; [|done]. intros H. constructor; [by apply IH|by constructor]. }
    induction l as [|a [|b l] IH]; [by exists [], []|exists [a], []; repeat constructor|]. rewrite turns_cons in Hl.
    destruct (IN_ORDER (snd a) (snd b)) eqn:E in Hl.
    + destruct (IH ltac:(lia)) as ([|c up] & next & El & Hu & Hn).
      * exists [a], (b :: l). rewrite El. split_and!; [done|by repeat constructor|done].
      * injection El as <- ->. exists (a :: b :: up), next. split; [done|]. split; [|done]. by constructor; [|constructor].
    + exists [a], (b :: l). split_and!; [done|by repeat constructor|apply H0; lia].
  - intros (up & next & -> & Hu & Hn).
    assert (forall l, Sorted (fun a b => IN_ORDER (snd a) (snd b) = true) l -> turns l = 0%nat) as H0.
    { clear. induction l as [|a [|b l] IH]; [done..|]. intros [Hs Hh]%Sorted_inv. apply HdRel_inv in Hh.
      rewrite turns_cons, Hh. by apply IH. }
    induction up as [|a [|b up] IH]; cbn [app]; [rewrite H0 by done; lia| |].
    + destruct next as [|b next]; [cbn; lia|]. rewrite turns_cons, (H0 (b :: next)) by done. case_match; lia.
    + apply Sorted_inv in Hu as [Hu Hh]. apply HdRel_inv in Hh. rewrite turns_cons, Hh. by apply IH.
Qed.

Lemma elevate_head x t l : exists l', elevate x t l = t :: l'.
Proof. destruct l; cbn; [|case_match]; eauto. Qed.
Lemma elevate_inserts x t l : exists l1 l2, l = l1 ++ l2 /\ elevate x t l = t :: l1 ++ x :: l2.
Proof.
  revert t. induction l as [|n l IH]; intros t; cbn; [by exists [], []|]. case_match.
  - by exists [], (n :: l).
  - destruct (IH n) as (l1 & l2 & -> & ->). by exists (n :: l1), l2.
Qed.
Lemma turns_elevate x t l : Forall (fun n => place (snd n) <> place (snd x)) l ->
  (turns (elevate x t l) <= Nat.max 1 (turns (t :: l)))%nat /\
  (IN_ORDER (snd t) (snd x) = true -> (turns (elevate x t l) <= turns (t :: l))%nat).
Proof.
  intros Hl. revert t. induction Hl as [|n l Hn Hl IH]; intros t; cbn [elevate].
  - rewrite turns_cons. cbn. destruct (IN_ORDER (snd t) (snd x)); split; intros; try done; lia.
  - specialize (IH n) as [IH1 IH2]. destruct (elevate_head x n l) as [l' El]. rewrite El in *.
    destruct (IN_ORDER (snd t) (snd x)) eqn:Etx, (IN_ORDER (snd t) (snd n)) eqn:Etn, (IN_ORDER (snd x) (snd n)) eqn:Exn; cbn [orb andb negb];
    rewrite !turns_cons, ?Etx, ?Etn, ?Exn; try (rewrite turns_cons in IH1, IH2); 
    try (assert (IN_ORDER (snd n) (snd x) = true) as Hnx by (by apply order_total)); 
    try (specialize (IH2 Hnx)); split; intros; try done; try lia.
Qed.
(** ** add_request *)

Lemma order_job a b : IN_ORDER (job a) (job b) = IN_ORDER a b.
Proof. reflexivity. Qed.
Lemma queue_frame R o l p q : queue R o l -> p ∉ l.*1 -> queue (<[p := q]> R) o l.
Proof.
  revert o. induction l as [|[p' j] l IH]; intros o; [done|]. cbn [queue fmap list_fmap].
  rewrite not_elem_of_cons. intros (-> & x & Hx & -> & Hq) [Hne Hn]. split; [done|]. exists x.
  split_and!; [by rewrite list_lookup_insert_ne|done|by apply IH].
Qed.
Lemma queue_app R o l1 p j l2 : queue R o (l1 ++ (p, j) :: l2) -> exists q, R !! p = Some q /\ j = job q /\ queue R (r_next q) l2.
Proof. revert o. induction l1 as [|[p' j'] l1 IH]; intros o; cbn [app queue]; [naive_solver|]. intros (-> & x & _ & _ & Hq). eauto. Qed.
Lemma requests_length R o l : queue R o l -> NoDup (l.*1) -> (length l <= length R)%nat.
Proof.
  intros Hq Hnd. rewrite <- (length_fmap fst l).
  assert (forall x, x ∈ l.*1 -> (x < length R)%nat).
  { clear Hnd. revert o Hq. induction l as [|[p j] l IH]; intros o Hq x Hx; cbn in *; [by apply not_elem_of_nil in Hx|].
    destruct Hq as (-> & q & E & _ & Hq). apply elem_of_cons in Hx as [->|Hx]; [by eapply lookup_lt_Some|by eapply IH]. }
  rewrite <- (length_seq (length R) 0). apply submseteq_length, NoDup_submseteq; [done|].
  intros x Hx. apply elem_of_seq. specialize (H x Hx). lia.
Qed.
(** A request linked in behind [tmp]. *)
Lemma queue_insert R o l1 tmp j l2 t req x :
  queue R o (l1 ++ (tmp, j) :: l2) -> NoDup ((l1 ++ (tmp, j) :: l2).*1) -> req ∉ (l1 ++ (tmp, j) :: l2).*1 ->
  R !! tmp = Some t -> R !! req = Some x ->
  queue (<[tmp := set_field r_next (fun _ => Some req) t]> (<[req := set_field r_next (fun _ => r_next t) x]> R)) o
    (l1 ++ (tmp, j) :: (req, job x) :: l2).
Proof.
  intros Hq Hnd Hreq Et Ex.
  assert (tmp <> req) as Hne. { intros ->. apply Hreq. rewrite fmap_app. set_solver. }
  revert o Hq. assert (Hsub : forall p, p ∈ l1.*1 -> p <> req /\ p <> tmp).
  { intros p Hp. split; [intros ->; apply Hreq; rewrite fmap_app; set_solver|]. intros ->. rewrite fmap_app in Hnd.
    apply NoDup_app in Hnd as (_ & Hnd & _). apply (Hnd tmp Hp). cbn. set_solver. }
  assert (tmp ∉ l2.*1) as Ht2. { rewrite fmap_app in Hnd. apply NoDup_app in Hnd as (_ & _ & Hnd). cbn in Hnd. by apply NoDup_cons in Hnd as [? _]. }
  assert (req ∉ l2.*1) as Hr2. { intros H. apply Hreq. rewrite fmap_app. set_solver. }
  clear Hnd. induction l1 as [|[p j'] l1 IH]; intros o; cbn [app queue].
  - intros (-> & q & E & -> & Hq). rewrite Et in E. injection E as <-. split; [done|]. eexists.
    split; [by rewrite list_lookup_insert_eq by (rewrite length_insert; by eapply lookup_lt_Some)|].
    split; [done|]. cbn [queue]. split; [done|]. eexists.
    split; [rewrite list_lookup_insert_ne by done; by rewrite list_lookup_insert_eq by (by eapply lookup_lt_Some)|].
    split; [done|]. by do 2 (apply queue_frame; [|done]).
  - intros (-> & q & E & -> & Hq). split; [done|]. exists q.
    destruct (Hsub p) as [H1 H2]; [cbn; set_solver|]. rewrite !list_lookup_insert_ne by done.
    split_and!; [done|done|]. apply IH; [intros H; apply Hreq; cbn; set_solver|intros; apply Hsub; cbn; set_solver|done].
Qed.
Section add_request.
Context `{World}.
Lemma elevator_last req t q s : k_requests s !! t = Some q -> r_next q = None -> elevator_step req t s = Ok (inr t) s.
Proof. intros Et En. unfold elevator_step, mbind, M_bind, getf. cbn [tab request_table]. by rewrite Et, En. Qed.
Lemma elevator_next req t q n qn x s :
  k_requests s !! t = Some q -> r_next q = Some n -> k_requests s !! n = Some qn -> k_requests s !! req = Some x ->
  elevator_step req t s =
  Ok (if (IN_ORDER q x || negb (IN_ORDER q qn)) && IN_ORDER x qn then inr t else inl n) s.
Proof.
  intros Et En Eq Ex. unfold elevator_step, mbind, M_bind, getf, ld. cbn [tab request_table].
  by rewrite Et, En, Ex, Et, Eq.
Qed.
Lemma elevator_finds req x l : forall t fuel s o, queue (k_requests s) o (t :: l) -> k_requests s !! req = Some x ->
  (length l < fuel)%nat -> exists l1 tmp l2, t :: l = l1 ++ tmp :: l2 /\
    loop fuel (elevator_step req) (fst t) s = Ok (fst tmp) s /\ elevate (req, job x) t l = l1 ++ tmp :: (req, job x) :: l2.
Proof.
  induction l as [|[n jn] l IH]; intros [t j] [|fuel] s o (-> & q & Et & -> & Hq) Ex Hf; try (cbn in Hf; lia);
    rewrite loop_S; unfold mbind, M_bind at 1; cbn [fst elevate].
  - cbn in Hq. rewrite (elevator_last _ _ _ _ Et Hq). by exists [], (t, job q), [].
  - pose proof Hq as (En & qn & En' & -> & Hq'). rewrite (elevator_next _ _ _ _ _ _ _ Et En En' Ex).
    cbn [snd]. rewrite !order_job.
    destruct ((IN_ORDER q x || negb (IN_ORDER q qn)) && IN_ORDER x qn) eqn:Ec; [exists [], (t, job q), ((n, job qn) :: l); split_and!; reflexivity|].
    destruct (IH (n, job qn) fuel s (r_next q) Hq Ex ltac:(cbn in Hf; lia)) as (l1 & tmp & l2 & E1 & E2 & E3).
    exists ((t, job q) :: l1), tmp, l2. rewrite E1, E3. split_and!; [done|exact E2|done].
Qed.

(** The buffer of the request is written out now. *)
Definition clean (o : option nat) (B : list buffer_head) : list buffer_head :=
  match o with Some b => alter (set_field b_dirt (fun _ => 0)) b B | None => B end.
Lemma clean_run o s : (forall b, o = Some b -> is_Some (k_bufs s !! b)) ->
  (match o with Some b => st b b_dirt 0 | None => mret tt end) s = Ok tt (set_field k_bufs (clean o) s).
Proof.
  intros Hb. destruct o as [b|]; [|by destruct s]. destruct (Hb b eq_refl) as [B E].
  unfold st, updr. cbn [tab buffer_table clean]. rewrite E. f_equal. unfold set_tab, buffer_table, set_field, set_k_bufs.
  f_equal. symmetry. by apply alter_at.
Qed.
(** C12: a request for a device that is busy is put into its queue behind the
    request being served, no other request is lost, moved or changed, and the
    buffer counts as written out from then on.  The order is that of an
    elevator: if the queue could be served in two sweeps over the device, each
    in increasing order, then it still can, provided no request of the queue
    is for the same sectors. *)
Theorem add_request_elevator major d h l req x s :
  k_blk_dev s !! major = Some d -> current_request d = Some h ->
  queue (k_requests s) (Some h) l -> NoDup (l.*1) -> length (k_requests s) = NR_REQUEST ->
  k_requests s !! req = Some x -> req ∉ l.*1 -> (forall b, r_bh x = Some b -> is_Some (k_bufs s !! b)) ->
  exists l1 l2, l = l1 ++ l2 /\ l1 <> [] /\
    wp (add_request major req) (fun _ s' =>
      queue (k_requests s') (Some h) (l1 ++ (req, job x) :: l2) /\
      s' = set_field k_requests (fun _ => k_requests s') (set_field k_bufs (clean (r_bh x)) s)) s /\
    (Forall (fun n => place (snd n) <> place x) l -> two_sweeps l -> two_sweeps (l1 ++ (req, job x) :: l2)).
Proof.
  intros Hd Hh Hq Hnd Hlen Ex Hreq Hb.
  destruct l as [|t l]; [done|].
  assert (Eh : fst t = h) by (destruct t; by destruct Hq as [[= ->] _]).
  set (x0 := set_field r_next (fun _ => None) x).
  set (s1 := set_tab (fun R => <[req := x0]> R) s).
  set (s2 := set_field k_bufs (clean (r_bh x)) s1).
  assert (Hreq' : (req < length (k_requests s))%nat) by (by eapply lookup_lt_Some).
  assert (Hq2 : queue (k_requests s2) (Some h) (t :: l)) by (by apply queue_frame).
  assert (Ex2 : k_requests s2 !! req = Some x0) by (by apply list_lookup_insert_eq).
  pose proof (requests_length _ _ _ Hq2 Hnd) as Hl. change (k_requests s2) with (<[req := x0]> (k_requests s)) in Hl.
  rewrite length_insert, Hlen in Hl.
  destruct (elevator_finds req x0 l t (S NR_REQUEST) s2 (Some h) Hq2 Ex2 ltac:(cbn [length] in Hl; lia)) as (l1 & tmp & l2 & El & Eloop & Ee).
  destruct tmp as [tmp j]. rewrite El in *. destruct (queue_app _ _ _ _ _ _ Hq2) as (qt & Et & _ & _).
  assert (tmp <> req) as Hne. { intros ->. apply Hreq. rewrite fmap_app. set_solver. }
  exists (l1 ++ [(tmp, j)]), l2. rewrite <- !app_assoc. cbn [app]. split_and!; [done|by destruct l1| |].
  - unfold add_request. wp_step. apply wpg_bind. eapply wpg_updr; [exact Ex|].
    apply wpg_bind. eapply wpg_getf; [by apply list_lookup_insert_eq|].
    change (set_tab _ s) with s1. eapply wpg_bind_Ok; [exact (clean_run (r_bh x) s1 Hb)|].
    eapply wpg_bind_Ok; [unfold aget; change (k_blk_dev _) with (k_blk_dev s); by rewrite Hd|]. rewrite Hh.
    rewrite Eh in Eloop. eapply wpg_bind_Ok; [exact Eloop|]. apply wpg_bind. eapply wpg_getf; [exact Et|].
    apply wpg_bind. eapply wpg_updr; [exact Ex2|]. 
    eapply wpg_updr; [cbn; rewrite list_lookup_insert_ne by done; exact Et|].
    split; [|].
    + pose proof (queue_insert _ _ _ _ _ _ _ _ _ Hq2 Hnd Hreq Et Ex2) as Hi. exact Hi.
    + reflexivity.
  - intros Hp Hs%turns_sweeps. apply turns_sweeps. rewrite <- El in Hp, Hs. 
    assert (Hpt : Forall (fun n => place (snd n) <> place (snd (req, job x0))) l) by (by apply Forall_cons in Hp as [_ Hp]).
    destruct (turns_elevate (req, job x0) t l Hpt) as [Ht _]. rewrite Ee in Ht. 
    change (job x) with (job x0). lia.
Qed.
End add_request.

(** The requests of the boot kernel, three of them for the hard disk. *)
Definition hd_request (cmd sector : Z) (next : option nat) : request :=
  Request 0x301 cmd 0 sector 2 None 0 None None next.
Definition two_requests : kernel :=
  set_field k_blk_dev (fun l => <[3%nat := BlkDev (Some 3%nat) (Some 0%nat)]> l)
    (set_field k_requests (fun l => hd_request READ 10 (Some 1%nat) :: hd_request READ 30 None :: hd_request READ 20 None :: drop 3 l)
       (boot_kernel 0 0)).
Lemma add_request_elevator_witness : exists l1 l2,
  [(0%nat, hd_request READ 10 None); (1%nat, hd_request READ 30 None)] = l1 ++ l2 /\ l1 <> [] /\
  wp (add_request (H := idle_world) 3 2) (fun _ s' =>
    queue (k_requests s') (Some 0%nat) (l1 ++ (2%nat, hd_request READ 20 None) :: l2)) two_requests.
Proof.
  destruct (add_request_elevator (H := idle_world) 3 (BlkDev (Some 3%nat) (Some 0%nat)) 0
    [(0%nat, hd_request READ 10 None); (1%nat, hd_request READ 30 None)] 2 (hd_request READ 20 None) two_requests)
    as (l1 & l2 & El & Hl1 & Hwp & _).
  - reflexivity.
  - reflexivity.
  - split; [done|]. eexists. split; [reflexivity|]. split; [done|]. split; [done|]. eexists. by split; [reflexivity|].
  - apply (bool_decide_unpack _). reflexivity.
  - reflexivity.
  - reflexivity.
  - apply (bool_decide_unpack _). reflexivity.
  - done.
  - exists l1, l2. split_and!; [done|done|]. eapply wp_mono; [exact Hwp|]. intros _ s' [Hq _]. exact Hq.
Defined.
(** A read that comes while a write waits behind the request being served: it
    is put behind the write. *)
Example read_behind_write :
  elevate (2%nat, hd_request READ 3 None) (0%nat, hd_request READ 5 None) [(1%nat, hd_request WRITE 7 None)] =
  [(0%nat, hd_request READ 5 None); (1%nat, hd_request WRITE 7 None); (2%nat, hd_request READ 3 None)].
Proof. reflexivity. Qed.

(** ** A request to the ram disk *)

Lemma find_request_free n s r q : (n <= length (k_requests s))%nat -> (r < n)%nat -> k_requests s !! r = Some q -> r_dev q < 0 ->
  exists r' q', (r' < n)%nat /\ k_requests s !! r' = Some q' /\ r_dev q' < 0 /\ find_request n s = Ok (Some r') s.
Proof.
  unfold find_request. induction n as [|n IH]; intros Hn Hr Hq Hd; [lia|].
  rewrite seq_S, rev_app_distr. cbn [rev app for_break Nat.add].
  destruct (lookup_lt_is_Some_2 (k_requests s) n) as [x Ex]; [lia|].
  unfold mbind, M_bind, getf. cbn [tab request_table]. rewrite Ex.
  destruct (Z.ltb_spec (r_dev x) 0) as [Hx|Hx].
  - exists n, x. split_and!; [lia|done|done|done].
  - assert (r <> n) by (intros ->; rewrite Ex in Hq; injection Hq as ->; lia).
    destruct (IH ltac:(lia) ltac:(lia) Hq Hd) as (r' & q' & H1 & H2 & H3 & H4). exists r', q'. split_and!; [lia|done|done|].
    exact H4.
Qed.
Lemma splice_length l off v :
  0 <= off -> off + Z.of_nat (length v) <= Z.of_nat (length l) -> length (splice l off v) = length l.
Proof. intros. unfold splice. rewrite !length_app, length_take, length_drop. lia. Qed.

Lemma splice_at l off v :
  0 <= off -> off + Z.of_nat (length v) <= Z.of_nat (length l) ->
  drop (Z.to_nat off) (splice l off v) = v ++ drop (Z.to_nat off + length v) l.
Proof.
  intros. unfold splice. rewrite drop_app_ge by (rewrite length_take; lia).
  rewrite length_take. by replace (Z.to_nat off - Z.to_nat off `min` length l)%nat with 0%nat by lia.
Qed.

Lemma splice_whole l v : length v = length l -> splice l 0 v = v.
Proof.
  intros E. unfold splice. change (Z.to_nat 0) with 0%nat. rewrite drop_ge by (rewrite E; lia). by rewrite app_nil_r.
Qed.

Lemma splice_lookup_other l off v i :
  0 <= off -> off + Z.of_nat (length v) <= Z.of_nat (length l) ->
  (Z.of_nat i < off \/ off + Z.of_nat (length v) <= Z.of_nat i) ->
  splice l off v !! i = l !! i.
Proof.
  intros H1 H2 H3. unfold splice. destruct (decide (i < Z.to_nat off)%nat).
  - rewrite lookup_app_l by (rewrite length_take; lia). by rewrite lookup_take_lt by lia.
  - rewrite lookup_app_r by (rewrite length_take; lia). rewrite lookup_app_r by (rewrite length_take; lia).
    rewrite lookup_drop, length_take. f_equal. lia.
Qed.

Section ram_disk.
Context `{World} (Hpat : (0 < patience)%nat).
Lemma lock_buffer_free b h s : k_bufs s !! b = Some h -> b_lock h = 0 ->
  lock_buffer b s = Ok tt (set_field k_bufs (fun l => <[b := set_field b_lock (fun _ => 1) h]> l) s).
Proof.
  intros Hh Hl. unfold lock_buffer, while. destruct patience as [|p]; [lia|]. rewrite loop_S.
  unfold mbind, M_bind, getf, st, updr. cbn [tab buffer_table]. rewrite Hh, Hl. cbn. by rewrite Hh.
Qed.
Lemma st_run (p : nat) {T} (f : request -> T) `{!Setter f} v q s : k_requests s !! p = Some q ->
  st p f v s = Ok tt (set_field k_requests (fun l => <[p := set_field f (fun _ => v) q]> l) s).
Proof. intros E. unfold st, updr. cbn [tab request_table]. by rewrite E. Qed.
Lemma upd_bind {B} (p : nat) {T} (f : request -> T) `{!Setter f} v q R s (k : unit -> M kernel B) : R !! p = Some q -> 
  (st p f v ≫= k) (set_field k_requests (fun _ => R) s) = k tt (set_field k_requests (fun _ => <[p := set_field f (fun _ => v) q]> R) s).
Proof. intros E. unfold mbind, M_bind. by rewrite (st_run p f v q) by done. Qed.
Lemma fill_request {B} r q s dev nr rw b (k : M kernel B) : k_requests s !! r = Some q ->
  (st r r_dev dev ;; st r r_cmd rw ;; st r r_errors 0 ;; st r r_sector nr ;; st r r_nr_sectors 2 ;; st r r_buffer (Some b) ;;
   st r r_boff 0 ;; st r r_waiting None ;; st r r_bh (Some b) ;; st r r_next None ;; k) s =
  k (set_field k_requests (fun l => <[r := Request dev rw 0 nr 2 (Some b) 0 None (Some b) None]> l) s).
Proof.
  intros E. assert (Hr := lookup_lt_Some _ _ _ E).
  transitivity ((st r r_dev dev ;; st r r_cmd rw ;; st r r_errors 0 ;; st r r_sector nr ;; st r r_nr_sectors 2 ;; st r r_buffer (Some b) ;;
   st r r_boff 0 ;; st r r_waiting None ;; st r r_bh (Some b) ;; st r r_next None ;; k) (set_field k_requests (fun _ => k_requests s) s)); [by destruct s|].
  rewrite (upd_bind _ _ _ q) by done.
  do 9 (erewrite upd_bind by (rewrite ?list_insert_insert_eq; apply list_lookup_insert_eq; exact Hr); rewrite list_insert_insert_eq).
  done.
Qed.
Lemma make_request_adds major rw b h s : k_bufs s !! b = Some h -> b_lock h = 0 ->
  (rw = WRITE /\ b_dirt h <> 0 \/ rw = READ /\ b_uptodate h = 0) -> length (k_requests s) = NR_REQUEST ->
  (exists r q, (r < NR_REQUEST * 2 / 3)%nat /\ k_requests s !! r = Some q /\ r_dev q < 0) ->
  exists r q, k_requests s !! r = Some q /\ r_dev q < 0 /\
    make_request major rw b s = add_request major r
      (set_field k_requests (fun l => <[r := new_request rw b h]> l)
         (set_field k_bufs (fun l => <[b := set_field b_lock (fun _ => 1) h]> l) s)).
Proof.
  intros Hh Hl Hrw Hlen (r0 & q0 & Hr0 & Hq0 & Hd0).
  set (s1 := set_field k_bufs _ s).
  assert (Hlim : exists n, (if rw =? READ then NR_REQUEST else (NR_REQUEST * 2 / 3)%nat) = n /\ (r0 < n <= length (k_requests s1))%nat).
  { eexists. split; [reflexivity|]. change (k_requests s1) with (k_requests s). rewrite Hlen. change (NR_REQUEST * 2 / 3)%nat with 21%nat in *. change NR_REQUEST with 32%nat. case_match; lia. }
  destruct Hlim as (n & En & Hn1 & Hn2).
  destruct (find_request_free n s1 r0 q0 Hn2 Hn1 Hq0 Hd0) as (r & q & _ & Hq & Hd & E).
  exists r, q. split_and!; [exact Hq|done|].
  unfold make_request, mbind at 1, M_bind at 1, getf at 1. cbn [tab buffer_table]. rewrite Hh, Hl.
  assert (Hcmd : ((rw =? READA) || (rw =? WRITEA)) = false /\ (rw =? READA) = false /\ (rw =? WRITEA) = false /\ negb (rw =? READ) && negb (rw =? WRITE) = false).
  { destruct Hrw as [[-> _]|[-> _]]; done. }
  destruct Hcmd as (-> & -> & -> & ->). cbn [andb].
  unfold mbind at 1, M_bind at 1. rewrite (lock_buffer_free b h s Hh Hl). fold s1.
  assert (Hh1 : k_bufs s1 !! b = Some (set_field b_lock (fun _ => 1) h)) by (apply list_lookup_insert_eq; by eapply lookup_lt_Some).
  unfold mbind at 1, M_bind at 1, getf at 1. cbn [tab buffer_table]. rewrite Hh1. 
  unfold mbind at 1, M_bind at 1, getf at 1. cbn [tab buffer_table]. rewrite Hh1. cbn [b_dirt b_uptodate set_field set_b_lock].
  replace ((rw =? WRITE) && negb (truth (b_dirt h)) || (rw =? READ) && truth (b_uptodate h)) with false
    by (destruct Hrw as [[-> Hx%truth_true]|[-> Hx%truth_false]]; by rewrite Hx).
  rewrite En. destruct patience as [|p]; [lia|]. rewrite loop_S.
  rewrite (bind_Ok _ _ _ (Some r) s1) by (erewrite bind_Ok by (erewrite bind_Ok by exact E; reflexivity); reflexivity).
  erewrite bind_Ok by (unfold getf; cbn [tab buffer_table]; rewrite Hh1; reflexivity).
  erewrite bind_Ok by (unfold getf; cbn [tab buffer_table]; rewrite Hh1; reflexivity).
  erewrite fill_request by exact Hq. reflexivity.
Qed.
Lemma getf_req p {T} (f : request -> T) q s : k_requests s !! p = Some q -> getf p f s = Ok (f q) s.
Proof. intros E. unfold getf. cbn [tab request_table]. by rewrite E. Qed.
Lemma getf_buf p {T} (f : buffer_head -> T) h s : k_bufs s !! p = Some h -> getf p f s = Ok (f h) s.
Proof. intros E. unfold getf. cbn [tab buffer_table]. by rewrite E. Qed.
Lemma aget_run {T} (f : kernel -> list T) i v s : f s !! i = Some v -> aget f i s = Ok v s.
Proof. intros E. unfold aget. by rewrite E. Qed.
Lemma aset_run {T} (f : kernel -> list T) `{!Setter f} i v w s : f s !! i = Some w -> aset f i v s = Ok tt (set_field f (fun l => <[i := v]> l) s).
Proof. intros E. unfold aset. by rewrite E. Qed.
Lemma CURRENT_run major d s : k_blk_dev s !! major = Some d -> CURRENT major s = Ok (current_request d) s.
Proof. intros E. unfold CURRENT. by erewrite bind_Ok by (by apply aget_run). Qed.
Lemma set_CURRENT_run major d o s : k_blk_dev s !! major = Some d ->
  set_CURRENT major o s = Ok tt (set_field k_blk_dev (fun l => <[major := set_field current_request (fun _ => o) d]> l) s).
Proof. intros E. unfold set_CURRENT. erewrite bind_Ok by (by apply aget_run). by eapply aset_run. Qed.
Lemma wake_nobody (q : waitq) s : wq_get q s = Ok None s -> wake_up (Some q) s = Ok tt s.
Proof. intros E. unfold wake_up. by erewrite bind_Ok by exact E. Qed.
Lemma st_buf (p : nat) {T} (f : buffer_head -> T) `{!Setter f} v h s : k_bufs s !! p = Some h ->
  st p f v s = Ok tt (set_field k_bufs (fun l => <[p := set_field f (fun _ => v) h]> l) s).
Proof. intros E. unfold st, updr. cbn [tab buffer_table]. by rewrite E. Qed.
Lemma end_request_run major fn r q b h uptodate s :
  major <> MAJOR_FD -> k_blk_dev s !! major = Some (BlkDev fn (Some r)) -> k_requests s !! r = Some q ->
  r_bh q = Some b -> r_waiting q = None -> k_bufs s !! b = Some h -> b_wait h = None -> k_wait_for_request s = None ->
  end_request major uptodate s = Ok tt (ended major fn r q b h uptodate s).
Proof.
  intros Hm Hd Hq Hb Hw Hh Hbw Hwr. unfold end_request.
  erewrite bind_Ok by (by eapply CURRENT_run). cbn [current_request].
  erewrite bind_Ok by reflexivity. erewrite bind_Ok by (by eapply getf_req).
  erewrite bind_Ok by (unfold DEVICE_OFF; rewrite (proj2 (Nat.eqb_neq _ _) Hm); reflexivity).
  erewrite bind_Ok by (by eapply getf_req). rewrite Hb.
  assert (Hb' := lookup_lt_Some _ _ _ Hh). assert (Hr := lookup_lt_Some _ _ _ Hq).
  rewrite (bind_Ok _ _ _ tt (set_field k_bufs (fun l => <[b := set_field b_lock (fun _ => 0) (set_field b_uptodate (fun _ => uptodate) h)]> l) s)).
  2: { erewrite bind_Ok by (by eapply st_buf). unfold unlock_buffer.
    erewrite bind_Ok by (eapply st_buf; by apply list_lookup_insert_eq).
    erewrite wake_nobody. { f_equal. unfold set_field, set_k_bufs. cbn. by rewrite list_insert_insert_eq. }
    cbn [wq_get buffer_q]. erewrite getf_buf by (apply list_lookup_insert_eq; cbn; by rewrite length_insert). by rewrite <- Hbw. }
  erewrite bind_Ok by (apply wake_nobody; cbn [wq_get request_q]; erewrite getf_req by exact Hq; by rewrite Hw).
  erewrite bind_Ok by (apply wake_nobody; cbn [wq_get wait_for_request_q]; unfold gets; f_equal; exact Hwr).
  erewrite bind_Ok by (by eapply st_run).
  erewrite bind_Ok by (eapply getf_req; by apply list_lookup_insert_eq).
  erewrite set_CURRENT_run by exact Hd. done.
Qed.
Lemma add_request_idle major fn r q s : k_blk_dev s !! major = Some (BlkDev fn None) -> k_requests s !! r = Some q -> r_next q = None ->
  (forall b, r_bh q = Some b -> is_Some (k_bufs s !! b)) ->
  add_request major r s = call_request_fn fn
    (set_field k_blk_dev (fun l => <[major := BlkDev fn (Some r)]> l) (set_field k_bufs (clean (r_bh q)) s)).
Proof.
  intros Hd Hq Hn Hb. unfold add_request.
  erewrite bind_Ok by (by apply st_run).
  replace (set_field k_requests _ s) with s.
  2: { destruct s, q. cbn in *. subst. unfold set_field, set_k_requests. cbn. f_equal. symmetry. by apply list_insert_id. }
  erewrite bind_Ok by (by eapply getf_req). erewrite bind_Ok by (by apply clean_run).
  erewrite bind_Ok by (by apply aget_run). cbn [current_request].
  erewrite bind_Ok by (by eapply aset_run). done.
Qed.
Lemma ll_rw_block_starts major rw b h s :
  idle_device major s -> (major < Z.to_nat NR_BLK_DEV)%nat -> k_bufs s !! b = Some h -> MAJOR (b_dev h) = Z.of_nat major -> b_lock h = 0 ->
  (rw = WRITE /\ b_dirt h <> 0 \/ rw = READ /\ b_uptodate h = 0) ->
  exists r, is_Some (k_requests s !! r) /\ ll_rw_block rw b s = call_request_fn (Some major) (started major rw r b h s).
Proof.
  intros [Hdev Hwait Hlen Hfree] Hlt Hh Hm Hl Hrw.
  destruct (make_request_adds major rw b h s Hh Hl Hrw Hlen Hfree) as (r & q & Hq & _ & E).
  exists r. split; [done|]. unfold ll_rw_block. erewrite bind_Ok by (by eapply getf_buf). rewrite Hm, Nat2Z.id.
  rewrite (proj2 (Z.leb_gt NR_BLK_DEV _)) by (unfold NR_BLK_DEV in *; lia).
  erewrite bind_Ok by (by apply aget_run). cbn [request_fn]. rewrite E.
  erewrite add_request_idle; [|exact Hdev|apply list_lookup_insert_eq; by eapply lookup_lt_Some|done|
    intros ? [= <-]; apply lookup_lt_is_Some_2; cbn; rewrite length_insert; by eapply lookup_lt_Some].
  f_equal. unfold started, busy_buffer, set_field, set_k_bufs, set_k_requests, set_k_blk_dev. cbn. f_equal.
  rewrite (alter_at _ _ _ (set_field b_lock (fun _ => 1) h)) by (apply list_lookup_insert_eq; by eapply lookup_lt_Some).
  by rewrite list_insert_insert_eq.
Qed.
Lemma idle_ended major r q b h up s0 s : idle_device major s0 -> is_Some (k_requests s0 !! r) ->
  k_blk_dev s = <[major := BlkDev (Some major) (Some r)]> (k_blk_dev s0) -> k_requests s = <[r := q]> (k_requests s0) ->
  k_wait_for_request s = None -> r_next q = None -> idle_device major (ended major (Some major) r q b h up s).
Proof.
  clear Hpat. intros [Hdev _ Hlen (r0 & q0 & Hr0 & Hq0 & Hd0)] [x Hr] E1 E2 E3 E4. split; cbn; rewrite ?E1, ?E2, ?E4.
  - rewrite list_insert_insert_eq. apply list_lookup_insert_eq. by eapply lookup_lt_Some.
  - done.
  - by rewrite !length_insert.
  - rewrite list_insert_insert_eq. destruct (decide (r0 = r)) as [->|Hne].
    + exists r. eexists. split; [done|]. split; [apply list_lookup_insert_eq; by eapply lookup_lt_Some|]. cbn. lia.
    + exists r0, q0. split_and!; [done|by rewrite list_lookup_insert_ne|done].
Qed.
Lemma INIT_REQUEST_at major fn r q b h s :
  k_blk_dev s !! major = Some (BlkDev fn (Some r)) -> k_requests s !! r = Some q -> MAJOR (r_dev q) = Z.of_nat major ->
  r_bh q = Some b -> k_bufs s !! b = Some h -> b_lock h = 1 -> INIT_REQUEST major s = Ok (Some r) s.
Proof.
  intros Hd Hq Hm Hb Hh Hl. unfold INIT_REQUEST. erewrite bind_Ok by (by eapply CURRENT_run). cbn [current_request].
  erewrite bind_Ok by (by eapply getf_req). rewrite Hm, Z.eqb_refl. cbn [negb].
  erewrite bind_Ok by (by eapply getf_req). rewrite Hb.
  erewrite bind_Ok by (erewrite bind_Ok by (by eapply getf_buf); rewrite Hl; reflexivity). done.
Qed.
Lemma set_request_bytes_at r b q h v s : k_requests s !! r = Some q -> r_buffer q = Some b -> k_bufs s !! b = Some h ->
  0 <= r_boff q -> r_boff q + Z.of_nat (length v) <= Z.of_nat (length (b_data h)) ->
  set_request_bytes r v s = Ok tt (set_field k_bufs (fun l => <[b := set_field b_data (fun d => splice d (r_boff q) v) h]> l) s).
Proof.
  clear Hpat. intros Hq Hb Hh Ho Hv. unfold set_request_bytes. erewrite bind_Ok by (by eapply getf_req). erewrite bind_Ok by (by eapply getf_req).
  rewrite Hb. erewrite bind_Ok by reflexivity. erewrite bind_Ok by (by eapply getf_buf).
  unfold put_bytes. rewrite (proj2 (Z.leb_le 0 _)), (proj2 (Z.leb_le _ _)) by lia. cbn [andb].
  erewrite bind_Ok by reflexivity. by rewrite (st_buf b b_data _ h).
Qed.
Section disk.
Context (r b : nat) (q : request) (h : buffer_head) (n : Z) (s : kernel).
Hypothesis Hd : k_blk_dev s !! MAJOR_RD = Some (BlkDev (Some MAJOR_RD) (Some r)).
Hypothesis Hq : k_requests s !! r = Some q.
Hypothesis Hqd : r_dev q = 0x101.
Hypothesis Hqs : r_sector q = u32 (Z.shiftl n 1).
Hypothesis Hqn : r_nr_sectors q = 2.
Hypothesis Hqb : r_buffer q = Some b.
Hypothesis Hqo : r_boff q = 0.
Hypothesis Hqh : r_bh q = Some b.
Hypothesis Hqw : r_waiting q = None.
Hypothesis Hh : k_bufs s !! b = Some h.
Hypothesis Hl : b_lock h = 1.
Hypothesis Hw : b_wait h = None.
Hypothesis Hdata : length (b_data h) = 1024%nat.
Hypothesis Hwr : k_wait_for_request s = None.
Hypothesis Hrd : Z.of_nat (length (rd_data (k_rd s))) = rd_length (k_rd s).
Hypothesis Hst : 0 <= rd_start (k_rd s) /\ rd_start (k_rd s) + rd_length (k_rd s) < 2 ^ 32.
Hypothesis Hn : 0 <= n < 2 ^ 22.
Hypothesis Hfit : 1024 * (n + 1) <= rd_length (k_rd s).

Lemma rd_address : u32 (rd_start (k_rd s) + u32 (Z.shiftl (r_sector q) 9)) = rd_start (k_rd s) + 1024 * n.
Proof.
  rewrite Hqs, !Z.shiftl_mul_pow2 by lia. rewrite (u32_small (n * 2 ^ 1)) by lia. rewrite (u32_small (n * 2 ^ 1 * 2 ^ 9)) by lia.
  rewrite u32_small by lia. lia.
Qed.
Lemma bytes_whole : bytes_at (b_data h) 0 1024 s = Ok (b_data h) s.
Proof. unfold bytes_at. rewrite Hdata. cbn [Z.leb andb Z.add]. change (Z.to_nat 0) with 0%nat. rewrite drop_0, take_ge by (rewrite Hdata; lia). reflexivity. Qed.
Lemma request_bytes_run : request_bytes r 1024 s = Ok (b_data h) s.
Proof.
  unfold request_bytes. erewrite bind_Ok by (by eapply getf_req). erewrite bind_Ok by (by eapply getf_req).
  rewrite Hqb. erewrite bind_Ok by reflexivity. erewrite bind_Ok by (by eapply getf_buf). rewrite Hqo. apply bytes_whole.
Qed.
Lemma set_request_bytes_run v : length v = 1024%nat ->
  set_request_bytes r v s = Ok tt (set_field k_bufs (fun l => <[b := set_field b_data (fun _ => v) h]> l) s).
Proof.
  intros Hv. erewrite set_request_bytes_at by (eauto; rewrite Hqo, ?Hdata, ?Hv; lia).
  rewrite Hqo. unfold set_field, set_b_data. cbn. by rewrite splice_whole by congruence.
Qed.
Lemma rd_step_run : r_cmd q = WRITE \/ r_cmd q = READ ->
  rd_step tt s = Ok (inl tt)
    (if r_cmd q =? WRITE then
       ended MAJOR_RD (Some MAJOR_RD) r q b h 1 (set_field k_rd (set_field rd_data (fun l => splice l (1024 * n) (b_data h))) s)
     else ended MAJOR_RD (Some MAJOR_RD) r q b (set_field b_data (fun _ => rd_block n s) h) 1
       (set_field k_bufs (fun l => <[b := set_field b_data (fun _ => rd_block n s) h]> l) s)).
Proof.
  intros Hcmd. unfold rd_step. rewrite (bind_Ok _ _ s (Some r) s) by (eapply INIT_REQUEST_at; [exact Hd|exact Hq|by rewrite Hqd|exact Hqh|exact Hh|exact Hl]).
  erewrite bind_Ok by reflexivity. erewrite bind_Ok by reflexivity. erewrite bind_Ok by (by eapply getf_req).
  erewrite bind_Ok by (by eapply getf_req). erewrite bind_Ok by (by eapply getf_req).
  rewrite rd_address, Hqd, Hqn. change (s32 (Z.shiftl 2 9)) with 1024. change (MINOR 257 =? 1) with true. cbn [negb orb].
  rewrite !u32_small by lia. rewrite (proj2 (Z.ltb_ge _ _)) by lia.
  erewrite bind_Ok by (by eapply getf_req). erewrite bind_Ok by reflexivity.
  replace (rd_start (k_rd s) + 1024 * n - rd_start (k_rd s)) with (1024 * n) by lia.
  destruct Hcmd as [E|E]; rewrite E.
  - cbn [Z.eqb WRITE Pos.eqb]. erewrite bind_Ok.
    2: { rewrite (bind_Ok _ _ _ _ _ request_bytes_run). erewrite bind_Ok.
      2: { unfold put_bytes. rewrite (proj2 (Z.leb_le _ _)), (proj2 (Z.leb_le _ _)) by (rewrite ?Hdata; lia). cbn [andb]. reflexivity. }
      reflexivity. }
    erewrite bind_Ok by (by eapply end_request_run). done.
  - cbn [Z.eqb READ WRITE Pos.eqb]. erewrite bind_Ok.
    2: { erewrite bind_Ok.
      2: { unfold bytes_at. rewrite !(proj2 (Z.leb_le _ _)) by lia. cbn [andb]. reflexivity. }
      apply set_request_bytes_run. rewrite length_take, length_drop. lia. }
    erewrite bind_Ok by (eapply (end_request_run MAJOR_RD _ r q b (set_field b_data (fun _ => rd_block n s) h)); try done;
      apply list_lookup_insert_eq; by eapply lookup_lt_Some). done.
Qed.
End disk.

Lemma do_rd_request_run s s' :
  rd_step tt s = Ok (inl tt) s' -> k_blk_dev s' !! MAJOR_RD = Some (BlkDev (Some MAJOR_RD) None) -> do_rd_request s = Ok tt s'.
Proof.
  intros E Hd'. unfold do_rd_request. rewrite loop_S, (bind_Ok _ _ _ _ _ E).
  change NR_REQUEST with (S 31). rewrite loop_S. rewrite (bind_Ok _ _ _ (inr tt) s'); [reflexivity|].
  unfold rd_step. rewrite (bind_Ok _ _ _ None s'); [reflexivity|]. unfold INIT_REQUEST. by erewrite bind_Ok by (by eapply CURRENT_run).
Qed.
Lemma rd_block_splice (l : list Z) n m v : 0 <= n -> 0 <= m -> length v = 1024%nat -> 1024 * (n + 1) <= Z.of_nat (length l) ->
  take 1024 (drop (Z.to_nat (1024 * m)) (splice l (1024 * n) v)) =
  if m =? n then v else take 1024 (drop (Z.to_nat (1024 * m)) l).
Proof.
  intros Hn Hm Hv Hl. destruct (Z.eqb_spec m n) as [->|Hne].
  - rewrite splice_at by lia. by rewrite <- Hv, take_app_length.
  - apply list_eq. intros i. destruct (decide (i < 1024)%nat); [|by rewrite !lookup_take_ge by lia].
    rewrite !lookup_take_lt, !lookup_drop by lia. apply splice_lookup_other; lia.
Qed.

(** One request to the ram disk, served at once. *)
Lemma rd_access rw s b h n : rd_ready s -> k_bufs s !! b = Some h -> for_block h n ->
  (rw = WRITE /\ b_dirt h <> 0 \/ rw = READ /\ b_uptodate h = 0) -> 0 <= n -> 1024 * (n + 1) <= rd_length (k_rd s) ->
  exists s', ll_rw_block rw b s = Ok tt s' /\ rd_ready s' /\ rd_length (k_rd s') = rd_length (k_rd s) /\
    (forall m, 0 <= m -> rd_block m s' = if (rw =? WRITE) && (m =? n) then b_data h else rd_block m s) /\
    k_bufs s' = <[b := done_buffer rw n s h]> (k_bufs s).
Proof.
  intros [Hi Hdata Hstart] Hh (Ed & En & El & Ew & Edata) Hrw Hn Hfit.
  destruct (ll_rw_block_starts MAJOR_RD rw b h s Hi ltac:(unfold MAJOR_RD, NR_BLK_DEV; lia) Hh ltac:(by rewrite Ed) El Hrw) as (r & Hr & E).
  rewrite E. clear E. set (s2 := started MAJOR_RD rw r b h s). change (call_request_fn (Some MAJOR_RD) s2) with (do_rd_request s2).
  assert (Hb := lookup_lt_Some _ _ _ Hh). assert (Hr' := lookup_lt_is_Some_1 _ _ Hr).
  assert (Hh2 : k_bufs s2 !! b = Some (busy_buffer h)) by (by apply list_lookup_insert_eq).
  assert (Hd2 : k_blk_dev s2 !! MAJOR_RD = Some (BlkDev (Some MAJOR_RD) (Some r)))
    by (apply list_lookup_insert_eq; eapply lookup_lt_Some; apply (idle_dev _ _ Hi)).
  assert (Hq2 : k_requests s2 !! r = Some (new_request rw b h)) by (by apply list_lookup_insert_eq).
  assert (Hsec : r_sector (new_request rw b h) = u32 (Z.shiftl n 1)) by (by rewrite <- En).
  assert (Ecmd : rw = WRITE \/ rw = READ) by tauto.
  pose proof (rd_step_run r b (new_request rw b h) (busy_buffer h) n s2 Hd2 Hq2 Ed Hsec eq_refl eq_refl eq_refl eq_refl eq_refl Hh2
    eq_refl Ew Edata (idle_wait _ _ Hi) Hdata Hstart ltac:(lia) Hfit Ecmd) as Estep. cbn [r_cmd new_request] in Estep.
  match type of Estep with _ = Ok _ ?x => set (s3 := x) in Estep; assert (Hidle : idle_device MAJOR_RD s3) end.
  { subst s3. destruct Ecmd as [-> | ->]; (eapply idle_ended; [exact Hi|exact Hr|done|done|apply (idle_wait _ _ Hi)|done]). }
  exists s3. split; [eapply do_rd_request_run; [exact Estep|apply (idle_dev _ _ Hidle)]|]. clear Estep.
  destruct Ecmd as [-> | ->]; subst s3; cbn [Z.eqb WRITE READ Pos.eqb andb] in *; split_and!; try done.
  - split; [exact Hidle| |done]. cbn. rewrite splice_length; lia.
  - intros m Hm. unfold rd_block. cbn. by apply rd_block_splice; [lia|lia|exact Edata|lia].
  - cbn. rewrite list_insert_insert_eq. f_equal. unfold done_buffer. cbn [Z.eqb WRITE Pos.eqb]. destruct h. cbn in *. by subst.
  - cbn. rewrite !list_insert_insert_eq. f_equal. destruct h. cbn in *. by subst.
Qed.
(** C11: the ram disk keeps what is written to it: a dirty buffer written out
    with [ll_rw_block] and then a buffer that is not up to date read from the
    same block.  The second buffer gets the bytes of the first, is up to date
    and unlocked; the other blocks of the disk and the other buffers are
    unchanged, and the driver, its queue and the table of requests are ready
    for the next request.  The way is the whole of it: [make_request], a free
    request, [add_request] on an idle device, [do_rd_request] and
    [end_request]. *)
Theorem ram_disk_roundtrip s b h b' h' n :
  rd_ready s -> b <> b' -> k_bufs s !! b = Some h -> k_bufs s !! b' = Some h' -> for_block h n -> for_block h' n ->
  b_dirt h <> 0 -> b_uptodate h' = 0 -> 0 <= n -> 1024 * (n + 1) <= rd_length (k_rd s) ->
  wp (ll_rw_block WRITE b ;; ll_rw_block READ b') (fun _ s' =>
    rd_ready s' /\ (forall m, 0 <= m -> rd_block m s' = if m =? n then b_data h else rd_block m s) /\
    (exists x, k_bufs s' !! b' = Some x /\ b_data x = b_data h /\ b_uptodate x = 1 /\ b_lock x = 0) /\
    (forall p, p <> b -> p <> b' -> k_bufs s' !! p = k_bufs s !! p)) s.
Proof.
  intros Hs Hne Hh Hh' Hb Hb' Hd Hu Hn Hfit.
  destruct (rd_access WRITE s b h n Hs Hh Hb (or_introl (conj eq_refl Hd)) Hn Hfit) as (s1 & E1 & Hs1 & Hl1 & Hm1 & Hb1).
  eapply wpg_bind_Ok; [exact E1|].
  assert (Hh1 : k_bufs s1 !! b' = Some h') by (by rewrite Hb1, list_lookup_insert_ne).
  destruct (rd_access READ s1 b' h' n Hs1 Hh1 Hb' (or_intror (conj eq_refl Hu)) Hn ltac:(by rewrite Hl1)) as (s2 & E2 & Hs2 & _ & Hm2 & Hb2).
  eapply wpg_Ok; [exact E2|]. split_and!; [exact Hs2| | |].
  - intros m Hm. rewrite Hm2, Hm1 by done. reflexivity.
  - eexists. split; [rewrite Hb2; apply list_lookup_insert_eq; by eapply lookup_lt_Some|].
    cbn. rewrite Hm1 by done. cbn. rewrite Z.eqb_refl. by destruct Hb' as (_ & _ & Hl & _).
  - intros p Hp Hp'. by rewrite Hb2, Hb1, !list_lookup_insert_ne by done.
Qed.
End ram_disk.

(** A small disk and two buffers for its first block, the first one changed. *)
Definition rd_buffer (uptodate dirt c : Z) : buffer_head :=
  BufferHead 0 (replicate 1024 c) 0 0x101 uptodate dirt 1 0 None None None None None.
Definition rd_kernel : kernel :=
  set_field k_bufs (fun _ => [rd_buffer 1 1 7; rd_buffer 0 0 0])
    (set_field k_rd (fun _ => Ramdisk 0x400000 2048 (replicate 2048 0))
       (set_field k_requests (fmap (set_field r_dev (fun _ => -1)))
          (set_field k_blk_dev (fun l => <[1%nat := BlkDev (Some 1%nat) None]> l) (boot_kernel 0 0)))).
Lemma ram_disk_roundtrip_witness :
  wp (ll_rw_block (H := idle_world) WRITE 0 ;; ll_rw_block (H := idle_world) READ 1)
    (fun _ s' => b_data <$> k_bufs s' !! 1%nat = Some (replicate 1024 7)) rd_kernel.
Proof.
  eapply wp_mono.
  - apply (ram_disk_roundtrip (H := idle_world) (Nat.lt_0_succ 1999) rd_kernel 0 (rd_buffer 1 1 7) 1 (rd_buffer 0 0 0) 0);
      [|done|done|done|by split_and!|by split_and!|done|done|done|by vm_compute].
    split; [split; [done|done|done|]|by vm_compute|cbn; lia].
    exists 0%nat. eexists. split_and!; [apply (bool_decide_unpack _); reflexivity|reflexivity|done].
  - intros _ s' (_ & _ & (x & -> & Hx & _) & _). cbn. by rewrite Hx.
Defined.
