(* ===== verification/Buffer.v ===== *)
(** * fs/buffer.c: the buffer cache

    A buffer head is designated by its index from [start_buffer].  All buffers
    are on one circular list ([b_next_free], [b_prev_free], headed by
    [free_list]); the buffers that hold a block are on the chain of their hash
    value ([b_next], [b_prev], headed by [hash_table]).  Writing out dirty
    inodes ([sync_inodes], fs/inode.c) is an operation of the interface
    [SyncInodes], which Inode.v implements on top of this file. *)

From S2P Require Import Prelude Kernel Sched Memory Blk LLRwBlk.

(** What buffer.c needs from inode.c. *)
Class SyncInodes := sync_inodes : M kernel unit.

Definition _hashfn (dev block : Z) : nat := Z.to_nat (u32 (Z.lxor dev block) mod NR_HASH).
Definition hash (dev block : Z) : M kernel (option nat) := aget k_hash_table (_hashfn dev block).
Definition set_hash (dev block : Z) (v : option nat) : M kernel unit :=
  aset k_hash_table (_hashfn dev block) v.

Definition NR_BUFFERS (s : kernel) : nat := length (k_bufs s).
Definition buffer_wait_q : waitq := Waitq (gets k_buffer_wait) (setg k_buffer_wait).

(** [BADNESS(bh)]. *)
Definition BADNESS (b : buffer_head) : Z := Z.shiftl (b_dirt b) 1 + b_lock b.

(** [bh->b_next->b_prev = bh] when [bh->b_next] is NULL: a store through a
    null pointer, which is physical memory (field [b_prev] is at offset 20,
    a buffer head takes 36 bytes). *)
Definition store_null_b_prev (bh : nat) : M kernel unit :=
  modify (fun s => set_field k_mm (set_field words
    (fun w => <[20 := u32 (k_start_buffer s + 36 * Z.of_nat bh)]> w)) s).

Definition remove_from_queues (bh : nat) : M kernel unit :=
  next ← bh->>b_next; prev ← bh->>b_prev;
  (match next with Some n => st n b_prev prev | None => mret tt end) ;;
  (match prev with Some p => st p b_next next | None => mret tt end) ;;
  dev ← bh->>b_dev; nr ← bh->>b_blocknr;
  h ← hash dev nr;
  when (bool_decide (h = Some bh)) (next ← bh->>b_next; set_hash dev nr next) ;;
  pf ← bh->>b_prev_free; nf ← bh->>b_next_free;
  match pf, nf with
  | Some pf, Some nf =>
      st pf b_next_free (Some nf) ;;
      st nf b_prev_free (Some pf) ;;
      fl ← gets k_free_list;
      when (bool_decide (fl = Some bh)) (nf ← bh->>b_next_free; setg k_free_list nf)
  | _, _ => panic "Free block list corrupted"
  end.

Definition insert_into_queues (bh : nat) : M kernel unit :=
  fl ← gets k_free_list;
  st bh b_next_free fl ;;
  f ← deref fl;
  last ← f->>b_prev_free;
  st bh b_prev_free last ;;
  l ← deref last;
  st l b_next_free (Some bh) ;;
  st f b_prev_free (Some bh) ;;
  st bh b_prev None ;;
  st bh b_next None ;;
  dev ← bh->>b_dev;
  if negb (truth dev) then mret tt
  else
    nr ← bh->>b_blocknr;
    h ← hash dev nr;
    st bh b_next h ;;
    set_hash dev nr (Some bh) ;;
    match h with
    | Some n => st n b_prev (Some bh)
    | None => store_null_b_prev bh
    end.

(** One turn of the walk of [find_buffer] along a hash chain. *)
Definition find_step (dev block : Z) (tmp : option nat) : M kernel (option nat + option nat) :=
  match tmp with
  | None => mret (inr None)
  | Some t =>
      d ← t->>b_dev; n ← t->>b_blocknr;
      if (d =? dev) && (n =? u32 block) then mret (inr (Some t))
      else nx ← t->>b_next; mret (inl nx)
  end.
(** A chain has at most every buffer on it. *)
Definition find_buffer (dev block : Z) : M kernel (option nat) :=
  h ← hash dev block;
  n ← gets NR_BUFFERS;
  loop (S (S n)) (find_step dev block) h.

(** [bh->b_data] as an array of unsigned shorts. *)
Definition u16_at (l : list Z) (i : nat) : Z :=
  default 0 (l !! (2 * i)%nat) + 2 ^ 8 * default 0 (l !! (2 * i + 1)%nat).
Definition set_u16 (l : list Z) (i : nat) (v : Z) : list Z :=
  <[(2 * i + 1)%nat := u8 (Z.shiftr v 8)]> (<[(2 * i)%nat := u8 v]> l).

(** The 32-bit words of a list of bytes, and storing them at an address. *)
Fixpoint le_words (l : list Z) : list Z :=
  match l with
  | a :: b :: c :: d :: l' => (a + 2 ^ 8 * b + 2 ^ 16 * c + 2 ^ 24 * d) :: le_words l'
  | _ => []
  end.
Definition store_words (a : Z) (l : list Z) : M kernel unit :=
  modify (set_field k_mm (set_field words (fun w =>
    foldl (fun w '(i, v) => <[a + 4 * Z.of_nat i := v]> w) w (zip (seq 0 (length l)) l)))).

Section with_world.
Context `{World} `{SyncInodes}.

Definition wait_on_buffer (bh : nat) : M kernel unit :=
  while patience (l ← bh->>b_lock; mret (truth l)) (sleep_on (Some (buffer_q bh))).

(** The buffers that hold blocks of [dev] are written out. *)
Definition write_dirty (dev : Z) (bh : nat) : M kernel unit :=
  d ← bh->>b_dev;
  if negb (d =? dev) then mret tt
  else
    wait_on_buffer bh ;;
    d ← bh->>b_dev; dirt ← bh->>b_dirt;
    when ((d =? dev) && truth dirt) (ll_rw_block WRITE bh).

Definition sync_dev (dev : Z) : M kernel Z :=
  n ← gets NR_BUFFERS;
  for_ (seq 0 n) (write_dirty dev) ;;
  sync_inodes ;;
  for_ (seq 0 n) (write_dirty dev) ;;
  mret 0.

Definition sys_sync : M kernel Z :=
  sync_inodes ;;
  n ← gets NR_BUFFERS;
  for_ (seq 0 n) (fun bh =>
    wait_on_buffer bh ;;
    dirt ← bh->>b_dirt;
    when (truth dirt) (ll_rw_block WRITE bh)) ;;
  mret 0.

Definition invalidate_buffers (dev : Z) : M kernel unit :=
  n ← gets NR_BUFFERS;
  for_ (seq 0 n) (fun bh =>
    d ← bh->>b_dev;
    if negb (d =? dev) then mret tt
    else
      wait_on_buffer bh ;;
      d ← bh->>b_dev;
      when (d =? dev) (st bh b_dirt 0 ;; st bh b_uptodate 0)).

Definition get_hash_table (dev block : Z) : M kernel (option nat) :=
  loop patience (fun _ : unit =>
    o ← find_buffer dev block;
    match o with
    | None => mret (inr None)
    | Some bh =>
        upd bh b_count (fun c => u8 (c + 1)) ;;
        wait_on_buffer bh ;;
        d ← bh->>b_dev; n ← bh->>b_blocknr;
        if (d =? dev) && (n =? u32 block) then mret (inr (Some bh))
        else upd bh b_count (fun c => u8 (c - 1)) ;; mret (inl tt)
    end) tt.

(** The search of the free list: [tmp] is the buffer looked at, [bh] the best
    so far. *)
Definition free_scan_step (acc : nat * option nat) : M kernel (nat * option nat + option nat) :=
  let '(tmp, bh) := acc in
  let next bh :=
    nx ← tmp->>b_next_free; fl ← gets k_free_list;
    if bool_decide (nx = fl) then mret (inr bh)
    else t ← deref nx; mret (inl (t, bh)) in
  c ← tmp->>b_count;
  if truth c then next bh
  else
    t ← ld tmp;
    better ← match bh with
             | None => mret true
             | Some b => r ← ld b; mret (BADNESS t <? BADNESS r)
             end;
    if (better : bool) then
      if BADNESS t =? 0 then mret (inr (Some tmp)) else next (Some tmp)
    else next bh.
Definition free_scan : M kernel (option nat) :=
  fl ← gets k_free_list;
  f ← deref fl;
  n ← gets NR_BUFFERS;
  loop (S n) free_scan_step (f, None).

(** [while (bh->b_dirt)] write it out; the result tells whether somebody took
    the buffer meanwhile. *)
Definition clean_buffer (bh : nat) : M kernel bool :=
  loop patience (fun _ : unit =>
    dirt ← bh->>b_dirt;
    if negb (truth dirt) then mret (inr false)
    else
      dev ← bh->>b_dev;
      sync_dev dev ;;
      wait_on_buffer bh ;;
      c ← bh->>b_count;
      mret (if truth c then inr true else inl tt)) tt.

(** The end of [getblk]: the free clean buffer [bh] becomes the block's. *)
Definition take_buffer (bh : nat) (dev block : Z) : M kernel unit :=
  st bh b_count 1 ;;
  st bh b_dirt 0 ;;
  st bh b_uptodate 0 ;;
  remove_from_queues bh ;;
  st bh b_dev (u16 dev) ;;
  st bh b_blocknr (u32 block) ;;
  insert_into_queues bh.

(** One turn of [getblk] from its [repeat] label. *)
Definition getblk_step (dev block : Z) (_ : unit) : M kernel (unit + nat) :=
  o ← get_hash_table dev block;
  match o with
  | Some bh => mret (inr bh)
  | None =>
      o ← free_scan;
      match o with
      | None => sleep_on (Some buffer_wait_q) ;; mret (inl tt)
      | Some bh =>
          wait_on_buffer bh ;;
          c ← bh->>b_count;
          if truth c then mret (inl tt)
          else
            taken ← clean_buffer bh;
            if (taken : bool) then mret (inl tt)
            else
              o ← find_buffer dev block;
              match o with
              | Some _ => mret (inl tt)
              | None => take_buffer bh dev block ;; mret (inr bh)
              end
      end
  end.
Definition getblk (dev block : Z) : M kernel nat := loop patience (getblk_step dev block) tt.

Definition brelse (buf : option nat) : M kernel unit :=
  match buf with
  | None => mret tt
  | Some bh =>
      wait_on_buffer bh ;;
      c ← bh->>b_count;
      st bh b_count (u8 (c - 1)) ;;
      if negb (truth c) then panic "Trying to free free buffer"
      else wake_up (Some buffer_wait_q)
  end.

(** [getblk] never returns NULL, so its callers' checks never fire. *)
Definition bread (dev block : Z) : M kernel (option nat) :=
  bh ← getblk dev block;
  u ← bh->>b_uptodate;
  if truth u then mret (Some bh)
  else
    ll_rw_block READ bh ;;
    wait_on_buffer bh ;;
    u ← bh->>b_uptodate;
    if truth u then mret (Some bh)
    else brelse (Some bh) ;; mret None.

Definition bread_page (address dev : Z) (b : list Z) : M kernel unit :=
  bhs ← (fix read (b : list Z) : M kernel (list (option nat)) :=
    match b with
    | [] => mret []
    | n :: b' =>
        o ← (if truth n then
               bh ← getblk dev n;
               u ← bh->>b_uptodate;
               when (negb (truth u)) (ll_rw_block READ bh) ;;
               mret (Some bh)
             else mret None);
        r ← read b'; mret (o :: r)
    end) b;
  for_ (zip (seq 0 (length bhs)) bhs) (fun '(i, o) =>
    match o with
    | None => mret tt
    | Some bh =>
        wait_on_buffer bh ;;
        u ← bh->>b_uptodate;
        when (truth u) (d ← bh->>b_data; store_words (address + BLOCK_SIZE * Z.of_nat i) (le_words d)) ;;
        brelse (Some bh)
    end).

(** The variable arguments of [breada], which end with a negative number. *)
Fixpoint va_args (l : list Z) : list Z :=
  match l with
  | n :: l' => if 0 <=? n then n :: va_args l' else []
  | [] => []
  end.

(** The read-ahead request is made for [bh], not for [tmp], as in the source. *)
Definition breada (dev first : Z) (rest : list Z) : M kernel (option nat) :=
  bh ← getblk dev first;
  u ← bh->>b_uptodate;
  when (negb (truth u)) (ll_rw_block READ bh) ;;
  for_ (va_args rest) (fun n =>
    tmp ← getblk dev n;
    u ← tmp->>b_uptodate;
    when (negb (truth u)) (ll_rw_block READA bh) ;;
    upd tmp b_count (fun c => u8 (c - 1))) ;;
  wait_on_buffer bh ;;
  u ← bh->>b_uptodate;
  if truth u then mret (Some bh)
  else brelse (Some bh) ;; mret None.
End with_world.

(** ** buffer_init *)

(** The addresses of the data blocks, from the end of the buffer memory down,
    as long as they do not meet the buffer heads growing up from [start];
    the video memory and BIOS between 640K and 1MB is left out. *)
Fixpoint buffer_blocks (fuel : nat) (start b n : Z) : list Z :=
  match fuel with
  | O => []
  | S fuel' =>
      let b := b - BLOCK_SIZE in
      if b <? start + 36 * (n + 1) then []
      else b :: buffer_blocks fuel' start (if b =? 0x100000 then 0xA0000 else b) (n + 1)
  end.

(** The contents of a fresh block are not used before it is read or cleared. *)
Definition fresh_buffer (total : nat) (i : nat) (addr : Z) : buffer_head :=
  BufferHead addr (replicate 1024 0) 0 0 0 0 0 0 None None None
    (Some (if (i =? 0)%nat then total - 1 else i - 1)%nat)
    (Some (if (i =? total - 1)%nat then 0 else i + 1)%nat).

Definition buffer_init (buffer_end : Z) : M kernel unit :=
  let b := if buffer_end =? 2 ^ 20 then 640 * 1024 else buffer_end in
  start ← gets k_start_buffer;
  let blocks := buffer_blocks (S (Z.to_nat (buffer_end / BLOCK_SIZE))) start b 0 in
  if (length blocks =? 0)%nat then fault
  else
    setg k_bufs (zip_with (fresh_buffer (length blocks)) (seq 0 (length blocks)) blocks) ;;
    setg k_free_list (Some 0%nat) ;;
    setg k_hash_table (replicate (Z.to_nat NR_HASH) None).
