(* ===== verification/BufferCache.v ===== *)
(** * The buffer cache: its lists and what they are for

    The two structures fs/buffer.c keeps through the pointers of the buffer
    heads: the circular list of all buffers, in the order of their last
    release to the cache, and the chains of the hash table.  [cache_rep None L
    H s] says that the pointers of [s] represent the list [L] and the chains
    [H]; the theorems show that the operations of buffer.c act on [L] and [H]
    as they should. *)

From S2P Require Import Prelude Kernel Sched Memory Blk LLRwBlk Buffer.

(** ** Doubly linked lists threaded through an array *)

Definition hd_or (n : option nat) (l : list nat) : option nat :=
  match l with [] => n | b :: _ => Some b end.
Fixpoint last_or (p : option nat) (l : list nat) : option nat :=
  match l with [] => p | b :: l' => last_or (Some b) l' end.
(** [seg P N p l n]: the elements of [l] are linked by [P] to the element
    before ([p] before the first), by [N] to the element after ([n] after the
    last). *)
Fixpoint seg (P N : list (option nat)) (p : option nat) (l : list nat) (n : option nat) : Prop :=
  match l with
  | [] => True
  | b :: l' => P !! b = Some p /\ N !! b = Some (hd_or n l') /\ seg P N (Some b) l' n
  end.
Definition circ (P N : list (option nat)) (l : list nat) : Prop :=
  seg P N (last_or None l) l (hd_or None l).
(** Store where a pointer leads, if anywhere. *)
Definition link (o v : option nat) (l : list (option nat)) : list (option nat) :=
  match o with Some i => <[i := v]> l | None => l end.

Lemma hd_or_app n l1 l2 : hd_or n (l1 ++ l2) = hd_or (hd_or n l2) l1.
Proof. by destruct l1. Qed.
Lemma last_or_app p l1 l2 : last_or p (l1 ++ l2) = last_or (last_or p l1) l2.
Proof. revert p. induction l1 as [|b l1 IH]; intros p; [done|apply IH]. Qed.
Lemma hd_or_head l : hd_or None l = head l.
Proof. by destruct l. Qed.
Lemma last_or_snoc p l b : last_or p (l ++ [b]) = Some b.
Proof. by rewrite last_or_app. Qed.

Section seg.
Implicit Types P N : list (option nat).

Lemma seg_app P N p l1 l2 n :
  seg P N p (l1 ++ l2) n <-> seg P N p l1 (hd_or n l2) /\ seg P N (last_or p l1) l2 n.
Proof.
  revert p. induction l1 as [|b l1 IH]; intros p; [cbn; tauto|].
  cbn [app seg last_or]. rewrite IH, hd_or_app. tauto.
Qed.
Lemma seg_frame P N P' N' p l n : (forall b, b ∈ l -> P' !! b = P !! b /\ N' !! b = N !! b) ->
  seg P N p l n -> seg P' N' p l n.
Proof.
  revert p. induction l as [|b l IH]; intros p Hf; [done|]. intros (H1 & H2 & H3).
  cbn [seg]. destruct (Hf b ltac:(set_solver)) as [-> ->]. split_and!; [done..|]. apply IH; [|done].
  intros; apply Hf; set_solver.
Qed.
Lemma link_ne o v l i : o <> Some i -> link o v l !! i = l !! i.
Proof. destruct o; [intros; cbn; by rewrite list_lookup_insert_ne by congruence|done]. Qed.
Lemma link_length o v l : length (link o v l) = length l.
Proof. destruct o; [apply length_insert|done]. Qed.
(** What is before the first element, or after the last one, changes. *)
Lemma seg_set_prev P N p p' l n : NoDup l -> seg P N p l n -> seg (link (hd_or None l) p' P) N p' l n.
Proof.
  destruct l as [|b l]; [done|]. intros [Hb _]%NoDup_cons (H1 & H2 & H3). split_and!; [|done|].
  - apply list_lookup_insert_eq. by eapply lookup_lt_Some.
  - eapply seg_frame; [|exact H3]. intros c Hc. split; [|done]. apply link_ne. cbn. set_solver.
Qed.
Lemma seg_set_next P N p l n n' : NoDup l -> seg P N p l n -> seg P (link (last_or None l) n' N) p l n'.
Proof.
  destruct l as [|b l _] using rev_ind; [done|]. rewrite last_or_snoc.
  intros (_ & Hb & _)%NoDup_app [H1 (H2 & H3 & _)]%seg_app. apply seg_app. split.
  - eapply seg_frame; [|exact H1]. intros c Hc. split; [done|]. apply link_ne.
    intros [= ->]. eapply Hb; [done|]. set_solver.
  - split_and!; [done| |done]. apply list_lookup_insert_eq. by eapply lookup_lt_Some.
Qed.
(** Where a circular list starts does not matter. *)
Lemma circ_rotate P N l1 l2 : circ P N (l1 ++ l2) -> circ P N (l2 ++ l1).
Proof.
  destruct l1 as [|a l1]; [by rewrite app_nil_r|]. destruct l2 as [|b l2]; [by rewrite app_nil_r|].
  unfold circ. rewrite !last_or_app. intros [H1 H2]%seg_app. by apply seg_app.
Qed.
(** The neighbours of an element of a circular list, and the list without it. *)
Lemma circ_unlink P N l1 b l2 : NoDup (l1 ++ b :: l2) -> l1 ++ l2 <> [] -> circ P N (l1 ++ b :: l2) ->
  exists p n, p ∈ l1 ++ l2 /\ n ∈ l1 ++ l2 /\ P !! b = Some (Some p) /\ N !! b = Some (Some n) /\
    circ (<[n := Some p]> P) (<[p := Some n]> N) (l1 ++ l2) /\ (l1 = [] -> hd_or None l2 = Some n).
Proof.
  intros Hnd Hne (H1 & H2 & H3)%circ_rotate. cbn [app] in *.
  assert (HR : Permutation (l2 ++ l1) (l1 ++ l2)) by apply Permutation_app_comm.
  assert (NoDup (l2 ++ l1)) as HndR.
  { rewrite HR. apply NoDup_app in Hnd as (? & Hd & [_ ?]%NoDup_cons).
    apply NoDup_app. split_and!; [done| |done]. intros x Hx ?. apply (Hd x Hx). set_solver. }
  assert (l2 ++ l1 <> []) as HneR. { intros E. rewrite E in HR. by apply Permutation_nil_l in HR. }
  assert (exists n, hd_or None (l2 ++ l1) = Some n /\ n ∈ l2 ++ l1) as (n & En & Hn).
  { destruct (l2 ++ l1) as [|n R]; [done|]. exists n. split; [done|set_solver]. }
  assert (exists p, last_or None (l2 ++ l1) = Some p /\ p ∈ l2 ++ l1) as (p & Ep & Hp).
  { destruct (l2 ++ l1) as [|p R _] using rev_ind; [done|]. exists p. split; [apply last_or_snoc|set_solver]. }
  assert (Hl : forall o, last_or o (l2 ++ l1) = Some p).
  { intros o. destruct (l2 ++ l1) as [|q R _] using rev_ind; [done|]. by rewrite last_or_snoc in *. }
  assert (Hh : forall o, hd_or o (l2 ++ l1) = Some n). { intros o. by destruct (l2 ++ l1). }
  exists p, n. split_and!; [by rewrite <-HR..| | | |].
  - rewrite H1. cbn. by rewrite Hl.
  - rewrite H2. by rewrite Hh.
  - apply circ_rotate. unfold circ. rewrite Ep, En.
    apply (seg_set_prev _ _ (Some b) (Some p)) in H3; [|done]. rewrite En in H3.
    apply (seg_set_next _ _ _ _ _ (Some n)) in H3; [|done]. by rewrite Ep in H3.
  - intros ->. by rewrite app_nil_r in En.
Qed.
(** Linking [b] in before the head [f]. *)
Lemma circ_append P N f l b p : NoDup (f :: l) -> b ∉ f :: l -> (b < length P)%nat -> (b < length N)%nat ->
  P !! f = Some (Some p) -> circ P N (f :: l) -> p ∈ f :: l /\
  circ (<[f := Some b]> (<[b := Some p]> P)) (<[p := Some b]> (<[b := Some f]> N)) (f :: l ++ [b]).
Proof.
  intros Hnd Hb HlP HlN Hp Hc. assert (last_or None (f :: l) = Some p) as Ep.
  { destruct Hc as [Hf _]. congruence. }
  assert (p ∈ f :: l) as Hpl.
  { revert Ep. destruct (f :: l) as [|q R _] using rev_ind; [done|]. rewrite last_or_snoc. set_solver. }
  split; [done|]. unfold circ in *. rewrite Ep in Hc.
  change (f :: l ++ [b]) with ((f :: l) ++ [b]). rewrite last_or_snoc. apply seg_app. split.
  - apply (seg_frame _ _ (<[b := Some p]> P) (<[b := Some f]> N)) in Hc.
    2:{ intros c Hx. by rewrite !list_lookup_insert_ne by set_solver. }
    apply (seg_set_prev _ _ _ (Some b)) in Hc; [|done].
    apply (seg_set_next _ _ _ _ _ (Some b)) in Hc; [|done]. by rewrite Ep in Hc.
  - assert (b <> f /\ b <> p) as [? ?] by set_solver. split_and!; [| |done].
    + rewrite list_lookup_insert_ne, list_lookup_insert_eq by done.
      cbn [last_or]. by replace (last_or (Some f) l) with (Some p).
    + by rewrite list_lookup_insert_ne, list_lookup_insert_eq by done.
Qed.
(** Taking [b] out of a list that ends with NULL on both sides. *)
Lemma seg_unlink P N l1 b l2 : NoDup (l1 ++ b :: l2) -> seg P N None (l1 ++ b :: l2) None ->
  P !! b = Some (last_or None l1) /\ N !! b = Some (hd_or None l2) /\
  seg (link (hd_or None l2) (last_or None l1) P) (link (last_or None l1) (hd_or None l2) N)
    None (l1 ++ l2) None.
Proof.
  intros (Hn1 & Hd & [Hb Hn2]%NoDup_cons)%NoDup_app [H1 (H2 & H3 & H4)]%seg_app.
  split_and!; [done..|]. apply seg_app. split.
  - apply (seg_set_next _ _ _ _ _ (hd_or None l2)) in H1; [|done].
    eapply seg_frame; [|exact H1]. intros c Hc. split; [|done]. apply link_ne.
    destruct l2; cbn; [done|]. intros [= ->]. eapply Hd; [done|]. set_solver.
  - apply (seg_set_prev _ _ _ (last_or None l1)) in H4; [|done].
    eapply seg_frame; [|exact H4]. intros c Hc. split; [done|]. apply link_ne.
    destruct l1 as [|a l1 _] using rev_ind; [done|]. rewrite last_or_snoc. intros [= ->].
    eapply (Hd c); [set_solver|]. set_solver.
Qed.
End seg.

(** ** The pointers of a state *)

(** A buffer head without its pointers to other buffer heads. *)
Definition core (b : buffer_head) : buffer_head :=
  BufferHead (b_addr b) (b_data b) (b_blocknr b) (b_dev b) (b_uptodate b) (b_dirt b) (b_count b)
    (b_lock b) (b_wait b) None None None None.

Record links := Links {
  l_prev : list (option nat);
  l_next : list (option nat);
  l_prev_free : list (option nat);
  l_next_free : list (option nat);
  l_core : list buffer_head;
  l_table : list (option nat);
  l_root : option nat }.
Definition links_of (s : kernel) : links :=
  Links (b_prev <$> k_bufs s) (b_next <$> k_bufs s) (b_prev_free <$> k_bufs s) (b_next_free <$> k_bufs s)
    (core <$> k_bufs s) (k_hash_table s) (k_free_list s).

(** Symbolic execution of the stores and reads of pointers. *)
Section link_rules.
Variables (P N PF NF : list (option nat)) (C : list buffer_head) (T : list (option nat)) (r : option nat).
Variables (s : kernel) (b : nat).
Hypothesis V : links_of s = Links P N PF NF C T r.

Lemma links_bufs : length C = length (k_bufs s).
Proof. pose proof (f_equal l_core V) as E. cbn in E. by rewrite <-E, length_fmap. Qed.

Lemma buf_store {A} (f : buffer_head -> A) `{!Setter f} v (Q : unit -> kernel -> Prop) : (b < length C)%nat ->
  (forall h s', k_bufs s !! b = Some h -> k_bufs s' = <[b := set_field f (fun _ => v) h]> (k_bufs s) ->
    k_hash_table s' = k_hash_table s -> k_free_list s' = k_free_list s -> Q tt s') ->
  wp (st b f v) Q s.
Proof.
  intros Hb HQ. rewrite links_bufs in Hb. apply lookup_lt_is_Some in Hb as [h Hh].
  eapply wpg_updr; [exact Hh|]. by eapply HQ.
Qed.
(** Insertion into the list of the values of a field. *)
Lemma insert_same {A} (f : buffer_head -> A) (g : buffer_head -> buffer_head) h (l : list buffer_head) :
  (forall x, f (g x) = f x) -> l !! b = Some h -> f <$> <[b := g h]> l = f <$> l.
Proof. intros Hf Hh. rewrite list_fmap_insert, Hf. apply list_insert_id. by rewrite list_lookup_fmap, Hh. Qed.

Ltac store := let h := fresh in let s' := fresh in intros Hb HQ; apply buf_store; [done|];
  intros h s' Hh Eb Et Er; apply HQ; unfold links_of; rewrite Eb, Et, Er;
  injection V as <- <- <- <- <- <- <-;
  f_equal; first [by rewrite list_fmap_insert | by apply insert_same].
Lemma st_b_prev v (Q : unit -> kernel -> Prop) : (b < length C)%nat ->
  (forall s', links_of s' = Links (<[b := v]> P) N PF NF C T r -> Q tt s') -> wp (st b b_prev v) Q s.
Proof. store. Qed.
Lemma st_b_next v (Q : unit -> kernel -> Prop) : (b < length C)%nat ->
  (forall s', links_of s' = Links P (<[b := v]> N) PF NF C T r -> Q tt s') -> wp (st b b_next v) Q s.
Proof. store. Qed.
Lemma st_b_prev_free v (Q : unit -> kernel -> Prop) : (b < length C)%nat ->
  (forall s', links_of s' = Links P N (<[b := v]> PF) NF C T r -> Q tt s') -> wp (st b b_prev_free v) Q s.
Proof. store. Qed.
Lemma st_b_next_free v (Q : unit -> kernel -> Prop) : (b < length C)%nat ->
  (forall s', links_of s' = Links P N PF (<[b := v]> NF) C T r -> Q tt s') -> wp (st b b_next_free v) Q s.
Proof. store. Qed.
Lemma st_b_core {A} (f : buffer_head -> A) `{!Setter f} v c (Q : unit -> kernel -> Prop) :
  (forall x, core (set_field f (fun _ => v) x) = set_field f (fun _ => v) (core x)) ->
  (forall x, b_prev (set_field f (fun _ => v) x) = b_prev x) ->
  (forall x, b_next (set_field f (fun _ => v) x) = b_next x) ->
  (forall x, b_prev_free (set_field f (fun _ => v) x) = b_prev_free x) ->
  (forall x, b_next_free (set_field f (fun _ => v) x) = b_next_free x) ->
  C !! b = Some c ->
  (forall s', links_of s' = Links P N PF NF (<[b := set_field f (fun _ => v) c]> C) T r -> Q tt s') ->
  wp (st b f v) Q s.
Proof.
  intros Hc E1 E2 E3 E4 Hl HQ. apply buf_store; [by eapply lookup_lt_Some|].
  intros h s' Hh Eb Et Er. apply HQ. unfold links_of. rewrite Eb, Et, Er.
  injection V as <- <- <- <- EC <- <-.
  assert (c = core h) as ->. { rewrite <-EC, list_lookup_fmap, Hh in Hl. by injection Hl. }
  f_equal; try by apply insert_same. by rewrite list_fmap_insert, Hc, <-EC.
Qed.
Lemma get_table i v (Q : option nat -> kernel -> Prop) : T !! i = Some v -> Q v s -> wp (aget k_hash_table i) Q s.
Proof.
  intros Hi HQ. unfold wp, wpg, aget. pose proof (f_equal l_table V) as E. cbn in E. by rewrite E, Hi.
Qed.
Lemma set_table i v (Q : unit -> kernel -> Prop) : (i < length T)%nat ->
  (forall s', links_of s' = Links P N PF NF C (<[i := v]> T) r -> Q tt s') -> wp (aset k_hash_table i v) Q s.
Proof.
  intros Hi HQ. unfold wp, wpg, aset. pose proof (f_equal l_table V) as E. cbn in E. rewrite E.
  apply lookup_lt_is_Some in Hi as [w ->]. apply HQ. injection V as <- <- <- <- <- <- <-. reflexivity.
Qed.
Lemma set_root v (Q : unit -> kernel -> Prop) :
  (forall s', links_of s' = Links P N PF NF C T v -> Q tt s') -> wp (setg k_free_list v) Q s.
Proof. intros HQ. apply wpg_modify, HQ. injection V as <- <- <- <- <- <- <-. reflexivity. Qed.
Lemma get_root (Q : option nat -> kernel -> Prop) : Q r s -> wp (gets k_free_list) Q s.
Proof. intros HQ. apply wpg_gets. pose proof (f_equal l_root V) as E. cbn in E. by rewrite E. Qed.
Lemma get_link {A} (f : buffer_head -> A) (l : list A) v (Q : A -> kernel -> Prop) : f <$> k_bufs s = l ->
  l !! b = Some v -> Q v s -> wp (b->>f) Q s.
Proof.
  intros <- Hl HQ. rewrite list_lookup_fmap in Hl. apply fmap_Some in Hl as (h & Hh & ->).
  by eapply wpg_getf.
Qed.
Lemma get_core {A} (f : buffer_head -> A) c (Q : A -> kernel -> Prop) : (forall x, f (core x) = f x) ->
  C !! b = Some c -> Q (f c) s -> wp (b->>f) Q s.
Proof.
  intros Hf Hl HQ. injection V as _ _ _ _ <- _ _. rewrite list_lookup_fmap in Hl.
  apply fmap_Some in Hl as (h & Hh & ->). rewrite Hf in HQ. by eapply wpg_getf.
Qed.
End link_rules.

(** ** What the pointers represent *)

Definition without (b : nat) (l : list nat) : list nat := filter (fun x => x <> b) l.

(** The list of all the buffers ([out] excepted) from [free_list]. *)
Record free_rep (out : option nat) (L : list nat) (k : links) : Prop := {
  fr_nodup : NoDup L;
  fr_all : forall b, b ∈ L <-> (b < length (l_core k))%nat /\ out <> Some b;
  fr_root : l_root k = head L;
  fr_circ : circ (l_prev_free k) (l_next_free k) L;
  fr_length : length (l_prev_free k) = length (l_core k) /\ length (l_next_free k) = length (l_core k) }.

(** The chains of the hash table: each holds the buffers ([out] excepted)
    whose block has its hash value. *)
Record hash_rep (out : option nat) (H : list (list nat)) (k : links) : Prop := {
  hr_size : length H = Z.to_nat NR_HASH;
  hr_table : l_table k = head <$> H;
  hr_nodup : forall h l, H !! h = Some l -> NoDup l;
  hr_seg : forall h l, H !! h = Some l -> seg (l_prev k) (l_next k) None l None;
  hr_in : forall h l b, H !! h = Some l -> b ∈ l <-> out <> Some b /\
    exists c, l_core k !! b = Some c /\ b_dev c <> 0 /\ _hashfn (b_dev c) (b_blocknr c) = h;
  hr_unused : forall b c, l_core k !! b = Some c -> b_dev c = 0 -> out <> Some b ->
    l_prev k !! b = Some None /\ l_next k !! b = Some None;
  hr_length : length (l_prev k) = length (l_core k) /\ length (l_next k) = length (l_core k) }.

Lemma hashfn_lt dev nr : (_hashfn dev nr < Z.to_nat NR_HASH)%nat.
Proof.
  unfold _hashfn. change NR_HASH with 307.
  pose proof (Z.mod_pos_bound (u32 (Z.lxor dev nr)) 307 eq_refl). lia.
Qed.
Lemma hash_chain out H k dev nr : hash_rep out H k -> exists l, H !! _hashfn dev nr = Some l.
Proof. intros R. apply lookup_lt_is_Some. rewrite (hr_size _ _ _ R). apply hashfn_lt. Qed.
Lemma without_absent b l : b ∉ l -> without b l = l.
Proof.
  induction l as [|x l IH]; [done|]. intros Hb. unfold without in *.
  rewrite (filter_cons_True (fun x => x <> b)) by (intros ->; set_solver). f_equal. apply IH. set_solver.
Qed.
Lemma without_app b l1 l2 : without b (l1 ++ l2) = without b l1 ++ without b l2.
Proof. apply filter_app. Qed.
Lemma without_mid l1 b l2 : NoDup (l1 ++ b :: l2) -> without b (l1 ++ b :: l2) = l1 ++ l2.
Proof.
  intros (_ & Hd & [Hb _]%NoDup_cons)%NoDup_app. rewrite without_app. f_equal.
  - apply without_absent. intros Hx. apply (Hd _ Hx). set_solver.
  - unfold without. rewrite (filter_cons_False (fun x => x <> b)) by tauto. by apply without_absent.
Qed.
Lemma elem_of_without b l x : x ∈ without b l <-> x <> b /\ x ∈ l.
Proof. unfold without. by rewrite list_elem_of_filter. Qed.
Lemma NoDup_without b l : NoDup l -> NoDup (without b l).
Proof. apply NoDup_filter. Qed.

Lemma free_length out L k : free_rep out L k -> forall b, b ∈ L -> (b < length (l_core k))%nat.
Proof. intros R b [Hb _]%(fr_all _ _ _ R). done. Qed.
(** The part of [remove_from_queues] on the free list. *)
Lemma free_unlink L k b : free_rep None L k -> b ∈ L -> (1 < length L)%nat ->
  exists p n, b <> p /\ (p < length (l_core k))%nat /\ (n < length (l_core k))%nat /\
    l_prev_free k !! b = Some (Some p) /\ l_next_free k !! b = Some (Some n) /\
    forall k', l_core k' = l_core k -> l_prev_free k' = <[n := Some p]> (l_prev_free k) ->
      l_next_free k' = <[p := Some n]> (l_next_free k) ->
      l_root k' = (if bool_decide (l_root k = Some b) then Some n else l_root k) ->
      free_rep (Some b) (without b L) k'.
Proof.
  intros R Hb Hlen. pose proof (fr_nodup _ _ _ R) as Hnd. pose proof (fr_circ _ _ _ R) as Hc.
  pose proof (fr_root _ _ _ R) as Hr. pose proof (free_length _ _ _ R) as Hlt.
  assert (Hall := fr_all _ _ _ R). destruct (fr_length _ _ _ R) as [Hl1 Hl2].
  assert (HndW := NoDup_without b L Hnd).
  apply list_elem_of_split in Hb as (l1 & l2 & ->). rewrite without_mid in * by done.
  destruct (circ_unlink _ _ _ _ _ Hnd ltac:(intros E; apply (f_equal length) in E;
    rewrite length_app in *; cbn in *; lia) Hc) as (p & n & Hp & Hn & Ep & En & Hc' & Hh).
  assert (b ∉ l1 ++ l2) as Hb. { rewrite <-(without_mid _ _ _ Hnd), elem_of_without. tauto. }
  exists p, n. split_and!; [set_solver| apply Hlt; set_solver|apply Hlt; set_solver|done|done|].
  intros k' EC EP EN Er. split; rewrite ?EC, ?EP, ?EN, ?length_insert; try done.
  - intros x. transitivity (x ∈ l1 ++ b :: l2 /\ x <> b); [|rewrite Hall; naive_solver].
    split; [|set_solver]. intros Hx. split; [set_solver|]. intros ->. done.
  - rewrite Er, Hr. destruct l1 as [|a l1]; cbn [app head].
    + rewrite bool_decide_eq_true_2 by done. by rewrite <-hd_or_head, Hh.
    + rewrite bool_decide_eq_false_2; [done|]. intros [= ->]. set_solver.
Qed.
(** The part of [insert_into_queues] on the free list. *)
Lemma free_link L k b : free_rep (Some b) L k -> L <> [] -> (b < length (l_core k))%nat ->
  exists f p, l_root k = Some f /\ f <> b /\ p <> b /\ (f < length (l_core k))%nat /\ (p < length (l_core k))%nat /\
    l_prev_free k !! f = Some (Some p) /\
    forall k', l_core k' = l_core k -> l_prev_free k' = <[f := Some b]> (<[b := Some p]> (l_prev_free k)) ->
      l_next_free k' = <[p := Some b]> (<[b := Some f]> (l_next_free k)) -> l_root k' = l_root k ->
      free_rep None (L ++ [b]) k'.
Proof.
  intros R Hne Hb. pose proof (fr_nodup _ _ _ R) as Hnd. pose proof (fr_circ _ _ _ R) as Hc.
  pose proof (fr_root _ _ _ R) as Hr. pose proof (free_length _ _ _ R) as Hlt.
  assert (Hall := fr_all _ _ _ R). destruct (fr_length _ _ _ R) as [Hl1 Hl2].
  assert (b ∉ L) as HbL by (rewrite Hall; tauto). destruct L as [|f L]; [done|].
  assert (exists p, last_or None (f :: L) = Some p) as [p Ep].
  { destruct (f :: L) as [|q L' _] using rev_ind; [done|]. exists q. apply last_or_snoc. }
  assert (l_prev_free k !! f = Some (Some p)) as Hp. { destruct Hc as [E _]. congruence. }
  destruct (circ_append (l_prev_free k) (l_next_free k) _ _ b p Hnd HbL ltac:(lia) ltac:(lia) Hp Hc) as [HpL Hc'].
  exists f, p. split_and!; [done|set_solver|set_solver|apply Hlt; set_solver|by apply Hlt|done|].
  intros k' EC EP EN Er. split; rewrite ?EC, ?EP, ?EN, ?length_insert; try done.
  - apply NoDup_app. split_and!; [done|set_solver|apply NoDup_singleton].
  - intros x. rewrite elem_of_app, Hall, list_elem_of_singleton. destruct (decide (x = b)); naive_solver.
  - by rewrite Er, Hr.
Qed.


(** The chains other than its own do not hold a buffer. *)
Lemma other_chain out H k h l b c : hash_rep out H k -> H !! h = Some l -> l_core k !! b = Some c ->
  h <> _hashfn (b_dev c) (b_blocknr c) -> b ∉ l.
Proof. intros R Hl Hc Hne Hb. apply (hr_in _ _ _ R h l b Hl) in Hb as (_ & c' & E & _ & <-). congruence. Qed.
Lemma unhashed_chain out H k h l b c : hash_rep out H k -> H !! h = Some l -> l_core k !! b = Some c ->
  b_dev c = 0 \/ out = Some b -> b ∉ l.
Proof. intros R Hl Hc Hd Hb. apply (hr_in _ _ _ R h l b Hl) in Hb as (? & c' & E & ? & _). destruct Hd; congruence. Qed.
(** The membership facts after [b] has left its chain. *)
Lemma hash_in_without H k k' b : hash_rep None H k -> l_core k' = l_core k ->
  forall h l x, (without b <$> H) !! h = Some l -> (x ∈ l) <-> Some b <> Some x /\
    exists c, l_core k' !! x = Some c /\ b_dev c <> 0 /\ _hashfn (b_dev c) (b_blocknr c) = h.
Proof.
  intros R EC h l x Hl. rewrite list_lookup_fmap in Hl. apply fmap_Some in Hl as (l0 & Hl0 & ->).
  rewrite elem_of_without, EC, (hr_in _ _ _ R h l0 x Hl0). naive_solver.
Qed.
Lemma seg_link_other P N l l1 l2 u v u' v' : seg P N None l None ->
  (forall x, x ∈ l -> (x ∉ l1) /\ (x ∉ l2)) -> u = hd_or None l2 -> v = last_or None l1 ->
  seg (link u u' P) (link v v' N) None l None.
Proof.
  intros Hs Hd -> ->. eapply seg_frame; [|exact Hs]. intros x [H1 H2]%Hd. split; apply link_ne.
  - destruct l2; cbn; [done|]. intros [= ->]. set_solver.
  - destruct l1 as [|a l1 _] using rev_ind; [done|]. rewrite last_or_snoc. intros [= ->]. set_solver.
Qed.
(** A buffer that holds no block is in no chain. *)
Lemma hash_unlink_unused H k k' b c : hash_rep None H k -> l_core k !! b = Some c -> b_dev c = 0 ->
  l_core k' = l_core k -> l_prev k' = l_prev k -> l_next k' = l_next k -> l_table k' = l_table k ->
  hash_rep (Some b) (without b <$> H) k'.
Proof.
  intros R Hc Hd EC EP EN ET. assert (Hin := hash_in_without H k k' b R EC).
  assert (without b <$> H = H) as EH.
  { apply list_eq. intros i. rewrite list_lookup_fmap. destruct (H !! i) as [m|] eqn:E; [|done]. cbn.
    f_equal. apply without_absent. eapply unhashed_chain; eauto. }
  split; rewrite ?EP, ?EN, ?ET; first [done | rewrite EH; apply R | rewrite EC; apply R | idtac].
  intros x cx Hx Hdx _. rewrite EC in Hx. by eapply (hr_unused _ _ _ R).
Qed.
Lemma last_or_In l i : last_or None l = Some i -> i ∈ l.
Proof. destruct l as [|a l _] using rev_ind; [done|]. rewrite last_or_snoc. set_solver. Qed.
Lemma hd_or_In l i : hd_or None l = Some i -> i ∈ l.
Proof. destruct l; cbn; [done|]. set_solver. Qed.
(** A buffer in the middle of its chain. *)
Lemma hash_unlink_chain H k k' b c l1 l2 : hash_rep None H k -> l_core k !! b = Some c ->
  let h := _hashfn (b_dev c) (b_blocknr c) in let pv := last_or None l1 in let nx := hd_or None l2 in
  H !! h = Some (l1 ++ b :: l2) ->
  l_core k' = l_core k -> l_prev k' = link nx pv (l_prev k) -> l_next k' = link pv nx (l_next k) ->
  l_table k' = (if bool_decide (head (l1 ++ b :: l2) = Some b) then <[h := nx]> (l_table k) else l_table k) ->
  hash_rep (Some b) (without b <$> H) k'.
Proof.
  intros R Hc h pv nx Hl EC EP EN ET. assert (Hin := hash_in_without H k k' b R EC).
  pose proof (hr_nodup _ _ _ R _ _ Hl) as Hnd. pose proof (hr_seg _ _ _ R _ _ Hl) as Hs.
  destruct (seg_unlink _ _ _ _ _ Hnd Hs) as (_ & _ & Hs'). split; rewrite ?EP, ?EN, ?ET; try done.
  - rewrite length_fmap. apply R.
  - rewrite (hr_table _ _ _ R). apply list_eq. intros i. destruct (decide (i = h)) as [->|Hi].
    + rewrite (list_lookup_fmap _ (without b <$> H)), list_lookup_fmap, Hl. cbn.
      rewrite without_mid by done. destruct l1 as [|a l1]; cbn [app head].
      * rewrite bool_decide_eq_true_2 by done. unfold nx. rewrite list_lookup_insert_eq, hd_or_head; [done|].
        rewrite length_fmap. by eapply lookup_lt_Some.
      * rewrite bool_decide_eq_false_2; [by rewrite list_lookup_fmap, Hl|]. intros [= ->].
        apply NoDup_cons in Hnd as [Ha _]. apply Ha. set_solver.
    + transitivity ((head <$> H) !! i); [case_bool_decide; [by rewrite list_lookup_insert_ne|done]|].
      rewrite !list_lookup_fmap. destruct (H !! i) as [m|] eqn:E; [|done]. cbn.
      rewrite without_absent; [done|]. eapply other_chain; eauto.
  - intros i m Hm. rewrite list_lookup_fmap in Hm. apply fmap_Some in Hm as (m0 & Hm0 & ->).
    apply NoDup_without. by eapply (hr_nodup _ _ _ R).
  - intros i m Hm. rewrite list_lookup_fmap in Hm. apply fmap_Some in Hm as (m0 & Hm0 & ->).
    destruct (decide (i = h)) as [->|Hi].
    + rewrite Hl in Hm0. injection Hm0 as <-. by rewrite without_mid.
    + rewrite without_absent by (eapply other_chain; eauto).
      eapply (seg_link_other _ _ _ l1 l2); [by eapply (hr_seg _ _ _ R)| |done|done].
      intros x Hx. apply (hr_in _ _ _ R _ _ x Hm0) in Hx as (_ & cx & Hcx & _ & Eh).
      assert (x ∉ l1 ++ b :: l2) by (eapply other_chain; eauto; congruence). set_solver.
  - intros x cx Hx Hdx _. rewrite EC in Hx. destruct (hr_unused _ _ _ R x cx Hx Hdx ltac:(done)) as [Px Nx].
    assert (x ∉ l1 ++ b :: l2) by (eapply unhashed_chain; eauto).
    rewrite !link_ne; [done|intros E%last_or_In|intros E%hd_or_In]; set_solver.
  - rewrite !link_length, EC. apply R.
Qed.
(** The part of [remove_from_queues] on the hash table. *)
Lemma hash_unlink H k b c : hash_rep None H k -> l_core k !! b = Some c ->
  exists pv nx hd, l_prev k !! b = Some pv /\ l_next k !! b = Some nx /\
    l_table k !! _hashfn (b_dev c) (b_blocknr c) = Some hd /\ pv <> Some b /\
    (forall i, pv = Some i \/ nx = Some i -> (i < length (l_core k))%nat) /\
    forall k', l_core k' = l_core k -> l_prev k' = link nx pv (l_prev k) -> l_next k' = link pv nx (l_next k) ->
      l_table k' = (if bool_decide (hd = Some b) then <[_hashfn (b_dev c) (b_blocknr c) := nx]> (l_table k) else l_table k) ->
      hash_rep (Some b) (without b <$> H) k'.
Proof.
  intros R Hc. destruct (hash_chain _ _ _ (b_dev c) (b_blocknr c) R) as [l Hl].
  assert (l_table k !! _hashfn (b_dev c) (b_blocknr c) = Some (head l)) as Ht.
  { by rewrite (hr_table _ _ _ R), list_lookup_fmap, Hl. }
  destruct (decide (b_dev c = 0)) as [Hd|Hd].
  - destruct (hr_unused _ _ _ R b c Hc Hd ltac:(done)) as [Hp Hn].
    exists None, None, (head l). split_and!; [done..|naive_solver|]. intros k' EC EP EN ET.
    rewrite bool_decide_eq_false_2 in ET; [by eapply hash_unlink_unused|].
    rewrite <-hd_or_head. intros E%hd_or_In. eapply unhashed_chain in E; eauto.
  - assert (b ∈ l) as Hb by (apply (hr_in _ _ _ R _ _ b Hl); eauto).
    assert (forall i, i ∈ l -> (i < length (l_core k))%nat) as Hlt.
    { intros i (_ & ci & Hi & _)%(hr_in _ _ _ R _ _ i Hl). by eapply lookup_lt_Some. }
    apply list_elem_of_split in Hb as (l1 & l2 & ->). pose proof (hr_nodup _ _ _ R _ _ Hl) as Hnd.
    destruct (seg_unlink _ _ _ _ _ Hnd (hr_seg _ _ _ R _ _ Hl)) as (Hp & Hn & _).
    exists (last_or None l1), (hd_or None l2), (head (l1 ++ b :: l2)). split_and!; [done..| | |].
    + intros E%last_or_In. apply NoDup_app in Hnd as (_ & Hdj & _). apply (Hdj _ E). set_solver.
    + intros i [E%last_or_In|E%hd_or_In]; apply Hlt; set_solver.
    + intros k' EC EP EN ET. by eapply (hash_unlink_chain H k k' b c l1 l2).
Qed.
(** The part of [insert_into_queues] on the hash table: the block the buffer
    holds has changed meanwhile. *)
Lemma hash_link_unused H k k' b c : hash_rep (Some b) H k -> (b < length (l_core k))%nat -> b_dev c = 0 ->
  l_core k' = <[b := c]> (l_core k) -> l_prev k' = <[b := None]> (l_prev k) ->
  l_next k' = <[b := None]> (l_next k) -> l_table k' = l_table k -> hash_rep None H k'.
Proof.
  intros R Hb Hd EC EP EN ET. destruct (hr_length _ _ _ R) as [HlP HlN].
  assert (forall h l, H !! h = Some l -> b ∉ l) as Hout.
  { intros h l Hl Hx. by apply (hr_in _ _ _ R h l b Hl) in Hx as [? _]. }
  split; rewrite ?EP, ?EN, ?EC, ?ET, ?length_insert; try apply R.
  - intros h l Hl. eapply seg_frame; [|by eapply (hr_seg _ _ _ R)]. intros x Hx.
    assert (x <> b) by (intros ->; by eapply Hout). by rewrite !list_lookup_insert_ne.
  - intros h l x Hl. rewrite (hr_in _ _ _ R h l x Hl). destruct (decide (x = b)) as [->|].
    + rewrite list_lookup_insert_eq by done. naive_solver.
    + rewrite list_lookup_insert_ne by done. naive_solver.
  - intros x cx Hx Hdx _. destruct (decide (x = b)) as [->|].
    + rewrite !list_lookup_insert_eq by lia. done.
    + rewrite !list_lookup_insert_ne in * by done. eapply (hr_unused _ _ _ R); eauto. congruence.
Qed.
Lemma hash_link H k k' b c l : hash_rep (Some b) H k -> (b < length (l_core k))%nat -> b_dev c <> 0 ->
  let h := _hashfn (b_dev c) (b_blocknr c) in H !! h = Some l ->
  l_core k' = <[b := c]> (l_core k) ->
  l_prev k' = link (head l) (Some b) (<[b := None]> (l_prev k)) ->
  l_next k' = <[b := head l]> (<[b := None]> (l_next k)) -> l_table k' = <[h := Some b]> (l_table k) ->
  hash_rep None (<[h := b :: l]> H) k'.
Proof.
  intros R Hb Hd h Hl EC EP EN ET. destruct (hr_length _ _ _ R) as [HlP HlN].
  assert (forall h l, H !! h = Some l -> b ∉ l) as Hout.
  { intros h' l' Hl' Hx. by apply (hr_in _ _ _ R h' l' b Hl') in Hx as [? _]. }
  assert (forall i m, <[h := b :: l]> H !! i = Some m -> i = h /\ m = b :: l \/ i <> h /\ H !! i = Some m) as Hcase.
  { intros i m. destruct (decide (i = h)) as [->|].
    - rewrite list_lookup_insert_eq by (by eapply lookup_lt_Some). naive_solver.
    - rewrite list_lookup_insert_ne by done. naive_solver. }
  assert (forall i m x, H !! i = Some m -> x ∈ m -> x <> b) as Hne by (intros i m x Hm Hx ->; by eapply Hout).
  pose proof (hr_seg _ _ _ R _ _ Hl) as Hs.
  split; rewrite ?EC, ?EP, ?EN, ?ET, ?link_length, ?length_insert; try apply R.
  - by rewrite list_fmap_insert, (hr_table _ _ _ R).
  - intros i m [[-> ->]|[_ Hm]]%Hcase; [|by eapply (hr_nodup _ _ _ R)].
    apply NoDup_cons. split; [by eapply Hout|by eapply (hr_nodup _ _ _ R)].
  - intros i m [[-> ->]|[Hi Hm]]%Hcase.
    + split_and!.
      * rewrite link_ne by (destruct l; [done|]; intros [= ->]; eapply Hout; [done|set_solver]).
        by rewrite list_lookup_insert_eq by lia.
      * rewrite list_lookup_insert_eq by (rewrite length_insert; lia). by rewrite hd_or_head.
      * apply (seg_set_prev _ _ _ (Some b)) in Hs; [|by eapply (hr_nodup _ _ _ R)].
        rewrite hd_or_head in Hs. eapply seg_frame; [|exact Hs]. intros x Hx%(Hne _ _ _ Hl).
        rewrite !(list_lookup_insert_ne _ b x) by done. split; [|done].
        destruct (head l) as [y|]; cbn; [|by rewrite list_lookup_insert_ne].
        rewrite !list_lookup_insert, length_insert. repeat case_decide; naive_solver.
    + eapply seg_frame; [|by eapply (hr_seg _ _ _ R)]. intros x Hx.
      assert (x <> b) by eauto. rewrite !(list_lookup_insert_ne _ b x) by done. split; [|done].
      rewrite link_ne; [by rewrite list_lookup_insert_ne|]. rewrite <-hd_or_head. intros Hh%hd_or_In.
      apply (hr_in _ _ _ R _ _ x Hl) in Hh as (_ & c1 & E1 & _ & ?).
      apply (hr_in _ _ _ R _ _ x Hm) in Hx as (_ & c2 & E2 & _ & ?). congruence.
  - intros i m x [[-> ->]|[Hi Hm]]%Hcase.
    + rewrite elem_of_cons, (hr_in _ _ _ R h l x Hl). destruct (decide (x = b)) as [->|].
      * rewrite list_lookup_insert_eq by done. naive_solver.
      * rewrite list_lookup_insert_ne by done. naive_solver.
    + rewrite (hr_in _ _ _ R i m x Hm). destruct (decide (x = b)) as [->|].
      * rewrite list_lookup_insert_eq by done. naive_solver.
      * rewrite list_lookup_insert_ne by done. naive_solver.
  - intros x cx Hx Hdx _. destruct (decide (x = b)) as [->|].
    { rewrite list_lookup_insert_eq in Hx by done. congruence. }
    rewrite list_lookup_insert_ne in Hx by done.
    rewrite !(list_lookup_insert_ne _ b x) by done.
    rewrite link_ne; [rewrite list_lookup_insert_ne by done; eapply (hr_unused _ _ _ R); eauto; congruence|].
    rewrite <-hd_or_head. intros Hh%hd_or_In. eapply unhashed_chain; eauto.
Qed.


(** ** The operations on the two structures *)

Definition cache_rep (out : option nat) (L : list nat) (H : list (list nat)) (s : kernel) : Prop :=
  free_rep out L (links_of s) /\ hash_rep out H (links_of s).

Section link_stores.
Variables (P N PF NF : list (option nat)) (C : list buffer_head) (T : list (option nat)) (r : option nat).
Variables (s : kernel).
Hypothesis V : links_of s = Links P N PF NF C T r.

Lemma link_prev o v (Q : unit -> kernel -> Prop) : (forall i, o = Some i -> (i < length C)%nat) ->
  (forall s', links_of s' = Links (link o v P) N PF NF C T r -> Q tt s') ->
  wp (match o with Some n => st n b_prev v | None => mret tt end) Q s.
Proof. destruct o as [i|]; intros Hi HQ; [eapply st_b_prev; eauto|]. apply wpg_ret, HQ, V. Qed.
Lemma link_next o v (Q : unit -> kernel -> Prop) : (forall i, o = Some i -> (i < length C)%nat) ->
  (forall s', links_of s' = Links P (link o v N) PF NF C T r -> Q tt s') ->
  wp (match o with Some n => st n b_next v | None => mret tt end) Q s.
Proof. destruct o as [i|]; intros Hi HQ; [eapply st_b_next; eauto|]. apply wpg_ret, HQ, V. Qed.
(** The store of [insert_into_queues] through the head of a chain, or through
    a null pointer when the chain is empty. *)
Lemma link_head o b (Q : unit -> kernel -> Prop) : (forall i, o = Some i -> (i < length C)%nat) ->
  (forall s', links_of s' = Links (link o (Some b) P) N PF NF C T r -> Q tt s') ->
  wp (match o with Some n => st n b_prev (Some b) | None => store_null_b_prev b end) Q s.
Proof. destruct o as [i|]; intros Hi HQ; [eapply st_b_prev; eauto|]. apply wpg_modify, HQ, V. Qed.
Lemma read_prev b v (Q : option nat -> kernel -> Prop) : P !! b = Some v -> Q v s -> wp (b->>b_prev) Q s.
Proof. apply get_link. by injection V. Qed.
Lemma read_next b v (Q : option nat -> kernel -> Prop) : N !! b = Some v -> Q v s -> wp (b->>b_next) Q s.
Proof. apply get_link. by injection V. Qed.
Lemma read_prev_free b v (Q : option nat -> kernel -> Prop) : PF !! b = Some v -> Q v s -> wp (b->>b_prev_free) Q s.
Proof. apply get_link. by injection V. Qed.
Lemma read_next_free b v (Q : option nat -> kernel -> Prop) : NF !! b = Some v -> Q v s -> wp (b->>b_next_free) Q s.
Proof. apply get_link. by injection V. Qed.
Lemma unhash (P1 : bool) b nx dev nr (Q : unit -> kernel -> Prop) : N !! b = Some nx ->
  (_hashfn dev nr < length T)%nat ->
  (forall s', links_of s' = Links P N PF NF C (if P1 then <[_hashfn dev nr := nx]> T else T) r -> Q tt s') ->
  wp (when P1 (next ← b->>b_next; set_hash dev nr next)) Q s.
Proof.
  intros Hn Hi HQ. destruct P1; [|by apply wpg_ret, HQ]. apply wpg_bind.
  eapply read_next; [exact Hn|]. by eapply (set_table _ _ _ _ _ _ _ _ V).
Qed.
Lemma move_root (P1 : bool) b nf (Q : unit -> kernel -> Prop) : NF !! b = Some nf ->
  (forall s', links_of s' = Links P N PF NF C T (if P1 then nf else r) -> Q tt s') ->
  wp (when P1 (nf ← b->>b_next_free; setg k_free_list nf)) Q s.
Proof.
  intros Hn HQ. destruct P1; [|by apply wpg_ret, HQ]. apply wpg_bind.
  eapply read_next_free; [exact Hn|]. by eapply (set_root _ _ _ _ _ _ _ _ V).
Qed.
End link_stores.

Ltac lk_find := first
  [ eassumption
  | rewrite link_ne by done; lk_find
  | rewrite list_lookup_insert_eq by (rewrite ?length_insert; done); reflexivity
  | rewrite list_lookup_insert_ne by done; lk_find ].
Ltac lk_proj := cbn [l_prev l_next l_prev_free l_next_free l_core l_table l_root] in *.
(** One step of symbolic execution on the pointers; [V] is the last known
    shape of them. *)
Ltac lk_step :=
  lazymatch goal with
  | |- wpg _ _ ?m ?Q ?s => change (wp m Q s)
  | |- wp (mbind _ _) _ _ => apply wpg_bind
  | |- wp (mret _) _ _ => apply wpg_ret
  | V : links_of ?s = _ |- wp ?m _ ?s =>
    lazymatch m with
    | getf _ b_prev => eapply (read_prev _ _ _ _ _ _ _ _ V); [lk_find|]
    | getf _ b_next => eapply (read_next _ _ _ _ _ _ _ _ V); [lk_find|]
    | getf _ b_prev_free => eapply (read_prev_free _ _ _ _ _ _ _ _ V); [lk_find|]
    | getf _ b_next_free => eapply (read_next_free _ _ _ _ _ _ _ _ V); [lk_find|]
    | getf _ _ => eapply (get_core _ _ _ _ _ _ _ _ _ V); [reflexivity|lk_find|]
    | gets k_free_list => apply (get_root _ _ _ _ _ _ _ _ V)
    | setg k_free_list _ => apply (set_root _ _ _ _ _ _ _ _ V); clear s V; intros s V
    | hash _ _ => eapply (get_table _ _ _ _ _ _ _ _ V); [lk_find|]
    | set_hash _ _ _ => apply (set_table _ _ _ _ _ _ _ _ V); [shelve|clear s V; intros s V]
    | st _ b_prev _ => apply (st_b_prev _ _ _ _ _ _ _ _ _ V); [first [assumption|shelve]|clear s V; intros s V]
    | st _ b_next _ => apply (st_b_next _ _ _ _ _ _ _ _ _ V); [first [assumption|shelve]|clear s V; intros s V]
    | st _ b_prev_free _ => apply (st_b_prev_free _ _ _ _ _ _ _ _ _ V); [first [assumption|shelve]|clear s V; intros s V]
    | st _ b_next_free _ => apply (st_b_next_free _ _ _ _ _ _ _ _ _ V); [first [assumption|shelve]|clear s V; intros s V]
    | when _ (mbind _ (_->>b_next)) =>
        eapply (unhash _ _ _ _ _ _ _ _ V); [lk_find|shelve|clear s V; intros s V]
    | when _ (mbind _ (_->>b_next_free)) =>
        eapply (move_root _ _ _ _ _ _ _ _ V); [lk_find|clear s V; intros s V]
    | match _ with Some n => st n b_next _ | None => _ end =>
        apply (link_next _ _ _ _ _ _ _ _ V); [shelve|clear s V; intros s V]
    | match _ with Some n => st n b_prev _ | None => mret _ end =>
        apply (link_prev _ _ _ _ _ _ _ _ V); [shelve|clear s V; intros s V]
    | match _ with Some n => st n b_prev _ | None => store_null_b_prev _ end =>
        apply (link_head _ _ _ _ _ _ _ _ V); [shelve|clear s V; intros s V]
    end
  end; cbv beta iota.

Lemma remove_from_queues_spec L H s b c :
  cache_rep None L H s -> l_core (links_of s) !! b = Some c -> (1 < length L)%nat ->
  wp (remove_from_queues b) (fun _ s' =>
    cache_rep (Some b) (without b L) (without b <$> H) s' /\ l_core (links_of s') = l_core (links_of s)) s.
Proof.
  intros [RF RH] Hc Hlen. destruct (hash_unlink H _ b c RH Hc) as (pv & nx & hd & Ep & En & Et & Hpb & Hlt & RH').
  assert (b ∈ L) as Hb by (apply (fr_all _ _ _ RF); split; [by eapply lookup_lt_Some|done]).
  destruct (free_unlink L _ b RF Hb Hlen) as (p & n & Hbp & Hp & Hn & Epf & Enf & RF').
  destruct (links_of s) as [P N PF NF C T r] eqn:V. lk_proj. unfold remove_from_queues.
  unshelve (repeat lk_step); try (intros i ->; by eauto).
  - apply lookup_lt_is_Some. by exists hd.
  - rewrite V. lk_proj. split; [|done]. split; rewrite V.
    + by apply RF'.
    + by apply RH'.
Qed.
(** What the buffer taken out holds does not matter, nor do the flags of the
    others. *)
Lemma free_rep_core out P N PF NF C T r b c L :
  free_rep out L (Links P N PF NF C T r) -> free_rep out L (Links P N PF NF (<[b := c]> C) T r).
Proof. intros []. split; lk_proj; rewrite ?length_insert; done. Qed.
Lemma hash_rep_core out P N PF NF C T r b c c' H : C !! b = Some c ->
  out = Some b \/ b_dev c' = b_dev c /\ b_blocknr c' = b_blocknr c ->
  hash_rep out H (Links P N PF NF C T r) -> hash_rep out H (Links P N PF NF (<[b := c']> C) T r).
Proof.
  intros Hc Ho R. assert (Hb := lookup_lt_Some _ _ _ Hc).
  split; lk_proj; rewrite ?length_insert; try apply R.
  - intros h l x Hl. rewrite (hr_in _ _ _ R h l x Hl). lk_proj. destruct (decide (x = b)) as [->|].
    + rewrite list_lookup_insert_eq by done. destruct Ho as [?|[E1 E2]]; [naive_solver|].
      rewrite Hc. split; intros (? & c0 & [= <-] & ?); (split; [done|]);
        eexists; (split; [done|]); by rewrite ?E1, ?E2 in *.
    + by rewrite list_lookup_insert_ne.
  - intros x cx Hx Hd Hne. destruct (decide (x = b)) as [->|].
    + rewrite list_lookup_insert_eq in Hx by done. injection Hx as <-.
      destruct Ho as [?|[E1 E2]]; [done|]. eapply (hr_unused _ _ _ R); [done|congruence|done].
    + rewrite list_lookup_insert_ne in Hx by done. by eapply (hr_unused _ _ _ R).
Qed.
(** A store to a field that is not a pointer. *)
Lemma st_rep out L H s b c {A} (f : buffer_head -> A) `{!Setter f} v :
  (forall x, core (set_field f (fun _ => v) x) = set_field f (fun _ => v) (core x)) ->
  (forall x, b_prev (set_field f (fun _ => v) x) = b_prev x) ->
  (forall x, b_next (set_field f (fun _ => v) x) = b_next x) ->
  (forall x, b_prev_free (set_field f (fun _ => v) x) = b_prev_free x) ->
  (forall x, b_next_free (set_field f (fun _ => v) x) = b_next_free x) ->
  cache_rep out L H s -> l_core (links_of s) !! b = Some c ->
  out = Some b \/ b_dev (set_field f (fun _ => v) c) = b_dev c /\ b_blocknr (set_field f (fun _ => v) c) = b_blocknr c ->
  wp (st b f v) (fun _ s' => cache_rep out L H s' /\
    l_core (links_of s') !! b = Some (set_field f (fun _ => v) c) /\
    l_core (links_of s') = <[b := set_field f (fun _ => v) c]> (l_core (links_of s))) s.
Proof.
  intros E1 E2 E3 E4 E5 [RF RH] Hc Ho. destruct (links_of s) as [P N PF NF C T r] eqn:V. lk_proj.
  eapply (st_b_core _ _ _ _ _ _ _ _ _ V f v c); try done. intros s' V'. rewrite V'. lk_proj.
  assert (Hb := lookup_lt_Some _ _ _ Hc). split; [|by rewrite list_lookup_insert_eq].
  unfold cache_rep. rewrite V'. split; [by apply free_rep_core|by eapply hash_rep_core].
Qed.
(** The chains after [b] has been put in front of its own. *)
Definition hashed (b : nat) (c : buffer_head) (H : list (list nat)) : list (list nat) :=
  if b_dev c =? 0 then H else alter (cons b) (_hashfn (b_dev c) (b_blocknr c)) H.
Lemma insert_into_queues_spec L H s b c :
  cache_rep (Some b) L H s -> l_core (links_of s) !! b = Some c -> L <> [] ->
  wp (insert_into_queues b) (fun _ s' =>
    cache_rep None (L ++ [b]) (hashed b c H) s' /\ l_core (links_of s') = l_core (links_of s)) s.
Proof.
  intros [RF RH] Hc Hne. assert (Hb := lookup_lt_Some _ _ _ Hc).
  destruct (free_link L _ b RF Hne Hb) as (f & p & Er & Hfb & Hpb & Hf & Hp & Epf & RF').
  destruct (hash_chain _ _ _ (b_dev c) (b_blocknr c) RH) as [l Hl].
  destruct (fr_length _ _ _ RF) as [HlPF HlNF], (hr_length _ _ _ RH) as [HlP HlN].
  assert (Et := hr_table _ _ _ RH).
  assert (forall i, head l = Some i -> (i < length (l_core (links_of s)))%nat) as Hlt.
  { intros i. rewrite <-hd_or_head. intros Hi%hd_or_In.
    apply (hr_in _ _ _ RH _ _ i Hl) in Hi as (_ & ci & Hi & _). by eapply lookup_lt_Some. }
  destruct (links_of s) as [P N PF NF C T r] eqn:V. lk_proj. subst r. unfold insert_into_queues, hashed.
  assert (<[b:=c]> C = C) as EC by by apply list_insert_id.
  assert (T !! _hashfn (b_dev c) (b_blocknr c) = Some (head l)) as Eh by by rewrite Et, list_lookup_fmap, Hl.
  repeat lk_step. change (deref (Some f)) with (mret f : M kernel nat). repeat lk_step.
  change (deref (Some p)) with (mret p : M kernel nat). repeat lk_step.
  unfold truth. rewrite negb_involutive. destruct (b_dev c =? 0) eqn:Ed.
  - repeat lk_step. rewrite V. lk_proj. split; [|done]. split; rewrite V; [by apply RF'|].
    by eapply (hash_link_unused _ _ _ b c RH); lk_proj; [done|lia|..].
  - unshelve (repeat lk_step); try done; [by eapply lookup_lt_Some|].
    rewrite V. lk_proj. split; [|done]. split; rewrite V; [by apply RF'|].
    replace (alter (cons b) _ H) with (<[_hashfn (b_dev c) (b_blocknr c) := b :: l]> H)
      by (by rewrite (alter_at _ _ _ _ Hl)).
    by eapply (hash_link _ _ _ b c l RH); lk_proj; [done|lia|..].
Qed.

(** No two buffers hold the same block. *)
Definition one_buffer_per_block (s : kernel) : Prop := forall b b' c c',
  k_bufs s !! b = Some c -> k_bufs s !! b' = Some c' -> b_dev c <> 0 ->
  b_dev c = b_dev c' -> b_blocknr c = b_blocknr c' -> b = b'.
(** The cache as an abstract structure: every buffer in the order of use, the
    chains, one buffer per block. *)
Definition cache_is (L : list nat) (H : list (list nat)) (s : kernel) : Prop :=
  cache_rep None L H s /\ one_buffer_per_block s.
(** What [getblk] makes of a buffer: block [block] of [dev], not read yet. *)
Definition taken_for (dev block : Z) (h : buffer_head) : buffer_head :=
  BufferHead (b_addr h) (b_data h) (u32 block) (u16 dev) 0 0 1 (b_lock h) (b_wait h) None None None None.

Lemma core_lookup s b h : k_bufs s !! b = Some h -> l_core (links_of s) !! b = Some (core h).
Proof. intros E. cbn. by rewrite list_lookup_fmap, E. Qed.
Lemma cores_unique s C : (forall b b' c c', C !! b = Some c -> C !! b' = Some c' -> b_dev c <> 0 ->
    b_dev c = b_dev c' -> b_blocknr c = b_blocknr c' -> b = b') ->
  l_core (links_of s) = C -> one_buffer_per_block s.
Proof. intros Hu <- b b' c c' Hc Hc'. by apply (Hu b b' (core c) (core c')); apply core_lookup. Qed.
Lemma wp_bind_spec {A B} (m : M kernel A) (k : A -> M kernel B) (R : A -> kernel -> Prop) Q s :
  wp m R s -> (forall a s', R a s' -> wp (k a) Q s') -> wp (m ≫= k) Q s.
Proof. intros Hm Hk. apply wpg_bind. by eapply wp_mono. Qed.

(** A block that no other buffer holds is given to [b]. *)
Lemma unique_insert (C : list buffer_head) b x dev nr : (forall b b' c c', C !! b = Some c -> C !! b' = Some c' ->
    b_dev c <> 0 -> b_dev c = b_dev c' -> b_blocknr c = b_blocknr c' -> b = b') ->
  b_dev x = dev -> b_blocknr x = nr -> (forall b' c, C !! b' = Some c -> ~ (b_dev c = dev /\ b_blocknr c = nr)) ->
  forall b1 b2 c1 c2, <[b := x]> C !! b1 = Some c1 -> <[b := x]> C !! b2 = Some c2 ->
    b_dev c1 <> 0 -> b_dev c1 = b_dev c2 -> b_blocknr c1 = b_blocknr c2 -> b1 = b2.
Proof.
  intros Hu <- <- Hn b1 b2 c1 c2 [(<- & -> & _)|[? H1]]%list_lookup_insert_Some
    [(<- & -> & _)|[? H2]]%list_lookup_insert_Some ? ? ?; [done| | |by eapply Hu].
  - exfalso. by eapply Hn.
  - exfalso. by eapply (Hn _ _ H1).
Qed.
Lemma without_nonempty b L : NoDup L -> (1 < length L)%nat -> without b L <> [].
Proof.
  destruct L as [|x [|y L]]; cbn [length]; [lia..|]. intros [Hx _]%NoDup_cons _ E.
  assert (Hn : forall z, z ∈ x :: y :: L -> z = b).
  { intros z Hz. destruct (decide (z = b)); [done|]. exfalso. assert (z ∈ without b (x :: y :: L)) as Hw.
    { by apply elem_of_without. } rewrite E in Hw. set_solver. }
  assert (x = b) by (apply Hn; set_solver). assert (y = b) by (apply Hn; set_solver). set_solver.
Qed.
(** [take_buffer] on the two structures, whatever the others hold. *)
Lemma take_buffer_rep L H s b h dev block :
  cache_rep None L H s -> k_bufs s !! b = Some h -> (1 < length L)%nat ->
  wp (take_buffer b dev block) (fun _ s' =>
    cache_rep None (without b L ++ [b]) (hashed b (taken_for dev block h) (without b <$> H)) s' /\
    core <$> k_bufs s' = <[b := taken_for dev block h]> (core <$> k_bufs s)) s.
Proof.
  intros R Hh Hlen. unfold take_buffer.
  assert (Hnd := fr_nodup _ _ _ (proj1 R)). assert (Hc := core_lookup _ _ _ Hh). change (core <$> k_bufs s) with (l_core (links_of s)).
  eapply wp_bind_spec; [eapply st_rep; [..|exact R|exact Hc|by right]; done|]. clear R Hc. intros [] s1 (R & Hc & EC1).
  eapply wp_bind_spec; [eapply st_rep; [..|exact R|exact Hc|by right]; done|]. clear R Hc. intros [] s2 (R & Hc & EC2).
  eapply wp_bind_spec; [eapply st_rep; [..|exact R|exact Hc|by right]; done|]. clear R Hc. intros [] s3 (R & Hc & EC3).
  eapply wp_bind_spec; [by eapply remove_from_queues_spec|]. clear R. intros [] s4 (R & EC4). rewrite <-EC4 in Hc.
  eapply wp_bind_spec; [eapply st_rep; [..|exact R|exact Hc|by left]; done|]. clear R Hc. intros [] s5 (R & Hc & EC5).
  eapply wp_bind_spec; [eapply st_rep; [..|exact R|exact Hc|by left]; done|]. clear R Hc. intros [] s6 (R & Hc & EC6).
  eapply wp_mono; [eapply insert_into_queues_spec; [exact R|exact Hc|]|].
  { by apply without_nonempty. }
  intros [] s7 (R' & EC7). rewrite EC6, EC5, EC4, EC3, EC2, EC1, !list_insert_insert_eq in EC7.
  split; [exact R'|exact EC7].
Qed.
Lemma taken_unique s s' b h dev block : one_buffer_per_block s ->
  (forall b' h', k_bufs s !! b' = Some h' -> ~ (b_dev h' = u16 dev /\ b_blocknr h' = u32 block)) ->
  core <$> k_bufs s' = <[b := taken_for dev block h]> (core <$> k_bufs s) -> one_buffer_per_block s'.
Proof.
  intros Hu Hfree EC. eapply cores_unique; [|exact EC].
  apply (unique_insert _ _ _ (u16 dev) (u32 block)); [|done|done|].
  - intros b1 b2 c1 c2 (h1 & -> & Hh1)%list_lookup_fmap_Some (h2 & -> & Hh2)%list_lookup_fmap_Some. exact (Hu b1 b2 h1 h2 Hh1 Hh2).
  - intros b' c (h' & -> & Hh')%list_lookup_fmap_Some. exact (Hfree b' h' Hh').
Qed.

(** The end of [getblk] ([take_buffer]) refines the operation on the
    abstract cache: run on any cache of at least two buffers in which no
    buffer holds the block, it returns, and makes the buffer the youngest of
    the list, the first of the chain of its new block (and in no other chain),
    with count one, clean and not up to date; the other buffers keep their
    contents, and no two buffers hold the same block. *)
Theorem take_buffer_spec L H s b h dev block :
  cache_is L H s -> k_bufs s !! b = Some h -> (1 < length L)%nat ->
  (forall b' h', k_bufs s !! b' = Some h' -> ~ (b_dev h' = u16 dev /\ b_blocknr h' = u32 block)) ->
  wp (take_buffer b dev block) (fun _ s' =>
    cache_is (without b L ++ [b]) (hashed b (taken_for dev block h) (without b <$> H)) s' /\
    core <$> k_bufs s' = <[b := taken_for dev block h]> (core <$> k_bufs s)) s.
Proof.
  intros [R Hu] Hh Hlen Hfree. eapply wp_mono; [by eapply take_buffer_rep|]. intros [] s' [R' EC].
  split; [|exact EC]. split; [exact R'|]. by eapply taken_unique.
Qed.

(** ** Looking a block up *)

Definition holds (s : kernel) (dev block : Z) (b : nat) : bool :=
  match k_bufs s !! b with
  | Some h => (b_dev h =? dev) && (b_blocknr h =? u32 block)
  | None => false
  end.
Lemma holds_true s dev block b : holds s dev block b = true <->
  exists h, k_bufs s !! b = Some h /\ b_dev h = dev /\ b_blocknr h = u32 block.
Proof.
  unfold holds. destruct (k_bufs s !! b) as [h|]; [|naive_solver].
  rewrite andb_true_iff, !Z.eqb_eq. naive_solver.
Qed.
(** The walk of [find_buffer] along a chain. *)
Lemma find_walk s dev block l : forall p fuel, (length l < fuel)%nat ->
  seg (b_prev <$> k_bufs s) (b_next <$> k_bufs s) p l None ->
  loop fuel (find_step dev block) (hd_or None l) s = Ok (find (holds s dev block) l) s.
Proof.
  induction l as [|b l IH]; intros p [|fuel] Hf Hs; cbn in Hf; try lia; [done|].
  destruct Hs as (_ & Hn & Hs). rewrite list_lookup_fmap in Hn. apply fmap_Some in Hn as (h & Hh & En).
  rewrite loop_S. cbn [hd_or find find_step]. unfold holds at 1, mbind, M_bind, getf. cbn [tab buffer_table].
  rewrite !Hh. destruct (_ && _); [done|]. cbn. rewrite Hh, <-En. by apply (IH (Some b)); [lia|].
Qed.
Lemma hashfn_u32 dev block : _hashfn dev (u32 block) = _hashfn dev block.
Proof.
  unfold _hashfn. f_equal. f_equal. apply Z.bits_inj'. intros i Hi. unfold u32.
  rewrite <-!Z.land_ones, !Z.land_spec, !Z.lxor_spec, Z.land_spec by lia.
  destruct (Z.testbit (Z.ones 32) i); [by rewrite !andb_true_r|by rewrite !andb_false_r].
Qed.
Lemma chain_length H k l h : hash_rep None H k -> H !! h = Some l -> (length l <= length (l_core k))%nat.
Proof.
  intros R Hl. rewrite <-(length_seq (length (l_core k)) 0). apply submseteq_length, NoDup_submseteq.
  - by eapply (hr_nodup _ _ _ R).
  - intros x (_ & c & Hc & _)%(hr_in _ _ _ R _ _ _ Hl). apply elem_of_seq.
    apply lookup_lt_Some in Hc. lia.
Qed.

(** [find_buffer] on the chains, whether or not blocks are held once. *)
Lemma find_buffer_rep L H s dev block : cache_rep None L H s ->
  exists o, find_buffer dev block s = Ok o s /\
    match o with
    | Some b => holds s dev block b = true
    | None => dev <> 0 -> forall b, holds s dev block b = false
    end.
Proof.
  intros [_ R]. destruct (hash_chain _ _ _ dev block R) as [l Hl].
  assert (Et : k_hash_table s !! _hashfn dev block = Some (hd_or None l)).
  { change (k_hash_table s) with (l_table (links_of s)).
    by rewrite (hr_table _ _ _ R), list_lookup_fmap, Hl, hd_or_head. }
  exists (find (holds s dev block) l). split.
  - unfold find_buffer, hash, aget, mbind, M_bind, gets. rewrite Et.
    eapply find_walk; [|exact (hr_seg _ _ _ R _ _ Hl)].
    pose proof (chain_length _ _ _ _ R Hl) as Hc. cbn in Hc. rewrite length_fmap in Hc. unfold NR_BUFFERS. lia.
  - destruct (find (holds s dev block) l) as [b|] eqn:E; [by apply find_some in E as [_ E]|].
    intros Hdev b. destruct (holds s dev block b) eqn:Eh; [|done]. exfalso.
    assert (b ∈ l) as Hbl.
    { apply holds_true in Eh as (h & Hh & Ed & En). apply (hr_in _ _ _ R _ _ b Hl). split; [done|].
      exists (core h). split; [by apply core_lookup|]. cbn. split; [congruence|]. by rewrite Ed, En, hashfn_u32. }
    apply list_elem_of_In, (find_none _ _ E) in Hbl. congruence.
Qed.

(** [find_buffer] always returns and changes nothing; it returns the
    buffer that holds the block, which is the only one, and NULL exactly when
    no buffer holds it, on every state that represents a cache. *)
Theorem find_buffer_spec L H s dev block : cache_is L H s -> dev <> 0 ->
  wp (find_buffer dev block) (fun o s' => s' = s /\
    forall b, o = Some b <-> holds s dev block b = true) s.
Proof.
  intros [R Hu] Hdev. destruct (find_buffer_rep L H s dev block R) as (o & E & Ho).
  unfold wp, wpg. rewrite E. split; [done|]. intros b. destruct o as [b'|].
  - split; [by intros [= <-]|]. intros (h & Hh & Ed & En)%holds_true. f_equal.
    apply holds_true in Ho as (h' & Hh' & Ed' & En'). eapply (Hu b' b h' h); congruence.
  - split; [done|]. rewrite (Ho Hdev b). done.
Qed.

(** ** Looking for a free buffer *)

Definition free_buf (s : kernel) (b : nat) : Prop := exists h, k_bufs s !! b = Some h /\ b_count h = 0.
Definition badness_of (s : kernel) (b : nat) : Z :=
  match k_bufs s !! b with Some h => BADNESS h | None => 0 end.
(** [o] is the best buffer of [l]: a free one of least badness, the oldest of
    them; none when none is free. *)
Definition best (s : kernel) (l : list nat) (o : option nat) : Prop :=
  match o with
  | None => forall x, x ∈ l -> ~ free_buf s x
  | Some b => free_buf s b /\ exists l1 l2, l = l1 ++ b :: l2 /\
      (forall x, x ∈ l1 -> free_buf s x -> badness_of s b < badness_of s x) /\
      (forall x, x ∈ l2 -> free_buf s x -> badness_of s b <= badness_of s x)
  end.

Lemma best_busy s l o x : ~ free_buf s x -> best s l o -> best s (l ++ [x]) o.
Proof.
  intros Hx. destruct o as [b|]; cbn.
  - intros (Hb & l1 & l2 & -> & H1 & H2). split; [done|]. exists l1, (l2 ++ [x]).
    split_and!; [by rewrite <-app_assoc|done|]. intros y [?| ->%list_elem_of_singleton]%elem_of_app; [by apply H2|done].
  - intros H1 y [?| ->%list_elem_of_singleton]%elem_of_app; [by apply H1|done].
Qed.
Lemma best_worse s l b x : badness_of s b <= badness_of s x -> best s l (Some b) -> best s (l ++ [x]) (Some b).
Proof.
  intros Hx (Hb & l1 & l2 & -> & H1 & H2). split; [done|]. exists l1, (l2 ++ [x]).
  split_and!; [by rewrite <-app_assoc|done|]. intros y [?| ->%list_elem_of_singleton]%elem_of_app ?; [by apply H2|done].
Qed.
Lemma best_better s l o x : free_buf s x ->
  match o with Some b => badness_of s x < badness_of s b | None => True end ->
  best s l o -> best s (l ++ [x]) (Some x).
Proof.
  intros Hx Hlt Hb. split; [done|]. exists l, []. split_and!; [done| |intros y; set_solver].
  intros y Hy Hfy. destruct o as [b|]; [|by destruct (Hb y Hy)].
  destruct Hb as (_ & l1 & l2 & -> & H1 & H2).
  apply elem_of_app in Hy as [Hy|Hy]; [specialize (H1 y Hy Hfy); lia|].
  apply elem_of_cons in Hy as [->|Hy]; [done|]. specialize (H2 y Hy Hfy). lia.
Qed.
Lemma best_zero s l1 l2 x : (forall y, 0 <= badness_of s y) -> badness_of s x = 0 ->
  best s (l1 ++ [x]) (Some x) -> x ∉ l1 -> best s (l1 ++ x :: l2) (Some x).
Proof.
  intros Hpos Hz (Hx & m1 & m2 & E & H1 & H2) Hn. split; [done|]. exists l1, l2. split_and!; [done| |].
  - intros y Hy Hf. apply H1; [|done]. destruct m2 as [|z m2 _] using rev_ind.
    + by apply app_inj_tail in E as [-> _].
    + rewrite app_comm_cons, app_assoc in E. apply app_inj_tail in E as [-> _]. set_solver.
  - intros y _ _. rewrite Hz. apply Hpos.
Qed.

(** There is one best buffer. *)
Lemma best_at s l b : best s l (Some b) -> free_buf s b /\ exists i, l !! i = Some b /\
  forall j x, l !! j = Some x -> free_buf s x ->
    ((j < i)%nat -> badness_of s b < badness_of s x) /\ ((i < j)%nat -> badness_of s b <= badness_of s x).
Proof.
  intros (Hb & l1 & l2 & -> & H1 & H2). split; [done|]. exists (length l1). split; [by apply list_lookup_middle|].
  intros j x Hj Hx. split; intros Hlt.
  - rewrite lookup_app_l in Hj by done. apply H1; [by eapply list_elem_of_lookup_2|done].
  - rewrite lookup_app_r in Hj by lia. apply H2; [|done].
    destruct (j - length l1)%nat eqn:E; [lia|]. cbn in Hj. by eapply list_elem_of_lookup_2.
Qed.
Lemma best_unique s l b o : best s l (Some b) -> best s l o -> o = Some b.
Proof.
  intros (Hb & i & Hi & Bi)%best_at Ho. destruct o as [c|].
  2:{ exfalso. apply (Ho b); [by eapply list_elem_of_lookup_2|done]. }
  apply best_at in Ho as (Hc & j & Hj & Bj).
  destruct (Bi j c Hj Hc) as [B1 B2], (Bj i b Hi Hb) as [B3 B4].
  destruct (lt_eq_lt_dec i j) as [[Hlt| ->]|Hlt]; [specialize (B2 Hlt); specialize (B3 Hlt); lia|congruence|].
  specialize (B1 Hlt). specialize (B4 Hlt). lia.
Qed.

Section free_walk.
Variables (s : kernel) (L : list nat) (r : option nat).
Hypothesis RF : free_rep None L (links_of s).
Hypothesis Hpos : forall y, 0 <= badness_of s y.

(** The buffer after [tmp] on the list: back at [free_list] after the last. *)
Lemma next_free l1 tmp l2 : L = l1 ++ tmp :: l2 -> exists h, k_bufs s !! tmp = Some h /\
  b_next_free h = hd_or (k_free_list s) l2 /\ forall x, head l2 = Some x -> k_free_list s <> Some x.
Proof.
  intros E. pose proof (fr_circ _ _ _ RF) as Hc. pose proof (fr_root _ _ _ RF) as Hr. cbn in Hr.
  pose proof (fr_nodup _ _ _ RF) as Hnd. unfold circ in Hc. rewrite hd_or_head in Hc. rewrite <-Hr in Hc. rewrite E in Hc, Hr, Hnd.
  apply seg_app in Hc as [_ (_ & Hn & _)]. cbn in Hn. rewrite list_lookup_fmap in Hn.
  apply fmap_Some in Hn as (h & Hh & En). exists h. split_and!; [done|done|].
  intros x Hx. destruct l2 as [|y l2]; [done|]. injection Hx as ->. rewrite Hr.
  destruct l1 as [|z l1]; cbn; intros [= ->]; apply NoDup_cons in Hnd as [Hnd _]; set_solver.
Qed.
Lemma free_next {A} l1 tmp l2 (bh : option nat) (k : nat * option nat + option nat -> M kernel A) (Q : A -> kernel -> Prop) :
  L = l1 ++ tmp :: l2 ->
  match l2 with [] => wp (k (inr bh)) Q s | x :: _ => wp (k (inl (x, bh))) Q s end ->
  wp ((nx ← tmp->>b_next_free; fl ← gets k_free_list;
    if bool_decide (nx = fl) then mret (inr bh) else t ← deref nx; mret (inl (t, bh))) ≫= k) Q s.
Proof.
  intros E HQ. destruct (next_free _ _ _ E) as (h & Hh & En & Hne). do 2 apply wpg_bind.
  eapply wpg_getf; [exact Hh|]. apply wpg_bind, wpg_gets. rewrite En. destruct l2 as [|x l2]; cbn [hd_or].
  - rewrite bool_decide_eq_true_2 by done. by apply wpg_ret.
  - rewrite bool_decide_eq_false_2 by (apply not_eq_sym; by apply Hne). exact HQ.
Qed.
(** One buffer examined: the walk goes on with the best of those seen. *)
Lemma free_examine {A} l1 tmp l2 bh (k : nat * option nat + option nat -> M kernel A) (Q : A -> kernel -> Prop) :
  L = l1 ++ tmp :: l2 -> best s l1 bh ->
  (forall o, best s (l1 ++ [tmp]) o ->
    match l2 with [] => wp (k (inr o)) Q s | x :: _ => wp (k (inl (x, o))) Q s end) ->
  (best s L (Some tmp) -> wp (k (inr (Some tmp))) Q s) ->
  wp (free_scan_step (tmp, bh) ≫= k) Q s.
Proof.
  intros E Hb Hnext Hzero. destruct (next_free _ _ _ E) as (h & Hh & _ & _).
  assert (badness_of s tmp = BADNESS h) as Eh by (unfold badness_of; by rewrite Hh).
  assert (Hn := fun o Ho => free_next l1 tmp l2 o k Q E (Hnext o Ho)).
  unfold free_scan_step. cbv zeta. apply wpg_bind, wpg_bind. eapply wpg_getf; [exact Hh|].
  destruct (truth (b_count h)) eqn:Ec.
  { apply wpg_bind_inv, Hn, best_busy; [|done]. intros (h' & Hh' & Hz). apply truth_true in Ec. congruence. }
  apply truth_false in Ec. assert (Hf : free_buf s tmp) by by exists h.
  apply wpg_bind. unfold wpg at 1, ld. cbn [tab buffer_table]. rewrite Hh. apply wpg_bind.
  assert (Hgo : best s (l1 ++ [tmp]) (Some tmp) ->
    wp ((if BADNESS h =? 0 then mret (inr (Some tmp)) else
      nx ← tmp->>b_next_free; fl ← gets k_free_list;
      if bool_decide (nx = fl) then mret (inr (Some tmp)) else t ← deref nx; mret (inl (t, Some tmp))) ≫= k) Q s).
  { intros Hbest. destruct (BADNESS h =? 0) eqn:Ez; [|by apply Hn]. apply wpg_bind, wpg_ret, Hzero.
    rewrite E. apply best_zero; [done|lia|done|]. pose proof (fr_nodup _ _ _ RF) as Hnd. rewrite E in Hnd.
    apply NoDup_app in Hnd as (_ & Hd & _). intros Hx. apply (Hd _ Hx). set_solver. }
  destruct bh as [b|].
  - assert (exists hb, k_bufs s !! b = Some hb) as [hb Hhb] by (destruct Hb as [(hb & ? & _) _]; by exists hb).
    assert (badness_of s b = BADNESS hb) as Eb by (unfold badness_of; by rewrite Hhb).
    apply wpg_bind. unfold wpg at 1, ld. cbn [tab buffer_table]. rewrite Hhb. apply wpg_ret.
    destruct (BADNESS h <? BADNESS hb) eqn:El; apply wpg_bind_inv.
    + apply Hgo. eapply best_better; [done| |exact Hb]. cbn. lia.
    + apply Hn, best_worse; [lia|done].
  - apply wpg_ret, wpg_bind_inv, Hgo. by eapply (best_better _ _ None).
Qed.
Lemma free_walk fuel : forall l1 tmp l2 bh, L = l1 ++ tmp :: l2 -> (length l2 < fuel)%nat -> best s l1 bh ->
  wp (loop fuel free_scan_step (tmp, bh)) (fun o s' => s' = s /\ best s L o) s.
Proof.
  induction fuel as [|fuel IH]; intros l1 tmp l2 bh E Hf Hb; [lia|]. rewrite loop_S.
  eapply free_examine; [exact E|exact Hb| |].
  - intros o Ho. destruct l2 as [|x l2]; [apply wpg_ret; by rewrite E|].
    apply (IH (l1 ++ [tmp]) x l2); [by rewrite E, <-app_assoc|cbn in Hf; lia|done].
  - intros Ho. by apply wpg_ret.
Qed.
End free_walk.

Lemma free_scan_best L H s : cache_rep None L H s -> L <> [] ->
  (forall b h, k_bufs s !! b = Some h -> 0 <= b_dirt h /\ 0 <= b_lock h) ->
  wp free_scan (fun o s' => s' = s /\ best s L o) s.
Proof.
  intros [RF _] Hne Hpos. pose proof (fr_root _ _ _ RF) as Hr. cbn in Hr.
  destruct L as [|f L]; [done|]. unfold free_scan. apply wpg_bind, wpg_gets. rewrite Hr.
  apply wpg_bind, wpg_ret, wpg_bind, wpg_gets. apply (free_walk s (f :: L) RF) with (l1 := []) (l2 := L); [|done| |].
  - intros y. unfold badness_of. destruct (k_bufs s !! y) as [h|] eqn:E; [|done]. apply Hpos in E.
    unfold BADNESS. rewrite Z.shiftl_mul_pow2 by lia. lia.
  - unfold NR_BUFFERS. assert (length (f :: L) <= length (k_bufs s))%nat as Hl; [|cbn in Hl; lia].
    rewrite <-(length_seq (length (k_bufs s)) 0). apply submseteq_length, NoDup_submseteq; [apply RF|].
    intros x Hx. apply elem_of_seq. apply (fr_all _ _ _ RF) in Hx as [Hx _]. cbn in Hx. rewrite length_fmap in Hx. lia.
  - cbn. set_solver.
Qed.

(** The search of [getblk] for a free buffer always returns and changes
    nothing; it returns, among the buffers that nobody uses, the one with the
    least badness (clean and unlocked before dirty or locked) and, among
    those, the one that comes first on the list; it returns NULL exactly when
    every buffer is in use. *)
Theorem free_scan_spec L H s : cache_is L H s -> L <> [] ->
  (forall b h, k_bufs s !! b = Some h -> 0 <= b_dirt h /\ 0 <= b_lock h) ->
  wp free_scan (fun o s' => s' = s /\ best s L o) s.
Proof. intros [R _]. by eapply free_scan_best. Qed.


(** ** The cache buffer_init makes *)

Lemma fresh_seg n L m : forall i P N, (i + m <= n)%nat ->
  (forall j, (i <= j < i + m)%nat -> P !! j = Some (Some (if (j =? 0)%nat then n - 1 else j - 1)%nat) /\
     N !! j = Some (Some (if (j =? n - 1)%nat then 0 else j + 1)%nat)) -> L = seq i m ->
  seg P N (Some (if (i =? 0)%nat then n - 1 else i - 1)%nat) L (Some (if (i + m =? n)%nat then 0 else i + m)%nat).
Proof.
  revert L. induction m as [|m IH]; intros L i P N Hi Hj ->; [done|]. cbn [seq seg].
  destruct (Hj i ltac:(lia)) as [-> ->]. split_and!; [done| |].
  - do 2 f_equal. destruct m; cbn [seq hd_or].
    + repeat case_match; rewrite ?Nat.eqb_eq, ?Nat.eqb_neq in *; f_equal; lia.
    + destruct (Nat.eqb_spec i (n - 1)); [lia|]. f_equal. lia.
  - specialize (IH (seq (S i) m) (S i) P N ltac:(lia) ltac:(intros j Hj'; apply Hj; lia) eq_refl).
    replace (S i - 1)%nat with i in IH by lia. replace (S i + m)%nat with (i + S m)%nat in IH by lia. exact IH.
Qed.
(** A table of fresh buffers is a cache in which no block is held. *)
Lemma fresh_cache s n addrs : length addrs = n -> n <> 0%nat ->
  k_bufs s = zip_with (fresh_buffer n) (seq 0 n) addrs -> k_free_list s = Some 0%nat ->
  k_hash_table s = replicate (Z.to_nat NR_HASH) None ->
  cache_is (seq 0 n) (replicate (Z.to_nat NR_HASH) []) s.
Proof.
  intros Hl Hn Eb Ef Et.
  assert (Hb : forall i h, k_bufs s !! i = Some h -> (i < n)%nat /\ exists a, h = fresh_buffer n i a).
  { intros i h. rewrite Eb. intros (j & a & E & [-> ?]%lookup_seq & Ha)%lookup_zip_with_Some. eauto. }
  assert (Hlen : length (k_bufs s) = n) by (rewrite Eb, length_zip_with, length_seq; lia).
  assert (Hex : forall j, (j < n)%nat -> exists a, k_bufs s !! j = Some (fresh_buffer n j a)).
  { intros j Hj. rewrite <-Hlen in Hj. apply lookup_lt_is_Some in Hj as [h Hh].
    destruct (Hb _ _ Hh) as [_ [a ->]]. by exists a. }
  split; [split; split|]; cbn [links_of l_prev l_next l_prev_free l_next_free l_core l_table l_root];
    rewrite ?length_fmap, ?Hlen; try done.
  - apply NoDup_seq.
  - intros b. rewrite elem_of_seq. naive_solver lia.
  - rewrite Ef. by destruct n.
  - unfold circ. pose proof (fresh_seg n (seq 0 n) n 0 (b_prev_free <$> k_bufs s) (b_next_free <$> k_bufs s)
      ltac:(lia)) as Hs. cbn [Nat.add Nat.eqb] in Hs. rewrite Nat.eqb_refl in Hs.
    destruct n as [|n]; [done|]. replace (hd_or None (seq 0 (S n))) with (Some 0%nat) by done.
    replace (last_or None (seq 0 (S n))) with (Some (S n - 1)%nat)
      by (rewrite seq_S, last_or_snoc; f_equal; lia).
    apply Hs; [|done]. intros j Hj. destruct (Hex j ltac:(lia)) as [a Ea]. by rewrite !list_lookup_fmap, Ea.
  - intros h l [-> _]%lookup_replicate. constructor.
  - intros h l [-> _]%lookup_replicate. done.
  - intros h l b [-> _]%lookup_replicate. split; [set_solver|]. intros (_ & c & Hc & Hd & _).
    rewrite list_lookup_fmap in Hc. apply fmap_Some in Hc as (x & Hx & ->).
    destruct (Hb _ _ Hx) as [_ [a ->]]. done.
  - intros b c Hc _ _. rewrite list_lookup_fmap in Hc. apply fmap_Some in Hc as (x & Hx & ->).
    rewrite !list_lookup_fmap, Hx. destruct (Hb _ _ Hx) as [_ [a ->]]. done.
  - intros b b' c c' Hc _ Hd. destruct (Hb _ _ Hc) as [_ [a ->]]. done.
Qed.

(** The data blocks, from the top of the memory down. *)
Lemma buffer_blocks_layout fuel start : forall b n, b mod BLOCK_SIZE = 0 -> b <= 0xA0000 \/ 0x100000 < b ->
  forall i a, buffer_blocks fuel start b n !! i = Some a ->
    a + BLOCK_SIZE <= b /\ start + 36 * (n + Z.of_nat i + 1) <= a /\
    (a + BLOCK_SIZE <= 0xA0000 \/ 0x100000 <= a) /\
    forall j a', (i < j)%nat -> buffer_blocks fuel start b n !! j = Some a' -> a' + BLOCK_SIZE <= a.
Proof.
  induction fuel as [|fuel IH]; intros b n Hb Hgap i a Hi; [done|]. cbn [buffer_blocks] in *.
  destruct (_ <? _) eqn:E; [done|]. apply Z.ltb_ge in E.
  set (b' := if b - BLOCK_SIZE =? 0x100000 then 0xA0000 else b - BLOCK_SIZE) in *.
  change BLOCK_SIZE with 1024 in *.
  assert (b' mod 1024 = 0 /\ (b' <= 0xA0000 \/ 0x100000 < b') /\ b' <= b - 1024 /\ (b - 1024 <= 0xA0000 - 1024 \/ 0x100000 <= b - 1024))
    as (Hb' & Hg' & Hle & Ha).
  { unfold b'. pose proof (Z.div_mod b 1024 ltac:(lia)). destruct (Z.eqb_spec (b - 1024) 0x100000).
    - split_and!; [done|lia|lia|lia].
    - split_and!; [rewrite Z.mod_divide in * by lia; destruct Hb as [k ->]; exists (k - 1); lia|lia|lia|lia]. }
  specialize (IH b' (n + 1) Hb' Hg'). destruct i as [|i]; cbn in Hi.
  - injection Hi as <-. split_and!; [lia|lia|lia|]. intros [|j] a' Hj Ha'; [lia|]. cbn in Ha'.
    destruct (IH _ _ Ha') as [? _]. lia.
  - destruct (IH _ _ Hi) as (H1 & H2 & H3 & H4). split_and!; [lia|lia|done|].
    intros [|j] a' Hj Ha'; [lia|]. cbn in Ha'. by eapply (H4 j); [lia|].
Qed.
Lemma buffer_blocks_fuel start f1 : forall f2 b n, 0 < start -> 0 <= n -> b <= BLOCK_SIZE * Z.of_nat f1 ->
  b <= BLOCK_SIZE * Z.of_nat f2 -> buffer_blocks f1 start b n = buffer_blocks f2 start b n.
Proof.
  change BLOCK_SIZE with 1024.
  induction f1 as [|f1 IH]; intros [|f2] b n Hs Hn H1 H2; cbn [buffer_blocks]; change BLOCK_SIZE with 1024; [done| | |].
  - by replace (_ <? _) with true by lia.
  - by replace (_ <? _) with true by lia.
  - destruct (_ <? _); [done|]. f_equal. destruct (Z.eqb_spec (b - 1024) 0x100000); apply IH; lia.
Qed.

(** The top of the buffer memory: below the video memory and the BIOS when the
    memory ends with them. *)
Definition buffer_top (buffer_end : Z) : Z := if buffer_end =? 2 ^ 20 then 640 * 1024 else buffer_end.

(** C33: [buffer_init], given memory for at least one buffer, makes a cache
    that holds no block, of all the buffers for which there is room; their
    data blocks are disjoint, lie above the buffer heads and below the end of
    the memory, and avoid the video memory and the BIOS. *)
Theorem buffer_init_spec buffer_end s :
  0 < k_start_buffer s -> buffer_end mod BLOCK_SIZE = 0 -> buffer_end <= 0xA0000 \/ 0x100000 <= buffer_end ->
  k_start_buffer s + 36 + BLOCK_SIZE <= buffer_top buffer_end ->
  wp (buffer_init buffer_end) (fun _ s' => let n := NR_BUFFERS s' in
    cache_is (seq 0 n) (replicate (Z.to_nat NR_HASH) []) s' /\ k_start_buffer s' = k_start_buffer s /\
    (forall fuel, buffer_end / BLOCK_SIZE < Z.of_nat fuel ->
      b_addr <$> k_bufs s' = buffer_blocks fuel (k_start_buffer s) (buffer_top buffer_end) 0) /\
    forall b h, k_bufs s' !! b = Some h ->
      b_dev h = 0 /\ b_count h = 0 /\ b_dirt h = 0 /\ b_uptodate h = 0 /\ b_lock h = 0 /\
      k_start_buffer s + 36 * Z.of_nat n <= b_addr h /\ b_addr h + BLOCK_SIZE <= buffer_top buffer_end /\
      (b_addr h + BLOCK_SIZE <= 0xA0000 \/ 0x100000 <= b_addr h) /\
      forall b' h', (b < b')%nat -> k_bufs s' !! b' = Some h' -> b_addr h' + BLOCK_SIZE <= b_addr h) s.
Proof.
  intros Hs Hm Hgap Hroom. unfold buffer_init. fold (buffer_top buffer_end). apply wpg_bind, wpg_gets.
  set (fuel := S _). set (start := k_start_buffer s) in *. set (top := buffer_top buffer_end) in *.
  assert (top mod BLOCK_SIZE = 0 /\ (top <= 0xA0000 \/ 0x100000 < top) /\ top <= buffer_end) as (Htm & Htg & Hte).
  { unfold top, buffer_top. destruct (Z.eqb_spec buffer_end (2 ^ 20)); split_and!; first [done|lia]. }
  assert (Hlay := buffer_blocks_layout fuel start top 0 Htm Htg).
  assert (Hfuel : forall f, buffer_end / BLOCK_SIZE < Z.of_nat f ->
    buffer_blocks fuel start top 0 = buffer_blocks f start top 0).
  { intros f Hf. change BLOCK_SIZE with 1024 in *. pose proof (Z.div_mod buffer_end 1024 ltac:(lia)).
    apply buffer_blocks_fuel; change BLOCK_SIZE with 1024; unfold fuel; change BLOCK_SIZE with 1024; lia. }
  assert (Hne : buffer_blocks fuel start top 0 <> []).
  { unfold fuel. cbn [buffer_blocks]. by replace (_ <? _) with false by lia. }
  set (l := buffer_blocks fuel start top 0) in *. clearbody l fuel.
  destruct (length l =? 0)%nat eqn:E; [by destruct l|]. apply Nat.eqb_neq in E.
  do 2 (apply wpg_bind, wpg_modify). apply wpg_modify. cbv zeta. set (s' := set_field k_hash_table _ _).
  assert (Eb : k_bufs s' = zip_with (fresh_buffer (length l)) (seq 0 (length l)) l) by done.
  assert (En : NR_BUFFERS s' = length l).
  { unfold NR_BUFFERS. rewrite Eb, length_zip_with, length_seq. lia. }
  rewrite En. split_and!; [by eapply fresh_cache|done| |].
  - intros f Hf. rewrite <-Hfuel by done. rewrite Eb. apply list_eq. intros i.
    rewrite list_lookup_fmap, lookup_zip_with. destruct (l !! i) as [a|] eqn:Ei; [|by destruct (seq _ _ !! i)].
    by rewrite lookup_seq_lt by (by eapply lookup_lt_Some).
  - assert (Hb : forall i h, k_bufs s' !! i = Some h -> exists a, l !! i = Some a /\ h = fresh_buffer (length l) i a).
    { intros i h. rewrite Eb. intros (j & a & -> & [-> _]%lookup_seq & Ha)%lookup_zip_with_Some. eauto. }
    intros b h (a & Ha & ->)%Hb. destruct (Hlay _ _ Ha) as (H1 & H2 & H3 & H4).
    split_and!; try done.
    + destruct (lookup_lt_is_Some_2 l (length l - 1) ltac:(lia)) as [z Hz].
      destruct (Hlay _ _ Hz) as (_ & Hz2 & _). cbn [b_addr fresh_buffer].
      assert (z <= a); [|lia]. destruct (decide (b = length l - 1)%nat) as [->|].
      * rewrite Ha in Hz. injection Hz as ->. lia.
      * apply lookup_lt_Some in Ha as Hlt. pose proof (H4 (length l - 1)%nat z ltac:(lia) Hz). change BLOCK_SIZE with 1024 in *. lia.
    + intros b' h' Hbb (a' & Ha' & ->)%Hb. by eapply H4.
Qed.

(** ** A cache of two buffers *)

Definition two_buffers : kernel :=
  set_field k_bufs (fun _ => zip_with (fresh_buffer 2) (seq 0 2) [0x9FC00; 0x9F800])
    (set_field k_free_list (fun _ => Some 0%nat) (boot_kernel 0 0x20000)).
Lemma two_buffers_cache : cache_is [0; 1]%nat (replicate (Z.to_nat NR_HASH) []) two_buffers.
Proof. by apply (fresh_cache two_buffers 2 [0x9FC00; 0x9F800]). Qed.
Lemma two_buffers_at b h : k_bufs two_buffers !! b = Some h ->
  b_dev h = 0 /\ b_blocknr h = 0 /\ b_count h = 0 /\ b_dirt h = 0 /\ b_lock h = 0.
Proof. by destruct b as [|[|b]]; [intros [= <-]..|]. Qed.

(** Block 7 of device 0x301 goes to buffer 0, the oldest one, which becomes
    the youngest. *)
Lemma take_buffer_spec_witness :
  wp (take_buffer 0 0x301 7) (fun _ s' =>
    exists H, cache_is [1; 0]%nat H s' /\ H !! _hashfn 0x301 7 = Some [0%nat] /\ one_buffer_per_block s') two_buffers.
Proof.
  eapply wp_mono.
  - apply (take_buffer_spec [0; 1]%nat (replicate (Z.to_nat NR_HASH) []) two_buffers 0 (fresh_buffer 2 0 0x9FC00) 0x301 7).
    + exact two_buffers_cache.
    + reflexivity.
    + cbn. lia.
    + intros b' h' (-> & -> & _)%two_buffers_at [E _]. by vm_compute in E.
  - intros [] s' [[R U] _]. eexists. split; [exact (conj R U)|]. split; [by vm_compute|done].
Defined.
Lemma find_buffer_spec_witness :
  wp (find_buffer 0x301 7) (fun o s' => s' = two_buffers /\ o = None) two_buffers.
Proof.
  eapply wp_mono.
  - by apply (find_buffer_spec [0; 1]%nat (replicate (Z.to_nat NR_HASH) []) two_buffers 0x301 7 two_buffers_cache).
  - intros [b|] s' [-> Ho]; [|done]. exfalso.
    destruct (proj1 (holds_true _ _ _ _) (proj1 (Ho b) eq_refl)) as (h & (E & _)%two_buffers_at & E' & _).
    congruence.
Defined.
Lemma free_scan_spec_witness :
  wp free_scan (fun o s' => s' = two_buffers /\ best two_buffers [0; 1]%nat o) two_buffers.
Proof.
  apply (free_scan_spec [0; 1]%nat (replicate (Z.to_nat NR_HASH) []) two_buffers two_buffers_cache); [done|].
  intros b h (_ & _ & _ & -> & ->)%two_buffers_at. lia.
Defined.
Lemma buffer_init_spec_witness :
  wp (buffer_init 0x21000) (fun _ s' => cache_is (seq 0 (NR_BUFFERS s')) (replicate (Z.to_nat NR_HASH) []) s' /\
    b_addr <$> k_bufs s' = [0x20C00; 0x20800; 0x20400]) (boot_kernel 0 0x20000).
Proof.
  eapply wp_mono.
  - apply (buffer_init_spec 0x21000 (boot_kernel 0 0x20000)); [reflexivity|reflexivity|left; lia|by vm_compute].
  - intros [] s' (Hc & _ & Ha & _). split; [exact Hc|]. rewrite (Ha 133%nat) by (by vm_compute). reflexivity.
Defined.
