(* ===== verification/SuperBase.v ===== *)
(** * fs/super.c, first part: locking and finding super blocks

    [get_super] and [put_super]; mounting is in Super.v. *)

From S2P Require Import Prelude Kernel Sched Buffer.

Definition I_MAP_SLOTS : nat := 8.
Definition Z_MAP_SLOTS : nat := 8.

Definition super_q (sb : nat) : waitq := Waitq (sb->>s_wait) (st sb s_wait).

Definition free_super (sb : nat) : M kernel unit :=
  st sb s_lock 0 ;;
  wake_up (Some (super_q sb)).

Section with_world.
Context `{World}.

Definition wait_on_super (sb : nat) : M kernel unit :=
  while patience (l ← sb->>s_lock; mret (truth l)) (sleep_on (Some (super_q sb))).

Definition lock_super (sb : nat) : M kernel unit :=
  wait_on_super sb ;;
  st sb s_lock 1.

(** The search of [get_super] at entry [s]; it starts again when the entry
    changed hands while it was locked. *)
Definition get_super_step (dev : Z) (s : nat) : M kernel (nat + option nat) :=
  if (NR_SUPER <=? s)%nat then mret (inr None)
  else
    d ← s->>s_dev;
    if d =? dev then
      wait_on_super s ;;
      d ← s->>s_dev;
      mret (if d =? dev then inr (Some s) else inl 0%nat)
    else mret (inl (S s)).
Definition get_super (dev : Z) : M kernel (option nat) :=
  if negb (truth dev) then mret None
  else loop patience (get_super_step dev) 0%nat.

(** The messages about a changed root or mounted disk are not modelled. *)
Definition put_super (dev : Z) : M kernel unit :=
  root ← gets k_ROOT_DEV;
  if dev =? root then mret tt
  else
    o ← get_super dev;
    match o with
    | None => mret tt
    | Some sb =>
        im ← sb->>s_imount;
        match im with
        | Some _ => mret tt
        | None =>
            lock_super sb ;;
            st sb s_dev 0 ;;
            for_ (seq 0 I_MAP_SLOTS) (fun i => l ← sb->>s_imap; brelse (default None (l !! i))) ;;
            for_ (seq 0 Z_MAP_SLOTS) (fun i => l ← sb->>s_zmap; brelse (default None (l !! i))) ;;
            free_super sb
        end
    end.
End with_world.
