(* ===== verification/Bitmap.v ===== *)
(** * fs/bitmap.c: the inode and zone bitmaps

    [new_block], [free_block] and [free_inode]; [new_inode] needs
    [get_empty_inode] and is in Inode.v. *)

From S2P Require Import Prelude Kernel Sched Blk LLRwBlk Buffer SuperBase.

(** ** Bits of a block *)

Definition bit_at (l : list Z) (nr : Z) : bool :=
  Z.testbit (default 0 (l !! Z.to_nat (nr / 8))) (nr mod 8).
(** [set_bit(nr,addr)]: the old bit; [clear_bit(nr,addr)]: whether it was clear. *)
Definition set_bit (nr : Z) (l : list Z) : Z * list Z :=
  (Z.b2z (bit_at l nr), alter (fun b => Z.lor b (2 ^ (nr mod 8))) (Z.to_nat (nr / 8)) l).
Definition clear_bit (nr : Z) (l : list Z) : Z * list Z :=
  (Z.b2z (negb (bit_at l nr)),
   alter (fun b => Z.ldiff b (2 ^ (nr mod 8))) (Z.to_nat (nr / 8)) l).

(** [bsfl]: the lowest set bit of a non-zero 32-bit word. *)
Fixpoint bsf_from (n : nat) (i w : Z) : Z :=
  match n with
  | O => i
  | S n' => if Z.testbit w i then i else bsf_from n' (i + 1) w
  end.
Definition bsf (w : Z) : Z := bsf_from 31 0 w.

(** [find_first_zero(addr)]: word by word; 8192 when every bit is set. *)
Fixpoint ffz_words (l : list Z) (ecx : Z) : Z :=
  match l with
  | [] => ecx
  | w :: l' => let eax := not32 w in
               if eax =? 0 then ffz_words l' (ecx + 32) else ecx + bsf eax
  end.
Definition find_first_zero (l : list Z) : Z := ffz_words (take 256 (le_words l)) 0.

Section with_world.
Context `{World} `{SyncInodes}.

(** [sb->s_zmap[i]], [sb->s_imap[i]]. *)
Definition map_slot (l : list (option nat)) (i : Z) : M kernel (option nat) :=
  if i <? 0 then fault else deref (l !! Z.to_nat i).

Definition free_block (dev block : Z) : M kernel unit :=
  o ← get_super dev;
  match o with
  | None => panic "trying to free block on nonexistent device"
  | Some sb =>
      first ← sb->>s_firstdatazone; nz ← sb->>s_nzones;
      if (block <? first) || (nz <=? block) then panic "trying to free block not in datazone"
      else
        o ← get_hash_table dev block;
        busy ← match o with
               | None => mret false
               | Some bh =>
                   c ← bh->>b_count;
                   if negb (c =? 1) then mret true
                   else
                     st bh b_dirt 0 ;;
                     st bh b_uptodate 0 ;;
                     brelse (Some bh) ;;
                     mret false
               end;
        if (busy : bool) then mret tt
        else
          first ← sb->>s_firstdatazone;
          let block := block - (first - 1) in
          l ← sb->>s_zmap;
          o ← map_slot l (Z.quot block 8192);
          bh ← deref o;
          d ← bh->>b_data;
          let '(was_clear, d') := clear_bit (Z.land block 8191) d in
          st bh b_data d' ;;
          if truth was_clear then panic "free_block: bit already cleared"
          else st bh b_dirt 1
  end.

(** The first slot of a map with a free bit, and that bit. *)
Definition find_free_bit (l : list (option nat)) : M kernel (option (nat * nat * Z)) :=
  for_break (seq 0 8) (fun i =>
    match default None (l !! i) with
    | None => mret None
    | Some bh =>
        d ← bh->>b_data;
        let j := find_first_zero d in
        mret (if j <? 8192 then Some (i, bh, j) else None)
    end).

Definition new_block (dev : Z) : M kernel Z :=
  o ← get_super dev;
  match o with
  | None => panic "trying to get new block from nonexistant device"
  | Some sb =>
      l ← sb->>s_zmap;
      o ← find_free_bit l;
      match o with
      | None => mret 0
      | Some (i, bh, j) =>
          d ← bh->>b_data;
          let '(was_set, d') := set_bit j d in
          st bh b_data d' ;;
          if truth was_set then panic "new_block: bit already set"
          else
            st bh b_dirt 1 ;;
            first ← sb->>s_firstdatazone;
            let j := j + (Z.of_nat i * 8192 + first - 1) in
            nz ← sb->>s_nzones;
            if nz <=? j then mret 0
            else
              bh ← getblk dev j;
              c ← bh->>b_count;
              if negb (c =? 1) then panic "new block: count is != 1"
              else
                st bh b_data (replicate 1024 0) ;;
                st bh b_uptodate 1 ;;
                st bh b_dirt 1 ;;
                brelse (Some bh) ;;
                mret j
      end
  end.

Definition free_inode (inode : option nat) : M kernel unit :=
  match inode with
  | None => mret tt
  | Some ino =>
      dev ← ino->>i_dev;
      if negb (truth dev) then updr ino (fun _ => zero_inode)
      else
        c ← ino->>i_count;
        if 1 <? c then panic "free_inode"
        else
          nl ← ino->>i_nlinks;
          if truth nl then panic "trying to free inode with links"
          else
            o ← get_super dev;
            match o with
            | None => panic "trying to free inode on nonexistent device"
            | Some sb =>
                num ← ino->>i_num; n ← sb->>s_ninodes;
                if (num <? 1) || (n <? num) then panic "trying to free inode 0 or nonexistant inode"
                else
                  l ← sb->>s_imap;
                  o ← map_slot l (Z.shiftr num 13);
                  match o with
                  | None => panic "nonexistent imap in superblock"
                  | Some bh =>
                      d ← bh->>b_data;
                      st bh b_data (snd (clear_bit (Z.land num 8191) d)) ;;
                      st bh b_dirt 1 ;;
                      updr ino (fun _ => zero_inode)
                  end
            end
  end.
End with_world.

(** ** Lemmas: the bit operations *)

Definition bytes_ok (l : list Z) : Prop := Forall (fun b => 0 <= b < 256) l.

Lemma alter_back {A} (f g : A -> A) i (l : list A) :
  (forall b, l !! i = Some b -> f (g b) = b) -> alter f i (alter g i l) = l.
Proof.
  intros H. apply list_eq. intros j. destruct (decide (i = j)) as [->|].
  - rewrite !list_lookup_alter_eq. destruct (l !! j) as [b|]; [|done]. cbn. by rewrite H.
  - by rewrite !list_lookup_alter_ne.
Qed.

Lemma bit_at_alter_same f l nr :
  0 <= nr < 8 * Z.of_nat (length l) ->
  bit_at (alter f (Z.to_nat (nr / 8)) l) nr =
  Z.testbit (f (default 0 (l !! Z.to_nat (nr / 8)))) (nr mod 8).
Proof.
  intros Hnr. unfold bit_at.
  destruct (lookup_lt_is_Some_2 l (Z.to_nat (nr / 8))) as [b Hb].
  { assert (nr / 8 < Z.of_nat (length l)) by (apply Z.div_lt_upper_bound; lia).
    pose proof (Z.div_pos nr 8). lia. }
  by rewrite list_lookup_alter_eq, Hb.
Qed.

Lemma bit_at_alter_other f l nr m :
  0 <= nr -> 0 <= m -> nr <> m ->
  (forall b, Z.testbit (f b) (m mod 8) = Z.testbit b (m mod 8) \/ nr / 8 <> m / 8) ->
  bit_at (alter f (Z.to_nat (nr / 8)) l) m = bit_at l m.
Proof.
  intros Hn Hm Hne Hf. unfold bit_at.
  destruct (decide (nr / 8 = m / 8)) as [He|He].
  - rewrite He, list_lookup_alter_eq. destruct (l !! _) as [b|]; [|done]. cbn.
    destruct (Hf b); [done|congruence].
  - rewrite list_lookup_alter_ne; [done|]. pose proof (Z.div_pos nr 8). pose proof (Z.div_pos m 8). lia.
Qed.

Lemma same_byte_other_bit nr m : nr <> m -> nr / 8 = m / 8 -> nr mod 8 <> m mod 8.
Proof. intros H1 H2 H3. apply H1. rewrite (Z.div_mod nr 8), (Z.div_mod m 8) by lia. congruence. Qed.

(** [set_bit] and [clear_bit] return the old state of their bit, set or
    clear it and leave every other bit of the map alone; so clearing a bit that
    was just set gives the map back. *)
Theorem bit_operations l nr :
  0 <= nr < 8 * Z.of_nat (length l) ->
  set_bit nr l = (Z.b2z (bit_at l nr), snd (set_bit nr l)) /\
  clear_bit nr l = (Z.b2z (negb (bit_at l nr)), snd (clear_bit nr l)) /\
  (forall m, 0 <= m -> bit_at (snd (set_bit nr l)) m = if m =? nr then true else bit_at l m) /\
  (forall m, 0 <= m -> bit_at (snd (clear_bit nr l)) m = if m =? nr then false else bit_at l m) /\
  (bit_at l nr = false -> clear_bit nr (snd (set_bit nr l)) = (0, l)).
Proof.
  intros Hnr. split; [done|]. split; [done|].
  assert (Hr : 0 <= nr mod 8 < 8) by (apply Z.mod_pos_bound; lia).
  assert (Hset : forall m, 0 <= m -> bit_at (snd (set_bit nr l)) m = if m =? nr then true else bit_at l m).
  { intros m Hm. cbn. destruct (Z.eqb_spec m nr) as [->|Hne].
    - rewrite bit_at_alter_same by done. rewrite Z.lor_spec, Z.pow2_bits_true by lia. apply orb_true_r.
    - apply bit_at_alter_other; [lia..|congruence|]. intros b.
      destruct (decide (nr / 8 = m / 8)) as [He|]; [left|by right].
      rewrite Z.lor_spec, Z.pow2_bits_false, orb_false_r; [done|].
      by apply same_byte_other_bit; [congruence|]. }
  split; [exact Hset|]. split.
  - intros m Hm. cbn. destruct (Z.eqb_spec m nr) as [->|Hne].
    + rewrite bit_at_alter_same by done. rewrite Z.ldiff_spec, Z.pow2_bits_true by lia.
      apply andb_false_r.
    + apply bit_at_alter_other; [lia..|congruence|]. intros b.
      destruct (decide (nr / 8 = m / 8)) as [He|]; [left|by right].
      rewrite Z.ldiff_spec, Z.pow2_bits_false; [apply andb_true_r|].
      by apply same_byte_other_bit; [congruence|].
  - intros Hclear. unfold clear_bit. rewrite Hset, Z.eqb_refl by lia. f_equal. cbn.
    apply alter_back. intros b Hb. apply Z.bits_inj'. intros n Hn.
    rewrite Z.ldiff_spec, Z.lor_spec, Z.pow2_bits_eqb by lia.
    destruct (Z.eqb_spec (nr mod 8) n) as [<-|]; [|by rewrite orb_false_r, andb_true_r].
    unfold bit_at in Hclear. rewrite Hb in Hclear. cbn in Hclear. by rewrite Hclear.
Qed.
Lemma bit_operations_witness :
  bit_at (replicate 8 5) 9 = false /\
  clear_bit 9 (snd (set_bit 9 (replicate 8 5))) = (0, replicate 8 5).
Proof.
  assert (H : bit_at (replicate 8 5) 9 = false) by reflexivity. split; [exact H|].
  destruct (bit_operations (replicate 8 5) 9) as (_ & _ & _ & _ & Hc).
  - cbn. lia.
  - exact (Hc H).
Defined.

Lemma testbit_cons a r i :
  0 <= a < 256 -> 0 <= i -> Z.testbit (a + 2 ^ 8 * r) i = if i <? 8 then Z.testbit a i else Z.testbit r (i - 8).
Proof.
  intros Ha Hi. destruct (Z.ltb_spec i 8).
  - rewrite <- (Z.mod_pow2_bits_low _ 8) by lia.
    rewrite (Z.mul_comm (2 ^ 8)), Z.mod_add by lia. f_equal. apply Z.mod_small. lia.
  - replace i with (i - 8 + 8) at 1 by lia. rewrite <- Z.div_pow2_bits by lia.
    rewrite (Z.mul_comm (2 ^ 8)), Z.div_add by lia. by rewrite Z.div_small by lia.
Qed.

Lemma bit_at_cons b l m : 0 <= m -> bit_at (b :: l) m = if m <? 8 then Z.testbit b m else bit_at l (m - 8).
Proof.
  intros Hm. unfold bit_at. destruct (Z.ltb_spec m 8).
  - by rewrite Z.div_small, Z.mod_small by lia.
  - replace m with (m - 8 + 1 * 8) at 1 2 by lia. rewrite Z.div_add, Z.mod_add by lia.
    pose proof (Z.div_pos (m - 8) 8). by replace (Z.to_nat ((m - 8) / 8 + 1)) with (S (Z.to_nat ((m - 8) / 8))) by lia.
Qed.

(** The words of a block have the block's bits. *)
Lemma le_words_bit a b c d l i :
  bytes_ok (a :: b :: c :: d :: l) -> 0 <= i < 32 ->
  Z.testbit (a + 2 ^ 8 * b + 2 ^ 16 * c + 2 ^ 24 * d) i = bit_at (a :: b :: c :: d :: l) i.
Proof.
  intros Hok Hi. unfold bytes_ok in Hok. rewrite !Forall_cons in Hok.
  destruct Hok as (Ha & Hb & Hc & Hd & _).
  replace (a + 2 ^ 8 * b + 2 ^ 16 * c + 2 ^ 24 * d) with (a + 2 ^ 8 * (b + 2 ^ 8 * (c + 2 ^ 8 * d))) by lia.
  rewrite testbit_cons, bit_at_cons by lia. destruct (Z.ltb_spec i 8); [done|].
  rewrite testbit_cons, bit_at_cons by lia. destruct (Z.ltb_spec (i - 8) 8); [done|].
  rewrite testbit_cons, bit_at_cons by lia. destruct (Z.ltb_spec (i - 8 - 8) 8); [done|].
  rewrite bit_at_cons by lia. by rewrite (proj2 (Z.ltb_lt _ _)) by lia.
Qed.

Lemma not32_bit w i : 0 <= i -> Z.testbit (not32 w) i = (i <? 32) && negb (Z.testbit w i).
Proof.
  intros Hi. unfold not32, u32. destruct (Z.ltb_spec i 32).
  - rewrite Z.mod_pow2_bits_low, Z.lnot_spec by lia. done.
  - rewrite Z.mod_pow2_bits_high by lia. done.
Qed.

Lemma not32_zero w : not32 w = 0 <-> forall i, 0 <= i < 32 -> Z.testbit w i = true.
Proof.
  split.
  - intros H i Hi. pose proof (not32_bit w i). rewrite H, Z.bits_0, (proj2 (Z.ltb_lt _ _)) in H0 by lia.
    destruct (Z.testbit w i); [done|]. by specialize (H0 ltac:(lia)).
  - intros H. apply Z.bits_inj'. intros i Hi. rewrite not32_bit, Z.bits_0 by done.
    destruct (Z.ltb_spec i 32); [|done]. by rewrite H by lia.
Qed.

Lemma bsf_from_spec n i w :
  0 <= i -> (exists j, i <= j <= i + Z.of_nat n /\ Z.testbit w j = true) ->
  let r := bsf_from n i w in
  i <= r <= i + Z.of_nat n /\ Z.testbit w r = true /\ forall m, i <= m < r -> Z.testbit w m = false.
Proof.
  revert i. induction n as [|n IH]; intros i Hi (j & Hj & Hb); cbn [bsf_from]; cbv zeta.
  - replace j with i in Hb by lia. split_and!; [lia..|done|lia].
  - destruct (Z.testbit w i) eqn:E; [split_and!; [lia..|done|lia]|].
    destruct (IH (i + 1)) as (H1 & H2 & H3); [lia|exists j; split; [|done]; destruct (decide (j = i)); [congruence|lia]|].
    split_and!; [lia..|done|]. intros m Hm. destruct (decide (m = i)) as [->|]; [done|apply H3; lia].
Qed.

Lemma ffz_words_spec n l ecx :
  length l = (4 * n)%nat -> bytes_ok l ->
  let j := ffz_words (le_words l) ecx - ecx in
  (j = 32 * Z.of_nat n /\ forall m, 0 <= m < 32 * Z.of_nat n -> bit_at l m = true) \/
  (0 <= j < 32 * Z.of_nat n /\ bit_at l j = false /\ forall m, 0 <= m < j -> bit_at l m = true).
Proof.
  revert l ecx. induction n as [|n IH]; intros l ecx Hl Hok; cbv zeta.
  { destruct l; [|done]. left. cbn. split; [lia|]. intros m Hm. lia. }
  destruct l as [|a [|b [|c [|d l]]]]; cbn in Hl; try lia. cbn [le_words ffz_words].
  assert (Hw : forall i, 0 <= i < 32 -> Z.testbit (a + 2 ^ 8 * b + 2 ^ 16 * c + 2 ^ 24 * d) i
                                        = bit_at (a :: b :: c :: d :: l) i).
  { intros. by apply le_words_bit. }
  assert (Hrest : forall m, 32 <= m -> bit_at (a :: b :: c :: d :: l) m = bit_at l (m - 32)).
  { intros m Hm. rewrite !bit_at_cons, !(proj2 (Z.ltb_ge _ _)) by lia. f_equal. lia. }
  set (w := a + 2 ^ 8 * b + 2 ^ 16 * c + 2 ^ 24 * d) in *.
  destruct (Z.eqb_spec (not32 w) 0) as [E|E].
  - rewrite not32_zero in E.
    assert (Hok' : bytes_ok l) by (unfold bytes_ok in *; rewrite !Forall_cons in Hok; tauto).
    destruct (IH l (ecx + 32) ltac:(lia) Hok') as [[H1 H2]|(H1 & H2 & H3)]; [left|right].
    + split; [lia|]. intros m Hm. destruct (decide (m < 32)); [rewrite <- Hw by lia; apply E; lia|].
      rewrite Hrest by lia. apply H2. lia.
    + split_and!; [lia..| |].
      * rewrite Hrest by lia. rewrite <- H2. f_equal. lia.
      * intros m Hm. destruct (decide (m < 32)); [rewrite <- Hw by lia; apply E; lia|].
        rewrite Hrest by lia. apply H3. lia.
  - right.
    assert (Hex : exists j, 0 <= j <= 0 + Z.of_nat 31 /\ Z.testbit (not32 w) j = true).
    { destruct (decide (Exists (fun i => Z.testbit (not32 w) i = true) (seqZ 0 32))) as [Hx|Hx].
      - apply Exists_exists in Hx as (j & Hj & Hb). apply elem_of_seqZ in Hj. exists j. split; [lia|done].
      - destruct E. apply Z.bits_inj'. intros i Hi. rewrite Z.bits_0, not32_bit by done.
        destruct (Z.ltb_spec i 32); [|done]. cbn [andb].
        destruct (negb (Z.testbit w i)) eqn:Eb; [|done]. destruct Hx. apply Exists_exists. exists i.
        split; [apply elem_of_seqZ; lia|]. rewrite not32_bit, Eb, (proj2 (Z.ltb_lt _ _)) by lia. done. }
    destruct (bsf_from_spec 31 0 (not32 w) ltac:(lia) Hex) as (H1 & H2 & H3). fold (bsf (not32 w)) in *.
    replace (ecx + bsf (not32 w) - ecx) with (bsf (not32 w)) by lia.
    split_and!; [lia..| |].
    + rewrite <- Hw by lia. rewrite not32_bit, (proj2 (Z.ltb_lt _ _)) in H2 by lia.
      by destruct (Z.testbit w _).
    + intros m Hm. rewrite <- Hw by lia. specialize (H3 m Hm).
      rewrite not32_bit, (proj2 (Z.ltb_lt _ _)) in H3 by lia. by destruct (Z.testbit w m).
Qed.

(** [find_first_zero] on a block of 1024 bytes: the lowest clear bit, or
    8192 when every bit is set. *)
Theorem find_first_zero_spec l :
  length l = 1024%nat -> bytes_ok l ->
  let j := find_first_zero l in
  (j = 8192 /\ forall m, 0 <= m < 8192 -> bit_at l m = true) \/
  (0 <= j < 8192 /\ bit_at l j = false /\ forall m, 0 <= m < j -> bit_at l m = true).
Proof.
  intros Hl Hok. unfold find_first_zero.
  replace (take 256 (le_words l)) with (le_words l); [|symmetry; apply take_ge].
  - pose proof (ffz_words_spec 256 l 0 Hl Hok) as H. cbv zeta in *. rewrite Z.sub_0_r in H. exact H.
  - assert (Hlen : forall n l, length l = (4 * n)%nat -> length (le_words l) = n).
    { clear. induction n as [|n IH]; intros l Hl; [by destruct l|].
      destruct l as [|a [|b [|c [|d l]]]]; cbn in Hl; try lia. cbn. rewrite IH; lia. }
    rewrite (Hlen 256%nat); [lia|done].
Qed.
Lemma find_first_zero_spec_witness :
  let l := replicate 40 255 ++ 127 :: replicate 983 0 in
  find_first_zero l = 327 /\ bit_at l 327 = false /\ forall m, 0 <= m < 327 -> bit_at l m = true.
Proof.
  intros l. assert (Hj : find_first_zero l = 327) by reflexivity. split; [exact Hj|].
  destruct (find_first_zero_spec l) as [[H _]|(_ & H2 & H3)].
  - reflexivity.
  - apply Forall_app. split; [apply Forall_replicate; lia|].
    apply Forall_cons. split; [lia|apply Forall_replicate; lia].
  - rewrite Hj in H. discriminate.
  - rewrite Hj in H2, H3. split; assumption.
Defined.
