(* ===== verification/Inode.v ===== *)
(** * fs/inode.c, fs/truncate.c: the inode table and block mapping

    Reading, writing and releasing inodes ([iget], [iput], [sync_inodes]), the
    mapping of file blocks to disk blocks ([bmap], [create_block]) and its
    destruction ([truncate]).  Writing an inode can make the buffer cache write
    dirty buffers, which writes dirty inodes: that recursion is cut at
    [NR_INODE] nested calls, each of which holds the lock of another inode. *)

From S2P Require Import Prelude Kernel Sched Memory Blk LLRwBlk Requests Buffer SuperBase Bitmap.

Definition ROOT_INO : Z := 1.
Definition INODES_PER_BLOCK : Z := 32.
Definition SUPER_MAGIC : Z := 0x137F.

(** [PIPE_HEAD(inode)], [PIPE_TAIL(inode)]. *)
Definition PIPE_HEAD (i : m_inode) : Z := default 0 (i_zone i !! 0%nat).
Definition PIPE_TAIL (i : m_inode) : Z := default 0 (i_zone i !! 1%nat).

(** ** The inode on disk: 32 bytes *)

Definition le16 (v : Z) : list Z := [u8 v; u8 (Z.shiftr v 8)].
Definition le32 (v : Z) : list Z :=
  [u8 v; u8 (Z.shiftr v 8); u8 (Z.shiftr v 16); u8 (Z.shiftr v 24)].
Definition byte_at (l : list Z) (i : nat) : Z := default 0 (l !! i).
Definition get16 (l : list Z) (i : nat) : Z := byte_at l i + 2 ^ 8 * byte_at l (i + 1).
Definition get32 (l : list Z) (i : nat) : Z :=
  byte_at l i + 2 ^ 8 * byte_at l (i + 1) + 2 ^ 16 * byte_at l (i + 2) + 2 ^ 24 * byte_at l (i + 3).

(** [write_inode]: the bytes that the assignment [((struct d_inode * )
    bh->b_data)[...] = *(struct d_inode * )inode] stores, fields in the order of
    [struct d_inode], the low byte of each first. *)
Definition d_inode_bytes (i : m_inode) : list Z :=
  le16 (i_mode i) ++ le16 (i_uid i) ++ le32 (i_size i) ++ le32 (i_mtime i) ++
  [u8 (i_gid i); u8 (i_nlinks i)] ++ concat (le16 <$> i_zone i).
(** [read_inode]: the assignment [*(struct d_inode * )inode = ...] of the bytes
    [l] to the first seven fields of the inode. *)
Definition set_d_inode (l : list Z) (i : m_inode) : m_inode :=
  set_field i_mode (fun _ => get16 l 0)
  (set_field i_uid (fun _ => get16 l 2)
  (set_field i_size (fun _ => get32 l 4)
  (set_field i_mtime (fun _ => get32 l 8)
  (set_field i_gid (fun _ => byte_at l 12)
  (set_field i_nlinks (fun _ => byte_at l 13)
  (set_field i_zone (fun _ => (fun k => get16 l (14 + 2 * k)) <$> seq 0 9) i)))))).

Definition inode_q (ino : nat) : waitq := Waitq (ino->>i_wait) (st ino i_wait).
Definition unlock_inode (ino : nat) : M kernel unit :=
  st ino i_lock 0 ;;
  wake_up (Some (inode_q ino)).

(** [inode->i_zone[i]] and its assignment. *)
Definition zone (ino i : nat) : M kernel Z := l ← ino->>i_zone; deref (l !! i).
Definition set_zone (ino i : nat) (v : Z) : M kernel unit := upd ino i_zone (fun l => <[i := u16 v]> l).

Section with_world.
Context `{World}.

Definition wait_on_inode (ino : nat) : M kernel unit :=
  while patience (l ← ino->>i_lock; mret (truth l)) (sleep_on (Some (inode_q ino))).
Definition lock_inode (ino : nat) : M kernel unit :=
  wait_on_inode ino ;;
  st ino i_lock 1.

Definition invalidate_inodes (dev : Z) : M kernel unit :=
  for_ (seq 0 NR_INODE) (fun ino =>
    wait_on_inode ino ;;
    d ← ino->>i_dev;
    when (d =? dev) (st ino i_dirt 0 ;; st ino i_dev 0)).

Section with_sync.
Context {SI : SyncInodes}.

(** The block and the slot in it of an inode on disk. *)
Definition inode_block (sb ino : nat) : M kernel (Z * Z) :=
  im ← sb->>s_imap_blocks; zm ← sb->>s_zmap_blocks; num ← ino->>i_num;
  mret (s32 (2 + im + zm + u32 (num - 1) / INODES_PER_BLOCK), u32 (num - 1) mod INODES_PER_BLOCK).

Definition read_inode (ino : nat) : M kernel unit :=
  lock_inode ino ;;
  dev ← ino->>i_dev;
  o ← get_super dev;
  match o with
  | None => panic "trying to read inode without dev"
  | Some sb =>
      '(block, slot) ← inode_block sb ino;
      o ← bread dev block;
      match o with
      | None => panic "unable to read i-node block"
      | Some bh =>
          d ← bh->>b_data;
          updr ino (set_d_inode (drop (Z.to_nat (32 * slot)) d)) ;;
          brelse (Some bh) ;;
          unlock_inode ino
      end
  end.

Definition write_inode (ino : nat) : M kernel unit :=
  lock_inode ino ;;
  dirt ← ino->>i_dirt; dev ← ino->>i_dev;
  if negb (truth dirt) || negb (truth dev) then unlock_inode ino
  else
    o ← get_super dev;
    match o with
    | None => panic "trying to write inode without device"
    | Some sb =>
        '(block, slot) ← inode_block sb ino;
        o ← bread dev block;
        match o with
        | None => panic "unable to read i-node block"
        | Some bh =>
            i ← ld ino;
            d ← bh->>b_data;
            st bh b_data (splice d (32 * slot) (d_inode_bytes i)) ;;
            st bh b_dirt 1 ;;
            st ino i_dirt 0 ;;
            brelse (Some bh) ;;
            unlock_inode ino
        end
    end.

Definition sync_inodes_body : M kernel unit :=
  for_ (seq 0 NR_INODE) (fun ino =>
    wait_on_inode ino ;;
    dirt ← ino->>i_dirt; pipe ← ino->>i_pipe;
    when (truth dirt && negb (truth pipe)) (write_inode ino)).
End with_sync.

Fixpoint sync_inodes_at (depth : nat) : M kernel unit :=
  match depth with
  | O => out_of_fuel
  | S d => sync_inodes_body (SI := sync_inodes_at d)
  end.
#[export] Instance sync_inodes_impl : SyncInodes := sync_inodes_at (S NR_INODE).

(** ** truncate.c *)

(** The entries of an indirect block are freed one after the other. *)
Definition free_entries (bh : nat) (free : Z -> M kernel unit) : M kernel unit :=
  for_ (seq 0 512) (fun i =>
    d ← bh->>b_data;
    let p := u16_at d i in
    when (truth p) (free p)).

Definition free_ind (dev block : Z) : M kernel unit :=
  if negb (truth block) then mret tt
  else
    o ← bread dev block;
    (match o with
     | Some bh => free_entries bh (free_block dev) ;; brelse (Some bh)
     | None => mret tt
     end) ;;
    free_block dev block.

Definition free_dind (dev block : Z) : M kernel unit :=
  if negb (truth block) then mret tt
  else
    o ← bread dev block;
    (match o with
     | Some bh => free_entries bh (free_ind dev) ;; brelse (Some bh)
     | None => mret tt
     end) ;;
    free_block dev block.

Definition truncate (ino : nat) : M kernel unit :=
  mode ← ino->>i_mode;
  if negb (S_ISREG mode || S_ISDIR mode) then mret tt
  else
    for_ (seq 0 7) (fun i =>
      z ← zone ino i;
      when (truth z)
        (dev ← ino->>i_dev; free_block dev z ;; set_zone ino i 0)) ;;
    dev ← ino->>i_dev; z ← zone ino 7; free_ind dev z ;;
    dev ← ino->>i_dev; z ← zone ino 8; free_dind dev z ;;
    set_zone ino 8 0 ;;
    set_zone ino 7 0 ;;
    st ino i_size 0 ;;
    st ino i_dirt 1 ;;
    t ← CURRENT_TIME;
    st ino i_ctime (u32 t) ;;
    st ino i_mtime (u32 t).

(** ** bmap *)

(** [if (create && !inode->i_zone[n]) if (inode->i_zone[n]=new_block(...)) ...]. *)
Definition fill_zone (ino n : nat) (create : bool) : M kernel unit :=
  z ← zone ino n;
  when (create && negb (truth z))
    (dev ← ino->>i_dev;
     b ← new_block dev;
     set_zone ino n b ;;
     when (truth (u16 b))
       (t ← CURRENT_TIME; st ino i_ctime (u32 t) ;; st ino i_dirt 1)).

(** The entry [n] of the indirect block in [bh], allocated if it is to be. *)
Definition fill_entry (ino bh n : nat) (create : bool) : M kernel Z :=
  d ← bh->>b_data;
  let i := u16_at d n in
  if create && negb (truth i) then
    dev ← ino->>i_dev;
    b ← new_block dev;
    when (truth b)
      (upd bh b_data (fun d => set_u16 d n b) ;; st bh b_dirt 1) ;;
    mret b
  else mret i.

(** Entry [n] of the indirect block [b]; 0 when it cannot be read. *)
Definition indirect (ino : nat) (b : Z) (n : nat) (create : bool) : M kernel Z :=
  dev ← ino->>i_dev;
  o ← bread dev b;
  match o with
  | None => mret 0
  | Some bh => i ← fill_entry ino bh n create; brelse (Some bh) ;; mret i
  end.

Definition _bmap (ino : nat) (block : Z) (create : bool) : M kernel Z :=
  if block <? 0 then panic "_bmap: block<0"
  else if 7 + 512 + 512 * 512 <=? block then panic "_bmap: block>big"
  else if block <? 7 then
    fill_zone ino (Z.to_nat block) create ;;
    zone ino (Z.to_nat block)
  else
    let block := block - 7 in
    if block <? 512 then
      fill_zone ino 7 create ;;
      z ← zone ino 7;
      if negb (truth z) then mret 0
      else indirect ino z (Z.to_nat block) create
    else
      let block := block - 512 in
      fill_zone ino 8 create ;;
      z ← zone ino 8;
      if negb (truth z) then mret 0
      else
        i ← indirect ino z (Z.to_nat (Z.shiftr block 9)) create;
        if negb (truth i) then mret 0
        else indirect ino i (Z.to_nat (Z.land block 511)) create.
Definition bmap (ino : nat) (block : Z) : M kernel Z := _bmap ino block false.
Definition create_block (ino : nat) (block : Z) : M kernel Z := _bmap ino block true.

(** ** iput, iget *)

Definition iput (inode : option nat) : M kernel unit :=
  match inode with
  | None => mret tt
  | Some ino =>
      wait_on_inode ino ;;
      c ← ino->>i_count;
      if negb (truth c) then panic "iput: trying to free free inode"
      else
        pipe ← ino->>i_pipe;
        if truth pipe then
          wake_up (Some (inode_q ino)) ;;
          upd ino i_count (fun c => u16 (c - 1)) ;;
          c ← ino->>i_count;
          if truth c then mret tt
          else
            size ← ino->>i_size;
            mm (free_page size) ;;
            st ino i_count 0 ;;
            st ino i_dirt 0 ;;
            st ino i_pipe 0
        else
          dev ← ino->>i_dev;
          if negb (truth dev) then upd ino i_count (fun c => u16 (c - 1))
          else
            mode ← ino->>i_mode;
            when (S_ISBLK mode)
              (z ← zone ino 0; sync_dev z ;; wait_on_inode ino) ;;
            loop patience (fun _ : unit =>
              c ← ino->>i_count;
              if 1 <? c then upd ino i_count (fun c => u16 (c - 1)) ;; mret (inr tt)
              else
                nl ← ino->>i_nlinks;
                if negb (truth nl) then
                  truncate ino ;; free_inode (Some ino) ;; mret (inr tt)
                else
                  dirt ← ino->>i_dirt;
                  if truth dirt then
                    write_inode ino ;; wait_on_inode ino ;; mret (inl tt)
                  else upd ino i_count (fun c => u16 (c - 1)) ;; mret (inr tt)) tt
  end.

(** The walk of [get_empty_inode] round the table: [i] entries left. *)
Definition empty_scan_step (acc : nat * option nat) : M kernel (nat * option nat + option nat) :=
  let '(i, inode) := acc in
  match i with
  | O => mret (inr inode)
  | S i' =>
      li ← gets k_last_inode;
      let li := if (NR_INODE <=? S li)%nat then 0%nat else S li in
      setg k_last_inode li ;;
      c ← li->>i_count;
      if truth c then mret (inl (i', inode))
      else
        dirt ← li->>i_dirt; lock ← li->>i_lock;
        if negb (truth dirt) && negb (truth lock) then mret (inr (Some li))
        else mret (inl (i', Some li))
  end.

Definition get_empty_inode : M kernel nat :=
  ino ← loop patience (fun _ : unit =>
    o ← loop (S NR_INODE) empty_scan_step (NR_INODE, None);
    match o with
    | None => panic "No free inodes in mem"
    | Some ino =>
        wait_on_inode ino ;;
        while patience (d ← ino->>i_dirt; mret (truth d)) (write_inode ino ;; wait_on_inode ino) ;;
        c ← ino->>i_count;
        mret (if truth c then inl tt else inr ino)
    end) tt;
  updr ino (fun _ => zero_inode) ;;
  st ino i_count 1 ;;
  mret ino.

Definition get_pipe_inode : M kernel (option nat) :=
  ino ← get_empty_inode;
  page ← mm get_free_page;
  st ino i_size page ;;
  if negb (truth page) then st ino i_count 0 ;; mret None
  else
    st ino i_count 2 ;;
    set_zone ino 1 0 ;;
    set_zone ino 0 0 ;;
    st ino i_pipe 1 ;;
    mret (Some ino).

(** The super block mounted on an inode. *)
Definition mounted_super (ino : nat) : M kernel (option nat) :=
  for_break (seq 0 NR_SUPER) (fun i =>
    m ← i->>s_imount; mret (if decide (m = Some ino) then Some i else None)).

(** One turn of the search of [iget]: at entry [ino] for inode [nr] of [dev]. *)
Definition iget_step (empty : nat) (acc : nat * Z * Z) : M kernel (nat * Z * Z + option nat * Z * Z) :=
  let '(ino, dev, nr) := acc in
  if (NR_INODE <=? ino)%nat then mret (inr (None, dev, nr))
  else
    d ← ino->>i_dev; n ← ino->>i_num;
    if negb (d =? dev) || negb (n =? nr) then mret (inl (S ino, dev, nr))
    else
      wait_on_inode ino ;;
      d ← ino->>i_dev; n ← ino->>i_num;
      if negb (d =? dev) || negb (n =? nr) then mret (inl (0%nat, dev, nr))
      else
        upd ino i_count (fun c => u16 (c + 1)) ;;
        mnt ← ino->>i_mount;
        if truth mnt then
          o ← mounted_super ino;
          match o with
          | None => iput (Some empty) ;; mret (inr (Some ino, dev, nr))
          | Some i =>
              iput (Some ino) ;;
              d ← i->>s_dev;
              mret (inl (0%nat, d, ROOT_INO))
          end
        else
          iput (Some empty) ;;
          mret (inr (Some ino, dev, nr)).

(** [get_empty_inode] never returns NULL, so [empty] is always there. *)
Definition iget (dev nr : Z) : M kernel nat :=
  if negb (truth dev) then panic "iget with dev==0"
  else
    empty ← get_empty_inode;
    r ← loop patience (iget_step empty) (0%nat, dev, nr);
    match r with
    | (Some ino, _, _) => mret ino
    | (None, dev, nr) =>
        st empty i_dev (u16 dev) ;;
        st empty i_num (u16 nr) ;;
        read_inode empty ;;
        mret empty
    end.

(** fs/bitmap.c: [new_inode]. *)
Definition new_inode (dev : Z) : M kernel (option nat) :=
  ino ← get_empty_inode;
  o ← get_super dev;
  match o with
  | None => panic "new_inode with unknown device"
  | Some sb =>
      l ← sb->>s_imap;
      o ← find_free_bit l;
      n ← sb->>s_ninodes;
      match o with
      | None => iput (Some ino) ;; mret None
      | Some (i, bh, j) =>
          if n <? j + Z.of_nat i * 8192 then iput (Some ino) ;; mret None
          else
            d ← bh->>b_data;
            let '(was_set, d') := set_bit j d in
            st bh b_data d' ;;
            if truth was_set then panic "new_inode: bit already set"
            else
              st bh b_dirt 1 ;;
              st ino i_count 1 ;;
              st ino i_nlinks 1 ;;
              st ino i_dev (u16 dev) ;;
              e ← cur t_euid; st ino i_uid e ;;
              g ← cur t_egid; st ino i_gid (u8 g) ;;
              st ino i_dirt 1 ;;
              st ino i_num (u16 (j + Z.of_nat i * 8192)) ;;
              t ← CURRENT_TIME;
              st ino i_ctime (u32 t) ;;
              st ino i_atime (u32 t) ;;
              st ino i_mtime (u32 t) ;;
              mret (Some ino)
      end
  end.
End with_world.
