(* ===== verification/Super.v ===== *)
(** * fs/super.c, second part, and check_disk_change of fs/buffer.c

    Reading the super block of a device.  Mounting needs path names and is in
    Mount.v. *)

From S2P Require Import Prelude Kernel Sched Blk LLRwBlk Floppy Buffer SuperBase Bitmap Inode.

(** The super block on disk: the fields of [struct d_super_block]. *)
Definition set_d_super (l : list Z) (s : super_block) : super_block :=
  set_field s_ninodes (fun _ => get16 l 0)
  (set_field s_nzones (fun _ => get16 l 2)
  (set_field s_imap_blocks (fun _ => get16 l 4)
  (set_field s_zmap_blocks (fun _ => get16 l 6)
  (set_field s_firstdatazone (fun _ => get16 l 8)
  (set_field s_log_zone_size (fun _ => get16 l 10)
  (set_field s_max_size (fun _ => get32 l 12)
  (set_field s_magic (fun _ => get16 l 16) s))))))).

(** [s->f[i] = v] for the arrays [s_imap], [s_zmap] of 8 buffers; a store
    behind the array, which the code does not prevent, is a fault. *)
Definition set_slot (s : nat) (f : super_block -> list (option nat)) `{!Setter f}
    (i : nat) (v : option nat) : M kernel unit :=
  if (i <? 8)%nat then upd s f (fun l => <[i := v]> l) else fault.

(** [bh->b_data[0] |= 1]. *)
Definition set_first_bit (bh : option nat) : M kernel unit :=
  bh ← deref bh;
  upd bh b_data (alter (fun b => Z.lor b 1) 0%nat).

Section with_world.
Context `{World}.

Definition check_disk_change (dev : Z) : M kernel unit :=
  if negb (MAJOR dev =? 2) then mret tt
  else
    c ← floppy_change (Z.land dev 3);
    if negb (truth c) then mret tt
    else
      for_ (seq 0 NR_SUPER) (fun i =>
        d ← i->>s_dev;
        when (d =? dev) (put_super d)) ;;
      invalidate_inodes dev ;;
      invalidate_buffers dev.

(** [for (i=0 ; i < s->s_imap_blocks ; i++) if (s->s_imap[i]=bread(dev,block))
    block++; else break;]: the next block. *)
Definition read_map (s : nat) (dev : Z) (blocks : super_block -> Z)
    (f : super_block -> list (option nat)) `{!Setter f} (block : Z) : M kernel Z :=
  loop 9 (fun '(i, block) =>
    n ← s->>blocks;
    if n <=? Z.of_nat i then mret (inr block)
    else
      o ← bread dev block;
      set_slot s f i o ;;
      match o with
      | Some _ => mret (inl (S i, block + 1))
      | None => mret (inr block)
      end) (0%nat, block).

(** The free entry of [super_block[]] that [read_super] takes. *)
Definition free_super_slot : M kernel (option nat) :=
  for_break (seq 0 NR_SUPER) (fun i =>
    d ← i->>s_dev; mret (if truth d then None else Some i)).

Definition read_super (dev : Z) : M kernel (option nat) :=
  if negb (truth dev) then mret None
  else
    check_disk_change dev ;;
    o ← get_super dev;
    match o with
    | Some s => mret (Some s)
    | None =>
        o ← free_super_slot;
        match o with
        | None => mret None
        | Some s =>
            st s s_dev (u16 dev) ;;
            st s s_isup None ;;
            st s s_imount None ;;
            st s s_time 0 ;;
            st s s_rd_only 0 ;;
            st s s_dirt 0 ;;
            lock_super s ;;
            o ← bread dev 1;
            match o with
            | None =>
                st s s_dev 0 ;;
                free_super s ;;
                mret None
            | Some bh =>
                d ← bh->>b_data;
                updr s (set_d_super d) ;;
                brelse (Some bh) ;;
                magic ← s->>s_magic;
                if negb (magic =? SUPER_MAGIC) then
                  st s s_dev 0 ;;
                  free_super s ;;
                  mret None
                else
                  st s s_imap (replicate I_MAP_SLOTS None) ;;
                  st s s_zmap (replicate Z_MAP_SLOTS None) ;;
                  block ← read_map s dev s_imap_blocks s_imap 2;
                  block ← read_map s dev s_zmap_blocks s_zmap block;
                  im ← s->>s_imap_blocks; zm ← s->>s_zmap_blocks;
                  if negb (block =? 2 + im + zm) then
                    for_ (seq 0 I_MAP_SLOTS) (fun i => l ← s->>s_imap; brelse (default None (l !! i))) ;;
                    for_ (seq 0 Z_MAP_SLOTS) (fun i => l ← s->>s_zmap; brelse (default None (l !! i))) ;;
                    st s s_dev 0 ;;
                    free_super s ;;
                    mret None
                  else
                    l ← s->>s_imap; set_first_bit (default None (l !! 0%nat)) ;;
                    l ← s->>s_zmap; set_first_bit (default None (l !! 0%nat)) ;;
                    free_super s ;;
                    mret (Some s)
            end
        end
    end.
End with_world.
