(* ===== verification/Namei.v ===== *)
(** * fs/namei.c: path names and directories

    Looking path names up, directory entries, and the system calls that make
    and remove names.  A pointer to a directory entry is the buffer it lies in
    and its offset in the block.  Path names are read byte by byte from user
    memory. *)

From S2P Require Import Prelude Kernel Sched Memory Blk LLRwBlk Requests Buffer SuperBase Bitmap Inode.

Definition NAME_LEN : Z := 14.
Definition DIR_ENTRIES_PER_BLOCK : Z := 64.
Definition MAY_EXEC : Z := 1.
Definition MAY_WRITE : Z := 2.
Definition MAY_READ : Z := 4.
Definition O_ACCMODE : Z := 3.
Definition O_WRONLY : Z := 1.
Definition O_CREAT : Z := 0x40.
Definition O_EXCL : Z := 0x80.
Definition O_TRUNC : Z := 0x200.
Definition O_APPEND : Z := 0x400.
Definition O_NONBLOCK : Z := 0x800.
Definition I_DIRECTORY : Z := 0x4000.
Definition I_REGULAR : Z := 0x8000.
Definition S_ISVTX : Z := 0x200.
(** The fourth character is [\377], a negative [char]. *)
Definition ACC_MODE (x : Z) : Z := default 0 ([4; 2; 6; -1] !! Z.to_nat (Z.land x O_ACCMODE)).

(** ** permission *)

(** The bits of the mode that apply to the current task. *)
Definition applicable_mode (i : m_inode) (euid egid : Z) : Z :=
  if euid =? i_uid i then Z.shiftr (i_mode i) 6
  else if egid =? i_gid i then Z.shiftr (i_mode i) 3
  else i_mode i.
Definition permission (ino : nat) (mask : Z) : M kernel bool :=
  i ← ld ino;
  if truth (i_dev i) && negb (truth (i_nlinks i)) then mret false
  else
    euid ← cur t_euid; egid ← cur t_egid; su ← suser;
    mret ((Z.land (Z.land (applicable_mode i euid egid) mask) 7 =? mask) || su).

(** ** Directory entries *)

Definition user_bytes (s : kernel) (a n : Z) : list Z :=
  (fun k => default 0 (k_user s !! u32 (a + k))) <$> seqZ 0 n.
(** [de->inode] and [de->name]. *)
Definition de_inode (bh off : nat) : M kernel Z := d ← bh->>b_data; mret (get16 d off).
Definition set_de_inode (bh off : nat) (v : Z) : M kernel unit :=
  upd bh b_data (fun d => splice d (Z.of_nat off) (le16 v)).
Definition set_de_name (bh off : nat) (l : list Z) : M kernel unit :=
  upd bh b_data (fun d => splice d (Z.of_nat (off + 2)) l).

(** The comparison of [match] for a non-empty name ([find_entry] does not call
    it for an empty one). *)
Definition match_name (len : Z) (name : list Z) (d : list Z) (off : nat) : bool :=
  if (get16 d off =? 0) || (NAME_LEN <? len) then false
  else if (len <? NAME_LEN) && truth (byte_at d (off + 2 + Z.to_nat len)) then false
  else bool_decide (name = take (Z.to_nat len) (drop (off + 2) d)).
Definition match_entry (len name : Z) (bh off : nat) : M kernel bool :=
  d ← bh->>b_data;
  n ← gets (fun s => user_bytes s name len);
  mret (match_name len n d off).

(** [(char * )de >= BLOCK_SIZE+bh->b_data], for an entry at [off] of buffer
    [db].  When [bh] is NULL its field [b_data] is word 0 of physical memory;
    the code is lost when that is not below the buffer memory. *)
Definition past_block (bh : option nat) (db off : nat) : M kernel bool :=
  match bh with
  | Some _ => mret (BLOCK_SIZE <=? Z.of_nat off)
  | None =>
      w ← gets (fun s => rd (words (k_mm s)) 0);
      a ← db->>b_addr;
      if BLOCK_SIZE + w <=? a + Z.of_nat off then mret true else fault
  end.

Section with_world.
Context `{World}.

(** ".." in a pseudo-root is "."; over a mount point the mounted directory
    replaces [dir]. *)
Definition dotdot (dir : nat) (name namelen : Z) : M kernel (nat * Z) :=
  c0 ← get_fs_byte name;
  c1 ← get_fs_byte (name + 1);
  if negb ((namelen =? 2) && (c0 =? 46) && (c1 =? 46)) then mret (dir, namelen)
  else
    root ← cur t_root;
    if decide (root = Some dir) then mret (dir, 1)
    else
      num ← dir->>i_num;
      if negb (num =? ROOT_INO) then mret (dir, namelen)
      else
        dev ← dir->>i_dev;
        o ← get_super dev;
        sb ← deref o;
        m ← sb->>s_imount;
        match m with
        | None => mret (dir, namelen)
        | Some _ =>
            iput (Some dir) ;;
            m ← sb->>s_imount;
            d ← deref m;
            upd d i_count (fun c => u16 (c + 1)) ;;
            mret (d, namelen)
        end.

(** One turn of the search: entry number [i] at [off] of buffer [db]. *)
Definition find_entry_step (dir : nat) (name namelen entries : Z)
    (acc : Z * option nat * nat * nat)
    : M kernel (Z * option nat * nat * nat + option (nat * nat)) :=
  let '(i, bh, db, off) := acc in
  let look b off :=
    found ← match_entry namelen name b off;
    mret (if (found : bool) then inr (Some (b, off)) else inl (i + 1, Some b, b, (off + 16)%nat)) in
  if entries <=? i then brelse bh ;; mret (inr None)
  else
    past ← past_block bh db off;
    if (past : bool) then
      brelse bh ;;
      block ← bmap dir (Z.quot i DIR_ENTRIES_PER_BLOCK);
      o ← (if truth block then dev ← dir->>i_dev; bread dev block else mret None);
      match o with
      | None => mret (inl (i + DIR_ENTRIES_PER_BLOCK, None, db, off))
      | Some b => look b 0%nat
      end
    else look db off.

(** The directory the entry was looked up in, and the entry. *)
Definition find_entry (dir : nat) (name namelen : Z) : M kernel (nat * option (nat * nat)) :=
  let namelen := if NAME_LEN <? namelen then NAME_LEN else namelen in
  size ← dir->>i_size;
  let entries := s32 (size / 16) in
  if negb (truth namelen) then mret (dir, None)
  else
    '(dir, namelen) ← dotdot dir name namelen;
    block ← zone dir 0;
    if negb (truth block) then mret (dir, None)
    else
      dev ← dir->>i_dev;
      o ← bread dev block;
      match o with
      | None => mret (dir, None)
      | Some bh =>
          r ← loop (S (Z.to_nat entries)) (find_entry_step dir name namelen entries)
                (0, Some bh, bh, 0%nat);
          mret (dir, r)
      end.

(** The name stored in an entry: cut or padded to 14 bytes. *)
Definition entry_name (name namelen : Z) : M kernel (list Z) :=
  gets (fun s => user_bytes s name namelen ++ replicate (Z.to_nat (NAME_LEN - namelen)) 0).

Definition add_entry_step (dir : nat) (name namelen : Z) (acc : Z * option nat * nat * nat)
    : M kernel (Z * option nat * nat * nat + option (nat * nat)) :=
  let '(i, bh, db, off) := acc in
  let use b off :=
    size ← dir->>i_size;
    when (size <=? u32 (i * 16))
      (set_de_inode b off 0 ;;
       st dir i_size (u32 ((i + 1) * 16)) ;;
       st dir i_dirt 1 ;;
       t ← CURRENT_TIME; st dir i_ctime (u32 t)) ;;
    n ← de_inode b off;
    if negb (truth n) then
      t ← CURRENT_TIME; st dir i_mtime (u32 t) ;;
      l ← entry_name name namelen;
      set_de_name b off l ;;
      st b b_dirt 1 ;;
      mret (inr (Some (b, off)))
    else mret (inl (i + 1, Some b, b, (off + 16)%nat)) in
  past ← past_block bh db off;
  if (past : bool) then
    brelse bh ;;
    block ← create_block dir (Z.quot i DIR_ENTRIES_PER_BLOCK);
    if negb (truth block) then mret (inr None)
    else
      dev ← dir->>i_dev;
      o ← bread dev block;
      match o with
      | None => mret (inl (i + DIR_ENTRIES_PER_BLOCK, None, db, off))
      | Some b => use b 0%nat
      end
  else use db off.

Definition add_entry (dir : nat) (name namelen : Z) : M kernel (option (nat * nat)) :=
  let namelen := if NAME_LEN <? namelen then NAME_LEN else namelen in
  if negb (truth namelen) then mret None
  else
    block ← zone dir 0;
    if negb (truth block) then mret None
    else
      dev ← dir->>i_dev;
      o ← bread dev block;
      match o with
      | None => mret None
      | Some bh =>
          loop patience (add_entry_step dir name namelen) (0, Some bh, bh, 0%nat)
      end.

(** ** Path names *)

(** The scan of one component of a path: its length, the character that ends
    it ([/] or 0) and the address behind that. *)
Definition scan_component (pathname : Z) : M kernel (Z * Z * Z) :=
  n ← gets (fun s => S (size (k_user s)));
  loop n (fun '(namelen, p) =>
    c ← get_fs_byte p;
    mret (if truth c && negb (c =? 47) then inl (namelen + 1, p + 1)
          else inr (namelen, c, p + 1))) (0, pathname).

Definition get_dir_step (acc : nat * Z) : M kernel (nat * Z + option nat) :=
  let '(inode, pathname) := acc in
  mode ← inode->>i_mode;
  ok ← (if S_ISDIR mode then permission inode MAY_EXEC else mret false);
  if negb ok then iput (Some inode) ;; mret (inr None)
  else
    '(namelen, c, next) ← scan_component pathname;
    if negb (truth c) then mret (inr (Some inode))
    else
      '(inode, o) ← find_entry inode pathname namelen;
      match o with
      | None => iput (Some inode) ;; mret (inr None)
      | Some (bh, off) =>
          inr_ ← de_inode bh off;
          idev ← inode->>i_dev;
          brelse (Some bh) ;;
          iput (Some inode) ;;
          i ← iget idev inr_;
          mret (inl (i, next))
      end.

Definition counted (o : option nat) : M kernel bool :=
  match o with
  | None => mret false
  | Some i => c ← i->>i_count; mret (truth c)
  end.

Definition get_dir (pathname : Z) : M kernel (option nat) :=
  root ← cur t_root;
  pwd ← cur t_pwd;
  r ← counted root; p ← counted pwd;
  if negb r then panic "No root inode"
  else if negb p then panic "No cwd inode"
  else
    c ← get_fs_byte pathname;
    if negb (truth c) then mret None
    else
      inode ← deref (if c =? 47 then root else pwd);
      upd inode i_count (fun c => u16 (c + 1)) ;;
      loop patience get_dir_step (inode, if c =? 47 then pathname + 1 else pathname).

(** The start of the last component of the path, and its length. *)
Definition basename_of (pathname : Z) : M kernel (Z * Z) :=
  n ← gets (fun s => S (size (k_user s)));
  loop n (fun '(basename, p) =>
    c ← get_fs_byte p;
    mret (if negb (truth c) then inr (p - basename, basename)
          else inl (if c =? 47 then p + 1 else basename, p + 1))) (pathname, pathname).

(** The directory, the length of the last name and the name. *)
Definition dir_namei (pathname : Z) : M kernel (option (nat * Z * Z)) :=
  o ← get_dir pathname;
  match o with
  | None => mret None
  | Some dir =>
      '(namelen, basename) ← basename_of pathname;
      mret (Some (dir, namelen, basename))
  end.

Definition namei (pathname : Z) : M kernel (option nat) :=
  o ← dir_namei pathname;
  match o with
  | None => mret None
  | Some (dir, namelen, basename) =>
      if negb (truth namelen) then mret (Some dir)
      else
        '(dir, o) ← find_entry dir basename namelen;
        match o with
        | None => iput (Some dir) ;; mret None
        | Some (bh, off) =>
            inr_ ← de_inode bh off;
            dev ← dir->>i_dev;
            brelse (Some bh) ;;
            iput (Some dir) ;;
            i ← iget dev inr_;
            t ← CURRENT_TIME;
            st i i_atime (u32 t) ;;
            st i i_dirt 1 ;;
            mret (Some i)
        end
  end.

(** ** open *)

(** The branch of [open_namei] that makes a new file. *)
Definition create_file (dir : nat) (basename namelen flag mode : Z) : M kernel (Z + nat) :=
  if negb (truth (Z.land flag O_CREAT)) then iput (Some dir) ;; mret (inl (- ENOENT))
  else
    ok ← permission dir MAY_WRITE;
    if negb ok then iput (Some dir) ;; mret (inl (- EACCES))
    else
      dev ← dir->>i_dev;
      o ← new_inode dev;
      match o with
      | None => iput (Some dir) ;; mret (inl (- ENOSPC))
      | Some inode =>
          e ← cur t_euid;
          st inode i_uid e ;;
          st inode i_mode (u16 mode) ;;
          st inode i_dirt 1 ;;
          o ← add_entry dir basename namelen;
          match o with
          | None =>
              upd inode i_nlinks (fun n => u8 (n - 1)) ;;
              iput (Some inode) ;;
              iput (Some dir) ;;
              mret (inl (- ENOSPC))
          | Some (bh, off) =>
              num ← inode->>i_num;
              set_de_inode bh off num ;;
              st bh b_dirt 1 ;;
              brelse (Some bh) ;;
              iput (Some dir) ;;
              mret (inr inode)
          end
      end.

(** The branch of [open_namei] for a name that exists, at [off] of [bh]. *)
Definition open_existing (dir bh off : nat) (flag : Z) : M kernel (Z + nat) :=
  inr_ ← de_inode bh off;
  dev ← dir->>i_dev;
  brelse (Some bh) ;;
  iput (Some dir) ;;
  if truth (Z.land flag O_EXCL) then mret (inl (- EEXIST))
  else
    inode ← iget dev inr_;
    m ← inode->>i_mode;
    bad ← (if S_ISDIR m && truth (Z.land flag O_ACCMODE) then mret true
           else ok ← permission inode (ACC_MODE flag); mret (negb ok));
    if (bad : bool) then iput (Some inode) ;; mret (inl (- EPERM))
    else
      t ← CURRENT_TIME;
      st inode i_atime (u32 t) ;;
      when (truth (Z.land flag O_TRUNC)) (truncate inode) ;;
      mret (inr inode).

(** An error number or the inode. *)
Definition open_namei (pathname flag mode : Z) : M kernel (Z + nat) :=
  let flag := if truth (Z.land flag O_TRUNC) && negb (truth (Z.land flag O_ACCMODE))
              then Z.lor flag O_WRONLY else flag in
  umask ← cur t_umask;
  let mode := Z.lor (Z.land mode (Z.land 0x1ff (Z.lnot umask))) I_REGULAR in
  o ← dir_namei pathname;
  match o with
  | None => mret (inl (- ENOENT))
  | Some (dir, namelen, basename) =>
      if negb (truth namelen) then
        if negb (truth (Z.land flag (Z.lor O_ACCMODE (Z.lor O_CREAT O_TRUNC))))
        then mret (inr dir)
        else iput (Some dir) ;; mret (inl (- EISDIR))
      else
        '(dir, o) ← find_entry dir basename namelen;
        match o with
        | None => create_file dir basename namelen flag mode
        | Some (bh, off) => open_existing dir bh off flag
        end
  end.

(** ** mknod, mkdir *)

Definition sys_mknod (filename mode dev : Z) : M kernel Z :=
  su ← suser;
  if negb su then mret (- EPERM)
  else
    o ← dir_namei filename;
    match o with
    | None => mret (- ENOENT)
    | Some (dir, namelen, basename) =>
        if negb (truth namelen) then iput (Some dir) ;; mret (- ENOENT)
        else
          ok ← permission dir MAY_WRITE;
          if negb ok then iput (Some dir) ;; mret (- EPERM)
          else
            '(dir, o) ← find_entry dir basename namelen;
            match o with
            | Some (bh, _) => brelse (Some bh) ;; iput (Some dir) ;; mret (- EEXIST)
            | None =>
                d ← dir->>i_dev;
                o ← new_inode d;
                match o with
                | None => iput (Some dir) ;; mret (- ENOSPC)
                | Some inode =>
                    st inode i_mode (u16 mode) ;;
                    when (S_ISBLK mode || S_ISCHR mode) (set_zone inode 0 dev) ;;
                    t ← CURRENT_TIME;
                    st inode i_atime (u32 t) ;;
                    st inode i_mtime (u32 t) ;;
                    st inode i_dirt 1 ;;
                    o ← add_entry dir basename namelen;
                    match o with
                    | None =>
                        iput (Some dir) ;;
                        st inode i_nlinks 0 ;;
                        iput (Some inode) ;;
                        mret (- ENOSPC)
                    | Some (bh, off) =>
                        num ← inode->>i_num;
                        set_de_inode bh off num ;;
                        st bh b_dirt 1 ;;
                        iput (Some dir) ;;
                        iput (Some inode) ;;
                        brelse (Some bh) ;;
                        mret 0
                    end
                end
            end
    end.

(** The second half of [sys_mkdir]: the entries "." and "..", and the name of
    the new directory. *)
Definition fill_dir (dir inode dir_block : nat) (basename namelen mode : Z) : M kernel Z :=
  num ← inode->>i_num;
  set_de_inode dir_block 0 num ;;
  set_de_name dir_block 0 [46; 0] ;;
  parent ← dir->>i_num;
  set_de_inode dir_block 16 parent ;;
  set_de_name dir_block 16 [46; 46; 0] ;;
  st inode i_nlinks 2 ;;
  st dir_block b_dirt 1 ;;
  brelse (Some dir_block) ;;
  umask ← cur t_umask;
  st inode i_mode (u16 (Z.lor I_DIRECTORY (Z.land mode (Z.land 0x1ff (Z.lnot umask))))) ;;
  st inode i_dirt 1 ;;
  o ← add_entry dir basename namelen;
  match o with
  | None =>
      iput (Some dir) ;;
      dev ← inode->>i_dev; z ← zone inode 0;
      free_block dev z ;;
      st inode i_nlinks 0 ;;
      iput (Some inode) ;;
      mret (- ENOSPC)
  | Some (bh, off) =>
      num ← inode->>i_num;
      set_de_inode bh off num ;;
      st bh b_dirt 1 ;;
      upd dir i_nlinks (fun n => u8 (n + 1)) ;;
      st dir i_dirt 1 ;;
      iput (Some dir) ;;
      iput (Some inode) ;;
      brelse (Some bh) ;;
      mret 0
  end.

Definition sys_mkdir (pathname mode : Z) : M kernel Z :=
  su ← suser;
  if negb su then mret (- EPERM)
  else
    o ← dir_namei pathname;
    match o with
    | None => mret (- ENOENT)
    | Some (dir, namelen, basename) =>
        if negb (truth namelen) then iput (Some dir) ;; mret (- ENOENT)
        else
          ok ← permission dir MAY_WRITE;
          if negb ok then iput (Some dir) ;; mret (- EPERM)
          else
            '(dir, o) ← find_entry dir basename namelen;
            match o with
            | Some (bh, _) => brelse (Some bh) ;; iput (Some dir) ;; mret (- EEXIST)
            | None =>
                d ← dir->>i_dev;
                o ← new_inode d;
                match o with
                | None => iput (Some dir) ;; mret (- ENOSPC)
                | Some inode =>
                    st inode i_size 32 ;;
                    st inode i_dirt 1 ;;
                    t ← CURRENT_TIME;
                    st inode i_atime (u32 t) ;;
                    st inode i_mtime (u32 t) ;;
                    d ← inode->>i_dev;
                    b ← new_block d;
                    set_zone inode 0 b ;;
                    z ← zone inode 0;
                    if negb (truth z) then
                      iput (Some dir) ;;
                      upd inode i_nlinks (fun n => u8 (n - 1)) ;;
                      iput (Some inode) ;;
                      mret (- ENOSPC)
                    else
                      st inode i_dirt 1 ;;
                      d ← inode->>i_dev;
                      o ← bread d z;
                      match o with
                      | None =>
                          iput (Some dir) ;;
                          d ← inode->>i_dev; z ← zone inode 0;
                          free_block d z ;;
                          upd inode i_nlinks (fun n => u8 (n - 1)) ;;
                          iput (Some inode) ;;
                          mret (- ERROR)
                      | Some dir_block => fill_dir dir inode dir_block basename namelen mode
                      end
                end
            end
    end.

(** ** rmdir, unlink, link *)

(** [!strcmp(s, de->name)]. *)
Definition name_is (s : list Z) (d : list Z) (off : nat) : bool :=
  bool_decide (take (S (length s)) (drop (off + 2) d) = s ++ [0]).

(** One turn of [empty_dir]; a hole in the directory makes it release its
    buffer again on the next turn, as the source does. *)
Definition empty_dir_step (inode : nat) (len : Z) (acc : Z * nat * nat)
    : M kernel (Z * nat * nat + bool) :=
  let '(nr, bh, off) := acc in
  let look b off :=
    n ← de_inode b off;
    if truth n then brelse (Some b) ;; mret (inr false)
    else mret (inl (nr + 1, b, (off + 16)%nat)) in
  if len <=? nr then brelse (Some bh) ;; mret (inr true)
  else if BLOCK_SIZE <=? Z.of_nat off then
    brelse (Some bh) ;;
    block ← bmap inode (Z.quot nr DIR_ENTRIES_PER_BLOCK);
    if negb (truth block) then mret (inl (nr + DIR_ENTRIES_PER_BLOCK, bh, off))
    else
      dev ← inode->>i_dev;
      o ← bread dev block;
      match o with
      | None => mret (inr false)
      | Some b => look b 0%nat
      end
  else look bh off.

Definition empty_dir (inode : nat) : M kernel bool :=
  size ← inode->>i_size;
  let len := s32 (size / 16) in
  z ← zone inode 0;
  if (len <? 2) || negb (truth z) then mret false
  else
    dev ← inode->>i_dev;
    o ← bread dev z;
    match o with
    | None => mret false
    | Some bh =>
        d ← bh->>b_data;
        num ← inode->>i_num;
        if negb (get16 d 0 =? num) || negb (truth (get16 d 16))
           || negb (name_is [46] d 0) || negb (name_is [46; 46] d 16)
        then mret false
        else loop (S (Z.to_nat len)) (empty_dir_step inode len) (2, bh, 32%nat)
    end.

(** The checks of [sys_rmdir] once the directory [inode] is there. *)
Definition rmdir_inode (dir inode bh off : nat) : M kernel Z :=
  let fail first second e :=
    iput (Some first) ;; iput (Some second) ;; brelse (Some bh) ;; mret (- e) in
  dm ← dir->>i_mode; euid ← cur t_euid; uid ← inode->>i_uid;
  if truth (Z.land dm S_ISVTX) && truth euid && negb (uid =? euid) then fail dir inode EPERM
  else
    d ← inode->>i_dev; d' ← dir->>i_dev; c ← inode->>i_count;
    if negb (d =? d') || (1 <? c) then fail dir inode EPERM
    else if decide (inode = dir) then fail inode dir EPERM
    else
      m ← inode->>i_mode;
      if negb (S_ISDIR m) then fail inode dir ENOTDIR
      else
        e ← empty_dir inode;
        if negb e then fail inode dir ENOTEMPTY
        else
          set_de_inode bh off 0 ;;
          st bh b_dirt 1 ;;
          brelse (Some bh) ;;
          st inode i_nlinks 0 ;;
          st inode i_dirt 1 ;;
          upd dir i_nlinks (fun n => u8 (n - 1)) ;;
          t ← CURRENT_TIME;
          st dir i_mtime (u32 t) ;;
          st dir i_ctime (u32 t) ;;
          st dir i_dirt 1 ;;
          iput (Some dir) ;;
          iput (Some inode) ;;
          mret 0.

Definition sys_rmdir (name : Z) : M kernel Z :=
  su ← suser;
  if negb su then mret (- EPERM)
  else
    o ← dir_namei name;
    match o with
    | None => mret (- ENOENT)
    | Some (dir, namelen, basename) =>
        if negb (truth namelen) then iput (Some dir) ;; mret (- ENOENT)
        else
          ok ← permission dir MAY_WRITE;
          if negb ok then iput (Some dir) ;; mret (- EPERM)
          else
            '(dir, o) ← find_entry dir basename namelen;
            match o with
            | None => iput (Some dir) ;; mret (- ENOENT)
            | Some (bh, off) =>
                dev ← dir->>i_dev;
                num ← de_inode bh off;
                inode ← iget dev num;
                rmdir_inode dir inode bh off
            end
    end.

(** [sys_unlink] once the inode is there. *)
Definition unlink_inode (dir inode bh off : nat) : M kernel Z :=
  dm ← dir->>i_mode; su ← suser; euid ← cur t_euid;
  uid ← inode->>i_uid; duid ← dir->>i_uid;
  if truth (Z.land dm S_ISVTX) && negb su && negb (euid =? uid) && negb (euid =? duid) then
    iput (Some dir) ;; iput (Some inode) ;; brelse (Some bh) ;; mret (- EPERM)
  else
    m ← inode->>i_mode;
    if S_ISDIR m then
      iput (Some inode) ;; iput (Some dir) ;; brelse (Some bh) ;; mret (- EPERM)
    else
      n ← inode->>i_nlinks;
      when (negb (truth n)) (st inode i_nlinks 1) ;;
      set_de_inode bh off 0 ;;
      st bh b_dirt 1 ;;
      brelse (Some bh) ;;
      upd inode i_nlinks (fun n => u8 (n - 1)) ;;
      st inode i_dirt 1 ;;
      t ← CURRENT_TIME;
      st inode i_ctime (u32 t) ;;
      iput (Some inode) ;;
      iput (Some dir) ;;
      mret 0.

Definition sys_unlink (name : Z) : M kernel Z :=
  o ← dir_namei name;
  match o with
  | None => mret (- ENOENT)
  | Some (dir, namelen, basename) =>
      if negb (truth namelen) then iput (Some dir) ;; mret (- ENOENT)
      else
        ok ← permission dir MAY_WRITE;
        if negb ok then iput (Some dir) ;; mret (- EPERM)
        else
          '(dir, o) ← find_entry dir basename namelen;
          match o with
          | None => iput (Some dir) ;; mret (- ENOENT)
          | Some (bh, off) =>
              dev ← dir->>i_dev;
              num ← de_inode bh off;
              inode ← iget dev num;
              unlink_inode dir inode bh off
          end
  end.

Definition sys_link (oldname newname : Z) : M kernel Z :=
  o ← namei oldname;
  match o with
  | None => mret (- ENOENT)
  | Some oldinode =>
      let fail first second e := iput (Some first) ;; iput (Some second) ;; mret (- e) in
      m ← oldinode->>i_mode;
      if S_ISDIR m then iput (Some oldinode) ;; mret (- EPERM)
      else
        o ← dir_namei newname;
        match o with
        | None => iput (Some oldinode) ;; mret (- EACCES)
        | Some (dir, namelen, basename) =>
            if negb (truth namelen) then fail oldinode dir EPERM
            else
              d ← dir->>i_dev; d' ← oldinode->>i_dev;
              if negb (d =? d') then fail dir oldinode EXDEV
              else
                ok ← permission dir MAY_WRITE;
                if negb ok then fail dir oldinode EACCES
                else
                  '(dir, o) ← find_entry dir basename namelen;
                  match o with
                  | Some (bh, _) => brelse (Some bh) ;; fail dir oldinode EEXIST
                  | None =>
                      o ← add_entry dir basename namelen;
                      match o with
                      | None => fail dir oldinode ENOSPC
                      | Some (bh, off) =>
                          num ← oldinode->>i_num;
                          set_de_inode bh off num ;;
                          st bh b_dirt 1 ;;
                          brelse (Some bh) ;;
                          iput (Some dir) ;;
                          upd oldinode i_nlinks (fun n => u8 (n + 1)) ;;
                          t ← CURRENT_TIME;
                          st oldinode i_ctime (u32 t) ;;
                          st oldinode i_dirt 1 ;;
                          iput (Some oldinode) ;;
                          mret 0
                      end
                  end
        end
  end.
End with_world.

(** ** Lemmas: the name in a directory entry *)

(** The bytes of a directory block once an entry has been written at [off]. *)
Definition with_entry (d : list Z) (off : nat) (name : list Z) (num : Z) : list Z :=
  splice (splice d (Z.of_nat (off + 2)) (name ++ replicate (14 - length name) 0)) (Z.of_nat off) (le16 num).

(** A name as the kernel compares it: 1 to 14 bytes, none of them NUL. *)
Definition entry_name_ok (n : list Z) : Prop :=
  (1 <= length n <= 14)%nat /\ Forall (fun c => c <> 0) n.

Section entry.
Context (d : list Z) (off : nat) (n : list Z) (num : Z).
Context (Hd : (off + 16 <= length d)%nat) (Hn : entry_name_ok n) (Hnum : 0 < num < 2 ^ 16).
Let d' := with_entry d off n num.

Lemma with_entry_drop : drop off d' = le16 num ++ n ++ replicate (14 - length n) 0 ++ drop (off + 16) d.
Proof.
  destruct Hn as [Hl _]. unfold d', with_entry.
  assert (E : length (n ++ replicate (14 - length n) 0) = 14%nat) by (rewrite length_app, length_replicate; lia).
  rewrite <-(Nat2Z.id off) at 1. rewrite splice_at; [|lia|rewrite splice_length by (rewrite ?E; lia); cbn; lia].
  f_equal. replace (Z.to_nat (Z.of_nat off) + length (le16 num))%nat with (Z.to_nat (Z.of_nat (off + 2))) by (cbn; lia).
  rewrite splice_at by (rewrite ?E; lia). rewrite E, <-app_assoc. do 3 f_equal. lia.
Qed.
Lemma with_entry_at k : byte_at d' (off + k) =
  default 0 ((le16 num ++ n ++ replicate (14 - length n) 0 ++ drop (off + 16) d) !! k).
Proof. unfold byte_at. by rewrite <-lookup_drop, with_entry_drop. Qed.
Lemma with_entry_num : get16 d' off = num.
Proof.
  unfold get16. rewrite <-(Nat.add_0_r off), <-Nat.add_assoc, !with_entry_at. cbn. by apply join16; lia.
Qed.
Lemma with_entry_name k : byte_at d' (off + 2 + k) =
  default 0 ((n ++ replicate (14 - length n) 0 ++ drop (off + 16) d) !! k).
Proof. by rewrite <-Nat.add_assoc, with_entry_at. Qed.

Lemma match_with_entry n' : entry_name_ok n' ->
  match_name (Z.of_nat (length n')) n' d' off = bool_decide (n' = n).
Proof.
  intros [Hl' Hz']. destruct Hn as [Hl Hz]. unfold match_name. rewrite with_entry_num.
  rewrite (proj2 (Z.eqb_neq num 0)) by lia. rewrite (proj2 (Z.ltb_ge NAME_LEN _)) by (unfold NAME_LEN; lia).
  cbn [orb]. rewrite Nat2Z.id, with_entry_name.
  assert (Hdrop : drop (off + 2) d' = n ++ replicate (14 - length n) 0 ++ drop (off + 16) d).
  { rewrite <-drop_drop, with_entry_drop. done. }
  rewrite Hdrop. destruct (decide (length n' < length n)%nat) as [Hlt|Hge].
  - (* the byte after the name is not NUL *)
    rewrite lookup_app_l by done. destruct (lookup_lt_is_Some_2 n _ Hlt) as [c Hc]. rewrite Hc. cbn [default from_option id].
    rewrite Forall_lookup in Hz. specialize (Hz _ _ Hc). rewrite (proj2 (Z.ltb_lt _ NAME_LEN)) by (unfold NAME_LEN; lia).
    rewrite (proj2 (truth_true c)) by done. cbn [andb]. symmetry. apply bool_decide_eq_false. intros ->. lia.
  - assert (Hpad : (Z.of_nat (length n') <? NAME_LEN) &&
      truth (default 0 ((n ++ replicate (14 - length n) 0 ++ drop (off + 16) d) !! length n')) = false).
    { destruct (Z.ltb_spec (Z.of_nat (length n')) NAME_LEN) as [H14|]; [|done]. unfold NAME_LEN in H14.
      rewrite lookup_app_r, lookup_app_l by (rewrite ?length_replicate; lia).
      rewrite lookup_replicate_2 by lia. done. }
    rewrite Hpad. apply bool_decide_ext. rewrite take_app_ge by lia. rewrite take_app_le by (rewrite length_replicate; lia).
    rewrite take_replicate, Nat.min_l by lia. split; [|intros ->; by rewrite Nat.sub_diag, app_nil_r].
    intros E. destruct (length n' - length n)%nat eqn:Ek; [by rewrite E, app_nil_r|].
    rewrite E in Hz'. apply Forall_app in Hz' as [_ Hz']. by apply Forall_cons in Hz' as [? _].
Qed.
End entry.

(** The other entries of the block are left alone. *)
Lemma match_name_ext len n d d' o : (forall k, (k < 16)%nat -> d' !! (o + k)%nat = d !! (o + k)%nat) ->
  match_name len n d' o = match_name len n d o.
Proof.
  intros Hk. unfold match_name, get16, byte_at.
  replace (d' !! o) with (d !! o) by (rewrite <-(Nat.add_0_r o); symmetry; apply Hk; lia).
  rewrite (Hk 1%nat) by lia. destruct (_ || _) eqn:E; [done|].
  apply orb_false_iff in E as [_ El%Z.ltb_ge]. unfold NAME_LEN in *.
  assert (Ht : take (Z.to_nat len) (drop (o + 2) d') = take (Z.to_nat len) (drop (o + 2) d)).
  { apply list_eq. intros i. destruct (decide (i < Z.to_nat len)%nat).
    - rewrite !lookup_take_lt, !lookup_drop, <-!Nat.add_assoc by lia. apply Hk. lia.
    - by rewrite !lookup_take_ge by lia. }
  rewrite Ht. destruct (Z.ltb_spec len 14); [|done]. cbn [andb].
  rewrite <-!(Nat.add_assoc o 2), (Hk (2 + Z.to_nat len)%nat) by lia. done.
Qed.
Lemma with_entry_other d off n num o len m : (off + 16 <= length d)%nat -> entry_name_ok n ->
  (o + 16 <= off)%nat \/ (off + 16 <= o)%nat ->
  match_name len m (with_entry d off n num) o = match_name len m d o.
Proof.
  intros Hd [Hl _] Ho. apply match_name_ext. intros k Hk. unfold with_entry.
  assert (E : length (n ++ replicate (14 - length n) 0) = 14%nat) by (rewrite length_app, length_replicate; lia).
  rewrite splice_lookup_other by (rewrite ?splice_length; rewrite ?E; cbn; lia).
  by rewrite splice_lookup_other by (rewrite ?E; lia).
Qed.
Lemma user_bytes_length s a n : length (user_bytes s a n) = Z.to_nat n.
Proof. unfold user_bytes. by rewrite length_fmap, length_seqZ. Qed.

(** C38: an entry written for a name ([add_entry]) and an inode number is found
    ([find_entry]'s comparison) under exactly that name: names are compared in
    full, a name that is a proper beginning of the other does not match, and
    the 14-byte names without a final NUL are no exception.  The other entries
    of the block answer as before. *)
Theorem entry_found_by_name bh off name namelen num name' namelen' b s :
  k_bufs s !! bh = Some b -> (off + 16 <= length (b_data b))%nat ->
  entry_name_ok (user_bytes s name namelen) -> entry_name_ok (user_bytes s name' namelen') ->
  0 < num < 2 ^ 16 ->
  wp (l ← entry_name name namelen;
      set_de_name bh off l ;; set_de_inode bh off num ;;
      found ← match_entry namelen' name' bh off;
      d ← bh->>b_data; mret (found, d))
    (fun '(found, d) s' =>
      found = bool_decide (user_bytes s name' namelen' = user_bytes s name namelen) /\
      get16 d off = num /\
      forall o len n, (o + 16 <= off)%nat \/ (off + 16 <= o)%nat ->
        match_name len n d o = match_name len n (b_data b) o) s.
Proof.
  intros Hb Hd Hn Hn' Hnum. unfold entry_name, set_de_name, set_de_inode, match_entry. wp_steps.
  unfold set_field, set_b_data. cbn [b_data].
  assert (El : Z.to_nat (NAME_LEN - namelen) = (14 - length (user_bytes s name namelen))%nat).
  { destruct Hn as [Hl _]. rewrite user_bytes_length in *. unfold NAME_LEN. lia. }
  rewrite El. fold (with_entry (b_data b) off (user_bytes s name namelen) num).
  split_and!.
  - change (user_bytes _ name' namelen') with (user_bytes s name' namelen').
    rewrite <-(match_with_entry (b_data b) off _ num Hd Hn Hnum _ Hn'). f_equal.
    destruct Hn' as [Hl' _]. rewrite user_bytes_length in *. lia.
  - by apply with_entry_num.
  - intros o len n Ho. by apply with_entry_other.
Qed.

Definition name_demo : kernel :=
  set_field k_user (fun _ => list_to_map [(10, 97); (11, 98); (12, 99)])
    (set_field k_bufs (fun _ => [BufferHead 0 (replicate 1024 0) 0 0 0 0 0 0 None None None None None]) (boot_kernel 0 0)).
Lemma entry_found_by_name_witness :
  wp (l ← entry_name 10 2; set_de_name 0 16 l ;; set_de_inode 0 16 7 ;;
      found ← match_entry 2 10 0 16; d ← getf 0%nat b_data; mret (found, d)) (fun '(found, _) _ => found = true) name_demo /\
  wp (l ← entry_name 10 2; set_de_name 0 16 l ;; set_de_inode 0 16 7 ;;
      found ← match_entry 3 10 0 16; d ← getf 0%nat b_data; mret (found, d)) (fun '(found, _) _ => found = false) name_demo.
Proof.
  assert (H2 : entry_name_ok (user_bytes name_demo 10 2)).
  { split; [vm_compute; lia|]. change (user_bytes name_demo 10 2) with [97; 98]. by repeat constructor. }
  assert (H3 : entry_name_ok (user_bytes name_demo 10 3)).
  { split; [vm_compute; lia|]. change (user_bytes name_demo 10 3) with [97; 98; 99]. by repeat constructor. }
  split; (eapply wp_mono; [eapply (entry_found_by_name 0 16 10 2 7); [reflexivity|vm_compute; lia|exact H2|first [exact H2|exact H3]|lia]|]).
  - intros [found d] s' [-> _]. by apply bool_decide_eq_true.
  - intros [found d] s' [-> _]. apply bool_decide_eq_false. by vm_compute.
Defined.
