(* ===== verification/Pipe.v ===== *)
(** * fs/pipe.c: pipes

    The data of a pipe is the page [i_size] of its inode, used as a ring:
    [PIPE_HEAD] is where the next byte is written, [PIPE_TAIL] where the next
    one is read. *)

From S2P Require Import Prelude Kernel Sched Memory Blk Buffer Bitmap Inode Namei Tty.

(** Bytes of physical memory. *)
Definition phys_byte (m : mm_state) (a : Z) : Z :=
  u8 (Z.shiftr (rd (words m) (a - a mod 4)) (8 * (a mod 4))).
Definition set_phys_byte (a v : Z) (w : gmap Z Z) : gmap Z Z :=
  let sh := 8 * (a mod 4) in
  let old := rd w (a - a mod 4) in
  <[a - a mod 4 := Z.lor (Z.ldiff old (Z.shiftl 255 sh)) (Z.shiftl (u8 v) sh)]> w.
Definition phys_bytes (m : mm_state) (a n : Z) : list Z := (fun k => phys_byte m (a + k)) <$> seqZ 0 n.
Definition set_phys_bytes (a : Z) (l : list Z) (w : gmap Z Z) : gmap Z Z :=
  foldl (fun w '(i, v) => set_phys_byte (a + Z.of_nat i) v w) w (zip (seq 0 (length l)) l).

Definition PIPE_SIZE (i : m_inode) : Z := Z.land (PIPE_HEAD i - PIPE_TAIL i) (PAGE_SIZE - 1).

Section with_world.
Context `{World}.

(** Waiting for data ([room] false) or for room: the amount there is, or
    [None] when nobody is at the other end. *)
Definition wait_pipe (inode : nat) (amount : m_inode -> Z) : M kernel (option Z) :=
  loop patience (fun _ : unit =>
    i ← ld inode;
    if truth (amount i) then mret (inr (Some (amount i)))
    else
      wake_up (Some (inode_q inode)) ;;
      c ← inode->>i_count;
      if negb (c =? 2) then mret (inr None)
      else sleep_on (Some (inode_q inode)) ;; mret (inl tt)) tt.

(** One turn of the outer loop of [read_pipe]. *)
Definition read_pipe_step (inode : nat) (acc : Z * Z * Z) : M kernel (Z * Z * Z + Z) :=
  let '(count, buf, read) := acc in
  if count <=? 0 then wake_up (Some (inode_q inode)) ;; mret (inr read)
  else
    o ← wait_pipe inode PIPE_SIZE;
    match o with
    | None => mret (inr read)
    | Some size =>
        i ← ld inode;
        let chars := Z.min (Z.min (PAGE_SIZE - PIPE_TAIL i) count) size in
        let tail := PIPE_TAIL i in
        set_zone inode 1 (tail + chars) ;;
        t ← zone inode 1;
        set_zone inode 1 (Z.land t (PAGE_SIZE - 1)) ;;
        l ← gets (fun s => phys_bytes (k_mm s) (i_size i + tail) chars);
        put_user l buf ;;
        mret (inl (count - chars, buf + chars, read + chars))
    end.
Definition read_pipe (inode : nat) (buf count : Z) : M kernel Z :=
  loop (S (Z.to_nat count)) (read_pipe_step inode) (count, buf, 0).

Definition write_pipe_step (inode : nat) (acc : Z * Z * Z) : M kernel (Z * Z * Z + Z) :=
  let '(count, buf, written) := acc in
  if count <=? 0 then wake_up (Some (inode_q inode)) ;; mret (inr written)
  else
    o ← wait_pipe inode (fun i => (PAGE_SIZE - 1) - PIPE_SIZE i);
    match o with
    | None =>
        cupd t_signal (fun sg => Z.lor sg (sigbit SIGPIPE)) ;;
        mret (inr (if truth written then written else -1))
    | Some size =>
        i ← ld inode;
        let chars := Z.min (Z.min (PAGE_SIZE - PIPE_HEAD i) count) size in
        let head := PIPE_HEAD i in
        set_zone inode 0 (head + chars) ;;
        h ← zone inode 0;
        set_zone inode 0 (Z.land h (PAGE_SIZE - 1)) ;;
        l ← gets (fun s => user_bytes s buf chars);
        modify (set_field k_mm (set_field words (set_phys_bytes (i_size i + head) l))) ;;
        mret (inl (count - chars, buf + chars, written + chars))
    end.
Definition write_pipe (inode : nat) (buf count : Z) : M kernel Z :=
  loop (S (Z.to_nat count)) (write_pipe_step inode) (count, buf, 0).

(** [current->filp[i]] and its assignment. *)
Definition filp (i : nat) : M kernel (option nat) := l ← cur t_filp; mret (default None (l !! i)).
Definition set_filp (i : nat) (v : option nat) : M kernel unit := cupd t_filp (fun l => <[i := v]> l).

(** The first two free entries of [file_table], each counted as it is found. *)
Definition take_files : M kernel (list nat) :=
  loop (S NR_FILE) (fun '(i, f) =>
    if (2 <=? length f)%nat || (NR_FILE <=? i)%nat then mret (inr f)
    else
      c ← i->>f_count;
      if truth c then mret (inl (S i, f))
      else upd i f_count (fun c => u16 (c + 1)) ;; mret (inl (S i, f ++ [i]))) (0%nat, []).
(** The first two free descriptors, each set to its file as it is found. *)
Definition take_fds (f : list nat) : M kernel (list nat) :=
  loop (S (Z.to_nat NR_OPEN)) (fun '(i, fd) =>
    if (2 <=? length fd)%nat || (Z.to_nat NR_OPEN <=? i)%nat then mret (inr fd)
    else
      o ← filp i;
      match o with
      | Some _ => mret (inl (S i, fd))
      | None => set_filp i (f !! length fd) ;; mret (inl (S i, fd ++ [i]))
      end) (0%nat, []).

Definition sys_pipe (fildes : Z) : M kernel Z :=
  f ← take_files;
  match f with
  | [f0; f1] =>
      fd ← take_fds f;
      match fd with
      | [fd0; fd1] =>
          o ← get_pipe_inode;
          match o with
          | None =>
              set_filp fd0 None ;; set_filp fd1 None ;;
              st f0 f_count 0 ;; st f1 f_count 0 ;;
              mret (-1)
          | Some inode =>
              st f0 f_inode (Some inode) ;; st f1 f_inode (Some inode) ;;
              st f0 f_pos 0 ;; st f1 f_pos 0 ;;
              st f0 f_mode 1 ;; st f1 f_mode 2 ;;
              put_fs_long (Z.of_nat fd0) fildes ;;
              put_fs_long (Z.of_nat fd1) (fildes + 4) ;;
              mret 0
          end
      | fd =>
          (match fd with [fd0] => set_filp fd0 None | _ => mret tt end) ;;
          st f0 f_count 0 ;; st f1 f_count 0 ;;
          mret (-1)
      end
  | [f0] => st f0 f_count 0 ;; mret (-1)
  | _ => mret (-1)
  end.
End with_world.

(** ** Lemmas: bytes of physical memory *)

Lemma byte_bit v k : 0 <= k < 8 -> Z.testbit (u8 v) k = Z.testbit v k.
Proof. intros. unfold u8. apply Z.mod_pow2_bits_low. lia. Qed.

Lemma phys_byte_set m a v b w :
  words m = set_phys_byte a v w -> 
  phys_byte m b = if b =? a then u8 v else phys_byte (Mm [] 0 w) b.
Proof.
  intros Hw. unfold phys_byte. rewrite Hw. unfold set_phys_byte. cbn [words].
  destruct (decide (b - b mod 4 = a - a mod 4)) as [Hwd|Hwd].
  2: { destruct (Z.eqb_spec b a) as [->|]; [done|]. by rewrite rd_insert_ne by congruence. }
  rewrite Hwd, rd_insert_eq. apply Z.bits_inj'. intros k Hk. destruct (decide (k < 8)).
  2: { assert (H0 : forall z, Z.testbit (u8 z) k = false) by (intros; unfold u8; apply Z.mod_pow2_bits_high; lia).
       destruct (b =? a); by rewrite !H0. }
  pose proof (Z.mod_pos_bound a 4 ltac:(lia)). pose proof (Z.mod_pos_bound b 4 ltac:(lia)).
  rewrite byte_bit, Z.shiftr_spec, Z.lor_spec, Z.ldiff_spec, !Z.shiftl_spec by lia.
  assert (H255 : forall n, Z.testbit 255 n = (0 <=? n) && (n <? 8)).
  { intros n. destruct (Z.leb_spec 0 n); [|by apply Z.testbit_neg_r].
    change 255 with (Z.ones 8). rewrite Z.testbit_ones_nonneg by lia. done. }
  rewrite H255.
  destruct (Z.eqb_spec b a) as [->|Hne].
  - replace (k + 8 * (a mod 4) - 8 * (a mod 4)) with k by lia.
    rewrite (proj2 (Z.leb_le _ _)), (proj2 (Z.ltb_lt _ _)) by lia. cbn [andb negb].
    by rewrite andb_false_r.
  - rewrite (byte_bit _ k), Z.shiftr_spec by lia.
    assert (b mod 4 <> a mod 4) by lia.
    destruct (decide (b mod 4 < a mod 4)).
    + rewrite (proj2 (Z.leb_gt _ _)) by lia. cbn [andb negb]. rewrite andb_true_r.
      rewrite (Z.testbit_neg_r (u8 v)) by lia. apply orb_false_r.
    + rewrite (proj2 (Z.ltb_ge _ 8)) by lia. rewrite andb_false_r. cbn [negb]. rewrite andb_true_r.
      unfold u8 at 1. rewrite Z.mod_pow2_bits_high by lia. apply orb_false_r.
Qed.

Lemma phys_bytes_set a l w b :
  phys_byte (Mm [] 0 (set_phys_bytes a l w)) b =
  if (a <=? b) && (b <? a + Z.of_nat (length l)) then u8 (default 0 (l !! Z.to_nat (b - a)))
  else phys_byte (Mm [] 0 w) b.
Proof.
  unfold set_phys_bytes.
  assert (H : forall l n w,
    phys_byte (Mm [] 0 (foldl (fun w '(i, v) => set_phys_byte (a + Z.of_nat i) v w) w (zip (seq n (length l)) l))) b =
    if (a + Z.of_nat n <=? b) && (b <? a + Z.of_nat n + Z.of_nat (length l))
    then u8 (default 0 (l !! Z.to_nat (b - a - Z.of_nat n))) else phys_byte (Mm [] 0 w) b).
  { clear. induction l as [|v l IH]; intros n w; cbn [length seq zip zip_with foldl].
    - change (Z.of_nat 0) with 0.
      destruct (Z.leb_spec (a + Z.of_nat n) b), (Z.ltb_spec b (a + Z.of_nat n + 0)); try lia; done.
    - rewrite IH, (phys_byte_set (Mm [] 0 _) (a + Z.of_nat n) v b w) by done.
      destruct (Z.eqb_spec b (a + Z.of_nat n)) as [->|Hne].
      + rewrite (proj2 (Z.leb_gt _ _)) by lia. cbn [andb].
        rewrite (proj2 (Z.leb_le _ _)), (proj2 (Z.ltb_lt _ _)) by lia. cbn [andb].
        by replace (Z.to_nat (a + Z.of_nat n - a - Z.of_nat n)) with 0%nat by lia.
      + destruct (Z.leb_spec (a + Z.of_nat (S n)) b), (Z.leb_spec (a + Z.of_nat n) b); try lia; cbn [andb]; [|done].
        replace (a + Z.of_nat (S n) + Z.of_nat (length l)) with (a + Z.of_nat n + Z.of_nat (S (length l))) by lia.
        destruct (_ <? _); [|done].
        by replace (Z.to_nat (b - a - Z.of_nat n)) with (S (Z.to_nat (b - a - Z.of_nat (S n)))) by lia. }
  rewrite (H l 0%nat w). by rewrite !Z.add_0_r, Z.sub_0_r.
Qed.

(** ** Lemmas: a pipe is a list of bytes *)

Record pipe_ok (i : m_inode) : Prop := {
  po_zone : length (i_zone i) = 9%nat;
  po_head : 0 <= PIPE_HEAD i < PAGE_SIZE;
  po_tail : 0 <= PIPE_TAIL i < PAGE_SIZE }.
(** The bytes in the pipe, the oldest first. *)
Definition pipe_byte (m : mm_state) (i : m_inode) (k : Z) : Z :=
  phys_byte m (i_size i + (PIPE_TAIL i + k) mod PAGE_SIZE).
Definition pipe_data (m : mm_state) (i : m_inode) : list Z := pipe_byte m i <$> seqZ 0 (PIPE_SIZE i).
(** Inode [p] is a pipe that holds [l], with its page at [pg]; a task that waits
    for it is there to be woken. *)
Definition pipe_is (p : nat) (pg : Z) (l : list Z) (s : kernel) : Prop :=
  exists i, k_inodes s !! p = Some i /\ pipe_ok i /\ i_size i = pg /\ pipe_data (k_mm s) i = l /\
    (forall q, i_wait i = Some q -> is_Some (task_at s q)).

(** An inode, and one of its zones, replaced. *)
Definition put_inode (p : nat) (i : m_inode) (s : kernel) : kernel := set_field k_inodes (fun l => <[p := i]> l) s.
Definition moved (k : nat) (v : Z) (i : m_inode) : m_inode := set_field i_zone (fun l => <[k := v]> l) i.
Lemma land_page z : Z.land z (PAGE_SIZE - 1) = z mod PAGE_SIZE.
Proof. change (PAGE_SIZE - 1) with (Z.ones 12). by rewrite Z.land_ones by lia. Qed.
Lemma PIPE_SIZE_bounds i : 0 <= PIPE_SIZE i < PAGE_SIZE.
Proof. unfold PIPE_SIZE. rewrite land_page. apply Z.mod_pos_bound. reflexivity. Qed.
Lemma pipe_data_length m i : Z.of_nat (length (pipe_data m i)) = PIPE_SIZE i.
Proof. unfold pipe_data. rewrite length_fmap, length_seqZ. pose proof (PIPE_SIZE_bounds i). lia. Qed.

Lemma phys_byte_words m b : phys_byte m b = phys_byte (Mm [] 0 (words m)) b.
Proof. done. Qed.

Lemma user_bytes_split s a n k :
  0 <= k <= n -> user_bytes s a n = user_bytes s a k ++ user_bytes s (a + k) (n - k).
Proof.
  intros. unfold user_bytes. replace n with (k + (n - k)) at 1 by lia.
  rewrite seqZ_app, fmap_app by lia. f_equal.
  replace (0 + k) with (k + 0) by lia. rewrite <- fmap_add_seqZ, <- list_fmap_compose.
  apply list_fmap_ext. intros j x _. unfold compose. do 3 f_equal. lia.
Qed.
Lemma user_bytes_user s s' a n : k_user s' = k_user s -> user_bytes s' a n = user_bytes s a n.
Proof. intros H. unfold user_bytes. by rewrite H. Qed.

(** Writing [chars] bytes at the head of the ring. *)
Lemma pipe_data_write m i i' l head' :
  pipe_ok i -> bytes_ok l -> l <> [] ->
  Z.of_nat (length l) <= PAGE_SIZE - PIPE_HEAD i -> Z.of_nat (length l) <= PAGE_SIZE - 1 - PIPE_SIZE i ->
  head' = (PIPE_HEAD i + Z.of_nat (length l)) mod PAGE_SIZE ->
  i_size i' = i_size i -> PIPE_TAIL i' = PIPE_TAIL i -> PIPE_HEAD i' = head' ->
  pipe_data (set_field words (set_phys_bytes (i_size i + PIPE_HEAD i) l) m) i' = pipe_data m i ++ l.
Proof.
  intros [Hz Hh Ht] Hl Hne Hw Hroom -> Hpg Htail Hhead. pose proof (PIPE_SIZE_bounds i).
  assert (HS : PIPE_SIZE i' = PIPE_SIZE i + Z.of_nat (length l)).
  { revert Hroom. unfold PIPE_SIZE. rewrite Htail, Hhead, !land_page. unfold PAGE_SIZE in *.
    Z.to_euclidean_division_equations. lia. }
  unfold pipe_data. rewrite HS, seqZ_app, fmap_app by lia. f_equal.
  - apply list_fmap_ext. intros n k Hk. apply lookup_seqZ in Hk as [-> Hk].
    unfold pipe_byte. rewrite Hpg, Htail. rewrite phys_byte_words. cbn [words set_field set_words].
    rewrite phys_bytes_set. destruct (_ && _) eqn:E; [|done]. exfalso.
    apply andb_true_iff in E as [E1%Z.leb_le E2%Z.ltb_lt]. revert E1 E2 Hk Hroom.
    unfold PIPE_SIZE. rewrite land_page. unfold PAGE_SIZE in *. Z.to_euclidean_division_equations. lia.
  - apply list_eq. intros n. rewrite list_lookup_fmap.
    destruct (decide (n < length l)%nat) as [Hn|Hn].
    + rewrite lookup_seqZ_lt by lia. cbn [fmap option_fmap option_map].
      unfold pipe_byte. rewrite Hpg, Htail. rewrite phys_byte_words. cbn [words set_field set_words].
      rewrite phys_bytes_set.
      assert (E : (PIPE_TAIL i + (0 + PIPE_SIZE i + Z.of_nat n)) mod PAGE_SIZE = PIPE_HEAD i + Z.of_nat n).
      { unfold PIPE_SIZE. rewrite land_page. unfold PAGE_SIZE in *. Z.to_euclidean_division_equations. lia. }
      rewrite E, (proj2 (Z.leb_le _ _)), (proj2 (Z.ltb_lt _ _)) by lia. cbn [andb].
      replace (Z.to_nat (i_size i + (PIPE_HEAD i + Z.of_nat n) - (i_size i + PIPE_HEAD i))) with n by lia.
      destruct (lookup_lt_is_Some_2 l n Hn) as [b Hb]. rewrite Hb. cbn. f_equal. apply u8_small.
      unfold bytes_ok in Hl. rewrite Forall_lookup in Hl. eauto.
    + rewrite lookup_seqZ_ge, (lookup_ge_None_2 l n) by lia. done.
Qed.

(** Taking [chars] bytes at the tail. *)
Lemma pipe_data_read m i i' chars :
  pipe_ok i -> 0 < chars <= PIPE_SIZE i -> chars <= PAGE_SIZE - PIPE_TAIL i ->
  i_size i' = i_size i -> PIPE_HEAD i' = PIPE_HEAD i ->
  PIPE_TAIL i' = (PIPE_TAIL i + chars) mod PAGE_SIZE ->
  pipe_data m i = phys_bytes m (i_size i + PIPE_TAIL i) chars ++ pipe_data m i'.
Proof.
  intros [Hz Hh Ht] Hc Hw Hpg Hhead Htail. pose proof (PIPE_SIZE_bounds i).
  assert (HS : PIPE_SIZE i = chars + PIPE_SIZE i').
  { revert Hc. unfold PIPE_SIZE. rewrite Htail, Hhead, !land_page. unfold PAGE_SIZE in *.
    Z.to_euclidean_division_equations. lia. }
  unfold pipe_data. pose proof (PIPE_SIZE_bounds i'). rewrite HS, seqZ_app, fmap_app by lia. f_equal.
  - unfold phys_bytes. apply list_fmap_ext. intros n k Hk. apply lookup_seqZ in Hk as [-> Hk].
    unfold pipe_byte. rewrite Z.mod_small by lia. f_equal. lia.
  - replace (0 + chars) with (chars + 0) by lia.
    rewrite <- fmap_add_seqZ, <- list_fmap_compose. apply list_fmap_ext. intros n k _.
    unfold compose, pipe_byte. rewrite Hpg, Htail, Zplus_mod_idemp_l. do 3 f_equal. lia.
Qed.

(** ** Lemmas: storing to user memory *)

Definition store_bytes (a : Z) (l : list Z) (u : gmap Z Z) : gmap Z Z :=
  foldl (fun u '(i, v) => <[u32 (a + Z.of_nat i) := u8 v]> u) u (zip (seq 0 (length l)) l).

Lemma put_user_eq l a s : put_user l a s = Ok tt (set_field k_user (store_bytes a l) s).
Proof.
  unfold put_user, store_bytes. generalize (zip (seq 0 (length l)) l) as x; intros x.
  revert s. induction x as [|[i v] x IH]; intros s; [by destruct s|].
  cbn [for_]. unfold mbind, M_bind, put_fs_byte, modify. rewrite IH. reflexivity.
Qed.

Lemma store_bytes_lookup a l u k :
  Z.of_nat (length l) < 2 ^ 31 -> - 2 ^ 31 <= k < 2 ^ 31 ->
  store_bytes a l u !! u32 (a + k) =
  if (0 <=? k) && (k <? Z.of_nat (length l)) then u8 <$> l !! Z.to_nat k else u !! u32 (a + k).
Proof.
  intros Hl Hk. unfold store_bytes.
  assert (H0 : forall (l : list Z) (n : nat) (u : gmap Z Z), Z.of_nat n + Z.of_nat (length l) < 2 ^ 31 ->
    foldl (fun u '(i, v) => <[u32 (a + Z.of_nat i) := u8 v]> u) u (zip (seq n (length l)) l) !! u32 (a + k) =
    if (Z.of_nat n <=? k) && (k <? Z.of_nat n + Z.of_nat (length l))
    then u8 <$> l !! Z.to_nat (k - Z.of_nat n) else u !! u32 (a + k)).
  { clear l u Hl. induction l as [|v l IH]; intros n u Hn; cbn [length seq zip zip_with foldl] in *.
    - change (Z.of_nat 0) with 0.
      destruct (Z.leb_spec (Z.of_nat n) k), (Z.ltb_spec k (Z.of_nat n + 0)); try lia; done.
    - rewrite IH by lia. destruct (Z.eqb_spec k (Z.of_nat n)) as [->|Hne].
      + rewrite (proj2 (Z.leb_gt _ _)) by lia. cbn [andb]. rewrite lookup_insert_eq.
        rewrite (proj2 (Z.leb_le _ _)), (proj2 (Z.ltb_lt _ _)) by lia. cbn [andb].
        by replace (Z.to_nat (Z.of_nat n - Z.of_nat n)) with 0%nat by lia.
      + destruct (Z.leb_spec (Z.of_nat (S n)) k), (Z.leb_spec (Z.of_nat n) k); try lia; cbn [andb].
        * replace (Z.of_nat (S n) + Z.of_nat (length l)) with (Z.of_nat n + Z.of_nat (S (length l))) by lia.
          destruct (_ <? _).
          -- by replace (Z.to_nat (k - Z.of_nat n)) with (S (Z.to_nat (k - Z.of_nat (S n)))) by lia.
          -- rewrite lookup_insert_ne; [done|]. unfold u32. intros He. apply Hne.
             revert He. Z.to_euclidean_division_equations. lia.
        * rewrite lookup_insert_ne; [done|]. unfold u32. intros He. apply Hne.
          revert He. Z.to_euclidean_division_equations. lia. }
  rewrite (H0 l 0%nat u) by lia. by rewrite Z.sub_0_r.
Qed.

Lemma user_bytes_stored s a l n :
  bytes_ok l -> Z.of_nat (length l) = n -> n < 2 ^ 31 ->
  user_bytes (set_field k_user (store_bytes a l) s) a n = l.
Proof.
  intros Hl Hn Hlt. unfold user_bytes. apply list_eq. intros j. rewrite list_lookup_fmap.
  destruct (decide (j < length l)%nat) as [Hj|Hj].
  - rewrite lookup_seqZ_lt by lia. cbn [fmap option_fmap option_map]. cbn [k_user set_field set_k_user].
    rewrite store_bytes_lookup by lia. rewrite (proj2 (Z.leb_le _ _)), (proj2 (Z.ltb_lt _ _)) by lia. cbn [andb].
    rewrite Z.add_0_l, Nat2Z.id. destruct (lookup_lt_is_Some_2 l j Hj) as [b Hb]. rewrite Hb. cbn. f_equal.
    apply u8_small. unfold bytes_ok in Hl. rewrite Forall_lookup in Hl. eauto.
  - rewrite lookup_seqZ_ge, (lookup_ge_None_2 l j) by lia. done.
Qed.
Lemma user_bytes_kept s a b l n :
  Z.of_nat (length l) < 2 ^ 31 -> b + n <= a -> a - b <= 2 ^ 31 ->
  user_bytes (set_field k_user (store_bytes a l) s) b n = user_bytes s b n.
Proof.
  intros Hl H1 H2. unfold user_bytes. apply list_fmap_ext. intros j x Hj. apply lookup_seqZ in Hj as [-> Hj].
  cbn [k_user set_field set_k_user].
  replace (b + (0 + Z.of_nat j)) with (a + (b - a + Z.of_nat j)) by lia.
  rewrite store_bytes_lookup by lia. by rewrite (proj2 (Z.leb_gt _ _)) by lia.
Qed.

Lemma phys_bytes_ok m a n : bytes_ok (phys_bytes m a n).
Proof. unfold bytes_ok, phys_bytes. apply Forall_fmap, Forall_forall. intros. apply u8_range. Qed.

(** ** The pipe operations *)

Section pipe_proofs.
Context `{World}.
Context (P : string -> kernel -> Prop) (F : Prop).

Lemma pipe_wake p pg l (Q : unit -> kernel -> Prop) s :
  pipe_is p pg l s -> (forall s', pipe_is p pg l s' -> k_user s' = k_user s -> Q tt s') ->
  wpg P F (wake_up (Some (inode_q p))) Q s.
Proof.
  intros (i & Hi & Hok & Hpg & Hd & Hw) HQ. unfold wake_up. cbn [inode_q wq_get wq_set]. wp_steps.
  destruct (i_wait i) as [q|] eqn:Eq.
  - destruct (Hw q eq_refl) as [tk Htk]. wp_step. unfold tst, tupd, wpg at 1. rewrite Htk. wp_steps.
    apply HQ; [|done]. exists (set_field i_wait (fun _ => None) i). cbn.
    rewrite list_lookup_insert_eq by (by eapply lookup_lt_Some). split_and!; [done|by destruct Hok|done|done|done].
  - wp_steps. apply HQ; [|done]. exists i. rewrite Eq. done.
Qed.

Lemma pipe_no_wait p i amount (Q : option Z -> kernel -> Prop) s :
  k_inodes s !! p = Some i -> (1 <= patience)%nat -> amount i <> 0 -> Q (Some (amount i)) s ->
  wpg P F (wait_pipe p amount) Q s.
Proof.
  intros Hi Hpat Ha HQ. unfold wait_pipe. destruct patience as [|n]; [lia|]. rewrite loop_S.
  wp_step. wp_step. unfold wpg at 1, ld. cbn [tab inode_table]. rewrite Hi.
  rewrite (proj2 (truth_true _) Ha). wp_steps. exact HQ.
Qed.
End pipe_proofs.

Lemma set_zone_run p k v i s : k_inodes s !! p = Some i -> set_zone p k v s = Ok tt (put_inode p (moved k (u16 v) i) s).
Proof. intros Hi. unfold set_zone, upd, updr. cbn [tab inode_table]. by rewrite Hi. Qed.
Lemma zone_run p k z i s : k_inodes s !! p = Some i -> i_zone i !! k = Some z -> zone p k s = Ok z s.
Proof. intros Hi Hz. unfold zone. rewrite (bind_Ok _ _ s (i_zone i) s); [by rewrite Hz|]. unfold getf. cbn [tab inode_table]. by rewrite Hi. Qed.
Lemma put_inode_at p i i' s : k_inodes s !! p = Some i -> k_inodes (put_inode p i' s) !! p = Some i'.
Proof. intros Hi. apply list_lookup_insert_eq. by eapply lookup_lt_Some. Qed.
Lemma moved_at k v i : (k < length (i_zone i))%nat -> i_zone (moved k v i) !! k = Some v.
Proof. apply list_lookup_insert_eq. Qed.
Lemma put_moved_twice p k v v' i s : put_inode p (moved k v (moved k v' i)) (put_inode p (moved k v' i) s) = put_inode p (moved k v i) s.
Proof. unfold put_inode, moved, set_field, set_k_inodes, set_i_zone. cbn. by rewrite !list_insert_insert_eq. Qed.
(** The head or the tail moves on, round the end of the page. *)
Lemma wpg_advance {B} P F p i k old chars (rest : M kernel B) Q s : k_inodes s !! p = Some i -> (k < length (i_zone i))%nat ->
  0 <= old + chars <= PAGE_SIZE -> wpg P F rest Q (put_inode p (moved k ((old + chars) mod PAGE_SIZE) i) s) ->
  wpg P F (set_zone p k (old + chars) ;; t ← zone p k; set_zone p k (Z.land t (PAGE_SIZE - 1)) ;; rest) Q s.
Proof.
  intros Hi Hk Hr HQ. pose proof (put_inode_at p i (moved k (u16 (old + chars)) i) s Hi) as H1.
  apply (wpg_bind_Ok _ _ _ _ _ _ _ _ (set_zone_run _ _ _ _ _ Hi)), (wpg_bind_Ok _ _ _ _ _ _ _ _ (zone_run _ _ _ _ _ H1 (moved_at _ _ _ Hk))).
  apply (wpg_bind_Ok _ _ _ _ _ _ _ _ (set_zone_run _ _ _ _ _ H1)). rewrite put_moved_twice.
  rewrite (u16_small (old + chars)), land_page by (unfold PAGE_SIZE in *; lia).
  rewrite u16_small by (unfold PAGE_SIZE in *; pose proof (Z.mod_pos_bound (old + chars) 4096); lia). exact HQ.
Qed.
(** The two ends of the ring. *)
Lemma moved_head i v : pipe_ok i -> 0 <= v < PAGE_SIZE -> pipe_ok (moved 0 v i) /\ PIPE_HEAD (moved 0 v i) = v /\ PIPE_TAIL (moved 0 v i) = PIPE_TAIL i.
Proof.
  intros [Hz Hh Ht] Hv. destruct (i_zone i) as [|z0 [|z1 zs]] eqn:Ez; [done|done|].
  assert (E : PIPE_HEAD (moved 0 v i) = v /\ PIPE_TAIL (moved 0 v i) = PIPE_TAIL i) by (unfold PIPE_HEAD, PIPE_TAIL, moved; cbn; by rewrite Ez).
  destruct E as [E1 E2]. split_and!; [|done|done]. split; [cbn; rewrite length_insert, Ez; done|by rewrite E1|by rewrite E2].
Qed.
Lemma moved_tail i v : pipe_ok i -> 0 <= v < PAGE_SIZE -> pipe_ok (moved 1 v i) /\ PIPE_HEAD (moved 1 v i) = PIPE_HEAD i /\ PIPE_TAIL (moved 1 v i) = v.
Proof.
  intros [Hz Hh Ht] Hv. destruct (i_zone i) as [|z0 [|z1 zs]] eqn:Ez; [done|done|].
  assert (E : PIPE_HEAD (moved 1 v i) = PIPE_HEAD i /\ PIPE_TAIL (moved 1 v i) = v) by (unfold PIPE_HEAD, PIPE_TAIL, moved; cbn; by rewrite Ez).
  destruct E as [E1 E2]. split_and!; [|done|done]. split; [cbn; rewrite length_insert, Ez; done|by rewrite E1|by rewrite E2].
Qed.
Lemma ld_inode p i s : k_inodes s !! p = Some i -> ld p s = Ok i s.
Proof. intros Hi. unfold ld. cbn [tab inode_table]. by rewrite Hi. Qed.
Lemma pipe_bytes p pg l s : pipe_is p pg l s -> Z.of_nat (length l) < 4096 /\ bytes_ok l.
Proof.
  intros (i & _ & _ & _ & <- & _). rewrite pipe_data_length. split; [apply PIPE_SIZE_bounds|].
  apply Forall_fmap, Forall_forall. intros. apply u8_range.
Qed.
Section turns.
Context `{World}.
Context (P : string -> kernel -> Prop) (F : Prop).
(** One turn of the loop of [write_pipe], with room in the pipe. *)
Lemma write_turn p pg l s c b w : pipe_is p pg l s -> (1 <= patience)%nat -> 0 < c -> bytes_ok (user_bytes s b c) -> Z.of_nat (length l) < 4095 ->
  wpg P F (write_pipe_step p (c, b, w)) (fun r s' => exists n, r = inl (c - n, b + n, w + n) /\ 0 < n <= c /\
    k_user s' = k_user s /\ pipe_is p pg (l ++ user_bytes s b n) s') s.
Proof.
  intros (i & Hi & Hok & Hpg & Hd & Hwait) Hpat Hc Hb Hroom. pose proof (pipe_data_length (k_mm s) i) as Hsz. rewrite Hd in Hsz.
  unfold write_pipe_step. rewrite (proj2 (Z.leb_gt _ _) Hc). apply wpg_bind, (pipe_no_wait _ _ _ i); [done|done|unfold PAGE_SIZE; lia|].
  apply (wpg_bind_Ok _ _ _ _ _ _ _ _ (ld_inode _ _ _ Hi)).
  set (n := Z.min (Z.min (PAGE_SIZE - PIPE_HEAD i) c) (PAGE_SIZE - 1 - PIPE_SIZE i)).
  assert (Hn : 0 < n <= c /\ n <= PAGE_SIZE - PIPE_HEAD i /\ n <= PAGE_SIZE - 1 - PIPE_SIZE i).
  { pose proof (po_head i Hok). unfold n, PAGE_SIZE in *. lia. }
  pose proof (po_head i Hok) as Hh. pose proof (po_zone i Hok) as Hz.
  set (h := (PIPE_HEAD i + n) mod PAGE_SIZE). assert (Hh' : 0 <= h < PAGE_SIZE) by (by apply Z.mod_pos_bound).
  destruct (moved_head i h Hok Hh') as (Hok' & Eh & Et).
  apply (wpg_advance _ _ p i 0 (PIPE_HEAD i) n); [done|rewrite Hz; lia|lia|]. fold h.
  apply wpg_bind, wpg_gets, wpg_bind, wpg_modify, wpg_ret. exists n. split_and!; [done|lia|lia|done|].
  change (user_bytes (put_inode _ _ _) b n) with (user_bytes s b n). set (data := user_bytes s b n).
  assert (Hlen : Z.of_nat (length data) = n) by (unfold data; rewrite user_bytes_length; lia).
  exists (moved 0 h i). split; [exact (put_inode_at p i _ s Hi)|split_and!; [exact Hok'|exact Hpg| |exact Hwait]].
  rewrite <- Hd. apply pipe_data_write with (head' := h); try done; rewrite ?Hlen; try lia; [|intros E; rewrite E in Hlen; cbn in Hlen; lia].
  unfold data. rewrite (user_bytes_split s b c n) in Hb by lia. by apply Forall_app in Hb as [? _].
Qed.
(** One turn of the loop of [read_pipe], with data in the pipe. *)
Lemma read_turn p pg l s c b r : pipe_is p pg l s -> (1 <= patience)%nat -> 0 < c -> (0 < length l)%nat ->
  wpg P F (read_pipe_step p (c, b, r)) (fun x s' => exists n, x = inl (c - n, b + n, r + n) /\ 0 < n <= c /\ n <= Z.of_nat (length l) /\
    k_user s' = store_bytes b (take (Z.to_nat n) l) (k_user s) /\ pipe_is p pg (drop (Z.to_nat n) l) s') s.
Proof.
  intros (i & Hi & Hok & Hpg & Hd & Hwait) Hpat Hc Hl. pose proof (pipe_data_length (k_mm s) i) as Hsz. rewrite Hd in Hsz.
  unfold read_pipe_step. rewrite (proj2 (Z.leb_gt _ _) Hc). apply wpg_bind, (pipe_no_wait _ _ _ i); [done|done|lia|].
  apply (wpg_bind_Ok _ _ _ _ _ _ _ _ (ld_inode _ _ _ Hi)).
  set (n := Z.min (Z.min (PAGE_SIZE - PIPE_TAIL i) c) (PIPE_SIZE i)).
  assert (Hn : 0 < n <= c /\ n <= PAGE_SIZE - PIPE_TAIL i /\ n <= PIPE_SIZE i).
  { pose proof (po_tail i Hok). unfold n, PAGE_SIZE in *. lia. }
  pose proof (po_tail i Hok) as Ht. pose proof (po_zone i Hok) as Hz.
  set (t := (PIPE_TAIL i + n) mod PAGE_SIZE). assert (Ht' : 0 <= t < PAGE_SIZE) by (by apply Z.mod_pos_bound).
  destruct (moved_tail i t Hok Ht') as (Hok' & Eh & Et).
  apply (wpg_advance _ _ p i 1 (PIPE_TAIL i) n); [done|rewrite Hz; lia|lia|]. fold t. apply wpg_bind, wpg_gets.
  change (k_mm (put_inode _ _ _)) with (k_mm s). set (data := phys_bytes (k_mm s) (i_size i + PIPE_TAIL i) n).
  assert (El : l = data ++ pipe_data (k_mm s) (moved 1 t i)) by (rewrite <- Hd; apply pipe_data_read; (done || lia)).
  assert (Hlen : length data = Z.to_nat n) by (unfold data, phys_bytes; by rewrite length_fmap, length_seqZ).
  apply wpg_bind, (wpg_Ok _ _ _ _ _ _ _ (put_user_eq _ _ _)), wpg_ret. exists n. split_and!; [done|lia|lia|lia| |].
  - rewrite El, take_app_length' by done. done.
  - rewrite El, drop_app_length' by done. exists (moved 1 t i). split; [exact (put_inode_at p i _ s Hi)|done].
Qed.
End turns.

Section pipe_theorems.
Context `{World}.

(** C19: [write_pipe] of at most as many bytes as there is room for (4095
    bytes in all) writes them all without waiting: the pipe holds what it held,
    followed by the bytes of the user's buffer, and the reader is woken. *)
Theorem write_pipe_appends p pg l s buf count :
  pipe_is p pg l s -> (1 <= patience)%nat -> bytes_ok (user_bytes s buf count) ->
  0 <= count <= 4095 - Z.of_nat (length l) ->
  wp (write_pipe p buf count) (fun r s' => r = count /\ pipe_is p pg (l ++ user_bytes s buf count) s') s.
Proof.
  intros Hp Hpat Hb Hc. unfold write_pipe.
  apply wpg_loop_total with (mu := fun '(c, _, _) _ => Z.to_nat c)
    (Inv := fun '(c, b, w) s' => b = buf + w /\ c + w = count /\ 0 <= w /\ 0 <= c /\ k_user s' = k_user s /\
              pipe_is p pg (l ++ user_bytes s buf w) s').
  - split_and!; [lia..|done|]. unfold user_bytes. by rewrite app_nil_r.
  - lia.
  - intros [[c b] w] s1 (-> & Hcw & Hw & Hc0 & Hu & Hp1). destruct (decide (c <= 0)) as [Hle|Hgt].
    + unfold write_pipe_step. rewrite (proj2 (Z.leb_le _ _) Hle). assert (w = count) as -> by lia.
      wp_step. eapply pipe_wake; [done|]. intros s2 Hp2 _. wp_steps. done.
    + rewrite (user_bytes_split s buf count w) in Hb by lia. apply Forall_app in Hb as [_ Hb]. replace (count - w) with c in Hb by lia.
      eapply wpg_mono; [eapply (write_turn _ _ p pg _ s1 c (buf + w) w Hp1 Hpat)|]; [lia|by rewrite (user_bytes_user s)| |].
      { rewrite length_app. pose proof (user_bytes_length s buf w). lia. }
      cbn beta. intros r s2 (n & -> & Hn & Hu2 & Hp2). split; [|lia]. split_and!; [lia..|congruence|].
      rewrite (user_bytes_split s buf (w + n) w), app_assoc by lia. replace (w + n - w) with n by lia.
      by rewrite (user_bytes_user s s1) in Hp2.
Qed.

(** C29: [read_pipe] of at most as many bytes as the pipe holds takes them
    from the front, in order, into the user's buffer, without waiting; what is
    left stays in the pipe, and the writer is woken. *)
Theorem read_pipe_takes p pg l s buf count :
  pipe_is p pg l s -> (1 <= patience)%nat -> 0 <= count <= Z.of_nat (length l) ->
  wp (read_pipe p buf count) (fun r s' =>
    r = count /\ user_bytes s' buf count = take (Z.to_nat count) l /\
    pipe_is p pg (drop (Z.to_nat count) l) s') s.
Proof.
  intros Hp Hpat Hc. unfold read_pipe.
  destruct (pipe_bytes _ _ _ _ Hp) as [Hlen Hok].
  apply wpg_loop_total with (mu := fun '(c, _, _) _ => Z.to_nat c)
    (Inv := fun '(c, b, w) s' => b = buf + w /\ c + w = count /\ 0 <= w /\ 0 <= c /\
              user_bytes s' buf w = take (Z.to_nat w) l /\ pipe_is p pg (drop (Z.to_nat w) l) s').
  - split_and!; [lia..|done|exact Hp].
  - lia.
  - intros [[c b] w] s1 (-> & Hcw & Hw & Hc0 & Hu & Hp1). destruct (decide (c <= 0)) as [Hle|Hgt].
    + unfold read_pipe_step. rewrite (proj2 (Z.leb_le _ _) Hle). assert (w = count) as -> by lia.
      wp_step. eapply pipe_wake; [done|]. intros s2 Hp2 Hu2. wp_steps. split_and!; [done| |done].
      rewrite <- Hu. by apply user_bytes_user.
    + eapply wpg_mono; [eapply (read_turn _ _ p pg _ s1 c (buf + w) w Hp1 Hpat)|]; [lia|rewrite length_drop; lia|].
      cbn beta. intros r s2 (n & -> & Hn & Hnl & Hu2 & Hp2). rewrite length_drop in Hnl. split; [|lia].
      split_and!; [lia..| |by rewrite drop_drop, <- Z2Nat.inj_add in Hp2 by lia].
      rewrite (user_bytes_split _ buf (w + n) w) by lia. replace (w + n - w) with n by lia.
      set (data := take (Z.to_nat n) (drop (Z.to_nat w) l)) in *.
      assert (Hd : Z.of_nat (length data) = n) by (unfold data; rewrite length_take, length_drop; lia).
      rewrite !(user_bytes_user (set_field k_user (store_bytes (buf + w) data) s1) s2) by exact Hu2.
      rewrite user_bytes_stored, user_bytes_kept by (lia || by apply Forall_take, Forall_drop). rewrite Hu. unfold data.
      by rewrite take_take_drop, Z2Nat.inj_add by lia.
Qed.
End pipe_theorems.

(** A pipe in inode 3 with its page at 0x200000, its head near the end of the
    page, and "hello" in user memory. *)
Definition hello : list Z := [104; 101; 108; 108; 111].
Definition pipe_kernel : kernel :=
  set_field k_user (store_bytes 500 hello)
  (set_field k_inodes (alter (fun i =>
     set_field i_size (fun _ => 0x200000) (set_field i_zone (fun _ => [4094; 4094; 0; 0; 0; 0; 0; 0; 0]) i)) 3%nat)
     (boot_kernel 0x10000 0x20000)).
Lemma pipe_kernel_is : pipe_is 3 0x200000 [] pipe_kernel.
Proof. eexists. split; [reflexivity|]. split_and!; [|reflexivity|reflexivity|discriminate]. split; vm_compute; intuition congruence. Qed.
Lemma write_pipe_appends_witness :
  wp (write_pipe (H := idle_world) 3 500 5) (fun r s' => r = 5 /\ pipe_is 3 0x200000 hello s') pipe_kernel.
Proof.
  apply (write_pipe_appends (H := idle_world) 3 0x200000 [] pipe_kernel 500 5 pipe_kernel_is).
  - cbn [patience idle_world]. lia.
  - change (user_bytes pipe_kernel 500 5) with hello. repeat constructor; discriminate.
  - cbn. lia.
Defined.
Lemma read_pipe_takes_witness :
  exists s, pipe_is 3 0x200000 hello s /\
  wp (read_pipe (H := idle_world) 3 900 3) (fun r s' =>
    r = 3 /\ user_bytes s' 900 3 = [104; 101; 108] /\ pipe_is 3 0x200000 [108; 111] s') s.
Proof.
  exists (set_field k_mm (set_field words (set_phys_bytes 0x200ffe [104; 101]))
         (set_field k_mm (set_field words (set_phys_bytes 0x200000 [108; 108; 111]))
         (set_field k_inodes (alter (set_field i_zone (fun _ => [3; 4094; 0; 0; 0; 0; 0; 0; 0])) 3%nat) pipe_kernel))).
  match goal with |- pipe_is _ _ _ ?s /\ _ => assert (Hp : pipe_is 3 0x200000 hello s) end.
  { eexists. split; [reflexivity|]. split_and!; [|reflexivity|reflexivity|discriminate].
    split; vm_compute; intuition congruence. }
  split; [exact Hp|].
  apply (read_pipe_takes (H := idle_world) 3 0x200000 hello _ 900 3 Hp).
  - cbn [patience idle_world]. lia.
  - cbn. lia.
Defined.
