(* ===== verification/PageFault.v ===== *)
(** * mm/memory.c: missing pages, demand loading

    [share_page] and [do_no_page]: they use the executable's inode and the
    buffer cache, so they live above both. *)

From S2P Require Import Prelude Kernel Sched Memory Blk LLRwBlk Buffer Bitmap Inode Pipe.

Section with_world.
Context `{World}.

(** The task in slot [p] runs the same program and is not the current one. *)
Definition may_share (p : nat) : M kernel (option Z) :=
  o ← aget k_task p; me ← gets k_current; ex ← cur t_executable;
  mret (match o with
        | Some t => if bool_decide (p = me) || negb (bool_decide (t_executable t = ex)) then None
                    else Some (t_start_code t)
        | None => None
        end).
Definition share_page (address : Z) : M kernel Z :=
  ex ← cur t_executable;
  match ex with
  | None => mret 0
  | Some ino =>
      c ← ino->>i_count;
      if c <? 2 then mret 0
      else
        start ← cur t_start_code;
        r ← for_break tasks_down (fun p =>
          o ← may_share p;
          match o with
          | None => mret None
          | Some p_start =>
              r ← mm (try_to_share address p_start start);
              mret (if truth r then Some 1 else None)
          end);
        mret (default 0 r)
  end.

(** [for (i=0 ; i<4 ; block++,i++) nr[i] = bmap(current->executable,block);] *)
Definition block_numbers (ino : nat) (block : Z) : M kernel (list Z) :=
  n0 ← bmap ino block; n1 ← bmap ino (block + 1); n2 ← bmap ino (block + 2); n3 ← bmap ino (block + 3);
  mret [n0; n1; n2; n3].
(** The bytes of the page behind the end of the data are cleared. *)
Definition clear_tail (page i : Z) : M kernel unit :=
  when (0 <? i)
    (modify (set_field k_mm (set_field words
       (set_phys_bytes (page + 4096 - i) (replicate (Z.to_nat i) 0))))).

Definition do_no_page (error_code address : Z) : M kernel unit :=
  let address := Z.land address 0xfffff000 in
  start ← cur t_start_code; end_data ← cur t_end_data; ex ← cur t_executable;
  let tmp := u32 (address - start) in
  match ex with
  | None => mm (get_empty_page address)
  | Some ino =>
      if end_data <=? tmp then mm (get_empty_page address)
      else
        r ← share_page tmp;
        if truth r then mret tt
        else
          page ← mm get_free_page;
          if negb (truth page) then mm oom
          else
            nr ← block_numbers ino (1 + tmp / BLOCK_SIZE);
            dev ← ino->>i_dev;
            bread_page page dev nr ;;
            end_data ← cur t_end_data;
            clear_tail page (s32 (tmp + 4096 - end_data)) ;;
            r ← mm (put_page page address);
            if truth r then mret tt
            else mm (free_page page) ;; mm oom
  end.
End with_world.
