(* ===== verification/FileIo.v ===== *)
(** * fs/file_dev.c, block_dev.c, char_dev.c, read_write.c: reading and writing

    Regular files, block devices, character devices, and the system calls that
    choose between them. *)

From S2P Require Import Prelude Kernel Sched Memory Fork Blk LLRwBlk Buffer Bitmap Inode Namei Tty Pipe.

(** The [chars] bytes of a buffer from [off], and storing bytes in it; an
    access outside the block is a fault. *)
Definition buf_bytes (bh : nat) (off chars : Z) : M kernel (list Z) :=
  d ← bh->>b_data;
  if (0 <=? off) && (off + chars <=? Z.of_nat (length d))
  then mret (take (Z.to_nat chars) (drop (Z.to_nat off) d)) else fault.
Definition set_buf_bytes (bh : nat) (off : Z) (l : list Z) : M kernel unit :=
  d ← bh->>b_data;
  d' ← put_bytes d off l;
  st bh b_data d'.

Section with_world.
Context `{World}.

(** ** file_dev.c *)

Definition file_read_step (inode fp : nat) (acc : Z * Z) : M kernel (Z * Z + Z) :=
  let '(rest, buf) := acc in
  if negb (truth rest) then mret (inr rest)
  else
    pos ← fp->>f_pos;
    nr ← bmap inode (Z.quot pos BLOCK_SIZE);
    r ← (if truth nr then
           dev ← inode->>i_dev;
           o ← bread dev nr;
           mret (match o with Some bh => Some (Some bh) | None => None end)
         else mret (Some None));
    match r with
    | None => mret (inr rest)
    | Some bh =>
        pos ← fp->>f_pos;
        let nr := Z.rem pos BLOCK_SIZE in
        let chars := Z.min (BLOCK_SIZE - nr) rest in
        upd fp f_pos (fun p => s32 (p + chars)) ;;
        (match bh with
         | Some b =>
             l ← buf_bytes b nr chars;
             put_user l buf ;;
             brelse (Some b)
         | None => put_user (replicate (Z.to_nat chars) 0) buf
         end) ;;
        mret (inl (rest - chars, buf + chars))
    end.
Definition file_read (inode fp : nat) (buf count : Z) : M kernel Z :=
  if count <=? 0 then mret 0
  else
    rest ← loop (S (Z.to_nat count)) (file_read_step inode fp) (count, buf);
    t ← CURRENT_TIME;
    st inode i_atime (u32 t) ;;
    mret (if truth (count - rest) then count - rest else - ERROR).

(** The loop of [file_write]: [i] bytes written, the next at [pos]. *)
Definition file_write_step (inode : nat) (count : Z) (acc : Z * Z * Z) : M kernel (Z * Z * Z + Z * Z) :=
  let '(i, pos, buf) := acc in
  if count <=? i then mret (inr (i, pos))
  else
    block ← create_block inode (Z.quot pos BLOCK_SIZE);
    if negb (truth block) then mret (inr (i, pos))
    else
      dev ← inode->>i_dev;
      o ← bread dev block;
      match o with
      | None => mret (inr (i, pos))
      | Some bh =>
          let c0 := Z.rem pos BLOCK_SIZE in
          st bh b_dirt 1 ;;
          let c := Z.min (BLOCK_SIZE - c0) (count - i) in
          let pos := s32 (pos + c) in
          size ← inode->>i_size;
          when (size <? u32 pos) (st inode i_size (u32 pos) ;; st inode i_dirt 1) ;;
          l ← gets (fun s => user_bytes s buf c);
          set_buf_bytes bh c0 l ;;
          brelse (Some bh) ;;
          mret (inl (i + c, pos, buf + c))
      end.
Definition file_write (inode fp : nat) (buf count : Z) : M kernel Z :=
  flags ← fp->>f_flags;
  let append := truth (Z.land flags O_APPEND) in
  pos ← (if append then s ← inode->>i_size; mret (s32 s) else fp->>f_pos);
  '(i, pos) ← loop (S (Z.to_nat count)) (file_write_step inode count) (0, pos, buf);
  t ← CURRENT_TIME;
  st inode i_mtime (u32 t) ;;
  flags ← fp->>f_flags;
  when (negb (truth (Z.land flags O_APPEND)))
    (st fp f_pos pos ;; t ← CURRENT_TIME; st inode i_ctime (u32 t)) ;;
  mret (if truth i then i else -1).

(** ** block_dev.c: [fp] is the file whose position [pos] points to *)

Definition block_write_step (dev : Z) (fp : nat) (acc : Z * Z * Z * Z * Z)
    : M kernel (Z * Z * Z * Z * Z + Z) :=
  let '(block, offset, written, buf, count) := acc in
  if count <=? 0 then mret (inr written)
  else
    let chars := Z.min (BLOCK_SIZE - offset) count in
    o ← (if chars =? BLOCK_SIZE then bh ← getblk dev block; mret (Some bh)
         else breada dev block [block + 1; block + 2; -1]);
    match o with
    | None => mret (inr (if truth written then written else - EIO))
    | Some bh =>
        upd fp f_pos (fun p => s32 (p + chars)) ;;
        l ← gets (fun s => user_bytes s buf chars);
        set_buf_bytes bh offset l ;;
        st bh b_dirt 1 ;;
        brelse (Some bh) ;;
        mret (inl (block + 1, 0, written + chars, buf + chars, count - chars))
    end.
Definition block_write (dev : Z) (fp : nat) (buf count : Z) : M kernel Z :=
  pos ← fp->>f_pos;
  loop (S (Z.to_nat count)) (block_write_step dev fp)
    (Z.shiftr pos 10, Z.land pos (BLOCK_SIZE - 1), 0, buf, count).

Definition block_read_step (dev : Z) (fp : nat) (acc : Z * Z * Z * Z * Z)
    : M kernel (Z * Z * Z * Z * Z + Z) :=
  let '(block, offset, read, buf, count) := acc in
  if count <=? 0 then mret (inr read)
  else
    let chars := Z.min (BLOCK_SIZE - offset) count in
    o ← breada dev block [block + 1; block + 2; -1];
    match o with
    | None => mret (inr (if truth read then read else - EIO))
    | Some bh =>
        upd fp f_pos (fun p => s32 (p + chars)) ;;
        l ← buf_bytes bh offset chars;
        put_user l buf ;;
        brelse (Some bh) ;;
        mret (inl (block + 1, 0, read + chars, buf + chars, count - chars))
    end.
Definition block_read (dev : Z) (fp : nat) (buf count : Z) : M kernel Z :=
  pos ← fp->>f_pos;
  loop (S (Z.to_nat count)) (block_read_step dev fp)
    (Z.shiftr (u32 pos) 10, Z.land pos (BLOCK_SIZE - 1), 0, buf, count).

(** ** char_dev.c *)

Definition rw_ttyx (rw minor buf count : Z) : M kernel Z :=
  if rw =? READ then tty_read minor buf count else tty_write minor buf count.
Definition rw_tty (rw buf count : Z) : M kernel Z :=
  tty ← cur t_tty;
  if tty <? 0 then mret (- EPERM) else rw_ttyx rw tty buf count.

Definition rw_port (rw buf count : Z) (fp : nat) : M kernel Z :=
  pos ← fp->>f_pos;
  i ← loop (S (Z.to_nat count)) (fun '(count, i, buf) =>
    if (0 <? count) && (i <? 65536) then
      (if rw =? READ then v ← inb i; put_fs_byte v buf
       else v ← get_fs_byte buf; outb v i) ;;
      mret (inl (count - 1, i + 1, buf + 1))
    else mret (inr i)) (count, pos, buf);
  upd fp f_pos (fun p => s32 (p + (i - pos))) ;;
  mret (s32 (i - pos)).

(** /dev/ram, /dev/mem and /dev/kmem are not implemented by the code. *)
Definition rw_memory (rw minor buf count : Z) (fp : nat) : M kernel Z :=
  if (minor =? 0) || (minor =? 1) || (minor =? 2) then mret (- EIO)
  else if minor =? 3 then mret (if rw =? READ then 0 else count)
  else if minor =? 4 then rw_port rw buf count fp
  else mret (- EIO).

Definition NRDEVS : Z := 8.
Definition rw_char (rw dev buf count : Z) (fp : nat) : M kernel Z :=
  if NRDEVS <=? MAJOR dev then mret (- ENODEV)
  else if MAJOR dev =? 1 then rw_memory rw (MINOR dev) buf count fp
  else if MAJOR dev =? 4 then rw_ttyx rw (MINOR dev) buf count
  else if MAJOR dev =? 5 then rw_tty rw buf count
  else mret (- ENODEV).

(** ** read_write.c *)

(** [(fd >= NR_OPEN || !(file=current->filp[fd]))] for an unsigned [fd]. *)
Definition fd_file (fd : Z) : M kernel (option nat) :=
  if NR_OPEN <=? u32 fd then mret None else filp (Z.to_nat (u32 fd)).

Definition sys_lseek (fd offset origin : Z) : M kernel Z :=
  o ← fd_file fd;
  match o with
  | None => mret (- EBADF)
  | Some fp =>
      o ← fp->>f_inode;
      match o with
      | None => mret (- EBADF)
      | Some inode =>
          dev ← inode->>i_dev;
          if negb (IS_SEEKABLE (MAJOR dev)) then mret (- EBADF)
          else
            pipe ← inode->>i_pipe;
            if truth pipe then mret (- ESPIPE)
            else
              pos ← fp->>f_pos;
              size ← inode->>i_size;
              let goto p := if p <? 0 then mret (- EINVAL) else st fp f_pos p ;; mret p in
              if origin =? 0 then goto offset
              else if origin =? 1 then goto (s32 (pos + offset))
              else if origin =? 2 then goto (s32 (size + offset))
              else mret (- EINVAL)
      end
  end.

Definition sys_read (fd buf count : Z) : M kernel Z :=
  o ← fd_file fd;
  match o with
  | None => mret (- EINVAL)
  | Some fp =>
      if count <? 0 then mret (- EINVAL)
      else if negb (truth count) then mret 0
      else
        verify_area buf count ;;
        o ← fp->>f_inode;
        inode ← deref o;
        i ← ld inode;
        z ← zone inode 0;
        if truth (i_pipe i) then
          m ← fp->>f_mode;
          if truth (Z.land m 1) then read_pipe inode buf count else mret (- EIO)
        else if S_ISCHR (i_mode i) then rw_char READ z buf count fp
        else if S_ISBLK (i_mode i) then block_read z fp buf count
        else if S_ISDIR (i_mode i) || S_ISREG (i_mode i) then
          pos ← fp->>f_pos;
          let count := if i_size i <? u32 (count + pos) then s32 (i_size i - pos) else count in
          if count <=? 0 then mret 0 else file_read inode fp buf count
        else mret (- EINVAL)
  end.

Definition sys_write (fd buf count : Z) : M kernel Z :=
  o ← fd_file fd;
  match o with
  | None => mret (- EINVAL)
  | Some fp =>
      if count <? 0 then mret (- EINVAL)
      else if negb (truth count) then mret 0
      else
        o ← fp->>f_inode;
        inode ← deref o;
        i ← ld inode;
        z ← zone inode 0;
        if truth (i_pipe i) then
          m ← fp->>f_mode;
          if truth (Z.land m 2) then write_pipe inode buf count else mret (- EIO)
        else if S_ISCHR (i_mode i) then rw_char WRITE z buf count fp
        else if S_ISBLK (i_mode i) then block_write z fp buf count
        else if S_ISREG (i_mode i) then file_write inode fp buf count
        else mret (- EINVAL)
  end.
End with_world.
