(* ===== verification/Open.v ===== *)
(** * fs/open.c, fcntl.c, stat.c, ioctl.c: descriptors and file attributes *)

From S2P Require Import Prelude Kernel Sched Memory Fork Blk LLRwBlk Floppy Buffer SuperBase Bitmap Inode Super Namei Tty Pipe FileIo.

Section with_world.
Context `{World}.

(** ** Descriptors *)

(** [current->close_on_exec &= ~(1<<fd)]. *)
Definition clear_close_on_exec (fd : Z) : M kernel unit :=
  cupd t_close_on_exec (fun c => Z.land c (not32 (Z.shiftl 1 fd))).

(** The first free descriptor from [i] on; [NR_OPEN] when there is none. *)
Definition first_free (l : list (option nat)) (i : nat) : nat :=
  (fix go (n i : nat) : nat :=
     match n with
     | O => i
     | S n' => if (Z.to_nat NR_OPEN <=? i)%nat then i
               else match default None (l !! i) with
                    | Some _ => go n' (S i)
                    | None => i
                    end
     end) (Z.to_nat NR_OPEN) i.

Definition dupfd (fd arg : Z) : M kernel Z :=
  o ← fd_file fd;
  match o with
  | None => mret (- EBADF)
  | Some _ =>
      if NR_OPEN <=? u32 arg then mret (- EINVAL)
      else
        l ← cur t_filp;
        let arg := first_free l (Z.to_nat (u32 arg)) in
        if (Z.to_nat NR_OPEN <=? arg)%nat then mret (- EMFILE)
        else
          clear_close_on_exec (Z.of_nat arg) ;;
          o ← fd_file fd;
          set_filp arg o ;;
          f ← deref o;
          upd f f_count (fun c => u16 (c + 1)) ;;
          mret (Z.of_nat arg)
  end.

Definition sys_close (fd : Z) : M kernel Z :=
  if NR_OPEN <=? u32 fd then mret (- EINVAL)
  else
    clear_close_on_exec (u32 fd) ;;
    o ← filp (Z.to_nat (u32 fd));
    match o with
    | None => mret (- EINVAL)
    | Some f =>
        set_filp (Z.to_nat (u32 fd)) None ;;
        c ← f->>f_count;
        if c =? 0 then panic "Close: file count is 0"
        else
          st f f_count (u16 (c - 1)) ;;
          if truth (u16 (c - 1)) then mret 0
          else i ← f->>f_inode; iput i ;; mret 0
    end.

Definition sys_dup2 (oldfd newfd : Z) : M kernel Z := sys_close newfd ;; dupfd oldfd newfd.
Definition sys_dup (fildes : Z) : M kernel Z := dupfd fildes 0.

Definition F_DUPFD : Z := 0.
Definition F_GETFD : Z := 1.
Definition F_SETFD : Z := 2.
Definition F_GETFL : Z := 3.
Definition F_SETFL : Z := 4.
Definition sys_fcntl (fd cmd arg : Z) : M kernel Z :=
  o ← fd_file fd;
  match o with
  | None => mret (- EBADF)
  | Some f =>
      let keep := Z.lor O_APPEND O_NONBLOCK in
      if cmd =? F_DUPFD then dupfd fd arg
      else if cmd =? F_GETFD then
        c ← cur t_close_on_exec; mret (Z.land (Z.shiftr c (u32 fd)) 1)
      else if cmd =? F_SETFD then
        (if truth (Z.land arg 1)
         then cupd t_close_on_exec (fun c => Z.lor c (Z.shiftl 1 (u32 fd)))
         else clear_close_on_exec (u32 fd)) ;;
        mret 0
      else if cmd =? F_GETFL then f->>f_flags
      else if cmd =? F_SETFL then
        upd f f_flags (fun v => Z.ldiff v keep) ;;
        upd f f_flags (fun v => Z.lor v (Z.land arg keep)) ;;
        mret 0
      else mret (-1)
  end.

(** ** open *)

(** The first free entry of [file_table]. *)
Definition free_file : M kernel (option nat) :=
  for_break (seq 0 NR_FILE) (fun i =>
    c ← i->>f_count; mret (if truth c then None else Some i)).

(** What opening a tty does; [false] when /dev/tty cannot be opened. *)
Definition open_tty (inode : nat) : M kernel bool :=
  m ← inode->>i_mode; z ← zone inode 0;
  if negb (S_ISCHR m) then mret true
  else if MAJOR z =? 4 then
    leader ← cur t_leader; tty ← cur t_tty;
    when (truth leader && (tty <? 0))
      (cst t_tty (MINOR z) ;;
       pgrp ← cur t_pgrp;
       st (Z.to_nat (MINOR z)) tty_pgrp pgrp) ;;
    mret true
  else if MAJOR z =? 5 then tty ← cur t_tty; mret (negb (tty <? 0))
  else mret true.

Definition sys_open (filename flag mode : Z) : M kernel Z :=
  umask ← cur t_umask;
  let mode := Z.land mode (Z.land 0x1ff (Z.lnot umask)) in
  l ← cur t_filp;
  let fd := first_free l 0 in
  if (Z.to_nat NR_OPEN <=? fd)%nat then mret (- EINVAL)
  else
    clear_close_on_exec (Z.of_nat fd) ;;
    o ← free_file;
    match o with
    | None => mret (- EINVAL)
    | Some f =>
        set_filp fd (Some f) ;;
        upd f f_count (fun c => u16 (c + 1)) ;;
        r ← open_namei filename flag mode;
        match r with
        | inl e => set_filp fd None ;; st f f_count 0 ;; mret e
        | inr inode =>
            ok ← open_tty inode;
            if negb ok then
              iput (Some inode) ;; set_filp fd None ;; st f f_count 0 ;; mret (- EPERM)
            else
              m ← inode->>i_mode;
              when (S_ISBLK m) (z ← zone inode 0; check_disk_change z) ;;
              m ← inode->>i_mode;
              st f f_mode m ;;
              st f f_flags (u16 flag) ;;
              st f f_count 1 ;;
              st f f_inode (Some inode) ;;
              st f f_pos 0 ;;
              mret (Z.of_nat fd)
        end
    end.
Definition sys_creat (pathname mode : Z) : M kernel Z := sys_open pathname (Z.lor O_CREAT O_TRUNC) mode.

(** ** Attributes of files *)

Definition sys_ustat (dev ubuf : Z) : M kernel Z := mret (- ENOSYS).

Definition sys_utime (filename times : Z) : M kernel Z :=
  o ← namei filename;
  match o with
  | None => mret (- ENOENT)
  | Some inode =>
      '(actime, modtime) ← (if truth times then
        a ← get_fs_long times; b ← get_fs_long (times + 4); mret (a, b)
      else t ← CURRENT_TIME; mret (t, t));
      st inode i_atime (u32 actime) ;;
      st inode i_mtime (u32 modtime) ;;
      st inode i_dirt 1 ;;
      iput (Some inode) ;;
      mret 0
  end.

(** The inode is read again after it has been released, as in the source. *)
Definition sys_access (filename mode : Z) : M kernel Z :=
  let mode := Z.land mode 7 in
  o ← namei filename;
  match o with
  | None => mret (- EACCES)
  | Some inode =>
      m ← inode->>i_mode;
      let i_mode_ := Z.land m 0x1ff in
      iput (Some inode) ;;
      i ← ld inode;
      uid ← cur t_uid; gid ← cur t_gid;
      let res := if (uid =? i_uid i) || (gid =? i_gid i) then Z.shiftr i_mode_ 6 else i_mode_ in
      if Z.land (Z.land res 7) mode =? mode then mret 0
      else if negb (truth uid) && (negb (truth (Z.land mode 1)) || truth (Z.land i_mode_ 0x49))
      then mret 0
      else mret (- EACCES)
  end.

(** [chdir] and [chroot] on the field of the task. *)
Definition change_dir (f : task_struct -> option nat) `{!Setter f} (filename : Z) : M kernel Z :=
  o ← namei filename;
  match o with
  | None => mret (- ENOENT)
  | Some inode =>
      m ← inode->>i_mode;
      if negb (S_ISDIR m) then iput (Some inode) ;; mret (- ENOTDIR)
      else
        old ← cur f;
        iput old ;;
        cst f (Some inode) ;;
        mret 0
  end.
Definition sys_chdir (filename : Z) : M kernel Z := change_dir t_pwd filename.
Definition sys_chroot (filename : Z) : M kernel Z := change_dir t_root filename.

Definition sys_chmod (filename mode : Z) : M kernel Z :=
  o ← namei filename;
  match o with
  | None => mret (- ENOENT)
  | Some inode =>
      euid ← cur t_euid; uid ← inode->>i_uid; su ← suser;
      if negb (euid =? uid) && negb su then iput (Some inode) ;; mret (- EACCES)
      else
        upd inode i_mode (fun m => u16 (Z.lor (Z.land mode 0xfff) (Z.land m (Z.lnot 0xfff)))) ;;
        st inode i_dirt 1 ;;
        iput (Some inode) ;;
        mret 0
  end.

Definition sys_chown (filename uid gid : Z) : M kernel Z :=
  o ← namei filename;
  match o with
  | None => mret (- ENOENT)
  | Some inode =>
      su ← suser;
      if negb su then iput (Some inode) ;; mret (- EACCES)
      else
        st inode i_uid (u16 uid) ;;
        st inode i_gid (u8 gid) ;;
        st inode i_dirt 1 ;;
        iput (Some inode) ;;
        mret 0
  end.

(** ** stat: [struct stat] is 32 bytes; the padding bytes, which the code
    copies from its stack, are 0 here *)

Definition stat_bytes (i : m_inode) : list Z :=
  le16 (i_dev i) ++ le16 (i_num i) ++ le16 (i_mode i) ++ [u8 (i_nlinks i); 0] ++
  le16 (i_uid i) ++ [u8 (i_gid i); 0] ++ le16 (PIPE_HEAD i) ++ [0; 0] ++
  le32 (i_size i) ++ le32 (i_atime i) ++ le32 (i_mtime i) ++ le32 (i_ctime i).
Definition cp_stat (inode : nat) (statbuf : Z) : M kernel unit :=
  verify_area statbuf 32 ;;
  i ← ld inode;
  put_user (stat_bytes i) statbuf.

Definition sys_stat (filename statbuf : Z) : M kernel Z :=
  o ← namei filename;
  match o with
  | None => mret (- ENOENT)
  | Some inode => cp_stat inode statbuf ;; iput (Some inode) ;; mret 0
  end.

Definition sys_fstat (fd statbuf : Z) : M kernel Z :=
  o ← fd_file fd;
  match o with
  | None => mret (- EBADF)
  | Some f =>
      o ← f->>f_inode;
      match o with
      | None => mret (- EBADF)
      | Some inode => cp_stat inode statbuf ;; mret 0
      end
  end.

(** ** ioctl *)

Definition sys_ioctl (fd cmd arg : Z) : M kernel Z :=
  o ← fd_file fd;
  match o with
  | None => mret (- EBADF)
  | Some f =>
      o ← f->>f_inode;
      inode ← deref o;
      m ← inode->>i_mode;
      if negb (S_ISCHR m) && negb (S_ISBLK m) then mret (- EINVAL)
      else
        dev ← zone inode 0;
        if NRDEVS <=? MAJOR dev then mret (- ENODEV)
        else if (MAJOR dev =? 4) || (MAJOR dev =? 5) then tty_ioctl dev cmd arg
        else mret (- ENOTTY)
  end.
End with_world.
