(* ===== verification/Frame.v ===== *)
(** * What the file system leaves alone

    The task table's descriptors ([filp] of every task), the counts of the file
    table and the identity of the running task are changed by a handful of
    routines (open, close, dup, pipe, fork, exit).  Everything those routines
    call, from [sleep_on] and the drivers up to path-name lookup, keeps every
    property of that part of the state: each lemma here says so of one routine,
    so the proofs about the few need no look inside the many.

    The same holds of the lists and the chains of the buffer cache, which only
    [getblk] changes: the drivers keep them, and the file system keeps every
    property of them that [getblk] keeps.

    [keeps I m]: [m] run from a state with [I] stops in a state with [I],
    whether it returns, panics, kills the task or faults. *)

From S2P Require Import Prelude Kernel Sched Memory Blk Hd Floppy LLRwBlk Buffer SuperBase Bitmap Inode Super Namei Tty Pipe FileIo Open.

(** The parts of the state the properties are about: the descriptors; the
    structure of the buffer cache; the references to buffers. *)
Definition fd_view (s : kernel) : nat * list (option (list (option nat))) * list Z :=
  (k_current s, option_map t_filp <$> k_task s, f_count <$> k_files s).

Record cache_shape := CacheShape {
  cs_prev : list (option nat);
  cs_next : list (option nat);
  cs_prev_free : list (option nat);
  cs_next_free : list (option nat);
  cs_dev : list Z;
  cs_nr : list Z;
  cs_table : list (option nat);
  cs_root : option nat }.
Definition cache_view (s : kernel) : cache_shape :=
  CacheShape (b_prev <$> k_bufs s) (b_next <$> k_bufs s) (b_prev_free <$> k_bufs s) (b_next_free <$> k_bufs s)
    (b_dev <$> k_bufs s) (b_blocknr <$> k_bufs s) (k_hash_table s) (k_free_list s).
Definition count_view (s : kernel) : list Z := b_count <$> k_bufs s.

Definition keeps {S A} (I : S -> Prop) (m : M S A) : Prop := forall s, I s ->
  match m s with
  | Ok _ s' => I s'
  | Panic _ s' => I s'
  | Dead _ s' => I s'
  | Fault s' => I s'
  | Fuel => True
  end.

(** [I] is about the three views and the number of switches only, and the other
    tasks keep it. *)
Class Calm `{Env} (I : kernel -> Prop) := {
  calm_view : forall s s', fd_view s' = fd_view s -> cache_view s' = cache_view s ->
    count_view s' = count_view s -> k_switches s' = k_switches s -> I s -> I s';
  calm_switch : forall n, keeps I (switch_to n);
}.
(** [I] is about [fd_view] only. *)
Class Frame `{Env} (I : kernel -> Prop) := {
  frame_view : forall s s', fd_view s' = fd_view s -> I s -> I s';
  frame_switch : forall n, keeps I (switch_to n);
}.
#[export] Instance frame_calm `{Env} I : Frame I -> Calm I.
Proof. intros [Hv Hs]. split; [intros s s' E _ _ _; by apply Hv|exact Hs]. Qed.
(** [I] is about the descriptors and the structure of the cache, and [getblk]
    keeps it. *)
Class CacheFrame `{World} (I : kernel -> Prop) := {
  cache_frame_view : forall s s', fd_view s' = fd_view s -> cache_view s' = cache_view s -> I s -> I s';
  cache_frame_switch : forall n, keeps I (switch_to n);
  cache_frame_getblk : forall `{SyncInodes}, keeps I sync_inodes -> forall dev block, keeps I (getblk dev block);
}.
#[export] Instance cache_frame_calm `{World} I : CacheFrame I -> Calm I.
Proof. intros [Hv Hs _]. split; [intros s s' E E' _ _; by apply Hv|exact Hs]. Qed.

(** ** The rules of control *)

Section rules.
Context {S : Type} (I : S -> Prop).

Lemma keeps_ret {A} (a : A) : keeps I (mret a : M S A).
Proof. intros s Hs. exact Hs. Qed.
Lemma keeps_bind {A B} (m : M S A) (k : A -> M S B) :
  keeps I m -> (forall a, keeps I (k a)) -> keeps I (m ≫= k).
Proof.
  intros Hm Hk s Hs. specialize (Hm s Hs). unfold mbind, M_bind.
  destruct (m s) as [a s'| | | |]; auto. by apply Hk.
Qed.
Lemma keeps_gets {A} (f : S -> A) : keeps I (gets f).
Proof. intros s Hs. exact Hs. Qed.
Lemma keeps_panic {A} msg : keeps I (panic msg : M S A).
Proof. intros s Hs. exact Hs. Qed.
Lemma keeps_fault {A} : keeps I (fault : M S A).
Proof. intros s Hs. exact Hs. Qed.
Lemma keeps_dead {A} c : keeps I (dead c : M S A).
Proof. intros s Hs. exact Hs. Qed.
Lemma keeps_out_of_fuel {A} : keeps I (out_of_fuel : M S A).
Proof. intros s Hs. exact Logic.I. Qed.
Lemma keeps_for {X} (l : list X) body : (forall x, keeps I (body x)) -> keeps I (for_ l body).
Proof.
  intros Hb. induction l as [|x l IH]; [apply keeps_ret|]. by apply keeps_bind.
Qed.
Lemma keeps_for_break {X R} (l : list X) (body : X -> M S (option R)) :
  (forall x, keeps I (body x)) -> keeps I (for_break l body).
Proof.
  intros Hb. induction l as [|x l IH]; [apply keeps_ret|]. cbn.
  apply keeps_bind; [done|]. intros []; [apply keeps_ret|done].
Qed.
Lemma keeps_loop {A R} n (body : A -> M S (A + R)) a :
  (forall a, keeps I (body a)) -> keeps I (loop n body a).
Proof.
  intros Hb. revert a. induction n as [|n IH]; intros a; [apply keeps_out_of_fuel|].
  rewrite loop_S. apply keeps_bind; [done|]. intros []; [done|apply keeps_ret].
Qed.
Lemma keeps_modify f : (forall s, I s -> I (f s)) -> keeps I (modify f).
Proof. intros Hf s Hs. exact (Hf s Hs). Qed.
Lemma keeps_getf `{Table S R} {T} p (f : R -> T) : keeps I (getf p f).
Proof. intros s Hs. unfold getf. by destruct (tab s !! p). Qed.
Lemma keeps_ld `{Table S R} p : keeps I (ld p).
Proof. intros s Hs. unfold ld. by destruct (tab s !! p). Qed.
Lemma keeps_updr `{Table S R} p g :
  (forall s r, tab s !! p = Some r -> I s -> I (set_tab (fun l => <[p := g r]> l) s)) ->
  keeps I (updr p g).
Proof. intros Hg s Hs. unfold updr. destruct (tab s !! p) eqn:E; [by eapply Hg|done]. Qed.
Lemma keeps_zoom {T A} get put (m : M T A) :
  (forall t s, I s -> I (put t s)) -> keeps I (zoom get put m : M S A).
Proof. intros Hp s Hs. unfold zoom. destruct (m (get s)); auto. Qed.
End rules.

(** [kept I m Q s]: [m] run from [s] returns with [Q] or stops with [I]. *)
Definition kept {S A} (I : S -> Prop) (m : M S A) (Q : A -> S -> Prop) (s : S) : Prop :=
  match m s with
  | Ok a s' => Q a s'
  | Panic _ s' => I s'
  | Dead _ s' => I s'
  | Fault s' => I s'
  | Fuel => True
  end.

(** [gives R m]: what [m] returns satisfies [R]. *)
Definition gives {S A} (R : A -> Prop) (m : M S A) : Prop := forall s,
  match m s with Ok a _ => R a | _ => True end.

Section kept_rules.
Context {S : Type} (I : S -> Prop).

Lemma kept_bind {A B} (m : M S A) (k : A -> M S B) Q s :
  kept I m (fun a s' => kept I (k a) Q s') s -> kept I (m ≫= k) Q s.
Proof. unfold kept, mbind, M_bind. destruct (m s); auto. Qed.
Lemma kept_Ok {A} (m : M S A) (Q : A -> S -> Prop) s a s' : m s = Ok a s' -> Q a s' -> kept I m Q s.
Proof. intros E HQ. unfold kept. by rewrite E. Qed.
Lemma kept_bind_Ok {A B} (m : M S A) (k : A -> M S B) Q s a s' :
  m s = Ok a s' -> kept I (k a) Q s' -> kept I (m ≫= k) Q s.
Proof. intros E HQ. apply kept_bind. by eapply kept_Ok. Qed.
Lemma kept_result {A} (m : M S A) (Q : A -> S -> Prop) s o : kept I m Q s -> m s = o ->
  match o with
  | Ok a s' => Q a s'
  | Panic _ s' | Dead _ s' | Fault s' => I s'
  | Fuel => True
  end.
Proof. intros H <-. exact H. Qed.
Lemma kept_keeps {A} (J : S -> Prop) (R : A -> Prop) (m : M S A) (Q : A -> S -> Prop) s :
  keeps J m -> gives R m -> J s -> (forall s', J s' -> I s') -> (forall a s', R a -> J s' -> Q a s') -> kept I m Q s.
Proof. intros Hm Hr Hs HI HQ. specialize (Hm s Hs). specialize (Hr s). unfold kept. destruct (m s); auto. Qed.
Lemma kept_mono {A} (m : M S A) (Q Q' : A -> S -> Prop) s :
  kept I m Q s -> (forall a s', Q a s' -> Q' a s') -> kept I m Q' s.
Proof. unfold kept. destruct (m s); auto. Qed.
Lemma kept_eq {A} (m : M S A) (Q : A -> S -> Prop) s : kept I m Q s -> kept I m (fun a s' => Q a s' /\ m s = Ok a s') s.
Proof. unfold kept. by destruct (m s). Qed.
Lemma kept_getf `{Table S R} {T} p (f : R -> T) (Q : T -> S -> Prop) s :
  I s -> (forall r, tab s !! p = Some r -> Q (f r) s) -> kept I (getf p f) Q s.
Proof. intros Hs HQ. unfold kept, getf. destruct (tab s !! p); auto. Qed.

Lemma gives_any {A} (m : M S A) : gives (fun _ => True) m.
Proof. intros s. by destruct (m s). Qed.
Lemma gives_ret {A} (R : A -> Prop) a : R a -> gives R (mret a : M S A).
Proof. intros Ha s. exact Ha. Qed.
Lemma gives_bind {A B} (R : B -> Prop) (m : M S A) (k : A -> M S B) :
  (forall a, gives R (k a)) -> gives R (m ≫= k).
Proof. intros Hk s. unfold mbind, M_bind. destruct (m s); auto. by apply Hk. Qed.
End kept_rules.

(** ** The rules of the accessors *)

(** A change of the state that none of the views shows, by the running task. *)
Definition unseen (f : kernel -> kernel) : Prop := forall s,
  fd_view (f s) = fd_view s /\ cache_view (f s) = cache_view s /\ count_view (f s) = count_view s /\
  k_switches (f s) = k_switches s.
(** Tables that are in none of the views. *)
Class Hidden (R : Type) `{Table kernel R} := hidden : forall g, unseen (set_tab g).
#[export] Instance inode_hidden : Hidden m_inode. Proof. done. Qed.
#[export] Instance super_hidden : Hidden super_block. Proof. done. Qed.
#[export] Instance request_hidden : Hidden request. Proof. done. Qed.
#[export] Instance timer_hidden : Hidden timer_list. Proof. done. Qed.
#[export] Instance tty_hidden : Hidden tty_struct. Proof. done. Qed.

Lemma fmap_updated {A B} (f : A -> B) (l : list A) p g r : l !! p = Some r -> f (g r) = f r ->
  f <$> <[p := g r]> l = f <$> l.
Proof. intros E Hf. rewrite list_fmap_insert, Hf. apply list_insert_id. by rewrite list_lookup_fmap, E. Qed.

Section accessors.
Context `{Env} (I : kernel -> Prop) {HI : Calm I}.

Lemma unseen_kept f s : unseen f -> I s -> I (f s).
Proof. intros Hf. destruct (Hf s) as (E1 & E2 & E3 & E4). by apply calm_view. Qed.
Lemma keeps_view f : unseen f -> keeps I (modify f).
Proof. intros Hf. apply keeps_modify. intros s. by apply unseen_kept. Qed.
Lemma keeps_hidden `{Hidden R} p g : keeps I (updr p g).
Proof. apply keeps_updr. intros s r _. apply unseen_kept, hidden. Qed.
(** The flags and the contents of a buffer. *)
Lemma keeps_buffer p (g : buffer_head -> buffer_head) :
  (forall r, b_prev (g r) = b_prev r /\ b_next (g r) = b_next r /\ b_prev_free (g r) = b_prev_free r /\
    b_next_free (g r) = b_next_free r /\ b_dev (g r) = b_dev r /\ b_blocknr (g r) = b_blocknr r /\
    b_count (g r) = b_count r) -> keeps I (updr p g).
Proof.
  intros Hg. apply keeps_updr. intros s r E. change (k_bufs s !! p = Some r) in E.
  destruct (Hg r) as (E1 & E2 & E3 & E4 & E5 & E6 & E7). apply calm_view; [done| | |done].
  - unfold cache_view. cbn. by rewrite !(fmap_updated _ _ p g r E) by done.
  - unfold count_view. cbn. by rewrite (fmap_updated _ _ p g r E).
Qed.
Lemma keeps_file p (g : file -> file) : (forall r, f_count (g r) = f_count r) -> keeps I (updr p g).
Proof.
  intros Hg. apply keeps_updr. intros s r E. change (k_files s !! p = Some r) in E.
  apply calm_view; [|done..]. unfold fd_view. cbn. by rewrite (fmap_updated _ _ p g r E).
Qed.
Lemma keeps_tget {T} p (f : task_struct -> T) : keeps I (tget p f).
Proof. intros s Hs. unfold tget. by destruct (task_at s p). Qed.
Lemma keeps_cur {T} (f : task_struct -> T) : keeps I (cur f).
Proof. intros s Hs. exact (keeps_tget _ f s Hs). Qed.
Lemma put_task_view s p t t' : task_at s p = Some t -> t_filp t' = t_filp t ->
  fd_view (put_task p t' s) = fd_view s.
Proof.
  intros Ht Hf. unfold fd_view. cbn. do 2 f_equal. rewrite list_fmap_insert. cbn. rewrite Hf.
  apply list_insert_id. rewrite list_lookup_fmap. unfold task_at in Ht.
  destruct (k_task s !! p) as [[]|]; cbn in *; congruence.
Qed.
Lemma keeps_tupd {T} p (f : task_struct -> T) `{!Setter f} g :
  (forall t, t_filp (set_field f g t) = t_filp t) -> keeps I (tupd p f g).
Proof.
  intros Hf s Hs. unfold tupd. destruct (task_at s p) as [t|] eqn:E; [|done].
  apply (calm_view s); [|done|done|done|exact Hs]. by eapply put_task_view.
Qed.
Lemma keeps_cupd {T} (f : task_struct -> T) `{!Setter f} g :
  (forall t, t_filp (set_field f g t) = t_filp t) -> keeps I (cupd f g).
Proof. intros Hf s Hs. exact (keeps_tupd _ f g Hf s Hs). Qed.
Lemma keeps_cst {T} (f : task_struct -> T) `{!Setter f} v :
  (forall t, t_filp (set_field f (fun _ => v) t) = t_filp t) -> keeps I (cst f v).
Proof. intros Hf s Hs. exact (keeps_tupd _ f _ Hf s Hs). Qed.
Lemma keeps_tmap g p : (forall t, t_filp (g t) = t_filp t) -> keeps I (tmap g p).
Proof.
  intros Hg. apply keeps_view. intros s. split_and!; [|done..]. unfold fd_view. cbn. do 2 f_equal.
  apply list_eq. intros i. rewrite !list_lookup_fmap, list_lookup_alter.
  destruct (decide _); [subst|done]. destruct (k_task s !! i) as [[t|]|]; cbn; by rewrite ?Hg.
Qed.
Lemma keeps_aget {T} (f : kernel -> list T) i : keeps I (aget f i).
Proof. intros s Hs. unfold aget. by destruct (f s !! i). Qed.
Lemma keeps_aset {T} (f : kernel -> list T) `{!Setter f} i v :
  (forall g, unseen (set_field f g)) -> keeps I (aset f i v).
Proof. intros Hf s Hs. unfold aset. destruct (f s !! i); [|done]. by apply unseen_kept. Qed.
Lemma keeps_setg {T} (f : kernel -> T) `{!Setter f} v :
  (forall g, unseen (set_field f g)) -> keeps I (setg f v).
Proof. intros Hf. by apply keeps_view. Qed.
Lemma keeps_mm {A} (m : M mm_state A) : keeps I (mm m).
Proof. apply keeps_zoom. intros t s. by apply (unseen_kept (set_field k_mm (fun _ => t))). Qed.
Lemma keeps_in_port `{Hardware} wrap port : keeps I (in_port wrap port).
Proof.
  unfold in_port. apply keeps_bind; [apply keeps_gets|]. intros v.
  apply keeps_bind; [by apply keeps_view|]. intros []. apply keeps_ret.
Qed.
End accessors.

Section changes.
Context `{Env} (I : kernel -> Prop).

(** The references to a buffer. *)
Lemma keeps_buffer_count (V : forall s s', fd_view s' = fd_view s -> cache_view s' = cache_view s -> I s -> I s') p
    (g : buffer_head -> buffer_head) :
  (forall r, b_prev (g r) = b_prev r /\ b_next (g r) = b_next r /\ b_prev_free (g r) = b_prev_free r /\
    b_next_free (g r) = b_next_free r /\ b_dev (g r) = b_dev r /\ b_blocknr (g r) = b_blocknr r) ->
  keeps I (updr p g).
Proof.
  intros Hg. apply keeps_updr. intros s r E. change (k_bufs s !! p = Some r) in E.
  destruct (Hg r) as (E1 & E2 & E3 & E4 & E5 & E6). apply V; [done|].
  unfold cache_view. cbn. by rewrite !(fmap_updated _ _ p g r E) by done.
Qed.
(** The structure of the cache. *)
Lemma keeps_buffer_any {HI : Frame I} p (g : buffer_head -> buffer_head) : keeps I (updr p g).
Proof. apply keeps_updr. intros s r _. by apply frame_view. Qed.
Lemma keeps_table_any {HI : Frame I} i v : keeps I (aset k_hash_table i v).
Proof. intros s Hs. unfold aset. destruct (k_hash_table s !! i); [|done]. by apply (frame_view s). Qed.
Lemma keeps_root_any {HI : Frame I} v : keeps I (setg k_free_list v).
Proof. apply keeps_modify. intros s. by apply frame_view. Qed.
End changes.
Create HintDb keeps.
#[export] Hint Resolve keeps_ret keeps_gets keeps_panic keeps_fault keeps_dead keeps_out_of_fuel
  keeps_getf keeps_ld keeps_tget keeps_cur keeps_aget keeps_mm keeps_in_port : keeps.

#[export] Hint Extern 0 (Frame _) => exact _ : keeps.
#[export] Hint Extern 0 (Calm _) => exact _ : keeps.
#[export] Hint Extern 0 (CacheFrame _) => exact _ : keeps.

(** [keeps] follows the code: control, accessors, then the lemma of the routine
    called (or its body when it has none). *)
Ltac keeps_head m :=
  lazymatch m with
  | ?f _ => keeps_head f
  | _ => m
  end.
Ltac keeps_step :=
  lazymatch goal with
  | |- forall _, _ => intro
  | |- Frame _ => exact _
  | |- Calm _ => exact _
  | |- CacheFrame _ => exact _
  | |- keeps _ (mbind _ _) => apply keeps_bind
  | |- keeps _ (if ?b then _ else _) => destruct b
  | |- keeps _ (match ?x with _ => _ end) => destruct x
  | |- keeps _ (let x := _ in _) => cbv zeta
  | |- keeps _ (when ?b _) => destruct b; unfold when
  | |- keeps _ (for_ _ _) => apply keeps_for
  | |- keeps _ (for_break _ _) => apply keeps_for_break
  | |- keeps _ (loop _ _ _) => apply keeps_loop
  | |- keeps _ (upd _ _ _) => unfold upd
  | |- keeps _ (st _ _ _) => unfold st
  | |- keeps _ (updr _ _) => first
      [ apply keeps_hidden; exact _
      | apply keeps_file; first [exact _|reflexivity]
      | apply keeps_buffer; [exact _|intros ?; split_and!; reflexivity]
      | apply (keeps_buffer_count _ cache_frame_view); intros ?; split_and!; reflexivity
      | apply keeps_buffer_any; exact _ ]
  | |- keeps _ (tupd _ _ _) => apply keeps_tupd; first [exact _|reflexivity]
  | |- keeps _ (cupd _ _) => apply keeps_cupd; first [exact _|reflexivity]
  | |- keeps _ (cst _ _) => apply keeps_cst; first [exact _|reflexivity]
  | |- keeps _ (tmap _ _) => apply keeps_tmap; try reflexivity
  | |- keeps _ (aset _ _ _) => first [apply keeps_aset; [exact _|intros ??; split_and!; reflexivity] | apply keeps_table_any; exact _]
  | |- keeps _ (setg _ _) => first [apply keeps_setg; [exact _|intros ??; split_and!; reflexivity] | apply keeps_root_any; exact _]
  | |- keeps _ (modify _) => apply keeps_view; [exact _|intros ?; split_and!; reflexivity]
  | |- keeps _ ?m =>
      first [ solve [eauto 3 with keeps]
            | let h := keeps_head m in unfold h; cbv beta ]
  end.
Ltac keeps := repeat keeps_step.

(** ** Invariants about one field

    [untouched] follows the code in the same way for an [I] about a field that
    none of the statements changes. *)
Lemma keeps_aset_untouched {T} (f : kernel -> list T) `{!Setter f} (I : kernel -> Prop) i v :
  (forall g s, I s -> I (set_field f g s)) -> keeps I (aset f i v).
Proof. intros Hf s Hs. unfold aset. destruct (f s !! i); [by apply Hf|done]. Qed.
Create HintDb untouched.
Ltac untouched_step :=
  lazymatch goal with
  | |- forall _, _ => intro
  | |- keeps _ (mbind _ _) => apply keeps_bind
  | |- keeps _ (mret _) => apply keeps_ret
  | |- keeps _ (gets _) => apply keeps_gets
  | |- keeps _ (modify _) => apply keeps_modify; done
  | |- keeps _ (getf _ _) => apply keeps_getf
  | |- keeps _ (updr _ _) => apply keeps_updr; done
  | |- keeps _ (aget _ _) => apply keeps_aget
  | |- keeps _ (aset _ _ _) => apply keeps_aset_untouched; done
  | |- keeps _ (zoom _ _ _) => apply keeps_zoom; done
  | |- keeps _ fault => apply keeps_fault
  | |- keeps _ out_of_fuel => apply keeps_out_of_fuel
  | |- keeps _ (for_ _ _) => apply keeps_for
  | |- keeps _ (loop _ _ _) => apply keeps_loop
  | |- keeps _ (if ?b then _ else _) => destruct b
  | |- keeps _ (match ?x with _ => _ end) => destruct x
  | |- keeps _ (let x := _ in _) => cbv zeta
  | |- keeps _ (when ?b _) => destruct b; unfold when
  | |- keeps _ ?m => first [ solve [eauto 3 with untouched] | let h := keeps_head m in unfold h; cbv beta ]
  end.
Ltac untouched := repeat untouched_step.

(** ** kernel/sched.c *)

Section routines.
Context {W : World} (I : kernel -> Prop) {HI : Calm I}.

(** A wait queue outside the view. *)
Definition keeps_queue (q : waitq) : Prop := keeps I (wq_get q) /\ forall p, keeps I (wq_set q p).
Ltac queue := split; cbn; keeps.

Lemma keeps_check_signals j t : t_filp (check_signals j t) = t_filp t.
Proof. unfold check_signals. by repeat case_match. Qed.
Lemma keeps_switch_to n : keeps I (switch_to n).
Proof. apply calm_switch. Qed.
#[local] Hint Resolve keeps_switch_to : keeps.
Lemma keeps_schedule : keeps I schedule.
Proof. unfold schedule, select_next. keeps. apply keeps_check_signals. Qed.
#[local] Hint Resolve keeps_schedule : keeps.
Lemma keeps_sleep_on q : keeps_queue q -> keeps I (sleep_on (Some q)).
Proof. intros [Hg Hs]. unfold sleep_on. keeps; auto. Qed.
Lemma keeps_interruptible_sleep_on n q : keeps_queue q -> keeps I (interruptible_sleep_on n (Some q)).
Proof. intros [Hg Hs]. unfold interruptible_sleep_on. keeps; auto. Qed.
Lemma keeps_wake_up q : keeps_queue q -> keeps I (wake_up (Some q)).
Proof. intros [Hg Hs]. unfold wake_up. keeps; auto. Qed.
Lemma queue_buffer b : keeps_queue (buffer_q b). Proof. queue. Qed.
Lemma queue_request r : keeps_queue (request_q r). Proof. queue. Qed.
Lemma queue_wait_for_request : keeps_queue wait_for_request_q. Proof. queue. Qed.
Lemma queue_motor n : keeps_queue (motor_queue n). Proof. queue. Qed.
Lemma queue_select : keeps_queue floppy_select_q. Proof. queue. Qed.
Lemma queue_buffer_wait : keeps_queue buffer_wait_q. Proof. queue. Qed.
Lemma queue_super sb : keeps_queue (super_q sb). Proof. queue. Qed.
Lemma queue_inode i : keeps_queue (inode_q i). Proof. queue. Qed.
#[local] Hint Resolve keeps_sleep_on keeps_interruptible_sleep_on keeps_wake_up
  queue_buffer queue_request queue_wait_for_request queue_motor queue_select queue_buffer_wait
  queue_super queue_inode : keeps.
Lemma keeps_add_timer j n m : keeps I m -> keeps I (add_timer j (Some (TimerFn n m))).
Proof. intros Hm. unfold add_timer. cbn [fn_body fn_name]. keeps. Qed.
Lemma keeps_floppy_on n nr : keeps I (floppy_on n nr).
Proof. unfold floppy_on, while. keeps. Qed.
#[local] Hint Resolve keeps_add_timer keeps_floppy_on : keeps.

(** ** The drivers and the request queues *)

Lemma keeps_end_request m u : keeps I (end_request m u).
Proof. unfold end_request. keeps. Qed.
#[local] Hint Resolve keeps_end_request : keeps.
Lemma keeps_request_bytes r n : keeps I (request_bytes r n).
Proof. keeps. Qed.
Lemma keeps_set_request_bytes r v : keeps I (set_request_bytes r v).
Proof. keeps. Qed.
Lemma keeps_INIT_REQUEST m : keeps I (INIT_REQUEST m).
Proof. keeps. Qed.
#[local] Hint Resolve keeps_request_bytes keeps_set_request_bytes keeps_INIT_REQUEST : keeps.
Lemma keeps_do_rd_request : keeps I do_rd_request.
Proof. unfold do_rd_request. keeps. Qed.
Lemma keeps_hd_out d n s h c cm i : keeps I (hd_out d n s h c cm i).
Proof. unfold hd_out. keeps. Qed.
Lemma keeps_bad_rw_intr : keeps I bad_rw_intr.
Proof. unfold bad_rw_intr. keeps. Qed.
Lemma keeps_port_write p l : keeps I (port_write p l).
Proof.
  assert (H : forall n l, (length l <= n)%nat -> keeps I (port_write p l)).
  { clear l. induction n as [|n IH]; intros [|a [|b l]] Hn; cbn in *; try lia; keeps.
    apply IH. lia. }
  by apply (H (length l)).
Qed.
#[local] Hint Resolve keeps_do_rd_request keeps_hd_out keeps_bad_rw_intr keeps_port_write : keeps.
Lemma keeps_do_hd_request : keeps I do_hd_request.
Proof. unfold do_hd_request. keeps. Qed.
Lemma keeps_output_byte b : keeps I (output_byte b).
Proof. unfold output_byte. keeps. Qed.
Lemma keeps_result : keeps I result.
Proof. unfold result. keeps. Qed.
Lemma keeps_setup_DMA : keeps I setup_DMA.
Proof. unfold setup_DMA. keeps. Qed.
#[local] Hint Resolve keeps_do_hd_request keeps_output_byte keeps_result keeps_setup_DMA : keeps.
Lemma keeps_fd_request n : keeps I (fd_request n).
Proof.
  induction n as [|n IH]; [apply keeps_out_of_fuel|]. cbn. unfold fd_request_body, fd_step.
  keeps.
Qed.
Lemma keeps_floppy_change nr : keeps I (floppy_change nr).
Proof. unfold floppy_change, while. keeps. Qed.
#[local] Hint Resolve keeps_fd_request keeps_floppy_change : keeps.
Lemma keeps_lock_buffer b : keeps I (lock_buffer b).
Proof. unfold lock_buffer, while. keeps. Qed.
Lemma keeps_call_request_fn f : keeps I (call_request_fn f).
Proof. unfold call_request_fn. keeps. Qed.
#[local] Hint Resolve keeps_lock_buffer keeps_call_request_fn : keeps.
Lemma keeps_ll_rw_block rw b : keeps I (ll_rw_block rw b).
Proof. unfold ll_rw_block, make_request, add_request. keeps. Qed.
#[local] Hint Resolve keeps_ll_rw_block : keeps.

(** ** fs/buffer.c, for any way of writing the inodes that keeps [I] *)

Section cache.
Context {SI : SyncInodes} (HSI : keeps I sync_inodes).
#[local] Hint Resolve HSI : keeps.

Lemma keeps_wait_on_buffer b : keeps I (wait_on_buffer b).
Proof. unfold wait_on_buffer, while. keeps. Qed.
#[local] Hint Resolve keeps_wait_on_buffer : keeps.
Lemma keeps_sync_dev d : keeps I (sync_dev d).
Proof. unfold sync_dev. keeps. Qed.
Lemma keeps_invalidate_buffers d : keeps I (invalidate_buffers d).
Proof. unfold invalidate_buffers. keeps. Qed.
Lemma keeps_find_buffer d b : keeps I (find_buffer d b).
Proof. unfold find_buffer. keeps. Qed.
End cache.
End routines.
#[export] Hint Resolve keeps_switch_to keeps_schedule keeps_sleep_on keeps_interruptible_sleep_on keeps_wake_up
  queue_buffer queue_request queue_wait_for_request queue_motor queue_select queue_buffer_wait
  queue_super queue_inode keeps_add_timer keeps_floppy_on keeps_floppy_change keeps_lock_buffer
  keeps_ll_rw_block keeps_wait_on_buffer keeps_sync_dev keeps_invalidate_buffers keeps_find_buffer : keeps.

(** [getblk] and what is about the descriptors only. *)
Section getblk.
Context {W : World} (I : kernel -> Prop) {HI : Frame I}.
Context {SI : SyncInodes} (HSI : keeps I sync_inodes).
#[local] Hint Resolve HSI : keeps.

Lemma keeps_remove_from_queues b : keeps I (remove_from_queues b).
Proof. unfold remove_from_queues. keeps. Qed.
Lemma keeps_insert_into_queues b : keeps I (insert_into_queues b).
Proof. unfold insert_into_queues. keeps. Qed.
Lemma keeps_get_hash_table_any d b : keeps I (get_hash_table d b).
Proof. unfold get_hash_table. keeps. Qed.
#[local] Hint Resolve keeps_remove_from_queues keeps_insert_into_queues keeps_get_hash_table_any : keeps.
Lemma keeps_getblk_any d b : keeps I (getblk d b).
Proof. unfold getblk. keeps. Qed.
End getblk.
#[export] Instance frame_cache `{World} I : Frame I -> CacheFrame I.
Proof.
  intros F. split; [intros s s' E _; by apply frame_view|exact frame_switch|].
  intros SI HSI d b. by apply keeps_getblk_any.
Qed.

(** ** The rest of the file system *)

Section files.
Context {W : World} (I : kernel -> Prop) {HI : CacheFrame I}.

Section sync.
Context {SI : SyncInodes} (HSI : keeps I sync_inodes).
#[local] Hint Resolve HSI : keeps.

Lemma keeps_getblk d b : keeps I (getblk d b).
Proof. by apply cache_frame_getblk. Qed.
Lemma keeps_get_hash_table d b : keeps I (get_hash_table d b).
Proof. unfold get_hash_table. keeps. Qed.
#[local] Hint Resolve keeps_get_hash_table : keeps.
Lemma keeps_brelse o : keeps I (brelse o).
Proof. unfold brelse. keeps. Qed.
#[local] Hint Resolve keeps_getblk keeps_brelse : keeps.
Lemma keeps_bread d b : keeps I (bread d b).
Proof. unfold bread. keeps. Qed.
#[local] Hint Resolve keeps_bread : keeps.

Lemma keeps_wait_on_super sb : keeps I (wait_on_super sb).
Proof. unfold wait_on_super, while. keeps. Qed.
#[local] Hint Resolve keeps_wait_on_super : keeps.
Lemma keeps_get_super d : keeps I (get_super d).
Proof. unfold get_super. keeps. Qed.
Lemma keeps_free_super sb : keeps I (free_super sb).
Proof. unfold free_super. keeps. Qed.
#[local] Hint Resolve keeps_get_super keeps_free_super : keeps.
Lemma keeps_put_super d : keeps I (put_super d).
Proof. unfold put_super. keeps. Qed.

Lemma keeps_lock_inode i : keeps I (lock_inode i).
Proof. unfold lock_inode, wait_on_inode, while. keeps. Qed.
Lemma keeps_unlock_inode i : keeps I (unlock_inode i).
Proof. unfold unlock_inode. keeps. Qed.
#[local] Hint Resolve keeps_lock_inode keeps_unlock_inode : keeps.
Lemma keeps_write_inode i : keeps I (write_inode i).
Proof. unfold write_inode. keeps. Qed.
#[local] Hint Resolve keeps_write_inode : keeps.
Lemma keeps_sync_inodes_body : keeps I sync_inodes_body.
Proof. unfold sync_inodes_body, wait_on_inode, while. keeps. Qed.
End sync.

Lemma keeps_sync_inodes_at n : keeps I (sync_inodes_at n).
Proof.
  induction n as [|n IH]; [apply keeps_out_of_fuel|].
  exact (keeps_sync_inodes_body (SI := sync_inodes_at n) IH).
Qed.
Lemma keeps_sync_inodes : keeps I sync_inodes.
Proof. exact (keeps_sync_inodes_at (S NR_INODE)). Qed.
#[local] Hint Resolve keeps_sync_inodes keeps_get_hash_table keeps_getblk keeps_brelse keeps_bread keeps_get_super
  keeps_free_super keeps_put_super keeps_lock_inode keeps_unlock_inode keeps_write_inode : keeps.

(** ** fs/bitmap.c, truncate.c, inode.c *)

Lemma keeps_wait_on_inode i : keeps I (wait_on_inode i).
Proof. unfold wait_on_inode, while. keeps. Qed.
#[local] Hint Resolve keeps_wait_on_inode : keeps.
Lemma keeps_free_block d b : keeps I (free_block d b).
Proof. unfold free_block. keeps. Qed.
Lemma keeps_new_block d : keeps I (new_block d).
Proof. unfold new_block. keeps. Qed.
Lemma keeps_free_inode i : keeps I (free_inode i).
Proof. unfold free_inode. keeps. Qed.
#[local] Hint Resolve keeps_free_block keeps_new_block keeps_free_inode : keeps.
Lemma keeps_free_ind d b : keeps I (free_ind d b).
Proof. unfold free_ind, free_entries. keeps. Qed.
#[local] Hint Resolve keeps_free_ind : keeps.
Lemma keeps_truncate i : keeps I (truncate i).
Proof. unfold truncate, free_dind, free_entries. keeps. Qed.
Lemma keeps_indirect i b n c : keeps I (indirect i b n c).
Proof. unfold indirect, fill_entry. keeps. Qed.
Lemma keeps_fill_zone i n c : keeps I (fill_zone i n c).
Proof. unfold fill_zone. keeps. Qed.
#[local] Hint Resolve keeps_truncate keeps_indirect keeps_fill_zone : keeps.
Lemma keeps_bmap i b c : keeps I (_bmap i b c).
Proof. unfold _bmap. keeps. Qed.
Lemma keeps_iput o : keeps I (iput o).
Proof. unfold iput. keeps. Qed.
#[local] Hint Resolve keeps_bmap keeps_iput : keeps.
Lemma keeps_get_empty_inode : keeps I get_empty_inode.
Proof. unfold get_empty_inode, while. keeps. Qed.
#[local] Hint Resolve keeps_get_empty_inode : keeps.
Lemma keeps_read_inode i : keeps I (read_inode i).
Proof. unfold read_inode. keeps. Qed.
#[local] Hint Resolve keeps_read_inode : keeps.
Lemma keeps_iget d n : keeps I (iget d n).
Proof. unfold iget. keeps. Qed.
Lemma keeps_new_inode d : keeps I (new_inode d).
Proof. unfold new_inode. keeps. Qed.
Lemma keeps_get_pipe_inode : keeps I get_pipe_inode.
Proof. unfold get_pipe_inode. keeps. Qed.
#[local] Hint Resolve keeps_iget keeps_new_inode keeps_get_pipe_inode : keeps.

(** ** fs/super.c, namei.c, open.c *)

Lemma keeps_invalidate_inodes d : keeps I (invalidate_inodes d).
Proof. unfold invalidate_inodes. keeps. Qed.
#[local] Hint Resolve keeps_invalidate_inodes : keeps.
Lemma keeps_check_disk_change d : keeps I (check_disk_change d).
Proof. unfold check_disk_change. keeps. Qed.
Lemma keeps_permission i m : keeps I (permission i m).
Proof. unfold permission. keeps. Qed.
#[local] Hint Resolve keeps_check_disk_change keeps_permission : keeps.
Lemma keeps_match_entry l n b o : keeps I (match_entry l n b o).
Proof. unfold match_entry. keeps. Qed.
Lemma keeps_dotdot d n l : keeps I (dotdot d n l).
Proof. unfold dotdot. keeps. Qed.
#[local] Hint Resolve keeps_match_entry keeps_dotdot : keeps.
Lemma keeps_find_entry d n l : keeps I (find_entry d n l).
Proof. unfold find_entry. keeps. Qed.
Lemma keeps_add_entry d n l : keeps I (add_entry d n l).
Proof. unfold add_entry. keeps. Qed.
#[local] Hint Resolve keeps_find_entry keeps_add_entry : keeps.
Lemma keeps_get_dir p : keeps I (get_dir p).
Proof. unfold get_dir. keeps. Qed.
#[local] Hint Resolve keeps_get_dir : keeps.
Lemma keeps_dir_namei p : keeps I (dir_namei p).
Proof. unfold dir_namei. keeps. Qed.
#[local] Hint Resolve keeps_dir_namei : keeps.
Lemma keeps_namei p : keeps I (namei p).
Proof. unfold namei. keeps. Qed.
Lemma keeps_open_namei p f m : keeps I (open_namei p f m).
Proof. unfold open_namei. keeps. Qed.
Lemma keeps_open_tty i : keeps I (open_tty i).
Proof. unfold open_tty. keeps. Qed.
End files.

Ltac gives :=
  repeat lazymatch goal with
  | |- forall _, _ => intro
  | |- gives _ (mbind _ _) => apply gives_bind
  | |- gives _ (if ?b then _ else _) => destruct b
  | |- gives _ (match ?x with _ => _ end) => destruct x
  | |- gives _ (let x := _ in _) => cbv zeta
  | |- gives _ (mret _) => apply gives_ret
  end.
(** The errors of [open_namei] are negative numbers. *)
Lemma open_namei_error `{World} p f m :
  gives (fun r => match r with inl e => e < 0 | inr _ => True end) (open_namei p f m).
Proof.
  unfold open_namei. gives; try done; [unfold open_existing|unfold create_file]; gives; done.
Qed.
#[export] Hint Resolve keeps_iput keeps_open_namei keeps_open_tty keeps_namei keeps_check_disk_change
  keeps_get_pipe_inode : keeps.
