(* ===== verification/Cached.v ===== *)
(** * getblk and bread among other tasks

    [getblk] sleeps in many places, and at each of them the other tasks may
    change the cache.  What the task relies on is the class [CacheOthers]: the
    others leave the lists and chains well formed.  Then [getblk] returns a
    buffer that holds the block, whatever it had to wait for; [bread] returns
    it read, as long as no other task gives away a buffer this one holds; and every
    routine of the file system that reads and writes blocks keeps the lists
    and chains well formed in turn. *)

From S2P Require Import Prelude Kernel Sched Memory Blk LLRwBlk Buffer BufferCache Bitmap Inode Super Namei Frame.

(** The lists and chains of the cache are well formed; with [u], moreover, no
    two buffers hold the same block. *)
Definition cached (u : bool) (s : kernel) : Prop :=
  exists L H, cache_rep None L H s /\ (1 < length L)%nat /\ (u = true -> one_buffer_per_block s).
(** Blocks are held once as long as device numbers are those of devices. *)
Definition dev_ok (u : bool) (dev : Z) : Prop := u = true -> 0 < dev < 2 ^ 16.

Class CacheOthers `{World} (u : bool) := others_cached : forall n, keeps (cached u) (switch_to n).
(** The states this task can be in from [s] on while it works on buffers it
    has: its own steps leave the structure of the cache and the references to
    buffers alone, and in between other tasks run. *)
Inductive during `{World} (s : kernel) : kernel -> Prop :=
| during_start : during s s
| during_own t t' : during s t -> fd_view t' = fd_view t -> cache_view t' = cache_view t ->
    count_view t' = count_view t -> k_switches t' = k_switches t -> during s t'
| during_switch n t t' : during s t -> switch_to n t = Ok tt t' -> during s t'.
(** From [s] on and up to switch [k] no other task gives the buffer [b], which
    this task has a reference to, to another block. *)
Definition left_alone `{World} (dev nr : Z) (b : nat) (s : kernel) (k : nat) : Prop := forall n t t',
  during s t -> (k_switches t < k)%nat -> holds t dev nr b = true -> switch_to n t = Ok tt t' -> holds t' dev nr b = true.

(** ** What the views determine *)

Lemma view_bufs s s' b h : cache_view s' = cache_view s -> k_bufs s !! b = Some h ->
  exists h', k_bufs s' !! b = Some h' /\ b_dev h' = b_dev h /\ b_blocknr h' = b_blocknr h.
Proof.
  intros [= _ _ _ _ Ed En _ _] Hh.
  assert (Ed' : (b_dev <$> k_bufs s) !! b = Some (b_dev h)) by by rewrite list_lookup_fmap, Hh.
  assert (En' : (b_blocknr <$> k_bufs s) !! b = Some (b_blocknr h)) by by rewrite list_lookup_fmap, Hh.
  rewrite <-Ed, list_lookup_fmap in Ed'. rewrite <-En, list_lookup_fmap in En'.
  destruct (k_bufs s' !! b) as [h'|]; [|done]. exists h'. cbn in *. split_and!; congruence.
Qed.
Lemma view_core s s' b c : cache_view s' = cache_view s -> l_core (links_of s) !! b = Some c ->
  exists c', l_core (links_of s') !! b = Some c' /\ b_dev c' = b_dev c /\ b_blocknr c' = b_blocknr c.
Proof.
  intros Ev. cbn. rewrite !list_lookup_fmap. intros (h & Hh & ->)%fmap_Some.
  destruct (view_bufs _ _ _ _ Ev Hh) as (h' & -> & E). by exists (core h').
Qed.
Lemma cache_rep_view out L H s s' : cache_view s' = cache_view s -> cache_rep out L H s -> cache_rep out L H s'.
Proof.
  intros Ev [RF RH]. pose proof Ev as [= E1 E2 E3 E4 Ed _ Et Er].
  assert (EL : length (l_core (links_of s')) = length (l_core (links_of s))).
  { cbn. rewrite !length_fmap. by rewrite <-(length_fmap b_dev), Ed, length_fmap. }
  destruct RF as [F1 F2 F3 F4 F5], RH as [H1 H2 H3 H4 H5 H6 H7].
  split; split; rewrite ?EL; cbn [links_of l_prev l_next l_prev_free l_next_free l_table l_root] in *;
    rewrite ?E1, ?E2, ?E3, ?E4, ?Et, ?Er; try done.
  - intros h l b Hl. rewrite (H5 h l b Hl). split; intros (? & c & Hc & ? & ?); (split; [done|]).
    + destruct (view_core _ _ _ _ Ev Hc) as (c' & Hc' & Dd & Dn). exists c'. by rewrite Dd, Dn.
    + destruct (view_core _ _ _ _ (eq_sym Ev) Hc) as (c' & Hc' & Dd & Dn). exists c'. by rewrite Dd, Dn.
  - intros b c Hc Hd Ho. destruct (view_core _ _ _ _ (eq_sym Ev) Hc) as (c' & Hc' & Dd & _).
    eapply H6; [done|congruence|done].
Qed.
Lemma one_buffer_view s s' : cache_view s' = cache_view s -> one_buffer_per_block s -> one_buffer_per_block s'.
Proof.
  intros Ev Hu b b' c c' Hc Hc' Hd Ed En. symmetry in Ev.
  destruct (view_bufs _ _ _ _ Ev Hc) as (x & Hx & Dx & Nx), (view_bufs _ _ _ _ Ev Hc') as (y & Hy & Dy & Ny).
  eapply (Hu b b' x y); congruence.
Qed.
Lemma cached_view u s s' : cache_view s' = cache_view s -> cached u s -> cached u s'.
Proof.
  intros Ev (L & H & R & Hl & Hu). exists L, H. split_and!; [by eapply cache_rep_view|done|].
  intros E. eapply one_buffer_view; eauto.
Qed.
Lemma holds_view b dev nr s s' : cache_view s' = cache_view s -> holds s dev nr b = true -> holds s' dev nr b = true.
Proof.
  intros Ev (h & Hh & Ed & En)%holds_true. apply holds_true.
  destruct (view_bufs _ _ _ _ Ev Hh) as (h' & Hh' & Ed' & En'). exists h'. split_and!; congruence.
Qed.
#[export] Instance cached_calm `{World} u `{!CacheOthers u} : Calm (cached u).
Proof. split; [intros s s' _ Ev _ _; by apply cached_view|apply others_cached]. Qed.
(** The cache is well formed, and the buffer got in [s0] has its block if the
    others have left it alone up to now. *)
Definition still_holds `{World} (u : bool) (dev nr : Z) (b : nat) (s0 s : kernel) : Prop :=
  cached u s /\ during s0 s /\ (left_alone dev nr b s0 (k_switches s) -> holds s dev nr b = true).
Lemma left_alone_less `{World} dev nr b s k k' : (k <= k')%nat -> left_alone dev nr b s k' -> left_alone dev nr b s k.
Proof. intros Hk Hl n t t' Hd Hlt. apply (Hl n t t' Hd). lia. Qed.
#[export] Instance still_holds_calm `{World} u dev nr b s0 `{!CacheOthers u} : Calm (still_holds u dev nr b s0).
Proof.
  split.
  - intros s s' Ef Ev Ec Ek (Hc & Hd & Hh). split_and!; [by eapply cached_view|by eapply during_own|].
    rewrite Ek. intros Hl. eapply holds_view; [exact Ev|by apply Hh].
  - intros n s (Hc & Hd & Hh). pose proof (others_cached n s Hc) as Hc'.
    pose proof (fun t' => during_switch s0 n s t' Hd) as Hd'. revert Hc' Hd'.
    unfold left_alone in *. destruct (switch_to n s) as [[] s'| | | |] eqn:E; intros Hc' Hd'; try by (unfold switch_to in E; case_decide).
    split_and!; [done|by apply Hd'|]. intros Hl. unfold switch_to in E. case_decide as En.
    + injection E as <-. by apply Hh.
    + assert (Hk : k_switches s' = S (k_switches s)) by (by injection E as <-). apply (Hl n s s' Hd); [lia| |].
      * apply Hh. intros m t t' Ht Hlt. apply (Hl m t t' Ht). lia.
      * unfold switch_to. by rewrite decide_False.
Qed.

(** ** getblk *)

Lemma count_unseen s b h c : k_bufs s !! b = Some h ->
  cache_view (set_tab (fun l => <[b := set_field b_count c h]> l) s) = cache_view s.
Proof. intros E. unfold cache_view. cbn. by rewrite !(fmap_updated _ _ b (set_field b_count c) h E) by done. Qed.
(** Taking and dropping a reference. *)
Lemma keeps_count_cached u b c : keeps (cached u) (upd b b_count c).
Proof. apply keeps_updr. intros s h E. by apply cached_view, count_unseen. Qed.

Section getblk.
Context {W : World} (u : bool) {HO : CacheOthers u}.

Lemma keeps_find_cached dev block : keeps (cached u) (find_buffer dev block).
Proof. apply keeps_find_buffer; exact _. Qed.
(** [find_buffer] on a well-formed cache. *)
Lemma kept_find_buffer dev block (Q : option nat -> kernel -> Prop) s : cached u s ->
  (forall b, holds s dev block b = true -> Q (Some b) s) ->
  ((dev <> 0 -> forall b, holds s dev block b = false) -> Q None s) ->
  kept (cached u) (find_buffer dev block) Q s.
Proof.
  intros (L & H & R & _) HS HN. destruct (find_buffer_rep L H s dev block R) as (o & E & Ho).
  unfold kept. rewrite E. destruct o; auto.
Qed.
Lemma kept_any {A} (m : M kernel A) (Q : A -> kernel -> Prop) s : keeps (cached u) m -> cached u s ->
  (forall a s', cached u s' -> Q a s') -> kept (cached u) m Q s.
Proof.
  intros Hm Hs HQ. eapply kept_keeps; [exact Hm|apply gives_any|exact Hs|done|]. intros a s' _. apply HQ.
Qed.

(** A computation that ends a turn: what it answers holds of the state. *)
Definition answers {X R} (J : R -> kernel -> Prop) (x : X + R) (s : kernel) : Prop :=
  cached u s /\ match x with inl _ => True | inr r => J r s end.
Lemma kept_loop {A R} (J : R -> kernel -> Prop) n (body : A -> M kernel (A + R)) a s :
  (forall a s, cached u s -> kept (cached u) (body a) (answers J) s) -> cached u s ->
  kept (cached u) (loop n body a) (fun r s' => cached u s' /\ J r s') s.
Proof.
  intros Hb. revert a s. induction n as [|n IH]; intros a s Hs; [done|]. rewrite loop_S.
  apply kept_bind. eapply kept_mono; [by apply Hb|]. intros [a'|r] s' [Hc HJ]; [by apply IH|done].
Qed.

Definition found (dev block : Z) (o : option nat) (s : kernel) : Prop :=
  match o with Some b => holds s dev block b = true | None => True end.
Lemma kept_get_hash_table dev block s : cached u s ->
  kept (cached u) (get_hash_table dev block) (fun o s' => cached u s' /\ found dev block o s') s.
Proof.
  apply kept_loop. clear s. intros _ s Hs. apply kept_bind. apply kept_find_buffer; [done| |].
  2:{ intros _. done. }
  intros b Hb. apply kept_bind. apply kept_any; [apply keeps_count_cached|done|]. intros [] s1 H1.
  apply kept_bind, kept_any; [apply keeps_wait_on_buffer; exact _|done|]. intros [] s2 H2.
  apply kept_bind, kept_getf; [done|]. intros h Hh. apply kept_bind, kept_getf; [done|]. intros h' Hh'.
  rewrite Hh in Hh'. injection Hh' as <-.
  destruct (_ && _) eqn:E.
  - split; [done|]. cbn. apply holds_true. exists h. apply andb_true_iff in E as [?%Z.eqb_eq ?%Z.eqb_eq]. done.
  - apply kept_bind, kept_any; [apply keeps_count_cached|done|]. intros [] s3 H3. done.
Qed.

Lemma take_buffer_length L (s : kernel) H b : cache_rep None L H s -> (b < length (k_bufs s))%nat -> (1 < length L)%nat ->
  (1 < length (without b L ++ [b]))%nat.
Proof.
  intros [RF _] Hb Hl. rewrite length_app. cbn.
  assert (without b L <> []) by (apply without_nonempty; [apply RF|done]). destruct (without b L); cbn; [done|lia].
Qed.
Lemma kept_take_buffer dev block b s : cached u s ->
  (u = true -> forall b', holds s (u16 dev) block b' = false) ->
  kept (cached u) (take_buffer b dev block) (fun _ s' => cached u s' /\ holds s' (u16 dev) block b = true) s.
Proof.
  intros Hs Hfree. destruct (k_bufs s !! b) as [h|] eqn:Hh.
  2:{ unfold kept, take_buffer, mbind, M_bind, st, updr. cbn [tab buffer_table]. by rewrite Hh. }
  destruct Hs as (L & H & R & Hl & Hu). assert (Hb := lookup_lt_Some _ _ _ Hh).
  assert (T := take_buffer_rep L H s b h dev block R Hh Hl). unfold wp, wpg in T. unfold kept.
  destruct (take_buffer b dev block s) as [[] s'| | | |]; try done. destruct T as [R' EC].
  split; [eexists _, _; split_and!; [exact R'|by eapply take_buffer_length|]|].
  - intros E. eapply taken_unique; [by apply Hu| |exact EC]. intros b' h' Hh' [Ed En].
    specialize (Hfree E b'). unfold holds in Hfree. rewrite Hh', Ed, En, !Z.eqb_refl in Hfree. done.
  - assert (EL : (core <$> k_bufs s') !! b = Some (taken_for dev block h)).
    { rewrite EC. apply list_lookup_insert_eq. by rewrite length_fmap. }
    rewrite list_lookup_fmap in EL. apply fmap_Some in EL as (h' & Hh' & [= _ _ En Ed _ _ _ _ _]).
    apply holds_true. exists h'. done.
Qed.

Context {SI : SyncInodes} (HSI : keeps (cached u) sync_inodes).

Lemma keeps_free_scan : keeps (cached u) free_scan.
Proof. unfold free_scan. keeps. Qed.
Lemma keeps_clean_buffer b : keeps (cached u) (clean_buffer b).
Proof. unfold clean_buffer. keeps. Qed.
(** One turn of [getblk]. *)
Lemma kept_getblk_step dev block s : dev_ok u dev -> cached u s ->
  kept (cached u) (getblk_step dev block tt) (answers (fun b s' => 0 <= dev < 2 ^ 16 -> holds s' dev block b = true)) s.
Proof.
  intros Hdev Hs. unfold getblk_step. apply kept_bind.
  eapply kept_mono; [by apply kept_get_hash_table|]. intros [b|] s1 [H1 HF]; [by split|].
  apply kept_bind, kept_any; [apply keeps_free_scan|done|]. intros [b|] s2 H2.
  2:{ apply kept_bind, kept_any; [apply keeps_sleep_on; [exact _|apply queue_buffer_wait; exact _]|done|]. intros [] s3 H3. by split. }
  apply kept_bind, kept_any; [apply keeps_wait_on_buffer; exact _|done|]. intros [] s3 H3.
  apply kept_bind, kept_getf; [done|]. intros h _. destruct (truth _); [by split|].
  apply kept_bind, kept_any; [apply keeps_clean_buffer|done|]. intros [] s4 H4; [by split|].
  apply kept_bind, kept_find_buffer; [done|intros b' _; by split|]. intros Hfree. apply kept_bind.
  eapply kept_mono; [apply kept_take_buffer; [done|]|].
  - intros E. specialize (Hdev E). rewrite u16_small by lia. apply Hfree. lia.
  - intros [] s5 [H5 Hb]. split; [done|]. intros Hr. by rewrite u16_small in Hb by lia.
Qed.
Lemma kept_getblk dev block s : dev_ok u dev -> cached u s ->
  kept (cached u) (getblk dev block) (fun b s' => cached u s' /\ (0 <= dev < 2 ^ 16 -> holds s' dev block b = true)) s.
Proof.
  intros Hd Hs. apply (kept_loop (fun b s' => 0 <= dev < 2 ^ 16 -> holds s' dev block b = true)); [|done].
  intros [] s' Hs'. by apply kept_getblk_step.
Qed.
End getblk.

Lemma kept_keeps_inv {A} (I : kernel -> Prop) (m : M kernel A) :
  (forall s, I s -> kept I m (fun _ => I) s) -> keeps I m.
Proof. intros H s Hs. exact (H s Hs). Qed.
(** The cache is well formed whatever the file system does: [getblk] keeps
    it, the rest only goes through [getblk]. *)
#[export] Instance cached_frame `{World} `{!CacheOthers false} : CacheFrame (cached false).
Proof.
  split; [intros s s' _; apply cached_view|apply others_cached|].
  intros SI HSI dev block. apply kept_keeps_inv. intros s Hs.
  eapply kept_mono; [by apply kept_getblk|]. by intros b s' [Hc _].
Qed.

Section bread.
Context {W : World} (u : bool) {HO : CacheOthers u}.
Context {SI : SyncInodes} (HSI : keeps (cached u) sync_inodes).
Variables (dev nr : Z).

Lemma keeps_brelse_cached o : keeps (cached u) (brelse o).
Proof.
  unfold brelse. keeps.
  apply (keeps_buffer_count _ (fun s s' _ => cached_view u s s')); intros ?; split_and!; reflexivity.
Qed.
(** Once [getblk] has found it, the block stays where it is. *)
Lemma kept_still {A} b s0 (m : M kernel A) (Q : A -> kernel -> Prop) s : keeps (still_holds u dev nr b s0) m ->
  still_holds u dev nr b s0 s -> (forall a s', still_holds u dev nr b s0 s' -> Q a s') -> kept (cached u) m Q s.
Proof.
  intros Hm Hs HQ. eapply kept_keeps; [exact Hm|apply gives_any|exact Hs|by intros s' []|].
  intros a s' _. apply HQ.
Qed.
Definition up_to_date (b : nat) (s : kernel) : Prop := exists h, k_bufs s !! b = Some h /\ b_uptodate h <> 0.
(** The block is in the buffer [getblk] found for it, and stays there for as
    long as the others do not give away what this task holds. *)
Definition read_block (s : kernel) (o : option nat) (s' : kernel) : Prop :=
  match o with
  | Some b => up_to_date b s' /\ exists s1, getblk dev nr s = Ok b s1 /\ holds s1 dev nr b = true /\ during s1 s' /\
      (left_alone dev nr b s1 (k_switches s') -> holds s' dev nr b = true)
  | None => True
  end.
Lemma kept_bread s : dev_ok u dev -> 0 <= dev < 2 ^ 16 -> cached u s ->
  kept (cached u) (bread dev nr) (fun o s' => cached u s' /\ read_block s o s') s.
Proof.
  intros Hd Hr Hs. unfold bread. apply kept_bind. eapply kept_mono.
  { apply (kept_eq _ _ _ _ (kept_getblk u HSI dev nr s Hd Hs)). }
  intros b s1 [[H1 Hb] E1]. specialize (Hb Hr).
  assert (Hstill : still_holds u dev nr b s1 s1) by (split_and!; [done|apply during_start|done]).
  assert (Hread : forall s2 h, still_holds u dev nr b s1 s2 -> k_bufs s2 !! b = Some h -> truth (b_uptodate h) = true ->
    cached u s2 /\ read_block s (Some b) s2).
  { intros s2 h (Hc & Hdu & Hh) E Hu. split; [done|]. split; [exists h; split; [done|by apply truth_true]|]. by exists s1. }
  apply kept_bind, kept_getf; [done|]. intros h Hh.
  destruct (truth (b_uptodate h)) eqn:E; [by eapply Hread|].
  apply kept_bind, (kept_still b s1); [by apply keeps_ll_rw_block; exact _|done|]. intros [] s2 H2.
  apply kept_bind, (kept_still b s1); [by apply keeps_wait_on_buffer; exact _|done|]. intros [] s3 H3.
  apply kept_bind, kept_getf; [apply H3|]. intros h' Hh'.
  destruct (truth (b_uptodate h')) eqn:E'; [by eapply Hread|].
  apply kept_bind, kept_any; [apply keeps_brelse_cached|apply H3|by split].
Qed.
End bread.

(** ** What getblk and bread give *)

(** C5: [getblk], on a well-formed cache and whatever the other tasks do to
    it while it sleeps as long as they leave it well formed, returns only with
    a buffer that holds the block asked for, and leaves the cache well formed
    however it ends; with device numbers in range no block comes to be held
    twice. *)
Theorem getblk_spec `{World} u `{!CacheOthers u} `{SyncInodes} dev nr s :
  keeps (cached u) sync_inodes -> dev_ok u dev -> 0 <= dev < 2 ^ 16 -> cached u s ->
  kept (cached u) (getblk dev nr) (fun b s' => cached u s' /\ holds s' dev nr b = true) s.
Proof.
  intros HSI Hd Hr Hs. eapply kept_mono; [by apply kept_getblk|]. intros b s' [Hc Hb]. auto.
Qed.
(** C8: [bread], with the inodes written by fs/inode.c, returns NULL or a
    buffer that is up to date: the one that [getblk] found for the block.  It
    still holds the block at the end, provided that no other task has given to
    another block, while [bread] waited, the buffer this task had got (the
    others may use, fill and drop all other buffers as they like).  The cache is
    well formed however the call ends. *)
Theorem bread_spec `{World} `{!CacheOthers false} dev nr s :
  0 <= dev < 2 ^ 16 -> cached false s ->
  kept (cached false) (bread dev nr) (fun o s' => cached false s' /\ read_block dev nr s o s') s.
Proof. intros Hr Hs. by apply (kept_bread false (keeps_sync_inodes _)). Qed.
(** C17: the file system keeps the lists and the hash chains of the buffer
    cache well formed, however each call ends: writing inodes out, taking and
    dropping inodes, allocating and freeing blocks and inodes, truncating,
    mapping blocks, looking up and adding names, opening and creating files. *)
Theorem file_system_keeps_cache `{World} `{!CacheOthers false} :
  keeps (cached false) sync_inodes /\
  (forall dev n, keeps (cached false) (iget dev n)) /\ (forall o, keeps (cached false) (iput o)) /\
  (forall dev, keeps (cached false) (new_block dev)) /\ (forall dev b, keeps (cached false) (free_block dev b)) /\
  (forall dev, keeps (cached false) (new_inode dev)) /\ (forall i, keeps (cached false) (free_inode i)) /\
  (forall i, keeps (cached false) (truncate i)) /\ (forall i b c, keeps (cached false) (_bmap i b c)) /\
  (forall d n l, keeps (cached false) (find_entry d n l)) /\ (forall d n l, keeps (cached false) (add_entry d n l)) /\
  (forall p, keeps (cached false) (namei p)) /\ (forall p f m, keeps (cached false) (open_namei p f m)).
Proof.
  split_and!; intros; first
    [ apply keeps_sync_inodes | apply keeps_iget | apply keeps_iput | apply keeps_new_block | apply keeps_free_block
    | apply keeps_new_inode | apply keeps_free_inode | apply keeps_truncate | apply keeps_bmap | apply keeps_find_entry
    | apply keeps_add_entry | apply keeps_namei | apply keeps_open_namei ]; exact _.
Qed.

(** ** getblk when it need not wait *)

Section no_wait.
Context {W : World} {SI : SyncInodes}.
Hypothesis Hpat : (0 < patience)%nat.

Lemma wait_unlocked s b h : k_bufs s !! b = Some h -> b_lock h = 0 -> wait_on_buffer b s = Ok tt s.
Proof.
  intros Hh Hl. unfold wait_on_buffer, while. destruct patience as [|n]; [lia|]. rewrite loop_S.
  unfold mbind, M_bind, getf. cbn [tab buffer_table]. by rewrite Hh, Hl.
Qed.
Lemma clean_clean s b h : k_bufs s !! b = Some h -> b_dirt h = 0 -> clean_buffer b s = Ok false s.
Proof.
  intros Hh Hl. unfold clean_buffer. destruct patience as [|n]; [lia|]. rewrite loop_S.
  unfold mbind, M_bind, getf. cbn [tab buffer_table]. by rewrite Hh, Hl.
Qed.
Lemma get_hash_table_miss s dev nr : find_buffer dev nr s = Ok None s -> get_hash_table dev nr s = Ok None s.
Proof.
  intros E. unfold get_hash_table. destruct patience as [|n]; [lia|]. rewrite loop_S.
  unfold mbind, M_bind. by rewrite E.
Qed.
Lemma get_hash_table_hit s dev nr b h : find_buffer dev nr s = Ok (Some b) s -> k_bufs s !! b = Some h ->
  b_lock h = 0 -> holds s dev nr b = true -> get_hash_table dev nr s =
  Ok (Some b) (set_tab (fun l => <[b := set_field b_count (fun c => u8 (c + 1)) h]> l) s).
Proof.
  intros E Hh Hl Hb. set (s' := set_tab _ s).
  assert (Hh' : k_bufs s' !! b = Some (set_field b_count (fun c => u8 (c + 1)) h)).
  { apply list_lookup_insert_eq. by eapply lookup_lt_Some. }
  unfold get_hash_table. pose proof (wait_unlocked s' b _ Hh' Hl) as Ew. destruct patience as [|n]; [lia|].
  rewrite loop_S. unfold mbind, M_bind. rewrite E. unfold upd, updr. cbn [tab buffer_table]. rewrite Hh.
  change (set_tab _ s) with s'. rewrite Ew. unfold getf. cbn [tab buffer_table]. rewrite !Hh'.
  apply holds_true in Hb as (h' & E1 & E2 & E3). rewrite Hh in E1. injection E1 as <-.
  cbn. by rewrite E2, E3, !Z.eqb_refl.
Qed.

(** C18: [getblk] when it need not wait, in full.  A block that an unlocked
    buffer holds is returned in that buffer, counted once more, and nothing
    else changes.  A block that no buffer holds goes, when the best unused
    buffer is unlocked and clean, to that buffer, without input or output:
    it becomes the youngest buffer, first in the chain of its block, and the
    other buffers keep their contents. *)
Theorem getblk_without_waiting L H s dev nr :
  cache_is L H s -> (1 < length L)%nat -> 0 < dev < 2 ^ 16 ->
  (forall b h, k_bufs s !! b = Some h -> 0 <= b_dirt h /\ 0 <= b_lock h) ->
  forall b h, k_bufs s !! b = Some h -> b_lock h = 0 ->
  (holds s dev nr b = true ->
    wp (getblk dev nr) (fun b' s' => b' = b /\
      s' = set_tab (fun l => <[b := set_field b_count (fun c => u8 (c + 1)) h]> l) s) s) /\
  ((forall b', holds s dev nr b' = false) -> best s L (Some b) -> b_dirt h = 0 ->
    wp (getblk dev nr) (fun b' s' => b' = b /\
      cache_is (without b L ++ [b]) (hashed b (taken_for dev nr h) (without b <$> H)) s' /\
      core <$> k_bufs s' = <[b := taken_for dev nr h]> (core <$> k_bufs s)) s).
Proof.
  intros [R Hu] Hl Hdev Hflags b h Hh Hlock.
  destruct (find_buffer_rep L H s dev nr R) as (o & E & Ho).
  destruct (Nat.lt_exists_pred 0 patience Hpat) as (n & Ep & _). unfold getblk. rewrite Ep, loop_S. split.
  - intros Hb. assert (o = Some b) as ->.
    { destruct o as [b'|]; [|by rewrite (Ho ltac:(lia) b) in Hb]. f_equal.
      apply holds_true in Hb as (x & ? & ? & ?), Ho as (y & ? & ? & ?). eapply (Hu b' b y x); [done|done|lia|congruence|congruence]. }
    apply wpg_bind. unfold getblk_step. eapply wpg_bind_Ok; [by eapply get_hash_table_hit|]. by do 2 apply wpg_ret.
  - intros Hfree Hbest Hdirt. assert (o = None) as ->.
    { destruct o as [b'|]; [|done]. by rewrite Hfree in Ho. }
    apply wpg_bind. unfold getblk_step. eapply wpg_bind_Ok; [by apply get_hash_table_miss|].
    apply wpg_bind. eapply wp_mono; [eapply free_scan_best; [exact R|intros ->; cbn in Hl; lia|done]|].
    intros o s' [-> Hbest']. rewrite (best_unique _ _ _ _ Hbest Hbest').
    eapply wpg_bind_Ok; [by eapply wait_unlocked|]. apply wpg_bind. eapply wpg_getf; [exact Hh|].
    destruct Hbest as [(h' & Hh' & Hz) _]. rewrite Hh in Hh'. injection Hh' as <-.
    rewrite (proj2 (truth_false _) Hz). eapply wpg_bind_Ok; [by eapply clean_clean|].
    eapply wpg_bind_Ok; [exact E|]. apply wpg_bind. eapply wp_mono; [by eapply take_buffer_rep|].
    intros [] s' [R' EC]. do 2 apply wpg_ret. split_and!; [done| |exact EC]. split; [exact R'|].
    eapply taken_unique; [done| |exact EC]. intros b' x Hx [Ed En]. specialize (Hfree b').
    unfold holds in Hfree. rewrite Hx, Ed, En, u16_small, !Z.eqb_refl in Hfree by lia. done.
Qed.
End no_wait.

(** A machine whose other tasks do nothing. *)
#[local] Instance quiet : World := {| world_env := fun _ _ s => s; world_hardware := fun _ _ => 0; patience := 4 |}.
Lemma quiet_switch n (I : kernel -> Prop) : (forall s s', cache_view s' = cache_view s -> I s -> I s') -> keeps I (switch_to n).
Proof. intros HI s Hs. unfold switch_to. case_decide; [done|]. by apply (HI s). Qed.
#[local] Instance quiet_others u : CacheOthers u.
Proof. intros n. apply quiet_switch. intros s s'. apply cached_view. Qed.
Lemma two_buffers_cached u : cached u two_buffers.
Proof. destruct two_buffers_cache as [R U]. eexists _, _. split_and!; [exact R|cbn; lia|done]. Qed.

(** No inode to write out. *)
Definition no_inodes : SyncInodes := mret tt.
Lemma no_inodes_kept u : keeps (cached u) (@sync_inodes no_inodes).
Proof. apply keeps_ret. Qed.

Lemma getblk_spec_witness : kept (cached true) (@getblk _ no_inodes 0x301 7)
  (fun b s' => cached true s' /\ holds s' 0x301 7 b = true) two_buffers.
Proof.
  apply (getblk_spec (H0 := no_inodes) true 0x301 7 two_buffers); [exact (no_inodes_kept _)|intros _; lia|lia|apply two_buffers_cached].
Defined.
Lemma getblk_without_waiting_witness :
  wp (@getblk _ no_inodes 0x301 7) (fun b s' => b = 0%nat /\ exists H, cache_is [1; 0]%nat H s' /\
    core <$> k_bufs s' = <[0%nat := taken_for 0x301 7 (fresh_buffer 2 0 0x9FC00)]> (core <$> k_bufs two_buffers)) two_buffers.
Proof.
  eapply wp_mono.
  - apply (getblk_without_waiting (W := quiet) (SI := no_inodes) (Nat.lt_0_succ 3) [0; 1]%nat (replicate (Z.to_nat NR_HASH) [])
      two_buffers 0x301 7 two_buffers_cache (Nat.lt_succ_diag_r 1) (conj eq_refl eq_refl)) with (b := 0%nat) (h := fresh_buffer 2 0 0x9FC00).
    + intros b h (_ & _ & _ & -> & ->)%two_buffers_at. lia.
    + reflexivity.
    + reflexivity.
    + intros b. destruct (holds two_buffers 0x301 7 b) eqn:E; [|done].
      apply holds_true in E as (h & (E & _)%two_buffers_at & E' & _). congruence.
    + split; [by exists (fresh_buffer 2 0 0x9FC00)|]. exists [], [1%nat]. split_and!; [done|set_solver|].
      intros x ->%list_elem_of_singleton _. reflexivity.
    + reflexivity.
  - intros b s' (-> & Hc & EC). split; [done|]. eexists. split; [exact Hc|exact EC].
Defined.
(** Others that do nothing leave every buffer alone. *)
Lemma quiet_leaves dev nr b s k : left_alone dev nr b s k.
Proof.
  intros n t t' _ _ Hh E. unfold switch_to in E. case_decide; injection E as <-; [done|]. by eapply holds_view; [|exact Hh].
Qed.
Lemma bread_spec_witness : kept (cached false) (bread 0x301 7)
  (fun o s' => cached false s' /\ match o with Some b => up_to_date b s' /\ holds s' 0x301 7 b = true | None => True end) two_buffers.
Proof.
  eapply kept_mono; [apply (bread_spec 0x301 7 two_buffers); [lia|apply two_buffers_cached]|].
  intros [b|] s' [Hc Hr]; [|done]. destruct Hr as (Hu & s1 & _ & _ & _ & Hh). split; [done|]. split; [done|]. apply Hh, quiet_leaves.
Defined.
Lemma file_system_keeps_cache_witness : cached false two_buffers /\ keeps (cached false) (sync_inodes ;; new_block 0x301).
Proof.
  split; [apply two_buffers_cached|]. pose proof file_system_keeps_cache as (Hs & _ & _ & Hn & _).
  apply keeps_bind; [exact Hs|]. intros _. apply Hn.
Defined.
