(* ===== verification/ConsoleSafe.v ===== *)
(** * The console stays in the video memory

    The well-formedness of the console's static variables (kernel/chr_drv/
    console.c), that every operation of Console.v keeps it and writes nowhere
    but in the video memory, and the same for [con_write] (Tty.v), whatever
    characters, control sequences and parameters it is given. *)

From S2P Require Import Prelude Kernel Sched Memory Fork Ctype Console Tty Frame.

(** ** The screen and the video memory *)

(** The cursor, the scrolling region and the visible part of the video memory
    fit together: [pos] is the address of column [x] of line [y] ([x] is the
    number of columns when the next character goes to the next line), and the
    screen lies in the video memory. *)
Record screen_ok (c : console) : Prop := {
  so_cols : 8 <= video_num_columns c;
  so_row : video_size_row c = 2 * video_num_columns c;
  so_lines : 0 < video_num_lines c;
  so_start : 0 <= video_mem_start c <= con_origin c;
  so_end : scr_end c = con_origin c + video_num_lines c * video_size_row c;
  so_mem : scr_end c <= video_mem_end c < 2 ^ 31;
  so_x : 0 <= con_x c <= video_num_columns c;
  so_y : 0 <= con_y c < video_num_lines c;
  so_pos : con_pos c = con_origin c + con_y c * video_size_row c + 2 * con_x c;
  so_region : 0 <= con_top c < con_bottom c /\ con_bottom c <= video_num_lines c;
  so_par : Forall (fun v => 0 <= v) (par c);
}.

(** Nothing but the video memory has changed. *)
Definition only_video (c0 c : console) : Prop :=
  video_mem_start c = video_mem_start c0 /\ video_mem_end c = video_mem_end c0 /\
  forall a, ~ (video_mem_start c0 <= a /\ a + 2 <= video_mem_end c0) -> vram c !! a = vram c0 !! a.
Definition video_safe (c0 c : console) : Prop := screen_ok c /\ only_video c0 c.
(** An operation that keeps the screen in order and stays in the video memory. *)
Definition stays (f : console -> console) : Prop := forall c, screen_ok c -> video_safe c (f c).

Lemma only_video_refl c : only_video c c.
Proof. done. Qed.
Lemma video_safe_trans c0 c1 c2 : only_video c0 c1 -> video_safe c1 c2 -> video_safe c0 c2.
Proof.
  intros (H1 & H2 & H3) (Hok & G1 & G2 & G3). split; [done|]. split_and!; [congruence..|].
  intros a Ha. rewrite G3 by (rewrite H1, H2; done). by apply H3.
Qed.
Lemma stays_compose f g : stays f -> stays g -> stays (fun c => g (f c)).
Proof. intros Hf Hg c Hc. destruct (Hf c Hc) as [H1 H2]. eapply video_safe_trans; [exact H2|]. by apply Hg. Qed.
Lemma stays_id : stays (fun c => c).
Proof. by intros c Hc. Qed.
Lemma stays_iter n f : stays f -> stays (Nat.iter n f).
Proof. intros Hf. induction n as [|n IH]; [exact stays_id|]. exact (stays_compose _ _ IH Hf). Qed.
Lemma stays_if (b : console -> bool) f g : stays f -> stays g -> stays (fun c => if b c then f c else g c).
Proof. intros Hf Hg c Hc. destruct (b c); [by apply Hf|by apply Hg]. Qed.

(** *** What the string instructions write *)

(** [m'] is [m] but for words at addresses from [lo] to, excluding, [hi]. *)
Definition within (lo hi : Z) (m m' : gmap Z Z) : Prop :=
  forall a, ~ (lo <= a < hi) -> m' !! a = m !! a.
Lemma within_refl lo hi m : within lo hi m m.
Proof. done. Qed.
Lemma within_trans lo hi m1 m2 m3 : within lo hi m1 m2 -> within lo hi m2 m3 -> within lo hi m1 m3.
Proof. intros H1 H2 a Ha. by rewrite H2, H1. Qed.
Lemma within_wider lo hi lo' hi' m m' : within lo' hi' m m' -> (lo' < hi' -> lo <= lo' /\ hi' <= hi) -> within lo hi m m'.
Proof. intros H Hb a Ha. apply H. intros Hr. apply Ha. lia. Qed.
Lemma within_vput a v lo hi m : lo <= a < hi -> within lo hi m (vput a v m).
Proof. intros Ha b Hb. unfold vput. rewrite lookup_insert_ne; [done|]. lia. Qed.
Lemma within_stosw n : forall di ax m, within di (di + 2 * Z.of_nat n - 1) m (stosw n di ax m).
Proof.
  induction n as [|n IH]; intros di ax m; [done|]. cbn [stosw]. eapply within_trans.
  - apply (within_vput di ax). lia.
  - eapply within_wider; [apply IH|]. lia.
Qed.
Lemma within_stosw_down n : forall di ax m, within (di - 2 * Z.of_nat n + 2) (di + 1) m (stosw_down n di ax m).
Proof.
  induction n as [|n IH]; intros di ax m; [done|]. cbn [stosw_down]. eapply within_trans.
  - apply (within_vput di ax). lia.
  - eapply within_wider; [apply IH|]. lia.
Qed.
Lemma within_movsl1 si di lo hi m : lo <= di -> di + 2 < hi -> within lo hi m (movsl1 si di m).
Proof. intros H1 H2. unfold movsl1. eapply within_trans; apply within_vput; lia. Qed.
Lemma within_movsl n : forall si di m, within di (di + 4 * Z.of_nat n - 1) m (movsl n si di m).
Proof.
  induction n as [|n IH]; intros si di m; [done|]. cbn [movsl]. eapply within_trans.
  - apply (within_movsl1 si di); lia.
  - eapply within_wider; [apply IH|]. lia.
Qed.
Lemma within_movsl_down n : forall si di m,
  within (di - 4 * Z.of_nat n + 4) (di + 3) m (movsl_down n si di m).
Proof.
  induction n as [|n IH]; intros si di m; [done|]. cbn [movsl_down]. eapply within_trans.
  - apply (within_movsl1 si di); lia.
  - eapply within_wider; [apply IH|]. lia.
Qed.
Lemma within_shift_right n : forall p old m, within p (p + 2 * Z.of_nat n - 1) m (shift_right n p old m).
Proof.
  induction n as [|n IH]; intros p old m; [done|]. cbn [shift_right]. eapply within_trans.
  - apply (within_vput p old). lia.
  - eapply within_wider; [apply IH|]. lia.
Qed.
Lemma within_shift_left n : forall p ch m, within p (p + 2 * Z.of_nat n + 1) m (shift_left n p ch m).
Proof.
  induction n as [|n IH]; intros p ch m; cbn [shift_left]; [apply within_vput; lia|]. eapply within_trans.
  - apply (within_vput p (vget m (p + 2))). lia.
  - eapply within_wider; [apply IH|]. lia.
Qed.

(** *** The operations *)

(** An operation that only writes the video memory, at places on the screen. *)
Lemma stays_vram (g : console -> gmap Z Z -> gmap Z Z) :
  (forall c m, screen_ok c -> within (con_origin c) (scr_end c - 1) m (g c m)) ->
  stays (fun c => set_field vram (g c) c).
Proof.
  intros Hg c Hc. split; [by destruct Hc|]. split_and!; [done..|]. intros a Ha.
  apply (Hg c (vram c) Hc). destruct Hc. lia.
Qed.

(** Arithmetic on addresses: the lines of the screen. *)
Lemma line_bound c y : screen_ok c -> 0 <= y < video_num_lines c ->
  0 <= y * video_size_row c /\
  y * video_size_row c + video_size_row c <= video_num_lines c * video_size_row c.
Proof. intros [] Hy. nia. Qed.
Lemma addr_small c z : screen_ok c -> con_origin c <= z <= video_mem_end c -> u32 z = z.
Proof. intros [] Hz. apply u32_small. lia. Qed.

Lemma stays_gotoxy x y : stays (fun c => gotoxy (x c) (y c) c).
Proof.
  intros c Hc. unfold gotoxy. destruct (_ || _) eqn:E; [by split|].
  apply orb_false_iff in E as [Ex%Z.ltb_ge Ey%Z.leb_gt]. pose proof (u32_range (x c)). pose proof (u32_range (y c)).
  destruct (line_bound c (u32 (y c)) Hc ltac:(lia)) as [L1 L2].
  assert (Hp : u32 (con_origin c + u32 (y c) * video_size_row c + Z.shiftl (u32 (x c)) 1) =
    con_origin c + u32 (y c) * video_size_row c + 2 * u32 (x c)).
  { rewrite Z.shiftl_mul_pow2 by lia. rewrite (addr_small c); [lia|done|]. destruct Hc. lia. }
  split; [|done]. rewrite Hp. destruct Hc. constructor; cbn; try done; lia.
Qed.

(** The words of [k] lines: [rep movsl] moves half as many double words. *)
Lemma half_words k cols : 0 <= k -> 0 <= cols -> k * cols < 2 ^ 31 ->
  0 <= 4 * Z.shiftr (u32 (k * cols)) 1 <= k * (2 * cols).
Proof.
  intros Hk Hc Hb. rewrite u32_small by nia. rewrite Z.shiftr_div_pow2 by lia. change (2 ^ 1) with 2.
  pose proof (Z.mul_div_le (k * cols) 2 ltac:(lia)). pose proof (Z.div_pos (k * cols) 2 ltac:(nia) ltac:(lia)). lia.
Qed.
(** The scrolling region in bytes. *)
Lemma region_bound c : screen_ok c ->
  let k := con_bottom c - con_top c - 1 in
  0 <= k /\ 0 <= 4 * Z.shiftr (u32 (k * video_num_columns c)) 1 <= k * video_size_row c /\
  0 <= con_top c * video_size_row c /\
  con_top c * video_size_row c + video_size_row c + k * video_size_row c = con_bottom c * video_size_row c /\
  con_bottom c * video_size_row c <= video_num_lines c * video_size_row c.
Proof.
  intros [H1 H2 H3 H4 H5 H6 H7 H8 H9 H10 H11] k. unfold k. rewrite H2.
  split_and!; [lia|apply half_words; [lia|lia|nia]|apply half_words; [lia|lia|nia]|nia|lia|nia].
Qed.

Lemma stays_scroll_region_up : stays scroll_region_up.
Proof.
  apply (stays_vram (fun c m =>
    stosw (Z.to_nat (video_num_columns c))
      (u32 (con_origin c + video_size_row c * con_top c) +
       4 * Z.shiftr (u32 ((con_bottom c - con_top c - 1) * video_num_columns c)) 1) (video_erase_char c)
      (movsl (Z.to_nat (Z.shiftr (u32 ((con_bottom c - con_top c - 1) * video_num_columns c)) 1))
        (u32 (con_origin c + video_size_row c * (con_top c + 1)))
        (u32 (con_origin c + video_size_row c * con_top c)) m))).
  intros c m Hc. destruct (region_bound c Hc) as (K & N & T & E & B).
  set (n := Z.shiftr _ 1) in *. set (k := con_bottom c - con_top c - 1) in *.
  pose proof (so_row c Hc). pose proof (so_cols c Hc).
  assert (Hdi : u32 (con_origin c + video_size_row c * con_top c) = con_origin c + con_top c * video_size_row c).
  { rewrite (addr_small c); [lia|done|]. destruct Hc. lia. }
  rewrite Hdi. eapply within_trans; eapply within_wider; [apply within_movsl| |apply within_stosw|];
    destruct Hc; lia.
Qed.
Lemma stays_scrdown : stays scrdown.
Proof.
  apply (stays_vram (fun c m =>
    stosw_down (Z.to_nat (video_num_columns c))
      (u32 (con_origin c + video_size_row c * con_bottom c - 4) -
       4 * Z.shiftr (u32 ((con_bottom c - con_top c - 1) * video_num_columns c)) 1 + 2) (video_erase_char c)
      (movsl_down (Z.to_nat (Z.shiftr (u32 ((con_bottom c - con_top c - 1) * video_num_columns c)) 1))
        (u32 (con_origin c + video_size_row c * (con_bottom c - 1) - 4))
        (u32 (con_origin c + video_size_row c * con_bottom c - 4)) m))).
  intros c m Hc. destruct (region_bound c Hc) as (K & N & T & E & B).
  set (n := Z.shiftr _ 1) in *. set (k := con_bottom c - con_top c - 1) in *.
  pose proof (so_row c Hc). pose proof (so_cols c Hc).
  assert (0 <= k * video_size_row c) by nia.
  assert (Hdi : u32 (con_origin c + video_size_row c * con_bottom c - 4) =
    con_origin c + con_bottom c * video_size_row c - 4).
  { rewrite (addr_small c); [lia|done|]. destruct Hc. lia. }
  rewrite Hdi. eapply within_trans; eapply within_wider; [apply within_movsl_down| |apply within_stosw_down|];
    destruct Hc; lia.
Qed.

(** [pos] is on the screen. *)
Lemma pos_bound c : screen_ok c ->
  0 <= con_y c * video_size_row c /\
  con_origin c <= con_pos c - 2 * con_x c /\
  con_pos c - 2 * con_x c + video_size_row c <= scr_end c /\ con_pos c <= scr_end c.
Proof. intros Hc. destruct (line_bound c (con_y c) Hc) as [L1 L2]; destruct Hc; lia. Qed.

(** The screen one line further in the video memory. *)
Definition moved_on (c : console) : console :=
  wr scr_end (scr_end c + video_size_row c)
    (wr con_pos (con_pos c + video_size_row c) (wr con_origin (con_origin c + video_size_row c) c)).
Lemma stays_moved_on c : screen_ok c -> scr_end c + video_size_row c <= video_mem_end c ->
  video_safe c (set_field vram (stosw (Z.to_nat (video_num_columns c)) (scr_end c) (video_erase_char c)) (moved_on c)).
Proof.
  intros Hc Hge. pose proof Hc as [H1 H2 H3 H4 H5 H6 H7 H8 H9 H10 H11]. split.
  - constructor; cbn; try done; lia.
  - split_and!; [done..|]. intros a Ha. cbn. apply within_stosw. rewrite H2 in Hge.
    destruct (line_bound c 0 Hc) as [L1 L2]; [lia|]. lia.
Qed.
(** The screen copied to the start of the video memory. *)
Lemma stays_wrapped c : screen_ok c -> full_region c = true ->
  let o := con_origin c + video_size_row c in
  let n := Z.shiftr (u32 ((video_num_lines c - 1) * video_num_columns c)) 1 in
  let start := video_mem_start c in
  video_safe c (wr con_origin start
    (wr con_pos (con_pos c + video_size_row c - (o - start))
      (wr scr_end (scr_end c + video_size_row c - (o - start))
         (set_field vram (fun m => stosw (Z.to_nat (video_num_columns c)) (start + 4 * n) (video_erase_char c)
            (movsl (Z.to_nat n) o start m)) c)))).
Proof.
  intros Hc Hf o n start. pose proof Hc as [H1 H2 H3 H4 H5 H6 H7 H8 H9 H10 H11].
  assert (N : 0 <= 4 * n <= (video_num_lines c - 1) * video_size_row c).
  { rewrite H2. apply half_words; [lia|lia|nia]. }
  unfold o, start. split.
  - constructor; cbn; try done; lia.
  - split_and!; [done..|]. intros a Ha. cbn.
    apply (within_trans (video_mem_start c) (video_mem_end c - 1) (vram c)
      (movsl (Z.to_nat n) (con_origin c + video_size_row c) (video_mem_start c) (vram c)));
      [eapply within_wider; [apply within_movsl|lia]|eapply within_wider; [apply within_stosw|lia]|lia].
Qed.
Lemma stays_scrup_mem : stays scrup_mem.
Proof.
  intros c Hc. unfold scrup_mem. destruct (is_ega c); [|by apply stays_scroll_region_up].
  destruct (full_region c) eqn:Ef; [|by apply stays_scroll_region_up].
  pose proof (pos_bound c Hc) as (P0 & P1 & P2 & P3).
  pose proof Hc as [H1 H2 H3 H4 H5 H6 H7 H8 H9 H10 H11].
  assert (Hrow : 2 * video_num_columns c <= video_num_lines c * video_size_row c) by nia.
  cbn [wr set_field con_pos scr_end con_origin]. 
  assert (U1 : u32 (con_origin c + video_size_row c) = con_origin c + video_size_row c) by (apply u32_small; lia).
  assert (U2 : u32 (con_pos c + video_size_row c) = con_pos c + video_size_row c) by (apply u32_small; lia).
  assert (U3 : u32 (scr_end c + video_size_row c) = scr_end c + video_size_row c) by (apply u32_small; lia).
  cbv zeta. unfold wr. cbn. rewrite U1, U2, U3.
  destruct (Z.ltb_spec (video_mem_end c) (scr_end c + video_size_row c)) as [Hlt|Hge].
  - pose proof (stays_wrapped c Hc Ef) as Hw. cbv zeta in Hw. unfold wr in Hw. cbn in Hw.
    rewrite (u32_small (con_pos c + _ - _)), (u32_small (scr_end c + _ - _)) by lia. exact Hw.
  - pose proof (stays_moved_on c Hc ltac:(lia)) as Hw. unfold moved_on, wr in Hw. cbn in Hw.
    replace (scr_end c + video_size_row c - video_size_row c) with (scr_end c) by lia.
    rewrite (u32_small (scr_end c)) by lia. exact Hw.
Qed.

(** Changes of the cursor only. *)
Lemma stays_cursor c x y pos : screen_ok c -> 0 <= x <= video_num_columns c -> 0 <= y < video_num_lines c ->
  pos = con_origin c + y * video_size_row c + 2 * x -> video_safe c (wr con_pos pos (wr con_y y (wr con_x x c))).
Proof. intros [] Hx Hy ->. split; [|done]. by constructor. Qed.
Lemma pos_u32 c z : screen_ok c -> con_origin c <= z <= scr_end c -> u32 z = z.
Proof. intros [] Hz. apply u32_small. lia. Qed.

Lemma stays_lf_mem : stays lf_mem.
Proof.
  intros c Hc. unfold lf_mem, lf_scrolls. destruct (u32 (con_y c + 1) <? con_bottom c) eqn:E; cbn [negb];
    [|by apply stays_scrup_mem]. apply Z.ltb_lt in E.
  pose proof Hc as [H1 H2 H3 H4 H5 H6 H7 H8 H9 H10 H11].
  assert (Hl : video_num_lines c < 2 ^ 31) by nia.
  rewrite (u32_small (con_y c + 1)) in * by lia. destruct (line_bound c (con_y c + 1) Hc) as [L1 L2]; [lia|].
  rewrite (pos_u32 c) by (try done; lia).
  exact (stays_cursor c (con_x c) (con_y c + 1) (con_pos c + video_size_row c) Hc H7 ltac:(lia) ltac:(lia)).
Qed.
Lemma stays_ri : stays ri.
Proof.
  intros c Hc. unfold ri. destruct (Z.ltb_spec (con_top c) (con_y c)); [|by apply stays_scrdown].
  pose proof Hc as [H1 H2 H3 H4 H5 H6 H7 H8 H9 H10 H11].
  assert (Hl : video_num_lines c < 2 ^ 31) by nia.
  rewrite (u32_small (con_y c - 1)) by lia. destruct (line_bound c (con_y c - 1) Hc) as [L1 L2]; [lia|].
  rewrite (pos_u32 c) by (try done; lia).
  exact (stays_cursor c (con_x c) (con_y c - 1) (con_pos c - video_size_row c) Hc H7 ltac:(lia) ltac:(lia)).
Qed.
Lemma stays_cr : stays cr.
Proof.
  intros c Hc. unfold cr. destruct (pos_bound c Hc) as (P0 & P1 & P2 & P3). pose proof Hc as [H1 H2 H3 H4 H5 H6 H7 H8 H9 H10 H11].
  rewrite Z.shiftl_mul_pow2 by lia. rewrite (pos_u32 c) by (try done; lia).
  exact (stays_cursor c 0 (con_y c) (con_pos c - con_x c * 2 ^ 1) Hc ltac:(lia) H8 ltac:(lia)).
Qed.
(** One column back. *)
Lemma stays_back c : screen_ok c -> con_x c <> 0 ->
  u32 (con_pos c - 2) = con_pos c - 2 /\ u32 (con_x c - 1) = con_x c - 1 /\
  video_safe c (wr con_x (con_x c - 1) (wr con_pos (con_pos c - 2) c)).
Proof.
  intros Hc Hx. destruct (pos_bound c Hc) as (P0 & P1 & P2 & P3). pose proof Hc as [H1 H2 H3 H4 H5 H6 H7 H8 H9 H10 H11].
  split_and!; [apply (pos_u32 c); [done|lia]|apply u32_small; nia|].
  exact (stays_cursor c (con_x c - 1) (con_y c) (con_pos c - 2) Hc ltac:(lia) H8 ltac:(lia)).
Qed.
Lemma stays_vput c a v : screen_ok c -> con_origin c <= a -> a + 2 <= scr_end c ->
  video_safe c (set_field vram (vput a v) c).
Proof.
  intros Hc H1 H2. split; [by destruct Hc|]. split_and!; [done..|]. intros b Hb. cbn.
  apply (within_vput a v (con_origin c) (scr_end c - 1)); [lia|]. destruct Hc. lia.
Qed.
Lemma stays_del : stays del.
Proof.
  intros c Hc. unfold del. destruct (truth (con_x c)) eqn:E; [|by split]. apply truth_true in E.
  destruct (stays_back c Hc E) as (-> & -> & [Hok Ho]). eapply video_safe_trans; [exact Ho|].
  destruct (pos_bound _ Hok) as (P0 & P1 & P2 & P3). pose proof Hc as [H1 H2 H3 H4 H5 H6 H7 H8 H9 H10 H11].
  apply (stays_vput _ (con_pos c - 2)); [done|cbn in *; lia|cbn in *; lia].
Qed.

Lemma stays_erase (count start : console -> Z) :
  (forall c, screen_ok c -> count c <= 0 \/ con_origin c <= start c /\ start c + 2 * count c <= scr_end c) ->
  stays (fun c => erase (count c) (start c) c).
Proof.
  intros H. apply (stays_vram (fun c => stosw (Z.to_nat (count c)) (start c) (video_erase_char c))).
  intros c m Hc. eapply within_wider; [apply within_stosw|]. destruct (H c Hc); lia.
Qed.
Lemma half c z : screen_ok c -> 0 <= z <= scr_end c -> 2 * Z.shiftr (u32 z) 1 <= z.
Proof.
  intros [] Hz. rewrite u32_small by lia. rewrite Z.shiftr_div_pow2 by lia. apply Z.mul_div_le. lia.
Qed.
Lemma stays_csi_J p : stays (csi_J p).
Proof.
  unfold csi_J. destruct (p =? 0); [|destruct (p =? 1); [|destruct (p =? 2); [|apply stays_id]]].
  - apply (stays_erase (fun c => Z.shiftr (u32 (scr_end c - con_pos c)) 1) con_pos). intros c Hc. right.
    destruct (pos_bound c Hc) as (P0 & P1 & P2 & P3). pose proof (half c (scr_end c - con_pos c) Hc).
    destruct Hc. lia.
  - apply (stays_erase (fun c => Z.shiftr (u32 (con_pos c - con_origin c)) 1) con_origin). intros c Hc. right.
    destruct (pos_bound c Hc) as (P0 & P1 & P2 & P3). pose proof (half c (con_pos c - con_origin c) Hc).
    destruct Hc. lia.
  - apply (stays_erase (fun c => u32 (video_num_columns c * video_num_lines c)) con_origin). intros c Hc. right.
    destruct Hc. rewrite u32_small by nia. nia.
Qed.
Lemma line_start c : screen_ok c -> u32 (con_pos c - Z.shiftl (con_x c) 1) = con_pos c - 2 * con_x c.
Proof.
  intros Hc. destruct (pos_bound c Hc) as (P0 & P1 & P2 & P3). rewrite Z.shiftl_mul_pow2 by lia.
  rewrite (pos_u32 c); [lia|done|]. destruct Hc. lia.
Qed.
Lemma stays_csi_K p : stays (csi_K p).
Proof.
  unfold csi_K. destruct (p =? 0); [|destruct (p =? 1); [|destruct (p =? 2); [|apply stays_id]]].
  - intros c Hc. destruct (Z.leb_spec (video_num_columns c) (con_x c)); [by split|].
    apply (stays_erase (fun c => video_num_columns c - con_x c) con_pos); [|done]. clear c Hc H. intros c Hc. right.
    destruct (pos_bound c Hc) as (P0 & P1 & P2 & P3). destruct Hc. lia.
  - apply (stays_erase (fun c => if con_x c <? video_num_columns c then con_x c else video_num_columns c)
      (fun c => u32 (con_pos c - Z.shiftl (con_x c) 1))). intros c Hc. right. rewrite line_start by done.
    destruct (pos_bound c Hc) as (P0 & P1 & P2 & P3). destruct Hc. destruct (Z.ltb_spec (con_x c) (video_num_columns c)); lia.
  - apply (stays_erase video_num_columns (fun c => u32 (con_pos c - Z.shiftl (con_x c) 1))). intros c Hc. right.
    rewrite line_start by done. destruct (pos_bound c Hc) as (P0 & P1 & P2 & P3). destruct Hc. lia.
Qed.
Lemma stays_insert_char : stays insert_char.
Proof.
  apply (stays_vram (fun c => shift_right (Z.to_nat (video_num_columns c - con_x c)) (con_pos c) (video_erase_char c))).
  intros c m Hc. eapply within_wider; [apply within_shift_right|].
  destruct (pos_bound c Hc) as (P0 & P1 & P2 & P3). destruct Hc. lia.
Qed.
Lemma stays_delete_char : stays delete_char.
Proof.
  intros c Hc. unfold delete_char. destruct (Z.leb_spec (video_num_columns c) (con_x c)); [by split|].
  split; [by destruct Hc|]. split_and!; [done..|]. intros a Ha. cbn. apply within_shift_left.
  destruct (pos_bound c Hc) as (P0 & P1 & P2 & P3). destruct Hc. lia.
Qed.

(** A change of the fields that are neither the screen's geometry nor the
    video memory. *)
Lemma stays_region (c : console) t b : screen_ok c -> 0 <= t < b -> b <= video_num_lines c ->
  video_safe c (wr con_bottom b (wr con_top t c)).
Proof. intros [] Ht Hb. split; [|done]. by constructor. Qed.
Lemma stays_on_region f : stays f -> (forall c, video_num_lines (f c) = video_num_lines c) -> stays (on_region f).
Proof.
  intros Hf Hl c Hc. unfold on_region. pose proof Hc as [H1 H2 H3 H4 H5 H6 H7 H8 H9 H10 H11].
  destruct (stays_region c (con_y c) (video_num_lines c) Hc ltac:(lia) ltac:(lia)) as [Hok1 Ho1].
  set (c1 := wr con_bottom _ _) in *. destruct (Hf c1 Hok1) as [Hok2 Ho2].
  eapply video_safe_trans; [exact Ho1|]. eapply video_safe_trans; [exact Ho2|].
  apply stays_region; [done|lia|]. rewrite Hl. cbn. lia.
Qed.
Lemma scrup_mem_lines c : video_num_lines (scrup_mem c) = video_num_lines c.
Proof. unfold scrup_mem, wr, scroll_region_up. by repeat case_match. Qed.
Lemma stays_insert_line : stays insert_line.
Proof. apply stays_on_region; [apply stays_scrdown|done]. Qed.
Lemma stays_delete_line : stays delete_line_mem.
Proof. apply stays_on_region; [apply stays_scrup_mem|apply scrup_mem_lines]. Qed.
Lemma stays_csi_at n : stays (csi_at n).
Proof. intros c Hc. exact (stays_iter _ _ stays_insert_char c Hc). Qed.
Lemma stays_csi_L n : stays (csi_L n).
Proof. intros c Hc. exact (stays_iter _ _ stays_insert_line c Hc). Qed.
Lemma stays_csi_P n : stays (csi_P n).
Proof. intros c Hc. exact (stays_iter _ _ stays_delete_char c Hc). Qed.
Ltac neutral := intros [] []; cbn in *; split; [first [done|by constructor]|done].
Lemma stays_csi_m : stays csi_m. Proof. neutral. Qed.
Lemma stays_save_cur : stays save_cur. Proof. neutral. Qed.
Lemma stays_restore_cur : stays restore_cur. Proof. apply stays_gotoxy. Qed.
Lemma stays_state v : stays (wr con_state v). Proof. neutral. Qed.
Lemma stays_npar v : stays (wr npar v). Proof. neutral. Qed.
Lemma stays_ques v : stays (wr ques v). Proof. neutral. Qed.
Lemma stays_set_par i (v : console -> Z) : stays (fun c => set_par i (v c) c).
Proof.
  intros c [H1 H2 H3 H4 H5 H6 H7 H8 H9 H10 H11]. split; [|done]. constructor; try done.
  cbn. rewrite Forall_lookup in H11. apply Forall_lookup. intros j x Hj.
  destruct (decide (i = j)) as [<-|].
  - apply list_lookup_insert_Some in Hj as [(_ & <- & _)|[? _]]; [apply u32_range|done].
  - rewrite list_lookup_insert_ne in Hj by done. by eapply H11.
Qed.
Lemma stays_par_min1 : stays par_min1.
Proof. exact (stays_if (fun k => truth (par_at k 0)) _ _ stays_id (stays_set_par 0 (fun _ => 1))). Qed.
Lemma stays_par_dec i : stays (par_dec i).
Proof. exact (stays_if (fun k => truth (par_at k i)) _ _ (stays_set_par i (fun k => par_at k i - 1)) stays_id). Qed.
Lemma stays_par_lines : stays (fun k => if truth (par_at k 1) then k else set_par 1 (video_num_lines k) k).
Proof. exact (stays_if (fun k => truth (par_at k 1)) _ _ stays_id (stays_set_par 1 video_num_lines)). Qed.
Lemma stays_csi_r : stays (fun k => if (par_at k 0 <? par_at k 1) && (par_at k 1 <=? video_num_lines k)
                  then wr con_bottom (par_at k 1) (wr con_top (par_at k 0) k) else k).
Proof.
  intros c Hc. destruct (_ && _) eqn:E; [|by split]. apply andb_true_iff in E as [E1%Z.ltb_lt E2%Z.leb_le].
  apply stays_region; [done| |done]. split; [|done]. destruct Hc. unfold par_at.
  rewrite Forall_lookup in so_par0. destruct (par c !! 0%nat) eqn:E; cbn; [by eapply so_par0|lia].
Qed.

(** ** The same for the routines of the console, whatever they are sent *)

(** Routines that do not touch the console. *)
Definition con_inv (P : console -> Prop) (s : kernel) : Prop := P (k_con s).
Section untouched.
Context (P : console -> Prop).
Lemma kc_modify f : (forall s, k_con (f s) = k_con s) -> keeps (con_inv P) (modify f).
Proof. intros Hf. apply keeps_modify. intros s. unfold con_inv. by rewrite Hf. Qed.
Lemma kc_updr `{Table kernel R} p g : (forall h s, k_con (set_tab h s) = k_con s) -> keeps (con_inv P) (updr p g).
Proof. intros Hf. apply keeps_updr. intros s r _. unfold con_inv. by rewrite Hf. Qed.
Lemma kc_tupd {T} p (f : task_struct -> T) `{!Setter f} g : keeps (con_inv P) (tupd p f g).
Proof. intros s Hs. unfold tupd. by destruct (task_at s p). Qed.
Lemma kc_in_port `{Hardware} w p : keeps (con_inv P) (in_port w p).
Proof.
  unfold in_port. apply keeps_bind; [apply keeps_gets|]. intros v.
  apply keeps_bind; [by apply kc_modify|]. intros []. apply keeps_ret.
Qed.
End untouched.
Create HintDb kc.
#[export] Hint Resolve keeps_ret keeps_gets keeps_panic keeps_fault keeps_dead keeps_out_of_fuel
  keeps_getf keeps_ld keeps_tget keeps_cur kc_in_port : kc.
#[export] Hint Resolve stays_id stays_gotoxy stays_lf_mem stays_ri stays_cr stays_del stays_csi_J stays_csi_K
  stays_csi_m stays_csi_at stays_csi_L stays_csi_P stays_save_cur stays_restore_cur stays_state stays_npar
  stays_ques stays_set_par stays_par_min1 stays_par_dec stays_par_lines stays_csi_r : kc.
Ltac kc_step :=
  lazymatch goal with
  | |- forall _, _ => intro
  | |- keeps _ (mbind _ _) => apply keeps_bind
  | |- keeps _ (if ?b then _ else _) => destruct b
  | |- keeps _ (match ?x with _ => _ end) => destruct x
  | |- keeps _ (let x := _ in _) => cbv zeta
  | |- keeps _ (when ?b _) => destruct b; unfold when
  | |- keeps _ (for_ _ _) => apply keeps_for
  | |- keeps _ (loop _ _ _) => apply keeps_loop
  | |- keeps _ (upd _ _ _) => unfold upd
  | |- keeps _ (st _ _ _) => unfold st
  | |- keeps _ (updr _ _) => apply kc_updr; reflexivity
  | |- keeps _ (tupd _ _ _) => apply kc_tupd
  | |- keeps _ (modify _) => apply kc_modify; reflexivity
  | |- keeps _ ?m => first [solve [eauto 3 with kc] | let h := keeps_head m in unfold h; cbv beta]
  end.
Ltac kc := repeat kc_step.

(** [on_con P k m Q]: run with the console in state [k], [m] leaves it as [Q]
    says, and with [P] if it stops. *)
Definition on_con {A} (P : console -> Prop) (k : console) (m : M kernel A) (Q : A -> console -> Prop) : Prop :=
  forall s, k_con s = k -> kept (con_inv P) m (fun a s' => Q a (k_con s')) s.
Section on_con.
Context (P : console -> Prop).
Lemma on_bind {A B} k (m : M kernel A) (f : A -> M kernel B) Q R :
  on_con P k m Q -> (forall a k', Q a k' -> on_con P k' (f a) R) -> on_con P k (m ≫= f) R.
Proof.
  intros Hm Hf s Hs. apply kept_bind. eapply kept_mono; [by apply Hm|]. intros a s' HQ. exact (Hf a _ HQ s' eq_refl).
Qed.
Lemma on_con_con k f : on_con P k (con f) (fun _ k' => k' = f k).
Proof. by intros s <-. Qed.
Lemma on_gets k : on_con P k (gets k_con) (fun a k' => a = k /\ k' = k).
Proof. by intros s <-. Qed.
Lemma on_same {A} k (m : M kernel A) : keeps (con_inv (eq k)) m -> P k -> on_con P k m (fun _ k' => k' = k).
Proof.
  intros Hm Hk s Hs. specialize (Hm s (eq_sym Hs)). unfold kept, con_inv in *.
  destruct (m s); try done; by rewrite <-Hm.
Qed.
Lemma on_keeps {A} k (m : M kernel A) : keeps (con_inv P) m -> P k -> on_con P k m (fun _ k' => P k').
Proof.
  intros Hm Hk s Hs. specialize (Hm s). unfold con_inv at 1 in Hm. rewrite Hs in Hm. specialize (Hm Hk).
  unfold kept. by destruct (m s).
Qed.
Lemma on_keeps_from {A} (m : M kernel A) : (forall k, P k -> on_con P k m (fun _ k' => P k')) -> keeps (con_inv P) m.
Proof. intros Hm s Hs. specialize (Hm _ Hs s eq_refl). unfold kept, con_inv in *. destruct (m s); done. Qed.
Lemma on_mono {A} k (m : M kernel A) (Q Q' : A -> console -> Prop) :
  on_con P k m Q -> (forall a k', Q a k' -> Q' a k') -> on_con P k m Q'.
Proof. intros Hm HQ s Hs. eapply kept_mono; [by apply Hm|]. auto. Qed.
Lemma on_scrup k : P (scrup_mem k) -> on_con P k scrup (fun _ k' => k' = scrup_mem k).
Proof.
  intros Hp. unfold scrup. eapply on_bind; [apply on_gets|]. intros a k' [-> ->].
  eapply on_bind; [apply on_con_con|]. intros _ k' ->. apply on_same; [|done]. kc.
Qed.
Lemma on_lf k : P (lf_mem k) -> on_con P k lf (fun _ k' => k' = lf_mem k).
Proof.
  intros Hp. unfold lf. eapply on_bind; [apply on_gets|]. intros a k' [-> ->].
  destruct (lf_scrolls k) eqn:E; [|apply on_con_con]. unfold lf_mem in *. rewrite E in *. by apply on_scrup.
Qed.
End on_con.

Section con_write.
Context {W : World} (c0 : console).
Let safe : console -> Prop := video_safe c0.
Let I : kernel -> Prop := con_inv safe.

Lemma safe_stays f k : stays f -> safe k -> safe (f k).
Proof. intros Hf [Hok Ho]. eapply video_safe_trans; [exact Ho|]. by apply Hf. Qed.
Lemma kc_con f : stays f -> keeps I (con f).
Proof. intros Hf. apply keeps_modify. intros s. by apply safe_stays. Qed.
#[local] Hint Resolve kc_con : kc.
Lemma kc_wake_up t : keeps I (wake_up (Some (proc_list_q t tty_secondary))).
Proof. unfold wake_up. cbn [wq_get wq_set proc_list_q]. kc. Qed.
Lemma kc_lf : keeps I lf.
Proof.
  apply on_keeps_from. intros k Hk. pose proof (safe_stays _ _ stays_lf_mem Hk).
  eapply on_mono; [by apply on_lf|]. by intros _ k' ->.
Qed.
Lemma kc_delete_line : keeps I delete_line.
Proof.
  apply on_keeps_from. intros k Hk. unfold delete_line.
  eapply on_bind; [apply on_gets|]. intros a k1 [-> ->].
  eapply on_bind; [apply on_con_con|]. intros _ k1 ->.
  pose proof (safe_stays _ _ stays_delete_line Hk) as Hd. unfold delete_line_mem, on_region in Hd.
  eapply on_bind; [apply on_scrup|].
  { destruct Hk as [Hok Ho]. pose proof Hok as [H1 H2 H3 H4 H5 H6 H7 H8 H9 H10 H11].
    destruct (stays_region k (con_y k) (video_num_lines k) Hok ltac:(lia) ltac:(lia)) as [Hok1 Ho1].
    eapply video_safe_trans; [exact Ho|]. eapply video_safe_trans; [exact Ho1|]. by apply stays_scrup_mem. }
  intros _ k1 ->. eapply on_bind; [apply on_con_con|]. intros _ k1 ->.
  eapply on_mono; [apply on_con_con|]. by intros _ k1 ->.
Qed.
#[local] Hint Resolve kc_wake_up kc_lf kc_delete_line : kc.

(** The cursor [cols] columns to the left, that is at the start of the line
    when it was beyond the last column. *)
Definition unwrap (k : console) : console :=
  wr con_pos (u32 (con_pos k - video_size_row k)) (wr con_x (u32 (con_x k - video_num_columns k)) k).
(** The cursor [n] columns to the right. *)
Definition advance (n : Z) (k : console) : console :=
  wr con_pos (u32 (con_pos k + Z.shiftl n 1)) (wr con_x (u32 (con_x k + n)) k).

Lemma stays_unwrap k n : screen_ok k -> 0 <= n <= 8 ->
  video_num_columns k <= con_x k + n -> con_pos k + 2 * n < 2 ^ 32 ->
  let k1 := wr con_pos (con_pos k + 2 * n) (wr con_x (con_x k + n) k) in
  unwrap k1 = wr con_pos (con_pos k + 2 * n - video_size_row k) (wr con_x (con_x k + n - video_num_columns k) k) /\
  video_safe k (unwrap k1).
Proof.
  intros Hk Hn Hc Hp k1. pose proof Hk as [H1 H2 H3 H4 H5 H6 H7 H8 H9 H10 H11].
  destruct (pos_bound k Hk) as (P0 & P1 & P2 & P3).
  assert (E : unwrap k1 = wr con_pos (con_pos k + 2 * n - video_size_row k) (wr con_x (con_x k + n - video_num_columns k) k)).
  { unfold unwrap, k1, wr. cbn. rewrite (pos_u32 k) by (try done; lia).
    rewrite (u32_small (con_x k + n - video_num_columns k)) by nia. done. }
  split; [exact E|]. rewrite E.
  exact (stays_cursor k (con_x k + n - video_num_columns k) (con_y k) (con_pos k + 2 * n - video_size_row k) Hk ltac:(lia) H8 ltac:(lia)).
Qed.
Lemma pos_room k : screen_ok k -> con_pos k + 16 < 2 ^ 32 /\ con_x k + 8 < 2 ^ 32.
Proof. intros Hk. destruct (pos_bound k Hk) as (P0 & P1 & P2 & P3). destruct Hk. split; [lia|nia]. Qed.

Lemma advance_eq k n : screen_ok k -> 0 <= n <= 8 ->
  advance n k = wr con_pos (con_pos k + 2 * n) (wr con_x (con_x k + n) k).
Proof.
  intros Hk Hn. destruct (pos_room k Hk), (pos_bound k Hk) as (P0 & P1 & P2 & P3). destruct Hk.
  unfold advance, wr. cbn. rewrite Z.shiftl_mul_pow2 by lia. replace (n * 2 ^ 1) with (2 * n) by lia.
  by rewrite (u32_small (con_pos k + _)), (u32_small (con_x k + n)) by lia.
Qed.
Lemma stays_advance k n : screen_ok k -> 0 <= n <= 8 -> con_x k + n <= video_num_columns k ->
  video_safe k (advance n k).
Proof.
  intros Hk Hn Hx. rewrite advance_eq by done. pose proof Hk as [H1 H2 H3 H4 H5 H6 H7 H8 H9 H10 H11].
  exact (stays_cursor k (con_x k + n) (con_y k) (con_pos k + 2 * n) Hk ltac:(lia) H8 ltac:(lia)).
Qed.
Lemma lf_mem_x k : con_x (lf_mem k) = con_x k /\ video_num_columns (lf_mem k) = video_num_columns k.
Proof. unfold lf_mem, scrup_mem, wr, scroll_region_up. by repeat case_match. Qed.

(** A tab. *)
Lemma on_tab n k : safe k -> 0 <= n <= 8 -> on_con safe k (con (advance n) ;;
  k ← gets k_con;
  when (video_num_columns k <? con_x k) (con unwrap ;; lf)) (fun _ k' => safe k').
Proof.
  intros Hk Hn. pose proof Hk as [Hok Ho].
  eapply on_bind; [apply on_con_con|]. intros _ k1 ->.
  eapply on_bind; [apply on_gets|]. intros a k1 [-> ->].
  destruct (Z.ltb_spec (video_num_columns (advance n k)) (con_x (advance n k))) as [Hlt|Hge];
    rewrite (advance_eq k n Hok Hn) in *; cbn in Hlt || cbn in Hge.
  - destruct (stays_unwrap k n Hok Hn) as [_ Hu]; [lia|destruct (pos_room k Hok); lia|].
    eapply on_bind; [apply on_con_con|]. intros _ k1 ->.
    apply on_keeps; [apply kc_lf|]. by eapply video_safe_trans.
  - intros s Hs. cbn. rewrite Hs. rewrite <-(advance_eq k n Hok Hn).
    eapply video_safe_trans; [exact Ho|]. by apply stays_advance.
Qed.
(** A printing character. *)
Lemma on_put v k : safe k -> on_con safe k (
  when (video_num_columns k <=? con_x k) (con unwrap ;; lf) ;;
  con (fun k => set_field vram (vput (con_pos k) (v k)) k) ;;
  con (advance 1)) (fun _ k' => safe k').
Proof.
  intros Hk. pose proof Hk as [Hok Ho]. pose proof Hok as [H1 H2 H3 H4 H5 H6 H7 H8 H9 H10 H11].
  eapply on_bind with (Q := fun _ k1 => safe k1 /\ con_x k1 < video_num_columns k1).
  - destruct (Z.leb_spec (video_num_columns k) (con_x k)) as [Hle|Hgt]; [|intros s Hs; cbn; by rewrite Hs].
    destruct (stays_unwrap k 0 Hok ltac:(lia)) as [E Hu]; [lia|destruct (pos_room k Hok); lia|].
    assert (Ek : wr con_pos (con_pos k + 2 * 0) (wr con_x (con_x k + 0) k) = k).
    { destruct k. unfold wr. cbn. by rewrite !Z.add_0_r. }
    rewrite Ek in *. cbn [when]. eapply on_bind; [apply on_con_con|]. intros _ k1 ->.
    assert (Hs : safe (unwrap k)) by by eapply video_safe_trans.
    eapply on_mono; [apply on_lf; by apply safe_stays; [apply stays_lf_mem|]|]. intros _ k1 ->.
    split; [by apply safe_stays; [apply stays_lf_mem|]|]. destruct (lf_mem_x (unwrap k)) as [-> ->]. rewrite E. cbn. lia.
  - intros _ k1 [[Hok1 Ho1] Hx]. eapply on_bind; [apply on_con_con|]. intros _ k2 ->.
    eapply on_mono; [apply on_con_con|]. intros _ k2 ->.
    destruct (pos_bound k1 Hok1) as (P0 & P1 & P2 & P3). pose proof (so_row k1 Hok1). pose proof (so_x k1 Hok1).
    destruct (stays_vput k1 (con_pos k1) (v k1) Hok1 ltac:(lia) ltac:(lia)) as [Hok2 Ho2].
    eapply video_safe_trans; [exact Ho1|]. eapply video_safe_trans; [exact Ho2|]. apply stays_advance; [done|lia|cbn; lia].
Qed.

Lemma kc_con_plain t c : keeps I (con_plain t c).
Proof.
  apply on_keeps_from. intros k Hk. unfold con_plain.
  eapply on_bind; [apply on_gets|]. intros a k1 [-> ->].
  eapply on_bind; [apply on_same; [kc|done]|]. intros e k1 ->. cbv zeta.
  destruct (_ && _); [by apply (on_put (fun k => c + 2 ^ 8 * con_attr k))|].
  destruct (c =? 27); [by apply on_keeps; [kc|]|].
  destruct (_ || _); [by apply on_keeps; [kc|]|].
  destruct (c =? 13); [by apply on_keeps; [kc|]|].
  destruct (c =? e); [by apply on_keeps; [kc|]|].
  destruct (c =? 8).
  { eapply on_mono; [apply on_con_con|]. intros _ k1 ->. destruct (truth (con_x k)) eqn:E; [|done].
    apply truth_true in E. destruct Hk as [Hok Ho]. destruct (stays_back k Hok E) as (-> & -> & Hb).
    eapply video_safe_trans; [exact Ho|]. exact Hb. }
  destruct (c =? 9).
  { apply (on_tab (8 - Z.land (con_x k) 7) k Hk). pose proof (Z.land_ones (con_x k) 3 ltac:(lia)) as E.
    change (Z.ones 3) with 7 in E. rewrite E. pose proof (Z.mod_pos_bound (con_x k) (2 ^ 3)). lia. }
  apply on_keeps; [kc|done].
Qed.
#[local] Hint Resolve kc_con_plain : kc.
Lemma kc_csi_final c : keeps I (csi_final c).
Proof. unfold csi_final, csi_M. kc. Qed.
#[local] Hint Resolve kc_csi_final : kc.
Lemma kc_csi_param c : keeps I (csi_param c).
Proof. unfold csi_param. kc. Qed.
#[local] Hint Resolve kc_csi_param : kc.
Lemma kc_csi_start c : keeps I (csi_start c).
Proof.
  unfold csi_start. kc. apply kc_con. intros k [H1 H2 H3 H4 H5 H6 H7 H8 H9 H10 H11].
  split; [|done]. constructor; try done. cbn. by repeat constructor.
Qed.
#[local] Hint Resolve kc_csi_start : kc.

(** [con_write] and [copy_to_cooked] call each other. *)
Lemma kc_cook call t : (forall t, keeps I (call t)) -> keeps I (copy_to_cooked_with call t).
Proof. intros Hc. unfold copy_to_cooked_with, while. kc. Qed.
Lemma kc_con_write cook t : (forall t, keeps I (cook t)) -> keeps I (con_write_with cook t).
Proof. intros Hc. unfold con_write_with, con_char, con_escape. kc. Qed.
Lemma kc_con_write_at n : forall t, keeps I (con_write_at n t).
Proof.
  induction n as [|n IH]; intros t; [apply keeps_out_of_fuel|]. cbn [con_write_at].
  apply kc_con_write. intros t'. by apply kc_cook.
Qed.
End con_write.

(** ** The screen at boot *)

(** What setup.s can leave: a number of columns that fits the smallest
    video memory, and the cursor on the screen. *)
Record boot_video_ok (b : boot_video) : Prop := {
  bv_cols : 8 <= ORIG_VIDEO_COLS b <= 160;
  bv_x : 0 <= ORIG_X b <= ORIG_VIDEO_COLS b;
  bv_y : 0 <= ORIG_Y b < 25;
}.
Lemma con_setup_ok b : boot_video_ok b -> screen_ok (con_setup b boot_console).
Proof.
  intros [Hc Hx Hy]. unfold con_setup, gotoxy. cbv zeta. cbn [wr].
  destruct (ORIG_VIDEO_MODE b =? 7), (negb (Z.land (ORIG_VIDEO_EGA_BX b) 255 =? 16)); cbn;
    rewrite !(u32_small (ORIG_X b)), !(u32_small (ORIG_Y b)) by lia;
    rewrite (proj2 (Z.ltb_ge _ (ORIG_X b))) by lia; rewrite (proj2 (Z.leb_gt _ (ORIG_Y b))) by lia; cbn;
    rewrite Z.shiftl_mul_pow2 by lia; rewrite u32_small by nia;
    (constructor; cbn; [lia..|by repeat constructor]).
Qed.

(** C21: whatever is written to the console (printing characters, control
    characters, escape sequences with any parameters, answers included),
    [con_write] leaves a well-formed screen (cursor on the screen and at the
    address that belongs to it, region and screen inside the video memory) and
    has written no word outside the video memory; this is so even if it ends in
    a panic. *)
Theorem con_write_in_video_memory `{World} t s :
  screen_ok (k_con s) ->
  kept (con_inv (video_safe (k_con s))) (con_write t)
    (fun _ s' => video_safe (k_con s) (k_con s')) s.
Proof.
  intros Hs. eapply (kept_keeps _ (con_inv (video_safe (k_con s))));
    [apply kc_con_write_at|apply gives_any|by split|done|]. intros _ s' _ H'. exact H'.
Qed.

Definition vga : boot_video := BootVideo 0 24 0 3 80 0.
#[local] Instance quiet_world : World :=
  {| world_env := fun _ _ s => s; world_hardware := fun _ _ => 0; patience := 10 |}.
(** "A", a line feed on the last line, ESC [ 99 A and ESC [ L. *)
Definition con_demo : kernel :=
  set_field k_tty (alter (set_field tty_write_q (fun q =>
      foldl (fun q c => putch c q) q [65; 10; 27; 91; 57; 57; 65; 27; 91; 76])) 0%nat)
    (set_field k_con (fun _ => con_setup vga boot_console) (boot_kernel 0 0)).
Lemma con_write_in_video_memory_witness :
  screen_ok (k_con con_demo) /\
  match con_write 0 con_demo with
  | Ok _ s' => screen_ok (k_con s') /\ con_origin (k_con s') = 0xb8000 + 160
  | _ => False
  end.
Proof.
  assert (H : screen_ok (k_con con_demo)) by (apply con_setup_ok; split; cbn; lia).
  split; [exact H|].
  assert (G : match con_write 0 con_demo with Ok _ s' => Some (con_origin (k_con s')) | _ => None end =
              Some (0xb8000 + 160)) by (vm_compute; reflexivity).
  remember (con_write 0 con_demo) as o eqn:E.
  pose proof (kept_result _ _ _ _ _ (con_write_in_video_memory 0 con_demo H) (eq_sym E)) as K. clear E.
  destruct o as [u s'|m s'|c s'|s'|]; try discriminate G.
  split; [apply K|]. by injection G.
Defined.
