(* ===== verification/Descriptors.v ===== *)
(** * Descriptors and the file table

    The count of every entry of [file_table] is the number of descriptors, of
    all tasks, that refer to it: what dup, close, open, pipe and fork maintain
    and the others keep (Frame.v).  A task that sleeps relies on the others to
    maintain it too, to leave its own descriptors alone, and to get no hold of
    a file that only it refers to ([Others]). *)

From S2P Require Import Prelude Kernel Sched Memory Fork Blk Buffer Inode Super Namei Tty Pipe FileIo Open Frame.

(** ** The invariant *)

(** How many entries of a descriptor table refer to file [f]. *)
Definition fd_count (f : nat) (l : list (option nat)) : nat :=
  length (filter (fun o => o = Some f) l).
#[global] Arguments fd_count : simpl never.
(** References to [f] from all tasks. *)
Definition fd_refs (s : kernel) (f : nat) : nat :=
  sum_list (fd_count f <$> (default [] <$> (option_map t_filp <$> k_task s))).
(** The descriptors of the task in slot [p]. *)
Definition fds_of (s : kernel) (p : nat) : option (list (option nat)) :=
  (option_map t_filp <$> k_task s) !! p ≫= id.

#[global] Arguments fd_refs : simpl never.
#[global] Arguments fds_of : simpl never.

(** [d f] is by how much the count of [f] is off: not 0 only for a moment,
    between an assignment of a descriptor and that of the count. *)
Record fd_off (d : nat -> Z) (s : kernel) : Prop := {
  fi_files : length (k_files s) = NR_FILE;
  fi_tasks : length (k_task s) = NR_TASKS;
  fi_current : is_Some (fds_of s (k_current s));
  fi_filp : forall p l, fds_of s p = Some l ->
    length l = Z.to_nat NR_OPEN /\ forall i f, l !! i = Some (Some f) -> (f < NR_FILE)%nat;
  fi_count : forall f c, (f_count <$> k_files s) !! f = Some c -> c = Z.of_nat (fd_refs s f) + d f;
}.
Abbreviation fd_inv := (fd_off (fun _ => 0)).

(** The running task is [me], its descriptors are [l], and nothing else refers
    to the files [fs]. *)
Record holding (me : nat) (l : list (option nat)) (fs : list nat) (s : kernel) : Prop := {
  ho_inv : fd_inv s;
  ho_current : k_current s = me;
  ho_fds : fds_of s me = Some l;
  ho_private : Forall (fun f => fd_refs s f = 1%nat) fs;
}.

(** The other tasks, as this one relies on them. *)
Class Others `{World} := {
  others_inv : forall n, keeps fd_inv (switch_to n);
  others_private : forall me l fs n, keeps (holding me l fs) (switch_to n);
}.

(** ** Counting *)

Lemma fd_count_insert f l i o o' : l !! i = Some o ->
  (fd_count f (<[i := o']> l) + (if decide (o = Some f) then 1 else 0) =
   fd_count f l + (if decide (o' = Some f) then 1 else 0))%nat.
Proof.
  unfold fd_count. revert i. induction l as [|x l IH]; intros [|i] E; cbn in E; try done.
  - injection E as ->. change (<[O := o']> (o :: l)) with (o' :: l).
    rewrite !filter_cons. repeat case_decide; rewrite ?length_cons; lia.
  - change (<[S i := o']> (x :: l)) with (x :: <[i := o']> l). specialize (IH i E).
    rewrite !filter_cons. repeat case_decide; rewrite ?length_cons in *; lia.
Qed.
Lemma sum_list_insert (l : list nat) i x y : l !! i = Some x ->
  (sum_list (<[i := y]> l) + x = sum_list l + y)%nat.
Proof.
  revert i. induction l as [|z l IH]; intros [|i] E; cbn in E; try done.
  - injection E as ->. cbn. lia.
  - change (<[S i := y]> (z :: l)) with (z :: <[i := y]> l). specialize (IH i E). cbn [sum_list]. lia.
Qed.
Lemma fd_count_le f l : (fd_count f l <= length l)%nat.
Proof. apply length_filter. Qed.
Lemma sum_list_bound (l : list nat) n : Forall (fun x => (x <= n)%nat) l -> (sum_list l <= length l * n)%nat.
Proof. induction 1; cbn; lia. Qed.

(** A change of the state outside the view. *)
Lemma fd_refs_view s s' f : fd_view s' = fd_view s -> fd_refs s' f = fd_refs s f.
Proof. unfold fd_view, fd_refs. by intros [= _ -> _]. Qed.
Lemma fds_of_view s s' p : fd_view s' = fd_view s -> fds_of s' p = fds_of s p.
Proof. unfold fd_view, fds_of. by intros [= _ -> _]. Qed.
Lemma fd_off_view d s s' : fd_view s' = fd_view s -> fd_off d s -> fd_off d s'.
Proof.
  intros Hv [H1 H2 H3 H4 H5]. pose proof Hv as [= Hc Ht Hf]. constructor.
  - rewrite <-H1, <-(length_fmap f_count (k_files s)), <-Hf. by rewrite length_fmap.
  - rewrite <-H2, <-(length_fmap (option_map t_filp) (k_task s)), <-Ht. by rewrite length_fmap.
  - by rewrite Hc, (fds_of_view _ _ _ Hv).
  - intros p l. rewrite (fds_of_view _ _ _ Hv). apply H4.
  - intros f c. rewrite Hf, (fd_refs_view _ _ _ Hv). apply H5.
Qed.
Lemma fd_off_ext d d' s : (forall f, d f = d' f) -> fd_off d s -> fd_off d' s.
Proof. intros Hd [H1 H2 H3 H4 H5]. constructor; auto. intros f c Hc. rewrite <-Hd. by apply H5. Qed.
Lemma holding_view me l fs s s' : fd_view s' = fd_view s -> holding me l fs s -> holding me l fs s'.
Proof.
  intros Hv [H1 H2 H3 H4]. constructor.
  - by eapply fd_off_view.
  - pose proof Hv as [= -> _ _]. done.
  - by rewrite (fds_of_view _ _ _ Hv).
  - eapply Forall_impl; [exact H4|]. intros f. cbn. by rewrite (fd_refs_view _ _ _ Hv).
Qed.
#[export] Instance inv_frame `{Others} : Frame fd_inv.
Proof. split; [intros s s'; apply fd_off_view|apply others_inv]. Qed.
#[export] Instance holding_frame `{Others} me l fs : Frame (holding me l fs).
Proof. split; [intros s s'; apply holding_view|apply others_private]. Qed.

(** ** Assigning a descriptor, assigning a count *)

Lemma fds_of_task s p t : task_at s p = Some t -> fds_of s p = Some (t_filp t).
Proof.
  unfold fds_of, task_at. rewrite list_lookup_fmap. destruct (k_task s !! p) as [[]|]; cbn; congruence.
Qed.
Lemma task_of_fds s p l : fds_of s p = Some l -> exists t, task_at s p = Some t /\ t_filp t = l.
Proof.
  unfold fds_of, task_at. rewrite list_lookup_fmap.
  destruct (k_task s !! p) as [[t|]|]; cbn; try congruence. intros [= <-]. eauto.
Qed.
Definition fd_bit (o : option nat) (f : nat) : nat := if decide (o = Some f) then 1 else 0.

Section assign.
Context (s : kernel) (p : nat) (t : task_struct) (i : nat) (o o' : option nat).
Context (Ht : task_at s p = Some t) (Hi : t_filp t !! i = Some o).
Let s' := put_task p (set_field t_filp (fun l => <[i := o']> l) t) s.

Lemma fd_refs_set f : (fd_refs s' f + fd_bit o f = fd_refs s f + fd_bit o' f)%nat.
Proof.
  unfold fd_refs, s'. cbn. rewrite !list_fmap_insert. cbn.
  pose proof (sum_list_insert (fd_count f <$> (default [] <$> (option_map t_filp <$> k_task s))) p
    (fd_count f (t_filp t)) (fd_count f (<[i := o']> (t_filp t)))) as Hs.
  pose proof (fd_count_insert f (t_filp t) i o o' Hi) as Hc. fold (fd_bit o f) (fd_bit o' f) in Hc.
  assert (E : k_task s !! p = Some (Some t)).
  { unfold task_at in Ht. destruct (k_task s !! p); cbn in *; congruence. }
  rewrite !list_lookup_fmap, E in Hs. specialize (Hs eq_refl). lia.
Qed.
Lemma fds_of_set q : fds_of s' q = if decide (q = p) then Some (<[i := o']> (t_filp t)) else fds_of s q.
Proof.
  case_decide as Hq; [subst q; exact (fds_of_task _ _ _ (task_at_put _ _ _ _ Ht))|].
  unfold fds_of, s'. cbn. by rewrite list_fmap_insert, list_lookup_insert_ne.
Qed.
Lemma fd_off_set d : fd_off d s -> (forall f, o' = Some f -> (f < NR_FILE)%nat) ->
  fd_off (fun f => d f + Z.of_nat (fd_bit o f) - Z.of_nat (fd_bit o' f)) s'.
Proof.
  intros [H1 H2 H3 H4 H5] Ho. constructor; try done.
  - unfold s'. cbn. by rewrite length_insert.
  - change (k_current s') with (k_current s). rewrite fds_of_set. by case_decide.
  - intros q l. rewrite fds_of_set. case_decide; [|apply H4]. intros [= <-].
    destruct (H4 p (t_filp t) (fds_of_task _ _ _ Ht)) as [Hl Hv]. split; [by rewrite length_insert|].
    intros k f. destruct (decide (i = k)) as [<-|]; [|rewrite list_lookup_insert_ne by done; apply Hv].
    rewrite list_lookup_insert_eq by by eapply lookup_lt_Some. intros [= E]. by apply Ho.
  - intros f c Hc. specialize (H5 f c Hc). pose proof (fd_refs_set f). lia.
Qed.
End assign.

Lemma fd_off_count d s f (r : file) v : fd_off d s -> k_files s !! f = Some r ->
  fd_off (fun f' => d f' + if decide (f' = f) then v - f_count r else 0)
    (set_tab (fun l => <[f := set_field f_count (fun _ => v) r]> l) s).
Proof.
  intros [H1 H2 H3 H4 H5] Hf. constructor; try done.
  - cbn. by rewrite length_insert.
  - intros f' c. cbn. rewrite list_fmap_insert. cbn. case_decide as Hff.
    + subst f'. rewrite list_lookup_insert_eq by (rewrite length_fmap; by eapply lookup_lt_Some).
      intros [= <-]. specialize (H5 f (f_count r)). rewrite list_lookup_fmap, Hf in H5.
      specialize (H5 eq_refl). change (fd_refs _ f) with (fd_refs s f). lia.
    + rewrite list_lookup_insert_ne by done. intros Hc. specialize (H5 f' c Hc).
      change (fd_refs _ f') with (fd_refs s f'). lia.
Qed.

(** ** The accessors, run *)

(** The file a descriptor designates. *)
Definition open_file (l : list (option nat)) (fd : Z) : option nat :=
  if NR_OPEN <=? u32 fd then None else default None (l !! Z.to_nat (u32 fd)).

Section run.
Context (s : kernel) (me : task_struct) (Hme : task_at s (k_current s) = Some me).
Lemma filp_run i : filp i s = Ok (default None (t_filp me !! i)) s.
Proof. unfold filp, mbind, M_bind. by rewrite (cur_Ok _ _ _ Hme). Qed.
Lemma set_filp_run i v : set_filp i v s =
  Ok tt (put_task (k_current s) (set_field t_filp (fun l => <[i := v]> l) me) s).
Proof. exact (tupd_Ok _ _ _ _ _ Hme). Qed.
Lemma fd_file_run fd : fd_file fd s = Ok (open_file (t_filp me) fd) s.
Proof. unfold fd_file, open_file. destruct (NR_OPEN <=? u32 fd); [done|apply filp_run]. Qed.
Lemma close_on_exec_run fd : clear_close_on_exec fd s =
  Ok tt (put_task (k_current s) (set_field t_close_on_exec (fun c => Z.land c (not32 (Z.shiftl 1 fd))) me) s).
Proof. exact (tupd_Ok _ _ _ _ _ Hme). Qed.
End run.

Lemma first_free_spec l i : length l = Z.to_nat NR_OPEN -> (i <= Z.to_nat NR_OPEN)%nat ->
  let n := first_free l i in
  (i <= n <= Z.to_nat NR_OPEN)%nat /\ (forall k, (i <= k < n)%nat -> exists f, l !! k = Some (Some f)) /\
  ((n < Z.to_nat NR_OPEN)%nat -> l !! n = Some None).
Proof.
  intros Hl. unfold first_free. set (N := Z.to_nat NR_OPEN) in *.
  match goal with |- context [?g N i] => set (go := g) end.
  assert (H : forall n i, (N <= n + i)%nat -> (i <= N)%nat ->
    (i <= go n i <= N)%nat /\ (forall k, (i <= k < go n i)%nat -> exists f, l !! k = Some (Some f)) /\
    ((go n i < N)%nat -> l !! go n i = Some None)).
  2: { intros Hi. apply H; lia. }
  clear i. induction n as [|n IH]; intros i Hn Hi; cbn [go].
  { split_and!; [lia..|]; intros; lia. }
  destruct (Nat.leb_spec N i). { split_and!; [lia..|]; intros; lia. }
  destruct (lookup_lt_is_Some_2 l i ltac:(lia)) as [o Ho]. rewrite Ho. cbn [default from_option id].
  destruct o as [f|]; [|split_and!; [lia..|]; intros; first [lia|done]].
  destruct (IH (S i) ltac:(lia) ltac:(lia)) as (H1 & H2 & H3). split_and!; [lia..| |done].
  intros k Hk. destruct (decide (k = i)) as [->|]; [eauto|]. apply H2. lia.
Qed.

Lemma fd_refs_bound d s f : fd_off d s -> (fd_refs s f <= 1280)%nat.
Proof.
  intros [_ H2 _ H4 _]. unfold fd_refs. etransitivity; [apply (sum_list_bound _ 20)|].
  2: { rewrite !length_fmap, H2. cbv. lia. }
  apply Forall_lookup. intros p n. rewrite !list_lookup_fmap.
  destruct (k_task s !! p) as [[t|]|] eqn:E; cbn; intros [= <-]; [|cbv; lia].
  etransitivity; [apply fd_count_le|]. destruct (H4 p (t_filp t)) as [-> _]; [|cbv; lia].
  apply fds_of_task. unfold task_at. by rewrite E.
Qed.
Lemma fd_running d s : fd_off d s -> exists me, task_at s (k_current s) = Some me /\
  length (t_filp me) = Z.to_nat NR_OPEN /\ forall i f, t_filp me !! i = Some (Some f) -> (f < NR_FILE)%nat.
Proof.
  intros [_ _ [l Hl] H4 _]. destruct (task_of_fds _ _ _ Hl) as (me & Hme & <-).
  exists me. split; [done|]. by eapply H4.
Qed.
Lemma fd_open_lookup l fd f : open_file l fd = Some f -> l !! Z.to_nat (u32 fd) = Some (Some f).
Proof.
  unfold open_file. destruct (NR_OPEN <=? u32 fd); [done|]. by destruct (l !! _) as [[]|]; cbn; intros [= ->].
Qed.
Lemma fd_file_count d s f i me : fd_off d s -> task_at s (k_current s) = Some me ->
  t_filp me !! i = Some (Some f) ->
  exists r, k_files s !! f = Some r /\ f_count r = Z.of_nat (fd_refs s f) + d f /\ (1 <= fd_refs s f)%nat.
Proof.
  intros Hd Hme Hi. pose proof (fi_filp _ _ Hd _ _ (fds_of_task _ _ _ Hme)) as [_ Hf].
  destruct (lookup_lt_is_Some_2 (k_files s) f) as [r Hr].
  { rewrite (fi_files _ _ Hd). by eapply Hf. }
  exists r. split_and!; [done| |].
  - apply (fi_count _ _ Hd). by rewrite list_lookup_fmap, Hr.
  - pose proof (fd_refs_set s _ me i (Some f) None Hme Hi f) as H. unfold fd_bit in H.
    rewrite decide_True in H by done. rewrite decide_False in H by done. lia.
Qed.

(** A descriptor that starts, or stops, to refer to a file with its count. *)
Section move.
Context (s : kernel) (me : task_struct) (n f : nat) (r : file).
Context (Hd : fd_inv s) (Hme : task_at s (k_current s) = Some me) (Hr : k_files s !! f = Some r).
Let moved (o : option nat) (c : Z) : kernel :=
  set_tab (fun l => <[f := set_field f_count (fun _ => c) r]> l)
    (put_task (k_current s) (set_field t_filp (fun l => <[n := o]> l) me) s).

Lemma fd_inv_add : t_filp me !! n = Some None -> fd_inv (moved (Some f) (f_count r + 1)).
Proof.
  intros Hn. pose proof (fd_off_set s _ me n None (Some f) Hme Hn _ Hd) as H.
  rewrite <-(fi_files _ _ Hd) in H.
  specialize (H ltac:(intros g [= <-]; by eapply lookup_lt_Some)).
  eapply fd_off_ext; [|exact (fd_off_count _ _ f r (f_count r + 1) H Hr)]. intros g. cbv beta. unfold fd_bit.
  rewrite (decide_False (P := None = Some g)) by done.
  destruct (decide (Some f = Some g)), (decide (g = f)); try congruence; lia.
Qed.
Lemma fd_inv_drop : t_filp me !! n = Some (Some f) -> fd_inv (moved None (f_count r - 1)).
Proof.
  intros Hn. pose proof (fd_off_set s _ me n (Some f) None Hme Hn _ Hd ltac:(done)) as H.
  eapply fd_off_ext; [|exact (fd_off_count _ _ f r (f_count r - 1) H Hr)]. intros g. cbv beta. unfold fd_bit.
  rewrite (decide_False (P := None = Some g)) by done.
  destruct (decide (Some f = Some g)), (decide (g = f)); try congruence; lia.
Qed.
Lemma fd_count_u16 :
  set_field f_count (fun c => u16 (c + 1)) r = set_field f_count (fun _ => f_count r + 1) r.
Proof.
  pose proof (fd_refs_bound _ _ f Hd) as Hb. assert (H : f_count r = Z.of_nat (fd_refs s f) + 0).
  { apply (fi_count _ _ Hd). by rewrite list_lookup_fmap, Hr. }
  unfold set_field, set_f_count. rewrite u16_small by lia. done.
Qed.
End move.

(** ** dup, dup2, fcntl(F_DUPFD) *)

Definition clear_bit_of (fd : Z) (me : task_struct) : task_struct :=
  set_field t_close_on_exec (fun c => Z.land c (not32 (Z.shiftl 1 fd))) me.

(** [dupfd] returns the lowest free descriptor not below its argument, which
    then designates the same file, not closed by exec, with the file counted
    once more and nothing else changed; a descriptor that is not open, an
    argument out of range and a full table are the three errors, which change
    nothing.  In all cases the counts still are the numbers of references. *)
Theorem dupfd_spec fd arg s me : fd_inv s -> task_at s (k_current s) = Some me ->
  wp (dupfd fd arg) (fun r s' => fd_inv s' /\
    match open_file (t_filp me) fd with
    | None => r = - EBADF /\ s' = s
    | Some f =>
        (NR_OPEN <= u32 arg /\ r = - EINVAL /\ s' = s) \/
        (u32 arg < NR_OPEN /\ r = - EMFILE /\ s' = s /\
           forall k, u32 arg <= Z.of_nat k < NR_OPEN -> exists g, t_filp me !! k = Some (Some g)) \/
        exists n file, r = Z.of_nat n /\ u32 arg <= r < NR_OPEN /\
          t_filp me !! n = Some None /\
          (forall k, u32 arg <= Z.of_nat k < r -> exists g, t_filp me !! k = Some (Some g)) /\
          k_files s !! f = Some file /\
          s' = set_tab (fun l => <[f := set_field f_count (fun c => c + 1) file]> l)
                 (put_task (k_current s) (set_field t_filp (fun l => <[n := Some f]> l) (clear_bit_of r me)) s)
    end) s.
Proof.
  intros Hd Hme. destruct (fd_running _ _ Hd) as (me0 & E0 & Hlen & Hlow).
  assert (me0 = me) as -> by congruence. unfold wp, wpg, dupfd. unfold mbind at 1, M_bind at 1.
  rewrite (fd_file_run _ _ Hme). destruct (open_file (t_filp me) fd) as [f|] eqn:Ef; [|by split].
  pose proof (u32_range arg). destruct (Z.leb_spec NR_OPEN (u32 arg)); [split; [done|]; by left|].
  unfold mbind at 1, M_bind at 1. rewrite (cur_Ok _ _ _ Hme).
  destruct (first_free_spec (t_filp me) (Z.to_nat (u32 arg)) Hlen ltac:(lia)) as (Hn & Hbelow & Hfree).
  cbv zeta in *. set (n := first_free _ _) in *.
  destruct (Nat.leb_spec (Z.to_nat NR_OPEN) n).
  { split; [done|]. right; left. split_and!; try done. intros k Hk. apply Hbelow. lia. }
  assert (Hfn : t_filp me !! n = Some None) by (apply Hfree; lia). clear Hfree.
  unfold mbind, M_bind. rewrite (close_on_exec_run _ _ Hme). fold (clear_bit_of (Z.of_nat n) me).
  set (me1 := clear_bit_of (Z.of_nat n) me) in *. set (s1 := put_task (k_current s) me1 s) in *.
  assert (Hme1 : task_at s1 (k_current s1) = Some me1) by by eapply task_at_put.
  rewrite (fd_file_run _ _ Hme1). change (t_filp me1) with (t_filp me). rewrite Ef.
  rewrite (set_filp_run _ _ Hme1).
  apply fd_open_lookup in Ef as Ef'. destruct (fd_file_count _ _ _ _ _ Hd Hme Ef') as (file & Hfile & Hc & _).
  cbn [deref]. unfold mret, M_ret, upd, updr. cbn [tab file_table k_files]. 
  change (k_files (put_task _ _ s1)) with (k_files s). rewrite Hfile.
  rewrite (fd_count_u16 s f file Hd Hfile). split.
  - apply (fd_inv_add s1 me1 n f file); try done. eapply fd_off_view; [by apply put_task_view with (t := me)|done].
  - right; right. exists n, file. split_and!; try lia; try done.
    + intros k Hk. apply Hbelow. lia.
    + unfold s1. by rewrite put_put.
Qed.

(** ** close *)

(** After [close] has let go of the descriptor and before the inode is put. *)
Definition released (s : kernel) (me : task_struct) (fd : Z) (f : nat) (file : file) : kernel :=
  set_tab (fun l => <[f := set_field f_count (fun c => c - 1) file]> l)
    (put_task (k_current s)
       (set_field t_filp (fun l => <[Z.to_nat (u32 fd) := None]> l) (clear_bit_of (u32 fd) me)) s).

Section close.
Context `{World} (s : kernel) (me : task_struct) (fd : Z).
Context (Hd : fd_inv s) (Hme : task_at s (k_current s) = Some me).

Lemma sys_close_bad : open_file (t_filp me) fd = None ->
  sys_close fd s = Ok (- EINVAL) (if NR_OPEN <=? u32 fd then s
                                  else put_task (k_current s) (clear_bit_of (u32 fd) me) s).
Proof.
  unfold open_file, sys_close. destruct (NR_OPEN <=? u32 fd); [done|]. intros E.
  unfold mbind, M_bind. rewrite (close_on_exec_run _ _ Hme).
  rewrite (filp_run _ _ (task_at_put _ _ _ _ Hme)). change (t_filp (set_field _ _ me)) with (t_filp me).
  by rewrite E.
Qed.
Lemma sys_close_run f : open_file (t_filp me) fd = Some f ->
  exists file, k_files s !! f = Some file /\ fd_inv (released s me fd f file) /\
    sys_close fd s = (if (fd_refs s f =? 1)%nat then iput (f_inode file) ;; mret 0 else mret 0)
                       (released s me fd f file).
Proof.
  intros Ef. pose proof (fd_open_lookup _ _ _ Ef) as Hi. unfold open_file in Ef.
  destruct (fd_file_count _ _ _ _ _ Hd Hme Hi) as (file & Hf & Hc & H1). exists file. split; [done|].
  unfold sys_close. destruct (NR_OPEN <=? u32 fd); [done|].
  set (me1 := clear_bit_of (u32 fd) me). set (s1 := put_task (k_current s) me1 s).
  assert (Hd1 : fd_inv s1) by (eapply fd_off_view; [by apply put_task_view with (t := me)|done]).
  assert (Hme1 : task_at s1 (k_current s1) = Some me1) by by eapply task_at_put.
  assert (Hr : put_task (k_current s1) (set_field t_filp (fun l => <[Z.to_nat (u32 fd) := None]> l) me1) s1 =
    put_task (k_current s) (set_field t_filp (fun l => <[Z.to_nat (u32 fd) := None]> l) me1) s).
  { unfold s1. by rewrite put_put. }
  split. { unfold released. fold me1. rewrite <-Hr. by apply (fd_inv_drop s1 me1 _ f file). }
  unfold mbind, M_bind. rewrite (close_on_exec_run _ _ Hme). fold (clear_bit_of (u32 fd) me). fold me1 s1.
  rewrite (filp_run _ _ Hme1). change (t_filp me1) with (t_filp me). rewrite Ef, (set_filp_run _ _ Hme1), Hr.
  unfold getf at 1. cbn [tab file_table].
  match goal with |- context [k_files (put_task ?p ?t s)] => change (k_files (put_task p t s)) with (k_files s) end.
  rewrite Hf. pose proof (fd_refs_bound _ _ f Hd) as Hb.
  destruct (Z.eqb_spec (f_count file) 0); [lia|]. unfold st, updr. cbn [tab file_table].
  match goal with |- context [k_files (put_task ?p ?t s)] => change (k_files (put_task p t s)) with (k_files s) end.
  rewrite Hf. rewrite u16_small by lia. unfold truth.
  destruct (Nat.eqb_spec (fd_refs s f) 1) as [E1|E1].
  - rewrite (proj2 (Z.eqb_eq _ 0)) by lia. cbn [negb]. unfold getf. cbn [tab file_table set_tab].
    match goal with |- context [k_files (set_field k_files ?g ?t)] =>
      change (k_files (set_field k_files g t)) with (g (k_files s)) end.
    by rewrite list_lookup_insert_eq by by eapply lookup_lt_Some.
  - rewrite (proj2 (Z.eqb_neq _ 0)) by lia. done.
Qed.
End close.

(** C30: [close] of an open descriptor frees it, takes one off the count of its
    file, which is never found 0 ("Close: file count is 0" cannot happen), and
    puts the file's inode exactly when this was the last reference; of any
    other descriptor it is EINVAL and changes no descriptor.  However it ends,
    the counts are the numbers of references. *)
Theorem sys_close_spec `{Others} fd s me :
  fd_inv s -> task_at s (k_current s) = Some me ->
  keeps fd_inv (sys_close fd) /\
  match open_file (t_filp me) fd with
  | None => exists s', sys_close fd s = Ok (- EINVAL) s' /\ fd_view s' = fd_view s
  | Some f => exists file, k_files s !! f = Some file /\ fd_inv (released s me fd f file) /\
      sys_close fd s = (if (fd_refs s f =? 1)%nat then iput (f_inode file) ;; mret 0 else mret 0)
                         (released s me fd f file)
  end.
Proof.
  intros Hd Hme. split.
  - clear s me Hd Hme. intros s Hd. destruct (fd_running _ _ Hd) as (me & Hme & _).
    destruct (open_file (t_filp me) fd) as [f|] eqn:Ef.
    + destruct (sys_close_run s me fd Hd Hme f Ef) as (file & _ & Hr & ->).
      assert (K : keeps fd_inv (if (fd_refs s f =? 1)%nat then iput (f_inode file) ;; mret 0 else mret 0)) by keeps.
      exact (K _ Hr).
    + rewrite (sys_close_bad s me fd Hme Ef). destruct (NR_OPEN <=? u32 fd); [done|].
      eapply fd_off_view; [by apply put_task_view with (t := me)|done].
  - destruct (open_file (t_filp me) fd) as [f|] eqn:Ef; [by apply sys_close_run|].
    eexists. split; [by apply sys_close_bad|]. destruct (NR_OPEN <=? u32 fd); [done|].
    by apply put_task_view with (t := me).
Qed.

(** ** open *)

Lemma free_file_run s : length (k_files s) = NR_FILE -> exists o, free_file s = Ok o s /\
  match o with
  | Some f => exists r, k_files s !! f = Some r /\ f_count r = 0
  | None => forall f r, k_files s !! f = Some r -> f_count r <> 0
  end.
Proof.
  intros Hlen.
  assert (H : wp free_file (fun o s' => s' = s /\
    match o with
    | Some f => exists r, k_files s !! f = Some r /\ f_count r = 0
    | None => forall f r, k_files s !! f = Some r -> f_count r <> 0
    end) s).
  { apply (wpg_for_break _ _ (fun l s' => s' = s /\ exists k, l = seq k (NR_FILE - k) /\ (k <= NR_FILE)%nat /\
      forall f r, (f < k)%nat -> k_files s !! f = Some r -> f_count r <> 0)).
    - split; [done|]. exists 0%nat. split; [done|]. split; [lia|]. intros; lia.
    - intros i l' s' (-> & k & El & Hk & Hbelow).
      destruct (NR_FILE - k)%nat as [|m] eqn:Em; [done|]. injection El as -> ->.
      destruct (lookup_lt_is_Some_2 (k_files s) k ltac:(lia)) as [r Hr].
      apply wpg_bind. eapply wpg_getf; [exact Hr|]. apply wpg_ret.
      destruct (truth (f_count r)) eqn:Et.
      + split; [done|]. exists (S k). split; [f_equal; lia|]. split; [lia|]. intros f r' Hf Hr'.
        destruct (decide (f = k)) as [->|]; [|eapply Hbelow; [|exact Hr']; lia].
        apply truth_true in Et. congruence.
      + split; [done|]. exists r. by apply truth_false in Et.
    - intros s' (-> & k & El & Hk & Hbelow). split; [done|]. intros f r Hr. eapply Hbelow; [|exact Hr].
      destruct (NR_FILE - k)%nat eqn:Em; [|done]. apply lookup_lt_Some in Hr. lia. }
  apply wp_Ok in H as (o & s' & E & -> & Ho). by exists o.
Qed.

(** A task that holds the files [fs] lets go of one of them. *)
Lemma holding_task me l fs s : holding me l fs s -> exists t, task_at s (k_current s) = Some t /\ t_filp t = l.
Proof. intros [_ Hc Hf _]. rewrite Hc. by apply task_of_fds. Qed.
Lemma holding_file me l fs s f : holding me l fs s -> f ∈ fs -> (f < NR_FILE)%nat ->
  exists r, k_files s !! f = Some r /\ f_count r = 1.
Proof.
  intros [Hd _ _ Hp] Hf Hlt. destruct (lookup_lt_is_Some_2 (k_files s) f) as [r Hr].
  { by rewrite (fi_files _ _ Hd). }
  exists r. split; [done|]. rewrite Forall_forall in Hp. specialize (Hp f Hf).
  pose proof (fi_count _ _ Hd f (f_count r)) as Hc. rewrite list_lookup_fmap, Hr in Hc.
  specialize (Hc eq_refl). lia.
Qed.

(** [current->filp[fd] = f; f->f_count++] for a free file. *)
Lemma open_takes s me fd f r : fd_inv s -> task_at s (k_current s) = Some me ->
  t_filp me !! fd = Some None -> k_files s !! f = Some r -> f_count r = 0 ->
  exists s1, (set_filp fd (Some f) ;; upd f f_count (fun c => u16 (c + 1))) s = Ok tt s1 /\
    holding (k_current s) (<[fd := Some f]> (t_filp me)) [f] s1.
Proof.
  intros Hd Hme Hfd Hr Hc. unfold mbind, M_bind. rewrite (set_filp_run _ _ Hme). eexists. split.
  { unfold upd, updr. cbn [tab file_table].
    match goal with |- context [k_files (put_task ?p ?t s)] => change (k_files (put_task p t s)) with (k_files s) end.
    rewrite Hr, (fd_count_u16 s f r Hd Hr). reflexivity. }
  pose proof (fd_inv_add s me fd f r Hd Hme Hr Hfd) as Hd1.
  constructor; [exact Hd1|done| |].
  - exact (fds_of_task (put_task (k_current s) _ s) _ _ (task_at_put _ _ _ _ Hme)).
  - apply Forall_singleton. cbv beta in Hd1.
    match type of Hd1 with fd_off _ ?S => change (fd_refs S f = 1%nat) end.
    apply Nat2Z.inj. pose proof (fi_count _ _ Hd1 f (f_count r + 1)) as Hc1. rewrite Z.add_0_r, Hc in Hc1.
    symmetry. apply Hc1. cbn. rewrite list_fmap_insert. apply list_lookup_insert_eq.
    rewrite length_fmap. by eapply lookup_lt_Some.
Qed.
(** [current->filp[fd] = NULL; f->f_count = 0] for the file just taken. *)
Lemma open_drops me l fd f fs s : holding me l fs s -> f ∈ fs -> l !! fd = Some (Some f) ->
  exists s1, (set_filp fd None ;; st f f_count 0) s = Ok tt s1 /\ k_current s1 = me /\
    fd_inv s1 /\ fds_of s1 me = Some (<[fd := None]> l).
Proof.
  intros Hh Hf Hfd. destruct (holding_task _ _ _ _ Hh) as (t & Ht & <-).
  destruct (holding_file _ _ _ _ f Hh Hf) as (r & Hr & Hc).
  { destruct Hh as [Hd Hcur Hfds _]. by eapply (fi_filp _ _ Hd _ _ Hfds). }
  destruct Hh as [Hd <- Hfds _].
  unfold mbind, M_bind. rewrite (set_filp_run _ _ Ht). eexists. split.
  { unfold st, updr. cbn [tab file_table].
    match goal with |- context [k_files (put_task ?p ?t s)] => change (k_files (put_task p t s)) with (k_files s) end.
    rewrite Hr. reflexivity. }
  pose proof (fd_inv_drop s t fd f r Hd Ht Hr Hfd) as Hd1. rewrite Hc in Hd1.
  split_and!; [done|exact Hd1|]. exact (fds_of_task (put_task (k_current s) _ s) _ _ (task_at_put _ _ _ _ Ht)).
Qed.

(** What [open] gives: the lowest free descriptor, and a file nobody had. *)
Definition opened (l : list (option nat)) (flag : Z) (s : kernel) (r : Z) (s' : kernel) : Prop :=
  exists fd f inode i, r = Z.of_nat fd /\ l !! fd = Some None /\
    (forall k, (k < fd)%nat -> exists g, l !! k = Some (Some g)) /\
    fd_refs s f = 0%nat /\ fds_of s' (k_current s) = Some (<[fd := Some f]> l) /\
    k_inodes s' !! inode = Some i /\
    k_files s' !! f = Some (File (i_mode i) (u16 flag) 1 (Some inode) 0).
Definition unchanged_fds (l : list (option nat)) (s s' : kernel) : Prop :=
  fds_of s' (k_current s) = Some l.

(** [s] with the entry [x] in slot [f] of the file table. *)
Definition put_file (f : nat) (x : file) (s : kernel) : kernel := set_tab (fun l => <[f := x]> l) s.
Lemma put_file_lookup f x s : (f < length (k_files s))%nat -> k_files (put_file f x s) !! f = Some x.
Proof. intros E. cbn. by apply list_lookup_insert_eq. Qed.
Lemma put_file_put f x y s : put_file f x (put_file f y s) = put_file f x s.
Proof. unfold put_file. cbn. unfold set_field, set_k_files. cbn. by rewrite list_insert_insert_eq. Qed.
Lemma st_put_file {A B} f (g : file -> A) `{!Setter g} v (k : unit -> M kernel B) x s :
  (f < length (k_files s))%nat ->
  (st f g v ≫= k) (put_file f x s) = k tt (put_file f (set_field g (fun _ => v) x) s).
Proof.
  intros E. unfold mbind, M_bind, st, updr. cbn [tab file_table]. rewrite put_file_lookup by done.
  fold (put_file f (set_field g (fun _ => v) x) (put_file f x s)). by rewrite put_file_put.
Qed.
Lemma put_file_id f x s : k_files s !! f = Some x -> put_file f x s = s.
Proof.
  intros E. unfold put_file. cbn. unfold set_field, set_k_files. rewrite list_insert_id by done. by destruct s.
Qed.

(** The stores at the end of [open] into the new file. *)
Lemma open_fills me l fd f flag inode s : holding me l [f] s -> l !! fd = Some (Some f) ->
  kept fd_inv (m ← inode->>i_mode; st f f_mode m ;; st f f_flags (u16 flag) ;; st f f_count 1 ;;
       st f f_inode (Some inode) ;; st f f_pos 0 ;; mret (Z.of_nat fd))
    (fun r s' => r = Z.of_nat fd /\ fd_inv s' /\ k_current s' = me /\ fds_of s' me = Some l /\
      exists i, k_inodes s' !! inode = Some i /\
        k_files s' !! f = Some (File (i_mode i) (u16 flag) 1 (Some inode) 0)) s.
Proof.
  intros Hh Hfd. pose proof Hh as [Hd Hcur Hfds _].
  destruct (holding_file _ _ _ _ f Hh ltac:(set_solver)) as (r & Hr & Hc).
  { by eapply (fi_filp _ _ Hd _ _ Hfds). }
  apply kept_bind, kept_getf; [done|]. intros i Hi.
  set (r' := File (i_mode i) (u16 flag) 1 (Some inode) 0).
  apply (kept_Ok _ _ _ _ (Z.of_nat fd) (put_file f r' s)).
  - assert (Hlt : (f < length (k_files s))%nat) by by eapply lookup_lt_Some.
    rewrite <-(put_file_id f r s Hr) at 1. rewrite !st_put_file by done. by destruct r.
  - assert (Hv : fd_view (put_file f r' s) = fd_view s).
    { unfold fd_view. cbn. f_equal. rewrite list_fmap_insert. apply list_insert_id.
      rewrite list_lookup_fmap, Hr. cbn. by rewrite Hc. }
    split_and!; [done|by eapply fd_off_view|done|by rewrite (fds_of_view _ _ _ Hv)|].
    exists i. split; [done|]. cbn. apply list_lookup_insert_eq. by eapply lookup_lt_Some.
Qed.

Section open.
Context `{Others} (filename flag mode : Z) (s : kernel) (me : task_struct).
Context (Hd : fd_inv s) (Hme : task_at s (k_current s) = Some me).
Let Post (r : Z) (s' : kernel) : Prop :=
  fd_inv s' /\ k_current s' = k_current s /\
  (r < 0 /\ unchanged_fds (t_filp me) s s' \/ opened (t_filp me) flag s r s').

(** From the descriptor and file taken on. *)
Lemma sys_open_rest fd f s1 : t_filp me !! fd = Some None ->
  (forall k, (k < fd)%nat -> exists g, t_filp me !! k = Some (Some g)) -> fd_refs s f = 0%nat ->
  holding (k_current s) (<[fd := Some f]> (t_filp me)) [f] s1 ->
  kept fd_inv (r ← open_namei filename flag mode;
    match r with
    | inl e => set_filp fd None ;; st f f_count 0 ;; mret e
    | inr inode =>
        ok ← open_tty inode;
        if negb ok then iput (Some inode) ;; set_filp fd None ;; st f f_count 0 ;; mret (- EPERM)
        else
          m ← inode->>i_mode;
          when (S_ISBLK m) (z ← zone inode 0; check_disk_change z) ;;
          m ← inode->>i_mode;
          st f f_mode m ;; st f f_flags (u16 flag) ;; st f f_count 1 ;;
          st f f_inode (Some inode) ;; st f f_pos 0 ;; mret (Z.of_nat fd)
    end) Post s1.
Proof.
  intros Hfd Hlow Hf Hh. set (l := <[fd := Some f]> (t_filp me)) in *.
  assert (Hl : l !! fd = Some (Some f)) by (apply list_lookup_insert_eq; by eapply lookup_lt_Some).
  assert (Hinv : forall s', holding (k_current s) l [f] s' -> fd_inv s') by by intros s' [].
  assert (Hfail : forall e s2, e < 0 -> holding (k_current s) l [f] s2 ->
    kept fd_inv (set_filp fd None ;; st f f_count 0 ;; mret e) Post s2).
  { intros e s2 He H2. destruct (open_drops _ _ fd f [f] s2 H2 ltac:(set_solver) Hl) as (s3 & E & Hc & Hi & Hu).
    assert (Ha : (set_filp fd None ;; st f f_count 0 ;; mret e) s2 = Ok e s3).
    { revert E. unfold mbind, M_bind. destruct (set_filp fd None s2) as [[]| | | |]; try done.
      intros ->. done. }
    apply (kept_Ok _ _ _ _ _ _ Ha). split_and!; [done|done|left; split; [done|]].
    unfold unchanged_fds. rewrite Hu. unfold l. rewrite list_insert_insert_eq. f_equal.
    by apply list_insert_id. }
  apply kept_bind. eapply (kept_keeps _ (holding (k_current s) l [f])); [apply keeps_open_namei; exact _|apply open_namei_error|exact Hh|done|].
  intros [e|inode] s2 He H2; [by apply Hfail|].
  apply kept_bind. eapply (kept_keeps _ (holding (k_current s) l [f])); [apply keeps_open_tty; exact _|apply gives_any|exact H2|done|].
  intros ok s3 _ H3. destruct ok; cbn [negb].
  2: { apply kept_bind. eapply (kept_keeps _ (holding (k_current s) l [f])); [apply keeps_iput; exact _|apply gives_any|exact H3|done|].
       intros _ s4 _ H4. by apply Hfail. }
  apply kept_bind, kept_getf; [auto|]. intros i _.
  apply kept_bind. eapply (kept_keeps _ (holding (k_current s) l [f])); [keeps|apply gives_any|exact H3|done|].
  intros _ s4 _ H4. eapply kept_mono; [by eapply open_fills|].
  intros r s5 (-> & Hi & Hc & Hu & i' & Hino & Hfile). split_and!; [done|done|right].
  exists fd, f, inode, i'. by split_and!.
Qed.
End open.

(** C20: [open] gives the lowest free descriptor and a file nobody referred to,
    counted once, at position 0, with the mode of the inode and the flags of
    the call; when it fails (the name, the permission, no descriptor, no file,
    a terminal that cannot be opened) the task's descriptors are those it had.
    However it ends, the counts are the numbers of references. *)
Theorem sys_open_spec `{Others} filename flag mode s me :
  fd_inv s -> task_at s (k_current s) = Some me ->
  kept fd_inv (sys_open filename flag mode) (fun r s' =>
    fd_inv s' /\ k_current s' = k_current s /\
    (r < 0 /\ unchanged_fds (t_filp me) s s' \/ opened (t_filp me) flag s r s')) s.
Proof.
  intros Hd Hme. destruct (fd_running _ _ Hd) as (me0 & E0 & Hlen & Hlow).
  assert (me0 = me) as -> by congruence.
  pose proof (fds_of_task _ _ _ Hme) as Hfds.
  unfold sys_open. eapply kept_bind_Ok; [by apply cur_Ok|]. cbv zeta.
  eapply kept_bind_Ok; [by apply cur_Ok|].
  destruct (first_free_spec (t_filp me) 0 Hlen ltac:(lia)) as (Hn & Hbelow & Hfree).
  cbv zeta in *. set (fd := first_free _ _) in *.
  destruct (Nat.leb_spec (Z.to_nat NR_OPEN) fd). { split_and!; [done|done|left; split; done]. }
  eapply kept_bind_Ok; [by apply close_on_exec_run|]. fold (clear_bit_of (Z.of_nat fd) me).
  set (me1 := clear_bit_of (Z.of_nat fd) me). set (s1 := put_task (k_current s) me1 s).
  assert (Hv : fd_view s1 = fd_view s) by by apply put_task_view with (t := me).
  assert (Hd1 : fd_inv s1) by by eapply fd_off_view.
  assert (Hme1 : task_at s1 (k_current s1) = Some me1) by by eapply task_at_put.
  destruct (free_file_run s1 (fi_files _ _ Hd1)) as (o & Ho & Hof).
  eapply kept_bind_Ok; [exact Ho|].
  destruct o as [f|].
  2: { split_and!; [done|done|left; split; [done|]]. unfold unchanged_fds.
       by rewrite (fds_of_view _ _ _ Hv). }
  destruct Hof as (r & Hr & Hc).
  assert (Hf : t_filp me1 !! fd = Some None) by (apply Hfree; lia).
  destruct (open_takes s1 me1 fd f r Hd1 Hme1 Hf Hr Hc) as (s2 & E2 & H2).
  assert (Hrefs : fd_refs s f = 0%nat).
  { rewrite <-(fd_refs_view _ _ _ Hv). pose proof (fi_count _ _ Hd1 f (f_count r)) as Hc1.
    rewrite list_lookup_fmap, Hr in Hc1. specialize (Hc1 eq_refl). lia. }
  pose proof (sys_open_rest filename flag (Z.land mode (Z.land 0x1ff (Z.lnot (t_umask me)))) s me Hd Hme fd f s2 Hf ltac:(intros; apply Hbelow; lia) Hrefs H2) as HQ.
  clearbody s1. revert E2 HQ. unfold mbind at 1, M_bind at 1.
  destruct (set_filp fd (Some f) s1) as [[] s0| | | |] eqn:E1; try done. intros E2 HQ.
  eapply kept_bind_Ok; [exact E1|]. eapply kept_bind_Ok; [exact E2|]. exact HQ.
Qed.

(** ** pipe *)

(** The running task is [me] with descriptors [l]; counts are off by [d]. *)
Record piping (me : nat) (l : list (option nat)) (d : nat -> Z) (files : list file) (s : kernel) : Prop := {
  pi_off : fd_off d s;
  pi_current : k_current s = me;
  pi_fds : fds_of s me = Some l;
  pi_files : k_files s = files;
}.
Definition one (f g : nat) : Z := if decide (g = f) then 1 else 0.

Section piping.
Context (me : nat) (l : list (option nat)) (d : nat -> Z) (files : list file) (s : kernel).
Context (Hp : piping me l d files s).

Lemma piping_ext d' : (forall g, d g = d' g) -> piping me l d' files s.
Proof. intros Hd. destruct Hp. constructor; try done. by eapply fd_off_ext. Qed.
Lemma set_filp_piping a o : (a < length l)%nat -> (forall f, o = Some f -> (f < NR_FILE)%nat) ->
  exists s', set_filp a o s = Ok tt s' /\
    piping me (<[a := o]> l) (fun g => d g + from_option (fun f => one f g) 0 (default None (l !! a))
                                           - from_option (fun f => one f g) 0 o) files s'.
Proof.
  intros Ha Ho. destruct Hp as [Hd Hc Hf Hfi]. destruct (task_of_fds _ _ _ Hf) as (t & Ht & Hl).
  subst me l. eexists. split; [by apply set_filp_run|].
  destruct (lookup_lt_is_Some_2 (t_filp t) a Ha) as [x Hx]. constructor.
  - eapply fd_off_ext; [|exact (fd_off_set s _ t a x o Ht Hx d Hd Ho)]. intros g. rewrite Hx. cbn.
    unfold fd_bit, one. destruct x as [x|], o as [o|]; cbn; repeat case_decide; try congruence; lia.
  - done.
  - exact (fds_of_task (put_task (k_current s) _ s) _ _ (task_at_put _ _ _ _ Ht)).
  - done.
Qed.
Lemma count_piping f (g : file -> file) r v : files !! f = Some r ->
  g r = set_field f_count (fun _ => v) r ->
  exists s', updr f g s = Ok tt s' /\ k_task s' = k_task s /\
    piping me l (fun h => d h + (v - f_count r) * one f h) (<[f := g r]> files) s'.
Proof.
  intros Hr Hg. destruct Hp as [Hd Hc Hf Hfi]. subst files.
  exists (put_file f (g r) s). split.
  { unfold updr. cbn [tab file_table]. by rewrite Hr. }
  split; [done|]. constructor; try done. rewrite Hg.
  eapply fd_off_ext; [|exact (fd_off_count d s f r v Hd Hr)]. intros h. unfold one. case_decide; lia.
Qed.
Lemma filp_piping a : filp a s = Ok (default None (l !! a)) s.
Proof.
  destruct Hp as [Hd Hc Hf Hfi]. destruct (task_of_fds _ _ _ Hf) as (t & Ht & Hl). subst me l.
  by apply filp_run.
Qed.
End piping.

(** The files [fs] are counted once, and nothing refers to them in [s0]. *)
Definition fresh_files (s0 : kernel) (fs : list nat) (files : list file) : Prop :=
  NoDup fs /\ Forall (fun f => fd_refs s0 f = 0%nat /\ exists r, files !! f = Some r /\ f_count r = 1) fs.
Definition counted_more (fs : list nat) (g : nat) : Z := if decide (g ∈ fs) then 1 else 0.

Lemma take_files_run s0 me l files : piping me l (fun _ => 0) files s0 ->
  exists fs s1 files1, take_files s0 = Ok fs s1 /\ (length fs <= 2)%nat /\
    piping me l (counted_more fs) files1 s1 /\ fresh_files s0 fs files1.
Proof.
  intros H0.
  assert (Hw : wp take_files (fun fs s1 => exists files1, (length fs <= 2)%nat /\
    piping me l (counted_more fs) files1 s1 /\ fresh_files s0 fs files1) s0).
  { apply (wpg_loop_total _ _ (fun '(i, _) _ => NR_FILE - i)%nat (fun '(i, fs) s1 => exists files1,
      (length fs <= 2)%nat /\ piping me l (counted_more fs) files1 s1 /\ fresh_files s0 fs files1 /\
      Forall (fun f => (f < i)%nat) fs /\ k_task s1 = k_task s0)).
    - exists files. split_and!; [cbn; lia| |split; constructor|constructor|done].
      eapply piping_ext; [exact H0|]. intros g. unfold counted_more. by rewrite decide_False by set_solver.
    - unfold NR_FILE. lia.
    - intros [i fs] s1 (files1 & Hl & Hp & [Hnd Hff] & Hi & Ht).
      destruct (Nat.leb_spec 2 (length fs)) as [H2|H2]; cbn [orb].
      { apply wpg_ret. exists files1. split_and!; [done..|by split]. }
      destruct (Nat.leb_spec NR_FILE i) as [H64|H64].
      { apply wpg_ret. exists files1. split_and!; [done..|by split]. }
      destruct (lookup_lt_is_Some_2 files1 i) as [r Hr].
      { rewrite <-(pi_files _ _ _ _ _ Hp), (fi_files _ _ (pi_off _ _ _ _ _ Hp)). lia. }
      apply wpg_bind. apply (wpg_getf _ _ _ _ r).
      { change (k_files s1 !! i = Some r). by rewrite (pi_files _ _ _ _ _ Hp). }
      assert (Hi' : Forall (fun f => (f < S i)%nat) fs) by (eapply Forall_impl; [exact Hi|]; cbn; lia).
      destruct (truth (f_count r)) eqn:Ec.
      { apply wpg_ret. split; [|lia]. exists files1. by split_and!. }
      apply truth_false in Ec. assert (Hni : i ∉ fs) by (intros Hin; rewrite Forall_forall in Hi; specialize (Hi i Hin); lia).
      apply wpg_bind. unfold wpg at 1. unfold upd.
      destruct (count_piping _ _ _ _ _ Hp i (set_field f_count (fun c => u16 (c + 1))) r 1 Hr) as (s2 & -> & Ht2 & Hp2).
      { unfold set_field, set_f_count. by rewrite Ec. }
      apply wpg_ret. split; [|lia]. eexists. split_and!; [rewrite length_app; cbn; lia| | |by apply Forall_app_2; [|apply Forall_singleton; lia]|].
      + eapply piping_ext; [exact Hp2|]. intros g. cbv beta. rewrite Ec. unfold counted_more, one.
        destruct (decide (g = i)) as [->|Hgi].
        * rewrite decide_False by done. rewrite decide_True by set_solver. done.
        * destruct (decide (g ∈ fs)); [rewrite decide_True by set_solver|rewrite decide_False by set_solver]; lia.
      + assert (Hold : forall f, f ∈ fs -> f <> i) by (intros f Hf ->; done).
        split; [apply NoDup_app; split_and!; [done|set_solver|apply NoDup_singleton]|].
        apply Forall_app_2; [|apply Forall_singleton; split].
        * apply Forall_forall. intros f Hf. rewrite Forall_forall in Hff. destruct (Hff f Hf) as (Hr0 & r' & Hr' & Hc').
          split; [done|]. exists r'. by rewrite list_lookup_insert_ne by (symmetry; auto).
        * pose proof (fi_count _ _ (pi_off _ _ _ _ _ Hp) i (f_count r)) as Hc.
          rewrite (pi_files _ _ _ _ _ Hp), list_lookup_fmap, Hr in Hc. specialize (Hc eq_refl).
          unfold counted_more in Hc. rewrite decide_False in Hc by done.
          assert (fd_refs s1 i = fd_refs s0 i) by (unfold fd_refs; by rewrite Ht). lia.
        * eexists. split; [apply list_lookup_insert_eq; by eapply lookup_lt_Some|]. cbn. by rewrite Ec.
      + by rewrite Ht2. }
  apply wp_Ok in Hw as (fs & s1 & E & files1 & Hl & Hp & Hf). by exists fs, s1, files1.
Qed.

(** The descriptors [fd] of the table [l] that is given to the files [f0], [f1]
    and the counts that are still ahead. *)
Definition given (l : list (option nat)) (f0 f1 : nat) (fd : list nat) : list (option nat) :=
  match fd with
  | [] => l
  | [a] => <[a := Some f0]> l
  | a :: b :: _ => <[b := Some f1]> (<[a := Some f0]> l)
  end.
Definition ahead (f0 f1 : nat) (fd : list nat) : nat -> Z :=
  match fd with
  | [] => counted_more [f0; f1]
  | [_] => counted_more [f1]
  | _ => fun _ => 0
  end.
(** [fd] are the first free descriptors of [l] below [i]. *)
Record first_fds (l : list (option nat)) (i : nat) (fd : list nat) : Prop := {
  ff_length : (length fd <= 2)%nat;
  ff_order : match fd with [a; b] => (a < b)%nat | _ => True end;
  ff_free : Forall (fun a => (a < i)%nat /\ l !! a = Some None) fd;
  ff_used : forall k, (k < i)%nat -> k ∉ fd -> exists g, l !! k = Some (Some g);
}.

Lemma first_fds_other l f0 f1 i fd : first_fds l i fd -> given l f0 f1 fd !! i = l !! i.
Proof.
  intros [_ _ Hf _]. destruct fd as [|a [|b fd]]; cbn; [done| |];
    rewrite ?Forall_cons in Hf; rewrite !list_lookup_insert_ne by lia; done.
Qed.
Lemma given_length l f0 f1 fd : length (given l f0 f1 fd) = length l.
Proof. destruct fd as [|a [|b fd]]; cbn; by rewrite ?length_insert. Qed.
Lemma first_fds_used l i fd g : first_fds l i fd -> l !! i = Some (Some g) -> first_fds l (S i) fd.
Proof.
  intros [H1 H2 H3 H4] Hg. constructor; try done.
  - eapply Forall_impl; [exact H3|]. cbn. intros a [? ?]. split; [lia|done].
  - intros k Hk Hn. destruct (decide (k = i)) as [->|]; [eauto|]. apply H4; [lia|done].
Qed.
Lemma first_fds_take l i fd : first_fds l i fd -> (length fd < 2)%nat -> l !! i = Some None ->
  first_fds l (S i) (fd ++ [i]).
Proof.
  intros [H1 H2 H3 H4] Hlt Hi.
  constructor.
  - rewrite length_app. cbn. lia.
  - destruct fd as [|a [|b fd]]; cbn in *; [done| |lia]. rewrite Forall_singleton in H3. lia.
  - apply Forall_app_2; [|by apply Forall_singleton; split; [lia|]].
    eapply Forall_impl; [exact H3|]. cbn. intros a [? ?]. split; [lia|done].
  - intros k Hk Hn. apply H4; [|set_solver]. assert (k <> i) by set_solver. lia.
Qed.
Lemma ahead_take f0 f1 fd i g : f0 <> f1 -> (length fd < 2)%nat ->
  ahead f0 f1 fd g - from_option (fun f => one f g) 0 ([f0; f1] !! length fd) = ahead f0 f1 (fd ++ [i]) g.
Proof.
  intros Hne Hl. unfold ahead, counted_more, one. destruct fd as [|a [|b fd]]; cbn in *; [| |lia].
  - destruct (decide (g = f0)) as [->|].
    + rewrite decide_True by set_solver. rewrite decide_False by set_solver. done.
    + destruct (decide (g ∈ [f1])); [rewrite decide_True by set_solver|rewrite decide_False by set_solver]; done.
  - destruct (decide (g = f1)) as [->|]; [rewrite decide_True by set_solver|rewrite decide_False by set_solver]; done.
Qed.

Lemma take_fds_run me l files s0 f0 f1 : length l = Z.to_nat NR_OPEN -> f0 <> f1 ->
  (f0 < NR_FILE)%nat -> (f1 < NR_FILE)%nat -> piping me l (counted_more [f0; f1]) files s0 ->
  exists fd i s1, take_fds [f0; f1] s0 = Ok fd s1 /\
    piping me (given l f0 f1 fd) (ahead f0 f1 fd) files s1 /\ first_fds l i fd.
Proof.
  intros Hlen Hne H0 H1 Hp0.
  assert (Hw : wp (take_fds [f0; f1]) (fun fd s1 => exists i,
    piping me (given l f0 f1 fd) (ahead f0 f1 fd) files s1 /\ first_fds l i fd) s0).
  { apply (wpg_loop_total _ _ (fun '(i, _) _ => Z.to_nat NR_OPEN - i)%nat (fun '(i, fd) s1 =>
      piping me (given l f0 f1 fd) (ahead f0 f1 fd) files s1 /\ first_fds l i fd)).
    - split; [done|]. constructor; [cbn; lia|done|constructor|intros; lia].
    - change (Z.to_nat NR_OPEN) with 20%nat. lia.
    - intros [i fd] s1 [Hp Hff]. destruct (Nat.leb_spec 2 (length fd)) as [H2|H2]; cbn [orb].
      { apply wpg_ret. by exists i. }
      destruct (Nat.leb_spec (Z.to_nat NR_OPEN) i) as [H20|H20]. { apply wpg_ret. by exists i. }
      apply wpg_bind. unfold wpg at 1. rewrite (filp_piping _ _ _ _ _ Hp), (first_fds_other _ _ _ _ _ Hff).
      destruct (lookup_lt_is_Some_2 l i ltac:(lia)) as [o Ho]. rewrite Ho. cbn [default from_option id].
      destruct o as [g|].
      { apply wpg_ret. split; [|lia]. split; [done|]. by eapply first_fds_used. }
      apply wpg_bind. unfold wpg at 1.
      destruct (set_filp_piping _ _ _ _ _ Hp i ([f0; f1] !! length fd)) as (s2 & -> & Hp2).
      { rewrite given_length. lia. }
      { destruct fd as [|a [|b fd]]; cbn in *; [by intros f [= <-]..|lia]. }
      apply wpg_ret. split; [|lia]. split; [|by apply first_fds_take].
      rewrite (first_fds_other _ _ _ _ _ Hff), Ho in Hp2. cbn in Hp2.
      eapply piping_ext in Hp2; [|intros g; rewrite Z.add_0_r; by apply (ahead_take _ _ _ i)].
      by destruct fd as [|a [|b fd]]; cbn in *; try lia. }
  apply wp_Ok in Hw as (fd & s1 & E & i & Hp & Hff). by exists fd, i, s1.
Qed.

(** What [pipe] gives: the two lowest free descriptors, the read end and the
    write end, with files nobody referred to, for one inode; their numbers are
    what is stored to the user. *)
Definition piped (l : list (option nat)) (fildes : Z) (s s' : kernel) : Prop :=
  exists a b f0 f1 inode r0 r1 s2,
    (a < b)%nat /\ l !! a = Some None /\ l !! b = Some None /\
    (forall k, (k < b)%nat -> k <> a -> exists g, l !! k = Some (Some g)) /\
    fd_refs s f0 = 0%nat /\ fd_refs s f1 = 0%nat /\
    fds_of s' (k_current s) = Some (<[b := Some f1]> (<[a := Some f0]> l)) /\
    k_files s' !! f0 = Some (File 1 r0 1 (Some inode) 0) /\
    k_files s' !! f1 = Some (File 2 r1 1 (Some inode) 0) /\
    (put_fs_long (Z.of_nat a) fildes ;; put_fs_long (Z.of_nat b) (fildes + 4)) s2 = Ok tt s'.

(** Closing the accounts: the counts of the files of a failed call back to 0. *)
Lemma zero_count me l d files s f (k : unit -> M kernel Z) r : piping me l d files s ->
  files !! f = Some r -> f_count r = 1 ->
  exists s', (st f f_count 0 ≫= k) s = k tt s' /\
    piping me l (fun g => d g - one f g) (<[f := set_field f_count (fun _ => 0) r]> files) s'.
Proof.
  intros Hp Hr Hc. destruct (count_piping _ _ _ _ _ Hp f (set_field f_count (fun _ => 0)) r 0 Hr eq_refl) as (s' & E & _ & Hp').
  exists s'. split; [unfold mbind, M_bind, st; by rewrite E|].
  eapply piping_ext; [exact Hp'|]. intros g. cbv beta. lia.
Qed.
Lemma unset_filp me l d files s a f (k : unit -> M kernel Z) : piping me l d files s ->
  l !! a = Some (Some f) ->
  exists s', (set_filp a None ≫= k) s = k tt s' /\
    piping me (<[a := None]> l) (fun g => d g + one f g) files s'.
Proof.
  intros Hp Ha. destruct (set_filp_piping _ _ _ _ _ Hp a None) as (s' & E & Hp'); [by eapply lookup_lt_Some|done|].
  exists s'. split; [unfold mbind, M_bind; by rewrite E|]. rewrite Ha in Hp'. cbn in Hp'.
  eapply piping_ext; [exact Hp'|]. intros g. cbv beta. lia.
Qed.

Section undo.
Context (me : nat) (l : list (option nat)) (f0 f1 : nat) (files : list file) (s : kernel).
Context (Hne : f0 <> f1).
Context (H0 : exists r, files !! f0 = Some r /\ f_count r = 1).
Context (H1 : exists r, files !! f1 = Some r /\ f_count r = 1).

Lemma zero_both : piping me l (counted_more [f0; f1]) files s ->
  exists files' s', (st f0 f_count 0 ;; st f1 f_count 0 ;; mret (-1)) s = Ok (-1) s' /\
    piping me l (fun _ => 0) files' s'.
Proof.
  destruct H0 as (r0 & Hr0 & Hc0), H1 as (r1 & Hr1 & Hc1). intros Hp.
  destruct (zero_count _ _ _ _ _ f0 (fun _ => st f1 f_count 0 ;; mret (-1)) r0 Hp Hr0 Hc0) as (s1 & -> & Hp1).
  destruct (zero_count _ _ _ _ _ f1 (fun _ => mret (-1)) r1 Hp1) as (s2 & -> & Hp2); [by rewrite list_lookup_insert_ne|done|].
  eexists _, s2. split; [done|]. eapply piping_ext; [exact Hp2|]. intros g. cbv beta. unfold counted_more, one.
  destruct (decide (g = f0)) as [->|]; [rewrite decide_True by set_solver; by rewrite decide_False by done|].
  destruct (decide (g = f1)) as [->|]; [by rewrite decide_True by set_solver|by rewrite decide_False by set_solver].
Qed.
End undo.

Lemma undo_given (l : list (option nat)) a b o0 o1 : l !! a = Some None -> l !! b = Some None -> a <> b ->
  <[b := None]> (<[a := None]> (<[b := o1]> (<[a := o0]> l))) = l.
Proof.
  intros Ha Hb Hab. rewrite (list_insert_insert_ne _ a b) by done. rewrite !list_insert_insert_eq.
  by rewrite (list_insert_id l a), (list_insert_id l b).
Qed.

Lemma undo_fds me l f0 f1 files s a b : f0 <> f1 ->
  (exists r, files !! f0 = Some r /\ f_count r = 1) -> (exists r, files !! f1 = Some r /\ f_count r = 1) ->
   l !! a = Some None -> l !! b = Some None -> (a < b)%nat ->
  piping me (<[b := Some f1]> (<[a := Some f0]> l)) (fun _ => 0) files s ->
  exists files' s', (set_filp a None ;; set_filp b None ;; st f0 f_count 0 ;; st f1 f_count 0 ;; mret (-1)) s = Ok (-1) s' /\
    piping me l (fun _ => 0) files' s'.
Proof.
  intros Hne H0 H1 Ha Hb Hab Hp. pose proof (lookup_lt_Some _ _ _ Ha). pose proof (lookup_lt_Some _ _ _ Hb).
  destruct (unset_filp _ _ _ _ _ a f0 (fun _ => set_filp b None ;; st f0 f_count 0 ;; st f1 f_count 0 ;; mret (-1)) Hp) as (s1 & -> & Hp1).
  { rewrite list_lookup_insert_ne by lia. by apply list_lookup_insert_eq. }
  destruct (unset_filp _ _ _ _ _ b f1 (fun _ => st f0 f_count 0 ;; st f1 f_count 0 ;; mret (-1)) Hp1) as (s2 & -> & Hp2).
  { rewrite list_lookup_insert_ne by lia. apply list_lookup_insert_eq. rewrite length_insert. lia. }
  rewrite undo_given in Hp2 by (done || lia). eapply (zero_both _ l f0 f1 files s2 Hne H0 H1).
  eapply piping_ext; [exact Hp2|]. intros g. cbv beta. unfold counted_more, one.
  destruct (decide (g = f0)) as [->|]; [rewrite (decide_True (P := f0 ∈ _)) by set_solver; by rewrite decide_False by done|].
  destruct (decide (g = f1)) as [->|]; [by rewrite decide_True by set_solver|by rewrite decide_False by set_solver].
Qed.

Lemma put_file_comm f g x y s : f <> g ->
  put_file f x (put_file g y s) = put_file g y (put_file f x s).
Proof. intros Hn. unfold put_file. cbn. unfold set_field, set_k_files. cbn. by rewrite list_insert_insert_ne. Qed.

Section two_files.
Context {B : Type} (f0 f1 : nat) (s : kernel) (Hne : f0 <> f1).
Context (H0 : (f0 < length (k_files s))%nat) (H1 : (f1 < length (k_files s))%nat).
Definition two_files (x y : file) : kernel := put_file f1 y (put_file f0 x s).
Lemma st_two0 {A} (g : file -> A) `{!Setter g} v (k : unit -> M kernel B) x y :
  (st f0 g v ≫= k) (two_files x y) = k tt (two_files (set_field g (fun _ => v) x) y).
Proof.
  unfold two_files. rewrite put_file_comm by done. rewrite st_put_file by (cbn; by rewrite length_insert).
  by rewrite put_file_comm.
Qed.
Lemma st_two1 {A} (g : file -> A) `{!Setter g} v (k : unit -> M kernel B) x y :
  (st f1 g v ≫= k) (two_files x y) = k tt (two_files x (set_field g (fun _ => v) y)).
Proof.
  unfold two_files. rewrite st_put_file; [done|]. cbn. by rewrite length_insert.
Qed.
End two_files.

Lemma put_fs_longs v w p (s : kernel) : exists m,
  (put_fs_long v p ;; put_fs_long w (p + 4)) s = Ok tt (set_field k_user (fun _ => m) s).
Proof.
  assert (Hb : forall v a m, put_fs_byte v a (set_field k_user (fun _ => m) s) =
    Ok tt (set_field k_user (fun _ => <[u32 a := u8 v]> m) s)) by reflexivity.
  assert (Hl : forall v a m, exists m', put_fs_long v a (set_field k_user (fun _ => m) s) =
    Ok tt (set_field k_user (fun _ => m') s)).
  { intros v' a m. unfold put_fs_long, mbind, M_bind. eexists. rewrite !Hb. reflexivity. }
  destruct (Hl v p (k_user s)) as [m1 E1], (Hl w (p + 4) m1) as [m2 E2]. exists m2.
  assert (Es : set_field k_user (fun _ => k_user s) s = s) by by destruct s.
  rewrite Es in E1. unfold mbind at 1, M_bind at 1. by rewrite E1.
Qed.

(** The end of [pipe]: the two files are filled in and their numbers stored. *)
Lemma pipe_fills me l fildes (a b f0 f1 inode : nat) s : f0 <> f1 -> holding me l [f0; f1] s ->
  l !! a = Some (Some f0) -> l !! b = Some (Some f1) ->
  exists s2 s' r0 r1, (st f0 f_inode (Some inode) ;; st f1 f_inode (Some inode) ;;
      st f0 f_pos 0 ;; st f1 f_pos 0 ;; st f0 f_mode 1 ;; st f1 f_mode 2 ;;
      put_fs_long (Z.of_nat a) fildes ;; put_fs_long (Z.of_nat b) (fildes + 4) ;; mret 0) s = Ok 0 s' /\
    (put_fs_long (Z.of_nat a) fildes ;; put_fs_long (Z.of_nat b) (fildes + 4)) s2 = Ok tt s' /\
    fd_inv s' /\ k_current s' = me /\ fds_of s' me = Some l /\
    k_files s' !! f0 = Some (File 1 r0 1 (Some inode) 0) /\
    k_files s' !! f1 = Some (File 2 r1 1 (Some inode) 0).
Proof.
  intros Hne Hh Ha Hb. pose proof Hh as [Hd Hcur Hfds _].
  pose proof (fi_filp _ _ Hd _ _ Hfds) as [_ Hlow].
  destruct (holding_file _ _ _ _ f0 Hh ltac:(set_solver) ltac:(by eapply Hlow)) as (x & Hx & Hcx).
  destruct (holding_file _ _ _ _ f1 Hh ltac:(set_solver) ltac:(by eapply Hlow)) as (y & Hy & Hcy).
  pose proof (lookup_lt_Some _ _ _ Hx). pose proof (lookup_lt_Some _ _ _ Hy).
  assert (E : two_files f0 f1 s x y = s).
  { unfold two_files. rewrite (put_file_id f0 x s Hx). by apply put_file_id. }
  set (x' := File 1 (f_flags x) 1 (Some inode) 0). set (y' := File 2 (f_flags y) 1 (Some inode) 0).
  set (s2 := two_files f0 f1 s x' y').
  destruct (put_fs_longs (Z.of_nat a) (Z.of_nat b) fildes s2) as [m Em].
  exists s2, (set_field k_user (fun _ => m) s2), (f_flags x), (f_flags y).
  assert (Hf : k_files s2 !! f0 = Some x' /\ k_files s2 !! f1 = Some y').
  { unfold s2, two_files, put_file. cbn. rewrite list_lookup_insert_ne by done.
    by rewrite !list_lookup_insert_eq by (rewrite ?length_insert; done). }
  assert (Hv : fd_view s2 = fd_view s).
  { unfold fd_view, s2, two_files, put_file. cbn. f_equal. rewrite !list_fmap_insert. cbn.
    rewrite (list_insert_id _ f0) by (by rewrite list_lookup_fmap, Hx; cbn; rewrite Hcx).
    apply list_insert_id. by rewrite list_lookup_fmap, Hy; cbn; rewrite Hcy. }
  split_and!; try apply Hf; try done.
  - rewrite <-E at 1. repeat first [rewrite st_two0 by done | rewrite st_two1 by done].
    match goal with |- _ (two_files f0 f1 s ?X ?Y) = _ =>
      assert (Ex : X = x') by (destruct x; cbn in Hcx; by subst);
      assert (Ey : Y = y') by (destruct y; cbn in Hcy; by subst)
    end.
    rewrite Ex, Ey. fold s2. revert Em. generalize s2. clear. intros s2. unfold mbind, M_bind.
    destruct (put_fs_long (Z.of_nat a) fildes s2) as [[] s3| | | |]; try done. intros ->. done.
  - by apply (fd_off_view _ s).
Qed.

(** [pipe] once it has two files and the descriptors [fd] there were. *)
Section pipe.
Context `{Others} (fildes : Z) (s : kernel) (l : list (option nat)) (f0 f1 : nat).
Context (files : list file) (Hlen : length l = Z.to_nat NR_OPEN) (Hne : f0 <> f1).
Context (Hc0 : exists r, files !! f0 = Some r /\ f_count r = 1) (Hz0 : fd_refs s f0 = 0%nat).
Context (Hc1 : exists r, files !! f1 = Some r /\ f_count r = 1) (Hz1 : fd_refs s f1 = 0%nat).
Context (Hlt0 : (f0 < NR_FILE)%nat) (Hlt1 : (f1 < NR_FILE)%nat).
Definition pipe_post (r : Z) (s' : kernel) : Prop :=
  fd_inv s' /\ k_current s' = k_current s /\
  (r = -1 /\ unchanged_fds l s s' \/ r = 0 /\ piped l fildes s s').

Lemma pipe_failed files' s' : piping (k_current s) l (fun _ => 0) files' s' -> pipe_post (-1) s'.
Proof. intros [G1 G2 G3 _]. split_and!; [done|done|left; by split]. Qed.

Lemma piping_holding l' s1 : piping (k_current s) l' (fun _ => 0) files s1 ->
  holding (k_current s) l' [f0; f1] s1.
Proof.
  intros [G1 G2 G3 G4]. destruct Hc0 as (r0 & Hr0 & E0), Hc1 as (r1 & Hr1 & E1). constructor; try done.
  pose proof (fi_count _ _ G1 f0 1) as C0. pose proof (fi_count _ _ G1 f1 1) as C1.
  rewrite G4, list_lookup_fmap, Hr0 in C0. rewrite G4, list_lookup_fmap, Hr1 in C1. cbn in C0, C1.
  rewrite E0 in C0. rewrite E1 in C1. specialize (C0 eq_refl). specialize (C1 eq_refl).
  repeat constructor; lia.
Qed.
Lemma holding_piping l' s1 : holding (k_current s) l' [f0; f1] s1 ->
  piping (k_current s) l' (fun _ => 0) (k_files s1) s1 /\
  (exists r, k_files s1 !! f0 = Some r /\ f_count r = 1) /\ (exists r, k_files s1 !! f1 = Some r /\ f_count r = 1).
Proof.
  intros Hh. split; [by destruct Hh; constructor|].
  split; eapply holding_file; [exact Hh|set_solver|done|exact Hh|set_solver|done].
Qed.

Lemma sys_pipe_rest fd i s2 : piping (k_current s) (given l f0 f1 fd) (ahead f0 f1 fd) files s2 ->
  first_fds l i fd ->
  kept fd_inv (match fd with
      | [fd0; fd1] =>
          o ← get_pipe_inode;
          match o with
          | None =>
              set_filp fd0 None ;; set_filp fd1 None ;;
              st f0 f_count 0 ;; st f1 f_count 0 ;;
              mret (-1)
          | Some inode =>
              st f0 f_inode (Some inode) ;; st f1 f_inode (Some inode) ;;
              st f0 f_pos 0 ;; st f1 f_pos 0 ;;
              st f0 f_mode 1 ;; st f1 f_mode 2 ;;
              put_fs_long (Z.of_nat fd0) fildes ;;
              put_fs_long (Z.of_nat fd1) (fildes + 4) ;;
              mret 0
          end
      | fd =>
          (match fd with [fd0] => set_filp fd0 None | _ => mret tt end) ;;
          st f0 f_count 0 ;; st f1 f_count 0 ;;
          mret (-1)
      end) pipe_post s2.
Proof.
  intros Hp [Hl Ho Hf Hu].
  destruct fd as [|a [|b [|]]]; cbn [length] in Hl; try lia.
  - destruct (zero_both _ _ _ _ _ s2 Hne Hc0 Hc1 Hp) as (files' & s3 & E & Hp3).
    eapply kept_Ok; [exact E|]. by eapply pipe_failed.
  - rewrite Forall_singleton in Hf. destruct Hf as [_ Ha]. cbn [given ahead] in Hp.
    destruct (unset_filp _ _ _ _ _ a f0 (fun _ => st f0 f_count 0 ;; st f1 f_count 0 ;; mret (-1)) Hp) as (s3 & E3 & Hp3).
    { apply list_lookup_insert_eq. by eapply lookup_lt_Some. }
    rewrite list_insert_insert_eq, list_insert_id in Hp3 by done.
    destruct (zero_both (k_current s) l f0 f1 files s3 Hne Hc0 Hc1) as (files' & s4 & E & Hp4).
    { eapply piping_ext; [exact Hp3|]. intros g. cbv beta. unfold counted_more, one.
      destruct (decide (g = f0)) as [->|]; [rewrite (decide_True (P := f0 ∈ [f0; f1])) by set_solver; by rewrite decide_False by set_solver|].
      destruct (decide (g = f1)) as [->|]; [by rewrite !decide_True by set_solver|by rewrite !decide_False by set_solver]. }
    eapply kept_Ok; [rewrite E3; exact E|]. by eapply pipe_failed.
  - apply Forall_cons in Hf as [[Hai Ha] [[Hbi Hb] _]%Forall_cons]. cbn [given ahead] in Hp.
    apply piping_holding in Hp. pose proof (lookup_lt_Some _ _ _ Ha). pose proof (lookup_lt_Some _ _ _ Hb).
    apply kept_bind. eapply (kept_keeps _ (holding (k_current s) _ [f0; f1]));
      [apply keeps_get_pipe_inode; exact _|apply gives_any|exact Hp|by intros s' []|].
    intros [inode|] s3 _ Hh.
    + destruct (pipe_fills _ _ fildes a b f0 f1 inode s3 Hne Hh) as (s4 & s5 & r0 & r1 & E & Ep & G1 & G2 & G3 & G4 & G5).
      { rewrite list_lookup_insert_ne by lia. by apply list_lookup_insert_eq. }
      { apply list_lookup_insert_eq. by rewrite length_insert. }
      eapply kept_Ok; [exact E|]. split_and!; [done|done|right; split; [done|]].
      exists a, b, f0, f1, inode, r0, r1, s4. split_and!; try done.
      intros k Hk Hka. apply Hu; [lia|set_solver by lia].
    + destruct (holding_piping _ _ Hh) as (Hp3 & Hd0 & Hd1).
      destruct (undo_fds _ _ _ _ _ _ a b Hne Hd0 Hd1 Ha Hb Ho Hp3) as (files' & s4 & E & Hp4).
      eapply kept_Ok; [exact E|]. by eapply pipe_failed.
Qed.
End pipe.

(** C31: [pipe] gives the two lowest free descriptors, one to read and one to
    write the same inode, with files nobody referred to, and stores their
    numbers; when it fails (no two files, no two descriptors, no inode or page)
    the task's descriptors are those it had.  However it ends, the counts are
    the numbers of references. *)
Theorem sys_pipe_spec `{Others} fildes s me :
  fd_inv s -> task_at s (k_current s) = Some me ->
  kept fd_inv (sys_pipe fildes) (fun r s' =>
    fd_inv s' /\ k_current s' = k_current s /\
    (r = -1 /\ unchanged_fds (t_filp me) s s' \/ r = 0 /\ piped (t_filp me) fildes s s')) s.
Proof.
  intros Hd Hme. destruct (fd_running _ _ Hd) as (me0 & E0 & Hlen & Hlow).
  assert (me0 = me) as -> by congruence. set (l := t_filp me) in *.
  assert (Hdone : forall files s', piping (k_current s) l (fun _ => 0) files s' ->
    fd_inv s' /\ k_current s' = k_current s /\ (-1 = -1 /\ unchanged_fds l s s' \/ -1 = 0 /\ piped l fildes s s')).
  { intros files s' [H1 H2 H3 _]. split_and!; [done|done|left; by split]. }
  assert (Hp : piping (k_current s) l (fun _ => 0) (k_files s) s).
  { constructor; try done. by apply fds_of_task. }
  destruct (take_files_run _ _ _ _ Hp) as (fs & s1 & files1 & E1 & Hfs & Hp1 & [Hnd Hff]).
  unfold sys_pipe. eapply kept_bind_Ok; [exact E1|].
  destruct fs as [|f0 [|f1 [|]]]; cbn in Hfs; try lia.
  - apply (kept_Ok _ _ _ _ (-1) s1); [done|]. eapply Hdone, piping_ext; [exact Hp1|]. intros g.
    unfold counted_more. by rewrite decide_False by set_solver.
  - apply Forall_cons in Hff as [(_ & r0 & Hr0 & Hc0) _].
    destruct (zero_count _ _ _ _ _ f0 (fun _ => mret (-1)) r0 Hp1 Hr0 Hc0) as (s2 & E2 & Hp2).
    eapply kept_Ok; [exact E2|]. eapply Hdone, piping_ext; [exact Hp2|]. intros g. cbv beta.
    unfold counted_more, one.
    destruct (decide (g = f0)) as [->|]; [by rewrite decide_True by set_solver|by rewrite decide_False by set_solver].
  - apply NoDup_cons in Hnd as [Hne _]. assert (Hne' : f0 <> f1) by set_solver. clear Hne.
    apply Forall_cons in Hff as [[Hz0 Hr0] [[Hz1 Hr1] _]%Forall_cons].
    assert (Hlt : forall f, (exists r, files1 !! f = Some r /\ f_count r = 1) -> (f < NR_FILE)%nat).
    { intros f (r & Hr & _). rewrite <-(fi_files _ _ (pi_off _ _ _ _ _ Hp1)), (pi_files _ _ _ _ _ Hp1).
      by eapply lookup_lt_Some. }
    destruct (take_fds_run _ _ _ _ f0 f1 Hlen Hne' ltac:(auto) ltac:(auto) Hp1) as (fd & i & s2 & E2 & Hp2 & Hfd).
    eapply kept_bind_Ok; [exact E2|].
    eapply (sys_pipe_rest fildes s l f0 f1 files1); eauto.
Qed.


(** ** fork *)

Definition filp_of (o : option task_struct) : list (option nat) := default [] (t_filp <$> o).
Definition put_slot (nr : nat) (o : option task_struct) (s : kernel) : kernel :=
  set_field k_task (fun l => <[nr := o]> l) s.

(** Replacing an entry of [task[]] moves its descriptors' references. *)
Lemma fd_off_slot d s nr o o' : fd_off d s -> k_task s !! nr = Some o -> nr <> k_current s ->
  (o' <> None -> length (filp_of o') = Z.to_nat NR_OPEN /\
    forall i f, filp_of o' !! i = Some (Some f) -> (f < NR_FILE)%nat) ->
  fd_off (fun f => d f + Z.of_nat (fd_count f (filp_of o)) - Z.of_nat (fd_count f (filp_of o'))) (put_slot nr o' s).
Proof.
  intros [H1 H2 H3 H4 H5] Ho Hne Hv.
  assert (Hfds : forall q, fds_of (put_slot nr o' s) q = if decide (q = nr) then t_filp <$> o' else fds_of s q).
  { intros q. unfold fds_of, put_slot. cbn. rewrite list_fmap_insert. case_decide as Hq.
    - subst q. rewrite list_lookup_insert_eq by (rewrite length_fmap; by eapply lookup_lt_Some). by destruct o'.
    - by rewrite list_lookup_insert_ne. }
  constructor; try done.
  - unfold put_slot. cbn. by rewrite length_insert.
  - change (k_current (put_slot nr o' s)) with (k_current s). rewrite Hfds. by rewrite decide_False.
  - intros q l. rewrite Hfds. case_decide; [|apply H4]. destruct o' as [t|]; [|done]. intros [= <-]. by apply Hv.
  - intros f c Hc. specialize (H5 f c Hc). unfold fd_refs, put_slot in *. cbn. rewrite !list_fmap_insert.
    pose proof (sum_list_insert (fd_count f <$> (default [] <$> (option_map t_filp <$> k_task s))) nr
      (fd_count f (filp_of o)) (fd_count f (filp_of o'))) as Hs.
    rewrite !list_lookup_fmap, Ho in Hs. specialize (Hs ltac:(by destruct o)).
    replace (default [] (option_map t_filp o')) with (filp_of o') by by destruct o'. lia.
Qed.

Lemma fd_refs_slot s nr o f : k_task s !! nr = Some o -> (fd_count f (filp_of o) <= fd_refs s f)%nat.
Proof.
  intros Ho. unfold fd_refs.
  pose proof (sum_list_insert (fd_count f <$> (default [] <$> (option_map t_filp <$> k_task s))) nr
    (fd_count f (filp_of o)) 0) as Hs.
  rewrite !list_lookup_fmap, Ho in Hs. specialize (Hs ltac:(by destruct o)). lia.
Qed.
Lemma fd_count_app f l1 l2 : fd_count f (l1 ++ l2) = (fd_count f l1 + fd_count f l2)%nat.
Proof. unfold fd_count. by rewrite filter_app, length_app. Qed.
Lemma fd_count_cons f o l : fd_count f (o :: l) = (fd_bit o f + fd_count f l)%nat.
Proof. unfold fd_count, fd_bit. rewrite filter_cons. by case_decide. Qed.

Section fork.
Context (nr : nat) (l : list (option nat)).

(** While the child's memory is copied: it has the parent's descriptors, which
    are not counted yet. *)
Record forking (d : nat -> Z) (s : kernel) : Prop := {
  fk_off : fd_off d s;
  fk_child : exists t, k_task s !! nr = Some (Some t) /\ t_filp t = l;
  fk_current : nr <> k_current s;
}.
Definition uncounted (rest : list (option nat)) (f : nat) : Z := - Z.of_nat (fd_count f rest).

Lemma forking_view d s s' : fd_view s' = fd_view s -> forking d s -> forking d s'.
Proof.
  intros Hv [H1 (t & Ht & Hl) H3]. pose proof Hv as [= Hc Htk _]. constructor.
  - by eapply fd_off_view.
  - assert (E : (option_map t_filp <$> k_task s') !! nr = Some (Some l)).
    { rewrite Htk, list_lookup_fmap, Ht. cbn. by rewrite Hl. }
    rewrite list_lookup_fmap in E. destruct (k_task s' !! nr) as [[t'|]|]; cbn in E; try done.
    injection E as E. by exists t'.
  - congruence.
Qed.
(** Nothing here sleeps. *)
#[local] Instance no_env : Env := fun _ _ s => s.
#[local] Instance forking_frame d : Frame (forking d).
Proof.
  split; [intros s s'; apply forking_view|]. intros n s Hs. unfold switch_to. case_decide; [done|].
  eapply forking_view; [|exact Hs]. done.
Qed.
Lemma forking_copy_mem d : keeps (forking d) (copy_mem nr nr).
Proof. unfold copy_mem. keeps. Qed.

Lemma bump_file_forking pre o rest s : forking (uncounted (o :: rest)) s -> l = pre ++ o :: rest ->
  (forall f, o = Some f -> (f < NR_FILE)%nat) ->
  kept (fun _ => True) (bump_file o) (fun _ s' => forking (uncounted rest) s') s.
Proof.
  intros [H1 (t & Ht & Hl) H3] Hpre Ho. destruct o as [f|].
  2: { split; [|by exists t|done]. eapply fd_off_ext; [|exact H1]. intros g. unfold uncounted.
       by rewrite fd_count_cons. }
  destruct (lookup_lt_is_Some_2 (k_files s) f) as [r Hr]. { rewrite (fi_files _ _ H1). auto. }
  pose proof (fi_count _ _ H1 f (f_count r)) as Hc. rewrite list_lookup_fmap, Hr in Hc. specialize (Hc eq_refl).
  pose proof (fd_refs_bound _ _ f H1) as Hb. pose proof (fd_refs_slot s nr (Some t) f Ht) as Hs.
  change (filp_of (Some t)) with (t_filp t) in Hs. rewrite Hl, Hpre, fd_count_app in Hs.
  unfold uncounted in Hc.
  assert (Hu : u16 (f_count r + 1) = f_count r + 1) by (apply u16_small; lia).
  eapply (kept_Ok _ _ _ _ tt (put_file f (set_field f_count (fun _ => f_count r + 1) r) s)).
  { unfold bump_file, upd, updr. cbn [tab file_table]. rewrite Hr. unfold set_field at 1, set_f_count. by rewrite Hu. }
  split; [|by exists t|done].
  eapply fd_off_ext; [|exact (fd_off_count _ s f r (f_count r + 1) H1 Hr)]. intros g. cbv beta.
  unfold uncounted. rewrite fd_count_cons. unfold fd_bit. repeat case_decide; try congruence; lia.
Qed.
Lemma bump_files_forking rest : forall pre s, l = pre ++ rest -> forking (uncounted rest) s ->
  (forall i f, l !! i = Some (Some f) -> (f < NR_FILE)%nat) ->
  kept (fun _ => True) (for_ rest bump_file) (fun _ s' => forking (uncounted []) s') s.
Proof.
  induction rest as [|o rest IH]; intros pre s Hpre Hs Hv; [exact Hs|]. cbn [for_].
  apply kept_bind. eapply kept_mono.
  { apply (bump_file_forking pre o rest s Hs Hpre). intros f ->. apply (Hv (length pre)).
    rewrite Hpre. by apply list_lookup_middle. }
  intros u s' Hs'. apply (IH (pre ++ [o])); [by rewrite <-app_assoc|done|done].
Qed.
(** What is left of [copy_process]: the inodes and the descriptor tables. *)
Lemma fork_finish d p s : forking d s ->
  kept (fun _ => True) (pwd ← cur t_pwd; bump_inode pwd ;;
      root ← cur t_root; bump_inode root ;;
      exe ← cur t_executable; bump_inode exe ;;
      aset k_gdt (2 * nr + FIRST_TSS_ENTRY) (tssldt_desc (p + tss_offset) 0x89) ;;
      aset k_gdt (2 * nr + FIRST_LDT_ENTRY) (tssldt_desc (p + ldt_offset) 0x82) ;;
      tst nr t_state TASK_RUNNING ;;
      gets k_last_pid) (fun r s' => r = k_last_pid s' /\ forking d s') s.
Proof.
  intros Hs. repeat (apply kept_bind; eapply (kept_keeps _ (forking d)); [keeps|apply gives_any|eassumption|done|intros ? ? _ ?]).
  by split.
Qed.
End fork.

(** C27: after [copy_process] the child has its parent's descriptors and every
    file is counted once more for each of them (or, when memory is short, the
    slot is free again and nothing is counted): the counts are the numbers of
    references. *)
Theorem copy_process_counts nr ebp edi esi gs ebx ecx edx fs es ds eip cs eflags esp ss s me :
  fd_inv s -> task_at s (k_current s) = Some me -> k_task s !! nr = Some None ->
  kept (fun _ => True) (copy_process nr ebp edi esi gs ebx ecx edx fs es ds eip cs eflags esp ss)
    (fun r s' => fd_inv s' /\
      (r = - EAGAIN /\ fds_of s' nr = None \/ r = k_last_pid s' /\ fds_of s' nr = Some (t_filp me))) s.
Proof.
  intros Hd Hme Hnr. destruct (fd_running _ _ Hd) as (me0 & E0 & Hlen & Hlow).
  assert (me0 = me) as -> by congruence. set (l := t_filp me) in *.
  assert (Hcur : nr <> k_current s) by (intros ->; unfold task_at in Hme; by rewrite Hnr in Hme).
  assert (Hnone : forall s', k_task s' !! nr = Some None -> fds_of s' nr = None).
  { intros s' E. unfold fds_of. by rewrite list_lookup_fmap, E. }
  unfold copy_process. apply kept_bind.
  eapply (kept_keeps _ (fun s1 => fd_view s1 = fd_view s /\ k_task s1 = k_task s /\ k_current s1 = k_current s));
    [by apply keeps_zoom|apply gives_any|done|done|]. intros p s1 _ (Hv1 & Ht1 & Hc1).
  assert (Hd1 : fd_inv s1) by by eapply fd_off_view.
  destruct (truth p); cbn [negb]; [|split; [done|left; split; [done|apply Hnone; by rewrite Ht1]]].
  assert (Hme1 : task_at s1 (k_current s1) = Some me) by (unfold task_at; by rewrite Ht1, Hc1).
  eapply kept_bind_Ok; [by apply cur_Ok|]. eapply kept_bind_Ok; [done|]. eapply kept_bind_Ok; [done|].
  set (child := child_task _ _ _ _ _ _ _ _ _ _ _ _ _ _ _ _ _ _ _ _).
  eapply (kept_bind_Ok _ _ _ _ _ tt (put_slot nr (Some child) s1)).
  { unfold aset. by rewrite Ht1, Hnr. }
  assert (Hf : forking nr l (uncounted l) (put_slot nr (Some child) s1)).
  { split; [|exists child; split; [|done]|by rewrite <-Hc1 in Hcur].
    - eapply fd_off_ext; [|eapply (fd_off_slot _ s1 nr None (Some child) Hd1); [by rewrite Ht1|by rewrite Hc1|by split]].
      intros f. cbv beta. unfold uncounted. change (filp_of (Some child)) with l.
      change (fd_count f (filp_of None)) with 0%nat. lia.
    - cbn. apply list_lookup_insert_eq. rewrite Ht1. by eapply lookup_lt_Some. }
  apply kept_bind. eapply (kept_keeps _ (forking nr l (uncounted l)));
    [apply forking_copy_mem|apply gives_any|exact Hf|done|]. intros r s2 _ Hs2.
  pose proof Hs2 as [Hs2d (t2 & Ht2 & Hl2) Hs2c].
  destruct (truth r).
  - eapply (kept_bind_Ok _ _ _ _ _ tt (put_slot nr None s2)). { unfold aset. by rewrite Ht2. }
    assert (Hd3 : fd_inv (put_slot nr None s2)).
    { eapply fd_off_ext; [|exact (fd_off_slot _ s2 nr (Some t2) None Hs2d Ht2 Hs2c ltac:(done))].
      intros f. cbv beta. unfold uncounted. change (filp_of (Some t2)) with (t_filp t2). rewrite Hl2.
      change (fd_count f (filp_of None)) with 0%nat. lia. }
    apply kept_bind. eapply (kept_keeps _ (fun s3 => fd_inv s3 /\ k_task s3 !! nr = Some None));
      [apply keeps_zoom; intros t s' [? ?]; split; [apply (fd_off_view _ s'); [reflexivity|assumption]|assumption]|apply gives_any| |done|].
    { split; [exact Hd3|]. cbn. apply list_lookup_insert_eq. by eapply lookup_lt_Some. }
    intros u s3 _ [Hd4 Hn]. split; [exact Hd4|left; split; [done|by apply Hnone]].
  - eapply kept_bind_Ok. { unfold tget, task_at. rewrite Ht2. cbn. by rewrite Hl2. }
    apply kept_bind. eapply kept_mono; [eapply (bump_files_forking nr l l []); [done|exact Hs2|exact Hlow]|].
    intros u s3 Hs3. eapply kept_mono; [exact (fork_finish nr l _ p s3 Hs3)|].
    intros r' s4 [-> [Hs4 (t4 & Ht4 & Hl4) _]]. split; [|right; split; [done|]].
    + eapply fd_off_ext; [|exact Hs4]. done.
    + unfold fds_of. rewrite list_lookup_fmap, Ht4. cbn. by rewrite Hl4.
Qed.

(** ** Witnesses *)

(** Other tasks that open and close nothing are as [Others] says. *)
Lemma others_quiet `{World} : (forall n p s, fd_view (switched_out n p s) = fd_view s) -> Others.
Proof.
  intros Hq.
  assert (Hv : forall n s s', switch_to n s = Ok tt s' -> fd_view s' = fd_view s).
  { intros n s s'. unfold switch_to. case_decide; [by intros [= ->]|]. intros [= <-].
    specialize (Hq (k_switches s) n s). unfold fd_view in *. cbn. injection Hq as _ Ht Hf. by rewrite Ht, Hf. }
  assert (Hk : forall I, (forall s s', fd_view s' = fd_view s -> I s -> I s') -> forall n, keeps I (switch_to n)).
  { intros I HI n s Hs. specialize (Hv n s). unfold switch_to in *. case_decide; [done|].
    eapply HI; [by apply Hv|done]. }
  split; [apply Hk; intros s s'; apply fd_off_view|].
  intros me l fs. apply Hk. intros s s'. apply holding_view.
Qed.
(** A machine on which the clock runs while a task sleeps. *)
#[local] Instance clock_world : World := {|
  world_env := fun _ _ s => set_field k_jiffies (fun j => j + 1) s;
  world_hardware := fun _ _ => 0; patience := 10 |}.
#[local] Instance clock_others : Others. Proof. by apply others_quiet. Qed.

Definition fd_boot : kernel := boot_kernel 0 0.
Definition fd_task : task_struct := INIT_TASK 0.
Lemma fd_boot_inv : fd_inv fd_boot.
Proof.
  assert (Hfds : forall p l, fds_of fd_boot p = Some l -> l = replicate 20 None).
  { intros [|p] l; [by intros [= <-]|]. unfold fds_of, fd_boot. change (k_task (boot_kernel 0 0)) with (Some (INIT_TASK 0) :: replicate 63 (@None task_struct)).
    rewrite fmap_cons, fmap_replicate.
    change ((_ :: replicate 63 (option_map t_filp None)) !! S p) with (replicate 63 (option_map t_filp None) !! p).
    destruct (replicate 63 (option_map t_filp None) !! p) as [o|] eqn:E; [|done].
    apply lookup_replicate in E as [-> _]. done. }
  constructor; [done|done|by eexists| |].
  - intros p l ->%Hfds. split; [done|]. intros i f [? _]%lookup_replicate. done.
  - intros f c Hc. change (f_count <$> k_files fd_boot) with (replicate 64 0) in Hc.
    apply lookup_replicate in Hc as [-> _]. assert (E : fd_refs fd_boot f = 0%nat); [|by rewrite E].
    unfold fd_refs, fd_boot. change (k_task (boot_kernel 0 0)) with (Some (INIT_TASK 0) :: replicate 63 (@None task_struct)).
    rewrite !fmap_cons, !fmap_replicate. cbn [sum_list default from_option option_map id t_filp INIT_TASK].
    assert (Hn : forall n, fd_count f (replicate n (@None nat)) = 0%nat).
    { intros n. unfold fd_count. induction n as [|n IH]; [done|]. cbn [replicate].
      rewrite filter_cons_False by done. done. }
    rewrite Hn. change (fd_count f []) with 0%nat. reflexivity.
Qed.
(** Descriptors 0 and 1 refer to file 3. *)
Definition fd_demo : kernel :=
  put_file 3 (File 0 0 2 None 0)
    (put_task 0 (set_field t_filp (fun _ => Some 3%nat :: Some 3%nat :: replicate 18 None) fd_task) fd_boot).
Lemma fd_demo_inv : fd_inv fd_demo.
Proof.
  pose proof (fd_inv_add fd_boot fd_task 0 3 zero_file fd_boot_inv eq_refl eq_refl eq_refl) as H1.
  cbv beta in H1.
  set (t1 := set_field t_filp (fun l => <[0%nat := Some 3%nat]> l) fd_task).
  pose proof (fd_inv_add _ t1 1 3 (File 0 0 1 None 0) H1 eq_refl eq_refl eq_refl) as H2.
  exact H2.
Qed.

Definition fd_demo_task : task_struct :=
  set_field t_filp (fun _ => Some 3%nat :: Some 3%nat :: replicate 18 None) fd_task.
Lemma dupfd_spec_witness :
  wp (dupfd 1 5) (fun r s' => r = 5 /\ fd_inv s' /\ fds_of s' 0 = Some (Some 3 :: Some 3 :: None :: None :: None :: Some 3 :: replicate 14 None)%nat) fd_demo.
Proof.
  eapply wp_mono; [apply (dupfd_spec 1 5 fd_demo fd_demo_task fd_demo_inv eq_refl)|].
  intros r s' [Hi H]. change (open_file (t_filp fd_demo_task) 1) with (Some 3%nat) in H.
  destruct H as [(H & _)|[(_ & _ & _ & H)|(n & file & -> & Hn & Hfree & Hbelow & _ & ->)]].
  - change (20 <= 5) in H. lia.
  - destruct (H 6%nat ltac:(change (5 <= 6 < 20); lia)) as [g Hg]. done.
  - change (5 <= Z.of_nat n < 20) in Hn. assert (n = 5%nat) as ->.
    { destruct (decide (n = 5%nat)) as [|Hne]; [done|].
      destruct (Hbelow 5%nat ltac:(change (5 <= 5 < Z.of_nat n); lia)) as [g Hg]. done. }
    by split_and!.
Defined.
Lemma sys_close_spec_witness :
  (exists s1, fd_inv s1 /\ sys_close 1 fd_demo = Ok 0 s1) /\
  (exists s', sys_close 7 fd_demo = Ok (- EINVAL) s' /\ fd_view s' = fd_view fd_demo).
Proof.
  split.
  - destruct (sys_close_spec 1 fd_demo fd_demo_task fd_demo_inv eq_refl) as [_ H].
    change (open_file (t_filp fd_demo_task) 1) with (Some 3%nat) in H. cbv iota beta in H.
    destruct H as (file & _ & Hr & E). exists (released fd_demo fd_demo_task 1 3 file). split; [exact Hr|].
    rewrite E. assert (Hn : (fd_refs fd_demo 3 =? 1)%nat = false) by (vm_compute; reflexivity). by rewrite Hn.
  - apply (sys_close_spec 7 fd_demo fd_demo_task fd_demo_inv eq_refl).
Defined.
Lemma sys_open_spec_witness :
  kept fd_inv (sys_open 0x1000 0 0) (fun r s' =>
    r < 0 /\ fds_of s' 0 = Some (t_filp fd_demo_task) \/
    r = 2 /\ exists f, fds_of s' 0 = Some (Some 3%nat :: Some 3%nat :: Some f :: replicate 17 None)) fd_demo.
Proof.
  eapply kept_mono; [apply (sys_open_spec 0x1000 0 0 fd_demo fd_demo_task fd_demo_inv eq_refl)|].
  intros r s' (_ & _ & [[Hr Hu]|(fd & f & inode & i & -> & Hfree & Hlow & _ & Hfds & _)]); [left; by split|right].
  assert (fd = 2%nat) as ->.
  { destruct (decide (fd < 2)%nat) as [Hlt|]; [destruct fd as [|[|]]; [done..|lia]|].
    destruct (decide (fd = 2%nat)) as [|]; [done|]. destruct (Hlow 2%nat ltac:(lia)) as [g Hg]. done. }
  split; [done|]. exists f. exact Hfds.
Defined.
Lemma sys_pipe_spec_witness :
  kept fd_inv (sys_pipe 0x2000) (fun r s' => fd_inv s' /\
    (r = -1 \/ r = 0 /\ exists f g, fds_of s' 0 = Some (Some 3%nat :: Some 3%nat :: Some f :: Some g :: replicate 16 None))) fd_demo.
Proof.
  eapply kept_mono; [apply (sys_pipe_spec 0x2000 fd_demo fd_demo_task fd_demo_inv eq_refl)|].
  intros r s' (Hi & _ & [[Hr _]|[Hr (a & b & f0 & f1 & inode & r0 & r1 & s2 & Hab & Ha & Hb & Hlow & _ & _ & Hfds & _)]]);
    (split; [exact Hi|]); [by left|right]. split; [done|].
  assert (a = 2%nat) as ->.
  { destruct (decide (a < 2)%nat) as [Hlt|]; [destruct a as [|[|]]; [done..|lia]|].
    destruct (decide (a = 2%nat)) as [|]; [done|]. destruct (Hlow 2%nat ltac:(lia) ltac:(done)) as [g Hg]. done. }
  assert (b = 3%nat) as ->.
  { destruct (decide (b = 3%nat)) as [|]; [done|]. destruct (Hlow 3%nat ltac:(lia) ltac:(lia)) as [g Hg]. done. }
  exists f0, f1. exact Hfds.
Defined.
Lemma copy_process_counts_witness :
  kept (fun _ => True) (copy_process 1 0 0 0 0 0 0 0 0 0 0 0 0 0 0 0)
    (fun r s' => fd_inv s' /\ (r = - 11 \/ fds_of s' 1 = Some (t_filp fd_demo_task))) fd_demo.
Proof.
  eapply kept_mono; [apply (copy_process_counts 1 0 0 0 0 0 0 0 0 0 0 0 0 0 0 0 fd_demo fd_demo_task fd_demo_inv eq_refl eq_refl)|].
  intros r s' [Hi [[-> _]|[_ H]]]; (split; [exact Hi|]); [by left|by right].
Defined.
