(* ===== verification/Mount.v ===== *)
(** * fs/super.c, third part: mount, umount, the root file system *)

From S2P Require Import Prelude Kernel Sched Memory Blk LLRwBlk Buffer SuperBase Bitmap Inode Super Namei Tty.

Section with_world.
Context `{World}.

(** Whether an inode of [dev] is in use. *)
Definition dev_in_use (dev : Z) : M kernel bool :=
  o ← for_break (seq 0 NR_INODE) (fun i =>
        d ← i->>i_dev; c ← i->>i_count;
        mret (if (d =? dev) && truth c then Some tt else None));
  mret (bool_decide (o = Some tt)).

Definition sys_umount (dev_name : Z) : M kernel Z :=
  o ← namei dev_name;
  match o with
  | None => mret (- ENOENT)
  | Some inode =>
      dev ← zone inode 0;
      m ← inode->>i_mode;
      if negb (S_ISBLK m) then iput (Some inode) ;; mret (- ENOTBLK)
      else
        iput (Some inode) ;;
        root ← gets k_ROOT_DEV;
        if dev =? root then mret (- EBUSY)
        else
          o ← get_super dev;
          match o with
          | None => mret (- ENOENT)
          | Some sb =>
              o ← sb->>s_imount;
              match o with
              | None => mret (- ENOENT)
              | Some mi =>
                  busy ← dev_in_use dev;
                  if (busy : bool) then mret (- EBUSY)
                  else
                    st mi i_mount 0 ;;
                    iput (Some mi) ;;
                    st sb s_imount None ;;
                    o ← sb->>s_isup;
                    iput o ;;
                    st sb s_isup None ;;
                    put_super dev ;;
                    sync_dev dev ;;
                    mret 0
              end
          end
  end.

Definition sys_mount (dev_name dir_name rw_flag : Z) : M kernel Z :=
  o ← namei dev_name;
  match o with
  | None => mret (- ENOENT)
  | Some dev_i =>
      dev ← zone dev_i 0;
      m ← dev_i->>i_mode;
      if negb (S_ISBLK m) then iput (Some dev_i) ;; mret (- EPERM)
      else
        iput (Some dev_i) ;;
        o ← namei dir_name;
        match o with
        | None => mret (- ENOENT)
        | Some dir_i =>
            let fail e := iput (Some dir_i) ;; mret (- e) in
            c ← dir_i->>i_count; num ← dir_i->>i_num; m ← dir_i->>i_mode;
            if negb (c =? 1) || (num =? ROOT_INO) then fail EBUSY
            else if negb (S_ISDIR m) then fail EPERM
            else
              o ← read_super dev;
              match o with
              | None => fail EBUSY
              | Some sb =>
                  o ← sb->>s_imount; mnt ← dir_i->>i_mount;
                  match o with
                  | Some _ => fail EBUSY
                  | None =>
                      if truth mnt then fail EPERM
                      else
                        st sb s_imount (Some dir_i) ;;
                        st dir_i i_mount 1 ;;
                        st dir_i i_dirt 1 ;;
                        mret 0
                  end
              end
        end
  end.

(** Every bit that [mount_root] finds clear is set by its own counting; the
    counts are only printed. *)
Definition count_free (n : Z) (sb : nat) (f : super_block -> list (option nat)) : M kernel unit :=
  for_ (rev (seqZ 0 n)) (fun i =>
    l ← getf sb f;
    o ← map_slot l (Z.shiftr i 13);
    bh ← deref o;
    upd bh b_data (fun d => snd (set_bit (Z.land i 8191) d))).

Definition mount_root : M kernel unit :=
  for_ (seq 0 NR_FILE) (fun i => st i f_count 0) ;;
  root ← gets k_ROOT_DEV;
  when (MAJOR root =? 2) wait_for_keypress ;;
  for_ (seq 0 NR_SUPER) (fun p =>
    st p s_dev 0 ;; st p s_lock 0 ;; st p s_wait None) ;;
  o ← read_super root;
  match o with
  | None => panic "Unable to mount root"
  | Some p =>
      mi ← iget root ROOT_INO;
      upd mi i_count (fun c => u16 (c + 3)) ;;
      st p s_imount (Some mi) ;;
      st p s_isup (Some mi) ;;
      cst t_pwd (Some mi) ;;
      cst t_root (Some mi) ;;
      nz ← p->>s_nzones;
      count_free nz p s_zmap ;;
      ni ← p->>s_ninodes;
      count_free (ni + 1) p s_imap
  end.
End with_world.
