(* ===== verification/Exec.v ===== *)
(** * fs/exec.c: executing programs

    The fs segment register selects the memory the user-access functions read.
    [k_user] is the memory of the user segment; strings of the kernel segment
    (the first line of a script, [filename] itself) are lists of bytes, and
    [with_fs] is [set_fs(get_ds()) ... set_fs(old_fs)] around code that reads
    one of them. *)

From S2P Require Import Prelude Kernel Sched Memory Fork Blk LLRwBlk Buffer Bitmap Inode Namei Tty Pipe FileIo Open.

Definition MAX_ARG_PAGES : Z := 32.
Definition S_ISUID : Z := 0x800.
Definition S_ISGID : Z := 0x400.
Definition ZMAGIC : Z := 0x10b.

(** include/a.out.h: [struct exec]. *)
Record exec := Exec {
  a_magic : Z;
  a_text : Z;
  a_data : Z;
  a_bss : Z;
  a_syms : Z;
  a_entry : Z;
  a_trsize : Z;
  a_drsize : Z }.
Definition read_exec (l : list Z) : exec :=
  Exec (get32 l 0) (get32 l 4) (get32 l 8) (get32 l 12) (get32 l 16) (get32 l 20) (get32 l 24) (get32 l 28).
(** [SEGMENT_SIZE] is 1024 and [struct exec] has 32 bytes. *)
Definition N_TXTOFF (x : exec) : Z := if a_magic x =? ZMAGIC then 1024 - 32 + 32 else 32.

(** ** The tables on the new stack *)

(** [while (get_fs_byte(p++)) /* nothing */ ;] *)
Definition skip_string (p : Z) : M kernel Z :=
  fuel ← gets (fun s => S (size (k_user s)));
  loop fuel (fun p =>
    c ← get_fs_byte p;
    if truth c then mret (inl (p + 1)) else mret (inr (p + 1))) p.
(** [while (n-->0) { put_fs_long(p,table++); skip the string }; put_fs_long(0,table)] *)
Fixpoint string_table (n : nat) (p table : Z) : M kernel Z :=
  match n with
  | O => put_fs_long 0 table ;; mret p
  | S n' => put_fs_long p table ;; p ← skip_string p; string_table n' p (table + 4)
  end.
Definition create_tables (p argc envc : Z) : M kernel Z :=
  let envp := Z.land 0xfffffffc p - 4 * (envc + 1) in
  let argv := envp - 4 * (argc + 1) in
  put_fs_long envp (argv - 4) ;;
  put_fs_long argv (argv - 8) ;;
  put_fs_long argc (argv - 12) ;;
  p ← string_table (Z.to_nat argc) p argv;
  string_table (Z.to_nat envc) p envp ;;
  mret (u32 (argv - 12)).

Definition count (argv : Z) : M kernel Z :=
  if truth argv then
    fuel ← gets (fun s => S (size (k_user s)));
    loop fuel (fun i =>
      v ← get_fs_long (argv + 4 * i);
      if truth v then mret (inl (i + 1)) else mret (inr i)) 0
  else mret 0.

(** ** copy_strings *)

(** Where a string to copy is: in the user segment or in the kernel's. *)
Inductive str_src :=
| UserStr (tmp : Z)
| KernelStr (l : list Z).
Definition src_byte (src : str_src) (i : Z) : M kernel Z :=
  match src with
  | UserStr tmp => get_fs_byte (tmp + i)
  | KernelStr l => mret (default 0 (l !! Z.to_nat i))
  end.
(** [len=0; do { len++; } while (get_fs_byte(tmp++));] *)
Definition src_length (src : str_src) : M kernel Z :=
  fuel ← gets (fun s => (S (size (k_user s)) + match src with UserStr _ => 0 | KernelStr l => length l end)%nat);
  loop fuel (fun len =>
    c ← src_byte src len;
    if truth c then mret (inl (len + 1)) else mret (inr (len + 1))) 0.

(** The page of the argument area that holds offset [p], allocated when it is
    not there. *)
Definition arg_page (page : list Z) (p : Z) : M kernel (option (Z * list Z)) :=
  let i := Z.to_nat (p / PAGE_SIZE) in
  pag ← deref (page !! i);
  if truth pag then mret (Some (pag, page))
  else
    pag ← mm get_free_page;
    if truth pag then mret (Some (pag, <[i := pag]> page)) else mret None.

(** The loop variables: the destination, the offset in the current page, that
    page and the table of pages. *)
Record copy_state := CopyState {
  cp_p : Z;
  cp_offset : Z;
  cp_pag : Z;
  cp_page : list Z }.
(** [--p; --tmp; --len; if (--offset < 0) ...; *(pag + offset) = get_fs_byte(tmp);]:
    byte [i] of the string; [inl page] when memory is short. *)
Definition copy_byte (src : str_src) (i : Z) (st : copy_state) : M kernel (list Z + copy_state) :=
  let p := u32 (cp_p st - 1) in
  let offset := cp_offset st - 1 in
  r ← (if offset <? 0 then
         o ← arg_page (cp_page st) p;
         mret (match o with
               | Some (pag, page) => inr (CopyState p (p mod PAGE_SIZE) pag page)
               | None => inl (cp_page st)
               end)
       else mret (inr (CopyState p offset (cp_pag st) (cp_page st))));
  match r with
  | inl page => mret (inl page)
  | inr st =>
      c ← src_byte src i;
      modify (set_field k_mm (set_field words (set_phys_byte (cp_pag st + cp_offset st) c))) ;;
      mret (inr st)
  end.
(** [while (len) ...] *)
Fixpoint copy_bytes (len : nat) (src : str_src) (st : copy_state) : M kernel (list Z + copy_state) :=
  match len with
  | O => mret (inr st)
  | S i =>
      r ← copy_byte src (Z.of_nat i) st;
      match r with
      | inl page => mret (inl page)
      | inr st => copy_bytes i src st
      end
  end.
(** [while (argc-- > 0) ...], where [fetch argc] reads [argv[argc]]. *)
Fixpoint copy_args (argc : nat) (fetch : Z -> M kernel str_src) (st : copy_state) : M kernel (list Z + copy_state) :=
  match argc with
  | O => mret (inr st)
  | S argc' =>
      src ← fetch (Z.of_nat argc');
      match src with
      | UserStr 0 => panic "argc is wrong"
      | _ =>
          len ← src_length src;
          (* [p-len < 0] is a comparison of unsigned numbers *)
          if u32 (cp_p st - len) <? 0 then mret (inl (cp_page st))
          else
            r ← copy_bytes (Z.to_nat len) src st;
            match r with
            | inl page => mret (inl page)
            | inr st => copy_args argc' fetch st
            end
      end
  end.
(** The result is the new [p], 0 on failure, and the table of pages. *)
Definition copy_strings (argc : Z) (fetch : Z -> M kernel str_src) (page : list Z) (p : Z) :
    M kernel (Z * list Z) :=
  if negb (truth p) then mret (0, page)
  else
    r ← copy_args (Z.to_nat argc) fetch (CopyState p 0 0 page);
    mret (match r with inl page => (0, page) | inr st => (cp_p st, cp_page st) end).
(** [from_kmem] 0: array and strings in user space. *)
Definition user_argv (argv : Z) (i : Z) : M kernel str_src :=
  a ← get_fs_long (argv + 4 * i); mret (UserStr a).

(** ** The new segments *)

(** The user memory the pages of the argument area make up. *)
Definition argument_memory (m : mm_state) (page : list Z) (data_base : Z) : gmap Z Z :=
  foldr (fun '(i, pag) u =>
    if truth pag then
      foldr (fun k u => <[data_base + PAGE_SIZE * Z.of_nat i + k := phys_byte m (pag + k)]> u) u (seqZ 0 PAGE_SIZE)
    else u) ∅ (zip (seq 0 (length page)) page).

Definition change_ldt (text_size : Z) (page : list Z) : M kernel Z :=
  let code_limit := Z.land (u32 (text_size + PAGE_SIZE - 1)) 0xFFFFF000 in
  let data_limit := 0x4000000 in
  l1 ← cur_ldt 1; l2 ← cur_ldt 2;
  let code_base := get_base l1 in
  let data_base := code_base in
  cupd t_ldt (fun l => <[1%nat := set_limit code_limit (set_base code_base l1)]> l) ;;
  cupd t_ldt (fun l => <[2%nat := set_limit data_limit (set_base data_base l2)]> l) ;;
  (* fs points to the new data segment, whose pages are the arguments *)
  m ← gets k_mm;
  setg k_user (argument_memory m page (data_limit - MAX_ARG_PAGES * PAGE_SIZE)) ;;
  for_ (rev (zip (seq 0 (length page)) page)) (fun '(i, pag) =>
    when (truth pag)
      (mm (put_page pag (u32 (data_base + data_limit - PAGE_SIZE * (MAX_ARG_PAGES - Z.of_nat i)))) ;; mret tt)) ;;
  mret data_limit.

(** ** The first line of a script *)

(** A C string in a buffer: the bytes before the first zero. *)
Fixpoint c_str (l : list Z) : list Z :=
  match l with
  | c :: l' => if c =? 0 then [] else c :: c_str l'
  | [] => []
  end.
Definition blank (c : Z) : bool := (c =? 32) || (c =? 9).
Fixpoint skip_blanks (l : list Z) : list Z :=
  match l with
  | c :: l' => if blank c then skip_blanks l' else l
  | [] => []
  end.
(** The part of [l] before the first character [f] holds for, and the rest
    from it on. *)
Fixpoint split_at (f : Z -> bool) (l : list Z) : list Z * list Z :=
  match l with
  | c :: l' => if f c then ([], l) else let '(a, b) := split_at f l' in (c :: a, b)
  | [] => ([], [])
  end.
(** [i_name]: what follows the last '/' of the interpreter's name. *)
Fixpoint last_component (name l : list Z) : list Z :=
  match l with
  | c :: l' => last_component (if c =? 47 then l' else name) l'
  | [] => name
  end.
(** The interpreter's path, its name and the optional argument in the first
    line of [data], which starts with "#!"; [None] when there is no name. *)
Definition parse_interp (data : list Z) : option (list Z * list Z * option (list Z)) :=
  let buf := c_str (take 1022 (drop 2 data)) in
  match split_at (fun c => c =? 10) buf with
  | (_, []) => None
  | (line, _ :: _) =>
      let cp := skip_blanks line in
      match cp with
      | [] => None
      | _ =>
          let '(interp, rest) := split_at blank cp in
          let i_arg := match rest with [] => None | _ :: arg => Some arg end in
          Some (interp, last_component interp interp, i_arg)
      end
  end.

(** ** do_execve *)

(** The registers the system call returns with: [eip[0]] and [eip[3]]. *)
Record regs := Regs { r_eip : Z; r_esp : Z }.

Section with_world.
Context `{World}.

(** [old_fs = get_fs(); set_fs(get_ds()); m; set_fs(old_fs)], where [m] reads
    the kernel string [l]; it lies at address [at_]. *)
Definition with_fs {A} (at_ : Z) (l : list Z) (m : M kernel A) : M kernel A :=
  user ← gets k_user;
  setg k_user (list_to_map (zip ((fun k => u32 (at_ + k)) <$> seqZ 0 (Z.of_nat (length l))) l)) ;;
  r ← m;
  setg k_user user ;;
  mret r.

(** Whether the file may be executed, and the identity of the new process. *)
Definition exec_identity (ino : nat) : M kernel (Z * Z * bool) :=
  i ← ld ino; euid ← cur t_euid; egid ← cur t_egid; su ← suser;
  let e_uid := if truth (Z.land (i_mode i) S_ISUID) then i_uid i else euid in
  let e_gid := if truth (Z.land (i_mode i) S_ISGID) then i_gid i else egid in
  let mode := if euid =? i_uid i then Z.shiftr (i_mode i) 6
              else if egid =? i_gid i then Z.shiftr (i_mode i) 3 else i_mode i in
  mret (e_uid, e_gid, truth (Z.land mode 1) || (truth (Z.land (i_mode i) 0x49) && su)).

(** What one pass over [restart_interp] comes to: an error with or without
    the inode to put, the interpreter to go on with, or a program to load. *)
Inductive exec_result :=
| ExecError2 (retval : Z) (ino : nat) (page : list Z)
| ExecError1 (retval : Z) (page : list Z)
| Restart (ino : nat) (page : list Z) (p argc : Z)
| Load_ (ino : nat) (page : list Z) (p argc e_uid e_gid : Z) (ex : exec).

(** The arguments of an interpreter: environment and arguments of the script
    (the first time), the script, the optional argument, the name. *)
Definition interp_strings (sh_bang : bool) (filename argv envp : Z) (i_name : list Z) (i_arg : option (list Z))
    (page : list Z) (p argc envc : Z) : M kernel (Z * list Z * Z) :=
  '(p, page, argc) ← (if sh_bang then mret (p, page, argc)
                      else
                        '(p, page) ← copy_strings envc (user_argv envp) page p;
                        '(p, page) ← copy_strings (argc - 1) (user_argv (argv + 4)) page p;
                        mret (p, page, argc - 1));
  '(p, page) ← copy_strings 1 (fun _ => mret (UserStr filename)) page p;
  '(p, page, argc) ← (match i_arg with
                      | Some arg =>
                          '(p, page) ← copy_strings 1 (fun _ => mret (KernelStr (arg ++ [0]))) page p;
                          mret (p, page, argc + 2)
                      | None => mret (p, page, argc + 1)
                      end);
  '(p, page) ← copy_strings 1 (fun _ => mret (KernelStr (i_name ++ [0]))) page p;
  mret (p, page, argc + 1).

(** The header's checks. *)
Definition bad_header (ex : exec) (i_size : Z) : bool :=
  negb (a_magic ex =? ZMAGIC) || truth (a_trsize ex) || truth (a_drsize ex) ||
  (0x3000000 <? u32 (a_text ex + a_data ex + a_bss ex)) ||
  (i_size <? u32 (a_text ex + a_data ex + a_syms ex + N_TXTOFF ex)).

(** From [restart_interp] to the point of no return; [kbuf] is the address of
    [buf], on the kernel stack. *)
Definition exec_pass (kbuf : Z) (sh_bang : bool) (filename argv envp : Z) (ino : nat) (page : list Z)
    (p argc envc : Z) : M kernel exec_result :=
  mode ← ino->>i_mode;
  if negb (S_ISREG mode) then mret (ExecError2 (- EACCES) ino page)
  else
    '(e_uid, e_gid, ok) ← exec_identity ino;
    if negb ok then mret (ExecError2 (- ENOEXEC) ino page)
    else
      dev ← ino->>i_dev; z ← zone ino 0;
      o ← bread dev z;
      match o with
      | None => mret (ExecError2 (- EACCES) ino page)
      | Some bh =>
          data ← bh->>b_data;
          let ex := read_exec data in
          if (byte_at data 0 =? 35) && (byte_at data 1 =? 33) && negb sh_bang then
            brelse (Some bh) ;;
            iput (Some ino) ;;
            match parse_interp data with
            | None => mret (ExecError1 (- ENOEXEC) page)
            | Some (interp, i_name, i_arg) =>
                '(p, page, argc) ← interp_strings sh_bang filename argv envp i_name i_arg page p argc envc;
                if negb (truth p) then mret (ExecError1 (- ENOMEM) page)
                else
                  o ← with_fs kbuf (interp ++ [0]) (namei kbuf);
                  match o with
                  | None => mret (ExecError1 (- ENOENT) page)
                  | Some ino => mret (Restart ino page p argc)
                  end
            end
          else
            brelse (Some bh) ;;
            size ← ino->>i_size;
            if bad_header ex size then mret (ExecError2 (- ENOEXEC) ino page)
            else if negb (N_TXTOFF ex =? BLOCK_SIZE) then mret (ExecError2 (- ENOEXEC) ino page)
            else if sh_bang then mret (Load_ ino page p argc e_uid e_gid ex)
            else
              '(p, page) ← copy_strings envc (user_argv envp) page p;
              '(p, page) ← copy_strings argc (user_argv argv) page p;
              if negb (truth p) then mret (ExecError2 (- ENOMEM) ino page)
              else mret (Load_ ino page p argc e_uid e_gid ex)
      end.

(** [while (i&0xfff) put_fs_byte(0,i++);] *)
Definition clear_to_page (i : Z) : M kernel unit :=
  for_ (seqZ i ((4096 - i mod 4096) mod 4096)) (fun a => put_fs_byte 0 a).

(** From the point of no return to the end. *)
Definition exec_load (ino : nat) (page : list Z) (p argc envc e_uid e_gid : Z) (ex : exec) : M kernel regs :=
  old ← cur t_executable;
  (match old with Some _ => iput old | None => mret tt end) ;;
  cst t_executable (Some ino) ;;
  cupd t_sigaction (fmap (set_field sa_handler (fun _ => 0))) ;;
  for_ (seq 0 (Z.to_nat NR_OPEN)) (fun i =>
    c ← cur t_close_on_exec;
    when (Z.testbit c (Z.of_nat i)) (sys_close (Z.of_nat i) ;; mret tt)) ;;
  cst t_close_on_exec 0 ;;
  l1 ← cur_ldt 1; mm (free_page_tables (get_base l1) (get_limit l1)) ;;
  l2 ← cur_ldt 2; mm (free_page_tables (get_base l2) (get_limit l2)) ;;
  math ← gets k_last_task_used_math; me ← gets k_current;
  when (bool_decide (math = Some me)) (setg k_last_task_used_math None) ;;
  cst t_used_math 0 ;;
  limit ← change_ldt (a_text ex) page;
  p ← create_tables (u32 (p + limit - MAX_ARG_PAGES * PAGE_SIZE)) argc envc;
  let end_code := a_text ex in
  let end_data := u32 (a_data ex + end_code) in
  cst t_end_code end_code ;;
  cst t_end_data end_data ;;
  cst t_brk (u32 (a_bss ex + end_data)) ;;
  cst t_start_stack (Z.land p 0xfffff000) ;;
  cst t_euid (u16 e_uid) ;;
  cst t_egid (u16 e_gid) ;;
  clear_to_page (u32 (a_text ex + a_data ex)) ;;
  mret (Regs (a_entry ex) p).

Definition exec_error1 (retval : Z) (page : list Z) : M kernel (Z + regs) :=
  for_ page (fun p => mm (free_page p)) ;;
  mret (inl retval).
Definition exec_finish (envc : Z) (r : exec_result) : M kernel (Z + regs) :=
  match r with
  | ExecError2 retval ino page => iput (Some ino) ;; exec_error1 retval page
  | ExecError1 retval page => exec_error1 retval page
  | Load_ ino page p argc e_uid e_gid ex =>
      r ← exec_load ino page p argc envc e_uid e_gid ex; mret (inr r)
  | Restart _ _ _ _ => fault
  end.

(** [cs] is [eip[1]]; the answer is an error or the registers of the new
    program (with return value 0). *)
Definition do_execve (kbuf cs filename argv envp : Z) : M kernel (Z + regs) :=
  if negb (Z.land 0xffff cs =? 0x000f) then panic "execve called from supervisor mode"
  else
    let page := replicate (Z.to_nat MAX_ARG_PAGES) 0 in
    o ← namei filename;
    match o with
    | None => mret (inl (- ENOENT))
    | Some ino =>
        argc ← count argv;
        envc ← count envp;
        r ← exec_pass kbuf false filename argv envp ino page (PAGE_SIZE * MAX_ARG_PAGES - 4) argc envc;
        match r with
        | Restart ino page p argc =>
            r ← exec_pass kbuf true filename argv envp ino page p argc envc;
            exec_finish envc r
        | _ => exec_finish envc r
        end
    end.
End with_world.
