(* ===== verification/Exit.v ===== *)
(** * kernel/exit.c: the end of a process, kill, waitpid *)

From S2P Require Import Prelude Kernel Sched Memory Fork Blk LLRwBlk Buffer Bitmap Inode Tty Pipe FileIo Open.

Definition WNOHANG : Z := 1.
Definition WUNTRACED : Z := 2.

(** The rest of [send_sig] for a task that is there. *)
Definition send_sig (sig : Z) (p : nat) (priv : bool) : M kernel Z :=
  o ← aget k_task p;
  match o with
  | None => mret (- EINVAL)
  | Some t =>
      if (sig <? 1) || (32 <? sig) then mret (- EINVAL)
      else
        e ← cur t_euid; su ← suser;
        if priv || (e =? t_euid t) || su then
          tupd p t_signal (fun s => Z.lor s (sigbit sig)) ;; mret 0
        else mret (- EPERM)
  end.

Definition kill_session : M kernel unit :=
  session ← cur t_session;
  for_ tasks_down (tmap (fun t =>
    if t_session t =? session then set_field t_signal (fun s => Z.lor s (sigbit SIGHUP)) t else t)).

(** [while (--p > &FIRST_TASK) if ( *p && sel( *p )) if (err=send_sig(sig,*p,priv)) retval = err;] *)
Fixpoint kill_selected (l : list nat) (sel : task_struct -> bool) (sig : Z) (priv : bool)
    (retval : Z) : M kernel Z :=
  match l with
  | [] => mret retval
  | p :: l' =>
      o ← aget k_task p;
      match o with
      | Some t =>
          if sel t then
            err ← send_sig sig p priv;
            kill_selected l' sel sig priv (if truth err then err else retval)
          else kill_selected l' sel sig priv retval
      | None => kill_selected l' sel sig priv retval
      end
  end.

(** The branch for pid -1: the [else] belongs to the inner [if], so after the
    first signal that could be sent the rest of the tasks is left to the loop
    that was meant for process groups. *)
Fixpoint kill_all (l : list nat) (pid sig : Z) (retval : Z) : M kernel Z :=
  match l with
  | [] => mret retval
  | p :: l' =>
      err ← send_sig sig p false;
      if truth err then kill_all l' pid sig err
      else kill_selected l' (fun t => t_pgrp t =? - pid) sig false retval
  end.

(** A pid below -1 selects nothing: the last loop is not reached. *)
Definition sys_kill (pid sig : Z) : M kernel Z :=
  if negb (truth pid) then
    me ← cur t_pid;
    kill_selected tasks_down (fun t => t_pgrp t =? me) sig true 0
  else if 0 <? pid then kill_selected tasks_down (fun t => t_pid t =? pid) sig false 0
  else if pid =? -1 then kill_all tasks_down pid sig 0
  else mret 0.

Section with_world.
Context `{World}.

(** [release(p)] for the task in slot [p]. *)
Definition release (p : nat) : M kernel unit :=
  o ← gets (fun s => task_at s p);
  match o with
  | Some t =>
      if (1 <=? p)%nat && (p <? NR_TASKS)%nat then
        aset k_task p None ;;
        mm (free_page (t_page t)) ;;
        schedule
      else panic "trying to release non-existent task"
  | None => panic "trying to release non-existent task"
  end.

(** The first task with number [pid] gets SIGCHLD. *)
Definition find_pid (pid : Z) : M kernel (option nat) :=
  for_break (seq 0 NR_TASKS) (fun i =>
    o ← aget k_task i;
    mret (match o with
          | Some t => if t_pid t =? pid then Some i else None
          | None => None
          end)).
Definition tell_father (pid : Z) : M kernel unit :=
  o ← (if truth pid then find_pid pid else mret None);
  match o with
  | Some i => tupd i t_signal (fun s => Z.lor s (sigbit SIGCHLD))
  | None => me ← gets k_current; release me
  end.

(** The children of the current task become children of task 1. *)
Definition orphan (i : nat) : M kernel unit :=
  o ← aget k_task i; me ← cur t_pid;
  match o with
  | Some t =>
      when (t_father t =? me)
        (tst i t_father 1 ;;
         st_ ← tget i t_state;
         when (st_ =? TASK_ZOMBIE) (send_sig SIGCHLD 1 true ;; mret tt))
  | None => mret tt
  end.

(** [iput(current->f); current->f = NULL]. *)
Definition drop_inode (f : task_struct -> option nat) `{!Setter f} : M kernel unit :=
  i ← cur f; iput i ;; cst f None.

Definition do_exit (code : Z) : M kernel Z :=
  l1 ← cur_ldt 1;
  mm (free_page_tables (get_base l1) (get_limit l1)) ;;
  l2 ← cur_ldt 2;
  mm (free_page_tables (get_base l2) (get_limit l2)) ;;
  for_ (seq 0 NR_TASKS) orphan ;;
  for_ (seq 0 (Z.to_nat NR_OPEN)) (fun i =>
    o ← filp i;
    match o with
    | Some _ => sys_close (Z.of_nat i) ;; mret tt
    | None => mret tt
    end) ;;
  drop_inode t_pwd ;;
  drop_inode t_root ;;
  drop_inode t_executable ;;
  leader ← cur t_leader; tty ← cur t_tty;
  when (truth leader && (0 <=? tty)) (st (Z.to_nat tty) tty_pgrp 0) ;;
  me ← gets k_current;
  math ← gets k_last_task_used_math;
  when (bool_decide (math = Some me)) (setg k_last_task_used_math None) ;;
  when (truth leader) kill_session ;;
  cst t_state TASK_ZOMBIE ;;
  cst t_exit_code (s32 code) ;;
  father ← cur t_father;
  tell_father father ;;
  schedule ;;
  mret (-1).

Definition sys_exit (error_code : Z) : M kernel Z := do_exit (Z.shiftl (Z.land error_code 0xff) 8).

(** ** waitpid *)

(** Whether [sys_waitpid(pid,...)] by [me] waits for child [t]. *)
Definition waits_for (pid : Z) (me t : task_struct) : bool :=
  (t_father t =? t_pid me) &&
  (if 0 <? pid then t_pid t =? pid
   else if negb (truth pid) then t_pgrp t =? t_pgrp me
   else if negb (pid =? -1) then t_pgrp t =? - pid
   else true).

(** The scan of the tasks: [inl flag] at its end, [inr] the result of the call. *)
Fixpoint waitpid_scan (l : list nat) (pid stat_addr options flag : Z) : M kernel (Z + Z) :=
  match l with
  | [] => mret (inl flag)
  | p :: l' =>
      o ← aget k_task p;
      me ← gets k_current;
      mine ← cur (fun t => t);
      match o with
      | None => waitpid_scan l' pid stat_addr options flag
      | Some t =>
          if bool_decide (p = me) || negb (waits_for pid mine t)
          then waitpid_scan l' pid stat_addr options flag
          else if t_state t =? TASK_STOPPED then
            if negb (truth (Z.land options WUNTRACED))
            then waitpid_scan l' pid stat_addr options flag
            else put_fs_long 0x7f stat_addr ;; mret (inr (t_pid t))
          else if t_state t =? TASK_ZOMBIE then
            cupd t_cutime (fun c => s32 (c + t_utime t)) ;;
            cupd t_cstime (fun c => s32 (c + t_stime t)) ;;
            release p ;;
            put_fs_long (t_exit_code t) stat_addr ;;
            mret (inr (t_pid t))
          else waitpid_scan l' pid stat_addr options 1
      end
  end.

Definition sys_waitpid (pid stat_addr options : Z) : M kernel Z :=
  verify_area stat_addr 4 ;;
  loop patience (fun _ : unit =>
    r ← waitpid_scan tasks_down pid stat_addr options 0;
    match r with
    | inr v => mret (inr v)
    | inl flag =>
        if negb (truth flag) then mret (inr (- ECHILD))
        else if truth (Z.land options WNOHANG) then mret (inr 0)
        else
          cst t_state TASK_INTERRUPTIBLE ;;
          schedule ;;
          cupd t_signal (fun s => Z.land s (Z.lnot (sigbit SIGCHLD))) ;;
          sg ← cur t_signal;
          mret (if truth sg then inr (- EINTR) else inl tt)
    end) tt.
End with_world.

(** ** kill *)

Definition sig_ok (sig : Z) : bool := (1 <=? sig) && (sig <=? 32).
Definition may_send (me : task_struct) (priv : bool) (t : task_struct) : bool :=
  priv || (t_euid me =? t_euid t) || (t_euid me =? 0).
Definition with_signal (sig : Z) (t : task_struct) : task_struct :=
  set_field t_signal (fun x => Z.lor x (sigbit sig)) t.

(** [tasks] after signal [sig] has reached the tasks that satisfy [f] in the
    slots [l]. *)
Definition deliver (l : list nat) (f : task_struct -> bool) (sig : Z)
    (tasks : list (option task_struct)) : list (option task_struct) :=
  imap (fun p o => if bool_decide (p ∈ l)
                   then (fun t => if f t then with_signal sig t else t) <$> o else o) tasks.
Lemma deliver_nil f sig tasks : deliver [] f sig tasks = tasks.
Proof. apply list_eq. intros i. unfold deliver. rewrite list_lookup_imap. by destruct (tasks !! i). Qed.

Lemma deliver_cons p l f sig tasks :
  p ∉ l -> deliver (p :: l) f sig tasks =
    deliver l f sig (alter (fmap (fun t => if f t then with_signal sig t else t)) p tasks).
Proof.
  intros Hp. apply list_eq. intros i. unfold deliver. rewrite !list_lookup_imap.
  destruct (decide (i = p)) as [->|Hne].
  - rewrite list_lookup_alter_eq. destruct (tasks !! p) as [o|]; [|done]. cbn.
    rewrite (bool_decide_true (p ∈ p :: l)) by set_solver.
    rewrite (bool_decide_false (p ∈ l)) by done. done.
  - rewrite list_lookup_alter_ne by congruence. destruct (tasks !! i) as [o|]; [|done]. cbn.
    rewrite (bool_decide_ext (i ∈ p :: l) (i ∈ l)) by set_solver. done.
Qed.

Lemma send_sig_run sig p priv s me :
  task_at s (k_current s) = Some me -> (p < length (k_task s))%nat ->
  send_sig sig p priv s =
    match task_at s p with
    | None => Ok (- EINVAL) s
    | Some t => if sig_ok sig
                then if may_send me priv t then Ok 0 (put_task p (with_signal sig t) s) else Ok (- EPERM) s
                else Ok (- EINVAL) s
    end.
Proof.
  intros Hme Hp. unfold send_sig, aget, mbind, M_bind, task_at.
  destruct (lookup_lt_is_Some_2 _ _ Hp) as [o Ho]. rewrite Ho. cbn.
  destruct o as [t|]; [|done]. cbn. unfold sig_ok.
  replace ((sig <? 1) || (32 <? sig)) with (negb ((1 <=? sig) && (sig <=? 32))) by lia.
  destruct ((1 <=? sig) && (sig <=? 32)); cbn; [|done].
  unfold suser, mbind, M_bind. rewrite !(cur_Ok _ _ _ Hme). cbn. unfold may_send.
  destruct (priv || _ || _); [|done].
  rewrite (tupd_Ok _ _ _ _ t); [done|]. unfold task_at. by rewrite Ho.
Qed.

Section kill.
Context (me : task_struct) (sig : Z) (priv : bool) (sel : task_struct -> bool).
Definition hit (t : task_struct) : bool := sig_ok sig && sel t && may_send me priv t.
Definition signal_one (t : task_struct) : task_struct := if hit t then with_signal sig t else t.
Definition slot_status (tasks : list (option task_struct)) (r : Z) (p : nat) : Z :=
  match tasks !! p ≫= id with
  | Some t => if sel t then (if sig_ok sig then (if may_send me priv t then r else - EPERM) else - EINVAL) else r
  | None => r
  end.

Lemma alter_task_id (tasks : list (option task_struct)) p (g : task_struct -> task_struct) :
  (forall t, tasks !! p = Some (Some t) -> g t = t) -> alter (fmap g) p tasks = tasks.
Proof.
  intros Hg. apply list_eq. intros i. destruct (decide (i = p)) as [->|Hne].
  - rewrite list_lookup_alter_eq. destruct (tasks !! p) as [[t|]|] eqn:E; try done. cbn. by rewrite Hg.
  - by rewrite list_lookup_alter_ne by congruence.
Qed.
Lemma set_k_task_id s : set_field k_task (fun l => l) s = s.
Proof. by destruct s. Qed.

Lemma kill_selected_cons p l retval s :
  (exists t, task_at s (k_current s) = Some t /\ t_euid t = t_euid me) -> (p < length (k_task s))%nat ->
  kill_selected (p :: l) sel sig priv retval s =
    kill_selected l sel sig priv (slot_status (k_task s) retval p)
      (set_field k_task (alter (fmap signal_one) p) s).
Proof.
  intros (t0 & Hcur & He) Hp. cbn [kill_selected].
  destruct (lookup_lt_is_Some_2 _ _ Hp) as [o Ho].
  unfold mbind, M_bind at 1, aget. rewrite Ho. cbn beta iota.
  assert (Hid : (forall t, o = Some t -> hit t = false) ->
    set_field k_task (alter (fmap signal_one) p) s = s).
  { intros H. transitivity (set_field k_task (fun l => l) s); [|apply set_k_task_id].
    unfold set_field, set_k_task. f_equal. apply alter_task_id. intros t Ht.
    unfold signal_one. rewrite H by congruence. done. }
  unfold slot_status. rewrite Ho. destruct o as [t|]; cbn [option_bind mbind id].
  2:{ rewrite Hid by done. done. }
  change (@id (option task_struct) (Some t)) with (Some t). unfold hit in Hid.
  destruct (sel t) eqn:Es.
  2:{ rewrite Hid; [done|]. intros ? [= <-]. rewrite Es. by destruct (sig_ok sig). }
  unfold M_bind. rewrite (send_sig_run _ _ _ _ _ Hcur Hp).
  assert (Ht : task_at s p = Some t) by (unfold task_at; by rewrite Ho). rewrite Ht.
  replace (may_send t0 priv t) with (may_send me priv t) by (unfold may_send; by rewrite He).
  destruct (sig_ok sig) eqn:Eok, (may_send me priv t) eqn:Em; cbn;
    try (rewrite Hid by (intros ? [= <-]; by rewrite ?Es, ?Em); done).
  f_equal. unfold put_task, set_field, set_k_task. f_equal.
  symmetry. apply list_eq. intros i. destruct (decide (i = p)) as [->|Hne].
  - rewrite list_lookup_alter_eq, list_lookup_insert_eq, Ho by done. cbn. unfold signal_one, hit. by rewrite Eok, Es, Em.
  - rewrite list_lookup_alter_ne, list_lookup_insert_ne by congruence. done.
Qed.

Lemma kill_selected_run l retval s :
  (exists t, task_at s (k_current s) = Some t /\ t_euid t = t_euid me) ->
  (forall p, p ∈ l -> (p < length (k_task s))%nat) -> NoDup l ->
  kill_selected l sel sig priv retval s =
    Ok (fold_left (slot_status (k_task s)) l retval)
       (set_field k_task (deliver l hit sig) s).
Proof.
  revert retval s. induction l as [|p l IH]; intros retval s Hcur Hl Hnd.
  - cbn. unfold mret, M_ret. f_equal. transitivity (set_field k_task (fun l => l) s); [by destruct s|].
    unfold set_field, set_k_task. by rewrite deliver_nil.
  - apply NoDup_cons in Hnd as [Hp Hnd].
    rewrite kill_selected_cons by (done || apply Hl; set_solver). rewrite IH; [| | |done].
    + f_equal.
      * cbn [fold_left]. set (r := slot_status _ _ _). clearbody r. clear -Hp. revert r.
        induction l as [|q l IH]; intros r; [done|]. cbn [fold_left].
        replace (slot_status (k_task (set_field k_task (alter (fmap signal_one) p) s)) r q)
          with (slot_status (k_task s) r q); [apply IH; set_solver|].
        unfold slot_status. cbn. rewrite list_lookup_alter_ne by set_solver. done.
      * unfold set_field, set_k_task. cbn. by rewrite deliver_cons.
    + destruct Hcur as (t & Ht & He). unfold task_at in *. cbn.
      destruct (decide (k_current s = p)) as [E|Hne].
      * rewrite E in *. rewrite list_lookup_alter_eq. destruct (k_task s !! p) as [[u|]|]; cbn in Ht |- *; try done.
        injection Ht as ->. eexists. split; [done|]. rewrite <- He. unfold signal_one. by destruct (hit t).
      * rewrite list_lookup_alter_ne by congruence. eauto.
    + intros q Hq. cbn. rewrite length_alter. apply Hl. set_solver.
Qed.
End kill.

(** The answer of kill: EINVAL for a bad signal number, EPERM when a selected
    task may not be signalled, else 0; 0 when no task is selected. *)
Definition in_slots (l : list nat) (tasks : list (option task_struct)) (f : task_struct -> bool) : bool :=
  existsb (fun p => match tasks !! p ≫= id with Some t => f t | None => false end) l.
Definition kill_answer (me : task_struct) (sig : Z) (priv : bool) (sel : task_struct -> bool)
    (tasks : list (option task_struct)) : Z :=
  if in_slots tasks_down tasks sel
  then if negb (sig_ok sig) then - EINVAL
       else if in_slots tasks_down tasks (fun t => sel t && negb (may_send me priv t)) then - EPERM
       else 0
  else 0.
(** Slot [p] holds a task the caller may signal. *)
Definition reachable (me : task_struct) (sig : Z) (tasks : list (option task_struct)) (p : nat) : bool :=
  match tasks !! p ≫= id with Some t => sig_ok sig && may_send me false t | None => false end.

Lemma in_slots_mono l tasks (f g : task_struct -> bool) :
  (forall t, f t = true -> g t = true) -> in_slots l tasks g = false -> in_slots l tasks f = false.
Proof.
  intros Hfg Hg. destruct (in_slots l tasks f) eqn:E; [|done]. rewrite <- Hg. symmetry.
  apply existsb_exists in E as (p & Hp & E). apply existsb_exists. exists p. split; [done|].
  destruct (_ ≫= id); auto.
Qed.

Lemma status_answer me sig priv sel tasks l r :
  fold_left (slot_status me sig priv sel tasks) l r =
    if in_slots l tasks sel
    then if negb (sig_ok sig) then - EINVAL
         else if in_slots l tasks (fun t => sel t && negb (may_send me priv t)) then - EPERM else r
    else r.
Proof.
  revert r. induction l as [|p l IH]; intros r; [done|]. cbn [fold_left]. rewrite IH. clear IH.
  unfold slot_status. change (in_slots (p :: l) tasks ?f) with
    ((match tasks !! p ≫= id with Some t => f t | None => false end) || in_slots l tasks f).
  destruct (tasks !! p ≫= id) as [t|]; cbn [orb]; [|done].
  destruct (sel t); cbn [orb andb]; [|done].
  destruct (sig_ok sig), (may_send me priv t); cbn [orb andb negb];
    destruct (in_slots l tasks sel) eqn:E; try done; try (by destruct (in_slots l tasks _)).
  - by rewrite (in_slots_mono _ _ _ _ (fun t H => proj1 (andb_prop _ _ H)) E).
  - by destruct (in_slots l tasks (fun t0 => sel t0 && negb (may_send me priv t0))).
Qed.

(** What the attempt on a slot that cannot be signalled gives, and the answer
    after such attempts on the slots [l]: that of the last one. *)
Definition refusal (sig : Z) (tasks : list (option task_struct)) (p : nat) : Z :=
  match tasks !! p ≫= id with Some _ => if sig_ok sig then - EPERM else - EINVAL | None => - EINVAL end.
Definition refusals (sig : Z) (tasks : list (option task_struct)) (r : Z) (l : list nat) : Z :=
  fold_left (fun _ p => refusal sig tasks p) l r.
Lemma send_sig_refused me sig p s : task_at s (k_current s) = Some me -> (p < length (k_task s))%nat ->
  reachable me sig (k_task s) p = false ->
  send_sig sig p false s = Ok (refusal sig (k_task s) p) s /\ truth (refusal sig (k_task s) p) = true.
Proof.
  intros Hme Hp Hno. rewrite (send_sig_run _ _ _ _ _ Hme Hp). unfold refusal, reachable, task_at in *.
  destruct (k_task s !! p ≫= id) as [t|]; [|done]. by destruct (sig_ok sig), (may_send me false t).
Qed.
Lemma kill_all_none me l pid sig r s :
  task_at s (k_current s) = Some me -> (forall p, p ∈ l -> (p < length (k_task s))%nat) ->
  (forall p, p ∈ l -> reachable me sig (k_task s) p = false) ->
  kill_all l pid sig r s = Ok (refusals sig (k_task s) r l) s.
Proof.
  intros Hme Hl Hno. revert r. induction l as [|p l IH]; intros r; cbn [kill_all]; [done|].
  destruct (send_sig_refused me sig p s Hme) as [E Et]; [apply Hl; set_solver|apply Hno; set_solver|].
  rewrite (bind_Ok _ _ _ _ _ E), Et. apply IH; set_solver.
Qed.
Lemma kill_all_first me l1 p l2 pid sig r s t :
  task_at s (k_current s) = Some me -> (forall q, q ∈ l1 ++ p :: l2 -> (q < length (k_task s))%nat) ->
  (forall q, q ∈ l1 -> reachable me sig (k_task s) q = false) ->
  task_at s p = Some t -> sig_ok sig && may_send me false t = true ->
  kill_all (l1 ++ p :: l2) pid sig r s =
    kill_selected l2 (fun u => t_pgrp u =? - pid) sig false (refusals sig (k_task s) r l1) (put_task p (with_signal sig t) s).
Proof.
  intros Hme Hl Hno Ht Hok. revert r. induction l1 as [|q l1 IH]; intros r; cbn [app kill_all].
  - unfold mbind, M_bind. rewrite (send_sig_run _ _ _ _ _ Hme) by (apply Hl; set_solver).
    rewrite Ht. apply andb_true_iff in Hok as [-> ->]. done.
  - destruct (send_sig_refused me sig q s Hme) as [E Et]; [apply Hl; set_solver|apply Hno; set_solver|].
    rewrite (bind_Ok _ _ _ _ _ E), Et. apply IH; set_solver.
Qed.
(** Slots besides [p] are as they were. *)
Lemma in_slots_put l p t s f : p ∉ l -> in_slots l (k_task (put_task p t s)) f = in_slots l (k_task s) f.
Proof.
  intros Hp. unfold in_slots. induction l as [|q l IH]; [done|]. cbn [existsb]. rewrite IH by set_solver. f_equal.
  cbn. by rewrite list_lookup_insert_ne by set_solver.
Qed.
Lemma in_slots_ext l tasks f g : (forall t, f t = g t) -> in_slots l tasks f = in_slots l tasks g.
Proof. intros Hf. unfold in_slots. induction l as [|q l IH]; [done|]. cbn. rewrite IH. f_equal. destruct (_ ≫= id); [apply Hf|done]. Qed.

Lemma task_slot s p t : task_at s p = Some t -> k_task s !! p = Some (Some t).
Proof. unfold task_at. destruct (k_task s !! p) as [[u|]|]; cbn; congruence. Qed.
Lemma deliver_one p sig t (tasks : list (option task_struct)) :
  tasks !! p = Some (Some t) ->
  deliver [p] (fun _ => true) sig tasks = <[p := Some (with_signal sig t)]> tasks.
Proof.
  intros Hp. rewrite deliver_cons, deliver_nil by set_solver.
  apply list_eq. intros i. destruct (decide (i = p)) as [->|Hne].
  - rewrite list_lookup_alter_eq, list_lookup_insert_eq by (by eapply lookup_lt_Some). by rewrite Hp.
  - by rewrite list_lookup_alter_ne, list_lookup_insert_ne by congruence.
Qed.

(** C34: What kill does, for every pid. Pid 0 signals the tasks whose process
    group is the caller's pid, without a permission check; a positive pid
    signals the tasks with that pid that the caller may signal; the answer is
    EINVAL or EPERM when a selected task could not be signalled. Pid -1 signals
    only the reachable task in the highest slot and then the reachable tasks of
    process group 1 in the slots below it: the [else] meant for process groups
    belongs to the inner [if].  It answers EPERM when one of the latter tasks
    may not be signalled, and else what the attempt on the last slot above
    failed with, or 0 if there is none; when no task is reachable, nobody is
    signalled and the answer is the error for slot 1.  Pids below -1 signal
    nobody and succeed. *)
Theorem sys_kill_signals pid sig s me :
  task_at s (k_current s) = Some me -> length (k_task s) = NR_TASKS ->
  (pid = 0 -> let sel t := t_pgrp t =? t_pid me in
     sys_kill pid sig s = Ok (kill_answer me sig true sel (k_task s))
       (set_field k_task (deliver tasks_down (hit me sig true sel) sig) s)) /\
  (0 < pid -> let sel t := t_pid t =? pid in
     sys_kill pid sig s = Ok (kill_answer me sig false sel (k_task s))
       (set_field k_task (deliver tasks_down (hit me sig false sel) sig) s)) /\
  (pid = -1 -> (forall p, p ∈ tasks_down -> reachable me sig (k_task s) p = false) ->
     sys_kill pid sig s = Ok (refusal sig (k_task s) 1) s) /\
  (pid = -1 -> forall l1 p l2, tasks_down = l1 ++ p :: l2 ->
     (forall q, q ∈ l1 -> reachable me sig (k_task s) q = false) ->
     reachable me sig (k_task s) p = true ->
     sys_kill pid sig s = Ok
       (if in_slots l2 (k_task s) (fun t => (t_pgrp t =? 1) && negb (may_send me false t)) then - EPERM
        else refusals sig (k_task s) 0 l1)
       (set_field k_task (fun tasks =>
          deliver l2 (hit me sig false (fun t => t_pgrp t =? 1)) sig (deliver [p] (fun _ => true) sig tasks)) s)) /\
  (pid < -1 -> sys_kill pid sig s = Ok 0 s).
Proof.
  intros Hme Hlen.
  assert (Hl : forall p, p ∈ tasks_down -> (p < length (k_task s))%nat).
  { intros p Hp%tasks_down_spec. lia. }
  pose proof tasks_down_NoDup as Hnd. split_and!.
  - intros -> sel. unfold sys_kill. change (negb (truth 0)) with true. cbv iota.
    unfold mbind, M_bind. rewrite (cur_Ok _ _ _ Hme).
    rewrite (kill_selected_run me) by eauto. by rewrite status_answer.
  - intros Hp sel. unfold sys_kill, truth. replace (pid =? 0) with false by lia. replace (0 <? pid) with true by lia. cbv iota beta delta [negb].
    rewrite (kill_selected_run me) by eauto. by rewrite status_answer.
  - intros -> Hno. change (sys_kill (-1) sig s) with (kill_all tasks_down (-1) sig 0 s).
    by rewrite (kill_all_none me).
  - intros -> l1 p l2 E Hno Hp. change (sys_kill (-1) sig s) with (kill_all tasks_down (-1) sig 0 s). rewrite E in *. unfold reachable in Hp. fold (task_at s p) in Hp.
    destruct (task_at s p) as [t|] eqn:Ht; [|done].
    assert (Hp2 : p ∉ l2 /\ NoDup l2) by (apply NoDup_app in Hnd as (_ & _ & Hnd); by apply NoDup_cons in Hnd).
    rewrite (kill_all_first me l1 p l2 (-1) sig 0 s t) by done. rewrite (kill_selected_run me).
    + rewrite status_answer, !in_slots_put by apply Hp2. apply andb_true_iff in Hp as [-> _]. cbn [negb]. f_equal.
      * change (- -1) with 1. destruct (in_slots l2 (k_task s) (fun u => t_pgrp u =? 1)) eqn:Ei; [done|].
        by rewrite (in_slots_mono _ _ _ _ (fun u H => proj1 (andb_prop _ _ H)) Ei).
      * unfold put_task, set_field, set_k_task. cbn. f_equal. symmetry. f_equal. by apply deliver_one, task_slot.
    + destruct (decide (k_current s = p)) as [Ec|Hne].
      * exists (with_signal sig t). split; [cbn; rewrite Ec; by eapply task_at_put|].
        assert (t = me) as -> by congruence. done.
      * exists me. split; [|done]. rewrite task_at_put_ne; [exact Hme|]. cbn. congruence.
    + intros q Hq. cbn. rewrite length_insert. apply Hl. set_solver.
    + apply Hp2.
  - intros Hp. unfold sys_kill, truth. replace (pid =? 0) with false by lia. replace (0 <? pid) with false by lia.
    replace (pid =? -1) with false by lia. done.
Qed.
Lemma sys_kill_signals_witness :
  let t pid grp := Some (set_field t_pid (fun _ => pid) (set_field t_pgrp (fun _ => grp) (INIT_TASK 0))) in
  let s := set_field k_task (fun _ => [t 0 0; t 1 1; t 2 5; t 3 1; t 4 5] ++ replicate 59 None) (boot_kernel 0 0) in
  sys_kill (-1) 9 s = Ok (-22) (set_field k_task (fun tasks =>
     deliver [3; 2; 1]%nat (hit (INIT_TASK 0) 9 false (fun u => t_pgrp u =? 1)) 9 (deliver [4%nat] (fun _ => true) 9 tasks)) s) /\
  sys_kill (-5) 9 s = Ok 0 s.
Proof.
  intros t s.
  destruct (sys_kill_signals (-1) 9 s (set_field t_pid (fun _ => 0) (set_field t_pgrp (fun _ => 0) (INIT_TASK 0))))
    as (_ & _ & _ & H & _); [reflexivity|reflexivity|].
  destruct (sys_kill_signals (-5) 9 s (set_field t_pid (fun _ => 0) (set_field t_pgrp (fun _ => 0) (INIT_TASK 0))))
    as (_ & _ & _ & _ & H5); [reflexivity|reflexivity|].
  split; [|by apply H5].
  apply (H eq_refl (rev (seq 5 59)) 4%nat [3; 2; 1]%nat); [reflexivity| |reflexivity].
  apply Forall_forall. by vm_compute; repeat constructor.
Defined.
