(* ===== verification/Traps.v ===== *)
(** * kernel/traps.c: exceptions and the interrupt descriptor table

    [trap_init], the handlers of the exceptions and [sched_init].  The entry
    points are assembly ([asm.s], [page.s], [system_call.s]) and are named in
    the table by [Entry.t].  [printk] is not modelled, so what [die] does to the
    kernel is [do_exit]. *)

From S2P Require Import Prelude Kernel Sched Memory Fork Blk LLRwBlk Buffer Bitmap Inode Tty Pipe FileIo Open Exit.

Section init.
Context `{Hardware}.

Definition trap_init : M kernel unit :=
  set_trap_gate 0 Entry.divide_error ;;
  set_trap_gate 1 Entry.debug ;;
  set_trap_gate 2 Entry.nmi ;;
  set_system_gate 3 Entry.int3 ;;
  set_system_gate 4 Entry.overflow ;;
  set_system_gate 5 Entry.bounds ;;
  set_trap_gate 6 Entry.invalid_op ;;
  set_trap_gate 7 Entry.device_not_available ;;
  set_trap_gate 8 Entry.double_fault ;;
  set_trap_gate 9 Entry.coprocessor_segment_overrun ;;
  set_trap_gate 10 Entry.invalid_TSS ;;
  set_trap_gate 11 Entry.segment_not_present ;;
  set_trap_gate 12 Entry.stack_segment ;;
  set_trap_gate 13 Entry.general_protection ;;
  set_trap_gate 14 Entry.page_fault ;;
  set_trap_gate 15 Entry.reserved ;;
  set_trap_gate 16 Entry.coprocessor_error ;;
  for_ (seq 17 31) (fun i => set_trap_gate i Entry.reserved) ;;
  set_trap_gate 45 Entry.irq13 ;;
  v ← inb 0x21; outb (Z.land v 0xfb) 0x21 ;;
  v ← inb 0xA1; outb (Z.land v 0xdf) 0xA1 ;;
  set_trap_gate 39 Entry.parallel_interrupt.

(** ** kernel/sched.c: sched_init *)

Definition LATCH : Z := Z.quot 1193180 HZ.
(** [init_tss] and [init_ldt] are the addresses of the fields of [init_task]. *)
Definition sched_init (init_tss init_ldt : Z) : M kernel unit :=
  aset k_gdt FIRST_TSS_ENTRY (tssldt_desc init_tss 0x89) ;;
  aset k_gdt FIRST_LDT_ENTRY (tssldt_desc init_ldt 0x82) ;;
  for_ (seq 1 (NR_TASKS - 1)) (fun i =>
    aset k_task i None ;;
    aset k_gdt (FIRST_TSS_ENTRY + 2 * i) (Desc 0 0) ;;
    aset k_gdt (FIRST_TSS_ENTRY + 2 * i + 1) (Desc 0 0)) ;;
  outb 0x36 0x43 ;;
  outb (Z.land LATCH 0xff) 0x40 ;;
  outb (Z.shiftr LATCH 8) 0x40 ;;
  set_intr_gate 0x20 Entry.timer_interrupt ;;
  v ← inb 0x21; outb (Z.land v (Z.lnot 0x01)) 0x21 ;;
  set_system_gate 0x80 Entry.system_call.
End init.

(** ** The exceptions *)

Section with_world.
Context `{World}.

Definition die : M kernel unit := do_exit 11 ;; mret tt.

Definition do_double_fault : M kernel unit := die.
Definition do_general_protection : M kernel unit := die.
Definition do_divide_error : M kernel unit := die.
Definition do_int3 : M kernel unit := mret tt.
Definition do_nmi : M kernel unit := die.
Definition do_debug : M kernel unit := die.
Definition do_overflow : M kernel unit := die.
Definition do_bounds : M kernel unit := die.
Definition do_invalid_op : M kernel unit := die.
Definition do_device_not_available : M kernel unit := die.
Definition do_coprocessor_segment_overrun : M kernel unit := die.
Definition do_invalid_TSS : M kernel unit := die.
Definition do_segment_not_present : M kernel unit := die.
Definition do_stack_segment : M kernel unit := die.
Definition do_coprocessor_error : M kernel unit :=
  math ← gets k_last_task_used_math; me ← gets k_current;
  if negb (bool_decide (math = Some me)) then mret tt else die.
Definition do_reserved : M kernel unit := die.

(** kernel/sched.c: the coprocessor changes hands; its registers are not
    modelled. *)
Definition math_state_restore : M kernel unit :=
  math ← gets k_last_task_used_math; me ← gets k_current;
  if bool_decide (math = Some me) then mret tt
  else
    setg k_last_task_used_math (Some me) ;;
    used ← cur t_used_math;
    when (negb (truth used)) (cst t_used_math 1).

(** kernel/panic.c: what a panic does before the machine stops. *)
Definition panic_ : M kernel unit :=
  me ← gets k_current;
  if (me =? 0)%nat then mret tt else sys_sync ;; mret tt.
End with_world.
