(* ===== verification/Setup.v ===== *)
(** * init/main.c and the set-up of the disks

    [main] up to the first fork, [sys_setup] (kernel/blk_drv/hd.c), which the
    first process calls, and [rd_load] (kernel/blk_drv/ramdisk.c).  What the
    boot loader leaves in memory at 0x90000 (memory size, drive table, root
    device, video data) and the addresses the linker chooses are parameters;
    the user-mode part of main.c ([init], [printf]) is in Init.v. *)

From S2P Require Import Prelude Mktime Kernel Sched Memory Fork Blk Hd Floppy LLRwBlk Buffer SuperBase Bitmap Inode Super Console Tty Mount Traps Frame MemSteps.

Section with_world.
Context `{World}.

(** ** rd_load *)

(** One turn of the loading loop; the variables are [block], [cp] as an offset
    in the disk, and [nblocks]; [inr false] is the return after an error. *)
Definition rd_load_step (acc : Z * Z * Z) : M kernel (Z * Z * Z + bool) :=
  let '(block, cp, nblocks) := acc in
  if negb (truth nblocks) then mret (inr true)
  else
    root ← gets k_ROOT_DEV;
    o ← (if 2 <? nblocks then breada root block [block + 1; block + 2; -1] else bread root block);
    match o with
    | None => mret (inr false)
    | Some bh =>
        v ← bh->>b_data;
        data ← sget k_rd rd_data;
        data' ← put_bytes data cp (take (Z.to_nat BLOCK_SIZE) v);
        sset k_rd rd_data data' ;;
        brelse (Some bh) ;;
        mret (inl (block + 1, cp + BLOCK_SIZE, nblocks - 1))
    end.
Definition rd_load : M kernel unit :=
  length ← sget k_rd rd_length;
  root ← gets k_ROOT_DEV;
  if negb (truth length) || negb (MAJOR root =? 2) then mret tt
  else
    o ← breada root 257 [256; 258; -1];
    match o with
    | None => mret tt
    | Some bh =>
        v ← bh->>b_data;
        let s := set_d_super v zero_super in
        brelse (Some bh) ;;
        if negb (s_magic s =? SUPER_MAGIC) then mret tt
        else
          let nblocks := s32 (Z.shiftl (s_nzones s) (s_log_zone_size s)) in
          if Z.shiftr length 10 <? nblocks then mret tt
          else
            r ← loop (S (Z.to_nat nblocks)) rd_load_step (256, 0, nblocks);
            when (r : bool) (setg k_ROOT_DEV 0x0101)
    end.

(** ** sys_setup *)

Definition outb_p (v port : Z) : M kernel unit := outb v port.
Definition CMOS_READ (addr : Z) : M kernel Z := outb_p (Z.lor 0x80 addr) 0x70 ;; inb 0x71.

(** The parameters of drive [drive] in the table of the BIOS. *)
Definition bios_drive (BIOS : list Z) (drive : nat) : hd_i_struct :=
  let at_ i := (16 * drive + i)%nat in
  HdI (byte_at BIOS (at_ 2%nat)) (byte_at BIOS (at_ 14%nat)) (get16 BIOS (at_ 0%nat))
      (get16 BIOS (at_ 5%nat)) (get16 BIOS (at_ 12%nat)) (byte_at BIOS (at_ 8%nat)).
Definition set_part (i : nat) (v : Z * Z) : M kernel unit :=
  l ← sget k_hd hd_parts;
  if (i <? length l)%nat then sset k_hd hd_parts (<[i := v]> l) else fault.
(** The partitions in the first sector of a drive. *)
Definition read_partitions (drive : nat) : M kernel unit :=
  o ← bread (0x300 + Z.of_nat drive * 5) 0;
  match o with
  | None => panic ""
  | Some bh =>
      v ← bh->>b_data;
      if negb (byte_at v 510 =? 0x55) || negb (byte_at v 511 =? 0xAA) then panic ""
      else
        for_ (seq 1 4) (fun i =>
          let p := (0x1BE + 16 * (i - 1))%nat in
          set_part (i + 5 * drive) (s32 (get32 v (p + 8)), s32 (get32 v (p + 12)))) ;;
        brelse (Some bh)
  end.
Definition sys_setup (BIOS : list Z) : M kernel Z :=
  callable ← sget k_hd hd_callable;
  if negb (truth callable) then mret (-1)
  else
    sset k_hd hd_callable 0 ;;
    sset k_hd hd_info [bios_drive BIOS 0; bios_drive BIOS 1] ;;
    let nr := if truth (hd_cyl (bios_drive BIOS 1)) then 2%nat else 1%nat in
    for_ (seq 0 nr) (fun i =>
      let d := bios_drive BIOS i in
      set_part (i * 5) (0, s32 (hd_head d * hd_sect d * hd_cyl d))) ;;
    cmos_disks ← CMOS_READ 0x12;
    let nr := if truth (Z.land cmos_disks 0xf0)
              then if truth (Z.land cmos_disks 0x0f) then 2%nat else 1%nat else 0%nat in
    sset k_hd NR_HD (Z.of_nat nr) ;;
    for_ (seq nr (2 - nr)) (fun i => set_part (i * 5) (0, 0)) ;;
    for_ (seq 0 nr) read_partitions ;;
    rd_load ;;
    mount_root ;;
    mret 0.

(** ** time_init *)

Definition BCD_TO_BIN (val : Z) : Z := Z.land val 15 + Z.shiftr val 4 * 10.
(** The loop reads the clock until the seconds have not changed meanwhile. *)
Definition read_clock : M kernel (Z * Z * Z * Z * Z * Z) :=
  loop patience (fun _ : unit =>
    sec ← CMOS_READ 0; min ← CMOS_READ 2; hour ← CMOS_READ 4;
    mday ← CMOS_READ 7; mon ← CMOS_READ 8; year ← CMOS_READ 9;
    sec' ← CMOS_READ 0;
    if sec =? sec' then mret (inr (sec, min, hour, mday, mon, year)) else mret (inl tt)) tt.
Definition time_init : M kernel unit :=
  '(sec, min, hour, mday, mon, year) ← read_clock;
  t ← deref (kernel_mktime (Tm (BCD_TO_BIN sec) (BCD_TO_BIN min) (BCD_TO_BIN hour) (BCD_TO_BIN mday)
                               (BCD_TO_BIN mon - 1) (BCD_TO_BIN year) 0 0 0));
  setg k_startup_time t.

(** ** main *)

(** The end of memory, and the end of the buffers. *)
Definition memory_layout (EXT_MEM_K : Z) : Z * Z :=
  let memory_end := Z.land (2 ^ 20 + Z.shiftl EXT_MEM_K 10) 0xfffff000 in
  let memory_end := if 16 * 1024 * 1024 <? memory_end then 16 * 1024 * 1024 else memory_end in
  let buffer_memory_end := if 12 * 1024 * 1024 <? memory_end then 4 * 1024 * 1024
                           else if 6 * 1024 * 1024 <? memory_end then 2 * 1024 * 1024
                           else 1 * 1024 * 1024 in
  (memory_end, buffer_memory_end).

Definition chr_dev_init : M kernel unit := mret tt.

(** What the boot loader and the linker leave. *)
Record boot_info := BootInfo {
  ORIG_ROOT_DEV : Z;
  EXT_MEM_K : Z;
  boot_screen : boot_video;
  ramdisk_kb : option Z;
  init_tss_addr : Z;
  init_ldt_addr : Z }.

(** [main] up to [move_to_user_mode]; [ramdisk_kb] is the [RAMDISK] the kernel
    was configured with. *)
Definition main_ (b : boot_info) : M kernel unit :=
  setg k_ROOT_DEV (ORIG_ROOT_DEV b) ;;
  let '(memory_end, buffer_memory_end) := memory_layout (EXT_MEM_K b) in
  rd ← (match ramdisk_kb b with
        | Some kb => rd_init buffer_memory_end (kb * 1024)
        | None => mret 0
        end);
  mm (mem_init (buffer_memory_end + rd) memory_end) ;;
  trap_init ;;
  blk_dev_init ;;
  chr_dev_init ;;
  tty_init (boot_screen b) ;;
  time_init ;;
  sched_init (init_tss_addr b) (init_ldt_addr b) ;;
  buffer_init buffer_memory_end ;;
  hd_init ;;
  floppy_init.
End with_world.

(** ** The interrupt descriptor table after start-up *)

(** The vectors an [int] instruction of a user program may use. *)
Definition user_vector (n : nat) : bool := bool_decide (n ∈ [3; 4; 5; 0x80]%nat).
(** Which entry point serves vector [n]. *)
Definition handler (n : nat) : Entry.t :=
  match n with
  | 0 => Entry.divide_error | 1 => Entry.debug | 2 => Entry.nmi | 3 => Entry.int3 | 4 => Entry.overflow
  | 5 => Entry.bounds | 6 => Entry.invalid_op | 7 => Entry.device_not_available | 8 => Entry.double_fault
  | 9 => Entry.coprocessor_segment_overrun | 10 => Entry.invalid_TSS | 11 => Entry.segment_not_present
  | 12 => Entry.stack_segment | 13 => Entry.general_protection | 14 => Entry.page_fault | 15 => Entry.reserved
  | 16 => Entry.coprocessor_error | 32 => Entry.timer_interrupt | 33 => Entry.keyboard_interrupt
  | 35 => Entry.rs2_interrupt | 36 => Entry.rs1_interrupt | 38 => Entry.floppy_interrupt
  | 39 => Entry.parallel_interrupt | 45 => Entry.irq13 | 46 => Entry.hd_interrupt | 128 => Entry.system_call
  | _ => if (n <? 48)%nat then Entry.reserved else Entry.ignore_int
  end%nat.

(** [m] changes the table by [f] if it returns. *)
Definition sets {A} (f : list gate_struct -> list gate_struct) (m : M kernel A) : Prop := forall s,
  match m s with Ok _ s' => k_idt s' = f (k_idt s) | _ => True end.
Lemma sets_bind {A B} f g (m : M kernel A) (k : A -> M kernel B) :
  sets f m -> (forall a, sets g (k a)) -> sets (fun l => g (f l)) (m ≫= k).
Proof.
  intros Hm Hk s. specialize (Hm s). unfold mbind, M_bind. destruct (m s) as [a s1| | | |]; try done.
  specialize (Hk a s1). destruct (k a s1); [congruence|done..].
Qed.
(** What the rest of start-up does does not concern the table. *)
Lemma sets_nothing {A} (m : M kernel A) : (forall l, keeps (fun s => k_idt s = l) m) -> sets id m.
Proof. intros Hm s. specialize (Hm (k_idt s) s eq_refl). by destruct (m s). Qed.
Lemma sets_then {A B} f (m : M kernel A) (k : A -> M kernel B) :
  (forall l, keeps (fun s => k_idt s = l) m) -> (forall a, sets f (k a)) -> sets f (m ≫= k).
Proof. intros Hm Hk. exact (sets_bind id f m k (sets_nothing m Hm) Hk). Qed.
Lemma sets_gate n g : sets (fun l => <[n := g]> l) (aset k_idt n g).
Proof. intros s. unfold aset. by destruct (k_idt s !! n). Qed.
Lemma sets_for (l : list nat) g : sets (fun t => foldl (fun t i => <[i := g i]> t) t l) (for_ l (fun i => aset k_idt i (g i))).
Proof. induction l as [|i l IH]; [by intros s|]. exact (sets_bind _ _ _ _ (sets_gate i (g i)) (fun _ => IH)). Qed.
Ltac sets :=
  lazymatch goal with
  | |- sets _ (mbind _ _) => first
      [ apply sets_then; [intros ?; solve [untouched] | intros ?; sets]
      | eapply sets_bind; [sets | intros ?; sets] ]
  | |- sets _ (let '(_, _) := ?x in _) => destruct x; sets
  | |- sets _ ?m => first
      [ apply sets_gate | apply sets_for | apply sets_nothing; intros ?; solve [untouched]
      | let h := keeps_head m in unfold h; sets ]
  end.
(** Interrupt gates, which turn interrupts off, and trap gates, which do not. *)
Definition interrupt_gate (n : nat) : bool := bool_decide (n ∈ [32; 35; 36; 46]%nat) || (48 <=? n)%nat && negb (n =? 0x80)%nat.
Definition start_up_table : list gate_struct :=
  (fun n => Gate (if interrupt_gate n then 14 else 15) (if user_vector n then 3 else 0) (handler n)) <$> seq 0 256.
Lemma main_sets `{World} b : exists f, sets f (main_ b) /\ f (replicate 256 ignore_gate) = start_up_table.
Proof. eexists. split; [unfold main_; sets|reflexivity]. Qed.

(** C24: a user program can enter the kernel through four vectors only: after
    start-up ([main] of init/main.c up to the first process, on the table that
    boot/head.s leaves) exactly the gates of int3, overflow, bounds and the
    system call have privilege level 3; every vector leads to its own handler;
    and of the vectors below 48 only those of the clock, the serial lines and
    the hard disk are interrupt gates. *)
Theorem idt_user_gates `{World} b s : k_idt s = replicate 256 ignore_gate ->
  match main_ b s with
  | Ok _ s' => length (k_idt s') = 256%nat /\ forall n g, k_idt s' !! n = Some g ->
      gate_dpl g = (if user_vector n then 3 else 0) /\ gate_addr g = handler n /\
      gate_type g = (if interrupt_gate n then 14 else 15)
  | _ => True
  end.
Proof.
  intros Hs. destruct (main_sets b) as (f & Hf & Et). specialize (Hf s). destruct (main_ b s) as [[] s'| | | |]; try done.
  rewrite Hf, Hs, Et. split; [reflexivity|]. intros n g (i & -> & [-> _]%lookup_seq)%list_lookup_fmap_Some_1. by split_and!.
Qed.

(** A machine with 1MB of memory whose ports answer 1, and few buffers. *)
#[local] Instance small_machine : World := {| world_env := fun _ _ s => s; world_hardware := fun _ _ => 1; patience := 4 |}.
Definition small_boot : boot_info := BootInfo 0x306 0 (BootVideo 0 24 0 3 80 0) None 0 0.
Lemma no_memory : exists m, mem_init 0x100000 0x100000 (Mm (replicate 3840 0) 0 ∅) = Ok tt m.
Proof.
  assert (H : wp (mem_init 0x100000 0x100000) (fun _ _ => True) (Mm (replicate 3840 0) 0 ∅)).
  { apply wpg_mem_init; [by split|done|done|done|done|done]. }
  destruct (wp_outcome _ _ _ H) as ([] & m & E & _). by exists m.
Qed.
(** That a computation returns, to be evaluated. *)
Definition returns (m : M kernel unit) (s : kernel) : bool := match m s with Ok _ _ => true | _ => false end.
Lemma returns_ok m s : returns m s = true -> exists s', m s = Ok tt s'.
Proof. unfold returns. destruct (m s) as [[] s'| | | |]; try done. eauto. Qed.
Lemma idt_user_gates_witness : exists s', main_ small_boot (boot_kernel 0 0x9E000) = Ok tt s' /\
  length (k_idt s') = 256%nat /\ forall n g, k_idt s' !! n = Some g ->
    gate_dpl g = (if user_vector n then 3 else 0) /\ gate_addr g = handler n /\
    gate_type g = (if interrupt_gate n then 14 else 15).
Proof.
  assert (E : exists s', main_ small_boot (boot_kernel 0 0x9E000) = Ok tt s').
  { destruct no_memory as [m Em]. unfold main_. cbn [ramdisk_kb small_boot]. 
    erewrite bind_Ok by reflexivity. change (memory_layout _) with (0x100000, 0x100000). cbv iota.
    erewrite bind_Ok by reflexivity. erewrite bind_Ok.
    2: { unfold mm, zoom. change (0x100000 + 0) with 0x100000. cbn [k_mm boot_kernel]. change (k_mm _) with (Mm (replicate 3840 0) 0 ∅). rewrite Em. reflexivity. }
    clear Em. apply returns_ok. reflexivity. }
  destruct E as [s' E]. pose proof (idt_user_gates small_boot (boot_kernel 0 0x9E000) eq_refl) as H. rewrite E in H.
  exists s'. exact (conj E H).
Defined.
