(* ===== verification/Signal.v ===== *)
(** * kernel/signal.c: signal masks, actions and delivery *)

From S2P Require Import Prelude Kernel Sched Memory Fork Blk LLRwBlk Buffer Bitmap Inode Exit.

Definition SA_NOMASK : Z := 0x40000000.
Definition SA_ONESHOT : Z := 0x80000000.

(** [current->sigaction[signum-1]]. *)
Definition cur_sigaction (signum : Z) : M kernel sigaction :=
  l ← cur t_sigaction;
  if signum <? 1 then fault else deref (l !! Z.to_nat (signum - 1)).
Definition upd_sigaction (signum : Z) (g : sigaction -> sigaction) : M kernel unit :=
  cupd t_sigaction (alter g (Z.to_nat (signum - 1))).

Definition sys_sgetmask : M kernel Z := cur t_blocked.
Definition sys_ssetmask (newmask : Z) : M kernel Z :=
  old ← cur t_blocked;
  cst t_blocked (Z.land newmask (Z.lnot (sigbit SIGKILL))) ;;
  mret old.

(** [struct sigaction] is four 32-bit words. *)
Definition save_old (from : sigaction) (to : Z) : M kernel unit :=
  verify_area to 16 ;;
  put_fs_long (sa_handler from) to ;;
  put_fs_long (sa_mask from) (to + 4) ;;
  put_fs_long (sa_flags from) (to + 8) ;;
  put_fs_long (sa_restorer from) (to + 12).
Definition get_new (from : Z) : M kernel sigaction :=
  h ← get_fs_long from; m ← get_fs_long (from + 4);
  f ← get_fs_long (from + 8); r ← get_fs_long (from + 12);
  mret (Sigaction h m f r).

Definition bad_signum (signum : Z) : bool := (signum <? 1) || (32 <? signum) || (signum =? SIGKILL).

Definition sys_signal (signum handler restorer : Z) : M kernel Z :=
  if bad_signum signum then mret (-1)
  else
    old ← cur_sigaction signum;
    upd_sigaction signum (fun _ =>
      Sigaction (u32 handler) 0 (Z.lor SA_ONESHOT SA_NOMASK) (u32 restorer)) ;;
    mret (s32 (sa_handler old)).

Definition sys_sigaction (signum action oldaction : Z) : M kernel Z :=
  if bad_signum signum then mret (-1)
  else
    tmp ← cur_sigaction signum;
    new ← get_new action;
    upd_sigaction signum (fun _ => new) ;;
    when (truth oldaction) (save_old tmp oldaction) ;;
    upd_sigaction signum (fun sa =>
      if truth (Z.land (sa_flags sa) SA_NOMASK) then set_field sa_mask (fun _ => 0) sa
      else set_field sa_mask (fun m => Z.lor m (Z.shiftl 1 (signum - 1))) sa) ;;
    mret 0.

(** The words [do_signal] puts on the user stack, from the top. *)
Definition signal_frame (sa : sigaction) (signr blocked eax ecx edx eflags old_eip : Z) : list Z :=
  [sa_restorer sa; signr] ++
  (if truth (Z.land (sa_flags sa) SA_NOMASK) then [] else [blocked]) ++
  [eax; ecx; edx; eflags; old_eip].
Definition push_words (l : list Z) (addr : Z) : M kernel unit :=
  for_ (zip (seq 0 (length l)) l) (fun '(i, v) => put_fs_long v (addr + 4 * Z.of_nat i)).

Section with_world.
Context `{World}.

(** The result is the pair of [eip] and [esp] with which the task goes back to
    user mode; the other registers are not changed. *)
Definition do_signal (signr eax ecx edx eip eflags esp : Z) : M kernel (Z * Z) :=
  sa ← cur_sigaction signr;
  if sa_handler sa =? 1 then mret (eip, esp)
  else if (sa_handler sa =? 0) && (signr =? SIGCHLD) then mret (eip, esp)
  else
    when (sa_handler sa =? 0) (do_exit (sigbit signr) ;; mret tt) ;;
    when (truth (Z.land (sa_flags sa) SA_ONESHOT))
      (upd_sigaction signr (set_field sa_handler (fun _ => 0))) ;;
    let longs := if truth (Z.land (sa_flags sa) SA_NOMASK) then 7 else 8 in
    let esp := u32 (esp - 4 * longs) in
    verify_area esp (longs * 4) ;;
    blocked ← cur t_blocked;
    push_words (signal_frame sa signr blocked eax ecx edx eflags eip) esp ;;
    cupd t_blocked (fun b => Z.lor b (s32 (sa_mask sa))) ;;
    mret (sa_handler sa, esp).
End with_world.
