(* ===== verification/Sys.v ===== *)
(** * kernel/sys.c: user and group numbers, times, sessions *)

From Stdlib Require Import Ascii.
From S2P Require Import Prelude Kernel Sched Memory Fork Tty.

Definition sys_ftime : M kernel Z := mret (- ENOSYS).
Definition sys_break : M kernel Z := mret (- ENOSYS).
Definition sys_ptrace : M kernel Z := mret (- ENOSYS).
Definition sys_stty : M kernel Z := mret (- ENOSYS).
Definition sys_gtty : M kernel Z := mret (- ENOSYS).
Definition sys_rename : M kernel Z := mret (- ENOSYS).
Definition sys_prof : M kernel Z := mret (- ENOSYS).
Definition sys_acct : M kernel Z := mret (- ENOSYS).
Definition sys_phys : M kernel Z := mret (- ENOSYS).
Definition sys_lock : M kernel Z := mret (- ENOSYS).
Definition sys_mpx : M kernel Z := mret (- ENOSYS).
Definition sys_ulimit : M kernel Z := mret (- ENOSYS).

Definition sys_setregid (rgid egid : Z) : M kernel Z :=
  su ← suser;
  gid ← cur t_gid;
  if (0 <? rgid) && negb ((gid =? rgid) || su) then mret (- EPERM)
  else
    when (0 <? rgid) (cst t_gid (u16 rgid)) ;;
    gid ← cur t_gid; eg ← cur t_egid; sg ← cur t_sgid;
    if 0 <? egid then
      if (gid =? egid) || (eg =? egid) || (sg =? egid) || su
      then cst t_egid (u16 egid) ;; mret 0
      else mret (- EPERM)
    else mret 0.
Definition sys_setgid (gid : Z) : M kernel Z := sys_setregid gid gid.

Definition sys_time (tloc : Z) : M kernel Z :=
  i ← CURRENT_TIME;
  when (truth tloc) (verify_area tloc 4 ;; put_fs_long i tloc) ;;
  mret i.

Definition sys_setreuid (ruid euid : Z) : M kernel Z :=
  old_ruid ← cur t_uid;
  e ← cur t_euid; su ← suser;
  if (0 <? ruid) && negb ((e =? ruid) || (old_ruid =? ruid) || su) then mret (- EPERM)
  else
    when (0 <? ruid) (cst t_uid (u16 ruid)) ;;
    if 0 <? euid then
      if (old_ruid =? euid) || (e =? euid) || su
      then cst t_euid (u16 euid) ;; mret 0
      else cst t_uid old_ruid ;; mret (- EPERM)
    else mret 0.
Definition sys_setuid (uid : Z) : M kernel Z := sys_setreuid uid uid.

Definition sys_stime (tptr : Z) : M kernel Z :=
  su ← suser;
  if negb su then mret (- EPERM)
  else
    t ← get_fs_long tptr; j ← gets k_jiffies;
    setg k_startup_time (s32 (t - Z.quot j HZ)) ;;
    mret 0.

Definition sys_times (tbuf : Z) : M kernel Z :=
  when (truth tbuf)
    (verify_area tbuf 16 ;;
     v ← cur t_utime; put_fs_long v tbuf ;;
     v ← cur t_stime; put_fs_long v (tbuf + 4) ;;
     v ← cur t_cutime; put_fs_long v (tbuf + 8) ;;
     v ← cur t_cstime; put_fs_long v (tbuf + 12)) ;;
  gets k_jiffies.

Definition sys_brk (end_data_seg : Z) : M kernel Z :=
  code ← cur t_end_code; stack ← cur t_start_stack;
  when ((code <=? end_data_seg) && (end_data_seg <? u32 (stack - 16384)))
    (cst t_brk end_data_seg) ;;
  cur t_brk.

Definition sys_setpgid (pid pgid : Z) : M kernel Z :=
  me ← cur t_pid;
  let pid := if truth pid then pid else me in
  let pgid := if truth pgid then pgid else me in
  session ← cur t_session;
  r ← for_break (seq 0 NR_TASKS) (fun i =>
    o ← aget k_task i;
    match o with
    | Some t =>
        if negb (t_pid t =? pid) then mret None
        else if truth (t_leader t) then mret (Some (- EPERM))
        else if negb (t_session t =? session) then mret (Some (- EPERM))
        else tst i t_pgrp pgid ;; mret (Some 0)
    | None => mret None
    end);
  mret (default (- ESRCH) r).
Definition sys_getpgrp : M kernel Z := cur t_pgrp.

Definition sys_setsid : M kernel Z :=
  leader ← cur t_leader; su ← suser;
  if truth leader && negb su then mret (- EPERM)
  else
    cst t_leader 1 ;;
    pid ← cur t_pid;
    cst t_pgrp pid ;;
    cst t_session pid ;;
    cst t_tty (-1) ;;
    cur t_pgrp.

(** The bytes of a C string with its terminating zero. *)
Fixpoint c_string (s : string) : list Z :=
  match s with
  | EmptyString => [0]
  | String a s' => Z.of_N (N_of_ascii a) :: c_string s'
  end.
Definition thisname : list Z :=
  c_string "linux .0" ++ c_string "nodename" ++ c_string "release " ++
  c_string "version " ++ c_string "machine ".
Definition sys_uname (name : Z) : M kernel Z :=
  if negb (truth name) then mret (- ERROR)
  else
    verify_area name 45 ;;
    put_user thisname name ;;
    mret 0.

Definition sys_umask (mask : Z) : M kernel Z :=
  old ← cur t_umask;
  cst t_umask (Z.land mask 0x1ff) ;;
  mret old.

(** ** An unprivileged task stays unprivileged *)

Inductive id_call : Type :=
| SetReuid (ruid euid : Z)
| SetUid (uid : Z)
| SetRegid (rgid egid : Z)
| SetGid (gid : Z).
Definition do_id_call (c : id_call) : M kernel Z :=
  match c with
  | SetReuid r e => sys_setreuid r e
  | SetUid u => sys_setuid u
  | SetRegid r e => sys_setregid r e
  | SetGid g => sys_setgid g
  end.

(** The identity of [t] comes from that of [t0], which is not the superuser's;
    nothing else of the task differs. *)
Record ids_from (t0 t : task_struct) : Prop := {
  from_euid : t_euid t = t_uid t0 \/ t_euid t = t_euid t0;
  from_uid : t_uid t = t_uid t0 \/ t_uid t = t_euid t0;
  from_egid : t_egid t = t_gid t0 \/ t_egid t = t_egid t0 \/ t_egid t = t_sgid t0;
  from_gid : t_gid t = t_gid t0 \/ t_gid t = t_egid t0 \/ t_gid t = t_sgid t0;
  from_user : t_euid t <> 0;
  from_rest : set_field t_uid (fun _ => t_uid t0) (set_field t_euid (fun _ => t_euid t0)
    (set_field t_gid (fun _ => t_gid t0) (set_field t_egid (fun _ => t_egid t0) t))) = t0 }.

(** The identity fields are unsigned shorts. *)
Record ids_short (t : task_struct) : Prop := {
  short_uid : 0 <= t_uid t < 2 ^ 16; short_euid : 0 <= t_euid t < 2 ^ 16;
  short_gid : 0 <= t_gid t < 2 ^ 16; short_egid : 0 <= t_egid t < 2 ^ 16;
  short_sgid : 0 <= t_sgid t < 2 ^ 16 }.

Lemma u16_in x v : x = v -> 0 <= x < 2 ^ 16 -> u16 v = x.
Proof. intros -> H. apply u16_small. lia. Qed.

(** A new identity that is one of the present ones. *)
Ltac ids_new Ht :=
  first [ eexists; split; [|reflexivity] | eexists; split; [|symmetry; by apply put_same] ];
  split; cbn; try exact Ht.

Section id_calls.
Context (t0 t : task_struct) (s : kernel).
Context (Hs : ids_short t0) (Hf : ids_from t0 t) (Ht : task_at s (k_current s) = Some t).

Lemma ids_from_short : ids_short t.
Proof.
  destruct Hs, Hf. split; try (intuition congruence).
  replace (t_sgid t) with (t_sgid t0); [done|]. rewrite <- from_rest0. reflexivity.
Qed.

Lemma setreuid_from r e :
  wp (sys_setreuid r e) (fun _ s' => exists t', ids_from t0 t' /\ s' = put_task (k_current s) t' s) s.
Proof.
  pose proof ids_from_short as [? ? _ _ _]. unfold sys_setreuid. destruct Hf.
  wp_tasks; autorewrite with kbool in *.
  all: clear Hs; ids_new from_rest0; rewrite ?u16_small by lia; lia.
Qed.
Lemma setregid_from r e :
  wp (sys_setregid r e) (fun _ s' => exists t', ids_from t0 t' /\ s' = put_task (k_current s) t' s) s.
Proof.
  pose proof ids_from_short as [_ _ ? ? ?]. unfold sys_setregid. destruct Hf.
  assert (Hsg : t_sgid t = t_sgid t0) by (rewrite <- from_rest0; reflexivity).
  wp_tasks; autorewrite with kbool in *.
  all: try match goal with H : context [t_sgid (set_field _ _ _)] |- _ =>
    cbn in H; rewrite u16_small in H by lia end.
  all: clear Hs; ids_new from_rest0; rewrite ?u16_small by lia; lia.
Qed.
End id_calls.

Lemma id_call_from t0 t c s :
  ids_short t0 -> ids_from t0 t -> task_at s (k_current s) = Some t ->
  wp (do_id_call c) (fun _ s' => exists t', ids_from t0 t' /\ s' = put_task (k_current s) t' s) s.
Proof.
  intros Hs Hf Ht. destruct c; cbn;
    by first [apply (setreuid_from t0 t) | apply (setregid_from t0 t)].
Qed.
Lemma ids_from_refl t : t_euid t <> 0 -> ids_from t t.
Proof. intros. split; auto. by destruct t. Qed.

(** C25: Whatever sequence of setuid, setgid, setreuid and setregid calls an
    unprivileged task makes, with whatever arguments, it never becomes the
    superuser: every call returns, its user numbers stay among the real and
    effective ones it had, its group numbers among the real, effective and
    saved ones, and the calls change nothing else in the kernel. *)
Theorem no_privilege_gain t (calls : list id_call) s :
  task_at s (k_current s) = Some t -> ids_short t -> t_euid t <> 0 ->
  wp (for_ calls (fun c => do_id_call c ;; mret tt)) (fun _ s' =>
    exists t', task_at s' (k_current s') = Some t' /\ ids_from t t' /\
      s' = put_task (k_current s) t' s) s.
Proof.
  intros Ht Hs Hu.
  apply (wpg_for _ _ (fun _ s' => exists t', ids_from t t' /\ s' = put_task (k_current s) t' s)).
  - exists t. split; [by apply ids_from_refl|]. symmetry. by apply put_same.
  - intros c l' s' (t' & Hf & ->). apply wpg_bind.
    eapply wpg_mono; [apply (id_call_from t t'); try done; by eapply task_at_put|].
    intros r s2 (t2 & Hf2 & ->). apply wpg_ret. exists t2. split; [done|]. by rewrite put_put.
  - intros s' (t' & Hf & ->). exists t'. split_and!; try done. by eapply task_at_put.
Qed.
Lemma no_privilege_gain_witness :
  let t := set_field t_uid (fun _ => 100) (set_field t_euid (fun _ => 7) (INIT_TASK 0)) in
  let s := set_field k_task (fun _ => [Some t]) (boot_kernel 0 0) in
  wp (for_ [SetReuid 7 100; SetUid 0; SetReuid 5 1; SetGid 3; SetUid 65636]
        (fun c => do_id_call c ;; mret tt))
     (fun _ s' => exists t', task_at s' (k_current s') = Some t' /\ (t_euid t' = 100 \/ t_euid t' = 7)) s.
Proof.
  intros t s. set (calls := [_;_;_;_;_]).
  eapply wp_mono; [apply (no_privilege_gain t calls s); [reflexivity|split; cbn; lia|cbn; lia]|].
  intros ? s' (t' & Ht & [Hu _ _ _ _ _] & _). exists t'. split; [exact Ht|exact Hu].
Defined.
