(* ===== verification/SystemCall.v ===== *)
(** * kernel/system_call.s and include/linux/sys.h: entering the kernel

    What the processor and the entry code push on the kernel stack is the
    record [frame]; a routine entered from user mode is a function from the
    frame to the frame it returns with.  [system_call] calls through the table
    of include/linux/sys.h, gives the processor away when the task's time is
    up, and delivers a signal on the way back. *)

From S2P Require Import Prelude Kernel Sched Memory Fork Blk Hd Floppy LLRwBlk Buffer Bitmap Inode Super Namei Tty Pipe PageFault FileIo Open Mount Exec Exit Traps Setup Signal Sys.

(** The registers of the interrupted program, in the order of the stack; the
    last four are those only [sys_fork] saves. *)
Record frame := Frame_ {
  u_eax : Z; u_ebx : Z; u_ecx : Z; u_edx : Z;
  u_fs : Z; u_es : Z; u_ds : Z;
  u_eip : Z; u_cs : Z; u_eflags : Z; u_esp : Z; u_ss : Z;
  u_ebp : Z; u_esi : Z; u_edi : Z; u_gs : Z }.
Definition eta_frame (r : frame) : frame := Frame_ (u_eax r) (u_ebx r) (u_ecx r) (u_edx r) (u_fs r) (u_es r) (u_ds r) (u_eip r) (u_cs r) (u_eflags r) (u_esp r) (u_ss r) (u_ebp r) (u_esi r) (u_edi r) (u_gs r).
#[export] Instance set_u_eax : Setter u_eax := ltac:(build_setter eta_frame u_eax).
#[export] Instance set_u_ebx : Setter u_ebx := ltac:(build_setter eta_frame u_ebx).
#[export] Instance set_u_ecx : Setter u_ecx := ltac:(build_setter eta_frame u_ecx).
#[export] Instance set_u_edx : Setter u_edx := ltac:(build_setter eta_frame u_edx).
#[export] Instance set_u_eip : Setter u_eip := ltac:(build_setter eta_frame u_eip).
#[export] Instance set_u_esp : Setter u_esp := ltac:(build_setter eta_frame u_esp).

Definition nr_system_calls : Z := 72.
Definition SIGFPE : Z := 8.

(** Entries of the table: what the routine returns in [eax], and the frame,
    which only [sys_execve] changes. *)
Abbreviation syscall := (frame -> M kernel (Z * frame)).
Definition call0 (m : M kernel Z) : syscall := fun fr => r ← m; mret (r, fr).
Definition call1 (m : Z -> M kernel Z) : syscall := fun fr => r ← m (u_ebx fr); mret (r, fr).
Definition call2 (m : Z -> Z -> M kernel Z) : syscall := fun fr => r ← m (u_ebx fr) (u_ecx fr); mret (r, fr).
Definition call3 (m : Z -> Z -> Z -> M kernel Z) : syscall :=
  fun fr => r ← m (u_ebx fr) (u_ecx fr) (u_edx fr); mret (r, fr).

Section with_world.
Context `{World}.
(** The disk parameters the BIOS left at an address, and the address of a
    buffer of [do_execve] on the kernel stack. *)
Variable bios_at : Z -> list Z.
Variable kbuf : Z.

Definition sys_fork : syscall := fun fr =>
  nr ← find_empty_process;
  if nr <? 0 then mret (nr, fr)
  else
    r ← copy_process (Z.to_nat nr) (u_ebp fr) (u_edi fr) (u_esi fr) (u_gs fr) (u_ebx fr) (u_ecx fr) (u_edx fr)
          (u_fs fr) (u_es fr) (u_ds fr) (u_eip fr) (u_cs fr) (u_eflags fr) (u_esp fr) (u_ss fr);
    mret (r, fr).
Definition sys_execve : syscall := fun fr =>
  r ← do_execve kbuf (u_cs fr) (u_ebx fr) (u_ecx fr) (u_edx fr);
  match r with
  | inl e => mret (e, fr)
  | inr g => mret (0, set_field u_esp (fun _ => r_esp g) (set_field u_eip (fun _ => r_eip g) fr))
  end.

Definition sys_call_table : list (string * syscall) := [
  ("sys_setup", call1 (fun BIOS => sys_setup (bios_at BIOS)));
  ("sys_exit", call1 sys_exit); ("sys_fork", sys_fork); ("sys_read", call3 sys_read);
  ("sys_write", call3 sys_write); ("sys_open", call3 sys_open); ("sys_close", call1 sys_close);
  ("sys_waitpid", call3 sys_waitpid); ("sys_creat", call2 sys_creat); ("sys_link", call2 sys_link);
  ("sys_unlink", call1 sys_unlink); ("sys_execve", sys_execve); ("sys_chdir", call1 sys_chdir);
  ("sys_time", call1 sys_time); ("sys_mknod", call3 sys_mknod); ("sys_chmod", call2 sys_chmod);
  ("sys_chown", call3 sys_chown); ("sys_break", call0 sys_break); ("sys_stat", call2 sys_stat);
  ("sys_lseek", call3 sys_lseek); ("sys_getpid", call0 sys_getpid); ("sys_mount", call3 sys_mount);
  ("sys_umount", call1 sys_umount); ("sys_setuid", call1 sys_setuid); ("sys_getuid", call0 sys_getuid);
  ("sys_stime", call1 sys_stime); ("sys_ptrace", call0 sys_ptrace); ("sys_alarm", call1 sys_alarm);
  ("sys_fstat", call2 sys_fstat); ("sys_pause", call0 sys_pause); ("sys_utime", call2 sys_utime);
  ("sys_stty", call0 sys_stty); ("sys_gtty", call0 sys_gtty); ("sys_access", call2 sys_access);
  ("sys_nice", call1 sys_nice); ("sys_ftime", call0 sys_ftime); ("sys_sync", call0 sys_sync);
  ("sys_kill", call2 sys_kill); ("sys_rename", call0 sys_rename); ("sys_mkdir", call2 sys_mkdir);
  ("sys_rmdir", call1 sys_rmdir); ("sys_dup", call1 sys_dup); ("sys_pipe", call1 sys_pipe);
  ("sys_times", call1 sys_times); ("sys_prof", call0 sys_prof); ("sys_brk", call1 sys_brk);
  ("sys_setgid", call1 sys_setgid); ("sys_getgid", call0 sys_getgid); ("sys_signal", call3 sys_signal);
  ("sys_geteuid", call0 sys_geteuid); ("sys_getegid", call0 sys_getegid); ("sys_acct", call0 sys_acct);
  ("sys_phys", call0 sys_phys); ("sys_lock", call0 sys_lock); ("sys_ioctl", call3 sys_ioctl);
  ("sys_fcntl", call3 sys_fcntl); ("sys_mpx", call0 sys_mpx); ("sys_setpgid", call2 sys_setpgid);
  ("sys_ulimit", call0 sys_ulimit); ("sys_uname", call1 sys_uname); ("sys_umask", call1 sys_umask);
  ("sys_chroot", call1 sys_chroot); ("sys_ustat", call2 sys_ustat); ("sys_dup2", call2 sys_dup2);
  ("sys_getppid", call0 sys_getppid); ("sys_getpgrp", call0 sys_getpgrp); ("sys_setsid", call0 sys_setsid);
  ("sys_sigaction", call3 sys_sigaction); ("sys_sgetmask", call0 sys_sgetmask);
  ("sys_ssetmask", call1 sys_ssetmask); ("sys_setreuid", call2 sys_setreuid);
  ("sys_setregid", call2 sys_setregid) ].

(** The signals that are pending and not blocked. *)
Definition deliverable (signal blocked : Z) : Z := Z.land (u32 signal) (not32 blocked).
(** The way back: task 0 has no signals, and only user code gets them. *)
Definition ret_from_sys_call (fr : frame) : M kernel frame :=
  me ← gets k_current;
  if (me =? 0)%nat then mret fr
  else if negb (u16 (u_cs fr) =? 0x0f) then mret fr
  else if negb (u16 (u_ss fr) =? 0x17) then mret fr
  else
    signal ← cur t_signal;
    blocked ← cur t_blocked;
    let w := deliverable signal blocked in
    if w =? 0 then mret fr
    else
      let n := bsf w in
      cst t_signal (Z.ldiff signal (2 ^ n)) ;;
      '(eip, esp) ← do_signal (n + 1) (u_eax fr) (u_ecx fr) (u_edx fr) (u_eip fr) (u_eflags fr) (u_esp fr);
      mret (set_field u_esp (fun _ => esp) (set_field u_eip (fun _ => eip) fr)).

Definition system_call (fr : frame) : M kernel frame :=
  if nr_system_calls - 1 <? u32 (u_eax fr) then mret (set_field u_eax (fun _ => -1) fr)
  else
    '(_, f) ← deref (sys_call_table !! Z.to_nat (u32 (u_eax fr)));
    '(eax, fr) ← f fr;
    let fr := set_field u_eax (fun _ => eax) fr in
    state ← cur t_state;
    counter ← cur t_counter;
    when (truth state || (counter =? 0)) schedule ;;
    ret_from_sys_call fr.

(** The functions timers are set to. *)
Definition call_timer_fn (n : nat) : M kernel unit :=
  if (n =? FN_TRANSFER)%nat then transfer do_fd_request
  else if (n =? FN_FLOPPY_ON)%nat then floppy_on_interrupt do_fd_request
  else fault.
(** The clock, 100 times a second: [do_timer] is told whether user code ran. *)
Definition timer_interrupt (fr : frame) : M kernel frame :=
  j ← gets k_jiffies;
  setg k_jiffies (s32 (j + 1)) ;;
  outb 0x20 0x20 ;;
  do_timer call_timer_fn (Z.land (u_cs fr) 3) ;;
  ret_from_sys_call fr.

(** kernel/math/math_emulate.c: the instruction is skipped and the process
    signalled. *)
Definition math_emulate (fr : frame) : M kernel frame :=
  if negb (u16 (u_cs fr) =? 0x0F) then panic "Math emulation needed in kernel"
  else
    cupd t_signal (fun s => Z.lor s (sigbit SIGFPE)) ;;
    mret (set_field u_eip (fun e => u32 (e + 2)) fr).
Definition math_error : M kernel unit :=
  o ← gets k_last_task_used_math;
  match o with
  | Some p => tupd p t_signal (fun s => Z.lor s (sigbit SIGFPE))
  | None => mret tt
  end.
Definition coprocessor_error (fr : frame) : M kernel frame := math_error ;; ret_from_sys_call fr.
(** [em]: the processor was told to emulate the coprocessor. *)
Definition device_not_available (em : bool) (fr : frame) : M kernel frame :=
  fr ← (if em then math_emulate fr else math_state_restore ;; mret fr);
  ret_from_sys_call fr.

(** The disks: the routine that was waiting for the interrupt is called, once. *)
Definition call_hd_intr (n : nat) : M kernel unit :=
  if (n =? READ_INTR)%nat then read_intr
  else if (n =? WRITE_INTR)%nat then write_intr
  else if (n =? RECAL_INTR)%nat then recal_intr
  else fault.
Definition hd_interrupt : M kernel unit :=
  outb 0x20 0xA0 ;;
  h ← sget k_hd do_hd;
  sset k_hd do_hd None ;;
  outb 0x20 0x20 ;;
  match h with Some n => call_hd_intr n | None => mret tt end.
Definition call_floppy_intr (n : nat) : M kernel unit :=
  if (n =? RW_INTERRUPT)%nat then rw_interrupt
  else if (n =? SEEK_INTERRUPT)%nat then seek_interrupt do_fd_request
  else if (n =? RECAL_INTERRUPT)%nat then recal_interrupt
  else if (n =? RESET_INTERRUPT)%nat then reset_interrupt
  else fault.
Definition floppy_interrupt : M kernel unit :=
  outb 0x20 0x20 ;;
  h ← sget k_fd do_floppy;
  sset k_fd do_floppy None ;;
  match h with Some n => call_floppy_intr n | None => unexpected_floppy_interrupt end.

(** mm/page.s: [cr2] is the address that was accessed. *)
Definition page_fault (error_code cr2 : Z) : M kernel unit :=
  if truth (Z.land error_code 1) then mm (do_wp_page error_code cr2) else do_no_page error_code cr2.
End with_world.


(** ** Properties *)

Section properties.
Context `{World}.
Variable bios_at : Z -> list Z.
Variable kbuf : Z.
Abbreviation sys_call_table := (sys_call_table bios_at kbuf).
Abbreviation system_call := (system_call bios_at kbuf).

Lemma table_length : length sys_call_table = 72%nat.
Proof. reflexivity. Qed.

(** The task goes straight back to user mode: it may go on running, and it
    has no signal to see to. *)
Definition undisturbed_return (fr : frame) (s : kernel) : Prop :=
  exists t, task_at s (k_current s) = Some t /\ t_state t = 0 /\ t_counter t <> 0 /\
    (k_current s = 0%nat \/ u16 (u_cs fr) <> 0x0f \/ u16 (u_ss fr) <> 0x17 \/
     deliverable (t_signal t) (t_blocked t) = 0).

Lemma ret_undisturbed fr s : undisturbed_return fr s -> ret_from_sys_call fr s = Ok fr s.
Proof.
  intros (t & Ht & _ & _ & Hd). unfold ret_from_sys_call, mbind, M_bind, gets.
  destruct (Nat.eqb_spec (k_current s) 0); [done|].
  destruct (Z.eqb_spec (u16 (u_cs fr)) 0x0f); cbn [negb]; [|done].
  destruct (Z.eqb_spec (u16 (u_ss fr)) 0x17); cbn [negb]; [|done].
  rewrite !(cur_Ok _ s t Ht). destruct Hd as [?|[?|[?|Hd]]]; [done..|]. by rewrite Hd.
Qed.
(** The dispatch: a number of the table. *)
Lemma system_call_entry fr s name (f : syscall) r fr' s' :
  sys_call_table !! Z.to_nat (u32 (u_eax fr)) = Some (name, f) ->
  f fr s = Ok (r, fr') s' -> undisturbed_return fr' s' ->
  system_call fr s = Ok (set_field u_eax (fun _ => r) fr') s'.
Proof.
  intros Hf E Hu. assert (Hlt : (Z.to_nat (u32 (u_eax fr)) < 72)%nat) by exact (lookup_lt_Some _ _ _ Hf).
  pose proof (u32_range (u_eax fr)) as Hr. unfold system_call, nr_system_calls.
  rewrite (proj2 (Z.ltb_ge _ _)) by lia. unfold mbind, M_bind. rewrite Hf. cbn [deref mret M_ret].
  rewrite E. destruct Hu as (t & Ht & Hs & Hc & Hd).
  rewrite !(cur_Ok _ s' t Ht), Hs. destruct (Z.eqb_spec (t_counter t) 0); [done|].
  cbn [truth Z.eqb negb orb when]. apply ret_undisturbed. by exists t.
Qed.
Lemma system_call_bad fr s : 72 <= u32 (u_eax fr) -> system_call fr s = Ok (set_field u_eax (fun _ => -1) fr) s.
Proof. intros Hr. unfold system_call, nr_system_calls. by rewrite (proj2 (Z.ltb_lt _ _)) by lia. Qed.

(** *** Signals *)

Definition word_bytes (v : Z) : list Z := [u8 (u32 v); u8 (Z.shiftr (u32 v) 8); u8 (Z.shiftr (u32 v) 16); u8 (Z.shiftr (u32 v) 24)].
Definition words_bytes (l : list Z) : list Z := concat (word_bytes <$> l).

Lemma store_bytes_cons a v l u : store_bytes a (v :: l) u = store_bytes (a + 1) l (<[u32 a := u8 v]> u).
Proof.
  unfold store_bytes. cbn [length seq zip zip_with foldl]. change (Z.of_nat 0) with 0. rewrite Z.add_0_r.
  rewrite <-fmap_S_seq. generalize (<[u32 a := u8 v]> u) as w. intros w. generalize (seq 0 (length l)) as ns. intros ns.
  revert l w. induction ns as [|n ns IH]; intros [|x l] w; try done. cbn [fmap list_fmap zip zip_with foldl].
  rewrite IH. by replace (a + Z.of_nat (S n)) with (a + 1 + Z.of_nat n) by lia.
Qed.
Lemma store_bytes_app a l1 l2 u :
  store_bytes a (l1 ++ l2) u = store_bytes (a + Z.of_nat (length l1)) l2 (store_bytes a l1 u).
Proof.
  revert a u. induction l1 as [|v l1 IH]; intros a u; cbn [app length].
  - change (Z.of_nat 0) with 0. by rewrite Z.add_0_r.
  - rewrite !store_bytes_cons, IH. f_equal. lia.
Qed.
Lemma u8_u8 z : u8 (u8 z) = u8 z.
Proof. apply u8_small, u8_range. Qed.
Lemma put_fs_long_eq v a s : put_fs_long v a s = Ok tt (set_field k_user (store_bytes a (word_bytes v)) s).
Proof.
  change (set_field k_user (store_bytes a (word_bytes v)) s) with
    (set_field k_user (fun _ => store_bytes a (word_bytes v) (k_user s)) s). unfold word_bytes.
  unfold put_fs_long, put_fs_byte, mbind, M_bind, modify. f_equal. rewrite !store_bytes_cons, !u8_u8. replace (a + 1 + 1) with (a + 2) by lia. by replace (a + 2 + 1) with (a + 3) by lia.
Qed.
Lemma push_words_eq l a s : push_words l a s = Ok tt (set_field k_user (store_bytes a (words_bytes l)) s).
Proof.
  unfold push_words.
  assert (Hk : forall k s, for_ (zip (seq k (length l)) l) (fun '(i, v) => put_fs_long v (a + 4 * Z.of_nat i)) s =
    Ok tt (set_field k_user (store_bytes (a + 4 * Z.of_nat k) (words_bytes l)) s)).
  { clear s. induction l as [|v l IH]; intros k s; [by destruct s|]. cbn [length seq zip zip_with for_].
    unfold mbind, M_bind. rewrite put_fs_long_eq, IH.
    change (set_field k_user (store_bytes (a + 4 * Z.of_nat k) (words_bytes (v :: l))) s) with
      (set_field k_user (fun _ => store_bytes (a + 4 * Z.of_nat k) (words_bytes (v :: l)) (k_user s)) s).
    f_equal. unfold words_bytes. cbn [fmap list_fmap concat].
    rewrite store_bytes_app. cbn [length word_bytes]. change (Z.of_nat 4) with 4.
    by replace (a + 4 * Z.of_nat k + 4) with (a + 4 * Z.of_nat (S k)) by lia. }
  rewrite (Hk 0%nat). change (Z.of_nat 0) with 0. by rewrite Z.mul_0_r, Z.add_0_r.
Qed.
Lemma words_bytes_ok l : bytes_ok (words_bytes l).
Proof.
  unfold bytes_ok, words_bytes. induction l as [|v l IH]; [constructor|]. cbn. repeat constructor; try apply u8_range. exact IH.
Qed.
Lemma words_bytes_length l : length (words_bytes l) = (4 * length l)%nat.
Proof. unfold words_bytes. induction l as [|v l IH]; [done|]. cbn [fmap list_fmap concat]. rewrite length_app, IH. cbn. lia. Qed.
(** [verify_area] is about memory only. *)
Lemma verify_area_frame addr size s s' : verify_area addr size s = Ok tt s' ->
  s' = set_field k_mm (fun _ => k_mm s') s.
Proof.
  assert (Hl : forall n a s x s', loop n (fun '(start, size) =>
    if size <=? 0 then mret (inr tt)
    else mm (write_verify start) ;; mret (inl (u32 (start + 4096), size - 4096))) a s = Ok x s' ->
    s' = set_field k_mm (fun _ => k_mm s') s).
  { clear. induction n as [|n IH]; intros [st sz] s x s'; [done|]. rewrite loop_S. unfold mbind at 1, M_bind.
    destruct (sz <=? 0); cbn; [intros [= _ <-]; by destruct s|]. unfold mbind, M_bind, mm, zoom.
    destruct (write_verify st (k_mm s)); try done. intros E%IH. rewrite E. reflexivity. }
  unfold verify_area, mbind at 1, M_bind. destruct (cur_ldt 2 s) eqn:E; try done.
  assert (s0 = s) as ->.
  { unfold cur_ldt, cur, tget, mbind, M_bind in E. destruct (task_at s (k_current s)) as [t|]; [|done].
    destruct (t_ldt t !! 2%nat); [by injection E as _ ->|done]. }
  apply Hl.
Qed.

(** The task as [do_signal] leaves it: the signal [n + 1] is no longer
    pending, a handler for one time is forgotten, the signals of the mask are
    blocked. *)
Definition signal_taken (n : Z) (sa : sigaction) (t : task_struct) : task_struct :=
  let t := set_field t_signal (fun _ => Z.ldiff (t_signal t) (2 ^ n)) t in
  if truth (Z.land (sa_flags sa) SA_ONESHOT)
  then set_field t_sigaction (alter (set_field sa_handler (fun _ => 0)) (Z.to_nat n)) t else t.
Definition frame_longs (sa : sigaction) : Z := if truth (Z.land (sa_flags sa) SA_NOMASK) then 7 else 8.

Lemma bsf_lowest w n : 0 <= n < 32 -> Z.testbit w n = true -> (forall m, 0 <= m < n -> Z.testbit w m = false) -> bsf w = n.
Proof.
  intros Hn Hb Hlow. destruct (bsf_from_spec 31 0 w ltac:(lia)) as (H1 & H2 & H3); [exists n; split; [lia|done]|].
  fold (bsf w) in *. destruct (Z.lt_trichotomy (bsf w) n) as [?|[?|?]]; [|done|].
  - rewrite Hlow in H2 by lia. done.
  - rewrite H3 in Hb by lia. done.
Qed.

(** C15: on the way back to user mode the lowest-numbered signal that is
    pending and not blocked is taken: when the process has a handler for it,
    the process goes on in the handler, on a stack that holds, from the new
    stack pointer up, the restorer, the signal number, the old mask (unless
    SA_NOMASK), eax, ecx, edx, the flags and the address where it was
    interrupted; the signal is no longer pending and the handler's mask is
    blocked; no other register changes. *)
Theorem signal_handler_entered fr s t n sa :
  task_at s (k_current s) = Some t -> k_current s <> 0%nat -> u16 (u_cs fr) = 0x0f -> u16 (u_ss fr) = 0x17 ->
  0 <= n < 32 -> Z.testbit (deliverable (t_signal t) (t_blocked t)) n = true ->
  (forall m, 0 <= m < n -> Z.testbit (deliverable (t_signal t) (t_blocked t)) m = false) ->
  t_sigaction t !! Z.to_nat n = Some sa -> sa_handler sa <> 0 -> sa_handler sa <> 1 ->
  let esp := u32 (u_esp fr - 4 * frame_longs sa) in
  wp (verify_area esp (frame_longs sa * 4)) (fun _ _ => True) (put_task (k_current s) (signal_taken n sa t) s) ->
  wp (ret_from_sys_call fr) (fun fr' s' =>
    fr' = set_field u_esp (fun _ => esp) (set_field u_eip (fun _ => sa_handler sa) fr) /\
    user_bytes s' esp (frame_longs sa * 4) = words_bytes (signal_frame sa (n + 1) (t_blocked t)
      (u_eax fr) (u_ecx fr) (u_edx fr) (u_eflags fr) (u_eip fr)) /\
    task_at s' (k_current s') = Some (set_field t_blocked (fun b => Z.lor b (s32 (sa_mask sa))) (signal_taken n sa t))) s.
Proof.
  intros Ht Hcur Hcs Hss Hn Hb Hlow Hsa Hh0 Hh1 esp Hv. unfold ret_from_sys_call.
  apply wpg_bind, wpg_gets. rewrite (proj2 (Nat.eqb_neq _ _) Hcur), Hcs, Hss. cbn [negb Z.eqb Pos.eqb].
  apply wpg_bind. eapply wpg_cur; [exact Ht|]. apply wpg_bind. eapply wpg_cur; [exact Ht|]. cbv zeta.
  destruct (Z.eqb_spec (deliverable (t_signal t) (t_blocked t)) 0) as [E|_]; [rewrite E, Z.bits_0 in Hb; done|].
  rewrite (bsf_lowest _ n) by done. apply wpg_bind. eapply wpg_cst; [exact Ht|].
  set (t1 := set_field t_signal _ t). set (s1 := put_task _ t1 s).
  assert (H1 : task_at s1 (k_current s1) = Some t1) by by eapply task_at_put.
  apply wpg_bind. unfold do_signal. apply wpg_bind. unfold cur_sigaction. apply wpg_bind. eapply wpg_cur; [exact H1|].
  rewrite (proj2 (Z.ltb_ge _ _)) by lia. replace (n + 1 - 1) with n by lia.
  change (t_sigaction t1) with (t_sigaction t). rewrite Hsa. apply wpg_ret.
  rewrite (proj2 (Z.eqb_neq _ _) Hh1), (proj2 (Z.eqb_neq _ _) Hh0). cbn [andb].
  apply wpg_bind, wpg_ret, wpg_bind.
  assert (Hq : forall Q : unit -> kernel -> Prop, Q tt (put_task (k_current s) (signal_taken n sa t) s) ->
    wp (when (truth (Z.land (sa_flags sa) SA_ONESHOT)) (upd_sigaction (n + 1) (set_field sa_handler (fun _ => 0)))) Q s1).
  { intros Q HQ. unfold signal_taken in HQ. fold t1 in HQ. destruct (truth _); [|exact HQ].
    unfold upd_sigaction. replace (n + 1 - 1) with n by lia. eapply wpg_cupd; [exact H1|]. cbn.
    unfold s1. by rewrite put_put. }
  apply Hq. clear Hq. set (t2 := signal_taken n sa t) in *. set (s2 := put_task _ t2 s) in *.
  assert (H2 : task_at s2 (k_current s2) = Some t2) by by eapply task_at_put.
  fold (frame_longs sa). fold esp. apply wpg_bind. apply wp_Ok in Hv as ([] & s3 & E3 & _).
  unfold wpg at 1. rewrite E3. rewrite (verify_area_frame _ _ _ _ E3). set (s4 := set_field k_mm _ s2).
  assert (H4 : task_at s4 (k_current s4) = Some t2) by exact H2.
  apply wpg_bind. eapply wpg_cur; [exact H4|]. apply wpg_bind. unfold wpg at 1. rewrite push_words_eq.
  assert (Eb : t_blocked t2 = t_blocked t) by (unfold t2, signal_taken; by destruct (truth _)). rewrite Eb.
  set (l := signal_frame _ _ _ _ _ _ _ _). set (s5 := set_field k_user _ s4).
  assert (H5 : task_at s5 (k_current s5) = Some t2) by exact H2.
  apply wpg_bind. eapply wpg_cupd; [exact H5|]. do 2 apply wpg_ret. split_and!; [done| |by eapply task_at_put].
  assert (Hl : Z.of_nat (length (words_bytes l)) = frame_longs sa * 4).
  { rewrite words_bytes_length. unfold l, signal_frame, frame_longs. by destruct (truth _). }
  apply (user_bytes_stored s4); [apply words_bytes_ok|exact Hl|]. unfold frame_longs. destruct (truth _); lia.
Qed.
End properties.


(** Process 1 in user mode, with an alarm pending and a handler for it at
    0x1000. *)
Definition alarmed : kernel :=
  set_field k_current (fun _ => 1%nat) (set_field k_task (fun l => <[1%nat := Some
    (set_field t_signal (fun _ => sigbit 14)
      (set_field t_sigaction (fun _ => <[13%nat := Sigaction 0x1000 0 SA_ONESHOT 0x2000]> (replicate 32 (Sigaction 0 0 0 0)))
        (INIT_TASK 0)))]> l) (boot_kernel 0 0x20000)).
Definition user_frame : frame := Frame_ 37 0 14 0 0x17 0x17 0x17 0x400 0x0f 0x202 0x8000 0x17 0 0 0 0x17.
Lemma signal_handler_entered_witness :
  wp (ret_from_sys_call (H := idle_world) user_frame) (fun fr' s' => u_eip fr' = 0x1000 /\ u_esp fr' = 0x7fe0 /\
    user_bytes s' 0x7fe0 32 = words_bytes [0x2000; 14; 0; 37; 14; 0; 0x202; 0x400]) alarmed.
Proof.
  eapply wp_mono.
  - eapply (signal_handler_entered (H := idle_world) user_frame alarmed _ 13 (Sigaction 0x1000 0 SA_ONESHOT 0x2000)).
    + reflexivity.
    + discriminate.
    + reflexivity.
    + reflexivity.
    + lia.
    + reflexivity.
    + intros m Hm. assert (Hc : m ∈ seqZ 0 13) by (apply elem_of_seqZ; lia). clear Hm. revert m Hc.
      apply Forall_forall. repeat constructor.
    + reflexivity.
    + discriminate.
    + discriminate.
    + vm_compute. exact I.
  - intros fr' s' (-> & Hb & _). split; [reflexivity|]. split; [reflexivity|exact Hb].
Defined.
