(* ===== verification/HdRead.v ===== *)
(** * A block read from the hard disk, from the request to the data

    [ll_rw_block] with an idle hard-disk driver puts the request into the
    queue and sends the command; two interrupts bring the two sectors of the
    block.  The controller is known by what it answers at its ports, as a
    function of the port accesses so far. *)

From S2P Require Import Prelude Kernel Sched Memory Blk Hd Floppy LLRwBlk Requests SystemCall.

(** ** An AT disk controller, as its registers after the port accesses so far *)

(** The registers, the words moved by the command, and what the sectors hold. *)
Record disk_regs := Regs { g_nsect : Z; g_sect : Z; g_cyl_lo : Z; g_cyl_hi : Z; g_head : Z; g_cmd : Z; g_words : Z;
  g_image : Z -> Z -> list Z }.
(** The drive, and the first sector of a command, counted through the disk. *)
Definition g_drive (g : disk_regs) : Z := Z.land (Z.shiftr (g_head g) 4) 1.
Definition g_first (info : hd_i_struct) (g : disk_regs) : Z :=
  ((g_cyl_lo g + 256 * g_cyl_hi g) * hd_head info + Z.land (g_head g) 15) * hd_sect info + (g_sect g - 1).
(** Word [k] of sector [n] is written. *)
Definition write_word (d n k v : Z) (im : Z -> Z -> list Z) : Z -> Z -> list Z := fun d' n' =>
  if (d' =? d) && (n' =? n) then splice (im d n) (2 * k) [u8 v; u8 (v / 256)] else im d' n'.
(** A word through the data port moves the command on; that of a write
    command goes to its place on the disk. *)
Definition data_word (info : Z -> hd_i_struct) (g : disk_regs) (v : Z) : Z -> Z -> list Z :=
  if g_cmd g =? WIN_WRITE then write_word (g_drive g) (g_first (info (g_drive g)) g + g_words g / 256) (g_words g mod 256) v (g_image g)
  else g_image g.
Definition regs_step (info : Z -> hd_i_struct) (g : disk_regs) (e : io_event) : disk_regs :=
  let '(Regs n s cl ch h c w im) := g in
  match e with
  | PortOut v port =>
      if port =? HD_DATA then Regs n s cl ch h c (w + 1) (data_word info g v)
      else if port =? HD_DATA + 2 then Regs v s cl ch h c w im
      else if port =? HD_DATA + 3 then Regs n v cl ch h c w im
      else if port =? HD_DATA + 4 then Regs n s v ch h c w im
      else if port =? HD_DATA + 5 then Regs n s cl v h c w im
      else if port =? HD_DATA + 6 then Regs n s cl ch v c w im
      else if port =? HD_DATA + 7 then Regs n s cl ch h v 0 im
      else g
  | PortIn _ port => if port =? HD_DATA then Regs n s cl ch h c (w + 1) im else g
  end.
(** Drives of the given geometry that hold [disk] when the machine starts. *)
Record at_disk := AtDisk { d_info : Z -> hd_i_struct; d_sectors : Z -> Z -> list Z }.
Definition controller (D : at_disk) (io : list io_event) : disk_regs :=
  foldl (regs_step (d_info D)) (Regs 0 0 0 0 0 0 0 (d_sectors D)) io.
(** The sectors as the port accesses so far leave them. *)
Definition image (D : at_disk) (s : kernel) : Z -> Z -> list Z := g_image (controller D (k_io s)).

(** Word [k] of a sector. *)
Definition word_of (l : list Z) (k : Z) : Z := nth (Z.to_nat (2 * k)) l 0 + 256 * nth (Z.to_nat (2 * k + 1)) l 0.
(** The controller is never busy and never fails, and has room for the words of
    a write command; the words read through the data port after a read command
    are those of the sectors from the first on. *)
Record disk_answers `{Hardware} (D : at_disk) : Prop := {
  answer_status s : Z.land (u8 (port_in s HD_STATUS)) 0xf1 = 0x50;
  answer_drq s : let g := controller D (k_io s) in
    g_cmd g = WIN_WRITE -> 0 <= g_words g < 256 * g_nsect g -> Z.land (u8 (port_in s HD_STATUS)) DRQ_STAT = DRQ_STAT;
  answer_data s : let g := controller D (k_io s) in
    g_cmd g = WIN_READ -> 0 <= g_words g < 256 * g_nsect g ->
    u16 (port_in s HD_DATA) = word_of (g_image g (g_drive g) (g_first (d_info D (g_drive g)) g + g_words g / 256)) (g_words g mod 256);
  answer_sector d n : length (d_sectors D d n) = 512%nat /\ Forall (fun c => 0 <= c < 256) (d_sectors D d n) }.

Definition ios (l : list io_event) (s : kernel) : kernel := set_field k_io (fun io => io ++ l) s.


(** The port writes of a command. *)
Definition command (i : hd_i_struct) (drive nsect sect head cyl cmd : Z) : list io_event :=
  [PortOut (u8 (hd_ctl i)) HD_CMD; PortOut (u8 (Z.shiftr (hd_wpcom i) 2)) (HD_DATA + 1); PortOut (u8 nsect) (HD_DATA + 2);
   PortOut (u8 sect) (HD_DATA + 3); PortOut (u8 cyl) (HD_DATA + 4); PortOut (u8 (Z.shiftr (u32 cyl) 8)) (HD_DATA + 5);
   PortOut (u8 (Z.lor (Z.lor 0xA0 (Z.shiftl drive 4)) head)) (HD_DATA + 6); PortOut (u8 cmd) (HD_DATA + 7)].
(** One word of [port_read]. *)
Definition read_word `{Hardware} '(k, acc) : M kernel ((nat * list Z) + list Z) :=
  match (k : nat) with
  | O => mret (inr acc)
  | S k' => w ← in_port u16 HD_DATA; mret (inl (k', acc ++ [Z.land w 0xff; Z.shiftr w 8]))
  end.
(** The request after another sector. *)
Definition sector_done (q : request) : request :=
  set_field r_nr_sectors (fun x => u32 (x - 1)) (set_field r_sector (fun x => u32 (x + 1))
    (set_field r_boff (fun o => o + 512) (set_field r_errors (fun _ => 0) q))).
Definition with_sector (r : nat) (q : request) (b : nat) (h : buffer_head) (l : list io_event) (v : list Z) (s : kernel) : kernel :=
  set_field k_requests (fun R => <[r := sector_done q]> R)
    (set_field k_bufs (fun B => <[b := set_field b_data (fun d => splice d (r_boff q) v) h]> B) (ios l s)).
Definition no_intr (s : kernel) : kernel := set_field k_hd (set_field do_hd (fun _ => None)) s.
Definition with_data (h : buffer_head) (off : Z) (v : list Z) : buffer_head := set_field b_data (fun d => splice d off v) h.
(** An idle driver that need not reset the drive first. *)
Record hd_ready (s : kernel) : Prop := {
  hready_idle : idle_device MAJOR_HD s;
  hready_ok : hd_reset (k_hd s) = 0 /\ hd_recalibrate (k_hd s) = 0 }.

Section reading.
Context `{World} (D : at_disk) (HD : disk_answers D).
(** The command under way moves two sectors from [first] on; [w] words of
    sector [j] have been moved, and the disk holds [im]. *)
Definition moving (cmd d first j w : Z) (im : Z -> Z -> list Z) (g : disk_regs) : Prop :=
  g_cmd g = cmd /\ g_nsect g = 2 /\ g_drive g = d /\ g_first (d_info D d) g = first /\ g_words g = 256 * j + w /\ g_image g = im.
Abbreviation in_read := (moving WIN_READ).
(** A read under way: sector [j] of two is next, and goes to byte [512 * j]
    of buffer [b]. *)
Record reading (d first j : Z) (im : Z -> Z -> list Z) (r : nat) (q : request) (b : nat) (h : buffer_head) (s : kernel) : Prop := {
  reading_intr : do_hd (k_hd s) = Some READ_INTR;
  reading_regs : in_read d first j 0 im (controller D (k_io s));
  reading_dev : k_blk_dev s !! MAJOR_HD = Some (BlkDev (Some MAJOR_HD) (Some r));
  reading_request : k_requests s !! r = Some q;
  reading_place : r_buffer q = Some b /\ r_boff q = 512 * j;
  reading_buffer : k_bufs s !! b = Some h /\ length (b_data h) = 1024%nat }.
(** The partition a minor number names, on a drive the controller can address. *)
Record partition (s : kernel) (minor start nr : Z) : Prop := {
  part_minor : 0 <= minor < 5 * NR_HD (k_hd s) /\ NR_HD (k_hd s) <= 2;
  part_sectors : hd_parts (k_hd s) !! Z.to_nat minor = Some (start, nr);
  part_drive : hd_info (k_hd s) !! Z.to_nat (Z.quot minor 5) = Some (d_info D (Z.quot minor 5));
  part_geometry : let i := d_info D (Z.quot minor 5) in 0 < hd_head i <= 16 /\ 0 < hd_sect i <= 255 /\
    0 <= start /\ 0 <= nr /\ start + nr <= 65536 * (hd_head i * hd_sect i) }.
(** A transfer of two sectors from the start of buffer [b] is the current
    request, and the driver may send its command. *)
Record pending_block (s : kernel) (r : nat) (q : request) (b : nat) (h : buffer_head) (minor start nr n : Z) : Prop := {
  tr_part : partition s minor start nr;
  tr_ok : hd_reset (k_hd s) = 0 /\ hd_recalibrate (k_hd s) = 0;
  tr_dev : k_blk_dev s !! MAJOR_HD = Some (BlkDev (Some MAJOR_HD) (Some r));
  tr_request : k_requests s !! r = Some q;
  tr_buffer : k_bufs s !! b = Some h /\ b_lock h = 1 /\ length (b_data h) = 1024%nat;
  tr_minor : r_dev q = 0x300 + minor;
  tr_sectors : r_sector q = u32 (Z.shiftl n 1) /\ r_nr_sectors q = 2;
  tr_place : r_bh q = Some b /\ r_buffer q = Some b /\ r_boff q = 0;
  tr_fits : 0 <= n /\ 2 * n + 2 <= nr }.
(** A block of a partition, and a buffer for it. *)
Record block_of (s : kernel) (b : nat) (h : buffer_head) (minor start nr n : Z) : Prop := {
  bl_part : partition s minor start nr;
  bl_buf : k_bufs s !! b = Some h;
  bl_dev : b_dev h = 0x300 + minor;
  bl_nr : b_blocknr h = n;
  bl_lock : b_lock h = 0 /\ b_wait h = None;
  bl_data : length (b_data h) = 1024%nat;
  bl_fits : 0 <= n /\ 2 * n + 2 <= nr }.

(** ** The ports *)

Lemma splice_bytes l off v : Forall (fun c => 0 <= c < 256) l -> Forall (fun c => 0 <= c < 256) v -> Forall (fun c => 0 <= c < 256) (splice l off v).
Proof. intros Hl Hv. unfold splice. apply Forall_app. split; [by apply Forall_take|]. apply Forall_app. split; [done|by apply Forall_drop]. Qed.
(** Whatever is sent to the ports, the sectors stay sectors of bytes. *)
Lemma image_sectors A io d n : (forall d n, length (d_sectors A d n) = 512%nat /\ Forall (fun c => 0 <= c < 256) (d_sectors A d n)) ->
  let l := g_image (controller A io) d n in length l = 512%nat /\ Forall (fun c => 0 <= c < 256) l.
Proof.
  intros H0. unfold controller. revert d n.
  change (forall d n, length (g_image (Regs 0 0 0 0 0 0 0 (d_sectors A)) d n) = 512%nat /\
    Forall (fun c => 0 <= c < 256) (g_image (Regs 0 0 0 0 0 0 0 (d_sectors A)) d n)) in H0. revert H0.
  generalize (Regs 0 0 0 0 0 0 0 (d_sectors A)). induction io as [|e io IH]; intros g Hg; [exact Hg|].
  cbn [foldl]. apply IH. intros d n. destruct g as [n0 s0 cl ch h c w im], e as [v port|v port]; cbn [regs_step]; [|case_match; exact (Hg d n)].
  destruct (port =? HD_DATA); [|repeat (case_match; try exact (Hg d n))].
  cbn [g_image]. unfold data_word. cbn [g_cmd g_words g_image]. destruct (c =? WIN_WRITE); [|exact (Hg d n)].
  unfold write_word. destruct (_ && _); [|exact (Hg d n)]. set (d1 := g_drive _). set (n1 := g_first _ _ + _).
  destruct (Hg d1 n1) as [Hl Hb]. cbn in Hl, Hb. pose proof (Z.mod_pos_bound w 256 ltac:(lia)). split.
  - rewrite splice_length; cbn [length]; lia.
  - apply splice_bytes; [done|]. repeat constructor; apply u8_range.
Qed.
Lemma ios_ios l l' s : ios l' (ios l s) = ios (l ++ l') s.
Proof. unfold ios, set_field, set_k_io. cbn. by rewrite app_assoc. Qed.
Lemma controller_app io l : controller D (io ++ l) = foldl (regs_step (d_info D)) (controller D io) l.
Proof. apply foldl_app. Qed.
Lemma inb_run port s : inb port s = Ok (u8 (port_in s port)) (ios [PortIn (u8 (port_in s port)) port] s).
Proof. reflexivity. Qed.
Lemma outb_run v port s : outb v port s = Ok tt (ios [PortOut (u8 v) port] s).
Proof. reflexivity. Qed.
Lemma status_masks v : Z.land v 0xf1 = 0x50 -> Z.land v 0xc0 = 0x40.
Proof.
  intros E. replace 0xc0 with (Z.land 0xf1 0xc0) by reflexivity. by rewrite Z.land_assoc, E.
Qed.
Lemma controller_ready_run s : exists v, controller_ready s = Ok 9999 (ios [PortIn v HD_STATUS] s).
Proof.
  eexists. unfold controller_ready. change 10001%nat with (S 10000). rewrite loop_S.
  erewrite bind_Ok. 2:{ change (negb (truth (10000 - 1))) with false. cbn iota.
    erewrite bind_Ok by apply inb_run. rewrite (status_masks _ (answer_status _ HD s)). reflexivity. }
  reflexivity.
Qed.
Lemma win_result_run s : exists v, win_result s = Ok 0 (ios [PortIn v HD_STATUS] s).
Proof.
  eexists. unfold win_result. erewrite bind_Ok by apply inb_run.
  change (Z.lor BUSY_STAT _) with 0xf1. rewrite (answer_status _ HD s). reflexivity.
Qed.
Lemma hd_out_run i drive nsect sect head cyl cmd intr s :
  0 <= drive <= 1 -> 0 <= head <= 15 -> hd_info (k_hd s) !! Z.to_nat drive = Some i ->
  exists v, hd_out drive nsect sect head cyl cmd intr s =
    Ok tt (set_field k_hd (set_field do_hd (fun _ => Some intr)) (ios (PortIn v HD_STATUS :: command i drive nsect sect head cyl cmd) s)).
Proof.
  intros Hd Hh Hi. destruct (controller_ready_run s) as [v E]. exists v. unfold hd_out.
  rewrite !u32_small by lia. rewrite (proj2 (Z.ltb_ge 1 _)), (proj2 (Z.ltb_ge 15 _)) by lia. cbn [orb].
  rewrite (bind_Ok _ _ _ _ _ E). change (negb (truth 9999)) with false. cbn iota.
  erewrite bind_Ok by reflexivity. unfold hd_drive. 
  erewrite bind_Ok. 2: { erewrite bind_Ok by reflexivity. rewrite (proj2 (Z.ltb_ge _ _)) by lia. cbn [k_hd]. 
    change (hd_info _) with (hd_info (k_hd s)). rewrite Hi. reflexivity. }
  do 7 (erewrite bind_Ok by apply outb_run). rewrite outb_run, !ios_ios. f_equal.
  unfold ios, set_field, set_k_io, set_k_hd. cbn. by rewrite <- app_assoc.
Qed.
Lemma head_byte drive head : 0 <= drive <= 1 -> 0 <= head <= 15 ->
  let v := u8 (Z.lor (Z.lor 0xA0 (Z.shiftl drive 4)) head) in Z.land (Z.shiftr v 4) 1 = drive /\ Z.land v 15 = head.
Proof.
  intros Hd Hh.
  assert (H0 : forallb (fun drive => forallb (fun head => let v := u8 (Z.lor (Z.lor 0xA0 (Z.shiftl drive 4)) head) in
    (Z.land (Z.shiftr v 4) 1 =? drive) && (Z.land v 15 =? head)) (seqZ 0 16)) (seqZ 0 2) = true) by (vm_compute; reflexivity).
  rewrite forallb_forall in H0. assert (H1 : drive ∈ seqZ 0 2) by (apply elem_of_seqZ; lia). specialize (H0 drive (proj1 (list_elem_of_In _ _) H1)).
  rewrite forallb_forall in H0. assert (H2 : head ∈ seqZ 0 16) by (apply elem_of_seqZ; lia). specialize (H0 head (proj1 (list_elem_of_In _ _) H2)).
  cbv zeta in *. kbool. exact H0.
Qed.
(** The registers after a command, and the sector they address. *)
Lemma command_regs io v i drive nsect sect head cyl cmd :
  0 <= drive <= 1 -> 0 <= head <= 15 -> 0 <= cyl < 65536 -> 0 < sect < 256 -> 0 <= nsect < 256 -> 0 <= cmd < 256 ->
  let g := controller D (io ++ PortIn v HD_STATUS :: command i drive nsect sect head cyl cmd) in
  g_cmd g = cmd /\ g_nsect g = nsect /\ g_words g = 0 /\ g_drive g = drive /\ g_image g = g_image (controller D io) /\
  forall i', g_first i' g = (cyl * hd_head i' + head) * hd_sect i' + (sect - 1).
Proof.
  intros Hd Hh Hc Hs Hn Hm.
  assert (E : controller D (io ++ PortIn v HD_STATUS :: command i drive nsect sect head cyl cmd) =
    Regs (u8 nsect) (u8 sect) (u8 cyl) (u8 (Z.shiftr (u32 cyl) 8)) (u8 (Z.lor (Z.lor 0xA0 (Z.shiftl drive 4)) head)) (u8 cmd) 0 (g_image (controller D io)))
    by (rewrite controller_app; by destruct (controller D io)).
  rewrite E. clear E.
  destruct (head_byte drive head Hd Hh) as [E1 E2].
  unfold g_drive, g_first. cbn [g_nsect g_sect g_cyl_lo g_cyl_hi g_head g_cmd g_words]. rewrite E1, E2, !(u8_small nsect), (u8_small sect), (u8_small cmd), (u32_small cyl), Z.shiftr_div_pow2 by lia.
  split_and!; try done. intros i'. do 3 f_equal. unfold u8. change (2 ^ 8) with 256. 
  rewrite (Z.mod_small (cyl / 256)) by (split; [apply Z.div_pos; lia|apply Z.div_lt_upper_bound; lia]).
  pose proof (Z.div_mod cyl 256). lia.
Qed.
Section one_image.
Context (im : Z -> Z -> list Z).
(** The status register can be read at any time. *)
Lemma moving_status cmd d first j w s v : moving cmd d first j w im (controller D (k_io s)) ->
  moving cmd d first j w im (controller D (k_io (ios [PortIn v HD_STATUS] s))).
Proof. unfold moving. change (k_io (ios ?l s)) with (k_io s ++ l). rewrite controller_app. by destruct (controller D (k_io s)). Qed.
Lemma in_read_data d first j w s v : in_read d first j w im (controller D (k_io s)) ->
  in_read d first j (w + 1) im (controller D (k_io (ios [PortIn v HD_DATA] s))).
Proof.
  unfold moving. change (k_io (ios _ s)) with (k_io s ++ [PortIn v HD_DATA]). rewrite controller_app.
  destruct (controller D (k_io s)). cbn. intros (? & ? & ? & ? & -> & ?). split_and!; try done. lia.
Qed.
Lemma moving_sector cmd d first j w io : moving cmd d first j w im (controller D io) ->
  forall d n, length (im d n) = 512%nat /\ Forall (fun c => 0 <= c < 256) (im d n).
Proof. intros (_ & _ & _ & _ & _ & <-) d' n. apply image_sectors, (answer_sector _ HD). Qed.
Lemma word_bytes lo hi : 0 <= lo < 256 -> 0 <= hi < 256 -> Z.land (lo + 256 * hi) 0xff = lo /\ Z.shiftr (lo + 256 * hi) 8 = hi.
Proof.
  intros Hl Hh. change 0xff with (Z.ones 8). rewrite Z.land_ones, Z.shiftr_div_pow2 by lia. change (2 ^ 8) with 256.
  rewrite (Z.add_comm lo), Z.mul_comm, Z.add_comm, Z_mod_plus_full, Z.mod_small, Z_div_plus_full, Z.div_small by lia. lia.
Qed.
Lemma drop_two (l : list Z) k : (2 * k + 1 < length l)%nat ->
  drop (2 * k) l = nth (2 * k) l 0 :: nth (2 * k + 1) l 0 :: drop (2 * S k) l.
Proof.
  intros H1. destruct (lookup_lt_is_Some_2 l (2 * k)) as [x Hx]; [lia|]. destruct (lookup_lt_is_Some_2 l (2 * k + 1)) as [y Hy]; [lia|].
  rewrite (drop_S _ _ _ Hx). replace (S (2 * k)) with (2 * k + 1)%nat by lia. rewrite (drop_S _ _ _ Hy).
  rewrite (nth_lookup_Some _ _ _ _ Hx), (nth_lookup_Some _ _ _ _ Hy). do 3 f_equal. lia.
Qed.
Lemma port_read_run n acc d first j s : 0 <= j < 2 -> (n <= 256)%nat ->
  in_read d first j (256 - Z.of_nat n) im (controller D (k_io s)) ->
  exists l, loop (S n) read_word (n, acc) s = Ok (acc ++ drop (2 * (256 - n)) (im d (first + j))) (ios l s) /\
    in_read d first j 256 im (controller D (k_io (ios l s))).
Proof.
  intros Hj. revert acc s. induction n as [|n IH]; intros acc s Hn Hg; rewrite loop_S.
  - pose proof (proj1 (moving_sector _ _ _ _ _ _ Hg d (first + j))) as Hl. exists []. replace (ios [] s) with s by (destruct s; unfold ios, set_field, set_k_io; cbn; by rewrite app_nil_r).
    erewrite bind_Ok by reflexivity. rewrite drop_ge, app_nil_r; [done|]. by rewrite Hl.
  - pose proof (answer_data _ HD s) as Hw. destruct (moving_sector _ _ _ _ _ _ Hg d (first + j)) as [Hlen Hbytes].
    pose proof Hg as (E1 & E2 & E3 & E4 & E5 & E6). cbv zeta in Hw.
    specialize (Hw E1 ltac:(rewrite E2, E5; lia)). rewrite E3, E4, E5, E6 in Hw.
    replace ((256 * j + (256 - Z.of_nat (S n))) / 256) with j in Hw by (apply (Z.div_unique _ _ _ (256 - Z.of_nat (S n))); lia).
    replace ((256 * j + (256 - Z.of_nat (S n))) mod 256) with (256 - Z.of_nat (S n)) in Hw by (apply (Z.mod_unique _ _ j); lia).
    set (k := (256 - S n)%nat) in *. 
    set (l := im d (first + j)) in *.
    assert (Hb : forall x, (x < 512)%nat -> 0 <= nth x l 0 < 256).
    { intros x Hx. destruct (lookup_lt_is_Some_2 l x) as [y Hy]; [lia|]. rewrite (nth_lookup_Some _ _ _ _ Hy). 
      rewrite Forall_forall in Hbytes. apply Hbytes. by eapply list_elem_of_lookup_2. }
    unfold word_of in Hw. replace (Z.to_nat (2 * (256 - Z.of_nat (S n)))) with (2 * k)%nat in Hw by lia.
    replace (Z.to_nat (2 * (256 - Z.of_nat (S n)) + 1)) with (2 * k + 1)%nat in Hw by lia.
    destruct (word_bytes (nth (2 * k) l 0) (nth (2 * k + 1) l 0)) as [B1 B2]; [apply Hb; lia..|].
    erewrite bind_Ok. 2: { cbn [read_word]. erewrite bind_Ok by reflexivity. rewrite Hw, B1, B2. reflexivity. }
    cbn iota.
    match goal with |- context [loop (S n) _ _ ?x] => set (s1 := x) end.
    destruct (IH (acc ++ [nth (2 * k) l 0; nth (2 * k + 1) l 0]) s1) as (io & -> & Hg'); [lia| |].
    + replace (256 - Z.of_nat n) with (256 - Z.of_nat (S n) + 1) by lia. by apply in_read_data.
    + change s1 with (ios [PortIn (u16 (port_in s HD_DATA)) HD_DATA] s) in *. rewrite ios_ios in *. eexists.
      rewrite <- app_assoc. cbn [app].
      rewrite (drop_two l k) by lia. replace (256 - n)%nat with (S k) by lia. done.
Qed.

Lemma hd_no_request fn s : k_blk_dev s !! MAJOR_HD = Some (BlkDev fn None) -> do_hd_request s = Ok tt s.
Proof.
  intros Hd. unfold do_hd_request. rewrite loop_S. rewrite (bind_Ok _ _ _ (inr tt) s); [done|].
  unfold hd_step. rewrite (bind_Ok _ _ _ None s); [done|]. unfold INIT_REQUEST. by erewrite bind_Ok by (by eapply CURRENT_run).
Qed.
Lemma upd_req (p : nat) {T} (f : request -> T) `{!Setter f} g q s : k_requests s !! p = Some q ->
  upd p f g s = Ok tt (set_field k_requests (fun l => <[p := set_field f g q]> l) s).
Proof. intros E. unfold upd, updr. cbn [tab request_table]. by rewrite E. Qed.
Lemma updr_bind {B} (p : nat) g q R s (k : unit -> M kernel B) : R !! p = Some q ->
  (updr p g ≫= k) (set_field k_requests (fun _ => R) s) = k tt (set_field k_requests (fun _ => <[p := g q]> R) s).
Proof. intros E. unfold mbind, M_bind, updr. cbn [tab request_table]. cbn. by rewrite E. Qed.
Lemma count_sector {B} r q s (k : M kernel B) : k_requests s !! r = Some q ->
  (st r r_errors 0 ;; upd r r_boff (fun o => o + 512) ;; upd r r_sector (fun x => u32 (x + 1)) ;;
   upd r r_nr_sectors (fun x => u32 (x - 1)) ;; k) s = k (set_field k_requests (fun R => <[r := sector_done q]> R) s).
Proof.
  intros E. assert (Hr := lookup_lt_Some _ _ _ E). unfold st, upd.
  transitivity ((updr r (set_field r_errors (fun _ => 0)) ;; updr r (set_field r_boff (fun o => o + 512)) ;;
    updr r (set_field r_sector (fun x => u32 (x + 1))) ;; updr r (set_field r_nr_sectors (fun x => u32 (x - 1))) ;; k)
    (set_field k_requests (fun _ => k_requests s) s)); [by destruct s|].
  rewrite (updr_bind _ _ q) by done.
  do 3 (erewrite updr_bind by (apply list_lookup_insert_eq; exact Hr); rewrite list_insert_insert_eq). done.
Qed.
Lemma read_sector d first j r fn q b h s :
  0 <= j < 2 -> in_read d first j 0 im (controller D (k_io s)) ->
  k_blk_dev s !! MAJOR_HD = Some (BlkDev fn (Some r)) -> k_requests s !! r = Some q -> r_buffer q = Some b -> r_boff q = 512 * j ->
  k_bufs s !! b = Some h -> length (b_data h) = 1024%nat ->
  exists l, in_read d first j 256 im (controller D (k_io (ios l s))) /\
    read_intr s =
    (if truth (r_nr_sectors (sector_done q)) then sset k_hd do_hd (Some READ_INTR) else end_request MAJOR_HD 1 ;; do_hd_request)
      (with_sector r q b h l (im d (first + j)) s).
Proof.
  intros Hj Hg Hd Hq Hb Ho Hh Hlen. destruct (win_result_run s) as [v E].
  assert (Hg1 : in_read d first j (256 - Z.of_nat 256) im (controller D (k_io (ios [PortIn v HD_STATUS] s)))).
  { change (256 - Z.of_nat 256) with 0. by apply moving_status. }
  destruct (port_read_run 256 [] d first j _ Hj ltac:(lia) Hg1) as (l & Ep & Hg2). rewrite ios_ios in *. cbn [app] in Ep.
  eexists. split; [exact Hg2|]. unfold read_intr. erewrite bind_Ok by exact E. change (truth 0) with false. cbn iota.
  erewrite bind_Ok by (by eapply CURRENT_run). cbn [current_request]. erewrite bind_Ok by reflexivity.
  change (port_read HD_DATA 256) with (loop 257 read_word (256%nat, [])).
  erewrite bind_Ok by exact Ep. change (drop (2 * (256 - 256)) (im d (first + j))) with (im d (first + j)).
  destruct (moving_sector _ _ _ _ _ _ Hg d (first + j)) as [Hsec _].
  erewrite bind_Ok by (eapply set_request_bytes_at; [exact Hq|exact Hb|exact Hh|rewrite Ho; lia|rewrite Ho, Hsec, Hlen; lia]).
  rewrite (count_sector r q) by exact Hq.
  erewrite bind_Ok by (eapply getf_req; apply list_lookup_insert_eq; by eapply lookup_lt_Some). done.
Qed.
Lemma hd_dev minor : 0 <= minor < 256 -> MAJOR (0x300 + minor) = 3 /\ MINOR (0x300 + minor) = minor.
Proof.
  intros Hm. unfold MAJOR, MINOR. rewrite Z.shiftr_div_pow2 by lia. change 0xff with (Z.ones 8). rewrite Z.land_ones by lia.
  change (2 ^ 8) with 256. rewrite u32_small by lia. replace (0x300 + minor) with (minor + 3 * 256) by lia.
  rewrite Z_mod_plus_full, Z_div_plus_full, Z.mod_small, Z.div_small by lia. done.
Qed.
(** Sector, head and cylinder of a sector counted through the disk. *)
Lemma sector_address (sects heads lba : Z) : 0 < sects <= 255 -> 0 < heads <= 16 -> 0 <= lba < 65536 * (heads * sects) ->
  let sec := lba mod sects + 1 in let head := (lba / sects) mod heads in let cyl := lba / sects / heads in
  0 < sec < 256 /\ 0 <= head <= 15 /\ 0 <= cyl < 65536 /\ (cyl * heads + head) * sects + (sec - 1) = lba.
Proof.
  intros Hs Hh Hl sec head cyl. pose proof (Z.mod_pos_bound lba sects ltac:(lia)). pose proof (Z.mod_pos_bound (lba / sects) heads ltac:(lia)).
  assert (0 <= cyl < 65536).
  { unfold cyl. rewrite Z.div_div by lia. split; [apply Z.div_pos; nia|apply Z.div_lt_upper_bound; nia]. }
  split_and!; [unfold sec; lia..|unfold head; lia|unfold head; lia|lia|lia|].
  replace (sec - 1) with (lba mod sects) by (unfold sec; lia). unfold head, cyl.
  pose proof (Z.div_mod lba sects). pose proof (Z.div_mod (lba / sects) heads). lia.
Qed.
Lemma part_bounds s minor start nr : partition s minor start nr -> 0 <= Z.quot minor 5 <= 1 /\ 0 <= minor < 256.
Proof.
  intros [[Hm HN] _ _ _]. split; [|lia]. rewrite Z.quot_div_nonneg by lia.
  pose proof (Z.div_pos minor 5). pose proof (Z.div_lt_upper_bound minor 5 2). lia.
Qed.
(** A transfer of two sectors of a block of a partition, up to its command. *)
Lemma step_transfer r q b h s n minor start nr : pending_block s r q b h minor start nr n ->
  let d := Z.quot minor 5 in let i := d_info D d in
  exists sec head cyl, hd_step tt s = hd_transfer r d 2 sec head cyl s /\ 0 < sec < 256 /\ 0 <= head <= 15 /\ 0 <= cyl < 65536 /\
    (cyl * hd_head i + head) * hd_sect i + (sec - 1) = start + 2 * n.
Proof.
  intros [Hpart [Hreset Hrecal] Hd Hq (Hh & Hl & _) Hqd [Hqs Hqn] (Hqb & _) [Hn Hfit]] d i. destruct (part_bounds _ _ _ _ Hpart) as [Hd5 Hm256].
  destruct Hpart as [[Hm HN] Hp Hi (Hheads & Hsects & Hstart & Hnr & Hsize)]. fold d i in Hi, Hheads, Hsects, Hsize, Hd5.
  destruct (hd_dev minor Hm256) as [HM1 HM2]. rewrite <- Hqd in HM1, HM2.
  assert (Hprod : 0 < hd_head i * hd_sect i <= 16 * 255) by nia.
  assert (Hsec : r_sector q = 2 * n) by (rewrite Hqs, Z.shiftl_mul_pow2, u32_small by lia; lia).
  set (lba := start + 2 * n). set (sects := hd_sect i) in *. set (heads := hd_head i) in *.
  exists (lba mod sects + 1), ((lba / sects) mod heads), (lba / sects / heads).
  split; [|apply sector_address; lia]. unfold hd_step.
  rewrite (bind_Ok _ _ s (Some r) s) by (by eapply INIT_REQUEST_at). cbn iota.
  erewrite bind_Ok by (by eapply getf_req). rewrite HM2.
  erewrite bind_Ok by (by eapply getf_req). erewrite bind_Ok by reflexivity. rewrite Hsec.
  rewrite (proj2 (Z.leb_gt (5 * NR_HD (k_hd s)) minor)) by lia.
  erewrite bind_Ok.
  2: { unfold hd_part. erewrite bind_Ok by reflexivity. rewrite (proj2 (Z.ltb_ge minor 0)) by lia. cbn [k_hd]. rewrite Hp. reflexivity. }
  cbn [fst snd orb]. rewrite !u32_small by lia. rewrite (proj2 (Z.ltb_ge nr _)) by lia.
  replace (2 * n + start) with lba by (unfold lba; lia). fold d.
  erewrite bind_Ok.
  2: { unfold hd_drive. erewrite bind_Ok by reflexivity. rewrite (proj2 (Z.ltb_ge d 0)) by lia. cbn [k_hd]. rewrite Hi. reflexivity. }
  fold i sects heads. rewrite (proj2 (Z.eqb_neq sects 0)), (proj2 (Z.eqb_neq heads 0)) by lia. cbn [orb].
  erewrite bind_Ok by (by eapply getf_req). rewrite Hqn.
  erewrite bind_Ok by reflexivity. rewrite Hreset. change (truth 0) with false. cbn iota.
  erewrite bind_Ok by reflexivity. rewrite Hrecal. change (truth 0) with false. cbn iota.
  rewrite !(u32_small sects), !(u32_small heads) by lia. reflexivity.
Qed.
(** The command as the controller has it. *)
Lemma command_sent cmd v s d sec head cyl first : 0 <= cmd < 256 -> 0 <= d <= 1 -> 0 < sec < 256 -> 0 <= head <= 15 -> 0 <= cyl < 65536 ->
  (cyl * hd_head (d_info D d) + head) * hd_sect (d_info D d) + (sec - 1) = first -> image D s = im ->
  moving cmd d first 0 0 im (controller D (k_io (ios (PortIn v HD_STATUS :: command (d_info D d) d 2 sec head cyl cmd) s))).
Proof.
  intros Hcmd Hd Hs Hh Hc Hf Him. change (k_io (ios ?l s)) with (k_io s ++ l).
  destruct (command_regs (k_io s) v (d_info D d) d 2 sec head cyl cmd Hd Hh Hc Hs ltac:(lia) Hcmd) as (E1 & E2 & E3 & E4 & E5 & E6).
  unfold moving. rewrite E1, E2, E3, E4, E5, E6. split_and!; done.
Qed.
(** [do_hd_request] ends with its turn when that sends a command. *)
Lemma request_step s s' : hd_step tt s = Ok (inr tt) s' -> do_hd_request s = Ok tt s'.
Proof. intros E. unfold do_hd_request. by rewrite loop_S, (bind_Ok _ _ _ _ _ E). Qed.
Lemma start_read r q b h s n minor start nr : pending_block s r q b h minor start nr n -> r_cmd q = READ -> image D s = im ->
  exists l, do_hd_request s = Ok tt (set_field k_hd (set_field do_hd (fun _ => Some READ_INTR)) (ios l s)) /\
    in_read (Z.quot minor 5) (start + 2 * n) 0 0 im (controller D (k_io (ios l s))).
Proof.
  intros Ht Hqc Him. destruct (part_bounds _ _ _ _ (tr_part _ _ _ _ _ _ _ _ _ Ht)) as [Hd5 _].
  destruct (step_transfer _ _ _ _ _ _ _ _ _ Ht) as (sec & head & cyl & E & Hs & Hhd & Hc & Hf).
  destruct (hd_out_run (d_info D (Z.quot minor 5)) (Z.quot minor 5) 2 sec head cyl WIN_READ READ_INTR s Hd5 Hhd
    (part_drive _ _ _ _ (tr_part _ _ _ _ _ _ _ _ _ Ht))) as (v & Eout). destruct Ht as [_ _ _ Hq _ _ _ _ _].
  eexists. split; [apply request_step; rewrite E; unfold hd_transfer|apply (command_sent WIN_READ v); try done].
  erewrite bind_Ok by (by eapply getf_req). rewrite Hqc. cbn [Z.eqb READ WRITE Pos.eqb].
  rewrite (bind_Ok _ _ _ _ _ Eout). reflexivity.
Qed.
Lemma interrupt_run i s : do_hd (k_hd s) = Some i ->
  hd_interrupt s = call_hd_intr i (set_field k_hd (set_field do_hd (fun _ => None)) (ios [PortOut 0x20 0xA0; PortOut 0x20 0x20] s)).
Proof.
  intros E. unfold hd_interrupt. erewrite bind_Ok by apply outb_run. erewrite bind_Ok by reflexivity. 
  erewrite bind_Ok by reflexivity. erewrite bind_Ok by apply outb_run.
  change (do_hd (k_hd (ios _ s))) with (do_hd (k_hd s)). rewrite E. cbn iota.
  f_equal. unfold ios, set_field, set_k_io, set_k_hd. cbn. by rewrite <- app_assoc.
Qed.
Lemma moving_pic cmd d first j w s : moving cmd d first j w im (controller D (k_io s)) ->
  moving cmd d first j w im (controller D (k_io (ios [PortOut 0x20 0xA0; PortOut 0x20 0x20] s))).
Proof. unfold moving. change (k_io (ios ?l s)) with (k_io s ++ l). rewrite controller_app. by destruct (controller D (k_io s)). Qed.
Lemma splice_halves (l a b : list Z) : length l = 1024%nat -> length a = 512%nat -> length b = 512%nat ->
  splice (splice l 0 a) 512 b = a ++ b.
Proof.
  intros Hl Ha Hb. unfold splice. change (Z.to_nat 0) with 0%nat. rewrite take_0. cbn [app Nat.add].
  replace (Z.to_nat 512) with (length a) by (rewrite Ha; reflexivity). rewrite take_app_length, drop_ge, app_nil_r; [done|].
  rewrite length_app, length_drop. lia.
Qed.
Lemma sector_interrupt d first j r q b h s : reading d first j im r q b h s -> 0 <= j < 2 ->
  exists l, in_read d first j 256 im (controller D (k_io (ios l s))) /\
    hd_interrupt s =
    (if truth (r_nr_sectors (sector_done q)) then sset k_hd do_hd (Some READ_INTR) else end_request MAJOR_HD 1 ;; do_hd_request)
      (with_sector r q b h l (im d (first + j)) (no_intr s)).
Proof.
  intros [Hi Hg Hd Hq [Hb Ho] [Hh Hlen]] Hj. rewrite (interrupt_run READ_INTR s Hi). change (call_hd_intr READ_INTR) with read_intr.
  match goal with |- context [read_intr ?x] => set (s1 := x) end.
  destruct (read_sector d first j r _ q b h s1 Hj (moving_pic _ _ _ _ _ _ Hg) Hd Hq Hb Ho Hh Hlen) as (l & Hg' & E).
  exists ([PortOut 0x20 0xA0; PortOut 0x20 0x20] ++ l). rewrite E. 
  assert (E1 : ios l s1 = ios ([PortOut 0x20 0xA0; PortOut 0x20 0x20] ++ l) (no_intr s)) by (unfold s1; by rewrite <- ios_ios).
  split.
  - rewrite <- ios_ios. exact Hg'.
  - unfold with_sector at 1. by rewrite E1.
Qed.
Lemma next_sector d first r q b h s : reading d first 0 im r q b h s -> r_nr_sectors q = 2 ->
  exists l, let s' := set_field k_hd (set_field do_hd (fun _ => Some READ_INTR)) (with_sector r q b h l (im d (first + 0)) (no_intr s)) in
    hd_interrupt s = Ok tt s' /\ reading d first 1 im r (sector_done q) b (with_data h (r_boff q) (im d (first + 0))) s'.
Proof.
  intros Hr Hn. destruct (sector_interrupt _ _ _ _ _ _ _ _ Hr ltac:(lia)) as (l & Hg & E). exists l. cbv zeta.
  pose proof (moving_sector _ _ _ _ _ _ Hg d (first + 0)) as [Hsec _].
  destruct Hr as [Hi _ Hd Hq [Hb Ho] [Hh Hlen]]. split.
  - rewrite E. replace (truth (r_nr_sectors (sector_done q))) with true; [reflexivity|].
    destruct q. cbn in Hn |- *. by rewrite Hn.
  - split; [reflexivity| |exact Hd| | |].
    + destruct Hg as (? & ? & ? & ? & Hw & ?). change (in_read d first 1 0 im (controller D (k_io (ios l s)))). by split_and!.
    + apply list_lookup_insert_eq. by eapply lookup_lt_Some.
    + destruct q. cbn in *. split; [done|]. by rewrite Ho.
    + split; [apply list_lookup_insert_eq; by eapply lookup_lt_Some|].
      change (length (splice (b_data h) (r_boff q) (im d (first + 0))) = 1024%nat).
      rewrite splice_length; rewrite ?Hsec, ?Hlen, ?Ho; lia.
Qed.
Lemma last_sector d first r q b h s : reading d first 1 im r q b h s -> r_nr_sectors q = 1 ->
  r_bh q = Some b -> r_waiting q = None -> b_wait h = None -> k_wait_for_request s = None ->
  exists l, let v := im d (first + 1) in in_read d first 1 256 im (controller D (k_io (ios l s))) /\
    hd_interrupt s = do_hd_request (ended MAJOR_HD (Some MAJOR_HD) r (sector_done q) b (with_data h (r_boff q) v) 1
      (with_sector r q b h l v (no_intr s))).
Proof.
  intros Hr Hn Hb Hqw Hw Hwr. destruct (sector_interrupt _ _ _ _ _ _ _ _ Hr ltac:(lia)) as (l & Hg & E). exists l. cbv zeta. split; [exact Hg|].
  destruct Hr as [_ _ Hd Hq _ [Hh _]]. rewrite E.
  replace (truth (r_nr_sectors (sector_done q))) with false by (destruct q; cbn in Hn |- *; by rewrite Hn).
  erewrite bind_Ok; [reflexivity|]. eapply end_request_run; [done|exact Hd| | | | |exact Hw|exact Hwr].
  - apply list_lookup_insert_eq. by eapply lookup_lt_Some.
  - by destruct q.
  - by destruct q.
  - apply list_lookup_insert_eq. by eapply lookup_lt_Some.
Qed.
End one_image.
Context (Hpat : (0 < patience)%nat).
(** [ll_rw_block] queues the request and calls the driver. *)
Lemma block_started rw s b h minor start nr n : hd_ready s -> block_of s b h minor start nr n ->
  (rw = WRITE /\ b_dirt h <> 0 \/ rw = READ /\ b_uptodate h = 0) ->
  exists r, let s2 := started MAJOR_HD rw r b h s in is_Some (k_requests s !! r) /\ ll_rw_block rw b s = do_hd_request s2 /\
    pending_block s2 r (new_request rw b h) b (busy_buffer h) minor start nr n.
Proof.
  intros [Hi Hok] [Hpart Hh Ed En [El Ew] Edata Hn] Hrw. destruct (part_bounds _ _ _ _ Hpart) as [_ Hm].
  destruct (ll_rw_block_starts Hpat MAJOR_HD rw b h s Hi ltac:(unfold MAJOR_HD, NR_BLK_DEV; lia) Hh
    ltac:(rewrite Ed; by apply hd_dev) El Hrw) as (r & Hr & E).
  exists r. split; [exact Hr|]. split; [exact E|]. assert (Hb := lookup_lt_Some _ _ _ Hh). assert (Hr' := lookup_lt_is_Some_1 _ _ Hr).
  split; [by destruct Hpart|exact Hok| | | |exact Ed|by rewrite <- En|done|exact Hn].
  - apply list_lookup_insert_eq. eapply lookup_lt_Some. apply (idle_dev _ _ Hi).
  - by apply list_lookup_insert_eq.
  - split; [by apply list_lookup_insert_eq|done].
Qed.
(** The command is sent as well. *)
Lemma read_started s b h minor start nr n : hd_ready s -> block_of s b h minor start nr n -> b_uptodate h = 0 ->
  exists r l, let s3 := set_field k_hd (set_field do_hd (fun _ => Some READ_INTR)) (ios l (started MAJOR_HD READ r b h s)) in
    is_Some (k_requests s !! r) /\ ll_rw_block READ b s = Ok tt s3 /\
    reading (Z.quot minor 5) (start + 2 * n) 0 (image D s) r (new_request READ b h) b (busy_buffer h) s3.
Proof.
  intros Hrd B Eu. destruct (block_started READ _ _ _ _ _ _ _ Hrd B (or_intror (conj eq_refl Eu))) as (r & Hr & E & Ht). cbv zeta in *.
  destruct (start_read (image D s) _ _ _ _ _ _ _ _ _ Ht eq_refl eq_refl) as (l & Erun & Hg). destruct Ht as [_ _ Hd Hq (Hh & _ & Hl) _ _ _ _].
  exists r, l. split_and!; [exact Hr|by rewrite E|]. split; [reflexivity|exact Hg|exact Hd|exact Hq|done|done].
Qed.
(** C9: a block is read from the hard disk: with an idle driver and a
    controller that answers as a disk does, [ll_rw_block] takes a free request,
    queues it and sends a read command whose registers name the drive, the
    cylinder, the head and the sector of the block in its partition; the two
    interrupts that follow bring the two sectors.  Then the buffer holds their
    bytes in order, is up to date and unlocked, the other buffers are
    unchanged, and the driver, its queue and the table of requests are ready
    for the next request. *)
Theorem hd_read_block s b h minor start nr n :
  hd_ready s -> block_of s b h minor start nr n -> b_uptodate h = 0 ->
  wp (ll_rw_block READ b ;; hd_interrupt ;; hd_interrupt) (fun _ s' =>
    hd_ready s' /\ k_hd s' = set_field do_hd (fun _ => None) (k_hd s) /\ image D s' = image D s /\
    (exists x, k_bufs s' !! b = Some x /\ b_uptodate x = 1 /\ b_lock x = 0 /\
      b_data x = image D s (Z.quot minor 5) (start + 2 * n) ++ image D s (Z.quot minor 5) (start + 2 * n + 1)) /\
    (forall p, p <> b -> k_bufs s' !! p = k_bufs s !! p)) s.
Proof.
  intros Hrd B Eu. destruct (read_started _ _ _ _ _ _ _ Hrd B Eu) as (r & l & Hr & E & Hr3). cbv zeta in *.
  eapply wpg_bind_Ok; [exact E|]. clear E. destruct Hrd as [Hi Hrr]. destruct B as [_ Hh _ _ [_ Ew] Edata _].
  set (im := image D s) in *. set (d := Z.quot minor 5) in *. set (q2 := new_request READ b h) in *.
  destruct (next_sector _ _ _ _ _ _ _ _ Hr3 eq_refl) as (l1 & E1 & Hr4).
  eapply wpg_bind_Ok; [exact E1|]. clear E1.
  pose proof (moving_sector _ _ _ _ _ _ _ (reading_regs _ _ _ _ _ _ _ _ _ Hr4)) as Hsec.
  destruct (last_sector _ _ _ _ _ _ _ _ Hr4 eq_refl eq_refl eq_refl Ew (idle_wait _ _ Hi)) as (l2 & Hg2 & E2). cbv zeta in E2.
  match type of E2 with _ = do_hd_request ?x => set (s6 := x) in E2 end.
  assert (Hi6 : idle_device MAJOR_HD s6).
  { eapply (idle_ended _ _ _ _ _ _ s); [exact Hi|exact Hr|reflexivity| |exact (idle_wait _ _ Hi)|reflexivity].
    transitivity (<[r := sector_done (sector_done q2)]> (<[r := sector_done q2]> (<[r := q2]> (k_requests s)))); [reflexivity|].
    by rewrite !list_insert_insert_eq. }
  eapply wpg_Ok; [rewrite E2; eapply hd_no_request; apply (idle_dev _ _ Hi6)|]. clear E2.
  set (h5 := with_data (with_data (busy_buffer h) 0 (im d (start + 2 * n + 0))) 512 (im d (start + 2 * n + 1))).
  assert (E6 : k_bufs s6 = <[b := set_field b_lock (fun _ => 0) (set_field b_uptodate (fun _ => 1) h5)]> (k_bufs s)).
  { transitivity (<[b := set_field b_lock (fun _ => 0) (set_field b_uptodate (fun _ => 1) h5)]> (<[b := h5]>
      (<[b := with_data (busy_buffer h) 0 (im d (start + 2 * n + 0))]> (<[b := busy_buffer h]> (k_bufs s)))));
      [reflexivity|]. by rewrite !list_insert_insert_eq. }
  split_and!.
  - split; [exact Hi6|exact Hrr].
  - reflexivity.
  - destruct Hg2 as (_ & _ & _ & _ & _ & Him). exact Him.
  - eexists. split; [rewrite E6; apply list_lookup_insert_eq; by eapply lookup_lt_Some|]. split_and!; [reflexivity..|].
    rewrite <- (splice_halves (b_data h)) by (done || apply Hsec).
    change (splice (splice (b_data h) 0 (im d (start + 2 * n + 0))) 512 (im d (start + 2 * n + 1)) =
      splice (splice (b_data h) 0 (im d (start + 2 * n))) 512 (im d (start + 2 * n + 1))).
    by rewrite Z.add_0_r.
  - intros p Hp. rewrite E6. by rewrite list_lookup_insert_ne.
Qed.
End reading.
(** A drive of 2 heads and 3 sectors a track, whose sectors hold their number. *)
Definition small_drive : hd_i_struct := HdI 2 3 10 0 0 0.
Definition numbered (d n : Z) : list Z := replicate 512 (n mod 256).
Definition numbered_disk : at_disk := AtDisk (fun _ => small_drive) numbered.
Definition disk_machine : World :=
  {| world_env := fun _ _ s => s; patience := 2000;
     world_hardware := fun s port =>
       if port =? HD_STATUS then Z.lor READY_STAT (Z.lor SEEK_STAT DRQ_STAT)
       else if port =? HD_DATA then
         let g := controller numbered_disk (k_io s) in
         word_of (g_image g (g_drive g) (g_first small_drive g + g_words g / 256)) (g_words g mod 256)
       else 0 |}.
Lemma word_small l k : Forall (fun c => 0 <= c < 256) l -> 0 <= word_of l k < 65536.
Proof.
  intros Hl. assert (Hn : forall i, 0 <= nth i l 0 < 256).
  { intros i. destruct (nth_in_or_default i l 0) as [Hi%list_elem_of_In | ->]; [|lia]. rewrite Forall_forall in Hl. by apply Hl. }
  unfold word_of. pose proof (Hn (Z.to_nat (2 * k))). pose proof (Hn (Z.to_nat (2 * k + 1))). lia.
Qed.
Lemma numbered_ok d n : length (numbered d n) = 512%nat /\ Forall (fun c => 0 <= c < 256) (numbered d n).
Proof. split; [done|]. apply Forall_replicate. apply Z.mod_pos_bound. lia. Qed.
Lemma machine_answers : disk_answers (H := world_hardware (World := disk_machine)) numbered_disk.
Proof.
  split; [reflexivity|reflexivity| |exact numbered_ok].
  intros s g _ _. apply Z.mod_small, word_small, (image_sectors numbered_disk), numbered_ok.
Qed.
(** Minor 1 of the first drive is its sectors from 1 on; two buffers for it. *)
Definition hd_buffer (uptodate block : Z) : buffer_head :=
  BufferHead 0 (replicate 1024 0) block 0x301 uptodate 0 1 0 None None None None None.
Definition hd_kernel : kernel :=
  set_field k_bufs (fun _ => [hd_buffer 1 5; hd_buffer 0 1])
    (set_field k_hd (fun _ => Hd 0 0 [small_drive] 1 [(0, 60); (1, 20); (0, 0); (0, 0); (0, 0)] None 1)
       (set_field k_requests (fmap (set_field r_dev (fun _ => -1)))
          (set_field k_blk_dev (fun l => <[3%nat := BlkDev (Some 3%nat) None]> l) (boot_kernel 0 0)))).
Lemma hd_kernel_ready : hd_ready hd_kernel.
Proof. split; [|done]. split; [done|done|done|]. exists 0%nat. eexists. split_and!; [apply (bool_decide_unpack _); reflexivity|reflexivity|done]. Qed.
Lemma hd_kernel_block : block_of numbered_disk hd_kernel 1 (hd_buffer 0 1) 1 1 20 1.
Proof. split; [split; [cbn; lia|done|done|cbn; lia]|done..|lia]. Qed.
Lemma hd_read_block_witness :
  wp (ll_rw_block (H := disk_machine) READ 1 ;; hd_interrupt (H := disk_machine) ;; hd_interrupt (H := disk_machine))
    (fun _ s' => b_data <$> k_bufs s' !! 1%nat = Some (replicate 512 3 ++ replicate 512 4)) hd_kernel.
Proof.
  eapply wp_mono.
  - apply (hd_read_block (H := disk_machine) numbered_disk machine_answers (Nat.lt_0_succ 1999)
      hd_kernel 1 (hd_buffer 0 1) 1 1 20 1); [exact hd_kernel_ready|exact hd_kernel_block|done].
  - intros _ s' (_ & _ & _ & (x & -> & _ & _ & Hx) & _). cbn [fmap option_fmap option_map]. rewrite Hx. reflexivity.
Defined.
