(* ===== verification/HdWrite.v ===== *)
(** * A block written to the hard disk, from the request to the sectors

    [ll_rw_block] with an idle hard-disk driver sends a write command and the
    words of the first sector of the block; the first interrupt sends those of
    the second sector, the second interrupt ends the request.  The controller,
    and the disk it writes to, are those of HdRead. *)

From S2P Require Import Prelude Kernel Sched Memory Blk Hd Floppy LLRwBlk Requests SystemCall HdRead.

(** The words of [l] written from word [k] of sector [n] on. *)
Fixpoint write_words (d n k : Z) (l : list Z) (im : Z -> Z -> list Z) : Z -> Z -> list Z :=
  match l with
  | a :: b :: l' => write_words d n (k + 1) l' (write_word d n k (u16 (a + 256 * b)) im)
  | _ => im
  end.
Definition bytes (l : list Z) : Prop := Forall (fun c => 0 <= c < 256) l.
(** The request of a block whose second sector is being written. *)
Definition second_sector (q : request) : request :=
  set_field r_boff (fun o => o + 512) (set_field r_sector (fun x => u32 (x + 1)) (set_field r_nr_sectors (fun x => u32 (x - 1)) q)).
(** The request after a sector is written. *)
Definition sector_counted (q : request) : request := set_field r_nr_sectors (fun x => u32 (x - 1)) q.
(** The two sectors from [first] on hold [data], and the others are as in [im]. *)
Definition block_written (d first : Z) (data : list Z) (im im' : Z -> Z -> list Z) : Prop :=
  im' d first ++ im' d (first + 1) = data /\
  forall d' n', (d', n') <> (d, first) -> (d', n') <> (d, first + 1) -> im' d' n' = im d' n'.

(** ** The words of a sector *)

Lemma splice_splice l o v w : 0 <= o -> o + Z.of_nat (length v) + Z.of_nat (length w) <= Z.of_nat (length l) ->
  splice (splice l o v) (o + Z.of_nat (length v)) w = splice l o (v ++ w).
Proof.
  intros Ho Hl. unfold splice. rewrite Z2Nat.inj_add, Nat2Z.id by lia.
  set (k := Z.to_nat o). assert (Hk : length (take k l) = k) by (rewrite length_take; unfold k; lia).
  assert (E : length (take k l ++ v) = (k + length v)%nat) by (by rewrite length_app, Hk).
  rewrite (app_assoc (take k l) v), <- E, take_app_length, drop_app_add, <- !app_assoc, drop_drop. by rewrite E, length_app, Nat.add_assoc.
Qed.
Lemma word_halves a b : 0 <= a < 256 -> 0 <= b < 256 -> u8 (u16 (a + 256 * b)) = a /\ u8 (u16 (a + 256 * b) / 256) = b.
Proof.
  intros Ha Hb. unfold u16, u8. change (2 ^ 16) with 65536. change (2 ^ 8) with 256. rewrite (Z.mod_small _ 65536) by lia.
  replace (a + 256 * b) with (a + b * 256) by lia. rewrite Z_mod_plus_full, Z_div_plus_full, (Z.div_small a), !Z.mod_small by lia. done.
Qed.
Lemma write_words_at m d n k l im d' n' : length l = (2 * m)%nat -> bytes l -> 0 <= k -> 2 * k + 2 * Z.of_nat m <= Z.of_nat (length (im d n)) ->
  write_words d n k l im d' n' = if (d' =? d) && (n' =? n) then splice (im d n) (2 * k) l else im d' n'.
Proof.
  revert k l im. induction m as [|m IH]; intros k l im Hm Hl Hk Hfit.
  - destruct l; [|done]. cbn [write_words]. destruct (_ && _) eqn:E; [|done]. kbool. destruct E as [-> ->].
    unfold splice. cbn. by rewrite Nat.add_0_r, take_drop.
  - destruct l as [|a [|b l]]; [done|cbn in Hm; lia|]. apply Forall_cons in Hl as [Ha Hl]. apply Forall_cons in Hl as [Hb Hl].
    cbn [length] in Hm. cbn [write_words]. destruct (word_halves a b Ha Hb) as [E1 E2].
    assert (E : write_word d n k (u16 (a + 256 * b)) im d n = splice (im d n) (2 * k) [a; b]).
    { unfold write_word. by rewrite !Z.eqb_refl, E1, E2. }
    rewrite IH; [|lia|done|lia|]; rewrite E.
    + unfold write_word. destruct (_ && _); [|done].
      replace (2 * (k + 1)) with (2 * k + Z.of_nat (length [a; b])) by (cbn; lia). apply (splice_splice (im d n) (2 * k) [a; b] l); cbn [length]; lia.
    + rewrite splice_length; cbn [length]; lia.
Qed.

Section writing.
Context `{World} (D : at_disk) (HD : disk_answers D).
Abbreviation in_write := (moving D WIN_WRITE).
(** A write under way: the words of sector [j] of two are with the controller,
    and came from byte [512 * j] of buffer [b]. *)
Record writing (d first j : Z) (im : Z -> Z -> list Z) (r : nat) (q : request) (b : nat) (h : buffer_head) (s : kernel) : Prop := {
  writing_intr : do_hd (k_hd s) = Some WRITE_INTR;
  writing_regs : in_write d first j 256 im (controller D (k_io s));
  writing_dev : k_blk_dev s !! MAJOR_HD = Some (BlkDev (Some MAJOR_HD) (Some r));
  writing_request : k_requests s !! r = Some q;
  writing_place : r_buffer q = Some b /\ r_boff q = 512 * j;
  writing_buffer : k_bufs s !! b = Some h /\ length (b_data h) = 1024%nat }.

Lemma in_write_data d first j w im s v : 0 <= w < 256 -> in_write d first j w im (controller D (k_io s)) ->
  in_write d first j (w + 1) (write_word d (first + j) w v im) (controller D (k_io (ios [PortOut v HD_DATA] s))).
Proof.
  intros Hw. unfold moving. change (k_io (ios ?l s)) with (k_io s ++ l). rewrite controller_app.
  destruct (controller D (k_io s)) as [n sc cl ch hd c g w0]. cbn. unfold data_word. cbn [g_cmd g_words g_image].
  intros (-> & -> & Hd & Hf & -> & <-). split_and!; [done|done|exact Hd|exact Hf|lia|]. cbn [Z.eqb WIN_WRITE Pos.eqb].
  rewrite Hd, Hf. replace ((256 * j + w) / 256) with j by (apply (Z.div_unique _ _ _ w); lia).
  by replace ((256 * j + w) mod 256) with w by (apply (Z.mod_unique _ _ j); lia).
Qed.
Lemma port_write_run m l w d first j im s : length l = (2 * m)%nat -> 0 <= w -> w + Z.of_nat m <= 256 ->
  in_write d first j w im (controller D (k_io s)) ->
  exists io, port_write HD_DATA l s = Ok tt (ios io s) /\
    in_write d first j (w + Z.of_nat m) (write_words d (first + j) w l im) (controller D (k_io (ios io s))).
Proof.
  revert l w im s. induction m as [|m IH]; intros l w im s Hm Hw Hfit Hg.
  - destruct l; [|done]. exists []. rewrite Z.add_0_r. replace (ios [] s) with s by (destruct s; unfold ios, set_field, set_k_io; cbn; by rewrite app_nil_r).
    done.
  - destruct l as [|a [|b l]]; [done|cbn in Hm; lia|]. cbn [length] in Hm. cbn [port_write write_words].
    pose proof (in_write_data d first j w im s (u16 (a + 256 * b)) ltac:(lia) Hg) as Hg1.
    destruct (IH l (w + 1) _ _ ltac:(lia) ltac:(lia) ltac:(lia) Hg1) as (io & E & Hg2).
    exists ([PortOut (u16 (a + 256 * b)) HD_DATA] ++ io). rewrite <- ios_ios. split; [exact E|].
    by replace (w + Z.of_nat (S m)) with (w + 1 + Z.of_nat m) by lia.
Qed.
(** The 512 bytes the request names. *)
Lemma request_sector r q b h j s : 0 <= j < 2 -> k_requests s !! r = Some q -> r_buffer q = Some b -> r_boff q = 512 * j ->
  k_bufs s !! b = Some h -> length (b_data h) = 1024%nat ->
  request_bytes r 512 s = Ok (take 512 (drop (Z.to_nat (512 * j)) (b_data h))) s.
Proof.
  intros Hj Hq Hb Ho Hh Hl. unfold request_bytes. erewrite bind_Ok by (by eapply getf_req). erewrite bind_Ok by (by eapply getf_req).
  rewrite Hb, Ho. erewrite bind_Ok by reflexivity. erewrite bind_Ok by (by eapply getf_buf). unfold bytes_at. rewrite Hl.
  by rewrite !(proj2 (Z.leb_le _ _)) by lia.
Qed.
Lemma ios_hd f l s : ios l (set_field k_hd f s) = set_field k_hd f (ios l s).
Proof. reflexivity. Qed.
(** The controller has room for a word: the loop of [do_hd_request] ends at
    once. *)
Lemma drq_run d first j w im s : 0 <= j < 2 -> 0 <= w < 256 -> in_write d first j w im (controller D (k_io s)) ->
  exists v, loop 3001 (fun '(i, r) =>
      if 3000 <=? i then mret (inr r)
      else s ← inb HD_STATUS; let r := Z.land s DRQ_STAT in mret (if truth r then inr r else inl (i + 1, r))) (0, 0) s =
    Ok DRQ_STAT (ios [PortIn v HD_STATUS] s).
Proof.
  intros Hj Hw Hg. pose proof (answer_drq _ HD s) as Hd. cbv zeta in Hd. destruct Hg as (E1 & E2 & _ & _ & E5 & _).
  specialize (Hd E1 ltac:(rewrite E2, E5; lia)). eexists. change 3001%nat with (S 3000). rewrite loop_S.
  erewrite bind_Ok. 2: { cbn beta iota. change (3000 <=? 0) with false. cbn iota. erewrite bind_Ok by apply inb_run. cbv zeta. rewrite Hd. reflexivity. }
  reflexivity.
Qed.
Lemma start_write im r q b h s n minor start nr : pending_block D s r q b h minor start nr n -> r_cmd q = WRITE -> image D s = im ->
  let d := Z.quot minor 5 in
  exists l, do_hd_request s = Ok tt (set_field k_hd (set_field do_hd (fun _ => Some WRITE_INTR)) (ios l s)) /\
    in_write d (start + 2 * n) 0 256 (write_words d (start + 2 * n) 0 (take 512 (b_data h)) im) (controller D (k_io (ios l s))).
Proof.
  intros Ht Hqc Him d. destruct (part_bounds _ _ _ _ _ (tr_part _ _ _ _ _ _ _ _ _ _ Ht)) as [Hd5 _].
  destruct (step_transfer _ _ _ _ _ _ _ _ _ _ Ht) as (sec & head & cyl & E & Hs & Hhd & Hc & Hf).
  fold d in Hf, E, Hd5.
  destruct (hd_out_run D HD (d_info D d) d 2 sec head cyl WIN_WRITE WRITE_INTR s Hd5 Hhd
    (part_drive _ _ _ _ _ (tr_part _ _ _ _ _ _ _ _ _ _ Ht))) as (v & Eout). destruct Ht as [_ _ Hd Hq (Hh & _ & Hlen) _ _ (_ & Hb & Ho) _].
  pose proof (command_sent D im WIN_WRITE v s d sec head cyl _ ltac:(done) Hd5 Hs Hhd Hc Hf Him) as Hg.
  match type of Eout with _ = Ok tt ?x => set (s1 := x) in Eout end.
  destruct (drq_run d (start + 2 * n) 0 0 im s1 ltac:(lia) ltac:(lia) Hg) as (v1 & Edrq).
  apply (moving_status _ _ _ _ _ _ _ s1 v1) in Hg.
  destruct (port_write_run 256 (take 512 (b_data h)) 0 d (start + 2 * n) 0 im (ios [PortIn v1 HD_STATUS] s1) ltac:(rewrite length_take, Hlen; reflexivity) ltac:(lia) ltac:(lia) Hg) as (io & Ew & Hg2).
  rewrite Z.add_0_r in Hg2. unfold s1 in Ew, Hg2. rewrite !ios_hd, !ios_ios in Ew, Hg2. eexists. split; [|exact Hg2].
  apply request_step. rewrite E. unfold hd_transfer. erewrite bind_Ok by (by eapply getf_req). rewrite Hqc. cbn [Z.eqb WRITE Pos.eqb].
  rewrite (bind_Ok _ _ _ _ _ Eout), (bind_Ok _ _ _ _ _ Edrq). change (negb (truth DRQ_STAT)) with false. cbn iota.
  erewrite bind_Ok by (apply (request_sector r q b h 0); [lia|exact Hq|exact Hb|by rewrite Ho|exact Hh|exact Hlen]).
  rewrite Z.mul_0_r, drop_0. unfold s1. rewrite !ios_hd, !ios_ios. rewrite (bind_Ok _ _ _ _ _ Ew). reflexivity.
Qed.
Lemma write_interrupt d first j im r q b h s : writing d first j im r q b h s ->
  exists l, in_write d first j 256 im (controller D (k_io (ios l s))) /\
    hd_interrupt s =
    (if truth (r_nr_sectors (sector_counted q)) then
       upd r r_sector (fun x => u32 (x + 1)) ;; upd r r_boff (fun o => o + 512) ;; sset k_hd do_hd (Some WRITE_INTR) ;;
       v ← request_bytes r 512; port_write HD_DATA v
     else end_request MAJOR_HD 1 ;; do_hd_request)
      (set_field k_requests (fun R => <[r := sector_counted q]> R) (no_intr (ios l s))).
Proof.
  intros [Hi Hg Hd Hq _ _]. rewrite (interrupt_run WRITE_INTR s Hi). change (call_hd_intr WRITE_INTR) with write_intr.
  match goal with |- context [write_intr ?x] => set (s1 := x) end.
  destruct (win_result_run D HD s1) as [v E]. apply moving_pic in Hg. apply (moving_status _ _ _ _ _ _ _ _ v) in Hg.
  rewrite ios_ios in Hg. eexists. split; [exact Hg|]. unfold write_intr. rewrite (bind_Ok _ _ _ _ _ E). change (truth 0) with false. cbn iota.
  erewrite bind_Ok by (by eapply CURRENT_run). cbn [current_request]. erewrite bind_Ok by reflexivity.
  erewrite bind_Ok by (eapply upd_req; exact Hq).
  erewrite bind_Ok by (eapply getf_req; apply list_lookup_insert_eq; by eapply lookup_lt_Some).
  unfold s1. rewrite !ios_hd, ios_ios. reflexivity.
Qed.
Lemma next_write d first im r q b h s : writing d first 0 im r q b h s -> r_nr_sectors q = 2 ->
  exists l, let s' := set_field k_hd (set_field do_hd (fun _ => Some WRITE_INTR))
      (set_field k_requests (fun R => <[r := second_sector q]> R) (no_intr (ios l s))) in
    hd_interrupt s = Ok tt s' /\
    writing d first 1 (write_words d (first + 1) 0 (take 512 (drop 512 (b_data h))) im) r (second_sector q) b h s'.
Proof.
  intros Hw Hn. destruct (write_interrupt _ _ _ _ _ _ _ _ _ Hw) as (l & Hg & E). destruct Hw as [_ _ Hd Hq [Hb Ho] [Hh Hlen]].
  replace (truth (r_nr_sectors (sector_counted q))) with true in E by (destruct q; cbn in Hn |- *; by rewrite Hn).
  assert (Hr := lookup_lt_Some _ _ _ Hq).
  assert (Hg1 : in_write d first 1 0 im (controller D (k_io (ios l s)))) by (destruct Hg as (? & ? & ? & ? & Hg5 & ?); by split_and!).
  set (s2 := set_field k_hd (set_field do_hd (fun _ => Some WRITE_INTR)) (set_field k_requests (fun _ => <[r := second_sector q]> (k_requests s)) (no_intr (ios l s)))).
  destruct (port_write_run 256 (take 512 (drop 512 (b_data h))) 0 d first 1 im s2 ltac:(rewrite length_take, length_drop, Hlen; reflexivity) ltac:(lia) ltac:(lia) Hg1)
    as (io & Ew & Hg2). change (ios io s2) with
    (set_field k_hd (set_field do_hd (fun _ => Some WRITE_INTR)) (set_field k_requests (fun R => <[r := second_sector q]> R) (no_intr (ios io (ios l s))))) in Ew, Hg2.
  rewrite ios_ios in Ew, Hg2. exists (l ++ io). split.
  - rewrite E. unfold upd. set (s1 := no_intr (ios l s)).
    change (set_field k_requests _ s1) with (set_field k_requests (fun _ => <[r := sector_counted q]> (k_requests s)) s1).
    do 2 (erewrite updr_bind by (apply list_lookup_insert_eq; exact Hr); rewrite list_insert_insert_eq).
    erewrite bind_Ok by reflexivity.
    erewrite bind_Ok by (apply (request_sector r (second_sector q) b h 1); [lia|by apply list_lookup_insert_eq|by destruct q|by destruct q; cbn in *; rewrite Ho|exact Hh|exact Hlen]).
    exact Ew.
  - split; [reflexivity|exact Hg2|exact Hd| | |done].
    + by apply list_lookup_insert_eq.
    + destruct q. cbn in *. split; [done|]. by rewrite Ho.
Qed.
Lemma last_write d first im r q b h s : writing d first 1 im r q b h s -> r_nr_sectors q = 1 ->
  r_bh q = Some b -> r_waiting q = None -> b_wait h = None -> k_wait_for_request s = None ->
  exists l, image D (ios l s) = im /\
    hd_interrupt s = do_hd_request (ended MAJOR_HD (Some MAJOR_HD) r (sector_counted q) b h 1
      (set_field k_requests (fun R => <[r := sector_counted q]> R) (no_intr (ios l s)))).
Proof.
  intros Hw Hn Hb Hqw Hbw Hwr. destruct (write_interrupt _ _ _ _ _ _ _ _ _ Hw) as (l & Hg & E). destruct Hw as [_ _ Hd Hq _ [Hh _]].
  exists l. split; [by destruct Hg as (_ & _ & _ & _ & _ & Him)|]. rewrite E.
  replace (truth (r_nr_sectors (sector_counted q))) with false by (destruct q; cbn in Hn |- *; by rewrite Hn).
  erewrite bind_Ok; [reflexivity|]. eapply end_request_run; [done|exact Hd| | | |exact Hh|exact Hbw|exact Hwr].
  - apply list_lookup_insert_eq. by eapply lookup_lt_Some.
  - by destruct q.
  - by destruct q.
Qed.
Context (Hpat : (0 < patience)%nat).
(** [ll_rw_block] queues the request, and the driver sends the command and the
    first sector. *)
Lemma write_started s b h minor start nr n : hd_ready s -> block_of D s b h minor start nr n -> b_dirt h <> 0 ->
  exists r l, let s3 := set_field k_hd (set_field do_hd (fun _ => Some WRITE_INTR)) (ios l (started MAJOR_HD WRITE r b h s)) in
    is_Some (k_requests s !! r) /\ ll_rw_block WRITE b s = Ok tt s3 /\
    writing (Z.quot minor 5) (start + 2 * n) 0 (write_words (Z.quot minor 5) (start + 2 * n) 0 (take 512 (b_data h)) (image D s))
      r (new_request WRITE b h) b (busy_buffer h) s3.
Proof.
  intros Hrd B Eu. destruct (block_started D Hpat WRITE _ _ _ _ _ _ _ Hrd B (or_introl (conj eq_refl Eu))) as (r & Hr & E & Ht). cbv zeta in *.
  destruct (start_write (image D s) _ _ _ _ _ _ _ _ _ Ht eq_refl eq_refl) as (l & Erun & Hg). destruct Ht as [_ _ Hd Hq (Hh & _ & Hl) _ _ _ _].
  exists r, l. split_and!; [exact Hr|by rewrite E|]. split; [reflexivity|exact Hg|exact Hd|exact Hq|done|done].
Qed.
Lemma two_sectors d first data im : length data = 1024%nat -> bytes data -> (forall d n, length (im d n) = 512%nat) ->
  block_written d first data im
    (write_words d (first + 1) 0 (take 512 (drop 512 data)) (write_words d first 0 (take 512 data) im)).
Proof.
  intros Hl Hb Him. assert (H1 : length (take 512 data) = 512%nat) by (rewrite length_take; lia).
  assert (H2 : length (take 512 (drop 512 data)) = 512%nat) by (rewrite length_take, length_drop; lia).
  set (im1 := write_words d first 0 (take 512 data) im).
  assert (E1 : forall d' n', im1 d' n' = if (d' =? d) && (n' =? first) then take 512 data else im d' n').
  { intros d' n'. unfold im1. rewrite (write_words_at 256) by (rewrite ?Him; first [done|by apply Forall_take|lia]).
    by rewrite splice_whole by (by rewrite Him). }
  assert (Him1 : length (im1 d (first + 1)) = 512%nat) by (rewrite E1; case_match; [done|apply Him]).
  assert (E2 : forall d' n', write_words d (first + 1) 0 (take 512 (drop 512 data)) im1 d' n' =
    if (d' =? d) && (n' =? first + 1) then take 512 (drop 512 data) else im1 d' n').
  { intros d' n'. rewrite (write_words_at 256) by (rewrite ?Him1; first [done|by apply Forall_take, Forall_drop|lia]).
    by rewrite splice_whole by (by rewrite Him1). }
  split.
  - rewrite !E2, E1, !Z.eqb_refl, (proj2 (Z.eqb_neq first (first + 1))) by lia. cbn [andb].
    rewrite (take_ge (drop 512 data)) by (rewrite length_drop; lia). apply take_drop.
  - intros d' n' Hn1 Hn2. rewrite E2, E1. destruct (Z.eqb_spec d' d) as [->|]; [|done]. cbn [andb].
    destruct (Z.eqb_spec n' (first + 1)) as [->|]; [done|]. by destruct (Z.eqb_spec n' first) as [->|].
Qed.
(** C10: a block is written to the hard disk: with an idle driver and a
    controller that answers as a disk does, [ll_rw_block] with a dirty buffer
    takes a free request, sends a write command for the drive, the cylinder, the
    head and the sector of the block in its partition, and the words of its
    first sector; the first interrupt sends those of the second, the second
    interrupt ends the request.  Then the two sectors of the block hold the
    bytes of the buffer and no other sector of a drive has changed; the buffer
    is clean, up to date and unlocked with its bytes as they were, the other
    buffers are unchanged, and the driver, its queue and the table of requests
    are ready for the next request. *)
Theorem hd_write_block s b h minor start nr n :
  hd_ready s -> block_of D s b h minor start nr n -> b_dirt h <> 0 -> bytes (b_data h) ->
  wp (ll_rw_block WRITE b ;; hd_interrupt ;; hd_interrupt) (fun _ s' =>
    hd_ready s' /\ k_hd s' = set_field do_hd (fun _ => None) (k_hd s) /\
    block_written (Z.quot minor 5) (start + 2 * n) (b_data h) (image D s) (image D s') /\
    k_bufs s' = <[b := set_field b_lock (fun _ => 0) (set_field b_uptodate (fun _ => 1) (set_field b_dirt (fun _ => 0) h))]> (k_bufs s)) s.
Proof.
  intros Hrd B Ed Hbytes. destruct (write_started _ _ _ _ _ _ _ Hrd B Ed) as (r & l & Hr & E & Hw3). cbv zeta in *.
  eapply wpg_bind_Ok; [exact E|]. clear E. destruct Hrd as [Hi Hrr]. destruct B as [_ Hh _ _ [Hlock Ew] Edata _].
  set (d := Z.quot minor 5) in *. set (q2 := new_request WRITE b h) in *.
  destruct (next_write _ _ _ _ _ _ _ _ Hw3 eq_refl) as (l1 & E1 & Hw4).
  eapply wpg_bind_Ok; [exact E1|]. clear E1.
  destruct (last_write _ _ _ _ _ _ _ _ Hw4 eq_refl eq_refl eq_refl Ew (idle_wait _ _ Hi)) as (l2 & Him & E2).
  match type of E2 with _ = do_hd_request ?x => set (s6 := x) in E2 end.
  assert (Hi6 : idle_device MAJOR_HD s6).
  { eapply (idle_ended _ _ _ _ _ _ s); [exact Hi|exact Hr|reflexivity| |exact (idle_wait _ _ Hi)|reflexivity].
    transitivity (<[r := sector_counted (second_sector q2)]> (<[r := second_sector q2]> (<[r := q2]> (k_requests s)))); [reflexivity|].
    by rewrite !list_insert_insert_eq. }
  eapply wpg_Ok; [rewrite E2; eapply hd_no_request; apply (idle_dev _ _ Hi6)|]. clear E2.
  split_and!; [split; [exact Hi6|exact Hrr]|reflexivity| |].
  - rewrite (Him : image D s6 = _). apply two_sectors; [exact Edata|exact Hbytes|]. intros. apply (image_sectors D), (answer_sector _ HD).
  - transitivity (<[b := set_field b_lock (fun _ => 0) (set_field b_uptodate (fun _ => 1) (busy_buffer h))]> (<[b := busy_buffer h]> (k_bufs s)));
      [reflexivity|]. by rewrite list_insert_insert_eq.
Qed.
End writing.
(** The second buffer is dirty, for block 1 of the partition. *)
Definition dirty_buffer : buffer_head := BufferHead 0 (replicate 512 7 ++ replicate 512 9) 1 0x301 1 1 1 0 None None None None None.
Definition dirty_kernel : kernel := set_field k_bufs (fun _ => [hd_buffer 1 5; dirty_buffer]) hd_kernel.
Lemma dirty_kernel_ready : hd_ready dirty_kernel.
Proof. split; [|done]. split; [done|done|done|]. exists 0%nat. eexists. split_and!; [apply (bool_decide_unpack _); reflexivity|reflexivity|done]. Qed.
Lemma dirty_kernel_block : block_of numbered_disk dirty_kernel 1 dirty_buffer 1 1 20 1.
Proof. split; [split; [cbn; lia|done|done|cbn; lia]|done..|lia]. Qed.
Lemma dirty_bytes : bytes (b_data dirty_buffer).
Proof. apply Forall_app. split; apply Forall_replicate; lia. Qed.
Lemma hd_write_block_witness :
  wp (ll_rw_block (H := disk_machine) WRITE 1 ;; hd_interrupt (H := disk_machine) ;; hd_interrupt (H := disk_machine))
    (fun _ s' => image numbered_disk s' 0 3 ++ image numbered_disk s' 0 4 = replicate 512 7 ++ replicate 512 9 /\
      image numbered_disk s' 0 5 = replicate 512 5) dirty_kernel.
Proof.
  eapply wp_mono.
  - apply (hd_write_block (H := disk_machine) numbered_disk machine_answers (Nat.lt_0_succ 1999)
      dirty_kernel 1 dirty_buffer 1 1 20 1); [exact dirty_kernel_ready|exact dirty_kernel_block|done|exact dirty_bytes].
  - intros _ s' (_ & _ & [Hw Ho] & _). split; [exact Hw|]. rewrite (Ho 0 5) by (intros [=]). reflexivity.
Defined.
