(* ===== verification/UserLib.v ===== *)
(** * The library a user program is linked with: include/unistd.h and lib/

    The numbers of the system calls, the macros [_syscall0] ... [_syscall3],
    and the functions made with them.  A user program is its registers, its
    [errno], and the kernel it traps into; when a signal handler is entered on
    the way back from a call, the program goes on in the handler first. *)

From S2P Require Import Prelude Kernel Sched Memory Blk Buffer Bitmap Inode Tty Open Exit Sys SystemCall.

(** [__NR_name]. *)
Definition syscall_numbers : list (string * Z) := [
  ("setup", 0); ("exit", 1); ("fork", 2); ("read", 3); ("write", 4); ("open", 5); ("close", 6); ("waitpid", 7);
  ("creat", 8); ("link", 9); ("unlink", 10); ("execve", 11); ("chdir", 12); ("time", 13); ("mknod", 14);
  ("chmod", 15); ("chown", 16); ("break", 17); ("stat", 18); ("lseek", 19); ("getpid", 20); ("mount", 21);
  ("umount", 22); ("setuid", 23); ("getuid", 24); ("stime", 25); ("ptrace", 26); ("alarm", 27); ("fstat", 28);
  ("pause", 29); ("utime", 30); ("stty", 31); ("gtty", 32); ("access", 33); ("nice", 34); ("ftime", 35);
  ("sync", 36); ("kill", 37); ("rename", 38); ("mkdir", 39); ("rmdir", 40); ("dup", 41); ("pipe", 42);
  ("times", 43); ("prof", 44); ("brk", 45); ("setgid", 46); ("getgid", 47); ("signal", 48); ("geteuid", 49);
  ("getegid", 50); ("acct", 51); ("phys", 52); ("lock", 53); ("ioctl", 54); ("fcntl", 55); ("mpx", 56);
  ("setpgid", 57); ("ulimit", 58); ("uname", 59); ("umask", 60); ("chroot", 61); ("ustat", 62); ("dup2", 63);
  ("getppid", 64); ("getpgrp", 65); ("setsid", 66); ("sigaction", 67); ("sgetmask", 68); ("ssetmask", 69);
  ("setreuid", 70); ("setregid", 71) ].
Definition NR (name : string) : Z :=
  default (-1) (snd <$> find (fun p => String.eqb (fst p) name) syscall_numbers).

Record user := User { us_kernel : kernel; us_frame : frame; us_errno : Z }.

Section with_world.
Context `{World}.
Variable bios_at : Z -> list Z.
Variable kbuf : Z.

(** [int $0x80] with [eax = nr] and the registers [args] loads. *)
Definition int80 (nr : Z) (args : frame -> frame) : M user Z := fun u =>
  let put k := User k (us_frame u) (us_errno u) in
  match system_call bios_at kbuf (set_field u_eax (fun _ => nr) (args (us_frame u))) (us_kernel u) with
  | Ok fr k => Ok (u_eax fr) (User k fr (us_errno u))
  | Panic msg k => Panic msg (put k)
  | Dead c k => Dead c (put k)
  | Fault k => Fault (put k)
  | Fuel => Fuel
  end.
(** The end of each macro: the result, or -1 and [errno]. *)
Definition syscall_result (res : Z) : M user Z :=
  if 0 <=? s32 res then mret (s32 res)
  else modify (fun u => User (us_kernel u) (us_frame u) (s32 (- s32 res))) ;; mret (-1).

Definition _syscall0 (name : string) : M user Z := res ← int80 (NR name) id; syscall_result res.
Definition _syscall1 (name : string) (a : Z) : M user Z :=
  res ← int80 (NR name) (set_field u_ebx (fun _ => a)); syscall_result res.
Definition _syscall2 (name : string) (a b : Z) : M user Z :=
  res ← int80 (NR name) (fun fr => set_field u_ecx (fun _ => b) (set_field u_ebx (fun _ => a) fr)); syscall_result res.
Definition _syscall3 (name : string) (a b c : Z) : M user Z :=
  res ← int80 (NR name) (fun fr =>
    set_field u_edx (fun _ => c) (set_field u_ecx (fun _ => b) (set_field u_ebx (fun _ => a) fr)));
  syscall_result res.

(** init/main.c makes these four for itself. *)
Definition fork : M user Z := _syscall0 "fork".
Definition pause : M user Z := _syscall0 "pause".
Definition setup (BIOS : Z) : M user Z := _syscall1 "setup" BIOS.
Definition sync : M user Z := _syscall0 "sync".

Definition close (fd : Z) : M user Z := _syscall1 "close" fd.
Definition dup (fd : Z) : M user Z := _syscall1 "dup" fd.
Definition execve (file argv envp : Z) : M user Z := _syscall3 "execve" file argv envp.
Definition setsid : M user Z := _syscall0 "setsid".
Definition write (fd buf count : Z) : M user Z := _syscall3 "write" fd buf count.
Definition waitpid (pid wait_stat options : Z) : M user Z := _syscall3 "waitpid" pid wait_stat options.
Definition wait (wait_stat : Z) : M user Z := waitpid (-1) wait_stat 0.
(** [arg] is the third argument, or what lies there when there is none. *)
Definition open (filename flag arg : Z) : M user Z :=
  res ← int80 (NR "open") (fun fr =>
    set_field u_edx (fun _ => arg) (set_field u_ecx (fun _ => flag) (set_field u_ebx (fun _ => filename) fr)));
  syscall_result res.
Definition _exit (exit_code : Z) : M user unit :=
  int80 (NR "exit") (set_field u_ebx (fun _ => exit_code)) ;; mret tt.
End with_world.

(** ** Properties *)

Section properties.
Context `{World}.
Variable bios_at : Z -> list Z.
Variable kbuf : Z.
Abbreviation sys_call_table := (sys_call_table bios_at kbuf).

(** The numbers of unistd.h are the places of the functions of that name in
    the table of sys.h. *)
Lemma numbers_agree : Forall (fun p => (sys_call_table.*1) !! Z.to_nat (snd p) = Some ("sys_" ++ fst p)%string /\ 0 <= snd p < 72)
  syscall_numbers.
Proof. repeat (constructor; [split; [reflexivity|cbn; lia]|]). constructor. Qed.
Lemma names_distinct : NoDup (sys_call_table.*1).
Proof. apply (bool_decide_unpack _). by vm_compute. Qed.
Lemma entry_of_name name nr (f : syscall) : (name, nr) ∈ syscall_numbers -> (("sys_" ++ name)%string, f) ∈ sys_call_table ->
  sys_call_table !! Z.to_nat nr = Some (("sys_" ++ name)%string, f) /\ 0 <= nr < 72.
Proof.
  intros Hn Hf. pose proof numbers_agree as Ha. rewrite Forall_forall in Ha. destruct (Ha _ Hn) as [Hl Hr]. split; [|exact Hr].
  apply list_elem_of_lookup in Hf as [i Hi]. cbn [fst snd] in Hl.
  assert (Hi' : (sys_call_table.*1) !! i = Some ("sys_" ++ name)%string) by (by rewrite list_lookup_fmap, Hi).
  by rewrite (NoDup_lookup _ _ _ _ names_distinct Hl Hi').
Qed.

(** The registers of a call: the number in eax, the arguments in ebx, ecx and
    edx; the registers of arguments there are not are as they were. *)
Definition loaded (nr : Z) (args : list Z) (fr : frame) : frame :=
  Frame_ nr (default (u_ebx fr) (args !! 0%nat)) (default (u_ecx fr) (args !! 1%nat)) (default (u_edx fr) (args !! 2%nat))
    (u_fs fr) (u_es fr) (u_ds fr) (u_eip fr) (u_cs fr) (u_eflags fr) (u_esp fr) (u_ss fr) (u_ebp fr) (u_esi fr) (u_edi fr) (u_gs fr).
(** The function a macro of unistd.h makes, by the number of its arguments. *)
Definition library_function (name : string) (args : list Z) : M user Z :=
  match args with
  | [] => _syscall0 bios_at kbuf name
  | [a] => _syscall1 bios_at kbuf name a
  | [a; b] => _syscall2 bios_at kbuf name a b
  | [a; b; c] => _syscall3 bios_at kbuf name a b c
  | _ => fault
  end.
Lemma number_of name nr : (name, nr) ∈ syscall_numbers -> NR name = nr.
Proof.
  assert (Hall : Forall (fun p => NR (fst p) = snd p) syscall_numbers) by (repeat (constructor; [reflexivity|]); constructor).
  rewrite Forall_forall in Hall. intros Hn. exact (Hall _ Hn).
Qed.
(** What a macro comes to. *)
Lemma library_function_call name nr args u : (name, nr) ∈ syscall_numbers -> (length args <= 3)%nat ->
  library_function name args u = (int80 bios_at kbuf nr (fun fr => loaded (u_eax fr) args fr) ≫= syscall_result) u.
Proof.
  intros Hn%number_of Hl. destruct u as [s [] e].
  destruct args as [|a [|b [|c [|d args]]]]; [| | | |cbn in Hl; lia];
    unfold library_function, _syscall0, _syscall1, _syscall2, _syscall3; rewrite Hn; reflexivity.
Qed.
Lemma int80_result name nr (f : syscall) args u r fr k :
  (name, nr) ∈ syscall_numbers -> (("sys_" ++ name)%string, f) ∈ sys_call_table ->
  f (set_field u_eax (fun _ => nr) (args (us_frame u))) (us_kernel u) = Ok (r, fr) k ->
  undisturbed_return fr k -> - 2 ^ 31 < r < 2 ^ 31 ->
  (int80 bios_at kbuf nr args ≫= syscall_result) u =
  Ok (if 0 <=? r then r else -1)
     (User k (set_field u_eax (fun _ => r) fr) (if 0 <=? r then us_errno u else - r)).
Proof.
  intros Hn Hf E Hu Hr. destruct (entry_of_name name nr f Hn Hf) as [Hl Hnr].
  unfold mbind, M_bind, int80.
  rewrite (system_call_entry bios_at kbuf _ (us_kernel u) ("sys_" ++ name) f r fr k);
    [|cbn [u_eax set_field set_u_eax]; by rewrite u32_small by lia|exact E|exact Hu].
  unfold syscall_result. cbn [u_eax set_field set_u_eax]. rewrite (s32_small r) by lia.
  destruct (Z.leb_spec 0 r); [done|]. unfold mbind, M_bind, modify. rewrite s32_small by lia. done.
Qed.

(** C14: a function of the user library made with one of the macros of
    unistd.h, called with up to three arguments, enters the kernel routine of
    its own name with the arguments in ebx, ecx and edx, in this order, and
    answers by the convention of errno: the numbers of unistd.h, the table of
    sys.h, the dispatch of system_call.s and the macros fit together for all
    72 calls.  When the routine returns [r], and the task may go on running
    with no signal to see to, the function returns [r] and leaves errno alone
    if [r] is not negative, and returns -1 with [-r] in errno otherwise; the
    registers other than eax and the kernel are as the routine left them. *)
Theorem library_call name nr (f : syscall) args u r fr k :
  (name, nr) ∈ syscall_numbers -> (("sys_" ++ name)%string, f) ∈ sys_call_table -> (length args <= 3)%nat ->
  f (loaded nr args (us_frame u)) (us_kernel u) = Ok (r, fr) k ->
  undisturbed_return fr k -> - 2 ^ 31 < r < 2 ^ 31 ->
  library_function name args u =
  Ok (if 0 <=? r then r else -1)
     (User k (set_field u_eax (fun _ => r) fr) (if 0 <=? r then us_errno u else - r)).
Proof.
  intros Hn Hf Hl E Hu Hr. rewrite (library_function_call name nr) by done. by apply (int80_result name nr f).
Qed.
(** A number that is not in the table: -1, EPERM, and nothing happens. *)
Lemma library_call_bad nr args u : 72 <= u32 nr ->
  (int80 bios_at kbuf nr args ≫= syscall_result) u =
  Ok (-1) (User (us_kernel u) (set_field u_eax (fun _ => -1) (set_field u_eax (fun _ => nr) (args (us_frame u)))) 1).
Proof.
  intros Hnr. unfold mbind, M_bind, int80. rewrite system_call_bad by (cbn [u_eax set_field set_u_eax]; done).
  reflexivity.
Qed.
End properties.

(** A [dup] of a descriptor that is not open, by process 0. *)
Definition user0 : user := User (boot_kernel 0 0x20000) user_frame 0.
Lemma library_call_witness :
  exists k fr, library_function (H := idle_world) (fun _ => []) 0 "dup" [3] user0 = Ok (-1) (User k fr 9).
Proof.
  eexists _, _.
  refine (eq_trans (library_call (H := idle_world) (fun _ => []) 0 "dup" 41 (call1 sys_dup) [3] user0 (-9) _ _ _ _ _ _ _ _) _).
  - apply (bool_decide_unpack _). reflexivity.
  - apply list_elem_of_lookup. exists 41%nat. reflexivity.
  - cbn. lia.
  - reflexivity.
  - eexists. split; [reflexivity|]. split; [reflexivity|]. split; [discriminate|]. left. reflexivity.
  - lia.
  - reflexivity.
Defined.
