(* ===== verification/Vsprintf.v ===== *)
(** * kernel/vsprintf.c: formatted output

    [vsprintf] as a function from the format and the arguments to the bytes
    written.  An argument is an integer or a string; taking an argument of the
    other kind, or one that is not there, is [Mismatch].  The stores of "%n" are
    returned as pairs of an address and a value. *)

From S2P Require Import Prelude.

(** The bytes of a string constant. *)
Definition literal (s : string) : list Z := map (fun c => Z.of_N (Ascii.N_of_ascii c)) (String.list_ascii_of_string s).

Definition is_digit (c : Z) : bool := (48 <=? c) && (c <=? 57).

(** [skip_atoi]: the number and the rest of the string. *)
Fixpoint skip_atoi_from (i : Z) (s : list Z) : Z * list Z :=
  match s with
  | c :: s' => if is_digit c then skip_atoi_from (s32 (i * 10 + c - 48)) s' else (i, s)
  | [] => (i, [])
  end.
Definition skip_atoi (s : list Z) : Z * list Z := skip_atoi_from 0 s.

Definition ZEROPAD : Z := 1.
Definition SIGN : Z := 2.
Definition PLUS : Z := 4.
Definition SPACE : Z := 8.
Definition LEFT : Z := 16.
Definition SPECIAL : Z := 32.
Definition SMALL : Z := 64.
(** [type & flag]. *)
Definition has (type flag : Z) : bool := truth (Z.land type flag).

(** The digit of value [d]: 0..9, then capital or small letters. *)
Definition digit (small : bool) (d : Z) : Z :=
  if d <? 10 then 48 + d else (if small then 97 else 65) + (d - 10).

(** [while (num!=0) tmp[i++]=digits[do_div(num,base)]]: [tmp], the least
    significant digit first.  The division is unsigned and the base at least 2,
    so 32 turns are enough. *)
Fixpoint number_digits (fuel : nat) (small : bool) (base num : Z) : list Z :=
  match fuel with
  | O => []
  | S n => if num =? 0 then []
           else digit small (num mod base) :: number_digits n small base (num / base)
  end.
Definition number_tmp (small : bool) (base num : Z) : list Z :=
  if num =? 0 then [48] else number_digits 32 small base num.

(** [while (size-->0) *str++ = c]: the bytes and what [size] is afterwards. *)
Definition pad (size c : Z) : list Z * Z :=
  (replicate (Z.to_nat size) c, (if 0 <? size then 0 else size) - 1).

(** The sign character, 0 for none. *)
Definition sign_char (num type : Z) : Z :=
  if has type SIGN && (num <? 0) then 45
  else if has type PLUS then 43 else if has type SPACE then 32 else 0.

(** [None] is the null pointer returned for a bad base. *)
Definition number (num base size precision type : Z) : option (list Z) :=
  let small := has type SMALL in
  let type := if has type LEFT then Z.land type (Z.lnot ZEROPAD) else type in
  if (base <? 2) || (36 <? base) then None
  else
    let c := if has type ZEROPAD then 48 else 32 in
    let sign := sign_char num type in
    let num := if has type SIGN && (num <? 0) then s32 (- num) else num in
    let size := if truth sign then size - 1 else size in
    let size := if has type SPECIAL
                then if base =? 16 then size - 2 else if base =? 8 then size - 1 else size
                else size in
    let tmp := number_tmp small base (u32 num) in
    let i := Z.of_nat (length tmp) in
    let precision := if precision <? i then i else precision in
    let size := size - precision in
    let '(p1, size) := if negb (has type ZEROPAD || has type LEFT) then pad size 32 else ([], size) in
    let s := if truth sign then [sign] else [] in
    let x := if has type SPECIAL
             then if base =? 8 then [48] else if base =? 16 then [48; digit small 33] else []
             else [] in
    let '(p2, size) := if negb (has type LEFT) then pad size c else ([], size) in
    let z := replicate (Z.to_nat (precision - i)) 48 in
    let '(p3, _) := pad size 32 in
    Some (p1 ++ s ++ x ++ p2 ++ z ++ rev tmp ++ p3).

(** ** vsprintf *)

Inductive varg : Type := VInt (v : Z) | VStr (s : list Z).

Definition arg_int (args : list varg) : option (Z * list varg) :=
  match args with VInt v :: a => Some (v, a) | _ => None end.
Definition arg_str (args : list varg) : option (list Z * list varg) :=
  match args with VStr s :: a => Some (s, a) | _ => None end.

(** The flag characters; the format is behind the '%' or the last flag. *)
Fixpoint get_flags (fmt : list Z) (flags : Z) : list Z * Z :=
  match fmt with
  | c :: fmt' =>
      if c =? 45 then get_flags fmt' (Z.lor flags LEFT)
      else if c =? 43 then get_flags fmt' (Z.lor flags PLUS)
      else if c =? 32 then get_flags fmt' (Z.lor flags SPACE)
      else if c =? 35 then get_flags fmt' (Z.lor flags SPECIAL)
      else if c =? 48 then get_flags fmt' (Z.lor flags ZEROPAD)
      else (fmt, flags)
  | [] => ([], flags)
  end.

(** [*fmt]: 0 at the end of the string. *)
Definition cur_char (fmt : list Z) : Z := match fmt with c :: _ => c | [] => 0 end.

(** The field width: the format, the flags, the width and the arguments.  The
    '*' itself is not skipped, as in the source. *)
Definition get_width (fmt : list Z) (flags : Z) (args : list varg)
    : option (list Z * Z * Z * list varg) :=
  if is_digit (cur_char fmt) then
    let '(w, fmt) := skip_atoi fmt in Some (fmt, flags, w, args)
  else if cur_char fmt =? 42 then
    match arg_int args with
    | Some (w, args) =>
        if w <? 0 then Some (fmt, Z.lor flags LEFT, s32 (- w), args) else Some (fmt, flags, w, args)
    | None => None
    end
  else Some (fmt, flags, -1, args).

Definition get_precision (fmt : list Z) (args : list varg) : option (list Z * Z * list varg) :=
  if cur_char fmt =? 46 then
    let fmt := tail fmt in
    if is_digit (cur_char fmt) then
      let '(p, fmt) := skip_atoi fmt in Some (fmt, if p <? 0 then 0 else p, args)
    else if cur_char fmt =? 42 then
      match arg_int args with
      | Some (p, args) => Some (fmt, if p <? 0 then 0 else p, args)
      | None => None
      end
    else Some (fmt, 0, args)
  else Some (fmt, -1, args).

Definition skip_qualifier (fmt : list Z) : list Z :=
  let c := cur_char fmt in
  if (c =? 104) || (c =? 108) || (c =? 76) then tail fmt else fmt.

(** [while (--field_width > 0) *str++ = ' ']. *)
Definition pre_pad (w : Z) : list Z * Z := (replicate (Z.to_nat (w - 1)) 32, Z.min (w - 1) 0).
(** [while (len < field_width--) *str++ = ' ']. *)
Definition post_pad (len w : Z) : list Z * Z :=
  (replicate (Z.to_nat (w - len)) 32, Z.min w len - 1).

(** "%c" and "%s". *)
Definition conv_char (flags width v : Z) : list Z :=
  let '(p1, width) := if negb (has flags LEFT) then pre_pad width else ([], width) in
  let '(p2, _) := pre_pad width in
  p1 ++ [u8 v] ++ p2.
Definition conv_str (flags width precision : Z) (s : list Z) : list Z :=
  let len := Z.of_nat (length s) in
  let len := if precision <? 0 then len else if precision <? len then precision else len in
  let '(p1, width) := if negb (has flags LEFT) then post_pad len width else ([], width) in
  let '(p2, _) := post_pad len width in
  p1 ++ take (Z.to_nat len) s ++ p2.

(** One conversion specification, [fmt] behind the '%': the bytes, the rest of
    the format, the arguments left and the store of "%n"; [written] bytes were
    written before. *)
Definition conversion (fmt : list Z) (args : list varg) (written : Z)
    : option (list Z * list Z * list varg * list (Z * Z)) :=
  let '(fmt, flags) := get_flags fmt 0 in
  match get_width fmt flags args with
  | None => None
  | Some (fmt, flags, width, args) =>
      match get_precision fmt args with
      | None => None
      | Some (fmt, precision, args) =>
          let fmt := skip_qualifier fmt in
          let c := cur_char fmt in
          let num base width flags :=
            match arg_int args with
            | Some (v, args) =>
                match number (s32 v) base width precision flags with
                | Some out => Some (out, tail fmt, args, [])
                | None => None
                end
            | None => None
            end in
          if c =? 99 then
            match arg_int args with
            | Some (v, args) => Some (conv_char flags width v, tail fmt, args, [])
            | None => None
            end
          else if c =? 115 then
            match arg_str args with
            | Some (s, args) => Some (conv_str flags width precision s, tail fmt, args, [])
            | None => None
            end
          else if c =? 111 then num 8 width flags
          else if c =? 112 then
            if width =? -1 then num 16 8 (Z.lor flags ZEROPAD) else num 16 width flags
          else if c =? 120 then num 16 width (Z.lor flags SMALL)
          else if c =? 88 then num 16 width flags
          else if (c =? 100) || (c =? 105) then num 10 width (Z.lor flags SIGN)
          else if c =? 117 then num 10 width flags
          else if c =? 110 then
            match arg_int args with
            | Some (ip, args) => Some ([], tail fmt, args, [(ip, written)])
            | None => None
            end
          else Some ((if negb (c =? 37) then [37] else []) ++ (if truth c then [c] else []),
                     tail fmt, args, [])
      end
  end.

(** How a call ends: with the bytes before the final zero, whose number is the
    value returned, and the stores; at an argument that does not match the
    format; or not within the turns allowed. *)
Inductive printed : Type :=
| Printed (out : list Z) (stores : list (Z * Z))
| Mismatch
| Unfinished.

(** The main loop, at most [fuel] turns of it. *)
Fixpoint vsprintf_loop (fuel : nat) (fmt : list Z) (args : list varg) (out : list Z)
    (stores : list (Z * Z)) : printed :=
  match fuel with
  | O => Unfinished
  | S n =>
      match fmt with
      | [] => Printed out stores
      | c :: fmt' =>
          if negb (c =? 37) then vsprintf_loop n fmt' args (out ++ [c]) stores
          else
            match conversion fmt' args (Z.of_nat (length out)) with
            | None => Mismatch
            | Some (o, fmt, args, st) => vsprintf_loop n fmt args (out ++ o) (stores ++ st)
            end
      end
  end.
Definition vsprintf (fmt : list Z) (args : list varg) : printed :=
  vsprintf_loop (S (length fmt)) fmt args [] [].

(** ** Reading numbers back *)

(** The value of a digit character; [None] for other characters. *)
Definition digit_value (base c : Z) : option Z :=
  let v := if is_digit c then c - 48
           else if (65 <=? c) && (c <=? 90) then c - 55
           else if (97 <=? c) && (c <=? 122) then c - 87 else -1 in
  if (0 <=? v) && (v <? base) then Some v else None.
(** The number at the start of a string, most significant digit first. *)
Fixpoint read_digits (base acc : Z) (l : list Z) : Z :=
  match l with
  | [] => acc
  | c :: l' => match digit_value base c with
               | Some v => read_digits base (acc * base + v) l'
               | None => acc
               end
  end.
Fixpoint skip_spaces (l : list Z) : list Z :=
  match l with
  | c :: l' => if c =? 32 then skip_spaces l' else l
  | [] => []
  end.
(** Reading a number with leading blanks and a sign. *)
Definition read_number (base : Z) (l : list Z) : Z :=
  match skip_spaces l with
  | c :: l' => if c =? 45 then - read_digits base 0 l'
               else if c =? 43 then read_digits base 0 l'
               else read_digits base 0 (c :: l')
  | [] => 0
  end.

Section number_lemmas.
Context (base : Z) (small : bool) (Hbase : 2 <= base <= 36).

Lemma digit_value_digit d : 0 <= d < base -> digit_value base (digit small d) = Some d.
Proof.
  intros. unfold digit_value, digit, is_digit.
  destruct (Z.ltb_spec d 10).
  - rewrite (proj2 (Z.leb_le 48 _)), (proj2 (Z.leb_le _ 57)) by lia. cbn [andb].
    replace (48 + d - 48) with d by lia.
    by rewrite (proj2 (Z.leb_le _ _)), (proj2 (Z.ltb_lt _ _)) by lia.
  - destruct small; rewrite ?(proj2 (Z.leb_le 48 _)), ?(proj2 (Z.leb_gt _ 57)) by lia; cbn [andb].
    + rewrite (proj2 (Z.leb_gt _ 90)), andb_false_r by lia.
      rewrite (proj2 (Z.leb_le 97 _)), (proj2 (Z.leb_le _ 122)) by lia. cbn [andb].
      replace (97 + (d - 10) - 87) with d by lia.
      by rewrite (proj2 (Z.leb_le _ _)), (proj2 (Z.ltb_lt _ _)) by lia.
    + rewrite (proj2 (Z.leb_le 65 _)), (proj2 (Z.leb_le _ 90)) by lia. cbn [andb].
      replace (65 + (d - 10) - 55) with d by lia.
      by rewrite (proj2 (Z.leb_le _ _)), (proj2 (Z.ltb_lt _ _)) by lia.
Qed.

Lemma digit_range d : 0 <= d < base -> 48 <= digit small d.
Proof. intros. unfold digit. destruct (Z.ltb_spec d 10), small; lia. Qed.

Lemma read_digits_stop acc c l : digit_value base c = None -> read_digits base acc (c :: l) = acc.
Proof. intros H. cbn. by rewrite H. Qed.

Lemma read_digits_spaces acc n : read_digits base acc (replicate n 32) = acc.
Proof. destruct n; [done|]. apply read_digits_stop. unfold digit_value, is_digit. reflexivity. Qed.

Lemma read_digits_zeros n l : read_digits base 0 (replicate n 48 ++ l) = read_digits base 0 l.
Proof.
  induction n as [|n IH]; [done|]. cbn.
  replace (digit_value base 48) with (Some 0); [exact IH|].
  unfold digit_value; cbn. by rewrite (proj2 (Z.ltb_lt _ _)) by lia.
Qed.

Lemma read_number_digits fuel n acc l :
  0 <= n < base ^ Z.of_nat fuel ->
  read_digits base acc (rev (number_digits fuel small base n) ++ l) =
  read_digits base (acc * base ^ Z.of_nat (length (number_digits fuel small base n)) + n) l.
Proof.
  revert n acc l. induction fuel as [|fuel IH]; intros n acc l Hn; cbn [number_digits].
  - cbn in *. f_equal. lia.
  - destruct (Z.eqb_spec n 0) as [->|Hne]; [cbn; f_equal; lia|].
    assert (0 <= n / base < base ^ Z.of_nat fuel).
    { rewrite Nat2Z.inj_succ, Z.pow_succ_r in Hn by lia. split; [apply Z.div_pos; lia|].
      apply Z.div_lt_upper_bound; lia. }
    cbn [rev length]. rewrite <- app_assoc, IH by done. cbn [app read_digits].
    rewrite digit_value_digit by (apply Z.mod_pos_bound; lia).
    rewrite Nat2Z.inj_succ, Z.pow_succ_r by lia.
    replace ((acc * base ^ _ + n / base) * base + n mod base)
      with (acc * (base * base ^ Z.of_nat (length (number_digits fuel small base (n / base)))) + n);
      [done|]. pose proof (Z.div_mod n base). lia.
Qed.

Lemma number_tmp_digits n : Forall (fun c => 48 <= c) (number_tmp small base n).
Proof.
  unfold number_tmp. destruct (n =? 0); [by repeat constructor|].
  generalize 32%nat as fuel. intros fuel. revert n. induction fuel as [|f IH]; intros n; cbn; [done|].
  destruct (n =? 0); constructor; [|apply IH]. apply digit_range, Z.mod_pos_bound. lia.
Qed.

Lemma number_tmp_nonempty n : 0 <= n -> (0 < length (number_tmp small base n))%nat.
Proof. unfold number_tmp. destruct (n =? 0) eqn:E; cbn; [lia|]. rewrite E. cbn. lia. Qed.

Lemma read_number_tmp n l :
  0 <= n < 2 ^ 32 ->
  read_digits base 0 (rev (number_tmp small base n) ++ replicate l 32) = n.
Proof.
  intros Hn. unfold number_tmp. destruct (Z.eqb_spec n 0) as [->|Hne].
  - cbn. replace (digit_value base 48) with (Some 0); [apply read_digits_spaces|].
    unfold digit_value; cbn. by rewrite (proj2 (Z.ltb_lt _ _)) by lia.
  - rewrite read_number_digits; [rewrite read_digits_spaces; lia|].
    split; [lia|]. change (Z.of_nat 32) with 32.
    pose proof (Z.pow_le_mono_l 2 base 32). lia.
Qed.
End number_lemmas.

Lemma pad_snd size c : snd (pad size c) < 0 /\ (size <= 0 -> snd (pad size c) = size - 1).
Proof. unfold pad; cbn. destruct (Z.ltb_spec 0 size); lia. Qed.
Lemma pad_neg size c : size <= 0 -> fst (pad size c) = [].
Proof. intros. unfold pad; cbn. by replace (Z.to_nat size) with 0%nat by lia. Qed.

(** The digits printed, and what stands before them. *)
Definition number_sign (num type : Z) : list Z :=
  let s := sign_char num type in if truth s then [s] else [].
Definition number_prefix (base type : Z) : list Z :=
  if has type SPECIAL
  then if base =? 8 then [48] else if base =? 16 then [48; digit (has type SMALL) 33] else []
  else [].
Definition number_abs (num type : Z) : Z :=
  u32 (if has type SIGN && (num <? 0) then s32 (- num) else num).

Lemma has_not_zeropad type flag :
  flag ∈ [SIGN; PLUS; SPACE; LEFT; SPECIAL; SMALL] -> has (Z.land type (Z.lnot ZEROPAD)) flag = has type flag.
Proof.
  intros H. unfold has. f_equal. rewrite <- Z.land_assoc. f_equal.
  repeat (apply elem_of_cons in H as [->|H]; [reflexivity|]). by apply elem_of_nil in H.
Qed.

(** Blanks in front or zeros inside, never both; blanks behind. *)
Lemma number_shape num base size precision type out :
  number num base size precision type = Some out ->
  2 <= base <= 36 /\
  exists n k m, out = replicate n 32 ++ number_sign num type ++ number_prefix base type ++
                      replicate k 48 ++ rev (number_tmp (has type SMALL) base (number_abs num type)) ++
                      replicate m 32.
Proof.
  unfold number.
  set (type' := if has type LEFT then _ else type).
  assert (Hty : forall flag, flag ∈ [SIGN; PLUS; SPACE; LEFT; SPECIAL; SMALL] -> has type' flag = has type flag).
  { intros flag Hf. unfold type'. destruct (has type LEFT); [by apply has_not_zeropad|done]. }
  assert (Hs : sign_char num type' = sign_char num type).
  { unfold sign_char. rewrite (Hty SIGN), (Hty PLUS), (Hty SPACE) by (by repeat constructor). done. }
  assert (Hz : has type LEFT = true -> has type' ZEROPAD = false).
  { intros Hl. unfold type'. rewrite Hl. unfold has.
    rewrite <- Z.land_assoc, (Z.land_comm _ ZEROPAD), Z.land_lnot_diag. by rewrite Z.land_0_r. }
  destruct ((base <? 2) || (36 <? base)) eqn:Hb; [done|].
  apply orb_false_iff in Hb as [Hb1%Z.ltb_ge Hb2%Z.ltb_ge].
  rewrite Hs, (Hty SIGN), (Hty SPECIAL), (Hty LEFT) by (by repeat constructor).
  unfold number_sign, number_prefix, number_abs.
  generalize (u32 (if has type SIGN && (num <? 0) then s32 (- num) else num)) as v; intros v.
  set (tmp := number_tmp _ base v).
  generalize (sign_char num type) as sg; intros sg.
  generalize (if truth sg then [sg] else []) as sgl; intros sgl.
  generalize (if has type SPECIAL
      then if base =? 8 then [48] else if base =? 16 then [48; digit (has type SMALL) 33] else []
      else []) as pre; intros pre.
  generalize (if precision <? Z.of_nat (length tmp) then Z.of_nat (length tmp) else precision) as pr; intros pr.
  set (sz := (if has type SPECIAL then _ else _) - pr). generalize sz. clear sz. intros sz.
  unfold number_sign, number_prefix.
  destruct (has type LEFT) eqn:Hl; cbn [orb negb andb].
  - rewrite orb_true_r. cbn [negb]. intros [= <-]. split; [lia|].
    exists 0%nat, (Z.to_nat (pr - Z.of_nat (length tmp))), (Z.to_nat sz). done.
  - rewrite orb_false_r. destruct (has type' ZEROPAD) eqn:Ez; cbn [negb].
    + intros [= <-]. split; [lia|].
      exists 0%nat, (Z.to_nat sz + Z.to_nat (pr - Z.of_nat (length tmp)))%nat,
        (Z.to_nat (snd (pad sz 48))). by rewrite replicate_add, <- !app_assoc.
    + intros [= <-]. split; [lia|].
      exists (Z.to_nat sz), (Z.to_nat (pr - Z.of_nat (length tmp))),
        (Z.to_nat (snd (pad (snd (pad sz 32)) 32))).
      destruct (pad_snd sz 32) as [Hneg _]. cbn in Hneg.
      replace (Z.to_nat ((if 0 <? sz then 0 else sz) - 1)) with 0%nat by lia. done.
Qed.

Lemma skip_spaces_replicate n l : skip_spaces (replicate n 32 ++ l) = skip_spaces l.
Proof. induction n; [done|]. exact IHn. Qed.

Lemma read_number_body base n c l :
  48 <= c ->
  let r := read_digits base 0 (c :: l) in
  read_number base (replicate n 32 ++ c :: l) = r /\
  read_number base (replicate n 32 ++ 45 :: c :: l) = - r /\
  read_number base (replicate n 32 ++ 43 :: c :: l) = r /\
  read_number base (replicate n 32 ++ 32 :: c :: l) = r.
Proof.
  intros Hc r. unfold read_number. rewrite !skip_spaces_replicate. cbn [skip_spaces Z.eqb Pos.eqb].
  rewrite !(proj2 (Z.eqb_neq c _)) by lia. done.
Qed.

(** C35: what [number] prints reads back as the number it was given, for
    every base, field width, precision and combination of flags but SPECIAL
    (the "0x" forms): a signed conversion prints the signed value, any other one
    the unsigned value. *)
Theorem number_reads_back num base size precision type out :
  - 2 ^ 31 <= num < 2 ^ 31 ->
  has type SPECIAL = false ->
  number num base size precision type = Some out ->
  read_number base out = if has type SIGN then num else u32 num.
Proof.
  intros Hnum Hsp (Hb & n & k & m & ->)%number_shape.
  unfold number_prefix. rewrite Hsp. cbn [app].
  set (v := number_abs num type). assert (Hv : 0 <= v < 2 ^ 32) by apply u32_range.
  set (tmp := number_tmp _ base v).
  assert (Hr : read_digits base 0 (replicate k 48 ++ rev tmp ++ replicate m 32) = v).
  { rewrite read_digits_zeros by done. unfold tmp. by apply read_number_tmp. }
  destruct (replicate k 48 ++ rev tmp ++ replicate m 32) as [|c l] eqn:El.
  { apply (f_equal length) in El. rewrite !length_app, length_rev in El.
    pose proof (number_tmp_nonempty base (has type SMALL) v). cbn in El. fold tmp in H. lia. }
  assert (Hc : 48 <= c).
  { destruct k as [|k]; [|by injection El as <- _].
    pose proof (number_tmp_digits base (has type SMALL) Hb v) as Ht. fold tmp in Ht.
    apply Forall_rev in Ht. destruct (rev tmp) as [|c' r] eqn:Er.
    - apply (f_equal length) in Er. rewrite length_rev in Er.
      pose proof (number_tmp_nonempty base (has type SMALL) v). fold tmp in H. cbn in Er. lia.
    - injection El as <- _. by apply Forall_cons in Ht as [? _]. }
  destruct (read_number_body base n c l Hc) as (R1 & R2 & R3 & R4). rewrite Hr in *.
  unfold number_sign, sign_char. unfold v, number_abs in *. clear - Hnum R1 R2 R3 R4.
  destruct (has type SIGN), (Z.ltb_spec num 0); cbn [andb] in *.
  - cbn [app truth]. change (truth 45) with true. cbn [app]. rewrite R2.
    unfold u32, s32. destruct (decide (num = - 2 ^ 31)) as [->|]; [reflexivity|].
    rewrite (Z.mod_small (- num + 2 ^ 31)), Z.mod_small by lia. lia.
  - rewrite u32_small in * by lia.
    destruct (has type PLUS), (has type SPACE); cbn; done.
  - destruct (has type PLUS), (has type SPACE); cbn; done.
  - destruct (has type PLUS), (has type SPACE); cbn; done.
Qed.
Lemma number_reads_back_witness :
  exists out, number (-2147483648) 10 14 12 (SIGN + ZEROPAD) = Some out /\
    read_number 10 out = -2147483648 /\ length out = 14%nat.
Proof.
  eexists. split; [reflexivity|]. split; [|reflexivity].
  apply (number_reads_back (-2147483648) 10 14 12 (SIGN + ZEROPAD)); [lia|reflexivity|reflexivity].
Defined.

(** C39: the field width and the precision of [number]: the output is as wide
    as asked for, and wider only when the sign, the prefix and the digits
    (at least [precision] of them) need more. *)
Theorem number_width num base size precision type out :
  number num base size precision type = Some out ->
  Z.of_nat (length out) =
  Z.max size (Z.of_nat (length (number_sign num type)) + Z.of_nat (length (number_prefix base type)) +
              Z.max precision (Z.of_nat (length (number_tmp (has type SMALL) base (number_abs num type))))).
Proof.
  unfold number, number_sign, number_prefix, number_abs.
  set (type' := if has type LEFT then _ else type).
  assert (Hty : forall flag, flag ∈ [SIGN; PLUS; SPACE; LEFT; SPECIAL; SMALL] -> has type' flag = has type flag).
  { intros flag Hf. unfold type'. destruct (has type LEFT); [by apply has_not_zeropad|done]. }
  assert (Hs : sign_char num type' = sign_char num type).
  { unfold sign_char. rewrite (Hty SIGN), (Hty PLUS), (Hty SPACE) by (by repeat constructor). done. }
  rewrite Hs, (Hty SIGN), (Hty SPECIAL), (Hty LEFT) by (by repeat constructor).
  generalize (u32 (if has type SIGN && (num <? 0) then s32 (- num) else num)) as v; intros v.
  generalize (sign_char num type) as sg; intros sg. clear Hty Hs. clearbody type'.
  destruct ((base <? 2) || (36 <? base)); [done|].
  generalize (number_tmp (has type SMALL) base v) as tmp; intros tmp.
  destruct (Z.ltb_spec precision (Z.of_nat (length tmp))), (has type LEFT), (has type' ZEROPAD),
    (has type SPECIAL), (truth sg), (Z.eqb_spec base 16), (Z.eqb_spec base 8);
    try lia; unfold pad; cbn [orb negb andb];
    intros [= <-]; repeat (rewrite ?length_app, ?length_replicate, ?length_rev; progress cbn [app length]);
    rewrite ?length_app, ?length_replicate, ?length_rev;
    repeat match goal with |- context [0 <? ?x] => destruct (Z.ltb_spec 0 x) end; lia.
Qed.
Lemma number_width_witness :
  exists out, number 255 16 10 4 (SPECIAL + SMALL) = Some out /\
    Z.of_nat (length out) = Z.max 10 (0 + 2 + Z.max 4 2).
Proof.
  eexists. split; [reflexivity|]. apply (number_width 255 16 10 4 (SPECIAL + SMALL)). reflexivity.
Defined.

(** ** The main loop *)

Lemma skip_atoi_length i s : (length (snd (skip_atoi_from i s)) <= length s)%nat.
Proof.
  revert i. induction s as [|c s IH]; intros i; cbn; [done|].
  destruct (is_digit c); cbn; [|lia]. etrans; [apply IH|lia].
Qed.
Lemma get_flags_length fmt flags : (length (fst (get_flags fmt flags)) <= length fmt)%nat.
Proof.
  revert flags. induction fmt as [|c fmt IH]; intros flags; cbn; [done|].
  repeat (case_match; [etrans; [apply IH|lia]|]). done.
Qed.
Lemma tail_length {A} (l : list A) : (length (tail l) <= length l)%nat.
Proof. destruct l; cbn; lia. Qed.
Lemma get_width_length fmt flags args fmt' f w a :
  get_width fmt flags args = Some (fmt', f, w, a) -> (length fmt' <= length fmt)%nat.
Proof.
  unfold get_width, skip_atoi. pose proof (skip_atoi_length 0 fmt).
  destruct (skip_atoi_from 0 fmt). repeat case_match; intros; simplify_eq; cbn in *; lia.
Qed.
Lemma get_precision_length fmt args fmt' p a :
  get_precision fmt args = Some (fmt', p, a) -> (length fmt' <= length fmt)%nat.
Proof.
  unfold get_precision, skip_atoi. pose proof (skip_atoi_length 0 (tail fmt)). pose proof (tail_length fmt).
  destruct (skip_atoi_from 0 (tail fmt)). repeat case_match; intros; simplify_eq; cbn in *; lia.
Qed.
Lemma skip_qualifier_length fmt : (length (skip_qualifier fmt) <= length fmt)%nat.
Proof. unfold skip_qualifier. pose proof (tail_length fmt). case_match; lia. Qed.

Lemma conversion_length fmt args n out fmt' a st :
  conversion fmt args n = Some (out, fmt', a, st) -> (length fmt' <= length fmt)%nat.
Proof.
  unfold conversion. pose proof (get_flags_length fmt 0). destruct (get_flags fmt 0) as [fmt1 flags].
  destruct (get_width fmt1 flags args) as [[[[fmt2 flags2] width] args2]|] eqn:E1; [|done].
  apply get_width_length in E1.
  destruct (get_precision fmt2 args2) as [[[fmt3 prec] args3]|] eqn:E2; [|done].
  apply get_precision_length in E2.
  pose proof (skip_qualifier_length fmt3). pose proof (tail_length (skip_qualifier fmt3)).
  cbn [fst] in *. set (fmt4 := skip_qualifier fmt3) in *.
  assert (length (tail fmt4) <= length fmt)%nat by lia. clearbody fmt4.
  repeat case_match; intros; simplify_eq; done.
Qed.

Lemma loop_finishes m fmt args out st : (length fmt < m)%nat -> vsprintf_loop m fmt args out st <> Unfinished.
Proof.
  revert fmt args out st. induction m as [|m IH]; intros fmt args out st Hm; [lia|].
  cbn [vsprintf_loop]. destruct fmt as [|c fmt]; [done|]. cbn [length] in *.
  destruct (negb (c =? 37)); [apply IH; lia|].
  destruct (conversion fmt args _) as [[[[o fmt'] args'] st']|] eqn:E; [|done].
  apply conversion_length in E. apply IH; lia.
Qed.
(** More turns do not change the result of a loop that ended. *)
Lemma loop_more m n fmt args out st : (m <= n)%nat ->
  vsprintf_loop m fmt args out st <> Unfinished -> vsprintf_loop n fmt args out st = vsprintf_loop m fmt args out st.
Proof.
  revert n fmt args out st. induction m as [|m IH]; intros n fmt args out st Hmn H; [done|].
  destruct n as [|n]; [lia|]. cbn [vsprintf_loop] in *. destruct fmt as [|c fmt]; [done|].
  destruct (negb (c =? 37)); [apply IH; [lia|done]|].
  destruct (conversion fmt args _) as [[[[o fmt'] args'] st']|]; [|done]. apply IH; [lia|done].
Qed.

(** C40: [vsprintf] ends, whatever the format and the arguments: after at most
    one turn per character of the format, with all its bytes or at an argument
    that does not match; more turns change nothing. *)
Theorem vsprintf_ends fuel fmt args : (length fmt < fuel)%nat ->
  vsprintf_loop fuel fmt args [] [] <> Unfinished /\ vsprintf_loop fuel fmt args [] [] = vsprintf fmt args.
Proof.
  intros Hf. split; [by apply loop_finishes|].
  unfold vsprintf. apply loop_more; [lia|]. apply loop_finishes. lia.
Qed.
Lemma vsprintf_ends_witness :
  vsprintf_loop 100 [37; 100; 33] [VInt (-5)] [] [] = Printed [45; 53; 33] [].
Proof. rewrite (proj2 (vsprintf_ends 100 [37; 100; 33] [VInt (-5)] ltac:(cbn; lia))). reflexivity. Defined.

(** ** Formats whose arguments match *)

(** A good base is all [number] asks for. *)
Lemma number_total num base size precision type : (base <? 2) || (36 <? base) = false ->
  exists out, number num base size precision type = Some out.
Proof.
  intros Hb. unfold number. rewrite Hb.
  repeat match goal with |- context [let '(_, _) := ?x in _] => destruct x end. eauto.
Qed.

(** A format of literal text and numeric conversions. *)
Inductive piece : Type := Lit (l : list Z) | Num (spec : list Z) (base width flags : Z).
Definition piece_fmt (p : piece) : list Z := match p with Lit l => l | Num spec _ _ _ => 37 :: spec end.
Definition piece_ok (p : piece) : Prop :=
  match p with
  | Lit l => forallb (fun c => negb (c =? 37)) l = true
  | Num spec base width flags => (base <? 2) || (36 <? base) = false /\ forall fmt v args w,
      conversion (spec ++ fmt) (VInt v :: args) w =
      match number (s32 v) base width (-1) flags with Some o => Some (o, fmt, args, []) | None => None end
  end.
Fixpoint numbers (ps : list piece) : nat :=
  match ps with [] => 0 | Lit _ :: ps => numbers ps | Num _ _ _ _ :: ps => S (numbers ps) end.
Lemma loop_literal lit fmt args n out st : forallb (fun c => negb (c =? 37)) lit = true -> 
  vsprintf_loop (length lit + n) (lit ++ fmt) args out st = vsprintf_loop n fmt args (out ++ lit) st.
Proof.
  revert out. induction lit as [|c lit IH]; intros out Hl; [by rewrite app_nil_r|].
  cbn [forallb] in Hl. apply andb_prop in Hl as [Hc Hl]. cbn [length Nat.add app vsprintf_loop].
  rewrite Hc, (IH _ Hl), <- app_assoc. done.
Qed.
Lemma pieces_print ps : Forall piece_ok ps -> forall vs n out, length vs = numbers ps ->
  (length (concat (map piece_fmt ps)) < n)%nat ->
  exists out', vsprintf_loop n (concat (map piece_fmt ps)) (map VInt vs) out [] = Printed out' [].
Proof.
  induction 1 as [|[l|spec base width flags] ps Hp Hps IH]; intros vs n out Hvs Hn; cbn [map concat piece_fmt numbers] in *.
  - destruct n; [cbn in Hn; lia|]. eexists. reflexivity.
  - rewrite length_app in Hn. replace n with (length l + (n - length l))%nat by lia.
    rewrite loop_literal by exact Hp. apply IH; [done|lia].
  - destruct vs as [|v vs]; [done|]. destruct n as [|n]; [lia|]. destruct Hp as [Hb Hc].
    destruct (number_total (s32 v) base width (-1) flags Hb) as [o Eo].
    cbn [app map length] in *. rewrite length_app in Hn. 
    cbn [vsprintf_loop]. rewrite Hc, Eo. apply IH; [by injection Hvs|lia].
Qed.
Lemma pieces_match ps vs : Forall piece_ok ps -> length vs = numbers ps ->
  exists out, vsprintf (concat (map piece_fmt ps)) (map VInt vs) = Printed out [].
Proof. intros Hps Hvs. apply pieces_print; [done..|lia]. Qed.
