(* ===== verification/Printk.v ===== *)
(** * kernel/printk.c and what is printed with it

    [printk] formats into its buffer and hands that to [tty_write] on the
    console with fs at the kernel segment; [show_task] and [show_stat] of
    kernel/sched.c and [calc_mem] of mm/memory.c print the tasks and the use of
    memory.  The other places that call [printk] only report, and their models
    leave the call out. *)

From S2P Require Import Vsprintf Prelude Kernel Sched Memory Console Tty Exec.

(** ** The three reports *)

(** [sizeof(struct task_struct)]: 636 bytes up to [executable], then
    [close_on_exec], [filp], [ldt] and [tss]. *)
Definition sizeof_task_struct : Z := 636 + 4 + 20 * 4 + 3 * 8 + (26 * 4 + 7 * 4 + 20 * 4).
(** [while (i<j && !stack[i]) i++]: the zero bytes at the start. *)
Fixpoint chars_free (stack : list Z) : Z :=
  match stack with c :: stack' => if c =? 0 then 1 + chars_free stack' else 0 | [] => 0 end.

Section with_world.
Context `{World}.
(** The address of [buf], and the bytes of the kernel stack of each task: what
    follows the task structure in its page. *)
Variable buf : Z.
Variable kernel_stack : nat -> list Z.

(** An argument that is not there, or of the wrong kind, is read all the same:
    [fault]. *)
Definition printk (fmt : list Z) (args : list varg) : M kernel Z :=
  match vsprintf fmt args with
  | Printed out _ =>
      let i := Z.of_nat (length out) in
      with_fs buf (out ++ [0]) (tty_write 0 buf i) ;; mret i
  | _ => fault
  end.

(** The structure of a task is in the slot [nr]. *)
Definition show_task (nr : nat) (p : task_struct) : M kernel unit :=
  let j := 4096 - sizeof_task_struct in
  printk (literal "%d: pid=%d, state=%d, ") [VInt (Z.of_nat nr); VInt (t_pid p); VInt (t_state p)] ;;
  let i := chars_free (take (Z.to_nat j) (kernel_stack nr)) in
  printk (literal "%d (of %d) chars free in kernel stack" ++ [10; 13]) [VInt i; VInt j] ;;
  mret tt.
Definition show_stat : M kernel unit :=
  for_ (seq 0 NR_TASKS) (fun i =>
    s ← gets id;
    match task_at s i with Some p => show_task i p | None => mret tt end).

Definition how_many {A} (f : A -> bool) (l : list A) : Z := Z.of_nat (length (filter f l)).
Definition calc_mem : M kernel unit :=
  m ← gets k_mm;
  let free := how_many (fun c => c =? 0) (take PAGING_PAGES (mem_map m)) in
  printk (literal "%d pages free (of %d)" ++ [10; 13]) [VInt free; VInt (Z.of_nat PAGING_PAGES)] ;;
  for_ (seqZ 2 1022) (fun i =>
    m ← gets k_mm;
    let entry := rd (words m) (4 * i) in
    if truth (Z.land 1 entry) then
      let pg_tbl := Z.land 0xfffff000 entry in
      let k := how_many (fun j => truth (Z.land (rd (words m) (pg_tbl + 4 * j)) 1)) (seqZ 0 1024) in
      printk (literal "Pg-dir[%d] uses %d pages" ++ [10]) [VInt i; VInt k] ;; mret tt
    else mret tt).
End with_world.

(** ** Printing, evaluated *)

#[local] Instance quiet_world : World :=
  {| world_env := fun _ _ s => s; world_hardware := fun _ _ => 0; patience := 100 |}.
Definition console_kernel : kernel :=
  set_field k_user (fun _ => {[ 5 := 7 ]})
    (set_field k_con (fun _ => con_setup (BootVideo 0 24 0 3 80 0) boot_console) (boot_kernel 0 0)).
(** The characters from where the cursor was. *)
Definition screen_text (n : nat) (s : kernel) : list Z :=
  (fun k => Z.land (default 0 (vram (k_con s) !! (con_pos (k_con console_kernel) + 2 * Z.of_nat k))) 255) <$> seq 0 n.

(** "42 pages" is on the screen, its length is returned, and the user memory
    is what it was. *)
Example printk_demo :
  match printk 0x9000 (literal "%d pages") [VInt 42] console_kernel with
  | Ok r s => r = 8 /\ screen_text 8 s = literal "42 pages" /\ k_user s = {[ 5 := 7 ]}
  | _ => False
  end.
Proof. vm_compute. auto. Qed.
(** The boot kernel has one task. *)
Example show_stat_demo :
  match show_stat 0x9000 (fun _ => replicate 100 0 ++ [1]) console_kernel with
  | Ok _ s => screen_text 18 s = literal "0: pid=0, state=0,"
  | _ => False
  end.
Proof. vm_compute. auto. Qed.
