(* ===== verification/Keyboard.v ===== *)
(** * kernel/chr_drv/keyboard.S: the keyboard interrupt

    The routines of the file on the bytes [mode], [leds] and [e0] of the
    kernel state and the input queue of the console; registers are arguments
    and results.  Then what they do: the bytes of a key enter the queue all or
    not at all, [mode] knows the modifier keys that are down, and a key typed
    goes through the line discipline of Cooking.v. *)

From S2P Require Import Vsprintf Prelude Kernel Sched Memory Console Tty Cooking Exec Printk Frame.

(** ** The tables *)

(** The layouts, one of which include/linux/config.h chooses. *)
Inductive kbd_type := KBD_FINNISH | KBD_US | KBD_GR | KBD_FR.
Definition config_kbd : kbd_type := KBD_FINNISH.

Definition zeros (n : nat) : list Z := replicate n 0.
(** The end of the maps, from scan code 0x3A on, and of [alt_map] from 0x10. *)
Definition map_end (last : Z) : list Z := zeros 16 ++ [45; 0; 0; 0; 43] ++ zeros 7 ++ [last] ++ zeros 10.
Definition alt_end : list Z := [126; 13; 0] ++ zeros 11 ++ zeros 2 ++ zeros 11 ++ zeros 4 ++ zeros 16 ++ zeros 5 ++ zeros 7 ++ [124] ++ zeros 10.

Definition key_map_FINNISH : list Z :=
  [0; 27] ++ literal "1234567890+'" ++ [127; 9] ++ literal "qwertyuiop}" ++ [0; 13; 0] ++
  literal "asdfghjkl|{" ++ [0; 0] ++ literal "'zxcvbnm,.-" ++ [0; 42; 0; 32] ++ map_end 60.
Definition shift_map_FINNISH : list Z :=
  [0; 27] ++ literal "!" ++ [34] ++ literal "#$%&/()=?`" ++ [127; 9] ++ literal "QWERTYUIOP]^" ++ [13; 0] ++
  literal "ASDFGHJKL\[" ++ [0; 0] ++ literal "*ZXCVBNM;:_" ++ [0; 42; 0; 32] ++ map_end 62.
Definition alt_map_FINNISH : list Z :=
  zeros 2 ++ [0; 64; 0; 36; 0; 0] ++ literal "{[]}\" ++ [0] ++ zeros 2 ++ zeros 11 ++ alt_end.
Definition key_map_US : list Z :=
  [0; 27] ++ literal "1234567890-=" ++ [127; 9] ++ literal "qwertyuiop[]" ++ [13; 0] ++
  literal "asdfghjkl;'" ++ [96; 0] ++ literal "\zxcvbnm,./" ++ [0; 42; 0; 32] ++ map_end 60.
Definition shift_map_US : list Z :=
  [0; 27] ++ literal "!@#$%^&*()_+" ++ [127; 9] ++ literal "QWERTYUIOP{}" ++ [13; 0] ++
  literal "ASDFGHJKL:" ++ [34] ++ [126; 0] ++ literal "|ZXCVBNM<>?" ++ [0; 42; 0; 32] ++ map_end 62.
Definition alt_map_US : list Z :=
  zeros 2 ++ [0; 64; 0; 36; 0; 0] ++ literal "{[]}\" ++ [0] ++ zeros 2 ++ zeros 11 ++ alt_end.
Definition key_map_GR : list Z :=
  [0; 27] ++ literal "1234567890\'" ++ [127; 9] ++ literal "qwertzuiop@+" ++ [13; 0] ++
  literal "asdfghjkl[]^" ++ [0; 35] ++ literal "yxcvbnm,.-" ++ [0; 42; 0; 32] ++ map_end 60.
Definition shift_map_GR : list Z :=
  [0; 27] ++ literal "!" ++ [34] ++ literal "#$%&/()=?`" ++ [127; 9] ++ literal "QWERTZUIOP\*" ++ [13; 0] ++
  literal "ASDFGHJKL{}~" ++ [0; 39] ++ literal "YXCVBNM;:_" ++ [0; 42; 0; 32] ++ map_end 62.
Definition alt_map_GR : list Z :=
  zeros 2 ++ [0; 64; 0; 36; 0; 0] ++ literal "{[]}\" ++ [0] ++ zeros 2 ++ [64] ++ zeros 10 ++ alt_end.
Definition key_map_FR : list Z :=
  [0; 27] ++ literal "&{" ++ [34] ++ literal "'(-}_/@)=" ++ [127; 9] ++ literal "azertyuiop^$" ++ [13; 0] ++
  literal "qsdfghjklm|" ++ [96; 0; 42] ++ literal "wxcvbn,;:!" ++ [0; 42; 0; 32] ++ map_end 60.
Definition shift_map_FR : list Z :=
  [0; 27] ++ literal "1234567890]+" ++ [127; 9] ++ literal "AZERTYUIOP<>" ++ [13; 0] ++
  literal "QSDFGHJKLM%" ++ [126; 0; 35] ++ literal "WXCVBN?./\" ++ [0; 42; 0; 32] ++ map_end 62.
Definition alt_map_FR : list Z :=
  zeros 2 ++ [0] ++ literal "~#{[|`\^@]}" ++ zeros 2 ++ [64] ++ zeros 10 ++ alt_end.
Definition key_map (k : kbd_type) : list Z :=
  match k with KBD_FINNISH => key_map_FINNISH | KBD_US => key_map_US | KBD_GR => key_map_GR | KBD_FR => key_map_FR end.
Definition shift_map (k : kbd_type) : list Z :=
  match k with KBD_FINNISH => shift_map_FINNISH | KBD_US => shift_map_US | KBD_GR => shift_map_GR | KBD_FR => shift_map_FR end.
Definition alt_map (k : kbd_type) : list Z :=
  match k with KBD_FINNISH => alt_map_FINNISH | KBD_US => alt_map_US | KBD_GR => alt_map_GR | KBD_FR => alt_map_FR end.
Definition num_table (k : kbd_type) : list Z :=
  match k with KBD_FR => literal "789 456 1230." | _ => literal "789 456 1230," end.
Definition cur_table : list Z := literal "HA5 DGC YB623".
(** ESC [ [ A to ESC [ [ L. *)
Definition func_table : list Z :=
  [0x415b5b1b; 0x425b5b1b; 0x435b5b1b; 0x445b5b1b; 0x455b5b1b; 0x465b5b1b;
   0x475b5b1b; 0x485b5b1b; 0x495b5b1b; 0x4a5b5b1b; 0x4b5b5b1b; 0x4c5b5b1b].

(** The routine for each scan code. *)
Inductive key_routine := none | do_self_ | ctrl_ | unctrl_ | alt_ | unalt_ | lshift_ | unlshift_ | rshift_ | unrshift_
  | caps_ | uncaps_ | scroll_ | num_ | cursor_ | func_ | minus_.
Definition key_table : list key_routine :=
  [none] ++ replicate 28 do_self_ ++ [ctrl_] ++ replicate 12 do_self_ ++ [lshift_] ++ replicate 10 do_self_ ++
  [minus_; rshift_; do_self_; alt_; do_self_; caps_] ++ replicate 10 func_ ++ [num_; scroll_] ++
  [cursor_; cursor_; cursor_; do_self_; cursor_; cursor_; cursor_; do_self_; cursor_; cursor_; cursor_; cursor_; cursor_] ++
  [none; none; do_self_; func_; func_] ++ replicate 0x44 none ++ [unctrl_] ++ replicate 12 none ++ [unlshift_] ++
  replicate 11 none ++ [unrshift_; none; unalt_; none; uncaps_] ++ replicate 69 none.

Section with_world.
Context `{World}.
(** The layout; the buffer of [printk] and the kernel stacks [show_stat] looks
    at. *)
Variable KBD : kbd_type.
Variable buf : Z.
Variable kernel_stack : nat -> list Z.

(** ** put_queue *)

(** One turn of the loop of [put_queue]: the low byte of %eax goes to the
    buffer, the next one comes down from %ebx.  [None] when the buffer is full. *)
Definition put_turn '(ecx, eax, ebx) : M kernel (Z * Z * Z + option Z) :=
  upd 0%nat tty_read_q (set_field q_buf (fun l => <[Z.to_nat ecx := u8 eax]> l)) ;;
  let ecx := INC ecx in
  q ← 0%nat->>tty_read_q;
  if ecx =? q_tail q then mret (inr None)
  else
    let eax := Z.lor (Z.shiftr eax 8) (u32 (Z.shiftl ebx 24)) in
    mret (if eax =? 0 then inr (Some ecx) else inl (ecx, eax, Z.shiftr ebx 8)).
(** At most eight bytes. *)
Definition put_queue (eax ebx : Z) : M kernel unit :=
  q ← 0%nat->>tty_read_q;
  r ← loop 8 put_turn (q_head q, eax, ebx);
  match r with
  | None => mret tt
  | Some ecx =>
      upd 0%nat tty_read_q (set_field q_head (fun _ => ecx)) ;;
      q ← 0%nat->>tty_read_q;
      match q_proc_list q with Some p => tst p t_state 0 | None => mret tt end
  end.

(** ** The routines of [key_table] *)

Definition kb_wait : M kernel unit :=
  while patience (v ← inb 0x64; mret (truth (Z.land v 0x02))) (mret tt).
(** The word 0x1234 at 0x472 for the BIOS is left out; [die] is a loop. *)
Definition reboot : M kernel unit :=
  kb_wait ;; outb 0xfc 0x64 ;; loop patience (fun _ : unit => mret (inl tt)) tt.

(** [mode] with bits set, and with bits cleared. *)
Definition mode_or (al : Z) : M kernel unit :=
  m ← sget k_kbd kb_mode; sset k_kbd kb_mode (Z.lor m al).
Definition mode_and (al : Z) : M kernel unit :=
  m ← sget k_kbd kb_mode; sset k_kbd kb_mode (Z.land m al).
(** The key on the right, with a prefix, has the next bit. *)
Definition mod_bit (al : Z) : M kernel Z :=
  e ← sget k_kbd kb_e0; mret (if e =? 0 then al else u8 (al + al)).
Definition ctrl : M kernel unit := al ← mod_bit 0x04; mode_or al.
Definition alt : M kernel unit := al ← mod_bit 0x10; mode_or al.
Definition unctrl : M kernel unit := al ← mod_bit 0x04; mode_and (u8 (Z.lnot al)).
Definition unalt : M kernel unit := al ← mod_bit 0x10; mode_and (u8 (Z.lnot al)).
Definition lshift : M kernel unit := mode_or 0x01.
Definition unlshift : M kernel unit := mode_and 0xfe.
Definition rshift : M kernel unit := mode_or 0x02.
Definition unrshift : M kernel unit := mode_and 0xfd.

Definition set_leds : M kernel unit :=
  kb_wait ;; outb 0xed 0x60 ;;
  kb_wait ;; l ← sget k_kbd kb_leds; outb l 0x60.
Definition leds_xor (b : Z) : M kernel unit :=
  l ← sget k_kbd kb_leds; sset k_kbd kb_leds (Z.lxor l b).
Definition caps : M kernel unit :=
  m ← sget k_kbd kb_mode;
  if truth (Z.land m 0x80) then mret tt
  else
    leds_xor 4 ;;
    m ← sget k_kbd kb_mode; sset k_kbd kb_mode (Z.lxor m 0x40) ;;
    mode_or 0x80 ;;
    set_leds.
Definition uncaps : M kernel unit := mode_and 0x7f.
Definition scroll : M kernel unit := leds_xor 1 ;; set_leds.
Definition num : M kernel unit := leds_xor 2 ;; set_leds.

(** The cursor keys: ESC [ and a letter, or a digit and a tilde. *)
Definition cur_key (i : Z) : M kernel unit :=
  let al := nth (Z.to_nat i) cur_table 0 in
  let ah := if 57 <? al then 0 else 126 in
  put_queue (Z.lor (Z.shiftl (al + 256 * ah) 16) 0x5b1b) 0.
Definition cur2 (i : Z) : M kernel unit :=
  e ← sget k_kbd kb_e0; l ← sget k_kbd kb_leds; m ← sget k_kbd kb_mode;
  if (e =? 1) || negb (truth (Z.land l 0x02)) || truth (Z.land m 0x03) then cur_key i
  else put_queue (nth (Z.to_nat i) (num_table KBD) 0) 0.
Definition cursor (al : Z) : M kernel unit :=
  let i := al - 0x47 in
  if (i <? 0) || (12 <? i) then mret tt
  else
    m ← sget k_kbd kb_mode;
    if (i =? 12) && truth (Z.land m 0x0c) && truth (Z.land m 0x30) then reboot else cur2 i.

(** A function key.  The test that there is room is on %ecx, which holds what
    the interrupted code had in it. *)
Definition func (al ecx : Z) : M kernel unit :=
  show_stat buf kernel_stack ;;
  if al <? 0x3B then mret tt
  else
    let al := u8 (al - 0x3B) in
    let al' := if al <=? 9 then al else u8 (al - 18) in
    if negb (al <=? 9) && ((al' <? 10) || (11 <? al')) then mret tt
    else if s32 ecx <? 4 then mret tt
    else put_queue (nth (Z.to_nat al') func_table 0) 0.

(** An ordinary key: the map for the shift and right alt keys gives its
    character; then upper case by ctrl or caps lock, a control character by
    ctrl, bit 7 by the left alt key. *)
Definition map_char (mode al : Z) : Z :=
  nth (Z.to_nat al) (if truth (Z.land mode 0x20) then alt_map KBD
    else if truth (Z.land mode 0x03) then shift_map KBD else key_map KBD) 0.
Definition self_char (mode c : Z) : Z :=
  let c := if truth (Z.land mode 0x4c) && (97 <=? c) && (c <=? 125) then c - 32 else c in
  let c := if truth (Z.land mode 0x0c) && (64 <=? c) && (c <? 64 + 32) then c - 64 else c in
  if truth (Z.land mode 0x10) then Z.lor c 0x80 else c.
Definition do_self (al : Z) : M kernel unit :=
  m ← sget k_kbd kb_mode;
  let c := map_char m al in
  if c =? 0 then mret tt else put_queue (self_char m c) 0.
Definition minus (al : Z) : M kernel unit :=
  e ← sget k_kbd kb_e0;
  if e =? 1 then put_queue 47 0 else do_self al.

(** [call key_table(,%eax,4)] *)
Definition call_key (al ecx : Z) : M kernel unit :=
  match nth (Z.to_nat al) key_table none with
  | none => mret tt
  | do_self_ => do_self al
  | ctrl_ => ctrl | unctrl_ => unctrl | alt_ => alt | unalt_ => unalt
  | lshift_ => lshift | unlshift_ => unlshift | rshift_ => rshift | unrshift_ => unrshift
  | caps_ => caps | uncaps_ => uncaps | scroll_ => scroll | num_ => num
  | cursor_ => cursor al
  | func_ => func al ecx
  | minus_ => minus al
  end.
Definition keyboard_interrupt (ecx : Z) : M kernel unit :=
  al ← inb 0x60;
  (if al =? 0xe0 then sset k_kbd kb_e0 1
   else if al =? 0xe1 then sset k_kbd kb_e0 2
   else call_key al ecx ;; sset k_kbd kb_e0 0) ;;
  v ← inb 0x61;
  outb (Z.lor v 0x80) 0x61 ;;
  outb (Z.land (Z.lor v 0x80) 0x7F) 0x61 ;;
  outb 0x20 0x20 ;;
  do_tty_interrupt 0.
End with_world.
(** ** The bytes of a key in the input queue *)

(** The bytes [put_queue] takes from %ebx:%eax: the low one, and the others as
    long as %eax is not zero. *)
Fixpoint reg_bytes (n : nat) (v : Z) : list Z :=
  match n with
  | O => []
  | S n => v mod 256 :: (if (v / 256) mod 2 ^ 32 =? 0 then [] else reg_bytes n (v / 256))
  end.
(** The characters enter the queue when there is room for all of them. *)
Definition offer (q : tty_queue) (bs : list Z) : list Z :=
  queue_chars q ++ (if Z.of_nat (length bs) <=? LEFT q then s8 <$> bs else []).
Definition at_head (ecx : Z) (q : tty_queue) : tty_queue := set_field q_head (fun _ => ecx) q.
(** The head moves on to [ecx] later: [q'] is as [q], and with the head there it
    has the characters [l] more. *)
Record filling (q : tty_queue) (ecx : Z) (l : list Z) (q' : tty_queue) : Prop := {
  fill_kept : q_head q' = q_head q /\ q_tail q' = q_tail q /\ q_data q' = q_data q /\ q_proc_list q' = q_proc_list q;
  fill_ok : queue_ok q' /\ queue_ok (at_head ecx q');
  fill_chars : queue_chars (at_head ecx q') = queue_chars q ++ (s8 <$> l) }.

Lemma shifted_registers eax ebx : 0 <= eax < 2 ^ 32 -> 0 <= ebx ->
  Z.lor (Z.shiftr eax 8) (u32 (Z.shiftl ebx 24)) = ((eax + 2 ^ 32 * ebx) / 256) mod 2 ^ 32 /\
  Z.shiftr ebx 8 = (eax + 2 ^ 32 * ebx) / 256 / 2 ^ 32.
Proof.
  intros Ha Hb. rewrite Z.shiftr_div_pow2, Z.shiftl_mul_pow2, Z.shiftr_div_pow2 by lia.
  assert (E : u32 (ebx * 2 ^ 24) = (ebx mod 2 ^ 8) * 2 ^ 24).
  { unfold u32. change (2 ^ 32) with (2 ^ 8 * 2 ^ 24). by rewrite Z.mul_mod_distr_r by done. }
  rewrite E. assert (Hlo : 0 <= eax / 2 ^ 8 < 2 ^ 24) by (split; [apply Z.div_pos; lia|apply Z.div_lt_upper_bound; lia]).
  pose proof (Z.mod_pos_bound ebx (2 ^ 8) ltac:(lia)).
  assert (Hland : Z.land (eax / 2 ^ 8) (ebx mod 2 ^ 8 * 2 ^ 24) = 0).
  { apply Z.bits_inj'. intros n Hn. rewrite Z.land_spec, Z.bits_0. apply andb_false_iff. destruct (Z.ltb_spec n 24).
    - right. apply Z.mul_pow2_bits_low. lia.
    - left. rewrite <- (Z.mod_small (eax / 2 ^ 8) (2 ^ 24)) by lia. apply Z.mod_pow2_bits_high. lia. }
  rewrite <- (Z.lxor_lor _ _ Hland), <- (Z.add_nocarry_lxor _ _ Hland).
  replace (eax + 2 ^ 32 * ebx) with (eax + (2 ^ 24 * ebx) * 256) by lia. rewrite Z_div_plus_full by lia.
  change (2 ^ 8) with 256 in *. split; Z.to_euclidean_division_equations; lia.
Qed.
Lemma head_slot x q : queue_ok q -> let q' := set_field q_buf (fun l => <[Z.to_nat (q_head q) := x]> l) q in
  queue_ok q' /\ queue_chars q' = queue_chars q.
Proof.
  intros [Hh Ht Hb] q'. split; [split; cbn; [done|done|by rewrite length_insert]|].
  unfold queue_chars. change (CHARS q') with (CHARS q). apply list_fmap_ext. intros n k Hk. apply lookup_seqZ in Hk as [-> Hk].
  unfold queue_char. cbn. rewrite list_lookup_insert_ne; [done|].
  intros He. apply ring_inj in He; [|done|apply Z.mod_pos_bound; reflexivity].
  revert He Hk. unfold CHARS. rewrite land_ring. unfold TTY_BUF_SIZE in *. Z.to_euclidean_division_equations. lia.
Qed.
Lemma inc_full q : queue_ok q -> (INC (q_head q) =? q_tail q) = FULL q.
Proof.
  intros [Hh Ht _]. unfold INC, FULL, LEFT. rewrite !land_ring. unfold TTY_BUF_SIZE in *. apply eq_true_iff_eq.
  rewrite Z.eqb_eq, negb_true_iff, truth_false. Z.to_euclidean_division_equations. lia.
Qed.
Lemma queue_room q : queue_ok q -> LEFT q = 1023 - Z.of_nat (length (queue_chars q)).
Proof. intros Hq. rewrite queue_length. by apply LEFT_CHARS. Qed.

Section put.
Context (q : tty_queue).
Lemma filling_start : queue_ok q -> filling q (q_head q) [] q.
Proof.
  intros Hq. replace (at_head (q_head q) q) with q by (by destruct q).
  split; [done|by replace (at_head (q_head q) q) with q by (by destruct q)|].
  replace (at_head (q_head q) q) with q by (by destruct q). by rewrite app_nil_r.
Qed.
Lemma filling_room ecx l q' : queue_ok q -> filling q ecx l q' -> LEFT (at_head ecx q') = LEFT q - Z.of_nat (length l).
Proof. intros Hq [_ [_ Hok] Hc]. rewrite !queue_room, Hc, length_app, length_fmap by done. lia. Qed.
Lemma filling_put ecx l q' c : filling q ecx l q' -> FULL (at_head ecx q') = false ->
  filling q (INC ecx) (l ++ [c]) (set_field q_buf (fun b => <[Z.to_nat ecx := u8 c]> b) q').
Proof.
  intros [Hk [Hok' Hok] Hc] Hf. destruct (queue_put c _ Hok Hf) as [Hok2 Hc2].
  assert (E : at_head (INC ecx) (set_field q_buf (fun b => <[Z.to_nat ecx := u8 c]> b) q') = putch c (at_head ecx q')) by (by destruct q').
  split.
  - by destruct q'.
  - rewrite E. split; [|done]. destruct Hok' as [Hh Ht Hb]. split; cbn; [done|done|by rewrite length_insert].
  - by rewrite E, Hc2, Hc, fmap_app, <- app_assoc.
Qed.
Lemma filling_slot ecx l q' x : filling q ecx l q' ->
  filling q ecx l (set_field q_buf (fun b => <[Z.to_nat ecx := x]> b) q').
Proof.
  intros [Hk [Hok' Hok] Hc]. destruct (head_slot x _ Hok) as [Hok2 Hc2].
  split; [by destruct q'| |by rewrite <- Hc, <- Hc2].
  split; [|exact Hok2]. destruct Hok' as [Hh Ht Hb]. split; cbn; [done|done|by rewrite length_insert].
Qed.
(** What was written is not in the queue as long as the head stays. *)
Lemma filling_chars ecx l q' : filling q ecx l q' -> queue_chars q' = queue_chars q.
Proof.
  intros [(Hh & Ht & _ & _) _ Hc]. pose proof (CHARS_bounds q). assert (E : CHARS q' = CHARS q) by (unfold CHARS; congruence).
  assert (HL : CHARS (at_head ecx q') = CHARS q + Z.of_nat (length l)).
  { rewrite <- !queue_length, Hc, length_app, length_fmap. lia. }
  unfold queue_chars in Hc at 1. rewrite HL, seqZ_app, fmap_app in Hc by lia.
  apply app_inj_1 in Hc as [Hc _].
  - unfold queue_chars at 1. by rewrite E.
  - rewrite length_fmap, length_seqZ. pose proof (queue_length q). lia.
Qed.
End put.
Definition with_read_q (T : tty_struct) (q : tty_queue) (s : kernel) : kernel :=
  set_field k_tty (fun l => <[0%nat := set_field tty_read_q (fun _ => q) T]> l) s.

(** The task that waits for the queue can run. *)
Definition woken (q : tty_queue) (s : kernel) : kernel :=
  match q_proc_list q with
  | Some p => match task_at s p with Some t => put_task p (set_field t_state (fun _ => 0) t) s | None => s end
  | None => s
  end.
(** [put_queue] has offered the bytes [bs] to the input queue of [T], which is
    [q'] now. *)
Definition offered (T : tty_struct) (bs : list Z) (q' : tty_queue) (s : kernel) : kernel :=
  if Z.of_nat (length bs) <=? LEFT (tty_read_q T) then woken (tty_read_q T) (with_read_q T q' s) else with_read_q T q' s.

Section put_queue.
Context (T : tty_struct) (s : kernel) (HT : k_tty s !! 0%nat = Some T).
Let q := tty_read_q T.
Lemma upd_read_q q' g : upd 0%nat tty_read_q g (with_read_q T q' s) = Ok tt (with_read_q T (g q') s).
Proof.
  unfold upd, updr. cbn [tab tty_table_inst]. unfold with_read_q. cbn. rewrite list_lookup_insert_eq by (by eapply lookup_lt_Some).
  unfold set_field, set_k_tty. cbn. rewrite list_insert_insert_eq. by destruct T.
Qed.
Lemma get_read_q q' : getf 0%nat tty_read_q (with_read_q T q' s) = Ok q' (with_read_q T q' s).
Proof. unfold getf. cbn [tab tty_table_inst]. cbn. rewrite list_lookup_insert_eq by (by eapply lookup_lt_Some). by destruct T. Qed.
Lemma full_left q1 : queue_ok q1 -> FULL q1 = (LEFT q1 =? 0).
Proof. intros Hq. unfold FULL. by destruct (Z.eqb_spec (LEFT q1) 0) as [->|Hn%Z.eqb_neq]; [|unfold truth; rewrite Hn]. Qed.
Lemma put_turn_run ecx v q' l : 0 <= v -> filling q ecx l q' ->
  put_turn (ecx, v mod 2 ^ 32, v / 2 ^ 32) (with_read_q T q' s) =
  Ok (if FULL (at_head ecx q') then inr None
      else if (v / 256) mod 2 ^ 32 =? 0 then inr (Some (INC ecx)) else inl (INC ecx, (v / 256) mod 2 ^ 32, v / 256 / 2 ^ 32))
    (with_read_q T (set_field q_buf (fun b => <[Z.to_nat ecx := u8 (v mod 256)]> b) q') s).
Proof.
  intros Hv [_ [_ Hok] _]. unfold put_turn. erewrite bind_Ok by apply upd_read_q. erewrite bind_Ok by apply get_read_q.
  replace (u8 (v mod 2 ^ 32)) with (u8 (v mod 256)).
  2: { unfold u8. change (2 ^ 8) with 256. rewrite Zmod_mod. change (2 ^ 32) with (256 * 2 ^ 24). by rewrite Z.rem_mul_r, Z.mul_comm, Z_mod_plus_full, Zmod_mod by done. }
  rewrite <- (inc_full (at_head ecx q') Hok).
  change (q_tail (set_field q_buf _ q')) with (q_tail (at_head ecx q')). change (q_head (at_head ecx q')) with ecx.
  destruct (INC ecx =? q_tail (at_head ecx q')); [reflexivity|].
  destruct (shifted_registers (v mod 2 ^ 32) (v / 2 ^ 32)) as [-> ->]; [by apply Z.mod_pos_bound|by apply Z.div_pos|].
  rewrite Z.add_comm, <- Z.div_mod by done. by destruct (_ =? 0).
Qed.
Lemma put_loop (Hq : queue_ok q) n v ecx l q' : 0 <= v < 256 ^ Z.of_nat n -> (0 < n)%nat -> filling q ecx l q' ->
  exists r q'', loop n put_turn (ecx, v mod 2 ^ 32, v / 2 ^ 32) (with_read_q T q' s) = Ok r (with_read_q T q'' s) /\
    if Z.of_nat (length l) + Z.of_nat (length (reg_bytes n v)) <=? LEFT q
    then exists ecx', r = Some ecx' /\ filling q ecx' (l ++ reg_bytes n v) q''
    else r = None /\ exists ecx' l', filling q ecx' l' q''.
Proof.
  revert v ecx l q'. induction n as [|n IH]; intros v ecx l q' Hv Hn Hf; [lia|]. clear Hn. rewrite loop_S.
  pose proof (filling_room q _ _ _ Hq Hf) as Hroom. destruct (fill_ok _ _ _ _ Hf) as [_ Hok].
  rewrite (bind_Ok _ _ _ _ _ (put_turn_run _ _ _ _ (proj1 Hv) Hf)), full_left, Hroom by done. cbn [reg_bytes length].
  destruct (Z.eqb_spec (LEFT q - Z.of_nat (length l)) 0) as [E0|E0].
  { do 2 eexists. split; [reflexivity|]. rewrite (proj2 (Z.leb_gt _ _)) by lia. split; [done|]. eauto using filling_slot. }
  pose proof (filling_put q _ _ _ (v mod 256) Hf) as Hf'. rewrite full_left, Hroom, (proj2 (Z.eqb_neq _ _) E0) in Hf' by done.
  specialize (Hf' eq_refl). pose proof (queue_room _ Hok).
  destruct (Z.eqb_spec ((v / 256) mod 2 ^ 32) 0) as [E|E].
  - do 2 eexists. split; [reflexivity|]. cbn [length]. assert (0 <= LEFT (at_head ecx q')) by (unfold LEFT; rewrite land_ring; by apply Z.mod_pos_bound).
    rewrite (proj2 (Z.leb_le _ _)) by lia. eauto.
  - assert (Hv' : 0 <= v / 256 < 256 ^ Z.of_nat n).
    { split; [apply Z.div_pos; lia|apply Z.div_lt_upper_bound; [lia|]]. rewrite <- Z.pow_succ_r, <- Nat2Z.inj_succ by lia. lia. }
    assert (n <> 0%nat). { intros ->. cbn in Hv'. by replace (v / 256) with 0 in E by lia. }
    destruct (IH (v / 256) (INC ecx) (l ++ [v mod 256]) _ Hv' ltac:(lia) Hf') as (r & q'' & Erun & Hr).
    exists r, q''. split; [exact Erun|]. rewrite <- app_assoc, length_app in Hr. cbn [length app] in Hr.
    replace (Z.of_nat (length l) + Z.of_nat (S (length (reg_bytes n (v / 256))))) with
      (Z.of_nat (length l + 1) + Z.of_nat (length (reg_bytes n (v / 256)))) by lia. exact Hr.
Qed.
Lemma put_queue_run eax ebx : queue_ok q -> 0 <= eax < 2 ^ 32 -> 0 <= ebx < 2 ^ 32 ->
  (forall p, q_proc_list q = Some p -> is_Some (task_at s p)) ->
  let bs := reg_bytes 8 (eax + 2 ^ 32 * ebx) in
  exists q', put_queue eax ebx s = Ok tt (offered T bs q' s) /\ queue_ok q' /\ queue_chars q' = offer q bs.
Proof.
  intros Hq Ha Hb Hp bs.
  assert (Es : with_read_q T q s = s).
  { unfold with_read_q. replace (set_field tty_read_q (fun _ => q) T) with T by (by destruct T). destruct s. unfold set_field, set_k_tty. cbn in *.
    by rewrite list_insert_id. }
  destruct (put_loop Hq 8 (eax + 2 ^ 32 * ebx) (q_head q) [] q) as (r & q'' & Erun & Hr); [lia|lia|by apply filling_start|].
  rewrite Es in Erun. replace ((eax + 2 ^ 32 * ebx) mod 2 ^ 32) with eax in Erun by (rewrite Z.mul_comm, Z_mod_plus_full, Z.mod_small; lia).
  replace ((eax + 2 ^ 32 * ebx) / 2 ^ 32) with ebx in Erun by (rewrite Z.mul_comm, Z_div_plus_full, Z.div_small; lia).
  fold bs in Hr. cbn [length app] in Hr. change (Z.of_nat 0 + Z.of_nat (length bs)) with (Z.of_nat (length bs)) in Hr.
  unfold put_queue. erewrite bind_Ok. 2: { rewrite <- Es at 1. rewrite get_read_q, Es. reflexivity. }
  rewrite (bind_Ok _ _ _ _ _ Erun). unfold offered, offer. fold q. destruct (_ <=? _) eqn:Efit.
  - destruct Hr as (ecx' & -> & Hf). destruct (fill_kept _ _ _ _ Hf) as (_ & _ & _ & Hpl). destruct (fill_ok _ _ _ _ Hf) as [_ Hok].
    exists (at_head ecx' q''). split; [|exact (conj Hok (fill_chars _ _ _ _ Hf))].
    erewrite bind_Ok by apply upd_read_q. erewrite bind_Ok by apply get_read_q. 
    change (q_proc_list (set_field q_head (fun _ => ecx') q'')) with (q_proc_list q''). unfold woken. rewrite Hpl.
    destruct (q_proc_list q) as [p|]; [|reflexivity]. destruct (Hp p eq_refl) as [t Ht].
    unfold tst, tupd. change (task_at (with_read_q T ?x s) p) with (task_at s p). rewrite Ht. reflexivity.
  - destruct Hr as (-> & ecx' & l' & Hf). exists q''. destruct (fill_ok _ _ _ _ Hf) as [Hok _]. rewrite app_nil_r.
    split; [reflexivity|]. exact (conj Hok (filling_chars _ _ _ _ Hf)).
Qed.
End put_queue.
(** ** What a key does *)

(** [mode], [leds] and [e0] after scan code [al]. *)
Definition kbd_next (k : kbd_state) (al : Z) : kbd_state :=
  let '(Kbd mode leds e0) := k in
  if al =? 0xe0 then Kbd mode leds 1
  else if al =? 0xe1 then Kbd mode leds 2
  else
    let left := e0 =? 0 in
    match nth (Z.to_nat al) key_table none with
    | ctrl_ => Kbd (Z.lor mode (if left then 0x04 else 0x08)) leds 0
    | unctrl_ => Kbd (Z.land mode (if left then 0xfb else 0xf7)) leds 0
    | alt_ => Kbd (Z.lor mode (if left then 0x10 else 0x20)) leds 0
    | unalt_ => Kbd (Z.land mode (if left then 0xef else 0xdf)) leds 0
    | lshift_ => Kbd (Z.lor mode 0x01) leds 0
    | unlshift_ => Kbd (Z.land mode 0xfe) leds 0
    | rshift_ => Kbd (Z.lor mode 0x02) leds 0
    | unrshift_ => Kbd (Z.land mode 0xfd) leds 0
    | caps_ => if truth (Z.land mode 0x80) then Kbd mode leds 0 else Kbd (Z.lor (Z.lxor mode 0x40) 0x80) (Z.lxor leds 4) 0
    | uncaps_ => Kbd (Z.land mode 0x7f) leds 0
    | scroll_ => Kbd mode (Z.lxor leds 1) 0
    | num_ => Kbd mode (Z.lxor leds 2) 0
    | _ => Kbd mode leds 0
    end.
Section typed.
Variable KBD : kbd_type.
(** The characters of a key that is not a function key. *)
Definition typed (k : kbd_state) (al : Z) : list Z :=
  let self := let c := map_char KBD (kb_mode k) al in if c =? 0 then [] else [self_char (kb_mode k) c] in
  match nth (Z.to_nat al) key_table none with
  | do_self_ => self
  | minus_ => if kb_e0 k =? 1 then [47] else self
  | cursor_ =>
      let i := Z.to_nat (al - 0x47) in
      if (kb_e0 k =? 1) || negb (truth (Z.land (kb_leds k) 0x02)) || truth (Z.land (kb_mode k) 0x03)
      then let c := nth i cur_table 0 in 27 :: 91 :: c :: (if 57 <? c then [] else [126])
      else [nth i (num_table KBD) 0]
  | _ => []
  end.
End typed.
(** Ctrl, alt and delete. *)
Definition reboots (k : kbd_state) (al : Z) : bool :=
  (al =? 0x53) && truth (Z.land (kb_mode k) 0x0c) && truth (Z.land (kb_mode k) 0x30).
Definition function_key (al : Z) : Prop := nth (Z.to_nat al) key_table none = func_.
(** The characters [bs] are offered to the console, the keyboard is in state [k'],
    and nothing else the terminals need has changed. *)
Record pressed (T : tty_struct) (bs : list Z) (k' : kbd_state) (s s' : kernel) : Prop := {
  pr_tty : exists q', k_tty s' = <[0%nat := set_field tty_read_q (fun _ => q') T]> (k_tty s) /\
    queue_ok q' /\ queue_chars q' = offer (tty_read_q T) bs;
  pr_kbd : k_kbd s' = k';
  pr_tasks : forall p, is_Some (task_at s p) -> is_Some (task_at s' p);
  pr_con : k_con s' = k_con s }.

Lemma code_255 (P : Z -> bool) : forallb P (seqZ 0 256) = true -> forall al, 0 <= al < 256 -> P al = true.
Proof. rewrite forallb_forall. intros HP al Hal. apply HP, list_elem_of_In, elem_of_seqZ. lia. Qed.
Lemma offered_pressed T bs q' s : queue_ok q' -> queue_chars q' = offer (tty_read_q T) bs ->
  pressed T bs (k_kbd s) s (offered T bs q' s).
Proof.
  intros Hok Hc. unfold offered, woken. destruct (_ <=? _); [destruct (q_proc_list _) as [p|]|];
    [change (task_at (with_read_q T q' s) p) with (task_at s p); destruct (task_at s p) as [t|] eqn:Et| |]; (split; [by exists q'|done| |done]); try done.
  intros p' Hp'. destruct (decide (p' = p)) as [->|Hne].
  - eexists. by eapply (task_at_put (with_read_q T q' s)).
  - by rewrite task_at_put_ne.
Qed.
Lemma byte_alone c : 0 <= c < 256 -> reg_bytes 8 (c + 2 ^ 32 * 0) = [c].
Proof. intros Hc. rewrite Z.mul_0_r, Z.add_0_r. cbn. rewrite Z.mod_small, Z.div_small by lia. done. Qed.
Lemma self_char_byte mode c : 0 <= c < 256 -> 0 <= self_char mode c < 256.
Proof.
  intros Hc. unfold self_char. cbv zeta.
  set (c1 := if truth (Z.land mode 0x4c) && _ && _ then c - 32 else c). assert (0 <= c1 < 256) by (unfold c1; case_match; kbool; lia).
  set (c2 := if truth (Z.land mode 0x0c) && _ && _ then c1 - 64 else c1). assert (H2 : 0 <= c2 < 256) by (unfold c2; case_match; kbool; lia).
  case_match; [|done]. apply (code_255 (fun c => (0 <=? Z.lor c 128) && (Z.lor c 128 <? 256)) ltac:(by vm_compute)) in H2. kbool. lia.
Qed.
Lemma map_char_byte KBD mode al : 0 <= map_char KBD mode al < 256.
Proof.
  unfold map_char. assert (Hnth : forall l, forallb (fun c => (0 <=? c) && (c <? 256)) l = true -> 0 <= nth (Z.to_nat al) l 0 < 256).
  { intros l Hl. rewrite forallb_forall in Hl. destruct (nth_in_or_default (Z.to_nat al) l 0) as [Hi| ->]; [|lia]. apply Hl in Hi. kbool. lia. }
  apply Hnth. destruct KBD; repeat case_match; by vm_compute.
Qed.
Section keys.
Context `{World} (KBD : kbd_type) (buf : Z) (kernel_stack : nat -> list Z).
(** The keyboard controller takes what is sent to it. *)
Context (Hpat : (0 < patience)%nat) (Hready : forall s, Z.land (u8 (port_in s 0x64)) 0x02 = 0).
Context (T : tty_struct) (s : kernel) (HT : k_tty s !! 0%nat = Some T) (Hq : queue_ok (tty_read_q T))
  (Hwait : forall p, q_proc_list (tty_read_q T) = Some p -> is_Some (task_at s p)).

Lemma pressed_quiet s' : k_tty s' = k_tty s -> k_task s' = k_task s -> k_con s' = k_con s -> pressed T [] (k_kbd s') s s'.
Proof.
  clear Hwait. intros E1 E2 E3. split; [|done|unfold task_at; by rewrite E2|done].
  exists (tty_read_q T). split_and!; [|done|].
  - rewrite E1, list_insert_id; [done|]. rewrite HT. by destruct T.
  - unfold offer. case_match; by rewrite app_nil_r.
Qed.
Lemma put_word eax bs : 0 <= eax < 2 ^ 32 -> reg_bytes 8 (eax + 2 ^ 32 * 0) = bs ->
  exists s', put_queue eax 0 s = Ok tt s' /\ pressed T bs (k_kbd s) s s'.
Proof.
  intros He <-. destruct (put_queue_run T s HT eax 0 Hq He ltac:(lia) Hwait) as (q' & E & Hok & Hc).
  eexists. split; [exact E|]. by apply offered_pressed.
Qed.
Lemma put_byte c : 0 <= c < 256 -> exists s', put_queue c 0 s = Ok tt s' /\ pressed T [c] (k_kbd s) s s'.
Proof. intros Hc. apply put_word; [lia|by apply byte_alone]. Qed.
Lemma self_run al : exists s', do_self KBD al s = Ok tt s' /\
  pressed T (let c := map_char KBD (kb_mode (k_kbd s)) al in if c =? 0 then [] else [self_char (kb_mode (k_kbd s)) c]) (k_kbd s) s s'.
Proof.
  unfold do_self. cbv zeta. change (sget k_kbd kb_mode) with (gets (fun s => kb_mode (k_kbd s))). 
  set (c := map_char KBD (kb_mode (k_kbd s)) al). assert (Hc : 0 <= c < 256) by apply map_char_byte.
  erewrite (bind_Ok (gets _)) by reflexivity. fold c. destruct (c =? 0).
  - exists s. split; [done|by apply pressed_quiet].
  - apply put_byte, self_char_byte, Hc.
Qed.
Lemma kb_wait_run s1 : exists v, kb_wait s1 = Ok tt (set_field k_io (fun io => io ++ [PortIn v 0x64]) s1).
Proof.
  eexists. unfold kb_wait, while. destruct patience as [|n]; [lia|]. rewrite loop_S.
  erewrite bind_Ok. 2: { erewrite bind_Ok by (erewrite bind_Ok by reflexivity; rewrite Hready; reflexivity). reflexivity. }
  reflexivity.
Qed.
Lemma set_leds_run s1 : exists l, set_leds s1 = Ok tt (set_field k_io (fun io => io ++ l) s1).
Proof.
  unfold set_leds. destruct (kb_wait_run s1) as [v1 E1]. rewrite (bind_Ok _ _ _ _ _ E1). erewrite bind_Ok by reflexivity.
  match goal with |- context [kb_wait ≫= _] => idtac end.
  match goal with |- exists l, (kb_wait ≫= _) ?x = _ => destruct (kb_wait_run x) as [v2 E2] end.
  rewrite (bind_Ok _ _ _ _ _ E2). erewrite bind_Ok by reflexivity.
  eexists. unfold outb, modify, set_field, set_k_io. cbn. rewrite <- !app_assoc. reflexivity.
Qed.
Definition cur_word (i : nat) : Z :=
  let al := nth i cur_table 0 in Z.lor (Z.shiftl (al + 256 * (if 57 <? al then 0 else 126)) 16) 0x5b1b.
Lemma cursor_words i : 0 <= i < 13 -> let c := nth (Z.to_nat i) cur_table 0 in
  0 <= cur_word (Z.to_nat i) < 2 ^ 32 /\ reg_bytes 8 (cur_word (Z.to_nat i) + 2 ^ 32 * 0) = 27 :: 91 :: c :: (if 57 <? c then [] else [126]) /\
  0 <= nth (Z.to_nat i) (num_table KBD) 0 < 256.
Proof.
  intros Hi. rewrite <- (Z2Nat.id i) in Hi by lia. cbv zeta. revert Hi. generalize (Z.to_nat i). clear. intros n Hn.
  do 13 (destruct n as [|n]; [by destruct KBD; vm_compute|]). lia.
Qed.
Lemma cursor_run al : nth (Z.to_nat al) key_table none = cursor_ -> 0 <= al < 256 -> reboots (k_kbd s) al = false ->
  exists s', cursor KBD al s = Ok tt s' /\ pressed T (typed KBD (k_kbd s) al) (k_kbd s) s s'.
Proof.
  intros Hk Hal Hr. unfold typed. rewrite Hk.
  assert (Hi : 0 <= al - 0x47 < 13).
  { pose proof (code_255 (fun al => match nth (Z.to_nat al) key_table none with cursor_ => (0x47 <=? al) && (al <? 0x47 + 13) | _ => true end)
      ltac:(by vm_compute) al Hal) as H1. cbv beta in H1. rewrite Hk in H1. kbool. lia. }
  destruct (cursor_words _ Hi) as (Hw & Hb & Hn). cbv zeta in *. unfold cursor. cbv zeta.
  rewrite (proj2 (Z.ltb_ge (al - 0x47) 0)), (proj2 (Z.ltb_ge 12 (al - 0x47))) by lia. cbn [orb].
  erewrite (bind_Ok (sget k_kbd kb_mode)) by reflexivity.
  replace (al - 0x47 =? 12) with (al =? 0x53) by (apply eq_true_iff_eq; rewrite !Z.eqb_eq; lia).
  change ((al =? 0x53) && truth (Z.land (kb_mode (k_kbd s)) 0x0c) && truth (Z.land (kb_mode (k_kbd s)) 0x30)) with (reboots (k_kbd s) al).
  rewrite Hr. unfold cur2. do 3 (erewrite (bind_Ok (sget k_kbd _)) by reflexivity).
  match goal with |- context [if ?b then cur_key _ else _] => destruct b end; [|by apply put_byte]. by apply (put_word (cur_word (Z.to_nat (al - 0x47)))).
Qed.
(** A change of [mode]. *)
Lemma mode_key m mode' : m s = Ok tt (set_field k_kbd (set_field kb_mode (fun _ => mode')) s) ->
  exists s', m s = Ok tt s' /\ pressed T [] (k_kbd s') s s' /\ set_field kb_e0 (fun _ => 0) (k_kbd s') = Kbd mode' (kb_leds (k_kbd s)) 0.
Proof. intros E. eexists. split; [exact E|]. by split; [apply pressed_quiet|]. Qed.
Lemma mode_or_key a : exists s', mode_or a s = Ok tt s' /\ pressed T [] (k_kbd s') s s' /\
  set_field kb_e0 (fun _ => 0) (k_kbd s') = Kbd (Z.lor (kb_mode (k_kbd s)) a) (kb_leds (k_kbd s)) 0.
Proof. by apply mode_key. Qed.
Lemma mode_and_key a : exists s', mode_and a s = Ok tt s' /\ pressed T [] (k_kbd s') s s' /\
  set_field kb_e0 (fun _ => 0) (k_kbd s') = Kbd (Z.land (kb_mode (k_kbd s)) a) (kb_leds (k_kbd s)) 0.
Proof. by apply mode_key. Qed.
Lemma mod_bit_bind {A} a (k : Z -> M kernel A) : (mod_bit a ≫= k) s = k (if kb_e0 (k_kbd s) =? 0 then a else u8 (a + a)) s.
Proof. reflexivity. Qed.
Lemma call_key_run al ecx : 0 <= al < 256 -> al <> 0xe0 -> al <> 0xe1 -> ~ function_key al -> reboots (k_kbd s) al = false ->
  exists s', call_key KBD buf kernel_stack al ecx s = Ok tt s' /\ pressed T (typed KBD (k_kbd s) al) (k_kbd s') s s' /\
    set_field kb_e0 (fun _ => 0) (k_kbd s') = kbd_next (k_kbd s) al.
Proof.
  intros Hal H0 H1 Hf Hr. unfold kbd_next. destruct (k_kbd s) as [mode leds e0] eqn:Ek. cbn [kb_mode kb_leds kb_e0] in *.
  rewrite (proj2 (Z.eqb_neq _ _) H0), (proj2 (Z.eqb_neq _ _) H1). unfold call_key.
  assert (Hsame : forall m bs, (exists s', m = Ok tt s' /\ pressed T bs (k_kbd s) s s') ->
    exists s', m = Ok tt s' /\ pressed T bs (k_kbd s') s s' /\ set_field kb_e0 (fun _ => 0) (k_kbd s') = Kbd mode leds 0).
  { intros m bs (s' & E & Hp). exists s'. assert (Ek' := pr_kbd _ _ _ _ _ Hp). by rewrite Ek', Ek in *. }
  pose proof mode_or_key as Hor. pose proof mode_and_key as Hand. pose proof (@mod_bit_bind) as Hbit.
  pose proof (self_run al) as Hself. rewrite <- Ek in Hr. pose proof (fun E => cursor_run al E Hal Hr) as Hcur.
  unfold typed in *. unfold function_key in Hf. rewrite Ek in *. cbn [kb_mode kb_leds kb_e0] in *.
  destruct (nth (Z.to_nat al) key_table none) eqn:Ekey; try done.
  - apply Hsame. exists s. split; [done|]. pose proof (pressed_quiet s eq_refl eq_refl eq_refl) as Hp. by rewrite Ek in Hp.
  - by apply Hsame.
  - unfold ctrl. rewrite Hbit. destruct (e0 =? 0); apply Hor.
  - unfold unctrl. rewrite Hbit. destruct (e0 =? 0); apply Hand.
  - unfold alt. rewrite Hbit. destruct (e0 =? 0); apply Hor.
  - unfold unalt. rewrite Hbit. destruct (e0 =? 0); apply Hand.
  - apply Hor.
  - apply Hand.
  - apply Hor.
  - apply Hand.
  - unfold caps. erewrite (bind_Ok (sget k_kbd kb_mode)) by reflexivity. rewrite Ek. cbn [kb_mode].
    destruct (truth (Z.land mode 0x80)).
    + exists s. split; [done|]. split; [by apply pressed_quiet|by rewrite Ek].
    + do 4 (erewrite bind_Ok by reflexivity).
      match goal with |- exists s', set_leds ?x = _ /\ _ => destruct (set_leds_run x) as [l E] end.
      eexists. split; [exact E|]. split; [by apply pressed_quiet|]. cbn. by rewrite Ek.
  - apply Hand.
  - unfold scroll. erewrite bind_Ok by reflexivity. match goal with |- exists s', set_leds ?x = _ /\ _ => destruct (set_leds_run x) as [l E] end.
    eexists. split; [exact E|]. split; [by apply pressed_quiet|]. cbn. by rewrite Ek.
  - unfold num. erewrite bind_Ok by reflexivity. match goal with |- exists s', set_leds ?x = _ /\ _ => destruct (set_leds_run x) as [l E] end.
    eexists. split; [exact E|]. split; [by apply pressed_quiet|]. cbn. by rewrite Ek.
  - by apply Hsame, Hcur.
  - unfold minus. erewrite (bind_Ok (sget k_kbd kb_e0)) by reflexivity. rewrite Ek. cbn [kb_e0]. apply Hsame. destruct (e0 =? 1); [|exact Hself].
    pose proof (put_byte 47 ltac:(lia)) as Hp. by rewrite Ek in Hp.
Qed.
End keys.
(** ** What leaves the keyboard alone *)

Section untouched.
Context `{World} (k : kbd_state).
Let I (s : kernel) : Prop := k_kbd s = k.
Lemma untouched_tupd {A} p (f : task_struct -> A) `{!Setter f} g : keeps I (tupd p f g).
Proof. intros s Hs. unfold tupd. by destruct (task_at s p). Qed.
#[local] Hint Resolve untouched_tupd : untouched.
Lemma untouched_con_write_with cook t : keeps I (cook t) -> keeps I (con_write_with cook t).
Proof. intros Hc. unfold con_write_with. untouched. Qed.
Lemma untouched_tmap g p : keeps I (tmap g p).
Proof. intros s Hs. exact Hs. Qed.
#[local] Hint Resolve untouched_tmap : untouched.
Lemma untouched_wake_up t (q : tty_struct -> tty_queue) `{!Setter q} : keeps I (wake_up (Some (proc_list_q t q))).
Proof. unfold wake_up. cbn [proc_list_q wq_get wq_set]. untouched. Qed.
#[local] Hint Resolve untouched_wake_up : untouched.
Lemma untouched_cooked_with w t : (forall t, keeps I (w t)) -> keeps I (copy_to_cooked_with w t).
Proof. intros Hw. unfold copy_to_cooked_with. untouched. Qed.
Lemma untouched_con_write_at n t : keeps I (con_write_at n t).
Proof.
  revert t. induction n as [|n IH]; intros t; cbn [con_write_at]; [apply keeps_out_of_fuel|].
  by apply untouched_con_write_with, untouched_cooked_with.
Qed.
Lemma untouched_tty_interrupt t : keeps I (do_tty_interrupt t).
Proof.
  apply untouched_cooked_with. intros t'. unfold tty_write_fn_call. apply keeps_bind; [apply keeps_getf|]. intros w.
  destruct (w =? 0)%nat; [apply untouched_con_write_at|]. unfold rs_write. untouched.
Qed.
Lemma untouched_put_queue eax ebx : keeps I (put_queue eax ebx).
Proof. unfold put_queue. untouched. Qed.
Lemma untouched_set_leds : keeps I set_leds.
Proof. unfold set_leds, kb_wait, outb, inb, in_port. untouched. Qed.
Lemma untouched_reboot : keeps I reboot.
Proof. unfold reboot, kb_wait, outb, inb, in_port. untouched. Qed.
#[local] Hint Resolve untouched_put_queue untouched_reboot : untouched.
Lemma untouched_do_self KBD al : keeps I (do_self KBD al).
Proof. unfold do_self. untouched. Qed.
Lemma untouched_cursor KBD al : keeps I (cursor KBD al).
Proof. unfold cursor, cur2, cur_key. untouched. Qed.
End untouched.
(** ** Whatever the rest of the kernel does meanwhile *)

Section next.
Context `{World} (KBD : kbd_type) (buf : Z) (kernel_stack : nat -> list Z).
(** [m] leaves the keyboard in state [k'] if it returns. *)
Definition to_kbd {A} (m : M kernel A) (k' : kbd_state) (s : kernel) : Prop := kept (fun _ => True) m (fun _ s' => k_kbd s' = k') s.

Lemma to_untouched {A} (m : M kernel A) s : keeps (fun s' => k_kbd s' = k_kbd s) m -> to_kbd m (k_kbd s) s.
Proof. intros Hm. specialize (Hm s eq_refl). unfold to_kbd, kept. by destruct (m s). Qed.
Lemma to_bind {A B} (m : M kernel A) (f : A -> M kernel B) k1 k' s : to_kbd m k1 s ->
  (forall a s', k_kbd s' = k1 -> to_kbd (f a) k' s') -> to_kbd (m ≫= f) k' s.
Proof. intros Hm Hf. apply kept_bind. eapply kept_mono; [exact Hm|]. intros a s' E. by apply Hf. Qed.
Lemma call_key_next al ecx s : al <> 0xe0 -> al <> 0xe1 -> ~ function_key al ->
  kept (fun _ => True) (call_key KBD buf kernel_stack al ecx) (fun _ s' => set_field kb_e0 (fun _ => 0) (k_kbd s') = kbd_next (k_kbd s) al) s.
Proof.
  intros H0 H1 Hf. unfold kbd_next. destruct (k_kbd s) as [mode leds e0] eqn:Ek.
  rewrite (proj2 (Z.eqb_neq _ _) H0), (proj2 (Z.eqb_neq _ _) H1). unfold call_key. unfold function_key in Hf.
  assert (Hsame : forall m : M kernel unit, (forall k, keeps (fun s => k_kbd s = k) m) ->
    kept (fun _ => True) m (fun _ s' => set_field kb_e0 (fun _ => 0) (k_kbd s') = Kbd mode leds 0) s).
  { intros m Hm. eapply kept_mono; [apply to_untouched, Hm|]. intros _ s' ->. by rewrite Ek. }
  assert (Hor : forall a, kept (fun _ => True) (mode_or a) (fun _ s' => set_field kb_e0 (fun _ => 0) (k_kbd s') = Kbd (Z.lor mode a) leds 0) s).
  { intros a. eapply kept_Ok; [reflexivity|]. cbn. by rewrite Ek. }
  assert (Hand : forall a, kept (fun _ => True) (mode_and a) (fun _ s' => set_field kb_e0 (fun _ => 0) (k_kbd s') = Kbd (Z.land mode a) leds 0) s).
  { intros a. eapply kept_Ok; [reflexivity|]. cbn. by rewrite Ek. }
  assert (Hbit : forall a (f : Z -> M kernel unit) Q, kept (fun _ => True) (f (if e0 =? 0 then a else u8 (a + a))) Q s ->
    kept (fun _ => True) (mod_bit a ≫= f) Q s).
  { intros a f Q HQ. apply (kept_bind_Ok _ _ _ _ _ (if kb_e0 (k_kbd s) =? 0 then a else u8 (a + a)) s); [reflexivity|]. by rewrite Ek. }
  assert (Hleds : forall (f : kbd_state -> kbd_state) s' Q, k_kbd s' = f (Kbd mode leds e0) -> Q (f (Kbd mode leds e0)) ->
    kept (fun _ => True) set_leds (fun _ s' => Q (k_kbd s')) s').
  { intros f s' Q E HQ. eapply kept_mono; [apply to_untouched, untouched_set_leds|]. intros u s2 E2. cbv beta in E2. rewrite E2, E. exact HQ. }
  destruct (nth (Z.to_nat al) key_table none) eqn:Ekey; try done.
  - apply Hsame. intros k. apply keeps_ret.
  - apply Hsame. intros k. apply untouched_do_self.
  - apply Hbit. destruct (e0 =? 0); apply Hor.
  - apply Hbit. destruct (e0 =? 0); apply Hand.
  - apply Hbit. destruct (e0 =? 0); apply Hor.
  - apply Hbit. destruct (e0 =? 0); apply Hand.
  - apply Hor.
  - apply Hand.
  - apply Hor.
  - apply Hand.
  - unfold caps. eapply kept_bind_Ok; [reflexivity|]. rewrite Ek. cbn [kb_mode]. destruct (truth _).
    + eapply kept_Ok; [reflexivity|]. by rewrite Ek.
    + do 4 (eapply kept_bind_Ok; [reflexivity|]).
      apply (Hleds (fun k => set_field kb_mode (fun _ => Z.lor (Z.lxor mode 64) 128) (set_field kb_leds (fun _ => Z.lxor leds 4) k)) _
        (fun k => set_field kb_e0 (fun _ => 0) k = _)); [cbn; by rewrite Ek|reflexivity].
  - apply Hand.
  - eapply kept_bind_Ok; [reflexivity|]. apply (Hleds (set_field kb_leds (fun _ => Z.lxor leds 1)) _ (fun k => set_field kb_e0 (fun _ => 0) k = _)); [cbn; by rewrite Ek|reflexivity].
  - eapply kept_bind_Ok; [reflexivity|]. apply (Hleds (set_field kb_leds (fun _ => Z.lxor leds 2)) _ (fun k => set_field kb_e0 (fun _ => 0) k = _)); [cbn; by rewrite Ek|reflexivity].
  - apply Hsame. intros k. apply untouched_cursor.
  - apply Hsame. intros k. unfold minus. apply keeps_bind; [apply keeps_gets|]. intros e. destruct (e =? 1); [apply untouched_put_queue|apply untouched_do_self].
Qed.
(** The interrupt as a whole: the keyboard follows [kbd_next]. *)
Lemma interrupt_next ecx s : let al := u8 (port_in s 0x60) in ~ function_key al ->
  kept (fun _ => True) (keyboard_interrupt KBD buf kernel_stack ecx) (fun _ s' => k_kbd s' = kbd_next (k_kbd s) al) s.
Proof.
  intros al Hf. eapply kept_bind_Ok; [reflexivity|]. fold al. set (s1 := set_field k_io _ s).
  assert (Hrest : forall k', keeps (fun s' => k_kbd s' = k') (v ← inb 0x61; outb (Z.lor v 0x80) 0x61 ;;
    outb (Z.land (Z.lor v 0x80) 0x7F) 0x61 ;; outb 0x20 0x20 ;; do_tty_interrupt 0)).
  { intros k'. unfold outb, inb, in_port. repeat first [apply untouched_tty_interrupt|untouched_step]. }
  apply kept_bind. eapply kept_mono with (Q := fun _ s' => k_kbd s' = kbd_next (k_kbd s) al).
  - destruct (Z.eqb_spec al 0xe0) as [->|H0]; [by unfold kbd_next; destruct (k_kbd s) eqn:Ek; eapply kept_Ok; [reflexivity|]; cbn; rewrite Ek|].
    destruct (Z.eqb_spec al 0xe1) as [->|H1]; [by unfold kbd_next; destruct (k_kbd s) eqn:Ek; eapply kept_Ok; [reflexivity|]; cbn; rewrite Ek|].
    apply kept_bind. eapply kept_mono; [apply (call_key_next al ecx s1 H0 H1 Hf)|].
    intros [] s2 E2. eapply kept_Ok; [reflexivity|exact E2].
  - intros [] s2 E2. eapply kept_mono; [apply (to_untouched _ _ (Hrest _))|]. intros u s3 E3. cbv beta in E3. by rewrite E3.
Qed.

(** Scan codes [codes] come in one after the other, none of a function key; in
    between the kernel does anything that leaves the keyboard's bytes alone. *)
Inductive interrupts : list Z -> kernel -> kernel -> Prop :=
| no_interrupt s s' : k_kbd s' = k_kbd s -> interrupts [] s s'
| next_interrupt codes s s1 ecx s2 s' : interrupts codes s s1 ->
    let al := u8 (port_in s1 0x60) in ~ function_key al ->
    keyboard_interrupt KBD buf kernel_stack ecx s1 = Ok tt s2 ->
    k_kbd s' = k_kbd s2 -> interrupts (codes ++ [al]) s s'.
Lemma interrupts_next codes s s' : interrupts codes s s' -> k_kbd s' = foldl kbd_next (k_kbd s) codes.
Proof.
  induction 1 as [s s' E|codes s s1 ecx s2 s' _ IH al Hf E Es]; [exact E|].
  rewrite foldl_app. cbn. rewrite Es, <- IH. exact (kept_result _ _ _ _ _ (interrupt_next ecx s1 Hf) E).
Qed.
End next.

(** ** The modifier keys *)

Inductive modifier := LShift | RShift | LCtrl | RCtrl | LAlt | RAlt | CapsLock.
#[export] Instance modifier_dec : EqDecision modifier.
Proof. solve_decision. Defined.

Section theorems.
Context `{World} (KBD : kbd_type) (buf : Z) (kernel_stack : nat -> list Z).


Context (Hready : forall s, Z.land (u8 (port_in s 0x64)) 0x02 = 0) (Hpat : (1024 <= patience)%nat).
(** The first half of the interrupt: the scan code and its routine. *)
Lemma scan_run ecx al T s : 0 <= al < 256 -> ~ function_key al -> reboots (k_kbd s) al = false ->
  k_tty s !! 0%nat = Some T -> queue_ok (tty_read_q T) -> (forall p, q_proc_list (tty_read_q T) = Some p -> is_Some (task_at s p)) ->
  exists s', (if al =? 0xe0 then sset k_kbd kb_e0 1
     else if al =? 0xe1 then sset k_kbd kb_e0 2
     else call_key KBD buf kernel_stack al ecx ;; sset k_kbd kb_e0 0) s = Ok tt s' /\
    pressed T (typed KBD (k_kbd s) al) (kbd_next (k_kbd s) al) s s'.
Proof.
  intros Hal Hf Hr HT Hq Hw.
  destruct (Z.eqb_spec al 0xe0) as [->|H0].
  { eexists. split; [reflexivity|]. match goal with |- pressed _ _ ?k _ ?x => replace k with (k_kbd x) by (cbn; by destruct (k_kbd s)) end.
    by apply pressed_quiet. }
  destruct (Z.eqb_spec al 0xe1) as [->|H1].
  { eexists. split; [reflexivity|]. match goal with |- pressed _ _ ?k _ ?x => replace k with (k_kbd x) by (cbn; by destruct (k_kbd s)) end.
    by apply pressed_quiet. }
  destruct (call_key_run KBD buf kernel_stack ltac:(lia) Hready T s HT Hq Hw al ecx Hal H0 H1 Hf Hr) as (s1 & E & [Ht _ Hp Hcon] & Hk).
  eexists. split; [rewrite (bind_Ok _ _ _ _ _ E); reflexivity|]. by split.
Qed.
(** Up to the line discipline, and to its end. *)
Lemma interrupt_split ecx T s : let al := u8 (port_in s 0x60) in ~ function_key al -> reboots (k_kbd s) al = false ->
  k_tty s !! 0%nat = Some T -> queue_ok (tty_read_q T) -> (forall p, q_proc_list (tty_read_q T) = Some p -> is_Some (task_at s p)) ->
  exists q' s3, keyboard_interrupt KBD buf kernel_stack ecx s = do_tty_interrupt 0 s3 /\
    k_tty s3 !! 0%nat = Some (set_field tty_read_q (fun _ => q') T) /\ queue_ok q' /\
    queue_chars q' = offer (tty_read_q T) (typed KBD (k_kbd s) al) /\
    k_kbd s3 = kbd_next (k_kbd s) al /\ k_con s3 = k_con s /\ (forall p, is_Some (task_at s p) -> is_Some (task_at s3 p)).
Proof.
  intros al Hf Hr HT Hq Hw. unfold keyboard_interrupt. erewrite bind_Ok by reflexivity. fold al. set (s1 := set_field k_io _ s).
  destruct (scan_run ecx al T s1 ltac:(apply u8_range) Hf Hr HT Hq Hw) as (s2 & E & [(q' & Ht & Hok & Hc) Hk Hp Hcon]).
  rewrite (bind_Ok _ _ _ _ _ E). do 4 (erewrite bind_Ok by reflexivity).
  eexists q', _. split; [reflexivity|]. split; [|done]. 
  match goal with |- k_tty ?x !! _ = _ => change (k_tty x) with (k_tty s2) end. rewrite Ht. apply list_lookup_insert_eq. by eapply lookup_lt_Some.
Qed.
Lemma interrupt_cooks ecx T s :
  let al := u8 (port_in s 0x60) in let input := offer (tty_read_q T) (typed KBD (k_kbd s) al) in
  ~ function_key al -> reboots (k_kbd s) al = false ->
  k_tty s !! 0%nat = Some T -> queue_ok (tty_read_q T) -> queue_ok (tty_secondary T) -> echo_safe T (k_con s) input ->
  (forall p, q_proc_list (tty_read_q T) = Some p \/ q_proc_list (tty_secondary T) = Some p -> is_Some (task_at s p)) ->
  wp (keyboard_interrupt KBD buf kernel_stack ecx) (fun _ s' => k_kbd s' = kbd_next (k_kbd s) al /\ cooked T input s' 0) s.
Proof.
  intros al input Hf Hr HT Hq Hs Hecho Hw.
  destruct (interrupt_split ecx T s Hf Hr HT Hq ltac:(intros p Hp; apply Hw; by left)) as (q' & s3 & E & HT2 & Hok & Hc & Hk & Hcon & Hp).
  fold al in Hc, Hk. fold input in Hc.
  pose proof (copy_to_cooked_cooks 0 _ s3 HT2 Hok Hs) as Hcook.
  change (tty_read_q (set_field _ _ T)) with q' in Hcook. rewrite Hc, Hcon in Hcook.
  specialize (Hcook Hecho ltac:(intros p Hp2; apply Hp, Hw; by right) Hpat).
  pose proof (untouched_tty_interrupt (k_kbd s3) 0 s3 eq_refl) as Hsame. unfold wp, wpg in *. rewrite E. unfold do_tty_interrupt in *.
  destruct (copy_to_cooked 0 s3) as [[] s4| | | |]; try done. split; [by rewrite Hsame|exact Hcook].
Qed.
(** C26: What a key does to the console: an interrupt of the keyboard with any
    scan code but those of the function keys and of ctrl-alt-del returns, when the
    keyboard controller takes the commands for the lights; the
    characters of the key, its escape sequence or none, are put behind those that
    wait in the input queue, all of them or, when there is no room for all, none;
    the line discipline then goes through the queue as far as there is room in
    the cooked one; [mode], [leds] and [e0] are those after the key, and nothing
    else of the terminal changes but, when it echoes, the queue to the screen.
    The echo asks, and leaves true, what [echo_safe] says. *)
Theorem keyboard_interrupt_types ecx T s :
  let al := u8 (port_in s 0x60) in
  let input := offer (tty_read_q T) (typed KBD (k_kbd s) al) in
  ~ function_key al -> reboots (k_kbd s) al = false ->
  k_tty s !! 0%nat = Some T -> queue_ok (tty_read_q T) -> queue_ok (tty_secondary T) ->
  echo_safe T (k_con s) input ->
  (forall p, q_proc_list (tty_read_q T) = Some p \/ q_proc_list (tty_secondary T) = Some p -> is_Some (task_at s p)) ->
  wp (keyboard_interrupt KBD buf kernel_stack ecx) (fun _ s' =>
    k_kbd s' = kbd_next (k_kbd s) al /\ cooked T input s' 0) s.
Proof. apply interrupt_cooks. Qed.
End theorems.

(** A machine on whose keyboard key [al] is pressed. *)
Definition key_world (al : Z) : World :=
  {| world_env := fun _ _ s => s; world_hardware := fun _ port => if port =? 0x60 then al else 0; patience := 2000 |}.
(** The left shift key goes down. *)
Lemma typing_safe KBD k al bs :
  typed KBD k al = bs -> Forall (.≠ -37) (s8 <$> bs) ->
  echo_safe typing_tty (k_con typing_kernel) (offer (tty_read_q typing_tty) (typed KBD k al)).
Proof.
  intros -> Hbs _ _. destruct (typing_echo eq_refl eq_refl) as [H Hin]. split; [exact H|]. unfold offer.
  apply Forall_app. split; [exact Hin|]. by case_match.
Qed.
(** "a" with shift behind the line of [typing_tty]. *)
Definition key_kernel : kernel := set_field k_kbd (fun _ => Kbd 1 2 0) typing_kernel.
Lemma key_line_run :
  line_run (tty_termios typing_tty) (offer (tty_read_q typing_tty) (typed KBD_FINNISH (k_kbd key_kernel) 0x1e))
    (Line (queue_chars (tty_secondary typing_tty)) (q_data (tty_secondary typing_tty)) (tty_stopped typing_tty))
  = ([], Line [97; 99; 10; 100; 65] 1 0).
Proof. vm_compute. reflexivity. Qed.
Lemma keyboard_interrupt_types_witness :
  wp (keyboard_interrupt (H := key_world 0x1e) KBD_FINNISH 0 (fun _ => []) 7) (fun _ s' => exists T', k_tty s' !! 0%nat = Some T' /\
    queue_chars (tty_read_q T') = [] /\ queue_chars (tty_secondary T') = [97; 99; 10; 100; 65]) key_kernel.
Proof.
  eapply wp_mono.
  - apply (keyboard_interrupt_types (H := key_world 0x1e) KBD_FINNISH 0 (fun _ => []) (fun _ => eq_refl) ltac:(cbn [patience key_world]; lia)
      7 typing_tty key_kernel); [discriminate|reflexivity|reflexivity|apply typing_queues|apply typing_queues|by apply (typing_safe _ _ _ [65]); repeat constructor|].
    intros p [Hp|Hp]; discriminate Hp.
  - intros [] s'. change (u8 (port_in (Hardware := world_hardware (World := key_world 0x1e)) key_kernel 0x60)) with 0x1e. unfold cooked. rewrite key_line_run.
    intros (_ & T' & H1 & _ & H2 & _ & H3 & _). exists T'. exact (conj H1 (conj H2 H3)).
Defined.
