(* ===== verification/RsIo.v ===== *)
(** * kernel/chr_drv/rs_io.s: the interrupts of the serial lines

    The handler looks at the interrupt identification register until nothing is
    left to do: it takes a character that has come into the read queue, sends
    one of the write queue, wakes up a writer.  Then what it does: characters
    leave in the order they were written, and with the queue empty the
    transmitter is told to be quiet. *)

From S2P Require Import Prelude Kernel Sched Memory Console Tty.

(** [startup]: characters left in the write queue when the writer goes on. *)
Definition startup : Z := 256.

Section with_world.
Context `{World}.

(** The task that waits for the write queue is made runnable; it stays in
    [proc_list]. *)
Definition wake_writer (t : nat) : M kernel unit :=
  q ← t->>tty_write_q;
  match q_proc_list q with Some p => tst p t_state 0 | None => mret tt end.
Definition modem_status (dx : Z) : M kernel unit := inb (dx + 6) ;; mret tt.
Definition line_status (dx : Z) : M kernel unit := inb (dx + 5) ;; mret tt.
(** The character is lost when the queue is full. *)
Definition read_char (t : nat) (dx : Z) : M kernel unit :=
  al ← inb dx;
  q ← t->>tty_read_q;
  upd t tty_read_q (set_field q_buf (fun l => <[Z.to_nat (q_head q) := al]> l)) ;;
  let ebx := INC (q_head q) in
  when (negb (ebx =? q_tail q)) (upd t tty_read_q (set_field q_head (fun _ => ebx))) ;;
  do_tty_interrupt t.
(** Nothing is left to send: the transmit interrupt is disabled. *)
Definition write_buffer_empty (t : nat) (dx : Z) : M kernel unit :=
  wake_writer t ;;
  al ← inb (dx + 1);
  outb (Z.land al 0xd) (dx + 1).
Definition send_char (t : nat) (dx : Z) : M kernel unit :=
  q ← t->>tty_write_q;
  if CHARS q =? 0 then write_buffer_empty t dx
  else
    when (CHARS q <=? startup) (wake_writer t) ;;
    outb (default 0 (q_buf q !! Z.to_nat (q_tail q))) dx ;;
    upd t tty_write_q (set_field q_tail INC) ;;
    q ← t->>tty_write_q;
    if q_tail q =? q_head q then write_buffer_empty t dx else mret tt.
(** [call jmp_table(,%eax,2)] *)
Definition call_jmp (al : Z) (t : nat) (dx : Z) : M kernel unit :=
  if al =? 0 then modem_status dx
  else if al =? 2 then send_char t dx
  else if al =? 4 then read_char t dx
  else line_status dx.
(** The loop at [rep_int]. *)
Definition rep_int (t : nat) (dx : Z) : M kernel unit :=
  loop patience (fun _ : unit =>
    al ← inb (dx + 2);
    if truth (Z.land al 1) || (6 <? al) then mret (inr tt)
    else call_jmp al t dx ;; mret (inl tt)) tt.
(** [rs_int] for the line of terminal [t]. *)
Definition rs_int (t : nat) : M kernel unit :=
  q ← t->>tty_read_q;
  rep_int t (q_data q) ;;
  outb 0x20 0x20.
Definition rs1_interrupt : M kernel unit := rs_int 1.
Definition rs2_interrupt : M kernel unit := rs_int 2.
End with_world.
(** ** The line as its ports show it *)

(** The characters sent to the line at [dx]; whether its transmit interrupt is
    enabled, [b] before; whether its identification register has been looked at
    in the interrupt being served. *)
Fixpoint sent_on (dx : Z) (io : list io_event) : list Z :=
  match io with
  | PortOut v p :: io => if p =? dx then v :: sent_on dx io else sent_on dx io
  | PortIn _ _ :: io => sent_on dx io
  | [] => []
  end.
Definition enabled (dx : Z) (b : bool) (io : list io_event) : bool :=
  foldl (fun b e => match e with PortOut v p => if p =? dx + 1 then Z.testbit v 1 else b | PortIn _ _ => b end) b io.
Definition looked (dx : Z) (b : bool) (io : list io_event) : bool :=
  foldl (fun b e => match e with PortOut _ p => if p =? 0x20 then false else b | PortIn _ p => if p =? dx + 2 then true else b end) b io.
(** The line has sent its last character before the next interrupt, and has
    nothing else to tell. *)
Definition only_sends `{Hardware} (dx : Z) : Prop :=
  0x20 < dx /\ forall s, u8 (port_in s (dx + 2)) = if looked dx false (k_io s) then 1 else 2.
(** [m] does the port accesses [l], and leaves the terminals as [tty] says. *)
Record sends (t : nat) (T' : tty_struct) (l : list io_event) (s s' : kernel) : Prop := {
  snd_io : k_io s' = k_io s ++ l;
  snd_tty : k_tty s' = <[t := T']> (k_tty s);
  snd_tasks : forall p tk, task_at s p = Some tk -> exists tk', task_at s' p = Some tk' /\ (t_state tk = 0 -> t_state tk' = 0) }.

Lemma sent_app dx a b : sent_on dx (a ++ b) = sent_on dx a ++ sent_on dx b.
Proof. induction a as [|[v p|v p] a IH]; cbn; [done| |done]. destruct (p =? dx); cbn; by rewrite IH. Qed.
Lemma looked_app dx c a b : looked dx c (a ++ b) = looked dx (looked dx c a) b.
Proof. apply foldl_app. Qed.
Lemma enabled_app dx c a b : enabled dx c (a ++ b) = enabled dx (enabled dx c a) b.
Proof. apply foldl_app. Qed.
Lemma u8_s8 x : u8 (s8 x) = u8 x.
Proof. unfold u8, s8. rewrite Zminus_mod_idemp_l. f_equal. lia. Qed.

Section sending.
Context `{World} (t : nat).
Lemma sends_refl T s : k_tty s !! t = Some T -> sends t T [] s s.
Proof. intros HT. split; [by rewrite app_nil_r|by rewrite list_insert_id|by eauto]. Qed.
Lemma sends_trans T1 T2 l1 l2 s s1 s2 : sends t T1 l1 s s1 -> sends t T2 l2 s1 s2 -> sends t T2 (l1 ++ l2) s s2.
Proof.
  intros [E1 E2 E3] [F1 F2 F3]. split; [by rewrite F1, E1, app_assoc|by rewrite F2, E2, list_insert_insert_eq|].
  intros p tk Ht. destruct (E3 p tk Ht) as (tk1 & Ht1 & H1). destruct (F3 p tk1 Ht1) as (tk2 & Ht2 & H2). eauto.
Qed.
Lemma sends_here T l s s' : k_tty s !! t = Some T -> k_io s' = k_io s ++ l -> k_tty s' = k_tty s -> k_task s' = k_task s -> sends t T l s s'.
Proof. intros HT E1 E2 E3. split; [done|by rewrite E2, list_insert_id|unfold task_at; rewrite E3; by eauto]. Qed.
Lemma sends_tty T T' l s s' : k_tty s !! t = Some T -> sends t T' l s s' -> k_tty s' !! t = Some T'.
Proof. intros HT [_ E _]. rewrite E. apply list_lookup_insert_eq. by eapply lookup_lt_Some. Qed.

Context (T : tty_struct).
Let q := tty_write_q T.
(** The task that waits for the write queue is there; it can run. *)
Definition waiter_ok (s : kernel) : Prop := forall p, q_proc_list q = Some p -> is_Some (task_at s p).
Definition awake (s : kernel) : Prop := forall p, q_proc_list q = Some p -> exists tk, task_at s p = Some tk /\ t_state tk = 0.
Lemma sends_awake T' l s s' : sends t T' l s s' -> awake s -> awake s'.
Proof. intros [_ _ E] Ha p Hp. destruct (Ha p Hp) as (tk & Ht & H0). destruct (E p tk Ht) as (tk' & Ht' & H1). eauto. Qed.
Lemma sends_waiter T' l s s' : sends t T' l s s' -> waiter_ok s -> waiter_ok s'.
Proof. intros [_ _ E] Ha p Hp. destruct (Ha p Hp) as (tk & Ht). destruct (E p tk Ht) as (tk' & Ht' & _). eauto. Qed.
Lemma get_write s T1 : k_tty s !! t = Some T1 -> getf t tty_write_q s = Ok (tty_write_q T1) s.
Proof. intros HT. unfold getf. cbn [tab tty_table_inst]. by rewrite HT. Qed.
Lemma wake_run s T1 : k_tty s !! t = Some T1 -> q_proc_list (tty_write_q T1) = q_proc_list q -> waiter_ok s ->
  exists s', wake_writer t s = Ok tt s' /\ sends t T1 [] s s' /\ awake s'.
Proof.
  intros HT Hp Hw. unfold wake_writer. erewrite bind_Ok by (by apply get_write). unfold awake, waiter_ok in *.
  rewrite Hp. destruct (q_proc_list q) as [p|] eqn:Ep; [|exists s; split; [done|split; [by apply sends_refl|done]]].
  destruct (Hw p eq_refl) as [tk Htk]. exists (put_task p (set_field t_state (fun _ => 0) tk) s).
  split; [unfold tst, tupd; by rewrite Htk|]. pose proof (task_at_put _ _ _ (set_field t_state (fun _ => 0) tk) Htk) as Hat. split.
  - split; [cbn; by rewrite app_nil_r|cbn; by rewrite list_insert_id|]. intros p' tk' Hp'. destruct (decide (p' = p)) as [->|Hne].
    + eexists. split; [exact Hat|]. by destruct tk.
    + rewrite task_at_put_ne by done. eauto.
  - intros p' [= <-]. eexists. split; [exact Hat|]. by destruct tk.
Qed.
Context (dx : Z) (Hline : only_sends dx).
(** What a part of the interrupt does to the line: the characters [cs] are sent. *)
Definition line_events (cs : list Z) (l : list io_event) : Prop := sent_on dx l = cs /\ forall b, looked dx b l = b.
Lemma quiet_bit v : Z.testbit (u8 (Z.land v 0xd)) 1 = false.
Proof. unfold u8. rewrite Z.mod_pow2_bits_low, Z.land_spec by lia. apply andb_false_r. Qed.
Lemma buffer_empty_run s T1 : k_tty s !! t = Some T1 -> q_proc_list (tty_write_q T1) = q_proc_list q -> waiter_ok s ->
  exists l s', write_buffer_empty t dx s = Ok tt s' /\ sends t T1 l s s' /\ awake s' /\ line_events [] l /\
    forall b, enabled dx b l = false.
Proof.
  intros HT Hp Hw. destruct Hline as [Hdx _]. destruct (wake_run s T1 HT Hp Hw) as (s1 & E1 & Hs1 & Ha).
  unfold write_buffer_empty. rewrite (bind_Ok _ _ _ _ _ E1). erewrite bind_Ok by reflexivity.
  set (v := u8 (port_in s1 (dx + 1))). exists [PortIn v (dx + 1); PortOut (u8 (Z.land v 0xd)) (dx + 1)]. eexists. split; [reflexivity|].
  split; [|split; [exact Ha|split]].
  - apply (sends_trans T1 T1 [] _ s s1 _ Hs1). apply sends_here; [by eapply sends_tty|cbn; by rewrite <- app_assoc|done|done].
  - unfold line_events. cbn. rewrite (proj2 (Z.eqb_neq (dx + 1) dx)), (proj2 (Z.eqb_neq (dx + 1) (dx + 2))), (proj2 (Z.eqb_neq (dx + 1) 32)) by lia. done.
  - intros b. cbn. rewrite Z.eqb_refl. apply quiet_bit.
Qed.
Lemma send_char_run s T1 : k_tty s !! t = Some T1 -> q_proc_list (tty_write_q T1) = q_proc_list q -> waiter_ok s ->
  let w := tty_write_q T1 in queue_ok w -> EMPTY w = false ->
  exists l s', send_char t dx s = Ok tt s' /\ sends t (set_field tty_write_q (set_field q_tail INC) T1) l s s' /\
    line_events [u8 (getch w)] l /\ (CHARS w <= startup -> awake s') /\
    (EMPTY (set_field q_tail INC w) = true -> forall b, enabled dx b l = false).
Proof.
  intros HT Hp Hw w Hq He. destruct Hline as [Hdx _]. unfold send_char. erewrite bind_Ok by (by apply get_write). fold w.
  rewrite <- EMPTY_CHARS, He by done.
  assert (H1 : exists s1, when (CHARS w <=? startup) (wake_writer t) s = Ok tt s1 /\ sends t T1 [] s s1 /\ (CHARS w <= startup -> awake s1)).
  { destruct (Z.leb_spec (CHARS w) startup).
    - destruct (wake_run s T1 HT Hp Hw) as (s1 & E1 & Hs1 & Ha). by exists s1.
    - exists s. split; [done|]. split; [by apply sends_refl|lia]. }
  destruct H1 as (s1 & E1 & Hs1 & Ha). rewrite (bind_Ok _ _ _ _ _ E1). erewrite bind_Ok by reflexivity.
  assert (HT1 : k_tty s1 !! t = Some T1) by (by eapply sends_tty).
  set (T2 := set_field tty_write_q (set_field q_tail INC) T1). set (c := u8 (default 0 (q_buf w !! Z.to_nat (q_tail w)))).
  set (s2 := set_field k_tty (fun l => <[t := T2]> l) (set_field k_io (fun io => io ++ [PortOut c dx]) s1)).
  assert (Hs12 : sends t T2 [PortOut c dx] s1 s2) by (split; [done|done|unfold task_at; cbn; by eauto]).
  assert (Hs2 : sends t T2 ([] ++ [PortOut c dx]) s s2) by (by eapply sends_trans).
  assert (HT2 : k_tty s2 !! t = Some T2) by (by eapply sends_tty).
  erewrite bind_Ok. 2: { unfold upd, updr. cbn [tab tty_table_inst]. cbn. rewrite HT1. reflexivity. }
  fold T2. change (set_tab _ _) with s2. erewrite bind_Ok by (by apply get_write).
  assert (Hc : c = u8 (getch w)) by (unfold getch; by rewrite u8_s8).
  assert (Hev : line_events [u8 (getch w)] [PortOut c dx]).
  { unfold line_events. cbn. rewrite Z.eqb_refl, Hc, (proj2 (Z.eqb_neq dx 32)) by lia. done. }
  change (tty_write_q T2) with (set_field q_tail INC w). rewrite Z.eqb_sym. change (q_head _ =? q_tail _) with (EMPTY (set_field q_tail INC w)).
  destruct (EMPTY (set_field q_tail INC w)).
  - destruct (buffer_empty_run s2 T2 HT2 Hp ltac:(eapply sends_waiter; [exact Hs2|exact Hw])) as (l & s3 & E3 & Hs3 & Ha3 & [Hl Hk] & Hen).
    exists (([] ++ [PortOut c dx]) ++ l), s3. split; [exact E3|]. split; [by eapply sends_trans|]. destruct Hev as [V1 V2].
    split; [split|split; [done|intros _ b; by rewrite enabled_app, Hen]].
    + by rewrite sent_app, Hl, app_nil_r.
    + intros b. by rewrite looked_app, Hk.
  - exists ([] ++ [PortOut c dx]), s2. split; [done|]. split; [exact Hs2|]. split; [exact Hev|]. split; [|done].
    intros Hle. eapply sends_awake; [exact Hs12|by apply Ha].
Qed.
Context (Hpat : (2 <= patience)%nat).
Lemma ident_run s : inb (dx + 2) s = Ok (if looked dx false (k_io s) then 1 else 2)
  (set_field k_io (fun io => io ++ [PortIn (if looked dx false (k_io s) then 1 else 2) (dx + 2)]) s).
Proof. destruct Hline as [_ E]. rewrite <- E. reflexivity. Qed.
Lemma rs_int_run s T1 : k_tty s !! t = Some T1 -> q_proc_list (tty_write_q T1) = q_proc_list q -> waiter_ok s ->
  q_data (tty_read_q T1) = dx -> looked dx false (k_io s) = false ->
  let w := tty_write_q T1 in queue_ok w -> EMPTY w = false ->
  exists l s', rs_int t s = Ok tt s' /\ sends t (set_field tty_write_q (set_field q_tail INC) T1) l s s' /\
    sent_on dx l = [u8 (getch w)] /\ looked dx false (k_io s') = false /\ (CHARS w <= startup -> awake s') /\
    (EMPTY (set_field q_tail INC w) = true -> forall b, enabled dx b l = false).
Proof.
  intros HT Hp Hw Hdx Hlk w Hq He. unfold rs_int, rep_int. 
  erewrite bind_Ok. 2: { unfold getf. cbn [tab tty_table_inst]. rewrite HT. reflexivity. } rewrite Hdx.
  assert (En : exists n, patience = S (S n)) by (destruct patience as [|[|n]]; [lia|lia|by exists n]). destruct En as [n ->].
  set (s1 := set_field k_io (fun io => io ++ [PortIn 2 (dx + 2)]) s).
  assert (Hs1 : sends t T1 [PortIn 2 (dx + 2)] s s1) by (by apply sends_here).
  destruct (send_char_run s1 T1 HT Hp Hw Hq He) as (l & s2 & E2 & Hs2 & [Hl Hlk2] & Ha & Hen). fold w in Hl, Ha, Hen.
  assert (Hlk3 : looked dx false (k_io s2) = true).
  { rewrite (snd_io _ _ _ _ _ Hs2). change (k_io s1) with (k_io s ++ [PortIn 2 (dx + 2)]). rewrite !looked_app, Hlk, Hlk2. cbn. by rewrite Z.eqb_refl. }
  exists (([PortIn 2 (dx + 2)] ++ l) ++ [PortIn 1 (dx + 2); PortOut 0x20 0x20]).
  exists (set_field k_io (fun io => io ++ [PortIn 1 (dx + 2); PortOut 0x20 0x20]) s2).
  assert (Hs3 : sends t (set_field tty_write_q (set_field q_tail INC) T1) ([PortIn 2 (dx + 2)] ++ l) s s2) by (by eapply sends_trans).
  split.
  { rewrite loop_S. erewrite bind_Ok.
    2: { erewrite bind_Ok.
         2: { erewrite bind_Ok by apply ident_run. rewrite Hlk. cbn [truth Z.land Pos.land]. change (truth _ || _) with false. cbn iota.
              change (call_jmp 2 t dx) with (send_char t dx). rewrite (bind_Ok _ _ _ _ _ E2). reflexivity. }
         cbn iota. rewrite loop_S. erewrite bind_Ok by (erewrite bind_Ok by apply ident_run; rewrite Hlk3; reflexivity). reflexivity. }
    unfold outb, modify, set_field, set_k_io. cbn. by rewrite <- app_assoc. }
  split; [|split; [|split; [|split]]].
  - eapply sends_trans; [exact Hs3|]. apply sends_here; [by eapply sends_tty|done|done|done].
  - rewrite !sent_app, Hl. destruct Hline as [Hd _]. cbn [sent_on]. rewrite (proj2 (Z.eqb_neq 32 dx)) by lia. done.
  - change (k_io (set_field k_io _ s2)) with (k_io s2 ++ [PortIn 1 (dx + 2); PortOut 0x20 0x20]). by rewrite looked_app.
  - intros Hc. exact (Ha Hc).
  - intros Hemp b. rewrite !enabled_app, Hen by done. destruct Hline as [Hd _]. unfold enabled. cbn [foldl]. by rewrite (proj2 (Z.eqb_neq 32 (dx + 1))) by lia.
Qed.
Lemma drain_run (xs : list nat) s T1 : k_tty s !! t = Some T1 -> q_proc_list (tty_write_q T1) = q_proc_list q -> waiter_ok s ->
  q_data (tty_read_q T1) = dx -> looked dx false (k_io s) = false -> queue_ok (tty_write_q T1) ->
  length xs = length (queue_chars (tty_write_q T1)) ->
  exists l s' w', for_ xs (fun _ => rs_int t) s = Ok tt s' /\ sends t (set_field tty_write_q (fun _ => w') T1) l s s' /\
    sent_on dx l = u8 <$> queue_chars (tty_write_q T1) /\ queue_ok w' /\ queue_chars w' = [] /\
    (xs <> [] -> awake s' /\ forall b, enabled dx b l = false).
Proof.
  revert s T1. induction xs as [|x xs IH]; intros s T1 HT Hp Hw Hdx Hlk Hq Hlen.
  - exists [], s, (tty_write_q T1). symmetry in Hlen. apply nil_length_inv in Hlen. rewrite Hlen.
    split; [done|]. split; [|done]. replace (set_field _ _ T1) with T1 by (by destruct T1). by apply sends_refl.
  - set (w := tty_write_q T1) in *. assert (He : EMPTY w = false).
    { apply not_true_iff_false. rewrite queue_empty by done. intros E. by rewrite E in Hlen. }
    destruct (queue_get w Hq He) as [Hq2 Hc2]. set (T2 := set_field tty_write_q (set_field q_tail INC) T1).
    change (set_field q_tail INC w) with (tty_write_q T2) in *.
    destruct (rs_int_run s T1 HT Hp Hw Hdx Hlk Hq He) as (l & s1 & E1 & Hs1 & Hl & Hlk1 & Ha & Hen). fold w in Hl, Ha, Hen.
    destruct (IH s1 T2) as (l2 & s2 & w' & E2 & Hs2 & Hl2 & Hqw & Hcw & Hend);
      [by eapply sends_tty|exact Hp|by eapply sends_waiter|exact Hdx|exact Hlk1|exact Hq2|rewrite Hc2 in Hlen; cbn [length] in Hlen; lia|].
    exists (l ++ l2), s2, w'. split; [cbn; by rewrite (bind_Ok _ _ _ _ _ E1)|]. split; [by eapply sends_trans|].
    split; [by rewrite sent_app, Hl, Hl2, Hc2|]. split; [done|]. split; [done|]. intros _. destruct xs as [|y xs].
    + cbn in E2. injection E2 as <-. assert (Hnil : queue_chars (tty_write_q T2) = []) by (apply nil_length_inv; rewrite Hc2 in Hlen; cbn [length] in Hlen; lia).
      assert (Hio : l2 = []) by (pose proof (snd_io _ _ _ _ _ Hs2) as Hio; apply (f_equal length) in Hio; rewrite length_app in Hio; apply nil_length_inv; lia).
      split; [apply Ha; pose proof (queue_length w) as Hlw; rewrite Hc2, Hnil in Hlw; cbn [length] in Hlw; unfold startup; lia|].
      rewrite Hio, app_nil_r. apply Hen. by apply queue_empty.
    + destruct (Hend ltac:(done)) as [Ha2 Hen2]. split; [done|]. intros b. by rewrite enabled_app, Hen2.
Qed.
End sending.
(** C32: A serial line sends what was written to it: when the line tells at each
    interrupt that it has sent its last character, as many interrupts as there
    are characters in the write queue send exactly these, in the order they were
    written, one each; the queue is empty then, the task that waited for it can
    run, the transmit interrupt is disabled, and nothing else of the terminals
    has changed. *)
Theorem line_drains `{World} t T s :
  let dx := q_data (tty_read_q T) in let cs := queue_chars (tty_write_q T) in
  only_sends dx -> (2 <= patience)%nat -> looked dx false (k_io s) = false ->
  k_tty s !! t = Some T -> queue_ok (tty_write_q T) -> waiter_ok T s -> cs <> [] ->
  wp (for_ (seq 0 (length cs)) (fun _ => rs_int t)) (fun _ s' => exists l w',
    k_io s' = k_io s ++ l /\ sent_on dx l = u8 <$> cs /\ (forall b, enabled dx b l = false) /\
    k_tty s' = <[t := set_field tty_write_q (fun _ => w') T]> (k_tty s) /\ queue_ok w' /\ queue_chars w' = [] /\
    awake T s') s.
Proof.
  intros dx cs Hline Hpat Hlk HT Hq Hw Hcs.
  destruct (drain_run t T dx Hline Hpat (seq 0 (length cs)) s T HT eq_refl Hw eq_refl Hlk Hq ltac:(by rewrite length_seq))
    as (l & s' & w' & E & [Hio Htty _] & Hl & Hqw & Hcw & Hend).
  eapply wpg_Ok; [exact E|]. destruct (Hend ltac:(by destruct cs)) as [Ha Hen]. exists l, w'. by split_and!.
Qed.
(** "hi" waits to be sent on the first line, and a task for the queue. *)
Definition serial_world : World :=
  {| world_env := fun _ _ s => s; patience := 2000;
     world_hardware := fun s port => if port =? 0x3f8 + 2 then if looked 0x3f8 false (k_io s) then 1 else 2 else 0 |}.
Definition serial_tty : tty_struct :=
  Tty (Termios 0 0 0 0 0 INIT_C_CC) 0 0 1 (zero_queue 0x3f8)
    (set_field q_proc_list (fun _ => Some 0%nat) (foldl (fun q c => putch c q) (zero_queue 0x3f8) [104; 105])) (zero_queue 0).
Definition serial_kernel : kernel :=
  set_field k_tty (fun l => <[1%nat := serial_tty]> l) (boot_kernel 0x10000 0x20000).
Lemma serial_ok : queue_ok (tty_write_q serial_tty) /\ queue_chars (tty_write_q serial_tty) = [104; 105].
Proof. split; [split; vm_compute; split; congruence || reflexivity|by vm_compute]. Qed.
Lemma line_drains_witness :
  wp (for_ (seq 0 2) (fun _ => rs_int (H := serial_world) 1))
    (fun _ s' => sent_on 0x3f8 (k_io s') = [104; 105] /\ awake serial_tty s') serial_kernel.
Proof.
  destruct serial_ok as [Hq Hc]. eapply wp_mono.
  - refine (eq_ind _ (fun n => wp (for_ (seq 0 n) (fun _ => rs_int (H := serial_world) 1)) _ serial_kernel)
      (line_drains (H := serial_world) 1 serial_tty serial_kernel _ _ eq_refl eq_refl Hq _ _) 2%nat _).
    + split; [done|]. intros s. cbn [port_in world_hardware serial_world]. change (q_data (tty_read_q serial_tty)) with 0x3f8.
      change (0x3f8 + 2 =? 0x3f8 + 2) with true. by destruct (looked _ _ _).
    + cbn [patience serial_world]. lia.
    + intros p [= <-]. by eexists.
    + by rewrite Hc.
    + by rewrite Hc.
  - intros [] s' (l & w' & Hio & Hl & _ & _ & _ & _ & Ha). split; [|exact Ha]. rewrite Hio, sent_app, Hc in *. exact Hl.
Defined.
