(* ===== verification/Init.v ===== *)
(** * init/main.c in user mode: task 0 and the init process

    What [main] does after [move_to_user_mode], and [init], as interaction
    trees: their events are the calls of the user library (UserLib.v), the
    answers come from the kernel and may be anything.  The trees are infinite,
    as the loops of the source are.  What they may do is an automaton that
    watches the calls ([monitor]); that a program keeps to it ([keeps]) is a
    coinductive predicate with a rule for each way to put programs together:
    [protocol_step] for a call, [protocol_bind], [protocol_iter] for a loop. *)

From Stdlib Require Import ZArith List String Ascii Lia.
From ITree Require Import ITree.
From Paco Require Import paco.
From S2P Require Import Vsprintf.
Import ListNotations ITreeNotations.
Local Open Scope Z_scope.
Local Open Scope itree_scope.

Definition O_RDONLY : Z := 0.
Definition O_RDWR : Z := 2.

(** ** The calls *)

(** [Wait i] is [wait(&i)]: the answer is the value returned and what the
    variable holds then.  [Exit] does not return; neither does [Undefined],
    a call of [vsprintf] whose arguments do not match the format. *)
Variant libE : Type -> Type :=
| Fork : libE Z
| Setup : libE Z
| Open (filename : string) (flag mode : Z) : libE Z
| Dup (fd : Z) : libE Z
| Close (fd : Z) : libE Z
| Setsid : libE Z
| Execve (file : string) (argv envp : list string) : libE Z
| Wait (i : Z) : libE (Z * Z)
| Write (fd : Z) (buf : list Z) : libE Z
| Sync : libE Z
| Pause : libE Z
| Exit (code : Z) : libE void
| Undefined : libE void.

Abbreviation call e := (ITree.trigger e).
Definition absurd {A} (v : void) : A := match v with end.
Definition _exit {A} (code : Z) : itree libE A := v <- call (Exit code) ;; absurd v.

(** [printf]: the bytes go to descriptor 1, the result of [write] is not
    looked at. *)
Definition printf (fmt : list Z) (args : list varg) : itree libE Z :=
  match vsprintf fmt args with
  | Printed printbuf _ => call (Write 1 printbuf) ;; Ret (Z.of_nat (List.length printbuf))
  | _ => v <- call Undefined ;; absurd v
  end.

(** ** init *)

Definition argv_rc : list string := ["/bin/sh"%string].
Definition envp_rc : list string := ["HOME=/"%string].
Definition argv : list string := ["-/bin/sh"%string].
Definition envp : list string := ["HOME=/usr/root"%string].

(** The child that runs /etc/rc. *)
Definition rc_child : itree libE void :=
  call (Close 0) ;;
  r <- call (Open "/etc/rc" O_RDONLY 0) ;;
  if negb (r =? 0) then _exit 1
  else call (Execve "/bin/sh" argv_rc envp_rc) ;; _exit 2.
(** The child that becomes a login shell. *)
Definition shell_child : itree libE void :=
  call (Close 0) ;; call (Close 1) ;; call (Close 2) ;;
  call Setsid ;;
  call (Open "/dev/tty0" O_RDWR 0) ;;
  call (Dup 0) ;; call (Dup 0) ;;
  r <- call (Execve "/bin/sh" argv envp) ;;
  _exit r.

(** [while (pid != wait(&i))]: the status of the child [pid]. *)
Definition wait_for (pid i : Z) : itree libE Z :=
  ITree.iter (fun i => '(p, i) <- call (Wait i) ;; if p =? pid then Ret (inr i) else Ret (inl i)) i.

Definition fork_failed_fmt : list Z := literal "Fork failed in init" ++ [13; 10].
Definition died_fmt : list Z := [10; 13] ++ literal "child %d died with code %04x" ++ [10; 13].
Definition buffers_fmt : list Z := literal "%d buffers = %d bytes buffer space" ++ [10; 13].
Definition free_mem_fmt : list Z := literal "Free mem: %d bytes" ++ [10; 13].

(** A turn of [while (1)], the variable [i] holding [i]. *)
Definition init_turn (i : Z) : itree libE (Z + void) :=
  pid <- call Fork ;;
  if pid <? 0 then printf fork_failed_fmt [] ;; Ret (inl i)
  else if pid =? 0 then v <- shell_child ;; absurd v
  else
    i <- wait_for pid i ;;
    printf died_fmt [VInt pid; VInt i] ;;
    call Sync ;;
    Ret (inl i).
Definition init_loop (i : Z) : itree libE void := ITree.iter init_turn i.

(** The globals [init] prints, and what lies in [i] at first. *)
Definition init (NR_BUFFERS memory_end main_memory_start i : Z) : itree libE void :=
  call Setup ;;
  call (Open "/dev/tty0" O_RDWR 0) ;;
  call (Dup 0) ;; call (Dup 0) ;;
  printf buffers_fmt [VInt NR_BUFFERS; VInt (NR_BUFFERS * 1024)] ;;
  printf free_mem_fmt [VInt (memory_end - main_memory_start)] ;;
  pid <- call Fork ;;
  if pid =? 0 then rc_child
  else
    i <- (if 0 <? pid then wait_for pid i else Ret i) ;;
    init_loop i.

(** [for(;;) pause()]. *)
Definition idle : itree libE void := ITree.iter (fun _ : unit => call Pause ;; Ret (inl tt)) tt.

(** [main] from [move_to_user_mode] on. *)
Definition main_user (NR_BUFFERS memory_end main_memory_start i : Z) : itree libE void :=
  pid <- call Fork ;;
  if pid =? 0 then init NR_BUFFERS memory_end main_memory_start i ;; idle
  else idle.

(** ** The protocol *)

(** What init may do, as the states of an automaton that watches its calls. *)
Inductive phase : Type :=
| Start                               (* task 0 *)
| Idle                                (* task 0 when init is there *)
| Booting                             (* init before /etc/rc *)
| Free                                (* no child *)
| Waiting (shell : bool) (pid : Z)    (* the child [pid] runs *)
| Reaped (pid status : Z)             (* a shell is gone, not yet reported *)
| Reported
| Complain                            (* a fork that failed *)
| Child (calls : nat)                 (* a child, that many calls from its end at most *)
| Failed                              (* a child whose execve came back *)
| Gone.

Definition list_eqb (a b : list Z) : bool := if list_eq_dec Z.eq_dec a b then true else false.
Definition prints (fmt : list Z) (args : list varg) (fd : Z) (buf : list Z) : bool :=
  (fd =? 1) && match vsprintf fmt args with Printed out _ => list_eqb buf out | _ => false end.

(** The phases after an allowed call, by its answer; [None] for a call that is
    not allowed. *)
Definition monitor {A} (p : phase) (e : libE A) : option (A -> phase) :=
  match e, p with
  | Fork, Start => Some (fun pid => if pid =? 0 then Booting else Idle)
  | Fork, Booting => Some (fun pid => if pid =? 0 then Child 2 else if 0 <? pid then Waiting false pid else Free)
  | Fork, Free => Some (fun pid => if pid =? 0 then Child 7 else if 0 <? pid then Waiting true pid else Complain)
  | Pause, Idle => Some (fun _ => Idle)
  | (Setup | Open _ _ _ | Dup _ | Write _ _), Booting => Some (fun _ => Booting)
  | Wait _, Waiting shell pid => Some (fun '(p, i) =>
      if p =? pid then if shell then Reaped pid i else Free else Waiting shell pid)
  | Write fd buf, Reaped pid status =>
      if prints died_fmt [VInt pid; VInt status] fd buf then Some (fun _ => Reported) else None
  | Sync, Reported => Some (fun _ => Free)
  | Write fd buf, Complain => if prints fork_failed_fmt [] fd buf then Some (fun _ => Free) else None
  | (Close _ | Setsid | Open _ _ _ | Dup _), Child (S n) => Some (fun _ => Child n)
  | Execve file _ _, Child _ => if String.eqb file "/bin/sh" then Some (fun _ => Failed) else None
  | Exit _, (Child _ | Failed) => Some (fun _ => Gone)
  | _, _ => None
  end.

(** A program keeps to the protocol from a phase on when after at most [quiet]
    silent steps it makes a call that is allowed, and keeps to it afterwards
    whatever the answer is; or returns, and then [Q] holds of the phase, the
    silent steps left, and the result.  So it does not loop in silence. *)
Inductive keepsF {A} (Q : phase -> nat -> A -> Prop) (r : phase -> nat -> itree libE A -> Prop) (p : phase)
    : nat -> itree' libE A -> Prop :=
| keeps_ret quiet a : Q p quiet a -> keepsF Q r p quiet (RetF a)
| keeps_tau quiet t : r p quiet t -> keepsF Q r p (S quiet) (TauF t)
| keeps_call quiet B (e : libE B) k next :
    monitor p e = Some next -> (forall b, exists quiet', r (next b) quiet' (k b)) -> keepsF Q r p quiet (VisF e k).
Definition keeps_ {A} (Q : phase -> nat -> A -> Prop) r p quiet t : Prop := keepsF Q r p quiet (observe t).
Definition keeps {A} (Q : phase -> nat -> A -> Prop) (p : phase) (quiet : nat) (t : itree libE A) : Prop :=
  paco3 (keeps_ Q) bot3 p quiet t.
(** A loop goes on when a silent step is left. *)
Definition turn {A B} (I : phase -> nat -> A -> Prop) (Q : phase -> nat -> B -> Prop) q quiet (x : A + B) : Prop :=
  match x with inl a => exists quiet', quiet = S quiet' /\ I q quiet' a | inr b => Q q quiet b end.
(** Nothing is returned. *)
Definition never {A} (q : phase) (quiet : nat) (a : A) : Prop := False.
(** The status of the child that was waited for. *)
Definition reaped (shell : bool) (pid : Z) q (quiet : nat) (i : Z) : Prop :=
  q = (if shell then Reaped pid i else Free).

(** ** The rules *)

Lemma keeps_mon {A} (Q : phase -> nat -> A -> Prop) : monotone3 (keeps_ Q).
Proof.
  intros p n t r r' H LE. unfold keeps_ in *. destruct H as [| |n B e k next E Hk]; [econstructor; eauto..|].
  eapply keeps_call; [exact E|]. intros b. destruct (Hk b) as [m Hm]. eauto.
Qed.
#[export] Hint Resolve keeps_mon : paco.

Section rules.
Context {A B : Type}.
Implicit Types (p q : phase) (quiet : nat).

Lemma protocol_ret (Q : phase -> nat -> A -> Prop) p quiet a : Q p quiet a -> keeps Q p quiet (Ret a).
Proof. intros H. pfold. apply keeps_ret, H. Qed.
Lemma observe_bind (t : itree libE A) (k : A -> itree libE B) :
  observe (ITree.bind t k) =
  match observe t with
  | RetF a => observe (k a)
  | TauF t => TauF (ITree.bind t k)
  | VisF e h => VisF e (fun x => ITree.bind (h x) k)
  end.
Proof. unfold observe at 1; cbn. destruct (observe t); reflexivity. Qed.
Lemma keeps_unfold (Q : phase -> nat -> A -> Prop) r p quiet t : keeps Q p quiet t -> keepsF Q (upaco3 (keeps_ Q) r) p quiet (observe t).
Proof.
  intros Ht. punfold Ht. eapply keeps_mon; [exact Ht|]. intros ??? [H|[]]. left. eapply paco3_mon; [exact H|]. intros ??? [].
Qed.
Lemma upaco_bot (Q : phase -> nat -> A -> Prop) p quiet t : upaco3 (keeps_ Q) bot3 p quiet t -> keeps Q p quiet t.
Proof. intros [H|[]]. exact H. Qed.
End rules.

Section composition.
Context {A B : Type}.
Implicit Types (p q : phase) (quiet : nat).

Lemma protocol_bind (Q : phase -> nat -> A -> Prop) (R : phase -> nat -> B -> Prop) k p quiet t :
  (forall q quiet a, Q q quiet a -> keeps R q quiet (k a)) -> keeps Q p quiet t -> keeps R p quiet (ITree.bind t k).
Proof.
  intros Hk. revert p quiet t. pcofix CIH. intros p quiet t Ht. apply (keeps_unfold Q bot3) in Ht. pfold. unfold keeps_. 
  rewrite observe_bind. destruct Ht as [quiet a Ha|quiet t' Ht|quiet C e k' next E Hn].
  - apply keeps_unfold, Hk, Ha.
  - constructor. right. apply CIH, upaco_bot, Ht.
  - eapply keeps_call; [exact E|]. intros b. destruct (Hn b) as [m Hm]. exists m. right. apply CIH, upaco_bot, Hm.
Qed.
Lemma protocol_iter (I : phase -> nat -> A -> Prop) (Q : phase -> nat -> B -> Prop) body p quiet a :
  (forall q quiet a, I q quiet a -> keeps (turn I Q) q quiet (body a)) -> I p quiet a -> keeps Q p quiet (ITree.iter body a).
Proof.
  intros Hb Ha.
  set (next := fun x : A + B => match x with inl a => Tau (ITree.iter body a) | inr b => Ret b end).
  assert (H : forall p quiet u, (exists t, observe u = observe (ITree.bind t next) /\ keeps (turn I Q) p quiet t) -> keeps Q p quiet u).
  { clear p quiet a Ha. pcofix CIH. intros p quiet u (t & Eu & Ht). apply (keeps_unfold _ bot3) in Ht. pfold. unfold keeps_.
    rewrite Eu, observe_bind. destruct Ht as [quiet [a|b] Ha|quiet t' Ht|quiet C e k next' E Hn]; cbn.
    - destruct Ha as (m & -> & Ha). constructor. right. apply CIH. exists (body a). auto.
    - constructor. exact Ha.
    - constructor. right. apply CIH. eauto using upaco_bot.
    - eapply keeps_call; [exact E|]. intros b. destruct (Hn b) as [m Hm]. exists m. right. apply CIH. eauto using upaco_bot. }
  apply H. exists (body a). auto.
Qed.
End composition.

Section calls.
Context {A : Type} (Q : phase -> nat -> A -> Prop).
Lemma protocol_step {B} (e : libE B) (k : B -> itree libE A) p quiet next :
  monitor p e = Some next -> (forall b, exists quiet', keeps Q (next b) quiet' (k b)) -> keeps Q p quiet (ITree.bind (call e) k).
Proof.
  intros E Hk. pfold. red. cbn. eapply keeps_call; [exact E|]. intros b. destruct (Hk b) as [m Hm]. exists m. left.
  pfold. exact (keeps_unfold Q bot3 _ _ _ Hm).
Qed.
Lemma keeps_exit p quiet code : monitor p (Exit code) = Some (fun _ => Gone) -> keeps Q p quiet (_exit code).
Proof. intros E. apply (protocol_step _ _ _ _ _ E). intros []. Qed.
End calls.
Lemma keeps_printf {A} (Q : phase -> nat -> A -> Prop) fmt args k p q quiet :
  (exists out, vsprintf fmt args = Printed out []) ->
  (forall out, prints fmt args 1 out = true -> monitor p (Write 1 out) = Some (fun _ => q)) ->
  (forall z, keeps Q q 1%nat (k z)) -> keeps Q p quiet (ITree.bind (printf fmt args) k).
Proof.
  intros [out E] Hp Hk. apply (protocol_bind (fun q' m _ => q' = q /\ m = 1%nat)); [intros ? ? z [-> ->]; apply Hk|].
  unfold printf. rewrite E. eapply protocol_step; [apply Hp|intros ?; exists 1%nat; apply protocol_ret; auto].
  unfold prints, list_eqb. rewrite E. cbn. destruct (list_eq_dec _ out out); congruence.
Qed.
(** The formats of init and their arguments match. *)
Lemma died_matches pid i : exists out, vsprintf died_fmt [VInt pid; VInt i] = Printed out [].
Proof.
  apply (pieces_match [Lit ([10; 13] ++ literal "child "); Num [100] 10 (-1) SIGN; Lit (literal " died with code ");
    Num [48; 52; 120] 16 4 (Z.lor ZEROPAD SMALL); Lit [10; 13]] [pid; i]); [|reflexivity].
  repeat constructor.
Qed.
Lemma buffers_matches a b : exists out, vsprintf buffers_fmt [VInt a; VInt b] = Printed out [].
Proof.
  apply (pieces_match [Num [100] 10 (-1) SIGN; Lit (literal " buffers = ");
    Num [100] 10 (-1) SIGN; Lit (literal " bytes buffer space" ++ [10; 13])] [a; b]); [|reflexivity].
  repeat constructor.
Qed.
Lemma free_mem_matches a : exists out, vsprintf free_mem_fmt [VInt a] = Printed out [].
Proof.
  apply (pieces_match [Lit (literal "Free mem: "); 
    Num [100] 10 (-1) SIGN; Lit (literal " bytes" ++ [10; 13])] [a]); [|reflexivity].
  repeat constructor.
Qed.
Lemma fork_failed_matches : exists out, vsprintf fork_failed_fmt [] = Printed out [].
Proof. eexists. reflexivity. Qed.

(** One call whose answer is not looked at, or named. *)
Ltac next := eapply protocol_step; [reflexivity|intros ?; exists 1%nat].
Ltac next_as x := eapply protocol_step; [reflexivity|intros x; exists 1%nat].

(** ** The programs *)

Lemma rc_child_keeps quiet : keeps never (Child 2) quiet rc_child.
Proof. next. next_as r. destruct (r =? 0); cbn [negb]; [next|]; apply keeps_exit; reflexivity. Qed.
Lemma shell_child_keeps quiet : keeps never (Child 7) quiet shell_child.
Proof. do 7 next. next_as r. apply keeps_exit. reflexivity. Qed.
Lemma never_bind {A B} (Q : phase -> nat -> B -> Prop) p quiet (t : itree libE A) k :
  keeps never p quiet t -> keeps Q p quiet (ITree.bind t k).
Proof. apply protocol_bind. intros ? ? ? []. Qed.
Lemma wait_for_keeps shell pid i quiet : keeps (reaped shell pid) (Waiting shell pid) quiet (wait_for pid i).
Proof.
  apply (protocol_iter (fun q _ _ => q = Waiting shell pid)); [|reflexivity]. intros q m j ->.
  eapply protocol_step; [reflexivity|]. intros [p j']. exists 1%nat. cbn. destruct (p =? pid); apply protocol_ret; cbn; [reflexivity|eauto].
Qed.
Lemma idle_keeps quiet : keeps never Idle quiet idle.
Proof.
  apply (protocol_iter (fun q _ _ => q = Idle)); [|reflexivity]. intros q m j ->. next. apply protocol_ret. cbn. eauto.
Qed.
#[local] Opaque vsprintf prints died_fmt fork_failed_fmt buffers_fmt free_mem_fmt.
Lemma init_loop_keeps i quiet : keeps never Free quiet (init_loop i).
Proof.
  apply (protocol_iter (fun q _ _ => q = Free)); [|reflexivity]. intros q m j ->. next_as pid.
  destruct (Z.ltb_spec pid 0), (Z.eqb_spec pid 0), (Z.ltb_spec 0 pid); try lia.
  - apply (keeps_printf _ _ _ _ _ Free); [apply fork_failed_matches|intros out E; cbn; rewrite E; reflexivity|].
    intros _. apply protocol_ret. cbn. eauto.
  - apply never_bind, shell_child_keeps.
  - eapply protocol_bind; [|apply wait_for_keeps]. intros q m' j' ->. cbn.
    apply (keeps_printf _ _ _ _ _ Reported); [apply died_matches|intros out E; cbn; rewrite E; reflexivity|].
    intros _. next. apply protocol_ret. cbn. eauto.
Qed.
Lemma init_keeps n mem start i quiet : keeps never Booting quiet (init n mem start i).
Proof.
  do 4 next. apply (keeps_printf _ _ _ _ _ Booting); [apply buffers_matches|reflexivity|]. intros _.
  apply (keeps_printf _ _ _ _ _ Booting); [apply free_mem_matches|reflexivity|]. intros _.
  next_as pid. destruct (Z.eqb_spec pid 0), (Z.ltb_spec 0 pid); try lia.
  - apply rc_child_keeps.
  - eapply protocol_bind; [|apply wait_for_keeps]. intros q m' j' ->. apply init_loop_keeps.
  - apply (protocol_bind (fun q _ _ => q = Free)); [intros ? ? ? ->; apply init_loop_keeps|]. apply protocol_ret. reflexivity.
Qed.
(** C13: whatever the kernel answers, task 0 and init keep to their protocol
    for ever.  Task 0 forks once and then only pauses.  Init never has two
    children at a time: it forks and waits for that very child before it forks
    again; the child for /etc/rc is only waited for, the end of every shell is
    reported with its status and the message of the source and followed by a
    sync before the next fork; when the fork of a shell fails it says so and
    tries again.
    A child ends: within nine calls it is in /bin/sh or has called _exit, and a
    child whose execve came back does nothing but exit.  Neither process
    returns, loops without a call, or prints with arguments that do not match
    the format. *)
Theorem init_keeps_protocol n mem start i quiet : keeps never Start quiet (main_user n mem start i).
Proof.
  next_as pid. destruct (pid =? 0); [apply never_bind, init_keeps|apply idle_keeps].
Qed.
