(* ===== verification/Build.v ===== *)
(** * tools/build.c: the image of the system

    The program that puts the boot sector, the setup code and the system
    together, run on the machine the kernel is compiled on.  What it sees of
    that machine is the record [host]: files and devices by name, the
    standard output with the room there is for it, the messages of the
    errors.  Characters are bytes 0 to 255. *)

From S2P Require Import Prelude.

Definition MINIX_HEADER : Z := 32.
Definition GCC_HEADER : Z := 1024.
Definition SYS_SIZE : Z := 0x2000.
Definition DEFAULT_MAJOR_ROOT : Z := 3.
Definition DEFAULT_MINOR_ROOT : Z := 6.
Definition SETUP_SECTS : Z := 4.
(** [sizeof buf]. *)
Definition BUF_SIZE : nat := 1024.

(** ** The host *)

(** An open file is what is left to read of it. *)
Record host := Host {
  h_files : string -> option (list Z);
  h_rdev : string -> option Z;
  h_fds : list (list Z);
  h_out : list Z;
  h_room : nat;
  h_err : list string }.
Definition eta_host (h : host) : host := Host (h_files h) (h_rdev h) (h_fds h) (h_out h) (h_room h) (h_err h).
#[export] Instance set_h_fds : Setter h_fds := ltac:(build_setter eta_host h_fds).
#[export] Instance set_h_out : Setter h_out := ltac:(build_setter eta_host h_out).
#[export] Instance set_h_room : Setter h_room := ltac:(build_setter eta_host h_room).
#[export] Instance set_h_err : Setter h_err := ltac:(build_setter eta_host h_err).

(** [open(name, O_RDONLY, 0)]: the descriptors of this program are counted
    from the first one it opens; -1 when there is no such file, or its size is
    no [long] of 32 bits (EOVERFLOW). *)
Definition host_open (name : string) : M host Z :=
  o ← gets (fun h => h_files h name);
  match o with
  | None => mret (-1)
  | Some l =>
      if 2 ^ 31 <=? Z.of_nat (length l) then mret (-1)
      else
        id ← gets (fun h => Z.of_nat (length (h_fds h)));
        modify (set_field h_fds (fun fds => fds ++ [l])) ;; mret id
  end.
(** [read(id, buf, n)]: the bytes that came, at the start of the buffer, and
    their number. *)
Definition host_read (id : Z) (buf : list Z) (n : nat) : M host (list Z * Z) :=
  l ← gets (fun h => default [] (h_fds h !! Z.to_nat id));
  modify (set_field h_fds (fun fds => <[Z.to_nat id := drop n l]> fds)) ;;
  mret (take n l ++ drop (length (take n l)) buf, Z.of_nat (length (take n l))).
(** [write(1, buf, n)] writes what there is room for. *)
Definition host_write (buf : list Z) (n : nat) : M host Z :=
  room ← gets h_room;
  modify (set_field h_out (fun out => out ++ take (n `min` room)%nat buf)) ;;
  modify (set_field h_room (fun r => r - n `min` room)%nat) ;;
  mret (Z.of_nat (n `min` room)).

(** ** The program *)

Definition die {A} (str : string) : M host A :=
  modify (set_field h_err (fun e => e ++ [str])) ;; dead 1.
Definition usage {A} : M host A := die "Usage: build bootsect setup system [rootdev] [> image]".

(** The long number [k] of the buffer, a long having 32 bits. *)
Definition long_at (buf : list Z) (k : nat) : Z :=
  let b i := default 0 (buf !! (4 * k + i)%nat) in
  s32 (b 0%nat + 2 ^ 8 * b 1%nat + 2 ^ 16 * b 2%nat + 2 ^ 24 * b 3%nat).
Definition short_at (buf : list Z) (p : nat) : Z :=
  default 0 (buf !! p) + 2 ^ 8 * default 0 (buf !! S p).

(** The root device of the image: argument 4, the floppy, or the default. *)
Definition root_device (argv : list string) : M host (Z * Z) :=
  match argv with
  | [_; _; _; _; dev] =>
      if String.eqb dev "FLOPPY" then mret (0, 0)
      else
        o ← gets (fun h => h_rdev h dev);
        match o with
        | None => die "Couldn't stat root device."
        | Some d => mret (s8 (Z.shiftr (u32 d) 8), s8 (Z.land d 0xff))
        end
  | _ => mret (DEFAULT_MAJOR_ROOT, DEFAULT_MINOR_ROOT)
  end.
(** The header checks of 'boot' and 'setup', which differ in the messages. *)
Definition minix_header (what : string) (buf : list Z) : M host unit :=
  if negb (long_at buf 0 =? 0x04100301) then die ("Non-Minix header of '" ++ what ++ "'")
  else if negb (long_at buf 1 =? MINIX_HEADER) then die ("Non-Minix header of '" ++ what ++ "'")
  else if negb (long_at buf 3 =? 0) then die ("Illegal data segment in '" ++ what ++ "'")
  else if negb (long_at buf 4 =? 0) then die ("Illegal bss in '" ++ what ++ "'")
  else if negb (long_at buf 5 =? 0) then die ("Non-Minix header of '" ++ what ++ "'")
  else if negb (long_at buf 7 =? 0) then die ("Illegal symbol table in '" ++ what ++ "'")
  else mret tt.
Definition open_or_die (name what : string) : M host Z :=
  id ← host_open name;
  if id <? 0 then die ("Unable to open '" ++ what ++ "'") else mret id.
Definition read_header (id : Z) (buf : list Z) (size : Z) (what : string) : M host (list Z) :=
  '(buf, c) ← host_read id buf (Z.to_nat size);
  if negb (c =? size) then die ("Unable to read header of '" ++ what ++ "'") else mret buf.
Definition write_or_die (buf : list Z) (n : nat) : M host unit :=
  c ← host_write buf n;
  if negb (c =? Z.of_nat n) then die "Write call failed" else mret tt.

(** [for (i=0 ; (c=read(id,buf,sizeof buf))>0 ; i+=c )] write them. *)
Definition copy_step (id : Z) (acc : list Z * Z) : M host (list Z * Z + list Z * Z) :=
  let '(buf, i) := acc in
  '(buf, c) ← host_read id buf BUF_SIZE;
  if c <=? 0 then mret (inr (buf, i))
  else write_or_die buf (Z.to_nat c) ;; mret (inl (buf, s32 (i + c))).
(** Every turn but the last reads a byte at least. *)
Definition copy_file (id : Z) (buf : list Z) : M host (list Z * Z) :=
  n ← gets (fun h => length (default [] (h_fds h !! Z.to_nat id)));
  loop (S n) (copy_step id) (buf, 0).
(** [while (i<SETUP_SECTS*512)] write zeroes. *)
Definition pad_step (buf : list Z) (i : Z) : M host (Z + unit) :=
  if SETUP_SECTS * 512 <=? i then mret (inr tt)
  else
    let c := Z.min (SETUP_SECTS * 512 - i) (Z.of_nat BUF_SIZE) in
    write_or_die buf (Z.to_nat c) ;; mret (inl (s32 (i + c))).

Definition build_boot (name : string) (buf : list Z) (major_root minor_root : Z) : M host (list Z) :=
  id ← open_or_die name "boot";
  buf ← read_header id buf MINIX_HEADER "boot";
  minix_header "boot" buf ;;
  '(buf, i) ← host_read id buf BUF_SIZE;
  if negb (i =? 512) then die "Boot block must be exactly 512 bytes"
  else if negb (short_at buf 510 =? 0xAA55) then die "Boot block hasn't got boot flag (0xAA55)"
  else
    let buf := <[509%nat := u8 major_root]> (<[508%nat := u8 minor_root]> buf) in
    write_or_die buf 512 ;; mret buf.
Definition build_setup (name : string) (buf : list Z) : M host (list Z) :=
  id ← open_or_die name "setup";
  buf ← read_header id buf MINIX_HEADER "setup";
  minix_header "setup" buf ;;
  '(buf, i) ← copy_file id buf;
  if SETUP_SECTS * 512 <? i then die "Setup exceeds 4 sectors - rewrite build/boot/setup"
  else
    let buf := replicate BUF_SIZE 0 in
    loop 4 (pad_step buf) i ;; mret buf.
Definition build_system (name : string) (buf : list Z) : M host unit :=
  id ← open_or_die name "system";
  buf ← read_header id buf GCC_HEADER "system";
  if negb (long_at buf 5 =? 0) then die "Non-GCC header of 'system'"
  else
    '(_, i) ← copy_file id buf;
    if SYS_SIZE * 16 <? i then die "System is too big" else mret tt.

Definition build_main (argv : list string) : M host Z :=
  match argv with
  | _ :: boot :: setup :: system :: rest =>
      if negb (length rest <=? 1)%nat then usage
      else
        '(major_root, minor_root) ← root_device argv;
        if negb (major_root =? 2) && negb (major_root =? 3) && negb (major_root =? 0)
        then die "Bad root device --- major #"
        else
          buf ← build_boot boot (replicate BUF_SIZE 0) major_root minor_root;
          buf ← build_setup setup buf;
          build_system system buf ;;
          mret 0
  | _ => usage
  end.

(** ** What the image is *)

(** The contents of a file with a good header, without the header. *)
Definition minix_ok (f : list Z) : bool :=
  (long_at f 0 =? 0x04100301) && (long_at f 1 =? MINIX_HEADER) && (long_at f 3 =? 0) &&
  (long_at f 4 =? 0) && (long_at f 5 =? 0) && (long_at f 7 =? 0).
Definition boot_code (f : list Z) : option (list Z) :=
  if (32 <=? length f)%nat && minix_ok f && (length f =? 544)%nat && (short_at f 542 =? 0xAA55)
  then Some (drop 32 f) else None.
Definition setup_code (f : list Z) : option (list Z) :=
  if (32 <=? length f)%nat && minix_ok f && (Z.of_nat (length f) <=? MINIX_HEADER + SETUP_SECTS * 512) then Some (drop 32 f) else None.
Definition system_code (f : list Z) : option (list Z) :=
  if (1024 <=? length f)%nat && (long_at f 5 =? 0) && (Z.of_nat (length f) <=? GCC_HEADER + SYS_SIZE * 16)
  then Some (drop 1024 f) else None.
(** Major and minor number of the root device. *)
Definition root_numbers (h : host) (rest : list string) : option (Z * Z) :=
  match rest with
  | [] => Some (3, 6)
  | [dev] =>
      if String.eqb dev "FLOPPY" then Some (0, 0)
      else
        d ← h_rdev h dev;
        let major := s8 (Z.shiftr (u32 d) 8) in
        if (major =? 2) || (major =? 3) || (major =? 0) then Some (major, s8 (Z.land d 0xff)) else None
  | _ => None
  end.
(** The image as one list of bytes: 512 of the boot sector, with the root
    device in bytes 508 and 509; 2048 of setup, padded with zeroes; the
    system. *)
Definition image (root : Z * Z) (boot setup system : list Z) : list Z :=
  take 508 boot ++ [u8 (snd root); u8 (fst root)] ++ drop 510 boot ++
  setup ++ replicate (2048 - length setup) 0 ++ system.
Definition image_of (h : host) (argv : list string) : option (list Z) :=
  match argv with
  | _ :: b :: s :: y :: rest =>
      root ← root_numbers h rest;
      boot ← h_files h b ≫= boot_code;
      setup ← h_files h s ≫= setup_code;
      system ← h_files h y ≫= system_code;
      Some (image root boot setup system)
  | _ => None
  end.

(** [ends E m Q h]: [m] run from [h] returns with [Q], or exits with status 1
    where [E] explains why. *)
Definition ends {A} (E : Prop) (m : M host A) (Q : A -> host -> Prop) (h : host) : Prop :=
  match m h with
  | Ok a h' => Q a h'
  | Dead c _ => c = 1 /\ E
  | _ => False
  end.
Lemma ends_ret {A} E (a : A) (Q : A -> host -> Prop) h : Q a h -> ends E (mret a) Q h.
Proof. exact id. Qed.
Lemma ends_bind {A B} E (m : M host A) (k : A -> M host B) Q h :
  ends E m (fun a h' => ends E (k a) Q h') h -> ends E (m ≫= k) Q h.
Proof. unfold ends, mbind, M_bind. destruct (m h); auto. Qed.
Lemma ends_die {A} (E : Prop) msg (Q : A -> host -> Prop) h : E -> ends E (die msg) Q h.
Proof. intros HE. split; [done|exact HE]. Qed.
Lemma ends_mono {A} (E E' : Prop) (m : M host A) (Q Q' : A -> host -> Prop) h :
  ends E m Q h -> (E -> E') -> (forall a h', Q a h' -> Q' a h') -> ends E' m Q' h.
Proof. unfold ends. destruct (m h); naive_solver. Qed.
(** A test that ends the program: passed, or the reason. *)
Lemma ends_if_die {A} (E : Prop) (b : bool) msg (m : M host A) Q h :
  (b = true -> E) -> (b = false -> ends E m Q h) -> ends E (if b then die msg else m) Q h.
Proof. destruct b; intros HE HQ; [by apply ends_die, HE|by apply HQ]. Qed.

(** What a step leaves: the files and devices, [l] to read on the descriptor
    opened last, [out] more bytes written. *)
Record after (h0 : host) (l : option (list Z)) (out : list Z) (h : host) : Prop := {
  af_files : h_files h = h_files h0;
  af_rdev : h_rdev h = h_rdev h0;
  af_fd : forall l', l = Some l' -> exists fds, h_fds h = fds ++ [l'];
  af_out : h_out h = h_out h0 ++ out;
  af_room : (h_room h + length out = h_room h0)%nat }.
Lemma ends_open E name what Q h0 l out h : after h0 l out h ->
  (h_files h0 name = None -> E) -> (forall f, h_files h0 name = Some f -> 2 ^ 31 <= Z.of_nat (length f) -> E) ->
  (forall f id h', h_files h0 name = Some f -> Z.of_nat (length f) < 2 ^ 31 -> id = Z.of_nat (length (h_fds h')) - 1 -> after h0 (Some f) out h' -> Q id h') ->
  ends E (open_or_die name what) Q h.
Proof.
  intros [A1 A2 A3 A4 A5] HE HB HQ. unfold open_or_die, host_open. apply ends_bind, ends_bind. unfold ends at 1, gets. rewrite A1.
  destruct (h_files h0 name) as [f|] eqn:Ef; [|by apply ends_die, HE].
  destruct (Z.leb_spec (2 ^ 31) (Z.of_nat (length f))) as [Hb|Hb]; [by eapply ends_die, HB|].
  apply ends_bind. unfold ends at 1, gets. apply ends_bind. unfold ends at 1, modify. apply ends_ret.
  rewrite (proj2 (Z.ltb_ge _ _)) by lia. apply ends_ret. eapply HQ; [done|exact Hb| |].
  - cbn. rewrite length_app. cbn. lia.
  - split; try done. intros l' [= <-]. by exists (h_fds h).
Qed.
Lemma ends_read E id buf n Q h0 l out h : after h0 (Some l) out h -> id = Z.of_nat (length (h_fds h)) - 1 ->
  (forall h', after h0 (Some (drop n l)) out h' -> id = Z.of_nat (length (h_fds h')) - 1 ->
    Q (take n l ++ drop (length (take n l)) buf, Z.of_nat (length (take n l))) h') ->
  ends E (host_read id buf n) Q h.
Proof.
  intros [A1 A2 A3 A4 A5] -> HQ. destruct (A3 l eq_refl) as [fds Ef].
  assert (Eid : Z.to_nat (Z.of_nat (length (h_fds h)) - 1) = length fds).
  { rewrite Ef, length_app. cbn. lia. }
  unfold host_read. apply ends_bind. unfold ends at 1, gets. apply ends_bind. unfold ends at 1, modify.
  rewrite Eid, Ef, list_lookup_middle by done. apply ends_ret, HQ.
  - split; try done. intros l' [= <-]. exists fds. cbn. rewrite Ef.
    rewrite insert_app_r_alt by lia. by rewrite Nat.sub_diag.
  - cbn. by rewrite length_insert, Ef.
Qed.
Lemma ends_write (E : Prop) buf n Q h0 l out h : after h0 l out h -> (n <= length buf)%nat ->
  ((h_room h0 < length out + n)%nat -> E) ->
  (forall h', after h0 l (out ++ take n buf) h' -> length (h_fds h') = length (h_fds h) -> Q tt h') ->
  ends E (write_or_die buf n) Q h.
Proof.
  intros [A1 A2 A3 A4 A5] Hn HE HQ. unfold write_or_die, host_write. do 2 apply ends_bind.
  unfold ends at 1, gets. apply ends_bind. unfold ends at 1, modify. apply ends_bind. unfold ends at 1, modify.
  apply ends_ret, ends_if_die.
  - rewrite negb_true_iff, Z.eqb_neq. intros Hr. apply HE. lia.
  - rewrite negb_false_iff, Z.eqb_eq. intros Hr. replace (n `min` h_room h)%nat with n by lia.
    apply ends_ret, HQ; [|done]. split; try done; cbn.
    + by rewrite A4, app_assoc.
    + rewrite length_app, length_take. lia.
Qed.
(** A whole file is copied to the output. *)
Lemma ends_copy (E : Prop) h0 id l : forall fuel buf i out h (Q : list Z * Z -> host -> Prop),
  (length l < fuel)%nat -> after h0 (Some l) out h -> id = Z.of_nat (length (h_fds h)) - 1 -> length buf = BUF_SIZE ->
  0 <= i -> i + Z.of_nat (length l) < 2 ^ 31 -> ((h_room h0 < length out + length l)%nat -> E) ->
  (forall buf' h', length buf' = BUF_SIZE -> after h0 None (out ++ l) h' -> Q (buf', i + Z.of_nat (length l)) h') ->
  ends E (loop fuel (copy_step id) (buf, i)) Q h.
Proof.
  intros fuel. revert l. induction fuel as [|fuel IH]; intros l buf i out h Q Hf Ha Hid Hb Hi Hil HE HQ; [lia|].
  rewrite loop_S. unfold copy_step. apply ends_bind, ends_bind. eapply ends_read; [exact Ha|exact Hid|].
  intros h1 H1 Hid1. cbn beta iota. set (c := length (take BUF_SIZE l)).
  assert (Ec : c = (BUF_SIZE `min` length l)%nat) by apply length_take.
  destruct (Z.leb_spec (Z.of_nat c) 0) as [Hc|Hc].
  - assert (l = []) as -> by (destruct l; [done|rewrite length_cons in Ec; unfold BUF_SIZE in Ec; lia]).
    apply ends_ret, ends_ret. cbn [length] in HQ. rewrite Z.add_0_r in HQ. apply HQ; [by subst c; destruct BUF_SIZE|].
    destruct H1 as [A1 A2 _ A4 A5]. split; try done; by rewrite ?app_nil_r.
  - rewrite Nat2Z.id. assert (Hbuf : length (take BUF_SIZE l ++ drop c buf) = BUF_SIZE).
    { rewrite length_app, length_drop. fold c. lia. }
    apply ends_bind. eapply ends_write; [exact H1|lia| |].
    { intros Hr. apply HE. lia. }
    intros h2 H2 Hfds. apply ends_ret.
    assert (Etake : take c (take BUF_SIZE l ++ drop c buf) = take BUF_SIZE l) by apply take_app_length.
    rewrite Etake in H2. rewrite s32_small by lia. eapply (IH (drop BUF_SIZE l)); [|exact H2|by rewrite Hfds|done|lia|rewrite length_drop; lia| |].
    + rewrite length_drop. lia.
    + intros Hr. apply HE. rewrite length_app, length_drop in Hr. fold c in Hr. lia.
    + intros buf' h3 Hl' H3. rewrite <-app_assoc, take_drop in H3.
      replace (i + Z.of_nat c + Z.of_nat (length (drop BUF_SIZE l))) with (i + Z.of_nat (length l)); [by apply HQ|].
      rewrite length_drop. lia.
Qed.
Lemma ends_copy_file (E : Prop) h0 id l buf out h (Q : list Z * Z -> host -> Prop) :
  after h0 (Some l) out h -> id = Z.of_nat (length (h_fds h)) - 1 -> length buf = BUF_SIZE -> Z.of_nat (length l) < 2 ^ 31 ->
  ((h_room h0 < length out + length l)%nat -> E) ->
  (forall buf' h', length buf' = BUF_SIZE -> after h0 None (out ++ l) h' -> Q (buf', Z.of_nat (length l)) h') ->
  ends E (copy_file id buf) Q h.
Proof.
  intros Ha Hid Hb Hil HE HQ. unfold copy_file. apply ends_bind. unfold ends at 1, gets.
  assert (Efd : default [] (h_fds h !! Z.to_nat id) = l).
  { destruct (af_fd _ _ _ _ Ha _ eq_refl) as [fds Efds]. rewrite Hid, Efds, length_app. cbn [length].
    replace (Z.to_nat (Z.of_nat (length fds + 1) - 1)) with (length fds) by lia. by rewrite list_lookup_middle. }
  rewrite Efd. eapply (ends_copy _ h0); [|exact Ha|exact Hid|exact Hb|done|exact Hil|exact HE|exact HQ]. lia.
Qed.
(** The padding of setup. *)
Lemma ends_pad (E : Prop) h0 l : forall fuel i out h (Q : unit -> host -> Prop),
  after h0 l out h -> (i <= 2048)%nat -> (2048 - i + 1023 < fuel * 1024)%nat ->
  ((h_room h0 < length out + (2048 - i))%nat -> E) ->
  (forall h', after h0 l (out ++ replicate (2048 - i) 0) h' -> Q tt h') ->
  ends E (loop fuel (pad_step (replicate BUF_SIZE 0)) (Z.of_nat i)) Q h.
Proof.
  induction fuel as [|fuel IH]; intros i out h Q Ha Hi Hf HE HQ; [lia|].
  rewrite loop_S. apply ends_bind. unfold pad_step at 1. change (SETUP_SECTS * 512) with 2048. change (Z.of_nat BUF_SIZE) with 1024.
  destruct (Z.leb_spec 2048 (Z.of_nat i)) as [Hc|Hc].
  - apply ends_ret, ends_ret, HQ. replace (2048 - i)%nat with 0%nat by lia. by rewrite app_nil_r.
  - cbv zeta. set (c := Z.to_nat (Z.min (2048 - Z.of_nat i) 1024)).
    assert (Hcv : Z.of_nat c = Z.min (2048 - Z.of_nat i) 1024) by (unfold c; lia). clearbody c. apply ends_bind.
    eapply ends_write; [exact Ha|unfold BUF_SIZE; rewrite length_replicate; lia| |].
    { intros Hr. apply HE. lia. }
    intros h1 H1 _. apply ends_ret. rewrite s32_small by lia. replace (Z.of_nat i + Z.min (2048 - Z.of_nat i) 1024) with (Z.of_nat (i + c)) by lia.
    assert (Et : take c (replicate BUF_SIZE 0) = replicate c 0) by (rewrite take_replicate; f_equal; unfold BUF_SIZE; lia).
    rewrite Et in H1. eapply IH; [exact H1|lia|lia| |].
    + intros Hr. apply HE. rewrite length_app, length_replicate in Hr. lia.
    + intros h2 H2. apply HQ. rewrite <-app_assoc, <-replicate_add in H2.
      by replace (c + (2048 - (i + c)))%nat with (2048 - i)%nat in H2 by lia.
Qed.

(** ** The parts of the image *)

Lemma long_at_head f n rest k : (4 * k + 3 < n)%nat -> (n <= length f)%nat -> long_at (take n f ++ rest) k = long_at f k.
Proof.
  intros Hk Hn. unfold long_at.
  assert (forall i, (i < 4)%nat -> (take n f ++ rest) !! (4 * k + i)%nat = f !! (4 * k + i)%nat) as Hl.
  { intros i Hi. rewrite lookup_app_l by (rewrite length_take; lia). by rewrite lookup_take_lt by lia. }
  by rewrite !Hl by lia.
Qed.
Lemma minix_ok_head f rest : (32 <= length f)%nat -> minix_ok (take 32 f ++ rest) = minix_ok f.
Proof. intros Hf. unfold minix_ok. by rewrite !long_at_head by lia. Qed.
Lemma ends_minix_header (E : Prop) what buf (Q : unit -> host -> Prop) h :
  (minix_ok buf = false -> E) -> (minix_ok buf = true -> Q tt h) -> ends E (minix_header what buf) Q h.
Proof.
  unfold minix_header, minix_ok. intros HE HQ.
  destruct (_ =? _); [|by apply ends_die, HE]. destruct (_ =? _); [|by apply ends_die, HE].
  destruct (_ =? _); [|by apply ends_die, HE]. destruct (_ =? _); [|by apply ends_die, HE].
  destruct (_ =? _); [|by apply ends_die, HE]. destruct (_ =? _); [|by apply ends_die, HE].
  by apply ends_ret, HQ.
Qed.
Lemma ends_read_header (E : Prop) id buf size what Q h0 f out h : after h0 (Some f) out h ->
  id = Z.of_nat (length (h_fds h)) - 1 -> length buf = BUF_SIZE -> (size <= BUF_SIZE)%nat ->
  ((length f < size)%nat -> E) ->
  (forall rest h', (size <= length f)%nat -> after h0 (Some (drop size f)) out h' ->
    id = Z.of_nat (length (h_fds h')) - 1 -> length (take size f ++ rest) = BUF_SIZE -> Q (take size f ++ rest) h') ->
  ends E (read_header id buf (Z.of_nat size) what) Q h.
Proof.
  intros Ha Hid Hb Hs HE HQ. unfold read_header. apply ends_bind. rewrite Nat2Z.id. eapply ends_read; [exact Ha|exact Hid|].
  intros h' H' Hid'. cbn beta iota. pose proof (length_take f size) as Hl. apply ends_if_die.
  - rewrite negb_true_iff, Z.eqb_neq. intros Hne. apply HE. lia.
  - rewrite negb_false_iff, Z.eqb_eq. intros Heq. apply ends_ret, HQ; [lia|done|done|].
    rewrite length_app, length_drop. lia.
Qed.
(** The two bytes of the root device. *)
Lemma patch_two (l rest : list Z) a b n : length l = (n + 4)%nat ->
  take (n + 4) (<[(n + 1)%nat := b]> (<[n := a]> (l ++ rest))) = take n l ++ [a; b] ++ drop (n + 2) l.
Proof.
  intros Hl. assert (exists x y, l = take n l ++ [x; y] ++ drop (n + 2) l) as (x & y & El).
  { destruct (lookup_lt_is_Some_2 l n ltac:(lia)) as [x Hx], (lookup_lt_is_Some_2 l (S n) ltac:(lia)) as [y Hy].
    exists x, y. rewrite <-(take_drop n l) at 1. rewrite (drop_S _ _ _ Hx), (drop_S _ _ _ Hy).
    by replace (n + 2)%nat with (S (S n)) by lia. }
  assert (Ht : length (take n l) = n) by (rewrite length_take; lia).
  rewrite El at 1. rewrite <-!app_assoc, !insert_app_r_alt by lia. rewrite Ht.
  replace (n - n)%nat with 0%nat by lia. replace (n + 1 - n)%nat with 1%nat by lia. cbn [app].
  change (<[1%nat := b]> (<[0%nat := a]> (x :: y :: drop (n + 2) l ++ rest))) with (a :: b :: drop (n + 2) l ++ rest).
  rewrite take_app_ge by lia. rewrite Ht. f_equal. replace (n + 4 - n)%nat with 4%nat by lia.
  cbn [take]. do 2 f_equal. apply take_app_length'. rewrite length_drop. lia.
Qed.
(** No part of an image comes from a file that cannot be opened for its size. *)
Lemma boot_too_big f : 2 ^ 31 <= Z.of_nat (length f) -> boot_code f = None.
Proof. intros Hf. unfold boot_code. rewrite (proj2 (Nat.eqb_neq (length f) 544)) by lia. by rewrite andb_false_r. Qed.
Lemma setup_too_big f : 2 ^ 31 <= Z.of_nat (length f) -> setup_code f = None.
Proof.
  intros Hf. unfold setup_code. change (MINIX_HEADER + SETUP_SECTS * 512) with 2080.
  rewrite (proj2 (Z.leb_gt (Z.of_nat (length f)) 2080)) by lia. by rewrite andb_false_r.
Qed.
Lemma system_too_big f : 2 ^ 31 <= Z.of_nat (length f) -> system_code f = None.
Proof.
  intros Hf. unfold system_code. change (GCC_HEADER + SYS_SIZE * 16) with 132096.
  rewrite (proj2 (Z.leb_gt (Z.of_nat (length f)) 132096)) by lia. by rewrite andb_false_r.
Qed.
Lemma ends_boot (E : Prop) name maj min Q h0 lo out h : after h0 lo out h ->
  (h_files h0 name ≫= boot_code = None -> E) -> ((h_room h0 < length out + 512)%nat -> E) ->
  (forall boot buf' h', h_files h0 name ≫= boot_code = Some boot -> length buf' = BUF_SIZE -> length boot = 512%nat ->
    after h0 None (out ++ take 508 boot ++ [u8 min; u8 maj] ++ drop 510 boot) h' -> Q buf' h') ->
  ends E (build_boot name (replicate BUF_SIZE 0) maj min) Q h.
Proof.
  intros Ha HE HR HQ. unfold build_boot. apply ends_bind. eapply ends_open; [exact Ha| | |].
  { intros Ef. apply HE. by rewrite Ef. }
  { intros f Ef Hbig. apply HE. rewrite Ef. cbn [mbind option_bind]. by apply boot_too_big. }
  intros f id h1 Ef Hfb Hid H1. rewrite Ef in HE, HQ. cbn [mbind option_bind] in HE, HQ. unfold boot_code in HE, HQ.
  apply ends_bind. eapply (ends_read_header _ _ _ 32); [exact H1|exact Hid|by rewrite length_replicate|unfold BUF_SIZE; lia| |].
  { intros Hl. apply HE. by rewrite (proj2 (Nat.leb_gt _ _) Hl). }
  intros rest h2 Hl H2 Hid2 Hbuf. rewrite (proj2 (Nat.leb_le _ _) Hl) in HE, HQ. apply ends_bind, ends_minix_header; rewrite minix_ok_head by done.
  { intros Hm. apply HE. by rewrite Hm. }
  intros Hm. rewrite Hm in HE, HQ. apply ends_bind. eapply ends_read; [exact H2|exact Hid2|].
  intros h3 H3 Hid3. cbn beta iota. set (boot := drop 32 f) in *.
  assert (Hlb : length boot = (length f - 32)%nat) by apply length_drop.
  pose proof (length_take boot BUF_SIZE) as Hlt. apply ends_if_die.
  { rewrite negb_true_iff, Z.eqb_neq. intros Hne. apply HE. rewrite (proj2 (Nat.eqb_neq _ _)); [done|].
    unfold BUF_SIZE in *. lia. }
  rewrite negb_false_iff, Z.eqb_eq. intros Heq. assert (length boot = 512%nat) as H512 by (unfold BUF_SIZE in *; lia).
  rewrite (proj2 (Nat.eqb_eq (length f) _)) in HE, HQ by lia.
  rewrite (firstn_all2 boot) in * by (unfold BUF_SIZE; lia).
  assert (Es : short_at (boot ++ drop (length boot) (take 32 f ++ rest)) 510 = short_at f 542).
  { unfold short_at. rewrite !lookup_app_l by lia. unfold boot. by rewrite !lookup_drop. }
  apply ends_if_die; rewrite Es.
  { rewrite negb_true_iff. intros Hf. apply HE. by rewrite Hf. }
  rewrite negb_false_iff. intros Hf. rewrite Hf in HQ. cbv zeta. apply ends_bind.
  eapply ends_write; [exact H3| | |].
  - rewrite !length_insert, length_app. lia.
  - exact HR.
  - intros h4 H4 _. apply ends_ret. eapply HQ; [done| |done|].
    + rewrite !length_insert, length_app, length_drop. lia.
    + destruct H4 as [A1 A2 _ A4 A5].
      assert (Et : take 512 (<[509%nat:=u8 maj]> (<[508%nat:=u8 min]> (boot ++ drop (length boot) (take 32 f ++ rest)))) =
        take 508 boot ++ [u8 min; u8 maj] ++ drop 510 boot).
      { apply (patch_two boot _ (u8 min) (u8 maj) 508). lia. }
      rewrite Et in A4, A5. by split.
Qed.
Lemma ends_setup (E : Prop) name buf Q h0 lo out h : after h0 lo out h -> length buf = BUF_SIZE ->
  (h_files h0 name ≫= setup_code = None -> E) -> ((h_room h0 < length out + 2048)%nat -> E) ->
  (forall setup buf' h', h_files h0 name ≫= setup_code = Some setup -> length buf' = BUF_SIZE -> (length setup <= 2048)%nat ->
    after h0 None (out ++ setup ++ replicate (2048 - length setup) 0) h' -> Q buf' h') ->
  ends E (build_setup name buf) Q h.
Proof.
  intros Ha Hb HE HR HQ. unfold build_setup. apply ends_bind. eapply ends_open; [exact Ha| | |].
  { intros Ef. apply HE. by rewrite Ef. }
  { intros f Ef Hbig. apply HE. rewrite Ef. cbn [mbind option_bind]. by apply setup_too_big. }
  intros f id h1 Ef Hfb Hid H1. rewrite Ef in HE, HQ. cbn [mbind option_bind] in HE, HQ. unfold setup_code in HE, HQ.
  apply ends_bind. eapply (ends_read_header _ _ _ 32); [exact H1|exact Hid|done|unfold BUF_SIZE; lia| |].
  { intros Hl. apply HE. by rewrite (proj2 (Nat.leb_gt _ _) Hl). }
  intros rest h2 Hl H2 Hid2 Hbuf. rewrite (proj2 (Nat.leb_le _ _) Hl) in HE, HQ. apply ends_bind, ends_minix_header; rewrite minix_ok_head by done.
  { intros Hm. apply HE. by rewrite Hm. }
  intros Hm. rewrite Hm in HE, HQ. cbn [andb] in HE, HQ. set (setup := drop 32 f) in *.
  assert (Hls : length setup = (length f - 32)%nat) by apply length_drop.
  change (MINIX_HEADER + SETUP_SECTS * 512) with 2080 in *.
  apply ends_bind.
  destruct (Z.leb_spec (Z.of_nat (length f)) 2080) as [Hs|Hs].
  - eapply ends_copy_file; [exact H2|exact Hid2|done|lia|intros Hr; apply HR; lia|].
    intros buf' h3 _ H3. cbn beta iota. apply ends_if_die.
    { change (SETUP_SECTS * 512) with 2048. rewrite Z.ltb_lt. lia. }
    intros _. cbv zeta. apply ends_bind. eapply ends_pad; [exact H3|lia|lia| |].
    { rewrite length_app. intros Hr. apply HR. lia. }
    intros h4 H4. apply ends_ret. eapply HQ; [done|by rewrite length_replicate|lia|by rewrite app_assoc].
  - eapply ends_copy_file; [exact H2|exact Hid2|done|lia|intros Hr; by apply HE|].
    intros buf' h3 _ H3. cbn beta iota. apply ends_if_die; [intros _; by apply HE|].
    change (SETUP_SECTS * 512) with 2048. rewrite Z.ltb_ge. lia.
Qed.
Lemma ends_system (E : Prop) name buf Q h0 lo out h : after h0 lo out h -> length buf = BUF_SIZE ->
  (h_files h0 name ≫= system_code = None -> E) ->
  (forall system, h_files h0 name ≫= system_code = Some system -> (h_room h0 < length out + length system)%nat -> E) ->
  (forall system h', h_files h0 name ≫= system_code = Some system -> after h0 None (out ++ system) h' -> Q tt h') ->
  ends E (build_system name buf) Q h.
Proof.
  intros Ha Hb HE HR HQ. unfold build_system. apply ends_bind. eapply ends_open; [exact Ha| | |].
  { intros Ef. apply HE. by rewrite Ef. }
  { intros f Ef Hbig. apply HE. rewrite Ef. cbn [mbind option_bind]. by apply system_too_big. }
  intros f id h1 Ef Hfb Hid H1. rewrite Ef in HE, HQ, HR. cbn [mbind option_bind] in HE, HQ, HR. unfold system_code in HE, HQ, HR.
  apply ends_bind. eapply (ends_read_header _ _ _ 1024); [exact H1|exact Hid|done|unfold BUF_SIZE; lia| |].
  { intros Hl. apply HE. by rewrite (proj2 (Nat.leb_gt _ _) Hl). }
  intros rest h2 Hl H2 Hid2 Hbuf. rewrite (proj2 (Nat.leb_le _ _) Hl) in HE, HQ, HR.
  rewrite long_at_head by lia. apply ends_if_die.
  { rewrite negb_true_iff. intros Hm. apply HE. by rewrite Hm. }
  rewrite negb_false_iff. intros Hm. rewrite Hm in HE, HQ, HR. cbn [andb] in HE, HQ, HR.
  change (GCC_HEADER + SYS_SIZE * 16) with 132096 in *. set (system := drop 1024 f) in *.
  assert (Hls : length system = (length f - 1024)%nat) by apply length_drop.
  apply ends_bind. change (SYS_SIZE * 16) with 131072.
  eapply ends_copy_file; [exact H2|exact Hid2|done|lia| |].
  - intros Hr. destruct (Z.leb_spec (Z.of_nat (length f)) 132096); [by eapply HR|by apply HE].
  - intros buf' h3 _ H3. cbn beta iota. apply ends_if_die.
    + rewrite Z.ltb_lt. intros Hs. apply HE. by rewrite (proj2 (Z.leb_gt _ _)) by lia.
    + rewrite Z.ltb_ge. intros Hs. apply ends_ret. eapply HQ; [|exact H3].
      by rewrite (proj2 (Z.leb_le _ _)) by lia.
Qed.


(** ** The whole program *)

Lemma boot_code_length f boot : boot_code f = Some boot -> length boot = 512%nat.
Proof.
  unfold boot_code. destruct (length f =? 544)%nat eqn:E; [|by rewrite andb_false_r].
  apply Nat.eqb_eq in E. destruct (_ && _); [|done]. intros [= <-]. rewrite length_drop. lia.
Qed.
Lemma setup_code_length f setup : setup_code f = Some setup -> (length setup <= 2048)%nat.
Proof.
  unfold setup_code. change (MINIX_HEADER + SETUP_SECTS * 512) with 2080.
  destruct (Z.leb_spec (Z.of_nat (length f)) 2080); [|by rewrite andb_false_r].
  destruct (_ && _); [|done]. intros [= <-]. rewrite length_drop. lia.
Qed.
Lemma image_length root boot setup system : length boot = 512%nat -> (length setup <= 2048)%nat ->
  length (image root boot setup system) = (512 + 2048 + length system)%nat.
Proof.
  intros Hb Hs. unfold image. rewrite !length_app, length_take, length_drop, length_replicate. cbn [length]. lia.
Qed.
Definition no_image (h : host) (argv : list string) : Prop :=
  match image_of h argv with Some img => (h_room h < length img)%nat | None => True end.

Definition bad_major (major : Z) : bool := negb (major =? 2) && negb (major =? 3) && negb (major =? 0).
Lemma ends_root_device (E : Prop) p b s y rest Q h : (length rest <= 1)%nat ->
  (root_numbers h rest = None -> E) ->
  (forall major minor, root_numbers h rest = (if bad_major major then None else Some (major, minor)) -> Q (major, minor) h) ->
  ends E (root_device (p :: b :: s :: y :: rest)) Q h.
Proof.
  intros Hl HE HQ. destruct rest as [|dev [|? ?]]; [apply ends_ret; by apply HQ| |cbn in Hl; lia].
  cbn [root_device root_numbers] in *. destruct (String.eqb dev "FLOPPY"); [apply ends_ret; by apply HQ|].
  apply ends_bind. unfold ends at 1, gets. destruct (h_rdev h dev) as [d|]; [|by apply ends_die, HE].
  cbn [mbind option_bind] in HQ. cbv zeta in HQ. apply ends_ret, HQ. unfold bad_major.
  by destruct (_ =? 2), (_ =? 3), (_ =? 0).
Qed.

(** C16: the image builder, run to its end, is the function [image_of] of the
    files it is given: it returns 0 exactly when the arguments, the headers,
    the boot flag, the sizes and the root device are good and there is room
    for the output, which then is the boot sector with the root device in it,
    setup padded to 2048 bytes, and the system; otherwise it exits with
    status 1. *)
Theorem build_makes_image argv h :
  match build_main argv h with
  | Ok r h' => r = 0 /\ exists img, image_of h argv = Some img /\ (length img <= h_room h)%nat /\ h_out h' = h_out h ++ img
  | Dead c _ => c = 1 /\ no_image h argv
  | _ => False
  end.
Proof.
  change (ends (no_image h argv) (build_main argv) (fun r h' => r = 0 /\ exists img,
    image_of h argv = Some img /\ (length img <= h_room h)%nat /\ h_out h' = h_out h ++ img) h).
  unfold no_image, image_of. destruct argv as [|p [|b [|s [|y rest]]]]; [by apply ends_die..|].
  cbn [build_main]. apply ends_if_die.
  { rewrite negb_true_iff, Nat.leb_gt. intros Hl. destruct rest as [|? [|? ?]]; cbn in Hl; [lia..|done]. }
  rewrite negb_false_iff, Nat.leb_le. intros Hl. apply ends_bind. apply ends_root_device; [exact Hl|by intros ->|].
  intros major minor Er. fold (bad_major major). destruct (bad_major major); [apply ends_die; by rewrite Er|].
  rewrite Er. cbn [mbind option_bind].
  assert (Hstart : after h None [] h) by (split; [done|done|done|by rewrite app_nil_r|cbn; lia]).
  apply ends_bind. eapply ends_boot; [exact Hstart|by intros ->| |].
  { intros Hr. destruct (h_files h b ≫= boot_code) as [boot|] eqn:Eb; [|done].
    destruct (h_files h s ≫= setup_code) as [setup|] eqn:Es; [|done].
    destruct (h_files h y ≫= system_code) as [system|] eqn:Ey; [|done]. cbn.
    apply bind_Some in Eb as (? & _ & Eb%boot_code_length). apply bind_Some in Es as (? & _ & Es%setup_code_length).
    rewrite image_length by done. cbn in Hr. lia. }
  intros boot buf1 h1 Eb Hb1 Hboot H1. rewrite Eb. apply ends_bind.
  set (sector := take 508 boot ++ [u8 minor; u8 major] ++ drop 510 boot) in *. cbn [app] in H1.
  assert (Hsec : length sector = 512%nat).
  { unfold sector. rewrite !length_app, length_take, length_drop. cbn [length]. lia. }
  eapply ends_setup; [exact H1|exact Hb1|by intros ->| |].
  { intros Hr. destruct (h_files h s ≫= setup_code) as [setup|] eqn:Es; [|done].
    destruct (h_files h y ≫= system_code) as [system|] eqn:Ey; [|done]. cbn.
    apply bind_Some in Es as (? & _ & Es%setup_code_length). rewrite image_length by done. lia. }
  intros setup buf2 h2 Es Hb2 Hsetup H2. rewrite Es. apply ends_bind.
  assert (Hpad : length (setup ++ replicate (2048 - length setup) 0) = 2048%nat).
  { rewrite length_app, length_replicate. lia. }
  eapply ends_system; [exact H2|exact Hb2|by intros ->| |].
  - intros system Ey Hr. rewrite Ey. cbn. rewrite image_length by done. rewrite length_app in Hr. lia.
  - intros system h3 Ey H3. apply ends_ret. split; [done|]. rewrite Ey. eexists. split; [reflexivity|].
    destruct H3 as [_ _ _ A4 A5]. rewrite !length_app, length_replicate in A5. split.
    + rewrite image_length by done. lia.
    + rewrite A4. unfold image, sector. cbn [fst snd]. by rewrite <-!app_assoc.
Qed.

(** A small system, and one without the boot flag. *)
Definition minix_head : list Z := [0x01; 0x03; 0x10; 0x04; 32; 0; 0; 0] ++ replicate 24 0.
Definition demo_files (flag : Z) (name : string) : option (list Z) :=
  if String.eqb name "boot" then Some (minix_head ++ replicate 510 0x90 ++ [0x55; flag])
  else if String.eqb name "setup" then Some (minix_head ++ [1; 2; 3])
  else if String.eqb name "system" then Some (replicate 1024 0 ++ [7; 8; 9])
  else None.
Definition demo_host (flag : Z) : host := Host (demo_files flag) (fun _ => Some 0x301) [] [] 4096 [].
Example build_demo :
  match build_main ["build"; "boot"; "setup"; "system"; "/dev/hda1"] (demo_host 0xAA) with
  | Ok r h' => r = 0 /\ length (h_out h') = 2563%nat /\ take 4 (drop 508 (h_out h')) = [1; 3; 0x55; 0xAA]
  | _ => False
  end.
Proof. vm_compute. done. Qed.
Example build_demo_no_flag :
  match build_main ["build"; "boot"; "setup"; "system"] (demo_host 0) with
  | Dead 1 h' => h_err h' = ["Boot block hasn't got boot flag (0xAA55)"]
  | _ => False
  end.
Proof. vm_compute. done. Qed.
